(* ===== verification/_CoqProject ===== *)
-Q . S2P
Prelude.v
FirstFit.v
FirstFitProofs.v
PMem.v
KHeap.v
Paging.v
PagingProofs.v
CString.v
CStringProofs.v
Fmt.v
FmtProofs.v
Time.v
Crc.v
CrcProofs.v
BTree.v
RamDir.v
RamBlocks.v
RamBlocksProofs.v
RamFS.v
RamFSProofs.v
Devices.v
Vfs.v
VfsProofs.v
FsSys.v
FsSysProofs.v
Tasks.v
Cpu.v
CpuProofs.v
Context.v
ContextProofs.v
Screen.v
ScreenProofs.v
Kbd.v
KbdProofs.v
Tty.v
TtyProofs.v
ScreenGrid.v
Stdio.v
StdioProofs.v
Syscall.v
SyscallProofs.v
Net.v
NetProofs.v
NetStack.v
NetStackProofs.v
Dhcp.v
DhcpProofs.v
Virtio.v
VirtioProofs.v
Irq.v
Pci.v
Elf.v
Acpi.v
Boot.v
BootProofs.v
Run.v
RunProofs.v
Memory.v
MemoryProofs.v
UserHeap.v
UserHeapProofs.v
I8254x.v
I8254xProofs.v
Kshell.v
KshellProofs.v
Sh.v
ShProofs.v
UserSys.v
UserSysProofs.v
Listing.v
Serial.v
StdFmt.v
Print.v
PrintProofs.v
