(* ===== verification/Prelude.v ===== *)
(** * COSEC: a verification development

    COSEC is a small i386 kernel with its own C library.  This library models
    the parts of it that compute: memory management, the file systems, file
    descriptors and processes, the scheduler and the processor it switches,
    terminals, system calls, interrupts, the network stack with its cards, the
    start of the kernel and of its first program, and the C library they are
    written with, and proves what these parts promise.

    ** The program and the files

    Memory.  [pmem_alloc] (src/mem/pmem.c) hands out page frames by moving an
    edge upwards; [kheap_setup] (src/mem/kheap.c) takes frames for the kernel
    heap, which the first-fit allocator (src/mem/ff_alloc.c) manages as a ring
    of chunk headers; src/mem/paging.c builds page directories and tables from
    frames, and src/core/process.c fills address spaces through them.
    - FirstFit.v ([FF], operations) and FirstFitProofs.v ([FFP]);
    - PMem.v ([PM]) page frames; KHeap.v ([KH]) the class [Heap] that clients of
      the kernel heap see, its instance by the allocator, and the set-up;
    - Paging.v ([PG]) and PagingProofs.v ([PGP]): page tables, stack growth,
      [sys_brk], loading ELF segments;
    - Memory.v ([MEM]) and MemoryProofs.v ([MEMP]): [memory_setup] from the
      loader's memory map (src/mem/pmem.c, paging.c), the page directory the
      kernel runs on, releasing a directory, and /dev/mem;
    - UserHeap.v ([UFF], [UH]) and UserHeapProofs.v ([UHP]): the allocator of user
      programs (lib/c/src/alloc_firstfit.c, stdlib.c) over the break of its
      process.

    C library (lib/c/src).
    - CString.v ([CS]) and CStringProofs.v ([CSP]): string.h and ctype.h;
    - Fmt.v ([FMT]) and FmtProofs.v ([FMTP]): numbers to and from text and
      [vsnprintf];
    - Time.v ([TM]): the calendar of stdtime.c and the clock of src/dev/rtc.c;
    - Crc.v ([CRC]) and CrcProofs.v ([CRCP]): the checksums of crc32.c;
    - Stdio.v ([IO]) and StdioProofs.v ([IOP]): buffered streams of stdio.c over
      any implementation of the calls below them (classes [FileOps] for the
      calls, [FileLaws] for what they promise);
    - StdFmt.v ([SF]): the error texts of [strerror] (stdlib.c) and the generic
      formatter of stdfmt.c;
    - UserSys.v ([US]) and UserSysProofs.v ([USP]): the calls of user programs
      (sys/syscall.h, os_cosec.c, unistd.c) over the system call interrupt, the
      instance of [FileOps] and [FileLaws] that streams have on this kernel.

    File systems.  [sys_*] calls (src/fs/fs_sys.c) work on descriptors of
    processes (src/core/process.c) and call the virtual file system
    (src/fs/vfs.c), which dispatches on mount points and device numbers
    (src/fs/devices.c) to a file system; ramfs (src/fs/ramfs.c) keeps its
    inodes in a tree of numbers, directories in hash tables and contents in
    blocks, all allocated from the kernel heap.
    - BTree.v ([BT]) inode numbers, RamDir.v ([RD]) directories,
      RamBlocks.v ([RB]) and RamBlocksProofs.v ([RBP]) contents,
      RamFS.v ([RF]) and RamFSProofs.v ([RFP]) inodes, paths and links;
    - Devices.v ([DV]) device tables and block transfers, Vfs.v ([VFS]) and
      VfsProofs.v ([VFSP]), FsSys.v ([SYS]) and FsSysProofs.v ([SYSP]);
    - Listing.v ([LS]): [print_ls] (src/fs/vfs.c), the listing of a directory.

    Tasks and the processor.  Tasks.v ([TK]): the ring of tasks and the
    round-robin scheduler (src/core/tasks.c).
    - Cpu.v ([CPU]) and CpuProofs.v ([CPUP]): descriptors, gates and the tables
      they are in (src/arch/i386.c);
    - Context.v ([CX]) and ContextProofs.v ([CXP]): what the timer interrupt saves
      and restores when it switches tasks;
    - Boot.v ([BOOT]) and BootProofs.v ([BOOTP]): the loader's information block
      and modules (src/arch/mboot.c), the boot directory made of them;
    - Run.v ([RUN]) and RunProofs.v ([RUNP]): [run_init] (src/core/process.c), from
      the image of the first program to its entry in user mode.

    Terminals.  A key press interrupts src/dev/kbd.c, which passes its code to
    src/dev/tty.c; the terminal edits lines, hands them to readers, and writes
    to a console of src/dev/screen.c.
    - Screen.v ([SC]), ScreenProofs.v ([SCP]) and ScreenGrid.v ([SCG]): the
      virtual consoles, and the same as a grid of characters;
    - Kbd.v ([KB]) and KbdProofs.v ([KBP]): the keyboard, with the class
      [KbdClient] for who gets the keys;
    - Tty.v ([TTY]) and TtyProofs.v ([TTYP]): queues, line editing, reading and
      writing;
    - Print.v ([PR]) and PrintProofs.v ([PRP]): terminals as devices of the
      virtual file system, and [printf] of the C library on them;
    - Serial.v ([SER]): the serial line (src/dev/serial.c), the log over it
      (src/core/log.c) and the probe of the disks (src/dev/ide.c);
    - Kshell.v ([KS]) and KshellProofs.v ([KSP]): the kernel shell
      (src/core/kshell.c) over terminals, files, heap and network;
    - Sh.v ([SHL]) and ShProofs.v ([SHLP]): the shell of user programs
      (lib/c/test/sh.c), its jobs and the macros of sys/wait.h.

    System calls and interrupts.
    - Syscall.v ([SC0]) and SyscallProofs.v ([SC0P]): the table of
      src/core/syscall.c over the models of the calls;
    - Irq.v ([IQ]): interrupt handlers, masks and the timer (src/dev/intrs.c,
      src/dev/timer.c), with the class [IrqClient] for the other drivers;
    - Elf.v ([ELF]): sections and symbols of the kernel (src/core/elf.c);
      Acpi.v ([AC]): powering off (src/dev/acpi.c).

    Network (src/core/net.c).  Net.v ([NT]) and NetProofs.v ([NTP]): byte order,
    checksums, headers, neighbour tables; NetStack.v ([NS]) and
    NetStackProofs.v ([NSP]): interfaces, ARP, ICMP, transmitting, and the queue
    of received frames.  A driver is an instance of the class [NetDrv].
    Virtio.v ([VN]) and VirtioProofs.v ([VNP]): the virtio card
    (src/dev/net_virtio.c), its device as the other party of the rings, and the
    class [RxClient] for the stack that takes its frames.  Pci.v ([PCI]): the
    scan that finds the card (src/dev/pci.c), with the class [PciDrivers].
    I8254x.v ([NIC]) and I8254xProofs.v ([NICP]): the i8254x card
    (src/dev/net_i8254x.c).  Dhcp.v ([DH]) and DhcpProofs.v ([DHP]): the DHCP
    client and [net_ping] of src/core/net.c.

    This file holds what all of them share: machine integers, memories, tactics
    and lemmas.

    ** Conventions

    A machine integer is a [Z] in its range, and every operation that can wrap
    is followed by [u8], [u16], [u32], [s8] or [s32].  A pointer is an address
    with 0 for NULL.  Word memories and byte memories are finite maps from
    addresses; kernel objects reached by pointers are maps from addresses to
    records, so that aliasing is what it is in C.  An operation returns [None]
    (or [Fault]) where the code would touch memory that is not there, and the
    C result, error numbers included, otherwise.

    Loops that are not structural take fuel.  The theorems never assume that
    the fuel is enough: either the definition passes a bound that the loop
    cannot exceed (the number of chunks of the heap, of tasks, of queued
    buffers; the length of a path; the pages of a segment), which the proof
    establishes, or the theorem gives a bound on the fuel from which the result
    is there (the length of a string or of a format).  A loop that waits takes
    the list of interrupts that arrive, each with whether the loop gets to its
    test before the next, and the theorems say after which of them it returns; the loops over the rings of the card run at most 65536 turns,
    the difference of two 16-bit counters.

    ** What the theorems show

    - Allocators: live areas stay inside the heap, aligned and disjoint over any
      sequence of calls, and keep what their owners wrote in them; the first
      fitting chunk is taken; free neighbours are merged; everything released
      gives back one free chunk.  The same holds for user programs, whose heap
      is below the break and mapped.
    - Address spaces: each mapping operation changes one translation; no two
      user pages of any address spaces share a frame; segments, break and stack
      hold the bytes they should; after [memory_setup] the kernel's window maps
      the memory the loader reported, the heap is mapped and behind the kernel
      and the modules, and the frames left are behind the heap.
    - Processor: the tables hold the gates and segments the kernel needs;
      switching tasks refines a machine in which each task has registers of its
      own; files are made at boot of exactly the loader's modules and the
      members of its archives, with their contents; the first program starts at its entry in user mode with its
      segments, stack, heap and terminal.
    - C library: [memmove], [strncmp], [strncpy], [strtok_r] against lists of
      bytes; [vsnprintf] returns and stays in its buffer on every format with
      widths up to 32, and produces the text on the common conversions, with
      numerals defined apart from the code; printed numbers scan back.
    - ramfs: directories refine maps; writes and reads are those of an array of
      bytes, within the 12 direct blocks; path look-up is a walk of the maps, for
      names that no other name of their hash extends; over any history of making
      nodes (as long as the first level of the inode tree has a slot), links,
      removals and writes, links are counted right and no entry dangles.
    - VFS and system calls: nodes made are found, bytes written through a
      descriptor are read back, descriptors are handed out as they should.
    - Scheduler: every ready task runs within one round, if no task is added
      twice.
    - C library on top of files: a stream is the file it is opened on, however
      it is read, written and sought in, for lines that fit the caller's buffer
      and characters other than NUL; [mktime] counts the seconds of the
      calendar; the table-driven checksum is the polynomial one.
    - Terminals: a typed line is read as it was edited, before the queue of 512
      bytes comes to its end; written text appears in
      the grid of its console, and so does what a program prints with [printf]; a
      typed line reaches the caller of [fgets]; consoles do not disturb each other and the one
      shown is on the screen; the keyboard gives the first character typed; a
      command typed at the kernel shell makes the call it names, on the paths
      and addresses typed; the jobs of the user's shell are its children that
      have not ended.
    - System calls: the numbers of the table run their calls and others fail;
      bytes written, sought back to and read through the interrupt come back to
      the program's memory.  A program that opens a file as a stream reads the
      bytes of the file, through stream, interrupt, descriptor and file system,
      and an open that fails leaves the kernel's error number.
    - Listing a directory ends, with each of its entries once; the text of the log
      is sent on the serial line; every error number has a text.
    - Interrupts and devices: the waiting calls return when they should; the scan
      of the busses initialises each device once; a masked interrupt changes one
      bit; over every interleaving with the device, each receive buffer of the
      card has one owner and each buffer sent is released once.
    - Network: the receive queue refines a first-in-first-out queue with search
      by port; echo requests are answered with packets that verify; ARP replies
      are learned; the DHCP client sends well-formed messages and takes what the
      server answers; the receive ring of the i8254x is emptied in bounded time.

    Lemmas at the end of the proof files exhibit inputs on which the code does
    not do what it means to; the sections are called _Defects the model shows_.

    ** Not modelled

    Assembly other than the entry and exit of interrupts and the switch; the
    exception handlers that only log or stop; the shells over interpreters that
    are not part of the repository (src/core/luashell.c, secdshell.c) and their
    non-local exits (src/core/libc.c); the tests (test.c), and what the commands
    of src/core/kshell.c and the drivers print or log; floating point
    (stdmath.c), the system interface for Linux (os_linux.c) and the start-up
    code of the C library; the host tools under lib/ext2fs and lib/fatfs. *)

From Stdlib Require Export ZArith Lia Bool.
From stdpp Require Export base numbers list gmap.

#[global] Open Scope Z_scope.

(** * Machine integers

    The kernel is built for i386 (ILP32): [char] is a signed byte, [int],
    [long] and pointers have 32 bits.  A value of an unsigned type is a [Z]
    in [0, 2^w); conversions wrap explicitly. *)

Definition u8 (x : Z) : Z := x mod 2 ^ 8.
Definition u16 (x : Z) : Z := x mod 2 ^ 16.
Definition u32 (x : Z) : Z := x mod 2 ^ 32.
Definition u64 (x : Z) : Z := x mod 2 ^ 64.

(** Conversion to the signed type of width [w] (two's complement). *)
Definition swrap (w x : Z) : Z := (x + 2 ^ (w - 1)) mod 2 ^ w - 2 ^ (w - 1).
Definition s8 (x : Z) : Z := swrap 8 x.
Definition s32 (x : Z) : Z := swrap 32 x.

Definition in_u8 (x : Z) : Prop := 0 <= x < 256.
Definition in_u16 (x : Z) : Prop := 0 <= x < 65536.
Definition in_u32 (x : Z) : Prop := 0 <= x < 4294967296.
Definition in_s32 (x : Z) : Prop := -2147483648 <= x < 2147483648.

#[global] Instance in_u8_dec x : Decision (in_u8 x).
Proof. unfold in_u8; apply _. Defined.
#[global] Instance in_u16_dec x : Decision (in_u16 x).
Proof. unfold in_u16; apply _. Defined.
#[global] Instance in_u32_dec x : Decision (in_u32 x).
Proof. unfold in_u32; apply _. Defined.
#[global] Instance in_s32_dec x : Decision (in_s32 x).
Proof. unfold in_s32; apply _. Defined.

Definition INT_MAX : Z := 2147483647.
Definition UINT_MAX : Z := 4294967295.
Definition SIZE_MAX : Z := UINT_MAX.
Definition UCHAR_MAX : Z := 255.
Definition PAGE_BYTES : Z := 4096.
Definition KERN_OFF : Z := 3221225472.

(** * Tactics *)

(** [lia] after turning [/] and [mod] by constants into equations. *)
Ltac zlia := Z.div_mod_to_equations; lia.

(** Turn the boolean comparisons of the code into propositions. *)
Ltac b2p :=
  repeat match goal with
  | H : (_ && _) = true |- _ => apply andb_true_iff in H; destruct H
  | H : (_ || _) = false |- _ => apply orb_false_iff in H; destruct H
  | H : (_ && _) = false |- _ => apply andb_false_iff in H; destruct H
  | H : (_ || _) = true |- _ => apply orb_true_iff in H; destruct H
  | H : negb _ = true |- _ => apply negb_true_iff in H
  | H : negb _ = false |- _ => apply negb_false_iff in H
  | H : (_ <? _) = true |- _ => apply Z.ltb_lt in H
  | H : (_ <? _) = false |- _ => apply Z.ltb_ge in H
  | H : (_ <=? _) = true |- _ => apply Z.leb_le in H
  | H : (_ <=? _) = false |- _ => apply Z.leb_gt in H
  | H : (_ =? _) = true |- _ => apply Z.eqb_eq in H
  | H : (_ =? _) = false |- _ => apply Z.eqb_neq in H
  end.

(** Case analysis on the next [if] of the goal. *)
Ltac case_if :=
  match goal with
  | |- context [if ?b then _ else _] => destruct b eqn:?
  end; b2p.

(** * Wrap-around arithmetic *)

Create HintDb cosec.
Create Rewrite HintDb cosec.

Lemma u32_range x : in_u32 (u32 x).
Proof. unfold in_u32, u32. apply Z.mod_pos_bound. reflexivity. Qed.

Lemma u16_range x : in_u16 (u16 x).
Proof. unfold in_u16, u16. apply Z.mod_pos_bound. reflexivity. Qed.

Lemma u8_range x : in_u8 (u8 x).
Proof. unfold in_u8, u8. apply Z.mod_pos_bound. reflexivity. Qed.

Lemma u32_small x : in_u32 x -> u32 x = x.
Proof. intros H. unfold u32. apply Z.mod_small. exact H. Qed.

Lemma u16_small x : in_u16 x -> u16 x = x.
Proof. intros H. unfold u16. apply Z.mod_small. exact H. Qed.

Lemma u8_small x : in_u8 x -> u8 x = x.
Proof. intros H. unfold u8. apply Z.mod_small. exact H. Qed.

Lemma u32_u32 x : u32 (u32 x) = u32 x.
Proof. apply u32_small, u32_range. Qed.

Lemma s32_small x : in_s32 x -> s32 x = x.
Proof.
  intros H. unfold s32, swrap. change (2 ^ (32 - 1)) with 2147483648.
  unfold in_s32 in H. rewrite Z.mod_small; change (2 ^ 32) with 4294967296; lia.
Qed.

Lemma s32_range x : in_s32 (s32 x).
Proof.
  unfold in_s32, s32, swrap. change (2 ^ (32 - 1)) with 2147483648.
  pose proof (Z.mod_pos_bound (x + 2147483648) (2 ^ 32)).
  change (2 ^ 32) with 4294967296 in *. lia.
Qed.

Lemma s8_range x : -128 <= s8 x < 128.
Proof.
  unfold s8, swrap. change (2 ^ (8 - 1)) with 128.
  pose proof (Z.mod_pos_bound (x + 128) (2 ^ 8)). change (2 ^ 8) with 256 in *. lia.
Qed.

#[export] Hint Resolve u32_range u16_range u8_range s32_range : cosec.
#[export] Hint Rewrite u32_u32 : cosec.

(** * Bit masks *)

Lemma land_ones_mod x n : 0 <= n -> Z.land x (2 ^ n - 1) = x mod 2 ^ n.
Proof.
  intros Hn. rewrite <- Z.land_ones by exact Hn. f_equal.
  rewrite Z.ones_equiv. lia.
Qed.

Lemma land_15 x : Z.land x 15 = x mod 16.
Proof. exact (land_ones_mod x 4 ltac:(lia)). Qed.

Lemma land_ff x : Z.land x 255 = x mod 256.
Proof. exact (land_ones_mod x 8 ltac:(lia)). Qed.

Lemma land_fff x : Z.land x 4095 = x mod 4096.
Proof. exact (land_ones_mod x 12 ltac:(lia)). Qed.

Lemma land_ffff x : Z.land x 65535 = x mod 65536.
Proof. exact (land_ones_mod x 16 ltac:(lia)). Qed.

Lemma testbit_u32_high x i : in_u32 x -> 32 <= i -> Z.testbit x i = false.
Proof.
  intros H Hi. destruct (Z.eq_dec x 0) as [->|Hx]; [apply Z.testbit_0_l|].
  apply Z.bits_above_log2; [unfold in_u32 in H; lia|].
  apply Z.log2_lt_pow2; [unfold in_u32 in H; lia|].
  unfold in_u32 in H. change 4294967296 with (2 ^ 32) in H.
  apply Z.lt_le_trans with (2 ^ 32); [lia|]. apply Z.pow_le_mono_r; lia.
Qed.

Lemma land_1 x : Z.land x 1 = x mod 2.
Proof. exact (land_ones_mod x 1 ltac:(lia)). Qed.

Lemma land_3ff x : Z.land x 1023 = x mod 1024.
Proof. exact (land_ones_mod x 10 ltac:(lia)). Qed.

(** Disjoint bit fields add up. *)
Lemma lor_shiftl_add x y n : 0 <= n -> 0 <= x < 2 ^ n -> Z.lor x (Z.shiftl y n) = x + y * 2 ^ n.
Proof.
  intros Hn Hx. rewrite <- Z.shiftl_mul_pow2 by done.
  assert (Z.land x (Z.shiftl y n) = 0) as Hl.
  { apply Z.bits_inj'; intros i Hi. rewrite Z.land_spec, Z.bits_0.
    destruct (Z.lt_ge_cases i n).
    - by rewrite Z.shiftl_spec_low, andb_false_r.
    - rewrite (Z.testbit_eqb x) by done. rewrite (Z.div_small x).
      + by rewrite Z.mod_0_l.
      + split; [lia|]. apply Z.lt_le_trans with (2 ^ n); [lia|]. by apply Z.pow_le_mono_r. }
  rewrite <- Z.lxor_lor, <- Z.add_nocarry_lxor; done.
Qed.

(** * Word memory

    The part of the kernel that walks raw memory (heap headers, page tables)
    dereferences word-aligned addresses only: its memory maps word
    addresses to 32-bit words; a word never written reads as 0. *)

Abbreviation wmem := (gmap Z Z).

Definition ld (m : wmem) (a : Z) : Z := default 0 (m !! a).
Definition st (m : wmem) (a v : Z) : wmem := <[a := v]> m.

Lemma ld_st_eq m a v : ld (st m a v) a = v.
Proof. unfold ld, st. by rewrite lookup_insert_eq. Qed.

Lemma ld_st_ne m a b v : a <> b -> ld (st m a v) b = ld m b.
Proof. intros H. unfold ld, st. by rewrite lookup_insert_ne. Qed.

(** Reduce reads of a memory built by a sequence of writes. *)
Ltac mem_red :=
  repeat first
    [ rewrite ld_st_eq
    | rewrite ld_st_ne by lia ].

(** * Byte memory, with little-endian words *)

Abbreviation bmem := (gmap Z Z).

Definition ldb (m : bmem) (a : Z) : Z := default 0 (m !! a).
Definition stb (m : bmem) (a v : Z) : bmem := <[a := v]> m.

Definition ld32 (m : bmem) (a : Z) : Z :=
  ldb m a + 256 * ldb m (a + 1) + 65536 * ldb m (a + 2) + 16777216 * ldb m (a + 3).
Definition st32 (m : bmem) (a v : Z) : bmem :=
  stb (stb (stb (stb m a (u8 v)) (a + 1) (u8 (v / 256)))
           (a + 2) (u8 (v / 65536))) (a + 3) (u8 (v / 16777216)).

(** [memset] and the forward copy of [memcpy]. *)
Fixpoint bfill (m : bmem) (a : Z) (n : nat) (v : Z) : bmem :=
  match n with
  | O => m
  | S k => bfill (stb m a v) (a + 1) k v
  end.

Fixpoint bcopy (m : bmem) (dst src : Z) (n : nat) : bmem :=
  match n with
  | O => m
  | S k => bcopy (stb m dst (ldb m src)) (dst + 1) (src + 1) k
  end.

Lemma ldb_stb m a v b : ldb (stb m a v) b = if a =? b then v else ldb m b.
Proof.
  unfold ldb, stb. destruct (Z.eqb_spec a b) as [->|Hne].
  - by rewrite lookup_insert_eq.
  - by rewrite lookup_insert_ne.
Qed.

Lemma ldb_st32_ne m a v b : b < a \/ a + 4 <= b -> ldb (st32 m a v) b = ldb m b.
Proof. intros H. unfold st32. rewrite !ldb_stb. repeat (case_if; [lia|]). done. Qed.

Lemma ld32_st32_eq m a v : in_u32 v -> ld32 (st32 m a v) a = v.
Proof.
  intros Hv. unfold ld32, st32. rewrite !ldb_stb.
  repeat (match goal with |- context [?x =? ?y] => destruct (Z.eqb_spec x y); [try lia|try lia] end).
  unfold in_u32 in Hv. unfold u8. change (2 ^ 8) with 256. zlia.
Qed.

Lemma ld32_st32_ne m a v b : b + 4 <= a \/ a + 4 <= b -> ld32 (st32 m a v) b = ld32 m b.
Proof. intros H. unfold ld32. by rewrite !ldb_st32_ne by lia. Qed.

Lemma ldb_bfill m a n v b :
  ldb (bfill m a n v) b = if (a <=? b) && (b <? a + Z.of_nat n) then v else ldb m b.
Proof.
  revert m a. induction n as [|n IH]; intros m a; simpl bfill.
  - case_if; (lia || done).
  - rewrite IH, ldb_stb.
    destruct (Z.eqb_spec a b); repeat (case_if; try lia); done.
Qed.

Lemma ld32_bfill_0 m a n b :
  a <= b -> b + 4 <= a + Z.of_nat n -> ld32 (bfill m a n 0) b = 0.
Proof.
  intros H1 H2. unfold ld32. rewrite !ldb_bfill.
  repeat (rewrite (proj2 (Z.leb_le _ _)) by lia). repeat (rewrite (proj2 (Z.ltb_lt _ _)) by lia). done.
Qed.

Lemma ldb_bfill_out m a n v b :
  b < a \/ a + Z.of_nat n <= b -> ldb (bfill m a n v) b = ldb m b.
Proof. intros H. rewrite ldb_bfill. case_if; (lia || done). Qed.

Lemma ld32_bfill_out m a n v b :
  b + 4 <= a \/ a + Z.of_nat n <= b -> ld32 (bfill m a n v) b = ld32 m b.
Proof. intros H. unfold ld32. by rewrite !ldb_bfill_out by lia. Qed.

Lemma ldb_bcopy m d s n b :
  s + Z.of_nat n <= d \/ d + Z.of_nat n <= s ->
  ldb (bcopy m d s n) b =
  if (d <=? b) && (b <? d + Z.of_nat n) then ldb m (s + (b - d)) else ldb m b.
Proof.
  revert m d s. induction n as [|n IH]; intros m d s H; simpl bcopy.
  - case_if; (lia || done).
  - rewrite IH, !ldb_stb by lia.
    destruct (Z.eqb_spec d b) as [->|Hne].
    + repeat (case_if; try lia); first [done | f_equal; lia].
    + destruct (Z.eqb_spec d (s + 1 + (b - (d + 1)))).
      * repeat (case_if; try lia); done.
      * repeat (case_if; try lia); first [done | f_equal; lia].
Qed.

#[global] Opaque bfill bcopy.

(** * Lists *)

Lemma find_split {A} (P : A -> bool) l x : List.find P l = Some x ->
  exists l1 l2, l = l1 ++ x :: l2 /\ P x = true /\ Forall (fun y => P y = false) l1.
Proof.
  induction l as [|y l IH]; simpl; [done|]. destruct (P y) eqn:E.
  - intros [= ->]. by exists [], l.
  - intros (l1 & l2 & -> & Hx & Hall)%IH. exists (y :: l1), l2. split; [done|]. split; [done|]. by constructor.
Qed.
