(* ===== verification/FirstFit.v ===== *)
(** * The first-fit allocator (src/mem/ff_alloc.c)

    Module [FF]: the memory, the chunk headers and the operations, one
    definition per C function.  The proofs are in [FirstFitProofs]. *)

From S2P Require Import Prelude.

Module FF.

(** ** Memory: every chunk pointer the allocator builds is a multiple of 4,
    so the word memory of [Prelude] is enough. *)

Abbreviation mem := wmem.

Definition ALIGN : Z := 16.
Definition USED : Z := 2147483648.
Definition CHUNK_SIZE : Z := 12.
Definition ALLOC_SIZE : Z := 20.

Definition aligned (addr : Z) : Z :=
  if Z.land addr (ALIGN - 1) =? 0 then addr
  else u32 (ALIGN + Z.land addr (u32 (Z.lnot (ALIGN - 1)))).

(** ** Chunk headers: [next] at +0, [prev] at +4, [checksum] at +8 *)

Definition get_next (m : mem) (this : Z) : Z := ld m this.
Definition get_prev (m : mem) (this : Z) : Z := ld m (this + 4).
Definition get_checksum (m : mem) (this : Z) : Z := ld m (this + 8).

Definition set_used (m : mem) (this : Z) : mem :=
  st m (this + 8) (Z.lor (u32 (get_next m this + this)) USED).

Definition set_free (m : mem) (this : Z) : mem :=
  st m (this + 8) (Z.land (u32 (get_next m this + this)) (u32 (Z.lnot USED))).

Definition is_used (m : mem) (this : Z) : bool :=
  negb (Z.land USED (get_checksum m this) =? 0).

Definition check_sum (m : mem) (this : Z) : bool :=
  Z.lor USED (u32 (this + get_next m this)) =? Z.lor USED (get_checksum m this).

Definition set_prev (m : mem) (this prev : Z) : mem := st m (this + 4) prev.

Definition set_next (m : mem) (this next : Z) : mem :=
  let m := st m this next in
  if is_used m this then set_used m this else set_free m this.

Definition get_size (m : mem) (this : Z) : Z :=
  u32 (get_next m this - this - CHUNK_SIZE).

Definition chunk_data (this : Z) : Z := u32 (this + CHUNK_SIZE).

Definition erase (m : mem) (this : Z) : mem := st m (this + 8) 0.

Definition set_chunk (m : mem) (this next prev : Z) (used : bool) : mem :=
  let m := st m this next in
  let m := st m (this + 4) prev in
  if used then set_used m this else set_free m this.

(** ** The allocator *)

Record alloc_t := mk_alloc {
  startmem : Z;
  endmem : Z;
  current : Z;
  n_malloc : Z;
  n_free : Z;
  hmem : mem
}.

Definition with_mem (h : alloc_t) (m : mem) : alloc_t :=
  mk_alloc (startmem h) (endmem h) (current h) (n_malloc h) (n_free h) m.
Definition with_current (h : alloc_t) (c : Z) : alloc_t :=
  mk_alloc (startmem h) (endmem h) c (n_malloc h) (n_free h) (hmem h).

(** [firstfit_new]: [None] is the NULL result. *)
Definition firstfit_new (m : mem) (start size : Z) : option alloc_t :=
  if size <? u32 (aligned (ALLOC_SIZE + CHUNK_SIZE) + CHUNK_SIZE + 1) then None
  else
    let endm := u32 (size + start) in
    let initial := u32 (aligned (u32 (start + ALLOC_SIZE + CHUNK_SIZE)) - CHUNK_SIZE) in
    let heap_end := u32 (ALIGN * (endm / ALIGN) - CHUNK_SIZE) in
    let m := set_chunk m initial heap_end heap_end false in
    let m := set_chunk m heap_end initial initial true in
    Some (mk_alloc start endm initial 0 0 m).

(** The body of the loop of [firstfit_malloc] once a chunk fits. *)
Definition malloc_take (h : alloc_t) (chunk size : Z) : alloc_t * Z :=
  let m := hmem h in
  let new_chunk_offset := u32 (aligned (u32 (size + CHUNK_SIZE)) - CHUNK_SIZE) in
  let next_chunk := get_next m chunk in
  let new_chunk := u32 (chunk_data chunk + new_chunk_offset) in
  let m :=
    if u32 (chunk_data new_chunk + 4) <=? next_chunk then
      let m := set_chunk m new_chunk next_chunk chunk false in
      let m := set_chunk m next_chunk (get_next m next_chunk) new_chunk true in
      set_chunk m chunk new_chunk (get_prev m chunk) true
    else m in
  let m := set_used m chunk in
  (mk_alloc (startmem h) (endmem h) (get_next m chunk)
            (u32 (n_malloc h + 1)) (n_free h) m,
   chunk_data chunk).

(** The do-while loop; [None] means the fuel ran out. *)
Fixpoint malloc_loop (fuel : nat) (h : alloc_t) (chunk size : Z) : option (alloc_t * Z) :=
  match fuel with
  | O => None
  | S fuel =>
      let m := hmem h in
      if negb (is_used m chunk) && (s32 size <=? s32 (get_size m chunk)) then
        Some (malloc_take h chunk size)
      else
        let chunk := get_next m chunk in
        if negb (check_sum m chunk) then Some (h, 0)
        else if chunk =? current h then Some (h, 0)
        else malloc_loop fuel h chunk size
  end.

(** Chunks are at least [CHUNK_SIZE] bytes apart, so the ring has no more
    chunks than this. *)
Definition max_chunks (h : alloc_t) : nat :=
  S (Z.to_nat ((endmem h - startmem h) / CHUNK_SIZE)).

Definition firstfit_malloc (h : alloc_t) (size : Z) : option (alloc_t * Z) :=
  if (size =? 0) || (INT_MAX <? size) then Some (h, 0)
  else malloc_loop (max_chunks h) h (current h) size.

Definition firstfit_free (h : alloc_t) (p : Z) : alloc_t :=
  if p =? 0 then h
  else
    let chunk := u32 (p - CHUNK_SIZE) in
    let m := hmem h in
    if negb (check_sum m chunk) then h
    else
      let m := set_free m chunk in
      let next_chunk := get_next m chunk in
      let '(m, next_chunk) :=
        if negb (is_used m next_chunk) then
          let nextnext_chunk := get_next m next_chunk in
          let m := set_next m chunk nextnext_chunk in
          let m := set_prev m nextnext_chunk chunk in
          (erase m next_chunk, nextnext_chunk)
        else (m, next_chunk) in
      let prev_chunk := get_prev m chunk in
      let '(m, chunk) :=
        if negb (is_used m prev_chunk) then
          let m := set_next m prev_chunk next_chunk in
          let m := set_prev m next_chunk prev_chunk in
          (erase m chunk, prev_chunk)
        else (m, chunk) in
      mk_alloc (startmem h) (endmem h) chunk (n_malloc h) (u32 (n_free h + 1)) m.

(** [memcpy] on the word memory: [n] words, low addresses first. *)
Fixpoint copy_words (n : nat) (m : mem) (dst src : Z) : mem :=
  match n with
  | O => m
  | S n => copy_words n (st m dst (ld m src)) (u32 (dst + 4)) (u32 (src + 4))
  end.

Definition firstfit_realloc (h : alloc_t) (p size : Z) : option (alloc_t * Z) :=
  if p =? 0 then firstfit_malloc h size
  else
    let m := hmem h in
    let aligned_size := aligned size in
    let this_chunk := u32 (p - CHUNK_SIZE) in
    let this_size := get_size m this_chunk in
    let next_chunk := get_next m this_chunk in
    if aligned_size <? this_size then
      if this_size <=? u32 (aligned_size + CHUNK_SIZE) then Some (h, p)
      else
        let new_chunk := u32 (this_chunk + CHUNK_SIZE + aligned_size) in
        let '(cur, next_chunk) :=
          if negb (is_used m next_chunk) then
            (if current h =? next_chunk then new_chunk else current h,
             get_next m next_chunk)
          else (current h, next_chunk) in
        let m := set_next m this_chunk new_chunk in
        let m := set_prev m next_chunk new_chunk in
        let m := set_chunk m new_chunk next_chunk this_chunk false in
        Some (with_mem (with_current h cur) m, chunk_data this_chunk)
    else if negb (is_used m next_chunk)
            && (u32 (aligned_size - this_size) <=? get_size m next_chunk) then
      let cur := if current h =? next_chunk then get_next m next_chunk else current h in
      let next_chunk := get_next m next_chunk in
      let new_chunk := u32 (this_chunk + CHUNK_SIZE + aligned_size) in
      let m := set_next m this_chunk new_chunk in
      let m := set_prev m next_chunk new_chunk in
      let m := set_chunk m new_chunk next_chunk this_chunk false in
      Some (with_mem (with_current h cur) m, chunk_data this_chunk)
    else
      match firstfit_malloc h size with
      | None => None
      | Some (h, new_p) =>
          let m := copy_words (Z.to_nat (this_size / 4)) (hmem h) new_p p in
          Some (firstfit_free (with_mem h m) p, new_p)
      end.

(** [firstfit_corruption]: the first chunk with a bad checksum, 0 if none. *)
Fixpoint corruption_loop (fuel : nat) (h : alloc_t) (c : Z) : option Z :=
  match fuel with
  | O => None
  | S fuel =>
      if negb (check_sum (hmem h) c) then Some c
      else
        let c := get_next (hmem h) c in
        if c =? current h then Some 0 else corruption_loop fuel h c
  end.

Definition firstfit_corruption (h : alloc_t) : option Z :=
  corruption_loop (max_chunks h) h (current h).

(** The figures [heap_info] computes (its printing is left out): free,
    used and header bytes and the largest free chunk; [None] for the early
    return on a bad checksum. *)
Record heap_stats := mk_stats {
  free_space : Z; used_space : Z; meta_space : Z; largest_free : Z
}.

Fixpoint info_loop (fuel : nat) (h : alloc_t) (cur : Z) (s : heap_stats) : option (option heap_stats) :=
  match fuel with
  | O => None
  | S fuel =>
      let m := hmem h in
      let cur_size := get_size m cur in
      let s :=
        if negb (is_used m cur) then
          mk_stats (u32 (free_space s + cur_size)) (used_space s)
                   (u32 (meta_space s + CHUNK_SIZE))
                   (if largest_free s <? cur_size then cur_size else largest_free s)
        else
          mk_stats (free_space s)
                   (if get_prev m cur <? get_next m cur
                    then u32 (used_space s + cur_size) else used_space s)
                   (u32 (meta_space s + CHUNK_SIZE)) (largest_free s) in
      let cur := get_next m cur in
      if negb (check_sum m cur) then Some None
      else if cur =? current h then Some (Some s)
      else info_loop fuel h cur s
  end.

Definition heap_info (h : alloc_t) : option (option heap_stats) :=
  info_loop (max_chunks h) h (current h) (mk_stats 0 0 0 0).

End FF.
