(* ===== verification/FirstFitProofs.v ===== *)
(** * Correctness of the first-fit allocator

    The ring of chunk headers is related to a list of blocks in address
    order; the invariant [heap_wf] is established by [firstfit_new] and kept
    by every operation. *)

From Stdlib Require Import Btauto.
From S2P Require Import Prelude FirstFit.

Module FFP.
Import FF.

(** ** Words and headers *)

#[local] Arguments set_chunk : simpl never.
#[local] Arguments set_next : simpl never.

Abbreviation block := (Z * bool)%type.

Definition cks (a n : Z) (u : bool) : Z :=
  if u then Z.lor (u32 (n + a)) USED else Z.land (u32 (n + a)) (u32 (Z.lnot USED)).

(** The header of a chunk at [a]: predecessor [p], successor [n]. *)
Definition node (m : mem) (p a n : Z) (u : bool) : Prop :=
  ld m a = n /\ ld m (a + 4) = p /\ ld m (a + 8) = cks a n u.

Definition agree (m m' : mem) (a : Z) : Prop :=
  ld m' a = ld m a /\ ld m' (a + 4) = ld m (a + 4) /\ ld m' (a + 8) = ld m (a + 8).

Lemma node_agree m m' p a n u : agree m m' a -> node m p a n u -> node m' p a n u.
Proof. intros (H1 & H2 & H3) (N1 & N2 & N3). unfold node. by rewrite H1, H2, H3. Qed.

Lemma agree_trans m1 m2 m3 a : agree m1 m2 a -> agree m2 m3 a -> agree m1 m3 a.
Proof. unfold agree. intros (?&?&?) (?&?&?). repeat split; congruence. Qed.

(** Equality of bit expressions by truth tables. *)
Ltac bits_btauto :=
  apply Z.bits_inj'; intros ? ?;
  repeat first [rewrite Z.lor_spec | rewrite Z.land_spec]; btauto.

Lemma used_mask_set x : Z.land USED (Z.lor x USED) = USED.
Proof. bits_btauto. Qed.

Lemma used_mask_clear x : Z.land USED (Z.land x (u32 (Z.lnot USED))) = 0.
Proof.
  rewrite (Z.land_comm x), Z.land_assoc.
  change (Z.land USED (u32 (Z.lnot USED))) with 0. apply Z.land_0_l.
Qed.

Lemma cks_check a n u : Z.lor USED (u32 (a + n)) = Z.lor USED (cks a n u).
Proof.
  unfold cks. rewrite (Z.add_comm a n). pose proof (u32_range (n + a)) as Hr.
  destruct u; [bits_btauto|].
  apply Z.bits_inj'; intros i Hi.
  rewrite !Z.lor_spec, Z.land_spec.
  change USED with (2 ^ 31). change (u32 (Z.lnot (2 ^ 31))) with (Z.ones 31).
  rewrite Z.pow2_bits_eqb, Z.testbit_ones_nonneg by lia.
  destruct (Z.eqb_spec 31 i), (Z.ltb_spec i 31); simpl; rewrite ?andb_true_r; try done.
  rewrite testbit_u32_high by (done || lia). done.
Qed.

Lemma node_is_used m p a n u : node m p a n u -> is_used m a = u.
Proof.
  intros (_ & _ & H). unfold is_used, get_checksum. rewrite H. unfold cks.
  destruct u; [by rewrite used_mask_set|by rewrite used_mask_clear].
Qed.

Lemma node_check_sum m p a n u : node m p a n u -> check_sum m a = true.
Proof.
  intros (H1 & _ & H). unfold check_sum, get_next, get_checksum.
  rewrite H, H1, (cks_check a n u). apply Z.eqb_refl.
Qed.

(** Addresses of two headers that do not overlap. *)
Definition far (a x : Z) : Prop := a + 12 <= x \/ x + 12 <= a.

Lemma set_chunk_node m a n p u : node (set_chunk m a n p u) p a n u.
Proof.
  unfold node, set_chunk, set_used, set_free, get_next, cks.
  destruct u; mem_red; done.
Qed.

Lemma set_chunk_agree m x n p u a : far a x -> agree m (set_chunk m x n p u) a.
Proof.
  unfold far, agree, set_chunk, set_used, set_free. intros H.
  destruct u; repeat split; mem_red; done.
Qed.

Lemma set_used_node m p a n u : node m p a n u -> node (set_used m a) p a n true.
Proof.
  intros (H1 & H2 & H3). unfold node, set_used, get_next, cks. mem_red.
  by rewrite H1, H2.
Qed.

Lemma set_used_agree m x a : far a x -> agree m (set_used m x) a.
Proof. unfold far, agree, set_used. intros H. repeat split; by mem_red. Qed.

Lemma set_free_node m p a n u : node m p a n u -> node (set_free m a) p a n false.
Proof.
  intros (H1 & H2 & H3). unfold node, set_free, get_next, cks. mem_red.
  by rewrite H1, H2.
Qed.

Lemma set_free_agree m x a : far a x -> agree m (set_free m x) a.
Proof. unfold far, agree, set_free. intros H. repeat split; by mem_red. Qed.

Lemma set_prev_node m p a n u q : node m p a n u -> node (set_prev m a q) q a n u.
Proof. intros (H1 & H2 & H3). unfold node, set_prev. mem_red. by rewrite H1, H3. Qed.

Lemma set_prev_agree m x q a : far a x -> agree m (set_prev m x q) a.
Proof. unfold far, agree, set_prev. intros H. repeat split; by mem_red. Qed.

Lemma set_next_node m p a n u n' : node m p a n u -> node (set_next m a n') p a n' u.
Proof.
  intros H. pose proof (node_is_used _ _ _ _ _ H) as Hu. destruct H as (H1 & H2 & H3).
  unfold set_next.
  assert (is_used (st m a n') a = u) as ->.
  { rewrite <- Hu. unfold is_used, get_checksum. by mem_red. }
  unfold node, set_used, set_free, get_next, cks.
  destruct u; mem_red; by rewrite ?H2.
Qed.

Lemma set_next_agree m x n a : far a x -> agree m (set_next m x n) a.
Proof.
  unfold far, agree, set_next, set_used, set_free. intros H.
  destruct (is_used _ _); repeat split; by mem_red.
Qed.

Lemma erase_agree m x a : far a x -> agree m (erase m x) a.
Proof. unfold far, agree, erase. intros H. repeat split; by mem_red. Qed.

Lemma agree_refl m a : agree m m a.
Proof. done. Qed.

(** [agree] through a sequence of header writes, the side conditions
    [far] by arithmetic. *)
Ltac agree_tac :=
  repeat match goal with
  | |- agree _ (set_chunk _ _ _ _ _) _ => eapply agree_trans; [|apply set_chunk_agree; unfold far; lia]
  | |- agree _ (set_used _ _) _ => eapply agree_trans; [|apply set_used_agree; unfold far; lia]
  | |- agree _ (set_free _ _) _ => eapply agree_trans; [|apply set_free_agree; unfold far; lia]
  | |- agree _ (set_prev _ _ _) _ => eapply agree_trans; [|apply set_prev_agree; unfold far; lia]
  | |- agree _ (set_next _ _ _) _ => eapply agree_trans; [|apply set_next_agree; unfold far; lia]
  | |- agree _ (erase _ _) _ => eapply agree_trans; [|apply erase_agree; unfold far; lia]
  end; apply agree_refl.

(** ** Segments of the ring *)

Definition hd_addr (l : list block) (d : Z) : Z :=
  match l with [] => d | b :: _ => b.1 end.
Definition last_addr (l : list block) (d : Z) : Z := foldl (fun _ b => b.1) d l.

(** The headers of [l], entered from [p] and left to [n]. *)
Fixpoint seg (m : mem) (p : Z) (l : list block) (n : Z) : Prop :=
  match l with
  | [] => True
  | b :: l' => node m p b.1 (hd_addr l' n) b.2 /\ seg m b.1 l' n
  end.

Definition ring (m : mem) (bs : list block) : Prop :=
  seg m (last_addr bs 0) bs (hd_addr bs 0).

Lemma hd_addr_app l1 l2 d : hd_addr (l1 ++ l2) d = hd_addr l1 (hd_addr l2 d).
Proof. by destruct l1. Qed.

Lemma last_addr_app l1 l2 d : last_addr (l1 ++ l2) d = last_addr l2 (last_addr l1 d).
Proof. apply foldl_app. Qed.

Lemma last_addr_indep l d d' : l <> [] -> last_addr l d = last_addr l d'.
Proof. by destruct l. Qed.

Lemma seg_app m p l1 l2 n :
  seg m p (l1 ++ l2) n <-> seg m p l1 (hd_addr l2 n) /\ seg m (last_addr l1 p) l2 n.
Proof.
  revert p. induction l1 as [|b l1 IH]; intros p; simpl; [tauto|].
  rewrite IH, hd_addr_app. tauto.
Qed.

Lemma seg_agree m m' p l n :
  Forall (fun b => agree m m' b.1) l -> seg m p l n -> seg m' p l n.
Proof.
  revert p. induction l as [|b l IH]; intros p; simpl; [done|].
  intros [Hb Hl]%Forall_cons [Hn Hs]. split; [by eapply node_agree|by apply IH].
Qed.

Lemma ring_rotate m l1 l2 : ring m (l1 ++ l2) -> ring m (l2 ++ l1).
Proof.
  unfold ring. destruct l1 as [|b1 l1]; [by rewrite app_nil_r|].
  destruct l2 as [|b2 l2]; [by rewrite app_nil_r|].
  rewrite !seg_app, !last_addr_app. simpl. tauto.
Qed.

(** ** Spacing *)

Fixpoint spaced (lo : Z) (l : list block) (hi : Z) : Prop :=
  match l with
  | [] => lo <= hi
  | b :: l' => lo <= b.1 /\ spaced (b.1 + 12) l' hi
  end.

Lemma spaced_le lo l hi : spaced lo l hi -> lo <= hi.
Proof.
  revert lo. induction l as [|b l IH]; intros lo; simpl; [done|].
  intros [H1 H2%IH]. lia.
Qed.

Lemma spaced_weaken lo lo' l hi hi' : lo' <= lo -> hi <= hi' -> spaced lo l hi -> spaced lo' l hi'.
Proof.
  revert lo lo'. induction l as [|b l IH]; intros lo lo' H1 H2; simpl; [lia|].
  intros [H3 H4]. split; [lia|]. eapply IH; [|exact H2|exact H4]. lia.
Qed.

Lemma spaced_app lo l1 b l2 hi :
  spaced lo (l1 ++ b :: l2) hi <-> spaced lo l1 b.1 /\ spaced (b.1 + 12) l2 hi.
Proof.
  revert lo. induction l1 as [|c l1 IH]; intros lo; simpl; [tauto|].
  rewrite IH. tauto.
Qed.

Lemma spaced_bounds lo l hi : spaced lo l hi -> Forall (fun b => lo <= b.1 /\ b.1 + 12 <= hi) l.
Proof.
  revert lo. induction l as [|b l IH]; intros lo; simpl; [done|].
  intros [H1 H2]. pose proof (spaced_le _ _ _ H2). constructor; [lia|].
  eapply Forall_impl; [by apply IH|]. simpl. lia.
Qed.

(** Flags of neighbouring blocks: no two free blocks are adjacent. *)
Fixpoint coal (u : bool) (l : list block) : Prop :=
  match l with
  | [] => True
  | b :: l' => (u || b.2 = true) /\ coal b.2 l'
  end.

Definition last_used (l : list block) (u : bool) : bool := foldl (fun _ b => b.2) u l.

Lemma coal_app u l1 l2 : coal u (l1 ++ l2) <-> coal u l1 /\ coal (last_used l1 u) l2.
Proof.
  revert u. induction l1 as [|b l1 IH]; intros u; simpl; [tauto|].
  rewrite IH. unfold last_used. simpl. tauto.
Qed.

Lemma coal_true u l : coal u l -> coal true l.
Proof. destruct l; simpl; tauto. Qed.

(** ** Surgery on the ring *)

Lemma ring_mid m l1 x l2 :
  ring m (l1 ++ x :: l2) <->
  seg m (last_addr l2 x.1) l1 x.1 /\
  node m (last_addr l1 (last_addr l2 x.1)) x.1 (hd_addr l2 (hd_addr l1 x.1)) x.2 /\
  seg m x.1 l2 (hd_addr l1 x.1).
Proof.
  unfold ring. rewrite seg_app, last_addr_app, hd_addr_app. simpl. tauto.
Qed.

(** The part of the ring around a pair of neighbours. *)
Lemma ring_mid2 m l1 x y l2 :
  ring m (l1 ++ x :: y :: l2) <->
  seg m (last_addr l2 y.1) l1 x.1 /\
  node m (last_addr l1 (last_addr l2 y.1)) x.1 y.1 x.2 /\
  node m x.1 y.1 (hd_addr l2 (hd_addr l1 x.1)) y.2 /\
  seg m y.1 l2 (hd_addr l1 x.1).
Proof. rewrite ring_mid. simpl. tauto. Qed.

Lemma ring_mid3 m l1 x y z l2 :
  ring m (l1 ++ x :: y :: z :: l2) <->
  seg m (last_addr l2 z.1) l1 x.1 /\
  node m (last_addr l1 (last_addr l2 z.1)) x.1 y.1 x.2 /\
  node m x.1 y.1 z.1 y.2 /\
  node m y.1 z.1 (hd_addr l2 (hd_addr l1 x.1)) z.2 /\
  seg m z.1 l2 (hd_addr l1 x.1).
Proof. rewrite ring_mid2. simpl. tauto. Qed.

(** Blocks before [x] and after [y] lie below and above them. *)
Lemma spaced_outer lo l1 x mid y l2 hi :
  spaced lo (l1 ++ x :: mid ++ y :: l2) hi ->
  Forall (fun b => b.1 + 12 <= x.1) l1 /\ x.1 + 12 <= y.1 /\
  Forall (fun b => y.1 + 12 <= b.1) l2.
Proof.
  intros [H1 [H2 H3]%spaced_app]%spaced_app. split; [|split].
  - eapply Forall_impl; [by apply spaced_bounds|]. simpl. lia.
  - by apply spaced_le in H2.
  - eapply Forall_impl; [by apply spaced_bounds|]. simpl. lia.
Qed.

Lemma ring_set_free m l1 a u l2 lo hi :
  spaced lo (l1 ++ (a, u) :: l2) hi ->
  ring m (l1 ++ (a, u) :: l2) -> ring (set_free m a) (l1 ++ (a, false) :: l2).
Proof.
  intros [H1%spaced_bounds H2%spaced_bounds]%spaced_app. rewrite !ring_mid. simpl in *.
  intros (S1 & N & S2). split; [|split].
  - eapply seg_agree, S1. eapply Forall_impl; [exact H1|]. simpl. intros b ?. agree_tac.
  - by eapply set_free_node.
  - eapply seg_agree, S2. eapply Forall_impl; [exact H2|]. simpl. intros b ?. agree_tac.
Qed.

Lemma ring_set_used m l1 a u l2 lo hi :
  spaced lo (l1 ++ (a, u) :: l2) hi ->
  ring m (l1 ++ (a, u) :: l2) -> ring (set_used m a) (l1 ++ (a, true) :: l2).
Proof.
  intros [H1%spaced_bounds H2%spaced_bounds]%spaced_app. rewrite !ring_mid. simpl in *.
  intros (S1 & N & S2). split; [|split].
  - eapply seg_agree, S1. eapply Forall_impl; [exact H1|]. simpl. intros b ?. agree_tac.
  - by eapply set_used_node.
  - eapply seg_agree, S2. eapply Forall_impl; [exact H2|]. simpl. intros b ?. agree_tac.
Qed.

(** Merging [y] into its predecessor [x]. *)
Definition merge_mem (m : mem) (x y d : Z) : mem :=
  erase (set_prev (set_next m x d) d x) y.

Lemma ring_merge m l1 x ux y uy d ud l2 lo hi :
  spaced lo (l1 ++ (x, ux) :: (y, uy) :: (d, ud) :: l2) hi ->
  ring m (l1 ++ (x, ux) :: (y, uy) :: (d, ud) :: l2) ->
  ring (merge_mem m x y d) (l1 ++ (x, ux) :: (d, ud) :: l2).
Proof.
  intros Hsp. pose proof Hsp as [_ (Hxy & Hyd & _)]%spaced_app.
  apply (spaced_outer _ l1 (x, ux) [(y, uy)]) in Hsp as (H1 & _ & H2).
  rewrite ring_mid3, ring_mid2. simpl in *. unfold merge_mem.
  intros (S1 & Nx & _ & Nd & S2). split; [|split; [|split]].
  - eapply seg_agree, S1. eapply Forall_impl; [exact H1|]. simpl. intros b ?. agree_tac.
  - apply (node_agree (set_next m x d)); [agree_tac|by eapply set_next_node].
  - apply (node_agree (set_prev (set_next m x d) d x)); [agree_tac|].
    eapply set_prev_node, node_agree, Nd. agree_tac.
  - eapply seg_agree, S2. eapply Forall_impl; [exact H2|]. simpl. intros b ?. agree_tac.
Qed.

(** Cutting a free chunk [w] out of the space after the used chunk [a]. *)
Definition cut_mem (m : mem) (a w d : Z) : mem :=
  set_chunk (set_prev (set_next m a w) d w) w d a false.

Lemma ring_cut m l1 a ua mid w d ud l2 lo hi :
  spaced lo (l1 ++ (a, ua) :: mid ++ (d, ud) :: l2) hi ->
  a + 12 <= w -> w + 12 <= d ->
  ring m (l1 ++ (a, ua) :: mid ++ (d, ud) :: l2) ->
  ring (cut_mem m a w d) (l1 ++ (a, ua) :: (w, false) :: (d, ud) :: l2).
Proof.
  intros Hsp Haw Hwd. apply spaced_outer in Hsp as (H1 & _ & H2).
  rewrite ring_mid, ring_mid3. rewrite seg_app, last_addr_app, hd_addr_app. simpl in *. unfold cut_mem.
  intros (S1 & Na & _ & Nd & S2). split; [|split; [|split; [|split]]].
  - eapply seg_agree, S1. eapply Forall_impl; [exact H1|]. simpl. intros b ?. agree_tac.
  - apply (node_agree (set_next m a w)); [agree_tac|by eapply set_next_node].
  - apply set_chunk_node.
  - apply (node_agree (set_prev (set_next m a w) d w)); [agree_tac|].
    eapply set_prev_node, node_agree, Nd. agree_tac.
  - eapply seg_agree, S2. eapply Forall_impl; [exact H2|]. simpl. intros b ?. agree_tac.
Qed.

(** The three [set_chunk] calls of [firstfit_malloc]. *)
Definition split_mem (m : mem) (a w d : Z) : mem :=
  let m := set_chunk m w d a false in
  let m := set_chunk m d (get_next m d) w true in
  set_chunk m a w (get_prev m a) true.

Lemma ring_split m l1 a ua w d l2 lo hi :
  spaced lo (l1 ++ (a, ua) :: (d, true) :: l2) hi ->
  a + 12 <= w -> w + 12 <= d ->
  ring m (l1 ++ (a, ua) :: (d, true) :: l2) ->
  ring (split_mem m a w d) (l1 ++ (a, true) :: (w, false) :: (d, true) :: l2).
Proof.
  intros Hsp Haw Hwd. apply (spaced_outer _ l1 (a, ua) []) in Hsp as (H1 & _ & H2).
  rewrite ring_mid2, ring_mid3. simpl in *. unfold split_mem.
  intros (S1 & Na & Nd & S2).
  set (m1 := set_chunk m w d a false).
  assert (agree m m1 d) as A1 by (unfold m1; agree_tac).
  assert (get_next m1 d = get_next m d) as E1 by apply A1.
  set (m2 := set_chunk m1 d (get_next m1 d) w true).
  assert (agree m m2 a) as A2 by (unfold m2, m1; agree_tac).
  assert (get_prev m2 a = get_prev m a) as E2 by apply A2.
  rewrite E2. split; [|split; [|split; [|split]]].
  - eapply seg_agree, S1. eapply Forall_impl; [exact H1|]. simpl. intros b ?. unfold m2, m1. agree_tac.
  - destruct Na as (_ & Np & _). unfold get_prev. rewrite Np. apply set_chunk_node.
  - apply (node_agree m1); [unfold m2; agree_tac|apply set_chunk_node].
  - apply (node_agree m2); [agree_tac|]. unfold m2. rewrite E1.
    destruct Nd as (Nn & _ & _). unfold get_next. rewrite Nn. apply set_chunk_node.
  - eapply seg_agree, S2. eapply Forall_impl; [exact H2|]. simpl. intros b ?. unfold m2, m1. agree_tac.
Qed.

(** ** The invariant *)

(** The address of the first chunk, fixed by [firstfit_new]. *)
Definition first_chunk (h : alloc_t) : Z :=
  u32 (aligned (u32 (startmem h + ALLOC_SIZE + CHUNK_SIZE)) - CHUNK_SIZE).

(** [body] lists the chunks in address order, [e] is the sentinel chunk
    [heap_end] that [firstfit_new] marks used for good. *)
Record heap_wf (h : alloc_t) (body : list block) (e : Z) : Prop := {
  wf_bounds : 0 <= startmem h /\ endmem h + 32 <= 2 ^ 32 /\ endmem h - startmem h <= INT_MAX;
  wf_first : hd_addr body 0 = first_chunk h;
  wf_spaced : spaced (startmem h + ALLOC_SIZE) (body ++ [(e, true)]) (endmem h);
  wf_word : Forall (fun b => b.1 mod 4 = 0) (body ++ [(e, true)]);
  wf_coal : coal true body;
  wf_ring : ring (hmem h) (body ++ [(e, true)]);
  wf_current : current h ∈ (body ++ [(e, true)]).*1
}.

(** Every chunk address is [ALIGN * n - CHUNK_SIZE]. *)
Definition heap_aligned (body : list block) : Prop :=
  Forall (fun b => b.1 mod ALIGN = ALIGN - CHUNK_SIZE) body.

(** The allocated areas: data pointer to data size. *)
Fixpoint alloc_map (l : list block) (e : Z) : gmap Z Z :=
  match l with
  | [] => ∅
  | b :: l' =>
      if b.2 then <[b.1 + CHUNK_SIZE := hd_addr l' e - b.1 - CHUNK_SIZE]> (alloc_map l' e)
      else alloc_map l' e
  end.

Lemma land_align_mask x : in_u32 x -> Z.land x (u32 (Z.lnot (ALIGN - 1))) = x - x mod 16.
Proof.
  intros Hx.
  assert (Z.land x (u32 (Z.lnot (ALIGN - 1))) = Z.ldiff x (Z.ones 4)) as ->.
  { apply Z.bits_inj'; intros i Hi. rewrite Z.land_spec, Z.ldiff_spec.
    change (u32 (Z.lnot (ALIGN - 1))) with (Z.ldiff (Z.ones 32) (Z.ones 4)).
    rewrite Z.ldiff_spec, !Z.testbit_ones_nonneg by lia.
    destruct (Z.ltb_spec i 32); [done|].
    by rewrite testbit_u32_high by (done || lia). }
  rewrite Z.ldiff_ones_r, Z.shiftr_div_pow2, Z.shiftl_mul_pow2 by lia.
  change (2 ^ 4) with 16. zlia.
Qed.

Lemma aligned_spec x : 0 <= x -> x + 16 <= 2 ^ 32 -> aligned x = 16 * ((x + 15) / 16).
Proof.
  intros H0 H1. change (2 ^ 32) with 4294967296 in H1. unfold aligned.
  rewrite land_align_mask by (unfold in_u32; lia).
  change (ALIGN - 1) with 15. rewrite land_15. change ALIGN with 16.
  case_if; [zlia|]. rewrite u32_small by (unfold in_u32; zlia). zlia.
Qed.

Lemma spaced_length lo l hi : spaced lo l hi -> 12 * Z.of_nat (length l) <= hi - lo.
Proof.
  revert lo. induction l as [|b l IH]; intros lo; simpl; [lia|]. intros [H1 H2%IH]. lia.
Qed.

Lemma spaced_NoDup lo l hi : spaced lo l hi -> NoDup l.*1.
Proof.
  revert lo. induction l as [|b l IH]; intros lo; simpl; [constructor|].
  intros [H1 H2]. constructor; [|by eapply IH].
  intros (c & Hbc & Hc)%list_elem_of_fmap. apply spaced_bounds in H2.
  rewrite Forall_forall in H2. apply H2 in Hc. lia.
Qed.

Lemma coal_false_next l e : coal false l -> exists d l', l ++ [(e, true)] = (d, true) :: l'.
Proof.
  destruct l as [|[d u] l]; simpl; [eauto|]. intros [-> _]. eauto.
Qed.

Lemma alloc_map_key l e k v : alloc_map l e !! k = Some v -> exists b, b ∈ l /\ k = b.1 + 12 /\ b.2 = true.
Proof.
  induction l as [|b l IH]; simpl; [by rewrite lookup_empty|].
  destruct b as [a []]; simpl.
  - destruct (decide (a + CHUNK_SIZE = k)) as [<-|Hne].
    + intros _. exists (a, true). split; [left|done].
    + rewrite lookup_insert_ne by done. intros (b & ? & ? & ?)%IH. exists b. split; [by right|done].
  - intros (b & ? & ? & ?)%IH. exists b. split; [by right|done].
Qed.

Lemma alloc_map_app l1 l2 e :
  alloc_map (l1 ++ l2) e = alloc_map l1 (hd_addr l2 e) ∪ alloc_map l2 e.
Proof.
  induction l1 as [|[a u] l1 IH]; simpl; [by rewrite map_empty_union|].
  rewrite IH, hd_addr_app. destruct u; [by rewrite insert_union_l|done].
Qed.

Lemma alloc_map_None l e k : Forall (fun b => b.1 + 12 <> k) l -> alloc_map l e !! k = None.
Proof.
  intros H. destruct (alloc_map l e !! k) as [v|] eqn:E; [|done].
  apply alloc_map_key in E as (b & Hb & -> & _). rewrite Forall_forall in H.
  by destruct (H b Hb).
Qed.

(** Flipping the flag of one block inserts or deletes one area. *)
Lemma alloc_map_flip lo l1 a l2 l2' e hi :
  spaced lo (l1 ++ (a, true) :: l2 ++ [(e, true)]) hi ->
  alloc_map l2' e = alloc_map l2 e ->
  alloc_map (l1 ++ (a, false) :: l2) e !! (a + 12) = None /\
  alloc_map (l1 ++ (a, true) :: l2') e =
    <[a + 12 := hd_addr l2' e - a - 12]> (alloc_map (l1 ++ (a, false) :: l2) e).
Proof.
  intros Hsp Heq.
  apply spaced_app in Hsp as [H1%spaced_bounds H2]. simpl in H2.
  apply spaced_bounds, Forall_app in H2 as [H2 _].
  assert (alloc_map l1 a !! (a + 12) = None) as E1.
  { apply alloc_map_None. eapply Forall_impl; [exact H1|]. simpl. lia. }
  assert (alloc_map l2 e !! (a + 12) = None) as E2.
  { apply alloc_map_None. eapply Forall_impl; [exact H2|]. simpl. lia. }
  rewrite !alloc_map_app. simpl. rewrite Heq. split.
  - by apply lookup_union_None.
  - by rewrite insert_union_r.
Qed.

(** ** Searching the ring *)

Definition fits (m : mem) (size : Z) (b : block) : bool :=
  negb b.2 && (s32 size <=? s32 (get_size m b.1)).

Lemma seg_elem m p l n b : seg m p l n -> b ∈ l -> exists p' n', node m p' b.1 n' b.2.
Proof.
  revert p. induction l as [|c l IH]; intros p; simpl; [by intros ? ?%elem_of_nil|].
  intros [Hn Hs] [->|Hb]%elem_of_cons; [eauto|by eapply IH].
Qed.

Lemma malloc_loop_find h r pre chunk u todo fuel size :
  ring (hmem h) r -> r = pre ++ (chunk, u) :: todo -> NoDup r.*1 ->
  hd_addr r 0 = current h -> (length todo < fuel)%nat ->
  malloc_loop fuel h chunk size =
    Some (match List.find (fits (hmem h) size) ((chunk, u) :: todo) with
          | Some b => malloc_take h b.1 size
          | None => (h, 0)
          end).
Proof.
  intros Hring. revert pre chunk u fuel.
  induction todo as [|[c v] todo IH]; intros pre chunk u fuel Hr Hnd Hcur Hfuel;
    (destruct fuel as [|fuel]; [simpl in Hfuel; lia|]); simpl;
    pose proof Hring as Hr2; rewrite Hr, ring_mid in Hr2; destruct Hr2 as (_ & Hn & Hs);
    unfold fits at 1; simpl in Hn |- *; rewrite (node_is_used _ _ _ _ _ Hn);
    (destruct (negb u && _); [done|]);
    destruct Hn as (Hn & _ & _); unfold get_next; rewrite Hn.
  - assert (hd_addr pre chunk = current h) as ->.
    { rewrite <- Hcur, Hr, hd_addr_app. done. }
    assert (check_sum (hmem h) (current h) = true) as ->.
    { destruct r as [|b r']; [by destruct pre|].
      destruct (seg_elem _ _ _ _ b Hring) as (? & ? & Hb); [left|].
      simpl in Hcur. rewrite <- Hcur. by eapply node_check_sum. }
    by rewrite Z.eqb_refl.
  - destruct Hs as [Hc _]. simpl in Hc. rewrite (node_check_sum _ _ _ _ _ Hc). simpl.
    destruct (Z.eqb_spec c (current h)) as [->|Hne].
    + exfalso. rewrite Hr in Hnd, Hcur. rewrite hd_addr_app in Hcur.
      rewrite fmap_app in Hnd. simpl in *. apply NoDup_app in Hnd as (_ & Hd & Hnd).
      destruct pre as [|[x ?] pre]; simpl in *.
      * inversion Hnd as [|? ? Hx]. subst. apply Hx. left.
      * apply (Hd x); [left|]. subst. right. left.
    + rewrite (IH (pre ++ [(chunk, u)]) c v fuel); [done| |done|done|simpl in Hfuel; lia].
      by rewrite Hr, <- app_assoc.
Qed.

(** The ring read from [current]: the order in which chunks are tried. *)
Definition from_current (h : alloc_t) (bs r : list block) : Prop :=
  exists l1 l2, bs = l1 ++ l2 /\ r = l2 ++ l1 /\ hd_addr l2 0 = current h /\ l2 <> [].

Lemma from_current_exists h bs : current h ∈ bs.*1 -> exists r, from_current h bs r.
Proof.
  intros ([a u] & Hc & Hin)%list_elem_of_fmap.
  apply list_elem_of_split in Hin as (l1 & l2 & ->).
  exists (((a, u) :: l2) ++ l1), l1, ((a, u) :: l2). done.
Qed.

Lemma wf_length h body e : heap_wf h body e -> (length (body ++ [(e, true)]) < max_chunks h)%nat.
Proof.
  intros Hwf. pose proof (spaced_length _ _ _ (wf_spaced _ _ _ Hwf)) as H.
  unfold max_chunks. change CHUNK_SIZE with 12. change ALLOC_SIZE with 20 in H.
  assert (Z.of_nat (length (body ++ [(e, true)])) <= (endmem h - startmem h) / 12) by zlia.
  lia.
Qed.

Lemma malloc_search h body e size r :
  heap_wf h body e -> 0 < size <= INT_MAX -> from_current h (body ++ [(e, true)]) r ->
  firstfit_malloc h size =
    Some (match List.find (fits (hmem h) size) r with
          | Some b => malloc_take h b.1 size
          | None => (h, 0)
          end).
Proof.
  intros Hwf Hsz (l1 & l2 & Hbs & -> & Hcur & Hne).
  unfold firstfit_malloc.
  destruct (Z.eqb_spec size 0); [lia|]. destruct (Z.ltb_spec INT_MAX size); [lia|]. cbn [orb].
  destruct l2 as [|[c u] l2]; [done|]. simpl in Hcur. subst c.
  pose proof (wf_length _ _ _ Hwf) as Hlen. rewrite Hbs, length_app in Hlen. simpl in Hlen.
  apply (malloc_loop_find h (((current h, u) :: l2) ++ l1) []); [| done | | done |].
  - apply (ring_rotate _ l1 ((current h, u) :: l2)). rewrite <- Hbs. apply Hwf.
  - pose proof (spaced_NoDup _ _ _ (wf_spaced _ _ _ Hwf)) as Hnd. rewrite Hbs in Hnd.
    rewrite fmap_app in Hnd |- *. by rewrite (Permutation_app_comm _ (l1.*1)).
  - rewrite length_app. lia.
Qed.

Lemma find_rotate h bs r m size b :
  from_current h bs r -> List.find (fits m size) r = Some b -> b ∈ bs /\ fits m size b = true.
Proof.
  intros (l1 & l2 & -> & -> & _) [Hin Hf]%List.find_some.
  split; [|done]. apply list_elem_of_In in Hin. rewrite elem_of_app in *. tauto.
Qed.

Lemma find_rotate_none h bs r m size :
  from_current h bs r -> List.find (fits m size) r = None ->
  Forall (fun b => fits m size b = false) bs.
Proof.
  intros (l1 & l2 & -> & -> & _) Hf. apply Forall_forall. intros b Hb.
  apply (List.find_none _ _ Hf). apply list_elem_of_In. rewrite elem_of_app in *. tauto.
Qed.

(** ** Allocation *)

(** What the invariant says around one chunk of the body. *)
Lemma wf_mid h l1 a u l2 e :
  heap_wf h (l1 ++ (a, u) :: l2) e ->
  let n := hd_addr l2 e in
  get_next (hmem h) a = n /\ a mod 4 = 0 /\ n mod 4 = 0 /\
  startmem h + ALLOC_SIZE <= a /\ a + 12 <= n /\ n + 12 <= endmem h /\
  get_size (hmem h) a = n - a - 12.
Proof.
  intros Hwf n. destruct Hwf as [Hb _ Hsp Hw _ Hr _]. rewrite <- app_assoc in *. simpl in *.
  rewrite ring_mid in Hr. destruct Hr as (_ & (Hn & _ & _) & _). simpl in Hn.
  rewrite hd_addr_app in Hn. simpl in Hn.
  assert (exists v l3, l2 ++ [(e, true)] = (n, v) :: l3) as (v & l3 & E).
  { unfold n. destruct l2 as [|[d v] l2]; simpl; eauto. }
  rewrite E in *. apply Forall_app in Hw as [_ Hw]. inversion Hw as [|? ? Ha Hw']; subst.
  inversion Hw' as [|? ? Hd _]; subst. simpl in *.
  apply spaced_app in Hsp as [Hs1%spaced_le Hs2]. simpl in Hs1, Hs2. destruct Hs2 as [Hs2 Hs3%spaced_le].
  assert (in_u32 (n - a - 12)).
  { unfold in_u32, INT_MAX, ALLOC_SIZE in *. lia. }
  unfold get_size, get_next. rewrite Hn. fold n. rewrite u32_small by done.
  change CHUNK_SIZE with 12. repeat split; lia || done.
Qed.

Lemma heap_wf_mem h m cur nm nf body e :
  heap_wf h body e -> forall body', hd_addr body' 0 = hd_addr body 0 ->
  spaced (startmem h + ALLOC_SIZE) (body' ++ [(e, true)]) (endmem h) ->
  Forall (fun b => b.1 mod 4 = 0) body' -> coal true body' ->
  ring m (body' ++ [(e, true)]) -> cur ∈ (body' ++ [(e, true)]).*1 ->
  heap_wf (mk_alloc (startmem h) (endmem h) cur nm nf m) body' e.
Proof.
  intros Hwf body' Hhd ? Hw ? ? ?. destruct Hwf as [? Hf _ Hwd _ _ _].
  split; simpl; try done; [by rewrite Hhd|].
  apply Forall_app. split; [done|]. by apply Forall_app in Hwd as [_ ?].
Qed.

Lemma malloc_offset size : 0 < size <= INT_MAX ->
  u32 (aligned (u32 (size + CHUNK_SIZE)) - CHUNK_SIZE) = 16 * ((size + 27) / 16) - 12.
Proof.
  unfold INT_MAX, CHUNK_SIZE. intros H.
  rewrite (u32_small (size + 12)) by (unfold in_u32; lia).
  rewrite aligned_spec by lia. replace (size + 12 + 15) with (size + 27) by lia.
  apply u32_small. unfold in_u32. zlia.
Qed.

(** Taking the free chunk [a]: it becomes used, possibly followed by a new
    free chunk [w] cut from its end. *)
Lemma malloc_take_wf h l1 a l2 e size :
  heap_wf h (l1 ++ (a, false) :: l2) e -> 0 < size <= INT_MAX ->
  size <= hd_addr l2 e - a - 12 ->
  exists h' rest,
    malloc_take h a size = (h', a + 12) /\
    heap_wf h' (l1 ++ (a, true) :: rest) e /\
    startmem h' = startmem h /\ endmem h' = endmem h /\
    size <= hd_addr rest e - a - 12 /\
    (rest = l2 \/ exists w, rest = (w, false) :: l2 /\ w = a + 16 * ((size + 27) / 16)).
Proof.
  intros Hwf Hsz Hfit.
  pose proof (wf_mid _ _ _ _ _ _ Hwf) as (Hn & Ha4 & Hn4 & Hlo & Han & Hnhi & Hgs). simpl in *.
  set (n := hd_addr l2 e) in *.
  pose proof Hwf as [Hb _ Hsp Hw Hc Hr _]. rewrite <- app_assoc in *. simpl in *.
  apply coal_app in Hc as [Hc1 [Hc0 Hc2]]. simpl in Hc0, Hc2.
  destruct (coal_false_next l2 e Hc2) as (d & l3 & El2).
  assert (d = n) as ->.
  { pose proof (hd_addr_app l2 [(e, true)] 0) as E. rewrite El2 in E. simpl in E. done. }
  unfold malloc_take. rewrite malloc_offset by done. rewrite Hn. unfold chunk_data.
  unfold INT_MAX, ALLOC_SIZE, CHUNK_SIZE in *. change (2 ^ 32) with 4294967296 in *.
  set (w := a + 16 * ((size + 27) / 16)).
  assert (size + 12 <= w - a <= size + 27) by (unfold w; zlia).
  rewrite (u32_small (a + 12)) by (unfold in_u32; lia).
  replace (a + 12 + (16 * ((size + 27) / 16) - 12)) with w by (unfold w; lia).
  rewrite (u32_small w) by (unfold in_u32; lia).
  rewrite (u32_small (w + 12)) by (unfold in_u32; lia).
  rewrite (u32_small (w + 12 + 4)) by (unfold in_u32; lia).
  rewrite El2 in Hsp, Hr.
  destruct (Z.leb_spec (w + 12 + 4) n) as [Hle|Hgt].
  - pose proof (ring_split _ _ _ _ w _ _ _ _ Hsp ltac:(lia) ltac:(lia) Hr) as Hr'.
    fold (split_mem (hmem h) a w n).
    assert (spaced (startmem h + 20) (l1 ++ (a, true) :: (w, false) :: (n, true) :: l3) (endmem h)) as Hsp'.
    { apply spaced_app in Hsp as [? Hs]. simpl in Hs. apply spaced_app.
      split; [done|]. simpl. repeat split; try lia. apply Hs. }
    pose proof (ring_set_used _ _ _ _ _ _ _ Hsp' Hr') as Hr2.
    eexists _, ((w, false) :: l2). split; [reflexivity|].
    split; [|repeat split; simpl; [lia|right; exists w; done]].
    eapply (heap_wf_mem h _ _ _ _ _ _ Hwf); rewrite <- ?app_assoc; simpl; rewrite ?El2;
      [by rewrite !hd_addr_app|done| | |done|].
    + apply Forall_app in Hw as [Hw1 Hw2]. inversion Hw2 as [|? ? ? Hw3]; subst.
      apply Forall_app in Hw3 as [Hw3 _].
      apply Forall_app. split; [done|]. constructor; [done|]. constructor; [|done].
      simpl. unfold w. zlia.
    + apply coal_app. split; [done|]. simpl. rewrite orb_true_r. split; [done|]. done.
    + apply ring_mid in Hr2 as (_ & (Hn2 & _ & _) & _). simpl in Hn2. unfold get_next. rewrite Hn2.
      rewrite fmap_app. simpl. apply elem_of_app. right. right. left.
  - assert (spaced (startmem h + 20) (l1 ++ (a, true) :: (n, true) :: l3) (endmem h)) as Hsp'.
    { by apply spaced_app in Hsp; apply spaced_app. }
    pose proof (ring_set_used _ _ _ _ _ _ _ Hsp Hr) as Hr2.
    eexists _, l2. split; [reflexivity|].
    split; [|repeat split; simpl; [lia|by left]].
    eapply (heap_wf_mem h _ _ _ _ _ _ Hwf); rewrite <- ?app_assoc; simpl; rewrite ?El2;
      [by rewrite !hd_addr_app|done| | |done|].
    + apply Forall_app in Hw as [Hw1 Hw2]. inversion Hw2 as [|? ? ? Hw3]; subst.
      apply Forall_app in Hw3 as [Hw3 _].
      apply Forall_app. split; [done|]. by constructor.
    + apply coal_app. split; [done|]. simpl. rewrite orb_true_r. split; [done|].
      by eapply coal_true.
    + apply ring_mid in Hr2 as (_ & (Hn2 & _ & _) & _). simpl in Hn2. unfold get_next. rewrite Hn2.
      rewrite fmap_app. simpl. apply elem_of_app. right. right. left.
Qed.

Lemma wf_spaced_mid h l1 b l2 e :
  heap_wf h (l1 ++ b :: l2) e ->
  spaced (startmem h + ALLOC_SIZE) (l1 ++ b :: l2 ++ [(e, true)]) (endmem h).
Proof. intros Hwf. pose proof (wf_spaced _ _ _ Hwf) as H. by rewrite <- app_assoc in H. Qed.

Lemma fits_iff h l1 a u l2 e size :
  heap_wf h (l1 ++ (a, u) :: l2) e -> 0 < size <= INT_MAX ->
  fits (hmem h) size (a, u) = true <-> u = false /\ size <= hd_addr l2 e - a - 12.
Proof.
  intros Hwf Hsz. pose proof (wf_mid _ _ _ _ _ _ Hwf) as (_ & _ & _ & Hlo & Han & Hhi & Hgs).
  pose proof (wf_bounds _ _ _ Hwf) as (? & ? & ?). unfold fits. simpl. rewrite Hgs.
  unfold INT_MAX, ALLOC_SIZE in *. rewrite !s32_small by (unfold in_s32; lia).
  rewrite andb_true_iff, negb_true_iff, Z.leb_le. done.
Qed.

Lemma heap_aligned_mid l1 a u l2 :
  heap_aligned (l1 ++ (a, u) :: l2) <-> heap_aligned l1 /\ a mod 16 = 4 /\ heap_aligned l2.
Proof. unfold heap_aligned. rewrite Forall_app, Forall_cons. done. Qed.

(** The outcome of [firstfit_malloc] for a block [a] of the body. *)
Lemma malloc_take_correct h l1 a l2 e size :
  heap_wf h (l1 ++ (a, false) :: l2) e -> 0 < size <= INT_MAX ->
  size <= hd_addr l2 e - a - 12 ->
  exists h' p body' sz,
    malloc_take h a size = (h', p) /\ p <> 0 /\ p = a + 12 /\
    heap_wf h' body' e /\ size <= sz /\
    alloc_map (l1 ++ (a, false) :: l2) e !! p = None /\
    alloc_map body' e = <[p := sz]> (alloc_map (l1 ++ (a, false) :: l2) e) /\
    (heap_aligned (l1 ++ (a, false) :: l2) -> heap_aligned body' /\ p mod ALIGN = 0).
Proof.
  intros Hwf Hsz Hfit.
  destruct (malloc_take_wf _ _ _ _ _ _ Hwf Hsz Hfit) as (h' & rest & -> & Hwf' & _ & _ & Hsz' & Hrest).
  pose proof (wf_mid _ _ _ _ _ _ Hwf) as (_ & _ & _ & Hlo & _).
  pose proof (wf_bounds _ _ _ Hwf) as (? & _). change ALLOC_SIZE with 20 in Hlo.
  assert (alloc_map rest e = alloc_map l2 e) as Hmap by (destruct Hrest as [->|(w & -> & _)]; done).
  destruct (alloc_map_flip (startmem h + ALLOC_SIZE) l1 a l2 rest e (endmem h)) as [Hnone Hins].
  { apply wf_spaced_mid in Hwf. by apply spaced_app in Hwf; apply spaced_app. }
  { done. }
  exists h', (a + 12), (l1 ++ (a, true) :: rest), (hd_addr rest e - a - 12).
  repeat (split; [done || lia|]). intros (H1 & H2 & H3)%heap_aligned_mid.
  change ALIGN with 16. split; [|zlia]. apply heap_aligned_mid. split; [done|split; [done|]].
  destruct Hrest as [->|(w & -> & ->)]; [done|]. constructor; [|done]. simpl.
  change (ALIGN - CHUNK_SIZE) with 4. change ALIGN with 16. zlia.
Qed.

Lemma malloc_correct h body e size :
  heap_wf h body e -> 0 < size <= INT_MAX ->
  exists h' p, firstfit_malloc h size = Some (h', p) /\
    ((p = 0 /\ h' = h /\
      forall l1 a l2, body = l1 ++ (a, false) :: l2 -> hd_addr l2 e - a - 12 < size) \/
     (p <> 0 /\ exists body' sz,
        heap_wf h' body' e /\ size <= sz /\
        alloc_map body e !! p = None /\
        alloc_map body' e = <[p := sz]> (alloc_map body e) /\
        (heap_aligned body -> heap_aligned body' /\ p mod ALIGN = 0))).
Proof.
  intros Hwf Hsz.
  destruct (from_current_exists h _ (wf_current _ _ _ Hwf)) as (r & Hr).
  rewrite (malloc_search _ _ _ _ _ Hwf Hsz Hr).
  destruct (List.find _ r) as [[a u]|] eqn:Hf.
  - apply (find_rotate _ _ _ _ _ _ Hr) in Hf as [Hin Hfit].
    apply elem_of_app in Hin as [Hin|Hin].
    2:{ apply list_elem_of_singleton in Hin. inversion Hin; subst. done. }
    apply list_elem_of_split in Hin as (l1 & l2 & ->).
    rewrite fits_iff in Hfit by done. destruct Hfit as [-> Hfit].
    destruct (malloc_take_correct _ _ _ _ _ _ Hwf Hsz Hfit) as (h' & p & body' & sz & Ht & ? & ? & ?).
    exists h', p. simpl. rewrite Ht. split; [done|]. right. split; [done|]. exists body', sz. tauto.
  - exists h, 0. split; [done|]. left. split; [done|split; [done|]].
    intros l1 a l2 ->. apply (find_rotate_none _ _ _ _ _ Hr) in Hf.
    apply Forall_app in Hf as [Hf _]. apply Forall_app in Hf as [_ Hf]. inversion Hf as [|? ? Hn _]; subst.
    destruct (Z.lt_ge_cases (hd_addr l2 e - a - 12) size) as [|Hge]; [done|].
    assert (fits (hmem h) size (a, false) = true) by (rewrite fits_iff; done). congruence.
Qed.

(** ** Release *)

(** The two merging steps of [firstfit_free], as the code writes them. *)
Definition merge_next (m : mem) (chunk next_chunk : Z) : mem * Z :=
  if negb (is_used m next_chunk) then
    (merge_mem m chunk next_chunk (get_next m next_chunk), get_next m next_chunk)
  else (m, next_chunk).

Definition merge_prev (m : mem) (chunk next_chunk : Z) : mem * Z :=
  let prev_chunk := get_prev m chunk in
  if negb (is_used m prev_chunk) then (merge_mem m prev_chunk chunk next_chunk, prev_chunk)
  else (m, chunk).

Lemma free_steps h p :
  p <> 0 -> check_sum (hmem h) (u32 (p - CHUNK_SIZE)) = true ->
  let chunk := u32 (p - CHUNK_SIZE) in
  let m := set_free (hmem h) chunk in
  let '(m1, n1) := merge_next m chunk (get_next m chunk) in
  let '(m2, c2) := merge_prev m1 chunk n1 in
  firstfit_free h p = mk_alloc (startmem h) (endmem h) c2 (n_malloc h) (u32 (n_free h + 1)) m2.
Proof.
  intros Hp Hck. unfold firstfit_free. destruct (Z.eqb_spec p 0); [done|]. rewrite Hck. simpl.
  unfold merge_next, merge_prev, merge_mem.
  destruct (negb (is_used (set_free _ _) _)); destruct (negb _); reflexivity.
Qed.

Lemma coal_skip_next u l : coal u l -> forall n, hd_error l = Some (n, false) -> coal false (tail l).
Proof. destruct l as [|[d v] l]; simpl; [done|]. intros [_ H] n E. inversion E; by subst. Qed.

Lemma merge_next_ring m lo l1 a l2 e hi :
  spaced lo (l1 ++ (a, false) :: l2 ++ [(e, true)]) hi ->
  ring m (l1 ++ (a, false) :: l2 ++ [(e, true)]) -> coal true l2 ->
  exists m' l2',
    merge_next m a (hd_addr l2 e) = (m', hd_addr l2' e) /\
    spaced lo (l1 ++ (a, false) :: l2' ++ [(e, true)]) hi /\
    ring m' (l1 ++ (a, false) :: l2' ++ [(e, true)]) /\ coal false l2' /\
    alloc_map l2' e = alloc_map l2 e /\ (forall P, Forall P l2 -> Forall P l2').
Proof.
  intros Hsp Hr Hc. pose proof Hr as (_ & _ & Hs)%ring_mid. simpl in Hs.
  destruct l2 as [|[c []] l3]; simpl in *.
  - destruct Hs as [Hn _]. unfold merge_next. rewrite (node_is_used _ _ _ _ _ Hn). simpl.
    exists m, []. done.
  - destruct Hs as [Hn _]. unfold merge_next. rewrite (node_is_used _ _ _ _ _ Hn). simpl.
    exists m, ((c, true) :: l3). done.
  - destruct Hs as [Hn _]. unfold merge_next. rewrite (node_is_used _ _ _ _ _ Hn). simpl.
    destruct Hc as [_ Hc]. simpl in Hn. destruct Hn as (Hn & _ & _). unfold get_next. rewrite Hn.
    destruct (coal_false_next l3 e Hc) as (d & l4 & El). rewrite El in *. simpl.
    exists (merge_mem m a c d), l3.
    assert (d = hd_addr l3 e) as ->.
    { pose proof (hd_addr_app l3 [(e, true)] 0) as E. rewrite El in E. simpl in E. done. }
    split; [done|]. rewrite El. split; [|split; [by eapply ring_merge|split; [done|split; [done|]]]].
    + apply spaced_app in Hsp as [? Hs]. simpl in *. apply spaced_app. split; [done|].
      simpl. destruct Hs as (? & ? & ?). split; [lia|done].
    + intros P H. by inversion H.
Qed.

(** What [merge_prev] leaves: the ring of [body], with the same areas. *)
Definition merged (m : mem) (lo hi : Z) (l1 : list block) (a : Z) (l2 : list block) (e : Z)
    (c : Z) (body : list block) : Prop :=
  spaced lo (body ++ [(e, true)]) hi /\ ring m (body ++ [(e, true)]) /\ coal true body /\
  c ∈ body.*1 /\ hd_addr body 0 = hd_addr l1 a /\
  alloc_map body e = alloc_map l1 a ∪ alloc_map l2 e /\
  (forall P : block -> Prop, P (a, false) -> Forall P l1 -> Forall P l2 -> Forall P body).

Lemma merged_keep m lo l1 a l2 e hi :
  spaced lo (l1 ++ (a, false) :: l2 ++ [(e, true)]) hi ->
  ring m (l1 ++ (a, false) :: l2 ++ [(e, true)]) ->
  coal true l1 -> last_used l1 true = true -> coal false l2 ->
  merged m lo hi l1 a l2 e a (l1 ++ (a, false) :: l2).
Proof.
  intros Hsp Hr Hc1 Hlu Hc2. unfold merged. rewrite <- app_assoc. simpl.
  split; [done|split; [done|]]. rewrite coal_app, Hlu. simpl. split; [done|].
  rewrite fmap_app, hd_addr_app, alloc_map_app. simpl.
  split; [by apply elem_of_app; right; left|]. split; [done|split; [done|]].
  intros P ? ? ?. by apply Forall_app, conj, Forall_cons.
Qed.

Lemma merge_prev_ring m lo l1 a l2 e hi :
  spaced lo (l1 ++ (a, false) :: l2 ++ [(e, true)]) hi ->
  ring m (l1 ++ (a, false) :: l2 ++ [(e, true)]) -> coal true l1 -> coal false l2 ->
  exists m' c body,
    merge_prev m a (hd_addr l2 e) = (m', c) /\ merged m' lo hi l1 a l2 e c body.
Proof.
  intros Hsp Hr Hc1 Hc2. pose proof Hr as (Hs1 & (_ & Hp & _) & Hs2)%ring_mid. simpl in *.
  rewrite last_addr_app in Hs1, Hp. simpl in Hs1, Hp.
  unfold merge_prev, get_prev. rewrite Hp.
  destruct l1 as [|[b v] l1 _] using rev_ind.
  - apply seg_app in Hs2 as [_ [Hn _]]. simpl in Hn |- *. rewrite (node_is_used _ _ _ _ _ Hn). simpl.
    eexists _, _, _. split; [done|]. by apply merged_keep.
  - apply seg_app in Hs1 as [_ [Hn _]]. rewrite last_addr_app. simpl in Hn |- *.
    rewrite (node_is_used _ _ _ _ _ Hn). destruct v; simpl.
    { eexists _, _, _. split; [done|]. apply merged_keep; try done.
      unfold last_used. by rewrite foldl_app. }
    rewrite <- app_assoc in Hsp, Hr. simpl in Hsp, Hr.
    destruct (coal_false_next l2 e Hc2) as (d & l4 & El). rewrite El in *.
    assert (d = hd_addr l2 e) as ->.
    { pose proof (hd_addr_app l2 [(e, true)] 0) as E. rewrite El in E. simpl in E. done. }
    eexists _, _, (l1 ++ (b, false) :: l2). split; [done|]. unfold merged.
    apply coal_app in Hc1 as [Hc1 [Hc3 _]]. simpl in Hc3.
    rewrite <- app_assoc. simpl. rewrite El.
    split; [|split; [by eapply ring_merge|split; [by apply coal_app|]]].
    + apply spaced_app in Hsp as [? Hs]. simpl in *. apply spaced_app. split; [done|].
      simpl. destruct Hs as (? & ? & ?). split; [lia|done].
    + rewrite fmap_app, !hd_addr_app, !alloc_map_app. simpl. rewrite map_union_empty.
      split; [by apply elem_of_app; right; left|]. split; [done|split; [done|]].
      intros P ? [? [? _]%Forall_cons]%Forall_app ?. by apply Forall_app, conj, Forall_cons.
Qed.

Lemma free_correct h body e p sz :
  heap_wf h body e -> alloc_map body e !! p = Some sz ->
  exists body',
    heap_wf (firstfit_free h p) body' e /\
    alloc_map body' e = delete p (alloc_map body e) /\
    (heap_aligned body -> heap_aligned body').
Proof.
  intros Hwf Hp. pose proof Hp as ([a u] & Hin & -> & Hu)%alloc_map_key. simpl in *. subst u.
  apply list_elem_of_split in Hin as (l1 & l2 & ->).
  pose proof (wf_mid _ _ _ _ _ _ Hwf) as (Hn & _ & _ & Hlo & Han & Hhi & _).
  pose proof Hwf as [(Hb1 & Hb2 & _) _ _ Hw Hc Hr _]. rewrite <- app_assoc in Hr. simpl in Hr, Hn.
  change ALLOC_SIZE with 20 in Hlo. change (2 ^ 32) with 4294967296 in *.
  pose proof (wf_spaced_mid _ _ _ _ _ Hwf) as Hsp. pose proof Hr as (_ & Hna & _)%ring_mid.
  apply coal_app in Hc as [Hc1 [_ Hc2]].
  assert (u32 (a + 12 - CHUNK_SIZE) = a) as Hchunk
    by (rewrite u32_small; unfold in_u32, CHUNK_SIZE; lia).
  pose proof (free_steps h (a + 12) ltac:(lia)) as Hfree. rewrite Hchunk in Hfree.
  specialize (Hfree (node_check_sum _ _ _ _ _ Hna)). simpl in Hfree.
  assert (get_next (set_free (hmem h) a) a = hd_addr l2 e) as Hgn.
  { rewrite <- Hn. unfold get_next, set_free. by mem_red. }
  rewrite Hgn in Hfree. pose proof (ring_set_free _ _ _ _ _ _ _ Hsp Hr) as Hr0.
  assert (spaced (startmem h + ALLOC_SIZE) (l1 ++ (a, false) :: l2 ++ [(e, true)]) (endmem h)) as Hsp0
    by (by apply spaced_app in Hsp; apply spaced_app).
  destruct (merge_next_ring _ _ _ _ _ _ _ Hsp0 Hr0 Hc2) as (m1 & l2' & E1 & Hsp1 & Hr1 & Hc3 & Hm1 & HF1).
  rewrite E1 in Hfree.
  destruct (merge_prev_ring _ _ _ _ _ _ _ Hsp1 Hr1 Hc1 Hc3) as (m2 & c & body' & E2 & Hmg).
  rewrite E2 in Hfree. destruct Hmg as (Hsp2 & Hr2 & Hc' & Hcur & Hhd & Hmap & HF2).
  exists body'. rewrite Hfree. split; [|split].
  - apply Forall_app in Hw as [Hw _]. apply Forall_app in Hw as [Hw1 [Hwa Hw2]%Forall_cons].
    eapply (heap_wf_mem h _ _ _ _ _ _ Hwf); try done.
    + rewrite Hhd, hd_addr_app. done.
    + apply HF2; [done|done|by apply HF1].
    + rewrite fmap_app. by apply elem_of_app; left.
  - destruct (alloc_map_flip _ l1 a l2 l2 e _ Hsp) as [Hnone ->]; [done|].
    rewrite Hmap, Hm1, delete_insert_id by done. by rewrite alloc_map_app.
  - intros (? & ? & ?)%heap_aligned_mid. apply HF2; [done|done|by apply HF1].
Qed.

(** ** Construction *)

Lemma new_correct m start size :
  0 <= start -> start mod ALIGN = 0 -> 48 <= size <= INT_MAX -> start + size + 32 <= 2 ^ 32 ->
  exists h a e,
    firstfit_new m start size = Some h /\ heap_wf h [(a, false)] e /\ heap_aligned [(a, false)] /\
    startmem h = start /\ endmem h = start + size /\
    start + ALLOC_SIZE <= a /\ e + CHUNK_SIZE <= start + size < e + CHUNK_SIZE + ALIGN.
Proof.
  intros H0 Hal Hsz Hend. unfold INT_MAX in Hsz. change ALIGN with 16 in *.
  change (2 ^ 32) with 4294967296 in *.
  unfold firstfit_new. change (u32 _) with 45 at 1.
  destruct (Z.ltb_spec size 45); [lia|].
  unfold ALLOC_SIZE, CHUNK_SIZE, ALIGN.
  rewrite (u32_small (size + start)) by (unfold in_u32; lia).
  rewrite (u32_small (start + 20 + 12)) by (unfold in_u32; lia).
  rewrite aligned_spec by lia.
  set (a := 16 * ((start + 20 + 12 + 15) / 16) - 12).
  set (e := 16 * ((size + start) / 16) - 12).
  assert (a = start + 20) as Ha by (unfold a; zlia).
  assert (e + 12 <= start + size < e + 28 /\ a + 12 <= e /\ e mod 4 = 0) as (He & Hae & He4)
    by (unfold e; zlia).
  rewrite (u32_small a), (u32_small e) by (unfold in_u32; lia).
  assert (a mod 4 = 0 /\ a mod 16 = 4) as [Ha4 Ha16] by zlia.
  eexists _, a, e. split; [reflexivity|]. cbn [startmem endmem].
  split; [|repeat split; try lia; by repeat constructor].
  split; cbn [startmem endmem current hmem]; unfold ALLOC_SIZE, CHUNK_SIZE, INT_MAX.
  - change (2 ^ 32) with 4294967296. lia.
  - unfold first_chunk. cbn [startmem]. unfold ALLOC_SIZE, CHUNK_SIZE. simpl.
    rewrite (u32_small (start + 20 + 12)) by (unfold in_u32; lia).
    rewrite aligned_spec by lia. fold a. rewrite u32_small by (unfold in_u32; lia). done.
  - simpl. lia.
  - repeat constructor; done.
  - simpl. done.
  - unfold ring. simpl. split; [|split; [|done]].
    + eapply node_agree; [|apply set_chunk_node]. agree_tac.
    + apply set_chunk_node.
  - simpl. left.
Qed.

(** ** The areas handed out *)

Lemma alloc_map_disjoint_lt lo l e hi p n q k :
  spaced lo (l ++ [(e, true)]) hi ->
  alloc_map l e !! p = Some n -> alloc_map l e !! q = Some k -> p < q -> p + n <= q.
Proof.
  revert lo. induction l as [|[a u] l IH]; intros lo; simpl; [done|].
  intros [_ Hsp] Hp Hq Hlt. destruct u; simpl in *; [|by eapply IH].
  unfold CHUNK_SIZE in *.
  assert (forall k' v, alloc_map l e !! k' = Some v -> hd_addr l e + 12 <= k' /\ a + 24 <= k') as Hbig.
  { intros k' v ([b w] & Hb & -> & _)%alloc_map_key. simpl.
    destruct l as [|[c x] l]; [by apply elem_of_nil in Hb|]. simpl in *. destruct Hsp as [? Hsp].
    apply elem_of_cons in Hb as [[= -> ->]|Hb]; [lia|].
    apply spaced_bounds, Forall_app in Hsp as [Hsp _]. rewrite Forall_forall in Hsp.
    apply Hsp in Hb. simpl in Hb. lia. }
  destruct (decide (a + 12 = p)) as [<-|Hnp].
  - rewrite lookup_insert_eq in Hp. inversion Hp; subst.
    rewrite lookup_insert_ne in Hq by lia. apply Hbig in Hq. lia.
  - rewrite lookup_insert_ne in Hp by done. destruct (decide (a + 12 = q)) as [<-|Hnq].
    + apply Hbig in Hp. lia.
    + rewrite lookup_insert_ne in Hq by done. by eapply IH.
Qed.

Lemma alloc_map_bounds lo l e hi p n :
  spaced lo (l ++ [(e, true)]) hi -> alloc_map l e !! p = Some n ->
  lo + 12 <= p /\ 0 <= n /\ p + n <= e /\ e + 12 <= hi.
Proof.
  revert lo. induction l as [|[a u] l IH]; intros lo; simpl; [done|].
  intros [Ha Hsp] Hp. unfold CHUNK_SIZE in *. destruct u; simpl in *.
  - destruct (decide (a + 12 = p)) as [<-|Hne].
    + rewrite lookup_insert_eq in Hp. inversion Hp; subst.
      assert (a + 12 <= hd_addr l e <= e /\ e + 12 <= hi) as []; [|lia].
      destruct l as [|[c x] l]; simpl in *; [lia|]. destruct Hsp as [Hc Hsp].
      apply spaced_bounds, Forall_app in Hsp as [_ Hsp]. inversion Hsp; subst. simpl in *. lia.
    + rewrite lookup_insert_ne in Hp by done. specialize (IH _ Hsp Hp). lia.
  - specialize (IH _ Hsp Hp). lia.
Qed.

Theorem live_disjoint h body e p n q k :
  heap_wf h body e -> alloc_map body e !! p = Some n -> alloc_map body e !! q = Some k -> p <> q ->
  (p + n <= q \/ q + k <= p) /\
  startmem h + ALLOC_SIZE < p /\ 0 <= n /\ p + n <= endmem h.
Proof.
  intros Hwf Hp Hq Hne. pose proof (wf_spaced _ _ _ Hwf) as Hsp.
  pose proof (alloc_map_bounds _ _ _ _ _ _ Hsp Hp). split; [|lia].
  destruct (Z.lt_ge_cases p q).
  - left. by eapply alloc_map_disjoint_lt.
  - right. eapply alloc_map_disjoint_lt; eauto. lia.
Qed.

Lemma corruption_loop_none h r pre chunk u todo fuel :
  ring (hmem h) r -> r = pre ++ (chunk, u) :: todo -> hd_addr r 0 = current h ->
  (length todo < fuel)%nat -> corruption_loop fuel h chunk = Some 0.
Proof.
  intros Hring. revert pre chunk u fuel.
  induction todo as [|[c v] todo IH]; intros pre chunk u fuel Hr Hcur Hfuel;
    (destruct fuel as [|fuel]; [simpl in Hfuel; lia|]); simpl;
    pose proof Hring as Hr2; rewrite Hr, ring_mid in Hr2; destruct Hr2 as (_ & Hn & _);
    simpl in Hn; rewrite (node_check_sum _ _ _ _ _ Hn); simpl;
    destruct Hn as (Hn & _ & _); unfold get_next; rewrite Hn.
  - rewrite Hr, hd_addr_app in Hcur. simpl in Hcur. by rewrite Hcur, Z.eqb_refl.
  - destruct (Z.eqb_spec c (current h)) as [|Hne]; [done|].
    apply (IH (pre ++ [(chunk, u)]) c v); [by rewrite Hr, <- app_assoc|done|simpl in Hfuel; lia].
Qed.

Lemma wf_no_corruption h body e :
  heap_wf h body e -> firstfit_corruption h = Some 0.
Proof.
  intros Hwf. destruct (from_current_exists h _ (wf_current _ _ _ Hwf)) as (r & l1 & l2 & Hbs & -> & Hcur & Hne).
  destruct l2 as [|[c u] l2]; [done|]. simpl in Hcur. subst c.
  pose proof (wf_length _ _ _ Hwf) as Hlen. rewrite Hbs, length_app in Hlen. simpl in Hlen.
  unfold firstfit_corruption.
  apply (corruption_loop_none h (((current h, u) :: l2) ++ l1) [] _ u (l2 ++ l1)); [|done|done|].
  - apply (ring_rotate _ l1 ((current h, u) :: l2)). rewrite <- Hbs. apply Hwf.
  - rewrite length_app. lia.
Qed.

(** A heap with no live area is one free chunk: releasing everything gives
    all the memory back. *)
Lemma coal_no_live u l e : coal u l -> alloc_map l e = ∅ -> Forall (fun b => b.2 = false) l.
Proof.
  revert u. induction l as [|[a v] l IH]; intros u; simpl; [done|].
  intros [_ Hc] Hm. destruct v; simpl in *.
  - exfalso. by apply insert_non_empty in Hm.
  - constructor; [done|]. by eapply IH.
Qed.

Lemma all_released_correct h body e :
  heap_wf h body e -> alloc_map body e = ∅ -> body = [(first_chunk h, false)].
Proof.
  intros Hwf Hm. pose proof (coal_no_live _ _ _ (wf_coal _ _ _ Hwf) Hm) as Hf.
  destruct Hwf as [(Hb & Hb2 & _) Hfirst Hsp _ Hc _ _].
  destruct body as [|[a u] [|[b v] l]].
  - exfalso. simpl in *. unfold first_chunk, ALLOC_SIZE, CHUNK_SIZE in *.
    change (2 ^ 32) with 4294967296 in *.
    rewrite (u32_small (startmem h + 20 + 12)) in Hfirst by (unfold in_u32; lia).
    rewrite aligned_spec in Hfirst by (change (2 ^ 32) with 4294967296; lia).
    rewrite u32_small in Hfirst by (unfold in_u32; zlia). zlia.
  - inversion Hf as [|? ? Hu]; subst. simpl in *. by subst.
  - exfalso. inversion Hf as [|? ? Hu Hf']; subst. inversion Hf' as [|? ? Hv]; subst.
    simpl in *. subst. by destruct Hc as (_ & ? & _).
Qed.

(** ** Reallocation in place *)

(** Cutting a free chunk [w] behind the used chunk [a]; [mid] is the free
    chunk that is absorbed, if any. *)
Lemma cut_wf h l1 a mid l2 e w cur :
  heap_wf h (l1 ++ (a, true) :: mid ++ l2) e ->
  alloc_map mid (hd_addr l2 e) = ∅ -> coal false l2 ->
  a + 12 <= w -> w + 12 <= hd_addr l2 e -> w mod 4 = 0 ->
  cur ∈ (l1 ++ (a, true) :: (w, false) :: l2 ++ [(e, true)]).*1 ->
  let h' := with_mem (with_current h cur) (cut_mem (hmem h) a w (hd_addr l2 e)) in
  let body' := l1 ++ (a, true) :: (w, false) :: l2 in
  heap_wf h' body' e /\
  alloc_map body' e = <[a + 12 := w - a - 12]> (alloc_map (l1 ++ (a, true) :: mid ++ l2) e).
Proof.
  intros Hwf Hmid Hc2 Haw Hwd Hw4 Hcur h' body'.
  pose proof Hwf as [_ _ _ Hw Hc Hr _]. rewrite <- app_assoc in Hr. simpl in Hr.
  rewrite <- app_assoc in Hr. pose proof (wf_spaced_mid _ _ _ _ _ Hwf) as Hsp.
  rewrite <- app_assoc in Hsp.
  destruct (coal_false_next l2 e Hc2) as (d & l4 & El).
  assert (d = hd_addr l2 e) as ->.
  { pose proof (hd_addr_app l2 [(e, true)] 0) as E. rewrite El in E. simpl in E. done. }
  split.
  - apply Forall_app in Hw as [Hw _]. apply Forall_app in Hw as [Hw1 [Hwa Hw2]%Forall_cons].
    apply Forall_app in Hw2 as [_ Hw2]. apply coal_app in Hc as [Hc1 [Hc3 _]].
    rewrite El in *.
    eapply (heap_wf_mem h _ _ _ _ _ _ Hwf); unfold body'; rewrite <- ?app_assoc; simpl; rewrite ?El.
    + by rewrite !hd_addr_app.
    + apply spaced_app in Hsp as [? Hs]. apply spaced_app in Hs as [? Hs].
      apply spaced_app. split; [done|]. simpl in *. repeat split; try lia; done.
    + apply Forall_app. split; [done|]. by repeat constructor.
    + apply coal_app. split; [done|]. simpl. by rewrite orb_true_r.
    + eapply ring_cut; eauto.
    + done.
  - unfold body'. rewrite !alloc_map_app. simpl.
    rewrite alloc_map_app, Hmid, map_empty_union. unfold CHUNK_SIZE.
    rewrite insert_union_r, insert_insert_eq; [done|].
    apply alloc_map_None. apply spaced_app in Hsp as [Hs%spaced_bounds _].
    eapply Forall_impl; [exact Hs|]. simpl. lia.
Qed.

(** The used chunk [a] and its successor, as [firstfit_realloc] sees them. *)
Lemma realloc_prologue h l1 a l2 e :
  heap_wf h (l1 ++ (a, true) :: l2) e ->
  u32 (a + 12 - CHUNK_SIZE) = a /\
  is_used (hmem h) (hd_addr l2 e) = match l2 with [] => true | b :: _ => b.2 end.
Proof.
  intros Hwf. pose proof (wf_mid _ _ _ _ _ _ Hwf) as (_ & _ & _ & Hlo & Han & Hhi & _).
  pose proof Hwf as [(? & ? & _) _ _ _ _ Hr _]. rewrite <- app_assoc in Hr.
  unfold ALLOC_SIZE, CHUNK_SIZE in *. change (2 ^ 32) with 4294967296 in *.
  split; [rewrite u32_small; unfold in_u32; lia|].
  simpl in Hr. apply ring_mid in Hr as (_ & _ & Hs).
  destruct l2 as [|[c v] l2]; simpl in *; destruct Hs as [Hn _]; by eapply node_is_used in Hn.
Qed.

Lemma wf_next_next h l1 a c l3 e :
  heap_wf h (l1 ++ (a, true) :: (c, false) :: l3) e ->
  get_next (hmem h) c = hd_addr l3 e /\ c + 12 <= hd_addr l3 e /\
  get_size (hmem h) c = hd_addr l3 e - c - 12 /\ hd_addr l3 e + 12 <= endmem h /\ coal false l3.
Proof.
  intros Hwf. assert (heap_wf h ((l1 ++ [(a, true)]) ++ (c, false) :: l3) e) as Hwf'
    by (by rewrite <- app_assoc).
  pose proof (wf_mid _ _ _ _ _ _ Hwf') as (? & _ & _ & _ & ? & ? & ?).
  repeat split; try done. pose proof (wf_coal _ _ _ Hwf) as [_ [_ [_ Hc]]]%coal_app. done.
Qed.

Lemma in_blocks_keep (cur : Z) l1 a c v w l : cur <> c ->
  cur ∈ (l1 ++ (a, true) :: (c, v) :: l).*1 -> cur ∈ (l1 ++ (a, true) :: (w, false) :: l).*1.
Proof.
  intros Hne. rewrite !fmap_app, !elem_of_app. simpl. rewrite !elem_of_cons. tauto.
Qed.

Lemma in_blocks_add (cur : Z) l1 a w l :
  cur ∈ (l1 ++ (a, true) :: l).*1 -> cur ∈ (l1 ++ (a, true) :: (w, false) :: l).*1.
Proof. rewrite !fmap_app, !elem_of_app. simpl. rewrite !elem_of_cons. tauto. Qed.

Lemma live_split h body e p sz :
  heap_wf h body e -> alloc_map body e !! p = Some sz ->
  exists l1 a l2, body = l1 ++ (a, true) :: l2 /\ p = a + 12 /\ sz = hd_addr l2 e - a - 12.
Proof.
  intros Hwf Hp. pose proof Hp as ([a u] & Hin & -> & Hu)%alloc_map_key. simpl in *. subst u.
  apply list_elem_of_split in Hin as (l1 & l2 & ->). exists l1, a, l2. split; [done|split; [done|]].
  destruct (alloc_map_flip _ l1 a l2 l2 e _ (wf_spaced_mid _ _ _ _ _ Hwf)) as [_ Hm]; [done|].
  rewrite Hm, lookup_insert_eq in Hp. congruence.
Qed.

(** The part of [firstfit_realloc] shared by the two in-place branches. *)
Definition realloc_cut (h : alloc_t) (a w d cur : Z) : alloc_t :=
  with_mem (with_current h cur) (cut_mem (hmem h) a w d).

Lemma realloc_shrink_wf h l1 a l2 e w :
  heap_wf h (l1 ++ (a, true) :: l2) e ->
  a + 12 <= w -> w + 12 <= hd_addr l2 e -> w mod 4 = 0 ->
  let next := hd_addr l2 e in
  let '(cur, d) :=
    if negb (is_used (hmem h) next) then
      (if current h =? next then w else current h, get_next (hmem h) next)
    else (current h, next) in
  exists body', heap_wf (realloc_cut h a w d cur) body' e /\
    alloc_map body' e = <[a + 12 := w - a - 12]> (alloc_map (l1 ++ (a, true) :: l2) e).
Proof.
  intros Hwf Haw Hwn Hw4 next. destruct (realloc_prologue _ _ _ _ _ Hwf) as [_ Hu].
  fold next in Hu. rewrite Hu. pose proof (wf_coal _ _ _ Hwf) as [_ [_ Hc]]%coal_app. simpl in Hc.
  pose proof (wf_current _ _ _ Hwf) as Hcur. rewrite <- app_assoc in Hcur. simpl in Hcur.
  destruct (match l2 with [] => true | b :: _ => b.2 end) eqn:El; simpl.
  - eexists. eapply (cut_wf h l1 a [] l2 e w); try done.
    + destruct l2 as [|[c v] l2]; simpl in *; [done|]. by subst.
    + by apply in_blocks_add.
  - destruct l2 as [|[c v] l3]; simpl in *; [done|]. subst v. unfold next in *. simpl in *.
    destruct (wf_next_next _ _ _ _ _ _ Hwf) as (-> & Hc3 & _ & _ & Hcl).
    eexists. eapply (cut_wf h l1 a [(c, false)] l3 e w); try done; try lia.
    destruct (Z.eqb_spec (current h) c) as [_|Hne]; [|by eapply in_blocks_keep].
    rewrite fmap_app. apply elem_of_app. right. right. left.
Qed.

Lemma alloc_map_mid h l1 a l2 e : heap_wf h (l1 ++ (a, true) :: l2) e ->
  alloc_map (l1 ++ (a, true) :: l2) e !! (a + 12) = Some (hd_addr l2 e - a - 12).
Proof.
  intros Hwf. destruct (alloc_map_flip _ l1 a l2 l2 e _ (wf_spaced_mid _ _ _ _ _ Hwf)) as [_ ->]; [done|]. by rewrite lookup_insert_eq.
Qed.

Lemma realloc_shrink_correct h body e p sz size :
  heap_wf h body e -> alloc_map body e !! p = Some sz ->
  0 <= size <= INT_MAX -> aligned size < sz ->
  exists h' body' sz',
    firstfit_realloc h p size = Some (h', p) /\ heap_wf h' body' e /\ size <= sz' <= sz /\
    alloc_map body' e = <[p := sz']> (alloc_map body e).
Proof.
  intros Hwf Hp Hsize Hlt. destruct (live_split _ _ _ _ _ Hwf Hp) as (l1 & a & l2 & -> & -> & ->).
  pose proof (wf_mid _ _ _ _ _ _ Hwf) as (Hn & Ha4 & _ & Hlo & Han & Hhi & Hgs). simpl in Hn, Han, Hgs, Hhi.
  destruct (realloc_prologue _ _ _ _ _ Hwf) as [Hch _].
  pose proof (wf_bounds _ _ _ Hwf) as (Hb1 & Hb2 & Hb3). unfold firstfit_realloc.
  rewrite Hch, Hgs, Hn. unfold INT_MAX, ALLOC_SIZE, chunk_data, CHUNK_SIZE in *.
  change (2 ^ 32) with 4294967296 in *.
  rewrite aligned_spec in * by (change (2 ^ 32) with 4294967296; lia).
  set (A := 16 * ((size + 15) / 16)) in *. assert (size <= A /\ A mod 4 = 0) as [HA HA4] by (unfold A; zlia).
  destruct (Z.eqb_spec (a + 12) 0); [lia|].
  destruct (Z.ltb_spec A (hd_addr l2 e - a - 12)); [|lia].
  rewrite (u32_small (A + 12)) by (unfold in_u32; lia).
  destruct (Z.leb_spec (hd_addr l2 e - a - 12) (A + 12)).
  { eexists h, _, _. split; [done|]. split; [done|]. split; [|by rewrite insert_id]. lia. }
  rewrite (u32_small (a + 12 + A)), (u32_small (a + 12)) by (unfold in_u32; lia).
  pose proof (realloc_shrink_wf h l1 a l2 e (a + 12 + A) Hwf ltac:(lia) ltac:(lia) ltac:(zlia)) as Hcut.
  cbv zeta in Hcut. destruct (if negb _ then _ else _) as [cur d].
  destruct Hcut as (body' & Hwf' & Hmap). eexists _, body', A. split; [reflexivity|].
  split; [exact Hwf'|]. split; [lia|]. rewrite Hmap. do 2 f_equal. lia.
Qed.

Lemma realloc_grow_correct h l1 a c l3 e size :
  heap_wf h (l1 ++ (a, true) :: (c, false) :: l3) e -> 0 <= size <= INT_MAX ->
  c - a - 12 <= aligned size -> aligned size + a + 24 <= hd_addr l3 e ->
  exists h' body',
    firstfit_realloc h (a + 12) size = Some (h', a + 12) /\ heap_wf h' body' e /\
    alloc_map body' e =
      <[a + 12 := aligned size]> (alloc_map (l1 ++ (a, true) :: (c, false) :: l3) e).
Proof.
  intros Hwf Hsize Hge Hfit.
  pose proof (wf_mid _ _ _ _ _ _ Hwf) as (Hn & Ha4 & _ & Hlo & Han & Hhi & Hgs). simpl in Hn, Han, Hgs, Hhi.
  destruct (realloc_prologue _ _ _ _ _ Hwf) as [Hch Hu]. simpl in Hu.
  destruct (wf_next_next _ _ _ _ _ _ Hwf) as (Hnn & Hc3 & Hgs2 & Hd & Hcl).
  pose proof (wf_bounds _ _ _ Hwf) as (Hb1 & Hb2 & Hb3).
  pose proof (wf_current _ _ _ Hwf) as Hcur. rewrite <- app_assoc in Hcur. simpl in Hcur.
  unfold firstfit_realloc.
  rewrite Hch, Hgs, Hn, Hu, Hnn, Hgs2. unfold INT_MAX, ALLOC_SIZE, chunk_data, CHUNK_SIZE in *.
  change (2 ^ 32) with 4294967296 in *.
  rewrite aligned_spec in * by (change (2 ^ 32) with 4294967296; lia).
  set (A := 16 * ((size + 15) / 16)) in *. assert (size <= A <= size + 15 /\ A mod 4 = 0) as [HA HA4] by (unfold A; zlia).
  destruct (Z.eqb_spec (a + 12) 0); [lia|].
  destruct (Z.ltb_spec A (c - a - 12)); [lia|].
  rewrite (u32_small (A - (c - a - 12))) by (unfold in_u32; lia). cbn [negb andb].
  destruct (Z.leb_spec (A - (c - a - 12)) (hd_addr l3 e - c - 12)); [|lia].
  rewrite (u32_small (a + 12)), (u32_small (a + 12 + A)) by (unfold in_u32; lia).
  pose proof (cut_wf h l1 a [(c, false)] l3 e (a + 12 + A)
    (if current h =? c then hd_addr l3 e else current h) Hwf eq_refl Hcl
    ltac:(lia) ltac:(lia) ltac:(zlia)) as Hcut.
  destruct Hcut as [Hwf' Hmap].
  { destruct (Z.eqb_spec (current h) c) as [_|Hne]; [|by eapply in_blocks_keep].
    destruct (coal_false_next l3 e Hcl) as (d & l4 & El). rewrite El.
    pose proof (hd_addr_app l3 [(e, true)] 0) as E. rewrite El in E. simpl in E. subst d.
    rewrite fmap_app. apply elem_of_app. right. right. right. left. }
  eexists _, _. split; [reflexivity|]. split; [exact Hwf'|].
  rewrite Hmap. simpl. do 2 f_equal. lia.
Qed.

(** ** A client of the allocator

    A client state is the heap with the areas the client owns (pointer to
    requested size) and the words it wrote there.  It may ask for any
    size, release what it owns, and write to its areas; what a released area
    held is forgotten. *)

Definition client : Type := alloc_t * gmap Z Z * gmap Z Z.

Inductive client_step : client -> client -> Prop :=
| client_alloc h L D size h' p :
    0 <= size -> firstfit_malloc h size = Some (h', p) -> p <> 0 ->
    client_step (h, L, D) (h', <[p := size]> L, D)
| client_alloc_fails h L D size h' :
    0 <= size -> firstfit_malloc h size = Some (h', 0) -> client_step (h, L, D) (h', L, D)
| client_release h L D p n :
    L !! p = Some n -> client_step (h, L, D) (firstfit_free h p, delete p L, filter (fun av => ~ (p <= av.1 < p + n)) D)
| client_write h L D p n a v :
    L !! p = Some n -> p <= a < p + n -> a mod 4 = 0 -> client_step (h, L, D) (with_mem h (st (hmem h) a v), L, <[a := v]> D).

Lemma malloc_same_area h size h' p :
  firstfit_malloc h size = Some (h', p) -> startmem h' = startmem h /\ endmem h' = endmem h.
Proof.
  unfold firstfit_malloc. destruct (_ || _); [by intros [= <- _]|].
  generalize (max_chunks h) as fuel, (current h) as c. intros fuel.
  induction fuel as [|fuel IH]; intros c; [done|]. cbn [malloc_loop].
  destruct (_ && _).
  - unfold malloc_take. intros [= <- _]. done.
  - destruct (negb _); [by intros [= <- _]|]. destruct (_ =? _); [by intros [= <- _]|]. apply IH.
Qed.

Lemma free_same_area h p :
  startmem (firstfit_free h p) = startmem h /\ endmem (firstfit_free h p) = endmem h.
Proof.
  unfold firstfit_free. destruct (p =? 0); [done|]. destruct (negb _); [done|].
  cbv zeta. destruct (negb (is_used (set_free _ _) _)); destruct (negb _); done.
Qed.

Definition client_inv (lo hi : Z) (s : alloc_t * gmap Z Z) : Prop :=
  startmem s.1 = lo /\ endmem s.1 = hi /\
  exists body e,
    heap_wf s.1 body e /\ heap_aligned body /\
    dom s.2 = dom (alloc_map body e) /\
    map_Forall (fun p n => exists sz, alloc_map body e !! p = Some sz /\ n <= sz) s.2.

Lemma malloc_bad_size h size : 0 <= size -> ~ (0 < size <= INT_MAX) -> firstfit_malloc h size = Some (h, 0).
Proof.
  intros H0 H. unfold firstfit_malloc.
  destruct (Z.eqb_spec size 0); [done|]. destruct (Z.ltb_spec INT_MAX size); [done|lia].
Qed.

Lemma heap_aligned_live body e p sz :
  heap_aligned body -> alloc_map body e !! p = Some sz -> p mod ALIGN = 0.
Proof.
  intros Hal ([a u] & Hin & -> & _)%alloc_map_key.
  unfold heap_aligned in Hal. rewrite Forall_forall in Hal. apply Hal in Hin. simpl in *.
  unfold ALIGN, CHUNK_SIZE in *. zlia.
Qed.

(** One lemma per kind of step. *)
Lemma client_inv_alloc lo hi h L size h' p :
  client_inv lo hi (h, L) -> 0 <= size -> firstfit_malloc h size = Some (h', p) -> p <> 0 ->
  client_inv lo hi (h', <[p := size]> L).
Proof.
  intros (Hlo & Hhi & body & e & Hwf & Hal & Hdom & Hall) H0 Hm Hp. simpl in *.
  destruct (malloc_same_area _ _ _ _ Hm) as [Es Ee].
  destruct (decide (0 < size <= INT_MAX)) as [Hs|Hs]; [|rewrite malloc_bad_size in Hm by done; congruence].
  destruct (malloc_correct _ _ _ _ Hwf Hs)
    as (h1 & p1 & E & [(-> & _)|(_ & body' & sz & ? & ? & Hn & Hm' & Ha)]);
    rewrite Hm in E; inversion E; subst; [done|].
  split; [done|split; [done|]]. exists body', e. simpl. destruct (Ha Hal) as [Hal' _].
  split; [done|split; [done|]]. rewrite Hm', !dom_insert_L, Hdom. split; [done|].
  apply map_Forall_insert_2; [exists sz; by rewrite lookup_insert_eq|].
  intros q k Hq. destruct (Hall q k Hq) as (sz' & Hsz' & ?). exists sz'. split; [|done].
  rewrite lookup_insert_ne; [done|]. intros ->. congruence.
Qed.

Lemma client_inv_alloc_fails lo hi h L size h' :
  client_inv lo hi (h, L) -> 0 <= size -> firstfit_malloc h size = Some (h', 0) ->
  client_inv lo hi (h', L).
Proof.
  intros (Hlo & Hhi & body & e & Hwf & Hal & Hdom & Hall) H0 Hm. simpl in *.
  assert (h' = h) as ->; [|split; [done|split; [done|by exists body, e]]].
  destruct (decide (0 < size <= INT_MAX)) as [Hs|Hs];
    [|rewrite malloc_bad_size in Hm by done; congruence].
  destruct (malloc_correct _ _ _ _ Hwf Hs) as (h1 & p1 & E & [(-> & -> & _)|(? & _)]); congruence.
Qed.

Lemma client_inv_release lo hi h L p n :
  client_inv lo hi (h, L) -> L !! p = Some n -> client_inv lo hi (firstfit_free h p, delete p L).
Proof.
  intros (Hlo & Hhi & body & e & Hwf & Hal & Hdom & Hall) HL. simpl in *.
  destruct (free_same_area h p) as [Es Ee].
  destruct (Hall p n HL) as (sz & Hsz & _).
  destruct (free_correct _ _ _ _ _ Hwf Hsz) as (body' & ? & Hm & Ha).
  split; [simpl; congruence|split; [simpl; congruence|]].
  exists body', e. simpl. split; [done|split; [by apply Ha|]].
  rewrite Hm, !dom_delete_L, Hdom. split; [done|].
  intros q k [Hne Hq]%lookup_delete_Some. destruct (Hall q k Hq) as (sz' & ? & ?).
  exists sz'. by rewrite lookup_delete_ne.
Qed.

(** ** What the allocator leaves alone

    The allocator writes only words of headers. *)

Definition off (x c : Z) : Prop := x < c \/ c + 12 <= x.

Lemma set_chunk_off m c n p u x : off x c -> ld (set_chunk m c n p u) x = ld m x.
Proof. unfold off. intros H. unfold set_chunk, set_used, set_free. destruct u; by rewrite !ld_st_ne by lia. Qed.
Lemma set_used_off m c x : off x c -> ld (set_used m c) x = ld m x.
Proof. unfold off. intros H. unfold set_used. by rewrite ld_st_ne by lia. Qed.
Lemma set_free_off m c x : off x c -> ld (set_free m c) x = ld m x.
Proof. unfold off. intros H. unfold set_free. by rewrite ld_st_ne by lia. Qed.
Lemma merge_mem_off m a b d x : off x a -> off x b -> off x d -> ld (merge_mem m a b d) x = ld m x.
Proof.
  unfold off. intros Ha Hb Hd. unfold merge_mem, erase, set_prev, set_next, set_used, set_free. rewrite !(ld_st_ne _ (_ + _)) by lia.
  destruct (is_used _ _); by rewrite !ld_st_ne by lia.
Qed.

(** The neighbours of a chunk are chunks of the ring. *)
Lemma hd_addr_in l d : l <> [] -> hd_addr l d ∈ l.*1.
Proof. destruct l; [done|]. intros _. left. Qed.
Lemma last_addr_in l d : l <> [] -> last_addr l d ∈ l.*1.
Proof.
  destruct l as [|b l _] using rev_ind; [done|]. intros _. rewrite last_addr_app, fmap_app. simpl. apply elem_of_app. right. left.
Qed.

Lemma chunk_neighbours m bs c : ring m bs -> c ∈ bs.*1 -> get_next m c ∈ bs.*1 /\ get_prev m c ∈ bs.*1.
Proof.
  intros Hr ([a u] & -> & (l1 & l2 & ->)%list_elem_of_split)%list_elem_of_fmap.
  apply (ring_rotate _ l1) in Hr. unfold ring in Hr. simpl in Hr. destruct Hr as [(Hn & Hp & _) _].
  unfold get_next, get_prev. simpl in *. rewrite Hn, Hp. rewrite fmap_app, fmap_cons. simpl. split.
  - destruct l2 as [|[b v] l2]; simpl; [|apply elem_of_app; right; right; left].
    destruct l1 as [|[b v] l1]; simpl; [left|left].
  - destruct (l2 ++ l1) as [|x l] eqn:E; [destruct l2; [|done]; simpl in E; subst; left|].
    assert (Hin : last_addr (l2 ++ l1) a ∈ (l2 ++ l1).*1) by (apply last_addr_in; by rewrite E). rewrite E in Hin.
    change (foldl _ a (x :: l)) with (last_addr (x :: l) a).
    assert (Hin2 : last_addr (x :: l) a ∈ (l2 ++ l1).*1) by (by rewrite E). rewrite fmap_app in Hin2.
    apply elem_of_app in Hin2 as [?|?]; apply elem_of_app; [right; by right|by left].
Qed.

(** A word of a live area lies outside every header, and outside every free
    chunk. *)
Lemma payload_off h body e p sz x c :
  heap_wf h body e -> alloc_map body e !! p = Some sz -> p <= x < p + sz -> c ∈ (body ++ [(e, true)]).*1 -> off x c.
Proof.
  intros Hwf Hp Hx Hc. destruct (live_split _ _ _ _ _ Hwf Hp) as (l1 & b & l2 & -> & -> & ->).
  pose proof (wf_spaced _ _ _ Hwf) as Hsp. rewrite <- app_assoc in Hsp, Hc. simpl in Hsp, Hc.
  assert (exists y l3, l2 ++ [(e, true)] = y :: l3 /\ y.1 = hd_addr l2 e) as (y & l3 & E & Ey) by (destruct l2 as [|y l2]; simpl; eauto).
  rewrite E in *. destruct (spaced_outer _ l1 (b, true) [] y l3 _ Hsp) as (Hl1 & Hby & Hl3). simpl in Hl1, Hby.
  apply list_elem_of_fmap in Hc as ([c' v] & -> & Hc). unfold off. simpl.
  rewrite Forall_forall in Hl1, Hl3. apply elem_of_app in Hc as [Hc|Hc]; [apply Hl1 in Hc; simpl in Hc; lia|].
  apply elem_of_cons in Hc as [[= <- _]|Hc]; [lia|]. apply elem_of_cons in Hc as [<-|Hc]; [simpl in *; lia|].
  apply Hl3 in Hc. simpl in Hc. lia.
Qed.

Lemma payload_off_free h l1 a l2 e p sz x :
  heap_wf h (l1 ++ (a, false) :: l2) e -> alloc_map (l1 ++ (a, false) :: l2) e !! p = Some sz -> p <= x < p + sz ->
  x < a \/ hd_addr l2 e <= x.
Proof.
  intros Hwf Hp Hx. assert (Ha : off x a) by (eapply payload_off; [done..|]; rewrite !fmap_app; simpl; set_solver).
  destruct (Z.lt_ge_cases x a) as [|Hge]; [by left|right]. destruct Ha as [?|Ha]; [lia|].
  pose proof Hwf as Hsp%wf_spaced_mid.
  assert (exists y l3, l2 ++ [(e, true)] = y :: l3 /\ y.1 = hd_addr l2 e) as (y & l3 & E & Ey) by (destruct l2 as [|y l2]; simpl; eauto).
  assert (Hp' : p <= a \/ hd_addr l2 e + 12 <= p).
  { apply alloc_map_key in Hp as ([c u] & Hin & -> & Hu). simpl in *. subst u.
    rewrite E in Hsp. destruct (spaced_outer _ l1 (a, false) [] y l3 _ Hsp) as (Hl1 & Hby & Hl3). simpl in *.
    rewrite Forall_forall in Hl1, Hl3. apply elem_of_app in Hin as [Hin|Hin]; [apply Hl1 in Hin; simpl in Hin; lia|].
    apply elem_of_cons in Hin as [?|Hin]; [done|]. assert (Hin2 : (c, true) ∈ y :: l3) by (rewrite <- E; set_solver).
    apply elem_of_cons in Hin2 as [<-|Hin2]; [simpl in *; lia|]. apply Hl3 in Hin2. simpl in Hin2. lia. }
  destruct Hp' as [Hp'|?]; [|lia]. exfalso.
  destruct (live_split _ _ _ _ _ Hwf Hp) as (k1 & b & k2 & Eb & -> & ->).
  pose proof (payload_off _ _ _ _ _ a a Hwf Hp) as Ho. destruct (decide (a < b + 12 + (hd_addr k2 e - b - 12))) as [Hlt|Hge'].
  - assert (off a a) as [?|?]; [|lia..]. apply Ho; [lia|]. rewrite !fmap_app. simpl. set_solver.
  - lia.
Qed.

Lemma malloc_keeps h body e size h' q p sz x :
  heap_wf h body e -> 0 <= size -> firstfit_malloc h size = Some (h', q) ->
  alloc_map body e !! p = Some sz -> p <= x < p + sz -> ld (hmem h') x = ld (hmem h) x.
Proof.
  intros Hwf H0 Hm Hp Hx. destruct (decide (0 < size <= INT_MAX)) as [Hsz|Hsz]; [|rewrite malloc_bad_size in Hm by done; congruence].
  destruct (from_current_exists h _ (wf_current _ _ _ Hwf)) as (r & Hr). rewrite (malloc_search _ _ _ _ _ Hwf Hsz Hr) in Hm.
  destruct (List.find _ r) as [[a u]|] eqn:Hf; [|congruence].
  apply (find_rotate _ _ _ _ _ _ Hr) in Hf as [Hin Hfit]. apply elem_of_app in Hin as [Hin|Hin].
  2:{ apply list_elem_of_singleton in Hin. inversion Hin; subst. done. }
  apply list_elem_of_split in Hin as (l1 & l2 & ->). rewrite fits_iff in Hfit by done. destruct Hfit as [-> Hfit].
  pose proof (payload_off_free _ _ _ _ _ _ _ _ Hwf Hp Hx) as Hfree.
  assert (Hn : off x (hd_addr l2 e)) by (eapply payload_off; [done..|]; rewrite <- app_assoc, fmap_app; destruct l2; simpl; set_solver).
  pose proof (wf_mid _ _ _ _ _ _ Hwf) as (Hgn & _ & _ & Hlo & Han & Hnhi & _). simpl in Hgn, Han, Hnhi.
  pose proof (wf_bounds _ _ _ Hwf) as (Hb0 & Hb1 & _). unfold ALLOC_SIZE in *. change (2 ^ 32) with 4294967296 in *.
  injection Hm as <- _. simpl. unfold malloc_take. rewrite malloc_offset by done. simpl hmem. rewrite Hgn.
  unfold chunk_data, CHUNK_SIZE, INT_MAX in *. rewrite (u32_small (a + 12)) by (unfold in_u32; lia).
  assert (Hw : size + 12 <= 16 * ((size + 27) / 16) <= size + 27) by zlia. set (k := 16 * ((size + 27) / 16)) in *.
  rewrite (u32_small (a + 12 + (k - 12))) by (unfold in_u32; lia). rewrite (u32_small (a + 12 + (k - 12) + 12)) by (unfold in_u32; lia).
  rewrite (u32_small (a + 12 + (k - 12) + 12 + 4)) by (unfold in_u32; lia).
  rewrite set_used_off by (unfold off in *; lia).
  destruct (Z.leb_spec (a + 12 + (k - 12) + 12 + 4) (hd_addr l2 e)); [|done].
  rewrite !set_chunk_off; [done|..]; unfold off in *; lia.
Qed.

Lemma free_keeps h body e q k p sz x :
  heap_wf h body e -> alloc_map body e !! q = Some k -> alloc_map body e !! p = Some sz -> p <> q -> p <= x < p + sz ->
  ld (hmem (firstfit_free h q)) x = ld (hmem h) x.
Proof.
  intros Hwf Hq Hp Hne Hx. assert (Hoff : forall c, c ∈ (body ++ [(e, true)]).*1 -> off x c) by (intros c; by eapply payload_off).
  destruct (live_split _ _ _ _ _ Hwf Hq) as (l1 & a & l2 & -> & -> & ->).
  pose proof (wf_mid _ _ _ _ _ _ Hwf) as (Hgn & _ & _ & Hlo & Han & Hhi & _). simpl in Hgn, Han, Hhi.
  pose proof Hwf as [(Hb1 & Hb2 & _) _ _ _ Hc Hr _]. rewrite <- app_assoc in Hr, Hoff. simpl in Hr, Hoff.
  change ALLOC_SIZE with 20 in Hlo. change (2 ^ 32) with 4294967296 in *.
  assert (Hchunk : u32 (a + 12 - CHUNK_SIZE) = a) by (rewrite u32_small; unfold in_u32, CHUNK_SIZE; lia).
  pose proof Hr as (_ & Hna & _)%ring_mid. pose proof (wf_spaced_mid _ _ _ _ _ Hwf) as Hsp.
  pose proof (free_steps h (a + 12) ltac:(lia)) as Hfree. rewrite Hchunk in Hfree.
  specialize (Hfree (node_check_sum _ _ _ _ _ Hna)). simpl in Hfree.
  assert (get_next (set_free (hmem h) a) a = hd_addr l2 e) as E0 by (rewrite <- Hgn; unfold get_next, set_free; by mem_red).
  rewrite E0 in Hfree. pose proof (ring_set_free _ _ _ _ _ _ _ Hsp Hr) as Hr0.
  assert (spaced (startmem h + ALLOC_SIZE) (l1 ++ (a, false) :: l2 ++ [(e, true)]) (endmem h)) as Hsp0 by (by apply spaced_app in Hsp; apply spaced_app).
  apply coal_app in Hc as [Hc1 [_ Hc2]].
  destruct (merge_next_ring _ _ _ _ _ _ _ Hsp0 Hr0 Hc2) as (m1 & l2' & E1 & Hsp1 & Hr1 & Hc3 & Hm1 & HF1).
  assert (Hin : forall l c, c ∈ (l1 ++ (a, false) :: l).*1 -> (forall y, y ∈ l.*1 -> y ∈ (l2 ++ [(e, true)]).*1) -> off x c).
  { intros l c Hc' Hl. apply Hoff. rewrite fmap_app in Hc' |- *. simpl in Hc' |- *. set_solver. }
  assert (Hl2' : forall y, y ∈ (l2' ++ [(e, true)]).*1 -> y ∈ (l2 ++ [(e, true)]).*1).
  { intros y. rewrite !fmap_app, !elem_of_app. intros [Hy|?]; [left|by right]. apply list_elem_of_fmap in Hy as (b & -> & Hb).
    apply list_elem_of_fmap. exists b. split; [done|]. assert (Hall : Forall (fun b => b ∈ l2) l2') by (apply HF1; by apply Forall_forall). rewrite Forall_forall in Hall. by apply Hall. }
  assert (Hhd : forall l, hd_addr l e ∈ (l ++ [(e, true)]).*1) by (intros [|b l]; simpl; set_solver).
  assert (Hina : forall l y, y ∈ l.*1 -> y ∈ (l1 ++ (a, false) :: l).*1) by (intros l y Hy; rewrite fmap_app; simpl; apply elem_of_app; right; by right).
  assert (Haa : forall l, a ∈ (l1 ++ (a, false) :: l).*1) by (intros l; rewrite fmap_app; simpl; apply elem_of_app; right; left).
  assert (Hoa : off x a) by (by apply (Hin (l2 ++ [(e, true)]))).
  assert (K1 : ld m1 x = ld (hmem h) x).
  { unfold merge_next in E1. destruct (negb _) eqn:Eu in E1; injection E1 as <- _; [|by apply set_free_off].
    rewrite merge_mem_off; [by apply set_free_off|done|..]; apply (Hin (l2 ++ [(e, true)])); try done; [by apply Hina|].
    apply (chunk_neighbours _ _ _ Hr0). by apply Hina. }
  rewrite E1 in Hfree. destruct (merge_prev m1 a (hd_addr l2' e)) as [m2 c] eqn:E2. rewrite Hfree. simpl. rewrite <- K1.
  unfold merge_prev in E2. destruct (negb _) eqn:Eu in E2; injection E2 as <- _; [|done].
  apply merge_mem_off; [|done|]; apply (Hin (l2' ++ [(e, true)])); try done; [|by apply Hina].
  apply (chunk_neighbours _ _ _ Hr1). apply Haa.
Qed.

(** A word of a live area is no word of a header. *)
Lemma live_write_wf h body e p sz a v :
  heap_wf h body e -> alloc_map body e !! p = Some sz -> p <= a -> a + 4 <= p + sz ->
  heap_wf (with_mem h (st (hmem h) a v)) body e.
Proof.
  intros Hwf Hp H1 H2. destruct (live_split _ _ _ _ _ Hwf Hp) as (l1 & b & l2 & -> & -> & ->).
  pose proof Hwf as [_ _ Hsp Hw Hc Hr Hcur]. eapply heap_wf_mem; [exact Hwf|done|done|by apply Forall_app in Hw as [? _]|done| |done].
  eapply seg_agree, Hr. rewrite <- app_assoc in Hsp |- *. simpl in Hsp |- *.
  assert (exists y l3, l2 ++ [(e, true)] = y :: l3 /\ y.1 = hd_addr l2 e) as (y & l3 & E & Ey) by (destruct l2 as [|y l2]; simpl; eauto).
  rewrite E in *. destruct (spaced_outer _ l1 (b, true) [] y l3 _ Hsp) as (Hl1 & Hby & Hl3). simpl in Hl1, Hby.
  assert (Hag : forall x, x + 12 <= b + 12 \/ hd_addr l2 e <= x -> agree (hmem h) (st (hmem h) a v) x).
  { intros x Hx. unfold agree. rewrite !ld_st_ne by lia. done. }
  rewrite Forall_app, !Forall_cons. split_and!.
  - eapply Forall_impl; [exact Hl1|]. simpl. intros x Hx. apply Hag. lia.
  - apply Hag. simpl. lia.
  - apply Hag. lia.
  - eapply Forall_impl; [exact Hl3|]. simpl. intros x Hx. apply Hag. lia.
Qed.

Lemma live_word_room h body e p sz : heap_wf h body e -> alloc_map body e !! p = Some sz -> p mod 4 = 0 /\ sz mod 4 = 0.
Proof.
  intros Hwf Hp. destruct (live_split _ _ _ _ _ Hwf Hp) as (l1 & b & l2 & -> & -> & ->).
  destruct (wf_mid _ _ _ _ _ _ Hwf) as (_ & Hb & Hn & _). simpl in Hn. zlia.
Qed.

Lemma client_inv_write lo hi h L p n a v :
  client_inv lo hi (h, L) -> L !! p = Some n -> p <= a < p + n -> a mod 4 = 0 -> client_inv lo hi (with_mem h (st (hmem h) a v), L).
Proof.
  intros (Hlo & Hhi & body & e & Hwf & Hal & Hdom & Hall) HL Ha H4. simpl in *.
  destruct (Hall p n HL) as (sz & Hsz & Hn). destruct (live_word_room _ _ _ _ _ Hwf Hsz) as [Hp4 Hs4].
  split; [done|split; [done|]]. exists body, e. simpl. split; [|done]. eapply live_write_wf; [done..|lia|zlia].
Qed.

(** Every word the client wrote is still in one of its areas. *)
Definition data_inv (s : client) : Prop :=
  map_Forall (fun a v => exists p n, s.1.2 !! p = Some n /\ p <= a < p + n /\ ld (hmem s.1.1) a = v) s.2.

Lemma data_keep h h' (L L' D : gmap Z Z) :
  (forall p n, L !! p = Some n -> L' !! p = Some n /\ forall x, p <= x < p + n -> ld (hmem h') x = ld (hmem h) x) ->
  data_inv (h, L, D) -> data_inv (h', L', D).
Proof.
  intros Hk Hd a v Ha. destruct (Hd a v Ha) as (p & n & Hp & Hr & <-). simpl in Hp.
  destruct (Hk p n Hp) as [Hp' Hx]. exists p, n. split; [done|split; [done|]]. by apply Hx.
Qed.

Lemma malloc_data lo hi h L size h' q :
  client_inv lo hi (h, L) -> 0 <= size -> firstfit_malloc h size = Some (h', q) ->
  forall p n x, L !! p = Some n -> p <= x < p + n -> ld (hmem h') x = ld (hmem h) x.
Proof.
  intros (_ & _ & body & e & Hwf & _ & _ & Hall) H0 Hm p n x Hp Hx. destruct (Hall p n Hp) as (sz & Hsz & Hn).
  eapply malloc_keeps; [done..|lia].
Qed.

Lemma malloc_fresh lo hi h L size h' p :
  client_inv lo hi (h, L) -> 0 <= size -> firstfit_malloc h size = Some (h', p) -> p <> 0 -> L !! p = None.
Proof.
  intros (_ & _ & body & e & Hwf & _ & Hdom & _) H0 Hm Hp. simpl in *.
  destruct (decide (0 < size <= INT_MAX)) as [Hs|Hs]; [|rewrite malloc_bad_size in Hm by done; congruence].
  destruct (malloc_correct _ _ _ _ Hwf Hs) as (h1 & p1 & E & [(-> & _)|(_ & body' & sz & _ & _ & Hn & _)]); rewrite Hm in E; inversion E; subst; [done|].
  apply not_elem_of_dom. rewrite Hdom. by apply not_elem_of_dom.
Qed.

Lemma data_step lo hi s s' : client_inv lo hi s.1 -> data_inv s -> client_step s s' -> data_inv s'.
Proof.
  intros Hinv Hd Hstep. destruct Hstep as [h L D size h' p H0 Hm Hp|h L D size h' H0 Hm|h L D p n HL|h L D p n a v HL Ha H4]; simpl in Hinv.
  - eapply data_keep, Hd. intros q k Hq. pose proof (malloc_fresh _ _ _ _ _ _ _ Hinv H0 Hm Hp).
    rewrite lookup_insert_ne by congruence. split; [done|]. intros x Hx. by eapply malloc_data.
  - eapply data_keep, Hd. intros q k Hq. split; [done|]. intros x Hx. by eapply malloc_data.
  - intros a v [Ha Hout]%map_lookup_filter_Some. simpl in Hout. destruct (Hd a v Ha) as (q & k & Hq & Hr & <-). simpl in Hq.
    assert (q <> p) by (intros ->; assert (k = n) by congruence; subst; done).
    exists q, k. simpl. rewrite lookup_delete_ne by done. split; [done|split; [done|]].
    destruct Hinv as (_ & _ & body & e & Hwf & _ & _ & Hall). destruct (Hall p n HL) as (s1 & Hs1 & _), (Hall q k Hq) as (s2 & Hs2 & ?).
    eapply free_keeps; [done..|lia].
  - intros b w Hb. simpl in *. destruct (decide (a = b)) as [<-|Hne].
    + rewrite lookup_insert_eq in Hb. injection Hb as <-. exists p, n. rewrite ld_st_eq. done.
    + rewrite lookup_insert_ne in Hb by done. destruct (Hd b w Hb) as (q & k & Hq & Hr & <-). exists q, k. by rewrite ld_st_ne by done.
Qed.

Lemma client_inv_step lo hi s s' : client_inv lo hi s.1 -> client_step s s' -> client_inv lo hi s'.1.
Proof.
  intros Hinv Hstep. destruct Hstep.
  - by eapply client_inv_alloc.
  - by eapply client_inv_alloc_fails.
  - by eapply client_inv_release.
  - by eapply client_inv_write.
Qed.

Lemma client_inv_reachable lo hi s s' :
  client_inv lo hi s.1 -> data_inv s -> rtc client_step s s' -> client_inv lo hi s'.1 /\ data_inv s'.
Proof. intros Hs Hd Hr. induction Hr; eauto using client_inv_step, data_step. Qed.

Lemma client_inv_new m start size h :
  0 <= start -> start mod ALIGN = 0 -> 48 <= size <= INT_MAX -> start + size + 32 <= 2 ^ 32 ->
  firstfit_new m start size = Some h -> client_inv start (start + size) (h, ∅).
Proof.
  intros H1 H2 H3 H4 Hn. destruct (new_correct m _ _ H1 H2 H3 H4) as (h1 & a & e & E & Hwf & Hal & Es & Ee & _).
  rewrite Hn in E. inversion E; subst h1. split; [done|split; [done|]].
  exists [(a, false)], e. split; [done|split; [done|]]. simpl. split; [done|]. apply map_Forall_empty.
Qed.

Lemma client_inv_areas lo hi h L :
  client_inv lo hi (h, L) -> forall p n, L !! p = Some n ->
    p mod ALIGN = 0 /\ lo + ALLOC_SIZE < p /\ p + n <= hi /\
    forall q k, L !! q = Some k -> p <> q -> p + n <= q \/ q + k <= p.
Proof.
  intros (Hlo & Hhi & body & e & Hwf & Hal & _ & Hall) p n Hp. simpl in *. destruct (Hall p n Hp) as (sz & Hsz & Hle).
  pose proof (alloc_map_bounds _ _ _ _ _ _ (wf_spaced _ _ _ Hwf) Hsz).
  split; [by eapply heap_aligned_live|]. split; [lia|split; [lia|]].
  intros q k Hq Hne. destruct (Hall q k Hq) as (sz2 & Hsz2 & Hle2).
  destruct (live_disjoint _ _ _ _ _ _ _ Hwf Hsz Hsz2 Hne) as [[?|?] _]; [left|right]; lia.
Qed.

(** ** The properties *)

(** C1: whatever sequence of allocations (of any size, failing or not),
    releases and writes to words of its areas a client performs on a heap made by [firstfit_new], the areas
    it owns are pairwise disjoint, 16-byte aligned, inside the memory the
    heap was given and behind the allocator's own header; every word it wrote
    to an area it still owns is there; and the checksum walk
    [firstfit_corruption] finds nothing. *)
Theorem client_areas_safe m start size h0 h L D :
  0 <= start -> start mod ALIGN = 0 -> 48 <= size <= INT_MAX -> start + size + 32 <= 2 ^ 32 ->
  firstfit_new m start size = Some h0 ->
  rtc client_step (h0, ∅, ∅) (h, L, D) ->
  firstfit_corruption h = Some 0 /\
  (forall a v, D !! a = Some v -> ld (hmem h) a = v) /\
  forall p n, L !! p = Some n ->
    p mod ALIGN = 0 /\ start + ALLOC_SIZE < p /\ p + n <= start + size /\
    forall q k, L !! q = Some k -> p <> q -> p + n <= q \/ q + k <= p.
Proof.
  intros H1 H2 H3 H4 Hn Hr.
  apply (client_inv_reachable start (start + size)) in Hr as [Hr Hd]; [|by eapply client_inv_new|by intros ? ? ?].
  pose proof (client_inv_areas _ _ _ _ Hr) as Ha. destruct Hr as (_ & _ & body & e & Hwf & _).
  split; [by eapply wf_no_corruption|]. split; [|done]. intros a v Hav. by destruct (Hd a v Hav) as (? & ? & _ & _ & ?).
Qed.

(** A concrete heap of 64 KiB at address 4096, with one area of 20 bytes
    taken from it. *)
Definition demo0 : alloc_t :=
  Eval vm_compute in default (mk_alloc 0 0 0 0 0 ∅) (firstfit_new ∅ 4096 65536).
Definition demo1 : alloc_t :=
  Eval vm_compute in default demo0 (fst <$> firstfit_malloc demo0 20).
Definition demo1_body : list block := [(4116, true); (4148, false)].
Definition demo1_end : Z := 69620.

Lemma demo1_wf : heap_wf demo1 demo1_body demo1_end.
Proof.
  split; try by vm_compute.
  - repeat constructor.
  - vm_compute. right. left.
Qed.

Lemma client_areas_safe_witness :
  firstfit_corruption (with_mem demo1 (st (hmem demo1) 4132 77)) = Some 0 /\
  (forall a v, ({[4132 := 77]} : gmap Z Z) !! a = Some v -> ld (st (hmem demo1) 4132 77) a = v) /\
  forall p n, ({[4128 := 20]} : gmap Z Z) !! p = Some n ->
    p mod ALIGN = 0 /\ 4096 + ALLOC_SIZE < p /\ p + n <= 4096 + 65536 /\
    forall q k, ({[4128 := 20]} : gmap Z Z) !! q = Some k -> p <> q -> p + n <= q \/ q + k <= p.
Proof.
  apply (client_areas_safe ∅ 4096 65536 demo0); [lia|reflexivity|unfold INT_MAX; lia|lia|reflexivity|].
  eapply rtc_l; [apply (client_alloc demo0 ∅ ∅ 20 demo1 4128); [lia|by vm_compute|lia]|].
  apply rtc_once. apply (client_write demo1 _ _ 4128 20 4132 77); [by rewrite insert_empty, lookup_singleton_eq|lia|done].
Defined.

(** C17: on a well-formed heap [firstfit_malloc] always returns.  It fails
    (NULL, heap untouched) only when every free chunk is too small;
    otherwise it returns a fresh pointer to an area of at least [size]
    bytes, the heap stays well formed, the set of live areas grows by just
    that area, and alignment is kept. *)
Theorem firstfit_malloc_correct h body e size :
  heap_wf h body e -> 0 < size <= INT_MAX ->
  exists h' p, firstfit_malloc h size = Some (h', p) /\
    ((p = 0 /\ h' = h /\
      forall l1 a l2, body = l1 ++ (a, false) :: l2 -> hd_addr l2 e - a - 12 < size) \/
     (p <> 0 /\ exists body' sz,
        heap_wf h' body' e /\ size <= sz /\
        alloc_map body e !! p = None /\
        alloc_map body' e = <[p := sz]> (alloc_map body e) /\
        (heap_aligned body -> heap_aligned body' /\ p mod ALIGN = 0))).
Proof. apply malloc_correct. Qed.

Lemma firstfit_malloc_correct_witness :
  exists h' p, firstfit_malloc demo1 100 = Some (h', p) /\
    ((p = 0 /\ h' = demo1 /\
      forall l1 a l2, demo1_body = l1 ++ (a, false) :: l2 -> hd_addr l2 demo1_end - a - 12 < 100) \/
     (p <> 0 /\ exists body' sz,
        heap_wf h' body' demo1_end /\ 100 <= sz /\
        alloc_map demo1_body demo1_end !! p = None /\
        alloc_map body' demo1_end = <[p := sz]> (alloc_map demo1_body demo1_end) /\
        (heap_aligned demo1_body -> heap_aligned body' /\ p mod ALIGN = 0))).
Proof. apply (firstfit_malloc_correct demo1 demo1_body demo1_end 100 demo1_wf). unfold INT_MAX. lia. Defined.

(** The search is first fit: with [r] the chunks in ring order from
    [current], [firstfit_malloc] takes exactly the first chunk of [r] that
    is free and large enough, and returns NULL when there is none. *)
Theorem firstfit_malloc_first_fit h body e size r :
  heap_wf h body e -> 0 < size <= INT_MAX -> from_current h (body ++ [(e, true)]) r ->
  firstfit_malloc h size =
    Some (match List.find (fits (hmem h) size) r with
          | Some b => malloc_take h b.1 size
          | None => (h, 0)
          end).
Proof. apply malloc_search. Qed.

(** C18: releasing a live area keeps the heap well formed (free neighbours
    are merged, no two free chunks stay adjacent) and removes exactly that
    area from the live ones. *)
Theorem firstfit_free_correct h body e p sz :
  heap_wf h body e -> alloc_map body e !! p = Some sz ->
  exists body',
    heap_wf (firstfit_free h p) body' e /\
    alloc_map body' e = delete p (alloc_map body e) /\
    (heap_aligned body -> heap_aligned body').
Proof. apply free_correct. Qed.

Lemma firstfit_free_correct_witness :
  exists body',
    heap_wf (firstfit_free demo1 4128) body' demo1_end /\
    alloc_map body' demo1_end = delete 4128 (alloc_map demo1_body demo1_end) /\
    (heap_aligned demo1_body -> heap_aligned body').
Proof. apply (firstfit_free_correct demo1 demo1_body demo1_end 4128 20 demo1_wf). reflexivity. Defined.

(** Once every area has been released the heap is again the single free
    chunk [firstfit_new] made: fragmentation does not survive. *)
Theorem all_released h body e :
  heap_wf h body e -> alloc_map body e = ∅ -> body = [(first_chunk h, false)].
Proof. apply all_released_correct. Qed.

Lemma demo0_wf : heap_wf demo0 [(4116, false)] demo1_end.
Proof.
  split; try by vm_compute.
  - repeat constructor.
  - vm_compute. left.
Qed.

(** [firstfit_realloc] works in place when it can.  To a smaller size: the
    same pointer, a well-formed heap, at least [size] bytes kept, and the
    remainder (merged with a free successor) given back.  To a larger size,
    when the successor is a free chunk with room for the growth: the same
    pointer, a well-formed heap, and an area of the aligned size. *)
Theorem firstfit_realloc_in_place h body e p sz size :
  heap_wf h body e -> alloc_map body e !! p = Some sz -> 0 <= size <= INT_MAX ->
  (aligned size < sz ->
   exists h' body' sz', firstfit_realloc h p size = Some (h', p) /\ heap_wf h' body' e /\ size <= sz' <= sz /\
     alloc_map body' e = <[p := sz']> (alloc_map body e)) /\
  (forall l1 a c l3, body = l1 ++ (a, true) :: (c, false) :: l3 -> p = a + 12 ->
   sz <= aligned size -> aligned size + a + 24 <= hd_addr l3 e ->
   exists h' body', firstfit_realloc h p size = Some (h', p) /\ heap_wf h' body' e /\
     alloc_map body' e = <[p := aligned size]> (alloc_map body e)).
Proof.
  intros Hwf Hp Hs. split; [by apply realloc_shrink_correct|].
  intros l1 a c l3 -> -> Hle Hroom. apply (realloc_grow_correct h l1 a c l3 e size Hwf Hs); [|done].
  rewrite (alloc_map_mid h l1 a ((c, false) :: l3) e Hwf) in Hp. injection Hp as <-. done.
Qed.

(** ** What goes wrong *)

(** The chunk cut by [firstfit_realloc] is not at [ALIGN * n - CHUNK_SIZE],
    so a later allocation from it is not aligned. *)
Definition demo_unaligned : option (Z * Z) :=
  '(h, p) ← firstfit_malloc demo0 100;
  '(h, _) ← firstfit_realloc h p 16;
  '(h, q) ← firstfit_malloc h 4;
  Some (p, q).

Lemma realloc_breaks_alignment :
  demo_unaligned = Some (4128, 4156) /\ 4156 mod ALIGN <> 0.
Proof. by vm_compute. Qed.

(** Relocation copies the whole old chunk, also when the new chunk is
    smaller, and overwrites the header behind it. *)
Definition demo_corrupted : option (alloc_t * Z) :=
  '(h, p) ← firstfit_malloc demo0 100;
  '(h, _) ← firstfit_realloc h p 16;
  '(h, _) ← firstfit_malloc h 4;
  '(h, _) ← firstfit_realloc h p 1;
  bad ← firstfit_corruption h;
  Some (h, bad).

Lemma realloc_corrupts_heap :
  (fun r : alloc_t * Z => r.2) <$> demo_corrupted = Some 4176.
Proof. by vm_compute. Qed.

(** A size within 15 bytes of 2^32 rounds to 0: [firstfit_realloc] reports
    success and leaves an empty area. *)
Lemma realloc_huge_succeeds :
  (fun r : alloc_t * Z => (r.2, get_size (hmem r.1) 4116)) <$>
    firstfit_realloc demo1 4128 4294967288 = Some (4128, 0).
Proof. by vm_compute. Qed.

(** [firstfit_new] accepts 45 to 47 bytes at an aligned address, but such a
    heap can never serve a request. *)
Lemma new_degenerate :
  firstfit_new ∅ 4096 45 ≫= (fun h => snd <$> firstfit_malloc h 1) = Some 0.
Proof. by vm_compute. Qed.

End FFP.
