(* ===== verification/PMem.v ===== *)
(** * Physical page frames (src/mem/pmem.c, include/mem/pmem.h)

    Module [PM]: the bump allocator of page frames, the address arithmetic
    around it and the [/dev/mem] geometry. *)

From S2P Require Import Prelude.

Module PM.

Definition ETODO : Z := 39.

(** The globals [theEdgeOfAllocatedMemory] and [theEndOfUpperMemory], in
    pages. *)
Record pmem := mk_pmem { edge : Z; upper_end : Z }.

Definition pagealign_up (p : Z) : Z :=
  let i := p / PAGE_BYTES in
  let r := p mod PAGE_BYTES in
  u32 (PAGE_BYTES * (if r =? 0 then i else i + 1)).

Definition pagealign_down (p : Z) : Z := u32 ((p / PAGE_BYTES) * PAGE_BYTES).

Definition page_aligned (addr : Z) : Z :=
  if addr mod PAGE_BYTES =? 0 then addr / PAGE_BYTES else 1 + addr / PAGE_BYTES.

Definition page_aligned_back (addr : Z) : Z := addr / PAGE_BYTES.

Definition __pa (vaddr : Z) : Z := u32 (vaddr - KERN_OFF).
Definition __va (paddr : Z) : Z := u32 (paddr + KERN_OFF).

Definition UPPER_MEMORY_OFFSET : Z := 1048576.

(** [pmem_setup] from the multiboot data: kilobytes of upper memory, the
    virtual address of [_end], and the ends of the loaded modules. *)
Definition pmem_setup (uppermem_kb kernel_end : Z) (mod_ends : list Z) : pmem :=
  let pages := uppermem_kb / (PAGE_BYTES / 1024) in
  let pages := if 1024 * 1024 <=? pages then 1024 * 1024 - 1 else pages in
  let free_pmem_edge :=
    foldl (fun edge mod_end => if edge <? mod_end then mod_end else edge)
          (__pa kernel_end) mod_ends in
  mk_pmem (page_aligned free_pmem_edge)
          (UPPER_MEMORY_OFFSET / PAGE_BYTES + pages).

(** Physical address of the first frame, 0 when memory is exhausted. *)
Definition pmem_alloc (s : pmem) (pages_count : Z) : pmem * Z :=
  let old_edge := edge s in
  let new_edge := u32 (old_edge + pages_count) in
  if upper_end s <? new_edge then (s, 0)
  else (mk_pmem new_edge (upper_end s), u32 (PAGE_BYTES * old_edge)).

Definition kmem_alloc (s : pmem) (pages_count : Z) : pmem * Z :=
  let '(s, p) := pmem_alloc s pages_count in (s, __va p).

Definition pmem_free (s : pmem) (start_page pages_count : Z) : pmem * Z :=
  if u32 (start_page + pages_count) =? edge s
  then (mk_pmem start_page (upper_end s), 0)
  else (s, ETODO).

(** [/dev/mem]: block addresses, block size and size in blocks. *)
Definition chrram_mem_get_roblock (block : Z) : Z := u32 (block * PAGE_BYTES).
Definition chrram_mem_get_rwblock (block : Z) : Z := u32 (block * PAGE_BYTES).
Definition chrram_mem_blocksize : Z := PAGE_BYTES.
Definition chrram_mem_size (uppermem_kb : Z) : Z :=
  s32 (u64 (uppermem_kb * 1024) / PAGE_BYTES).

(** ** Properties *)

(** The frames are numbered below 2^20 and frame 0 is never handed out. *)
Definition pmem_wf (s : pmem) : Prop := 0 < edge s <= upper_end s /\ upper_end s < 2 ^ 20.

Lemma page_aligned_spec addr :
  0 <= addr -> addr <= PAGE_BYTES * page_aligned addr < addr + PAGE_BYTES.
Proof. unfold page_aligned, PAGE_BYTES. intros H. case_if; zlia. Qed.

Lemma pagealign_up_spec p :
  0 <= p -> p + PAGE_BYTES <= 2 ^ 32 ->
  pagealign_up p mod PAGE_BYTES = 0 /\ p <= pagealign_up p < p + PAGE_BYTES.
Proof.
  unfold pagealign_up, PAGE_BYTES. change (2 ^ 32) with 4294967296. intros H1 H2.
  case_if; rewrite u32_small by (unfold in_u32; zlia); zlia.
Qed.

Lemma pmem_alloc_ok s n s' p :
  pmem_wf s -> 0 <= n < 2 ^ 31 -> pmem_alloc s n = (s', p) ->
  (p = 0 /\ s' = s /\ upper_end s < edge s + n) \/
  (p = PAGE_BYTES * edge s /\ edge s' = edge s + n /\ upper_end s' = upper_end s /\
   pmem_wf s' /\ 0 < p /\ p + PAGE_BYTES * n <= 2 ^ 32).
Proof.
  unfold pmem_wf, pmem_alloc, PAGE_BYTES. change (2 ^ 31) with 2147483648.
  change (2 ^ 20) with 1048576. change (2 ^ 32) with 4294967296. intros (H1 & H2) Hn.
  rewrite (u32_small (edge s + n)) by (unfold in_u32; lia).
  rewrite (u32_small (4096 * edge s)) by (unfold in_u32; lia).
  case_if; intros [= <- <-]; simpl; [left; split; [done|split; [done|lia]]|right; lia].
Qed.

Lemma pmem_alloc_free_id s n s' p :
  pmem_wf s -> 0 <= n < 2 ^ 31 -> pmem_alloc s n = (s', p) -> p <> 0 ->
  pmem_free s' (p / PAGE_BYTES) n = (s, 0).
Proof.
  intros Hwf Hn Ha Hp. destruct (pmem_alloc_ok _ _ _ _ Hwf Hn Ha) as [(-> & _)|(-> & He & Hu & Hwf' & _)]; [done|].
  unfold pmem_free. rewrite (Z.mul_comm PAGE_BYTES), Z.div_mul by done.
  unfold pmem_wf in Hwf'. rewrite <- He, u32_small by (unfold in_u32; lia).
  rewrite Z.eqb_refl, Hu. by destruct s.
Qed.

(** A run of allocations: the frames handed out never overlap. *)
Fixpoint alloc_run (s : pmem) (ns : list Z) : pmem * list (Z * Z) :=
  match ns with
  | [] => (s, [])
  | n :: ns =>
      let '(s, p) := pmem_alloc s n in
      let '(s, ps) := alloc_run s ns in
      (s, if p =? 0 then ps else (p, n) :: ps)
  end.

Lemma alloc_run_above s ns s' ps :
  pmem_wf s -> Forall (fun n => 0 <= n < 2 ^ 31) ns -> alloc_run s ns = (s', ps) ->
  pmem_wf s' /\ Forall (fun pn => PAGE_BYTES * edge s <= pn.1 /\ 0 <= pn.2) ps.
Proof.
  revert s ps. induction ns as [|n ns IH]; intros s ps Hwf Hns; simpl.
  { intros [= <- <-]. done. }
  inversion Hns as [|? ? Hn Hns']; subst.
  destruct (pmem_alloc s n) as [s1 p] eqn:Ea. destruct (alloc_run s1 ns) as [s2 ps2] eqn:Er.
  intros [= <- <-].
  destruct (pmem_alloc_ok _ _ _ _ Hwf Hn Ea) as [(-> & -> & _)|(-> & He & _ & Hwf1 & Hp & _)]; simpl.
  { by eapply IH. }
  destruct (IH _ _ Hwf1 Hns' Er) as [Hwf2 Hps]. split; [done|].
  assert (Forall (fun pn => PAGE_BYTES * edge s <= pn.1 /\ 0 <= pn.2) ps2).
  { eapply Forall_impl; [exact Hps|]. simpl. unfold PAGE_BYTES in *. intros ?. lia. }
  case_if; [done|]. constructor; [simpl; lia|done].
Qed.

(** Areas are listed in increasing order without overlap. *)
Fixpoint frames_disjoint (lo : Z) (ps : list (Z * Z)) : Prop :=
  match ps with
  | [] => True
  | (p, n) :: ps => lo <= p /\ p mod PAGE_BYTES = 0 /\ frames_disjoint (p + PAGE_BYTES * n) ps
  end.

Lemma frames_disjoint_weaken lo lo' ps : lo' <= lo -> frames_disjoint lo ps -> frames_disjoint lo' ps.
Proof. destruct ps as [|[p n] ps]; simpl; [done|]. intros H (? & ? & ?). split; [lia|done]. Qed.

Lemma alloc_run_disjoint s ns s' ps :
  pmem_wf s -> Forall (fun n => 0 <= n < 2 ^ 31) ns -> alloc_run s ns = (s', ps) ->
  frames_disjoint (PAGE_BYTES * edge s) ps.
Proof.
  revert s ps. induction ns as [|n ns IH]; intros s ps Hwf Hns; simpl.
  { intros [= <- <-]. done. }
  inversion Hns as [|? ? Hn Hns']; subst.
  destruct (pmem_alloc s n) as [s1 p] eqn:Ea. destruct (alloc_run s1 ns) as [s2 ps2] eqn:Er.
  intros [= <- <-].
  destruct (pmem_alloc_ok _ _ _ _ Hwf Hn Ea) as [(-> & -> & _)|(-> & He & _ & Hwf1 & Hp & _)]; simpl.
  { by eapply IH. }
  specialize (IH _ _ Hwf1 Hns' Er). rewrite He in IH.
  destruct (Z.eqb_spec (PAGE_BYTES * edge s) 0); [lia|]. simpl. split; [lia|]. split.
  - by rewrite Z.mul_comm, Z.mod_mul.
  - eapply frames_disjoint_weaken, IH. lia.
Qed.

(** Any sequence of frame allocations hands out page-aligned, pairwise
    disjoint physical areas in increasing order, none of them below the
    initial edge and none at address 0. *)
Theorem pmem_alloc_disjoint s ns s' ps :
  pmem_wf s -> Forall (fun n => 0 <= n < 2 ^ 31) ns -> alloc_run s ns = (s', ps) ->
  frames_disjoint (PAGE_BYTES * edge s) ps /\ pmem_wf s' /\ Forall (fun pn => 0 < pn.1) ps.
Proof.
  intros Hwf Hns Hr. split; [by eapply alloc_run_disjoint|].
  destruct (alloc_run_above _ _ _ _ Hwf Hns Hr) as [Hwf' Hps]. split; [done|].
  eapply Forall_impl; [exact Hps|]. simpl. destruct Hwf as [? _]. unfold PAGE_BYTES. lia.
Qed.

(** A failed [kmem_alloc] is not NULL but the start of kernel memory. *)
Lemma kmem_alloc_never_null s n : (kmem_alloc s n).2 = 0 -> (pmem_alloc s n).2 = 2 ^ 32 - KERN_OFF.
Proof.
  unfold kmem_alloc. destruct (pmem_alloc s n) as [s' p] eqn:E. simpl.
  assert (in_u32 p) as Hp.
  { unfold pmem_alloc in E. destruct (_ <? _); inversion E; [done|apply u32_range]. }
  unfold __va, u32, KERN_OFF, in_u32 in *. change (2 ^ 32) with 4294967296. zlia.
Qed.

(** A page count close to 2^32 wraps and moves the edge back over frames
    that are in use. *)
Lemma pmem_alloc_wraps :
  pmem_alloc (mk_pmem 300 1280) 4294967286 = (mk_pmem 290 1280, 1228800).
Proof. reflexivity. Qed.

End PM.
