(* ===== verification/KHeap.v ===== *)
(** * The kernel heap (src/mem/kheap.c)

    Module [KH]: the interface [Heap] that the other components see of the
    kernel heap, its implementation by the first-fit allocator, and
    [kheap_setup]. *)

From S2P Require Import Prelude FirstFit FirstFitProofs PMem.

Module KH.

(** What [kmalloc] and [kfree] promise.  [heap_inv h live] says that [h] is in
    order and that [live] maps the allocated areas to their sizes. *)
Class Heap (H : Type) := {
  kmalloc : H -> Z -> H * Z;
  kfree : H -> Z -> H;
  heap_inv : H -> gmap Z Z -> Prop;
  kmalloc_spec h live size h' p :
    heap_inv h live -> 0 < size <= INT_MAX -> kmalloc h size = (h', p) ->
    (p = 0 /\ h' = h) \/
    (0 < p /\ p mod 16 = 0 /\ live !! p = None /\ exists n, size <= n /\ heap_inv h' (<[p := n]> live));
  kfree_spec h live p n :
    heap_inv h live -> live !! p = Some n -> heap_inv (kfree h p) (delete p live);
  live_apart h live p n q k :
    heap_inv h live -> live !! p = Some n -> live !! q = Some k -> p <> q -> p + n <= q \/ q + k <= p }.

(** ** The implementation over [theHeap] *)

(** The search of [firstfit_malloc] always ends on a heap in order, so the
    default is never used. *)
Definition kheap_malloc (theHeap : FF.alloc_t) (size : Z) : FF.alloc_t * Z :=
  default (theHeap, 0) (FF.firstfit_malloc theHeap size).
Definition kheap_free (theHeap : FF.alloc_t) (p : Z) : FF.alloc_t := FF.firstfit_free theHeap p.
Definition kheap_realloc (theHeap : FF.alloc_t) (p size : Z) : FF.alloc_t * Z :=
  default (theHeap, 0) (FF.firstfit_realloc theHeap p size).
Definition kheap_check (theHeap : FF.alloc_t) : option Z := FF.firstfit_corruption theHeap.

Definition ff_inv (h : FF.alloc_t) (live : gmap Z Z) : Prop :=
  exists body e, FFP.heap_wf h body e /\ FFP.heap_aligned body /\ FFP.alloc_map body e = live.

Lemma ff_malloc_spec h live size h' p :
  ff_inv h live -> 0 < size <= INT_MAX -> kheap_malloc h size = (h', p) ->
  (p = 0 /\ h' = h) \/
  (0 < p /\ p mod 16 = 0 /\ live !! p = None /\ exists n, size <= n /\ ff_inv h' (<[p := n]> live)).
Proof.
  intros (body & e & Hwf & Hal & <-) Hs. unfold kheap_malloc.
  destruct (FFP.malloc_correct h body e size Hwf Hs) as (h1 & p1 & -> & Hcase). intros [= -> ->].
  destruct Hcase as [(-> & -> & _)|(Hp & body' & sz & Hwf' & Hsz & Hn & Hm & Hal')]; [by left|right].
  destruct (Hal' Hal) as [Hal1 Hp16].
  assert (Hb : FFP.alloc_map body' e !! p = Some sz) by (rewrite Hm; by rewrite lookup_insert_eq).
  pose proof (FFP.alloc_map_bounds _ _ _ _ _ _ (FFP.wf_spaced _ _ _ Hwf') Hb) as Hbd.
  pose proof (FFP.wf_bounds _ _ _ Hwf') as [H0 _]. change FF.ALLOC_SIZE with 20 in Hbd.
  split; [lia|]. split; [done|]. split; [done|]. exists sz. split; [done|]. exists body', e. by rewrite Hm.
Qed.

Lemma ff_free_spec h live p n : ff_inv h live -> live !! p = Some n -> ff_inv (kheap_free h p) (delete p live).
Proof.
  intros (body & e & Hwf & Hal & <-) Hp. destruct (FFP.free_correct h body e p n Hwf Hp) as (body' & Hwf' & Hm & Hal').
  exists body', e. split; [done|]. split; [by apply Hal'|done].
Qed.

Lemma ff_live_apart h live p n q k :
  ff_inv h live -> live !! p = Some n -> live !! q = Some k -> p <> q -> p + n <= q \/ q + k <= p.
Proof. intros (body & e & Hwf & _ & <-) Hp Hq Hne. by apply (FFP.live_disjoint h body e p n q k). Qed.

#[export] Instance ff_heap : Heap FF.alloc_t := {|
  kmalloc := kheap_malloc; kfree := kheap_free; heap_inv := ff_inv;
  kmalloc_spec := ff_malloc_spec; kfree_spec := ff_free_spec; live_apart := ff_live_apart |}.

(** ** Setting up the heap *)

Definition KHEAP_INITIAL_SIZE : Z := 256 * PAGE_BYTES.

(** The page allocator and the heap; [None] when [theHeap] stays NULL. *)
Definition kheap_setup (s : PM.pmem) (m : wmem) : PM.pmem * option FF.alloc_t :=
  let npages := PM.pagealign_up KHEAP_INITIAL_SIZE / PAGE_BYTES in
  let '(s, start_heap_addr) := PM.kmem_alloc s npages in
  if start_heap_addr =? 0 then (s, None)
  else (s, FF.firstfit_new m start_heap_addr KHEAP_INITIAL_SIZE).

(** With 256 frames left below the top of the kernel window,
    [kheap_setup] takes them and leaves a heap in order with nothing
    allocated, whose areas [kmalloc] and [kfree] then manage. *)
Theorem kheap_setup_correct s m :
  PM.pmem_wf s -> PM.edge s + 256 <= PM.upper_end s -> PM.upper_end s < 2 ^ 18 ->
  exists s' h, kheap_setup s m = (s', Some h) /\ (PM.edge s' = PM.edge s + 256 /\ PM.upper_end s' = PM.upper_end s) /\ heap_inv h ∅ /\
    FF.startmem h = KERN_OFF + PAGE_BYTES * PM.edge s /\ FF.endmem h = FF.startmem h + KHEAP_INITIAL_SIZE.
Proof.
  intros Hwf Hroom Hup. unfold kheap_setup, PM.kmem_alloc. change (PM.pagealign_up KHEAP_INITIAL_SIZE / PAGE_BYTES) with 256.
  destruct (PM.pmem_alloc s 256) as [s' p] eqn:Ea.
  destruct (PM.pmem_alloc_ok _ 256 _ _ Hwf ltac:(lia) Ea) as [(-> & -> & Hno)|(-> & He & Hu & Hwf' & Hp & Hend)]; [lia|].
  destruct Hwf as [He0 _]. unfold PAGE_BYTES in *.
  assert (Hva : PM.__va (4096 * PM.edge s) = KERN_OFF + 4096 * PM.edge s).
  { unfold PM.__va. rewrite u32_small; [lia|]. unfold in_u32, KERN_OFF. lia. }
  rewrite Hva. assert (Hnz : KERN_OFF + 4096 * PM.edge s <> 0) by (unfold KERN_OFF; lia).
  rewrite (proj2 (Z.eqb_neq _ _) Hnz).
  destruct (FFP.new_correct m (KERN_OFF + 4096 * PM.edge s) KHEAP_INITIAL_SIZE) as (h & a & e & -> & Hh & Hal & Hs & Hn & _).
  - unfold KERN_OFF. lia.
  - change FF.ALIGN with 16. unfold KERN_OFF. zlia.
  - unfold KHEAP_INITIAL_SIZE, PAGE_BYTES, INT_MAX. lia.
  - unfold KHEAP_INITIAL_SIZE, PAGE_BYTES, KERN_OFF. lia.
  - exists s', h. split; [done|]. split; [done|]. split; [by exists [(a, false)], e|]. split; [done|]. by rewrite Hs.
Qed.

End KH.
