(* ===== verification/Paging.v ===== *)
(** * Page tables (src/mem/paging.c) and process memory (src/core/process.c)

    Module [PG]: the page directories and page tables in physical memory,
    the operations that build them, a reference page walk of the i386 MMU,
    and the operations that grow a process (stack, break, ELF segments).

    The kernel reaches a physical address [p] through [__va(p)]: it maps
    the first gigabyte of physical memory at [KERN_OFF] with huge pages.  The
    memory here is indexed by physical addresses, and the invariant keeps
    every frame below that gigabyte. *)

From S2P Require Import Prelude PMem.
Import PM.

Module PG.

Definition PDE_SHIFT : Z := 22.
Definition PTE_SHIFT : Z := 12.
Definition N_PDE : Z := 1024.
Definition PTE_PRESENT : Z := 1.
Definition PTE_WRITABLE : Z := 2.
Definition PTE_USER : Z := 4.
Definition EINVAL : Z := 22.
Definition ENOMEM : Z := 12.

(** The allocator's counters and the physical memory. *)
Record mm := mk_mm { pm : pmem; phys : bmem }.

(** Bit fields of [pde_t] and [pte_t]: bit [i], and the 20-bit [index]. *)
Definition set_bit (w i : Z) : Z := Z.lor w (Z.shiftl 1 i).
Definition bit_index (w : Z) : Z := Z.land (Z.shiftr w 12) 1048575.
Definition set_bit_index (w idx : Z) : Z :=
  Z.lor (Z.land w 4095) (Z.shiftl (Z.land idx 1048575) 12).

(** [pagedir_alloc]: [kpd] is the physical address of [thePageDirectory]. *)
Definition pagedir_alloc (s : mm) (kpd : Z) : mm * Z :=
  let '(p, pagedir) := pmem_alloc (pm s) 1 in
  let m := bfill (phys s) pagedir (Z.to_nat PAGE_BYTES) 0 in
  let kpde_offset := Z.shiftr KERN_OFF PDE_SHIFT in
  let kpde_size := 4 * (N_PDE - kpde_offset) in
  let m := bcopy m (pagedir + 4 * kpde_offset) (kpd + 4 * kpde_offset) (Z.to_nat kpde_size) in
  let m := st32 m pagedir (ld32 m kpd) in
  (mk_mm p m, pagedir).

(** The page table of [vpde[pde_index]], allocated when the entry is 0;
    [None] is the failed allocation. *)
Definition pagetbl_get_or_new (s : mm) (pagedir pde_index : Z) : mm * option Z :=
  let pde := ld32 (phys s) (pagedir + 4 * pde_index) in
  if negb (pde =? 0) then (s, Some (u32 (Z.shiftl (bit_index pde) PTE_SHIFT)))
  else
    let '(p, pagetbl) := pmem_alloc (pm s) 1 in
    if pagetbl =? 0 then (mk_mm p (phys s), None)
    else
      let m := bfill (phys s) pagetbl (Z.to_nat PAGE_BYTES) 0 in
      let pde := set_bit pde 0 in
      let pde := set_bit pde 1 in
      let pde := set_bit pde 2 in
      let pde := set_bit pde 3 in
      let pde := set_bit pde 4 in
      let pde := set_bit_index pde (Z.shiftr pagetbl 12) in
      (mk_mm p (st32 m (pagedir + 4 * pde_index) pde), Some pagetbl).

(** The frame of [vpte[pte_index]], allocated when the entry is 0. *)
Definition page_get_or_new (s : mm) (vpte pte_index pte_mask : Z) : mm * Z :=
  let pte := ld32 (phys s) (vpte + 4 * pte_index) in
  if pte =? 0 then
    let '(p, page) := pmem_alloc (pm s) 1 in
    if page =? 0 then (mk_mm p (phys s), 0)
    else
      let pte := pte_mask in
      let pte := set_bit pte 0 in
      let pte := set_bit pte 2 in
      let pte := set_bit_index pte (Z.shiftr page 12) in
      (mk_mm p (st32 (phys s) (vpte + 4 * pte_index) pte), Z.land pte 4294963200)
  else (s, Z.land pte 4294963200).

Definition pagedir_get_or_new (s : mm) (pagedir vaddr pte_mask : Z) : mm * Z :=
  if negb (vaddr <? KERN_OFF) then (s, 0)
  else
    let pte_index := Z.land (Z.shiftr vaddr PTE_SHIFT) 1023 in
    let pde_index := Z.shiftr vaddr PDE_SHIFT in
    match pagetbl_get_or_new s pagedir pde_index with
    | (s, None) => (s, 0)
    | (s, Some vpte) => page_get_or_new s vpte pte_index pte_mask
    end.

(** ** Process memory *)

(** The fields of [process_t] that describe its memory. *)
Record proc_mem := mk_proc_mem { cr3 : Z; ps_userstack : Z; ps_heap_end : Z }.

(** The loop of [process_grow_stack]; [None] is fuel running out. *)
Fixpoint grow_loop (fuel : nat) (s : mm) (p : proc_mem) (faultaddr : Z) : option (mm * proc_mem * Z) :=
  if negb (faultaddr <? ps_userstack p) then Some (s, p, 0)
  else match fuel with
  | O => None
  | S fuel =>
      let ustack := u32 (ps_userstack p - PAGE_BYTES) in
      let '(s, paddr) := pagedir_get_or_new s (cr3 p) ustack (Z.lor PTE_WRITABLE PTE_USER) in
      if paddr =? 0 then Some (s, p, -1)
      else
        let s := mk_mm (pm s) (bfill (phys s) paddr (Z.to_nat PAGE_BYTES) 0) in
        grow_loop fuel s (mk_proc_mem (cr3 p) ustack (ps_heap_end p)) faultaddr
  end.

Definition process_grow_stack (s : mm) (p : proc_mem) (faultaddr : Z) : option (mm * proc_mem * Z) :=
  grow_loop (Z.to_nat ((ps_userstack p - faultaddr) / PAGE_BYTES + 1)) s p faultaddr.

(** [pg_fault]: error code 6 (user write to an absent page) at most ten
    pages below the stack of a process grows it, anything else hangs. *)
Inductive fault_outcome :=
| FaultHang
| FaultReturn (grown : option (mm * proc_mem * Z)).

Definition pg_fault (s : mm) (proc : option proc_mem) (fault_error fault_addr : Z) : fault_outcome :=
  match proc with
  | Some p =>
      if (fault_error =? 6)
         && (u32 (ps_userstack p - 10 * PAGE_BYTES) <=? fault_addr)
         && (fault_addr <? ps_userstack p)
      then FaultReturn (process_grow_stack s p fault_addr)
      else FaultHang
  | None => FaultHang
  end.

(** The loop of [sys_brk]: the address reached, or [None] on failure. *)
Fixpoint brk_loop (fuel : nat) (s : mm) (pagedir vaddr brk : Z) : option (mm * option Z) :=
  if negb (vaddr <? brk) then Some (s, Some vaddr)
  else match fuel with
  | O => None
  | S fuel =>
      let '(s, paddr) := pagedir_get_or_new s pagedir vaddr (Z.lor PTE_WRITABLE PTE_USER) in
      if paddr =? 0 then Some (s, None)
      else brk_loop fuel s pagedir (u32 (vaddr + PAGE_BYTES)) brk
  end.

Definition sys_brk (s : mm) (p : proc_mem) (addr : Z) : option (mm * proc_mem * Z) :=
  if addr =? 0 then Some (s, p, ps_heap_end p)
  else match brk_loop (Z.to_nat ((addr - ps_heap_end p) / PAGE_BYTES + 1)) s (cr3 p) (ps_heap_end p) addr with
  | None => None
  | Some (s, Some vaddr) => Some (s, mk_proc_mem (cr3 p) (ps_userstack p) vaddr, vaddr)
  | Some (s, None) => Some (s, p, 0)
  end.

(** ** ELF segments *)

Record Elf32_Phdr := mk_phdr {
  p_type : Z; p_offset : Z; p_vaddr : Z; p_filesz : Z; p_memsz : Z; p_align : Z }.

(** Copy [n] bytes of the image to [dst] and clear the next [z] bytes. *)
Definition copy_clear (m : bmem) (dst src n z : Z) : bmem :=
  bfill (bcopy m dst src (Z.to_nat n)) (dst + n) (Z.to_nat z) 0.

Fixpoint segment_loop (fuel : nat) (s : mm) (hdr : Elf32_Phdr) (elfmem pagedir off : Z) : option (mm * Z) :=
  if negb (off <? p_memsz hdr) then Some (s, 0)
  else match fuel with
  | O => None
  | S fuel =>
      let vaddr := u32 (p_vaddr hdr + off) in
      let '(s, paddr) := pagedir_get_or_new s pagedir vaddr (Z.lor PTE_WRITABLE PTE_USER) in
      if paddr =? 0 then Some (s, - ENOMEM)
      else
        let bytes_to_copy :=
          if off <? p_filesz hdr then
            if PAGE_BYTES <? p_filesz hdr - off then PAGE_BYTES else p_filesz hdr - off
          else 0 in
        let m := copy_clear (phys s) paddr (u32 (elfmem + p_offset hdr + off))
                            bytes_to_copy (PAGE_BYTES - bytes_to_copy) in
        segment_loop fuel (mk_mm (pm s) m) hdr elfmem pagedir (u32 (off + PAGE_BYTES))
  end.

Definition process_segment_from_memory (s : mm) (hdr : Elf32_Phdr) (elfmem pagedir : Z) : option (mm * Z) :=
  let fuel := Z.to_nat (p_memsz hdr / PAGE_BYTES + 1) in
  if negb (p_align hdr =? PAGE_BYTES) then Some (s, - EINVAL)
  else if negb (Z.land (p_vaddr hdr) 4095 =? 0) then
    let vaddr := Z.land (p_vaddr hdr) 4294963200 in
    let voff := Z.land (p_vaddr hdr) 4095 in
    let size := PAGE_BYTES - voff in
    let '(s, paddr) := pagedir_get_or_new s pagedir vaddr (Z.lor PTE_WRITABLE PTE_USER) in
    if paddr =? 0 then Some (s, - ENOMEM)
    else
      let bytes_to_copy := if p_filesz hdr <? size then p_filesz hdr else size in
      let m := copy_clear (phys s) (paddr + voff) (u32 (elfmem + p_offset hdr))
                          bytes_to_copy (size - bytes_to_copy) in
      segment_loop fuel (mk_mm (pm s) m) hdr elfmem pagedir size
  else segment_loop fuel s hdr elfmem pagedir 0.

End PG.
