(* ===== verification/PagingProofs.v ===== *)
(** * Correctness of the page tables and of process memory

    Module [PGP]: the reference page walk, the ownership invariant of the
    frames, the effect of every operation of [Paging] on all translations,
    and the theorems on stack growth, [sys_brk] and ELF segments. *)

From S2P Require Import Prelude PMem Paging.
Import PM PG.

Module PGP.

(** ** The page walk of the MMU

    The physical address, and whether user code may access and write it. *)
Definition walk (m : bmem) (pd va : Z) : option (Z * bool * bool) :=
  let pde := ld32 m (pd + 4 * (va / 4194304)) in
  if negb (Z.testbit pde 0) then None
  else if Z.testbit pde 7 then
    Some (4194304 * (pde / 4194304) + va mod 4194304, Z.testbit pde 2, Z.testbit pde 1)
  else
    let pte := ld32 m (4096 * (pde / 4096) + 4 * ((va / 4096) mod 1024)) in
    if negb (Z.testbit pte 0) then None
    else Some (4096 * (pte / 4096) + va mod 4096,
               Z.testbit pde 2 && Z.testbit pte 2,
               Z.testbit pde 1 && Z.testbit pte 1).

(** ** Who owns a frame *)

Inductive role :=
| Dir
| Table (pd i : Z)        (** page table [i] of directory [pd] *)
| Page (pd i j : Z)       (** frame of entry [j] of that table *)
| Image.                  (** memory the kernel keeps: boot modules *)

Abbreviation owners := (gmap Z role).

(** Flags of a present, user accessible directory or table entry. *)
Definition pde_flags (fl : Z) : Prop :=
  0 <= fl < 4096 /\ Z.testbit fl 0 = true /\ Z.testbit fl 1 = true /\
  Z.testbit fl 2 = true /\ Z.testbit fl 7 = false.
Definition pte_flags (fl : Z) : Prop :=
  0 <= fl < 4096 /\ Z.testbit fl 0 = true /\ Z.testbit fl 2 = true.

(** Directory entries 1..767 belong to the process: entry 0 is the identity
    mapping of the first 4 MB, the rest is the kernel's. *)
Definition user_pde (i : Z) : Prop := 1 <= i < 768.

Record mm_wf (own : owners) (pds : list Z) (s : mm) : Prop := {
  wf_pm : pmem_wf (pm s) /\ upper_end (pm s) <= 2 ^ 18;
  wf_own : forall f r, own !! f = Some r -> 0 < f < edge (pm s);
  wf_dir : forall pd, pd ∈ pds -> exists q, pd = 4096 * q /\ own !! q = Some Dir;
  wf_tab : forall f pd i, own !! f = Some (Table pd i) -> pd ∈ pds;
  wf_pde : forall pd i, pd ∈ pds -> user_pde i ->
    ld32 (phys s) (pd + 4 * i) = 0 \/
    exists f fl, ld32 (phys s) (pd + 4 * i) = 4096 * f + fl /\ pde_flags fl /\
                 own !! f = Some (Table pd i);
  wf_pte : forall pd i f j, pd ∈ pds -> user_pde i -> 0 <= j < 1024 ->
    own !! f = Some (Table pd i) ->
    ld32 (phys s) (4096 * f + 4 * j) = 0 \/
    exists g fl, ld32 (phys s) (4096 * f + 4 * j) = 4096 * g + fl /\ pte_flags fl /\
                 own !! g = Some (Page pd i j) }.

(** User addresses above the identity mapping. *)
Definition user_va (va : Z) : Prop := 4194304 <= va < KERN_OFF.

Lemma user_va_pde va : user_va va -> user_pde (va / 4194304).
Proof. unfold user_va, user_pde, KERN_OFF. zlia. Qed.

(** ** Bit fields *)

Lemma testbit_low f fl n : 0 <= n < 12 -> Z.testbit (4096 * f + fl) n = Z.testbit fl n.
Proof.
  intros Hn. rewrite <- (Z.mod_pow2_bits_low (4096 * f + fl) 12 n) by lia.
  rewrite <- (Z.mod_pow2_bits_low fl 12 n) by lia. f_equal.
  change (2 ^ 12) with 4096. rewrite Z.add_comm, Z.mul_comm, Z.mod_add; done.
Qed.

Lemma bit_index_spec f fl : 0 <= fl < 4096 -> 0 <= f < 1048576 -> bit_index (4096 * f + fl) = f.
Proof.
  intros Hfl Hf. unfold bit_index.
  change 1048575 with (2 ^ 20 - 1). rewrite land_ones_mod, Z.shiftr_div_pow2 by lia.
  change (2 ^ 12) with 4096. change (2 ^ 20) with 1048576. zlia.
Qed.

Lemma set_bit_index_spec w idx :
  0 <= idx < 1048576 -> set_bit_index w idx = 4096 * idx + w mod 4096.
Proof.
  intros Hi. unfold set_bit_index. rewrite land_fff.
  change 1048575 with (2 ^ 20 - 1). rewrite land_ones_mod by lia.
  rewrite (Z.mod_small idx) by (change (2 ^ 20) with 1048576; lia).
  rewrite lor_shiftl_add by (change (2 ^ 12) with 4096; zlia).
  change (2 ^ 12) with 4096. lia.
Qed.

Lemma page_mask_spec g fl :
  0 <= g < 1048576 -> 0 <= fl < 4096 -> Z.land (4096 * g + fl) 4294963200 = 4096 * g.
Proof.
  intros Hg Hfl. replace 4294963200 with (Z.shiftl (2 ^ 20 - 1) 12) by done.
  apply Z.bits_inj'; intros n Hn. rewrite Z.land_spec.
  replace (4096 * g) with (Z.shiftl g 12) by (rewrite Z.shiftl_mul_pow2 by lia; change (2 ^ 12) with 4096; lia).
  destruct (Z.lt_ge_cases n 12) as [Hl|Hl].
  - rewrite !Z.shiftl_spec_low by lia. apply andb_false_r.
  - rewrite !Z.shiftl_spec by lia.
    replace (Z.testbit (Z.shiftl g 12 + fl) n) with (Z.testbit g (n - 12)).
    + rewrite <- Z.land_spec. rewrite land_ones_mod by lia. f_equal. apply Z.mod_small.
      change (2 ^ 20) with 1048576. lia.
    + replace (Z.testbit g (n - 12)) with (Z.testbit (Z.shiftr (Z.shiftl g 12 + fl) 12) (n - 12)).
      * rewrite Z.shiftr_spec by lia. f_equal. lia.
      * f_equal. rewrite Z.shiftr_div_pow2, Z.shiftl_mul_pow2 by lia.
        change (2 ^ 12) with 4096. zlia.
Qed.

Lemma new_pde_flags : pde_flags 31.
Proof. repeat split; lia. Qed.

Lemma new_pte_flags mask :
  pte_flags (set_bit (set_bit mask 0) 2 mod 4096) /\
  Z.testbit (set_bit (set_bit mask 0) 2 mod 4096) 1 = Z.testbit mask 1.
Proof.
  unfold pte_flags, set_bit. change 4096 with (2 ^ 12). split_and!.
  1,2: apply Z.mod_pos_bound; done.
  all: rewrite Z.mod_pow2_bits_low, !Z.lor_spec, !Z.shiftl_spec by lia; simpl;
       rewrite ?orb_true_r, ?orb_false_r; done.
Qed.

(** ** Translations through the invariant *)

Section Walk.
Context (own : owners) (pds : list Z) (s : mm) (Hwf : mm_wf own pds s).

Lemma frame_bound f r : own !! f = Some r -> 0 < f < 2 ^ 18.
Proof using Hwf.
  intros H. destruct Hwf as [[[Hp _] Hu] Ho _ _ _]. specialize (Ho _ _ H). lia.
Qed.

(** A mapped user address lies in a frame owned by its page. *)
Lemma walk_cases pd va :
  pd ∈ pds -> user_va va ->
  walk (phys s) pd va = None \/
  (exists g b, walk (phys s) pd va = Some (4096 * g + va mod 4096, true, b) /\
    own !! g = Some (Page pd (va / 4194304) ((va / 4096) mod 1024))).
Proof using Hwf.
  intros Hpd Hva. pose proof (user_va_pde _ Hva) as Hi. unfold walk.
  destruct (wf_pde _ _ _ Hwf _ _ Hpd Hi) as [->|(f & fl & -> & Hfl & Hf)]; [by left|].
  assert (0 <= (va / 4096) mod 1024 < 1024) as Hj by (apply Z.mod_pos_bound; done).
  destruct Hfl as (Hr & H0 & H1 & H2 & H7).
  rewrite !testbit_low, H0, H7 by lia. cbn [negb].
  replace ((4096 * f + fl) / 4096) with f by zlia.
  destruct (wf_pte _ _ _ Hwf _ _ _ _ Hpd Hi Hj Hf) as [E|(g & gl & E & Hgl & Hg)];
    rewrite E; [by left|right].
  exists g, (Z.testbit fl 1 && Z.testbit gl 1).
  destruct Hgl as (Hgr & Hg0 & Hg2). rewrite !testbit_low, Hg0, Hg2, H2 by lia. cbn [negb].
  replace ((4096 * g + gl) / 4096) with g by zlia. done.
Qed.

(** Memory outside directories and tables. *)
Definition is_data (o : owners) (a : Z) : Prop :=
  match o !! (a / 4096) with Some Dir | Some (Table _ _) => False | _ => True end.

(** The frame handed out next is not owned. *)
Lemma edge_fresh : own !! edge (pm s) = None.
Proof using Hwf.
  destruct (own !! edge (pm s)) eqn:E; [|done].
  apply (wf_own _ _ _ Hwf) in E. lia.
Qed.

Lemma alloc_one p a :
  pmem_alloc (pm s) 1 = (p, a) ->
  (a = 0 /\ p = pm s) \/
  (a = 4096 * edge (pm s) /\ a <> 0 /\ edge p = edge (pm s) + 1 /\
   pmem_wf p /\ upper_end p <= 2 ^ 18 /\ 0 < edge (pm s) < 2 ^ 18).
Proof using Hwf.
  intros H. destruct (wf_pm _ _ _ Hwf) as [Hp Hu].
  destruct (pmem_alloc_ok _ 1 _ _ Hp ltac:(done) H) as [(-> & -> & _)|(-> & He & Hue & Hp' & Hpos & _)].
  - by left.
  - right. unfold pmem_wf, PAGE_BYTES in *. lia.
Qed.

(** Owning one more frame keeps the clauses about the old memory. *)
Lemma own_extend p r m :
  edge p = edge (pm s) + 1 -> 0 < edge (pm s) ->
  forall f r', <[edge (pm s) := r]> own !! f = Some r' -> 0 < f < edge (mk_mm p m).(pm).
Proof using Hwf.
  intros He H0 f r' H. simpl. apply lookup_insert_Some in H as [[<- _]|[_ H]]; [lia|].
  apply (wf_own _ _ _ Hwf) in H. lia.
Qed.

End Walk.

Lemma walk_ext m m' pd va :
  ld32 m' (pd + 4 * (va / 4194304)) = ld32 m (pd + 4 * (va / 4194304)) ->
  (forall f fl, ld32 m (pd + 4 * (va / 4194304)) = 4096 * f + fl -> 0 <= fl < 4096 ->
    ld32 m (pd + 4 * (va / 4194304)) <> 0 ->
    ld32 m' (4096 * f + 4 * ((va / 4096) mod 1024)) = ld32 m (4096 * f + 4 * ((va / 4096) mod 1024))) ->
  walk m' pd va = walk m pd va.
Proof.
  intros E1 E2. unfold walk. rewrite E1.
  destruct (Z.eq_dec (ld32 m (pd + 4 * (va / 4194304))) 0) as [->|Hnz]; [done|].
  by rewrite (E2 (ld32 m (pd + 4 * (va / 4194304)) / 4096) (ld32 m (pd + 4 * (va / 4194304)) mod 4096)) by zlia.
Qed.

(** ** The two halves of [pagedir_get_or_new] *)

(** What every step keeps: the translations of the other pages and the
    memory outside the tables. *)
Definition same_data (own' : owners) (s s' : mm) : Prop :=
  forall a, is_data own' a -> ldb (phys s') a = ldb (phys s) a.

Lemma pagetbl_new_wf own pds s pd i p :
  mm_wf own pds s -> pd ∈ pds -> user_pde i ->
  ld32 (phys s) (pd + 4 * i) = 0 ->
  edge p = edge (pm s) + 1 -> pmem_wf p -> upper_end p <= 2 ^ 18 -> 0 < edge (pm s) < 2 ^ 18 ->
  let f := edge (pm s) in
  let m := st32 (bfill (phys s) (4096 * f) (Z.to_nat 4096) 0) (pd + 4 * i) (4096 * f + 31) in
  mm_wf (<[f := Table pd i]> own) pds (mk_mm p m) /\
  same_data (<[f := Table pd i]> own) s (mk_mm p m) /\
  (forall pd' va, pd' ∈ pds -> user_va va -> walk m pd' va = walk (phys s) pd' va).
Proof.
  intros Hwf Hpd Hi Hz He Hp Hu Hf f m.
  destruct (wf_dir _ _ _ Hwf _ Hpd) as (q & Eq & Hown).
  pose proof (wf_own _ _ _ Hwf _ _ Hown) as Hq.
  pose proof (edge_fresh _ _ _ Hwf) as Hfresh. fold f in Hfresh.
  (* words in other frames than the new table and the written entry *)
  assert (Hld : forall g k, g <> f -> 0 <= k < 1024 -> (g, k) <> (q, i) ->
                 ld32 m (4096 * g + 4 * k) = ld32 (phys s) (4096 * g + 4 * k)).
  { intros g k Hg Hk Hne. unfold m, user_pde in *.
    assert (g <> q \/ k <> i) by (destruct (Z.eq_dec g q); [right; congruence|by left]).
    rewrite ld32_st32_ne by lia. apply ld32_bfill_out. lia. }
  assert (Hdirs : forall pd' i', pd' ∈ pds -> user_pde i' -> (pd', i') <> (pd, i) ->
                  ld32 m (pd' + 4 * i') = ld32 (phys s) (pd' + 4 * i')).
  { intros pd' i' Hpd' Hi' Hne. destruct (wf_dir _ _ _ Hwf _ Hpd') as (q' & -> & Hown').
    apply (wf_own _ _ _ Hwf) in Hown'.
    unfold user_pde in *. apply Hld; [lia|lia|]. intros [= -> ->]. by rewrite Eq in Hne. }
  assert (Hpde : ld32 m (pd + 4 * i) = 4096 * f + 31).
  { apply ld32_st32_eq. unfold in_u32. lia. }
  assert (Htab : forall pd' i' g k, own !! g = Some (Table pd' i') -> 0 <= k < 1024 ->
                 ld32 m (4096 * g + 4 * k) = ld32 (phys s) (4096 * g + 4 * k)).
  { intros pd' i' g k Hg Hk. apply Hld; [|done|by intros [= -> ->]; congruence].
    congruence. }
  assert (Hnew : forall k, 0 <= k < 1024 -> ld32 m (4096 * f + 4 * k) = 0).
  { intros k Hk. unfold m, user_pde in *. rewrite ld32_st32_ne by lia. apply ld32_bfill_0; lia. }
  assert (Hdata : forall a, a / 4096 <> f -> a / 4096 <> q -> ldb m a = ldb (phys s) a).
  { intros a Hf1 Hq1. assert (4096 * (a / 4096) <= a < 4096 * (a / 4096) + 4096) by (clear; zlia).
    unfold m, user_pde in *. rewrite ldb_st32_ne by lia. apply ldb_bfill_out. lia. }
  clearbody m. split_and!.
  - constructor; [by split|intros ? ?; eapply own_extend; done || lia| | | |].
    + intros pd' Hpd'. destruct (wf_dir _ _ _ Hwf _ Hpd') as (q' & -> & Hown').
      exists q'. split; [done|]. rewrite lookup_insert_ne; [done|congruence].
    + intros f' pd' i' [[_ [= <- <-]]|[_ H]]%lookup_insert_Some; [done|by eapply (wf_tab _ _ _ Hwf)].
    + intros pd' i' Hpd' Hi'. simpl. destruct (decide ((pd', i') = (pd, i))) as [[= -> ->]|Hne].
      * right. exists f, 31. split; [done|]. split; [apply new_pde_flags|apply lookup_insert_eq].
      * rewrite Hdirs by done.
        destruct (wf_pde _ _ _ Hwf _ _ Hpd' Hi') as [E|(g & fl & E & Hfl & Hg)]; [by left|right].
        exists g, fl. split; [done|]. split; [done|]. rewrite lookup_insert_ne; [done|congruence].
    + intros pd' i' g j Hpd' Hi' Hj Hg. simpl. apply lookup_insert_Some in Hg as [[<- [= <- <-]]|[Hne Hg]].
      * left. by apply Hnew.
      * rewrite (Htab _ _ _ _ Hg) by done.
        destruct (wf_pte _ _ _ Hwf _ _ _ _ Hpd' Hi' Hj Hg) as [E|(h & fl & E & Hfl & Hh)]; [by left|right].
        exists h, fl. split; [done|]. split; [done|]. rewrite lookup_insert_ne; [done|congruence].
  - intros a Ha. unfold is_data in Ha. simpl.
    destruct (decide (a / 4096 = f)) as [Ef|Ef]; [by rewrite Ef, lookup_insert_eq in Ha|].
    destruct (decide (a / 4096 = q)) as [Ed|Ed].
    { rewrite lookup_insert_ne, Ed, Hown in Ha by lia. done. }
    by apply Hdata.
  - intros pd' va Hpd' Hva. pose proof (user_va_pde _ Hva) as Hvi.
    assert (0 <= (va / 4096) mod 1024 < 1024) as Hj by (apply Z.mod_pos_bound; done).
    destruct (decide ((pd', va / 4194304) = (pd, i))) as [[= -> Ei]|Hne].
    + unfold walk. rewrite Ei, Hpde, Hz. rewrite !testbit_low by lia.
      replace ((4096 * f + 31) / 4096) with f by (clear; zlia).
      by rewrite Hnew.
    + apply walk_ext; [by apply Hdirs|]. intros g fl E Hfl Hnz.
      destruct (wf_pde _ _ _ Hwf _ _ Hpd' Hvi) as [E'|(g' & fl' & E' & Hfl' & Hg)]; [congruence|].
      assert (g' = g) as -> by (destruct Hfl'; lia). by apply (Htab _ _ _ _ Hg).
Qed.

Lemma page_new_wf own pds s pd i f j p fl :
  mm_wf own pds s -> pd ∈ pds -> user_pde i -> 0 <= j < 1024 ->
  own !! f = Some (Table pd i) -> pte_flags fl ->
  edge p = edge (pm s) + 1 -> pmem_wf p -> upper_end p <= 2 ^ 18 -> 0 < edge (pm s) < 2 ^ 18 ->
  let g := edge (pm s) in
  let m := st32 (phys s) (4096 * f + 4 * j) (4096 * g + fl) in
  mm_wf (<[g := Page pd i j]> own) pds (mk_mm p m) /\
  same_data (<[g := Page pd i j]> own) s (mk_mm p m) /\
  ld32 m (4096 * f + 4 * j) = 4096 * g + fl /\
  (forall g' k, 0 <= k < 1024 -> (g', k) <> (f, j) -> 
    ld32 m (4096 * g' + 4 * k) = ld32 (phys s) (4096 * g' + 4 * k)).
Proof.
  intros Hwf Hpd Hi Hj Hf Hfl He Hp Hu Hg g m.
  pose proof (edge_fresh _ _ _ Hwf) as Hfresh. fold g in Hfresh.
  assert (Hld : forall g' k, 0 <= k < 1024 -> (g', k) <> (f, j) ->
                 ld32 m (4096 * g' + 4 * k) = ld32 (phys s) (4096 * g' + 4 * k)).
  { intros g' k Hk Hne. apply ld32_st32_ne.
    assert (g' <> f \/ k <> j) by (destruct (Z.eq_dec g' f); [right; congruence|by left]). lia. }
  assert (Heq : ld32 m (4096 * f + 4 * j) = 4096 * g + fl).
  { apply ld32_st32_eq. unfold in_u32. destruct Hfl. lia. }
  assert (Hdata : forall a, a / 4096 <> f -> ldb m a = ldb (phys s) a).
  { intros a Hne. assert (4096 * (a / 4096) <= a < 4096 * (a / 4096) + 4096) by (clear; zlia).
    apply ldb_st32_ne. lia. }
  clearbody m. split_and!; [| |done|done].
  - constructor; [by split|intros ? ?; eapply own_extend; done || lia| | | |].
    + intros pd' Hpd'. destruct (wf_dir _ _ _ Hwf _ Hpd') as (q' & -> & Hown').
      exists q'. split; [done|]. rewrite lookup_insert_ne; [done|congruence].
    + intros f' pd' i' [[_ [=]]|[_ H]]%lookup_insert_Some. by eapply (wf_tab _ _ _ Hwf).
    + intros pd' i' Hpd' Hi'. simpl.
      destruct (wf_dir _ _ _ Hwf _ Hpd') as (q' & Eq & Hown').
      rewrite Eq, Hld by (unfold user_pde in *; lia || congruence). rewrite <- Eq.
      destruct (wf_pde _ _ _ Hwf _ _ Hpd' Hi') as [E|(h & hl & E & Hhl & Hh)]; [by left|right].
      exists h, hl. split; [done|]. split; [done|]. rewrite lookup_insert_ne; [done|congruence].
    + intros pd' i' f' j' Hpd' Hi' Hj' Hf'. simpl.
      apply lookup_insert_Some in Hf' as [[_ [=]]|[Hne Hf']].
      destruct (decide ((f', j') = (f, j))) as [[= -> ->]|Hne'].
      * right. exists g, fl. rewrite Hf in Hf'. injection Hf' as <- <-.
        split; [done|]. split; [done|apply lookup_insert_eq].
      * rewrite Hld by done.
        destruct (wf_pte _ _ _ Hwf _ _ _ _ Hpd' Hi' Hj' Hf') as [E|(h & hl & E & Hhl & Hh)]; [by left|right].
        exists h, hl. split; [done|]. split; [done|]. rewrite lookup_insert_ne; [done|congruence].
  - intros a Ha. unfold is_data in Ha. simpl. apply Hdata. intros Ea.
    rewrite Ea, lookup_insert_ne, Hf in Ha; [done|congruence].
Qed.

Lemma pagetbl_get_or_new_correct own pds s pd i s' ot :
  mm_wf own pds s -> pd ∈ pds -> user_pde i ->
  pagetbl_get_or_new s pd i = (s', ot) ->
  match ot with
  | None => s' = s /\ ld32 (phys s) (pd + 4 * i) = 0
  | Some t => exists own' f fl,
      own ⊆ own' /\ t = 4096 * f /\ own' !! f = Some (Table pd i) /\ mm_wf own' pds s' /\
      ld32 (phys s') (pd + 4 * i) = 4096 * f + fl /\ pde_flags fl /\ same_data own' s s' /\
      (forall pd' va, pd' ∈ pds -> user_va va -> walk (phys s') pd' va = walk (phys s) pd' va) /\
      (ld32 (phys s) (pd + 4 * i) <> 0 -> s' = s)
  end.
Proof.
  intros Hwf Hpd Hi. unfold pagetbl_get_or_new, PTE_SHIFT, PAGE_BYTES.
  destruct (wf_pde _ _ _ Hwf _ _ Hpd Hi) as [E|(f & fl & E & Hfl & Hf)].
  - rewrite E. cbn [Z.eqb negb]. destruct (pmem_alloc (pm s) 1) as [p a] eqn:Ha.
    destruct (alloc_one _ _ _ Hwf _ _ Ha) as [(-> & ->)|(-> & Hnz & He & Hp & Hu & Hb)].
    + cbn [Z.eqb]. intros [= <- <-]. split; [by destruct s|done].
    + rewrite (proj2 (Z.eqb_neq _ _) Hnz). intros [= <- <-].
      rewrite Z.shiftr_div_pow2 by lia. change (2 ^ 12) with 4096.
      rewrite (Z.mul_comm 4096 (edge _)), Z.div_mul, (Z.mul_comm _ 4096) by done.
      rewrite set_bit_index_spec by lia.
      change (set_bit (set_bit (set_bit (set_bit (set_bit 0 0) 1) 2) 3) 4 mod 4096) with 31.
      destruct (pagetbl_new_wf own pds s pd i p Hwf Hpd Hi E He Hp Hu Hb) as (Hwf' & Hd & Hw).
      exists (<[edge (pm s) := Table pd i]> own), (edge (pm s)), 31. split_and!; try done.
      * apply insert_subseteq, (edge_fresh _ _ _ Hwf).
      * apply lookup_insert_eq.
      * simpl. apply ld32_st32_eq. unfold in_u32. lia.
  - pose proof (frame_bound _ _ _ Hwf _ _ Hf) as Hb. destruct Hfl as (Hr & Hrest).
    rewrite E, (proj2 (Z.eqb_neq _ 0)) by lia. cbn [negb].
    rewrite bit_index_spec, Z.shiftl_mul_pow2 by lia. intros [= <- <-].
    exists own, f, fl. change (2 ^ 12) with 4096. rewrite u32_small by (unfold in_u32; lia).
    split_and!; try done; lia.
Qed.

Lemma page_get_or_new_correct own pds s pd i f j mask s' p :
  mm_wf own pds s -> pd ∈ pds -> user_pde i -> 0 <= j < 1024 ->
  own !! f = Some (Table pd i) ->
  page_get_or_new s (4096 * f) j mask = (s', p) ->
  if p =? 0 then s' = s /\ ld32 (phys s) (4096 * f + 4 * j) = 0
  else exists own' g fl,
      own ⊆ own' /\ p = 4096 * g /\ own' !! g = Some (Page pd i j) /\ mm_wf own' pds s' /\
      ld32 (phys s') (4096 * f + 4 * j) = 4096 * g + fl /\ pte_flags fl /\ same_data own' s s' /\
      (forall g' k, 0 <= k < 1024 -> (g', k) <> (f, j) ->
        ld32 (phys s') (4096 * g' + 4 * k) = ld32 (phys s) (4096 * g' + 4 * k)) /\
      (if ld32 (phys s) (4096 * f + 4 * j) =? 0 then Z.testbit fl 1 = Z.testbit mask 1 else s' = s).
Proof.
  intros Hwf Hpd Hi Hj Hf. unfold page_get_or_new.
  destruct (wf_pte _ _ _ Hwf _ _ _ _ Hpd Hi Hj Hf) as [E|(g & fl & E & Hfl & Hg)]; rewrite E.
  - cbn [Z.eqb]. destruct (pmem_alloc (pm s) 1) as [q a] eqn:Ha.
    destruct (alloc_one _ _ _ Hwf _ _ Ha) as [(-> & ->)|(-> & Hnz & He & Hp & Hu & Hb)].
    + cbn [Z.eqb]. intros [= <- <-]. split; [by destruct s|done].
    + rewrite (proj2 (Z.eqb_neq _ _) Hnz).
      rewrite Z.shiftr_div_pow2 by lia. change (2 ^ 12) with 4096.
      rewrite (Z.mul_comm 4096 (edge _)), Z.div_mul by done.
      rewrite set_bit_index_spec by lia. destruct (new_pte_flags mask) as [Hfl Hw].
      rewrite page_mask_spec by (destruct Hfl; lia). intros [= <- <-].
      rewrite (proj2 (Z.eqb_neq _ _) Hnz).
      destruct (page_new_wf own pds s pd i f j q _ Hwf Hpd Hi Hj Hf Hfl He Hp Hu Hb)
        as (Hwf' & Hd & Hn & Ho).
      eexists (<[edge (pm s) := Page pd i j]> own), (edge (pm s)), _.
      split_and!; [|done|apply lookup_insert_eq|exact Hwf'|exact Hn|done|exact Hd|exact Ho|done].
      apply insert_subseteq, (edge_fresh _ _ _ Hwf).
  - pose proof (frame_bound _ _ _ Hwf _ _ Hg) as Hb. pose proof Hfl as (Hr & Hrest).
    rewrite (proj2 (Z.eqb_neq _ 0)) by lia. rewrite page_mask_spec by lia. intros [= <- <-].
    rewrite (proj2 (Z.eqb_neq _ 0)) by lia. exists own, g, fl. split_and!; done.
Qed.

(** ** [pagedir_get_or_new] *)

Lemma split_va va : va / 4096 = 1024 * (va / 4194304) + (va / 4096) mod 1024.
Proof. zlia. Qed.

Lemma get_or_new_index va :
  0 <= va -> Z.land (Z.shiftr va PTE_SHIFT) 1023 = (va / 4096) mod 1024 /\
  Z.shiftr va PDE_SHIFT = va / 4194304.
Proof. intros H. unfold PTE_SHIFT, PDE_SHIFT. by rewrite land_3ff, !Z.shiftr_div_pow2 by lia. Qed.

Lemma walk_mapped m pd va f fl g gl :
  ld32 m (pd + 4 * (va / 4194304)) = 4096 * f + fl -> pde_flags fl ->
  ld32 m (4096 * f + 4 * ((va / 4096) mod 1024)) = 4096 * g + gl -> pte_flags gl ->
  walk m pd va = Some (4096 * g + va mod 4096, true, Z.testbit gl 1).
Proof.
  intros E1 (Hr & H0 & H1 & H2 & H7) E2 (Hgr & Hg0 & Hg2). unfold walk.
  rewrite E1, !testbit_low, H0, H7, H2, H1 by lia. cbn [negb].
  replace ((4096 * f + fl) / 4096) with f by (clear -Hr; zlia).
  rewrite E2, !testbit_low, Hg0, Hg2 by lia. cbn [negb andb].
  replace ((4096 * g + gl) / 4096) with g by (clear -Hgr; zlia). done.
Qed.

(** The specification of [pagedir_get_or_new] for a user address: on
    success the page of [va] is mapped to [p], every other user page of
    every address space keeps its translation; on failure nothing is mapped. *)
Definition mapped_spec (pds : list Z) (s s' : mm) (pd va mask p : Z) : Prop :=
  (forall pd' va', pd' ∈ pds -> user_va va' -> (pd', va' / 4096) <> (pd, va / 4096) ->
     walk (phys s') pd' va' = walk (phys s) pd' va') /\
  (if p =? 0 then
     forall va', va' / 4096 = va / 4096 -> walk (phys s) pd va' = None /\ walk (phys s') pd va' = None
   else
     p mod 4096 = 0 /\
     exists w, (forall va', va' / 4096 = va / 4096 ->
                  walk (phys s') pd va' = Some (p + va' mod 4096, true, w)) /\
               (walk (phys s) pd va = None -> w = Z.testbit mask 1) /\
               (walk (phys s) pd va <> None -> s' = s)).

Lemma get_or_new_correct own pds s pd va mask s' p :
  mm_wf own pds s -> pd ∈ pds -> user_va va ->
  pagedir_get_or_new s pd va mask = (s', p) ->
  exists own', own ⊆ own' /\ mm_wf own' pds s' /\ same_data own' s s' /\
    mapped_spec pds s s' pd va mask p.
Proof.
  intros Hwf Hpd Hva. unfold pagedir_get_or_new.
  rewrite (proj2 (Z.ltb_lt _ _)) by (unfold user_va in Hva; lia). cbn [negb].
  destruct (get_or_new_index va) as [-> ->]; [unfold user_va, KERN_OFF in Hva; lia|].
  pose proof (user_va_pde _ Hva) as Hi.
  assert (0 <= (va / 4096) mod 1024 < 1024) as Hj by (apply Z.mod_pos_bound; done).
  assert (Hsame : forall va', va' / 4096 = va / 4096 -> va' / 4194304 = va / 4194304) by (clear; intros; zlia).
  destruct (pagetbl_get_or_new s pd (va / 4194304)) as [s1 [t|]] eqn:Et;
    pose proof (pagetbl_get_or_new_correct _ _ _ _ _ _ _ Hwf Hpd Hi Et) as Ht; cbn beta iota in Ht.
  2:{ destruct Ht as [-> Hz]. intros [= <- <-]. exists own. split_and!; try done. unfold mapped_spec.
      split; [done|]. cbn [Z.eqb]. intros va' E. unfold walk. rewrite (Hsame _ E), Hz. done. }
  destruct Ht as (own1 & f & fl & Hsub1 & -> & Hf & Hwf1 & Epde & Hfl & Hd1 & Hw1 & Hsm1).
  intros Hp. pose proof (page_get_or_new_correct _ _ _ _ _ _ _ _ _ _ Hwf1 Hpd Hi Hj Hf Hp) as H2.
  assert (Hnone : ld32 (phys s1) (4096 * f + 4 * ((va / 4096) mod 1024)) = 0 ->
                  forall va', va' / 4096 = va / 4096 -> walk (phys s1) pd va' = None).
  { intros Hz va' E. unfold walk. rewrite (Hsame _ E), Epde. destruct Hfl as (Hr & H0 & _ & _ & H7).
    rewrite !testbit_low, H0, H7 by lia. cbn [negb].
    replace ((4096 * f + fl) / 4096) with f by (clear -Hr; zlia). by rewrite E, Hz. }
  assert (Huva : forall va', va' / 4096 = va / 4096 -> user_va va').
  { unfold user_va, KERN_OFF in *. clear -Hva. intros. zlia. }
  destruct (p =? 0) eqn:Hp0; unfold mapped_spec; rewrite Hp0.
  - destruct H2 as [-> Hz]. exists own1. split_and!; try done.
    + intros. by apply Hw1.
    + intros va' E. rewrite <- Hw1 by eauto. split; by apply Hnone.
  - destruct H2 as (own2 & g & gl & Hsub2 & -> & Hg & Hwf2 & Epte & Hgl & Hd2 & Ho & Hnew).
    exists own2. split_and!; [by etrans|done| | |by rewrite Z.mul_comm; apply Z_mod_mult|].
    + intros a Ha. rewrite (Hd2 a Ha). apply Hd1. unfold is_data in *.
      destruct (own1 !! (a / 4096)) as [r|] eqn:E; [|done].
      by rewrite (lookup_weaken _ _ _ _ E Hsub2) in Ha.
    + intros pd' va' Hpd' Hva' Hne. rewrite <- Hw1 by done. pose proof (user_va_pde _ Hva') as Hi'.
      assert (0 <= (va' / 4096) mod 1024 < 1024) as Hj' by (apply Z.mod_pos_bound; done).
      destruct (wf_dir _ _ _ Hwf1 _ Hpd') as (q' & Eq & Hq').
      apply walk_ext.
      * rewrite Eq. apply Ho; [unfold user_pde in Hi'; lia|]. intros [= -> _]. congruence.
      * intros f' fl' E' Hr' Hnz'. apply Ho; [done|].
        destruct (wf_pde _ _ _ Hwf1 _ _ Hpd' Hi') as [?|(f2 & fl2 & E2 & Hfl2 & Hf2)]; [done|].
        assert (f2 = f') as -> by (destruct Hfl2; lia).
        intros [= -> Ej]. rewrite Hf in Hf2. injection Hf2 as <- Ei.
        apply Hne. rewrite (split_va va'), (split_va va), Ei, Ej. done.
    + assert (Epde' : ld32 (phys s') (pd + 4 * (va / 4194304)) = 4096 * f + fl).
      { destruct (wf_dir _ _ _ Hwf1 _ Hpd) as (q & Eq & Hq). rewrite Eq, Ho, <- Eq; [done| |].
        - unfold user_pde in Hi; lia.
        - intros [= -> _]. congruence. }
      exists (Z.testbit gl 1). split_and!.
      * intros va' E. rewrite (walk_mapped _ _ _ f fl g gl); try done; [by rewrite (Hsame _ E)|].
        by rewrite E.
      * intros Hwn. destruct (Z.eqb_spec (ld32 (phys s1) (4096 * f + 4 * ((va / 4096) mod 1024))) 0) as [Hz|Hnz]; [done|].
        subst s'. rewrite <- Hw1, (walk_mapped _ _ _ f fl g gl) in Hwn; done.
      * intros Hwn. destruct (Z.eqb_spec (ld32 (phys s1) (4096 * f + 4 * ((va / 4096) mod 1024))) 0) as [Hz|Hnz].
        { rewrite <- Hw1, Hnone in Hwn; done. }
        subst s'. apply Hsm1. intros Hz. apply Hwn. unfold walk. by rewrite Hz.
Qed.

(** Two user pages never share a frame, in one address space or in two. *)
Lemma walk_injective own pds s pd1 va1 pd2 va2 pa1 pa2 u1 u2 w1 w2 :
  mm_wf own pds s -> pd1 ∈ pds -> pd2 ∈ pds -> user_va va1 -> user_va va2 ->
  walk (phys s) pd1 va1 = Some (pa1, u1, w1) -> walk (phys s) pd2 va2 = Some (pa2, u2, w2) ->
  pa1 / 4096 = pa2 / 4096 -> pd1 = pd2 /\ va1 / 4096 = va2 / 4096.
Proof.
  intros Hwf H1 H2 V1 V2 W1 W2 E.
  destruct (walk_cases _ _ _ Hwf _ _ H1 V1) as [?|(g1 & b1 & W1' & O1)]; [congruence|].
  destruct (walk_cases _ _ _ Hwf _ _ H2 V2) as [?|(g2 & b2 & W2' & O2)]; [congruence|].
  rewrite W1 in W1'. rewrite W2 in W2'. injection W1' as -> _ _. injection W2' as -> _ _.
  assert (g1 = g2) as -> by (clear -E; zlia).
  rewrite O1 in O2. injection O2 as -> Ei Ej. split; [done|].
  rewrite (split_va va1), (split_va va2). lia.
Qed.

(** ** Writes to data frames *)

Definition data_write (own : owners) (m m' : bmem) : Prop :=
  forall a, ~ is_data own a -> ldb m' a = ldb m a.

Lemma data_write_ld32 own m m' f k r :
  own !! f = Some r -> match r with Dir | Table _ _ => True | _ => False end -> 0 <= k < 1024 ->
  data_write own m m' -> ld32 m' (4096 * f + 4 * k) = ld32 m (4096 * f + 4 * k).
Proof.
  intros Hf Hr Hk Hm.
  assert (Hb : forall o, 0 <= o < 4 -> ldb m' (4096 * f + 4 * k + o) = ldb m (4096 * f + 4 * k + o)).
  { intros o Ho. apply Hm. unfold is_data.
    assert ((4096 * f + 4 * k + o) / 4096 = f) as -> by (clear -Hk Ho; zlia).
    rewrite Hf. destruct r; tauto. }
  unfold ld32. rewrite !Hb by lia. specialize (Hb 0). rewrite Z.add_0_r in Hb. by rewrite Hb.
Qed.

Lemma data_write_wf own pds s m' :
  mm_wf own pds s -> data_write own (phys s) m' -> mm_wf own pds (mk_mm (pm s) m').
Proof.
  intros Hwf Hm. constructor; simpl; try apply Hwf.
  - intros pd i Hpd Hi. destruct (wf_dir _ _ _ Hwf _ Hpd) as (q & Eq & Hq).
    rewrite Eq, (data_write_ld32 _ _ _ _ i _ Hq ltac:(done) ltac:(unfold user_pde in Hi; lia) Hm).
    rewrite <- Eq. by apply Hwf.
  - intros pd i f j Hpd Hi Hj Hf.
    rewrite (data_write_ld32 _ _ _ _ j _ Hf ltac:(done) ltac:(lia) Hm). by apply (wf_pte _ _ _ Hwf).
Qed.

Lemma data_write_walk own pds s m' pd va :
  mm_wf own pds s -> data_write own (phys s) m' -> pd ∈ pds -> user_va va ->
  walk m' pd va = walk (phys s) pd va.
Proof.
  intros Hwf Hm Hpd Hva. pose proof (user_va_pde _ Hva) as Hi.
  destruct (wf_dir _ _ _ Hwf _ Hpd) as (q & Eq & Hq). apply walk_ext.
  - rewrite Eq. eapply data_write_ld32; [done|done| |done]. unfold user_pde in Hi; lia.
  - intros f fl E Hr Hnz.
    destruct (wf_pde _ _ _ Hwf _ _ Hpd Hi) as [?|(f2 & fl2 & E2 & Hfl2 & Hf2)]; [done|].
    assert (f2 = f) as -> by (destruct Hfl2; lia).
    eapply data_write_ld32; [done|done| |done]. apply Z.mod_pos_bound; done.
Qed.

(** Writing within a frame that holds a user page is a data write. *)
Lemma page_write own m m' g pd i j :
  own !! g = Some (Page pd i j) ->
  (forall a, a / 4096 <> g -> ldb m' a = ldb m a) -> data_write own m m'.
Proof.
  intros Hg Hm a Ha. apply Hm. intros E. apply Ha. unfold is_data. by rewrite E, Hg.
Qed.

(** ** New address spaces *)

(** A cleared frame becomes the directory of an empty address space. *)
Lemma pagedir_new_wf own pds s p m :
  mm_wf own pds s ->
  edge p = edge (pm s) + 1 -> pmem_wf p -> upper_end p <= 2 ^ 18 -> 0 < edge (pm s) < 2 ^ 18 ->
  let f := edge (pm s) in
  (forall b, b / 4096 <> f -> ldb m b = ldb (phys s) b) ->
  (forall i, 1 <= i < 768 -> ld32 m (4096 * f + 4 * i) = 0) ->
  mm_wf (<[f := Dir]> own) (4096 * f :: pds) (mk_mm p m) /\
  (forall va, user_va va -> walk m (4096 * f) va = None) /\
  (forall pd' va, pd' ∈ pds -> user_va va -> walk m pd' va = walk (phys s) pd' va).
Proof.
  intros Hwf He Hp Hu Hb f Hout Hzero.
  pose proof (edge_fresh _ _ _ Hwf) as Hfresh. fold f in Hfresh.
  assert (Hdw : data_write own (phys s) m).
  { intros a Ha. apply Hout. intros E. apply Ha. unfold is_data. by rewrite E, Hfresh. }
  pose proof (data_write_wf _ _ _ _ Hwf Hdw) as Hwf'. split_and!.
  - constructor; [by split|intros ? ?; eapply own_extend; done || lia| | | |]; simpl.
    + intros pd' [->|Hpd']%elem_of_cons; [exists f; split; [done|apply lookup_insert_eq]|].
      destruct (wf_dir _ _ _ Hwf _ Hpd') as (q' & -> & Hown').
      exists q'. split; [done|]. rewrite lookup_insert_ne; [done|congruence].
    + intros f' pd' i' [[_ [=]]|[_ H]]%lookup_insert_Some.
      apply elem_of_cons. right. by eapply (wf_tab _ _ _ Hwf).
    + intros pd' i' [->|Hpd']%elem_of_cons Hi'; [left; by apply Hzero|].
      destruct (wf_pde _ _ _ Hwf' _ _ Hpd' Hi') as [E|(h & hl & E & Hhl & Hh)]; [by left|right].
      exists h, hl. split; [done|]. split; [done|]. rewrite lookup_insert_ne; [done|congruence].
    + intros pd' i' f' j' Hpd' Hi' Hj' [[_ [=]]|[Hne Hf']]%lookup_insert_Some.
      apply elem_of_cons in Hpd' as [->|Hpd'].
      { exfalso. apply (wf_tab _ _ _ Hwf) in Hf'.
        destruct (wf_dir _ _ _ Hwf _ Hf') as (q' & Eq & Hq'). replace q' with f in Hq' by lia. congruence. }
      destruct (wf_pte _ _ _ Hwf' _ _ _ _ Hpd' Hi' Hj' Hf') as [E|(h & hl & E & Hhl & Hh)]; [by left|right].
      exists h, hl. split; [done|]. split; [done|]. rewrite lookup_insert_ne; [done|congruence].
  - intros va Hva. unfold walk. by rewrite Hzero by (apply user_va_pde in Hva; done).
  - intros pd' va Hpd' Hva. by apply (data_write_walk own pds s).
Qed.

Lemma pagedir_alloc_correct own pds s kpd s' pd :
  mm_wf own pds s -> 0 <= kpd -> kpd + 4096 <= 4096 * edge (pm s) ->
  in_u32 (ld32 (phys s) kpd) ->
  pagedir_alloc s kpd = (s', pd) -> pd <> 0 ->
  own !! (pd / 4096) = None /\
  mm_wf (<[pd / 4096 := Dir]> own) (pd :: pds) s' /\
  (forall va, user_va va -> walk (phys s') pd va = None) /\
  (forall pd' va, pd' ∈ pds -> user_va va -> walk (phys s') pd' va = walk (phys s) pd' va) /\
  (forall i, i = 0 \/ 768 <= i < 1024 -> ld32 (phys s') (pd + 4 * i) = ld32 (phys s) (kpd + 4 * i)) /\
  (forall b, b / 4096 <> pd / 4096 -> ldb (phys s') b = ldb (phys s) b).
Proof.
  intros Hwf Hk0 Hk Hkw. unfold pagedir_alloc.
  destruct (pmem_alloc (pm s) 1) as [p a] eqn:Ha. intros [= <- <-] Hnz.
  destruct (alloc_one _ _ _ Hwf _ _ Ha) as [(-> & _)|(-> & _ & He & Hp & Hu & Hb)]; [done|].
  replace (4096 * edge (pm s) / 4096) with (edge (pm s)) by (clear; zlia).
  set (f := edge (pm s)) in *. pose proof (edge_fresh _ _ _ Hwf) as Hfresh. fold f in Hfresh.
  change (Z.shiftr KERN_OFF PDE_SHIFT) with 768.
  change (4 * 768) with 3072. change (4 * (N_PDE - 768)) with 1024. change PAGE_BYTES with 4096.
  set (m1 := bfill _ _ _ _). set (m2 := bcopy _ _ _ _). set (m3 := st32 _ _ _).
  assert (Hout : forall b, b / 4096 <> f -> ldb m3 b = ldb (phys s) b).
  { intros b Hne. assert (4096 * (b / 4096) <= b < 4096 * (b / 4096) + 4096) by (clear; zlia).
    unfold m3, m2, m1. rewrite ldb_st32_ne by lia. rewrite ldb_bcopy by lia. case_if; try lia; apply ldb_bfill_out; lia. }
  assert (Hzero : forall i, 1 <= i < 768 -> ld32 m3 (4096 * f + 4 * i) = 0).
  { intros i Hi. unfold m3. rewrite ld32_st32_ne by lia. unfold ld32, m2. rewrite !ldb_bcopy by lia.
    repeat (case_if; try lia); apply (ld32_bfill_0 (phys s) (4096 * f) (Z.to_nat 4096) (4096 * f + 4 * i)); lia. }
  assert (Hkern : forall b, b < 4096 * f -> ldb m2 b = ldb (phys s) b).
  { intros b Hlt. unfold m2, m1. rewrite ldb_bcopy by lia. case_if; try lia; apply ldb_bfill_out; lia. }
  assert (Hcopy : forall i, i = 0 \/ 768 <= i < 1024 ->
            ld32 m3 (4096 * f + 4 * i) = ld32 (phys s) (kpd + 4 * i)).
  { intros i [->|Hi].
    - unfold m3. rewrite Z.mul_0_r, !Z.add_0_r in *. rewrite ld32_st32_eq; unfold ld32 in *; rewrite !Hkern by lia; done.
    - assert (Hb3 : forall o, 3072 <= o < 4096 -> ldb m2 (4096 * f + o) = ldb (phys s) (kpd + o)).
      { intros o Ho. unfold m2, m1. rewrite ldb_bcopy by lia. case_if; try lia.
        rewrite ldb_bfill_out by lia. f_equal. lia. }
      unfold m3. rewrite ld32_st32_ne by lia. unfold ld32.
      rewrite <- !(Z.add_assoc (4096 * f)), !Hb3 by lia. by rewrite !Z.add_assoc. }
  clearbody m3.
  destruct (pagedir_new_wf own pds s p m3 Hwf He Hp Hu Hb Hout Hzero) as (? & ? & ?). by split_and!.
Qed.

(** ** Histories of address spaces *)

(** A state of the system: physical memory and the page directories handed
    out by [pagedir_alloc].  A process may store to the bytes its page tables
    let it write. *)
Inductive mm_step (kpd : Z) : mm * list Z -> mm * list Z -> Prop :=
| step_pagedir s pds s' pd :
    in_u32 (ld32 (phys s) kpd) ->
    pagedir_alloc s kpd = (s', pd) -> pd <> 0 -> mm_step kpd (s, pds) (s', pd :: pds)
| step_map s pds pd va mask s' p :
    pd ∈ pds -> user_va va ->
    pagedir_get_or_new s pd va mask = (s', p) -> mm_step kpd (s, pds) (s', pds)
| step_store s pds pd va pa v :
    pd ∈ pds -> user_va va -> walk (phys s) pd va = Some (pa, true, true) ->
    mm_step kpd (s, pds) (mk_mm (pm s) (stb (phys s) pa v), pds).

Definition mm_start (kpd : Z) (s : mm) : Prop :=
  pmem_wf (pm s) /\ upper_end (pm s) <= 2 ^ 18 /\ 0 <= kpd /\ kpd + 4096 <= 4096 * edge (pm s).

Definition mm_inv (kpd : Z) (st : mm * list Z) : Prop :=
  kpd + 4096 <= 4096 * edge (pm st.1) /\ exists own, mm_wf own st.2 st.1.

Lemma mm_start_inv kpd s : mm_start kpd s -> mm_inv kpd (s, []).
Proof.
  intros (Hp & Hu & _ & Hk). split; [done|]. exists ∅. constructor; simpl; try done.
  all: intros; exfalso; by eapply not_elem_of_nil.
Qed.

(** The edge of allocated memory only moves up. *)
Definition edge_up (s s' : mm) : Prop := pmem_wf (pm s') /\ edge (pm s) <= edge (pm s').

Lemma alloc_edge_up s p a m :
  pmem_wf (pm s) -> pmem_alloc (pm s) 1 = (p, a) -> edge_up s (mk_mm p m).
Proof.
  intros Hp H. unfold edge_up.
  destruct (pmem_alloc_ok _ 1 _ _ Hp ltac:(done) H) as [(_ & -> & _)|(_ & He & _ & Hp' & _)]; simpl; split; (done || lia).
Qed.

Lemma pagetbl_edge_up s pd i s' ot :
  pmem_wf (pm s) -> pagetbl_get_or_new s pd i = (s', ot) -> edge_up s s'.
Proof.
  intros Hp. unfold pagetbl_get_or_new. case_if; [intros [= <- _]; done|].
  destruct (pmem_alloc (pm s) 1) as [q a] eqn:E.
  case_if; intros [= <- _]; by apply (alloc_edge_up _ _ a).
Qed.

Lemma page_edge_up s f j mask s' p :
  pmem_wf (pm s) -> page_get_or_new s f j mask = (s', p) -> edge_up s s'.
Proof.
  intros Hp. unfold page_get_or_new. case_if; [|intros [= <- _]; done].
  destruct (pmem_alloc (pm s) 1) as [q a] eqn:E.
  case_if; intros [= <- _]; by apply (alloc_edge_up _ _ a).
Qed.

Lemma get_or_new_edge_up s pd va mask s' p :
  pmem_wf (pm s) -> pagedir_get_or_new s pd va mask = (s', p) -> edge_up s s'.
Proof.
  intros Hp. unfold pagedir_get_or_new. case_if; [intros [= <- _]; done|].
  destruct (pagetbl_get_or_new s pd _) as [s1 [t|]] eqn:Et;
    apply pagetbl_edge_up in Et as [Hp1 Ht]; try done; [|intros [= <- _]; done].
  intros [Hp2 H2]%page_edge_up; [|done]. split; [done|lia].
Qed.

(** No frame is left to allocate. *)
Definition out_of_frames (s : mm) : Prop := upper_end (pm s) <= edge (pm s).

Lemma alloc_fails s p a m : pmem_wf (pm s) -> pmem_alloc (pm s) 1 = (p, a) -> a = 0 -> out_of_frames (mk_mm p m).
Proof.
  intros Hp E Ha. unfold out_of_frames. destruct (pmem_alloc_ok _ 1 _ _ Hp ltac:(done) E) as [(_ & -> & H)|(_ & _ & _ & _ & H & _)]; cbn [pm]; lia.
Qed.

(** Mapping a user page fails only for want of a frame. *)
Lemma get_or_new_out own pds s pd va mask s' : mm_wf own pds s -> pd ∈ pds -> user_va va -> pagedir_get_or_new s pd va mask = (s', 0) -> out_of_frames s'.
Proof.
  intros Hwf Hpd Hva. unfold pagedir_get_or_new. rewrite (proj2 (Z.ltb_lt _ _)) by (unfold user_va in Hva; lia). cbn [negb].
  destruct (get_or_new_index va) as [-> ->]; [unfold user_va, KERN_OFF in Hva; lia|]. pose proof (user_va_pde _ Hva) as Hi.
  assert (Hj : 0 <= (va / 4096) mod 1024 < 1024) by (apply Z.mod_pos_bound; done).
  destruct (pagetbl_get_or_new s pd (va / 4194304)) as [s1 [t|]] eqn:Et; pose proof (pagetbl_get_or_new_correct _ _ _ _ _ _ _ Hwf Hpd Hi Et) as Ht; cbn beta iota in Ht.
  - destruct Ht as (own1 & f & fl & _ & -> & Hf & Hwf1 & _). intros Hp. pose proof (page_get_or_new_correct _ _ _ _ _ _ _ _ _ _ Hwf1 Hpd Hi Hj Hf Hp) as [-> Hz].
    unfold page_get_or_new in Hp. rewrite Hz in Hp. cbn [Z.eqb] in Hp. destruct (pmem_alloc (pm s1) 1) as [q a] eqn:Ea. destruct (wf_pm _ _ _ Hwf1) as [Hpm _].
    destruct (Z.eqb_spec a 0) as [Ha|Ha]; [injection Hp as <-; by eapply alloc_fails|].
    injection Hp as Hs _. apply (f_equal pm) in Hs. cbn [pm] in Hs. destruct (pmem_alloc_ok _ 1 _ _ Hpm ltac:(done) Ea) as [(? & _)|(_ & He & _)]; [done|]. rewrite Hs in He. lia.
  - destruct Ht as [-> Hz]. intros [= <-]. unfold pagetbl_get_or_new in Et. rewrite Hz in Et. cbn [Z.eqb negb] in Et. destruct (pmem_alloc (pm s) 1) as [q a] eqn:Ea. destruct (wf_pm _ _ _ Hwf) as [Hpm _].
    destruct (Z.eqb_spec a 0) as [Ha|Ha]; [|done]. injection Et as <-. by eapply alloc_fails.
Qed.

Lemma mm_step_inv kpd st st' :
  0 <= kpd -> mm_step kpd st st' -> mm_inv kpd st -> mm_inv kpd st'.
Proof.
  intros Hk Hstep [Hedge [own Hwf]]. destruct (wf_pm _ _ _ Hwf) as [Hp _].
  destruct Hstep as [s pds s' pd Hw Ha Hnz|s pds pd va mask s' p Hpd Hva Hm|s pds pd va pa v Hpd Hva Hwk];
    unfold mm_inv; simpl in *.
  - destruct (pagedir_alloc_correct _ _ _ _ _ _ Hwf Hk Hedge Hw Ha Hnz) as (_ & Hwf' & _).
    split; [|by eexists]. unfold pagedir_alloc in Ha. destruct (pmem_alloc (pm s) 1) as [q a] eqn:E.
    injection Ha as <- _. destruct (alloc_edge_up s q a ∅ Hp E) as [_ ?]. simpl in *. lia.
  - destruct (get_or_new_correct _ _ _ _ _ _ _ _ Hwf Hpd Hva Hm) as (own' & _ & Hwf' & _).
    destruct (get_or_new_edge_up _ _ _ _ _ _ Hp Hm). split; [lia|by eexists].
  - split; [done|]. exists own. apply data_write_wf; [done|].
    destruct (walk_cases _ _ _ Hwf _ _ Hpd Hva) as [?|(g & b & Hwk' & Hg)]; [congruence|].
    rewrite Hwk in Hwk'. injection Hwk' as -> _. apply (page_write _ _ _ _ _ _ _ Hg).
    intros a Ha. rewrite ldb_stb. case_if; [|done]. subst a. clear -Ha. zlia.
Qed.

Lemma mm_reach_inv kpd s st :
  mm_start kpd s -> rtc (mm_step kpd) (s, []) st -> mm_inv kpd st.
Proof.
  intros Hs Hr. assert (0 <= kpd) as Hk by apply Hs. apply mm_start_inv in Hs.
  remember (s, []) as st0 eqn:E. clear E. revert Hs.
  induction Hr as [|x y z Hstep Hr IH]; [done|]. intros Hx. by eapply IH, mm_step_inv.
Qed.

(** ** Growing a range of pages *)

Definition in_range (pd lo hi pd' va : Z) : Prop := pd' = pd /\ lo <= va < hi.

(** Only absent pages of the range change translation. *)
Definition maps_only (pds : list Z) (pd lo hi : Z) (s s' : mm) : Prop :=
  forall pd' va, pd' ∈ pds -> user_va va ->
    walk (phys s) pd' va <> None \/ ~ in_range pd lo hi pd' va ->
    walk (phys s') pd' va = walk (phys s) pd' va.

(** Mapped bytes outside the range keep their contents. *)
Definition keeps_bytes (pds : list Z) (pd lo hi : Z) (s s' : mm) : Prop :=
  forall pd' va pa u w, pd' ∈ pds -> user_va va -> ~ in_range pd lo hi pd' va ->
    walk (phys s) pd' va = Some (pa, u, w) -> ldb (phys s') pa = ldb (phys s) pa.

(** Every page of the range is there, for user code. *)
Definition all_mapped (pd lo hi : Z) (s : mm) : Prop :=
  forall va, lo <= va < hi -> exists pa w, walk (phys s) pd va = Some (pa, true, w).

(** What was absent is there afterwards, for user code to read and write. *)
Definition fresh_writable (pd lo hi : Z) (s s' : mm) : Prop :=
  forall va, lo <= va < hi -> walk (phys s) pd va = None -> exists pa, walk (phys s') pd va = Some (pa, true, true).

Lemma walk_same_page m pd va va' :
  va / 4096 = va' / 4096 -> walk m pd va = None -> walk m pd va' = None.
Proof.
  intros E. assert (va / 4194304 = va' / 4194304) as E2 by (clear -E; zlia).
  unfold walk. rewrite E, E2. destruct (negb _); [done|]. destruct (Z.testbit _ 7); [done|].
  destruct (negb _); done.
Qed.

Lemma mapped_maps_only pds s s' pd va mask p :
  mapped_spec pds s s' pd va mask p -> va mod 4096 = 0 -> maps_only pds pd va (va + 4096) s s'.
Proof.
  intros [Hother Hpage] Hal pd' va' Hpd' Hva' Hc.
  destruct (decide ((pd', va' / 4096) = (pd, va / 4096))) as [[= -> E]|Hne]; [|by apply Hother].
  destruct Hc as [Hm|Hout]; [|exfalso; apply Hout; split; [done|]; clear -E Hal; zlia].
  destruct (p =? 0); [by destruct (Hpage _ E)|]. destruct Hpage as (_ & w & _ & _ & Hsm).
  rewrite Hsm; [done|]. intros Hn. apply Hm. by apply (walk_same_page _ _ va).
Qed.

Lemma mapped_all pds s s' pd va mask p :
  mapped_spec pds s s' pd va mask p -> va mod 4096 = 0 -> p <> 0 -> all_mapped pd va (va + 4096) s'.
Proof.
  intros [_ Hpage] Hal Hp va' Hr. rewrite (proj2 (Z.eqb_neq _ _) Hp) in Hpage.
  destruct Hpage as (_ & w & Hw & _). do 2 eexists. apply Hw. clear -Hr Hal. zlia.
Qed.

Lemma mapped_fresh pds s s' pd va mask p :
  mapped_spec pds s s' pd va mask p -> va mod 4096 = 0 -> p <> 0 -> Z.testbit mask 1 = true -> fresh_writable pd va (va + 4096) s s'.
Proof.
  intros [_ Hpage] Hal Hp Hm va' Hr Hn. rewrite (proj2 (Z.eqb_neq _ _) Hp) in Hpage.
  assert (E : va' / 4096 = va / 4096) by (clear -Hr Hal; zlia).
  destruct Hpage as (_ & w & Hw & Hfresh & _). eexists. rewrite (Hw va' E).
  rewrite Hfresh, Hm; [done|]. by apply (walk_same_page _ _ va').
Qed.

(** The address range that a page number names. *)
Lemma maps_only_union pds pd lo mid hi s s1 s2 :
  lo <= mid <= hi -> maps_only pds pd lo mid s s1 -> maps_only pds pd mid hi s1 s2 ->
  maps_only pds pd lo hi s s2.
Proof.
  intros Hb H1 H2 pd' va Hpd Hva Hc.
  assert (E1 : walk (phys s1) pd' va = walk (phys s) pd' va).
  { apply H1; [done|done|]. destruct Hc as [?|Hn]; [by left|right]. intros [-> ?]. apply Hn. split; [done|lia]. }
  rewrite <- E1. apply H2; [done|done|]. rewrite E1. destruct Hc as [?|Hn]; [by left|right].
  intros [-> ?]. apply Hn. split; [done|lia].
Qed.

Lemma maps_only_refl pds pd lo hi s : maps_only pds pd lo hi s s.
Proof. by intros ???. Qed.

Lemma keeps_bytes_refl pds pd lo hi s : keeps_bytes pds pd lo hi s s.
Proof. by intros ??????. Qed.

Lemma keeps_bytes_trans pds pd a b lo hi s s1 s2 :
  maps_only pds pd a b s s1 -> keeps_bytes pds pd lo hi s s1 -> keeps_bytes pds pd lo hi s1 s2 ->
  keeps_bytes pds pd lo hi s s2.
Proof.
  intros Hm H1 H2 pd' va pa u w Hpd Hva Hr Hwk. rewrite <- (H1 _ _ _ _ _ Hpd Hva Hr Hwk).
  eapply H2; [done|done|done|]. rewrite Hm; [done|done|done|left; congruence].
Qed.

Lemma same_data_keeps own own' pds pd lo hi s s' :
  mm_wf own pds s -> own ⊆ own' -> same_data own' s s' -> keeps_bytes pds pd lo hi s s'.
Proof.
  intros Hwf Hsub Hd pd' va pa u w Hpd Hva _ Hwk.
  destruct (walk_cases _ _ _ Hwf _ _ Hpd Hva) as [?|(g & b & Hwk' & Hg)]; [congruence|].
  rewrite Hwk in Hwk'. injection Hwk' as -> _ _. apply Hd. unfold is_data.
  replace ((4096 * g + va mod 4096) / 4096) with g by (clear; zlia).
  by rewrite (lookup_weaken _ _ _ _ Hg Hsub).
Qed.

(** ** [sys_brk] *)

Lemma brk_loop_correct own pds pd brk fuel s vaddr :
  mm_wf own pds s -> pd ∈ pds -> 4194304 <= vaddr <= KERN_OFF -> vaddr mod 4096 = 0 ->
  (brk - vaddr) / 4096 < Z.of_nat fuel ->
  exists own' s' r, brk_loop fuel s pd vaddr brk = Some (s', r) /\
    own ⊆ own' /\ mm_wf own' pds s' /\ keeps_bytes pds pd 0 0 s s' /\
    match r with
    | Some v => v mod 4096 = 0 /\ brk <= v <= KERN_OFF /\ vaddr <= v /\ (vaddr < v -> v < brk + 4096) /\
                maps_only pds pd vaddr v s s' /\ all_mapped pd vaddr v s' /\ fresh_writable pd vaddr v s s'
    | None => vaddr < brk /\ maps_only pds pd vaddr KERN_OFF s s'
    end.
Proof.
  revert own s vaddr. induction fuel as [|fuel IH]; intros own s vaddr Hwf Hpd Hv Hal Hf; cbn [brk_loop].
  all: destruct (Z.ltb_spec vaddr brk) as [Hlt|Hge]; cbn [negb].
  1: exfalso; clear -Hlt Hf; zlia.
  1,3: exists own, s, (Some vaddr); split_and!;
       first [done|lia|apply keeps_bytes_refl|apply maps_only_refl|intros ? ?; lia|intros ? ? ?; lia].
  destruct (pagedir_get_or_new s pd vaddr _) as [s1 p] eqn:E.
  destruct (Z.ltb_spec vaddr KERN_OFF) as [Hk|Hk].
  2:{ unfold pagedir_get_or_new in E. rewrite (proj2 (Z.ltb_ge _ _) Hk) in E. injection E as <- <-.
      exists own, s, None. split_and!;
      first [done|apply keeps_bytes_refl|apply maps_only_refl]. }
  destruct (get_or_new_correct _ _ _ _ _ _ _ _ Hwf Hpd ltac:(split; [apply Hv|exact Hk]) E)
    as (own1 & Hsub1 & Hwf1 & Hd1 & Hspec).
  pose proof (mapped_maps_only _ _ _ _ _ _ _ Hspec Hal) as Hm1.
  pose proof (same_data_keeps _ _ _ pd 0 0 _ _ Hwf Hsub1 Hd1) as Hkb1.
  destruct (Z.eqb_spec p 0) as [->|Hp].
  { exists own1, s1, None. split_and!; try done. intros pd' va Hpd' Hva Hc. apply Hm1; [done|done|].
    destruct Hc as [?|Hn]; [by left|right]. intros [-> ?]. apply Hn. split; [done|unfold user_va in Hva; lia]. }
  pose proof (mapped_all _ _ _ _ _ _ _ Hspec Hal Hp) as Hall1.
  pose proof (mapped_fresh _ _ _ _ _ _ _ Hspec Hal Hp eq_refl) as Hfr1.
  unfold PAGE_BYTES. rewrite u32_small by (unfold in_u32, KERN_OFF in *; lia).
  destruct (IH own1 s1 (vaddr + 4096)) as (own2 & s2 & r & -> & Hsub2 & Hwf2 & Hkb2 & Hr);
    [done|done|unfold KERN_OFF in *; clear -Hk Hv Hal; zlia|clear -Hal; zlia|clear -Hf; zlia|].
  exists own2, s2, r. split_and!; [done|by etrans|done|by eapply keeps_bytes_trans|].
  destruct r as [v|].
  - destruct Hr as (Hal2 & Hv2 & Hle & Hlt2 & Hm2 & Hall2 & Hfr2). split_and!; try done; try lia.
    + eapply maps_only_union; [|done|done]. lia.
    + intros va Hva. destruct (Z.lt_ge_cases va (vaddr + 4096)); [|apply Hall2; lia].
      destruct (Hall1 va ltac:(lia)) as (pa & w & Hwk). exists pa, w. rewrite Hm2; [done|done| |left; congruence].
      unfold user_va. lia.
    + intros va Hva Hn. assert (user_va va) by (unfold user_va; lia). destruct (Z.lt_ge_cases va (vaddr + 4096)).
      * destruct (Hfr1 va ltac:(lia) Hn) as [pa Hwk]. exists pa. rewrite Hm2; [done..|left; congruence].
      * apply Hfr2; [lia|]. rewrite Hm1; [done..|right]. intros [_ ?]. lia.
  - destruct Hr as [_ Hm2]. split; [done|]. eapply maps_only_union; [|done|done].
    unfold KERN_OFF in *; clear -Hk Hal Hv; zlia.
Qed.

(** The outcome of [sys_brk] for a process whose break is page aligned. *)
Definition brk_spec (pds : list Z) (s : mm) (p : proc_mem) (addr : Z) (s' : mm) (p' : proc_mem) (ret : Z) : Prop :=
  if addr =? 0 then s' = s /\ p' = p /\ ret = ps_heap_end p
  else if ret =? 0 then p' = p /\ ps_heap_end p < addr
  else
    cr3 p' = cr3 p /\ ps_userstack p' = ps_userstack p /\ ret = ps_heap_end p' /\
    ret mod 4096 = 0 /\ Z.max addr (ps_heap_end p) <= ret <= KERN_OFF /\ (ps_heap_end p < ret -> ret < addr + 4096) /\
    all_mapped (cr3 p) (ps_heap_end p) ret s' /\ fresh_writable (cr3 p) (ps_heap_end p) ret s s' /\
    maps_only pds (cr3 p) (ps_heap_end p) ret s s'.

Definition mm_ok (pds : list Z) (s : mm) : Prop := exists own, mm_wf own pds s.

Lemma sys_brk_ok pds s p addr :
  mm_ok pds s -> cr3 p ∈ pds -> 4194304 <= ps_heap_end p <= KERN_OFF -> ps_heap_end p mod 4096 = 0 ->
  exists s' p' ret, sys_brk s p addr = Some (s', p', ret) /\
    mm_ok pds s' /\ keeps_bytes pds (cr3 p) 0 0 s s' /\ brk_spec pds s p addr s' p' ret.
Proof.
  intros [own Hwf] Hpd Hh Hal. unfold sys_brk, brk_spec. destruct (Z.eqb_spec addr 0) as [->|Ha].
  { exists s, p, (ps_heap_end p). split_and!; first [done|by exists own|apply keeps_bytes_refl]. }
  destruct (brk_loop_correct own pds (cr3 p) addr (Z.to_nat ((addr - ps_heap_end p) / PAGE_BYTES + 1)) s (ps_heap_end p))
    as (own' & s' & r & -> & Hsub & Hwf' & Hkb & Hr); try done.
  { unfold PAGE_BYTES. lia. }
  destruct r as [v|].
  - destruct Hr as (Hal2 & Hv2 & Hle & Hlt2 & Hm2 & Hall2 & Hfr2).
    eexists s', _, v. split_and!; [done|by exists own'|done|].
    rewrite (proj2 (Z.eqb_neq v 0)) by lia. simpl. split_and!; try done; lia.
  - exists s', p, 0. split_and!; [done|by exists own'|done|]. cbn [Z.eqb]. split; [done|apply Hr].
Qed.

(** ** Filling a mapped page *)

(** Replacing the contents of the frame behind one user page. *)
Lemma page_update own pds s pd va p m' :
  mm_wf own pds s -> pd ∈ pds -> user_va va -> va mod 4096 = 0 -> p mod 4096 = 0 ->
  (exists w, walk (phys s) pd va = Some (p + va mod 4096, true, w)) ->
  (forall a, a / 4096 <> p / 4096 -> ldb m' a = ldb (phys s) a) ->
  mm_wf own pds (mk_mm (pm s) m') /\
  (forall pd' va', pd' ∈ pds -> user_va va' -> walk m' pd' va' = walk (phys s) pd' va') /\
  keeps_bytes pds pd va (va + 4096) s (mk_mm (pm s) m') /\
  (forall a, own !! (a / 4096) = Some Image -> ldb m' a = ldb (phys s) a).
Proof.
  intros Hwf Hpd Hva Hal Hp [w Hw] Hm. rewrite Hal, Z.add_0_r in Hw.
  destruct (walk_cases _ _ _ Hwf _ _ Hpd Hva) as [?|(g & b & Hwk & Hg)]; [congruence|].
  rewrite Hw, Hal, Z.add_0_r in Hwk. injection Hwk as -> _.
  assert (4096 * g / 4096 = g) as Eg by (clear; zlia). rewrite Eg in Hm.
  pose proof (page_write _ _ _ _ _ _ _ Hg Hm) as Hdw. split_and!.
  - by apply data_write_wf.
  - intros. by apply (data_write_walk own pds).
  - intros pd' va' pa u w' Hpd' Hva' Hr Hwk'. simpl. apply Hm. intros E. apply Hr.
    destruct (walk_injective _ _ _ _ _ _ _ _ _ _ _ _ _ Hwf Hpd' Hpd Hva' Hva Hwk' Hw ltac:(congruence)) as [-> Ev].
    split; [done|]. clear -Ev Hal. zlia.
  - intros a Ha. apply Hm. congruence.
Qed.

(** The frame of a mapped page is not part of a boot module. *)
Lemma get_or_new_not_image own pds s pd va mask s1 p :
  mm_wf own pds s -> pd ∈ pds -> user_va va -> va mod 4096 = 0 ->
  pagedir_get_or_new s pd va mask = (s1, p) -> p <> 0 ->
  p mod 4096 = 0 /\ own !! (p / 4096) <> Some Image.
Proof.
  intros Hwf Hpd Hva Hal Hg Hp.
  destruct (get_or_new_correct _ _ _ _ _ _ _ _ Hwf Hpd Hva Hg) as (own1 & Hsub & Hwf1 & _ & _ & Hspec).
  rewrite (proj2 (Z.eqb_neq _ _) Hp) in Hspec. destruct Hspec as (Hpal & w & Hw & _).
  split; [done|]. intros Hi. apply (lookup_weaken _ _ _ _ Hi) in Hsub.
  destruct (walk_cases _ _ _ Hwf1 _ _ Hpd Hva) as [?|(g & b & Hwk & Hg')]; [rewrite Hw in *; done|].
  rewrite Hw in Hwk by done. injection Hwk as Ep _. replace (p / 4096) with g in Hsub by (clear -Ep; zlia).
  congruence.
Qed.

(** One round of the loops that populate an address space: map the page of
    [va], then write its frame. *)
Lemma populate_step own pds s pd va mask s1 p m' :
  mm_wf own pds s -> pd ∈ pds -> user_va va -> va mod 4096 = 0 ->
  pagedir_get_or_new s pd va mask = (s1, p) -> p <> 0 ->
  (forall a, a < p \/ p + 4096 <= a -> ldb m' a = ldb (phys s1) a) ->
  exists own', own ⊆ own' /\ mm_wf own' pds (mk_mm (pm s1) m') /\ same_data own' s s1 /\
    (forall a, own !! (a / 4096) = Some Image -> ldb m' a = ldb (phys s) a) /\
    maps_only pds pd va (va + 4096) s (mk_mm (pm s1) m') /\
    keeps_bytes pds pd va (va + 4096) s (mk_mm (pm s1) m') /\
    (exists w, forall va', va <= va' < va + 4096 -> walk m' pd va' = Some (p + (va' - va), true, w)).
Proof.
  intros Hwf Hpd Hva Hal Hg Hp Hm.
  destruct (get_or_new_correct _ _ _ _ _ _ _ _ Hwf Hpd Hva Hg) as (own1 & Hsub & Hwf1 & Hd & Hspec).
  pose proof (mapped_maps_only _ _ _ _ _ _ _ Hspec Hal) as Hm1.
  pose proof (same_data_keeps _ _ _ pd va (va + 4096) _ _ Hwf Hsub Hd) as Hkb.
  destruct Hspec as [_ Hspec]. rewrite (proj2 (Z.eqb_neq _ _) Hp) in Hspec.
  destruct Hspec as (Hpal & w & Hw & _).
  destruct (page_update own1 pds s1 pd va p m') as (Hwf2 & Hwk2 & Hkb2 & Himg2); try done.
  { exists w. by apply Hw. }
  { intros a Ha. apply Hm. clear -Ha Hpal. zlia. }
  exists own1. split_and!; try done.
  - intros a Ha. pose proof (lookup_weaken _ _ _ _ Ha Hsub) as Ha1.
    assert (E : ldb (phys s1) a = ldb (phys s) a) by (apply Hd; unfold is_data; by rewrite Ha1).
    by rewrite Himg2.
  - intros pd' va' Hpd' Hva' Hc. simpl. rewrite Hwk2 by done. by apply Hm1.
  - by eapply keeps_bytes_trans.
  - exists w. intros va' Hr. rewrite Hwk2; [|done|].
    + rewrite Hw by (clear -Hr Hal; zlia). repeat f_equal. clear -Hr Hal. zlia.
    + unfold user_va, KERN_OFF in *. clear -Hr Hal Hva. zlia.
Qed.

Lemma mapped_fail pds s s' pd va mask :
  mapped_spec pds s s' pd va mask 0 ->
  forall lo hi, maps_only pds pd lo hi s s'.
Proof.
  intros [Hother Hpage] lo hi pd' va' Hpd' Hva' _.
  destruct (decide ((pd', va' / 4096) = (pd, va / 4096))) as [[= -> E]|Hne]; [|by apply Hother].
  destruct (Hpage va' E) as [-> ->]. done.
Qed.

Lemma maps_only_weaken pds pd lo hi lo' hi' s s' :
  lo' <= lo -> hi <= hi' -> maps_only pds pd lo hi s s' -> maps_only pds pd lo' hi' s s'.
Proof.
  intros H1 H2 H pd' va Hpd Hva Hc. apply H; [done|done|].
  destruct Hc as [?|Hn]; [by left|right]. intros [-> ?]. apply Hn. split; [done|lia].
Qed.

Lemma maps_only_trans pds pd lo hi s s1 s2 :
  maps_only pds pd lo hi s s1 -> maps_only pds pd lo hi s1 s2 -> maps_only pds pd lo hi s s2.
Proof.
  intros H1 H2 pd' va Hpd Hva Hc. rewrite <- H1 by done. apply H2; [done|done|]. by rewrite H1.
Qed.

Lemma keeps_bytes_weaken pds pd lo hi lo' hi' s s' :
  lo' <= lo -> hi <= hi' -> keeps_bytes pds pd lo hi s s' -> keeps_bytes pds pd lo' hi' s s'.
Proof.
  intros H1 H2 H pd' va pa u w Hpd Hva Hn. apply H; [done|done|].
  intros [-> ?]. apply Hn. split; [done|lia].
Qed.

(** ** The user stack *)

(** The user range is mapped and holds the bytes [f]. *)
Definition holds_bytes (pd lo hi : Z) (s : mm) (f : Z -> Z) : Prop :=
  forall va, lo <= va < hi -> exists pa w, walk (phys s) pd va = Some (pa, true, w) /\ ldb (phys s) pa = f va.

(** Later rounds on another part of the address space keep the bytes. *)
Lemma holds_bytes_mono pds pd lo hi lo' hi' s s' f :
  pd ∈ pds -> (hi <= lo' \/ hi' <= lo) -> 4194304 <= lo -> hi <= KERN_OFF ->
  maps_only pds pd lo' hi' s s' -> keeps_bytes pds pd lo' hi' s s' ->
  holds_bytes pd lo hi s f -> holds_bytes pd lo hi s' f.
Proof.
  intros Hpd Hd Hlo Hhi Hm Hk H va Hva. destruct (H va Hva) as (pa & w & Hwk & Hb).
  assert (user_va va) as Hu by (unfold user_va; lia).
  exists pa, w. rewrite (Hm pd va Hpd Hu); [|left; congruence]. split; [done|].
  rewrite <- Hb. eapply Hk; try done. intros [_ ?]. lia.
Qed.

Lemma holds_bytes_app pd lo mid hi s f :
  holds_bytes pd lo mid s f -> holds_bytes pd mid hi s f -> holds_bytes pd lo hi s f.
Proof. intros H1 H2 va Hva. destruct (Z.lt_ge_cases va mid); [apply H1|apply H2]; lia. Qed.

Lemma grow_loop_correct own pds fault fuel s p :
  mm_wf own pds s -> cr3 p ∈ pds -> ps_userstack p mod 4096 = 0 -> ps_userstack p <= KERN_OFF ->
  4194304 <= fault -> (ps_userstack p - fault) / 4096 < Z.of_nat fuel ->
  exists own' s' p' ret, grow_loop fuel s p fault = Some (s', p', ret) /\
    mm_wf own' pds s' /\ cr3 p' = cr3 p /\ ps_heap_end p' = ps_heap_end p /\
    ps_userstack p' <= ps_userstack p /\ ps_userstack p' mod 4096 = 0 /\
    ((ret = 0 /\ ps_userstack p' <= fault) \/ (ret = -1 /\ fault < ps_userstack p')) /\
    (ps_userstack p' < ps_userstack p -> fault - 4096 < ps_userstack p') /\
    maps_only pds (cr3 p) (ps_userstack p') (ps_userstack p) s s' /\
    keeps_bytes pds (cr3 p) (ps_userstack p') (ps_userstack p) s s' /\
    holds_bytes (cr3 p) (ps_userstack p') (ps_userstack p) s' (fun _ => 0).
Proof.
  revert own s p. induction fuel as [|fuel IH]; intros own s p Hwf Hpd Hal Hk Hf0 Hf; cbn [grow_loop].
  all: destruct (Z.ltb_spec fault (ps_userstack p)) as [Hlt|Hge]; cbn [negb].
  1: exfalso; clear -Hlt Hf; zlia.
  1,3: exists own, s, p, 0; split_and!;
       first [done|lia|apply keeps_bytes_refl|apply maps_only_refl|intros ? ?; lia].
  unfold PAGE_BYTES. rewrite u32_small by (unfold in_u32, KERN_OFF in *; clear -Hk Hf0 Hlt Hal; zlia).
  assert (user_va (ps_userstack p - 4096)) as Huv by (unfold user_va, KERN_OFF in *; clear -Hk Hf0 Hlt Hal; zlia).
  assert ((ps_userstack p - 4096) mod 4096 = 0) as Hal' by (clear -Hal; zlia).
  destruct (pagedir_get_or_new s (cr3 p) _ _) as [s1 a] eqn:E.
  destruct (Z.eqb_spec a 0) as [->|Ha].
  { destruct (get_or_new_correct _ _ _ _ _ _ _ _ Hwf Hpd Huv E) as (own1 & Hsub & Hwf1 & Hd & Hspec).
    exists own1, s1, p, (-1). split_and!;
      first [done|lia|eapply mapped_fail; done|by eapply same_data_keeps|intros ? ?; lia]. }
  destruct (populate_step _ _ _ _ _ _ _ _ (bfill (phys s1) a (Z.to_nat 4096) 0) Hwf Hpd Huv Hal' E Ha)
    as (own1 & Hsub & Hwf1 & Hpal & _ & Hm1 & Hkb1 & w & Hw).
  { intros b Hb. apply ldb_bfill_out. lia. }
  rewrite Z.sub_add in Hm1, Hkb1, Hw.
  destruct (IH own1 (mk_mm (pm s1) (bfill (phys s1) a (Z.to_nat 4096) 0))
               (mk_proc_mem (cr3 p) (ps_userstack p - 4096) (ps_heap_end p)))
    as (own2 & s2 & p2 & ret & -> & Hwf2 & Ec & Eh & Hle & Hal2 & Hret & Hlow & Hm2 & Hkb2 & Hz2);
    simpl; try done; try lia; [clear -Hf; zlia|].
  simpl in *. exists own2, s2, p2, ret. split_and!; try done; try lia.
  - eapply maps_only_trans; (eapply maps_only_weaken; [| |done]); lia.
  - eapply keeps_bytes_trans; [done| |]; (eapply keeps_bytes_weaken; [| |done]); lia.
  - eapply holds_bytes_app; [done|].
    eapply (holds_bytes_mono pds); [done| | | |exact Hm2|exact Hkb2|]; [lia|apply Huv|lia|].
    intros va Hva. do 2 eexists. split; [by apply Hw|]. simpl. rewrite ldb_bfill. case_if; lia.
Qed.

Lemma grow_stack_ok pds s p fault :
  mm_ok pds s -> cr3 p ∈ pds -> ps_userstack p mod 4096 = 0 -> ps_userstack p <= KERN_OFF ->
  4194304 <= fault ->
  exists s' p' ret, process_grow_stack s p fault = Some (s', p', ret) /\
    mm_ok pds s' /\ cr3 p' = cr3 p /\ ps_heap_end p' = ps_heap_end p /\
    ((ret = 0 /\ ps_userstack p' <= fault) \/ (ret = -1 /\ fault < ps_userstack p')) /\
    maps_only pds (cr3 p) (ps_userstack p') (ps_userstack p) s s' /\
    keeps_bytes pds (cr3 p) (ps_userstack p') (ps_userstack p) s s' /\
    holds_bytes (cr3 p) (ps_userstack p') (ps_userstack p) s' (fun _ => 0).
Proof.
  intros [own Hwf] Hpd Hal Hk Hf. unfold process_grow_stack.
  destruct (grow_loop_correct own pds fault (Z.to_nat ((ps_userstack p - fault) / PAGE_BYTES + 1)) s p)
    as (own' & s' & p' & ret & -> & Hwf' & Ec & Eh & _ & _ & Hret & _ & Hm & Hkb & Hz); try done.
  { unfold PAGE_BYTES. lia. }
  exists s', p', ret. split_and!; try done. by exists own'.
Qed.

(** ** ELF segments *)

(** The boot modules keep their bytes. *)
Definition image_kept (own : owners) (s s' : mm) : Prop :=
  forall a, own !! (a / 4096) = Some Image -> ldb (phys s') a = ldb (phys s) a.

Lemma same_data_image own own' s s' : own ⊆ own' -> same_data own' s s' -> image_kept own s s'.
Proof. intros Hsub Hd a Ha. apply Hd. unfold is_data. by rewrite (lookup_weaken _ _ _ _ Ha Hsub). Qed.

Lemma image_kept_trans own own' s s1 s2 : own ⊆ own' -> image_kept own s s1 -> image_kept own' s1 s2 -> image_kept own s s2.
Proof. intros Hsub H1 H2 a Ha. rewrite H2; [by apply H1|by eapply lookup_weaken]. Qed.

Section Segment.
Context (pds : list Z) (pd : Z) (hdr : Elf32_Phdr) (elfmem : Z) (Hpd : pd ∈ pds).

(** The segment lies in user space above the identity mapping, and its
    image lies in memory that no address space uses. *)
Definition segment_ok (own : owners) : Prop :=
  4194304 <= p_vaddr hdr /\ p_vaddr hdr + p_memsz hdr <= KERN_OFF /\
  0 <= p_memsz hdr /\ 0 <= p_filesz hdr /\
  0 <= elfmem + p_offset hdr /\ elfmem + p_offset hdr + p_filesz hdr <= 2 ^ 32 /\
  (forall k, 0 <= k < p_filesz hdr -> own !! ((elfmem + p_offset hdr + k) / 4096) = Some Image).

(** The byte of the file image for a user address, 0 behind the image. *)
Definition segment_byte (m : bmem) (va : Z) : Z :=
  let k := va - p_vaddr hdr in
  if k <? p_filesz hdr then ldb m (elfmem + p_offset hdr + k) else 0.

Definition segment_end : Z := 4096 * ((p_vaddr hdr + p_memsz hdr + 4095) / 4096).

(** Both copies of the segment are instances of this write. *)
Lemma copy_clear_out m dst src n z a :
  0 <= n -> 0 <= z -> (src + n <= dst \/ dst + n <= src) ->
  a < dst \/ dst + n + z <= a -> ldb (copy_clear m dst src n z) a = ldb m a.
Proof using.
  intros Hn Hz Hd Ha. unfold copy_clear. rewrite ldb_bfill_out by lia.
  rewrite ldb_bcopy by lia. case_if; (done || lia).
Qed.

Lemma copy_clear_in m dst src n z a :
  0 <= n -> 0 <= z -> (src + n <= dst \/ dst + n <= src) -> dst <= a < dst + n + z ->
  ldb (copy_clear m dst src n z) a = if a - dst <? n then ldb m (src + (a - dst)) else 0.
Proof using.
  intros Hn Hz Hd Ha. unfold copy_clear. rewrite ldb_bfill, ldb_bcopy by lia.
  repeat (case_if; try lia); done.
Qed.

Lemma segment_byte_image own m m' :
  segment_ok own -> (forall a, own !! (a / 4096) = Some Image -> ldb m' a = ldb m a) ->
  forall va, p_vaddr hdr <= va -> segment_byte m' va = segment_byte m va.
Proof using.
  intros Hok Hm va Hva. unfold segment_byte. case_if; [|done]. apply Hm.
  apply Hok. lia.
Qed.

Lemma holds_bytes_ext lo hi s f g :
  (forall va, lo <= va < hi -> f va = g va) -> holds_bytes pd lo hi s f -> holds_bytes pd lo hi s g.
Proof using.
  intros E H va Hva. destruct (H va Hva) as (pa & w & Hw & Hb).
  exists pa, w. by rewrite <- E.
Qed.

(** Populate one page with the bytes of the segment from [off] on. *)
Lemma segment_page own s va off voff n s1 p :
  mm_wf own pds s -> segment_ok own -> user_va va -> va mod 4096 = 0 ->
  va + voff = p_vaddr hdr + off -> 0 <= off -> 0 <= voff < 4096 ->
  n = Z.min (4096 - voff) (Z.max 0 (p_filesz hdr - off)) ->
  pagedir_get_or_new s pd va (Z.lor PTE_WRITABLE PTE_USER) = (s1, p) -> p <> 0 ->
  let m' := copy_clear (phys s1) (p + voff) (u32 (elfmem + p_offset hdr + off)) n (4096 - voff - n) in
  exists own', own ⊆ own' /\ mm_wf own' pds (mk_mm (pm s1) m') /\
    (forall a, own !! (a / 4096) = Some Image -> ldb m' a = ldb (phys s) a) /\
    maps_only pds pd va (va + 4096) s (mk_mm (pm s1) m') /\
    keeps_bytes pds pd va (va + 4096) s (mk_mm (pm s1) m') /\
    holds_bytes pd (va + voff) (va + 4096) (mk_mm (pm s1) m') (segment_byte (phys s)).
Proof using Hpd.
  intros Hwf Hok Hva Hal Hoff Hoff0 Hvoff Hn Hg Hp m'.
  destruct (get_or_new_not_image _ _ _ _ _ _ _ _ Hwf Hpd Hva Hal Hg Hp) as [Hpal Hni].
  set (src := u32 (elfmem + p_offset hdr + off)) in *.
  assert (Hsrc : 0 < n -> src = elfmem + p_offset hdr + off).
  { intros Hn0. apply u32_small. destruct Hok as (_ & _ & _ & _ & Hs0 & Hs1 & _).
    change (2 ^ 32) with 4294967296 in Hs1. unfold in_u32. lia. }
  assert (Hn0 : 0 <= n <= 4096 - voff) by lia.
  assert (Himg : forall k, 0 <= k < n -> own !! ((src + k) / 4096) = Some Image).
  { intros k Hk. rewrite Hsrc by lia. rewrite <- Z.add_assoc. apply Hok. lia. }
  assert (Hdis : src + n <= p + voff \/ p + voff + n <= src).
  { destruct (Z.le_gt_cases (src + n) (p + voff)) as [?|Hgt]; [by left|].
    destruct (Z.le_gt_cases (p + voff + n) src) as [?|Hlt]; [by right|]. exfalso. apply Hni.
    rewrite <- (Himg (Z.max src (p + voff) - src)) by lia. f_equal. clear -Hpal Hgt Hlt Hn0 Hvoff. zlia. }
  destruct (populate_step _ _ _ _ _ _ _ _ m' Hwf Hpd Hva Hal Hg Hp)
    as (own1 & Hsub & Hwf1 & Hd1 & Hi1 & Hm1 & Hkb1 & w & Hw).
  { intros a Ha. apply copy_clear_out; lia. }
  exists own1. split_and!; try done.
  intros va' Hva'. exists (p + (va' - va)), w. split; [apply Hw; lia|]. simpl.
  unfold m'. rewrite copy_clear_in by lia. unfold segment_byte.
  destruct (Z.ltb_spec (p + (va' - va) - (p + voff)) n) as [Hl|Hl];
    destruct (Z.ltb_spec (va' - p_vaddr hdr) (p_filesz hdr)) as [Hl2|Hl2]; try lia.
  replace (src + (p + (va' - va) - (p + voff))) with (src + (va' - va - voff)) by lia.
  rewrite Hd1 by (unfold is_data; by rewrite (lookup_weaken _ _ _ _ (Himg (va' - va - voff) ltac:(lia)) Hsub)).
  f_equal. rewrite Hsrc by lia. lia.
Qed.

Lemma segment_ok_mono own own' : own ⊆ own' -> segment_ok own -> segment_ok own'.
Proof using.
  intros Hsub (H1 & H2 & H3 & H4 & H5 & H6 & H7). split_and!; try done.
  intros k Hk. by eapply lookup_weaken; [apply H7|].
Qed.

(** The outcome of the loop from [off] on. *)
Definition segment_post (own : owners) (lo : Z) (s s' : mm) (ret : Z) : Prop :=
  (exists own', own ⊆ own' /\ mm_wf own' pds s') /\ (ret = 0 \/ ret = - ENOMEM /\ out_of_frames s') /\
  maps_only pds pd lo segment_end s s' /\ keeps_bytes pds pd lo segment_end s s' /\
  (ret = 0 -> holds_bytes pd lo segment_end s' (segment_byte (phys s))) /\ image_kept own s s'.

Lemma segment_loop_correct own fuel s off :
  mm_wf own pds s -> segment_ok own -> 0 <= off -> (p_vaddr hdr + off) mod 4096 = 0 ->
  (p_memsz hdr - off) / 4096 < Z.of_nat fuel ->
  exists s' ret, segment_loop fuel s hdr elfmem pd off = Some (s', ret) /\
    segment_post own (p_vaddr hdr + off) s s' ret.
Proof using Hpd.
  revert own s off. induction fuel as [|fuel IH]; intros own s off Hwf Hok Hoff Hal Hf; cbn [segment_loop].
  all: pose proof Hok as (Hv0 & Hv1 & Hm0 & Hf0 & _).
  all: destruct (Z.ltb_spec off (p_memsz hdr)) as [Hlt|Hge]; cbn [negb].
  1: exfalso; clear -Hlt Hf; zlia.
  1,3: exists s, 0; unfold segment_post; split_and!;
       first [done|by left|exists own; done|apply keeps_bytes_refl|apply maps_only_refl|
              intros _ va Hva; exfalso; unfold segment_end in Hva; clear -Hva Hge Hal; zlia].
  unfold KERN_OFF in *. rewrite (u32_small (p_vaddr hdr + off)) by (unfold in_u32; lia).
  assert (user_va (p_vaddr hdr + off)) as Huv by (unfold user_va, KERN_OFF; lia).
  assert (p_vaddr hdr + off + 4096 <= segment_end) as Hse by (unfold segment_end; clear -Hlt Hal; zlia).
  destruct (pagedir_get_or_new s pd _ _) as [s1 p] eqn:E.
  destruct (Z.eqb_spec p 0) as [->|Hp].
  { destruct (get_or_new_correct _ _ _ _ _ _ _ _ Hwf Hpd Huv E) as (own1 & Hsub & Hwf1 & Hd & Hspec).
    exists s1, (- ENOMEM). unfold segment_post. split_and!;
      first [done|right; split; [done|exact (get_or_new_out _ _ _ _ _ _ _ Hwf Hpd Huv E)]|exists own1; done|eapply mapped_fail; done|by eapply same_data_keeps|by eapply same_data_image]. }
  set (n := if off <? p_filesz hdr then _ else _).
  assert (Hn : n = Z.min (4096 - 0) (Z.max 0 (p_filesz hdr - off))).
  { unfold n, PAGE_BYTES. repeat case_if; lia. }
  destruct (segment_page own s (p_vaddr hdr + off) off 0 n s1 p) as (own1 & Hsub & Hwf1 & Hi1 & Hm1 & Hkb1 & Hh1);
    try done; try lia.
  rewrite !Z.add_0_r, Z.sub_0_r in *. unfold PAGE_BYTES.
  rewrite (u32_small (off + 4096)) by (unfold in_u32; lia).
  destruct (IH own1 (mk_mm (pm s1) (copy_clear (phys s1) p (u32 (elfmem + p_offset hdr + off)) n (4096 - n))) (off + 4096))
    as (s2 & ret & Eloop & (own2 & Hsub2 & Hwf2) & Hret & Hm2 & Hkb2 & Hh2 & Hik2);
    [done|by eapply segment_ok_mono|lia|clear -Hal; zlia|clear -Hf; zlia|].
  exists s2, ret. split; [exact Eloop|]. rewrite Z.add_assoc in *. unfold segment_post. split_and!.
  - exists own2. split; [by etrans|done].
  - done.
  - eapply maps_only_trans; (eapply maps_only_weaken; [| |done]); lia.
  - eapply keeps_bytes_trans; [done| |]; (eapply keeps_bytes_weaken; [| |done]); lia.
  - intros Hr0. eapply holds_bytes_app.
    + eapply (holds_bytes_mono pds); [done| | | |exact Hm2|exact Hkb2|exact Hh1]; [lia|lia|].
      unfold KERN_OFF. clear -Hal Hlt Hv1. zlia.
    + eapply holds_bytes_ext; [|by apply Hh2]. intros va Hva. simpl.
      eapply segment_byte_image; [exact Hok|exact Hi1|lia].
  - eapply image_kept_trans; [exact Hsub| |exact Hik2]. exact Hi1.
Qed.

Lemma segment_ok_correct own s :
  mm_wf own pds s -> segment_ok own -> p_align hdr = PAGE_BYTES -> in_u32 (p_vaddr hdr) ->
  0 < p_memsz hdr ->
  exists s' ret, process_segment_from_memory s hdr elfmem pd = Some (s', ret) /\
    (exists own', own ⊆ own' /\ mm_wf own' pds s') /\ (ret = 0 \/ ret = - ENOMEM /\ out_of_frames s') /\
    (ret = 0 -> holds_bytes pd (p_vaddr hdr) (p_vaddr hdr + p_memsz hdr) s' (segment_byte (phys s))) /\
    maps_only pds pd (4096 * (p_vaddr hdr / 4096)) segment_end s s' /\
    keeps_bytes pds pd (4096 * (p_vaddr hdr / 4096)) segment_end s s' /\ image_kept own s s'.
Proof using Hpd.
  intros Hwf Hok Hpa Hu Hms. unfold process_segment_from_memory. rewrite Hpa, Z.eqb_refl. cbn [negb].
  pose proof Hok as (Hv0 & Hv1 & Hm0 & Hf0 & _). rewrite land_fff.
  set (vo := p_vaddr hdr mod 4096). set (vq := p_vaddr hdr / 4096).
  assert (Ev : p_vaddr hdr = 4096 * vq + vo /\ 0 <= vo < 4096) by (unfold vo, vq; clear; zlia).
  clearbody vo vq.
  assert (Hse : p_vaddr hdr + p_memsz hdr <= segment_end) by (unfold segment_end; clear; zlia).
  destruct (Z.eqb_spec vo 0) as [Hz|Hnz]; cbn [negb].
  { destruct (segment_loop_correct own (Z.to_nat (p_memsz hdr / PAGE_BYTES + 1)) s 0)
      as (s' & ret & -> & Hown & Hret & Hm & Hkb & Hh & Hik); try done.
    - clear -Ev Hz. zlia.
    - rewrite Z.sub_0_r. unfold PAGE_BYTES. lia.
    - rewrite Z.add_0_r in *. replace (p_vaddr hdr) with (4096 * vq) in * by lia.
      exists s', ret. split_and!; try done. intros Hr va Hva. apply Hh; [done|lia]. }
  unfold in_u32 in Hu.
  assert (Z.land (p_vaddr hdr) 4294963200 = 4096 * vq) as ->.
  { rewrite (proj1 Ev). apply page_mask_spec; lia. }
  assert (user_va (4096 * vq)) as Huv by (unfold user_va, KERN_OFF in *; clear -Ev Hv0 Hv1 Hms; zlia).
  assert ((4096 * vq) mod 4096 = 0) as Hal by (clear; zlia).
  assert (4096 * vq + 4096 <= segment_end) as Hse2 by (unfold segment_end; clear -Ev Hms; zlia).
  destruct (pagedir_get_or_new s pd _ _) as [s1 p] eqn:E.
  destruct (Z.eqb_spec p 0) as [->|Hp].
  { destruct (get_or_new_correct _ _ _ _ _ _ _ _ Hwf Hpd Huv E) as (own1 & Hsub & Hwf1 & Hd & Hspec).
    exists s1, (- ENOMEM). split_and!;
      first [done|right; split; [done|exact (get_or_new_out _ _ _ _ _ _ _ Hwf Hpd Huv E)]|exists own1; done|eapply mapped_fail; done|by eapply same_data_keeps|by eapply same_data_image]. }
  unfold PAGE_BYTES. set (n := if p_filesz hdr <? 4096 - vo then _ else _).
  assert (Hn : n = Z.min (4096 - vo) (Z.max 0 (p_filesz hdr - 0))) by (unfold n; case_if; lia).
  destruct (segment_page own s (4096 * vq) 0 vo n s1 p) as (own1 & Hsub & Hwf1 & Hi1 & Hm1 & Hkb1 & Hh1);
    try done; try lia.
  rewrite Z.add_0_r in *.
  destruct (segment_loop_correct own1 (Z.to_nat (p_memsz hdr / 4096 + 1))
    (mk_mm (pm s1) (copy_clear (phys s1) (p + vo) (u32 (elfmem + p_offset hdr)) n (4096 - vo - n))) (4096 - vo))
    as (s2 & ret & Eloop & (own2 & Hsub2 & Hwf2) & Hret & Hm2 & Hkb2 & Hh2 & Hik2);
    [done|by eapply segment_ok_mono|lia|clear -Ev; zlia|clear -Ev Hm0; zlia|].
  exists s2, ret. split; [exact Eloop|].
  replace (p_vaddr hdr + (4096 - vo)) with (4096 * vq + 4096) in * by lia. split_and!.
  - exists own2. split; [by etrans|done].
  - done.
  - intros Hr. replace (p_vaddr hdr) with (4096 * vq + vo) at 1 2 by lia.
    assert (holds_bytes pd (4096 * vq + vo) segment_end s2 (segment_byte (phys s))) as Hall.
    { eapply holds_bytes_app.
      - eapply (holds_bytes_mono pds); [done| | | |exact Hm2|exact Hkb2|exact Hh1]; [lia|lia|apply Huv || idtac].
        unfold user_va, KERN_OFF in *. clear -Huv. zlia.
      - eapply holds_bytes_ext; [|by apply Hh2]. intros va Hva. simpl.
        eapply segment_byte_image; [exact Hok|exact Hi1|lia]. }
    intros va Hva. apply Hall. lia.
  - eapply maps_only_trans; (eapply maps_only_weaken; [| |done]); lia.
  - eapply keeps_bytes_trans; [done| |]; (eapply keeps_bytes_weaken; [| |done]); lia.
  - eapply image_kept_trans; [exact Hsub| |exact Hik2]. exact Hi1.
Qed.

End Segment.

(** ** The theorems *)

(** Mapping a user page.  In a well-formed memory,
    [pagedir_get_or_new] either fails and maps nothing, or returns the
    page-aligned frame that the MMU then reaches for every address of the
    page; no other translation of any address space changes, the memory
    stays well formed and a page already mapped is returned unchanged. *)
Theorem pagedir_get_or_new_maps pds s pd va mask s' p :
  mm_ok pds s -> pd ∈ pds -> user_va va ->
  pagedir_get_or_new s pd va mask = (s', p) ->
  mm_ok pds s' /\ mapped_spec pds s s' pd va mask p.
Proof.
  intros [own Hwf] Hpd Hva H.
  destruct (get_or_new_correct _ _ _ _ _ _ _ _ Hwf Hpd Hva H) as (own' & _ & Hwf' & _ & Hs).
  split; [by exists own'|done].
Qed.

(** C2: isolation.  After any sequence of directory allocations, page
    mappings and user stores, two user pages that translate to the same
    physical frame are the same page of the same address space. *)
Theorem address_spaces_isolated kpd s0 s pds pd1 va1 pd2 va2 pa1 pa2 u1 u2 w1 w2 :
  mm_start kpd s0 -> rtc (mm_step kpd) (s0, []) (s, pds) ->
  pd1 ∈ pds -> pd2 ∈ pds -> user_va va1 -> user_va va2 ->
  walk (phys s) pd1 va1 = Some (pa1, u1, w1) -> walk (phys s) pd2 va2 = Some (pa2, u2, w2) ->
  pa1 / 4096 = pa2 / 4096 -> pd1 = pd2 /\ va1 / 4096 = va2 / 4096.
Proof.
  intros Hs Hr. destruct (mm_reach_inv _ _ _ Hs Hr) as [_ [own Hwf]]. by apply (walk_injective own).
Qed.

(** [sys_brk] on a page-aligned break terminates; on success the
    break covers the requested address, every page below it is mapped for the
    process, and no other translation or mapped byte changes. *)
Theorem sys_brk_correct pds s p addr :
  mm_ok pds s -> cr3 p ∈ pds -> 4194304 <= ps_heap_end p <= KERN_OFF -> ps_heap_end p mod 4096 = 0 ->
  exists s' p' ret, sys_brk s p addr = Some (s', p', ret) /\
    mm_ok pds s' /\ keeps_bytes pds (cr3 p) 0 0 s s' /\ brk_spec pds s p addr s' p' ret.
Proof. apply sys_brk_ok. Qed.

(** Growing the user stack terminates; with result 0 the stack
    reaches below the faulting address, the new pages are mapped and zero,
    and everything mapped outside them is untouched. *)
Theorem process_grow_stack_correct pds s p fault :
  mm_ok pds s -> cr3 p ∈ pds -> ps_userstack p mod 4096 = 0 -> ps_userstack p <= KERN_OFF ->
  4194304 <= fault ->
  exists s' p' ret, process_grow_stack s p fault = Some (s', p', ret) /\
    mm_ok pds s' /\ cr3 p' = cr3 p /\ ps_heap_end p' = ps_heap_end p /\
    ((ret = 0 /\ ps_userstack p' <= fault) \/ (ret = -1 /\ fault < ps_userstack p')) /\
    maps_only pds (cr3 p) (ps_userstack p') (ps_userstack p) s s' /\
    keeps_bytes pds (cr3 p) (ps_userstack p') (ps_userstack p) s s' /\
    holds_bytes (cr3 p) (ps_userstack p') (ps_userstack p) s' (fun _ => 0).
Proof. apply grow_stack_ok. Qed.

(** ** Witnesses: a machine with 64 frames, the kernel's directory in frame 1 *)

Definition demo0 : mm := mk_mm (mk_pmem 16 64) ∅.
Definition demo1 : mm := (pagedir_alloc demo0 4096).1.
Definition demo_pd : Z := 65536.

Lemma demo_step : mm_step 4096 (demo0, []) (demo1, [demo_pd]).
Proof. apply step_pagedir; [vm_compute; done|reflexivity|done]. Qed.

Lemma demo_start : mm_start 4096 demo0.
Proof. unfold mm_start, pmem_wf. simpl. lia. Qed.

Lemma demo_ok : mm_ok [demo_pd] demo1.
Proof.
  destruct (mm_step_inv 4096 _ _ ltac:(lia) demo_step (mm_start_inv _ _ demo_start)) as [_ H]. exact H.
Qed.

Lemma demo_pd_in : demo_pd ∈ [demo_pd].
Proof. apply list_elem_of_singleton. done. Qed.

Lemma address_spaces_isolated_witness :
  let s := (pagedir_get_or_new demo1 demo_pd 4194304 6).1 in
  walk (phys s) demo_pd 4194304 = Some (73728, true, true) /\
  (demo_pd = demo_pd /\ 4194304 / 4096 = 4194305 / 4096).
Proof.
  split; [vm_compute; reflexivity|].
  apply (address_spaces_isolated 4096 demo0 (pagedir_get_or_new demo1 demo_pd 4194304 6).1 [demo_pd]
           demo_pd 4194304 demo_pd 4194305 73728 73729 true true true true demo_start).
  - eapply rtc_l; [exact demo_step|]. apply rtc_once.
    eapply (step_map 4096 demo1 [demo_pd] demo_pd 4194304 6); [exact demo_pd_in| |apply surjective_pairing].
    unfold user_va, KERN_OFF. lia.
  - exact demo_pd_in.
  - exact demo_pd_in.
  - unfold user_va, KERN_OFF. lia.
  - unfold user_va, KERN_OFF. lia.
  - vm_compute; reflexivity.
  - vm_compute; reflexivity.
  - reflexivity.
Defined.

Definition demo_proc : proc_mem := mk_proc_mem demo_pd (KERN_OFF - 4096) 8388608.

(** ** Behaviours outside the specification *)

(** The huge-page bit of a directory entry is not looked at: below 4 MB the
    identity mapping of entry 0 is taken for a page table at address 0. *)
Lemma hugepage_taken_for_table :
  let s := mk_mm (mk_pmem 16 64) (st32 ∅ 65536 131) in
  walk (phys s) 65536 4096 = Some (4096, false, true) /\
  let r := pagedir_get_or_new s 65536 4096 6 in
  r.2 = 65536 /\ ld32 (phys r.1) 4 = 65543 /\ walk (phys r.1) 65536 4096 = Some (4096, false, true).
Proof. vm_compute. done. Qed.

(** [pagedir_alloc] does not check the allocation: when memory is exhausted
    it clears and fills physical frame 0 and returns NULL. *)
Lemma pagedir_alloc_unchecked s kpd :
  edge (pm s) = upper_end (pm s) -> pmem_wf (pm s) -> in_u32 (ld32 (phys s) kpd) -> 4096 <= kpd ->
  let r := pagedir_alloc s kpd in
  r.2 = 0 /\ ld32 (phys r.1) 0 = ld32 (phys s) kpd /\ ld32 (phys r.1) 4 = 0.
Proof.
  intros He Hp Hu Hk. unfold pagedir_alloc. destruct (pmem_alloc (pm s) 1) as [p a] eqn:E.
  destruct (pmem_alloc_ok _ 1 _ _ Hp ltac:(done) E) as [(-> & -> & _)|(_ & He' & Hu' & [Hb _] & _)]; [|lia].
  change (Z.shiftr KERN_OFF PDE_SHIFT) with 768. change (4 * (N_PDE - 768)) with 1024.
  change PAGE_BYTES with 4096. simpl.
  assert (forall b, 4096 <= b -> ldb (bcopy (bfill (phys s) 0 (Z.to_nat 4096) 0) 3072 (kpd + 3072) (Z.to_nat 1024)) b = ldb (phys s) b) as Hsame.
  { intros b Hb. rewrite ldb_bcopy by lia. case_if; try lia; apply ldb_bfill_out; lia. }
  split_and!; [done| |].
  - rewrite ld32_st32_eq; unfold ld32 in *; rewrite !Hsame by lia; done.
  - rewrite ld32_st32_ne by lia. unfold ld32. rewrite !ldb_bcopy by lia.
    repeat (case_if; try lia). by rewrite !ldb_bfill.
Qed.

End PGP.
