(* ===== verification/CString.v ===== *)
(** * C strings and memory blocks (lib/c/src/stdlib.c)

    Module [CS]: the functions of string.h and ctype.h over a byte memory,
    one definition per C function.  A pointer is an address; a C object does
    not wrap around the address space, so pointer arithmetic is that of [Z].
    A loop that has no bound of its own takes fuel, and [None] is fuel running
    out.  [chr] is the signed [char] of i386. *)

From S2P Require Import Prelude.

Module CS.

Abbreviation mem := bmem.

Definition chr (m : mem) (p : Z) : Z := s8 (ldb m p).
Definition NULL : Z := 0.

(** ** Character classes *)

Definition CHARGRP_ALNUM : Z := 1.
Definition CHARGRP_ALPHA : Z := 2.
Definition CHARGRP_CNTRL : Z := 4.
Definition CHARGRP_DIGIT : Z := 8.
Definition CHARGRP_GRAPH : Z := 16.
Definition CHARGRP_LOWER : Z := 64.
Definition CHARGRP_PRINT : Z := 512.
Definition CHARGRP_PUNCT : Z := 1024.
Definition CHARGRP_SPACE : Z := 2048.
Definition CHARGRP_UPPER : Z := 4096.
Definition CHARGRP_XDIGIT : Z := 8192.

Definition ascii_chrgrp : list Z :=
  [ 0x0004; 0x0004; 0x0004; 0x0004; 0x0004; 0x0004; 0x0004; 0x0004;
    0x0004; 0x0804; 0x0804; 0x0804; 0x0804; 0x0804; 0x0004; 0x0004;
    0x0004; 0x0004; 0x0004; 0x0004; 0x0004; 0x0004; 0x0004; 0x0004;
    0x0004; 0x0004; 0x0004; 0x0004; 0x0004; 0x0004; 0x0004; 0x0004;
    0x0800; 0x0010; 0x0010; 0x0010; 0x0010; 0x0010; 0x0010; 0x0010;
    0x0010; 0x0010; 0x0010; 0x0010; 0x0010; 0x0010; 0x0010; 0x0010;
    0x20b9; 0x20b9; 0x20b9; 0x20b9; 0x20b9; 0x20b9; 0x20b9; 0x20b9;
    0x20b9; 0x20b9; 0x0010; 0x0010; 0x0010; 0x0010; 0x0010; 0x0010;
    0x0010; 0x3033; 0x3033; 0x3033; 0x3033; 0x3033; 0x3033; 0x1013;
    0x1013; 0x1013; 0x1013; 0x1013; 0x1013; 0x1013; 0x1013; 0x1013;
    0x1013; 0x1013; 0x1013; 0x1013; 0x1013; 0x1013; 0x1013; 0x1013;
    0x1013; 0x1013; 0x1013; 0x0010; 0x0010; 0x0010; 0x0010; 0x0010;
    0x0010; 0x2073; 0x2073; 0x2073; 0x2073; 0x2073; 0x2073; 0x0053;
    0x0053; 0x0053; 0x0053; 0x0053; 0x0053; 0x0053; 0x0053; 0x0053;
    0x0053; 0x0053; 0x0053; 0x0053; 0x0053; 0x0053; 0x0053; 0x0053;
    0x0053; 0x0053; 0x0053; 0x0010; 0x0010; 0x0010; 0x0010; 0x0004 ].

(** The table read of every class test; an index outside the table (every
    negative [char]) is an access out of bounds, [None]. *)
Definition chrgrp (c group : Z) : option Z :=
  if (0 <=? c) && (c <? 128) then
    option_map (fun g => Z.land g group) (ascii_chrgrp !! Z.to_nat c)
  else None.

Definition isalnum (c : Z) : option Z := chrgrp c CHARGRP_ALNUM.
Definition isalpha (c : Z) : option Z := chrgrp c CHARGRP_ALPHA.
Definition isspace (c : Z) : option Z := chrgrp c CHARGRP_SPACE.
Definition isdigit (c : Z) : option Z := chrgrp c CHARGRP_DIGIT.
Definition islower (c : Z) : option Z := chrgrp c CHARGRP_LOWER.
Definition isupper (c : Z) : option Z := chrgrp c CHARGRP_UPPER.
Definition iscntrl (c : Z) : option Z := chrgrp c CHARGRP_CNTRL.
Definition isgraph (c : Z) : option Z := chrgrp c CHARGRP_GRAPH.
Definition ispunct (c : Z) : option Z := chrgrp c CHARGRP_PUNCT.
Definition isxdigit (c : Z) : option Z := chrgrp c CHARGRP_XDIGIT.
Definition isprint (c : Z) : option Z := chrgrp c CHARGRP_PRINT.

Definition tolower (c : Z) : Z := if (65 <=? c) && (c <=? 90) then c + 97 - 65 else c.
Definition toupper (c : Z) : Z := if (97 <=? c) && (c <=? 122) then c + 65 - 97 else c.

(** ** Lengths *)

Fixpoint strlen_loop (fuel : nat) (m : mem) (s c : Z) : option Z :=
  match fuel with
  | O => None
  | S fuel => if ldb m c =? 0 then Some (c - s) else strlen_loop fuel m s (c + 1)
  end.
Definition strlen (fuel : nat) (m : mem) (s : Z) : option Z := strlen_loop fuel m s s.

Fixpoint strnlen_loop (fuel : nat) (m : mem) (s maxlen c : Z) : option Z :=
  match fuel with
  | O => None
  | S fuel =>
      if negb (ldb m c =? 0) && (c - s <? maxlen) then strnlen_loop fuel m s maxlen (c + 1)
      else Some (c - s)
  end.
Definition strnlen (fuel : nat) (m : mem) (s maxlen : Z) : option Z := strnlen_loop fuel m s maxlen s.

(** ** Comparison *)

Fixpoint strncmp_loop (fuel : nat) (m : mem) (s1 s2 n i : Z) : option Z :=
  match fuel with
  | O => None
  | S fuel =>
      if i <? n then
        if negb (chr m s1 =? chr m s2) then Some (chr m s1 - chr m s2)
        else if ldb m s1 =? 0 then Some 0
        else strncmp_loop fuel m (s1 + 1) (s2 + 1) n (i + 1)
      else Some 0
  end.
Definition strncmp (fuel : nat) (m : mem) (s1 s2 n : Z) : option Z :=
  if s1 =? s2 then Some 0 else strncmp_loop fuel m s1 s2 n 0.
Definition strcmp (fuel : nat) (m : mem) (s1 s2 : Z) : option Z := strncmp fuel m s1 s2 UINT_MAX.
Definition strcoll (fuel : nat) (m : mem) (s1 s2 : Z) : option Z := strcmp fuel m s1 s2.

Fixpoint strncasecmp_loop (fuel : nat) (m : mem) (s1 s2 n i : Z) : option Z :=
  match fuel with
  | O => None
  | S fuel =>
      if i <? n then
        let lc1 := tolower (chr m s1) in
        let lc2 := tolower (chr m s2) in
        if negb (lc1 =? lc2) then Some (lc2 - lc1)
        else if ldb m s1 =? 0 then Some 0
        else strncasecmp_loop fuel m (s1 + 1) (s2 + 1) n (i + 1)
      else Some 0
  end.
Definition strncasecmp (fuel : nat) (m : mem) (s1 s2 n : Z) : option Z :=
  if s1 =? s2 then Some 0 else strncasecmp_loop fuel m s1 s2 n 0.
Definition strcasecmp (fuel : nat) (m : mem) (s1 s2 : Z) : option Z := strncasecmp fuel m s1 s2 UINT_MAX.

Fixpoint memcmp_loop (n : nat) (m : mem) (c1 c2 : Z) : Z :=
  match n with
  | O => 0
  | S n =>
      let diff := s8 (chr m c1 - chr m c2) in
      if negb (diff =? 0) then diff else memcmp_loop n m (c1 + 1) (c2 + 1)
  end.
Definition memcmp (m : mem) (s1 s2 n : Z) : Z := memcmp_loop (Z.to_nat n) m s1 s2.

(** ** Copying *)

Fixpoint strcpy_loop (fuel : nat) (m : mem) (d src : Z) : option mem :=
  match fuel with
  | O => None
  | S fuel =>
      let c := ldb m src in
      let m := stb m d c in
      if c =? 0 then Some m else strcpy_loop fuel m (d + 1) (src + 1)
  end.
Definition strcpy (fuel : nat) (m : mem) (dest src : Z) : option (mem * Z) :=
  if (src =? NULL) || (dest =? NULL) then Some (m, NULL)
  else option_map (fun m => (m, dest)) (strcpy_loop fuel m dest src).

Fixpoint strncpy_loop (fuel : nat) (m : mem) (d src i n : Z) : option mem :=
  match fuel with
  | O => None
  | S fuel =>
      if negb (ldb m src =? 0) && (i <? n) then
        strncpy_loop fuel (stb m d (ldb m src)) (d + 1) (src + 1) (i + 1) n
      else Some (stb m d 0)
  end.
Definition strncpy (fuel : nat) (m : mem) (dest src n : Z) : option (mem * Z) :=
  option_map (fun m => (m, dest)) (strncpy_loop fuel m dest src 0 n).

(** [strndup] with the block [d] that [kmalloc(len)] returns: the size it
    asks for, the memory and the result. *)
Definition strndup_size (len n : Z) : Z := if n <? u32 (len + 1) then n else u32 (len + 1).
Definition strndup (fuel : nat) (kmalloc : Z -> Z) (m : mem) (s n : Z) : option (mem * Z) :=
  if s =? NULL then Some (m, NULL)
  else match strlen fuel m s with
  | None => None
  | Some len => strncpy fuel m (kmalloc (strndup_size len n)) s n
  end.
Definition strdup (fuel : nat) (kmalloc : Z -> Z) (m : mem) (s : Z) : option (mem * Z) :=
  strndup fuel kmalloc m s UINT_MAX.

Fixpoint from_start_loop (n : nat) (m : mem) (dest src i : Z) : mem :=
  match n with
  | O => m
  | S n => from_start_loop n (stb m (dest + i) (ldb m (src + i))) dest src (i + 1)
  end.
Definition memcpy_from_start (m : mem) (dest src size : Z) : mem :=
  from_start_loop (Z.to_nat size) m dest src 0.

Fixpoint from_end_loop (n : nat) (m : mem) (dest src size i : Z) : mem :=
  match n with
  | O => m
  | S n =>
      from_end_loop n (stb m (dest + (size - 1 - i)) (ldb m (src + (size - 1 - i)))) dest src size (i + 1)
  end.
Definition memcpy_from_end (m : mem) (dest src size : Z) : mem :=
  from_end_loop (Z.to_nat size) m dest src size 0.

Definition memcpy (m : mem) (dest src size : Z) : mem :=
  if dest =? src then m else memcpy_from_start m dest src size.

Definition memmove (m : mem) (dst src len : Z) : mem :=
  if dst =? src then m
  else if (src <? dst) && (dst <? src + len) then memcpy_from_end m dst src len
  else memcpy_from_start m dst src len.

Fixpoint memset_loop (n : nat) (m : mem) (s c i : Z) : mem :=
  match n with
  | O => m
  | S n => memset_loop n (stb m (s + i) (u8 c)) s c (i + 1)
  end.
Definition memset (m : mem) (s c n : Z) : mem := memset_loop (Z.to_nat n) m s c 0.

(** ** Searching *)

Fixpoint memchr_loop (n : nat) (m : mem) (s c i : Z) : Z :=
  match n with
  | O => NULL
  | S n => if chr m (s + i) =? c then s + i else memchr_loop n m s c (i + 1)
  end.
Definition memchr (m : mem) (s c n : Z) : Z := memchr_loop (Z.to_nat n) m s c 0.

Fixpoint strnchr_loop (fuel : nat) (m : mem) (s n c cur : Z) : option Z :=
  match fuel with
  | O => None
  | S fuel =>
      if negb (ldb m cur =? 0) && (cur - s <? s32 n) then
        if s8 c =? chr m cur then Some cur else strnchr_loop fuel m s n c (cur + 1)
      else Some NULL
  end.
Definition strnchr (fuel : nat) (m : mem) (s n c : Z) : option Z := strnchr_loop fuel m s n c s.
Definition strchr (fuel : nat) (m : mem) (s c : Z) : option Z := strnchr fuel m s INT_MAX c.

(** [strnchr] on the bytes from [s] on: the offset of the character. *)
Fixpoint strnchr_in (s : list Z) (n : nat) (c : Z) : option Z :=
  match n, s with
  | S n, x :: s => if x =? 0 then None else if s8 c =? s8 x then Some 0 else option_map Z.succ (strnchr_in s n c)
  | _, _ => None
  end.

Fixpoint strnrchr_loop (fuel : nat) (m : mem) (s n c cur last : Z) : option Z :=
  match fuel with
  | O => None
  | S fuel =>
      if negb (ldb m cur =? 0) && (cur - s <? n) then
        strnrchr_loop fuel m s n c (cur + 1) (if s8 c =? chr m cur then cur else last)
      else Some last
  end.
Definition strnrchr (fuel : nat) (m : mem) (s n c : Z) : option Z := strnrchr_loop fuel m s n c s NULL.
Definition strrchr (fuel : nat) (m : mem) (s c : Z) : option Z := strnrchr fuel m s INT_MAX c.

(** The table of accepted bytes that [strspn] and [strpbrk] fill. *)
Fixpoint accept_loop (fuel : nat) (m : mem) (s : Z) (index : Z -> Z) (accept : gset Z) : option (gset Z) :=
  match fuel with
  | O => None
  | S fuel =>
      if ldb m s =? 0 then Some accept
      else accept_loop fuel m (s + 1) index ({[ index (chr m s) ]} ∪ accept)
  end.

Fixpoint strspn_loop (fuel : nat) (m : mem) (accept : gset Z) (s1 s : Z) : option Z :=
  match fuel with
  | O => None
  | S fuel =>
      if ldb m s =? 0 then Some (s - s1)
      else if bool_decide (u8 (chr m s) ∈ accept) then strspn_loop fuel m accept s1 (s + 1)
      else Some (s - s1)
  end.
Definition strspn (fuel : nat) (m : mem) (s1 s2 : Z) : option Z :=
  match accept_loop fuel m s2 u8 ∅ with
  | None => None
  | Some accept => strspn_loop fuel m accept s1 s1
  end.

(** [strpbrk] fills its table at [(int)c] and reads it at [(unsigned)c]: both
    are the same address for every [char]. *)
Fixpoint strpbrk_loop (fuel : nat) (m : mem) (accept : gset Z) (c : Z) : option Z :=
  match fuel with
  | O => None
  | S fuel =>
      if ldb m c =? 0 then Some NULL
      else if bool_decide (u32 (chr m c) ∈ accept) then Some c
      else strpbrk_loop fuel m accept (c + 1)
  end.
Definition strpbrk (fuel : nat) (m : mem) (s accept : Z) : option Z :=
  match accept_loop fuel m accept u32 ∅ with
  | None => None
  | Some tbl => strpbrk_loop fuel m tbl s
  end.

(** ** Tokens *)

(** Skip while membership of the current byte in [delim] equals [want]. *)
Fixpoint skip_loop (fuel : nat) (m : mem) (delim : Z) (want : bool) (str : Z) : option Z :=
  match fuel with
  | O => None
  | S fuel' =>
      if ldb m str =? 0 then Some str
      else match strchr fuel m delim (chr m str) with
      | None => None
      | Some r =>
          if Bool.eqb (negb (r =? NULL)) want then skip_loop fuel' m delim want (str + 1) else Some str
      end
  end.

(** Memory, [*saveptr] and the token. *)
Definition strtok_r (fuel : nat) (m : mem) (str delim saveptr : Z) : option (mem * Z * Z) :=
  let str := if str =? NULL then saveptr else str in
  if str =? NULL then Some (m, saveptr, NULL)
  else match skip_loop fuel m delim true str with
  | None => None
  | Some tok =>
      if ldb m tok =? 0 then Some (m, saveptr, NULL)
      else match skip_loop fuel m delim false tok with
      | None => None
      | Some e =>
          if ldb m e =? 0 then Some (m, NULL, tok)
          else Some (stb m e 0, e + 1, tok)
      end
  end.

(** ** Hash *)

Fixpoint jenkins_loop (n : nat) (m : mem) (key hash : Z) : Z :=
  match n with
  | O => hash
  | S n =>
      let hash := u32 (hash + chr m key) in
      let hash := u32 (hash + u32 (Z.shiftl hash 10)) in
      let hash := Z.lxor hash (Z.shiftr hash 6) in
      jenkins_loop n m (key + 1) hash
  end.
Definition strhash (m : mem) (key len : Z) : Z :=
  let hash := jenkins_loop (Z.to_nat len) m key 0 in
  let hash := u32 (hash + u32 (Z.shiftl hash 3)) in
  let hash := u32 (hash + Z.shiftr hash 11) in
  u32 (hash + u32 (Z.shiftl hash 15)).

(** ** Environment *)

(** The loop of [getenv] over the NULL-terminated array at [pair]; the
    kernel build answers one name, UNAME, before looking at [environ]. *)
Fixpoint getenv_loop (fuel : nat) (m : mem) (name namelen : Z) (pair : Z) : option Z :=
  match fuel with
  | O => None
  | S fuel' =>
      let p := ld32 m pair in
      if p =? NULL then Some NULL
      else match strncmp fuel m name p namelen with
      | None => None
      | Some d =>
          if (d =? 0) && (ldb m (p + namelen) =? 61) then Some (p + namelen + 1)
          else getenv_loop fuel' m name namelen (pair + 4)
      end
  end.
Definition getenv (fuel : nat) (m : mem) (environ name : Z) : option Z :=
  if environ =? NULL then Some NULL
  else match strlen fuel m name with
  | None => None
  | Some namelen => getenv_loop fuel m name namelen environ
  end.

End CS.
