(* ===== verification/CStringProofs.v ===== *)
(** * Correctness of the string functions

    Module [CSP]: a C string in memory against the list of its bytes, and
    the specification of the functions of [CString] over those lists. *)

From S2P Require Import Prelude CString.
Import CS.

Module CSP.

(** ** Bytes and strings in memory *)

Definition bytes_at (m : mem) (p : Z) (l : list Z) : Prop :=
  forall i b, l !! i = Some b -> ldb m (p + Z.of_nat i) = b.

(** The bytes of a C string: no NUL, each in a byte. *)
Definition str_bytes (s : list Z) : Prop := Forall (fun b => 0 < b < 256) s.

Definition cstr (m : mem) (p : Z) (s : list Z) : Prop :=
  bytes_at m p (s ++ [0]) /\ str_bytes s.

#[global] Instance str_bytes_dec s : Decision (str_bytes s).
Proof. unfold str_bytes. apply _. Defined.

Lemma bytes_at_nil m p : bytes_at m p [].
Proof. intros i b H. done. Qed.

Lemma bytes_at_cons m p b l : bytes_at m p (b :: l) <-> ldb m p = b /\ bytes_at m (p + 1) l.
Proof.
  split.
  - intros H. split.
    + specialize (H 0%nat b eq_refl). by rewrite Z.add_0_r in H.
    + intros i b' Hi. specialize (H (S i) b' Hi). rewrite <- H. f_equal. lia.
  - intros [<- H] [|i] b' Hi; simpl in Hi.
    + rewrite Z.add_0_r. congruence.
    + rewrite <- (H i b' Hi). f_equal. lia.
Qed.

Lemma bytes_at_app m p l1 l2 :
  bytes_at m p (l1 ++ l2) <-> bytes_at m p l1 /\ bytes_at m (p + Z.of_nat (length l1)) l2.
Proof.
  revert p. induction l1 as [|b l1 IH]; intros p; simpl.
  - rewrite Z.add_0_r. split; [intros H; split; [apply bytes_at_nil|done]|by intros [_ ?]].
  - rewrite !bytes_at_cons, IH. replace (p + 1 + Z.of_nat (length l1)) with (p + Z.pos (Pos.of_succ_nat (length l1))) by lia.
    tauto.
Qed.

Lemma cstr_nil m p : cstr m p [] <-> ldb m p = 0.
Proof.
  unfold cstr. simpl. rewrite bytes_at_cons. split; [tauto|].
  intros H. split; [split; [done|apply bytes_at_nil]|constructor].
Qed.

Lemma cstr_cons m p b s : cstr m p (b :: s) <-> ldb m p = b /\ 0 < b < 256 /\ cstr m (p + 1) s.
Proof.
  unfold cstr, str_bytes. simpl. rewrite bytes_at_cons, Forall_cons. tauto.
Qed.

Lemma cstr_suffix m p s1 s2 : cstr m p (s1 ++ s2) -> cstr m (p + Z.of_nat (length s1)) s2.
Proof.
  unfold cstr, str_bytes. rewrite <- app_assoc, bytes_at_app, Forall_app. tauto.
Qed.

(** The memory between two addresses is all that matters. *)
Lemma bytes_at_ext m m' p l :
  (forall a, p <= a < p + Z.of_nat (length l) -> ldb m' a = ldb m a) ->
  bytes_at m p l -> bytes_at m' p l.
Proof.
  intros Hm H i b Hi. rewrite Hm; [by apply H|]. apply lookup_lt_Some in Hi. lia.
Qed.

Lemma s8_inj a b : 0 <= a < 256 -> 0 <= b < 256 -> s8 a = s8 b -> a = b.
Proof.
  unfold s8, swrap. change (2 ^ 8) with 256. change (2 ^ (8 - 1)) with 128. intros. zlia.
Qed.

(** ** Lengths *)

Lemma strlen_correct fuel m p s :
  cstr m p s -> (length s < fuel)%nat -> strlen fuel m p = Some (Z.of_nat (length s)).
Proof.
  unfold strlen. intros H Hf.
  cut (forall q, cstr m q s -> strlen_loop fuel m p q = Some (q - p + Z.of_nat (length s))).
  { intros Hq. rewrite (Hq p H). f_equal. lia. }
  clear H. revert fuel Hf. induction s as [|b s IH]; intros [|fuel] Hf q H; simpl in Hf; try lia; simpl.
  - apply cstr_nil in H. rewrite H. simpl. f_equal. lia.
  - apply cstr_cons in H as (-> & Hb & H). rewrite (proj2 (Z.eqb_neq b 0)) by lia.
    rewrite (IH fuel ltac:(lia) _ H). f_equal. lia.
Qed.

Lemma strnlen_correct fuel m p s maxlen :
  cstr m p s -> 0 <= maxlen -> (length s < fuel)%nat ->
  strnlen fuel m p maxlen = Some (Z.min (Z.of_nat (length s)) maxlen).
Proof.
  unfold strnlen. intros H Hm Hf.
  cut (forall q, cstr m q s -> q - p <= maxlen ->
        strnlen_loop fuel m p maxlen q = Some (Z.min (q - p + Z.of_nat (length s)) maxlen)).
  { intros Hq. rewrite (Hq p H) by lia. f_equal. lia. }
  clear H. revert fuel Hf. induction s as [|b s IH]; intros [|fuel] Hf q H Hq; simpl in Hf; try lia; simpl.
  - apply cstr_nil in H. rewrite H. simpl. f_equal. lia.
  - apply cstr_cons in H as (-> & Hb & H). rewrite (proj2 (Z.eqb_neq b 0)) by lia. simpl.
    case_if; [|f_equal; lia]. rewrite (IH fuel ltac:(lia) _ H) by lia. f_equal. lia.
Qed.

(** ** Comparison *)

(** The reference: difference of the first bytes that differ among the
    first [n], with the terminator as the byte after the last. *)
Fixpoint cmp_spec (s1 s2 : list Z) (n : nat) {struct n} : Z :=
  match n with
  | O => 0
  | S n =>
      match s1, s2 with
      | [], [] => 0
      | [], b :: _ => - s8 b
      | a :: _, [] => s8 a
      | a :: s1, b :: s2 => if a =? b then cmp_spec s1 s2 n else s8 a - s8 b
      end
  end.

Lemma s8_nonzero b : 0 < b < 256 -> s8 b <> 0.
Proof. unfold s8, swrap. change (2 ^ 8) with 256. change (2 ^ (8 - 1)) with 128. intros. zlia. Qed.

Lemma strncmp_loop_correct m n s1 :
  forall fuel p1 p2 s2 i, cstr m p1 s1 -> cstr m p2 s2 -> (length s1 < fuel)%nat -> 0 <= i ->
  strncmp_loop fuel m p1 p2 n i = Some (cmp_spec s1 s2 (Z.to_nat (n - i))).
Proof.
  induction s1 as [|a s1 IH]; intros [|fuel] p1 p2 s2 i H1 H2 Hf Hi; simpl in Hf; try lia; cbn [strncmp_loop].
  all: destruct (Z.ltb_spec i n) as [Hl|Hl]; [|by replace (Z.to_nat (n - i)) with 0%nat by lia].
  all: replace (Z.to_nat (n - i)) with (S (Z.to_nat (n - (i + 1)))) by lia; cbn [cmp_spec]; unfold chr.
  - apply cstr_nil in H1. rewrite H1. destruct s2 as [|b s2].
    + apply cstr_nil in H2. by rewrite H2.
    + apply cstr_cons in H2 as (-> & Hb & _). pose proof (s8_nonzero b Hb).
      change (s8 0) with 0. rewrite (proj2 (Z.eqb_neq 0 (s8 b))) by lia. simpl. by rewrite Z.sub_0_l.
  - apply cstr_cons in H1 as (-> & Ha & H1). pose proof (s8_nonzero a Ha).
    rewrite (proj2 (Z.eqb_neq a 0)) by lia. destruct s2 as [|b s2].
    + apply cstr_nil in H2. rewrite H2. change (s8 0) with 0.
      rewrite (proj2 (Z.eqb_neq (s8 a) 0)) by lia. simpl. by rewrite Z.sub_0_r.
    + apply cstr_cons in H2 as (-> & Hb & H2). destruct (Z.eqb_spec a b) as [->|Hne].
      * rewrite Z.eqb_refl. simpl. apply IH; lia || done.
      * rewrite (proj2 (Z.eqb_neq (s8 a) (s8 b))); [done|]. intros E. apply Hne, s8_inj; lia.
Qed.

Lemma cmp_spec_refl s n : cmp_spec s s n = 0.
Proof. revert n. induction s as [|a s IH]; intros [|n]; simpl; try done. by rewrite Z.eqb_refl. Qed.

Lemma bytes_at_det m p s1 s2 : cstr m p s1 -> cstr m p s2 -> s1 = s2.
Proof.
  revert p s2. induction s1 as [|a s1 IH]; intros p s2 H1 H2; destruct s2 as [|b s2]; try done.
  - apply cstr_nil in H1. apply cstr_cons in H2 as (H2 & ? & _). lia.
  - apply cstr_nil in H2. apply cstr_cons in H1 as (H1 & ? & _). lia.
  - apply cstr_cons in H1 as (E1 & _ & H1). apply cstr_cons in H2 as (E2 & _ & H2).
    rewrite (IH _ _ H1 H2). congruence.
Qed.

Lemma strncmp_correct fuel m p1 p2 s1 s2 n :
  cstr m p1 s1 -> cstr m p2 s2 -> (length s1 < fuel)%nat ->
  strncmp fuel m p1 p2 n = Some (cmp_spec s1 s2 (Z.to_nat n)).
Proof.
  intros H1 H2 Hf. unfold strncmp. case_if.
  - subst. by rewrite (bytes_at_det _ _ _ _ H1 H2), cmp_spec_refl.
  - rewrite (strncmp_loop_correct m n s1 fuel p1 p2 s2 0 H1 H2 Hf ltac:(lia)). by rewrite Z.sub_0_r.
Qed.

Lemma cmp_spec_zero s1 s2 n :
  str_bytes s1 -> str_bytes s2 -> cmp_spec s1 s2 n = 0 <-> take n s1 = take n s2.
Proof.
  revert s1 s2. induction n as [|n IH]; intros s1 s2 H1 H2; [done|].
  destruct H1 as [|a s1 Ha H1], H2 as [|b s2 Hb H2]; simpl; try done.
  - pose proof (s8_nonzero b Hb). split; [lia|discriminate].
  - pose proof (s8_nonzero a Ha). split; [lia|discriminate].
  - case_if.
    + subst. rewrite IH by done. split; [by intros ->|by intros [= E]].
    + split; [|by intros [= ? ?]]. intros E. exfalso. assert (a = b); [apply s8_inj; lia|done].
Qed.

(** ** Blocks *)

Lemma from_start_correct n m dst src i a :
  dst < src \/ src + i + Z.of_nat n <= dst + i ->
  ldb (from_start_loop n m dst src i) a =
  if (dst + i <=? a) && (a <? dst + i + Z.of_nat n) then ldb m (src + (a - dst)) else ldb m a.
Proof.
  revert m i. induction n as [|n IH]; intros m i H; cbn [from_start_loop].
  - case_if; (done || lia).
  - rewrite IH by lia. rewrite !ldb_stb.
    repeat (case_if; try lia); first [done | f_equal; lia].
Qed.

Lemma from_end_correct n m dst src size i a :
  src < dst -> i + Z.of_nat n = size ->
  ldb (from_end_loop n m dst src size i) a =
  if (dst <=? a) && (a <? dst + size - i) then ldb m (src + (a - dst)) else ldb m a.
Proof.
  revert m i. induction n as [|n IH]; intros m i H Hn; cbn [from_end_loop].
  - case_if; (done || lia).
  - rewrite IH by lia. rewrite !ldb_stb.
    repeat (case_if; try lia); first [done | f_equal; lia].
Qed.

Lemma memset_loop_correct n m s c i a :
  ldb (memset_loop n m s c i) a =
  if (s + i <=? a) && (a <? s + i + Z.of_nat n) then u8 c else ldb m a.
Proof.
  revert m i. induction n as [|n IH]; intros m i; cbn [memset_loop].
  - case_if; (done || lia).
  - rewrite IH, ldb_stb. repeat (case_if; try lia); done.
Qed.

Lemma memset_correct m s c n a :
  0 <= n -> ldb (memset m s c n) a = if (s <=? a) && (a <? s + n) then u8 c else ldb m a.
Proof.
  intros Hn. unfold memset. rewrite memset_loop_correct, Z.add_0_r, Z2Nat.id by done. done.
Qed.

(** ** Copying strings *)

Lemma strncpy_loop_correct n s :
  forall fuel m d src i, cstr m src s -> (length s < fuel)%nat -> 0 <= i <= n ->
  (d + Z.of_nat (length s) < src \/ src + Z.of_nat (length s) < d) ->
  exists m', strncpy_loop fuel m d src i n = Some m' /\
    bytes_at m' d (take (Z.to_nat (n - i)) s ++ [0]) /\
    (forall a, a < d \/ d + Z.min (n - i) (Z.of_nat (length s)) < a -> ldb m' a = ldb m a).
Proof.
  induction s as [|b s IH]; intros [|fuel] m d src i H Hf Hi Hd; simpl in Hf, Hd; try lia; cbn [strncpy_loop].
  - apply cstr_nil in H. rewrite H. cbn [Z.eqb negb andb]. eexists. split; [done|]. rewrite take_nil. simpl. split.
    + apply bytes_at_cons. rewrite ldb_stb, Z.eqb_refl. split; [done|apply bytes_at_nil].
    + intros a Ha. rewrite ldb_stb. case_if; (done || lia).
  - apply cstr_cons in H as (Hb & Hr & H). rewrite Hb, (proj2 (Z.eqb_neq b 0)) by lia. cbn [negb andb].
    destruct (Z.ltb_spec i n) as [Hl|Hl].
    + destruct (IH fuel (stb m d b) (d + 1) (src + 1) (i + 1)) as (m' & -> & Hby & Ho); try lia.
      { destruct H as [H1 H2]. split; [|done]. eapply bytes_at_ext; [|exact H1].
        intros a Ha. rewrite length_app in Ha. simpl in Ha. rewrite ldb_stb. case_if; (done || lia). }
      exists m'. split; [done|]. split.
      * replace (Z.to_nat (n - i)) with (S (Z.to_nat (n - (i + 1)))) by lia. simpl.
        apply bytes_at_cons. split; [|done].
        rewrite Ho by lia. by rewrite ldb_stb, Z.eqb_refl.
      * intros a Ha. simpl in Ha. rewrite Ho by lia. rewrite ldb_stb. case_if; (done || lia).
    + eexists. split; [done|]. replace (Z.to_nat (n - i)) with 0%nat by lia. simpl. split.
      * apply bytes_at_cons. rewrite ldb_stb, Z.eqb_refl. split; [done|apply bytes_at_nil].
      * intros a Ha. rewrite ldb_stb. case_if; (done || lia).
Qed.

Lemma str_bytes_take n s : str_bytes s -> str_bytes (take n s).
Proof. apply Forall_take. Qed.

(** ** Searching *)

Lemma strnchr_loop_correct m s0 n c p s :
  forall fuel q, cstr m q s -> (length s < fuel)%nat -> q = p ->
  s0 <= q -> q - s0 + Z.of_nat (length s) < s32 n ->
  exists r, strnchr_loop fuel m s0 n c q = Some r /\
    match list_find (fun b => s8 b = s8 c) s with
    | Some (i, _) => r = q + Z.of_nat i
    | None => r = NULL
    end.
Proof.
  revert p. induction s as [|b s IH]; intros p [|fuel] q H Hf -> H0 Hn; simpl in Hf, Hn; try lia; cbn [strnchr_loop].
  - apply cstr_nil in H. rewrite H. cbn. eauto.
  - apply cstr_cons in H as (Hb & Hr & H). unfold chr. rewrite Hb, (proj2 (Z.eqb_neq b 0)) by lia. cbn [negb andb].
    rewrite (proj2 (Z.ltb_lt (p - s0) (s32 n))) by lia. simpl.
    destruct (Z.eqb_spec (s8 c) (s8 b)) as [E|E].
    + rewrite decide_True by done. eexists. split; [done|]. lia.
    + rewrite decide_False by done.
      destruct (IH (p + 1) fuel (p + 1) H) as (r & -> & Hr'); try lia.
      exists r. split; [done|]. destruct (list_find _ s) as [[i b']|]; simpl; [lia|done].
Qed.

Lemma strchr_mem fuel m p s c :
  cstr m p s -> (length s < fuel)%nat -> Z.of_nat (length s) < INT_MAX -> 0 < p -> 0 < c < 256 ->
  exists r, strchr fuel m p (s8 c) = Some r /\ (negb (r =? NULL) = bool_decide (c ∈ s)).
Proof.
  intros H Hf Hn Hp Hc. unfold strchr, strnchr.
  assert (E88 : s8 (s8 c) = s8 c).
  { unfold s8, swrap. change (2 ^ 8) with 256. change (2 ^ (8 - 1)) with 128. zlia. }
  destruct (strnchr_loop_correct m p INT_MAX (s8 c) p s fuel p H Hf eq_refl) as (r & Hr & Hs); [lia|change (s32 INT_MAX) with INT_MAX; lia|].
  exists r. split; [done|]. destruct H as [_ Hb].
  destruct (list_find _ s) as [[i b]|] eqn:Ef.
  - apply list_find_Some in Ef as (Hi & Ec & _). rewrite E88 in Ec.
    pose proof (proj1 (Forall_lookup _ _) Hb _ _ Hi). cbv beta in *; apply s8_inj in Ec; [|lia|lia]. subst b.
    rewrite bool_decide_true by (by eapply list_elem_of_lookup_2). subst r. unfold NULL.
    rewrite (proj2 (Z.eqb_neq _ 0)); [done|lia].
  - rewrite Hs. simpl. rewrite bool_decide_false; [done|]. intros Hin.
    apply list_find_None in Ef. rewrite Forall_forall in Ef. apply (Ef _ Hin). done.
Qed.

(** ** Tokens *)

(** Longest prefix whose bytes are ([want] = true) or are not delimiters. *)
Fixpoint span (d : list Z) (want : bool) (s : list Z) : list Z * list Z :=
  match s with
  | [] => ([], [])
  | b :: s' =>
      if Bool.eqb (bool_decide (b ∈ d)) want
      then let '(x, y) := span d want s' in (b :: x, y) else ([], s)
  end.

Lemma span_app d want s : (span d want s).1 ++ (span d want s).2 = s.
Proof.
  induction s as [|b s IH]; [done|]. simpl. destruct (Bool.eqb _ _); [|done].
  destruct (span d want s) as [x y]. simpl in *. by rewrite IH.
Qed.

Lemma span_all d want s : Forall (fun b => bool_decide (b ∈ d) = want) (span d want s).1.
Proof.
  induction s as [|b s IH]; simpl; [constructor|]. destruct (Bool.eqb _ want) eqn:E; [|constructor].
  apply eqb_prop in E. destruct (span d want s) as [x y]. by constructor.
Qed.

Lemma span_stop d want s b r : (span d want s).2 = b :: r -> bool_decide (b ∈ d) = negb want.
Proof.
  induction s as [|c s IH]; [done|]. simpl. destruct (Bool.eqb _ want) eqn:E.
  - destruct (span d want s) as [x y]. done.
  - simpl. intros [= <- <-]. destruct (bool_decide (c ∈ d)), want; done.
Qed.

(** The tokens of a string: maximal runs of bytes that are no delimiters. *)
Fixpoint tokens (fuel : nat) (d s : list Z) : list (list Z) :=
  match fuel with
  | O => []
  | S fuel =>
      let s1 := (span d true s).2 in
      let '(tok, rest) := span d false s1 in
      match tok, rest with
      | [], _ => []
      | _, [] => [tok]
      | _, _ :: rest => tok :: tokens fuel d rest
      end
  end.

Lemma cstr_same m m' p s :
  (forall a, p <= a <= p + Z.of_nat (length s) -> ldb m' a = ldb m a) -> cstr m p s -> cstr m' p s.
Proof.
  intros Hm [H1 H2]. split; [|done]. eapply bytes_at_ext; [|exact H1].
  intros a Ha. rewrite length_app in Ha. simpl in Ha. apply Hm. lia.
Qed.

(** Writing a NUL over one byte cuts the string in two. *)
Lemma cstr_cut m p s1 b s2 :
  let e := p + Z.of_nat (length s1) in
  cstr m p (s1 ++ b :: s2) -> cstr (stb m e 0) p s1 /\ cstr (stb m e 0) (e + 1) s2.
Proof.
  intros e H. assert (Ho : forall a, a <> e -> ldb (stb m e 0) a = ldb m a).
  { intros a Ha. rewrite ldb_stb. case_if; (done || lia). }
  split.
  - destruct H as [H1 H2]. apply Forall_app in H2 as [H2 _]. split; [|done].
    rewrite <- app_assoc in H1. apply bytes_at_app in H1 as [H1 _].
    apply bytes_at_app. split; [eapply bytes_at_ext; [|exact H1]; intros a Ha; apply Ho; unfold e; lia|].
    apply bytes_at_cons. split; [by rewrite ldb_stb, Z.eqb_refl|apply bytes_at_nil].
  - apply cstr_suffix, cstr_cons in H as (_ & _ & H). eapply cstr_same; [|exact H].
    intros a Ha. apply Ho. fold e in Ha. lia.
Qed.

Section Tokens.
Context (m0 : mem) (pd : Z) (d : list Z) (Hpd : 0 < pd) (Hd : cstr m0 pd d)
        (Hlen : Z.of_nat (length d) < INT_MAX).

(** The delimiters stay in place: tokens are cut outside of them. *)
Definition same_delims (m : mem) : Prop :=
  forall a, pd <= a <= pd + Z.of_nat (length d) -> ldb m a = ldb m0 a.

Lemma same_delims_cstr m : same_delims m -> cstr m pd d.
Proof using Hd.
  intros H. destruct Hd as [H1 H2]. split; [|done]. eapply bytes_at_ext; [|exact H1].
  intros a Ha. rewrite length_app in Ha. simpl in Ha. apply H. lia.
Qed.

Lemma skip_loop_correct m want s :
  same_delims m ->
  forall fuel q, cstr m q s -> (length s + length d < fuel)%nat ->
  skip_loop fuel m pd want q = Some (q + Z.of_nat (length (span d want s).1)).
Proof using Hpd Hd Hlen.
  intros Hm. pose proof (same_delims_cstr m Hm) as Hd'.
  induction s as [|b s IH]; intros [|fuel] q H Hf; simpl in Hf; try lia; cbn [skip_loop].
  - apply cstr_nil in H. rewrite H. simpl. f_equal. lia.
  - apply cstr_cons in H as (Hb & Hr & H). unfold chr. rewrite Hb, (proj2 (Z.eqb_neq b 0)) by lia.
    destruct (strchr_mem (S fuel) m pd d b Hd' ltac:(lia) Hlen Hpd Hr) as (r & -> & ->).
    simpl. destruct (Bool.eqb _ want); simpl; [|f_equal; lia].
    rewrite (IH fuel (q + 1) H ltac:(lia)). destruct (span d want s) as [x y]. simpl. f_equal. lia.
Qed.

(** Repeated calls, first on [str] and then on NULL, until NULL is returned;
    [None] is fuel running out. *)
Fixpoint strtok_run (n fuel : nat) (m : mem) (str delim save : Z) : option (mem * list Z) :=
  match n with
  | O => None
  | S n =>
      match strtok_r fuel m str delim save with
      | None => None
      | Some (m, save, tok) =>
          if tok =? NULL then Some (m, [])
          else match strtok_run n fuel m NULL delim save with
               | None => None
               | Some (m, toks) => Some (m, tok :: toks)
               end
      end
  end.

(** One call on a string. *)
Lemma strtok_r_correct m fuel str save s :
  let q := if str =? NULL then save else str in
  same_delims m -> cstr m q s -> 0 < q -> (length s + length d < fuel)%nat ->
  let '(skipped, s1) := span d true s in
  let '(tok, rest) := span d false s1 in
  let p := q + Z.of_nat (length skipped) in
  let e := p + Z.of_nat (length tok) in
  strtok_r fuel m str pd save =
  match tok, rest with
  | [], _ => Some (m, save, NULL)
  | _, [] => Some (m, NULL, p)
  | _, _ => Some (stb m e 0, e + 1, p)
  end.
Proof using Hpd Hd Hlen.
  intros q Hm H Hq Hf. unfold strtok_r. fold q.
  rewrite (proj2 (Z.eqb_neq q NULL)) by (unfold NULL; lia).
  rewrite (skip_loop_correct m true s Hm fuel q H Hf).
  pose proof (span_app d true s) as E1. pose proof (span_stop d true s) as Hst.
  destruct (span d true s) as [sk s1]. simpl in E1, Hst |- *. subst s.
  rewrite length_app in Hf. apply cstr_suffix in H as H1.
  pose proof (span_app d false s1) as E2. pose proof (span_stop d false s1) as Hst2.
  pose proof (skip_loop_correct m false s1 Hm fuel _ H1 ltac:(lia)) as Hs2.
  destruct (span d false s1) as [tok rest] eqn:Es. simpl in E2, Hst2, Hs2.
  destruct tok as [|t tok]; simpl in E2.
  - subst s1. destruct rest as [|b r].
    + apply cstr_nil in H1. by rewrite H1.
    + exfalso. specialize (Hst b r eq_refl). specialize (Hst2 b r eq_refl). congruence.
  - subst s1. apply cstr_cons in H1 as H2. destruct H2 as (Eb & Hb & _).
    rewrite Eb, (proj2 (Z.eqb_neq t 0)) by lia. rewrite Hs2.
    apply (cstr_suffix _ _ (t :: tok) rest) in H1. destruct rest as [|b r].
    + apply cstr_nil in H1. by rewrite H1.
    + apply cstr_cons in H1 as (Eb' & Hb' & _). by rewrite Eb', (proj2 (Z.eqb_neq b 0)) by lia.
Qed.

Lemma strtok_run_correct fuel k :
  forall n s m str save,
  let q := if str =? NULL then save else str in
  (length s < k)%nat -> (length s + 2 <= n)%nat -> (length s + length d < fuel)%nat ->
  same_delims m -> cstr m q s -> 0 < q ->
  (q + Z.of_nat (length s) < pd \/ pd + Z.of_nat (length d) < q) ->
  exists m' ptrs, strtok_run n fuel m str pd save = Some (m', ptrs) /\
    Forall2 (cstr m') ptrs (tokens k d s) /\
    (forall a, a < q \/ q + Z.of_nat (length s) < a -> ldb m' a = ldb m a).
Proof using Hpd Hd Hlen.
  induction k as [|k IH]; intros [|n] s m str save q Hk Hn Hf Hm H Hq Hdis; try lia.
  cbn [strtok_run tokens].
  pose proof (strtok_r_correct m fuel str save s Hm H Hq Hf) as Hr. fold q in Hr.
  pose proof (span_app d true s) as E1. destruct (span d true s) as [sk s1]. simpl in E1 |- *. subst s.
  pose proof (span_app d false s1) as E2. destruct (span d false s1) as [tok rest]. simpl in E2, Hr. subst s1.
  rewrite !length_app in *. apply cstr_suffix in H as Hp.
  set (p := q + Z.of_nat (length sk)) in *. rewrite Hr. assert (Hpq : p = q + Z.of_nat (length sk)) by done.
  clearbody p. destruct tok as [|t tok]; [|destruct rest as [|b r]].
  - exists m, []. split; [done|]. split; [constructor|done].
  - rewrite (proj2 (Z.eqb_neq p NULL)) by (unfold NULL; lia).
    destruct n as [|n]; [lia|]. exists m, [p]. rewrite app_nil_r in Hp. split; [done|].
    split; [constructor; [done|constructor]|done].
  - rewrite (proj2 (Z.eqb_neq p NULL)) by (unfold NULL; lia).
    apply cstr_cut in Hp as [Htok Hrest]. remember (p + Z.of_nat (length (t :: tok))) as e eqn:He.
    assert (Hm1 : forall a, a <> e -> ldb (stb m e 0) a = ldb m a).
    { intros a Ha. rewrite ldb_stb. case_if; (done || lia). }
    simpl in Hk, Hn, Hf, Hdis, He.
    destruct (IH n r (stb m e 0) NULL (e + 1)) as (m' & ptrs & -> & Hall & Hout);
      cbn [Z.eqb NULL] in *; unfold NULL in *; cbn [Z.eqb] in *; try done; try lia.
    { intros a Ha. rewrite Hm1 by lia. by apply Hm. }
    exists m', (p :: ptrs). split; [done|]. split.
    + constructor; [|done]. eapply cstr_same; [|exact Htok]. intros a Ha. apply Hout. simpl in Ha. lia.
    + intros a Ha. simpl in Ha. rewrite Hout by lia. apply Hm1. lia.
Qed.

End Tokens.

(** Tokens are the non-delimiters in order, cut where delimiters were. *)
Lemma filter_all (d : list Z) (want : bool) l :
  Forall (fun b => bool_decide (b ∈ d) = want) l ->
  filter (fun b => b ∉ d) l = if want then [] else l.
Proof.
  induction 1 as [|b l Hb Hl IH]; [by destruct want|]. destruct want.
  - apply bool_decide_eq_true in Hb. rewrite filter_cons_False; [done|]. by intros ?.
  - apply bool_decide_eq_false in Hb. rewrite filter_cons_True by done. by rewrite IH.
Qed.

Lemma tokens_spec k d s :
  (length s < k)%nat ->
  concat (tokens k d s) = filter (fun b => b ∉ d) s /\
  Forall (fun t => t <> [] /\ Forall (fun b => b ∉ d) t) (tokens k d s).
Proof.
  revert s. induction k as [|k IH]; intros s Hk; [lia|]. cbn [tokens].
  pose proof (span_app d true s) as E1. pose proof (span_all d true s) as A1. pose proof (span_stop d true s) as St.
  destruct (span d true s) as [sk s1]. simpl in E1, A1, St |- *. subst s.
  pose proof (span_app d false s1) as E2. pose proof (span_all d false s1) as A2. pose proof (span_stop d false s1) as St2.
  destruct (span d false s1) as [tok rest]. simpl in E2, A2, St2 |- *. subst s1.
  rewrite !length_app in Hk.
  assert (Forall (fun b => b ∉ d) tok).
  { eapply Forall_impl; [exact A2|]. intros b Hb. by apply bool_decide_eq_false in Hb. }
  rewrite !filter_app, (filter_all d true sk A1), (filter_all d false tok A2).
  destruct tok as [|t tok]; [|destruct rest as [|b r]]; simpl.
  - destruct rest as [|b r]; [done|]. exfalso. specialize (St b r eq_refl). specialize (St2 b r eq_refl). congruence.
  - rewrite filter_nil, !app_nil_r. split; [done|]. constructor; [done|constructor].
  - specialize (St2 b r eq_refl). apply bool_decide_eq_true in St2. simpl in Hk.
    destruct (IH r ltac:(lia)) as [-> Hf]. rewrite filter_cons_False by (by intros ?).
    split; [done|]. constructor; done.
Qed.

(** ** Character classes *)

Lemma seqZ_forall (P : Z -> bool) n :
  forallb P (seqZ 0 n) = true -> forall c, 0 <= c < n -> P c = true.
Proof.
  intros H c Hc. rewrite forallb_forall in H. apply H. apply list_elem_of_In, elem_of_seqZ. lia.
Qed.

Lemma isdigit_spec c : 0 <= c < 128 -> exists v, isdigit c = Some v /\ (negb (v =? 0) = (48 <=? c) && (c <=? 57)).
Proof.
  intros Hc.
  assert (match isdigit c with Some v => Bool.eqb (negb (v =? 0)) ((48 <=? c) && (c <=? 57)) | None => false end = true) as H.
  { revert c Hc. by apply (seqZ_forall (fun c => match isdigit c with Some v => Bool.eqb (negb (v =? 0)) ((48 <=? c) && (c <=? 57)) | None => false end)). }
  destruct (isdigit c) as [v|]; [|done]. exists v. split; [done|by apply eqb_prop].
Qed.

Lemma isspace_spec c :
  0 <= c < 128 ->
  exists v, isspace c = Some v /\ (negb (v =? 0) = (c =? 32) || ((9 <=? c) && (c <=? 13))).
Proof.
  intros Hc.
  assert (match isspace c with Some v => Bool.eqb (negb (v =? 0)) ((c =? 32) || ((9 <=? c) && (c <=? 13))) | None => false end = true) as H.
  { revert c Hc. by apply (seqZ_forall (fun c => match isspace c with Some v => Bool.eqb (negb (v =? 0)) ((c =? 32) || ((9 <=? c) && (c <=? 13))) | None => false end)). }
  destruct (isspace c) as [v|]; [|done]. exists v. split; [done|by apply eqb_prop].
Qed.

(** ** The theorems *)

(** [strncmp] on two C strings returns, and its result is 0 exactly
    when the strings agree on their first [n] bytes; otherwise it is the
    difference of the first signed bytes that differ. *)
Theorem strncmp_equal fuel m p1 p2 s1 s2 n :
  cstr m p1 s1 -> cstr m p2 s2 -> (length s1 < fuel)%nat ->
  exists r, strncmp fuel m p1 p2 n = Some r /\ r = cmp_spec s1 s2 (Z.to_nat n) /\
    (r = 0 <-> take (Z.to_nat n) s1 = take (Z.to_nat n) s2).
Proof.
  intros H1 H2 Hf. rewrite (strncmp_correct _ _ _ _ _ _ _ H1 H2 Hf).
  eexists. split; [done|]. split; [done|]. apply cmp_spec_zero; [apply H1|apply H2].
Qed.

(** C26: [memmove] moves the block whatever the overlap: every byte of the
    destination holds the byte the source had before the call, and no other
    byte changes. *)
Theorem memmove_correct m dst src len a :
  0 <= len ->
  ldb (memmove m dst src len) a =
  if (dst <=? a) && (a <? dst + len) then ldb m (src + (a - dst)) else ldb m a.
Proof.
  intros Hlen. unfold memmove, memcpy_from_end, memcpy_from_start.
  destruct (Z.eqb_spec dst src) as [->|Hne].
  { case_if; try done. f_equal. lia. }
  destruct ((src <? dst) && (dst <? src + len)) eqn:Ho.
  - b2p. rewrite from_end_correct by lia. by rewrite Z.sub_0_r.
  - rewrite from_start_correct by (b2p; lia). by rewrite Z.add_0_r, Z2Nat.id.
Qed.

(** [strncpy] copies the first [n] bytes of the source and terminates
    them, touching at most [n + 1] bytes of the destination. *)
Theorem strncpy_copies fuel m dest src s n :
  cstr m src s -> (length s < fuel)%nat -> 0 <= n ->
  (dest + Z.of_nat (length s) < src \/ src + Z.of_nat (length s) < dest) ->
  exists m', strncpy fuel m dest src n = Some (m', dest) /\
    cstr m' dest (take (Z.to_nat n) s) /\
    (forall a, a < dest \/ dest + Z.min n (Z.of_nat (length s)) < a -> ldb m' a = ldb m a).
Proof.
  intros H Hf Hn Hd. unfold strncpy.
  destruct (strncpy_loop_correct n s fuel m dest src 0 H Hf ltac:(lia) Hd) as (m' & -> & Hb & Ho).
  rewrite Z.sub_0_r in *. exists m'. split; [done|]. split; [|done].
  split; [done|]. by apply str_bytes_take, H.
Qed.

(** The calls [strtok_r(str, ...)], [strtok_r(NULL, ...)], ... until NULL
    terminate and return, in order, pointers to the tokens of the string:
    the maximal non-empty runs of bytes that are not delimiters; only the
    string is written to. *)
Theorem strtok_r_tokens fuel n m str save pd d s :
  0 < str -> 0 < pd -> cstr m str s -> cstr m pd d -> Z.of_nat (length d) < INT_MAX ->
  (str + Z.of_nat (length s) < pd \/ pd + Z.of_nat (length d) < str) ->
  (length s + length d < fuel)%nat -> (length s + 2 <= n)%nat ->
  exists m' ptrs, strtok_run n fuel m str pd save = Some (m', ptrs) /\
    let toks := tokens (S (length s)) d s in
    Forall2 (cstr m') ptrs toks /\ concat toks = filter (fun b => b ∉ d) s /\
    Forall (fun t => t <> [] /\ Forall (fun b => b ∉ d) t) toks /\
    (forall a, a < str \/ str + Z.of_nat (length s) < a -> ldb m' a = ldb m a).
Proof.
  intros Hstr Hpd H Hd Hlen Hdis Hf Hn.
  assert (Eq : (if str =? NULL then save else str) = str).
  { by rewrite (proj2 (Z.eqb_neq str NULL)) by (unfold NULL; lia). }
  destruct (strtok_run_correct m pd d Hpd Hd Hlen fuel (S (length s)) n s m str save) as (m' & ptrs & Hr & Hall & Hout);
    rewrite ?Eq in *; try done; try lia.
  exists m', ptrs. split; [done|]. split; [done|]. destruct (tokens_spec (S (length s)) d s ltac:(lia)) as [H1 H2]. done.
Qed.

(** ** Witnesses *)

Definition put (m : mem) (p : Z) (s : list Z) : mem :=
  (fix go p s m := match s with [] => stb m p 0 | b :: s => go (p + 1) s (stb m p b) end) p s m.
(** ["ab,,cd"] at 16 and [","] at 64. *)
Definition demo_str : list Z := [97; 98; 44; 44; 99; 100].
Definition demo_mem : mem := put (put ∅ 16 demo_str) 64 [44].

Lemma demo_cstr1 : cstr demo_mem 16 demo_str.
Proof. unfold demo_str. repeat (apply cstr_cons; split; [reflexivity|]; split; [lia|]). by apply cstr_nil. Qed.
Lemma demo_cstr2 : cstr demo_mem 64 [44].
Proof. repeat (apply cstr_cons; split; [reflexivity|]; split; [lia|]). by apply cstr_nil. Qed.

Lemma memmove_correct_witness : ldb (memmove demo_mem 18 16 6) 20 = 44.
Proof. rewrite (memmove_correct demo_mem 18 16 6 20); [reflexivity|lia]. Defined.

(** ** Behaviours outside the specification *)

(** [strndup] with [n <= strlen(s)] asks for [n] bytes and writes [n + 1]. *)
Lemma strndup_overruns len n : 0 <= n <= len -> len + 1 < 2 ^ 32 -> strndup_size len n = n.
Proof. intros H Hl. unfold strndup_size. rewrite u32_small by (unfold in_u32; lia). case_if; lia. Qed.

(** [strncasecmp] has the opposite sign of [strncmp]. *)
Lemma strncasecmp_sign : strncasecmp 5 demo_mem 16 17 1 = Some 1 /\ strncmp 5 demo_mem 16 17 1 = Some (-1).
Proof. vm_compute. done. Qed.

(** No character is printable or punctuation. *)
Lemma isprint_never c : 0 <= c < 128 -> isprint c = Some 0 /\ ispunct c = Some 0.
Proof.
  intros Hc.
  assert ((match isprint c, ispunct c with Some 0, Some 0 => true | _, _ => false end) = true) as H.
  { revert c Hc. by apply (seqZ_forall (fun c => match isprint c, ispunct c with Some 0, Some 0 => true | _, _ => false end)). }
  destruct (isprint c) as [[]|], (ispunct c) as [[]|]; done.
Qed.

(** [strchr] never finds the terminator. *)
Lemma strchr_nul m p s fuel :
  cstr m p s -> (length s < fuel)%nat -> Z.of_nat (length s) < INT_MAX -> strchr fuel m p 0 = Some NULL.
Proof.
  intros H Hf Hn. unfold strchr, strnchr.
  destruct (strnchr_loop_correct m p INT_MAX 0 p s fuel p H Hf eq_refl) as (r & -> & Hr);
    [lia|change (s32 INT_MAX) with INT_MAX; lia|].
  destruct (list_find _ s) as [[i b]|] eqn:E; [|by rewrite Hr].
  apply list_find_Some in E as (Hi & Eb & _). destruct H as [_ Hs].
  pose proof (proj1 (Forall_lookup _ _) Hs _ _ Hi) as Hb. simpl in Hb.
  exfalso. by apply (s8_nonzero b Hb).
Qed.

End CSP.
