(* ===== verification/Fmt.v ===== *)
(** * Numbers and text (lib/c/src/stdlib.c, lib/c/src/stdio.c)

    Module [FMT]: the conversions between numbers and text ([atoi], [strtol],
    [sscan_uint], [snprint_uint]) and [vsnprintf], over the byte memory of
    [CString]. *)

From S2P Require Import Prelude CString.
Import CS.

Module FMT.

(** The outcome of a computation that may access memory outside an object
    or run out of fuel. *)
Inductive res (A : Type) :=
| Ok (a : A)
| Fault
| NoFuel.
Arguments Ok {A} a.
Arguments Fault {A}.
Arguments NoFuel {A}.

Definition rbind {A B} (r : res A) (f : A -> res B) : res B :=
  match r with Ok a => f a | Fault => Fault | NoFuel => NoFuel end.
Notation "x <-! r ; k" := (rbind r (fun x => k)) (at level 100, r at next level, right associativity).

Definition of_opt {A} (o : option A) : res A := match o with Some a => Ok a | None => Fault end.

Definition ERANGE : Z := 34.

(** ** atoi and strtol *)

Fixpoint skip_spaces (fuel : nat) (m : mem) (c : Z) : res Z :=
  match fuel with
  | O => NoFuel
  | S fuel =>
      sp <-! of_opt (isspace (chr m c));
      if negb (sp =? 0) then skip_spaces fuel m (c + 1) else Ok c
  end.

Fixpoint atoi_loop (fuel : nat) (m : mem) (c r : Z) : res Z :=
  match fuel with
  | O => NoFuel
  | S fuel =>
      d <-! of_opt (isdigit (chr m c));
      if negb (d =? 0) then atoi_loop fuel m (c + 1) (s32 (s32 (r * 10) + (chr m c - 48))) else Ok r
  end.

Definition atoi (fuel : nat) (m : mem) (nptr : Z) : res Z :=
  nptr <-! skip_spaces fuel m nptr;
  let c := chr m nptr in
  let '(nptr, sign) :=
    if c =? 43 then (nptr + 1, 1) else if c =? 45 then (nptr + 1, -1) else (nptr, 1) in
  r <-! atoi_loop fuel m nptr 0;
  Ok (s32 (sign * r)).

Definition getbasedigit (c base : Z) : Z :=
  let lc := s8 (tolower c) in
  if (base <=? 0) || (36 <? base) then -1
  else if (10 <? base) && (97 <=? lc) && (lc <? 97 + base - 10) then lc - 97 + 10
  else if (48 <=? lc) && (lc <? 48 + base) then lc - 48
  else -1.

(** The digits loop: the value and the end, or [None] for the range error. *)
Fixpoint strtol_loop (fuel : nat) (m : mem) (c base r : Z) : res (option (Z * Z)) :=
  match fuel with
  | O => NoFuel
  | S fuel =>
      let digit := getbasedigit (chr m c) base in
      if digit <? 0 then Ok (Some (r, c))
      else
        let oldres := r in
        let r := s32 (s32 (r * 10) + digit) in
        if r <? oldres then Ok None else strtol_loop fuel m (c + 1) base r
  end.

(** Value, [*endptr] and [theErrNo]. *)
Definition strtol (fuel : nat) (m : mem) (nptr base : Z) : res (Z * Z * Z) :=
  if 36 <? base then Ok (0, nptr, 0)
  else
    c <-! skip_spaces fuel m nptr;
    let '(neg, c) :=
      if chr m c =? 45 then (true, c + 1) else if chr m c =? 43 then (false, c + 1) else (false, c) in
    let go base c :=
      if getbasedigit (chr m c) base =? -1 then Ok (0, nptr, 0)
      else
        r <-! strtol_loop fuel m c base 0;
        match r with
        | None => Ok (0, NULL, ERANGE)
        | Some (r, c) => Ok (if neg then s32 (- r) else r, c, 0)
        end in
    if base =? 0 then
      if chr m c =? 48 then
        let c := c + 1 in
        if tolower (chr m c) =? 120 then go 16 (c + 1)
        else if negb (getbasedigit (chr m c) 8 =? -1) then go 8 c
        else Ok (0, c, 0)
      else go 10 c
    else go base c.

(** ** Scanning *)

(** The end of the digits and the value they denote. *)
Fixpoint sscan_uint_loop (fuel : nat) (m : mem) (s base r : Z) : res (Z * Z) :=
  match fuel with
  | O => NoFuel
  | S fuel =>
      let c := s8 (toupper (chr m s)) in
      if (48 <=? c) && (c <=? 57) then
        sscan_uint_loop fuel m (s + 1) base (u32 (u32 (r * base) + (c - 48)))
      else if (10 <? base) && (65 <=? c) && (c <=? 65 + base - 10) then
        sscan_uint_loop fuel m (s + 1) base (u32 (u32 (r * base) + (c - 65 + 10)))
      else Ok (s, r)
  end.

(** The end and [*res], which is written only if there was a digit. *)
Definition sscan_uint (fuel : nat) (m : mem) (str res base : Z) : FMT.res (Z * Z) :=
  r <-! sscan_uint_loop fuel m str base 0;
  Ok (r.1, if r.1 =? str then res else r.2).

Definition sscan_int (fuel : nat) (m : mem) (str res base : Z) : FMT.res (Z * Z) :=
  let '(sign, str) :=
    if chr m str =? 45 then (-1, str + 1) else if chr m str =? 43 then (1, str + 1) else (1, str) in
  r <-! sscan_uint fuel m str (u32 res) base;
  let v := s32 r.2 in
  Ok (r.1, if negb (r.1 =? str) && (sign =? -1) then s32 (- v) else v).

(** ** Printing *)

Definition ZERO_PADDED : Z := 1.
Definition PRINT_PLUS : Z := 2.
Definition LEFT_PADDED : Z := 4.
Definition SPACE_PLUS : Z := 8.
Definition maxDigits : Z := 32.

Definition get_digit (d : Z) : Z := if d <? 10 then 48 + d else 65 + d - 10.

(** The local array [a]: the list is its used tail [a[n..]], so that
    [--n; a[n] = c] puts [c] in front; a 33rd element would lie outside. *)
Definition push (c : Z) (a : list Z) : res (list Z) :=
  if maxDigits <=? Z.of_nat (length a) then Fault else Ok (c :: a).

Fixpoint digits_loop (fuel : nat) (x base : Z) (a : list Z) : res (list Z) :=
  if x =? 0 then Ok a
  else match fuel with
  | O => NoFuel
  | S fuel => a <-! push (get_digit (x mod base)) a; digits_loop fuel (x / base) base a
  end.

Fixpoint pad_loop (fuel : nat) (minwidth indent c : Z) (a : list Z) : res (list Z) :=
  if indent <? minwidth then
    match fuel with
    | O => NoFuel
    | S fuel => a <-! push c a; pad_loop fuel (minwidth - 1) indent c a
    end
  else Ok a.

(** Copy to [str] until [end] ([end] = 0 is no limit). *)
Fixpoint emit (a : list Z) (m : mem) (str end_ : Z) : mem * Z :=
  match a with
  | [] => (m, str)
  | c :: a =>
      if negb (end_ =? 0) && (end_ <=? str) then (m, end_)
      else emit a (stb m str c) (str + 1) end_
  end.

Definition snprint_uint (m : mem) (str end_ x base flags precision minwidth : Z) : res (mem * Z) :=
  a <-! (if x =? 0 then push 48 [] else digits_loop 32 x base []);
  a <-! (if negb (Z.lnot (Z.land flags LEFT_PADDED) =? 0) then
           pad_loop 33 minwidth (Z.of_nat (length a))
                    (if negb (Z.land flags ZERO_PADDED =? 0) then 48 else 32) a
         else Ok a);
  Ok (emit a m str end_).

Definition snprint_int (m : mem) (str end_ x base flags precision minwidth : Z) : res (mem * Z) :=
  if negb (end_ =? 0) && (end_ <=? str) then Ok (m, end_)
  else
    let '(m, str, x) :=
      if x <? 0 then (stb m str 45, str + 1, s32 (- x))
      else if negb (Z.land flags PRINT_PLUS =? 0) then (stb m str 43, str + 1, x)
      else if negb (Z.land flags SPACE_PLUS =? 0) then (stb m str 32, str + 1, x)
      else (m, str, x) in
    snprint_uint m str end_ (u32 x) base flags precision minwidth.

(** ** vsnprintf *)

(** Variable arguments: a word (an integer or a pointer), or a [double],
    given by the integers [(uint)arg] and [(uint)(1000000.0 * (arg - intpart))]
    that are all the code uses of it. *)
Inductive va_arg := VaWord (w : Z) | VaDouble (intpart fracpart : Z).

Definition next_word (ap : list va_arg) : res (Z * list va_arg) :=
  match ap with VaWord w :: ap => Ok (w, ap) | _ => Fault end.
Definition next_double (ap : list va_arg) : res (Z * Z * list va_arg) :=
  match ap with VaDouble i f :: ap => Ok (i, f, ap) | _ => Fault end.

Fixpoint flags_loop (fuel : nat) (m : mem) (fmt_c flags : Z) : res (Z * Z) :=
  match fuel with
  | O => NoFuel
  | S fuel =>
      let c := ldb m fmt_c in
      if c =? 48 then flags_loop fuel m (fmt_c + 1) (Z.lor flags ZERO_PADDED)
      else if c =? 43 then flags_loop fuel m (fmt_c + 1) (Z.lor flags PRINT_PLUS)
      else if c =? 32 then flags_loop fuel m (fmt_c + 1) (Z.lor flags SPACE_PLUS)
      else Ok (fmt_c, flags)
  end.

Fixpoint copy_str (fuel : nat) (m : mem) (c out_c end_ : Z) : res (mem * Z) :=
  match fuel with
  | O => NoFuel
  | S fuel =>
      if ldb m c =? 0 then Ok (m, out_c)
      else if negb (end_ =? 0) && (end_ <=? out_c) then Ok (m, out_c)
      else copy_str fuel (stb m out_c (ldb m c)) (c + 1) (out_c + 1) end_
  end.

(** The format specifier at [fmt_c]. *)
Definition specifier (fuel : nat) (m : mem) (fmt_c out_c end_ flags precision minwidth : Z)
    (ap : list va_arg) : res (mem * Z * list va_arg) :=
  let c := ldb m fmt_c in
  if c =? 120 then
    w <-! next_word ap;
    r <-! snprint_uint m out_c end_ (u32 w.1) 16 flags precision minwidth; Ok (r, w.2)
  else if (c =? 100) || (c =? 105) then
    w <-! next_word ap;
    r <-! snprint_int m out_c end_ (s32 w.1) 10 flags precision minwidth; Ok (r, w.2)
  else if c =? 117 then
    w <-! next_word ap;
    r <-! snprint_uint m out_c end_ (u32 w.1) 10 flags precision minwidth; Ok (r, w.2)
  else if c =? 115 then
    w <-! next_word ap;
    r <-! copy_str fuel m w.1 out_c end_; Ok (r, w.2)
  else if c =? 103 then
    d <-! next_double ap;
    let '(intpart, fracpart, ap) := d in
    r <-! snprint_uint m out_c end_ intpart 10 flags 0 0;
    let '(m, out_c) := r in
    if 0 <? fracpart then
      r <-! snprint_uint (stb m out_c 46) (out_c + 1) end_ fracpart 10
                         (Z.lor ZERO_PADDED LEFT_PADDED) 6 minwidth;
      Ok (r, ap)
    else Ok (m, out_c, ap)
  else if c =? 112 then
    w <-! next_word ap;
    let m := stb (stb m out_c 48) (out_c + 1) 120 in
    r <-! snprint_uint m (out_c + 2) end_ (u32 w.1) 16 (Z.lor ZERO_PADDED flags) 8 minwidth;
    Ok (r, w.2)
  else Ok (stb m out_c c, out_c + 1, ap).

(** Everything between the ['%'] and the next character of the format. *)
Definition conversion (fuel : nat) (m : mem) (fmt_c out_c end_ : Z) (ap : list va_arg)
    : res (mem * Z * list va_arg * Z) :=
  f <-! flags_loop fuel m fmt_c 0;
  let '(fmt_c, flags) := f in
  d <-! of_opt (isdigit (chr m fmt_c));
  w <-! (if negb (d =? 0) then r <-! sscan_uint fuel m fmt_c 0 10; Ok (r.1, s32 r.2) else Ok (fmt_c, 0));
  let '(fmt_c, minwidth) := w in
  p <-! (if ldb m fmt_c =? 46 then sscan_int fuel m (fmt_c + 1) 0 10 else Ok (fmt_c, 0));
  let '(fmt_c, precision) := p in
  let fmt_c := if ldb m fmt_c =? 108 then fmt_c + 1 else fmt_c in
  r <-! specifier fuel m fmt_c out_c end_ flags precision minwidth ap;
  Ok (r, fmt_c + 1).

Fixpoint vsnprintf_loop (n fuel : nat) (m : mem) (str fmt_c out_c end_ : Z) (ap : list va_arg) : res (mem * Z) :=
  match n with
  | O => NoFuel
  | S n =>
      if ldb m fmt_c =? 0 then Ok (stb m out_c 0, out_c - str)
      else if negb (end_ =? 0) && (end_ <=? out_c) then Ok (stb m end_ 0, end_ - str)
      else if negb (ldb m fmt_c =? 37) then
        vsnprintf_loop n fuel (stb m out_c (ldb m fmt_c)) str (fmt_c + 1) (out_c + 1) end_ ap
      else
        r <-! conversion fuel m (fmt_c + 1) out_c end_ ap;
        let '(m, out_c, ap, fmt_c) := r in
        vsnprintf_loop n fuel m str fmt_c out_c end_ ap
  end.

Definition vsnprintf (fuel : nat) (m : mem) (str size format : Z) (ap : list va_arg) : res (mem * Z) :=
  let end_ := if size =? 0 then 0 else str + size - 1 in
  vsnprintf_loop fuel fuel m str format str end_ ap.

Definition vsprintf (fuel : nat) (m : mem) (str format : Z) (ap : list va_arg) : res (mem * Z) :=
  vsnprintf fuel m str 0 format ap.

End FMT.
