(* ===== verification/FmtProofs.v ===== *)
(** * Correctness of the conversions and of [vsnprintf]

    Module [FMTP]: digits and their value, the round trip of printing and
    scanning, the bounds of [vsnprintf] and its output on every format made
    of literals and the common conversions. *)

From S2P Require Import Prelude CString CStringProofs Fmt.
Import CS CSP FMT.

Module FMTP.

(** ** Digits *)

Definition unhex (c : Z) : Z := if c <=? 57 then c - 48 else c - 65 + 10.

Definition is_dig (base c : Z) : Prop :=
  (48 <= c <= 57 \/ (10 < base /\ 65 <= c < 65 + base - 10)) /\ unhex c < base.

(** The value of a list of digits, continuing from [r]. *)
Definition dval (base r : Z) (ds : list Z) : Z := foldl (fun r c => r * base + unhex c) r ds.

Lemma dval_app base r a b : dval base r (a ++ b) = dval base (dval base r a) b.
Proof. apply foldl_app. Qed.

Lemma get_digit_dig base d :
  2 <= base <= 36 -> 0 <= d < base -> is_dig base (get_digit d) /\ unhex (get_digit d) = d.
Proof. unfold is_dig, get_digit, unhex. intros Hb Hd. repeat case_if; lia. Qed.

Lemma is_dig_byte base c : 2 <= base <= 36 -> is_dig base c -> 0 < c < 128 /\ 0 <= unhex c.
Proof. unfold is_dig, unhex. intros Hb [H _]. case_if; lia. Qed.

(** The digits of a number: what the loop puts in front of the array. *)
Lemma digits_loop_ok base : 2 <= base <= 36 -> forall fuel x a,
  0 <= x < 2 ^ Z.of_nat fuel -> Z.of_nat (length a + fuel) <= maxDigits ->
  exists ds, digits_loop fuel x base a = Ok (ds ++ a) /\ Forall (is_dig base) ds /\
    dval base 0 ds = x /\ (length ds <= fuel)%nat /\ (x <> 0 -> ds <> []).
Proof.
  intros Hb. induction fuel as [|fuel IH]; intros x a Hx Ha; cbn [digits_loop].
  - change (2 ^ Z.of_nat 0) with 1 in Hx. replace x with 0 by lia. exists []. simpl. repeat split; try done; constructor.
  - destruct (Z.eqb_spec x 0) as [->|Hne].
    { exists []. repeat split; try done; try constructor. simpl; lia. }
    unfold push. rewrite (proj2 (Z.leb_gt _ _)) by lia. cbn [rbind].
    destruct (IH (x / base) (get_digit (x mod base) :: a)) as (ds & -> & Hds & Hv & Hl & _).
    { rewrite Nat2Z.inj_succ, Z.pow_succ_r in Hx by lia. split; [apply Z.div_pos; lia|].
      apply Z.div_lt_upper_bound; [lia|]. nia. }
    { simpl. lia. }
    destruct (get_digit_dig base (x mod base) Hb) as [Hd Hu]; [apply Z.mod_pos_bound; lia|].
    exists (ds ++ [get_digit (x mod base)]). rewrite <- app_assoc. split_and!; [done| | |simpl; rewrite length_app; simpl; lia|].
    + apply Forall_app. split; [done|]. constructor; [done|constructor].
    + rewrite dval_app, Hv. simpl. rewrite Hu. rewrite Z.mul_comm. symmetry. apply Z.div_mod. lia.
    + intros _ E. by apply app_nil in E as [_ ?].
Qed.

(** The numeral of a number in a base, from its characters: the last digit
    is the remainder, in front of it is the numeral of the quotient. *)
Definition digit_chars : list Z := seqZ 48 10 ++ seqZ 65 26. (* 0-9A-Z *)

Fixpoint numeral (n : nat) (base x : Z) : list Z :=
  match n with
  | O => []
  | S n => (if x <? base then [] else numeral n base (x / base)) ++ [nth (Z.to_nat (x mod base)) digit_chars 0]
  end.

(** The numeral of a number of 32 bits. *)
Definition uint_digits (x base : Z) : list Z := numeral 32 base x.
#[global] Arguments uint_digits : simpl never.

Lemma get_digit_char d : 0 <= d < 36 -> get_digit d = nth (Z.to_nat d) digit_chars 0.
Proof.
  intros Hd. assert (H : forallb (fun d => get_digit d =? nth (Z.to_nat d) digit_chars 0) (seqZ 0 36) = true) by reflexivity.
  rewrite forallb_forall in H. apply Z.eqb_eq, H, list_elem_of_In, elem_of_seqZ. lia.
Qed.

Lemma digits_loop_numeral base : 2 <= base <= 36 -> forall n x a, 0 < x < 2 ^ Z.of_nat n -> Z.of_nat (length a + n) <= maxDigits ->
  digits_loop n x base a = Ok (numeral n base x ++ a).
Proof.
  intros Hb. induction n as [|n IH]; intros x a Hx Ha; [change (2 ^ Z.of_nat 0) with 1 in Hx; lia|]. cbn [digits_loop numeral].
  rewrite (proj2 (Z.eqb_neq x 0)) by lia. unfold push. rewrite (proj2 (Z.leb_gt _ _)) by lia. cbn [rbind].
  pose proof (Z.mod_pos_bound x base ltac:(lia)). rewrite get_digit_char by lia. destruct (Z.ltb_spec x base) as [Hlt|Hge].
  - rewrite (Z.div_small x base) by lia. by destruct n.
  - rewrite IH; [by rewrite <- app_assoc| |simpl; lia]. rewrite Nat2Z.inj_succ, Z.pow_succ_r in Hx by lia.
    split; [apply Z.div_str_pos; lia|apply Z.div_lt_upper_bound; [lia|nia]].
Qed.

(** A number below [base ^ k] has at most [k] digits. *)
Lemma numeral_short base : 2 <= base -> forall k n x, (0 < k)%nat -> 0 <= x < base ^ Z.of_nat k -> (length (numeral n base x) <= k)%nat.
Proof.
  intros Hb. induction k as [|k IH]; intros [|n] x Hk Hx; cbn [numeral length]; try lia. rewrite length_app. cbn [length].
  destruct (Z.ltb_spec x base); [cbn [length]; lia|]. rewrite Nat2Z.inj_succ, Z.pow_succ_r in Hx by lia.
  assert (k <> 0%nat) by (intros ->; change (base ^ Z.of_nat 0) with 1 in Hx; lia).
  assert (0 <= x / base < base ^ Z.of_nat k) by (split; [apply Z.div_pos; lia|apply Z.div_lt_upper_bound; lia]).
  specialize (IH n (x / base) ltac:(lia) ltac:(done)). lia.
Qed.

Lemma uint_digits_ok x base :
  2 <= base <= 36 -> in_u32 x ->
  (if x =? 0 then push 48 [] else digits_loop 32 x base []) = Ok (uint_digits x base) /\
  Forall (is_dig base) (uint_digits x base) /\ dval base 0 (uint_digits x base) = x /\
  (0 < length (uint_digits x base) <= 32)%nat.
Proof.
  intros Hb Hx. destruct (Z.eqb_spec x 0) as [->|Hne].
  - assert (E : uint_digits 0 base = [48]) by (unfold uint_digits; cbn [numeral]; by rewrite (proj2 (Z.ltb_lt 0 base)), Z.mod_0_l by lia).
    rewrite E. split_and!; simpl; try done; try lia. repeat constructor; unfold is_dig, unhex; simpl; lia.
  - unfold in_u32 in Hx. destruct (digits_loop_ok base Hb 32 x []) as (ds & E & Hds & Hv & Hl & Hn); [exact Hx|done|].
    pose proof (digits_loop_numeral base Hb 32 x [] ltac:(change (Z.of_nat 32) with 32; lia) ltac:(done)) as E'.
    rewrite app_nil_r in E, E'. fold (uint_digits x base) in E'. rewrite E' in E. injection E as <-. split_and!; try done.
    destruct (uint_digits x base); [by specialize (Hn Hne)|simpl; lia].
Qed.

Lemma pad_loop_ok c : forall k fuel a minwidth indent,
  k = Z.to_nat (minwidth - indent) -> (k <= fuel)%nat -> (length a + k <= 32)%nat ->
  pad_loop fuel minwidth indent c a = Ok (replicate k c ++ a).
Proof.
  induction k as [|k IH]; intros fuel a minwidth indent Hk Hf Ha.
  - destruct fuel; cbn [pad_loop]; rewrite (proj2 (Z.ltb_ge _ _)) by lia; done.
  - destruct fuel as [|fuel]; [lia|]. cbn [pad_loop]. rewrite (proj2 (Z.ltb_lt _ _)) by lia.
    unfold push, maxDigits. rewrite (proj2 (Z.leb_gt _ _)) by lia. cbn [rbind].
    rewrite IH by (simpl; lia). f_equal.
    change (c :: a) with ([c] ++ a). rewrite app_assoc. by rewrite <- replicate_cons_app.
Qed.

(** The text of a number: padded to [minwidth] on the left. *)
Definition uint_text (x base flags minwidth : Z) : list Z :=
  let ds := uint_digits x base in
  replicate (Z.to_nat (minwidth - Z.of_nat (length ds)))
            (if negb (Z.land flags ZERO_PADDED =? 0) then 48 else 32) ++ ds.

Lemma uint_text_plain x base : uint_text x base 0 0 = uint_digits x base.
Proof. unfold uint_text. by replace (Z.to_nat (0 - Z.of_nat (length (uint_digits x base)))) with 0%nat by lia. Qed.

Lemma left_padded_always flags : negb (Z.lnot (Z.land flags LEFT_PADDED) =? 0) = true.
Proof.
  apply negb_true_iff, Z.eqb_neq. intros E. apply (f_equal (fun z => Z.testbit z 0)) in E.
  rewrite Z.lnot_spec, Z.land_spec in E by lia. simpl in E. by rewrite andb_false_r in E.
Qed.

Lemma snprint_uint_ok m str end_ x base flags precision minwidth :
  2 <= base <= 36 -> in_u32 x -> minwidth <= 32 ->
  snprint_uint m str end_ x base flags precision minwidth = Ok (emit (uint_text x base flags minwidth) m str end_).
Proof.
  intros Hb Hx Hw. unfold snprint_uint. destruct (uint_digits_ok x base Hb Hx) as (-> & _ & _ & Hl).
  cbn [rbind]. rewrite left_padded_always.
  rewrite (pad_loop_ok _ (Z.to_nat (minwidth - Z.of_nat (length (uint_digits x base)))));
    [done|done|lia|lia].
Qed.

(** A width above 32 always leaves the local array. *)
Lemma pad_loop_fault c : forall fuel a minwidth indent,
  (32 <= length a + fuel)%nat -> 32 - Z.of_nat (length a) < minwidth - indent -> (length a <= 32)%nat ->
  pad_loop (S fuel) minwidth indent c a = Fault.
Proof.
  induction fuel as [|fuel IH]; intros a minwidth indent Hf Hw Ha; cbn [pad_loop];
    rewrite (proj2 (Z.ltb_lt _ _)) by lia; unfold push, maxDigits.
  - by rewrite (proj2 (Z.leb_le _ _)) by lia.
  - case_if; [done|]. cbn [rbind]. apply IH; simpl; lia.
Qed.

Lemma snprint_uint_width m str end_ x base flags precision minwidth :
  2 <= base <= 36 -> in_u32 x -> 32 < minwidth ->
  snprint_uint m str end_ x base flags precision minwidth = Fault.
Proof.
  intros Hb Hx Hw. unfold snprint_uint. destruct (uint_digits_ok x base Hb Hx) as (-> & _ & _ & Hl).
  cbn [rbind]. rewrite left_padded_always. rewrite pad_loop_fault by lia. done.
Qed.

(** ** Writing text *)

(** The bytes kept when [k] of them fit; no limit when [end_] is 0. *)
Definition fit (str end_ : Z) (a : list Z) : list Z :=
  if end_ =? 0 then a else take (Z.to_nat (end_ - str)) a.

Lemma emit_ok a : forall m str end_,
  0 < str -> (end_ = 0 \/ str <= end_) ->
  let '(m', e) := emit a m str end_ in
  e = str + Z.of_nat (length (fit str end_ a)) /\
  bytes_at m' str (fit str end_ a) /\
  (forall b, b < str \/ e <= b -> ldb m' b = ldb m b).
Proof.
  induction a as [|c a IH]; intros m str end_ Hs He; cbn [emit].
  - unfold fit. rewrite take_nil. destruct (end_ =? 0); simpl; (split; [lia|split; [apply bytes_at_nil|done]]).
  - destruct (Z.eqb_spec end_ 0) as [->|Hne]; cbn [negb andb].
    + specialize (IH (stb m str c) (str + 1) 0). destruct (emit a _ (str + 1) 0) as [m' e].
      unfold fit in *. simpl in *. destruct IH as (-> & Hb & Ho); [lia|by left|]. split_and!; [lia| |].
      * apply bytes_at_cons. split; [|done]. rewrite Ho by lia. by rewrite ldb_stb, Z.eqb_refl.
      * intros b Hb'. rewrite Ho by lia. rewrite ldb_stb. case_if; (done || lia).
    + destruct (Z.leb_spec end_ str) as [Hle|Hgt].
      * unfold fit. rewrite (proj2 (Z.eqb_neq _ _) Hne). replace (Z.to_nat (end_ - str)) with 0%nat by lia.
        simpl. split_and!; [lia|apply bytes_at_nil|done].
      * specialize (IH (stb m str c) (str + 1) end_). destruct (emit a _ (str + 1) end_) as [m' e].
        unfold fit in *. rewrite (proj2 (Z.eqb_neq _ _) Hne) in *.
        replace (Z.to_nat (end_ - str)) with (S (Z.to_nat (end_ - (str + 1)))) by lia. simpl.
        destruct IH as (-> & Hb & Ho); [lia|right; lia|]. split_and!; [lia| |].
        -- apply bytes_at_cons. split; [|done]. rewrite Ho by lia. by rewrite ldb_stb, Z.eqb_refl.
        -- intros b Hb'. rewrite Ho by lia. rewrite ldb_stb. case_if; (done || lia).
Qed.

(** ** Scanning *)

Lemma sscan_step base c : 2 <= base <= 36 -> is_dig base c ->
  s8 (toupper (s8 c)) = c /\
  (if (48 <=? c) && (c <=? 57) then unhex c = c - 48
   else (10 <? base) && (65 <=? c) && (c <=? 65 + base - 10) = true /\ unhex c = c - 65 + 10).
Proof.
  intros Hb [Hc Hu]. unfold toupper, unhex in *. assert (s8 c = c) as ->.
  { unfold s8, swrap. change (2 ^ 8) with 256. change (2 ^ (8 - 1)) with 128. zlia. }
  split.
  - repeat case_if; try lia; unfold s8, swrap; change (2 ^ 8) with 256; change (2 ^ (8 - 1)) with 128; zlia.
  - destruct Hc as [Hd|[H10 Hl]].
    + rewrite (proj2 (Z.leb_le 48 c)), (proj2 (Z.leb_le c 57)) by lia. done.
    + rewrite (proj2 (Z.leb_le 48 c)), (proj2 (Z.leb_gt c 57)) by lia. cbn [andb].
      rewrite (proj2 (Z.ltb_lt 10 base)), (proj2 (Z.leb_le 65 c)), (proj2 (Z.leb_le c _)) by lia. done.
Qed.

Lemma dval_ge base ds : 2 <= base <= 36 -> Forall (is_dig base) ds -> forall r, 0 <= r -> r <= dval base r ds.
Proof.
  intros Hb. induction 1 as [|c ds Hc Hds IH]; intros r Hr; [done|]. simpl.
  pose proof (is_dig_byte base c Hb Hc). etrans; [|apply IH]; nia.
Qed.

(** The character is no digit of the scan. *)
Definition no_digit (base c : Z) : Prop :=
  (48 <=? s8 (toupper c)) && (s8 (toupper c) <=? 57) = false /\
  (10 <? base) && (65 <=? s8 (toupper c)) && (s8 (toupper c) <=? 65 + base - 10) = false.

(** A digit in either case. *)
Definition typed_dig (base c : Z) : Prop := 0 <= c < 128 /\ is_dig base (toupper c).

Lemma typed_dig_upper base c : 2 <= base <= 36 -> is_dig base c -> typed_dig base c /\ toupper c = c.
Proof.
  intros Hb Hc. destruct (is_dig_byte base c Hb Hc) as [Hr _]. assert (E : toupper c = c) by (unfold toupper; destruct Hc as [Hc _]; case_if; lia).
  split; [|done]. split; [lia|by rewrite E].
Qed.

Lemma sscan_loop_typed base ds : 2 <= base <= 36 -> Forall (typed_dig base) ds ->
  forall fuel m s r, bytes_at m s ds -> no_digit base (chr m (s + Z.of_nat (length ds))) ->
  0 <= r -> dval base r (map toupper ds) < 2 ^ 32 -> (length ds < fuel)%nat ->
  sscan_uint_loop fuel m s base r = Ok (s + Z.of_nat (length ds), dval base r (map toupper ds)).
Proof.
  intros Hb. induction 1 as [|c ds [Hc8 Hc] Hds IH]; intros fuel m s r Hby Hz Hr Hv Hf;
    (destruct fuel as [|fuel]; [simpl in Hf; lia|]); cbn [sscan_uint_loop].
  - rewrite Z.add_0_r in *. destruct Hz as [-> ->]. done.
  - unfold chr. apply bytes_at_cons in Hby as [-> Hby]. simpl in Hf, Hz, Hv.
    assert (E8 : s8 (toupper (s8 c)) = toupper c).
    { assert (s8 c = c) as -> by (unfold s8, swrap; change (2 ^ 8) with 256; change (2 ^ (8 - 1)) with 128; zlia).
      pose proof (is_dig_byte base _ Hb Hc). unfold s8, swrap; change (2 ^ 8) with 256; change (2 ^ (8 - 1)) with 128; zlia. }
    rewrite E8. destruct (sscan_step base (toupper c) Hb Hc) as [_ Hu]. set (c' := toupper c) in *.
    destruct (is_dig_byte base c' Hb Hc) as [_ Hc0]. pose proof (Z.mul_nonneg_nonneg r base Hr ltac:(lia)) as Hrb.
    assert (Hds' : Forall (is_dig base) (map toupper ds)) by (apply Forall_map; apply (Forall_impl _ _ _ Hds); by intros x [_ ?]).
    pose proof (dval_ge base _ Hb Hds' (r * base + unhex c') ltac:(lia)) as Hge.
    assert (Hlt : r * base + unhex c' < 2 ^ 32) by (unfold dval in *; lia).
    assert (E : u32 (u32 (r * base) + unhex c') = r * base + unhex c').
    { rewrite (u32_small (r * base)) by (unfold in_u32; lia). apply u32_small. unfold in_u32. lia. }
    assert (Hrec : sscan_uint_loop fuel m (s + 1) base (r * base + unhex c') = Ok (s + Z.of_nat (length (c :: ds)), dval base r (map toupper (c :: ds)))).
    { rewrite (IH fuel m (s + 1)); try done; try lia.
      - simpl. f_equal. f_equal. lia.
      - by replace (s + 1 + Z.of_nat (length ds)) with (s + Z.of_nat (S (length ds))) by lia. }
    destruct ((48 <=? c') && (c' <=? 57)).
    + rewrite <- Hu, E. exact Hrec.
    + destruct Hu as [-> Hu]. rewrite <- Hu, E. exact Hrec.
Qed.

Lemma sscan_loop_dig base ds : 2 <= base <= 36 -> Forall (is_dig base) ds ->
  forall fuel m s r, bytes_at m s ds -> no_digit base (chr m (s + Z.of_nat (length ds))) ->
  0 <= r -> dval base r ds < 2 ^ 32 -> (length ds < fuel)%nat ->
  sscan_uint_loop fuel m s base r = Ok (s + Z.of_nat (length ds), dval base r ds).
Proof.
  intros Hb Hds fuel m s r Hby Hz Hr. assert (E : map toupper ds = ds) by (clear -Hb Hds; induction Hds as [|c ds Hc Hds IH]; [done|]; cbn [map]; f_equal; [by apply (typed_dig_upper base)|done]).
  rewrite <- E at 1 4. apply sscan_loop_typed; [done| |done|done|done].
  apply (Forall_impl _ _ _ Hds). intros c Hc. by apply typed_dig_upper.
Qed.

Lemma sscan_loop_ok base ds : 2 <= base <= 36 -> Forall (is_dig base) ds ->
  forall fuel m s r, bytes_at m s ds -> ldb m (s + Z.of_nat (length ds)) = 0 ->
  0 <= r -> dval base r ds < 2 ^ 32 -> (length ds < fuel)%nat ->
  sscan_uint_loop fuel m s base r = Ok (s + Z.of_nat (length ds), dval base r ds).
Proof.
  intros Hb Hds fuel m s r Hby Hz. apply sscan_loop_dig; [done|done|done|].
  unfold no_digit, chr. rewrite Hz. split; [done|]. simpl. by rewrite andb_false_r.
Qed.

(** ** Bounds of [vsnprintf] *)

Lemma rbind_Ok {A B} (r : res A) (f : A -> res B) b :
  rbind r f = Ok b -> exists a, r = Ok a /\ f a = Ok b.
Proof. destruct r; simpl; [eauto|done|done]. Qed.

(** Invert the monadic steps of a computation that returned. *)
Ltac rinv :=
  repeat match goal with
  | H : rbind _ _ = Ok _ |- _ =>
      let a := fresh "a" in let E := fresh "E" in
      apply rbind_Ok in H as (a & E & H)
  | H : Fault = Ok _ |- _ => discriminate H
  | H : NoFuel = Ok _ |- _ => discriminate H
  end.

(** Bytes outside [lo, hi) are untouched. *)
Definition only_in (lo hi : Z) (m m' : mem) : Prop :=
  forall b, b < lo \/ hi <= b -> ldb m' b = ldb m b.

Lemma only_in_refl lo hi m : only_in lo hi m m.
Proof. by intros ? ?. Qed.

Lemma only_in_trans lo mid hi m m1 m2 :
  lo <= mid -> only_in lo hi m m1 -> only_in mid hi m1 m2 -> only_in lo hi m m2.
Proof. intros Hl H1 H2 b Hb. rewrite H2 by lia. apply H1. lia. Qed.

Lemma only_in_stb lo hi m a v : lo <= a < hi -> only_in lo hi m (stb m a v).
Proof. intros Ha b Hb. rewrite ldb_stb. case_if; (done || lia). Qed.

#[local] Hint Resolve only_in_refl : cosec.

Lemma emit_bounds end_ : end_ <> 0 -> forall a m s m' e, a <> [] -> emit a m s end_ = (m', e) ->
  (s <= end_ -> s <= e <= end_) /\ (end_ < s -> e = end_) /\ only_in s end_ m m'.
Proof.
  intros He. induction a as [|c a IH]; intros m s m' e Ha; [done|]. cbn [emit].
  rewrite (proj2 (Z.eqb_neq _ _) He). cbn [negb andb].
  destruct (Z.leb_spec end_ s) as [Hle|Hgt]; [intros [= <- <-]; split_and!; try lia; auto with cosec|].
  intros H. destruct a as [|c' a].
  { cbn [emit] in H. injection H as <- <-. split_and!; try lia. apply only_in_stb. lia. }
  destruct (IH (stb m s c) (s + 1) m' e ltac:(done) H) as (H1 & H2 & H3). split_and!; try lia.
  eapply (only_in_trans s (s + 1) end_); [lia| |done]; apply only_in_stb; lia.
Qed.

Lemma push_nonempty c a a' : push c a = Ok a' -> a' <> [].
Proof. unfold push. case_if; [done|]. by intros [= <-]. Qed.

Lemma digits_loop_nonempty fuel x base a a' : x <> 0 \/ a <> [] -> digits_loop fuel x base a = Ok a' -> a' <> [].
Proof.
  revert x a. induction fuel as [|fuel IH]; intros x a Hx; cbn [digits_loop];
    (destruct (Z.eqb_spec x 0) as [->|Hne]; [intros [= <-]; tauto|]); [done|].
  intros H. rinv. apply (IH (x / base) a0); [|done]. right. by eapply push_nonempty.
Qed.

Lemma pad_loop_nonempty fuel w i c a a' : a <> [] -> pad_loop fuel w i c a = Ok a' -> a' <> [].
Proof.
  revert w a. induction fuel as [|fuel IH]; intros w a Ha; cbn [pad_loop]; case_if; try done;
    try (by intros [= <-]).
  intros H. rinv. apply (IH (w - 1) a0); [|done]. by eapply push_nonempty.
Qed.

Lemma snprint_uint_emit m s end_ x base flags p w r :
  snprint_uint m s end_ x base flags p w = Ok r -> exists a, a <> [] /\ r = emit a m s end_.
Proof.
  unfold snprint_uint. intros H. rinv. injection H as <-. exists a0. split; [|done].
  assert (a <> []) as Ha.
  { destruct (Z.eqb_spec x 0); [by eapply push_nonempty|]. eapply digits_loop_nonempty; [|exact E]. by left. }
  destruct (negb _); [by eapply pad_loop_nonempty|congruence].
Qed.

Section Bounds.
Context (str end_ : Z) (Hstr : 0 < str) (Hend : str <= end_).

(** One step of the output: from [s] to [e], inside the buffer. *)
Definition out_step (m : mem) (s : Z) (m' : mem) (e : Z) : Prop :=
  s <= e <= end_ /\ only_in s (end_ + 1) m m'.

Lemma snprint_uint_step m s x base flags p w m' e :
  str <= s <= end_ -> snprint_uint m s end_ x base flags p w = Ok (m', e) -> out_step m s m' e.
Proof using Hstr Hend.
  intros Hs H. apply snprint_uint_emit in H as (a & Ha & H).
  destruct (emit_bounds end_ ltac:(lia) a m s m' e Ha (eq_sym H)) as (H1 & _ & H3).
  split; [lia|]. intros b Hb. apply H3. lia.
Qed.

(** After two or one raw bytes the position may be one past the end. *)
Lemma snprint_uint_past m s x base flags p w m' e :
  str <= s <= end_ + 1 -> snprint_uint m s end_ x base flags p w = Ok (m', e) ->
  str <= e <= end_ /\ s - 1 <= e /\ only_in s (end_ + 1) m m'.
Proof using Hstr Hend.
  intros Hs H. apply snprint_uint_emit in H as (a & Ha & H).
  destruct (emit_bounds end_ ltac:(lia) a m s m' e Ha (eq_sym H)) as (H1 & H2 & H3).
  destruct (Z.le_gt_cases s end_) as [Hle|Hgt]; [specialize (H1 Hle)|specialize (H2 Hgt)];
    (split; [lia|split; [lia|intros b Hb; apply H3; lia]]).
Qed.

Lemma snprint_int_step m s x base flags p w m' e :
  str <= s <= end_ -> snprint_int m s end_ x base flags p w = Ok (m', e) -> out_step m s m' e.
Proof using Hstr Hend.
  intros Hs. unfold snprint_int. rewrite (proj2 (Z.eqb_neq end_ 0)) by lia. cbn [negb andb].
  destruct (Z.leb_spec end_ s) as [Hle|Hgt].
  { intros [= <- <-]. split; [lia|auto with cosec]. }
  assert (Hsign : forall c y, snprint_uint (stb m s c) (s + 1) end_ y base flags p w = Ok (m', e) -> out_step m s m' e).
  { intros c y H. apply snprint_uint_step in H as [H1 H2]; [|lia]. split; [lia|].
    eapply (only_in_trans s (s + 1) (end_ + 1)); [lia| |done]; apply only_in_stb; lia. }
  destruct (x <? 0); [apply Hsign|]. destruct (negb _); [apply Hsign|].
  destruct (negb _); [apply Hsign|]. apply snprint_uint_step. lia.
Qed.

Lemma copy_str_step fuel : forall m c s m' e,
  str <= s <= end_ -> copy_str fuel m c s end_ = Ok (m', e) -> out_step m s m' e.
Proof using Hstr Hend.
  induction fuel as [|fuel IH]; intros m c s m' e Hs; cbn [copy_str]; [done|].
  destruct (ldb m c =? 0); [intros [= <- <-]; split; [lia|auto with cosec]|].
  rewrite (proj2 (Z.eqb_neq end_ 0)) by lia. cbn [negb andb].
  destruct (Z.leb_spec end_ s) as [Hle|Hgt]; [intros [= <- <-]; split; [lia|auto with cosec]|].
  intros H. apply IH in H as [H1 H2]; [|lia]. split; [lia|].
  eapply (only_in_trans s (s + 1) (end_ + 1)); [lia| |done]; apply only_in_stb; lia.
Qed.

Lemma specifier_step fuel m f s flags p w ap m' e ap' :
  str <= s < end_ -> specifier fuel m f s end_ flags p w ap = Ok (m', e, ap') -> out_step m s m' e.
Proof using Hstr Hend.
  intros Hs. unfold specifier. set (c := ldb m f). intros H.
  destruct (c =? 120); [rinv; destruct a0; injection H as <- <- <-; eapply snprint_uint_step; [lia|done]|].
  destruct (_ || _); [rinv; destruct a0; injection H as <- <- <-; eapply snprint_int_step; [lia|done]|].
  destruct (c =? 117); [rinv; destruct a0; injection H as <- <- <-; eapply snprint_uint_step; [lia|done]|].
  destruct (c =? 115); [rinv; destruct a0; injection H as <- <- <-; eapply copy_str_step; [lia|done]|].
  destruct (c =? 103); [|destruct (c =? 112)].
  - rinv. destruct a as [[ip fp] ap1]. rinv. destruct a as [m1 s1].
    apply snprint_uint_step in E0 as [H1 H2]; [|lia].
    destruct (0 <? fp); [|by injection H as <- <- <-]. rinv. destruct a. injection H as <- <- <-.
    apply snprint_uint_past in E0 as (H3 & H4 & H5); [|lia]. split; [lia|].
    eapply (only_in_trans s s1); [lia|done|]. eapply (only_in_trans s1 (s1 + 1)); [lia| |done].
    apply only_in_stb. lia.
  - rinv. destruct a0. injection H as <- <- <-.
    apply snprint_uint_past in E0 as (H3 & H4 & H5); [|lia]. split; [lia|].
    eapply (only_in_trans s (s + 2)); [lia| |done].
    eapply (only_in_trans s s); [lia|apply (only_in_stb s (end_ + 1) m s 48); lia|apply only_in_stb; lia].
  - injection H as <- <- <-. split; [lia|apply only_in_stb; lia].
Qed.

Lemma vsnprintf_loop_bounds n fuel : forall m f s ap m' ret,
  str <= s <= end_ -> vsnprintf_loop n fuel m str f s end_ ap = Ok (m', ret) ->
  0 <= ret <= end_ - str /\ ldb m' (str + ret) = 0 /\ only_in str (end_ + 1) m m'.
Proof using Hstr Hend.
  induction n as [|n IH]; intros m f s ap m' ret Hs; cbn [vsnprintf_loop]; [done|].
  destruct (ldb m f =? 0).
  { intros [= <- <-]. split; [lia|]. split; [|apply only_in_stb; lia].
    rewrite ldb_stb. case_if; [done|lia]. }
  rewrite (proj2 (Z.eqb_neq end_ 0)) by lia. cbn [negb andb].
  destruct (Z.leb_spec end_ s) as [Hle|Hgt].
  { intros [= <- <-]. split; [lia|]. split; [|apply only_in_stb; lia].
    rewrite ldb_stb. case_if; [done|lia]. }
  destruct (negb _).
  - intros H. apply IH in H as (H1 & H2 & H3); [|lia]. split_and!; try done; try lia.
    eapply (only_in_trans str str); [lia| |done]. apply only_in_stb. lia.
  - intros H. rinv. destruct a as [[[m1 s1] ap1] f1]. unfold conversion in E. rinv.
    destruct a as [f2 fl]. rinv. destruct a0 as [f3 w]. rinv. destruct a0 as [f4 p]. rinv.
    destruct a0 as [[m2 s2] ap2]. injection E as <- <- <- <-.
    apply specifier_step in E4 as [H1 H2]; [|lia].
    apply IH in H as (H3 & H4 & H5); [|lia]. split_and!; try done; try lia.
    eapply (only_in_trans str str); [lia| |exact H5]. intros b Hb. apply H2. lia.
Qed.

End Bounds.

(** ** The output of [vsnprintf] *)

(** A format as the programmer reads it, with its arguments. *)
Inductive piece :=
| PChar (c : Z)              (** a literal character *)
| PPercent                   (** [%%] *)
| PDec (x : Z)               (** [%d] *)
| PUns (x : Z)               (** [%u] *)
| PHex (x : Z)               (** [%x] *)
| PHexW (w x : Z)            (** [%0wx], one digit of width *)
| PStr (p : Z) (s : list Z). (** [%s] with the string [s] at [p] *)

Definition render1 (p : piece) : list Z :=
  match p with
  | PChar c => [c]
  | PPercent => [37; 37]
  | PDec _ => [37; 100]
  | PUns _ => [37; 117]
  | PHex _ => [37; 120]
  | PHexW w _ => [37; 48; 48 + w; 120]
  | PStr _ _ => [37; 115]
  end.
Definition render (ps : list piece) : list Z := ps ≫= render1.

Definition args1 (p : piece) : list va_arg :=
  match p with
  | PChar _ | PPercent => []
  | PDec x | PUns x | PHex x | PHexW _ x => [VaWord x]
  | PStr p _ => [VaWord p]
  end.
Definition args (ps : list piece) : list va_arg := ps ≫= args1.

Definition text1 (p : piece) : list Z :=
  match p with
  | PChar c => [c]
  | PPercent => [37]
  | PDec x => if x <? 0 then 45 :: uint_digits (- x) 10 else uint_digits x 10
  | PUns x => uint_digits x 10
  | PHex x => uint_digits x 16
  | PHexW w x => replicate (Z.to_nat (w - Z.of_nat (length (uint_digits x 16)))) 48 ++ uint_digits x 16
  | PStr _ s => s
  end.
Definition text (ps : list piece) : list Z := ps ≫= text1.

(** Literals, ranges, and strings outside the output buffer [lo, hi]. *)
Definition piece_ok (m : mem) (lo hi : Z) (fuel : nat) (p : piece) : Prop :=
  match p with
  | PChar c => 0 < c < 256 /\ c <> 37
  | PPercent => True
  | PDec x => in_s32 x
  | PUns x | PHex x => in_u32 x
  | PHexW w x => 1 <= w <= 9 /\ in_u32 x
  | PStr p s => cstr m p s /\ (length s < fuel)%nat /\ (p + Z.of_nat (length s) < lo \/ hi < p)
  end.

Section Output.
Context (m0 : mem) (str end_ : Z) (Hstr : 0 < str) (Hend : str <= end_).

Lemma cstr_ro m p s :
  only_in str (end_ + 1) m0 m -> (p + Z.of_nat (length s) < str \/ end_ < p) -> cstr m0 p s -> cstr m p s.
Proof using Hstr Hend. intros Hm Hd. apply cstr_same. intros a Ha. apply Hm. lia. Qed.

(** The bytes written by one step and where it stops. *)
Definition wrote (m : mem) (s : Z) (t : list Z) (m' : mem) (e : Z) : Prop :=
  e = s + Z.of_nat (length (fit s end_ t)) /\ bytes_at m' s (fit s end_ t) /\ only_in s e m m'.

Lemma fit_app s t1 t2 :
  s <= end_ -> fit s end_ (t1 ++ t2) = fit s end_ t1 ++ fit (s + Z.of_nat (length (fit s end_ t1))) end_ t2.
Proof using Hstr Hend.
  intros Hs. unfold fit. rewrite (proj2 (Z.eqb_neq end_ 0)) by lia. rewrite take_app. f_equal.
  rewrite length_take. f_equal. lia.
Qed.

Lemma fit_le s t : s <= end_ -> s + Z.of_nat (length (fit s end_ t)) <= end_.
Proof using Hstr Hend.
  intros Hs. unfold fit. rewrite (proj2 (Z.eqb_neq end_ 0)) by lia. rewrite length_take. lia.
Qed.

Lemma emit_wrote m s t : str <= s <= end_ -> exists m' e, emit t m s end_ = (m', e) /\ wrote m s t m' e.
Proof using Hstr Hend.
  intros Hs. pose proof (emit_ok t m s end_ ltac:(lia) ltac:(right; lia)) as H.
  destruct (emit t m s end_) as [m' e]. exists m', e. split; [done|]. destruct H as (-> & Hb & Ho). by split.
Qed.

(** One byte, then the rest. *)
Lemma wrote_cons m s c t m' e :
  str <= s < end_ -> wrote (stb m s c) (s + 1) t m' e -> wrote m s (c :: t) m' e.
Proof using Hstr Hend.
  intros Hs (-> & Hb & Ho). unfold wrote, fit in *. rewrite (proj2 (Z.eqb_neq end_ 0)) in * by lia.
  replace (Z.to_nat (end_ - s)) with (S (Z.to_nat (end_ - (s + 1)))) by lia. simpl. split_and!.
  - lia.
  - apply bytes_at_cons. split; [|done]. rewrite Ho by lia. by rewrite ldb_stb, Z.eqb_refl.
  - intros b Hb'. rewrite Ho by lia. rewrite ldb_stb. case_if; (done || lia).
Qed.

Lemma copy_str_wrote t : forall fl m p s,
  str <= s <= end_ -> only_in str (end_ + 1) m0 m -> cstr m0 p t ->
  (p + Z.of_nat (length t) < str \/ end_ < p) -> (length t < fl)%nat ->
  exists m' e, copy_str fl m p s end_ = Ok (m', e) /\ wrote m s t m' e.
Proof using Hstr Hend.
  induction t as [|c t IH]; intros [|fl] m p s Hs Hm Hp Hd Hf; simpl in Hf, Hd; try lia; cbn [copy_str].
  - pose proof (cstr_ro m p [] Hm ltac:(simpl; lia) Hp) as Hc. apply cstr_nil in Hc. rewrite Hc.
    exists m, s. split; [done|]. unfold wrote, fit. rewrite take_nil.
    destruct (end_ =? 0); simpl; (split; [lia|split; [apply bytes_at_nil|apply only_in_refl]]).
  - pose proof (cstr_ro m p (c :: t) Hm ltac:(simpl; lia) Hp) as Hc. apply cstr_cons in Hc as (Ec & Hc & _).
    apply cstr_cons in Hp as (_ & _ & Hp).
    rewrite Ec, (proj2 (Z.eqb_neq c 0)), (proj2 (Z.eqb_neq end_ 0)) by lia. cbn [negb andb].
    destruct (Z.leb_spec end_ s) as [Hle|Hgt].
    + exists m, s. split; [done|]. unfold wrote, fit. rewrite (proj2 (Z.eqb_neq end_ 0)) by lia.
      replace (Z.to_nat (end_ - s)) with 0%nat by lia. simpl.
      split; [lia|split; [apply bytes_at_nil|apply only_in_refl]].
    + destruct (IH fl (stb m s c) (p + 1) (s + 1)) as (m' & e & -> & Hw); try lia; try done.
      { intros b Hb. rewrite ldb_stb. case_if; [lia|]. apply Hm. lia. }
      exists m', e. split; [done|]. apply wrote_cons; [lia|done].
Qed.

(** A decimal digit of width is read as itself. *)
Lemma sscan_width m p w r :
  cstr m p (48 + w :: 120 :: r) -> 1 <= w <= 9 ->
  forall fuel, (4 <= fuel)%nat -> sscan_uint fuel m p 0 10 = Ok (p + 1, w).
Proof using.
  intros Hc Hw fuel Hf.
  apply cstr_cons in Hc as (E1 & _ & Hc). apply cstr_cons in Hc as (E2 & _).
  destruct fuel as [|[|fuel]]; try lia. unfold sscan_uint. cbn [sscan_uint_loop]. unfold chr. rewrite E1, E2.
  assert (s8 (toupper (s8 (48 + w))) = 48 + w) as ->.
  { assert (w = 1 \/ w = 2 \/ w = 3 \/ w = 4 \/ w = 5 \/ w = 6 \/ w = 7 \/ w = 8 \/ w = 9) as Hcase by lia.
    destruct_or! Hcase; subst w; reflexivity. }
  rewrite (proj2 (Z.leb_le 48 _)), (proj2 (Z.leb_le _ 57)) by lia. cbn [andb].
  assert (u32 (u32 (0 * 10) + (48 + w - 48)) = w) as ->.
  { change (u32 (0 * 10)) with 0. rewrite u32_small by (unfold in_u32; lia). lia. }
  change (s8 (toupper (s8 120))) with 88. simpl. by rewrite (proj2 (Z.eqb_neq (p + 1) p)) by lia.
Qed.

(** A conversion of one letter: no flag, width, precision or modifier. *)
Lemma conversion_simple fuel m f s ap c rest :
  (4 <= fuel)%nat -> cstr m f (37 :: c :: rest) -> isdigit (s8 c) = Some 0 ->
  forallb (fun k => negb (c =? k)) [48; 43; 32; 46; 108] = true ->
  conversion fuel m (f + 1) s end_ ap =
  (r <-! specifier fuel m (f + 1) s end_ 0 0 0 ap; Ok (r, f + 2)) /\ ldb m (f + 1) = c.
Proof using.
  intros Hf Hc Hd Hn. cbn [forallb] in Hn. b2p.
  apply cstr_cons in Hc as (_ & _ & Hc). apply cstr_cons in Hc as (E1 & _ & _). split; [|done].
  unfold conversion. destruct fuel as [|fl]; [lia|]. cbn [flags_loop]. rewrite E1.
  rewrite (proj2 (Z.eqb_neq c 48)), (proj2 (Z.eqb_neq c 43)), (proj2 (Z.eqb_neq c 32)) by done. cbn [rbind].
  unfold chr. rewrite E1, Hd. cbn [of_opt rbind Z.eqb negb].
  rewrite E1, (proj2 (Z.eqb_neq c 46)) by done. cbn [rbind]. rewrite E1, (proj2 (Z.eqb_neq c 108)) by done.
  by replace (f + 1 + 1) with (f + 2) by lia.
Qed.

Lemma width_cases w : 1 <= w <= 9 -> w = 1 \/ w = 2 \/ w = 3 \/ w = 4 \/ w = 5 \/ w = 6 \/ w = 7 \/ w = 8 \/ w = 9.
Proof using. lia. Qed.

(** [%0wx]: one flag and a width. *)
Lemma conversion_width fuel m f s ap w rest :
  (4 <= fuel)%nat -> cstr m f (37 :: 48 :: 48 + w :: 120 :: rest) -> 1 <= w <= 9 ->
  conversion fuel m (f + 1) s end_ ap =
  (r <-! specifier fuel m (f + 3) s end_ ZERO_PADDED 0 w ap; Ok (r, f + 4)) /\ ldb m (f + 3) = 120.
Proof using.
  intros Hf Hc Hw. apply cstr_cons in Hc as (_ & _ & Hc).
  apply cstr_cons in Hc as (E1 & _ & Hc). pose proof Hc as Hc2. apply cstr_cons in Hc as (E2 & _ & Hc).
  apply cstr_cons in Hc as (E3 & _ & _). replace (f + 3) with (f + 1 + 1 + 1) by lia. split; [|done].
  unfold conversion. assert (flags_loop fuel m (f + 1) 0 = Ok (f + 1 + 1, ZERO_PADDED)) as ->.
  { destruct fuel as [|[|fl]]; [lia|lia|]. cbn [flags_loop]. rewrite E1, E2. cbn [Z.eqb Pos.eqb].
    by rewrite (proj2 (Z.eqb_neq (48 + w) 48)), (proj2 (Z.eqb_neq (48 + w) 43)), (proj2 (Z.eqb_neq (48 + w) 32)) by lia. }
  cbn [rbind]. unfold chr. rewrite E2. assert (isdigit (s8 (48 + w)) = Some 8) as ->.
  { pose proof (width_cases w Hw) as Hcase. destruct_or! Hcase; subst w; reflexivity. }
  cbn [of_opt rbind Z.eqb negb].
  rewrite (sscan_width m (f + 1 + 1) w rest Hc2 Hw fuel) by lia. cbn [rbind fst snd].
  rewrite (s32_small w) by (unfold in_s32; lia). rewrite !E3. cbn [Z.eqb Pos.eqb rbind]. rewrite !E3.
  cbn [Z.eqb Pos.eqb]. by replace (f + 1 + 1 + 1 + 1) with (f + 4) by lia.
Qed.

(** What a conversion does, for each piece that is not a literal. *)
Lemma conversion_wrote fuel m f s p rest ap :
  (4 <= fuel)%nat -> piece_ok m0 str end_ fuel p -> (forall c, p <> PChar c) ->
  str <= s < end_ -> only_in str (end_ + 1) m0 m ->
  cstr m f (render1 p ++ rest) ->
  exists m' e, conversion fuel m (f + 1) s end_ (args1 p ++ ap) =
               Ok (m', e, ap, f + Z.of_nat (length (render1 p))) /\ wrote m s (text1 p) m' e.
Proof using Hstr Hend.
  intros Hf Hok Hnc Hs Hm Hc.
  assert (Huint : forall x base flags w, 2 <= base <= 36 -> in_u32 x -> w <= 32 -> exists m' e,
            snprint_uint m s end_ x base flags 0 w = Ok (m', e) /\ wrote m s (uint_text x base flags w) m' e).
  { intros x base flags w Hb Hx Hw. rewrite snprint_uint_ok by done.
    destruct (emit_wrote m s (uint_text x base flags w) ltac:(lia)) as (m' & e & -> & Hwr). by exists m', e. }
  destruct p as [c| |x|x|x|w x|sp t]; simpl in Hok, Hc; cbn [args1 text1 render1 app length]; [by destruct (Hnc c)|..].
  - destruct (conversion_simple fuel m f s ap 37 rest) as [-> E1]; try done. unfold specifier. rewrite E1. simpl.
    do 2 eexists. split; [done|]. apply wrote_cons; [lia|].
    destruct (emit_wrote (stb m s 37) (s + 1) [] ltac:(lia)) as (m' & e & [= <- <-] & Hw). done.
  - rewrite <- ?uint_text_plain. destruct (conversion_simple fuel m f s (VaWord x :: ap) 100 rest) as [-> E1]; try done.
    unfold specifier. rewrite E1. simpl.
    unfold in_s32 in Hok. rewrite s32_small by done. unfold snprint_int.
    rewrite (proj2 (Z.eqb_neq end_ 0)), (proj2 (Z.leb_gt end_ s)) by lia. cbn [negb andb].
    change (Z.land 0 PRINT_PLUS) with 0. change (Z.land 0 SPACE_PLUS) with 0.
    destruct (Z.ltb_spec x 0) as [Hx|Hx]; cbn [Z.eqb negb].
    + assert (u32 (s32 (- x)) = - x) as -> by (unfold u32, s32, swrap; change (2 ^ 32) with 4294967296; change (2 ^ (32 - 1)) with 2147483648; clear -Hx Hok; zlia).
      rewrite snprint_uint_ok by (unfold in_u32; lia).
      destruct (emit_wrote (stb m s 45) (s + 1) (uint_text (- x) 10 0 0) ltac:(lia)) as (m' & e & -> & Hw).
      do 2 eexists. split; [done|]. by apply wrote_cons.
    + rewrite u32_small by (unfold in_u32; lia).
      destruct (Huint x 10 0 0) as (m' & e & -> & Hw); [lia|unfold in_u32; lia|lia|]. by exists m', e.
  - rewrite <- ?uint_text_plain. destruct (conversion_simple fuel m f s (VaWord x :: ap) 117 rest) as [-> E1]; try done.
    unfold specifier. rewrite E1. simpl. rewrite u32_small by done.
    destruct (Huint x 10 0 0) as (m' & e & -> & Hw); [lia|done|lia|]. by exists m', e.
  - rewrite <- ?uint_text_plain. destruct (conversion_simple fuel m f s (VaWord x :: ap) 120 rest) as [-> E1]; try done.
    unfold specifier. rewrite E1. simpl. rewrite u32_small by done.
    destruct (Huint x 16 0 0) as (m' & e & -> & Hw); [lia|done|lia|]. by exists m', e.
  - destruct Hok as [Hw Hx].
    destruct (conversion_width fuel m f s (VaWord x :: ap) w rest) as [-> E1]; try done.
    unfold specifier. rewrite E1. simpl. rewrite u32_small by done.
    destruct (Huint x 16 ZERO_PADDED w) as (m' & e & -> & Hwr); [lia|done|lia|]. by exists m', e.
  - destruct (conversion_simple fuel m f s (VaWord sp :: ap) 115 rest) as [-> E1]; try done.
    unfold specifier. rewrite E1. simpl. destruct Hok as (Hp & Hl & Hd).
    destruct (copy_str_wrote t fuel m sp s ltac:(lia) Hm Hp Hd Hl) as (m' & e & -> & Hw). by exists m', e.
Qed.

(** The pieces written one after the other. *)
Lemma wrote_app m s t1 m1 e1 t2 m2 e2 :
  str <= s <= end_ -> wrote m s t1 m1 e1 -> wrote m1 e1 t2 m2 e2 -> wrote m s (t1 ++ t2) m2 e2.
Proof using Hstr Hend.
  intros Hs (-> & Hb1 & Ho1) (-> & Hb2 & Ho2). unfold wrote. rewrite fit_app by lia. rewrite length_app. split_and!.
  - lia.
  - apply bytes_at_app. split; [|done]. eapply bytes_at_ext; [|exact Hb1]. intros a Ha. apply Ho2. lia.
  - intros b Hb. rewrite Ho2 by lia. apply Ho1. lia.
Qed.

Lemma fit_full s t : s = end_ -> fit s end_ t = [].
Proof using Hstr Hend.
  intros ->. unfold fit. rewrite (proj2 (Z.eqb_neq end_ 0)) by lia. by rewrite Z.sub_diag.
Qed.

Lemma render1_nonempty p : exists c r, render1 p = c :: r.
Proof using. destruct p; simpl; eauto. Qed.

(** The terminator at the end of the text. *)
Lemma finish m s : str <= s <= end_ ->
  bytes_at (stb m s 0) s [0] /\ only_in s (end_ + 1) m (stb m s 0).
Proof using.
  intros Hs. split; [|apply only_in_stb; lia]. apply bytes_at_cons.
  split; [by rewrite ldb_stb, Z.eqb_refl|apply bytes_at_nil].
Qed.

Lemma vsnprintf_loop_text fuel : (4 <= fuel)%nat -> forall ps n m f s,
  Forall (piece_ok m0 str end_ fuel) ps -> (length ps < n)%nat ->
  str <= s <= end_ -> only_in str (end_ + 1) m0 m ->
  cstr m0 f (render ps) -> (f + Z.of_nat (length (render ps)) < str \/ end_ < f) ->
  exists m', vsnprintf_loop n fuel m str f s end_ (args ps) =
             Ok (m', s - str + Z.of_nat (length (fit s end_ (text ps)))) /\
    bytes_at m' s (fit s end_ (text ps) ++ [0]) /\ only_in s (end_ + 1) m m'.
Proof using Hstr Hend.
  intros Hfu. induction ps as [|p ps IH]; intros [|n] m f s Hok Hn Hs Hm Hf Hd; simpl in Hn; try lia;
    cbn [vsnprintf_loop].
  { pose proof (cstr_ro m f [] Hm Hd Hf) as Hc. apply cstr_nil in Hc. rewrite Hc. cbn [Z.eqb].
    assert (fit s end_ (text []) = []) as -> by (unfold fit; simpl; rewrite take_nil; by destruct (end_ =? 0)).
    destruct (finish m s Hs). eexists. split; [|done]. do 2 f_equal. simpl. lia. }
  inversion Hok as [|? ? Hp Hps]; subst.
  change (render (p :: ps)) with (render1 p ++ render ps) in *. change (args (p :: ps)) with (args1 p ++ args ps).
  change (text (p :: ps)) with (text1 p ++ text ps).
  pose proof (cstr_ro m f _ Hm Hd Hf) as Hc. destruct (render1_nonempty p) as (c & r & Er).
  rewrite length_app in Hd. pose proof Hc as Hc1. rewrite Er in Hc1. apply cstr_cons in Hc1 as (Ec & Hcb & _).
  rewrite Ec, (proj2 (Z.eqb_neq c 0)), (proj2 (Z.eqb_neq end_ 0)) by lia. cbn [negb andb].
  destruct (Z.leb_spec end_ s) as [Hle|Hgt].
  { assert (s = end_) as -> by lia. rewrite fit_full by done. destruct (finish m end_ ltac:(lia)).
    eexists. split; [|done]. do 2 f_equal. simpl. lia. }
  (* one piece, then the rest *)
  assert (Hrest : forall m1 e, wrote m s (text1 p) m1 e ->
    exists m', vsnprintf_loop n fuel m1 str (f + Z.of_nat (length (render1 p))) e end_ (args ps) =
      Ok (m', s - str + Z.of_nat (length (fit s end_ (text1 p ++ text ps)))) /\
      bytes_at m' s (fit s end_ (text1 p ++ text ps) ++ [0]) /\ only_in s (end_ + 1) m m').
  { intros m1 e (Ee & Hb1 & Ho1). pose proof (fit_le s (text1 p) ltac:(lia)) as Hfl.
    destruct (IH n m1 (f + Z.of_nat (length (render1 p))) e) as (m' & -> & Hb2 & Ho2); try lia; try done.
    - intros b Hb. rewrite Ho1 by lia. apply Hm. lia.
    - by apply cstr_suffix.
    - exists m'. rewrite fit_app, <- Ee by lia. rewrite length_app, <- app_assoc. split_and!.
      + do 2 f_equal. lia.
      + apply bytes_at_app. rewrite <- Ee. split; [|done].
        eapply bytes_at_ext; [|exact Hb1]. intros a Ha. apply Ho2. lia.
      + intros b Hb. rewrite Ho2 by lia. apply Ho1. lia. }
  destruct (Z.eqb_spec c 37) as [->|Hne]; cbn [negb].
  - destruct (conversion_wrote fuel m f s p (render ps) (args ps)) as (m1 & e & -> & Hw); try done; try lia.
    { intros c ->. simpl in Er, Hp. injection Er as -> _. lia. }
    cbn [rbind]. by apply Hrest.
  - assert (p = PChar c) as -> by (destruct p; simpl in Er; congruence).
    apply (Hrest (stb m s c) (s + 1)). apply wrote_cons; [lia|].
    destruct (emit_wrote (stb m s c) (s + 1) [] ltac:(lia)) as (m' & e & [= <- <-] & Hw). done.
Qed.

End Output.

(** ** Formats on which [vsnprintf] returns *)

(** A character, or a conversion with flags, width, precision, the modifier
    [l], its letter and its argument. *)
Inductive item :=
| Lit (c : Z)
| Conv (flags width : list Z) (precision : option (list Z)) (long : bool) (letter : Z) (arg : list va_arg).

Definition from_letter (long : bool) (c : Z) : list Z := (if long then [108] else []) ++ [c].
Definition from_precision (p : option (list Z)) (long : bool) (c : Z) : list Z :=
  match p with Some ds => 46 :: ds | None => [] end ++ from_letter long c.

Definition item_text (i : item) : list Z :=
  match i with
  | Lit c => [c]
  | Conv flags width p long c _ => 37 :: flags ++ width ++ from_precision p long c
  end.
Definition format_text (fs : list item) : list Z := fs ≫= item_text.

Definition item_args (i : item) : list va_arg := match i with Lit _ => [] | Conv _ _ _ _ _ arg => arg end.
Definition format_args (fs : list item) : list va_arg := fs ≫= item_args.

Definition dec_digit (c : Z) : Prop := 48 <= c <= 57.

(** A conversion letter is none of the characters in front of it. *)
Definition letter_ok (c : Z) : Prop := 0 < c < 128 /\ ~ dec_digit c /\ c ∉ [32; 43; 45; 46; 108].

(** The argument a letter takes; a string ends and is outside [lo, hi]. *)
Inductive arg_ok (m : mem) (lo hi : Z) (fuel : nat) : Z -> list va_arg -> Prop :=
| arg_number c w : c ∈ [120; 100; 105; 117; 112] -> arg_ok m lo hi fuel c [VaWord w]
| arg_string p s : cstr m p s -> (length s < fuel)%nat -> (p + Z.of_nat (length s) < lo \/ hi < p) -> arg_ok m lo hi fuel 115 [VaWord p]
| arg_double i f : in_u32 i -> in_u32 f -> arg_ok m lo hi fuel 103 [VaDouble i f]
| arg_none c : c ∉ [120; 100; 105; 117; 112; 115; 103] -> arg_ok m lo hi fuel c [].

(** The width is at most the 32 characters of the local array. *)
Definition item_ok (m : mem) (lo hi : Z) (fuel : nat) (i : item) : Prop :=
  match i with
  | Lit c => c <> 37
  | Conv flags width p long c arg =>
      Forall (fun c => c ∈ [48; 43; 32]) flags /\ Forall dec_digit width /\ head width <> Some 48 /\ dval 10 0 width <= 32 /\
      (match p with Some ds => Forall dec_digit ds /\ dval 10 0 ds < 2 ^ 32 | None => True end) /\
      letter_ok c /\ arg_ok m lo hi fuel c arg
  end.

Lemma small_char c : 0 < c < 128 -> s8 c = c.
Proof. intros Hc. unfold s8, swrap. change (2 ^ 8) with 256. change (2 ^ (8 - 1)) with 128. zlia. Qed.

Lemma char_class c : 0 < c < 128 -> isdigit (s8 c) = Some (if bool_decide (dec_digit c) then 8 else 0) /\ (~ dec_digit c -> no_digit 10 (s8 c)).
Proof.
  intros Hc. rewrite small_char by done.
  assert (H : forallb (fun c => bool_decide (isdigit c = Some (if bool_decide (48 <= c <= 57) then 8 else 0)) && (bool_decide (48 <= c <= 57) || negb ((48 <=? s8 (toupper c)) && (s8 (toupper c) <=? 57)))) (seqZ 1 127) = true) by reflexivity.
  rewrite forallb_forall in H. assert (Hin : In c (seqZ 1 127)) by (apply list_elem_of_In, elem_of_seqZ; lia). specialize (H c Hin).
  apply andb_true_iff in H as [H1 H2]. apply bool_decide_eq_true in H1. unfold dec_digit. split; [exact H1|].
  intros Hd. rewrite (bool_decide_eq_false_2 _ Hd) in H2. apply negb_true_iff in H2. split; [exact H2|done].
Qed.

Lemma dec_digit_dig ds : Forall dec_digit ds -> Forall (is_dig 10) ds.
Proof. intros H. apply (Forall_impl _ _ _ H). intros c Hc. unfold dec_digit in Hc. unfold is_dig, unhex. destruct (Z.leb_spec c 57); lia. Qed.

(** The first character of a text. *)
Lemma cstr_first m p l : cstr m p l -> ldb m p = default 0 (head l).
Proof. destruct l as [|c l]; [by intros H%cstr_nil|by intros (H & _)%cstr_cons]. Qed.

Lemma from_letter_head long c rest : letter_ok c -> exists h, head (from_letter long c ++ rest) = Some h /\ 0 < h < 128 /\ ~ dec_digit h /\ h ∉ [32; 43; 45; 46].
Proof.
  intros (Hr & Hd & Hn). destruct long; simpl; [exists 108|exists c]; (split; [done|]); unfold dec_digit in *; (split; [lia|]); (split; [lia|]); [set_solver by lia|set_solver].
Qed.

Lemma from_precision_head p long c rest : letter_ok c -> exists h, head (from_precision p long c ++ rest) = Some h /\ 0 < h < 128 /\ ~ dec_digit h /\ h ∉ [32; 43].
Proof.
  intros Hc. destruct p as [ds|]; [exists 46; unfold dec_digit; simpl; (split; [done|]); (split; [lia|]); (split; [lia|]); set_solver by lia|].
  destruct (from_letter_head long c rest Hc) as (h & E & H1 & H2 & H3). exists h. unfold from_precision. simpl. set_solver.
Qed.

Lemma flags_loop_ok fl : forall fuel m f acc rest, Forall (fun c => c ∈ [48; 43; 32]) fl -> cstr m f (fl ++ rest) ->
  (forall h, head rest = Some h -> h ∉ [48; 43; 32]) -> (length fl < fuel)%nat ->
  exists flags, flags_loop fuel m f acc = Ok (f + Z.of_nat (length fl), flags).
Proof.
  induction fl as [|c fl IH]; intros [|fuel] m f acc rest Hfl Hc Hn Hf; cbn [length] in Hf; try lia; cbn [flags_loop].
  - cbn [app] in Hc. pose proof (cstr_first _ _ _ Hc) as E. exists acc. cbn [length]. rewrite Z.add_0_r. destruct rest as [|h rest]; cbn in E; rewrite E; [done|].
    specialize (Hn h eq_refl). rewrite !not_elem_of_cons in Hn. destruct Hn as (H1 & H2 & H3 & _).
    by rewrite (proj2 (Z.eqb_neq _ _) H1), (proj2 (Z.eqb_neq _ _) H2), (proj2 (Z.eqb_neq _ _) H3).
  - inversion_clear Hfl as [|? ? Hh Hfl']. cbn [app] in Hc. apply cstr_cons in Hc as (E & _ & Hc). rewrite E.
    replace (f + Z.of_nat (length (c :: fl))) with (f + 1 + Z.of_nat (length fl)) by (cbn [length]; lia).
    rewrite !elem_of_cons in Hh. destruct Hh as [->|[->|[->|Hh]]]; cbn [Z.eqb Pos.eqb]; [by eapply IH; eauto; lia..|set_solver].
Qed.

(** Digits followed by something else. *)
Lemma scan_digits fuel m f ds rest h res : Forall dec_digit ds -> cstr m f (ds ++ rest) -> head rest = Some h -> 0 < h < 128 -> ~ dec_digit h ->
  dval 10 0 ds < 2 ^ 32 -> (length ds < fuel)%nat ->
  exists v, sscan_uint fuel m f res 10 = Ok (f + Z.of_nat (length ds), v) /\ (ds <> [] -> v = dval 10 0 ds).
Proof.
  intros Hd Hc Hh Hr Hn Hv Hf. unfold sscan_uint.
  rewrite (sscan_loop_dig 10 ds ltac:(lia) (dec_digit_dig ds Hd) fuel m f 0); [|destruct Hc as [Hc _]; rewrite <- app_assoc in Hc; by apply bytes_at_app in Hc as [? _]| |lia|done|done].
  - cbn [rbind fst snd]. eexists. split; [done|]. intros Hne. destruct ds; [done|]. by rewrite (proj2 (Z.eqb_neq _ _)) by (cbn [length]; lia).
  - apply cstr_suffix in Hc. unfold chr. rewrite (cstr_first _ _ _ Hc), Hh. by apply char_class.
Qed.

(** The width, precision and letter of a conversion are found. *)
Lemma width_parses fuel m f width p long c rest : Forall dec_digit width -> head width <> Some 48 -> dval 10 0 width <= 32 -> letter_ok c ->
  cstr m f (width ++ from_precision p long c ++ rest) -> (length width < fuel)%nat ->
  exists d w, isdigit (chr m f) = Some d /\ w <= 32 /\
    (if negb (d =? 0) then r <-! sscan_uint fuel m f 0 10; Ok (r.1, s32 r.2) else Ok (f, 0)) = Ok (f + Z.of_nat (length width), w).
Proof.
  intros Hw Hn Hv Hl Hc Hf. destruct (from_precision_head p long c rest Hl) as (h & Eh & Hr & Hd & _).
  unfold chr. rewrite (cstr_first _ _ _ Hc). destruct width as [|b width].
  - cbn [app]. rewrite Eh. exists 0, 0. destruct (char_class h Hr) as [E _]. rewrite (bool_decide_eq_false_2 _ Hd) in E.
    split; [exact E|]. split; [lia|]. cbn [Z.eqb negb length]. by rewrite Z.add_0_r.
  - exists 8, (dval 10 0 (b :: width)). inversion Hw as [|? ? Hb Hw']; subst. cbn [app head default from_option id].
    assert (Hb' : 0 < b < 128) by (unfold dec_digit in Hb; lia). destruct (char_class b Hb') as [E _]. rewrite (bool_decide_eq_true_2 _ Hb) in E.
    split; [exact E|]. split; [done|]. cbn [Z.eqb negb].
    destruct (scan_digits fuel m f (b :: width) _ h 0 Hw Hc Eh Hr Hd ltac:(lia) Hf) as (v & -> & Ev). cbn [rbind fst snd]. rewrite Ev by done.
    assert (0 <= dval 10 0 (b :: width)) by (apply (dval_ge 10); [lia|by apply dec_digit_dig|lia]). by rewrite s32_small by (unfold in_s32; lia).
Qed.

Lemma precision_parses fuel m f p long c rest : (match p with Some ds => Forall dec_digit ds /\ dval 10 0 ds < 2 ^ 32 | None => True end) -> letter_ok c ->
  cstr m f (from_precision p long c ++ rest) -> (length (from_precision p long c) < fuel)%nat ->
  exists prec, (if ldb m f =? 46 then sscan_int fuel m (f + 1) 0 10 else Ok (f, 0)) = Ok (f + Z.of_nat (match p with Some ds => S (length ds) | None => 0%nat end), prec).
Proof.
  intros Hp Hl Hc Hf. destruct (from_letter_head long c rest Hl) as (h & Eh & Hr & Hd & Hn). unfold from_precision in *.
  destruct p as [ds|]; cbn [app] in Hc.
  - apply cstr_cons in Hc as (E & _ & Hc). rewrite E. cbn [Z.eqb Pos.eqb]. destruct Hp as [Hds Hv]. rewrite <- app_assoc in Hc. unfold sscan_int.
    assert (Es : exists b, ldb m (f + 1) = b /\ 0 < b < 128 /\ b <> 45 /\ b <> 43).
    { rewrite (cstr_first _ _ _ Hc). destruct ds as [|d ds]; cbn [app]; [rewrite Eh; exists h; set_solver|]. exists d. inversion Hds as [|? ? Hdd ?]; subst. unfold dec_digit in Hdd. split; [done|lia]. }
    destruct Es as (b & Eb & Hb & H1 & H2). unfold chr. rewrite Eb, small_char, (proj2 (Z.eqb_neq _ _) H1), (proj2 (Z.eqb_neq _ _) H2) by done.
    destruct (scan_digits fuel m (f + 1) ds _ h (u32 0) Hds Hc Eh Hr Hd Hv) as (v & -> & _); [rewrite length_app in Hf; cbn [length] in Hf; lia|].
    cbn [rbind fst snd]. eexists. f_equal. f_equal. lia.
  - rewrite (cstr_first _ _ _ Hc), Eh. cbn [default from_option id]. assert (h <> 46) by set_solver. rewrite (proj2 (Z.eqb_neq h 46)) by done. exists 0. cbn. by rewrite Z.add_0_r.
Qed.

Lemma conversion_parses fuel m f s end_ ap flags width p long c arg lo hi rest :
  item_ok m lo hi fuel (Conv flags width p long c arg) ->
  cstr m f (item_text (Conv flags width p long c arg) ++ rest) -> (length (item_text (Conv flags width p long c arg)) < fuel)%nat ->
  exists fl prec w fc, w <= 32 /\ ldb m fc = c /\ fc + 1 = f + Z.of_nat (length (item_text (Conv flags width p long c arg))) /\
    conversion fuel m (f + 1) s end_ ap = (r <-! specifier fuel m fc s end_ fl prec w ap; Ok (r, fc + 1)).
Proof.
  intros (Hfl & Hw & Hn & Hv & Hp & Hl & Harg) Hc Hf. cbn [item_text app length] in *. rewrite <- !app_assoc in Hc. rewrite !length_app in *.
  apply cstr_cons in Hc as (_ & _ & Hc). destruct (from_precision_head p long c rest Hl) as (h & Eh & Hr & Hd & Hnn).
  destruct (flags_loop_ok flags fuel m (f + 1) 0 _ Hfl Hc) as [fl Efl]; [|lia|].
  { intros b Hb. destruct width as [|b' width]; cbn in Hb; [rewrite Eh in Hb; injection Hb as <-; unfold dec_digit in Hd; rewrite !not_elem_of_cons in *; split_and!; try lia; set_solver|].
    injection Hb as ->. inversion Hw as [|? ? Hb ?]; subst. unfold dec_digit in Hb. cbn in Hn. rewrite !not_elem_of_cons. split_and!; try lia; [congruence|set_solver]. }
  apply cstr_suffix in Hc. destruct (width_parses fuel m _ width p long c rest Hw Hn Hv Hl Hc ltac:(lia)) as (d & w & Ed & Hw32 & Ew).
  apply cstr_suffix in Hc. destruct (precision_parses fuel m _ p long c rest Hp Hl Hc ltac:(lia)) as [prec Eprec].
  unfold conversion. rewrite Efl. cbn [rbind]. rewrite Ed. cbn [of_opt rbind]. rewrite Ew. cbn [rbind]. rewrite Eprec. cbn [rbind].
  set (f3 := f + 1 + _ + _ + _). assert (Hc3 : cstr m f3 (from_letter long c ++ rest)).
  { unfold f3, from_precision in *. rewrite <- app_assoc in Hc. apply cstr_suffix in Hc. by destruct p. }
  exists fl, prec, w, (if ldb m f3 =? 108 then f3 + 1 else f3). split; [done|].
  destruct Hl as (_ & _ & Hl). rewrite (cstr_first _ _ _ Hc3).
  assert (Hlen : length (from_precision p long c) = (match p with Some ds => S (length ds) | None => 0 end + length (from_letter long c))%nat) by (unfold from_precision; rewrite length_app; by destruct p).
  destruct long; unfold from_letter in Hc3, Hlen; cbn in Hc3, Hlen; cbn [app head from_letter default from_option id].
  - cbn [Z.eqb Pos.eqb]. apply cstr_cons in Hc3 as (_ & _ & Hc3). apply cstr_cons in Hc3 as (E3 & _). split; [done|]. split; [unfold f3; lia|done].
  - assert (c <> 108) by set_solver. rewrite (proj2 (Z.eqb_neq c 108)) by done. apply cstr_cons in Hc3 as (E3 & _). split; [done|]. split; [unfold f3; lia|done].
Qed.

Section Returns.
Context (m0 : mem) (str end_ : Z) (Hstr : 0 < str) (Hend : str <= end_).

Lemma specifier_returns fuel m fc s flags prec w c arg ap : arg_ok m0 str end_ fuel c arg -> ldb m fc = c -> w <= 32 -> str <= s <= end_ -> only_in str (end_ + 1) m0 m ->
  exists m' e, specifier fuel m fc s end_ flags prec w (arg ++ ap) = Ok (m', e, ap).
Proof using Hstr Hend.
  intros Ha Ec Hw Hs Hm.
  assert (Hu : forall m s x base flags p, 2 <= base <= 36 -> snprint_uint m s end_ (u32 x) base flags p w = Ok (emit (uint_text (u32 x) base flags w) m s end_)) by (intros; apply snprint_uint_ok; [done|apply u32_range|done]).
  unfold specifier. rewrite Ec. destruct Ha as [c v Hc|p t Hp Hl Hd|i f Hi Hf|c Hc].
  - rewrite !elem_of_cons in Hc. destruct Hc as [->|[->|[->|[->|[->|Hc]]]]]; cbn [Z.eqb Pos.eqb orb next_word app rbind fst snd]; [..|set_solver]; rewrite ?Hu by lia; cbn [rbind]; try (destruct (emit _ _ _ _); by eauto);
      unfold snprint_int; (destruct (_ && _); [cbn [rbind]; by eauto|]); (destruct (_ <? 0); [|destruct (negb _); [|destruct (negb _)]]); rewrite Hu by lia; cbn [rbind]; destruct (emit _ _ _ _); by eauto.
  - cbn [Z.eqb Pos.eqb orb next_word app rbind fst snd]. destruct (copy_str_wrote m0 str end_ Hstr Hend t fuel m p s Hs Hm Hp Hd Hl) as (m' & e & -> & _). cbn [rbind]. by eauto.
  - cbn [Z.eqb Pos.eqb orb next_double app rbind]. rewrite (snprint_uint_ok m s end_ i 10 flags 0 0) by (done || lia). cbn [rbind].
    destruct (emit _ _ _ _) as [m1 s1]. destruct (0 <? f); [|by eauto]. rewrite (snprint_uint_ok _ _ end_ f 10 _ 6 w) by (done || lia). cbn [rbind]. destruct (emit _ _ _ _). by eauto.
  - rewrite !not_elem_of_cons in Hc. destruct Hc as (H1 & H2 & H3 & H4 & H5 & H6 & H7 & _).
    repeat rewrite (proj2 (Z.eqb_neq _ _)) by done. cbn [orb app]. by eauto.
Qed.

Lemma item_ok_ro m fuel i : only_in str (end_ + 1) m0 m -> item_ok m0 str end_ fuel i -> item_ok m str end_ fuel i.
Proof using Hstr Hend.
  intros Hm. destruct i as [c|flags width p long c arg]; cbn [item_ok]; [done|]. intros (H1 & H2 & H3 & H4 & H5 & H6 & Ha). split_and!; try done.
  destruct Ha as [c v Hc|q t Hp Hl Hd|x f Hi Hf|c Hc]; [by constructor| |by constructor|by constructor].
  apply (arg_string m str end_ fuel q t); [by apply (cstr_ro m0 str end_ Hstr Hend)|done|done].
Qed.

Lemma vsnprintf_loop_returns fuel : forall fs n m f s,
  Forall (item_ok m0 str end_ fuel) fs -> (length (format_text fs) < fuel)%nat -> (length fs < n)%nat -> str <= s <= end_ -> only_in str (end_ + 1) m0 m ->
  cstr m0 f (format_text fs) -> (f + Z.of_nat (length (format_text fs)) < str \/ end_ < f) ->
  exists r, vsnprintf_loop n fuel m str f s end_ (format_args fs) = Ok r.
Proof using Hstr Hend.
  induction fs as [|i fs IH]; intros [|n] m f s Hok Hf Hn Hs Hm Hc Hd; cbn [length] in Hn; try lia; cbn [vsnprintf_loop].
  { pose proof (cstr_ro m0 str end_ Hstr Hend m f [] Hm Hd Hc) as Hc0. apply cstr_nil in Hc0. rewrite Hc0. by eexists. }
  inversion Hok as [|? ? Hi Hfs]; subst. change (format_text (i :: fs)) with (item_text i ++ format_text fs) in *. change (format_args (i :: fs)) with (item_args i ++ format_args fs).
  pose proof (cstr_ro m0 str end_ Hstr Hend m f _ Hm Hd Hc) as Hc0. rewrite length_app in Hd, Hf. destruct (ldb m f =? 0) eqn:Ez; [by eexists|].
  destruct (negb (end_ =? 0) && (end_ <=? s)) eqn:Es; [by eexists|]. rewrite (proj2 (Z.eqb_neq end_ 0)) in Es by lia. cbn [negb andb] in Es. apply Z.leb_gt in Es.
  destruct i as [c|flags width p long c arg].
  - cbn [item_text app] in Hc, Hc0. cbn [item_ok] in Hi. apply cstr_cons in Hc0 as (E & Hb & _). rewrite E, (proj2 (Z.eqb_neq c 37)) by done. cbn [negb item_args app].
    apply cstr_cons in Hc as (_ & _ & Hc). cbn [item_text length] in Hd, Hf. apply IH; try done; try lia.
    intros b Hb'. rewrite ldb_stb. case_if; [lia|]. apply Hm. lia.
  - assert (E : ldb m f = 37) by (cbn [item_text app] in Hc0; by apply cstr_cons in Hc0 as (? & _)). rewrite E. cbn [Z.eqb Pos.eqb negb].
    destruct (conversion_parses fuel m f s end_ (item_args (Conv flags width p long c arg) ++ format_args fs) flags width p long c arg str end_ (format_text fs) (item_ok_ro m fuel _ Hm Hi) Hc0 ltac:(lia)) as (fl & prec & w & fc & Hw & Efc & Ef & ->).
    cbn [item_args]. destruct Hi as (_ & _ & _ & _ & _ & _ & Ha).
    destruct (specifier_returns fuel m fc s fl prec w c arg (format_args fs) Ha Efc Hw Hs Hm) as (m' & e & Esp). rewrite Esp. cbn [rbind].
    apply (specifier_step str end_ Hstr Hend) in Esp as [He Ho]; [|lia]. rewrite Ef. apply IH; try done; try lia.
    + intros b Hb'. rewrite Ho by lia. apply Hm. lia.
    + by apply cstr_suffix.
Qed.

End Returns.

(** ** The theorems *)

(** Printing a number and scanning it back gives the number, in every
    base from 2 to 36 and with any zero-padded width up to 32. *)
Theorem print_scan_roundtrip m str x base flags w fuel :
  2 <= base <= 36 -> in_u32 x -> 0 < str -> w <= 32 -> (33 <= fuel)%nat ->
  (Z.land flags ZERO_PADDED <> 0 \/ w <= 1) ->
  exists m' e, snprint_uint m str 0 x base flags 0 w = Ok (m', e) /\
    sscan_uint fuel (stb m' e 0) str 0 base = Ok (e, x).
Proof.
  intros Hb Hx Hs Hw Hf Hz. rewrite snprint_uint_ok by done.
  destruct (uint_digits_ok x base Hb Hx) as (_ & Hd & Hv & Hl).
  set (k := Z.to_nat (w - Z.of_nat (length (uint_digits x base)))).
  assert (Ht : Forall (is_dig base) (uint_text x base flags w) /\ dval base 0 (uint_text x base flags w) = x).
  { unfold uint_text. fold k. destruct Hz as [Hz|Hw1].
    - rewrite (proj2 (Z.eqb_neq _ _) Hz). cbn [negb]. split.
      + apply Forall_app. split; [|done]. apply Forall_replicate. unfold is_dig, unhex. simpl. lia.
      + rewrite dval_app. replace (dval base 0 (replicate k 48)) with 0; [done|].
        clear. induction k as [|k IH]; [done|]. simpl. exact IH.
    - replace k with 0%nat by lia. done. }
  assert (Hlen : (0 < length (uint_text x base flags w) <= 32)%nat).
  { unfold uint_text. rewrite length_app, length_replicate. lia. }
  destruct Ht as [Hdig Hval]. set (t := uint_text x base flags w) in *.
  pose proof (emit_ok t m str 0 Hs ltac:(by left)) as He. destruct (emit t m str 0) as [m' e].
  unfold fit in He. cbn [Z.eqb] in He. destruct He as (-> & Hby & _).
  exists m', (str + Z.of_nat (length t)). split; [done|]. unfold sscan_uint.
  rewrite (sscan_loop_ok base t Hb Hdig fuel).
  - cbn [rbind fst snd]. rewrite (proj2 (Z.eqb_neq _ str)) by lia. by rewrite Hval.
  - eapply bytes_at_ext; [|exact Hby]. intros a Ha. rewrite ldb_stb. case_if; (done || lia).
  - by rewrite ldb_stb, Z.eqb_refl.
  - lia.
  - rewrite Hval. apply Hx.
  - lia.
Qed.

(** C25: on every format made of literal characters and conversions with any
    flags, a width of at most 32, any precision and modifier and any letter,
    with arguments of the kind the letters take (numbers, terminated strings
    outside the buffer, doubles), [vsnprintf] with a non-zero size returns,
    writes only inside the buffer and terminates the text inside it. *)
Theorem vsnprintf_bounded fuel m str size format fs :
  0 < str -> 0 < size -> Forall (item_ok m str (str + size - 1) fuel) fs -> cstr m format (format_text fs) ->
  (format + Z.of_nat (length (format_text fs)) < str \/ str + size - 1 < format) -> (length (format_text fs) < fuel)%nat ->
  exists m' ret, vsnprintf fuel m str size format (format_args fs) = Ok (m', ret) /\
    0 <= ret < size /\ ldb m' (str + ret) = 0 /\ (forall b, b < str \/ str + size <= b -> ldb m' b = ldb m b).
Proof.
  intros Hs Hz Hok Hc Hd Hf. unfold vsnprintf. rewrite (proj2 (Z.eqb_neq size 0)) by lia.
  assert (Hn : (length fs <= length (format_text fs))%nat).
  { clear. induction fs as [|i fs IH]; [done|]. change (format_text (i :: fs)) with (item_text i ++ format_text fs). rewrite length_app. destruct i; cbn [item_text length]; lia. }
  destruct (vsnprintf_loop_returns m str (str + size - 1) Hs ltac:(lia) fuel fs fuel m format str Hok Hf ltac:(lia) ltac:(lia) (only_in_refl _ _ _) Hc Hd) as [[m' ret] E].
  exists m', ret. split; [done|]. apply vsnprintf_loop_bounds in E as (H1 & H2 & H3); try lia. split; [lia|]. split; [done|]. intros b Hb. apply H3. lia.
Qed.

Lemma vsnprintf_pieces fuel m str size format ps :
  0 < str -> 0 < size -> (4 <= fuel)%nat -> (length ps < fuel)%nat ->
  Forall (piece_ok m str (str + size - 1) fuel) ps -> cstr m format (render ps) ->
  (format + Z.of_nat (length (render ps)) < str \/ str + size - 1 < format) ->
  exists m', let t := take (Z.to_nat (size - 1)) (text ps) in
    vsnprintf fuel m str size format (args ps) = Ok (m', Z.of_nat (length t)) /\
    bytes_at m' str (t ++ [0]) /\ (forall b, b < str \/ str + size <= b -> ldb m' b = ldb m b).
Proof.
  intros Hs Hz Hf Hn Hok Hfmt Hd. unfold vsnprintf. rewrite (proj2 (Z.eqb_neq size 0)) by lia.
  destruct (vsnprintf_loop_text m str (str + size - 1) Hs ltac:(lia) fuel Hf ps fuel m format str Hok Hn
              ltac:(lia) (only_in_refl _ _ _) Hfmt Hd) as (m' & -> & Hb & Ho).
  exists m'. unfold fit in *. rewrite (proj2 (Z.eqb_neq (str + size - 1) 0)) in * by lia.
  replace (str + size - 1 - str) with (size - 1) in * by lia. split_and!; [by rewrite Z.sub_diag|done|].
  intros b Hb'. apply Ho. lia.
Qed.

(** C24: on a format made of literals, [%%], [%d], [%u], [%x], [%0wx] and
    [%s], [vsnprintf] returns and the buffer holds the expected text cut to
    [size - 1] bytes, followed by a NUL. *)
Theorem vsnprintf_text fuel m str size format ps :
  0 < str -> 0 < size -> (4 <= fuel)%nat -> (length ps < fuel)%nat ->
  Forall (piece_ok m str (str + size - 1) fuel) ps -> cstr m format (render ps) ->
  (format + Z.of_nat (length (render ps)) < str \/ str + size - 1 < format) ->
  exists m', let t := take (Z.to_nat (size - 1)) (text ps) in
    vsnprintf fuel m str size format (args ps) = Ok (m', Z.of_nat (length t)) /\
    bytes_at m' str (t ++ [0]) /\ (forall b, b < str \/ str + size <= b -> ldb m' b = ldb m b).
Proof. exact (vsnprintf_pieces fuel m str size format ps). Qed.

(** ** Witnesses *)

(** ["x=%d%%"] at 16, printed into 8 bytes at 100. *)
Definition demo_pieces : list piece := [PChar 120; PChar 61; PDec (-42); PPercent].
Definition demo_fmt : mem := put ∅ 16 (render demo_pieces).

Lemma demo_fmt_cstr : cstr demo_fmt 16 (render demo_pieces).
Proof. simpl. repeat (apply cstr_cons; split; [reflexivity|]; split; [lia|]). by apply cstr_nil. Qed.

Lemma vsnprintf_text_witness :
  exists m', let t := [120; 61; 45; 52; 50; 37] in
    vsnprintf 20 demo_fmt 100 8 16 [VaWord (-42)] = Ok (m', 6) /\
    bytes_at m' 100 (t ++ [0]) /\ (forall b, b < 100 \/ 100 + 8 <= b -> ldb m' b = ldb demo_fmt b).
Proof.
  apply (vsnprintf_text 20 demo_fmt 100 8 16 demo_pieces); try lia; try (simpl; lia).
  - repeat constructor; simpl; unfold in_s32; lia.
  - exact demo_fmt_cstr.
Defined.

(** ["[%+08.3ld%s]"] at 16 with -42 and the string "ab" at 40, into 4 bytes at
    100. *)
Definition demo_items : list item := [Lit 91; Conv [43; 48] [56] (Some [51]) true 100 [VaWord (-42)]; Conv [] [] None false 115 [VaWord 40]; Lit 93].
Definition demo_bounded : mem := put (put ∅ 16 (format_text demo_items)) 40 [97; 98].

Lemma vsnprintf_bounded_witness :
  exists m' ret, vsnprintf 20 demo_bounded 100 4 16 [VaWord (-42); VaWord 40] = Ok (m', ret) /\
    0 <= ret < 4 /\ ldb m' (100 + ret) = 0 /\ (forall b, b < 100 \/ 100 + 4 <= b -> ldb m' b = ldb demo_bounded b).
Proof.
  apply (vsnprintf_bounded 20 demo_bounded 100 4 16 demo_items); [lia|lia| |cbn; repeat (apply cstr_cons; split; [reflexivity|]; split; [lia|]); by apply cstr_nil|cbn; lia|cbn; lia].
  unfold demo_items. repeat (apply Forall_cons; split); [done| | |done|constructor]; cbn [item_ok].
  - split; [apply (bool_decide_unpack _); vm_compute; exact I|]. split; [repeat constructor; unfold dec_digit; lia|]. split; [done|]. split; [vm_compute; done|].
    split; [split; [repeat constructor; unfold dec_digit; lia|vm_compute; done]|]. split; [|apply arg_number; apply (bool_decide_unpack _); vm_compute; exact I].
    unfold letter_ok, dec_digit. split; [lia|]. split; [lia|]. apply (bool_decide_unpack _); vm_compute; exact I.
  - split; [done|]. split; [done|]. split; [done|]. split; [vm_compute; done|]. split; [done|]. split.
    + unfold letter_ok, dec_digit. split; [lia|]. split; [lia|]. apply (bool_decide_unpack _); vm_compute; exact I.
    + apply (arg_string _ _ _ _ 40 [97; 98]); [repeat (apply cstr_cons; split; [reflexivity|]; split; [lia|]); by apply cstr_nil|cbn; lia|cbn; lia].
Defined.

(** ** Behaviours outside the specification *)

(** [strtol] multiplies by ten whatever the base. *)
Lemma strtol_base_ignored : strtol 10 (put ∅ 16 [49; 48]) 16 16 = Ok (10, 18, 0).
Proof. vm_compute. done. Qed.

(** [sscan_uint] takes one letter too many: ['G'] is 16 in base 16. *)
Lemma sscan_uint_extra_digit : sscan_uint 10 (put ∅ 16 [71]) 16 0 16 = Ok (17, 16).
Proof. vm_compute. done. Qed.

(** A format that ends in ['%'] is read beyond its terminator: the bytes
    behind it are printed as if they belonged to the format. *)
Lemma trailing_percent :
  match vsnprintf 20 (put (put ∅ 16 [97; 37]) 19 [98; 99]) 100 20 16 [] with
  | Ok (m', ret) => ret = 4 /\ ldb m' 102 = 98 /\ ldb m' 103 = 99
  | _ => False
  end.
Proof. vm_compute. done. Qed.

(** A width above 32 writes outside the digits array. *)
Lemma width_overrun m str end_ x flags : in_u32 x -> snprint_uint m str end_ x 10 flags 0 33 = Fault.
Proof. intros Hx. apply snprint_uint_width; [lia|done|lia]. Qed.

End FMTP.
