(* ===== verification/Time.v ===== *)
(** * Calendar time (lib/c/src/stdtime.c, src/dev/rtc.c)

    Module [TM]: [mktime] and the reading of the real time clock, and the
    theorem that [mktime] counts the seconds of the Gregorian calendar.
    [None] is an access outside a table.  [tm_mon] counts from 1, as the clock
    does. *)

From S2P Require Import Prelude.

Module TM.

Record tm := mk_tm {
  tm_sec : Z; tm_min : Z; tm_hour : Z; tm_mday : Z; tm_mon : Z; tm_year : Z; tm_wday : Z; tm_yday : Z; tm_isdst : Z }.

#[global] Instance tm_eq_dec : EqDecision tm.
Proof. solve_decision. Defined.

(** ** mktime *)

Definition epoch_by_year : list Z :=
  [0; 31536000; 63072000; 94694400; 126230400; 157766400; 189302400; 220924800;
   252460800; 283996800; 315532800; 347155200; 378691200; 410227200; 441763200; 473385600;
   504921600; 536457600; 567993600; 599616000; 631152000; 662688000; 694224000; 725846400;
   757382400; 788918400; 820454400; 852076800; 883612800; 915148800; 946684800; 978307200;
   1009843200; 1041379200; 1072915200; 1104537600; 1136073600; 1167609600; 1199145600; 1230768000;
   1262304000; 1293840000; 1325376000; 1356998400; 1388534400; 1420070400; 1451606400; 1483228800;
   1514764800; 1546300800; 1577836800; 1609459200; 1640995200; 1672531200; 1704067200; 1735689600;
   1767225600; 1798761600; 1830297600; 1861920000; 1893456000; 1924992000; 1956528000; 1988150400;
   2019686400; 2051222400; 2082758400; 2114380800; 2145916800; 2177452800; 2208988800; 2240611200;
   2272147200; 2303683200; 2335219200; 2366841600; 2398377600; 2429913600; 2461449600; 2493072000;
   2524608000; 2556144000; 2587680000; 2619302400; 2650838400; 2682374400; 2713910400; 2745532800;
   2777068800; 2808604800; 2840140800; 2871763200; 2903299200; 2934835200; 2966371200; 2997993600;
   3029529600; 3061065600; 3092601600; 3124224000].

Definition cumul_month_days : list Z := [365; 0; 31; 59; 90; 120; 151; 181; 212; 243; 273; 304; 334].
Definition cumul_month_days_with_leap : list Z := [366; 0; 31; 60; 91; 121; 152; 182; 213; 244; 274; 305; 335].

(** The remainder of C has the sign of the dividend. *)
Definition is_leap_year (year : Z) : bool :=
  if negb (Z.rem year 4 =? 0) then false
  else if Z.rem year 400 =? 0 then true
  else negb (Z.rem year 100 =? 0).

(** [a[i]] of an array. *)
Definition at_index (l : list Z) (i : Z) : option Z := if 0 <=? i then l !! Z.to_nat i else None.

Definition mktime (t : tm) : option Z :=
  let has_leap := is_leap_year (tm_year t) in
  let year := tm_year t - 1970 in
  epoch ← at_index epoch_by_year year;
  days ← at_index (if has_leap then cumul_month_days_with_leap else cumul_month_days) (tm_mon t);
  let days := days + (tm_mday t - 1) in
  let epoch := u32 (epoch + days * 86400) in
  Some (u32 (epoch + (tm_hour t * 3600 + tm_min t * 60 + tm_sec t))).

(** ** The real time clock *)

(** The registers of the clock, read one after the other. *)
Record cmos := mk_cmos { secs : Z; mins : Z; hours : Z; day_of_month : Z; month : Z; year : Z }.

Definition from_bcd (bcd : Z) : Z := u8 (10 * (bcd / 16) + bcd mod 16).

Definition CMOS_B_FMT_NOT_BCD : Z := 4.

Definition convert_from_cmos_fmt (cmos_b : Z) (t : tm) : tm :=
  let t :=
    if Z.land cmos_b CMOS_B_FMT_NOT_BCD =? 0 then
      mk_tm (from_bcd (tm_sec t)) (from_bcd (tm_min t)) (from_bcd (tm_hour t)) (from_bcd (tm_mday t)) (from_bcd (tm_mon t)) (from_bcd (tm_year t))
            (tm_wday t) (tm_yday t) (tm_isdst t)
    else t in
  mk_tm (tm_sec t) (tm_min t) (tm_hour t) (tm_mday t) (tm_mon t) (tm_year t + (if 70 <=? tm_year t then 1900 else 2000))
        (tm_wday t) (tm_yday t) (tm_isdst t).

(** The six fields the clock has; the others keep what is in memory. *)
Definition read_fields (t : tm) (c : cmos) : tm :=
  mk_tm (secs c) (mins c) (hours c) (day_of_month c) (month c) (year c) (tm_wday t) (tm_yday t) (tm_isdst t).

(** The loop over pairs of readings; [local] is the variable [time], [ymd] the
    caller's structure.  [None] when it still loops after the last reading. *)
Fixpoint rtc_loop (reads : list (cmos * cmos)) (local ymd : tm) : option tm :=
  match reads with
  | [] => None
  | (a, b) :: reads =>
      let local := read_fields local a in
      let ymd := read_fields ymd b in
      if bool_decide (local = ymd) then rtc_loop reads local ymd else Some ymd
  end.

Definition time_ymd_from_rtc (reads : list (cmos * cmos)) (cmos_b : Z) (local ymd : tm) : option tm :=
  ymd ← rtc_loop reads local ymd; Some (convert_from_cmos_fmt cmos_b ymd).

Definition unix_time (reads : list (cmos * cmos)) (cmos_b : Z) (local ymd : tm) : option Z :=
  t ← time_ymd_from_rtc reads cmos_b local ymd; mktime t.

(** ** The calendar *)

Definition leap (y : Z) : bool := (y mod 4 =? 0) && (negb (y mod 100 =? 0) || (y mod 400 =? 0)).

Definition mdays (y m : Z) : Z :=
  if m =? 2 then (if leap y then 29 else 28)
  else if (m =? 4) || (m =? 6) || (m =? 9) || (m =? 11) then 30 else 31.

(** One second later. *)
Definition next_second (t : tm) : tm :=
  let upd s mi h d mo y := mk_tm s mi h d mo y (tm_wday t) (tm_yday t) (tm_isdst t) in
  if tm_sec t <? 59 then upd (tm_sec t + 1) (tm_min t) (tm_hour t) (tm_mday t) (tm_mon t) (tm_year t)
  else if tm_min t <? 59 then upd 0 (tm_min t + 1) (tm_hour t) (tm_mday t) (tm_mon t) (tm_year t)
  else if tm_hour t <? 23 then upd 0 0 (tm_hour t + 1) (tm_mday t) (tm_mon t) (tm_year t)
  else if tm_mday t <? mdays (tm_year t) (tm_mon t) then upd 0 0 0 (tm_mday t + 1) (tm_mon t) (tm_year t)
  else if tm_mon t <? 12 then upd 0 0 0 1 (tm_mon t + 1) (tm_year t)
  else upd 0 0 0 1 1 (tm_year t + 1).

Definition epoch0 : tm := mk_tm 0 0 0 1 1 1970 0 0 0.

Definition valid_tm (t : tm) : bool :=
  (0 <=? tm_sec t) && (tm_sec t <=? 59) && (0 <=? tm_min t) && (tm_min t <=? 59) && (0 <=? tm_hour t) && (tm_hour t <=? 23) &&
  (1 <=? tm_mday t) && (tm_mday t <=? mdays (tm_year t) (tm_mon t)) && (1 <=? tm_mon t) && (tm_mon t <=? 12) &&
  (1970 <=? tm_year t) && (tm_year t <=? 2069).

(** Seconds before the first of the month, in a form without tables. *)
Definition month_start (y m : Z) : option Z :=
  e ← at_index epoch_by_year (y - 1970);
  d ← at_index (if is_leap_year y then cumul_month_days_with_leap else cumul_month_days) m;
  Some (e + 86400 * d).

(** The tables against the calendar, entry by entry. *)
Definition tables_ok : bool :=
  bool_decide (month_start 1970 1 = Some 0) &&
  forallb (fun y => forallb (fun m =>
      match month_start y m with
      | None => false
      | Some s =>
          (0 <=? s) && (s + 86400 * mdays y m <? 2 ^ 32) && (1 <=? mdays y m) &&
          (if m <? 12 then bool_decide (month_start y (m + 1) = Some (s + 86400 * mdays y m))
           else (y =? 2069) || bool_decide (month_start (y + 1) 1 = Some (s + 86400 * mdays y m)))
      end) (seqZ 1 12)) (seqZ 1970 100).

Lemma tables_check : tables_ok = true.
Proof. by vm_compute. Qed.

Lemma month_step y m : 1970 <= y <= 2069 -> 1 <= m <= 12 ->
  exists s, month_start y m = Some s /\ 0 <= s /\ s + 86400 * mdays y m < 2 ^ 32 /\
    (m < 12 -> month_start y (m + 1) = Some (s + 86400 * mdays y m)) /\
    (m = 12 -> y < 2069 -> month_start (y + 1) 1 = Some (s + 86400 * mdays y m)).
Proof.
  intros Hy Hm. pose proof tables_check as H. unfold tables_ok in H. apply andb_true_iff in H as [_ H].
  rewrite forallb_forall in H. specialize (H y). rewrite <- list_elem_of_In, elem_of_seqZ in H. specialize (H ltac:(lia)).
  rewrite forallb_forall in H. specialize (H m). rewrite <- list_elem_of_In, elem_of_seqZ in H. specialize (H ltac:(lia)).
  destruct (month_start y m) as [s|]; [|done]. exists s. split; [done|]. rewrite !andb_true_iff in H. destruct H as [[[H1 H2] H3] H4].
  apply Z.leb_le in H1, H3. apply Z.ltb_lt in H2. split_and!; [done|done| |].
  - intros Hlt. rewrite (proj2 (Z.ltb_lt m 12)) in H4 by done. by apply bool_decide_eq_true in H4.
  - intros -> Hlt. rewrite Z.ltb_irrefl in H4. rewrite (proj2 (Z.eqb_neq y 2069)) in H4 by lia. by apply bool_decide_eq_true in H4.
Qed.

(** [mktime] in terms of the start of the month. *)
Lemma mktime_value t : valid_tm t = true ->
  exists s, month_start (tm_year t) (tm_mon t) = Some s /\
    mktime t = Some (s + 86400 * (tm_mday t - 1) + tm_hour t * 3600 + tm_min t * 60 + tm_sec t).
Proof.
  unfold valid_tm. rewrite !andb_true_iff, !Z.leb_le. intros Hv.
  destruct (month_step (tm_year t) (tm_mon t)) as (s & Es & Hs0 & Hs1 & _); [lia|lia|]. exists s. split; [done|].
  unfold month_start in Es. unfold mktime. cbv zeta.
  destruct (at_index epoch_by_year (tm_year t - 1970)) as [e|]; [|done]. cbn [mbind option_bind] in *.
  destruct (at_index _ (tm_mon t)) as [d|]; [|done]. cbn [mbind option_bind] in *. injection Es as <-. f_equal.
  change (2 ^ 32) with 4294967296 in *. rewrite !u32_small by (unfold in_u32; change (2 ^ 32) with 4294967296; try rewrite u32_small; unfold in_u32; change (2 ^ 32) with 4294967296; lia). lia.
Qed.

Lemma mdays_pos y m : 28 <= mdays y m.
Proof. unfold mdays. repeat case_match; lia. Qed.

(** The second after a valid time is valid, up to the end of the table. *)
Lemma next_valid t : valid_tm t = true -> tm_year (next_second t) <= 2069 -> valid_tm (next_second t) = true.
Proof.
  unfold valid_tm. rewrite !andb_true_iff, !Z.leb_le. intros Hv Hy. revert Hy. pose proof (mdays_pos (tm_year t) (tm_mon t)).
  pose proof (mdays_pos (tm_year t) (tm_mon t + 1)). pose proof (mdays_pos (tm_year t + 1) 1).
  unfold next_second. repeat case_match; simpl; intros Hy; try (apply Z.ltb_lt in H2); split_and!; lia.
Qed.

Lemma next_second_counts t : valid_tm t = true -> tm_year (next_second t) <= 2069 ->
  exists n, mktime t = Some n /\ mktime (next_second t) = Some (n + 1).
Proof.
  intros Hv Hy. pose proof (next_valid t Hv Hy) as Hv'.
  destruct (mktime_value t Hv) as (s & Es & ->). destruct (mktime_value _ Hv') as (s' & Es' & ->).
  eexists. split; [done|]. f_equal. unfold valid_tm in Hv. rewrite !andb_true_iff, !Z.leb_le in Hv.
  destruct (month_step (tm_year t) (tm_mon t)) as (s1 & E1 & _ & _ & Hm & Hyr); [lia|lia|]. rewrite Es in E1. injection E1 as <-.
  unfold next_second in *.
  destruct (Z.ltb_spec (tm_sec t) 59); simpl in *; [assert (s' = s) by congruence; lia|].
  destruct (Z.ltb_spec (tm_min t) 59); simpl in *; [assert (s' = s) by congruence; lia|].
  destruct (Z.ltb_spec (tm_hour t) 23); simpl in *; [assert (s' = s) by congruence; lia|].
  destruct (Z.ltb_spec (tm_mday t) (mdays (tm_year t) (tm_mon t))); simpl in *; [assert (s' = s) by congruence; lia|].
  destruct (Z.ltb_spec (tm_mon t) 12); simpl in *; [rewrite Hm in Es' by lia|rewrite Hyr in Es' by lia]; injection Es' as <-; lia.
Qed.

(** The time [n] seconds after the start of 1970. *)
Definition calendar (n : nat) : tm := Nat.iter n next_second epoch0.

Lemma next_year_mono t : tm_year t <= tm_year (next_second t).
Proof. unfold next_second. repeat case_match; simpl; lia. Qed.

Lemma calendar_mono n k : tm_year (calendar n) <= tm_year (calendar (n + k)).
Proof.
  induction k as [|k IH]; [by rewrite Nat.add_0_r|]. rewrite Nat.add_succ_r. simpl. pose proof (next_year_mono (calendar (n + k))). unfold calendar in *. lia.
Qed.

(** C33: [mktime] is the inverse of the calendar.  For every number of seconds
    up to the end of 2069, the date and time that the Gregorian calendar shows
    after that many seconds from the start of 1970, with its leap years, is
    valid, and [mktime] gives the number back. *)
Theorem mktime_counts_seconds n :
  tm_year (calendar n) <= 2069 -> valid_tm (calendar n) = true /\ mktime (calendar n) = Some (Z.of_nat n).
Proof.
  induction n as [|n IH]; intros Hy; [by vm_compute|].
  destruct IH as [Hv Hm]; [pose proof (calendar_mono n 1) as Hm; rewrite Nat.add_1_r in Hm; lia|].
  change (calendar (S n)) with (next_second (calendar n)) in *. split; [by apply next_valid|].
  destruct (next_second_counts _ Hv Hy) as (k & E1 & ->). rewrite Hm in E1. injection E1 as <-. f_equal. lia.
Qed.

Lemma mktime_counts_seconds_witness :
  valid_tm (calendar 100) = true /\ mktime (calendar 100) = Some 100.
Proof. apply (mktime_counts_seconds 100). vm_compute. discriminate. Defined.

(** A day of 2024 after the end of February. *)
Example leap_day_2024 : mktime (mk_tm 0 0 0 1 3 2024 0 0 0) = Some 1709251200.
Proof. by vm_compute. Qed.

(** A register of the clock in binary-coded decimal. *)
Lemma from_bcd_digits hi lo : 0 <= hi <= 9 -> 0 <= lo <= 9 -> from_bcd (16 * hi + lo) = 10 * hi + lo.
Proof. intros. unfold from_bcd. rewrite u8_small; unfold in_u8; zlia. Qed.

(** ** Defects the model shows *)

(** Two equal readings, as they should be, make the clock be read again, for
    ever; the loop ends only when the structures differ. *)
Lemma rtc_rereads_equal reads local :
  Forall (fun r => r.1 = r.2) reads -> rtc_loop reads local local = None.
Proof.
  revert local. induction reads as [|[a b] reads IH]; intros local Hf; [done|]. inversion Hf as [|? ? E Hf']; subst. simpl in *. subst b.
  rewrite bool_decide_true by done. by apply IH.
Qed.

End TM.
