(* ===== verification/CrcProofs.v ===== *)
(** * Correctness of CRC-32

    Module [CRCP]: the division by the polynomial, one bit at a time, with the
    register in either bit order, and the proof that the table does eight bits
    at once. *)

From S2P Require Import Prelude Crc.
Import CRC.

Module CRCP.

(** ** Bit by bit *)

Definition POLY : Z := 79764919.
Definition RPOLY : Z := 3988292384.

(** A zero bit enters at the low end of the register; a one that leaves it at the high end
    subtracts the polynomial. *)
Definition shift1 (x : Z) : Z := Z.lxor (u32 (2 * x)) (if Z.testbit x 31 then POLY else 0).

(** The definition of IEEE 802.3: the register holds the remainder with the bits
    reversed, data bits are taken from the low end of each byte. *)
Definition ref_bit (x : Z) (bit : bool) : Z :=
  let x := Z.lxor x (Z.b2z bit) in Z.lxor (Z.shiftr x 1) (if Z.testbit x 0 then RPOLY else 0).

Definition ref_byte (x b : Z) : Z := foldl ref_bit x ((fun i => Z.testbit b (Z.of_nat i)) <$> seq 0 8).

Definition ref_crc32 (data : list Z) : Z := Z.lxor (foldl ref_byte 4294967295 data) 4294967295.

Example check_value : ref_crc32 [49; 50; 51; 52; 53; 54; 55; 56; 57] = 3421780262.
Proof. by vm_compute. Qed.

(** ** Bits of 32-bit words *)

Lemma bits32_eq x y : in_u32 x -> in_u32 y -> (forall i, 0 <= i < 32 -> Z.testbit x i = Z.testbit y i) -> x = y.
Proof.
  intros Hx Hy H. apply Z.bits_inj'. intros i Hi. destruct (Z_lt_dec i 32); [by apply H|]. by rewrite !testbit_u32_high by (done || lia).
Qed.

Lemma u32_bit x i : 0 <= i < 32 -> Z.testbit (u32 x) i = Z.testbit x i.
Proof. intros Hi. unfold u32. by rewrite Z.mod_pow2_bits_low by lia. Qed.

Lemma u32_bit_high x i : 32 <= i -> Z.testbit (u32 x) i = false.
Proof. intros Hi. apply testbit_u32_high; [apply u32_range|done]. Qed.

Lemma lxor_u32 x y : in_u32 x -> in_u32 y -> in_u32 (Z.lxor x y).
Proof.
  intros Hx Hy. assert (E : u32 (Z.lxor x y) = Z.lxor x y); [|rewrite <- E; apply u32_range].
  apply Z.bits_inj'. intros i Hi. destruct (Z_lt_dec i 32); [by apply u32_bit|].
  by rewrite u32_bit_high, Z.lxor_spec, !testbit_u32_high by (done || lia).
Qed.

Lemma shift1_u32 x : in_u32 (shift1 x).
Proof. apply lxor_u32; [apply u32_range|]. by case_match. Qed.

Lemma double_bit x i : 0 <= i -> Z.testbit (2 * x) i = if i =? 0 then false else Z.testbit x (i - 1).
Proof.
  intros Hi. destruct (Z.eqb_spec i 0) as [->|Hne]; [apply Z.testbit_even_0|].
  replace i with (Z.succ (i - 1)) at 1 by lia. by rewrite Z.testbit_even_succ by lia.
Qed.

Lemma shift1_bit x i : 0 <= i < 32 ->
  Z.testbit (shift1 x) i = xorb (if i =? 0 then false else Z.testbit x (i - 1)) (Z.testbit x 31 && Z.testbit POLY i).
Proof.
  intros Hi. unfold shift1. rewrite Z.lxor_spec, u32_bit, double_bit by lia. f_equal. destruct (Z.testbit x 31); [done|apply Z.testbit_0_l].
Qed.

Lemma shift1_lxor x y : shift1 (Z.lxor x y) = Z.lxor (shift1 x) (shift1 y).
Proof.
  apply bits32_eq; [apply shift1_u32|apply lxor_u32; apply shift1_u32|]. intros i Hi.
  rewrite Z.lxor_spec, !shift1_bit, !Z.lxor_spec by done. destruct (i =? 0), (Z.testbit x 31), (Z.testbit y 31), (Z.testbit POLY i);
  try destruct (Z.testbit x (i - 1)); try destruct (Z.testbit y (i - 1)); done.
Qed.

Definition shift8 (x : Z) : Z := Nat.iter 8 shift1 x.

Lemma shift8_lxor x y : shift8 (Z.lxor x y) = Z.lxor (shift8 x) (shift8 y).
Proof. unfold shift8. simpl. by rewrite !shift1_lxor. Qed.

Lemma shift1_small x k : 0 <= k <= 31 -> 0 <= x < 2 ^ k -> shift1 x = 2 * x.
Proof.
  intros Hk Hx. assert (2 ^ k <= 2 ^ 31) by (apply Z.pow_le_mono_r; lia). assert (Hb : Z.testbit x 31 = false).
  { rewrite <- (Z.mod_small x (2 ^ 31)) by lia. apply Z.mod_pow2_bits_high. lia. }
  unfold shift1. rewrite Hb, Z.lxor_0_r, u32_small; [done|]. unfold in_u32. change (2 ^ 31) with 2147483648 in *. change (2 ^ 32) with 4294967296. lia.
Qed.

(** The table holds the remainders of the bytes. *)
Definition table_ok : bool := forallb (fun i => bool_decide (table !! Z.to_nat i = Some (shift8 (Z.shiftl i 24)))) (seqZ 0 256).

Lemma table_check : table_ok = true.
Proof. by vm_compute. Qed.

Lemma table_entry i : 0 <= i < 256 -> table !! Z.to_nat i = Some (shift8 (Z.shiftl i 24)).
Proof.
  intros Hi. pose proof table_check as H. unfold table_ok in H. rewrite forallb_forall in H. specialize (H i).
  rewrite <- list_elem_of_In, elem_of_seqZ in H. by apply bool_decide_eq_true in H; [|lia].
Qed.

Lemma shift8_low x : 0 <= x < 2 ^ 24 -> shift8 x = 256 * x.
Proof.
  intros Hx. unfold shift8. change (2 ^ 24) with 16777216 in Hx. simpl.
  rewrite (shift1_small x 24), (shift1_small (2 * x) 25), (shift1_small (2 * (2 * x)) 26), (shift1_small (2 * (2 * (2 * x))) 27),
    (shift1_small (2 * (2 * (2 * (2 * x)))) 28), (shift1_small (2 * (2 * (2 * (2 * (2 * x))))) 29),
    (shift1_small (2 * (2 * (2 * (2 * (2 * (2 * x)))))) 30), (shift1_small (2 * (2 * (2 * (2 * (2 * (2 * (2 * x))))))) 31); simpl; lia.
Qed.

(** The reversal of a byte. *)
Definition rev8 (b : Z) : Z := u8 (Z.lor (Z.shiftl (nibrev (Z.land b 15)) 4) (nibrev (Z.shiftr b 4))).

Lemma rev8_bits b i : 0 <= b < 256 -> (i < 8)%nat -> 0 <= rev8 b < 256 /\ Z.testbit (rev8 b) (7 - Z.of_nat i) = Z.testbit b (Z.of_nat i).
Proof.
  intros Hb Hi. assert (H : forallb (fun b => (0 <=? rev8 b) && (rev8 b <? 256) &&
    forallb (fun i => eqb (Z.testbit (rev8 b) (7 - Z.of_nat i)) (Z.testbit b (Z.of_nat i))) (seq 0 8)) (seqZ 0 256) = true) by (by vm_compute).
  rewrite forallb_forall in H. specialize (H b). rewrite <- list_elem_of_In, elem_of_seqZ in H. specialize (H ltac:(lia)).
  rewrite !andb_true_iff, forallb_forall in H. destruct H as [[H1 H2] H3]. split; [apply Z.leb_le in H1; apply Z.ltb_lt in H2; lia|].
  specialize (H3 i). apply eqb_prop, H3, in_seq. lia.
Qed.

(** Eight bits at once: the byte joins the high end of the register. *)
Lemma crc_byte_shift8 crc b : in_u32 crc -> 0 <= b < 256 -> crc_byte crc b = shift8 (Z.lxor crc (Z.shiftl (rev8 b) 24)).
Proof.
  intros Hc Hb. unfold crc_byte. fold (rev8 b). destruct (rev8_bits b 0 Hb ltac:(lia)) as [Hr _]. unfold in_u32 in Hc. change (2 ^ 32) with 4294967296 in Hc.
  rewrite Z.shiftr_div_pow2, land_ff by lia. change (2 ^ 24) with 16777216.
  set (hi := crc / 16777216). set (lo := crc mod 16777216). assert (Hhi : 0 <= hi < 256) by (unfold hi; zlia). rewrite (Z.mod_small hi) by done.
  assert (Hlo : 0 <= lo < 16777216) by (unfold lo; zlia).
  assert (Hx : 0 <= Z.lxor (rev8 b) hi < 256).
  { assert (E : u8 (Z.lxor (rev8 b) hi) = Z.lxor (rev8 b) hi); [|rewrite <- E; apply u8_range].
    apply Z.bits_inj'. intros i Hi. unfold u8. rewrite Z.lxor_spec. destruct (Z_lt_dec i 8).
    - by rewrite Z.mod_pow2_bits_low, Z.lxor_spec by lia.
    - rewrite Z.mod_pow2_bits_high by lia. rewrite <- (Z.mod_small (rev8 b) (2 ^ 8)), <- (Z.mod_small hi (2 ^ 8)) by done. by rewrite !Z.mod_pow2_bits_high by lia. }
  rewrite table_entry by done. simpl default.
  assert (Ec : crc = Z.lxor lo (Z.shiftl hi 24)).
  { transitivity (Z.lor lo (Z.shiftl hi 24)).
    - rewrite (lor_shiftl_add lo hi 24) by (change (2 ^ 24) with 16777216; lia). unfold lo, hi. change (2 ^ 24) with 16777216. zlia.
    - apply Z.bits_inj'. intros i Hi. rewrite Z.lor_spec, Z.lxor_spec. destruct (Z_lt_dec i 24).
      + rewrite (Z.shiftl_spec_low hi 24) by lia. by destruct (Z.testbit lo i).
      + replace (Z.testbit lo i) with false; [by destruct (Z.testbit _ i)|]. rewrite <- (Z.mod_small lo (2 ^ 24)) by done. by rewrite Z.mod_pow2_bits_high by lia. }
  rewrite Ec at 2. rewrite Z.lxor_assoc, <- Z.shiftl_lxor, (Z.lxor_comm hi), shift8_lxor, Z.lxor_comm. f_equal.
  rewrite shift8_low by done. unfold u32. rewrite Z.shiftl_mul_pow2 by lia. change (2 ^ 8) with 256. change (2 ^ 32) with 4294967296. unfold lo. zlia.
Qed.
(** ** Both bit orders *)

(** A zero bit of the data with the register reversed. *)
Definition rshift1 (x : Z) : Z := Z.lxor (Z.shiftr x 1) (if Z.testbit x 0 then RPOLY else 0).

Lemma rshift1_bit x i : 0 <= i -> Z.testbit (rshift1 x) i = xorb (Z.testbit x (i + 1)) (Z.testbit x 0 && Z.testbit RPOLY i).
Proof.
  intros Hi. unfold rshift1. rewrite Z.lxor_spec, Z.shiftr_spec by done. f_equal. destruct (Z.testbit x 0); [done|apply Z.testbit_0_l].
Qed.

Lemma rshift1_lxor x y : rshift1 (Z.lxor x y) = Z.lxor (rshift1 x) (rshift1 y).
Proof.
  apply Z.bits_inj'. intros i Hi. rewrite Z.lxor_spec, !rshift1_bit, !Z.lxor_spec by done.
  destruct (Z.testbit x (i + 1)), (Z.testbit x 0), (Z.testbit y (i + 1)), (Z.testbit y 0), (Z.testbit RPOLY i); done.
Qed.

Lemma rshift1_even c : rshift1 (2 * c) = c.
Proof.
  unfold rshift1. rewrite Z.testbit_even_0, Z.lxor_0_r, Z.shiftr_div_pow2 by lia. change (2 ^ 1) with 2. rewrite Z.mul_comm. by apply Z.div_mul.
Qed.

(** Data bits can be added to the register all at the start. *)
Lemma ref_bits n : forall x b, 0 <= b < 2 ^ Z.of_nat n ->
  foldl ref_bit x ((fun i => Z.testbit b (Z.of_nat i)) <$> seq 0 n) = Nat.iter n rshift1 (Z.lxor x b).
Proof.
  induction n as [|n IH]; intros x b Hb.
  - simpl in *. replace b with 0 by lia. by rewrite Z.lxor_0_r.
  - rewrite Nat2Z.inj_succ, Z.pow_succ_r in Hb by lia. rewrite Nat.iter_succ_r. simpl seq. rewrite fmap_cons. cbn [foldl].
    assert (E : (fun i => Z.testbit b (Z.of_nat i)) <$> seq 1 n = (fun i => Z.testbit (b / 2) (Z.of_nat i)) <$> seq 0 n).
    { rewrite <- fmap_S_seq, <- list_fmap_compose. apply list_fmap_ext. intros i k _. unfold compose.
      rewrite Nat2Z.inj_succ. change (b / 2) with (b / 2 ^ 1). rewrite <- Z.shiftr_div_pow2, Z.shiftr_spec by lia. done. }
    rewrite E, IH by (clear -Hb; zlia). f_equal. unfold ref_bit. fold (rshift1 (Z.lxor x (Z.b2z (Z.testbit b (Z.of_nat 0))))). change (Z.of_nat 0) with 0.
    rewrite <- (rshift1_even (b / 2)) at 1. rewrite <- rshift1_lxor, Z.lxor_assoc. f_equal. f_equal.
    apply Z.bits_inj'. intros i Hi. rewrite Z.lxor_spec, double_bit by done. destruct (Z.eqb_spec i 0) as [->|Hne].
    + by rewrite xorb_false_r, Z.b2z_bit0.
    + replace (Z.testbit (Z.b2z (Z.testbit b 0)) i) with false
        by (destruct (Z.testbit b 0); simpl Z.b2z; [change 1 with (2 ^ 0); symmetry; apply Z.pow2_bits_false; lia|by rewrite Z.testbit_0_l]).
      change (b / 2) with (b / 2 ^ 1). rewrite <- Z.shiftr_div_pow2, Z.shiftr_spec by lia. simpl. f_equal. lia.
Qed.

(** The same register in the two bit orders. *)
Record mirror (x y : Z) : Prop := {
  mi_x : in_u32 x; mi_y : in_u32 y; mi_bits : forall i, 0 <= i < 32 -> Z.testbit y i = Z.testbit x (31 - i) }.

Lemma mirror_eq x y y' : mirror x y -> mirror x y' -> y = y'.
Proof. intros [_ Hy E] [_ Hy' E']. apply bits32_eq; [done|done|]. intros i Hi. by rewrite E, E'. Qed.

Lemma mirror_lxor x y x' y' : mirror x y -> mirror x' y' -> mirror (Z.lxor x x') (Z.lxor y y').
Proof.
  intros [H1 H2 H3] [H4 H5 H6]. constructor; [by apply lxor_u32|by apply lxor_u32|]. intros i Hi. by rewrite !Z.lxor_spec, H3, H6.
Qed.

Lemma poly_mirror i : 0 <= i < 32 -> Z.testbit RPOLY i = Z.testbit POLY (31 - i).
Proof.
  intros Hi. assert (H : forallb (fun i => eqb (Z.testbit RPOLY i) (Z.testbit POLY (31 - i))) (seqZ 0 32) = true) by (by vm_compute).
  rewrite forallb_forall in H. apply eqb_prop, H. rewrite <- list_elem_of_In, elem_of_seqZ. lia.
Qed.

Lemma mirror_shift1 x y : mirror x y -> mirror (shift1 x) (rshift1 y).
Proof.
  intros [Hx Hy E]. constructor; [apply shift1_u32| |].
  - unfold rshift1. apply lxor_u32; [|by case_match]. unfold in_u32 in *. change (2 ^ 32) with 4294967296 in *. rewrite Z.shiftr_div_pow2 by lia. change (2 ^ 1) with 2. zlia.
  - intros i Hi. rewrite rshift1_bit, shift1_bit, poly_mirror, (E 0) by lia. f_equal.
    destruct (Z.eqb_spec (31 - i) 0) as [Hz|Hz].
    + replace (i + 1) with 32 by lia. by apply testbit_u32_high.
    + rewrite E by lia. f_equal. lia.
Qed.

Lemma mirror_shift n x y : mirror x y -> mirror (Nat.iter n shift1 x) (Nat.iter n rshift1 y).
Proof. intros Hm. induction n as [|n IH]; [done|]. by apply mirror_shift1. Qed.

Lemma mirror_byte b : 0 <= b < 256 -> mirror (Z.shiftl (rev8 b) 24) b.
Proof.
  intros Hb. destruct (rev8_bits b 0 Hb ltac:(lia)) as [Hr _]. constructor.
  - unfold in_u32. rewrite Z.shiftl_mul_pow2 by lia. change (2 ^ 24) with 16777216. change (2 ^ 32) with 4294967296. lia.
  - unfold in_u32. change (2 ^ 32) with 4294967296. lia.
  - intros i Hi. destruct (Z_lt_dec i 8).
    + rewrite Z.shiftl_spec by lia. destruct (rev8_bits b (Z.to_nat i) Hb ltac:(lia)) as [_ E]. rewrite Z2Nat.id in E by lia. rewrite <- E. f_equal. lia.
    + rewrite Z.shiftl_spec_low by lia. rewrite <- (Z.mod_small b (2 ^ 8)) by done. apply Z.mod_pow2_bits_high. lia.
Qed.

Lemma mirror_crc_byte crc y b : mirror crc y -> 0 <= b < 256 -> mirror (crc_byte crc b) (ref_byte y b).
Proof.
  intros Hm Hb. rewrite crc_byte_shift8 by (apply Hm || done). unfold ref_byte. rewrite (ref_bits 8) by done.
  apply (mirror_shift 8), mirror_lxor; [done|by apply mirror_byte].
Qed.

Lemma mirror_crc data : forall crc y, mirror crc y -> Forall (fun b => 0 <= b < 256) data ->
  mirror (digital_update_crc32 crc data) (foldl ref_byte y data).
Proof.
  induction data as [|b data IH]; intros crc y Hm Hf; [done|]. inversion Hf; subst. simpl. apply IH; [|done]. by apply mirror_crc_byte.
Qed.

Lemma mirror_ones : mirror 4294967295 4294967295.
Proof.
  constructor; [done|done|]. intros i Hi. change 4294967295 with (Z.ones 32). by rewrite !Z.ones_spec_low by lia.
Qed.

(** ** The reversal at the end *)

Lemma nibrev_bits n i : 0 <= n < 16 -> 0 <= i < 4 -> Z.testbit (nibrev n) i = Z.testbit n (3 - i).
Proof.
  intros Hn Hi. assert (H : forallb (fun n => forallb (fun i => eqb (Z.testbit (nibrev n) i) (Z.testbit n (3 - i))) (seqZ 0 4)) (seqZ 0 16) = true) by (by vm_compute).
  rewrite forallb_forall in H. specialize (H n). rewrite <- list_elem_of_In, elem_of_seqZ in H. specialize (H ltac:(lia)).
  rewrite forallb_forall in H. apply eqb_prop, H. rewrite <- list_elem_of_In, elem_of_seqZ. lia.
Qed.

Lemma nibrev_range n : 0 <= nibrev n < 16.
Proof.
  unfold nibrev. destruct (nib_reverse !! Z.to_nat n) as [v|] eqn:E; simpl; [|lia].
  assert (H : Forall (fun v => 0 <= v < 16) nib_reverse) by (repeat constructor; lia). by apply (Forall_lookup_1 _ _ _ _ H E).
Qed.

Lemma small_bit x k i : 0 <= x < 2 ^ k -> k <= i -> Z.testbit x i = false.
Proof. intros Hx Hi. destruct (Z_lt_dec k 0); [rewrite Z.pow_neg_r in Hx; lia|]. rewrite <- (Z.mod_small x (2 ^ k)) by done. apply Z.mod_pow2_bits_high. lia. Qed.

Lemma reverse_bits n : forall crc rcrc i, 0 <= i < 32 -> 0 <= crc ->
  Z.testbit (reverse_loop n crc rcrc) i = if i <? 4 * Z.of_nat n then Z.testbit crc (4 * Z.of_nat n - 1 - i) else Z.testbit rcrc (i - 4 * Z.of_nat n).
Proof.
  induction n as [|n IH]; intros crc rcrc i Hi Hc.
  - simpl reverse_loop. rewrite (proj2 (Z.ltb_ge i (4 * Z.of_nat 0))) by lia. f_equal. lia.
  - cbn [reverse_loop]. rewrite IH by (done || (apply Z.shiftr_nonneg; lia)). replace (4 * Z.of_nat (S n)) with (4 * Z.of_nat n + 4) by lia.
    destruct (Z.ltb_spec i (4 * Z.of_nat n)).
    + rewrite (proj2 (Z.ltb_lt i (4 * Z.of_nat n + 4))) by lia. rewrite Z.shiftr_spec by lia. f_equal. lia.
    + rewrite land_15. rewrite Z.lor_spec, u32_bit by lia. destruct (Z.ltb_spec i (4 * Z.of_nat n + 4)).
      * rewrite Z.shiftl_spec_low by lia. simpl. rewrite nibrev_bits by (lia || (apply Z.mod_pos_bound; lia)).
        rewrite <- (Z.mod_pow2_bits_low crc 4) by lia. change (2 ^ 4) with 16. f_equal. lia.
      * rewrite Z.shiftl_spec by lia. pose proof (nibrev_range (crc mod 16)). rewrite (small_bit (nibrev _) 4) by (simpl; lia).
        rewrite orb_false_r. f_equal. lia.
Qed.

Lemma reverse_u32 n crc rcrc : (0 < n)%nat -> in_u32 (reverse_loop n crc rcrc).
Proof.
  revert crc rcrc. induction n as [|n IH]; intros crc rcrc Hn; [lia|]. cbn [reverse_loop]. destruct n as [|n]; [|apply IH; lia].
  simpl reverse_loop. pose proof (nibrev_range (Z.land crc 15)). set (v := nibrev _) in *.
  assert (E : u32 (Z.lor (u32 (Z.shiftl rcrc 4)) v) = Z.lor (u32 (Z.shiftl rcrc 4)) v); [|rewrite <- E; apply u32_range].
  apply Z.bits_inj'. intros i Hi. destruct (Z_lt_dec i 32); [by apply u32_bit|].
  rewrite u32_bit_high, Z.lor_spec, u32_bit_high by lia. symmetry. apply (small_bit v 4); [simpl; lia|lia].
Qed.

(** C32: [ethernet_crc32], with its table of 256 remainders, nibble reversals and
    a register in the other bit order, computes the CRC-32 of IEEE 802.3
    defined one bit at a time, whatever the variable it does not initialise
    holds. *)
Theorem ethernet_crc32_is_crc32 data rcrc :
  Forall (fun b => 0 <= b < 256) data -> ethernet_crc32 rcrc data = ref_crc32 data.
Proof.
  intros Hf. pose proof (mirror_lxor _ _ _ _ (mirror_crc data _ _ mirror_ones Hf) mirror_ones) as Hm. fold (digital_crc32 data) in Hm. fold (ref_crc32 data) in Hm.
  symmetry. apply (mirror_eq (digital_crc32 data)); [done|]. destruct Hm as [Hx _ _]. constructor; [done|apply reverse_u32; lia|].
  intros i Hi. unfold ethernet_crc32. unfold in_u32 in Hx. rewrite reverse_bits by lia. change (4 * Z.of_nat 8) with 32.
  rewrite (proj2 (Z.ltb_lt i 32)) by lia. done.
Qed.

Lemma ethernet_crc32_is_crc32_witness : ethernet_crc32 77 [49; 50; 51; 52; 53; 54; 55; 56; 57] = ref_crc32 [49; 50; 51; 52; 53; 54; 55; 56; 57].
Proof. apply (ethernet_crc32_is_crc32 [49; 50; 51; 52; 53; 54; 55; 56; 57] 77). repeat constructor; lia. Defined.

End CRCP.
