(* ===== verification/BTree.v ===== *)
(** * The inode table of ramfs (src/fs/ramfs.c, the btree functions)

    Module [BT]: the tree that maps inode numbers to inode pointers, its
    operations, and what they do to the map it represents.

    A node has [bt_fanout] children, sub-nodes above level 0 and inode
    pointers at level 0.  [btree_new] may fail for the new root
    ([root_ok = false]); the inner nodes are taken to be allocated, since the
    code does not test them. *)

From S2P Require Import Prelude.

Module BT.

Inductive bnode :=
| BN (bt_level bt_fanout bt_used : Z) (bt_children : list bchild)
with bchild :=
| CNull
| CLeaf (idata : Z)
| CNode (n : bnode).

Definition bt_level (n : bnode) : Z := let 'BN l _ _ _ := n in l.
Definition bt_fanout (n : bnode) : Z := let 'BN _ f _ _ := n in f.
Definition bt_used (n : bnode) : Z := let 'BN _ _ u _ := n in u.
Definition bt_children (n : bnode) : list bchild := let 'BN _ _ _ c := n in c.

Definition is_null (c : bchild) : bool := match c with CNull => true | _ => false end.

Definition btree_new (fanout : Z) : bnode := BN 0 fanout 0 (replicate (Z.to_nat fanout) CNull).

(** [btsize *= fanout], [n] times. *)
Fixpoint mul_loop (n : nat) (size fanout : Z) : Z :=
  match n with O => size | S n => mul_loop n (u32 (size * fanout)) fanout end.

Fixpoint get_loop (lvl : nat) (n : bnode) (fanout btsize index : Z) : bchild :=
  match lvl with
  | O => default CNull (bt_children n !! Z.to_nat index)
  | S lvl =>
      let btsize := btsize / fanout in
      let this_node_index := index / btsize in
      let index := index mod btsize in
      match bt_children n !! Z.to_nat this_node_index with
      | Some (CNode subnode) => get_loop lvl subnode fanout btsize index
      | _ => CNull
      end
  end.

(** The inode pointer at an index, [None] for NULL. *)
Definition btree_get_index (n : bnode) (index : Z) : option Z :=
  let lvl := Z.to_nat (bt_level n) in
  let fanout := bt_fanout n in
  let btsize := mul_loop lvl fanout fanout in
  if btsize <=? index then None
  else match get_loop lvl n fanout btsize index with CLeaf p => Some p | _ => None end.

(** Index of the first NULL child from [i] on. *)
Fixpoint find_null (cs : list bchild) (i : nat) : option nat :=
  match cs with
  | [] => None
  | c :: cs => if is_null c then Some i else find_null cs (S i)
  end.

(** [btree_set_leaf]: the tree and the index, 0 for none.  The sub-nodes are
    searched in order; a sub-node whose own result is 0 may nevertheless have
    taken the pointer in its slot 0. *)
Fixpoint btree_set_leaf (lvl : nat) (n : bnode) (idata : Z) : bnode * Z :=
  let 'BN level fanout used children := n in
  match lvl with
  | O =>
      if used <? fanout then
        match find_null children 0 with
        | Some i => (BN level fanout (used + 1) (<[i := CLeaf idata]> children), Z.of_nat i)
        | None => (n, 0)
        end
      else (n, 0)
  | S lvl' =>
      let fix search (cs : list bchild) (i : Z) : list bchild * Z :=
        match cs with
        | [] => ([], 0)
        | CNode bchild :: cs =>
            let '(bchild, res) := btree_set_leaf lvl' bchild idata in
            if 0 <? res then
              (CNode bchild :: cs, res + i * mul_loop (Z.to_nat level) 1 fanout)
            else
              let '(cs, res) := search cs (i + 1) in (CNode bchild :: cs, res)
        | c :: cs => let '(cs, res) := search cs (i + 1) in (c :: cs, res)
        end in
      let '(children, res) := search children 0 in
      (BN level fanout used children, res)
  end.

(** The chain of new nodes under [new_root[1]]: every one has level 0. *)
Fixpoint new_chain (lvl : nat) (fanout : Z) : bchild :=
  match lvl with
  | O => CNull
  | S O => CNode (btree_new fanout)
  | S lvl =>
      let 'BN l f u cs := btree_new fanout in
      CNode (BN l f (u + 1) (<[0%nat := new_chain lvl fanout]> cs))
  end.

Definition btree_new_leaf (root_ok : bool) (root : bnode) (idata : Z) : bnode * Z :=
  let '(root, res) := btree_set_leaf (Z.to_nat (bt_level root)) root idata in
  if 0 <? res then (root, res)
  else if negb root_ok then (root, 0)
  else
    let lvl := Z.to_nat (bt_level root + 1) in
    let fanout := bt_fanout root in
    let 'BN _ f u cs := btree_new fanout in
    let cs := <[0%nat := CNode root]> cs in
    let cs := <[1%nat := new_chain lvl fanout]> cs in
    (BN (bt_level root + 1) f (u + 2) cs, mul_loop lvl 1 fanout).

(** ** Well-formed trees *)

(** A tree of level [lvl]: [F] children in every node, pointers in the
    leaves, and in every leaf node the count of its used slots; [zero] asks
    that slot 0 of every leaf node is taken. *)
Fixpoint tree_ok (F : Z) (lvl : nat) (n : bnode) : Prop :=
  let 'BN level fanout used cs := n in
  level = Z.of_nat lvl /\ fanout = F /\ Z.of_nat (length cs) = F /\
  match lvl with
  | O => Forall (fun c => match c with CNode _ => False | _ => True end) cs /\
         used = Z.of_nat (length (filter (fun c => is_null c = false) cs)) /\
         exists p cs', cs = CLeaf p :: cs'
  | S lvl => Forall (fun c => match c with CNode n => tree_ok F lvl n | CNull => True | CLeaf _ => False end) cs
  end.

(** The map a tree stands for. *)
Definition lookup (F : Z) (lvl : nat) (n : bnode) (index : Z) : option Z :=
  match get_loop lvl n F (F ^ Z.of_nat (S lvl)) index with CLeaf p => Some p | _ => None end.

Lemma mul_loop_pow n : forall size F,
  0 <= size -> 1 <= F -> size * F ^ Z.of_nat n < 2 ^ 32 -> mul_loop n size F = size * F ^ Z.of_nat n.
Proof.
  induction n as [|n IH]; intros size F Hs HF Hb; simpl mul_loop.
  - rewrite Z.pow_0_r. lia.
  - rewrite Nat2Z.inj_succ, Z.pow_succ_r in * by lia.
    assert (1 <= F ^ Z.of_nat n) by (apply Z.pow_le_mono_r with (b := 0); lia).
    assert (0 <= size * F < 2 ^ 32) by nia.
    rewrite u32_small by (unfold in_u32; lia). rewrite IH; nia.
Qed.

(** [btree_get_index] reads that map for every index below its size. *)
Lemma get_index_lookup F lvl n i :
  tree_ok F lvl n -> 1 <= F -> F ^ Z.of_nat (S lvl) < 2 ^ 32 ->
  btree_get_index n i = if F ^ Z.of_nat (S lvl) <=? i then None else lookup F lvl n i.
Proof.
  intros Hok HF Hb. unfold btree_get_index, lookup.
  assert (bt_level n = Z.of_nat lvl /\ bt_fanout n = F) as [-> ->].
  { destruct n; destruct lvl; simpl in *; tauto. }
  rewrite Nat2Z.id. rewrite Nat2Z.inj_succ, Z.pow_succ_r in * by lia.
  rewrite mul_loop_pow by lia. done.
Qed.

Lemma pow_pos F k : 1 <= F -> 0 < F ^ Z.of_nat k.
Proof. intros. apply Z.pow_pos_nonneg; lia. Qed.

Lemma lookup_S F lvl n index :
  1 <= F ->
  lookup F (S lvl) n index =
  match bt_children n !! Z.to_nat (index / F ^ Z.of_nat (S lvl)) with
  | Some (CNode sub) => lookup F lvl sub (index mod F ^ Z.of_nat (S lvl))
  | _ => None
  end.
Proof.
  intros HF. unfold lookup. cbn [get_loop].
  replace (F ^ Z.of_nat (S (S lvl)) / F) with (F ^ Z.of_nat (S lvl)).
  - by destruct (bt_children n !! _) as [[]|].
  - rewrite (Nat2Z.inj_succ (S lvl)), Z.pow_succ_r by lia. rewrite Z.mul_comm, Z.div_mul; lia.
Qed.

Lemma find_null_some cs : forall i k, find_null cs i = Some k ->
  exists j, k = (i + j)%nat /\ cs !! j = Some CNull /\ forall j', (j' < j)%nat -> exists c, cs !! j' = Some c /\ is_null c = false.
Proof.
  induction cs as [|c cs IH]; intros i k; [done|]. simpl. destruct (is_null c) eqn:Ec.
  - intros [= <-]. exists 0%nat. split_and!; [lia|by destruct c|lia].
  - intros (j & -> & Hj & Hall)%IH. exists (S j). split_and!; [lia|done|].
    intros [|j'] Hj'; [by exists c|]. apply Hall. lia.
Qed.

Lemma find_null_none cs : forall i, find_null cs i = None -> Forall (fun c => is_null c = false) cs.
Proof.
  induction cs as [|c cs IH]; intros i; [constructor|]. simpl. destruct (is_null c) eqn:Ec; [done|].
  intros H. constructor; [done|by eapply IH].
Qed.

(** What one call does to a tree and its map. *)
Definition set_spec (F : Z) (lvl : nat) (n : bnode) (idata : Z) (n' : bnode) (res : Z) : Prop :=
  tree_ok F lvl n' /\
  ((res = 0 /\ n' = n) \/
   (0 < res < F ^ Z.of_nat (S lvl) /\ lookup F lvl n res = None /\ lookup F lvl n' res = Some idata /\
    forall j, 0 <= j < F ^ Z.of_nat (S lvl) -> j <> res -> lookup F lvl n' j = lookup F lvl n j)).

Lemma filter_insert_null (cs : list bchild) i p :
  cs !! i = Some CNull ->
  length (filter (fun c => is_null c = false) (<[i := CLeaf p]> cs)) =
  S (length (filter (fun c => is_null c = false) cs)).
Proof.
  revert i. induction cs as [|c cs IH]; intros [|i] H; try done.
  - injection H as ->. reflexivity.
  - change (<[S i := CLeaf p]> (c :: cs)) with (c :: <[i := CLeaf p]> cs). rewrite !filter_cons.
    destruct (decide (is_null c = false)); simpl; [f_equal|]; by apply IH.
Qed.

Lemma set_leaf_0 F n idata n' res :
  tree_ok F 0 n -> btree_set_leaf 0 n idata = (n', res) -> set_spec F 0 n idata n' res.
Proof.
  destruct n as [level fanout used cs]. intros Hok. pose proof Hok as (El & Ef & Hlen & Hall & Hused & p & cs' & Ecs).
  cbn [btree_set_leaf]. destruct (used <? fanout); [|intros [= <- <-]; split; [done|by left]].
  destruct (find_null cs 0) as [k|] eqn:Ek; [|intros [= <- <-]; split; [done|by left]].
  intros [= <- <-]. apply find_null_some in Ek as (j & Ej & Hj & _). simpl in Ej. subst k.
  assert (0 < Z.of_nat j < F) as Hb.
  { apply lookup_lt_Some in Hj as Hlt. destruct j; [rewrite Ecs in Hj; done|lia]. }
  assert (Hlk : forall c i, lookup F 0 (BN level fanout c cs) i = match cs !! Z.to_nat i with Some (CLeaf q) => Some q | _ => None end).
  { intros c i. unfold lookup. simpl. by destruct (cs !! Z.to_nat i) as [[]|]. }
  split.
  - simpl. rewrite length_insert. split_and!; try done.
    + apply Forall_insert; done.
    + rewrite filter_insert_null by done. lia.
    + rewrite Ecs. destruct j; [lia|]. simpl. eauto.
  - right. change (F ^ Z.of_nat 1) with (F ^ 1). rewrite Z.pow_1_r. split_and!; try lia.
    + rewrite Hlk, Nat2Z.id, Hj. done.
    + unfold lookup. simpl. rewrite Nat2Z.id, list_lookup_insert_eq; [done|]. by eapply lookup_lt_Some.
    + intros i Hi Hne. rewrite Hlk. unfold lookup. simpl. rewrite list_lookup_insert_ne by lia.
      by destruct (cs !! Z.to_nat i) as [[]|].
Qed.

(** The loop over the sub-nodes. *)
Fixpoint search (lvl : nat) (idata step : Z) (cs : list bchild) (i : Z) : list bchild * Z :=
  match cs with
  | [] => ([], 0)
  | CNode n :: cs =>
      let '(n', res) := btree_set_leaf lvl n idata in
      if 0 <? res then (CNode n' :: cs, res + i * step)
      else let '(cs, res) := search lvl idata step cs (i + 1) in (CNode n' :: cs, res)
  | c :: cs => let '(cs, res) := search lvl idata step cs (i + 1) in (c :: cs, res)
  end.

Lemma set_leaf_S lvl level fanout used cs idata :
  btree_set_leaf (S lvl) (BN level fanout used cs) idata =
  let '(cs', res) := search lvl idata (mul_loop (Z.to_nat level) 1 fanout) cs 0 in
  (BN level fanout used cs', res).
Proof.
  cbn [btree_set_leaf]. set (step := mul_loop _ _ _). clearbody step.
  match goal with |- (let '(_, _) := ?f cs 0 in _) = _ =>
    enough (Hs : forall cs i, f cs i = search lvl idata step cs i) by (by rewrite Hs) end.
  clear cs. induction cs as [|[| |n] cs IH]; intros i; simpl; [done|by rewrite IH|by rewrite IH|].
  destruct (btree_set_leaf lvl n idata) as [n' res]. destruct (0 <? res); [done|]. by rewrite IH.
Qed.

Definition child_ok (F : Z) (lvl : nat) (c : bchild) : Prop :=
  match c with CNode n => tree_ok F lvl n | CNull => True | CLeaf _ => False end.

Lemma search_ok F lvl idata step cs :
  (forall n n' res, tree_ok F lvl n -> btree_set_leaf lvl n idata = (n', res) -> set_spec F lvl n idata n' res) ->
  forall i cs' res, Forall (child_ok F lvl) cs -> search lvl idata step cs i = (cs', res) ->
  (res = 0 /\ cs' = cs) \/
  (exists k n n' r, cs !! k = Some (CNode n) /\ cs' = <[k := CNode n']> cs /\ tree_ok F lvl n' /\
     set_spec F lvl n idata n' r /\ 0 < r /\ res = r + (i + Z.of_nat k) * step).
Proof.
  intros IHset. induction cs as [|c cs IH]; intros i cs' res Hall; simpl.
  { intros [= <- <-]. by left. }
  inversion Hall as [|? ? Hc Hcs]; subst.
  assert (Hrec : forall cs1 r1, search lvl idata step cs (i + 1) = (cs1, r1) -> res = r1 -> cs' = c :: cs1 ->
    (res = 0 /\ cs' = c :: cs) \/
    (exists k n n' r, (c :: cs) !! k = Some (CNode n) /\ cs' = <[k := CNode n']> (c :: cs) /\ tree_ok F lvl n' /\
       set_spec F lvl n idata n' r /\ 0 < r /\ res = r + (i + Z.of_nat k) * step)).
  { intros cs1 r1 Hs -> ->. destruct (IH _ _ _ Hcs Hs) as [[-> ->]|(k & n & n' & r & H1 & -> & H3 & H4 & H5 & ->)]; [by left|].
    right. exists (S k), n, n', r. split_and!; try done. f_equal. f_equal. lia. }
  destruct c as [| |n]; [| |].
  - destruct (search lvl idata step cs (i + 1)) as [cs1 r1]. intros [= <- <-]. by eapply Hrec.
  - destruct (search lvl idata step cs (i + 1)) as [cs1 r1]. intros [= <- <-]. by eapply Hrec.
  - destruct (btree_set_leaf lvl n idata) as [n' r] eqn:En.
    pose proof (IHset _ _ _ Hc En) as [Hok' Hsp].
    destruct (Z.ltb_spec 0 r) as [Hr|Hr].
    + intros [= <- <-]. right. exists 0%nat, n, n', r. split_and!; try done. simpl. f_equal. f_equal. lia.
    + destruct Hsp as [[-> ->]|(? & _)]; [|lia].
      destruct (search lvl idata step cs (i + 1)) as [cs1 r1]. intros [= <- <-]. by eapply Hrec.
Qed.

Lemma set_leaf_ok F idata : 2 <= F -> forall lvl n n' res,
  F ^ Z.of_nat (S lvl) < 2 ^ 32 ->
  tree_ok F lvl n -> btree_set_leaf lvl n idata = (n', res) -> set_spec F lvl n idata n' res.
Proof.
  intros HF. induction lvl as [|lvl IH]; intros n n' res Hb Hok; [by apply set_leaf_0|].
  destruct n as [level fanout used cs]. pose proof Hok as (El & Ef & Hlen & Hall). subst level fanout.
  set (P := F ^ Z.of_nat (S lvl)) in *. pose proof (pow_pos F (S lvl) ltac:(lia)) as HP. fold P in HP.
  assert (EP : F ^ Z.of_nat (S (S lvl)) = F * P).
  { rewrite Nat2Z.inj_succ, Z.pow_succ_r by lia. done. }
  rewrite EP in Hb. assert (HPb : P < 2 ^ 32) by nia.
  rewrite set_leaf_S, Nat2Z.id, mul_loop_pow, Z.mul_1_l by (fold P; lia). fold P.
  destruct (search lvl idata P cs 0) as [cs' r0] eqn:Es. intros [= <- <-].
  destruct (search_ok F lvl idata P cs (fun n n' res => IH n n' res HPb) _ _ _ Hall Es)
    as [[-> ->]|(k & n & n' & r & Hk & -> & Hn' & [_ Hsp] & Hr & ->)]; [split; [done|by left]|].
  apply lookup_lt_Some in Hk as Hklt. destruct Hsp as [[-> _]|(Hrb & Hold & Hnew & Hoth)]; [lia|]. fold P in Hrb, Hoth.
  assert (Hdiv : (r + (0 + Z.of_nat k) * P) / P = Z.of_nat k) by (rewrite Z.div_add, Z.div_small; lia).
  assert (Hmod : (r + (0 + Z.of_nat k) * P) mod P = r) by (rewrite Z.mod_add, Z.mod_small; lia).
  split.
  - simpl. rewrite length_insert. split_and!; try done. apply Forall_insert; done.
  - right. rewrite EP. split_and!; [nia|nia| | |].
    + rewrite lookup_S by lia. fold P. rewrite Hdiv, Hmod, Nat2Z.id. simpl. by rewrite Hk.
    + rewrite lookup_S by lia. fold P. rewrite Hdiv, Hmod, Nat2Z.id. simpl. by rewrite list_lookup_insert_eq.
    + intros j Hj Hne. rewrite !lookup_S by lia. fold P. simpl.
      destruct (decide (Z.to_nat (j / P) = k)) as [E|E]; [|by rewrite list_lookup_insert_ne].
      rewrite E, list_lookup_insert_eq, Hk by done. apply Hoth; [apply Z.mod_pos_bound; lia|].
      intros Er. apply Hne. pose proof (Z.div_mod j P ltac:(lia)) as Hdm. pose proof (Z.div_pos j P ltac:(lia) ltac:(lia)).
      rewrite Hdm, Er. replace (j / P) with (Z.of_nat k) by lia. lia.
Qed.

(** A full leaf node is the only reason to fail at level 0. *)
Lemma set_leaf_0_full F n idata n' :
  tree_ok F 0 n -> btree_set_leaf 0 n idata = (n', 0) ->
  forall i, 0 <= i < F -> lookup F 0 n i <> None.
Proof.
  destruct n as [level fanout used cs]. intros (El & Ef & Hlen & Hall & Hused & p & cs' & Ecs).
  cbn [btree_set_leaf].
  assert (Hfull : Forall (fun c => is_null c = false) cs -> forall i, 0 <= i < F -> lookup F 0 (BN level fanout used cs) i <> None).
  { intros Hf i Hi. unfold lookup. simpl.
    destruct (cs !! Z.to_nat i) as [c|] eqn:Ec; [|apply lookup_ge_None in Ec; lia].
    rewrite Forall_lookup in Hf, Hall. specialize (Hf _ _ Ec). specialize (Hall _ _ Ec). by destruct c. }
  destruct (Z.ltb_spec used fanout) as [Hu|Hu].
  - destruct (find_null cs 0) as [k|] eqn:Ek.
    + intros [= _ Ek0]. apply find_null_some in Ek as (j & -> & Hj & _). simpl in Ek0.
      destruct j; [rewrite Ecs in Hj; done|lia].
    + intros _. apply Hfull. by eapply find_null_none.
  - intros _. apply Hfull. apply Forall_forall. intros c Hc.
    destruct (is_null c) eqn:Ec; [|done]. exfalso.
    assert (length (filter (fun c => is_null c = false) cs) < length cs)%nat; [|lia].
    apply (length_filter_lt _ _ c Hc). rewrite Ec. discriminate.
Qed.

Lemma get_loop_null lvl n F btsize i : (forall j, bt_children n !! j = None \/ bt_children n !! j = Some CNull) ->
  match get_loop lvl n F btsize i with CLeaf p => Some p | _ => None end = None.
Proof.
  intros H. destruct lvl as [|lvl]; simpl.
  - destruct (H (Z.to_nat i)) as [->| ->]; done.
  - destruct (H (Z.to_nat (i / (btsize / F)))) as [->| ->]; done.
Qed.

Lemma lookup_empty F lvl n i :
  (forall j, bt_children n !! j = None \/ bt_children n !! j = Some CNull) -> lookup F lvl n i = None.
Proof. apply get_loop_null. Qed.

Lemma replicate_null k j : replicate k CNull !! j = None \/ replicate k CNull !! j = Some CNull.
Proof.
  destruct (decide (j < k)%nat); [right; by apply lookup_replicate_2|left; apply lookup_replicate_None; lia].
Qed.

(** The new nodes hold nothing. *)
Lemma new_chain_lookup F lvl : 2 <= F -> exists n, new_chain (S lvl) F = CNode n /\ forall i, lookup F lvl n i = None.
Proof.
  intros HF. induction lvl as [|lvl (n & En & Hn)].
  - eexists. split; [done|]. intros i. apply lookup_empty. apply replicate_null.
  - change (new_chain (S (S lvl)) F) with
      (let 'BN l f u cs := btree_new F in CNode (BN l f (u + 1) (<[0%nat := new_chain (S lvl) F]> cs))).
    rewrite En. eexists. split; [done|].
    intros i. rewrite lookup_S by lia. cbn [bt_children].
    destruct (decide (Z.to_nat (i / F ^ Z.of_nat (S lvl)) = 0%nat)) as [->|Hne].
    + rewrite list_lookup_insert_eq; [done|]. rewrite length_replicate. lia.
    + rewrite list_lookup_insert_ne by done.
      destruct (replicate_null (Z.to_nat F) (Z.to_nat (i / F ^ Z.of_nat (S lvl)))) as [->| ->]; done.
Qed.

(** ** Growth *)

Lemma grow_lookup F lvl root :
  2 <= F -> tree_ok F lvl root -> 
  let grown := BN (Z.of_nat lvl + 1) F 2
    (<[1%nat := new_chain (S lvl) F]> (<[0%nat := CNode root]> (replicate (Z.to_nat F) CNull))) in
  (forall i, 0 <= i < F ^ Z.of_nat (S lvl) -> lookup F (S lvl) grown i = lookup F lvl root i) /\
  lookup F (S lvl) grown (F ^ Z.of_nat (S lvl)) = None.
Proof.
  intros HF Hok grown. set (P := F ^ Z.of_nat (S lvl)).
  pose proof (pow_pos F (S lvl) ltac:(lia)) as HP. fold P in HP.
  assert (Hlen : (2 <= Z.to_nat F)%nat) by lia. split.
  - intros i Hi. rewrite lookup_S by lia. fold P. rewrite Z.div_small, Z.mod_small by lia. simpl.
    rewrite list_lookup_insert_ne by done. rewrite list_lookup_insert_eq; [done|]. rewrite length_replicate. lia.
  - rewrite lookup_S by lia. fold P. rewrite Z.div_same, Z.mod_same by lia. change (Z.to_nat 1) with 1%nat.
    unfold grown. cbn [bt_children]. rewrite list_lookup_insert_eq by (rewrite length_insert, length_replicate; lia).
    destruct (new_chain_lookup F lvl HF) as (n & -> & Hn). apply Hn.
Qed.

(** ** The theorems *)

(** [btree_new_leaf] on a well-formed inode table either stores the
    pointer under a free non-zero index and changes no other entry, or fails
    leaving the table alone, or, when there is no free slot, grows the tree by
    a level: every old index keeps its inode and the first new index is
    returned.  A table of one level fails or grows only when it is full. *)
Theorem btree_new_leaf_correct F lvl root_ok root idata root' res :
  2 <= F -> F ^ Z.of_nat (S lvl) < 2 ^ 32 -> tree_ok F lvl root ->
  btree_new_leaf root_ok root idata = (root', res) ->
  let get := lookup F lvl root in
  (tree_ok F lvl root' /\ 0 < res < F ^ Z.of_nat (S lvl) /\ get res = None /\
   lookup F lvl root' res = Some idata /\
   (forall j, 0 <= j < F ^ Z.of_nat (S lvl) -> j <> res -> lookup F lvl root' j = get j)) \/
  ((lvl = 0%nat -> forall i, 0 <= i < F -> get i <> None) /\
   ((root_ok = false /\ res = 0 /\ root' = root) \/
    (root_ok = true /\ res = F ^ Z.of_nat (S lvl) /\ bt_level root' = Z.of_nat (S lvl) /\
     forall i, 0 <= i < F ^ Z.of_nat (S lvl) -> lookup F (S lvl) root' i = get i))).
Proof.
  intros HF Hb Hok. unfold btree_new_leaf.
  assert (Hlf : bt_level root = Z.of_nat lvl /\ bt_fanout root = F).
  { destruct root; destruct lvl; simpl in *; tauto. }
  destruct Hlf as [Hl Hfo]. rewrite Hl, Nat2Z.id.
  destruct (btree_set_leaf lvl root idata) as [root1 r] eqn:Es.
  destruct (set_leaf_ok F idata HF lvl root root1 r Hb Hok Es) as [Hok1 [[-> ->]|Hspec]].
  - cbn [Z.ltb Z.compare]. intros H. right. split.
    { intros ->. by apply (set_leaf_0_full F root idata root). }
    destruct root_ok; cbn [negb] in H; [right|left; by injection H as <- <-].
    rewrite Hl, Hfo in H. cbn [btree_new] in H.
    replace (Z.to_nat (Z.of_nat lvl + 1)) with (S lvl) in H by lia.
    rewrite mul_loop_pow, Z.mul_1_l in H by lia. injection H as <- <-.
    split_and!; try done; [simpl; lia|]. exact (proj1 (grow_lookup F lvl root HF Hok)).
  - destruct Hspec as (Hr & H1 & H2 & H3). rewrite (proj2 (Z.ltb_lt 0 r)) by lia.
    intros [= <- <-]. left. split_and!; (done || lia).
Qed.

(** A table of four slots with the invalid inode in slot 0. *)
Definition demo_root : bnode := (btree_set_leaf 0 (btree_new 4) 1000).1.

(** ** Behaviours outside the specification *)

(** The index returned by a growing call is not stored: a look-up of it
    finds nothing. *)
Lemma btree_grow_loses F lvl root idata root' res :
  2 <= F -> F ^ Z.of_nat (S lvl) < 2 ^ 32 -> tree_ok F lvl root ->
  btree_new_leaf true root idata = (root', res) -> bt_level root' <> Z.of_nat lvl ->
  lookup F (S lvl) root' res = None.
Proof.
  intros HF Hb Hok. unfold btree_new_leaf.
  assert (Hlf : bt_level root = Z.of_nat lvl /\ bt_fanout root = F).
  { destruct root; destruct lvl; simpl in *; tauto. }
  destruct Hlf as [Hl Hfo]. rewrite Hl, Nat2Z.id.
  destruct (btree_set_leaf lvl root idata) as [root1 r] eqn:Es.
  destruct (set_leaf_ok F idata HF lvl root root1 r Hb Hok Es) as [Hok1 [[-> ->]|Hspec]].
  - cbn [Z.ltb Z.compare negb]. rewrite Hl, Hfo. cbn [btree_new].
    replace (Z.to_nat (Z.of_nat lvl + 1)) with (S lvl) by lia.
    rewrite mul_loop_pow, Z.mul_1_l by lia. intros [= <- <-] _. exact (proj2 (grow_lookup F lvl root HF Hok)).
  - destruct Hspec as (Hr & _). rewrite (proj2 (Z.ltb_lt 0 r)) by lia. intros [= <- <-] Hne.
    exfalso. apply Hne. destruct root1; destruct lvl; simpl in *; tauto.
Qed.

(** The inodes created in a table of four slots: the fourth number, 4, is not
    stored; the next inode is stored under 4 but numbered 16 after a second
    growth, because a result 0 of a sub-node is taken for failure. *)
Lemma btree_numbers_wrong :
  let step '(root, l) p := let '(root, r) := btree_new_leaf true root p in (root, l ++ [r]) in
  let '(root, l) := foldl step (demo_root, []) [2001; 2002; 2003; 2004; 2005] in
  l = [1; 2; 3; 4; 16] /\ btree_get_index root 4 = Some 2005 /\ btree_get_index root 16 = None.
Proof. vm_compute. done. Qed.

End BT.
