(* ===== verification/RamDir.v ===== *)
(** * Directories of ramfs (src/fs/ramfs.c, the ramfs_directory functions)

    Module [RD]: the hash table of a directory, and its refinement of a map
    from names to inode numbers.

    A name is the list of its bytes.  [strcmp] and [strncmp] are used for
    equality only: by [CStringProofs], on C strings they are 0 exactly when
    the lists, or their first [n] bytes, are equal. *)

From S2P Require Import Prelude CString CStringProofs.

Module RD.

Abbreviation name := (list Z).

Definition ENOENT : Z := 2.
Definition EEXIST : Z := 17.

(** [strhash] of a name. *)
Definition hash_step (hash c : Z) : Z :=
  let hash := u32 (hash + s8 c) in
  let hash := u32 (hash + u32 (Z.shiftl hash 10)) in
  Z.lxor hash (Z.shiftr hash 6).
Definition name_hash (n : name) : Z :=
  let hash := foldl hash_step 0 n in
  let hash := u32 (hash + u32 (Z.shiftl hash 3)) in
  let hash := u32 (hash + Z.shiftr hash 11) in
  u32 (hash + u32 (Z.shiftl hash 15)).

(** The first [n] bytes of a string; [n] may be as large as [SIZE_MAX]. *)
Fixpoint ztake (n : Z) (l : name) : name :=
  match l with [] => [] | b :: l => if n <=? 0 then [] else b :: ztake (n - 1) l end.

Record ramfs_direntry := mk_de { de_hash : Z; de_name : name; de_ino : Z }.

(** A bucket is the list linked by [htnext]. *)
Record ramfs_directory := mk_dir { size : Z; htcap : Z; ht : list (list ramfs_direntry) }.

Definition ramfs_directory_new : ramfs_directory := mk_dir 0 8 (replicate 8 []).

Definition bucket (dir : ramfs_directory) (hash : Z) : list ramfs_direntry :=
  default [] (ht dir !! Z.to_nat (hash mod htcap dir)).
Definition set_bucket (dir : ramfs_directory) (hash : Z) (b : list ramfs_direntry) (dsize : Z) : ramfs_directory :=
  mk_dir (size dir + dsize) (htcap dir) (<[Z.to_nat (hash mod htcap dir) := b]> (ht dir)).

(** Walk the bucket; put the entry behind its last element. *)
Fixpoint insert_loop (b : list ramfs_direntry) (de : ramfs_direntry) : option (list ramfs_direntry) :=
  match b with
  | [] => Some [de]
  | e :: b =>
      if (de_hash e =? de_hash de) && bool_decide (de_name e = de_name de) then None
      else option_map (cons e) (insert_loop b de)
  end.

Definition ramfs_directory_insert (dir : ramfs_directory) (de : ramfs_direntry) : ramfs_directory * Z :=
  match insert_loop (bucket dir (de_hash de)) de with
  | None => (dir, EEXIST)
  | Some b => (set_bucket dir (de_hash de) b 1, 0)
  end.

Definition ramfs_directory_new_entry (dir : ramfs_directory) (n : name) (i_no : Z) : ramfs_directory * Z :=
  ramfs_directory_insert dir (mk_de (name_hash n) n i_no).

(** Unlink the first entry with this hash and name. *)
Fixpoint delete_loop (b : list ramfs_direntry) (hash : Z) (n : name) : option (list ramfs_direntry) :=
  match b with
  | [] => None
  | e :: b =>
      if (de_hash e =? hash) && bool_decide (de_name e = n) then Some b
      else option_map (cons e) (delete_loop b hash n)
  end.

Definition ramfs_directory_delete_entry (dir : ramfs_directory) (n : name) (namelen : Z) : ramfs_directory * Z :=
  let hash := name_hash (ztake namelen n) in
  match delete_loop (bucket dir hash) hash n with
  | None => (dir, ENOENT)
  | Some b => (set_bucket dir hash b (-1), 0)
  end.

(** [basename] is the rest of the path, of which [len] bytes count. *)
Definition entry_matches (hash : Z) (basename : name) (len : Z) (e : ramfs_direntry) : bool :=
  (de_hash e =? hash) && bool_decide (ztake len basename = ztake len (de_name e)).

Fixpoint search_loop (b : list ramfs_direntry) (hash : Z) (basename : name) (len : Z) : option Z :=
  match b with
  | [] => None
  | e :: b => if entry_matches hash basename len e then Some (de_ino e) else search_loop b hash basename len
  end.

(** The inode number, [None] for [ENOENT]. *)
Definition ramfs_directory_search (dir : ramfs_directory) (basename : name) (basename_len : Z) : option Z :=
  let hash := name_hash (ztake basename_len basename) in
  search_loop (bucket dir hash) hash basename basename_len.

Lemma ztake_take l : forall n, ztake n l = take (Z.to_nat n) l.
Proof.
  induction l as [|b l IH]; intros n; cbn [ztake]; [by rewrite take_nil|].
  destruct (Z.leb_spec n 0); [replace (Z.to_nat n) with 0%nat by lia; done|].
  rewrite IH. replace (Z.to_nat n) with (S (Z.to_nat (n - 1))) by lia. done.
Qed.

(** ** The hash is the one of [CString] *)

Lemma jenkins_list m l : forall p hash, CSP.bytes_at m p l ->
  CS.jenkins_loop (length l) m p hash = foldl hash_step hash l.
Proof.
  induction l as [|c l IH]; intros p hash H; [done|]. apply CSP.bytes_at_cons in H as [Hc H].
  simpl. rewrite (IH (p + 1)) by done. unfold CS.chr. by rewrite Hc.
Qed.

Lemma strhash_name m p l : CSP.bytes_at m p l -> CS.strhash m p (Z.of_nat (length l)) = name_hash l.
Proof. intros H. unfold CS.strhash, name_hash. rewrite Nat2Z.id. by rewrite (jenkins_list m l p 0 H). Qed.

Lemma name_hash_range n : 0 <= name_hash n.
Proof. unfold name_hash. apply (proj1 (u32_range _)). Qed.

(** ** Refinement of a map *)

Definition entries (dir : ramfs_directory) : list ramfs_direntry := concat (ht dir).

(** The map from names to inode numbers. *)
Definition dir_map (dir : ramfs_directory) : gmap name Z :=
  list_to_map ((fun e => (de_name e, de_ino e)) <$> entries dir).

Record dir_wf (dir : ramfs_directory) : Prop := {
  wf_cap : 0 < htcap dir /\ Z.of_nat (length (ht dir)) = htcap dir;
  wf_bucket : forall k b e, ht dir !! k = Some b -> e ∈ b ->
    de_hash e = name_hash (de_name e) /\ k = Z.to_nat (de_hash e mod htcap dir);
  wf_names : NoDup (de_name <$> entries dir);
  wf_size : size dir = Z.of_nat (length (entries dir)) }.

Section Refine.
Context (dir : ramfs_directory) (Hwf : dir_wf dir).

Lemma bucket_lookup hash : ht dir !! Z.to_nat (hash mod htcap dir) = Some (bucket dir hash).
Proof using Hwf.
  destruct (wf_cap _ Hwf) as [Hc Hl]. unfold bucket.
  destruct (ht dir !! Z.to_nat (hash mod htcap dir)) as [b|] eqn:E; [done|].
  apply lookup_ge_None in E. pose proof (Z.mod_pos_bound hash (htcap dir) Hc). lia.
Qed.

(** The entries outside one bucket. *)
Definition others (hash : Z) : list ramfs_direntry :=
  let k := Z.to_nat (hash mod htcap dir) in concat (take k (ht dir)) ++ concat (drop (S k) (ht dir)).

Lemma entries_set hash b d : entries (set_bucket dir hash b d) ≡ₚ b ++ others hash.
Proof using Hwf.
  unfold entries, set_bucket, others. simpl. pose proof (bucket_lookup hash) as Hb.
  set (k := Z.to_nat (hash mod htcap dir)) in *.
  rewrite insert_take_drop by (by eapply lookup_lt_Some). rewrite concat_app, concat_cons. solve_Permutation.
Qed.

Lemma entries_bucket hash : entries dir ≡ₚ bucket dir hash ++ others hash.
Proof using Hwf.
  rewrite <- (entries_set hash (bucket dir hash) 0). unfold entries, set_bucket. simpl.
  rewrite list_insert_id; [done|apply bucket_lookup].
Qed.

Lemma elem_entries e : e ∈ entries dir <-> exists k b, ht dir !! k = Some b /\ e ∈ b.
Proof using.
  unfold entries. rewrite list_elem_of_In, in_concat. split.
  - intros (b & Hb & He). apply list_elem_of_In, list_elem_of_lookup in Hb as [k Hk].
    exists k, b. split; [done|]. by apply list_elem_of_In.
  - intros (k & b & Hk & He). exists b. split; [|by apply list_elem_of_In].
    apply list_elem_of_In, list_elem_of_lookup. by exists k.
Qed.

(** An entry sits in the bucket of its name's hash. *)
Lemma entry_bucket e : e ∈ entries dir -> de_hash e = name_hash (de_name e) /\ e ∈ bucket dir (de_hash e).
Proof using Hwf.
  intros (k & b & Hk & He)%elem_entries. destruct (wf_bucket _ Hwf _ _ _ Hk He) as [Hh ->].
  split; [done|]. rewrite bucket_lookup in Hk. congruence.
Qed.

Lemma bucket_entry hash e : e ∈ bucket dir hash -> e ∈ entries dir.
Proof using Hwf. intros He. apply elem_entries. eexists _, _. split; [apply bucket_lookup|done]. Qed.

Lemma bucket_hash hash e : e ∈ bucket dir hash -> de_hash e mod htcap dir = hash mod htcap dir.
Proof using Hwf.
  intros He. destruct (wf_bucket _ Hwf _ _ _ (bucket_lookup hash) He) as [_ Hk].
  destruct (wf_cap _ Hwf) as [Hc _].
  pose proof (Z.mod_pos_bound hash (htcap dir) Hc). pose proof (Z.mod_pos_bound (de_hash e) (htcap dir) Hc). lia.
Qed.

Lemma dir_map_Some n i : dir_map dir !! n = Some i <-> exists e, e ∈ entries dir /\ de_name e = n /\ de_ino e = i.
Proof using Hwf.
  unfold dir_map. rewrite <- elem_of_list_to_map.
  - rewrite list_elem_of_fmap. split; [intros ([h n' i'] & [= -> ->] & He); eauto|].
    intros (e & He & <- & <-). exists e. done.
  - rewrite <- list_fmap_compose. apply (wf_names _ Hwf).
Qed.

Lemma dir_map_None n : dir_map dir !! n = None <-> n ∉ de_name <$> entries dir.
Proof using.
  unfold dir_map. rewrite <- not_elem_of_list_to_map. by rewrite <- list_fmap_compose.
Qed.

End Refine.

(** A directory is what the permutation of its entries says. *)
Lemma dir_map_perm d es :
  entries d ≡ₚ es -> NoDup (de_name <$> es) ->
  dir_map d = list_to_map ((fun e => (de_name e, de_ino e)) <$> es).
Proof.
  intros Hp Hn. unfold dir_map. apply list_to_map_proper.
  - rewrite <- list_fmap_compose. change ((_ ∘ _) <$> entries d) with (de_name <$> entries d). by rewrite Hp.
  - by rewrite Hp.
Qed.

Lemma wf_set dir hash b d :
  dir_wf dir ->
  (forall e, e ∈ b -> de_hash e = name_hash (de_name e) /\ de_hash e mod htcap dir = hash mod htcap dir) ->
  NoDup (de_name <$> (b ++ others dir hash)) ->
  size dir + d = Z.of_nat (length (b ++ others dir hash)) ->
  dir_wf (set_bucket dir hash b d).
Proof.
  intros Hwf Hb Hn Hs. pose proof (entries_set dir Hwf hash b d) as He. constructor.
  - simpl. rewrite length_insert. apply (wf_cap _ Hwf).
  - simpl. intros k b' e Hk Hin. apply list_lookup_insert_Some in Hk as [(<- & <- & _)|[_ Hk]].
    + destruct (Hb e Hin) as [H1 H2]. split; [done|]. by rewrite H2.
    + by apply (wf_bucket _ Hwf k b').
  - by rewrite He.
  - simpl. by rewrite He.
Qed.

Lemma insert_loop_spec b de :
  match insert_loop b de with
  | Some b' => b' = b ++ [de] /\ (forall e, e ∈ b -> de_hash e = de_hash de -> de_name e <> de_name de)
  | None => exists e, e ∈ b /\ de_name e = de_name de
  end.
Proof.
  induction b as [|e b IH]; simpl; [split; [done|]; by intros e He%elem_of_nil|].
  destruct ((de_hash e =? de_hash de) && _) eqn:E.
  - apply andb_true_iff in E as [_ E]. apply bool_decide_eq_true in E. exists e. split; [left|done].
  - destruct (insert_loop b de) as [b'|]; simpl.
    + destruct IH as [-> IH]. split; [done|]. intros e' [->|He']%elem_of_cons; [|by apply IH].
      intros Hh Hn. rewrite Hh, Z.eqb_refl, bool_decide_true in E by done. done.
    + destruct IH as (e' & He' & Hn). exists e'. split; [by right|done].
Qed.

(** The names are looked up in the map. *)
Lemma new_entry_spec dir n ino dir' r :
  dir_wf dir -> ramfs_directory_new_entry dir n ino = (dir', r) ->
  dir_wf dir' /\
  (if bool_decide (is_Some (dir_map dir !! n)) then dir' = dir /\ r = EEXIST
   else r = 0 /\ dir_map dir' = <[n := ino]> (dir_map dir)).
Proof.
  intros Hwf. unfold ramfs_directory_new_entry, ramfs_directory_insert. simpl. set (de := mk_de (name_hash n) n ino).
  pose proof (insert_loop_spec (bucket dir (name_hash n)) de) as Hs.
  destruct (insert_loop _ de) as [b'|]; intros [= <- <-].
  - destruct Hs as [-> Hs].
    assert (Hfresh : n ∉ de_name <$> entries dir).
    { rewrite list_elem_of_fmap. intros (e & En & He). destruct (entry_bucket dir Hwf e He) as [Hh Hb].
      rewrite Hh, <- En in Hb. apply (Hs e Hb); [by rewrite Hh, <- En|done]. }
    rewrite bool_decide_false by (rewrite (proj2 (dir_map_None dir n) Hfresh); by intros [? ?]).
    assert (Hp : (bucket dir (name_hash n) ++ [de]) ++ others dir (name_hash n) ≡ₚ de :: entries dir).
    { rewrite (entries_bucket dir Hwf (name_hash n)). solve_Permutation. }
    assert (Hnd : NoDup (de_name <$> (bucket dir (name_hash n) ++ [de]) ++ others dir (name_hash n))).
    { rewrite Hp. simpl. apply NoDup_cons. split; [done|apply (wf_names _ Hwf)]. }
    split; [|split; [done|]].
    + apply wf_set; [done| |done|].
      * intros e [He|He]%elem_of_app.
        -- pose proof (bucket_entry dir Hwf _ _ He) as Hent. split; [by apply (entry_bucket dir Hwf e Hent)|].
           by apply bucket_hash.
        -- apply list_elem_of_singleton in He as ->. done.
      * rewrite Hp. simpl. rewrite (wf_size _ Hwf). lia.
    + rewrite (dir_map_perm _ (de :: entries dir)).
      * done.
      * by rewrite (entries_set dir Hwf), Hp.
      * by rewrite <- Hp.
  - split; [done|]. destruct Hs as (e & He & Hn). rewrite bool_decide_true; [done|].
    exists (de_ino e). apply (dir_map_Some dir Hwf). exists e. split; [by eapply bucket_entry|done].
Qed.

Lemma delete_loop_spec b hash n :
  match delete_loop b hash n with
  | Some b' => exists l1 e l2, b = l1 ++ e :: l2 /\ b' = l1 ++ l2 /\ de_name e = n /\ de_hash e = hash
  | None => forall e, e ∈ b -> de_hash e = hash -> de_name e <> n
  end.
Proof.
  induction b as [|e b IH]; simpl; [by intros e He%elem_of_nil|].
  destruct ((de_hash e =? hash) && _) eqn:E.
  - apply andb_true_iff in E as [Eh E]. apply bool_decide_eq_true in E. apply Z.eqb_eq in Eh.
    exists [], e, b. done.
  - destruct (delete_loop b hash n) as [b'|]; simpl.
    + destruct IH as (l1 & e' & l2 & -> & -> & H3 & H4). exists (e :: l1), e', l2. done.
    + intros e' [->|He']%elem_of_cons; [|by apply IH].
      intros Hh Hn. rewrite Hh, Z.eqb_refl, bool_decide_true in E by done. done.
Qed.

Lemma delete_entry_spec dir n namelen dir' r :
  dir_wf dir -> Z.of_nat (length n) <= namelen -> ramfs_directory_delete_entry dir n namelen = (dir', r) ->
  dir_wf dir' /\
  (if bool_decide (is_Some (dir_map dir !! n)) then r = 0 /\ dir_map dir' = delete n (dir_map dir)
   else dir' = dir /\ r = ENOENT).
Proof.
  intros Hwf Hl. unfold ramfs_directory_delete_entry. rewrite ztake_take, take_ge by lia.
  pose proof (delete_loop_spec (bucket dir (name_hash n)) (name_hash n) n) as Hs.
  destruct (delete_loop _ _ n) as [b'|]; intros [= <- <-].
  - destruct Hs as (l1 & e & l2 & Eb & -> & <- & Eh).
    assert (Hp : entries dir ≡ₚ e :: (l1 ++ l2) ++ others dir (name_hash (de_name e))).
    { rewrite (entries_bucket dir Hwf (name_hash (de_name e))), Eb. solve_Permutation. }
    pose proof (wf_names _ Hwf) as Hnd. rewrite Hp in Hnd. simpl in Hnd. apply NoDup_cons in Hnd as [Hnot Hnd].
    split.
    + apply wf_set; [done| |done|].
      * intros e' He'. assert (e' ∈ bucket dir (name_hash (de_name e))) as Hb.
        { rewrite Eb. apply elem_of_app. apply elem_of_app in He' as [?|?]; [by left|right; by right]. }
        split; [by apply (entry_bucket dir Hwf e'), (bucket_entry dir Hwf) with (name_hash (de_name e))|].
        by apply bucket_hash.
      * rewrite (wf_size _ Hwf), Hp. simpl. lia.
    + rewrite bool_decide_true.
      * split; [done|]. rewrite (dir_map_perm dir _ Hp) by (simpl; by apply NoDup_cons).
        rewrite (dir_map_perm _ ((l1 ++ l2) ++ others dir (name_hash (de_name e)))); [|by rewrite (entries_set dir Hwf)|done].
        simpl. rewrite delete_insert_id; [done|].
        apply not_elem_of_list_to_map. rewrite <- list_fmap_compose. exact Hnot.
      * exists (de_ino e). apply (dir_map_Some dir Hwf). exists e. rewrite Hp. split; [by left|done].
  - split; [done|]. rewrite bool_decide_false; [done|]. intros [i Hi].
    apply (dir_map_Some dir Hwf) in Hi as (e & He & En & _).
    destruct (entry_bucket dir Hwf e He) as [Hh Hb]. rewrite Hh, En in Hb. apply (Hs e Hb); [by rewrite Hh, En|done].
Qed.

(** No other name of the directory extends [n] and has its hash: [search]
    compares [n] with a prefix of the stored name. *)
Definition no_prefix_collision (dir : ramfs_directory) (n : name) : Prop :=
  forall e, e ∈ entries dir -> n `prefix_of` de_name e -> name_hash (de_name e) = name_hash n -> de_name e = n.

Lemma search_loop_spec b hash base len :
  match search_loop b hash base len with
  | Some i => exists e, e ∈ b /\ entry_matches hash base len e = true /\ de_ino e = i
  | None => forall e, e ∈ b -> entry_matches hash base len e = false
  end.
Proof.
  induction b as [|e b IH]; simpl; [by intros e He%elem_of_nil|].
  destruct (entry_matches hash base len e) eqn:E; [exists e; split; [left|done]|].
  destruct (search_loop b hash base len) as [i|].
  - destruct IH as (e' & H1 & H2). exists e'. split; [by right|done].
  - intros e' [->|He']%elem_of_cons; [done|by apply IH].
Qed.

(** [n] is the component to find: exactly [len] bytes, or fewer when the
    string ends first. *)
Lemma search_spec dir base len :
  dir_wf dir -> let n := take (Z.to_nat len) base in
  Z.of_nat (length n) <= len -> (Z.of_nat (length n) = len -> no_prefix_collision dir n) ->
  ramfs_directory_search dir base len = dir_map dir !! n.
Proof.
  intros Hwf n Hlen Hnc. unfold ramfs_directory_search. rewrite ztake_take. fold n.
  assert (Hm : forall e, e ∈ entries dir -> entry_matches (name_hash n) base len e = true <-> de_name e = n).
  { intros e He. destruct (entry_bucket dir Hwf e He) as [Hh _]. unfold entry_matches. rewrite !ztake_take. fold n.
    rewrite andb_true_iff, Z.eqb_eq, bool_decide_eq_true, Hh. split.
    - intros [H1 H2]. destruct (Z.eq_dec (Z.of_nat (length n)) len) as [E|E].
      + apply Hnc; [done|done| |done]. rewrite H2. apply prefix_take.
      + rewrite H2. symmetry. apply take_ge. rewrite H2, length_take in Hlen, E. lia.
    - intros ->. split; [done|]. rewrite take_ge; [done|lia]. }
  pose proof (search_loop_spec (bucket dir (name_hash n)) (name_hash n) base len) as Hs.
  destruct (search_loop _ _ _ _) as [i|]; symmetry.
  - destruct Hs as (e & He & Hmt & <-). apply (bucket_entry dir Hwf) in He.
    apply (dir_map_Some dir Hwf). exists e. split; [done|]. split; [by apply Hm|done].
  - apply eq_None_not_Some. intros [i Hi]. apply (dir_map_Some dir Hwf) in Hi as (e & He & En & _).
    destruct (entry_bucket dir Hwf e He) as [Hh Hb]. rewrite Hh, En in Hb.
    specialize (Hs e Hb). rewrite (proj2 (Hm e He) En) in Hs. done.
Qed.

Lemma new_dir_wf : dir_wf ramfs_directory_new /\ dir_map ramfs_directory_new = ∅.
Proof.
  split; [|done]. constructor; simpl; [done| |constructor|done].
  intros k b e Hk He. do 8 (destruct k as [|k]; [simpl in Hk; injection Hk as <-; by apply elem_of_nil in He|]). done.
Qed.

(** ** The theorems *)

(** C20: a directory is a map from names to inode numbers.  Adding a name
    fails with [EEXIST] exactly when it is there and otherwise extends the
    map; deleting a name removes it or fails with [ENOENT]; both keep the
    table well formed. *)
Theorem directory_refines_map dir n ino :
  dir_wf dir ->
  (let '(dir', r) := ramfs_directory_new_entry dir n ino in
   dir_wf dir' /\ match dir_map dir !! n with
                  | Some _ => dir' = dir /\ r = EEXIST
                  | None => r = 0 /\ dir_map dir' = <[n := ino]> (dir_map dir)
                  end) /\
  (let '(dir', r) := ramfs_directory_delete_entry dir n (Z.of_nat (length n)) in
   dir_wf dir' /\ match dir_map dir !! n with
                  | Some _ => r = 0 /\ dir_map dir' = delete n (dir_map dir)
                  | None => dir' = dir /\ r = ENOENT
                  end).
Proof.
  intros Hwf. split.
  - destruct (ramfs_directory_new_entry dir n ino) as [dir' r] eqn:E.
    destruct (new_entry_spec _ _ _ _ _ Hwf E) as [H1 H2]. split; [done|]. case_bool_decide as Hb.
    + destruct Hb as [? ->]. done.
    + apply eq_None_not_Some in Hb. by rewrite Hb.
  - destruct (ramfs_directory_delete_entry dir n _) as [dir' r] eqn:E.
    destruct (delete_entry_spec _ _ _ _ _ Hwf (Z.le_refl _) E) as [H1 H2]. split; [done|]. case_bool_decide as Hb.
    + destruct Hb as [? ->]. done.
    + apply eq_None_not_Some in Hb. by rewrite Hb.
Qed.

(** Searching a component of a path returns the map's inode number,
    when no stored name that extends the component has the same hash. *)
Theorem directory_search_correct dir base len :
  dir_wf dir -> 0 <= len <= Z.of_nat (length base) ->
  no_prefix_collision dir (take (Z.to_nat len) base) ->
  ramfs_directory_search dir base len = dir_map dir !! (take (Z.to_nat len) base).
Proof. intros Hwf Hl Hnc. apply search_spec; [done|rewrite length_take; lia|done]. Qed.

(** ** Witnesses: a directory with the names ["."] and ["etc"] *)

Definition demo_dir : ramfs_directory :=
  (ramfs_directory_new_entry (ramfs_directory_new_entry ramfs_directory_new [46] 1).1 [101; 116; 99] 5).1.

Lemma demo_dir_wf : dir_wf demo_dir.
Proof.
  destruct new_dir_wf as [H0 _].
  assert (H1 : dir_wf (ramfs_directory_new_entry ramfs_directory_new [46] 1).1).
  { eapply (new_entry_spec ramfs_directory_new [46] 1); [done|apply surjective_pairing]. }
  eapply (new_entry_spec _ [101; 116; 99] 5); [exact H1|apply surjective_pairing].
Qed.

Lemma directory_refines_map_witness :
  (let '(dir', r) := ramfs_directory_new_entry demo_dir [97] 7 in
   dir_wf dir' /\ match dir_map demo_dir !! [97] with
                  | Some _ => dir' = demo_dir /\ r = EEXIST
                  | None => r = 0 /\ dir_map dir' = <[[97] := 7]> (dir_map demo_dir)
                  end) /\
  (let '(dir', r) := ramfs_directory_delete_entry demo_dir [97] (Z.of_nat (length [97])) in
   dir_wf dir' /\ match dir_map demo_dir !! [97] with
                  | Some _ => r = 0 /\ dir_map dir' = delete [97] (dir_map demo_dir)
                  | None => dir' = demo_dir /\ r = ENOENT
                  end).
Proof. exact (directory_refines_map demo_dir [97] 7 demo_dir_wf). Defined.

(** ** Behaviours outside the specification *)

(** [search] accepts a longer name: ["arwoxek"] has the hash of ["a"], so a
    look-up of ["a"] finds it in a directory that has no ["a"]. *)
Lemma search_prefix_collision :
  let d := (ramfs_directory_new_entry ramfs_directory_new [97; 114; 119; 111; 120; 101; 107] 9).1 in
  dir_map d !! [97] = None /\ ramfs_directory_search d [97] 1 = Some 9.
Proof. vm_compute. done. Qed.

End RD.
