(* ===== verification/RamBlocks.v ===== *)
(** * File contents of ramfs (src/fs/ramfs.c, block management, read, write)

    Module [RB]: the blocks of a regular file in kernel memory, reading and
    writing through them.  The caller's buffer never overlaps a block, so
    written data and read results are lists of bytes. *)

From S2P Require Import Prelude PMem.

Module RB.

Definition N_DIRECT_BLOCKS : Z := 12.
Definition EIO : Z := 5.

(** The page allocator and kernel memory, by kernel virtual address. *)
Record kmem := mk_kmem { pm : PM.pmem; bytes : bmem }.

(** The fields of [struct inode] for a regular file. *)
Record reg_inode := mk_reg {
  i_size : Z; block_count : Z; directblock : list Z; indir1st_block : Z }.

Definition ramfs_new_block (k : kmem) : kmem * Z :=
  let '(p, a) := PM.kmem_alloc (pm k) 1 in (mk_kmem p (bytes k), a).

(** The block to read; the indirect block is indexed as an array of [char]. *)
Definition ramfs_block_by_index (k : kmem) (idata : reg_inode) (index : Z) : Z :=
  if index <? N_DIRECT_BLOCKS then default 0 (directblock idata !! Z.to_nat index)
  else if indir1st_block idata =? 0 then 0
  else if index - N_DIRECT_BLOCKS <? PAGE_BYTES / 4 then
    u32 (s8 (ldb (bytes k) (indir1st_block idata + (index - N_DIRECT_BLOCKS))))
  else 0.

Definition ramfs_block_by_index_or_new (k : kmem) (idata : reg_inode) (index : Z) : kmem * reg_inode * Z :=
  let n_indblocks := PAGE_BYTES / 4 in
  if index <? N_DIRECT_BLOCKS then
    let blkdata := default 0 (directblock idata !! Z.to_nat index) in
    if blkdata =? 0 then
      let '(k, blkdata) := ramfs_new_block k in
      (k, mk_reg (i_size idata) (block_count idata + 1)
                 (<[Z.to_nat index := blkdata]> (directblock idata)) (indir1st_block idata), blkdata)
    else (k, idata, blkdata)
  else
    let index := index - N_DIRECT_BLOCKS in
    if index <? n_indblocks then
      let '(k, ind1blk) :=
        if indir1st_block idata =? 0 then ramfs_new_block k else (k, indir1st_block idata) in
      let idata := mk_reg (i_size idata) (block_count idata) (directblock idata) ind1blk in
      let blkdata := ld32 (bytes k) (ind1blk + 4 * index) in
      if blkdata =? 0 then
        let '(k, blkdata) := ramfs_new_block k in
        let k := mk_kmem (pm k) (st32 (bytes k) (ind1blk + 4 * index) blkdata) in
        (k, mk_reg (i_size idata) (block_count idata + 1) (directblock idata) ind1blk, blkdata)
      else (k, idata, blkdata)
    else (k, idata, 0).

(** [memcpy] to and from a block. *)
Fixpoint store_bytes (m : bmem) (a : Z) (l : list Z) : bmem :=
  match l with [] => m | b :: l => store_bytes (stb m a b) (a + 1) l end.
Definition load_bytes (m : bmem) (a n : Z) : list Z :=
  (fun i => ldb m (a + Z.of_nat i)) <$> seq 0 (Z.to_nat n).

(** Copy from a block, or zeros from a hole. *)
Definition read_block (k : kmem) (idata : reg_inode) (blkindex offset n : Z) : list Z :=
  let blkdata := ramfs_block_by_index k idata blkindex in
  if negb (blkdata =? 0) then load_bytes (bytes k) (blkdata + offset) n
  else replicate (Z.to_nat n) 0.

(** The loop over full blocks: position in the file, blocks and bytes so far. *)
Fixpoint read_loop (fuel : nat) (k : kmem) (idata : reg_inode) (pos buflen nread blkindex : Z) (out : list Z)
    : Z * Z * list Z :=
  match fuel with
  | O => (nread, blkindex, out)
  | S fuel =>
      if (nread + PAGE_BYTES <=? buflen) && (s32 (u32 (pos + nread + PAGE_BYTES)) <=? i_size idata) then
        read_loop fuel k idata pos buflen (nread + PAGE_BYTES) (blkindex + 1)
                  (out ++ read_block k idata blkindex 0 PAGE_BYTES)
      else (nread, blkindex, out)
  end.

(** The bytes copied to the buffer ([*written] of them). *)
Definition ramfs_read_inode (k : kmem) (idata : reg_inode) (pos buflen : Z) : list Z :=
  let blkindex := pos / PAGE_BYTES in
  if i_size idata <=? pos then []
  else
    let offset := pos mod PAGE_BYTES in
    let '(nread, blkindex, out) :=
      if negb (offset =? 0) then
        let nread := PAGE_BYTES - offset in
        let nread := if buflen <? nread then buflen else nread in
        let nread := if i_size idata <? s32 nread then i_size idata else nread in
        (nread, blkindex + 1, read_block k idata blkindex offset nread)
      else (0, blkindex, []) in
    let '(nread, blkindex, out) :=
      read_loop (Z.to_nat (buflen / PAGE_BYTES + 1)) k idata pos buflen nread blkindex out in
    if (nread <? buflen) && (s32 (u32 (pos + nread)) <? i_size idata) then
      let tocopy := buflen - nread in
      let tocopy := if i_size idata <? s32 (u32 (pos + nread + tocopy)) then i_size idata - (pos + nread) else tocopy in
      out ++ read_block k idata blkindex 0 tocopy
    else out.

(** One [memcpy] into a block that exists or is allocated; [false] is EIO. *)
Definition write_block (k : kmem) (idata : reg_inode) (blkindex offset : Z) (l : list Z) : kmem * reg_inode * bool :=
  let '(k, idata, blkdata) := ramfs_block_by_index_or_new k idata blkindex in
  if blkdata =? 0 then (k, idata, false)
  else (mk_kmem (pm k) (store_bytes (bytes k) (blkdata + offset) l), idata, true).

Fixpoint write_loop (fuel : nat) (k : kmem) (idata : reg_inode) (buf : list Z) (nwrite blkindex : Z)
    : kmem * reg_inode * Z * Z * bool :=
  match fuel with
  | O => (k, idata, nwrite, blkindex, true)
  | S fuel =>
      if nwrite + PAGE_BYTES <=? Z.of_nat (length buf) then
        let '(k, idata, ok) :=
          write_block k idata blkindex 0 (take (Z.to_nat PAGE_BYTES) (drop (Z.to_nat nwrite) buf)) in
        if ok then write_loop fuel k idata buf (nwrite + PAGE_BYTES) (blkindex + 1)
        else (k, idata, nwrite, blkindex, false)
      else (k, idata, nwrite, blkindex, true)
  end.

(** Memory, inode, result and [*written]. *)
Definition ramfs_write_inode (k : kmem) (idata : reg_inode) (pos : Z) (buf : list Z) : kmem * reg_inode * Z * Z :=
  let buflen := Z.of_nat (length buf) in
  let blkindex := pos / PAGE_BYTES in
  let offset := pos mod PAGE_BYTES in
  let fun_exit k idata ret nwrite :=
    let idata :=
      if i_size idata <? s32 (u32 (pos + buflen)) then
        mk_reg (s32 (u32 (pos + buflen))) (block_count idata) (directblock idata) (indir1st_block idata)
      else idata in
    (k, idata, ret, nwrite) in
  let nfirst := if buflen <? PAGE_BYTES - offset then buflen else PAGE_BYTES - offset in
  let '(k, idata, nwrite, blkindex, ok) :=
    if negb (offset =? 0) then
      let '(k, idata, ok) := write_block k idata blkindex offset (take (Z.to_nat nfirst) buf) in
      if ok then (k, idata, nfirst, blkindex + 1, true) else (k, idata, 0, blkindex, false)
    else (k, idata, 0, blkindex, true) in
  if negb ok then fun_exit k idata EIO nwrite
  else
    let '(k, idata, nwrite, blkindex, ok) :=
      write_loop (Z.to_nat (buflen / PAGE_BYTES + 1)) k idata buf nwrite blkindex in
    if negb ok then fun_exit k idata EIO nwrite
    else if nwrite <? buflen then
      let '(k, idata, ok) := write_block k idata blkindex 0 (drop (Z.to_nat nwrite) buf) in
      if ok then fun_exit k idata 0 buflen else fun_exit k idata EIO nwrite
    else fun_exit k idata 0 nwrite.

(** ** Releasing the blocks *)

(** [pmem_free((uint)blkdata, 1)]: a block address, or the result of reading
    an entry of a list, is passed as the page number. *)
Definition free_blkdata (k : kmem) (blkdata : Z) : kmem :=
  if blkdata =? 0 then k else mk_kmem (fst (PM.pmem_free (pm k) blkdata 1)) (bytes k).

Definition ramfs_free_blocks_in_list (k : kmem) (blklst : Z) : kmem :=
  if blklst =? 0 then k
  else foldl (fun k i => free_blkdata k (ld32 (bytes k) (blklst + 4 * Z.of_nat i))) k (seq 0 (Z.to_nat (PAGE_BYTES / 4))).

Definition ramfs_free_blocks_2ndlvl (k : kmem) (ind2lst : Z) : kmem :=
  if ind2lst =? 0 then k
  else foldl (fun k i => ramfs_free_blocks_in_list k (ld32 (bytes k) (ind2lst + 4 * Z.of_nat i))) k (seq 0 (Z.to_nat (PAGE_BYTES / 4))).

(** Nothing is released when there is a third-level block. *)
Definition ramfs_free_inode_blocks (k : kmem) (idata : reg_inode) (indir2nd_block indir3rd_block : Z) : kmem :=
  if negb (indir3rd_block =? 0) then k
  else
    let k := ramfs_free_blocks_2ndlvl k indir2nd_block in
    let k := ramfs_free_blocks_in_list k (indir1st_block idata) in
    foldl free_blkdata k (take (Z.to_nat N_DIRECT_BLOCKS) (directblock idata)).

End RB.
