(* ===== verification/RamBlocksProofs.v ===== *)
(** * Correctness of ramfs reads and writes

    Module [RBP]: the contents of a file as a function from offsets to bytes,
    the effect of writing on it, what reading returns, and their round trip,
    for files within the direct blocks. *)

From S2P Require Import Prelude PMem RamBlocks.
Import RB.

Module RBP.

Definition direct (idata : reg_inode) (i : Z) : Z := default 0 (directblock idata !! Z.to_nat i).

(** The byte at an offset: a missing block is a hole of zeros. *)
Definition content (k : kmem) (idata : reg_inode) (o : Z) : Z :=
  let b := direct idata (o / 4096) in
  if b =? 0 then 0 else ldb (bytes k) (b + o mod 4096).

Definition FILE_MAX : Z := 49152.

(** The frames still needed for the twelve blocks. *)
Definition missing (idata : reg_inode) : Z := Z.of_nat (length (filter (fun b => b = 0) (directblock idata))).

(** Blocks are distinct page frames below the edge, memory beyond the edge
    is clear, and there is room for the missing blocks. *)
Record file_wf (k : kmem) (idata : reg_inode) : Prop := {
  fw_len : length (directblock idata) = 12%nat;
  fw_pm : PM.pmem_wf (pm k) /\ PM.upper_end (pm k) <= 2 ^ 18;
  fw_room : PM.edge (pm k) + missing idata <= PM.upper_end (pm k);
  fw_block : forall i b, directblock idata !! i = Some b -> b <> 0 ->
    exists f, b = KERN_OFF + 4096 * f /\ 0 < f < PM.edge (pm k);
  fw_distinct : forall i j b, directblock idata !! i = Some b -> directblock idata !! j = Some b -> b <> 0 -> i = j;
  fw_clear : forall a, KERN_OFF + 4096 * PM.edge (pm k) <= a -> ldb (bytes k) a = 0 }.

Lemma ldb_store_bytes l : forall m a b,
  ldb (store_bytes m a l) b = if (a <=? b) && (b <? a + Z.of_nat (length l)) then default 0 (l !! Z.to_nat (b - a)) else ldb m b.
Proof.
  induction l as [|c l IH]; intros m a b; cbn [store_bytes].
  - case_if; simpl in *; (done || lia).
  - rewrite IH, ldb_stb. simpl length.
    destruct (Z.eqb_spec a b) as [->|Hne].
    + rewrite (proj2 (Z.leb_gt (b + 1) b)) by lia. cbn [andb]. rewrite (proj2 (Z.leb_le b b)), (proj2 (Z.ltb_lt b _)) by lia.
      by rewrite Z.sub_diag.
    + destruct (Z.le_gt_cases a b) as [Hab|Hab].
      * rewrite (proj2 (Z.leb_le a b)), (proj2 (Z.leb_le (a + 1) b)) by lia. cbn [andb].
        replace (Z.to_nat (b - a)) with (S (Z.to_nat (b - (a + 1)))) by lia. cbn [lookup list_lookup].
        replace (a + Z.of_nat (S (length l))) with (a + 1 + Z.of_nat (length l)) by lia. done.
      * rewrite (proj2 (Z.leb_gt a b)), (proj2 (Z.leb_gt (a + 1) b)) by lia. done.
Qed.

(** Contents after writing [l] at [p]. *)
Definition upd (c : Z -> Z) (p : Z) (l : list Z) (o : Z) : Z :=
  if (p <=? o) && (o <? p + Z.of_nat (length l)) then default 0 (l !! Z.to_nat (o - p)) else c o.

Lemma upd_app c p l1 l2 o : upd (upd c p l1) (p + Z.of_nat (length l1)) l2 o = upd c p (l1 ++ l2) o.
Proof.
  unfold upd. rewrite length_app. set (n1 := Z.of_nat (length l1)).
  destruct (Z.le_gt_cases p o) as [Hp|Hp].
  - rewrite (proj2 (Z.leb_le p o)) by lia. cbn [andb]. destruct (Z.lt_ge_cases o (p + n1)) as [Ho|Ho].
    + rewrite (proj2 (Z.leb_gt (p + n1) o)), (proj2 (Z.ltb_lt o (p + n1))), (proj2 (Z.ltb_lt o (p + _))) by lia.
      cbn [andb]. rewrite lookup_app_l by lia. done.
    + rewrite (proj2 (Z.leb_le (p + n1) o)) by lia. cbn [andb].
      replace (p + Z.of_nat (length l1 + length l2)) with (p + n1 + Z.of_nat (length l2)) by lia.
      rewrite (proj2 (Z.ltb_ge o (p + n1))) by lia. case_if; [|done].
      rewrite lookup_app_r by lia. f_equal. f_equal. lia.
  - rewrite (proj2 (Z.leb_gt p o)), (proj2 (Z.leb_gt (p + n1) o)) by lia. done.
Qed.

Lemma upd_nil c p o : upd c p [] o = c o.
Proof. unfold upd. simpl. case_if; (done || lia). Qed.

Lemma upd_ext c c' p l o : c o = c' o -> upd c p l o = upd c' p l o.
Proof. intros E. unfold upd. by rewrite E. Qed.

(** ** Allocating and writing one block *)

Lemma direct_some k idata i : file_wf k idata -> 0 <= i < 12 -> directblock idata !! Z.to_nat i = Some (direct idata i).
Proof.
  intros Hwf Hi. unfold direct. destruct (directblock idata !! Z.to_nat i) eqn:E; [done|].
  apply lookup_ge_None in E. rewrite (fw_len _ _ Hwf) in E. lia.
Qed.

Lemma missing_insert l i b : l !! i = Some 0 -> b <> 0 ->
  S (length (filter (fun b => b = 0) (<[i := b]> l))) = length (filter (fun b => b = 0) l).
Proof.
  intros H Hb. revert i H. induction l as [|c l IH]; intros [|i] H; try done.
  - injection H as ->. change (<[0%nat := b]> (0 :: l)) with (b :: l). rewrite !filter_cons.
    rewrite decide_False by done. done.
  - change (<[S i := b]> (c :: l)) with (c :: <[i := b]> l). rewrite !filter_cons.
    destruct (decide (c = 0)); simpl; [f_equal|]; by apply IH.
Qed.

Lemma new_block_ok k idata : file_wf k idata -> 0 < missing idata ->
  exists p, ramfs_new_block k = (mk_kmem p (bytes k), KERN_OFF + 4096 * PM.edge (pm k)) /\
    PM.edge p = PM.edge (pm k) + 1 /\ PM.upper_end p = PM.upper_end (pm k) /\ PM.pmem_wf p.
Proof.
  intros Hwf Hm. unfold ramfs_new_block, PM.kmem_alloc. destruct (fw_pm _ _ Hwf) as [Hp Hu].
  destruct (PM.pmem_alloc (pm k) 1) as [p a] eqn:E. pose proof (fw_room _ _ Hwf) as Hr.
  destruct (PM.pmem_alloc_ok _ 1 _ _ Hp ltac:(done) E) as [(_ & _ & ?)|(-> & He & Hue & Hp' & _)]; [lia|].
  exists p. split_and!; try done. unfold PM.__va, PAGE_BYTES, KERN_OFF, PM.pmem_wf in *.
  rewrite u32_small by (unfold in_u32; lia). f_equal. lia.
Qed.

Lemma or_new_ok k idata i : file_wf k idata -> 0 <= i < 12 ->
  exists k' idata' b, ramfs_block_by_index_or_new k idata i = (k', idata', b) /\
    file_wf k' idata' /\ i_size idata' = i_size idata /\ b <> 0 /\ direct idata' i = b /\
    (forall o, 0 <= o < FILE_MAX -> content k' idata' o = content k idata o).
Proof.
  intros Hwf Hi. unfold ramfs_block_by_index_or_new, N_DIRECT_BLOCKS. rewrite (proj2 (Z.ltb_lt i 12)) by lia.
  fold (direct idata i). pose proof (direct_some _ _ _ Hwf Hi) as Hd.
  destruct (Z.eqb_spec (direct idata i) 0) as [Hz|Hnz]; [|by exists k, idata, (direct idata i)].
  rewrite Hz in Hd. set (b := KERN_OFF + 4096 * PM.edge (pm k)). destruct (fw_pm _ _ Hwf) as [Hp Hu].
  assert (Hb : b <> 0) by (unfold b, KERN_OFF; unfold PM.pmem_wf in Hp; lia).
  pose proof (missing_insert _ _ b Hd Hb) as Hmi.
  destruct (new_block_ok k idata Hwf) as (p & -> & He & Hue & Hp'); [unfold missing; lia|]. fold b.
  set (db := <[Z.to_nat i := b]> (directblock idata)).
  assert (Hlt : (Z.to_nat i < length (directblock idata))%nat) by (rewrite (fw_len _ _ Hwf); lia).
  do 3 eexists. split; [done|]. split_and!; [|done|done| |].
  - pose proof (fw_room _ _ Hwf) as Hr. unfold missing in Hr. constructor; cbn [pm bytes directblock].
    + unfold db. rewrite length_insert. apply (fw_len _ _ Hwf).
    + by rewrite Hue.
    + unfold missing. cbn [directblock]. unfold db. lia.
    + intros j b' [(<- & <- & _)|[_ Hj]]%list_lookup_insert_Some Hb'.
      * exists (PM.edge (pm k)). split; [done|]. unfold PM.pmem_wf in Hp. lia.
      * destruct (fw_block _ _ Hwf j b' Hj Hb') as (f & -> & Hf). exists f. split; [done|lia].
    + assert (Hold : forall j, directblock idata !! j = Some b -> False).
      { intros j Hj. destruct (fw_block _ _ Hwf j b Hj Hb) as (f & Ef & Hf). unfold b in Ef. lia. }
      intros j j' b' [(<- & <- & _)|[Hn1 Hj]]%list_lookup_insert_Some [(<- & E & _)|[Hn2 Hj']]%list_lookup_insert_Some Hb';
        [done|by destruct (Hold j')|subst b'; by destruct (Hold j)|by eapply (fw_distinct _ _ Hwf)].
    + intros a Ha. apply (fw_clear _ _ Hwf). lia.
  - unfold direct. cbn [directblock]. unfold db. by rewrite list_lookup_insert_eq.
  - intros o Ho. unfold content, direct. cbn [directblock bytes]. unfold db, FILE_MAX in *.
    destruct (decide (Z.to_nat i = Z.to_nat (o / 4096))) as [E|E].
    + rewrite E, list_lookup_insert_eq by lia. simpl. rewrite <- E, Hd. simpl.
      rewrite (proj2 (Z.eqb_neq b 0)) by done. apply (fw_clear _ _ Hwf). unfold b.
      pose proof (Z.mod_pos_bound o 4096 ltac:(lia)). lia.
    + by rewrite list_lookup_insert_ne.
Qed.

Lemma write_block_ok k idata i off l :
  file_wf k idata -> 0 <= i < 12 -> 0 <= off -> off + Z.of_nat (length l) <= 4096 ->
  exists k' idata', write_block k idata i off l = (k', idata', true) /\
    file_wf k' idata' /\ i_size idata' = i_size idata /\
    (forall o, 0 <= o < FILE_MAX -> content k' idata' o = upd (content k idata) (4096 * i + off) l o).
Proof.
  intros Hwf Hi Ho Hl. unfold write_block.
  destruct (or_new_ok k idata i Hwf Hi) as (k1 & id1 & b & -> & Hwf1 & Hs & Hb & Hdb & Hc).
  rewrite (proj2 (Z.eqb_neq b 0)) by done. do 2 eexists. split; [done|].
  pose proof (direct_some _ _ _ Hwf1 Hi) as Hd. rewrite Hdb in Hd.
  destruct (fw_block _ _ Hwf1 _ _ Hd Hb) as (f & Ef & Hf). split_and!; [|done|].
  - constructor; try apply Hwf1. cbn [pm bytes]. intros a Ha. rewrite ldb_store_bytes. case_if; [lia|..];
      by apply (fw_clear _ _ Hwf1).
  - intros o Hor. rewrite (upd_ext _ (content k1 id1)) by (symmetry; by apply Hc).
    unfold content at 1. unfold upd, FILE_MAX in *. cbn [bytes].
    assert (Eo : o = 4096 * (o / 4096) + o mod 4096 /\ 0 <= o mod 4096 < 4096) by (clear; zlia).
    assert (0 <= o / 4096 < 12) as Hoi by (clear -Hor; zlia).
    pose proof (direct_some _ _ _ Hwf1 Hoi) as Hdo. unfold content.
    destruct (Z.eqb_spec (direct id1 (o / 4096)) 0) as [Hz|Hnz].
    + assert (o / 4096 <> i) by (intros E; rewrite E in Hz; congruence). case_if; [lia|done|done].
    + destruct (fw_block _ _ Hwf1 _ _ Hdo Hnz) as (g & Eg & Hg).
      rewrite ldb_store_bytes, Ef, Eg. destruct (Z.eq_dec (o / 4096) i) as [E|E].
      * assert (f = g) as -> by (rewrite E, Hdb in Eg; lia).
        set (r := o mod 4096) in *. destruct Eo as [Eo1 Eo2]. rewrite E in Eo1. clearbody r. subst o.
        replace (KERN_OFF + 4096 * g + off <=? KERN_OFF + 4096 * g + r) with (4096 * i + off <=? 4096 * i + r)
          by (apply eq_true_iff_eq; rewrite !Z.leb_le; lia).
        replace (KERN_OFF + 4096 * g + r <? KERN_OFF + 4096 * g + off + Z.of_nat (length l))
          with (4096 * i + r <? 4096 * i + off + Z.of_nat (length l))
          by (apply eq_true_iff_eq; rewrite !Z.ltb_lt; lia).
        replace (KERN_OFF + 4096 * g + r - (KERN_OFF + 4096 * g + off)) with (4096 * i + r - (4096 * i + off)) by lia. done.
      * assert (f <> g).
        { intros <-. apply E. rewrite <- Ef in Eg. rewrite Eg in Hdo.
          pose proof (fw_distinct _ _ Hwf1 _ _ _ Hd Hdo Hb). lia. }
        repeat (case_if; try lia); done.
Qed.

(** ** Writing *)

Lemma write_loop_ok buf pos fuel : forall k idata w i,
  file_wf k idata -> 0 <= w <= Z.of_nat (length buf) -> 0 <= i -> 4096 * i = pos + w ->
  pos + Z.of_nat (length buf) <= FILE_MAX -> (Z.of_nat (length buf) - w) / 4096 < Z.of_nat fuel ->
  exists k' idata' w' i', write_loop fuel k idata buf w i = (k', idata', w', i', true) /\
    file_wf k' idata' /\ i_size idata' = i_size idata /\
    w <= w' <= Z.of_nat (length buf) /\ Z.of_nat (length buf) - w' < 4096 /\ 4096 * i' = pos + w' /\ 0 <= i' /\
    (forall o, 0 <= o < FILE_MAX ->
       content k' idata' o = upd (content k idata) (pos + w) (take (Z.to_nat (w' - w)) (drop (Z.to_nat w) buf)) o).
Proof.
  induction fuel as [|fuel IH]; intros k idata w i Hwf Hw Hi Hp Hm Hf; cbn [write_loop].
  { exfalso. clear -Hw Hf. zlia. }
  unfold PAGE_BYTES. destruct (Z.leb_spec (w + 4096) (Z.of_nat (length buf))) as [Hle|Hgt].
  - set (l := take (Z.to_nat 4096) (drop (Z.to_nat w) buf)).
    assert (Hll : Z.of_nat (length l) = 4096) by (unfold l; rewrite length_take, length_drop; lia).
    destruct (write_block_ok k idata i 0 l Hwf) as (k1 & id1 & -> & Hwf1 & Hs1 & Hc1);
      [unfold FILE_MAX in Hm; lia|lia|lia|].
    destruct (IH k1 id1 (w + 4096) (i + 1)) as (k2 & id2 & w2 & i2 & -> & Hwf2 & Hs2 & Hw2 & Hr2 & Hi2 & H0 & Hc2);
      try done; try lia; [clear -Hf; zlia|].
    do 4 eexists. split; [done|]. split_and!; try done; try lia.
    intros o Ho. rewrite Hc2 by done. rewrite (upd_ext _ _ _ _ _ (Hc1 o Ho)).
    replace (4096 * i + 0) with (pos + w) by lia. replace (pos + (w + 4096)) with (pos + w + Z.of_nat (length l)) by lia.
    rewrite upd_app. f_equal. unfold l.
    replace (drop (Z.to_nat (w + 4096)) buf) with (drop (Z.to_nat 4096) (drop (Z.to_nat w) buf)) by (rewrite drop_drop; f_equal; lia).
    rewrite <- (take_drop (Z.to_nat 4096) (take (Z.to_nat (w2 - w)) (drop (Z.to_nat w) buf))).
    rewrite take_take, skipn_firstn_comm. f_equal; f_equal; lia.
  - do 4 eexists. split; [done|]. split_and!; try done; try lia.
    intros o Ho. by rewrite Z.sub_diag, upd_nil.
Qed.

Lemma s32_u32_small x : 0 <= x < 2147483648 -> s32 (u32 x) = x.
Proof. intros H. rewrite u32_small by (unfold in_u32; lia). apply s32_small. unfold in_s32. lia. Qed.

Lemma set_size_wf k idata sz :
  file_wf k idata -> file_wf k (mk_reg sz (block_count idata) (directblock idata) (indir1st_block idata)).
Proof. intros [H1 H2 H3 H4 H5 H6]. by constructor. Qed.

Lemma write_inode_ok k idata pos buf :
  file_wf k idata -> 0 <= pos -> pos + Z.of_nat (length buf) <= FILE_MAX ->
  exists k' idata', ramfs_write_inode k idata pos buf = (k', idata', 0, Z.of_nat (length buf)) /\
    file_wf k' idata' /\ i_size idata' = Z.max (i_size idata) (pos + Z.of_nat (length buf)) /\
    (forall o, 0 <= o < FILE_MAX -> content k' idata' o = upd (content k idata) pos buf o).
Proof.
  intros Hwf Hpos Hm. unfold ramfs_write_inode. set (n := Z.of_nat (length buf)) in *.
  assert (E32 : s32 (u32 (pos + n)) = pos + n) by (apply s32_u32_small; unfold FILE_MAX in Hm; lia). rewrite E32.
  (* the exit path *)
  assert (Hexit : forall k1 id1 r w, file_wf k1 id1 -> i_size id1 = i_size idata -> r = 0 -> w = n ->
    (forall o, 0 <= o < FILE_MAX -> content k1 id1 o = upd (content k idata) pos buf o) ->
    exists k' idata', (k1, (if i_size id1 <? pos + n then mk_reg (pos + n) (block_count id1) (directblock id1) (indir1st_block id1) else id1), r, w)
      = (k', idata', 0, n) /\ file_wf k' idata' /\ i_size idata' = Z.max (i_size idata) (pos + n) /\
      (forall o, 0 <= o < FILE_MAX -> content k' idata' o = upd (content k idata) pos buf o)).
  { intros k1 id1 r w Hw1 Hs1 -> -> Hc1. do 2 eexists. split; [done|]. case_if.
    - split; [by apply set_size_wf|]. split; [simpl; lia|done].
    - split_and!; [done|lia|done]. }
  (* the first block *)
  set (off := pos mod PAGE_BYTES). set (nf := if n <? PAGE_BYTES - off then n else PAGE_BYTES - off).
  assert (Hoff : 0 <= off < 4096 /\ pos = 4096 * (pos / 4096) + off) by (unfold off, PAGE_BYTES; clear; zlia).
  assert (Hnf : nf = Z.min n (4096 - off)) by (unfold nf, PAGE_BYTES; case_if; lia).
  assert (Hfirst : exists k1 id1 w i, (if negb (off =? 0) then
      let '(k0, id0, ok) := write_block k idata (pos / PAGE_BYTES) off (take (Z.to_nat nf) buf) in
      if ok then (k0, id0, nf, pos / PAGE_BYTES + 1, true) else (k0, id0, 0, pos / PAGE_BYTES, false)
    else (k, idata, 0, pos / PAGE_BYTES, true)) = (k1, id1, w, i, true) /\
    file_wf k1 id1 /\ i_size id1 = i_size idata /\ 0 <= w <= n /\ 0 <= i /\ (w < n -> 4096 * i = pos + w) /\
    (forall o, 0 <= o < FILE_MAX -> content k1 id1 o = upd (content k idata) pos (take (Z.to_nat w) buf) o)).
  { unfold PAGE_BYTES. destruct (Z.eqb_spec off 0) as [Ez|Enz]; cbn [negb].
    - do 4 eexists. split; [done|]. split_and!; try done; try lia. intros o Ho. by rewrite upd_nil.
    - destruct (write_block_ok k idata (pos / 4096) off (take (Z.to_nat nf) buf) Hwf) as (k1 & id1 & -> & Hw1 & Hs1 & Hc1);
        [|lia|rewrite length_take; lia|].
      { unfold FILE_MAX in Hm. clear -Hpos Hm Hoff Enz. zlia. }
      do 4 eexists. split; [done|]. split_and!; try done; try lia.
      intros o Ho. rewrite Hc1 by done. replace (4096 * (pos / 4096) + off) with pos by lia. done. }
  destruct Hfirst as (k1 & id1 & w & i & -> & Hw1 & Hs1 & Hwn & Hi & Hal & Hc1). cbn [negb].
  destruct (Z.eq_dec w n) as [->|Hne].
  { (* nothing left *)
    replace (write_loop _ k1 id1 buf n i) with (k1, id1, n, i, true).
    - cbn [negb]. rewrite Z.ltb_irrefl. apply Hexit; try done. intros o Ho. rewrite Hc1 by done.
      by rewrite take_ge by lia.
    - unfold PAGE_BYTES. replace (Z.to_nat (n / 4096 + 1)) with (S (Z.to_nat (n / 4096))) by (clear -Hwn; zlia).
      cbn [write_loop]. unfold PAGE_BYTES. by rewrite (proj2 (Z.leb_gt (n + 4096) _)) by lia. }
  destruct (write_loop_ok buf pos (Z.to_nat (n / PAGE_BYTES + 1)) k1 id1 w i)
    as (k2 & id2 & w2 & i2 & -> & Hw2 & Hs2 & Hwb & Hrest & Hi2 & Hi20 & Hc2); try done; try lia;
    [unfold PAGE_BYTES; clear -Hwn; subst n; zlia|]. cbn [negb].
  assert (Hc2' : forall o, 0 <= o < FILE_MAX -> content k2 id2 o = upd (content k idata) pos (take (Z.to_nat w2) buf) o).
  { intros o Ho. rewrite Hc2 by done. rewrite (upd_ext _ _ _ _ _ (Hc1 o Ho)).
    replace (pos + w) with (pos + Z.of_nat (length (take (Z.to_nat w) buf))) by (rewrite length_take; lia).
    rewrite upd_app. f_equal. rewrite <- (take_drop (Z.to_nat w) (take (Z.to_nat w2) buf)).
    rewrite take_take, skipn_firstn_comm. f_equal; f_equal; lia. }
  destruct (Z.ltb_spec w2 n) as [Hlt|Hge].
  - set (l := drop (Z.to_nat w2) buf).
    destruct (write_block_ok k2 id2 i2 0 l Hw2) as (k3 & id3 & -> & Hw3 & Hs3 & Hc3);
      [unfold FILE_MAX in Hm; lia|lia|unfold l; rewrite length_drop; lia|].
    apply Hexit; try done; try lia. intros o Ho. rewrite Hc3 by done. rewrite (upd_ext _ _ _ _ _ (Hc2' o Ho)).
    replace (4096 * i2 + 0) with (pos + Z.of_nat (length (take (Z.to_nat w2) buf))) by (rewrite length_take; lia).
    rewrite upd_app. unfold l. by rewrite take_drop.
  - apply Hexit; try done; try lia. intros o Ho. rewrite Hc2' by done. by rewrite take_ge by lia.
Qed.

(** ** Reading *)

(** The bytes of the contents from [pos] on. *)
Definition slice (c : Z -> Z) (pos n : Z) : list Z := c <$> seqZ pos n.

Lemma slice_app c pos a b : 0 <= a -> 0 <= b -> slice c pos (a + b) = slice c pos a ++ slice c (pos + a) b.
Proof. intros Ha Hb. unfold slice. rewrite seqZ_app by done. by rewrite fmap_app. Qed.

Lemma slice_nil c pos n : n <= 0 -> slice c pos n = [].
Proof. intros Hn. unfold slice. by rewrite seqZ_nil. Qed.

Lemma slice_ext c c' pos n : (forall o, pos <= o < pos + n -> c o = c' o) -> slice c pos n = slice c' pos n.
Proof.
  intros H. apply list_fmap_ext. intros i o Hi. apply lookup_seqZ in Hi as [-> Hi]. apply H. lia.
Qed.

Lemma load_bytes_slice m a n : load_bytes m a n = slice (ldb m) a n.
Proof.
  unfold load_bytes, slice, seqZ. rewrite <- list_fmap_compose. apply list_fmap_ext.
  intros i x _. simpl. f_equal. lia.
Qed.

Lemma slice_shift c c' p q n : (forall o, 0 <= o < n -> c (p + o) = c' (q + o)) -> slice c p n = slice c' q n.
Proof.
  intros H. unfold slice, seqZ. rewrite <- !list_fmap_compose. apply list_fmap_ext.
  intros i x Hx. apply lookup_seq in Hx as [-> Hi]. simpl.
  rewrite (Z.add_comm _ p), (Z.add_comm _ q). apply H. lia.
Qed.

Lemma slice_zeros p n : slice (fun _ => 0) p n = replicate (Z.to_nat n) 0.
Proof.
  unfold slice, seqZ. rewrite <- list_fmap_compose. generalize 0%nat as a.
  induction (Z.to_nat n) as [|m IH]; intros a; [done|]. simpl. by rewrite IH.
Qed.

Lemma read_block_ok k idata i off n :
  0 <= i < 12 -> 0 <= off -> 0 <= n -> off + n <= 4096 ->
  read_block k idata i off n = slice (content k idata) (4096 * i + off) n.
Proof.
  intros Hi Ho Hn Hb. unfold read_block, ramfs_block_by_index, N_DIRECT_BLOCKS.
  rewrite (proj2 (Z.ltb_lt i 12)) by lia. fold (direct idata i).
  assert (Hc : forall o, 0 <= o < n -> content k idata (4096 * i + off + o) =
     if direct idata i =? 0 then 0 else ldb (bytes k) (direct idata i + (off + o))).
  { intros o Hor. unfold content. replace ((4096 * i + off + o) / 4096) with i by (clear -Ho Hor Hb; zlia).
    replace ((4096 * i + off + o) mod 4096) with (off + o) by (clear -Ho Hor Hb; zlia). done. }
  destruct (direct idata i =? 0) eqn:E; cbn [negb].
  - rewrite (slice_shift _ (fun _ => 0) _ 0) by (intros; by apply Hc). by rewrite slice_zeros.
  - rewrite load_bytes_slice. apply slice_shift. intros o Hor. rewrite Hc by done. f_equal. lia.
Qed.

Section read.
Context (k : kmem) (idata : reg_inode) (pos n : Z).
Context (Hpos : 0 <= pos < i_size idata) (Hn : 0 <= n < 2 ^ 30) (Hsz : i_size idata <= FILE_MAX).

(** What there is to read. *)
Let avail : Z := Z.min n (i_size idata - pos).
Let c : Z -> Z := content k idata.

Lemma read_loop_ok fuel : forall w i,
  0 <= w <= avail -> (w < avail -> 4096 * i = pos + w) -> 0 <= i -> (n - w) / 4096 < Z.of_nat fuel ->
  exists w' i', read_loop fuel k idata pos n w i (slice c pos w) = (w', i', slice c pos w') /\
    0 <= w' <= avail /\ avail - w' < 4096 /\ 0 <= i' /\ (w' < avail -> 4096 * i' = pos + w').
Proof.
  induction fuel as [|fuel IH]; intros w i Hw Hi H0 Hf; cbn [read_loop].
  { exfalso. clear -Hw Hf. zlia. }
  unfold PAGE_BYTES. unfold FILE_MAX in Hsz.
  destruct (Z.le_gt_cases (w + 4096) n) as [Ha|Ha]; [rewrite (proj2 (Z.leb_le _ _) Ha)|].
  - rewrite s32_u32_small by lia. cbn [andb]. destruct (Z.leb_spec (pos + w + 4096) (i_size idata)) as [Hb|Hb].
    + rewrite read_block_ok by lia. fold c. replace (4096 * i + 0) with (pos + w) by lia.
      rewrite <- slice_app by lia. apply IH; try lia. clear -Hf. zlia.
    + exists w, i. split_and!; try done; lia.
  - rewrite (proj2 (Z.leb_gt _ _) Ha). cbn [andb]. exists w, i. split_and!; try done; lia.
Qed.

Lemma read_inode_ok : pos mod 4096 = 0 \/ pos + n <= i_size idata ->
  ramfs_read_inode k idata pos n = slice c pos avail.
Proof.
  intros Hal. unfold ramfs_read_inode, PAGE_BYTES.
  rewrite (proj2 (Z.leb_gt (i_size idata) pos)) by lia.
  set (off := pos mod 4096). assert (Hoff : 0 <= off < 4096 /\ pos = 4096 * (pos / 4096) + off) by (unfold off; clear; zlia).
  assert (Hi0 : 0 <= pos / 4096) by (clear -Hpos; zlia).
  assert (Hfirst : exists w i, (if negb (off =? 0) then
      let nread := 4096 - off in let nread := if n <? nread then n else nread in
      let nread := if i_size idata <? s32 nread then i_size idata else nread in
      (nread, pos / 4096 + 1, read_block k idata (pos / 4096) off nread)
    else (0, pos / 4096, [])) = (w, i, slice c pos w) /\
    0 <= w <= avail /\ 0 <= i /\ (w < avail -> 4096 * i = pos + w)).
  { destruct (Z.eqb_spec off 0) as [Ez|Enz]; cbn [negb].
    - do 2 eexists. split; [by rewrite slice_nil|]. lia.
    - destruct Hal as [Hal|Hal]; [unfold off in Enz; lia|]. cbv zeta. set (m := if n <? 4096 - off then n else 4096 - off).
      assert (Hm : m = Z.min n (4096 - off)) by (unfold m; case_if; lia).
      rewrite s32_small by (unfold in_s32; lia). rewrite (proj2 (Z.ltb_ge (i_size idata) m)) by lia.
      unfold FILE_MAX in Hsz. rewrite read_block_ok; [|lia..]. replace (4096 * (pos / 4096) + off) with pos by lia.
      do 2 eexists. split; [done|]. lia. }
  cbv zeta in Hfirst |- *. destruct Hfirst as (w & i & -> & Hw & Hi & Hwi).
  destruct (read_loop_ok (Z.to_nat (n / 4096 + 1)) w i) as (w' & i' & -> & Hw' & Hrest & Hi' & Hwi'); try done.
  { clear -Hw Hn. zlia. }
  unfold FILE_MAX in Hsz. rewrite s32_u32_small by lia. rewrite (s32_u32_small (pos + w' + (n - w'))) by lia.
  destruct (Z.eq_dec w' avail) as [E|E].
  - replace ((w' <? n) && (pos + w' <? i_size idata)) with false; [by rewrite E|].
    symmetry. apply andb_false_iff. rewrite !Z.ltb_ge. lia.
  - rewrite (proj2 (Z.ltb_lt w' n)), (proj2 (Z.ltb_lt (pos + w') _)) by lia. cbn [andb].
    set (t := if i_size idata <? pos + w' + (n - w') then i_size idata - (pos + w') else n - w').
    assert (Ht : t = avail - w') by (unfold t; case_if; lia).
    rewrite read_block_ok by lia. fold c. replace (4096 * i' + 0) with (pos + w') by lia.
    rewrite <- slice_app by lia. f_equal. lia.
Qed.
End read.

(** Reading back the bytes written by [upd]. *)
Lemma slice_upd c p l : slice (upd c p l) p (Z.of_nat (length l)) = l.
Proof.
  apply list_eq. intros i. unfold slice. rewrite list_lookup_fmap. destruct (decide (i < length l)%nat) as [Hi|Hi].
  - rewrite lookup_seqZ_lt by lia. simpl. unfold upd. rewrite (proj2 (Z.leb_le p _)), (proj2 (Z.ltb_lt (p + _) _)) by lia.
    simpl. replace (Z.to_nat (p + Z.of_nat i - p)) with i by lia.
    destruct (l !! i) eqn:E; [done|]. apply lookup_ge_None in E. lia.
  - rewrite (proj2 (lookup_ge_None l i)) by lia. by rewrite lookup_seqZ_ge by lia.
Qed.

(** ** The claims *)

(** A write within the direct blocks succeeds and writes everything: the
    contents change to the written bytes at [pos] and nowhere else, the size
    grows to cover them, and the block structure stays well-formed. *)
Theorem ramfs_write_correct k idata pos buf :
  file_wf k idata -> 0 <= pos -> pos + Z.of_nat (length buf) <= FILE_MAX ->
  exists k' idata', ramfs_write_inode k idata pos buf = (k', idata', 0, Z.of_nat (length buf)) /\
    file_wf k' idata' /\ i_size idata' = Z.max (i_size idata) (pos + Z.of_nat (length buf)) /\
    (forall o, 0 <= o < FILE_MAX -> content k' idata' o = upd (content k idata) pos buf o).
Proof. apply write_inode_ok. Qed.

(** A read returns the contents from [pos] up to the end of the file or
    of the buffer, holes as zeros, whatever blocks they span, provided it starts on a
    block boundary or stays inside the file. *)
Theorem ramfs_read_correct k idata pos n :
  0 <= pos < i_size idata -> 0 <= n < 2 ^ 30 -> i_size idata <= FILE_MAX ->
  pos mod 4096 = 0 \/ pos + n <= i_size idata ->
  ramfs_read_inode k idata pos n = slice (content k idata) pos (Z.min n (i_size idata - pos)).
Proof. intros. by apply read_inode_ok. Qed.

(** C22: what is written into the 12 direct blocks of a file, its first 49152
    bytes, can be read back: after a write the same range reads as the buffer, and
    a range disjoint from it that was inside the file reads as before.  The memory
    behind the allocated frames is clear and has room for the blocks that are
    missing. *)
Theorem ramfs_write_read k idata pos buf :
  file_wf k idata -> 0 <= pos -> pos + Z.of_nat (length buf) <= FILE_MAX -> (0 < length buf)%nat ->
  i_size idata <= FILE_MAX ->
  exists k' idata', ramfs_write_inode k idata pos buf = (k', idata', 0, Z.of_nat (length buf)) /\
    ramfs_read_inode k' idata' pos (Z.of_nat (length buf)) = buf /\
    (forall q m, 0 <= q -> 0 < m -> q + m <= i_size idata -> q + m <= pos \/ pos + Z.of_nat (length buf) <= q ->
       ramfs_read_inode k' idata' q m = ramfs_read_inode k idata q m).
Proof.
  intros Hwf Hp Hm Hl Hsz. destruct (write_inode_ok k idata pos buf) as (k' & id' & -> & Hwf' & Hs' & Hc); try done.
  exists k', id'. unfold FILE_MAX in *. split; [done|]. split.
  - rewrite read_inode_ok; [|unfold FILE_MAX; lia..]. rewrite Z.min_l by lia.
    rewrite (slice_ext _ (upd (content k idata) pos buf)) by (intros; apply Hc; unfold FILE_MAX; lia). apply slice_upd.
  - intros q m Hq Hm0 Hqm Hd. rewrite (read_inode_ok k' id'), (read_inode_ok k idata) by (unfold FILE_MAX; lia). rewrite !Z.min_l by lia.
    apply slice_ext. intros o Ho. rewrite Hc by lia. unfold upd. case_if; (done || lia).
Qed.

(** A file of 6 bytes in frame 4, with frames 5 to 20 free. *)
Definition demo_k : kmem := RB.mk_kmem (PM.mk_pmem 5 20) (store_bytes ∅ (KERN_OFF + 4096 * 4) [104; 101; 108; 108; 111; 33]).
Definition demo_inode : reg_inode := mk_reg 6 1 ((KERN_OFF + 4096 * 4) :: replicate 11 0) 0.

Lemma demo_file_wf : file_wf demo_k demo_inode.
Proof.
  constructor; [done|done|by vm_compute|..].
  - intros [|i] b; simpl; [intros [= <-] _; exists 4; by vm_compute|].
    intros Hl Hb. apply (lookup_replicate_1 11 0 b i) in Hl as [-> _]. done.
  - intros [|i] [|j] b; simpl; intros Hi Hj Hb; [done|..];
      [apply (lookup_replicate_1 11 0 b j) in Hj as [-> _]|apply (lookup_replicate_1 11 0 b i) in Hi as [-> _]..]; done.
  - intros a Ha. unfold demo_k, RB.bytes. rewrite ldb_store_bytes. simpl in *. case_if; (done || lia).
Qed.

Lemma ramfs_write_read_witness :
  exists k' idata', ramfs_write_inode demo_k demo_inode 4094 [1; 2; 3; 4] = (k', idata', 0, 4) /\
    ramfs_read_inode k' idata' 4094 4 = [1; 2; 3; 4] /\
    (forall q m, 0 <= q -> 0 < m -> q + m <= 6 -> q + m <= 4094 \/ 4098 <= q ->
       ramfs_read_inode k' idata' q m = ramfs_read_inode demo_k demo_inode q m).
Proof. apply (ramfs_write_read demo_k demo_inode 4094 [1; 2; 3; 4]); simpl; unfold FILE_MAX; [apply demo_file_wf|lia..]. Defined.

(** ** Defects the model shows *)

(** From inside a block the first copy is bounded by the size, not by what is
    left: six bytes are returned where five are left. *)
Lemma read_past_end : i_size demo_inode = 6 /\ ramfs_read_inode demo_k demo_inode 1 100 = [101; 108; 108; 111; 33; 0].
Proof. by vm_compute. Qed.

(** A block stored in the indirect block is not found again: the pointer is
    read as one signed byte. *)
Lemma indirect_block_lost :
  let '(k, idata, b) := ramfs_block_by_index_or_new demo_k demo_inode 12 in
  b = KERN_OFF + 4096 * 6 /\ ramfs_block_by_index k idata 12 = 0.
Proof. by vm_compute. Qed.

(** When no page is left the block is taken for [KERN_OFF], the kernel
    address of frame 0, and the write goes there. *)
Lemma write_without_memory :
  let k := RB.mk_kmem (PM.mk_pmem 20 20) ∅ in
  let '(k', idata', ret, n) := ramfs_write_inode k demo_inode 4096 [7] in
  ret = 0 /\ n = 1 /\ ldb (RB.bytes k') KERN_OFF = 7.
Proof. by vm_compute. Qed.

(** A write that fails with EIO still extends the file over the bytes it did
    not write. *)
Lemma failed_write_extends :
  let '(k', idata', ret, n) := ramfs_write_inode demo_k demo_inode 4243456 [7] in
  ret = EIO /\ n = 0 /\ i_size idata' = 4243457.
Proof. by vm_compute. Qed.

End RBP.
