(* ===== verification/RamFS.v ===== *)
(** * ramfs: inodes, paths, links (src/fs/ramfs.c)

    Module [RF]: the operations of the ram file system on inodes and paths.

    The kernel heap is any implementation of [KH.Heap]; it holds the
    [struct inode]s and the directories, which live in maps by address.
    Directory entries, their names, hash arrays and the nodes of the inode
    tree are taken to be allocated without failure.  An operation that touches freed or
    uninitialised memory has no result ([None]).  A path or a name is the
    list of its bytes before the terminating NUL. *)

From S2P Require Import Prelude PMem RamBlocks BTree CString CStringProofs RamDir KHeap.
Import KH.

Module RF.

Definition ENOENT : Z := 2.
Definition ENOMEM : Z := 12.
Definition EEXIST : Z := 17.
Definition ENOTDIR : Z := 20.
Definition EISDIR : Z := 21.
Definition EINVAL : Z := 22.
Definition EKERN : Z := 40.

Definition FS_SEP : Z := 47.
Definition UCHAR_MAX : Z := 255.

(** ** File modes (lib/c/include/sys/stat.h) *)

Definition S_IFMT : Z := 61440.
Definition S_IFSOCK : Z := 49152.
Definition S_IFLNK : Z := 40960.
Definition S_IFREG : Z := 32768.
Definition S_IFBLK : Z := 24576.
Definition S_IFDIR : Z := 16384.
Definition S_IFCHR : Z := 8192.
Definition S_IFIFO : Z := 4096.
Definition fmt (m : Z) : Z := Z.land m S_IFMT.
Definition S_ISLNK (m : Z) : bool := fmt m =? S_IFLNK.
Definition S_ISREG (m : Z) : bool := fmt m =? S_IFREG.
Definition S_ISDIR (m : Z) : bool := fmt m =? S_IFDIR.
Definition S_ISCHR (m : Z) : bool := fmt m =? S_IFCHR.
Definition S_ISBLK (m : Z) : bool := fmt m =? S_IFBLK.

(** ** Device numbers (lib/c/include/sys/types.h), [dev_t] has 64 bits *)

Definition gnu_dev_major (dev : Z) : Z :=
  Z.lor (Z.land (Z.shiftr dev 8) 4095) (Z.land (u32 (Z.shiftr dev 32)) (u32 (Z.lnot 4095))).
Definition gnu_dev_minor (dev : Z) : Z :=
  u32 (Z.lor (Z.land dev 255) (Z.land (u32 (Z.shiftr dev 12)) (u32 (Z.lnot 255)))).
Definition gnu_dev_makedev (major minor : Z) : Z :=
  Z.lor (Z.lor (Z.lor (Z.land minor 255) (Z.shiftl (Z.land major 4095) 8))
               (u64 (Z.shiftl (Z.land minor (u32 (Z.lnot 255))) 12)))
        (u64 (Z.shiftl (Z.land major (u32 (Z.lnot 4095))) 32)).

(** ** Data *)

(** [union as] is its sixteen words: [reg] is the block count, the twelve
    direct blocks and the three indirect ones, [dev] is the major and the
    minor number. *)
Record inode := mk_inode {
  i_no : Z; i_mode : Z; i_nlinks : Z; i_nfds : Z; i_size : Z; i_data : Z; i_as : list Z }.

Definition set_nlinks (i : inode) (n : Z) : inode := mk_inode (i_no i) (i_mode i) n (i_nfds i) (i_size i) (i_data i) (i_as i).
Definition set_data (i : inode) (d : Z) : inode := mk_inode (i_no i) (i_mode i) (i_nlinks i) (i_nfds i) (i_size i) d (i_as i).
Definition set_as (i : inode) (sz : Z) (w : list Z) : inode := mk_inode (i_no i) (i_mode i) (i_nlinks i) (i_nfds i) sz (i_data i) w.

Definition word (i : inode) (k : nat) : Z := default 0 (i_as i !! k).
Definition as_reg (i : inode) : RB.reg_inode :=
  RB.mk_reg (i_size i) (word i 0) (take 12 (drop 1 (i_as i))) (word i 13).
Definition put_reg (i : inode) (r : RB.reg_inode) : inode :=
  set_as i (RB.i_size r) (RB.block_count r :: RB.directblock r ++ [RB.indir1st_block r; word i 14; word i 15]).
Definition inode_devno (i : inode) : Z := gnu_dev_makedev (word i 0) (word i 1).

Definition zero_as : list Z := replicate 16 0.

Section ramfs.
Context {H : Type} `{Heap H}.

(** A mounted ramfs: kernel heap and memory, the tree of inode pointers, the
    inodes and directories by address, and the superblock's root inode and
    parent. *)
Record ramfs := mk_fs {
  hp : H; km : RB.kmem; inodes_btree : BT.bnode;
  idatas : gmap Z inode; dirs : gmap Z RD.ramfs_directory;
  sb_root_ino : Z; sb_parent : Z }.

Definition set_hp (s : ramfs) (h : H) : ramfs := mk_fs h (km s) (inodes_btree s) (idatas s) (dirs s) (sb_root_ino s) (sb_parent s).
Definition set_km (s : ramfs) (k : RB.kmem) : ramfs := mk_fs (hp s) k (inodes_btree s) (idatas s) (dirs s) (sb_root_ino s) (sb_parent s).
Definition set_btree (s : ramfs) (t : BT.bnode) : ramfs := mk_fs (hp s) (km s) t (idatas s) (dirs s) (sb_root_ino s) (sb_parent s).
Definition set_idatas (s : ramfs) (m : gmap Z inode) : ramfs := mk_fs (hp s) (km s) (inodes_btree s) m (dirs s) (sb_root_ino s) (sb_parent s).
Definition set_dirs (s : ramfs) (m : gmap Z RD.ramfs_directory) : ramfs := mk_fs (hp s) (km s) (inodes_btree s) (idatas s) m (sb_root_ino s) (sb_parent s).
Definition put_inode (s : ramfs) (p : Z) (i : inode) : ramfs := set_idatas s (<[p := i]> (idatas s)).
Definition put_dir (s : ramfs) (d : Z) (dir : RD.ramfs_directory) : ramfs := set_dirs s (<[d := dir]> (dirs s)).

(** ** Inodes *)

Definition SIZEOF_INODE : Z := 88.
Definition SIZEOF_DIR : Z := 12.

(** The static [theInvalidInode]: 1 stands for its address, which is that of
    no heap area. *)
Definition theInvalidInode : Z := 1.

(** The pointer, 0 for NULL. *)
Definition ramfs_idata_by_inode (s : ramfs) (ino : Z) : Z := default 0 (BT.btree_get_index (inodes_btree s) ino).

(** The new inode's address and the result. *)
Definition ramfs_inode_new (s : ramfs) (mode : Z) : ramfs * Z * Z :=
  let '(h, p) := kmalloc (hp s) SIZEOF_INODE in
  let s := set_hp s h in
  if p =? 0 then (s, 0, ENOMEM)
  else
    let '(t, no) := BT.btree_new_leaf true (inodes_btree s) p in
    let s := set_btree s t in
    (put_inode s p (mk_inode no mode 0 0 0 0 zero_as), p, 0).

Definition ramfs_directory_free (s : ramfs) (d : Z) : ramfs :=
  set_hp (set_dirs s (delete d (dirs s))) (kfree (hp s) d).

Definition ramfs_inode_free (s : ramfs) (p : Z) : option ramfs :=
  match idatas s !! p with
  | None => None
  | Some idata =>
      let s :=
        if fmt (i_mode idata) =? S_IFDIR then
          if negb (i_data idata =? 0) then ramfs_directory_free s (i_data idata) else s
        else if fmt (i_mode idata) =? S_IFREG then
          set_km s (RB.ramfs_free_inode_blocks (km s) (as_reg idata) (word idata 14) (word idata 15))
        else s in
      Some (set_hp (set_idatas s (delete p (idatas s))) (kfree (hp s) p))
  end.

(** [btree_free_leaf] is not written yet: the number keeps its pointer. *)
Definition ramfs_free_inode (s : ramfs) (ino : Z) : option (ramfs * Z) :=
  let p := ramfs_idata_by_inode s ino in
  if p =? 0 then Some (s, ENOENT)
  else match ramfs_inode_free s p with
  | None => None
  | Some s => Some (s, 0)
  end.

Definition ramfs_inode_get (s : ramfs) (ino : Z) : option (Z * option inode) :=
  let p := ramfs_idata_by_inode s ino in
  if p =? 0 then Some (ENOENT, None)
  else match idatas s !! p with None => None | Some idata => Some (0, Some idata) end.

Definition ramfs_inode_set (s : ramfs) (ino : Z) (inobuf : inode) : option (ramfs * Z) :=
  let p := ramfs_idata_by_inode s ino in
  if p =? 0 then Some (s, ENOENT)
  else match idatas s !! p with
  | None => None
  | Some _ =>
      let s := put_inode s p inobuf in
      if (i_nlinks inobuf =? 0) && (i_nfds inobuf =? 0) then ramfs_free_inode s ino
      else Some (s, 0)
  end.

(** ** Paths *)

Definition chr (path : list Z) (i : Z) : Z := default 0 (path !! Z.to_nat i).

(** The end of the component at [e], and whether the path ends there. *)
Fixpoint comp_end (fuel : nat) (path : list Z) (pathlen e : Z) : option (Z * bool) :=
  match fuel with
  | O => None
  | S fuel =>
      if (pathlen <=? e) || (chr path e =? 0) then Some (e, true)
      else if chr path e =? FS_SEP then Some (e, false)
      else comp_end fuel path pathlen (e + 1)
  end.

(** [while *++basename_end == FS_SEP], as a loop on the incremented position. *)
Fixpoint skip_sep (fuel : nat) (path : list Z) (e : Z) : option Z :=
  match fuel with
  | O => None
  | S fuel => if chr path e =? FS_SEP then skip_sep fuel path (e + 1) else Some e
  end.

Definition search_result (r : option Z) : Z * Z := match r with Some ino => (0, ino) | None => (ENOENT, 0) end.

(** Result and inode number. *)
Fixpoint lookup_loop (fuel : nat) (s : ramfs) (d : Z) (path : list Z) (pathlen basename basename_end : Z)
    : option (Z * Z) :=
  match fuel, dirs s !! d with
  | S fuel, Some dir =>
      match comp_end (S (length path)) path pathlen basename_end with
      | None => None
      | Some (e, last) =>
          let r := RD.ramfs_directory_search dir (drop (Z.to_nat basename) path) (e - basename) in
          if last then Some (search_result r)
          else match r with
          | None => Some (ENOENT, 0)
          | Some ino =>
              if chr path (e + 1) =? 0 then Some (0, ino)
              else
                let p := ramfs_idata_by_inode s ino in
                if p =? 0 then Some (EKERN, 0)
                else match idatas s !! p, skip_sep (S (length path)) path (e + 1) with
                | Some idata, Some e =>
                    if negb (S_ISDIR (i_mode idata)) then Some (ENOTDIR, 0)
                    else lookup_loop fuel s (i_data idata) path pathlen e e
                | _, _ => None
                end
          end
      end
  | _, _ => None
  end.

Definition ramfs_lookup_inode (s : ramfs) (path : list Z) (pathlen : Z) : option (Z * Z) :=
  if (chr path 0 =? 0) || (pathlen =? 0) then Some (0, sb_root_ino s)
  else
    let p := ramfs_idata_by_inode s (sb_root_ino s) in
    if p =? 0 then Some (EKERN, 0)
    else match idatas s !! p with
    | None => None
    | Some root_idata =>
        if negb (S_ISDIR (i_mode root_idata)) then Some (EKERN, 0)
        else lookup_loop (S (length path)) s (i_data root_idata) path pathlen 0 0
    end.

(** The last separator before [n] bytes or the end; [None] for NULL. *)
Fixpoint strnrchr (s : list Z) (n c cur : Z) (last : option Z) : option Z :=
  match s with
  | [] => last
  | b :: s => if n <=? cur then last else strnrchr s n c (cur + 1) (if b =? c then Some cur else last)
  end.

(** [while last_sep[-1] == FS_SEP]; [None] when the byte before the path is read. *)
Fixpoint sep_run (fuel : nat) (path : list Z) (last_sep : Z) : option Z :=
  match fuel with
  | O => None
  | S fuel =>
      if last_sep =? 0 then None
      else if chr path (last_sep - 1) =? FS_SEP then sep_run fuel path (last_sep - 1)
      else Some last_sep
  end.

Definition vfs_path_dirname_len (path : list Z) (pathlen : Z) : option Z :=
  match strnrchr path pathlen FS_SEP 0 None with
  | None => Some 0
  | Some last_sep => sep_run (S (length path)) path last_sep
  end.

(** ** Links *)

(** [buf] has [UCHAR_MAX] bytes on the stack. *)
Definition ramfs_link_inode (s : ramfs) (ino dirino : Z) (name : list Z) (namelen : Z) : option (ramfs * Z) :=
  let buf := RD.ztake namelen name in
  if UCHAR_MAX <=? Z.of_nat (length buf) then None
  else
    let dp := ramfs_idata_by_inode s dirino in
    if dp =? 0 then Some (s, EKERN)
    else match idatas s !! dp with
    | None => None
    | Some dir_idata =>
        if negb (S_ISDIR (i_mode dir_idata)) then Some (s, ENOTDIR)
        else if i_data dir_idata =? 0 then Some (s, EKERN)
        else
          let p := ramfs_idata_by_inode s ino in
          if p =? 0 then Some (s, ENOENT)
          else match dirs s !! i_data dir_idata, idatas s !! p with
          | Some dir, Some idata =>
              let '(dir, ret) := RD.ramfs_directory_new_entry dir buf (i_no idata) in
              let s := put_dir s (i_data dir_idata) dir in
              if negb (ret =? 0) then Some (s, ret)
              else Some (put_inode s p (set_nlinks idata (u32 (i_nlinks idata + 1))), 0)
          | _, _ => None
          end
    end.

(** The separators before the base name; [None] is EINVAL. *)
Fixpoint skip_base (fuel : nat) (path : list Z) (pathlen dirlen : Z) : option Z :=
  match fuel with
  | O => None
  | S fuel =>
      if chr path dirlen =? FS_SEP then
        if pathlen <=? dirlen then None else skip_base fuel path pathlen (dirlen + 1)
      else Some dirlen
  end.

Definition unlink_entry (s : ramfs) (path : list Z) (pathlen dirlen d : Z) : option (ramfs * Z) :=
  match dirs s !! d, skip_base (S (length path)) path pathlen dirlen with
  | None, _ => None
  | _, None => Some (s, EINVAL)
  | Some dir, Some dirlen =>
      let basename := drop (Z.to_nat dirlen) path in
      match RD.ramfs_directory_search dir basename (pathlen - dirlen) with
      | None => Some (s, ENOENT)
      | Some ino =>
          let p := ramfs_idata_by_inode s ino in
          if p =? 0 then Some (s, EKERN)
          else match idatas s !! p with
          | None => None
          | Some idata =>
              if S_ISDIR (i_mode idata) then Some (s, EISDIR)
              else
                let '(dir, ret) := RD.ramfs_directory_delete_entry dir basename (pathlen - dirlen) in
                let s := put_dir s d dir in
                if negb (ret =? 0) then Some (s, ret)
                else
                  let idata := set_nlinks idata (u32 (i_nlinks idata - 1)) in
                  let s := put_inode s p idata in
                  if (0 <? i_nlinks idata) || (0 <? i_nfds idata) then Some (s, 0)
                  else ramfs_free_inode s ino
          end
      end
  end.

Definition ramfs_unlink_inode (s : ramfs) (path : list Z) (pathlen : Z) : option (ramfs * Z) :=
  match vfs_path_dirname_len path pathlen with
  | None => None
  | Some dirlen =>
      match ramfs_lookup_inode s path dirlen with
      | None => None
      | Some (ret, parino) =>
          if negb (ret =? 0) then Some (s, ret)
          else
            let dp := ramfs_idata_by_inode s parino in
            if dp =? 0 then Some (s, EKERN)
            else match idatas s !! dp with
            | None => None
            | Some dir_idata =>
                if negb (S_ISDIR (i_mode dir_idata)) then Some (s, ENOTDIR)
                else if i_data dir_idata =? 0 then Some (s, EKERN)
                else unlink_entry s path pathlen dirlen (i_data dir_idata)
            end
      end
  end.

(** ** Directories and nodes *)

(** Free the directory (if [d] is not NULL) and the inode. *)
Definition make_error_exit (s : ramfs) (d p ret : Z) : option (ramfs * Z * Z) :=
  let s := if negb (d =? 0) then ramfs_directory_free s d else s in
  match ramfs_inode_free s p with None => None | Some s => Some (s, ret, 0) end.

(** Enter the inode [p] as [name] in the directory [d]; one more link. *)
Definition add_entry (s : ramfs) (d : Z) (name : list Z) (p : Z) (count_always : bool) : option (ramfs * Z) :=
  match dirs s !! d, idatas s !! p with
  | Some dir, Some idata =>
      let '(dir, ret) := RD.ramfs_directory_new_entry dir name (i_no idata) in
      let s := put_dir s d dir in
      if count_always || (ret =? 0) then Some (put_inode s p (set_nlinks idata (u32 (i_nlinks idata + 1))), ret)
      else Some (s, ret)
  | _, _ => None
  end.

(** The last step: the entry ["."], then [i_data]. *)
Definition make_finish (s : ramfs) (d p : Z) : option (ramfs * Z * Z) :=
  match dirs s !! d, idatas s !! p with
  | Some dir, Some idata =>
      let '(dir, ret) := RD.ramfs_directory_new_entry dir [46] (i_no idata) in
      let s := put_dir s d dir in
      if negb (ret =? 0) then make_error_exit s d p ret
      else Some (put_inode s p (set_nlinks (set_data idata d) (u32 (i_nlinks idata + 1))), 0, i_no idata)
  | _, _ => None
  end.

(** Enter the new directory in its parent; the result of the entry is not
    looked at and the link is counted in any case. *)
Definition make_subdir (s : ramfs) (path : list Z) (d p : Z) : option (ramfs * Z * Z) :=
  let basename := default 0 (strnrchr path INT_MAX FS_SEP 0 None) in
  match ramfs_lookup_inode s path basename with
  | None => None
  | Some (ret, parino) =>
      if negb (ret =? 0) then make_error_exit s d p ret
      else
        let pp := ramfs_idata_by_inode s parino in
        if pp =? 0 then make_error_exit s d p ret
        else match idatas s !! pp, skip_sep (S (length path)) path basename with
        | Some par_idata, Some basename =>
            if negb (S_ISDIR (i_mode par_idata)) then make_error_exit s d p ENOTDIR
            else match add_entry s (i_data par_idata) (drop (Z.to_nat basename) path) p true with
            | None => None
            | Some (s, _) => make_finish s d p
            end
        | _, _ => None
        end
  end.

(** Result and inode number. *)
Definition ramfs_make_directory (s : ramfs) (path : list Z) (mode : Z) : option (ramfs * Z * Z) :=
  let '(s, p, ret) := ramfs_inode_new s (Z.lor S_IFDIR mode) in
  if negb (ret =? 0) then Some (s, ret, 0)
  else
    let '(h, d) := kmalloc (hp s) SIZEOF_DIR in
    let s := set_hp s h in
    if d =? 0 then make_error_exit s 0 p ENOMEM
    else
      let s := put_dir s d RD.ramfs_directory_new in
      if chr path 0 =? 0 then
        if sb_parent s =? 0 then
          match add_entry s d [46; 46] p false with
          | None => None
          | Some (s, ret) => if negb (ret =? 0) then make_error_exit s d p ret else make_finish s d p
          end
        else make_finish s d p
      else make_subdir s path d p.

Definition ramfs_make_node (s : ramfs) (mode info : Z) : option (ramfs * Z * Z) :=
  let '(s, p, ret) := ramfs_inode_new s mode in
  if negb (ret =? 0) then Some (s, ret, 0)
  else match idatas s !! p with
  | None => None
  | Some idata =>
      let idata :=
        if S_ISCHR mode || S_ISBLK mode then
          set_as idata (i_size idata) (gnu_dev_major (u32 info) :: gnu_dev_minor (u32 info) :: drop 2 (i_as idata))
        else idata in
      Some (put_inode s p idata, 0, i_no idata)
  end.

(** ** The superblock *)

(** An inode table with [theInvalidInode] under number 0. *)
Definition ramfs_data_new (h : H) (k : RB.kmem) (parent : Z) : ramfs :=
  let t := fst (BT.btree_set_leaf 0 (BT.btree_new 64) theInvalidInode) in
  mk_fs h k t {[ theInvalidInode := mk_inode 0 0 0 0 0 0 zero_as ]} ∅ 0 parent.

Definition ramfs_read_superblock (h : H) (k : RB.kmem) (parent : Z) : option (ramfs * Z) :=
  match ramfs_make_directory (ramfs_data_new h k parent) [] (Z.lor S_IFDIR 493) with
  | None => None
  | Some (s, ret, root_ino) =>
      if negb (ret =? 0) then Some (s, ret)
      else Some (mk_fs (hp s) (km s) (inodes_btree s) (idatas s) (dirs s) root_ino (sb_parent s), 0)
  end.

(** ** Listing a directory *)

Definition DT_UNKNOWN : Z := 0.
Definition d_type_of (mode : Z) : Z :=
  let f := fmt mode in
  if f =? S_IFREG then 8 else if f =? S_IFDIR then 4 else if f =? S_IFLNK then 10
  else if f =? S_IFCHR then 2 else if f =? S_IFBLK then 6 else if f =? S_IFSOCK then 12
  else if f =? S_IFIFO then 1 else DT_UNKNOWN.

Record dirent := mk_dirent { d_ino : Z; d_reclen : Z; d_type : option Z; d_namlen : Z; d_name : list Z }.

(** The entries of a bucket from the one with this hash on. *)
Fixpoint from_hash (hash : Z) (b : list RD.ramfs_direntry) : list RD.ramfs_direntry :=
  match b with [] => [] | de :: b' => if RD.de_hash de =? hash then b else from_hash hash b' end.

(** The first bucket from index [i] on that is not empty. *)
Fixpoint next_bucket (bs : list (list RD.ramfs_direntry)) (i : Z) : option (Z * list RD.ramfs_direntry) :=
  match bs with
  | [] => None
  | [] :: bs => next_bucket bs (i + 1)
  | b :: _ => Some (i, b)
  end.

Definition SIZEOF_DIRENT : Z := 264.

(** [d_type] is left alone ([None]) when the inode is missing. *)
Definition fill_dirent (s : ramfs) (de : RD.ramfs_direntry) : option dirent :=
  let namlen := Z.land (Z.of_nat (length (RD.de_name de))) 255 in
  let p := ramfs_idata_by_inode s (RD.de_ino de) in
  let mk t := mk_dirent (RD.de_ino de) (Z.land (SIZEOF_DIRENT - UCHAR_MAX + namlen + 1) 65535) t namlen
                        (RD.ztake UCHAR_MAX (RD.de_name de)) in
  if p =? 0 then Some (mk None)
  else option_map (fun idata => mk (Some (d_type_of (i_mode idata)))) (idatas s !! p).

(** Result, the entry and the next iterator (0 at the end).  [iter] is 0 at
    the start and the hash of the next entry otherwise; a NULL bucket for its
    hash is read through. *)
Definition ramfs_get_direntry (s : ramfs) (dirnode iter : Z) : option (Z * option dirent * Z) :=
  let dp := ramfs_idata_by_inode s dirnode in
  if dp =? 0 then Some (EKERN, None, iter)
  else match idatas s !! dp with
  | None => None
  | Some dir_idata =>
      if negb (S_ISDIR (i_mode dir_idata)) then Some (ENOTDIR, None, iter)
      else match dirs s !! i_data dir_idata with
      | None => None
      | Some dir =>
          let found :=
            if negb (iter =? 0) then
              match RD.bucket dir iter with
              | [] => None
              | b => Some (iter mod RD.htcap dir, from_hash iter b)
              end
            else next_bucket (RD.ht dir) 0 in
          match found with
          | None => None
          | Some (_, []) => Some (EKERN, None, iter)
          | Some (htindex, de :: rest) =>
              match fill_dirent s de with
              | None => None
              | Some dirent =>
                  let next :=
                    match rest with
                    | de :: _ => RD.de_hash de
                    | [] => match next_bucket (drop (Z.to_nat (htindex + 1)) (RD.ht dir)) (htindex + 1) with
                            | Some (_, de :: _) => RD.de_hash de
                            | _ => 0
                            end
                    end in
                  Some (0, Some dirent, next)
              end
          end
      end
  end.

(** ** Contents *)

Definition read_inode (s : ramfs) (ino pos buflen : Z) : option (Z * list Z) :=
  let p := ramfs_idata_by_inode s ino in
  if p =? 0 then Some (ENOENT, [])
  else match idatas s !! p with
  | None => None
  | Some idata => Some (0, RB.ramfs_read_inode (km s) (as_reg idata) pos buflen)
  end.

Definition write_inode (s : ramfs) (ino pos : Z) (buf : list Z) : option (ramfs * Z * Z) :=
  let p := ramfs_idata_by_inode s ino in
  if p =? 0 then Some (s, ENOENT, 0)
  else match idatas s !! p with
  | None => None
  | Some idata =>
      let '(k, r, ret, n) := RB.ramfs_write_inode (km s) (as_reg idata) pos buf in
      Some (put_inode (set_km s k) p (put_reg idata r), ret, n)
  end.

End ramfs.
End RF.
