(* ===== verification/RamFSProofs.v ===== *)
(** * Correctness of ramfs paths and links

    Module [RFP]: path look-up is a walk through the directories, and the
    operations that create, link and unlink inodes keep the link counts equal
    to the number of directory entries, so that no entry ever refers to a
    freed inode. *)

From S2P Require Import Prelude FirstFit FirstFitProofs PMem RamBlocks BTree CString CStringProofs RamDir KHeap RamFS.
Import KH RF.

Module RFP.

(** ** Counting links *)

Definition map_links (m : gmap (list Z) Z) (ino : Z) : nat := size (filter (fun kv => kv.2 = ino) m).
Definition dir_links (ino : Z) (dir : RD.ramfs_directory) : nat := map_links (RD.dir_map dir) ino.
Definition links (ds : gmap Z RD.ramfs_directory) (ino : Z) : nat :=
  map_fold (fun _ dir acc => (dir_links ino dir + acc)%nat) 0%nat ds.

Lemma map_links_insert m n i ino :
  m !! n = None -> map_links (<[n := i]> m) ino = (map_links m ino + if decide (i = ino) then 1 else 0)%nat.
Proof.
  intros Hn. unfold map_links. destruct (decide (i = ino)) as [->|Hne].
  - rewrite map_filter_insert_True by done. rewrite map_size_insert_None; [lia|].
    apply map_lookup_filter_None. by left.
  - rewrite map_filter_insert_False by done. rewrite delete_id by done. lia.
Qed.

Lemma map_links_delete m n i ino :
  m !! n = Some i -> map_links m ino = (map_links (delete n m) ino + if decide (i = ino) then 1 else 0)%nat.
Proof.
  intros Hn. rewrite <- (insert_delete_id m n i Hn) at 1. apply map_links_insert. apply lookup_delete_eq.
Qed.

Lemma map_links_0 m ino : map_links m ino = 0%nat <-> forall n, m !! n <> Some ino.
Proof.
  unfold map_links. rewrite map_size_empty_iff. split.
  - intros He n Hn. assert (filter (fun kv : list Z * Z => kv.2 = ino) m !! n = Some ino) as Hf by (by apply map_lookup_filter_Some).
    by rewrite He, lookup_empty in Hf.
  - intros Hn. apply map_eq. intros n. rewrite lookup_empty. apply map_lookup_filter_None. right.
    intros i Hi E. simpl in E. subst i. by apply (Hn n).
Qed.

Lemma links_insert_new ds d dir ino : ds !! d = None -> links (<[d := dir]> ds) ino = (dir_links ino dir + links ds ino)%nat.
Proof. intros Hd. unfold links. rewrite map_fold_insert_L; [done| |done]. intros. lia. Qed.

Lemma links_insert ds d dir dir' ino :
  ds !! d = Some dir -> (links (<[d := dir']> ds) ino + dir_links ino dir = links ds ino + dir_links ino dir')%nat.
Proof.
  intros Hd. rewrite <- (insert_delete_id ds d dir Hd) at 2. rewrite <- (insert_delete_eq ds d dir').
  rewrite !links_insert_new by apply lookup_delete_eq. lia.
Qed.

Lemma links_pos ds d dir n ino : ds !! d = Some dir -> RD.dir_map dir !! n = Some ino -> (0 < links ds ino)%nat.
Proof.
  intros Hd Hn. rewrite <- (insert_delete_id ds d dir Hd), links_insert_new by apply lookup_delete_eq.
  assert (dir_links ino dir <> 0%nat); [|lia]. intros E. by apply (proj1 (map_links_0 _ _) E n).
Qed.

Section inv.
Context {H : Type} `{Heap H}.
Implicit Types s : ramfs (H := H).

Abbreviation ptr := ramfs_idata_by_inode.

(** ** The invariant *)

(** Live inodes are where their number says; directory inodes have their
    table; every entry of every directory refers to a live inode; the link
    count of an inode is the number of entries for it. *)
Record fs_inv s : Prop := {
  fi_tree : BT.tree_ok 64 0 (inodes_btree s);
  fi_heap : exists live, heap_inv (hp s) live /\
    forall p, p <> theInvalidInode -> is_Some (idatas s !! p) \/ is_Some (dirs s !! p) -> is_Some (live !! p);
  fi_apart : forall p, is_Some (idatas s !! p) -> dirs s !! p = None;
  fi_inode : forall p i, idatas s !! p = Some i -> p <> 0 /\ 0 <= i_no i < 64 /\ ptr s (i_no i) = p /\ (p = theInvalidInode -> i_no i = 0);
  fi_dirs : forall d dir, dirs s !! d = Some dir -> d <> 0 /\ RD.dir_wf dir;
  fi_dir : forall p i, idatas s !! p = Some i -> S_ISDIR (i_mode i) = true -> is_Some (dirs s !! i_data i);
  fi_entry : forall d dir n ino, dirs s !! d = Some dir -> RD.dir_map dir !! n = Some ino ->
    0 < ino /\ exists i, idatas s !! ptr s ino = Some i /\ i_no i = ino;
  fi_links : forall p i, idatas s !! p = Some i -> i_nlinks i = Z.of_nat (links (dirs s) (i_no i));
  fi_root : 0 < sb_root_ino s /\ exists i, idatas s !! ptr s (sb_root_ino s) = Some i /\ i_no i = sb_root_ino s /\ S_ISDIR (i_mode i) = true }.

(** The number of an inode that has not been freed. *)
Definition live_ino s (ino : Z) : Prop := 0 < ino /\ exists i, idatas s !! ptr s ino = Some i /\ i_no i = ino.

Definition few_links s : Prop := forall ino, Z.of_nat (links (dirs s) ino) < 2 ^ 32 - 1.

Lemma ptr_put_dir s d dir ino : ptr (put_dir s d dir) ino = ptr s ino.
Proof. done. Qed.
Lemma ptr_put_inode s p i ino : ptr (put_inode s p i) ino = ptr s ino.
Proof. done. Qed.

(** Replace one directory and the link count of one inode so that they agree. *)
Lemma inv_relink s d dir dir' p i ino (n : Z) :
  fs_inv s -> dirs s !! d = Some dir -> RD.dir_wf dir' -> idatas s !! p = Some i -> i_no i = ino -> 0 < ino ->
  (forall o, Z.of_nat (dir_links o dir') = Z.of_nat (dir_links o dir) + if decide (o = ino) then n else 0) ->
  (forall k j, RD.dir_map dir' !! k = Some j -> j = ino \/ RD.dir_map dir !! k = Some j) ->
  fs_inv (put_inode (put_dir s d dir') p (set_nlinks i (i_nlinks i + n))).
Proof.
  intros Hs Hd Hwf Hp Hi Hi0 Hc He. destruct Hs as [Ht Hh Hap Hin Hds Hdir Hent Hl Hr].
  assert (Hpt : forall q, is_Some ((<[p := set_nlinks i (i_nlinks i + n)]> (idatas s)) !! q) <-> is_Some (idatas s !! q)).
  { intros q. destruct (decide (q = p)) as [->|Hne]; [rewrite lookup_insert_eq, Hp; naive_solver|by rewrite lookup_insert_ne by done]. }
  assert (Hdt : forall q, is_Some ((<[d := dir']> (dirs s)) !! q) <-> is_Some (dirs s !! q)).
  { intros q. destruct (decide (q = d)) as [->|Hne]; [rewrite lookup_insert_eq, Hd; naive_solver|by rewrite lookup_insert_ne by done]. }
  assert (Hget : forall q j, (<[p := set_nlinks i (i_nlinks i + n)]> (idatas s)) !! q = Some j ->
    exists j0, idatas s !! q = Some j0 /\ i_no j = i_no j0 /\ i_mode j = i_mode j0 /\ i_data j = i_data j0).
  { intros q j. destruct (decide (q = p)) as [->|Hne].
    - rewrite lookup_insert_eq. intros [= <-]. by exists i.
    - rewrite lookup_insert_ne by done. by exists j. }
  assert (Hput : forall q j0, idatas s !! q = Some j0 -> exists j,
    (<[p := set_nlinks i (i_nlinks i + n)]> (idatas s)) !! q = Some j /\ i_no j = i_no j0 /\ i_mode j = i_mode j0).
  { intros q j0 Hq. destruct (decide (q = p)) as [->|Hne].
    - rewrite lookup_insert_eq. eexists. split; [done|]. rewrite Hp in Hq. injection Hq as <-. done.
    - rewrite lookup_insert_ne by done. by exists j0. }
  constructor; simpl; rewrite ?ptr_put_inode, ?ptr_put_dir.
  - done.
  - destruct Hh as (live & Hlv & Hall). exists live. split; [done|]. intros q Hq. rewrite Hpt, Hdt. by apply Hall.
  - intros q. rewrite Hpt. intros Hq%Hap. rewrite lookup_insert_ne; [done|]. intros ->. by rewrite Hd in Hq.
  - intros q j (j0 & Hq & -> & _)%Hget. by apply Hin in Hq.
  - intros q x. destruct (decide (q = d)) as [->|Hne].
    + rewrite lookup_insert_eq. intros [= <-]. split; [by apply (Hds d dir)|done].
    + rewrite lookup_insert_ne by done. apply Hds.
  - intros q j (j0 & Hq & _ & -> & ->)%Hget Hm. rewrite Hdt. by eapply Hdir.
  - intros q x k o Hq Ho. assert (Hex : 0 < o /\ exists i0, idatas s !! ptr s o = Some i0 /\ i_no i0 = o).
    { destruct (decide (q = d)) as [->|Hne].
      - rewrite lookup_insert_eq in Hq. injection Hq as <-. destruct (He _ _ Ho) as [->|Hold]; [|by eapply Hent].
        split; [done|]. exists i. destruct (Hin p i Hp) as (_ & _ & Hpp & _). rewrite Hi in Hpp. by rewrite Hpp.
      - rewrite lookup_insert_ne in Hq by done. by eapply Hent. }
    destruct Hex as (Ho0 & i0 & Hx & <-). destruct (Hput _ _ Hx) as (j & Hj0 & Hj & _). split; [done|]. exists j. split; [exact Hj0|done].
  - intros q j Hq. pose proof (links_insert (dirs s) d dir dir' (i_no j) Hd) as Hlk. specialize (Hc (i_no j)).
    destruct (decide (q = p)) as [->|Hne].
    + rewrite lookup_insert_eq in Hq. injection Hq as <-. simpl in *. rewrite decide_True in Hc by done.
      rewrite (Hl p i Hp). lia.
    + rewrite lookup_insert_ne in Hq by done. rewrite decide_False in Hc.
      * rewrite (Hl q j Hq). lia.
      * intros E. apply Hin in Hq as (_ & _ & Hq & _). apply Hin in Hp as (_ & _ & Hp & _). congruence.
  - destruct Hr as (Hr0 & i0 & Hx & Hn & Hm). split; [done|]. destruct (Hput _ _ Hx) as (j & Hj & En & Em). exists j. by rewrite En, Em.
Qed.

Lemma put_dir_id s d dir : dirs s !! d = Some dir -> put_dir s d dir = s.
Proof. intros Hd. unfold put_dir, set_dirs. rewrite insert_id by done. by destruct s. Qed.

Lemma live_get s ino : fs_inv s -> live_ino s ino ->
  exists i, idatas s !! ptr s ino = Some i /\ i_no i = ino /\ ptr s ino <> 0 /\ ptr s ino <> theInvalidInode.
Proof.
  intros Hs (Hz & i & Hi & Hno). exists i. split; [done|]. split; [done|].
  destruct (fi_inode s Hs _ _ Hi) as (Hp & _ & _ & Hinv). split; [done|]. intros E. specialize (Hinv E). lia.
Qed.

(** ** Linking *)

Lemma link_ok s ino dirino name namelen :
  fs_inv s -> live_ino s ino -> live_ino s dirino -> few_links s -> Z.of_nat (length (RD.ztake namelen name)) < 255 ->
  exists s' r, ramfs_link_inode s ino dirino name namelen = Some (s', r) /\ fs_inv s' /\
    forall di dir, idatas s !! ptr s dirino = Some di -> S_ISDIR (i_mode di) = true -> dirs s !! i_data di = Some dir ->
    match RD.dir_map dir !! RD.ztake namelen name with
    | Some _ => r = EEXIST /\ s' = s
    | None => r = 0 /\ exists dir' i, dirs s' = <[i_data di := dir']> (dirs s) /\
                RD.dir_map dir' = <[RD.ztake namelen name := ino]> (RD.dir_map dir) /\
                idatas s !! ptr s ino = Some i /\
                s' = put_inode (put_dir s (i_data di) dir') (ptr s ino) (set_nlinks i (i_nlinks i + 1))
    end.
Proof.
  intros Hs Hl Hld Hf Hn. unfold ramfs_link_inode. rewrite (proj2 (Z.leb_gt UCHAR_MAX _)) by (unfold UCHAR_MAX; lia).
  destruct (live_get s _ Hs Hld) as (di & Hdi & _ & Hd0 & _). rewrite (proj2 (Z.eqb_neq _ _) Hd0), Hdi.
  destruct (S_ISDIR (i_mode di)) eqn:Edir; cbn [negb];
    [|do 2 eexists; split; [done|]; split; [done|]; intros ? ? [= <-]; by rewrite Edir].
  destruct (fi_dir s Hs _ _ Hdi Edir) as [dir Hdir]. destruct (fi_dirs s Hs _ _ Hdir) as [Hdd Hdw].
  rewrite (proj2 (Z.eqb_neq _ _) Hdd).
  destruct (live_get s _ Hs Hl) as (i & Hi & Hno & Hp0 & _). rewrite (proj2 (Z.eqb_neq _ _) Hp0), Hdir, Hi.
  set (nm := RD.ztake namelen name). destruct (RD.ramfs_directory_new_entry dir nm (i_no i)) as [dir' ret] eqn:En.
  destruct (RD.new_entry_spec _ _ _ _ _ Hdw En) as [Hdw' Hcase]. destruct (RD.dir_map dir !! nm) as [x|] eqn:Em.
  - rewrite bool_decide_true in Hcase by eauto. destruct Hcase as [-> ->]. cbn.
    exists s, EEXIST. rewrite put_dir_id by done. split; [done|]. split; [done|].
    intros ? ? [= <-] _. rewrite Hdir. intros [= <-]. by rewrite Em.
  - rewrite bool_decide_false in Hcase by (by intros [? ?]). destruct Hcase as [-> Hm]. cbn [Z.eqb negb].
    assert (Hnl : u32 (i_nlinks i + 1) = i_nlinks i + 1).
    { rewrite (fi_links s Hs _ _ Hi). specialize (Hf (i_no i)). apply u32_small. unfold in_u32. lia. }
    rewrite Hnl. do 2 eexists. split; [done|]. split.
    + destruct Hl as [Hl0 _].
      apply (inv_relink s (i_data di) dir dir' _ i ino 1 Hs Hdir Hdw' Hi Hno Hl0).
      * intros o. unfold dir_links. rewrite Hm, map_links_insert by done. rewrite Hno.
        destruct (decide (ino = o)); destruct (decide (o = ino)); subst; try done; lia.
      * intros k j. rewrite Hm, Hno, lookup_insert_Some. intros [[_ <-]|[_ Hk]]; [by left|by right].
    + intros ? ? [= <-] _. rewrite Hdir. intros [= <-]. rewrite Em. split; [done|]. exists dir', i. split; [done|].
      by rewrite Hm, Hno.
Qed.

(** ** Freeing an inode without links *)

Lemma free_ok s ino i :
  fs_inv s -> idatas s !! ptr s ino = Some i -> i_no i = ino -> 0 < ino -> S_ISDIR (i_mode i) = false ->
  links (dirs s) ino = 0%nat -> exists s', ramfs_free_inode s ino = Some (s', 0) /\ fs_inv s' /\
    dirs s' = dirs s /\ idatas s' = delete (ptr s ino) (idatas s).
Proof.
  intros Hs Hi Hno Hpos Hdir Hlk. unfold ramfs_free_inode.
  destruct (live_get s ino Hs) as (i' & Hi' & _ & Hp0 & Hpi); [split; [done|by exists i]|].
  rewrite (proj2 (Z.eqb_neq _ _) Hp0). unfold ramfs_inode_free. rewrite Hi.
  unfold S_ISDIR in Hdir. rewrite Hdir.
  set (s1 := if fmt (i_mode i) =? S_IFREG then _ else s).
  assert (E1 : hp s1 = hp s /\ inodes_btree s1 = inodes_btree s /\ idatas s1 = idatas s /\ dirs s1 = dirs s /\ sb_root_ino s1 = sb_root_ino s)
    by (unfold s1; case_if; done).
  destruct E1 as (Eh & Et & Ei & Ed & Er). eexists. split; [done|]. simpl. rewrite Eh, Ei, Ed.
  assert (Ept : forall o, ptr (set_hp (set_idatas s1 (delete (ptr s ino) (idatas s))) (kfree (hp s) (ptr s ino))) o = ptr s o)
    by (intros o; unfold ptr; simpl; by rewrite Et).
  assert (Hne : forall o j, o <> ino -> idatas s !! ptr s o = Some j -> i_no j = o ->
    delete (ptr s ino) (idatas s) !! ptr s o = Some j).
  { intros o j Ho Hj Hjn. rewrite lookup_delete_ne; [done|]. intros E. rewrite <- E, Hi in Hj. congruence. }
  destruct Hs as [Ht Hh Hap Hin Hds Hd Hent Hl Hr]. split_and!; try done.
  constructor; simpl; rewrite ?Et, ?Ed, ?Er.
  - done.
  - destruct Hh as (live & Hlv & Hall). destruct (Hall (ptr s ino) Hpi) as [n Hn]; [left; by eexists|].
    exists (delete (ptr s ino) live). split; [by apply (kfree_spec _ live _ n)|].
    intros q Hq Hor. rewrite lookup_delete_ne.
    + apply Hall; [done|]. destruct Hor as [[x Hx]|Hx]; [left|by right]. apply lookup_delete_Some in Hx as [_ Hx]. by exists x.
    + intros <-. destruct Hor as [Hx|[x Hx]]; [rewrite lookup_delete_eq in Hx; by destruct Hx|].
      by rewrite (Hap (ptr s ino)) in Hx by (by eexists).
  - intros q [x Hx]. apply lookup_delete_Some in Hx as [_ Hx]. apply Hap. by exists x.
  - intros q j [_ Hq]%lookup_delete_Some. rewrite Ept. by apply Hin.
  - done.
  - intros q j [_ Hq]%lookup_delete_Some. by apply (Hd q).
  - intros d dir n o Hd1 Ho. destruct (Hent _ _ _ _ Hd1 Ho) as (Ho0 & j & Hj & Hjn). split; [done|]. exists j. rewrite Ept.
    split; [|done]. apply Hne; [|done..]. intros ->. pose proof (links_pos _ _ _ _ _ Hd1 Ho). lia.
  - intros q j [_ Hq]%lookup_delete_Some. by apply (Hl q).
  - destruct Hr as (Hr0 & j & Hj & Hjn & Hm). split; [done|]. exists j. rewrite Ept. split; [|done]. rewrite lookup_delete_ne; [done|].
    intros E. rewrite <- E, Hi in Hj. injection Hj as ->. unfold S_ISDIR in Hm. congruence.
Qed.

(** ** Paths always resolve *)

Lemma chr_pos path e : 0 <= e -> chr path e <> 0 -> e < Z.of_nat (length path).
Proof.
  intros He Hc. unfold chr in Hc. destruct (path !! Z.to_nat e) eqn:E; [|done]. apply lookup_lt_Some in E. lia.
Qed.

Lemma comp_end_total fuel : forall path pathlen e, 0 <= e -> Z.max 0 (Z.of_nat (length path) - e) < Z.of_nat fuel ->
  exists e' last, comp_end fuel path pathlen e = Some (e', last) /\ e <= e' /\ (last = false -> chr path e' = FS_SEP).
Proof.
  induction fuel as [|fuel IH]; intros path pathlen e He Hf; cbn [comp_end]; [lia|].
  destruct (pathlen <=? e); cbn [orb]; [by exists e, true|].
  destruct (Z.eqb_spec (chr path e) 0) as [E|E]; [by exists e, true|]. apply chr_pos in E; [|done].
  destruct (Z.eqb_spec (chr path e) FS_SEP) as [E2|E2]; [by exists e, false|].
  destruct (IH path pathlen (e + 1)) as (e' & last & -> & Hle & Hl); [lia|lia|]. exists e', last. split; [done|]. split; [lia|done].
Qed.

Lemma skip_sep_total fuel : forall path e, 0 <= e -> Z.max 0 (Z.of_nat (length path) - e) < Z.of_nat fuel ->
  exists e', skip_sep fuel path e = Some e' /\ e <= e'.
Proof.
  induction fuel as [|fuel IH]; intros path e He Hf; cbn [skip_sep]; [lia|].
  destruct (Z.eqb_spec (chr path e) FS_SEP) as [E|E]; [|by exists e].
  assert (e < Z.of_nat (length path)) by (apply chr_pos; [done|]; by rewrite E).
  destruct (IH path (e + 1)) as (e' & -> & Hle); [lia|lia|]. exists e'. split; [done|lia].
Qed.

Definition good_result s (r : Z * Z) : Prop := r.1 = 0 -> live_ino s r.2.

Lemma search_good s d dir base len : fs_inv s -> dirs s !! d = Some dir ->
  forall ino, RD.ramfs_directory_search dir base len = Some ino -> live_ino s ino.
Proof.
  intros Hs Hd ino. unfold RD.ramfs_directory_search. set (hash := RD.name_hash _).
  pose proof (RD.search_loop_spec (RD.bucket dir hash) hash base len) as Hl. intros E. rewrite E in Hl.
  destruct Hl as (e & He & _ & <-). destruct (fi_dirs s Hs _ _ Hd) as [_ Hw].
  apply (RD.bucket_entry dir Hw) in He.
  apply (fi_entry s Hs d dir (RD.de_name e) (RD.de_ino e) Hd). apply (RD.dir_map_Some dir Hw). by exists e.
Qed.

Lemma lookup_loop_total s path pathlen : fs_inv s -> forall fuel d base e,
  is_Some (dirs s !! d) -> 0 <= base <= e -> Z.max 0 (Z.of_nat (length path) - e) < Z.of_nat fuel ->
  exists r, lookup_loop fuel s d path pathlen base e = Some r /\ good_result s r.
Proof.
  intros Hs. induction fuel as [|fuel IH]; intros d base e [dir Hd] Hb Hf; [lia|]. cbn [lookup_loop]. rewrite Hd.
  destruct (comp_end_total (S (length path)) path pathlen e) as (e' & last & -> & Hle & Hsep); [lia|lia|].
  destruct (RD.ramfs_directory_search dir _ _) as [ino|] eqn:Es.
  - pose proof (search_good s d dir _ _ Hs Hd _ Es) as Hlive.
    destruct last; [eexists; split; [done|]; intros _; exact Hlive|].
    case_if; [eexists; split; [done|]; intros _; exact Hlive|].
    destruct (live_get s ino Hs Hlive) as (i & Hi & _ & Hp0 & _). rewrite (proj2 (Z.eqb_neq _ _) Hp0), Hi.
    assert (e' < Z.of_nat (length path)) by (apply chr_pos; [lia|]; by rewrite Hsep).
    destruct (skip_sep_total (S (length path)) path (e' + 1)) as (e2 & -> & Hle2); [lia|lia|].
    destruct (S_ISDIR (i_mode i)) eqn:Ed; cbn [negb]; [|by eexists].
    apply IH; [by eapply fi_dir|lia|lia].
  - destruct last; (eexists; split; [done|]; done).
Qed.

Lemma lookup_total s path pathlen : fs_inv s ->
  exists r, ramfs_lookup_inode s path pathlen = Some r /\ good_result s r.
Proof.
  intros Hs. unfold ramfs_lookup_inode. destruct (fi_root s Hs) as (Hr0 & i & Hi & Hno & Hd).
  pose proof (fi_inode s Hs _ _ Hi) as (Hp & _).
  destruct ((chr path 0 =? 0) || (pathlen =? 0)).
  - eexists. split; [done|]. intros _. split; [done|]. by exists i.
  - rewrite (proj2 (Z.eqb_neq _ _) Hp), Hi, Hd. cbn [negb].
    apply lookup_loop_total; [done|by eapply fi_dir|lia|lia].
Qed.

(** ** Unlinking *)

Lemma skip_base_bounds fuel : forall path pathlen a b,
  0 <= a <= Z.of_nat (length path) -> skip_base fuel path pathlen a = Some b -> a <= b <= Z.of_nat (length path).
Proof.
  induction fuel as [|fuel IH]; intros path pathlen a b Ha; cbn [skip_base]; [done|].
  destruct (Z.eqb_spec (chr path a) FS_SEP) as [E|E]; [|intros [= <-]; lia].
  assert (a < Z.of_nat (length path)) by (apply chr_pos; [lia|]; by rewrite E).
  case_if; [done|]. intros Hb%IH; lia.
Qed.

(** What unlinking the name [nm] from the directory [d] does. *)
Definition unlinked s (d : Z) (dir : RD.ramfs_directory) (nm : list Z) s' (r : Z) : Prop :=
  match RD.dir_map dir !! nm with
  | None => r = ENOENT /\ s' = s
  | Some ino =>
      exists i, idatas s !! ptr s ino = Some i /\
      if S_ISDIR (i_mode i) then r = EISDIR /\ s' = s
      else r = 0 /\
        (exists dir', dirs s' = <[d := dir']> (dirs s) /\ RD.dir_map dir' = delete nm (RD.dir_map dir)) /\
        (if decide (links (dirs s) ino = 1%nat /\ i_nfds i <= 0) then idatas s' = delete (ptr s ino) (idatas s)
         else idatas s' = <[ptr s ino := set_nlinks i (i_nlinks i - 1)]> (idatas s))
  end.

Lemma unlink_entry_ok s path pathlen dirlen d dir :
  fs_inv s -> few_links s -> dirs s !! d = Some dir -> 0 <= dirlen <= Z.of_nat (length path) -> Z.of_nat (length path) < pathlen ->
  exists s' r, unlink_entry s path pathlen dirlen d = Some (s', r) /\ fs_inv s' /\
    match skip_base (S (length path)) path pathlen dirlen with
    | Some b => unlinked s d dir (drop (Z.to_nat b) path) s' r
    | None => r = EINVAL /\ s' = s
    end.
Proof.
  intros Hs Hf Hd Hdl Hpl. unfold unlink_entry. rewrite Hd.
  destruct (skip_base _ path pathlen dirlen) as [b|] eqn:Eb; [|by do 2 eexists].
  apply skip_base_bounds in Eb; [|done]. set (nm := drop (Z.to_nat b) path).
  destruct (fi_dirs s Hs _ _ Hd) as [Hd0 Hdw].
  assert (Hlen : Z.of_nat (length nm) < pathlen - b) by (unfold nm; rewrite length_drop; lia).
  assert (Hsearch : RD.ramfs_directory_search dir nm (pathlen - b) = RD.dir_map dir !! nm).
  { pose proof (RD.search_spec dir nm (pathlen - b) Hdw) as Hss. cbv zeta in Hss. rewrite (take_ge nm) in Hss by lia.
    apply Hss; [lia|intros; lia]. }
  rewrite Hsearch. unfold unlinked. destruct (RD.dir_map dir !! nm) as [ino|] eqn:Em.
  2:{ do 2 eexists. split; [done|]. split; [done|]. done. }
  destruct (live_get s ino Hs) as (i & Hi & Hno & Hp0 & _); [by eapply (fi_entry s Hs)|].
  rewrite (proj2 (Z.eqb_neq _ _) Hp0), Hi. destruct (S_ISDIR (i_mode i)) eqn:Ed.
  { do 2 eexists. split; [done|]. split; [done|]. exists i. by rewrite Ed. }
  destruct (RD.ramfs_directory_delete_entry dir nm (pathlen - b)) as [dir' ret] eqn:Edel.
  destruct (RD.delete_entry_spec dir nm (pathlen - b) _ _ Hdw ltac:(lia) Edel) as [Hdw' Hcase].
  rewrite bool_decide_true in Hcase by eauto. destruct Hcase as [-> Hm]. cbn [Z.eqb negb].
  pose proof (links_pos _ _ _ _ _ Hd Em) as Hlp. pose proof (fi_links s Hs _ _ Hi) as Hl. rewrite Hno in Hl.
  pose proof (Hf ino) as Hfi. assert (Hnl : u32 (i_nlinks i - 1) = i_nlinks i - 1) by (apply u32_small; unfold in_u32; lia).
  rewrite Hnl. cbn [i_nlinks i_nfds set_nlinks].
  set (s1 := put_inode (put_dir s d dir') (ptr s ino) (set_nlinks i (i_nlinks i - 1))).
  assert (Hino : 0 < ino) by (by eapply (fi_entry s Hs)).
  assert (Hs1 : fs_inv s1).
  { apply (inv_relink s d dir dir' _ i ino (-1) Hs Hd Hdw' Hi Hno Hino).
    - intros o. unfold dir_links. rewrite Hm, (map_links_delete (RD.dir_map dir) nm ino o Em).
      destruct (decide (ino = o)); destruct (decide (o = ino)); subst; try done; lia.
    - intros k j. rewrite Hm, lookup_delete_Some. intros [_ Hk]. by right. }
  assert (Hi1 : idatas s1 !! ptr s1 ino = Some (set_nlinks i (i_nlinks i - 1))) by (simpl; by rewrite lookup_insert_eq).
  destruct ((0 <? i_nlinks i - 1) || (0 <? i_nfds i)) eqn:Ek.
  - do 2 eexists. split; [done|]. split; [done|]. exists i. split; [done|]. rewrite Ed.
    split; [done|]. split; [by exists dir'|]. rewrite decide_False; [done|]. intros [E1 E2].
    apply orb_true_iff in Ek as [Ek|Ek]; apply Z.ltb_lt in Ek; lia.
  - apply orb_false_iff in Ek as [Ek1 Ek2]. apply Z.ltb_ge in Ek1, Ek2.
    destruct (free_ok s1 ino _ Hs1 Hi1) as (s2 & -> & Hs2 & Hd2 & Hi2); [done|done|done| |].
    { pose proof (fi_links s1 Hs1 _ _ Hi1) as Hl1. simpl in Hl1. rewrite Hno in Hl1. simpl. lia. }
    do 2 eexists. split; [done|]. split; [done|]. exists i. split; [done|]. rewrite Ed.
    split; [done|]. split; [exists dir'; by rewrite Hd2|]. rewrite decide_True by lia.
    rewrite Hi2. simpl. by rewrite delete_insert_eq.
Qed.

Lemma strnrchr_bounds path : forall n cur last r,
  0 <= cur -> (forall x, last = Some x -> 0 <= x < cur) -> strnrchr path n FS_SEP cur last = Some r ->
  0 <= r < cur + Z.of_nat (length path).
Proof.
  induction path as [|b path IH]; intros n cur last r Hc Hl; cbn [strnrchr]; simpl length.
  - intros E. specialize (Hl _ E). lia.
  - destruct (Z.leb_spec n cur); [intros E; specialize (Hl _ E); lia|].
    intros E. apply IH in E; [lia|lia|]. intros x. destruct (b =? FS_SEP); [intros [= <-]; lia|]. intros Ex. specialize (Hl _ Ex). lia.
Qed.

Lemma sep_run_total path fuel : forall r, chr path 0 <> FS_SEP -> 0 <= r -> chr path r = FS_SEP -> r < Z.of_nat fuel ->
  exists x, sep_run fuel path r = Some x /\ 0 <= x <= r.
Proof.
  induction fuel as [|fuel IH]; intros r Hc Hr Hs Hf; cbn [sep_run]; [lia|].
  destruct (Z.eqb_spec r 0) as [->|Hne]; [done|].
  destruct (Z.eqb_spec (chr path (r - 1)) FS_SEP) as [E|E]; [|exists r; split; [done|lia]].
  destruct (IH (r - 1)) as (x & -> & Hx); [done|lia|done|lia|]. exists x. split; [done|lia].
Qed.

Lemma strnrchr_sep full path : forall n cur last r,
  0 <= cur -> (forall k, chr path k = chr full (cur + k) \/ k < 0) -> (forall x, last = Some x -> chr full x = FS_SEP) ->
  strnrchr path n FS_SEP cur last = Some r -> chr full r = FS_SEP.
Proof.
  induction path as [|b path IH]; intros n cur last r Hc Hk Hl; cbn [strnrchr]; [by apply Hl|].
  destruct (n <=? cur); [by apply Hl|]. intros E. apply IH in E; try done; try lia.
  - intros k. destruct (Z.lt_ge_cases k 0) as [?|Hk0]; [by right|left]. destruct (Hk (k + 1)) as [Hx|?]; [|lia].
    replace (cur + 1 + k) with (cur + (k + 1)) by lia. rewrite <- Hx. unfold chr.
    replace (Z.to_nat (k + 1)) with (S (Z.to_nat k)) by lia. done.
  - intros x. destruct (Z.eqb_spec b FS_SEP) as [Eb|Eb]; [intros [= <-]|apply Hl].
    destruct (Hk 0) as [Hx|?]; [|lia]. rewrite Z.add_0_r in Hx. rewrite <- Hx. done.
Qed.

Lemma dirname_len_total path pathlen : chr path 0 <> FS_SEP ->
  exists dl, vfs_path_dirname_len path pathlen = Some dl /\ 0 <= dl <= Z.of_nat (length path).
Proof.
  intros Hc. unfold vfs_path_dirname_len. destruct (strnrchr path pathlen FS_SEP 0 None) as [r|] eqn:E.
  - pose proof (strnrchr_bounds path pathlen 0 None r ltac:(lia) ltac:(done) E) as Hb.
    assert (Hs : chr path r = FS_SEP).
    { apply (strnrchr_sep path path pathlen 0 None r); try done. intros k. left. f_equal. }
    destruct (sep_run_total path (S (length path)) r) as (x & -> & Hx); [done|lia|done|lia|]. exists x. split; [done|lia].
  - exists 0. split; [done|lia].
Qed.

(** The outcome on every branch, by where the directory part of the path ends. *)
Definition unlink_result s (path : list Z) (pathlen dl : Z) s' (r : Z) : Prop :=
  exists ret parino, ramfs_lookup_inode s path dl = Some (ret, parino) /\
    if ret =? 0 then
      exists di, idatas s !! ptr s parino = Some di /\
        if S_ISDIR (i_mode di) then
          exists dir, dirs s !! i_data di = Some dir /\
            match skip_base (S (length path)) path pathlen dl with
            | Some b => unlinked s (i_data di) dir (drop (Z.to_nat b) path) s' r
            | None => r = EINVAL /\ s' = s
            end
        else r = ENOTDIR /\ s' = s
    else r = ret /\ s' = s.

Lemma unlink_ok s path pathlen :
  fs_inv s -> few_links s -> chr path 0 <> FS_SEP -> Z.of_nat (length path) < pathlen ->
  exists s' r dl, ramfs_unlink_inode s path pathlen = Some (s', r) /\ fs_inv s' /\ vfs_path_dirname_len path pathlen = Some dl /\ unlink_result s path pathlen dl s' r.
Proof.
  intros Hs Hf Hc Hpl. unfold ramfs_unlink_inode, unlink_result.
  destruct (dirname_len_total path pathlen Hc) as (dl & -> & Hdl).
  destruct (lookup_total s path dl Hs) as ([ret parino] & Hlk & Hgood). rewrite Hlk. unfold good_result in Hgood; simpl in Hgood.
  destruct (Z.eqb_spec ret 0) as [->|Hne]; cbn [negb].
  2:{ exists s, ret, dl. do 3 (split; [done|]). exists ret, parino. split; [done|]. by rewrite (proj2 (Z.eqb_neq _ _) Hne). }
  destruct (live_get s parino Hs (Hgood eq_refl)) as (di & Hdi & _ & Hp0 & _). rewrite (proj2 (Z.eqb_neq _ _) Hp0), Hdi.
  destruct (S_ISDIR (i_mode di)) eqn:Ed; cbn [negb].
  2:{ exists s, ENOTDIR, dl. do 3 (split; [done|]). exists 0, parino. split; [done|]. exists di. split; [done|]. by rewrite Ed. }
  destruct (fi_dir s Hs _ _ Hdi Ed) as [dir Hdir]. destruct (fi_dirs s Hs _ _ Hdir) as [Hdd _].
  rewrite (proj2 (Z.eqb_neq _ _) Hdd).
  destruct (unlink_entry_ok s path pathlen dl (i_data di) dir Hs Hf Hdir Hdl Hpl) as (s' & r & -> & Hs' & Hu).
  exists s', r, dl. do 3 (split; [done|]). exists 0, parino. split; [done|]. exists di. split; [done|]. rewrite Ed. by exists dir.
Qed.

(** The directory part and the base name of a path. *)
Lemma strnrchr_none l n : forall cur last, FS_SEP ∉ l -> strnrchr l n FS_SEP cur last = last.
Proof.
  induction l as [|b l IH]; intros cur last Hl; cbn [strnrchr]; [done|]. apply not_elem_of_cons in Hl as [Hb Hl]. destruct (n <=? cur); [done|].
  rewrite (proj2 (Z.eqb_neq b FS_SEP)) by done. by apply IH.
Qed.

Lemma strnrchr_last l1 l2 n : forall cur last, FS_SEP ∉ l2 -> cur + Z.of_nat (length l1) < n -> strnrchr (l1 ++ FS_SEP :: l2) n FS_SEP cur last = Some (cur + Z.of_nat (length l1)).
Proof.
  induction l1 as [|b l1 IH]; intros cur last Hl Hn; cbn [app strnrchr length] in *; rewrite (proj2 (Z.leb_gt n cur)) by lia.
  - rewrite Z.eqb_refl, strnrchr_none by done. f_equal. lia.
  - rewrite IH by (done || lia). f_equal. lia.
Qed.

Lemma sep_run_back p1 rest k : last p1 <> Some FS_SEP -> p1 <> [] -> forall fuel, (k < fuel)%nat ->
  sep_run fuel (p1 ++ replicate k FS_SEP ++ rest) (Z.of_nat (length p1 + k)) = Some (Z.of_nat (length p1)).
Proof.
  intros Hl Hp. assert (Hlp : (0 < length p1)%nat) by (destruct p1; [done|simpl; lia]).
  assert (Hend : forall rest', chr (p1 ++ rest') (Z.of_nat (length p1) - 1) <> FS_SEP).
  { intros rest'. unfold chr. rewrite lookup_app_l by lia. rewrite last_lookup in Hl. replace (Z.to_nat (Z.of_nat (length p1) - 1)) with (pred (length p1)) by lia.
    destruct (lookup_lt_is_Some_2 p1 (pred (length p1)) ltac:(lia)) as [x Hx]. rewrite Hx in *. cbn. congruence. }
  revert rest. induction k as [|k IH]; intros rest [|fuel] Hf; try lia; cbn [sep_run]; rewrite (proj2 (Z.eqb_neq _ 0)) by lia.
  - rewrite Nat.add_0_r, (proj2 (Z.eqb_neq _ _) (Hend _)). done.
  - replace (Z.of_nat (length p1 + S k) - 1) with (Z.of_nat (length p1 + k)) by lia.
    replace (replicate (S k) FS_SEP ++ rest) with (replicate k FS_SEP ++ FS_SEP :: rest) by (change (replicate (S k) FS_SEP) with (FS_SEP :: replicate k FS_SEP); rewrite replicate_cons_app, <- app_assoc; done).
    assert (E : chr (p1 ++ replicate k FS_SEP ++ FS_SEP :: rest) (Z.of_nat (length p1 + k)) = FS_SEP) by (rewrite app_assoc; replace (length p1 + k)%nat with (length (p1 ++ replicate k FS_SEP)) by (by rewrite length_app, length_replicate); unfold chr; rewrite Nat2Z.id, list_lookup_middle; done).
    rewrite E, Z.eqb_refl. apply IH. lia.
Qed.

Lemma skip_base_run base pathlen : head base <> Some FS_SEP -> forall k p1 fuel, Z.of_nat (length p1 + k) <= pathlen -> (k < fuel)%nat ->
  skip_base fuel (p1 ++ replicate k FS_SEP ++ base) pathlen (Z.of_nat (length p1)) = Some (Z.of_nat (length p1 + k)).
Proof.
  intros Hb. induction k as [|k IH]; intros p1 [|fuel] Hl Hf; try lia; cbn [skip_base replicate app].
  - rewrite Nat.add_0_r. assert (E : chr (p1 ++ base) (Z.of_nat (length p1)) <> FS_SEP); [|by rewrite (proj2 (Z.eqb_neq _ _) E)].
    unfold chr. rewrite Nat2Z.id, lookup_app_r, Nat.sub_diag by lia. destruct base as [|x base]; [done|]. cbn in *. congruence.
  - assert (E : chr (p1 ++ FS_SEP :: replicate k FS_SEP ++ base) (Z.of_nat (length p1)) = FS_SEP) by (unfold chr; rewrite Nat2Z.id, list_lookup_middle; done). rewrite E, Z.eqb_refl.
    rewrite (proj2 (Z.leb_gt _ _)) by lia. specialize (IH (p1 ++ [FS_SEP]) fuel). rewrite length_app in IH. cbn [length] in IH. rewrite <- app_assoc in IH. cbn [app] in IH.
    replace (Z.of_nat (length p1) + 1) with (Z.of_nat (length p1 + 1)) by lia. rewrite IH by lia. f_equal. lia.
Qed.

Lemma dirname_len_ok p1 k base pathlen : FS_SEP ∉ base -> last p1 <> Some FS_SEP -> (p1 = [] <-> k = 0%nat) -> Z.of_nat (length p1 + k) <= pathlen ->
  vfs_path_dirname_len (p1 ++ replicate k FS_SEP ++ base) pathlen = Some (Z.of_nat (length p1)).
Proof.
  intros Hb Hl Hk Hn. unfold vfs_path_dirname_len. destruct k as [|k].
  - rewrite (proj2 Hk eq_refl). cbn [replicate app length]. by rewrite strnrchr_none.
  - assert (Hp : p1 <> []) by (intros E; by apply Hk in E).
    replace (p1 ++ replicate (S k) FS_SEP ++ base) with ((p1 ++ replicate k FS_SEP) ++ FS_SEP :: base) by (change (replicate (S k) FS_SEP) with (FS_SEP :: replicate k FS_SEP); rewrite replicate_cons_app, <- !app_assoc; done).
    rewrite strnrchr_last; [|done|rewrite length_app, length_replicate; lia]. replace (0 + Z.of_nat (length (p1 ++ replicate k FS_SEP))) with (Z.of_nat (length p1 + k)) by (rewrite length_app, length_replicate; lia).
    rewrite <- app_assoc. apply sep_run_back; [done|done|]. rewrite !length_app, length_replicate. lia.
Qed.

(** The same on a path of a directory part, separators and a base name. *)
Lemma unlink_path_ok s p1 k base pathlen : let path := p1 ++ replicate k FS_SEP ++ base in
  fs_inv s -> few_links s -> FS_SEP ∉ base -> last p1 <> Some FS_SEP -> (p1 = [] <-> k = 0%nat) -> head p1 <> Some FS_SEP -> Z.of_nat (length path) < pathlen ->
  exists s' r, ramfs_unlink_inode s path pathlen = Some (s', r) /\ fs_inv s' /\
    exists ret parino, ramfs_lookup_inode s path (Z.of_nat (length p1)) = Some (ret, parino) /\
      if ret =? 0 then
        exists di, idatas s !! ptr s parino = Some di /\
          if S_ISDIR (i_mode di) then exists dir, dirs s !! i_data di = Some dir /\ unlinked s (i_data di) dir base s' r
          else r = ENOTDIR /\ s' = s
      else r = ret /\ s' = s.
Proof.
  intros path Hs Hf Hb Hl Hk Hh Hpl. unfold path in Hpl. rewrite !length_app, length_replicate in Hpl.
  assert (Hbh : head base <> Some FS_SEP) by (destruct base as [|x base]; [done|]; cbn; intros [= ->]; apply Hb; by left).
  assert (Hc : chr path 0 <> FS_SEP).
  { unfold path, chr. change (Z.to_nat 0) with 0%nat. destruct p1 as [|x p1]; [rewrite (proj1 Hk eq_refl); destruct base as [|y base]; [done|]; cbn in *; congruence|cbn in *; congruence]. }
  destruct (unlink_ok s path pathlen Hs Hf Hc) as (s' & r & dl & E & Hs' & Edl & Hu); [unfold path; rewrite !length_app, length_replicate; lia|].
  exists s', r. split; [done|]. split; [done|]. unfold path in Edl. rewrite dirname_len_ok in Edl by (done || lia). injection Edl as <-.
  unfold unlink_result in Hu. destruct Hu as (ret & parino & Elk & Hu). exists ret, parino. split; [done|]. destruct (ret =? 0); [|done].
  destruct Hu as (di & Hdi & Hu). exists di. split; [done|]. destruct (S_ISDIR (i_mode di)); [|done]. destruct Hu as (dir & Hdir & Hu). exists dir. split; [done|].
  unfold path in Hu at 2. rewrite skip_base_run in Hu; [|done|lia|unfold path; rewrite !length_app, length_replicate; lia].
  rewrite Nat2Z.id in Hu. unfold path in Hu. rewrite app_assoc, drop_app_length' in Hu by (by rewrite length_app, length_replicate). done.
Qed.

(** ** New inodes *)

Lemma links_0 ds ino : (forall d dir n, ds !! d = Some dir -> RD.dir_map dir !! n <> Some ino) -> links ds ino = 0%nat.
Proof.
  unfold links. induction ds as [|d dir ds Hd IH] using map_ind; intros Hn; [by rewrite map_fold_empty|].
  rewrite map_fold_insert_L; [|intros; lia|done]. rewrite IH.
  - unfold dir_links. rewrite (proj2 (map_links_0 _ _)); [done|]. intros n. apply (Hn d). by rewrite lookup_insert_eq.
  - intros d' dir' n Hd'. apply (Hn d'). rewrite lookup_insert_ne; [done|]. intros <-. by rewrite Hd in Hd'.
Qed.

(** A free slot in the inode table, which has 64. *)
Definition has_slot s : Prop := exists j, 0 <= j < 64 /\ BT.lookup 64 0 (inodes_btree s) j = None.

Lemma ptr_lookup s ino : BT.tree_ok 64 0 (inodes_btree s) -> 0 <= ino < 64 ->
  ptr s ino = default 0 (BT.lookup 64 0 (inodes_btree s) ino).
Proof.
  intros Ht Hi. unfold ptr. rewrite (BT.get_index_lookup 64 0 _ _ Ht) by done.
  rewrite (proj2 (Z.leb_gt (64 ^ Z.of_nat 1) ino)) by (change (64 ^ Z.of_nat 1) with 64; lia). done.
Qed.

Lemma new_leaf_ok s p t no :
  BT.tree_ok 64 0 (inodes_btree s) -> has_slot s -> BT.btree_new_leaf true (inodes_btree s) p = (t, no) ->
  BT.tree_ok 64 0 t /\ 0 < no < 64 /\ BT.lookup 64 0 (inodes_btree s) no = None /\
  (forall o, 0 <= o < 64 -> BT.lookup 64 0 t o = if decide (o = no) then Some p else BT.lookup 64 0 (inodes_btree s) o).
Proof.
  intros Ht (j & Hj & Hn). unfold BT.btree_new_leaf.
  assert (BT.bt_level (inodes_btree s) = 0) as -> by (destruct (inodes_btree s); by destruct Ht).
  destruct (BT.btree_set_leaf (Z.to_nat 0) (inodes_btree s) p) as [t1 r] eqn:E. simpl in E.
  destruct (BT.set_leaf_ok 64 p ltac:(lia) 0 _ _ _ ltac:(by vm_compute) Ht E) as [Ht1 [[-> ->]|(Hr & H1 & H2 & H3)]].
  - exfalso. by apply (BT.set_leaf_0_full 64 _ _ _ Ht E j Hj).
  - change (64 ^ Z.of_nat 1) with 64 in *. rewrite (proj2 (Z.ltb_lt 0 r)) by lia. intros [= <- <-].
    split_and!; try done; try lia. intros o Ho. case_decide as Hd; [by subst|by apply H3].
Qed.

Lemma inv_new s h p t no i :
  fs_inv s -> has_slot s -> kmalloc (hp s) SIZEOF_INODE = (h, p) -> p <> 0 ->
  BT.btree_new_leaf true (inodes_btree s) p = (t, no) ->
  i_no i = no -> i_nlinks i = 0 -> S_ISDIR (i_mode i) = false ->
  let s' := put_inode (set_btree (set_hp s h) t) p i in
  fs_inv s' /\ idatas s' !! ptr s' no = Some i /\ 0 < no /\
  (forall o j, idatas s !! ptr s o = Some j -> i_no j = o -> idatas s' !! ptr s' o = Some j).
Proof.
  intros Hs Hslot Hm Hp Hb Hno Hnl Hd s'. pose proof (new_leaf_ok s p t no (fi_tree s Hs) Hslot Hb) as (Ht & Hr & Hfree & Hlk).
  destruct (fi_heap s Hs) as (live & Hlv & Hall).
  destruct (kmalloc_spec (hp s) live SIZEOF_INODE h p Hlv ltac:(by vm_compute) Hm) as [[? _]|(Hpos & H16 & Hfr & n & Hn & Hlv')]; [done|].
  assert (Hpi : p <> theInvalidInode) by (intros ->; done).
  assert (Hpf : idatas s !! p = None /\ dirs s !! p = None).
  { split; apply eq_None_not_Some; intros Hx; (destruct (Hall p Hpi) as [? Hy]; [by (left + right)|]; congruence). }
  destruct Hpf as [Hpf Hpd].
  assert (Hz : ptr s no = 0) by (rewrite ptr_lookup by (apply (fi_tree s Hs) || lia); by rewrite Hfree).
  assert (Hpt : forall o, 0 <= o < 64 -> ptr s' o = if decide (o = no) then p else ptr s o).
  { intros o Ho. rewrite (ptr_lookup s'), (ptr_lookup s) by (done || apply (fi_tree s Hs)). simpl. rewrite Hlk by done. by case_decide. }
  assert (Hold : forall o j, idatas s !! ptr s o = Some j -> i_no j = o -> idatas s' !! ptr s' o = Some j).
  { intros o j Hj Hjn. destruct (fi_inode s Hs _ _ Hj) as (Hq0 & Hrange & _ & _). rewrite Hjn in Hrange.
    rewrite Hpt by done. rewrite decide_False by (intros ->; done). simpl. rewrite lookup_insert_ne; [done|].
    intros E. rewrite <- E in Hj. congruence. }
  assert (Hnone : forall d dir k, dirs s !! d = Some dir -> RD.dir_map dir !! k <> Some no).
  { intros d dir k Hd1 Hk. destruct (fi_entry s Hs _ _ _ _ Hd1 Hk) as (_ & j & Hj & _). rewrite Hz in Hj.
    destruct (fi_inode s Hs _ _ Hj) as [? _]. done. }
  split_and!.
  2:{ rewrite Hpt by lia. rewrite decide_True by done. simpl. by rewrite lookup_insert_eq. }
  2:{ lia. }
  2:{ exact Hold. }
  constructor; simpl.
  - done.
  - exists (<[p := n]> live). split; [done|]. intros q Hq Hor. destruct (decide (q = p)) as [->|Hne].
    + rewrite lookup_insert_eq. by eexists.
    + rewrite lookup_insert_ne by done. rewrite lookup_insert_ne in Hor by done. by apply Hall.
  - intros q Hq. destruct (decide (q = p)) as [->|Hne]; [done|]. rewrite lookup_insert_ne in Hq by done. by apply (fi_apart s Hs).
  - intros q j. destruct (decide (q = p)) as [->|Hne].
    + rewrite lookup_insert_eq. intros [= <-]. rewrite Hno. split; [done|]. split; [lia|]. split; [|done].
      rewrite Hpt by lia. by rewrite decide_True.
    + rewrite lookup_insert_ne by done. intros Hj. destruct (fi_inode s Hs _ _ Hj) as (Hq0 & Hrange & Hq & Hqi).
      split; [done|]. split; [done|]. split; [|done]. rewrite Hpt by done. rewrite decide_False; [done|]. intros E. by rewrite E, Hz in Hq.
  - apply (fi_dirs s Hs).
  - intros q j. destruct (decide (q = p)) as [->|Hne].
    + rewrite lookup_insert_eq. intros [= <-]. by rewrite Hd.
    + rewrite lookup_insert_ne by done. apply (fi_dir s Hs).
  - intros d dir k o Hd1 Hk. destruct (fi_entry s Hs _ _ _ _ Hd1 Hk) as (Ho & j & Hj & Hjn). split; [done|]. exists j.
    split; [by apply Hold|done].
  - intros q j. destruct (decide (q = p)) as [->|Hne].
    + rewrite lookup_insert_eq. intros [= <-]. rewrite Hnl, Hno, links_0; done.
    + rewrite lookup_insert_ne by done. apply (fi_links s Hs).
  - destruct (fi_root s Hs) as (Hr0 & j & Hj & Hjn & Hm'). split; [done|]. exists j. split; [by apply Hold|done].
Qed.

Lemma make_node_ok s mode info :
  fs_inv s -> has_slot s -> S_ISDIR mode = false ->
  exists s' r ino, ramfs_make_node s mode info = Some (s', r, ino) /\
    ((r = ENOMEM /\ s' = set_hp s (hp s) /\ (kmalloc (hp s) SIZEOF_INODE).2 = 0) \/
     (r = 0 /\ fs_inv s' /\ dirs s' = dirs s /\ sb_root_ino s' = sb_root_ino s /\ km s' = km s /\ 0 < ino /\
      (exists i, idatas s' !! ptr s' ino = Some i /\ i_no i = ino /\ i_mode i = mode /\ i_nlinks i = 0 /\ i_size i = 0 /\ (S_ISCHR mode || S_ISBLK mode = false -> i_as i = zero_as)) /\
      forall o j, idatas s !! ptr s o = Some j -> i_no j = o -> idatas s' !! ptr s' o = Some j)).
Proof.
  intros Hs Hslot Hd. unfold ramfs_make_node, ramfs_inode_new.
  destruct (kmalloc (hp s) SIZEOF_INODE) as [h p] eqn:Em. destruct (Z.eqb_spec p 0) as [->|Hp].
  - destruct (fi_heap s Hs) as (live & Hlv & _).
    destruct (kmalloc_spec (hp s) live SIZEOF_INODE h 0 Hlv ltac:(by vm_compute) Em) as [[_ ->]|[? _]]; [|lia].
    do 3 eexists. split; [done|]. by left.
  - destruct (BT.btree_new_leaf true (inodes_btree (set_hp s h)) p) as [t no] eqn:Eb. simpl in Eb. cbn.
    rewrite lookup_insert_eq. set (i := if S_ISCHR mode || S_ISBLK mode then _ else _).
    assert (Hi : i_no i = no /\ i_nlinks i = 0 /\ i_mode i = mode /\ i_size i = 0 /\ (S_ISCHR mode || S_ISBLK mode = false -> i_as i = zero_as)) by (unfold i; by destruct (S_ISCHR mode || S_ISBLK mode)).
    destruct Hi as (Hno & Hnl & Hmo & Hsz & Has).
    do 3 eexists. split; [done|]. right. split; [done|]. unfold put_inode, set_idatas. simpl. rewrite insert_insert_eq.
    destruct (inv_new s h p t no i Hs Hslot Em Hp Eb Hno Hnl) as (H1 & H2 & H3 & H4); [by rewrite Hmo|].
    rewrite Hno. split; [done|]. split; [done|]. split; [done|]. split; [done|]. split; [done|]. split; [by exists i|done].
Qed.

(** ** A new file system *)

(** The root directory as [ramfs_make_directory] leaves it. *)
Definition root_dir : RD.ramfs_directory :=
  (RD.ramfs_directory_new_entry (RD.ramfs_directory_new_entry RD.ramfs_directory_new [46; 46] 1).1 [46] 1).1.

Lemma root_dir_ok : RD.dir_wf root_dir /\ RD.dir_map root_dir = <[[46] := 1]> {[ [46; 46] := 1 ]}.
Proof.
  unfold root_dir. destruct RD.new_dir_wf as [Hw Hm].
  destruct (RD.ramfs_directory_new_entry RD.ramfs_directory_new [46; 46] 1) as [d1 r1] eqn:E1.
  destruct (RD.new_entry_spec _ _ _ _ _ Hw E1) as [Hw1 _]. simpl.
  destruct (RD.ramfs_directory_new_entry d1 [46] 1) as [d2 r2] eqn:E2.
  destruct (RD.new_entry_spec _ _ _ _ _ Hw1 E2) as [Hw2 _]. split; [done|].
  vm_compute in E1. injection E1 as <- <-. vm_compute in E2. injection E2 as <- <-. by vm_compute.
Qed.

Definition root_inode (d : Z) : inode := mk_inode 1 (Z.lor S_IFDIR (Z.lor S_IFDIR 493)) 2 0 0 d zero_as.
Definition root_tree (p : Z) : BT.bnode :=
  BT.BN 0 64 2 (BT.CLeaf theInvalidInode :: BT.CLeaf p :: replicate 62 BT.CNull).

#[local] Arguments RD.ramfs_directory_new_entry : simpl never.
#[local] Arguments RD.ramfs_directory_new : simpl never.

Lemma root_dir_steps :
  RD.ramfs_directory_new_entry RD.ramfs_directory_new [46; 46] 1 = ((RD.ramfs_directory_new_entry RD.ramfs_directory_new [46; 46] 1).1, 0) /\
  RD.ramfs_directory_new_entry (RD.ramfs_directory_new_entry RD.ramfs_directory_new [46; 46] 1).1 [46] 1 = (root_dir, 0).
Proof. by vm_compute. Qed.

Lemma superblock_result h k :
  ramfs_read_superblock h k 0 =
    let '(h1, p) := kmalloc h SIZEOF_INODE in
    if p =? 0 then Some (set_hp (ramfs_data_new h k 0) h1, ENOMEM)
    else
      let '(h2, d) := kmalloc h1 SIZEOF_DIR in
      if d =? 0 then
        Some (mk_fs (kfree h2 p) k (root_tree p) (delete p (<[p := mk_inode 1 16877 0 0 0 0 zero_as]> {[ theInvalidInode := mk_inode 0 0 0 0 0 0 zero_as ]})) ∅ 0 0, ENOMEM)
      else Some (mk_fs h2 k (root_tree p) (<[p := root_inode d]> {[ theInvalidInode := mk_inode 0 0 0 0 0 0 zero_as ]}) {[ d := root_dir ]} 1 0, 0).
Proof.
  unfold ramfs_read_superblock, ramfs_make_directory, ramfs_inode_new. simpl hp.
  destruct (kmalloc h SIZEOF_INODE) as [h1 p]. destruct (Z.eqb_spec p 0) as [->|Hp]; [done|].
  assert (Eb : BT.btree_new_leaf true (inodes_btree (set_hp (ramfs_data_new h k 0) h1)) p = (root_tree p, 1)) by (by vm_compute).
  rewrite Eb. cbn [negb Z.eqb]. simpl hp. destruct (kmalloc h1 SIZEOF_DIR) as [h2 d]. destruct (Z.eqb_spec d 0) as [->|Hd].
  - unfold make_error_exit. cbn [negb Z.eqb]. unfold ramfs_inode_free. simpl idatas. by rewrite lookup_insert_eq.
  - cbn [chr lookup list_lookup default Z.eqb sb_parent put_dir set_dirs]. unfold add_entry. simpl. rewrite !lookup_insert_eq.
    destruct root_dir_steps as [E1 E2]. set (d1 := (_ : RD.ramfs_directory * Z).1) in E1, E2. clearbody d1. cbn [i_no]. rewrite E1. cbn [orb Z.eqb negb].
    unfold make_finish. simpl. rewrite !lookup_insert_eq. cbn [i_no set_nlinks]. rewrite E2.
    cbn. unfold put_inode, put_dir, set_idatas, set_dirs. simpl. rewrite !insert_insert_eq. done.
Qed.

Lemma root_tree_ok p : BT.tree_ok 64 0 (root_tree p).
Proof.
  unfold root_tree, BT.tree_ok. split; [done|]. split; [done|]. split; [done|]. split; [repeat constructor|].
  split; [done|]. by do 2 eexists.
Qed.

Lemma ptr_root_tree s p ino : inodes_btree s = root_tree p -> 0 <= ino < 64 ->
  ptr s ino = if ino =? 0 then theInvalidInode else if ino =? 1 then p else 0.
Proof.
  intros Et Hi. unfold ptr. rewrite Et.
  destruct (Z.eqb_spec ino 0) as [->|H0']; [done|]. destruct (Z.eqb_spec ino 1) as [->|H1]; [done|].
  change (default 0 (if 64 <=? ino then None else
    match default BT.CNull ((BT.CLeaf theInvalidInode :: BT.CLeaf p :: replicate 62 BT.CNull) !! Z.to_nat ino) with
    | BT.CLeaf q => Some q | _ => None end) = 0).
  rewrite (proj2 (Z.leb_gt 64 ino)) by lia.
  replace (Z.to_nat ino) with (S (S (Z.to_nat (ino - 2)))) by lia.
  change ((BT.CLeaf theInvalidInode :: BT.CLeaf p :: replicate 62 BT.CNull) !! S (S (Z.to_nat (ino - 2))))
    with (replicate 62 BT.CNull !! Z.to_nat (ino - 2)).
  rewrite (lookup_replicate_2 62) by lia. done.
Qed.

Lemma root_links ino d : links {[ d := root_dir ]} ino = if decide (ino = 1) then 2%nat else 0%nat.
Proof.
  unfold links. rewrite <- insert_empty, map_fold_insert_L by (intros; lia || done). rewrite map_fold_empty.
  unfold dir_links. rewrite (proj2 root_dir_ok). rewrite map_links_insert by done.
  rewrite <- insert_empty, map_links_insert by done.
  replace (map_links ∅ ino) with 0%nat by done. repeat case_decide; subst; done.
Qed.

Lemma superblock_ok h k live s :
  heap_inv h live -> ramfs_read_superblock h k 0 = Some (s, 0) ->
  fs_inv s /\ has_slot s /\ few_links s.
Proof.
  intros Hh. rewrite superblock_result. destruct (kmalloc h SIZEOF_INODE) as [h1 p] eqn:E1.
  destruct (Z.eqb_spec p 0) as [->|Hp]; [done|]. destruct (kmalloc h1 SIZEOF_DIR) as [h2 d] eqn:E2.
  destruct (Z.eqb_spec d 0) as [->|Hd]; [done|]. intros [= <-].
  destruct (kmalloc_spec h live SIZEOF_INODE h1 p Hh ltac:(by vm_compute) E1) as [[? _]|(Hpos & H16 & Hfr & n & Hn & Hh1)]; [done|].
  destruct (kmalloc_spec h1 _ SIZEOF_DIR h2 d Hh1 ltac:(by vm_compute) E2) as [[? _]|(Hdpos & Hd16 & Hdfr & n2 & Hn2 & Hh2)]; [done|].
  assert (Hpd : p <> d) by (intros ->; by rewrite lookup_insert_eq in Hdfr).
  assert (Hpi : p <> theInvalidInode) by (intros ->; done). assert (Hdi : d <> theInvalidInode) by (intros ->; done).
  set (s := mk_fs _ _ _ _ _ _ _). assert (Hpt : forall ino, 0 <= ino < 64 -> ptr s ino = if ino =? 0 then theInvalidInode else if ino =? 1 then p else 0)
    by (intros; by apply ptr_root_tree).
  assert (Hget : forall q i, idatas s !! q = Some i -> (q = p /\ i = root_inode d) \/ (q = theInvalidInode /\ i = mk_inode 0 0 0 0 0 0 zero_as)).
  { intros q i. simpl. rewrite lookup_insert_Some, lookup_singleton_Some. naive_solver. }
  assert (Hroot : idatas s !! ptr s 1 = Some (root_inode d)) by (rewrite Hpt by lia; simpl; by rewrite lookup_insert_eq).
  split; [|split].
  - constructor.
    + apply root_tree_ok.
    + exists (<[d := n2]> (<[p := n]> live)). split; [done|]. intros q Hq [[i Hi]|[x Hx]].
      * destruct (Hget _ _ Hi) as [[-> _]|[-> _]]; [|done]. rewrite lookup_insert_ne, lookup_insert_eq by done. by eexists.
      * simpl in Hx. apply lookup_singleton_Some in Hx as [<- _]. rewrite lookup_insert_eq. by eexists.
    + intros q [i Hi]. simpl. apply lookup_singleton_None. destruct (Hget _ _ Hi) as [[-> _]|[-> _]]; congruence.
    + intros q i Hi. destruct (Hget _ _ Hi) as [[-> ->]|[-> ->]]; (split; [done|]); simpl; (split; [lia|]); rewrite Hpt by lia; done.
    + intros q x Hx. simpl in Hx. apply lookup_singleton_Some in Hx as [<- <-]. split; [done|]. apply root_dir_ok.
    + intros q i Hi Hdir. destruct (Hget _ _ Hi) as [[-> ->]|[-> ->]]; [|done]. simpl. rewrite lookup_singleton_eq. by eexists.
    + intros q x nm ino Hx Hk. simpl in Hx. apply lookup_singleton_Some in Hx as [_ <-].
      rewrite (proj2 root_dir_ok) in Hk. assert (ino = 1) as ->.
      { apply lookup_insert_Some in Hk as [[_ <-]|[_ Hk]]; [done|]. by apply lookup_singleton_Some in Hk as [_ <-]. }
      split; [lia|]. by exists (root_inode d).
    + intros q i Hi. simpl dirs. rewrite root_links. destruct (Hget _ _ Hi) as [[-> ->]|[-> ->]]; done.
    + split; [done|]. by exists (root_inode d).
  - exists 2. split; [lia|]. done.
  - intros ino. simpl. rewrite root_links. case_decide; lia.
Qed.

(** New contents of an inode leave the tree as it is. *)
Lemma inv_write s k p i i' : fs_inv s -> idatas s !! p = Some i -> i_no i' = i_no i -> i_mode i' = i_mode i -> i_nlinks i' = i_nlinks i -> i_data i' = i_data i ->
  fs_inv (put_inode (set_km s k) p i').
Proof.
  intros Hs Hp Hno Hm Hn Hd. destruct Hs as [Ht Hh Hap Hin Hds Hdir Hent Hl Hr].
  assert (Hpt : forall q, is_Some (<[p := i']> (idatas s) !! q) -> is_Some (idatas s !! q)).
  { intros q. destruct (decide (q = p)) as [->|Hne]; [rewrite Hp; naive_solver|by rewrite lookup_insert_ne by done]. }
  assert (Hget : forall q j, <[p := i']> (idatas s) !! q = Some j -> exists j0, idatas s !! q = Some j0 /\ i_no j = i_no j0 /\ i_mode j = i_mode j0 /\ i_nlinks j = i_nlinks j0 /\ i_data j = i_data j0).
  { intros q j. destruct (decide (q = p)) as [->|Hne]; [rewrite lookup_insert_eq; intros [= <-]; by exists i|rewrite lookup_insert_ne by done; by exists j]. }
  assert (Hset : forall q j0, idatas s !! q = Some j0 -> exists j, <[p := i']> (idatas s) !! q = Some j /\ i_no j = i_no j0 /\ i_mode j = i_mode j0).
  { intros q j0 Hj. destruct (decide (q = p)) as [->|Hne]; [rewrite lookup_insert_eq; exists i'; rewrite Hp in Hj; by injection Hj as <-|rewrite lookup_insert_ne by done; by exists j0]. }
  constructor; simpl.
  - done.
  - destruct Hh as (live & Hlv & Hall). exists live. split; [done|]. intros q Hq [Hx|Hx]; apply Hall; try done; [left; by apply Hpt|by right].
  - intros q Hq. by apply Hap, Hpt.
  - intros q j Hj. destruct (Hget _ _ Hj) as (j0 & Hj0 & -> & _). by apply (Hin q j0).
  - done.
  - intros q j Hj. destruct (Hget _ _ Hj) as (j0 & Hj0 & _ & -> & _ & ->). by apply (Hdir q j0).
  - intros d dir n o Hd1 Hk. destruct (Hent _ _ _ _ Hd1 Hk) as (Ho & j0 & Hj0 & Hjn). split; [done|]. destruct (Hset _ _ Hj0) as (j & Hj & Ej & _). exists j. by rewrite Ej.
  - intros q j Hj. destruct (Hget _ _ Hj) as (j0 & Hj0 & -> & _ & -> & _). by apply (Hl q j0).
  - destruct Hr as (Hr0 & j0 & Hj0 & Hjn & Hjd). split; [done|]. destruct (Hset _ _ Hj0) as (j & Hj & Ej & Em). exists j. by rewrite Ej, Em.
Qed.

(** ** Histories *)

(** The operations a client performs, with what it has to keep to: nodes are
    made only when they are no directories and there is a free slot for the
    inode, numbers are of inodes that were not freed, names fit the buffer of
    [ramfs_link_inode], local paths do not start with a separator, and only
    regular files are written. *)
Inductive fs_step : ramfs (H := H) -> ramfs (H := H) -> Prop :=
| step_make_node s mode info s' r ino :
    has_slot s -> S_ISDIR mode = false -> ramfs_make_node s mode info = Some (s', r, ino) -> fs_step s s'
| step_link s ino dirino name namelen s' r :
    live_ino s ino -> live_ino s dirino -> few_links s -> Z.of_nat (length (RD.ztake namelen name)) < 255 ->
    ramfs_link_inode s ino dirino name namelen = Some (s', r) -> fs_step s s'
| step_unlink s path pathlen s' r :
    few_links s -> chr path 0 <> FS_SEP -> Z.of_nat (length path) < pathlen ->
    ramfs_unlink_inode s path pathlen = Some (s', r) -> fs_step s s'
| step_write s ino i pos buf s' r n :
    idatas s !! ptr s ino = Some i -> S_ISREG (i_mode i) = true -> write_inode s ino pos buf = Some (s', r, n) -> fs_step s s'.

Lemma step_inv s s' : fs_inv s -> fs_step s s' -> fs_inv s'.
Proof.
  intros Hs Hstep. destruct Hstep as [s mode info s' r ino Hsl Hd E|s ino dirino nm len s' r Hl Hld Hf Hn E|s path len s' r Hf Hc Hp E|s ino i pos buf s' r n Hi Hm E].
  - destruct (make_node_ok s mode info Hs Hsl Hd) as (s1 & r1 & i1 & E1 & Hor). rewrite E in E1. injection E1 as <- <- <-.
    destruct Hor as [(_ & -> & _)|(_ & Hs1 & _)]; [|done]. by destruct s.
  - destruct (link_ok s ino dirino nm len Hs Hl Hld Hf Hn) as (s1 & r1 & E1 & Hs1 & _). rewrite E in E1. by injection E1 as <- <-.
  - destruct (unlink_ok s path len Hs Hf Hc Hp) as (s1 & r1 & dl & E1 & Hs1 & _). rewrite E in E1. by injection E1 as <- <-.
  - unfold write_inode in E. fold (ptr s ino) in E. pose proof (fi_inode s Hs _ _ Hi) as (Hp & _). rewrite (proj2 (Z.eqb_neq _ _) Hp), Hi in E.
    destruct (RB.ramfs_write_inode (km s) (as_reg i) pos buf) as [[[k reg] r'] n']. injection E as <- _ _. by apply (inv_write s k (ptr s ino) i).
Qed.

Lemma steps_inv s s' : fs_inv s -> rtc fs_step s s' -> fs_inv s'.
Proof. intros Hs Hr. induction Hr; eauto using step_inv. Qed.

(** ** Look-up is a walk *)

(** A path: its components, each but the last followed by [S k] separators. *)
Fixpoint joined (cs : list (list Z * nat)) : list Z :=
  match cs with
  | [] => []
  | [(c, _)] => c
  | (c, k) :: cs => c ++ replicate (S k) FS_SEP ++ joined cs
  end.

Definition comp_ok (c : list Z) : Prop := c <> [] /\ Forall (fun b => b <> 0 /\ b <> FS_SEP) c.

(** Follow the components from the directory [d]. *)
Fixpoint walk s (d : Z) (cs : list (list Z)) : Z * Z :=
  match cs with
  | [] => (ENOENT, 0)
  | c :: cs' =>
      match dirs s !! d ≫= (fun dir => RD.dir_map dir !! c) with
      | None => (ENOENT, 0)
      | Some ino =>
          match cs', idatas s !! ptr s ino with
          | [], _ => (0, ino)
          | _, Some i => if S_ISDIR (i_mode i) then walk s (i_data i) cs' else (ENOTDIR, 0)
          | _, None => (EKERN, 0)
          end
      end
  end.

Lemma chr_at pre b post : chr (pre ++ b :: post) (Z.of_nat (length pre)) = b.
Proof. unfold chr. rewrite Nat2Z.id, list_lookup_middle; done. Qed.

Lemma chr_end pre : chr pre (Z.of_nat (length pre)) = 0.
Proof. unfold chr. rewrite Nat2Z.id. by rewrite (proj2 (lookup_ge_None pre (length pre))). Qed.

Lemma comp_end_scan pathlen c : forall pre tail fuel,
  Forall (fun b => b <> 0 /\ b <> FS_SEP) c -> Z.of_nat (length pre + length c) <= pathlen -> (length c < fuel)%nat ->
  comp_end fuel (pre ++ c ++ tail) pathlen (Z.of_nat (length pre)) =
  comp_end (fuel - length c) (pre ++ c ++ tail) pathlen (Z.of_nat (length pre + length c)).
Proof.
  induction c as [|b c IH]; intros pre tail fuel Hc Hl Hf; simpl length.
  - by rewrite Nat.add_0_r, Nat.sub_0_r.
  - inversion Hc as [|? ? [Hb0 Hb1] Hc']; subst. destruct fuel as [|fuel]; [simpl in Hf; lia|]. cbn [comp_end].
    simpl length in Hl, Hf. cbn [app]. rewrite chr_at, (proj2 (Z.leb_gt pathlen _)) by lia.
    rewrite (proj2 (Z.eqb_neq b 0) Hb0), (proj2 (Z.eqb_neq b FS_SEP) Hb1). cbn [orb].
    specialize (IH (pre ++ [b]) tail fuel Hc'). rewrite length_app in IH. simpl length in IH.
    rewrite <- !app_assoc in IH. cbn [app] in IH.
    replace (Z.of_nat (length pre) + 1) with (Z.of_nat (length pre + 1)) by lia. rewrite IH by lia.
    replace (length pre + 1 + length c)%nat with (length pre + S (length c))%nat by lia. done.
Qed.

Lemma skip_sep_scan k : forall pre b tail fuel, b <> FS_SEP -> (k < fuel)%nat ->
  skip_sep fuel (pre ++ replicate k FS_SEP ++ b :: tail) (Z.of_nat (length pre)) = Some (Z.of_nat (length pre + k)).
Proof.
  induction k as [|k IH]; intros pre b tail fuel Hb Hf; (destruct fuel as [|fuel]; [lia|]); cbn [skip_sep replicate app].
  - rewrite chr_at, (proj2 (Z.eqb_neq b FS_SEP) Hb). f_equal. lia.
  - rewrite chr_at, Z.eqb_refl. specialize (IH (pre ++ [FS_SEP]) b tail fuel Hb ltac:(lia)).
    rewrite length_app in IH. simpl length in IH. rewrite <- app_assoc in IH. cbn [app] in IH.
    replace (Z.of_nat (length pre) + 1) with (Z.of_nat (length pre + 1)) by lia. rewrite IH. f_equal. lia.
Qed.

(** Where a path of [comps] may end: at the end of the string, or at [pathlen]. *)
Definition path_end (path rest : list Z) (pathlen : Z) : Prop :=
  (rest = [] /\ Z.of_nat (length path) <= pathlen) \/ pathlen = Z.of_nat (length path - length rest).

Lemma joined_head cs : Forall (fun ck => comp_ok ck.1) cs -> cs <> [] ->
  exists b tl, joined cs = b :: tl /\ b <> 0 /\ b <> FS_SEP.
Proof.
  intros Hok Hne. destruct cs as [|[c k] cs]; [done|]. inversion Hok as [|? ? [Hc Hall] _]; subst. simpl in Hc, Hall.
  destruct c as [|b c]; [done|]. inversion Hall as [|? ? Hb _]; subst.
  destruct cs; [by exists b, c|]. do 2 eexists. split; [done|done].
Qed.

Lemma lookup_loop_walk s pathlen rest : fs_inv s -> forall cs pre d fuel,
  let path := pre ++ joined cs ++ rest in
  cs <> [] -> Forall (fun ck => comp_ok ck.1) cs -> is_Some (dirs s !! d) ->
  (forall d dir c, dirs s !! d = Some dir -> c ∈ cs.*1 -> RD.no_prefix_collision dir c) ->
  path_end path rest pathlen -> (length cs <= fuel)%nat ->
  lookup_loop fuel s d path pathlen (Z.of_nat (length pre)) (Z.of_nat (length pre)) = Some (walk s d cs.*1).
Proof.
  intros Hs. induction cs as [|[c k] cs IH]; intros pre d fuel path Hne Hok [dir Hd] Hnc Hend Hf; [done|].
  inversion Hok as [|? ? [Hc Hall] Hok']; subst. simpl in Hc, Hall.
  destruct fuel as [|fuel]; [simpl in Hf; lia|]. cbn [lookup_loop]. rewrite Hd.
  set (tail := if decide (cs = []) then rest else replicate (S k) FS_SEP ++ joined cs ++ rest).
  assert (Ep : path = pre ++ c ++ tail).
  { unfold path, tail. destruct cs as [|ck cs]; [done|]. rewrite decide_False by done. cbn [joined]. by rewrite <- !app_assoc. }
  assert (Hlen : Z.of_nat (length pre + length c) <= pathlen /\ (tail = rest -> path_end path rest pathlen)).
  { split; [|done]. assert (Ht : (length rest <= length tail)%nat).
    { unfold tail. case_decide; [lia|]. rewrite !length_app. lia. }
    destruct Hend as [[_ Hl]|Hl]; rewrite Ep, !length_app in Hl; lia. }
  destruct Hlen as [Hlen _].
  assert (Hend1 : comp_end (S (length path)) path pathlen (Z.of_nat (length pre)) =
                  Some (Z.of_nat (length pre + length c), bool_decide (cs = []))).
  { rewrite Ep, comp_end_scan; [|done|done|rewrite !length_app; lia].
    replace (S (length (pre ++ c ++ tail)) - length c)%nat with (S (length pre + length tail)) by (rewrite !length_app; lia).
    cbn [comp_end]. rewrite <- length_app, app_assoc. unfold tail. destruct cs as [|ck cs].
    - rewrite decide_True, bool_decide_true by done. destruct Hend as [[-> Hl]|Hl].
      + rewrite app_nil_r, chr_end, Z.eqb_refl, orb_true_r. done.
      + rewrite (proj2 (Z.leb_le _ _)); [done|]. rewrite Hl. unfold path. simpl. rewrite !length_app. lia.
    - rewrite decide_False, bool_decide_false by done. cbn [replicate app]. rewrite chr_at.
      rewrite (proj2 (Z.leb_gt _ _)); [done|].
      destruct Hend as [[-> Hl]|Hl]; rewrite Ep in Hl; unfold tail in Hl; rewrite decide_False in Hl by done; simpl in Hl;
        rewrite !length_app in *; simpl in Hl; rewrite ?length_app in *; lia. }
  rewrite Hend1.
  assert (Hsearch : RD.ramfs_directory_search dir (drop (Z.to_nat (Z.of_nat (length pre))) path) (Z.of_nat (length pre + length c) - Z.of_nat (length pre))
                    = RD.dir_map dir !! c).
  { rewrite Ep, Nat2Z.id, drop_app_length. destruct (fi_dirs s Hs _ _ Hd) as [_ Hw].
    replace (Z.of_nat (length pre + length c) - Z.of_nat (length pre)) with (Z.of_nat (length c)) by lia.
    pose proof (RD.search_spec dir (c ++ tail) (Z.of_nat (length c)) Hw) as Hss. cbv zeta in Hss.
    rewrite Nat2Z.id, take_app_length in Hss. apply Hss; [lia|]. intros _. apply (Hnc d dir c Hd). left. }
  rewrite Hsearch. simpl fmap. cbn [walk]. rewrite Hd. cbn [mbind option_bind].
  destruct (RD.dir_map dir !! c) as [ino|] eqn:Em; [|by case_bool_decide].
  destruct cs as [|ck cs]; [done|]. rewrite bool_decide_false by done. cbn [fmap list_fmap].
  destruct (joined_head (ck :: cs) Hok' ltac:(done)) as (b & tl & Ej & Hb0 & Hb1).
  unfold tail in Ep. rewrite decide_False in Ep by done. rewrite Ej in Ep. cbn [replicate] in Ep.
  assert (Ep2 : path = (pre ++ c ++ [FS_SEP]) ++ replicate k FS_SEP ++ b :: tl ++ rest).
  { rewrite Ep, <- !app_assoc. done. }
  assert (E1 : Z.of_nat (length pre + length c) + 1 = Z.of_nat (length (pre ++ c ++ [FS_SEP]))) by (rewrite !length_app; simpl; lia).
  assert (Hch : chr path (Z.of_nat (length pre + length c) + 1) <> 0).
  { rewrite E1, Ep2. destruct k as [|k]; cbn [replicate app]; by rewrite chr_at. }
  rewrite (proj2 (Z.eqb_neq _ _) Hch). destruct (live_get s ino Hs) as (i & Hi & _ & Hp0 & _); [by eapply (fi_entry s Hs)|].
  rewrite (proj2 (Z.eqb_neq _ _) Hp0), Hi.
  replace (skip_sep _ path _) with (Some (Z.of_nat (length (pre ++ c ++ replicate (S k) FS_SEP)))).
  2:{ rewrite E1, Ep2, skip_sep_scan; [|done|rewrite !length_app, length_replicate; simpl; lia].
      f_equal. rewrite !length_app, length_replicate. simpl. lia. }
  destruct (S_ISDIR (i_mode i)) eqn:Edir; cbn [negb]; [|done].
  assert (Ep3 : path = (pre ++ c ++ replicate (S k) FS_SEP) ++ joined (ck :: cs) ++ rest).
  { rewrite Ep2, Ej. cbn [replicate]. rewrite <- !app_assoc. done. }
  rewrite Ep3. apply (IH (pre ++ c ++ replicate (S k) FS_SEP)); try done.
  - by eapply (fi_dir s Hs).
  - intros d' dir' c' Hd' Hc'. apply (Hnc d'); [done|]. by right.
  - by rewrite <- Ep3.
  - simpl in *. lia.
Qed.

Lemma links_le ds ino : (links ds ino <= map_fold (fun _ dir acc => size (RD.dir_map dir) + acc) 0 ds)%nat.
Proof.
  unfold links. induction ds as [|d dir ds Hd IH] using map_ind; [by rewrite !map_fold_empty|].
  rewrite !map_fold_insert_L; [|intros; lia|done|intros; lia|done].
  assert (dir_links ino dir <= size (RD.dir_map dir))%nat; [|lia].
  apply map_subseteq_size, map_filter_subseteq.
Qed.

Lemma lookup_walk_ok s cs rest pathlen root :
  fs_inv s -> idatas s !! ptr s (sb_root_ino s) = Some root ->
  cs <> [] -> Forall (fun ck => comp_ok ck.1) cs ->
  (forall d dir c, dirs s !! d = Some dir -> c ∈ cs.*1 -> RD.no_prefix_collision dir c) ->
  path_end (joined cs ++ rest) rest pathlen ->
  ramfs_lookup_inode s (joined cs ++ rest) pathlen = Some (walk s (i_data root) cs.*1).
Proof.
  intros Hs Hroot Hne Hok Hnc Hend. unfold ramfs_lookup_inode.
  destruct (joined_head cs Hok Hne) as (b & tl & Ej & Hb0 & _). destruct (fi_root s Hs) as (_ & i & Hi & _ & Hd).
  rewrite Hroot in Hi. injection Hi as <-.
  assert (Hc0 : chr (joined cs ++ rest) 0 = b) by (by rewrite Ej). rewrite Hc0, (proj2 (Z.eqb_neq b 0) Hb0).
  assert (Hpl : pathlen <> 0).
  { destruct Hend as [[_ Hl]|Hl]; rewrite length_app, Ej in Hl; simpl in Hl; lia. }
  rewrite (proj2 (Z.eqb_neq _ _) Hpl). cbn [orb]. destruct (fi_inode s Hs _ _ Hroot) as [Hp _].
  rewrite (proj2 (Z.eqb_neq _ _) Hp), Hroot, Hd. cbn [negb].
  apply (lookup_loop_walk s pathlen rest Hs cs []); try done; [by eapply (fi_dir s Hs)|].
  rewrite length_app. assert (length cs <= length (joined cs))%nat; [|lia].
  clear -Hok. induction cs as [|[c k] cs IH]; [done|]. inversion Hok as [|? ? [Hc _] Hok']; subst. simpl in Hc.
  specialize (IH Hok'). destruct c as [|x c]; [done|]. destruct cs as [|ck cs]; [simpl; lia|].
  cbn [joined]. rewrite !length_app. simpl in *. lia.
Qed.

(** ** The claims *)

(** C21: looking up a path follows its components: the result is that of walking
    from the root directory through the directories' maps, with [ENOENT] for a
    missing name and [ENOTDIR] for a component that is not a directory; repeated
    separators do not matter, and the path may end at the end of the string or be
    cut at [pathlen].  This holds for paths none of whose components is a proper
    prefix of a name of a directory with the same hash, since the search compares
    only as many bytes as the component has. *)
Theorem ramfs_lookup_walks s cs rest pathlen root :
  fs_inv s -> idatas s !! ptr s (sb_root_ino s) = Some root ->
  cs <> [] -> Forall (fun ck => comp_ok ck.1) cs ->
  (forall d dir c, dirs s !! d = Some dir -> c ∈ cs.*1 -> RD.no_prefix_collision dir c) ->
  path_end (joined cs ++ rest) rest pathlen ->
  ramfs_lookup_inode s (joined cs ++ rest) pathlen = Some (walk s (i_data root) cs.*1).
Proof. apply lookup_walk_ok. Qed.

(** [ramfs_link_inode] adds one name: it fails with [EEXIST] and changes
    nothing when the directory has the name, and otherwise maps the name to
    the inode and counts the link; it always returns, and the invariant holds
    afterwards. *)
Theorem ramfs_link_correct s ino dirino name namelen :
  fs_inv s -> live_ino s ino -> live_ino s dirino -> few_links s -> Z.of_nat (length (RD.ztake namelen name)) < 255 ->
  exists s' r, ramfs_link_inode s ino dirino name namelen = Some (s', r) /\ fs_inv s' /\
    forall di dir, idatas s !! ptr s dirino = Some di -> S_ISDIR (i_mode di) = true -> dirs s !! i_data di = Some dir ->
    match RD.dir_map dir !! RD.ztake namelen name with
    | Some _ => r = EEXIST /\ s' = s
    | None => r = 0 /\ exists dir' i, dirs s' = <[i_data di := dir']> (dirs s) /\
                RD.dir_map dir' = <[RD.ztake namelen name := ino]> (RD.dir_map dir) /\
                idatas s !! ptr s ino = Some i /\
                s' = put_inode (put_dir s (i_data di) dir') (ptr s ino) (set_nlinks i (i_nlinks i + 1))
    end.
Proof. apply link_ok. Qed.

(** C40: [ramfs_unlink_inode] removes one name.  On a local path of a directory
    part, separators and a base name: when the look-up of the directory part
    fails its error is the result, when it is no directory [ENOTDIR], when the
    name is missing [ENOENT] and when it is a directory's [EISDIR], and each of
    these changes nothing; otherwise the name goes, the link is subtracted, and
    the inode is freed exactly when that was the last link and no descriptor
    holds it.  It always returns, and the invariant holds afterwards. *)
Theorem ramfs_unlink_correct s p1 k base pathlen : let path := p1 ++ replicate k FS_SEP ++ base in
  fs_inv s -> few_links s -> FS_SEP ∉ base -> last p1 <> Some FS_SEP -> (p1 = [] <-> k = 0%nat) -> head p1 <> Some FS_SEP -> Z.of_nat (length path) < pathlen ->
  exists s' r, ramfs_unlink_inode s path pathlen = Some (s', r) /\ fs_inv s' /\
    exists ret parino, ramfs_lookup_inode s path (Z.of_nat (length p1)) = Some (ret, parino) /\
      if ret =? 0 then
        exists di, idatas s !! ptr s parino = Some di /\
          if S_ISDIR (i_mode di) then exists dir, dirs s !! i_data di = Some dir /\ unlinked s (i_data di) dir base s' r
          else r = ENOTDIR /\ s' = s
      else r = ret /\ s' = s.
Proof. apply unlink_path_ok. Qed.

(** C3: start from a new file system and make nodes that are no directories
    while the first level of the inode tree has a free slot (62 nodes besides
    the root, since numbers are not used again), link inodes that are not freed
    under names of less than 255 bytes with fewer than 2^32 - 1 links, unlink
    local paths that do not begin with a separator, and write regular files, in
    any order. Then no directory entry refers to a freed inode, the link count
    of every inode is the number of entries for it, and every path resolves
    without touching freed memory. Directories other than the root are not
    made in such a history. *)
Theorem ramfs_history_safe h k live s0 s :
  heap_inv h live -> ramfs_read_superblock h k 0 = Some (s0, 0) -> rtc fs_step s0 s ->
  (forall d dir n ino, dirs s !! d = Some dir -> RD.dir_map dir !! n = Some ino -> live_ino s ino) /\
  (forall p i, idatas s !! p = Some i -> i_nlinks i = Z.of_nat (links (dirs s) (i_no i))) /\
  (forall path pathlen, exists r ino, ramfs_lookup_inode s path pathlen = Some (r, ino) /\ (r = 0 -> live_ino s ino)).
Proof.
  intros Hh Hsb Hsteps. destruct (superblock_ok h k live s0 Hh Hsb) as [H0s _].
  pose proof (steps_inv s0 s H0s Hsteps) as Hs. split_and!.
  - intros d dir n ino Hd Hn. by apply (fi_entry s Hs d dir n).
  - apply (fi_links s Hs).
  - intros path pathlen. destruct (lookup_total s path pathlen Hs) as ([r ino] & E & Hg). exists r, ino. split; [done|exact Hg].
Qed.

End inv.

(** ** Witnesses: a file system on a first-fit heap *)

Lemma demo_heap_inv : heap_inv FFP.demo0 ∅.
Proof. exists [(4116, false)], FFP.demo1_end. split; [apply FFP.demo0_wf|]. split; [by repeat constructor|done]. Qed.

Definition demo_k : RB.kmem := RB.mk_kmem (PM.mk_pmem 100 200) ∅.

Definition demo_fs0 : ramfs := Eval vm_compute in
  match ramfs_read_superblock FFP.demo0 demo_k 0 with Some (s, _) => s | None => ramfs_data_new FFP.demo0 demo_k 0 end.
Definition demo_fs1 : ramfs := Eval vm_compute in
  match ramfs_make_node demo_fs0 33188 0 with Some (s, _, _) => s | None => demo_fs0 end.
(** A file ["a"] in the root directory. *)
Definition demo_fs2 : ramfs := Eval vm_compute in
  match ramfs_link_inode demo_fs1 2 1 [97] 4294967295 with Some (s, _) => s | None => demo_fs1 end.

Lemma demo0_ok : fs_inv demo_fs0 /\ has_slot demo_fs0 /\ few_links demo_fs0.
Proof. apply (superblock_ok FFP.demo0 demo_k ∅ demo_fs0 demo_heap_inv). by vm_compute. Qed.

Lemma demo_few s :
  Nat.leb (map_fold (fun _ dir acc => size (RD.dir_map dir) + acc)%nat 0%nat (dirs (H := FF.alloc_t) s)) 100 = true -> few_links s.
Proof. intros Hm%Nat.leb_le ino. pose proof (links_le (dirs s) ino). lia. Qed.

Lemma demo_step1 : fs_step demo_fs0 demo_fs1.
Proof. apply (step_make_node demo_fs0 33188 0 demo_fs1 0 2); [apply demo0_ok|done|by vm_compute]. Qed.

Lemma demo_live s ino i : 0 < ino -> idatas s !! ramfs_idata_by_inode (H := FF.alloc_t) s ino = Some i -> i_no i = ino -> live_ino s ino.
Proof. intros Hi Hl Hn. split; [done|]. by exists i. Qed.

Lemma demo_step2 : fs_step demo_fs1 demo_fs2.
Proof.
  apply (step_link demo_fs1 2 1 [97] 4294967295 demo_fs2 0).
  - eapply demo_live; [done|vm_compute; reflexivity|done].
  - eapply demo_live; [done|vm_compute; reflexivity|done].
  - apply demo_few. by vm_compute.
  - by vm_compute.
  - by vm_compute.
Qed.

Lemma demo1_inv : fs_inv demo_fs1.
Proof. exact (step_inv _ _ (proj1 demo0_ok) demo_step1). Qed.
Lemma demo2_inv : fs_inv demo_fs2.
Proof. exact (step_inv _ _ demo1_inv demo_step2). Qed.

Lemma ramfs_history_safe_witness :
  (forall d dir n ino, dirs demo_fs2 !! d = Some dir -> RD.dir_map dir !! n = Some ino -> live_ino demo_fs2 ino) /\
  (forall p i, idatas demo_fs2 !! p = Some i -> i_nlinks i = Z.of_nat (links (dirs demo_fs2) (i_no i))) /\
  (forall path pathlen, exists r ino, ramfs_lookup_inode demo_fs2 path pathlen = Some (r, ino) /\ (r = 0 -> live_ino demo_fs2 ino)).
Proof.
  apply (ramfs_history_safe FFP.demo0 demo_k ∅ demo_fs0 demo_fs2 demo_heap_inv); [by vm_compute|].
  eapply rtc_l; [exact demo_step1|]. apply rtc_once. exact demo_step2.
Defined.

Definition demo_root_inode : inode := Eval vm_compute in
  default (mk_inode 0 0 0 0 0 0 []) (idatas demo_fs2 !! ramfs_idata_by_inode demo_fs2 1).

Lemma demo_no_collision d dir : dirs demo_fs2 !! d = Some dir -> RD.no_prefix_collision dir [97].
Proof.
  intros Hd e He Hpre _. revert Hd.
  replace (dirs demo_fs2) with ({[ i_data demo_root_inode := default root_dir (dirs demo_fs2 !! i_data demo_root_inode) ]} : gmap Z RD.ramfs_directory)
    by (by vm_compute).
  intros [_ <-]%lookup_singleton_Some.
  assert (Hin : RD.de_name e ∈ RD.de_name <$> RD.entries (default root_dir (dirs demo_fs2 !! i_data demo_root_inode))) by (by apply list_elem_of_fmap_2).
  replace (RD.de_name <$> RD.entries (default root_dir (dirs demo_fs2 !! i_data demo_root_inode))) with [[46]; [46; 46]; [97]] in Hin by (by vm_compute).
  destruct Hpre as [tl Htl]. rewrite Htl in Hin |- *.
  apply elem_of_cons in Hin as [Hin|Hin]; [done|]. apply elem_of_cons in Hin as [Hin|Hin]; [done|].
  by apply list_elem_of_singleton in Hin.
Qed.

Lemma ramfs_lookup_walks_witness :
  ramfs_lookup_inode demo_fs2 [97] 4294967295 = Some (0, 2) /\
  ramfs_lookup_inode demo_fs2 ([97] ++ []) 4294967295 = Some (walk demo_fs2 (i_data demo_root_inode) [[97]]).
Proof.
  split; [by vm_compute|].
  apply (ramfs_lookup_walks demo_fs2 [([97], 0%nat)] [] 4294967295 demo_root_inode demo2_inv); [by vm_compute|done|..].
  - constructor; [|constructor]. split; [done|]. constructor; [done|constructor].
  - intros d dir c Hd Hc. apply list_elem_of_singleton in Hc as ->. by apply (demo_no_collision d).
  - left. split; [done|]. simpl. lia.
Defined.

Lemma ramfs_unlink_correct_witness :
  exists s' r, ramfs_unlink_inode demo_fs2 [46; 47; 97] 4294967295 = Some (s', r) /\ fs_inv s' /\
    exists ret parino, ramfs_lookup_inode demo_fs2 [46; 47; 97] 1 = Some (ret, parino) /\
      if ret =? 0 then
        exists di, idatas demo_fs2 !! ramfs_idata_by_inode demo_fs2 parino = Some di /\
          if S_ISDIR (i_mode di) then exists dir, dirs demo_fs2 !! i_data di = Some dir /\ unlinked demo_fs2 (i_data di) dir [97] s' r
          else r = ENOTDIR /\ s' = demo_fs2
      else r = ret /\ s' = demo_fs2.
Proof.
  apply (ramfs_unlink_correct demo_fs2 [46] 1 [97] 4294967295 demo2_inv).
  - apply demo_few. by vm_compute.
  - apply (bool_decide_unpack _). vm_compute. exact I.
  - discriminate.
  - split; discriminate.
  - discriminate.
  - simpl. lia.
Defined.

(** ** Defects the model shows *)

(** A freed inode keeps its number: after the last unlink the number still
    leads to the freed memory. *)
Lemma freed_number_dangles :
  exists s', ramfs_unlink_inode demo_fs2 [97] 4294967295 = Some (s', 0) /\
    ramfs_idata_by_inode s' 2 = ramfs_idata_by_inode demo_fs2 2 /\ ramfs_inode_get s' 2 = None.
Proof. eexists. split; [vm_compute; reflexivity|]. split; by vm_compute. Qed.

(** Making a directory under a name that is taken succeeds: a new inode with
    two links is made, to which no entry of the parent refers. *)
Lemma mkdir_over_existing :
  exists s', ramfs_make_directory demo_fs2 [97] 493 = Some (s', 0, 3) /\
    ramfs_lookup_inode s' [97] 4294967295 = Some (0, 2) /\ option_map i_nlinks (idatas s' !! ramfs_idata_by_inode s' 3) = Some 2.
Proof. eexists. split; [vm_compute; reflexivity|]. split; by vm_compute. Qed.

(** A path cut right after a separator is not found, although the same path
    with a trailing separator at its end is. *)
Lemma cut_after_separator :
  ramfs_lookup_inode demo_fs2 [46; 47; 97] 2 = Some (ENOENT, 0) /\ ramfs_lookup_inode demo_fs2 [46; 47] 2 = Some (0, 1) /\
  ramfs_lookup_inode demo_fs2 [97; 47] 2 = Some (0, 2).
Proof. by vm_compute. Qed.

(** A separator at the start of the local path makes [vfs_path_dirname_len]
    read before the path. *)
Lemma dirname_reads_before : vfs_path_dirname_len [47; 97] 4294967295 = None.
Proof. by vm_compute. Qed.

End RFP.
