(* ===== verification/Devices.v ===== *)
(** * Devices (src/fs/devices.c, device numbers of lib/c/include/sys/types.h)

    Module [DV]: the device tables, and blocking transfers to and from a block
    device.  A block device is a set of nullable operations over its blocks;
    the functions return the bytes they copy to the caller's buffer, or the
    blocks they leave behind. *)

From S2P Require Import Prelude PMem RamBlocks RamBlocksProofs BTree CString CStringProofs RamDir KHeap RamFS.
Import RF.

Module DV.

Definition ENXIO : Z := 6.
Definition ENOSYS : Z := 35.
Definition N_CHR : Z := 30.
Definition N_BLK : Z := 12.

Inductive devicetype_e := DEV_CHR | DEV_BLK.

(** ** Device tables *)

(** [get_device] may be NULL and may return NULL. *)
Record devclass (device : Type) := mk_devclass { dev_type : devicetype_e; dev_maj : Z; get_device : option (Z -> option device) }.
Arguments mk_devclass {device}. Arguments dev_type {device}. Arguments dev_maj {device}. Arguments get_device {device}.

Record devtables (device : Type) := mk_tables {
  theChrDeviceTable : list (option (devclass device)); theBlkDeviceTable : list (option (devclass device)) }.
Arguments mk_tables {device}. Arguments theChrDeviceTable {device}. Arguments theBlkDeviceTable {device}.

Definition empty_tables {device : Type} : devtables device :=
  mk_tables (replicate (Z.to_nat N_CHR) None) (replicate (Z.to_nat N_BLK) None).

(** A major number beyond the table would be stored out of bounds ([None]). *)
Definition devclass_register {device : Type} (t : devtables device) (dclss : devclass device) : option (devtables device) :=
  match dev_type dclss with
  | DEV_CHR =>
      if dev_maj dclss <? N_CHR then
        Some (mk_tables (<[Z.to_nat (dev_maj dclss) := Some dclss]> (theChrDeviceTable t)) (theBlkDeviceTable t))
      else None
  | DEV_BLK =>
      if dev_maj dclss <? N_BLK then
        Some (mk_tables (theChrDeviceTable t) (<[Z.to_nat (dev_maj dclss) := Some dclss]> (theBlkDeviceTable t)))
      else None
  end.

Definition device_by_devno {device : Type} (t : devtables device) (ty : devicetype_e) (devno : Z) : option device :=
  let maj := gnu_dev_major devno in
  let min := gnu_dev_minor devno in
  let '(table, bound) := match ty with DEV_CHR => (theChrDeviceTable t, N_CHR) | DEV_BLK => (theBlkDeviceTable t, N_BLK) end in
  if bound <=? maj then None
  else match table !! Z.to_nat maj with
  | Some (Some dclss) => match get_device dclss with Some get => get min | None => None end
  | _ => None
  end.

(** The RAM character devices: a table by minor number. *)
Definition RAMCHRDEV_MAX : Z := 12.
Definition get_ram_char_device {device : Type} (ramchrdevs : list (option device)) (num : Z) : option device :=
  if RAMCHRDEV_MAX <=? num then None else default None (ramchrdevs !! Z.to_nat num).

(** ** Block devices *)

(** A block is [None] where the driver returns NULL. *)
Record bdev := mk_bdev {
  dev_size_of_block : option Z;
  dev_size_in_blocks : option Z;
  dev_get_roblock : option (Z -> option (list Z)) }.

(** One copy from a block.  The code tests the block number for 0 where it
    means the pointer. *)
Definition read_part (get : Z -> option (list Z)) (maxblock curblock offset n : Z) : option (Z * list Z) :=
  if maxblock <=? curblock then Some (ENXIO, [])
  else if curblock =? 0 then Some (ENXIO, [])
  else match get curblock with
  | None => None
  | Some blockdata => Some (0, take (Z.to_nat n) (drop (Z.to_nat offset) blockdata))
  end.

(** The loop over full blocks; at most [maxblock] blocks are read before
    [ENXIO]. *)
Fixpoint read_blocks (fuel : nat) (get : Z -> option (list Z)) (maxblock blksz curblock i nfullblocks : Z) (out : list Z)
    : option (Z * Z * list Z) :=
  match fuel with
  | O => None
  | S fuel =>
      if i <? nfullblocks then
        match read_part get maxblock curblock 0 blksz with
        | None => None
        | Some (ret, bs) =>
            if negb (ret =? 0) then Some (ret, curblock, out)
            else read_blocks fuel get maxblock blksz (curblock + 1) (i + 1) nfullblocks (out ++ bs)
        end
      else Some (0, curblock, out)
  end.

Definition bdev_blocking_read (dev : bdev) (pos buflen : Z) : option (Z * list Z) :=
  match dev_size_of_block dev, dev_size_in_blocks dev, dev_get_roblock dev with
  | Some blksz, Some maxblock, Some get =>
      let startoffset := u32 pos mod blksz in
      let startbytes := if negb (startoffset =? 0) then blksz - startoffset else 0 in
      let nfullblocks := u32 (buflen - startbytes) / blksz in
      let finalbytes := u32 (buflen - startbytes) mod blksz in
      let curblock := s32 (u32 pos / blksz) in
      let first :=
        if negb (startbytes =? 0) then
          option_map (fun r => (fst r, curblock + 1, snd r)) (read_part get maxblock curblock startoffset startbytes)
        else Some (0, curblock, []) in
      match first with
      | None => None
      | Some (ret, curblock, out) =>
          if negb (ret =? 0) then Some (ret, out)
          else match read_blocks (Z.to_nat (maxblock + 2)) get maxblock blksz curblock 0 nfullblocks out with
          | None => None
          | Some (ret, curblock, out) =>
              if negb (ret =? 0) then Some (ret, out)
              else if negb (finalbytes =? 0) then
                option_map (fun r => (fst r, out ++ snd r)) (read_part get maxblock curblock 0 finalbytes)
              else Some (0, out)
          end
      end
  | _, _, _ => Some (ENOSYS, [])
  end.

(** Writing: the blocks are a function of the block number.  The presence of
    [dev_get_roblock] is what the code tests. *)
Record wdev := mk_wdev { w_blksz : option Z; w_nblocks : option Z; w_has_ro : bool; w_blocks : Z -> list Z }.

Definition patch (b : list Z) (off : Z) (l : list Z) : list Z :=
  take (Z.to_nat off) b ++ l ++ drop (Z.to_nat off + length l) b.

Definition write_part (blocks : Z -> list Z) (maxblock curblock offset : Z) (l : list Z) : (Z -> list Z) * Z :=
  if maxblock <=? curblock then (blocks, ENXIO)
  else if curblock =? 0 then (blocks, ENXIO)
  else ((fun b => if b =? curblock then patch (blocks b) offset l else blocks b), 0).

Fixpoint write_blocks (fuel : nat) (blocks : Z -> list Z) (maxblock blksz curblock i nfullblocks : Z) (buf : list Z)
    : option ((Z -> list Z) * Z * Z * list Z) :=
  match fuel with
  | O => None
  | S fuel =>
      if i <? nfullblocks then
        let '(blocks, ret) := write_part blocks maxblock curblock 0 (take (Z.to_nat blksz) buf) in
        if negb (ret =? 0) then Some (blocks, ret, curblock, buf)
        else write_blocks fuel blocks maxblock blksz (curblock + 1) (i + 1) nfullblocks (drop (Z.to_nat blksz) buf)
      else Some (blocks, 0, curblock, buf)
  end.

(** The blocks, the result and the rest of the buffer. *)
Definition bdev_blocking_write (dev : wdev) (pos : Z) (buf : list Z) : option ((Z -> list Z) * Z * list Z) :=
  match w_blksz dev, w_nblocks dev, w_has_ro dev with
  | Some blksz, Some maxblock, true =>
      let buflen := Z.of_nat (length buf) in
      let startoffset := u32 pos mod blksz in
      let startbytes := if negb (startoffset =? 0) then blksz - startoffset else 0 in
      let nfullblocks := u32 (buflen - startbytes) / blksz in
      let finalbytes := u32 (buflen - startbytes) mod blksz in
      let curblock := s32 (u32 pos / blksz) in
      let '(blocks, ret, curblock, buf) :=
        if negb (startbytes =? 0) then
          let '(blocks, ret) := write_part (w_blocks dev) maxblock curblock startoffset (take (Z.to_nat startbytes) buf) in
          (blocks, ret, curblock + 1, drop (Z.to_nat startbytes) buf)
        else (w_blocks dev, 0, curblock, buf) in
      if negb (ret =? 0) then Some (blocks, ret, buf)
      else match write_blocks (Z.to_nat (maxblock + 2)) blocks maxblock blksz curblock 0 nfullblocks buf with
      | None => None
      | Some (blocks, ret, curblock, buf) =>
          if negb (ret =? 0) then Some (blocks, ret, buf)
          else if negb (finalbytes =? 0) then
            let '(blocks, ret) := write_part blocks maxblock curblock 0 (take (Z.to_nat finalbytes) buf) in
            Some (blocks, ret, drop (Z.to_nat finalbytes) buf)
          else Some (blocks, 0, buf)
      end
  | _, _, _ => Some (w_blocks dev, ENOSYS, buf)
  end.

(** ** Device numbers *)

Lemma land_himask x k : in_u32 x -> (k = 8 \/ k = 12) -> Z.land x (u32 (Z.lnot (2 ^ k - 1))) = x / 2 ^ k * 2 ^ k.
Proof.
  intros Hx Hk.
  assert (E : u32 (Z.lnot (2 ^ k - 1)) = Z.ldiff (Z.ones 32) (Z.ones k)) by (destruct Hk; subst; done).
  rewrite E. assert (E2 : Z.land x (Z.ldiff (Z.ones 32) (Z.ones k)) = Z.ldiff x (Z.ones k)).
  { apply Z.bits_inj'. intros i Hi. rewrite Z.land_spec, !Z.ldiff_spec, !Z.testbit_ones_nonneg by lia.
    destruct (Z.ltb_spec i 32); [done|]. by rewrite testbit_u32_high by (done || lia). }
  rewrite E2, Z.ldiff_ones_r, Z.shiftr_div_pow2, Z.shiftl_mul_pow2 by lia. done.
Qed.

Lemma makedev_value M m : in_u32 M -> in_u32 m ->
  gnu_dev_makedev M m = m mod 256 + M mod 4096 * 2 ^ 8 + m / 256 * 2 ^ 20 + M / 4096 * 2 ^ 44.
Proof.
  intros HM Hm. unfold gnu_dev_makedev.
  change 255 with (2 ^ 8 - 1). change 4095 with (2 ^ 12 - 1). rewrite !land_himask by (done || lia).
  change (2 ^ 8 - 1) with 255. change (2 ^ 12 - 1) with 4095. rewrite land_ff, land_fff. unfold in_u32 in *.
  assert (E1 : u64 (Z.shiftl (m / 2 ^ 8 * 2 ^ 8) 12) = Z.shiftl (m / 256) 20).
  { rewrite !Z.shiftl_mul_pow2 by lia. unfold u64. change (2 ^ 8) with 256. change (2 ^ 12) with 4096. change (2 ^ 20) with 1048576. rewrite Z.mod_small; zlia. }
  assert (E2 : u64 (Z.shiftl (M / 2 ^ 12 * 2 ^ 12) 32) = Z.shiftl (M / 4096) 44).
  { rewrite !Z.shiftl_mul_pow2 by lia. unfold u64. change (2 ^ 12) with 4096. change (2 ^ 32) with 4294967296. change (2 ^ 44) with 17592186044416. rewrite Z.mod_small; zlia. }
  rewrite E1, E2.
  rewrite (lor_shiftl_add (m mod 256)) by zlia.
  rewrite (lor_shiftl_add _ (m / 256)); [|lia|change (2 ^ 8) with 256; change (2 ^ 20) with 1048576; zlia].
  rewrite lor_shiftl_add; [done|lia|].
  change (2 ^ 8) with 256; change (2 ^ 20) with 1048576; change (2 ^ 44) with 17592186044416; zlia.
Qed.

(** A device number keeps its parts: major and minor of the number made
    from any two 32-bit values are those values. *)
Lemma devno_roundtrip M m : in_u32 M -> in_u32 m ->
  gnu_dev_major (gnu_dev_makedev M m) = M /\ gnu_dev_minor (gnu_dev_makedev M m) = m.
Proof.
  intros HM Hm. rewrite makedev_value by done. set (d := _ + M / 4096 * 2 ^ 44).
  assert (Hd : d = m mod 256 + 256 * (M mod 4096) + 1048576 * (m / 256) + 17592186044416 * (M / 4096))
    by (unfold d; change (2 ^ 8) with 256; change (2 ^ 20) with 1048576; change (2 ^ 44) with 17592186044416; lia).
  clearbody d. unfold in_u32 in *. unfold gnu_dev_major, gnu_dev_minor. rewrite !Z.shiftr_div_pow2 by lia.
  change 255 with (2 ^ 8 - 1). change 4095 with (2 ^ 12 - 1).
  rewrite !land_himask by (apply u32_range || lia). change (2 ^ 8 - 1) with 255. change (2 ^ 12 - 1) with 4095.
  rewrite land_ff, land_fff. unfold u32. change (2 ^ 8) with 256. change (2 ^ 12) with 4096. change (2 ^ 32) with 4294967296.
  assert (E1 : d / 256 mod 4096 = M mod 4096) by zlia.
  assert (E2 : d / 4294967296 mod 4294967296 / 4096 = M / 4096) by zlia.
  assert (E3 : d mod 256 = m mod 256) by zlia.
  assert (E4 : d / 4096 mod 4294967296 / 256 = m / 256) by zlia.
  rewrite E1, E2, E3, E4.
  replace (M / 4096 * 4096) with (Z.shiftl (M / 4096) 12) by (by rewrite Z.shiftl_mul_pow2).
  replace (m / 256 * 256) with (Z.shiftl (m / 256) 8) by (by rewrite Z.shiftl_mul_pow2).
  rewrite !lor_shiftl_add by (simpl; zlia). change (2 ^ 12) with 4096. change (2 ^ 8) with 256. split; [zlia|].
  rewrite Z.mod_small; zlia.
Qed.

(** ** Transfers *)

Section transfer.
Context (blksz maxblock : Z) (Hb : 0 < blksz) (Hmax : 0 <= maxblock) (Hcap : maxblock * blksz < 2 ^ 31).

(** The device as one array of bytes. *)
Definition dev_byte (blocks : Z -> list Z) (o : Z) : Z := default 0 (blocks (o / blksz) !! Z.to_nat (o mod blksz)).

Section read.
Context (get : Z -> option (list Z)) (blocks : Z -> list Z).
Context (Hget : forall b, 0 <= b < maxblock -> get b = Some (blocks b) /\ Z.of_nat (length (blocks b)) = blksz).

Lemma read_part_ok cur off n :
  0 < cur < maxblock -> 0 <= off -> 0 <= n -> off + n <= blksz ->
  read_part get maxblock cur off n = Some (0, RBP.slice (dev_byte blocks) (cur * blksz + off) n).
Proof using Hget Hb Hmax.
  intros Hc Ho Hn Hon. unfold read_part. rewrite (proj2 (Z.leb_gt maxblock cur)), (proj2 (Z.eqb_neq cur 0)) by lia.
  destruct (Hget cur) as [-> Hl]; [lia|]. f_equal. f_equal. apply list_eq. intros i.
  unfold RBP.slice. rewrite list_lookup_fmap. destruct (decide (Z.of_nat i < n)) as [Hi|Hi].
  - rewrite lookup_take_lt, lookup_drop by lia. rewrite lookup_seqZ_lt by lia. simpl. unfold dev_byte.
    rewrite <- Z.add_assoc, Z.div_add_l by lia. rewrite (Z.div_small (off + Z.of_nat i)), Z.add_0_r by lia.
    replace ((cur * blksz + (off + Z.of_nat i)) mod blksz) with (off + Z.of_nat i)
      by (rewrite (Z.add_comm (cur * blksz)), Z.mod_add, Z.mod_small by lia; done).
    replace (Z.to_nat (off + Z.of_nat i)) with (Z.to_nat off + i)%nat by lia.
    destruct (blocks cur !! (Z.to_nat off + i)%nat) eqn:E; [done|]. apply lookup_ge_None in E. lia.
  - rewrite lookup_take_ge by lia. by rewrite lookup_seqZ_ge by lia.
Qed.

Lemma read_blocks_ok fuel : forall cur i nfull out,
  0 < cur -> 0 <= i <= nfull -> cur + (nfull - i) <= maxblock -> nfull - i < Z.of_nat fuel ->
  read_blocks fuel get maxblock blksz cur i nfull out =
    Some (0, cur + (nfull - i), out ++ RBP.slice (dev_byte blocks) (cur * blksz) ((nfull - i) * blksz)).
Proof using Hget Hb Hmax.
  induction fuel as [|fuel IH]; intros cur i nfull out Hc Hi Hm Hf; [lia|]. cbn [read_blocks].
  destruct (Z.ltb_spec i nfull) as [Hlt|Hge].
  - rewrite read_part_ok by lia. cbn [Z.eqb negb]. rewrite IH by lia. f_equal. f_equal; [f_equal; lia|].
    rewrite <- app_assoc. f_equal. rewrite Z.add_0_r.
    replace ((nfull - i) * blksz) with (blksz + (nfull - (i + 1)) * blksz) by lia. rewrite RBP.slice_app by nia.
    f_equal. f_equal; lia.
  - replace (nfull - i) with 0 by lia. by rewrite Z.mul_0_l, RBP.slice_nil, app_nil_r, Z.add_0_r by lia.
Qed.

(** A blocking read that starts behind block 0, reaches the end of its
    first block and stays on the device returns exactly the device's bytes
    from [pos] on, whatever partial and full blocks that takes. *)
Lemma blocking_read_ok pos buflen :
  let off := pos mod blksz in
  blksz <= pos -> 0 <= buflen -> pos + buflen <= maxblock * blksz ->
  (off <> 0 -> blksz - off <= buflen) ->
  bdev_blocking_read (mk_bdev (Some blksz) (Some maxblock) (Some get)) pos buflen =
    Some (0, RBP.slice (dev_byte blocks) pos buflen).
Proof using Hget Hb Hcap Hmax.
  intros off Hp Hl Hend Hst. unfold bdev_blocking_read. cbn [dev_size_of_block dev_size_in_blocks dev_get_roblock].
  change (2 ^ 31) with 2147483648 in Hcap. rewrite (u32_small pos) by (unfold in_u32; lia). fold off.
  assert (Hoff : 0 <= off < blksz) by (apply Z.mod_pos_bound; lia).
  assert (Hdiv : pos = pos / blksz * blksz + off) by (unfold off; rewrite Z.mul_comm; apply Z.div_mod; lia).
  set (c := pos / blksz) in *. assert (Hc0 : 0 < c) by nia. assert (Hc1 : c < 2147483648) by nia.
  rewrite s32_small by (unfold in_s32; lia).
  set (sb := if negb (off =? 0) then blksz - off else 0).
  assert (Hsb : 0 <= sb <= buflen /\ (off = 0 /\ sb = 0 \/ off <> 0 /\ sb = blksz - off)).
  { unfold sb. destruct (Z.eqb_spec off 0) as [E|E]; cbn [negb]; [lia|]. specialize (Hst E). lia. }
  clearbody sb. rewrite (u32_small (buflen - sb)) by (unfold in_u32; lia).
  set (nf := (buflen - sb) / blksz). set (fb := (buflen - sb) mod blksz).
  assert (Hfb : 0 <= fb < blksz) by (apply Z.mod_pos_bound; lia).
  assert (Hnf : buflen - sb = nf * blksz + fb) by (unfold nf, fb; rewrite (Z.mul_comm _ blksz); apply Z.div_mod; lia).
  assert (Hnf0 : 0 <= nf) by (apply Z.div_pos; lia). clearbody nf fb.
  assert (Hfirst : exists c1, (if negb (sb =? 0) then option_map (fun r => (fst r, c + 1, snd r)) (read_part get maxblock c off sb)
      else Some (0, c, [])) = Some (0, c1, RBP.slice (dev_byte blocks) pos sb) /\ c1 * blksz = pos + sb /\ 0 < c1).
  { destruct (Z.eqb_spec sb 0) as [->|Hne]; cbn [negb].
    - exists c. split; [by rewrite RBP.slice_nil|]. split; [|lia]. destruct Hsb as [_ [[-> _]|[? ?]]]; lia.
    - destruct Hsb as [Hsb [[? ?]|[Hno Es]]]; [lia|]. assert (c < maxblock) by nia. rewrite read_part_ok by lia. exists (c + 1).
      cbn [option_map fst snd]. rewrite <- Hdiv. split; [done|]. lia. }
  destruct Hfirst as (c1 & -> & Hc1e & Hc1p). cbn [Z.eqb negb].
  assert (Hroom : c1 + nf <= maxblock) by nia.
  rewrite read_blocks_ok by lia. cbn [Z.eqb negb]. rewrite Z.sub_0_r, Hc1e.
  rewrite <- RBP.slice_app by nia. destruct (Z.eqb_spec fb 0) as [->|Hne]; cbn [negb].
  - f_equal. f_equal. f_equal. lia.
  - assert (c1 + nf < maxblock) by nia. rewrite read_part_ok by lia. cbn [option_map fst snd]. f_equal. f_equal.
    replace ((c1 + nf) * blksz + 0) with (pos + (sb + nf * blksz)) by lia.
    rewrite <- RBP.slice_app by nia. f_equal. lia.
Qed.
End read.
End transfer.

Definition demo_blocks (b : Z) : list Z := (fun i => b * 10 + i) <$> [0; 1; 2; 3].

(** ** Defects the model shows *)

(** Block 0 cannot be read: its number is taken for a NULL pointer. *)
Lemma block_zero_unreadable :
  bdev_blocking_read (mk_bdev (Some 4) (Some 8) (Some (fun b => Some (demo_blocks b)))) 0 4 = Some (ENXIO, []).
Proof. by vm_compute. Qed.

(** A short read inside a block overruns the buffer and then runs off the
    device: the number of full blocks wraps around. *)
Lemma short_read_overruns :
  match bdev_blocking_read (mk_bdev (Some 4) (Some 8) (Some (fun b => Some (demo_blocks b)))) 5 1 with
  | Some (ret, bytes) => ret = ENXIO /\ length bytes = 27%nat
  | None => False
  end.
Proof. by vm_compute. Qed.

End DV.
