(* ===== verification/Vfs.v ===== *)
(** * The virtual file system (src/fs/vfs.c)

    Module [VFS]: mounts, paths and the operations that dispatch to the file
    systems and devices.

    [fs_ops] is [struct filesystem_operations]: nullable operations over the
    state [S] of a mounted file system.  Devices are operations over a state
    [D] of their own.  As in [RamFS], [None] is an access to uninitialised or
    freed memory, and paths are lists of bytes. *)

From S2P Require Import Prelude PMem RamBlocks RamBlocksProofs BTree CString CStringProofs RamDir KHeap RamFS Devices.
Import RF.

Module VFS.

Definition EBADF : Z := 9.
Definition EXDEV : Z := 18.
Definition ENODEV : Z := 19.
Definition ENOSYS : Z := 35.
Definition ETODO : Z := 39.
Definition SIZE_MAX : Z := 4294967295.

(** ** Interfaces *)

Record fs_ops (S : Type) := mk_ops {
  op_read_superblock : option (Z -> S -> option (S * Z));
  op_make_directory : option (S -> list Z -> Z -> option (S * Z * Z));
  op_make_inode : option (S -> Z -> Z -> option (S * Z * Z));
  op_free_inode : option (S -> Z -> option (S * Z));
  op_inode_get : option (S -> Z -> option (Z * option inode));
  op_inode_set : option (S -> Z -> inode -> option (S * Z));
  op_read_inode : option (S -> Z -> Z -> Z -> option (Z * list Z));
  op_write_inode : option (S -> Z -> Z -> list Z -> option (S * Z * Z));
  op_trunc_inode : option (S -> Z -> Z -> option (S * Z));
  op_get_direntry : option (S -> Z -> Z -> option (Z * option dirent * Z));
  op_lookup_inode : option (S -> list Z -> Z -> option (Z * Z));
  op_link_inode : option (S -> Z -> Z -> list Z -> Z -> option (S * Z));
  op_unlink_inode : option (S -> list Z -> Z -> option (S * Z)) }.

(** The operations of a device used here; reading and writing a character
    device may change the devices' state. *)
Record device (D : Type) := mk_device {
  dev_read_buf : option (D -> Z -> Z -> option (D * Z * list Z));
  dev_write_buf : option (D -> list Z -> Z -> option (D * Z * Z));
  dev_has_data : bool;
  dev_blocks : DV.bdev }.

Arguments mk_ops {S}. Arguments op_read_superblock {S}. Arguments op_make_directory {S}. Arguments op_make_inode {S}.
Arguments op_free_inode {S}. Arguments op_inode_get {S}. Arguments op_inode_set {S}. Arguments op_read_inode {S}.
Arguments op_write_inode {S}. Arguments op_trunc_inode {S}. Arguments op_get_direntry {S}. Arguments op_lookup_inode {S}.
Arguments op_link_inode {S}. Arguments op_unlink_inode {S}.
Arguments mk_device {D}. Arguments dev_read_buf {D}. Arguments dev_write_buf {D}. Arguments dev_has_data {D}. Arguments dev_blocks {D}.

Section vfs.
Context {S D : Type}.

Record fsdriver := mk_fsdriver { fs_id : Z; ops : fs_ops S }.

(** A mounted file system; [sb_fs] is its driver. *)
Record superblock := mk_sb { sb_dev : Z; sb_fs : fsdriver; sb_data : S }.

(** The tree of mounts: a superblock by its number, the path it is mounted
    on and its child mounts in [sb_brother] order. *)
Inductive mountnode := Mount (sb : Z) (sb_mntpath : list Z) (sb_children : list mountnode).
Definition mnt_sb (m : mountnode) : Z := let 'Mount i _ _ := m in i.

Record vfs := mk_vfs {
  theFileSystems : list fsdriver;
  theRootMnt : option mountnode;
  sbs : gmap Z superblock;
  devs : D;
  devtables : DV.devtables (device D) }.

Definition put_sb (v : vfs) (id : Z) (sb : superblock) (s : S) : vfs :=
  mk_vfs (theFileSystems v) (theRootMnt v) (<[id := mk_sb (sb_dev sb) (sb_fs sb) s]> (sbs v)) (devs v) (devtables v).
Definition put_devs (v : vfs) (d : D) : vfs := mk_vfs (theFileSystems v) (theRootMnt v) (sbs v) d (devtables v).

(** ** File system drivers *)

(** The ring from [theFileSystems] on: a new driver goes before the head. *)
Definition vfs_register_filesystem (v : vfs) (fs : fsdriver) : vfs :=
  mk_vfs (theFileSystems v ++ [fs]) (theRootMnt v) (sbs v) (devs v) (devtables v).

Definition vfs_filesystem_by_id (v : vfs) (id : Z) : option fsdriver :=
  List.find (fun fs => fs_id fs =? id) (theFileSystems v).

(** ** Mounts *)

Fixpoint skip_slashes (path : list Z) : list Z :=
  match path with b :: p => if b =? FS_SEP then skip_slashes p else path | [] => [] end.

Fixpoint vfs_match_mountpath (children : list mountnode) (path : list Z) : option (mountnode * list Z) :=
  match children with
  | [] => None
  | (Mount _ mountpath _ as child_mnt) :: rest =>
      if bool_decide (take (length mountpath) path = mountpath) then
        match drop (length mountpath) path with
        | [] => None
        | nextpath => Some (child_mnt, skip_slashes nextpath)
        end
      else vfs_match_mountpath rest path
  end.

(** At most one step per level of the tree. *)
Fixpoint mount_loop (fuel : nat) (mnt : mountnode) (path : list Z) : option (mountnode * list Z) :=
  match fuel with
  | O => None
  | Datatypes.S fuel =>
      let 'Mount _ _ children := mnt in
      match vfs_match_mountpath children path with
      | None => Some (mnt, path)
      | Some (chld, nextpath) => mount_loop fuel chld nextpath
      end
  end.

Fixpoint depth (m : mountnode) : nat :=
  let 'Mount _ _ cs := m in Datatypes.S (foldr (fun c n => Nat.max (depth c) n) 0%nat cs).

(** Result, superblock and the local path. *)
Definition vfs_mountnode_by_path (v : vfs) (path : list Z) : option (Z * Z * list Z) :=
  match theRootMnt v with
  | None => Some (EBADF, 0, [])
  | Some root =>
      match path with
      | [] => Some (EINVAL, 0, [])
      | b :: path =>
          if negb (b =? FS_SEP) then Some (EINVAL, 0, [])
          else option_map (fun r => (0, mnt_sb r.1, r.2)) (mount_loop (depth root) root path)
      end
  end.

(** Only the root can be mounted. *)
Definition vfs_mount (v : vfs) (source : Z) (target : list Z) (id newsb : Z) (s0 : S) : option (vfs * Z) :=
  match theRootMnt v with
  | Some _ => Some (v, ETODO)
  | None =>
      if negb (bool_decide (target = [FS_SEP])) then Some (v, -1)
      else match vfs_filesystem_by_id v id with
      | None => Some (v, -2)
      | Some fs =>
          match op_read_superblock (ops fs) with
          | None => None
          | Some read_superblock =>
              '(s, ret) ← read_superblock source s0;
              if negb (ret =? 0) then Some (v, -4)
              else Some (mk_vfs (theFileSystems v) (Some (Mount newsb [] [])) (<[newsb := mk_sb source fs s]> (sbs v)) (devs v) (devtables v), 0)
          end
      end
  end.

(** Result, superblock and inode number. *)
Definition vfs_lookup (v : vfs) (path : list Z) : option (Z * Z * Z) :=
  '(ret, id, fspath) ← vfs_mountnode_by_path v path;
  if negb (ret =? 0) then Some (ret, 0, 0)
  else
    sb ← sbs v !! id;
    match op_lookup_inode (ops (sb_fs sb)) with
    | None => Some (ENOSYS, id, 0)
    | Some lookup_inode => '(ret, ino) ← lookup_inode (sb_data sb) fspath SIZE_MAX; Some (ret, id, ino)
    end.

(** ** Inodes *)

Definition vfs_inode_get (v : vfs) (id ino : Z) : option (Z * option inode) :=
  sb ← sbs v !! id;
  match op_inode_get (ops (sb_fs sb)) with
  | None => Some (ENOSYS, None)
  | Some inode_get => inode_get (sb_data sb) ino
  end.

(** The inode that was read, not the caller's, is what is stored. *)
Definition vfs_inode_set (v : vfs) (id ino : Z) (inobuf : inode) : option (vfs * Z) :=
  sb ← sbs v !! id;
  match op_inode_get (ops (sb_fs sb)), op_inode_set (ops (sb_fs sb)) with
  | Some inode_get, Some inode_set =>
      '(ret, idata) ← inode_get (sb_data sb) ino;
      if negb (ret =? 0) then Some (v, ret)
      else
        idata ← idata;
        if negb (fmt (i_mode idata) =? fmt (i_mode inobuf)) then Some (v, EINVAL)
        else if negb (i_no idata =? i_no inobuf) then Some (v, EINVAL)
        else if negb (i_data idata =? i_data inobuf) then Some (v, EINVAL)
        else '(s, ret) ← inode_set (sb_data sb) ino idata; Some (put_sb v id sb s, ret)
  | _, _ => Some (v, ENOSYS)
  end.

Record stat := mk_stat { st_dev : Z; st_ino : Z; st_mode : Z; st_nlink : Z; st_rdev : Z; st_size : Z }.

Definition vfs_inode_stat (v : vfs) (id ino : Z) : option (Z * option stat) :=
  sb ← sbs v !! id;
  match op_inode_get (ops (sb_fs sb)) with
  | None => Some (ENOSYS, None)
  | Some inode_get =>
      '(ret, idata) ← inode_get (sb_data sb) ino;
      if negb (ret =? 0) then Some (ret, None)
      else
        idata ← idata;
        let rdev := if S_ISCHR (i_mode idata) || S_ISBLK (i_mode idata) then inode_devno idata else 0 in
        Some (0, Some (mk_stat (sb_dev sb) ino (i_mode idata) (i_nlinks idata) rdev (i_size idata)))
  end.

Definition vfs_stat (v : vfs) (path : list Z) : option (Z * option stat) :=
  '(ret, id, fspath) ← vfs_mountnode_by_path v path;
  if negb (ret =? 0) then Some (ret, None)
  else
    sb ← sbs v !! id;
    match op_lookup_inode (ops (sb_fs sb)) with
    | None => Some (ENOSYS, None)
    | Some lookup_inode =>
        '(ret, ino) ← lookup_inode (sb_data sb) fspath SIZE_MAX;
        if negb (ret =? 0) then Some (ret, None) else vfs_inode_stat v id ino
    end.

(** ** Names *)

Definition vfs_mkdir (v : vfs) (path : list Z) (mode : Z) : option (vfs * Z) :=
  let mode := Z.lor (Z.land mode (Z.lnot S_IFMT)) S_IFDIR in
  '(ret, id, localpath) ← vfs_mountnode_by_path v path;
  if negb (ret =? 0) then Some (v, ENOENT)
  else
    sb ← sbs v !! id;
    match op_make_directory (ops (sb_fs sb)) with
    | None => Some (v, EBADF)
    | Some make_directory =>
        '(s, ret, _) ← make_directory (sb_data sb) localpath mode; Some (put_sb v id sb s, ret)
    end.

(** The inode is entered; when that fails it is freed if the file system can. *)
Definition mknod_link (v : vfs) (id : Z) (sb : superblock) (s : S) (ino dirino : Z) (de_name : list Z)
    (link_inode : S -> Z -> Z -> list Z -> Z -> option (S * Z)) : option (vfs * Z) :=
  '(s, ret) ← link_inode s ino dirino de_name SIZE_MAX;
  if negb (ret =? 0) then
    match op_free_inode (ops (sb_fs sb)) with
    | Some free_inode => '(s, _) ← free_inode s ino; Some (put_sb v id sb s, ret)
    | None => Some (put_sb v id sb s, ret)
    end
  else Some (put_sb v id sb s, 0).

Definition vfs_mknod (v : vfs) (path : list Z) (mode dev : Z) : option (vfs * Z) :=
  if S_ISDIR mode then Some (v, EINVAL)
  else if S_ISLNK mode then Some (v, EINVAL)
  else
    let mode := if fmt mode =? 0 then Z.lor mode S_IFREG else mode in
    '(ret, id, fspath) ← vfs_mountnode_by_path v path;
    if negb (ret =? 0) then Some (v, ret)
    else
      sb ← sbs v !! id;
      match op_make_inode (ops (sb_fs sb)), op_link_inode (ops (sb_fs sb)), op_lookup_inode (ops (sb_fs sb)) with
      | Some make_inode, Some link_inode, Some lookup_inode =>
          dirnamelen ← vfs_path_dirname_len fspath SIZE_MAX;
          '(ret, dirino) ← lookup_inode (sb_data sb) fspath dirnamelen;
          if negb (ret =? 0) then Some (v, ret)
          else
            '(_, idata) ← vfs_inode_get v id dirino;
            idata ← idata;
            if negb (S_ISDIR (i_mode idata)) then Some (v, ENOTDIR)
            else
              let mkinfo := if S_ISCHR mode || S_ISBLK mode then u32 dev else 0 in
              '(s, ret, ino) ← make_inode (sb_data sb) mode mkinfo;
              if negb (ret =? 0) then Some (put_sb v id sb s, ret)
              else mknod_link v id sb s ino dirino (skip_slashes (drop (Z.to_nat dirnamelen) fspath)) link_inode
      | _, _, _ => Some (v, ENOSYS)
      end.

Definition vfs_hardlink (v : vfs) (path newpath : list Z) : option (vfs * Z) :=
  '(ret, id, fspath) ← vfs_mountnode_by_path v path;
  if negb (ret =? 0) then Some (v, ret)
  else
    '(ret, idn, new_fspath) ← vfs_mountnode_by_path v newpath;
    if negb (ret =? 0) then Some (v, ret)
    else if negb (id =? idn) then Some (v, EXDEV)
    else
      sb ← sbs v !! id;
      match op_lookup_inode (ops (sb_fs sb)), op_link_inode (ops (sb_fs sb)) with
      | Some lookup_inode, Some link_inode =>
          '(ret, ino) ← lookup_inode (sb_data sb) fspath SIZE_MAX;
          if negb (ret =? 0) then Some (v, ret)
          else
            dirlen ← vfs_path_dirname_len new_fspath SIZE_MAX;
            '(ret, dirino) ← lookup_inode (sb_data sb) new_fspath dirlen;
            if negb (ret =? 0) then Some (v, ret)
            else
              '(s, ret) ← link_inode (sb_data sb) ino dirino (skip_slashes (drop (Z.to_nat dirlen) new_fspath)) SIZE_MAX;
              Some (put_sb v id sb s, ret)
      | _, _ => Some (v, ENOSYS)
      end.

Definition vfs_unlink (v : vfs) (path : list Z) : option (vfs * Z) :=
  '(ret, id, fspath) ← vfs_mountnode_by_path v path;
  if negb (ret =? 0) then Some (v, ret)
  else
    sb ← sbs v !! id;
    match op_unlink_inode (ops (sb_fs sb)) with
    | None => Some (v, ENOSYS)
    | Some unlink_inode => '(s, ret) ← unlink_inode (sb_data sb) fspath SIZE_MAX; Some (put_sb v id sb s, ret)
    end.

Definition vfs_rename (v : vfs) (oldpath newpath : list Z) : option (vfs * Z) :=
  '(v, ret) ← vfs_hardlink v oldpath newpath;
  if negb (ret =? 0) then Some (v, ret) else vfs_unlink v oldpath.

(** ** Contents *)

(** The state, the result and the bytes read. *)
Definition vfs_inode_read (v : vfs) (id ino pos buflen : Z) : option (vfs * Z * list Z) :=
  sb ← sbs v !! id;
  match op_inode_get (ops (sb_fs sb)), op_read_inode (ops (sb_fs sb)) with
  | Some inode_get, Some read_inode =>
      '(ret, idata) ← inode_get (sb_data sb) ino;
      if negb (ret =? 0) then Some (v, ret, [])
      else
        idata ← idata;
        let f := fmt (i_mode idata) in
        if f =? S_IFCHR then
          match DV.device_by_devno (devtables v) DV.DEV_CHR (inode_devno idata) with
          | None => Some (v, ENODEV, [])
          | Some dev =>
              match dev_read_buf dev with
              | None => Some (v, ENOSYS, [])
              | Some read_buf => '(d, ret, bs) ← read_buf (devs v) buflen pos; Some (put_devs v d, ret, bs)
              end
          end
        else if f =? S_IFBLK then
          match DV.device_by_devno (devtables v) DV.DEV_BLK (inode_devno idata) with
          | None => Some (v, ENODEV, [])
          | Some dev => '(ret, bs) ← DV.bdev_blocking_read (dev_blocks dev) pos buflen; Some (v, ret, bs)
          end
        else if f =? S_IFSOCK then Some (v, ETODO, [])
        else if f =? S_IFIFO then Some (v, ETODO, [])
        else if f =? S_IFLNK then Some (v, ETODO, [])
        else if f =? S_IFDIR then Some (v, EISDIR, [])
        else if f =? S_IFREG then
          if i_size idata <=? pos then Some (v, 0, [])
          else '(ret, bs) ← read_inode (sb_data sb) ino pos buflen; Some (v, ret, bs)
        else Some (v, EKERN, [])
  | _, _ => Some (v, ENOSYS, [])
  end.

(** The state, the result and the number of bytes written. *)
Definition vfs_inode_write (v : vfs) (id ino pos : Z) (buf : list Z) : option (vfs * Z * Z) :=
  sb ← sbs v !! id;
  match op_inode_get (ops (sb_fs sb)), op_write_inode (ops (sb_fs sb)) with
  | Some inode_get, Some write_inode =>
      '(ret, idata) ← inode_get (sb_data sb) ino;
      if negb (ret =? 0) then Some (v, ret, 0)
      else
        idata ← idata;
        let f := fmt (i_mode idata) in
        if f =? S_IFREG then
          '(s, ret, n) ← write_inode (sb_data sb) ino pos buf; Some (put_sb v id sb s, ret, n)
        else if f =? S_IFDIR then Some (v, EISDIR, 0)
        else if f =? S_IFBLK then Some (v, ETODO, 0)
        else if f =? S_IFCHR then
          match DV.device_by_devno (devtables v) DV.DEV_CHR (inode_devno idata) with
          | None => Some (v, ENODEV, 0)
          | Some dev =>
              match dev_write_buf dev with
              | None => Some (v, ENOSYS, 0)
              | Some write_buf => '(d, ret, n) ← write_buf (devs v) buf pos; Some (put_devs v d, ret, n)
              end
          end
        else if (f =? S_IFLNK) || (f =? S_IFSOCK) || (f =? S_IFIFO) then Some (v, ETODO, 0)
        else Some (v, EKERN, 0)
  | _, _ => Some (v, ENOSYS, 0)
  end.

Definition vfs_inode_trunc (v : vfs) (id ino length : Z) : option (vfs * Z) :=
  sb ← sbs v !! id;
  match op_trunc_inode (ops (sb_fs sb)) with
  | None => Some (v, ENOSYS)
  | Some trunc_inode => '(s, ret) ← trunc_inode (sb_data sb) ino length; Some (put_sb v id sb s, ret)
  end.

(** ** Files made at boot *)

Definition build_file_from_string (v : vfs) (path : list Z) (s : list Z) : option vfs :=
  '(v, ret) ← vfs_mknod v path 420 0;
  if negb (ret =? 0) then Some v
  else
    '(ret, id, ino) ← vfs_lookup v path;
    if negb (ret =? 0) then Some v
    else '(v, _, _) ← vfs_inode_write v id ino 0 s; Some v.

End vfs.

Arguments fsdriver : clear implicits.
Arguments superblock : clear implicits.
Arguments vfs : clear implicits.

(** ** ramfs as a file system driver *)

Definition RAMFS_ID : Z := 5062994.

Section ramfs.
Context {H : Type} `{KH.Heap H}.

(** [free_inode] is not in the table; truncation is not written yet. *)
Definition ramfs_fsops : fs_ops (ramfs (H := H)) := mk_ops
  (Some (fun _ s => ramfs_read_superblock (hp s) (km s) (sb_parent s)))
  (Some ramfs_make_directory) (Some ramfs_make_node) None
  (Some ramfs_inode_get) (Some ramfs_inode_set)
  (Some read_inode) (Some write_inode)
  (Some (fun s _ _ => Some (s, ETODO)))
  (Some ramfs_get_direntry) (Some ramfs_lookup_inode) (Some ramfs_link_inode) (Some ramfs_unlink_inode).

Definition ramfs_driver : fsdriver (ramfs (H := H)) := mk_fsdriver RAMFS_ID ramfs_fsops.

End ramfs.

End VFS.
