(* ===== verification/VfsProofs.v ===== *)
(** * Correctness of the virtual file system over ramfs

    Module [VFSP]: what a client of the VFS sees when ramfs is mounted as the
    root: nodes that were made are found under their name with their mode and
    link count, and what is written to a file is read back. *)

From S2P Require Import Prelude FirstFit FirstFitProofs PMem RamBlocks RamBlocksProofs BTree CString CStringProofs RamDir KHeap RamFS RamFSProofs Devices Vfs.
Import KH RF RFP VFS.

Module VFSP.

Lemma ztake_all l n : Z.of_nat (length l) <= n -> RD.ztake n l = l.
Proof. intros Hn. rewrite RD.ztake_take. apply take_ge. lia. Qed.

Section client.
Context {H D : Type} `{Heap H}.

(** ramfs [s] is the root file system, as superblock [id]. *)
Definition rooted (v : vfs (ramfs (H := H)) D) (id dev : Z) (s : ramfs) : Prop :=
  theRootMnt v = Some (Mount id [] []) /\ sbs v !! id = Some (mk_sb dev ramfs_driver s).

Lemma rooted_put v id dev s s' : rooted v id dev s -> rooted (put_sb v id (mk_sb dev ramfs_driver s) s') id dev s'.
Proof. intros [Hr Hs]. split; [done|]. simpl. by rewrite lookup_insert_eq. Qed.

Lemma rooted_path v id dev s path : rooted v id dev s -> vfs_mountnode_by_path v (FS_SEP :: path) = Some (0, id, path).
Proof. intros [Hr _]. unfold vfs_mountnode_by_path. by rewrite Hr. Qed.

Lemma rooted_lookup v id dev s path : rooted v id dev s ->
  vfs_lookup v (FS_SEP :: path) = option_map (fun r => (r.1, id, r.2)) (ramfs_lookup_inode s path SIZE_MAX).
Proof.
  intros Hr. unfold vfs_lookup. rewrite (rooted_path _ _ _ _ _ Hr). cbn [mbind option_bind Z.eqb negb].
  destruct Hr as [_ ->]. simpl. by destruct (ramfs_lookup_inode s path SIZE_MAX) as [[r ino]|].
Qed.

Lemma rooted_stat v id dev s path ino i : rooted v id dev s ->
  ramfs_lookup_inode s path SIZE_MAX = Some (0, ino) -> idatas s !! ramfs_idata_by_inode s ino = Some i -> ramfs_idata_by_inode s ino <> 0 ->
  exists st, vfs_stat v (FS_SEP :: path) = Some (0, Some st) /\ st_dev st = dev /\ st_ino st = ino /\ st_mode st = i_mode i /\
    st_nlink st = i_nlinks i /\ st_size st = i_size i.
Proof.
  intros Hr Hl Hi Hp. unfold vfs_stat. rewrite (rooted_path _ _ _ _ _ Hr). destruct Hr as [_ Hs]. simpl. rewrite Hs. simpl.
  rewrite Hl. simpl. unfold vfs_inode_stat. rewrite Hs. simpl. unfold ramfs_inode_get. rewrite (proj2 (Z.eqb_neq _ _) Hp), Hi. simpl.
  eexists. split; [done|]. done.
Qed.

(** The entries of a directory that has just got a new name. *)
Lemma no_collision_insert dir dir' n ino :
  RD.dir_wf dir -> RD.dir_wf dir' -> RD.dir_map dir' = <[n := ino]> (RD.dir_map dir) ->
  RD.no_prefix_collision dir n -> RD.no_prefix_collision dir' n.
Proof.
  intros Hw Hw' Hm Hnc e He Hpre Hh.
  assert (Hd : RD.dir_map dir' !! RD.de_name e = Some (RD.de_ino e)) by (apply (RD.dir_map_Some dir' Hw'); by exists e).
  rewrite Hm in Hd. apply lookup_insert_Some in Hd as [[<- _]|[_ Hd]]; [done|].
  apply (RD.dir_map_Some dir Hw) in Hd as (e' & He' & En & _). rewrite <- En. apply Hnc; [done| |]; by rewrite En.
Qed.

(** ** Paths of directories and a name *)

Definition simple_path (cs : list (list Z)) : list Z := joined (map (fun c => (c, 0%nat)) cs).

Lemma simple_path_snoc cs c : cs <> [] -> simple_path (cs ++ [c]) = simple_path cs ++ FS_SEP :: c.
Proof.
  induction cs as [|x cs IH]; intros Hne; [done|]. destruct cs as [|y cs]; [done|].
  change (simple_path ((x :: y :: cs) ++ [c])) with (x ++ [FS_SEP] ++ simple_path ((y :: cs) ++ [c])). rewrite IH by done.
  change (simple_path (x :: y :: cs)) with (x ++ [FS_SEP] ++ simple_path (y :: cs)). by rewrite <- !app_assoc.
Qed.

Lemma map_fst_zero (cs : list (list Z)) : (map (fun c => (c, 0%nat)) cs).*1 = cs.
Proof. rewrite <- list_fmap_compose. apply list_fmap_id. Qed.

Lemma simple_comps cs : Forall comp_ok cs -> Forall (fun ck => comp_ok ck.1) (map (fun c => (c, 0%nat)) cs).
Proof. intros Hc. apply Forall_map. by apply (Forall_impl _ _ _ Hc). Qed.

Lemma comp_no_sep c : comp_ok c -> FS_SEP ∉ c.
Proof. intros [_ Hc] Hin. rewrite Forall_forall in Hc. by destruct (Hc _ Hin). Qed.

Lemma simple_path_last cs : cs <> [] -> Forall comp_ok cs -> last (simple_path cs) <> Some FS_SEP /\ simple_path cs <> [].
Proof.
  intros Hne Hok. destruct cs as [|c cs _] using rev_ind; [done|]. apply Forall_app in Hok as [_ Hc]. rewrite Forall_singleton in Hc.
  pose proof (comp_no_sep c Hc) as Hns. destruct Hc as [Hc _].
  assert (Hl : last c <> Some FS_SEP) by (intros E; apply Hns; by apply last_Some_elem_of in E).
  destruct (decide (cs = [])) as [->|Hcs]; [by split|]. rewrite simple_path_snoc by done. split; [|by destruct (simple_path cs)].
  destruct c as [|x c]; [done|]. by rewrite last_app_cons, last_cons_cons.
Qed.

(** The path of a name in the directory [ds], cut into its parts. *)
Lemma parent_part ds name : Forall comp_ok (ds ++ [name]) -> let path := simple_path (ds ++ [name]) in
  exists rest, path = simple_path ds ++ rest /\ skip_slashes rest = name /\ (Z.of_nat (length path) <= SIZE_MAX -> vfs_path_dirname_len path SIZE_MAX = Some (Z.of_nat (length (simple_path ds)))).
Proof.
  intros Hok path. pose proof Hok as Hok'. apply Forall_app in Hok' as [Hds Hn]. rewrite Forall_singleton in Hn. pose proof (comp_no_sep _ Hn) as Hns.
  assert (Hsk : skip_slashes name = name) by (destruct name as [|b nm]; [done|]; cbn; by rewrite (proj2 (Z.eqb_neq b FS_SEP)) by set_solver).
  destruct (decide (ds = [])) as [->|Hne].
  - exists name. split; [done|]. split; [done|]. intros Hl. apply (dirname_len_ok [] 0 name SIZE_MAX); [done|done|done|cbn; unfold SIZE_MAX; lia].
  - exists (FS_SEP :: name). unfold path. rewrite simple_path_snoc by done. split; [done|]. split; [cbn; exact Hsk|]. intros Hl. destruct (simple_path_last ds Hne Hds) as [H1 H2].
    apply (dirname_len_ok (simple_path ds) 1 name SIZE_MAX); [done|done|split; [by intros ?|done]|]. rewrite length_app in Hl. cbn [length] in Hl. lia.
Qed.

(** The directory that [ds] leads to. *)
Definition parent_dir (s : ramfs (H := H)) (root : inode) (ds : list (list Z)) (dirino : Z) : Prop :=
  if decide (ds = []) then dirino = sb_root_ino s else walk s (i_data root) ds = (0, dirino).

Lemma parent_lookup s root ds rest dirino : fs_inv s -> idatas s !! ramfs_idata_by_inode s (sb_root_ino s) = Some root -> Forall comp_ok ds -> parent_dir s root ds dirino ->
  (forall d dir c, dirs s !! d = Some dir -> c ∈ ds -> RD.no_prefix_collision dir c) ->
  ramfs_lookup_inode s (simple_path ds ++ rest) (Z.of_nat (length (simple_path ds))) = Some (0, dirino).
Proof.
  intros Hs Hroot Hok Hp Hnc. unfold parent_dir in Hp. case_decide as Hne.
  - subst. unfold ramfs_lookup_inode. by rewrite orb_true_r.
  - unfold simple_path. rewrite (lookup_walk_ok s _ rest _ root Hs Hroot).
    + by rewrite map_fst_zero, Hp.
    + by destruct ds.
    + by apply simple_comps.
    + intros d dir c Hd. rewrite map_fst_zero. by apply (Hnc d).
    + right. rewrite length_app. lia.
Qed.

Lemma walk_snoc (s : ramfs (H := H)) c : forall cs d ino, cs <> [] -> walk s d cs = (0, ino) ->
  walk s d (cs ++ [c]) = match idatas s !! ramfs_idata_by_inode s ino with Some i => if S_ISDIR (i_mode i) then walk s (i_data i) [c] else (ENOTDIR, 0) | None => (EKERN, 0) end.
Proof.
  induction cs as [|x cs IH]; intros d ino Hne Hw; [done|]. cbn [walk app] in *. destruct (dirs s !! d ≫= _) as [o|]; [|done].
  destruct cs as [|y cs]; [injection Hw as ->; by destruct (idatas s !! _)|]. cbn [app] in *. destruct (idatas s !! _) as [i|]; [|done]. destruct (S_ISDIR (i_mode i)); [|done]. by apply IH.
Qed.

(** A walk that ended goes the same way when names are added. *)
Lemma walk_keeps (s s2 : ramfs (H := H)) : fs_inv s ->
  (forall d dir c o, dirs s !! d = Some dir -> RD.dir_map dir !! c = Some o -> exists dir2, dirs s2 !! d = Some dir2 /\ RD.dir_map dir2 !! c = Some o) ->
  (forall o j, idatas s !! ramfs_idata_by_inode s o = Some j -> i_no j = o -> exists j2, idatas s2 !! ramfs_idata_by_inode s2 o = Some j2 /\ i_mode j2 = i_mode j /\ i_data j2 = i_data j) ->
  forall cs d ino, walk s d cs = (0, ino) -> walk s2 d cs = (0, ino).
Proof.
  intros Hs Hd Hi. induction cs as [|c cs IH]; intros d ino Hw; [done|]. cbn [walk] in *. destruct (dirs s !! d) as [dir|] eqn:Ed; [|done]. cbn [mbind option_bind] in Hw.
  destruct (RD.dir_map dir !! c) as [o|] eqn:Ec; [|done]. destruct (Hd _ _ _ _ Ed Ec) as (dir2 & -> & Ec2). cbn [mbind option_bind]. rewrite Ec2.
  destruct cs as [|c' cs]; [done|]. destruct (fi_entry s Hs d dir c o Ed Ec) as (_ & j & Hj & Hno). rewrite Hj in Hw. destruct (Hi o j Hj Hno) as (j2 & -> & Em & Ei). rewrite Em, Ei.
  destruct (S_ISDIR (i_mode j)); [by apply IH|done].
Qed.

(** A new name in the directory that [ds] leads to: there is memory and a number
    for an inode, and no name of the path is taken for another with its hash
    that it begins. *)
Record new_name (s : ramfs (H := H)) (ds : list (list Z)) (name : list Z) : Prop := {
  nn_inv : fs_inv s;
  nn_slot : has_slot s;
  nn_links : few_links s;
  nn_mem : (kmalloc (hp s) SIZEOF_INODE).2 <> 0;
  nn_comps : Forall comp_ok (ds ++ [name]);
  nn_short : Z.of_nat (length name) < 255 /\ Z.of_nat (length (simple_path (ds ++ [name]))) <= SIZE_MAX;
  nn_parent : exists root dirino di rdir, idatas s !! ramfs_idata_by_inode s (sb_root_ino s) = Some root /\ parent_dir s root ds dirino /\
    live_ino s dirino /\ idatas s !! ramfs_idata_by_inode s dirino = Some di /\ S_ISDIR (i_mode di) = true /\ dirs s !! i_data di = Some rdir /\ RD.dir_map rdir !! name = None;
  nn_others : forall d dir c, dirs s !! d = Some dir -> c ∈ ds ++ [name] -> RD.no_prefix_collision dir c;
  nn_self : forall c, c ∈ ds -> c `prefix_of` name -> RD.name_hash name = RD.name_hash c -> name = c }.

(** The tree of [s2] is that of [s] with [name] in the directory of [di]. *)
Definition tree_grown (s s2 : ramfs (H := H)) (di : inode) (rdir : RD.ramfs_directory) (name : list Z) (ino : Z) : Prop :=
  fs_inv s2 /\ sb_root_ino s2 = sb_root_ino s /\
  (exists dir', dirs s2 = <[i_data di := dir']> (dirs s) /\ RD.dir_map dir' = <[name := ino]> (RD.dir_map rdir)) /\
  (forall o j, idatas s !! ramfs_idata_by_inode s o = Some j -> i_no j = o -> exists j2, idatas s2 !! ramfs_idata_by_inode s2 o = Some j2 /\ i_mode j2 = i_mode j /\ i_data j2 = i_data j).

(** A new regular file without contents. *)
Definition new_file (s s2 : ramfs (H := H)) (ino : Z) (i : inode) : Prop :=
  km s2 = km s /\ idatas s2 !! ramfs_idata_by_inode s2 ino = Some i /\ i_mode i = Z.lor 420 S_IFREG /\ i_nlinks i = 1 /\ i_size i = 0 /\ i_as i = zero_as.

Lemma file_node_linked s dirino di rdir name : fs_inv s -> has_slot s -> few_links s -> (kmalloc (hp s) SIZEOF_INODE).2 <> 0 -> Z.of_nat (length name) < 255 ->
  live_ino s dirino -> idatas s !! ramfs_idata_by_inode s dirino = Some di -> S_ISDIR (i_mode di) = true -> dirs s !! i_data di = Some rdir -> RD.dir_map rdir !! name = None ->
  exists s1 s2 ino i, ramfs_make_node s (Z.lor 420 S_IFREG) 0 = Some (s1, 0, ino) /\ ramfs_link_inode s1 ino dirino name SIZE_MAX = Some (s2, 0) /\ tree_grown s s2 di rdir name ino /\ new_file s s2 ino i.
Proof.
  intros Hs Hslot Hf Hkm Hlen Hdl Hdi Hdd Hrdir Hnew.
  destruct (make_node_ok s (Z.lor 420 S_IFREG) 0 Hs Hslot eq_refl) as (s1 & r1 & ino & E1 & [(_ & _ & ?)|(-> & Hs1 & Hds1 & Hrt & Hkm1 & Hino & (i & Hi & Hin & Him & Hinl & Hisz & Has) & Hold)]); [done|].
  destruct Hdl as (Hd0 & di' & Hdi' & Hdno). rewrite Hdi in Hdi'. injection Hdi' as <-.
  assert (Hdi1 : idatas s1 !! ramfs_idata_by_inode s1 dirino = Some di) by (by apply Hold).
  destruct (link_ok s1 ino dirino name SIZE_MAX Hs1) as (s2 & r2 & E2 & Hs2 & Heff).
  { split; [done|]. by exists i. }
  { split; [done|]. by exists di. }
  { intros o. rewrite Hds1. apply Hf. }
  { rewrite ztake_all; [done|unfold SIZE_MAX; lia]. }
  specialize (Heff di rdir Hdi1 Hdd ltac:(by rewrite Hds1)). rewrite ztake_all in Heff by (unfold SIZE_MAX; lia).
  rewrite Hnew in Heff. destruct Heff as (-> & dir' & i' & Hd2 & Hm2 & Hi' & Es2). rewrite Hi in Hi'. injection Hi' as <-.
  assert (Hptr : forall o, ramfs_idata_by_inode s2 o = ramfs_idata_by_inode s1 o) by (intros; by rewrite Es2).
  assert (Hi2 : idatas s2 !! ramfs_idata_by_inode s2 ino = Some (set_nlinks i (i_nlinks i + 1))) by (rewrite Hptr, Es2; simpl; by rewrite lookup_insert_eq).
  exists s1, s2, ino, (set_nlinks i (i_nlinks i + 1)). split; [done|]. split; [done|]. split.
  - split; [done|]. split; [by rewrite Es2|]. split; [exists dir'; by rewrite Hd2, Hds1|]. intros o j Hj Hno. pose proof (Hold o j Hj Hno) as Hj1. destruct (decide (o = ino)) as [->|Ho].
    + rewrite Hi in Hj1. injection Hj1 as <-. by exists (set_nlinks i (i_nlinks i + 1)).
    + exists j. rewrite Hptr, Es2. simpl. rewrite lookup_insert_ne; [done|]. intros E. rewrite <- E, Hi in Hj1. injection Hj1 as <-. congruence.
  - split; [by rewrite Es2|]. split; [done|]. cbn [i_mode i_nlinks i_size i_as set_nlinks]. split; [done|]. split; [lia|]. split; [done|by apply Has].
Qed.

(** In a tree that has grown, the path leads to the new number. *)
Lemma grown_path s s2 ds name root dirino di rdir ino : new_name s ds name ->
  idatas s !! ramfs_idata_by_inode s (sb_root_ino s) = Some root -> parent_dir s root ds dirino -> live_ino s dirino ->
  idatas s !! ramfs_idata_by_inode s dirino = Some di -> S_ISDIR (i_mode di) = true -> dirs s !! i_data di = Some rdir -> RD.dir_map rdir !! name = None ->
  tree_grown s s2 di rdir name ino -> ramfs_lookup_inode s2 (simple_path (ds ++ [name])) SIZE_MAX = Some (0, ino).
Proof.
  intros Hnn Hroot Hpar (Hd0 & di' & Hdi' & Hdno) Hdi Hdd Hrdir Hnew (Hs2 & Hrt & (dir' & Hd2 & Hm2) & Hkeep). rewrite Hdi in Hdi'. injection Hdi' as <-.
  pose proof (nn_inv _ _ _ Hnn) as Hs. destruct (nn_short _ _ _ Hnn) as [_ Hpl].
  assert (Hd2' : dirs s2 !! i_data di = Some dir') by (rewrite Hd2; by rewrite lookup_insert_eq).
  destruct (fi_root s Hs) as (_ & root' & Hroot' & Hrno & _). rewrite Hroot in Hroot'. injection Hroot' as <-. destruct (Hkeep _ _ Hroot Hrno) as (root2 & Hroot2 & _ & Er2). rewrite <- Hrt in Hroot2.
  assert (Hwalk : walk s2 (i_data root) (ds ++ [name]) = (0, ino)).
  { assert (Hlast : walk s2 (i_data di) [name] = (0, ino)) by (cbn [walk]; rewrite Hd2'; cbn [mbind option_bind]; by rewrite Hm2, lookup_insert_eq).
    unfold parent_dir in Hpar. case_decide as Hne; [subst; rewrite Hroot in Hdi; by injection Hdi as ->|].
    assert (Hw2 : walk s2 (i_data root) ds = (0, dirino)).
    { apply (walk_keeps s s2 Hs); [|done|done]. intros d dir c o Hdd' Hc. rewrite Hd2. destruct (decide (d = i_data di)) as [->|Hdne]; [|rewrite lookup_insert_ne by done; by exists dir].
      rewrite lookup_insert_eq. exists dir'. split; [done|]. rewrite Hrdir in Hdd'. injection Hdd' as <-. rewrite Hm2, lookup_insert_ne; [done|]. intros <-. congruence. }
    rewrite (walk_snoc s2 name ds _ dirino Hne Hw2). destruct (Hkeep _ _ Hdi Hdno) as (j2 & -> & Em & Ei). by rewrite Em, Hdd, Ei. }
  pose proof (lookup_walk_ok s2 (map (fun c => (c, 0%nat)) (ds ++ [name])) [] SIZE_MAX root2 Hs2 Hroot2) as Hw. rewrite app_nil_r, map_fst_zero, Er2, Hwalk in Hw. apply Hw.
  - by destruct ds.
  - apply simple_comps, (nn_comps _ _ _ Hnn).
  - intros d dir c Hdir Hc. rewrite Hd2 in Hdir. apply lookup_insert_Some in Hdir as [[<- <-]|[_ Hdir]]; [|by apply (nn_others _ _ _ Hnn d)].
    intros e He Hpre Hh. assert (Hde : RD.dir_map dir' !! RD.de_name e = Some (RD.de_ino e)) by (apply (RD.dir_map_Some dir'); [by apply (fi_dirs s2 Hs2 (i_data di))|by exists e]).
    rewrite Hm2 in Hde. apply lookup_insert_Some in Hde as [[En _]|[_ Hde]].
    + rewrite <- En in *. apply elem_of_app in Hc as [Hc|Hc]; [by apply (nn_self _ _ _ Hnn)|by apply list_elem_of_singleton in Hc].
    + apply (RD.dir_map_Some rdir (proj2 (fi_dirs s Hs _ _ Hrdir))) in Hde as (e' & He' & En & _). rewrite <- En. apply (nn_others _ _ _ Hnn _ _ _ Hrdir Hc e' He'); by rewrite En.
  - by left.
Qed.


(** ** Contents *)

Lemma as_put_reg i r : length (RB.directblock r) = 12%nat -> as_reg (put_reg i r) = r.
Proof.
  intros Hl. destruct r as [sz bc db ind]. simpl in Hl. unfold as_reg, put_reg, word. cbn [i_as set_as i_size RB.i_size RB.block_count RB.directblock RB.indir1st_block drop].
  f_equal.
  - rewrite <- Hl. apply take_app_length.
  - change ((bc :: db ++ [ind; default 0 (i_as i !! 14%nat); default 0 (i_as i !! 15%nat)]) !! 13%nat)
      with ((db ++ [ind; default 0 (i_as i !! 14%nat); default 0 (i_as i !! 15%nat)]) !! 12%nat).
    rewrite lookup_app_r by lia. by rewrite Hl.
Qed.

Lemma write_ok v id dev s ino i pos buf :
  rooted v id dev s -> ramfs_idata_by_inode s ino <> 0 -> idatas s !! ramfs_idata_by_inode s ino = Some i ->
  S_ISREG (i_mode i) = true -> RBP.file_wf (km s) (as_reg i) -> i_size i <= RBP.FILE_MAX ->
  0 <= pos -> pos + Z.of_nat (length buf) <= RBP.FILE_MAX ->
  exists k' i', let s' := put_inode (set_km s k') (ramfs_idata_by_inode s ino) i' in let v' := put_sb v id (mk_sb dev ramfs_driver s) s' in
    vfs_inode_write v id ino pos buf = Some (v', 0, Z.of_nat (length buf)) /\
    i_no i' = i_no i /\ i_mode i' = i_mode i /\ i_nlinks i' = i_nlinks i /\ i_data i' = i_data i /\ i_size i' = Z.max (i_size i) (pos + Z.of_nat (length buf)) /\
    vfs_inode_get v' id ino = Some (0, Some i') /\
    ((0 < length buf)%nat -> vfs_inode_read v' id ino pos (Z.of_nat (length buf)) = Some (v', 0, buf)).
Proof.
  intros [Hm Hsb] Hp Hi Hreg Hwf Hsz Hpos Hend. unfold S_ISREG in Hreg. apply Z.eqb_eq in Hreg.
  destruct (RBP.write_inode_ok (km s) (as_reg i) pos buf Hwf Hpos Hend) as (k' & r' & Ew & Hwf' & Hs' & Hc').
  set (i' := put_reg i r'). set (s' := put_inode (set_km s k') (ramfs_idata_by_inode s ino) i').
  assert (Hr' : as_reg i' = r') by (apply as_put_reg, (RBP.fw_len _ _ Hwf')).
  assert (Hi' : idatas s' !! ramfs_idata_by_inode s' ino = Some i') by (simpl; by rewrite lookup_insert_eq).
  assert (Hsi : i_size i' = Z.max (i_size i) (pos + Z.of_nat (length buf))) by exact Hs'.
  exists k', i'. fold s'. cbv zeta. split; [|do 5 (split; [done|]); split].
  - unfold vfs_inode_write. rewrite Hsb. simpl. unfold ramfs_inode_get. rewrite (proj2 (Z.eqb_neq _ _) Hp), Hi. simpl.
    rewrite Hreg. cbn [Z.eqb]. unfold write_inode. rewrite (proj2 (Z.eqb_neq _ _) Hp), Hi, Ew. done.
  - unfold vfs_inode_get. simpl sbs. rewrite lookup_insert_eq.
    cbn [mbind option_bind sb_fs ops ramfs_driver ramfs_fsops op_inode_get sb_data]. unfold ramfs_inode_get.
    change (ramfs_idata_by_inode s' ino) with (ramfs_idata_by_inode s ino).
    rewrite (proj2 (Z.eqb_neq _ _) Hp). change (ramfs_idata_by_inode s ino) with (ramfs_idata_by_inode s' ino). by rewrite Hi'.
  - intros Hlen. unfold vfs_inode_read. simpl sbs. rewrite lookup_insert_eq. cbn [mbind option_bind sb_fs ops ramfs_driver ramfs_fsops op_inode_get op_read_inode sb_data].
    unfold ramfs_inode_get. change (ramfs_idata_by_inode s' ino) with (ramfs_idata_by_inode s ino).
    rewrite (proj2 (Z.eqb_neq _ _) Hp). change (ramfs_idata_by_inode s ino) with (ramfs_idata_by_inode s' ino). rewrite Hi'.
    cbn [mbind option_bind Z.eqb negb]. change (i_mode i') with (i_mode i). rewrite Hreg.
    cbn [Z.eqb]. rewrite (proj2 (Z.leb_gt (i_size i') pos)) by lia.
    unfold read_inode. change (ramfs_idata_by_inode s' ino) with (ramfs_idata_by_inode s ino).
    rewrite (proj2 (Z.eqb_neq _ _) Hp). change (ramfs_idata_by_inode s ino) with (ramfs_idata_by_inode s' ino). rewrite Hi'.
    cbn [mbind option_bind]. rewrite Hr'. change (km s') with k'. f_equal. f_equal.
    change (RB.i_size (as_reg i)) with (i_size i) in Hs'. unfold RBP.FILE_MAX in *.
    rewrite RBP.read_inode_ok; [|unfold RBP.FILE_MAX; lia..]. rewrite Z.min_l by lia.
    rewrite (RBP.slice_ext _ (RBP.upd (RBP.content (km s) (as_reg i)) pos buf)) by (intros; apply Hc'; unfold RBP.FILE_MAX; lia).
    apply RBP.slice_upd.
Qed.

Lemma write_read_ok v id dev s ino i pos buf :
  rooted v id dev s -> ramfs_idata_by_inode s ino <> 0 -> idatas s !! ramfs_idata_by_inode s ino = Some i ->
  S_ISREG (i_mode i) = true -> RBP.file_wf (km s) (as_reg i) -> i_size i <= RBP.FILE_MAX ->
  0 <= pos -> pos + Z.of_nat (length buf) <= RBP.FILE_MAX -> (0 < length buf)%nat ->
  exists v', vfs_inode_write v id ino pos buf = Some (v', 0, Z.of_nat (length buf)) /\
    vfs_inode_read v' id ino pos (Z.of_nat (length buf)) = Some (v', 0, buf) /\
    exists i', vfs_inode_get v' id ino = Some (0, Some i') /\ i_mode i' = i_mode i /\
      i_size i' = Z.max (i_size i) (pos + Z.of_nat (length buf)).
Proof.
  intros Hr Hp Hi Hreg Hwf Hsz Hpos Hend Hlen. destruct (write_ok v id dev s ino i pos buf) as (k' & i' & Hw & _ & Hm & _ & _ & Hs' & Hg & Hrd); try done.
  eexists. split; [exact Hw|]. split; [by apply Hrd|]. by exists i'.
Qed.

(** ** A file made from its contents *)

Definition no_blocks : RB.reg_inode := RB.mk_reg 0 0 (replicate 12 0) 0.

Lemma zero_as_reg i : i_size i = 0 -> i_as i = zero_as -> as_reg i = no_blocks.
Proof. intros Hs Ha. unfold as_reg, word. by rewrite Hs, Ha. Qed.

Lemma mknod_file v id dev s s1 s2 ds name root dirino di ino : let path := simple_path (ds ++ [name]) in
  rooted v id dev s -> new_name s ds name -> idatas s !! ramfs_idata_by_inode s (sb_root_ino s) = Some root -> parent_dir s root ds dirino ->
  idatas s !! ramfs_idata_by_inode s dirino = Some di -> S_ISDIR (i_mode di) = true ->
  ramfs_make_node s (Z.lor 420 S_IFREG) 0 = Some (s1, 0, ino) -> ramfs_link_inode s1 ino dirino name SIZE_MAX = Some (s2, 0) ->
  vfs_mknod v (FS_SEP :: path) 420 0 = Some (put_sb v id (mk_sb dev ramfs_driver s) s2, 0).
Proof.
  intros path Hr Hnn Hroot Hpar Hdi Hdd E1 E2. pose proof (nn_inv _ _ _ Hnn) as Hs. pose proof (nn_comps _ _ _ Hnn) as Hok. destruct (parent_part ds name Hok) as (rest & Ep & Esk & Edl). fold path in Ep, Edl. specialize (Edl (proj2 (nn_short _ _ _ Hnn))).
  unfold vfs_mknod. rewrite (eq_refl : S_ISDIR 420 = false), (eq_refl : S_ISLNK 420 = false), (eq_refl : (fmt 420 =? 0) = true). rewrite (rooted_path _ _ _ _ _ Hr). destruct Hr as [_ Hsb]. cbn [mbind option_bind Z.eqb negb]. rewrite Hsb. cbn [mbind option_bind sb_fs ops ramfs_driver ramfs_fsops op_make_inode op_link_inode op_lookup_inode sb_data].
  rewrite Edl. cbn [mbind option_bind].
  assert (Hl0 : ramfs_lookup_inode s path (Z.of_nat (length (simple_path ds))) = Some (0, dirino)).
  { rewrite Ep. apply Forall_app in Hok as [Hds _]. apply (parent_lookup s root); try done. intros d dir c Hd' Hc. apply (nn_others _ _ _ Hnn d dir c Hd'). apply elem_of_app. by left. }
  rewrite Hl0. cbn [mbind option_bind Z.eqb negb]. unfold vfs_inode_get. rewrite Hsb. cbn [mbind option_bind sb_fs ops ramfs_driver ramfs_fsops op_inode_get sb_data]. unfold ramfs_inode_get.
  pose proof (fi_inode s Hs _ _ Hdi) as (Hrp & _). rewrite (proj2 (Z.eqb_neq _ _) Hrp), Hdi. cbn [mbind option_bind]. rewrite Hdd. cbn [negb].
  change (if S_ISCHR (Z.lor 420 S_IFREG) || S_ISBLK (Z.lor 420 S_IFREG) then u32 0 else 0) with 0. rewrite E1. cbn [mbind option_bind Z.eqb negb]. unfold mknod_link. rewrite Ep, Nat2Z.id, drop_app_length, Esk, E2. done.
Qed.

(** [build_file_from_string] of a new name on ramfs makes a regular file with the
    contents, within the direct blocks. *)
Lemma file_made v id dev s ds name data : let path := FS_SEP :: simple_path (ds ++ [name]) in
  rooted v id dev s -> new_name s ds name -> RBP.file_wf (km s) no_blocks -> Z.of_nat (length data) <= RBP.FILE_MAX ->
  exists v' s' ino i, build_file_from_string v path data = Some v' /\ rooted v' id dev s' /\ fs_inv s' /\
    vfs_lookup v' path = Some (0, id, ino) /\ vfs_inode_get v' id ino = Some (0, Some i) /\
    i_mode i = Z.lor 420 S_IFREG /\ i_nlinks i = 1 /\ i_size i = Z.of_nat (length data) /\
    (data <> [] -> vfs_inode_read v' id ino 0 (Z.of_nat (length data)) = Some (v', 0, data)).
Proof.
  intros path Hr Hnn Hwf Hlen. pose proof Hnn as [Hs Hslot Hf Hkm _ [Hshort _] (root & dirino & di & rdir & Hroot & Hpar & Hdl & Hdi & Hdd & Hrdir & Hnew) _ _].
  destruct (file_node_linked s dirino di rdir name) as (s1 & s2 & ino & i & E1 & E2 & Hg & Hk & Hi & Him & Hin & His & Hia); try done.
  unfold build_file_from_string, path. rewrite (mknod_file v id dev s s1 s2 ds name root dirino di ino) by done. cbn [mbind option_bind Z.eqb negb].
  pose proof (rooted_put v id dev s s2 Hr) as Hr2. rewrite (rooted_lookup _ _ _ _ _ Hr2), (grown_path s s2 ds name root dirino di rdir ino) by done. cbn [option_map mbind option_bind fst snd Z.eqb negb].
  pose proof Hg as (Hs2 & Hrt & Hdirs & Hkeep). pose proof (fi_inode s2 Hs2 _ _ Hi) as (Hp & _).
  destruct (write_ok _ id dev s2 ino i 0 data Hr2 Hp Hi) as (k' & i' & Hw & Hno' & Hm' & Hn' & Hd' & Hs' & Hget & Hrd); [by rewrite Him|by rewrite Hk, zero_as_reg|unfold RBP.FILE_MAX; lia|lia|lia|].
  rewrite Hw. cbn [mbind option_bind]. set (s3 := put_inode (set_km s2 k') (ramfs_idata_by_inode s2 ino) i') in *. eexists _, s3, ino, i'. split; [done|]. pose proof (rooted_put _ id dev s2 s3 Hr2) as Hr3. split; [exact Hr3|].
  assert (Hs3 : fs_inv s3) by (by apply (inv_write s2 k' _ i)). split; [done|]. split.
  - rewrite (rooted_lookup _ _ _ _ _ Hr3), (grown_path s s3 ds name root dirino di rdir ino); try done. split; [done|]. split; [done|]. split; [done|]. intros o j Hj Hjn. destruct (Hkeep o j Hj Hjn) as (j2 & Hj2 & Em & Ed).
    change (ramfs_idata_by_inode s3 o) with (ramfs_idata_by_inode s2 o). cbn [s3 put_inode idatas set_idatas set_km]. destruct (decide (ramfs_idata_by_inode s2 ino = ramfs_idata_by_inode s2 o)) as [E|E]; [|exists j2; by rewrite lookup_insert_ne].
    rewrite <- E in *. rewrite Hi in Hj2. injection Hj2 as <-. exists i'. rewrite lookup_insert_eq. split; [done|]. by rewrite Hm', Hd'.
  - split; [done|]. split; [by rewrite Hm'|]. split; [by rewrite Hn'|]. split; [rewrite Hs', His; lia|]. intros Hne. apply Hrd. destruct data; [done|cbn [length]; lia].
Qed.

(** ** The claims *)

(** What is written to a regular file through the VFS is read back from
    the same position, with ramfs as root file system and within the direct
    blocks of the file. *)
Theorem vfs_write_read v id dev s ino i pos buf :
  rooted v id dev s -> ramfs_idata_by_inode s ino <> 0 -> idatas s !! ramfs_idata_by_inode s ino = Some i ->
  S_ISREG (i_mode i) = true -> RBP.file_wf (km s) (as_reg i) -> i_size i <= RBP.FILE_MAX ->
  0 <= pos -> pos + Z.of_nat (length buf) <= RBP.FILE_MAX -> (0 < length buf)%nat ->
  exists v', vfs_inode_write v id ino pos buf = Some (v', 0, Z.of_nat (length buf)) /\
    vfs_inode_read v' id ino pos (Z.of_nat (length buf)) = Some (v', 0, buf).
Proof.
  intros. destruct (write_read_ok v id dev s ino i pos buf) as (v' & Hw & Hrd & _); try done. by exists v'.
Qed.

End client.

(** ** Witnesses *)

Definition demo_vfs (s : ramfs) : vfs (ramfs (H := FF.alloc_t)) unit :=
  mk_vfs [ramfs_driver] (Some (Mount 7 [] [])) {[ 7 := mk_sb 257 ramfs_driver s ]} tt DV.empty_tables.

Lemma demo_rooted s : rooted (demo_vfs s) 7 257 s.
Proof. split; [done|]. simpl. by rewrite lookup_singleton_eq. Qed.

Definition demo_root0 : inode := Eval vm_compute in
  default (mk_inode 0 0 0 0 0 0 []) (idatas demo_fs0 !! ramfs_idata_by_inode demo_fs0 1).

Lemma demo0_no_collision d dir : dirs demo_fs0 !! d = Some dir -> RD.no_prefix_collision dir [97].
Proof.
  intros Hd e He Hpre _. revert Hd.
  replace (dirs demo_fs0) with ({[ i_data demo_root0 := root_dir ]} : gmap Z RD.ramfs_directory) by (by vm_compute).
  intros [_ <-]%lookup_singleton_Some.
  assert (Hin : RD.de_name e ∈ RD.de_name <$> RD.entries root_dir) by (by apply list_elem_of_fmap_2).
  replace (RD.de_name <$> RD.entries root_dir) with [[46]; [46; 46]] in Hin by (by vm_compute).
  destruct Hpre as [tl Htl]. rewrite Htl in Hin |- *.
  apply elem_of_cons in Hin as [Hin|Hin]; [done|]. by apply list_elem_of_singleton in Hin.
Qed.

Definition demo_file : inode := Eval vm_compute in
  default (mk_inode 0 0 0 0 0 0 []) (idatas demo_fs2 !! ramfs_idata_by_inode demo_fs2 2).

Lemma demo_vfile_wf : RBP.file_wf (km demo_fs2) (as_reg demo_file).
Proof.
  assert (Hz : forall i b, RB.directblock (as_reg demo_file) !! i = Some b -> b = 0).
  { intros i b Hb. apply (lookup_replicate_1 12 0 b i). exact Hb. }
  constructor; [done|done|by vm_compute|..].
  - intros i b Hb%Hz Hne. done.
  - intros i j b Hi%Hz _ Hne. done.
  - intros a _. done.
Qed.

(** ** Defects the model shows *)

(** [vfs_inode_set] stores the inode it has just read: a change of the number
    of open descriptors is lost. *)
Lemma inode_set_loses :
  let i := mk_inode (i_no demo_file) (i_mode demo_file) (i_nlinks demo_file) 1 (i_size demo_file) (i_data demo_file) (i_as demo_file) in
  match vfs_inode_set (demo_vfs demo_fs2) 7 2 i with
  | Some (v', ret) => ret = 0 /\ option_map (fun r => option_map i_nfds r.2) (vfs_inode_get v' 7 2) = Some (Some 0)
  | None => False
  end.
Proof. by vm_compute. Qed.

(** A mount matches every path that starts with the bytes of its path:
    ["/tmpfile"] is looked up as ["file"] on the mount ["tmp"], and the mount
    point itself stays on the parent. *)
Lemma mount_matches_prefix :
  let v := mk_vfs (S := ramfs (H := FF.alloc_t)) (D := unit) [] (Some (Mount 1 [] [Mount 2 [116; 109; 112] []])) ∅ tt DV.empty_tables in
  vfs_mountnode_by_path v [47; 116; 109; 112; 102; 105; 108; 101] = Some (0, 2, [102; 105; 108; 101]) /\
  vfs_mountnode_by_path v [47; 116; 109; 112] = Some (0, 1, [116; 109; 112]).
Proof. by vm_compute. Qed.

(** Renaming a file to its own name fails, after the link was refused. *)
Lemma rename_to_itself :
  option_map snd (vfs_rename (demo_vfs demo_fs2) [47; 97] [47; 97]) = Some EEXIST.
Proof. by vm_compute. Qed.
End VFSP.
