(* ===== verification/FsSys.v ===== *)
(** * File system calls and descriptors (src/fs/fs_sys.c, src/core/process.c)

    Module [SYS]: the process table, file descriptors and the system calls on
    files, over any file systems and devices of [Vfs].  As there, [None] is
    an access to memory that is not there.  Results are the C values: a
    descriptor, a count or an offset, or a negated error number. *)

From S2P Require Import Prelude PMem RamBlocks RamBlocksProofs BTree CString CStringProofs RamDir KHeap RamFS Devices Vfs.
Import RF VFS.

Module SYS.

Definition NPROC_MAX : Z := 10.
Definition N_PROCESS_FDS : Z := 20.
Definition EMFILE : Z := 24.
Definition ENXIO : Z := 6.
Definition ESPIPE : Z := 29.

Definition O_RDWR : Z := 1.
Definition O_RDONLY : Z := 2.
Definition O_WRONLY : Z := 4.
Definition O_APPEND : Z := 8.
Definition O_CREAT : Z := 16.
Definition O_TRUNC : Z := 32.
Definition has (flags bits : Z) : bool := negb (Z.land flags bits =? 0).

Definition SEEK_SET : Z := 0.
Definition SEEK_CUR : Z := 1.
Definition SEEK_END : Z := 2.

Record filedescr := mk_fd { fd_sb : Z; fd_ino : Z; fd_flags : Z; fd_pos : Z }.
Record process := mk_proc { ps_pid : Z; ps_umask : Z; ps_fds : list filedescr }.

Section sys.
Context {S D : Type}.

(** Processes live at addresses; the table holds an address per pid (0 is
    NULL); the current task is the address of its process. *)
Record kstate := mk_k {
  fs : vfs S D; procs : gmap Z process; theProcessTable : list Z; theCurrentTask : Z }.

Definition set_fs (k : kstate) (v : vfs S D) : kstate := mk_k v (procs k) (theProcessTable k) (theCurrentTask k).
Definition put_fd (k : kstate) (p : Z) (proc : process) (fd : Z) (f : filedescr) : kstate :=
  mk_k (fs k) (<[p := mk_proc (ps_pid proc) (ps_umask proc) (<[Z.to_nat fd := f]> (ps_fds proc))]> (procs k))
       (theProcessTable k) (theCurrentTask k).

(** ** Processes and descriptors *)

Fixpoint pid_loop (table : list Z) (i : Z) : Z :=
  match table with [] => 0 | p :: table => if p =? 0 then i else pid_loop table (i + 1) end.

(** The first free pid from 1 on, 0 for none. *)
Definition alloc_pid (k : kstate) : Z := pid_loop (drop 1 (take (Z.to_nat NPROC_MAX) (theProcessTable k))) 1.

(** The address, 0 for NULL; the bound lets one pid too many through. *)
Definition proc_by_pid (k : kstate) (pid : Z) : option Z :=
  if NPROC_MAX <? pid then Some 0
  else if pid <? 0 then None else theProcessTable k !! Z.to_nat pid.

Definition current_proc (k : kstate) : Z := theCurrentTask k.
Definition current_pid (k : kstate) : option Z := option_map ps_pid (procs k !! current_proc k).

Fixpoint fd_loop (fds : list filedescr) (i : Z) : Z :=
  match fds with [] => -1 | f :: fds => if fd_ino f <? 1 then i else fd_loop fds (i + 1) end.

(** The first free descriptor, -1 for none; without a process it is the
    positive [EKERN]. *)
Definition alloc_fd_for_pid (k : kstate) (pid : Z) : option Z :=
  p ← proc_by_pid k pid;
  if p =? 0 then Some EKERN
  else proc ← procs k !! p; Some (fd_loop (take (Z.to_nat N_PROCESS_FDS) (ps_fds proc)) 0).

(** The address of the process the descriptor belongs to, 0 for NULL. *)
Definition get_filedescr_for_pid (k : kstate) (pid fd : Z) : option Z :=
  p ← proc_by_pid k pid;
  if p =? 0 then Some 0
  else if negb ((0 <=? fd) && (fd <? N_PROCESS_FDS)) then Some 0
  else Some p.

Definition get_fd (k : kstate) (p fd : Z) : option (process * filedescr) :=
  proc ← procs k !! p; f ← ps_fds proc !! Z.to_nat fd; Some (proc, f).

(** ** open *)

(** Exactly one of the three access modes. *)
Definition rw_ok (rw : Z) : bool :=
  negb (rw =? 0) &&
  negb ((has rw O_RDWR && has rw (Z.lnot O_RDWR)) || (has rw O_RDONLY && has rw (Z.lnot O_RDONLY)) ||
        (has rw O_WRONLY && has rw (Z.lnot O_WRONLY))).

(** The last part: count the descriptor in the inode, position it by the kind of
    file, and take it into use. *)
Definition open_inode (k : kstate) (p fd flags rw id ino : Z) : option (kstate * Z) :=
  '(ret, idata) ← vfs_inode_get (fs k) id ino;
  if negb (ret =? 0) then Some (k, - ret)
  else
    idata ← idata;
    let idata := mk_inode (i_no idata) (i_mode idata) (i_nlinks idata) (u32 (i_nfds idata + 1)) (i_size idata) (i_data idata) (i_as idata) in
    '(v, _) ← vfs_inode_set (fs k) id ino idata;
    '(proc, f) ← get_fd k p fd;
    let f := mk_fd id ino (fd_flags f) (fd_pos f) in
    let at_pos pos := mk_fd id ino (fd_flags f) pos in
    let m := fmt (i_mode idata) in
    if m =? S_IFCHR then
      match DV.device_by_devno (devtables v) DV.DEV_CHR (inode_devno idata) with
      | Some dev => Some (put_fd (set_fs k v) p proc fd (if dev_has_data dev then at_pos (-1) else f), fd)
      | None => Some (put_fd (set_fs k v) p proc fd f, fd)
      end
    else if (m =? S_IFSOCK) || (m =? S_IFIFO) then Some (put_fd (set_fs k v) p proc fd f, fd)
    else if has rw (Z.lor O_RDWR O_WRONLY) then
      if has flags O_TRUNC then
        '(v, _) ← vfs_inode_trunc v id ino 0; Some (put_fd (set_fs k v) p proc fd f, fd)
      else if has flags O_APPEND then Some (put_fd (set_fs k v) p proc fd (at_pos (i_size idata)), fd)
      else Some (put_fd (set_fs k v) p proc fd f, fd)
    else Some (put_fd (set_fs k v) p proc fd f, fd).

(** Take a free descriptor, make the file if it is missing ([ino] is 0), open it. *)
Definition open_alloc (k : kstate) (pathname : list Z) (flags rw id ino : Z) : option (kstate * Z) :=
  pid ← current_pid k;
  fd ← alloc_fd_for_pid k pid;
  if fd <? 0 then Some (k, - EMFILE)
  else
    p ← get_filedescr_for_pid k pid fd;
    '(proc, f) ← get_fd k p fd;
    let k := put_fd k p proc fd (mk_fd (fd_sb f) (fd_ino f) flags 0) in
    if (ino =? 0) && has flags O_CREAT then
      '(v, ret) ← vfs_mknod (fs k) pathname (Z.lor S_IFREG (ps_umask proc)) 0;
      let k := set_fs k v in
      if negb (ret =? 0) then Some (k, - ret)
      else
        '(ret, id, ino) ← vfs_lookup (fs k) pathname;
        if negb (ret =? 0) then Some (k, - EKERN) else open_inode k p fd flags rw id ino
    else open_inode k p fd flags rw id ino.

Definition sys_open (k : kstate) (pathname : list Z) (flags : Z) : option (kstate * Z) :=
  let rw := Z.land flags (Z.lor (Z.lor O_RDWR O_RDONLY) O_WRONLY) in
  if negb (rw_ok rw) then Some (k, - EINVAL)
  else
    '(ret, id, ino) ← vfs_lookup (fs k) pathname;
    if negb (ret =? 0) && negb ((ret =? ENOENT) && has flags O_CREAT) then Some (k, - ret)
    else open_alloc k pathname flags rw id (if ret =? 0 then ino else 0).

(** ** read, write, close, lseek *)

Definition advance (f : filedescr) (n : Z) : filedescr :=
  if 0 <=? fd_pos f then mk_fd (fd_sb f) (fd_ino f) (fd_flags f) (s32 (u32 (fd_pos f + n))) else f.

(** The state, the result and the bytes read. *)
Definition sys_read (k : kstate) (fd count : Z) : option (kstate * Z * list Z) :=
  let p := current_proc k in
  if p =? 0 then Some (k, - EKERN, [])
  else if negb ((0 <=? fd) && (fd <? N_PROCESS_FDS)) then Some (k, - EINVAL, [])
  else
    '(proc, f) ← get_fd k p fd;
    if has (fd_flags f) O_WRONLY then Some (k, - EBADF, [])
    else
      '(v, ret, bs) ← vfs_inode_read (fs k) (fd_sb f) (fd_ino f) (fd_pos f) count;
      let k := set_fs k v in
      if negb (ret =? 0) then Some (k, - ret, [])
      else
        let nread := Z.of_nat (length bs) in
        Some (put_fd k p proc fd (advance f nread), nread, bs).

Definition sys_write (k : kstate) (fd : Z) (buf : list Z) : option (kstate * Z) :=
  let p := current_proc k in
  if p =? 0 then Some (k, - EKERN)
  else if negb ((0 <=? fd) && (fd <? N_PROCESS_FDS)) then Some (k, - EINVAL)
  else
    '(proc, f) ← get_fd k p fd;
    if has (fd_flags f) O_RDONLY then Some (k, - EBADF)
    else
      '(v, ret, nwritten) ← vfs_inode_write (fs k) (fd_sb f) (fd_ino f) (fd_pos f) buf;
      let k := set_fs k v in
      if negb (ret =? 0) then Some (k, - ret)
      else Some (put_fd k p proc fd (advance f nwritten), nwritten).

Definition sys_close (k : kstate) (fd : Z) : option (kstate * Z) :=
  pid ← current_pid k;
  p ← get_filedescr_for_pid k pid fd;
  if p =? 0 then Some (k, EBADF)
  else
    '(proc, f) ← get_fd k p fd;
    '(ret, idata) ← vfs_inode_get (fs k) (fd_sb f) (fd_ino f);
    if negb (ret =? 0) then Some (k, ret)
    else
      idata ← idata;
      let idata := mk_inode (i_no idata) (i_mode idata) (i_nlinks idata) (u32 (i_nfds idata - 1)) (i_size idata) (i_data idata) (i_as idata) in
      '(v, _) ← vfs_inode_set (fs k) (fd_sb f) (fd_ino f) idata;
      Some (put_fd (set_fs k v) p proc fd (mk_fd (fd_sb f) 0 (fd_flags f) (fd_pos f)), 0).

(** The position is clamped to the file after the result is taken. *)
Definition seek_to (k : kstate) (p : Z) (proc : process) (fd : Z) (f : filedescr) (size pos : Z) : kstate * Z :=
  let ret := pos in
  let pos := if size <? pos then size else pos in
  let pos := if pos <? 0 then 0 else pos in
  (put_fd k p proc fd (mk_fd (fd_sb f) (fd_ino f) (fd_flags f) pos), ret).

Definition sys_lseek (k : kstate) (fd offset whence : Z) : option (kstate * Z) :=
  pid ← current_pid k;
  p ← get_filedescr_for_pid k pid fd;
  if p =? 0 then Some (k, - EBADF)
  else
    '(proc, f) ← get_fd k p fd;
    if fd_ino f =? 0 then Some (k, - EBADF)
    else if fd_pos f <? 0 then Some (k, - ESPIPE)
    else
      '(ret, idata) ← vfs_inode_get (fs k) (fd_sb f) (fd_ino f);
      if negb (ret =? 0) then Some (k, - ret)
      else
        idata ← idata;
        let m := fmt (i_mode idata) in
        let seek :=
          if whence =? SEEK_CUR then Some (seek_to k p proc fd f (i_size idata) (s32 (u32 (fd_pos f + offset))))
          else if whence =? SEEK_SET then Some (seek_to k p proc fd f (i_size idata) offset)
          else if whence =? SEEK_END then Some (seek_to k p proc fd f (i_size idata) (s32 (u32 (i_size idata - offset))))
          else Some (k, - EINVAL) in
        if (m =? S_IFIFO) || (m =? S_IFSOCK) then Some (k, - ESPIPE)
        else if m =? S_IFDIR then Some (k, - EISDIR)
        else if m =? S_IFCHR then
          match DV.device_by_devno (devtables (fs k)) DV.DEV_CHR (inode_devno idata) with
          | None => Some (k, - ENXIO)
          | Some dev => if dev_has_data dev then Some (k, - ESPIPE) else seek
          end
        else seek.

Definition sys_unlink (k : kstate) (path : list Z) : option (kstate * Z) :=
  '(v, ret) ← vfs_unlink (fs k) path; Some (set_fs k v, ret).
Definition sys_rename (k : kstate) (oldpath newpath : list Z) : option (kstate * Z) :=
  '(v, ret) ← vfs_rename (fs k) oldpath newpath; Some (set_fs k v, ret).
Definition sys_mkdir (k : kstate) (path : list Z) (mode : Z) : option (kstate * Z) :=
  '(v, ret) ← vfs_mkdir (fs k) path mode; Some (set_fs k v, ret).

End sys.

Arguments kstate : clear implicits.

End SYS.
