(* ===== verification/FsSysProofs.v ===== *)
(** * Correctness of the file system calls

    Module [SYSP]: descriptors handed out by [sys_open], and writing, seeking
    and reading through a descriptor. *)

From S2P Require Import Prelude FirstFit FirstFitProofs PMem RamBlocks RamBlocksProofs BTree CString CStringProofs RamDir KHeap RamFS RamFSProofs Devices Vfs VfsProofs FsSys.
Import KH RF RFP VFS VFSP SYS.

Module SYSP.

(** ** Descriptors *)

Lemma fd_loop_spec fds : forall i,
  (fd_loop fds i = -1 /\ Forall (fun f => 1 <= fd_ino f) fds) \/
  (exists n f, fd_loop fds i = i + Z.of_nat n /\ fds !! n = Some f /\ fd_ino f < 1 /\
     forall j g, (j < n)%nat -> fds !! j = Some g -> 1 <= fd_ino g).
Proof.
  induction fds as [|f fds IH]; intros i; cbn [fd_loop]; [by left|].
  destruct (Z.ltb_spec (fd_ino f) 1) as [Hlt|Hge].
  - right. exists 0%nat, f. split; [lia|]. split; [done|]. split; [done|]. intros; lia.
  - destruct (IH (i + 1)) as [[-> Hall]|(n & g & -> & Hn & Hg & Hb)].
    + left. split; [done|]. by constructor.
    + right. exists (Datatypes.S n), g. split; [lia|]. split; [done|]. split; [done|].
      intros [|j] x Hj; [by intros [= <-]|]. simpl. apply Hb. lia.
Qed.

Section sys.
Context {S D : Type}.

(** The current process is the one its pid leads to, with all its descriptors. *)
Definition current_ok (k : kstate S D) (p : Z) (proc : process) : Prop :=
  theCurrentTask k = p /\ p <> 0 /\ procs k !! p = Some proc /\ 0 < ps_pid proc < NPROC_MAX /\
  theProcessTable k !! Z.to_nat (ps_pid proc) = Some p /\ length (ps_fds proc) = 20%nat.

Lemma current_pid_ok k p proc : current_ok k p proc -> current_pid k = Some (ps_pid proc).
Proof. intros (Hc & _ & Hp & _). unfold current_pid, current_proc. by rewrite Hc, Hp. Qed.

Lemma proc_by_pid_ok k p proc : current_ok k p proc -> proc_by_pid k (ps_pid proc) = Some p.
Proof.
  intros (_ & _ & _ & Hr & Ht & _). unfold proc_by_pid, NPROC_MAX in *.
  by rewrite (proj2 (Z.ltb_ge 10 _)), (proj2 (Z.ltb_ge (ps_pid proc) 0)) by lia.
Qed.

Lemma get_filedescr_ok k p proc fd : current_ok k p proc -> 0 <= fd < N_PROCESS_FDS ->
  get_filedescr_for_pid k (ps_pid proc) fd = Some p.
Proof.
  intros Hc Hfd. unfold get_filedescr_for_pid. rewrite (proc_by_pid_ok _ _ _ Hc). cbn [mbind option_bind].
  destruct Hc as (_ & Hp & _). unfold N_PROCESS_FDS in *.
  by rewrite (proj2 (Z.eqb_neq p 0) Hp), (proj2 (Z.leb_le 0 fd)), (proj2 (Z.ltb_lt fd 20)) by lia.
Qed.

Lemma get_fd_ok (k : kstate S D) p proc fd f : procs k !! p = Some proc -> ps_fds proc !! Z.to_nat fd = Some f -> get_fd k p fd = Some (proc, f).
Proof. intros Hp Hf. unfold get_fd. rewrite Hp. simpl. by rewrite Hf. Qed.

(** Only the descriptor [fd] of process [p] differs, and in it the inode
    number is [ino] and the flags are [flags]. *)
Definition only_fd (k k' : kstate S D) (p : Z) (proc : process) (fd : Z) (P : filedescr -> Prop) : Prop :=
  theCurrentTask k' = theCurrentTask k /\ theProcessTable k' = theProcessTable k /\
  exists f', P f' /\
    procs k' = <[p := mk_proc (ps_pid proc) (ps_umask proc) (<[Z.to_nat fd := f']> (ps_fds proc))]> (procs k).

Lemma open_inode_fd (k k0 : kstate S D) p proc fd f0 f flags rw id ino k' r :
  procs k0 !! p = Some proc -> ps_fds proc !! Z.to_nat fd = Some f0 ->
  k = put_fd k0 p proc fd f -> (fd < N_PROCESS_FDS) -> 0 <= fd ->
  open_inode k p fd flags rw id ino = Some (k', r) ->
  (only_fd k0 k' p proc fd (fun f' => fd_ino f' = ino /\ fd_sb f' = id /\ fd_flags f' = fd_flags f) /\ r = fd) \/
  (only_fd k0 k' p proc fd (fun f' => fd_ino f' = fd_ino f) /\ exists e, r = - e /\ e <> 0).
Proof.
  intros Hp Hf0 -> Hfd Hfd0. unfold open_inode.
  destruct (vfs_inode_get _ id ino) as [[ret idata]|]; [|done]. cbn [mbind option_bind].
  destruct (Z.eqb_spec ret 0) as [->|Hne]; cbn [negb].
  2:{ intros [= <- <-]. right. split; [|by exists ret]. split; [done|]. split; [done|]. by exists f. }
  destruct idata as [idata|]; [|done]. cbn [mbind option_bind].
  destruct (vfs_inode_set _ id ino _) as [[v ret2]|]; [|done]. cbn [mbind option_bind].
  assert (Hg : get_fd (put_fd k0 p proc fd f) p fd =
    Some (mk_proc (ps_pid proc) (ps_umask proc) (<[Z.to_nat fd := f]> (ps_fds proc)), f)).
  { apply get_fd_ok; [simpl; by rewrite lookup_insert_eq|]. simpl. apply list_lookup_insert_eq. by eapply lookup_lt_Some. }
  rewrite Hg. cbn [mbind option_bind fd_flags].
  assert (Hdone : forall v' f', fd_ino f' = ino -> fd_sb f' = id -> fd_flags f' = fd_flags f ->
    only_fd k0 (put_fd (set_fs (put_fd k0 p proc fd f) v') p (mk_proc (ps_pid proc) (ps_umask proc) (<[Z.to_nat fd := f]> (ps_fds proc))) fd f')
      p proc fd (fun f' => fd_ino f' = ino /\ fd_sb f' = id /\ fd_flags f' = fd_flags f)).
  { intros v' f' H1 H2 H3. split; [done|]. split; [done|]. exists f'. split; [done|]. simpl.
    by rewrite insert_insert_eq, list_insert_insert_eq. }
  intros E. left.
  repeat match type of E with
  | (if ?b then _ else _) = _ => destruct b
  | match DV.device_by_devno ?t ?y ?n with _ => _ end = _ => destruct (DV.device_by_devno t y n) as [dev|]
  | (vfs_inode_trunc ?a ?b ?c ?d ≫= _) = _ => destruct (vfs_inode_trunc a b c d) as [[v' ?]|]; [|done]; cbn [mbind option_bind] in E
  end; injection E as <- <-; (split; [apply Hdone; try (case_match; done); done|done]).
Qed.

(** Every descriptor of the process keeps its inode number. *)
Definition fds_kept (k' : kstate S D) (p : Z) (proc : process) : Prop :=
  exists proc', procs k' !! p = Some proc' /\
    forall j f, ps_fds proc !! j = Some f -> exists f', ps_fds proc' !! j = Some f' /\ fd_ino f' = fd_ino f.

Lemma only_fd_kept k k' p proc fd f (P : filedescr -> Prop) :
  only_fd k k' p proc fd P -> ps_fds proc !! Z.to_nat fd = Some f -> (forall f', P f' -> fd_ino f' = fd_ino f) -> fds_kept k' p proc.
Proof.
  intros (_ & _ & f' & HP & Hpr) Hf Hi. exists (mk_proc (ps_pid proc) (ps_umask proc) (<[Z.to_nat fd := f']> (ps_fds proc))).
  split; [rewrite Hpr; by rewrite lookup_insert_eq|]. intros j g Hj. simpl. destruct (decide (j = Z.to_nat fd)) as [->|Hne].
  - exists f'. split; [apply list_lookup_insert_eq; by eapply lookup_lt_Some|]. rewrite (Hi f' HP). congruence.
  - exists g. by rewrite list_lookup_insert_ne by done.
Qed.

Definition lowest_free (proc : process) (fd : Z) : Prop :=
  0 <= fd < N_PROCESS_FDS /\ (exists f, ps_fds proc !! Z.to_nat fd = Some f /\ fd_ino f < 1) /\
  forall j f, (j < Z.to_nat fd)%nat -> ps_fds proc !! j = Some f -> 1 <= fd_ino f.

Lemma alloc_fd_ok k p proc fd : current_ok k p proc -> alloc_fd_for_pid k (ps_pid proc) = Some fd ->
  (fd = -1 /\ Forall (fun f => 1 <= fd_ino f) (ps_fds proc)) \/ lowest_free proc fd.
Proof.
  intros Hc. unfold alloc_fd_for_pid. rewrite (proc_by_pid_ok _ _ _ Hc). cbn [mbind option_bind].
  destruct Hc as (_ & Hp & Hpr & _ & _ & Hl). rewrite (proj2 (Z.eqb_neq p 0) Hp), Hpr. cbn [mbind option_bind].
  rewrite take_ge by (rewrite Hl; done). intros [= <-].
  destruct (fd_loop_spec (ps_fds proc) 0) as [[-> Hall]|(n & f & -> & Hn & Hf & Hb)]; [by left|right].
  pose proof (lookup_lt_Some _ _ _ Hn). unfold lowest_free, N_PROCESS_FDS. rewrite Z.add_0_l, Nat2Z.id.
  split; [lia|]. split; [by exists f|]. intros j g Hj. by apply Hb.
Qed.

(** What every path through [sys_open] does to the descriptors. *)
Definition opened k p proc flags (k' : kstate S D) (r : Z) : Prop :=
  (lowest_free proc r /\ only_fd k k' p proc r (fun f => fd_flags f = flags)) \/
  ((exists e, r = - e /\ e <> 0) /\ fds_kept k' p proc).

Lemma open_alloc_fd k p proc path flags rw id ino k' r :
  current_ok k p proc -> open_alloc k path flags rw id ino = Some (k', r) -> opened k p proc flags k' r.
Proof.
  intros Hc. pose proof Hc as (_ & _ & Hp & _).
  assert (Hkept : fds_kept k p proc) by (exists proc; split; [done|]; intros j f Hj; by exists f).
  unfold open_alloc. rewrite (current_pid_ok _ _ _ Hc). cbn [mbind option_bind].
  destruct (alloc_fd_for_pid k (ps_pid proc)) as [fd|] eqn:Efd; [|done]. cbn [mbind option_bind].
  destruct (Z.ltb_spec fd 0) as [Hneg|Hpos]; [intros [= <- <-]; right; split; [by exists EMFILE|done]|].
  destruct (alloc_fd_ok k p proc fd Hc Efd) as [[-> _]|Hlow]; [lia|]. pose proof Hlow as (Hfd & (f0 & Hf0 & Hfree) & _).
  rewrite (get_filedescr_ok _ _ _ _ Hc Hfd). cbn [mbind option_bind]. rewrite (get_fd_ok k p proc fd f0 Hp Hf0). cbn [mbind option_bind].
  set (f1 := mk_fd (fd_sb f0) (fd_ino f0) flags 0).
  assert (Hfail : forall k2, procs k2 = procs (put_fd k p proc fd f1) -> theProcessTable k2 = theProcessTable k ->
    theCurrentTask k2 = theCurrentTask k -> fds_kept k2 p proc).
  { intros k2 H1 H2 H3. apply (only_fd_kept k k2 p proc fd f0 (fun f => f = f1)); [|done|by intros ? ->].
    split; [done|]. split; [done|]. by exists f1. }
  assert (Hfin : forall v2 id ino k' r, open_inode (set_fs (put_fd k p proc fd f1) v2) p fd flags rw id ino = Some (k', r) -> opened k p proc flags k' r).
  { intros v2 id2 ino2 k2 r2 Ho.
    destruct (open_inode_fd _ (set_fs k v2) p proc fd f0 f1 flags rw id2 ino2 k2 r2 Hp Hf0 eq_refl ltac:(apply Hfd) ltac:(apply Hfd) Ho)
      as [[(Ha & Hb & f' & (_ & _ & Hfl) & Hpr) ->]|[Ho2 He]].
    - left. split; [done|]. split; [done|]. split; [done|]. by exists f'.
    - right. split; [done|]. apply (only_fd_kept _ _ _ _ _ f0 _ Ho2 Hf0). by intros f' ->. }
  destruct ((ino =? 0) && has flags O_CREAT); [|apply (Hfin (fs k))].
  destruct (vfs_mknod _ path _ 0) as [[v2 ret2]|]; [|done]. cbn [mbind option_bind].
  destruct (Z.eqb_spec ret2 0) as [->|Hr2]; cbn [negb]; [|intros [= <- <-]; right; split; [by exists ret2|by apply Hfail]].
  destruct (vfs_lookup _ path) as [[[ret3 id3] ino3]|]; [|done]. cbn [mbind option_bind].
  destruct (Z.eqb_spec ret3 0) as [->|Hr3]; cbn [negb]; [apply Hfin|].
  intros [= <- <-]. right. split; [by exists EKERN|by apply Hfail].
Qed.

(** [sys_open] hands out the lowest free descriptor of the process and
    changes no other; when it fails it returns a negated error and every
    descriptor that was in use or free still is. *)
Theorem sys_open_descriptor k p proc path flags k' r :
  current_ok k p proc -> sys_open k path flags = Some (k', r) ->
  (lowest_free proc r /\ only_fd k k' p proc r (fun f => fd_flags f = flags)) \/
  ((exists e, r = - e /\ e <> 0) /\ fds_kept k' p proc).
Proof.
  intros Hc. assert (Hkept : fds_kept k p proc) by (exists proc; split; [apply Hc|]; intros j f Hj; by exists f).
  unfold sys_open. set (rw := Z.land flags _).
  destruct (rw_ok rw); cbn [negb]; [|intros [= <- <-]; right; split; [by exists EINVAL|done]].
  destruct (vfs_lookup (fs k) path) as [[[ret id] ino]|]; [|done]. cbn [mbind option_bind].
  destruct (Z.eqb_spec ret 0) as [Er|Er]; cbn [negb andb]; [by apply open_alloc_fd|].
  destruct (negb ((ret =? ENOENT) && has flags O_CREAT)); [intros [= <- <-]; right; split; [by exists ret|done]|by apply open_alloc_fd].
Qed.

End sys.

(** ** Writing, seeking and reading *)

Section file.
Context {H D : Type} `{Heap H}.

(** Bytes written through a read-write descriptor are read back after
    seeking to where they were written: [sys_write], [sys_lseek] and
    [sys_read] succeed with the full count and the bytes are the same. *)
Lemma sys_write_seek_read (k : kstate (ramfs (H := H)) D) p proc fd f dev s i buf :
  current_ok k p proc -> 0 <= fd < N_PROCESS_FDS -> ps_fds proc !! Z.to_nat fd = Some f ->
  has (fd_flags f) O_RDONLY = false -> has (fd_flags f) O_WRONLY = false ->
  rooted (fs k) (fd_sb f) dev s -> fd_ino f <> 0 -> ramfs_idata_by_inode s (fd_ino f) <> 0 ->
  idatas s !! ramfs_idata_by_inode s (fd_ino f) = Some i ->
  S_ISREG (i_mode i) = true -> RBP.file_wf (km s) (as_reg i) -> i_size i <= RBP.FILE_MAX ->
  0 <= fd_pos f -> fd_pos f + Z.of_nat (length buf) <= RBP.FILE_MAX -> (0 < length buf)%nat ->
  exists k1 k2 k3, sys_write k fd buf = Some (k1, Z.of_nat (length buf)) /\
    sys_lseek k1 fd (fd_pos f) SEEK_SET = Some (k2, fd_pos f) /\
    sys_read k2 fd (Z.of_nat (length buf)) = Some (k3, Z.of_nat (length buf), buf).
Proof.
  intros Hc Hfd Hf Hr Hw Hroot Hino Hp Hi Hreg Hwf Hsz Hpos Hend Hlen.
  pose proof Hc as (Hcur & Hp0 & Hpr & Hrange & Htab & Hl).
  destruct (write_read_ok (fs k) (fd_sb f) dev s (fd_ino f) i (fd_pos f) buf) as (v & Hwr & Hrd & i' & Hget & Hm & Hsz'); try done.
  assert (Hin : (Z.to_nat fd < length (ps_fds proc))%nat) by (by eapply lookup_lt_Some).
  set (f1 := advance f (Z.of_nat (length buf))). set (k1 := put_fd (set_fs k v) p proc fd f1).
  set (proc1 := mk_proc (ps_pid proc) (ps_umask proc) (<[Z.to_nat fd := f1]> (ps_fds proc))).
  assert (Hf1 : fd_sb f1 = fd_sb f /\ fd_ino f1 = fd_ino f /\ fd_flags f1 = fd_flags f /\ 0 <= fd_pos f1).
  { unfold f1, advance. rewrite (proj2 (Z.leb_le 0 (fd_pos f)) Hpos). split_and!; try done. simpl.
    unfold RBP.FILE_MAX in Hend. rewrite RBP.s32_u32_small by lia. lia. }
  destruct Hf1 as (Hsb1 & Hino1 & Hfl1 & Hpos1).
  assert (Hp1 : procs k1 !! p = Some proc1) by (simpl; by rewrite lookup_insert_eq).
  assert (Hfd1 : ps_fds proc1 !! Z.to_nat fd = Some f1) by (by apply list_lookup_insert_eq).
  assert (Hc1 : current_ok k1 p proc1) by (split_and!; try done; simpl; [lia|lia|by rewrite length_insert]).
  set (f2 := mk_fd (fd_sb f) (fd_ino f) (fd_flags f) (fd_pos f)).
  set (k2 := put_fd k1 p proc1 fd f2). unfold N_PROCESS_FDS in Hfd.
  assert (Hb1 : (0 <=? fd) = true) by (apply Z.leb_le; lia). assert (Hb2 : (fd <? N_PROCESS_FDS) = true) by (apply Z.ltb_lt; unfold N_PROCESS_FDS; lia).
  assert (Eseek : sys_lseek k1 fd (fd_pos f) SEEK_SET = Some (k2, fd_pos f)).
  { unfold sys_lseek. rewrite (current_pid_ok _ _ _ Hc1). cbn [mbind option_bind].
    rewrite (get_filedescr_ok _ _ _ _ Hc1) by (unfold N_PROCESS_FDS; lia). cbn [mbind option_bind].
    rewrite (proj2 (Z.eqb_neq p 0) Hp0), (get_fd_ok k1 p proc1 fd f1 Hp1 Hfd1). cbn [mbind option_bind].
    rewrite Hino1, (proj2 (Z.eqb_neq _ 0) Hino), (proj2 (Z.ltb_ge (fd_pos f1) 0)) by lia.
    rewrite Hsb1. change (fs k1) with v. rewrite Hget. cbn [mbind option_bind Z.eqb negb].
    unfold S_ISREG in Hreg. apply Z.eqb_eq in Hreg. rewrite Hm, Hreg. cbn [Z.eqb orb SEEK_SET SEEK_CUR].
    unfold seek_to. rewrite Hsz'. rewrite (proj2 (Z.ltb_ge (Z.max _ _) (fd_pos f))) by lia. rewrite (proj2 (Z.ltb_ge (fd_pos f) 0)) by lia.
    by rewrite Hsb1, Hino1, Hfl1. }
  assert (Hp2 : get_fd k2 p fd = Some (mk_proc (ps_pid proc1) (ps_umask proc1) (<[Z.to_nat fd := f2]> (ps_fds proc1)), f2)).
  { apply get_fd_ok; [simpl; by rewrite lookup_insert_eq|]. simpl. apply list_lookup_insert_eq. by rewrite length_insert. }
  exists k1, k2. eexists. split_and!.
  - unfold sys_write, current_proc. rewrite Hcur, (proj2 (Z.eqb_neq p 0) Hp0), Hb1, Hb2. cbn [andb negb].
    rewrite (get_fd_ok k p proc fd f Hpr Hf). cbn [mbind option_bind]. rewrite Hr, Hwr. done.
  - exact Eseek.
  - unfold sys_read, current_proc. change (theCurrentTask k2) with (theCurrentTask k).
    rewrite Hcur, (proj2 (Z.eqb_neq p 0) Hp0), Hb1, Hb2. cbn [andb negb]. rewrite Hp2. cbn [mbind option_bind].
    change (fd_flags f2) with (fd_flags f). rewrite Hw. change (fs k2) with v. simpl fd_sb. simpl fd_ino. simpl fd_pos.
    rewrite Hrd. done.
Qed.

End file.

(** ** Witnesses: a process with a free descriptor and one open on the file 2 *)

Definition demo_proc : process := mk_proc 3 420 (mk_fd 7 2 1 4094 :: replicate 19 (mk_fd 0 0 0 0)).
Definition demo_kern : kstate (ramfs (H := FF.alloc_t)) unit :=
  mk_k (demo_vfs demo_fs2) {[ 900 := demo_proc ]} [0; 0; 0; 900; 0; 0; 0; 0; 0; 0] 900.

Lemma demo_current : current_ok demo_kern 900 demo_proc.
Proof. split_and!; done. Qed.

(** ** Defects the model shows *)

(** [SEEK_END] counts the offset backwards from the end. *)
Lemma seek_end_backwards :
  let k := mk_k (demo_vfs demo_fs2) {[ 900 := mk_proc 3 420 (mk_fd 7 2 1 0 :: replicate 19 (mk_fd 0 0 0 0)) ]} (theProcessTable demo_kern) 900 in
  match sys_write k 0 [1; 2; 3; 4; 5; 6; 7; 8; 9; 10] with
  | Some (k, _) => option_map snd (sys_lseek k 0 (-3) SEEK_END) = Some 13
  | None => False
  end.
Proof. by vm_compute. Qed.

(** The pid 10 is read behind the end of the process table. *)
Lemma pid_out_of_bounds : proc_by_pid demo_kern NPROC_MAX = None.
Proof. done. Qed.

(** Closing or reading a descriptor that was never opened follows its NULL
    superblock: neither call looks at [fd_ino]. *)
Lemma unused_descriptor_followed :
  sys_close demo_kern 5 = None /\ sys_read demo_kern 5 1 = None.
Proof. by vm_compute. Qed.
End SYSP.
