(* ===== verification/Tasks.v ===== *)
(** * Tasks and the scheduler (src/core/tasks.c, sys_exit of src/core/process.c)

    Module [TK]: the ring of tasks linked by [next], the round-robin scheduler
    and the switch at a timer tick.  Register contexts and task segments are
    not part of the model: a switch changes [theCurrentTask]. *)

From S2P Require Import Prelude.

Module TK.

Inductive taskstate := TS_READY | TS_BLOCKED | TS_STOPPED | TS_EXITED.

#[global] Instance taskstate_eq_dec : EqDecision taskstate.
Proof. solve_decision. Defined.

Record task_struct := mk_task { state : taskstate; next : Z }.

(** Tasks by address; [sched_set] tells whether [task_next] is set. *)
Record sched := mk_sched { tasks : gmap Z task_struct; theCurrentTask : Z; sched_set : bool }.

Definition set_state (s : sched) (t : Z) (st : taskstate) : sched :=
  mk_sched (alter (fun x => mk_task st (next x)) t (tasks s)) (theCurrentTask s) (sched_set s).

(** The loop from [current->next]; 0 is NULL, [None] a task that is not there
    or a list that never comes back to [current]. *)
Fixpoint sched_loop (fuel : nat) (s : sched) (current c : Z) : option Z :=
  match fuel with
  | O => None
  | S fuel =>
      if negb (negb (c =? 0) && negb (c =? current)) then Some 0
      else
        t ← tasks s !! c;
        if decide (state t = TS_READY) then Some c else sched_loop fuel s current (next t)
  end.

Definition the_scheduler (s : sched) : option Z :=
  let current := theCurrentTask s in
  t ← tasks s !! current;
  sched_loop (S (size (tasks s))) s current (next t).

(** The new task goes behind the current one. *)
Definition sched_add_task (s : sched) (task : Z) : option sched :=
  let current := theCurrentTask s in
  cur ← tasks s !! current;
  t ← tasks s !! task;
  let was_next := next cur in
  let m := <[task := mk_task (state t) was_next]> (tasks s) in
  cur ← m !! current;
  Some (mk_sched (<[current := mk_task (state cur) task]> m) current (sched_set s)).

Definition task_timer_handler (s : sched) : option sched :=
  if negb (sched_set s) then Some s
  else
    next ← the_scheduler s;
    if next =? 0 then Some s else Some (mk_sched (tasks s) next (sched_set s)).

Definition task_yield (s : sched) : option sched := task_timer_handler s.

Definition sys_exit (s : sched) : option sched := task_yield (set_state s (theCurrentTask s) TS_EXITED).

(** The default task alone in its ring. *)
Definition tasks_setup (m : gmap Z task_struct) (default_task : Z) : option sched :=
  t ← m !! default_task;
  Some (mk_sched (<[default_task := mk_task (state t) default_task]> m) default_task true).

(** ** The ring *)

(** [l] lists the tasks in [next] order up to the task [stop]. *)
Fixpoint linked (m : gmap Z task_struct) (a : Z) (l : list Z) (stop : Z) : Prop :=
  match l with
  | [] => option_map next (m !! a) = Some stop
  | b :: l => option_map next (m !! a) = Some b /\ linked m b l stop
  end.

(** The current task followed by the others. *)
Definition ring (s : sched) (l : list Z) : Prop :=
  sched_set s = true /\ NoDup (theCurrentTask s :: l) /\ Forall (fun t => t <> 0) (theCurrentTask s :: l) /\
  linked (tasks s) (theCurrentTask s) l (theCurrentTask s).

Definition ready (s : sched) (t : Z) : Prop := option_map state (tasks s !! t) = Some TS_READY.

#[global] Instance ready_dec s t : Decision (ready s t).
Proof. unfold ready. apply _. Defined.

Lemma linked_app m a l b l' stop : linked m a (l ++ b :: l') stop <-> linked m a l b /\ linked m b l' stop.
Proof. revert a. induction l as [|c l IH]; intros a; simpl; [done|]. rewrite IH. tauto. Qed.

Lemma linked_keys m a l stop : linked m a l stop -> forall t, t ∈ a :: l -> is_Some (m !! t).
Proof.
  revert a. induction l as [|b l IH]; intros a; simpl.
  - intros Hn t Ht. apply list_elem_of_singleton in Ht as ->. destruct (m !! a); [by eexists|done].
  - intros [Hn Hl] t [->|Ht]%elem_of_cons; [destruct (m !! a); [by eexists|done]|by apply (IH b)].
Qed.

Lemma linked_ext m m' a l stop :
  (forall t, t ∈ a :: l -> option_map next (m' !! t) = option_map next (m !! t)) -> linked m a l stop -> linked m' a l stop.
Proof.
  revert a. induction l as [|b l IH]; intros a He; simpl.
  - intros Hn. rewrite He; [done|left].
  - intros [Hn Hl]. split; [rewrite He; [done|left]|]. apply IH; [|done]. intros t Ht. apply He. by right.
Qed.

(** The first task of [l] that is ready. *)
Lemma sched_loop_first s cur l : forall c l2 fuel,
  c :: l2 = l ->
  NoDup (cur :: l) -> Forall (fun t => t <> 0) l -> linked (tasks s) c l2 cur -> (length l < fuel)%nat ->
  sched_loop fuel s cur c = Some (default 0 (List.find (fun t => bool_decide (ready s t)) l)).
Proof.
  induction l as [|x l IH]; intros c l2 fuel; [done|]. intros [= -> ->] Hnd Hnz Hl Hf.
  destruct fuel as [|fuel]; [simpl in Hf; lia|]. cbn [sched_loop].
  apply NoDup_cons in Hnd as [Hcur Hnd]. inversion Hnz as [|? ? Hx0 Hnz']; subst.
  assert (x <> cur) by (intros ->; apply Hcur; left).
  rewrite (proj2 (Z.eqb_neq x 0) Hx0), (proj2 (Z.eqb_neq x cur)) by done. cbn [negb andb].
  destruct (tasks s !! x) as [t|] eqn:Et; [|destruct l; simpl in Hl; rewrite Et in Hl; naive_solver]. cbn [mbind option_bind].
  cbn [List.find]. case_decide as Hst.
  { rewrite bool_decide_true by (unfold ready; rewrite Et; simpl; by rewrite Hst). done. }
  rewrite bool_decide_false by (unfold ready; rewrite Et; simpl; intros E; congruence). destruct l as [|y l].
  - simpl in Hl. rewrite Et in Hl. injection Hl as ->. destruct fuel as [|fuel]; [simpl in Hf; lia|]. cbn [sched_loop].
    rewrite Z.eqb_refl, andb_false_r. done.
  - destruct Hl as [Hn Hl]. rewrite Et in Hn. injection Hn as ->. apply (IH y l); try done; [|simpl in *; lia].
    apply NoDup_cons in Hnd as [_ Hnd]. apply NoDup_cons. split; [|done]. intros Hin. apply Hcur. by right.
Qed.

Lemma ring_size s l : ring s l -> (length l < size (tasks s))%nat.
Proof.
  intros (_ & Hnd & _ & Hl). assert (Hsub : list_to_set (theCurrentTask s :: l) ⊆ dom (tasks s)).
  { intros t Ht. apply elem_of_list_to_set in Ht. apply elem_of_dom. by eapply linked_keys. }
  apply subseteq_size in Hsub. rewrite size_list_to_set, size_dom in Hsub by done. simpl in Hsub. lia.
Qed.

Lemma scheduler_first s l : ring s l ->
  the_scheduler s = Some (default 0 (List.find (fun t => bool_decide (ready s t)) l)).
Proof.
  intros Hr. pose proof (ring_size s l Hr) as Hsz. destruct Hr as (_ & Hnd & Hnz & Hl). unfold the_scheduler.
  destruct (tasks s !! theCurrentTask s) as [t|] eqn:Et; [|destruct l; simpl in Hl; rewrite Et in Hl; naive_solver].
  cbn [mbind option_bind]. destruct l as [|c l].
  - simpl in Hl. rewrite Et in Hl. injection Hl as ->. cbn [sched_loop]. by rewrite Z.eqb_refl, andb_false_r.
  - destruct Hl as [Hn Hl]. rewrite Et in Hn. injection Hn as ->. inversion Hnz; subst.
    eapply sched_loop_first; [done|done|done|done|lia].
Qed.

(** Rotating the ring to a later member. *)
Lemma tasks_rotate s l1 t l2 : ring s (l1 ++ t :: l2) ->
  ring (mk_sched (tasks s) t (sched_set s)) (l2 ++ theCurrentTask s :: l1).
Proof.
  intros (Hset & Hnd & Hnz & Hl). apply linked_app in Hl as [H1 H2].
  assert (Hp : theCurrentTask s :: l1 ++ t :: l2 ≡ₚ t :: l2 ++ theCurrentTask s :: l1) by solve_Permutation.
  split; [done|]. simpl. rewrite <- Hp. split; [done|]. split; [done|]. apply linked_app. done.
Qed.

Fixpoint ticks (n : nat) (s : sched) : option sched :=
  match n with O => Some s | S n => s' ← task_timer_handler s; ticks n s' end.

(** A tick passes the tasks that are not ready and stops at the next one that is. *)
Lemma tick_to s l1 t l2 : ring s (l1 ++ t :: l2) -> ready s t -> Forall (fun y => ~ ready s y) l1 ->
  task_timer_handler s = Some (mk_sched (tasks s) t (sched_set s)).
Proof.
  intros Hr Ht Hn. unfold task_timer_handler. pose proof Hr as (Hset & _ & Hnz & _). rewrite Hset. cbn [negb].
  rewrite (scheduler_first s _ Hr). cbn [mbind option_bind].
  assert (E : List.find (fun t => bool_decide (ready s t)) (l1 ++ t :: l2) = Some t).
  { clear -Hn Ht. induction l1 as [|y l1 IH]; simpl; [by rewrite bool_decide_true|].
    inversion Hn; subst. rewrite bool_decide_false by done. by apply IH. }
  rewrite E. simpl. assert (t <> 0) by (rewrite Forall_forall in Hnz; apply Hnz; right; apply elem_of_app; right; left).
  by rewrite (proj2 (Z.eqb_neq t 0)).
Qed.

Lemma reaches s l1 t l2 : ring s (l1 ++ t :: l2) -> ready s t ->
  exists n s', (n <= S (length l1))%nat /\ ticks n s = Some s' /\ theCurrentTask s' = t /\ tasks s' = tasks s.
Proof.
  remember (length l1) as k eqn:Ek. revert s l1 l2 Ek. induction (lt_wf k) as [k _ IH]. intros s l1 l2 -> Hr Ht.
  destruct (List.find (fun t => bool_decide (ready s t)) l1) as [x|] eqn:E.
  - apply find_split in E as (a & b & -> & Hx & Ha). apply bool_decide_eq_true in Hx.
    assert (Htick : task_timer_handler s = Some (mk_sched (tasks s) x (sched_set s))).
    { apply (tick_to s a x (b ++ t :: l2)); [by rewrite <- app_assoc in Hr|done|].
      eapply Forall_impl; [exact Ha|]. intros y Hy. by apply bool_decide_eq_false in Hy. }
    rewrite <- app_assoc in Hr. simpl in Hr. pose proof (tasks_rotate s a x (b ++ t :: l2) Hr) as Hr'. rewrite <- app_assoc in Hr'. simpl in Hr'.
    destruct (IH (length b)) with (s := mk_sched (tasks s) x (sched_set s)) (l1 := b) (l2 := l2 ++ theCurrentTask s :: a)
      as (n & s' & Hn & Hs & Hc & Htk); [rewrite length_app; simpl; lia|done|done|done|].
    exists (S n), s'. split; [rewrite length_app; simpl; lia|]. cbn [ticks]. by rewrite Htick.
  - exists 1%nat, (mk_sched (tasks s) t (sched_set s)). split; [lia|]. cbn [ticks].
    rewrite (tick_to s l1 t l2 Hr Ht); [done|]. apply Forall_forall. intros y Hy Hr2.
    pose proof (List.find_none _ _ E y (proj1 (list_elem_of_In _ _) Hy)) as Hb. simpl in Hb. by rewrite bool_decide_true in Hb.
Qed.

(** ** Histories *)

(** A task is added (one that is not in the ring yet), the timer ticks, the
    current task exits, or a task changes its state. *)
Inductive sched_step : sched -> sched -> Prop :=
| step_add s l t s' : ring s l -> t <> 0 -> t ∉ theCurrentTask s :: l -> sched_add_task s t = Some s' -> sched_step s s'
| step_tick s s' : task_timer_handler s = Some s' -> sched_step s s'
| step_exit s s' : sys_exit s = Some s' -> sched_step s s'
| step_state s t st : sched_step s (set_state s t st).

Lemma linked_inj m a l1 l2 stop : linked m a l1 stop -> linked m a l2 stop -> stop ∉ l1 -> stop ∉ l2 -> l1 = l2.
Proof.
  revert a l2. induction l1 as [|b l1 IH]; intros a [|c l2]; simpl; [done|..].
  - intros H1 [H2 _] _ H3. rewrite H1 in H2. injection H2 as <-. exfalso. apply H3. left.
  - intros [H2 _] H1 H3 _. rewrite H1 in H2. injection H2 as <-. exfalso. apply H3. left.
  - intros [H1 Hl1] [H2 Hl2] Hn1 Hn2. rewrite H1 in H2. injection H2 as <-. f_equal. apply (IH b); try done; intros Hx; [apply Hn1|apply Hn2]; by right.
Qed.

Lemma tick_ring s l s' : ring s l -> task_timer_handler s = Some s' ->
  exists l', ring s' l' /\ theCurrentTask s' :: l' ≡ₚ theCurrentTask s :: l.
Proof.
  intros Hr. unfold task_timer_handler. pose proof Hr as (Hset & _). rewrite Hset, (scheduler_first s l Hr). cbn [negb mbind option_bind].
  destruct (List.find _ l) as [t|] eqn:E; cbn [default].
  - apply find_split in E as (l1 & l2 & -> & _ & _). case_if; [intros [= <-]; by exists (l1 ++ t :: l2)|].
    intros [= <-]. eexists. rewrite <- Hset. split; [by apply tasks_rotate|]. simpl. solve_Permutation.
  - intros [= <-]. by exists l.
Qed.

Lemma set_state_ring s l t st : ring s l -> ring (set_state s t st) l.
Proof.
  intros (H1 & H2 & H3 & H4). split; [done|]. split; [done|]. split; [done|]. simpl.
  eapply linked_ext; [|exact H4]. intros x _. destruct (decide (x = t)) as [->|Hne].
  - rewrite lookup_alter_eq. by destruct (tasks s !! t).
  - by rewrite lookup_alter_ne by done.
Qed.

Lemma add_ring s l t s' : ring s l -> t <> 0 -> t ∉ theCurrentTask s :: l -> sched_add_task s t = Some s' -> ring s' (t :: l).
Proof.
  intros (Hset & Hnd & Hnz & Hl) Ht0 Hnin. unfold sched_add_task. set (c := theCurrentTask s) in *.
  assert (Hct : t <> c) by (intros ->; apply Hnin; left).
  destruct (tasks s !! c) as [cur|] eqn:Ec; [|done]. cbn [mbind option_bind].
  destruct (tasks s !! t) as [tt|] eqn:Et; [|done]. cbn [mbind option_bind].
  rewrite lookup_insert_ne, Ec by done. cbn [mbind option_bind]. intros [= <-].
  split; [done|]. simpl. apply NoDup_cons in Hnd as [Hc Hnd]. inversion Hnz as [|? ? Hc0 Hnz']; subst.
  split; [|split].
  - apply NoDup_cons. split; [|apply NoDup_cons; split; [|done]].
    + intros [E|E]%elem_of_cons; [by apply Hct|done].
    + intros E. apply Hnin. by right.
  - by repeat constructor.
  - split; [by rewrite lookup_insert_eq|].
    assert (Hsame : forall x, x <> c -> x <> t -> (<[c := mk_task (state cur) t]> (<[t := mk_task (state tt) (next cur)]> (tasks s))) !! x = tasks s !! x)
      by (intros x Hx1 Hx2; by rewrite !lookup_insert_ne by done).
    assert (Hnt : option_map next ((<[c := mk_task (state cur) t]> (<[t := mk_task (state tt) (next cur)]> (tasks s))) !! t) = Some (next cur))
      by (by rewrite lookup_insert_ne, lookup_insert_eq by done).
    destruct l as [|b l]; simpl in Hl |- *; rewrite Ec in Hl; [by rewrite Hnt|].
    destruct Hl as [Hn Hl]. split; [by rewrite Hnt|]. eapply linked_ext; [|exact Hl].
    intros x Hx. rewrite Hsame; [done|intros ->; done|]. intros ->. apply Hnin. by right.
Qed.

Lemma step_ring s s' l : ring s l -> sched_step s s' -> exists l', ring s' l' /\ (forall t, t ∈ theCurrentTask s :: l -> t ∈ theCurrentTask s' :: l').
Proof.
  intros Hr Hstep. destruct Hstep as [s l0 t s' Hr0 Ht0 Hnin E|s s' E|s s' E|s t st].
  - assert (l0 = l) as ->.
    { destruct Hr as (_ & Hnd & _ & Hl). destruct Hr0 as (_ & Hnd0 & _ & Hl0). apply NoDup_cons in Hnd as [Hn _]. apply NoDup_cons in Hnd0 as [Hn0 _].
      by apply (linked_inj _ _ _ _ _ Hl0 Hl). }
    exists (t :: l). split; [by eapply add_ring|]. assert (theCurrentTask s' = theCurrentTask s) as ->.
    { unfold sched_add_task in E. destruct (tasks s !! theCurrentTask s); [|done]. simpl in E. destruct (tasks s !! t); [|done]. simpl in E.
      destruct (<[_ := _]> (tasks s) !! theCurrentTask s); [|done]. by injection E as <-. }
    intros x [->|Hx]%elem_of_cons; [left|right; by right].
  - destruct (tick_ring s l s' Hr E) as (l' & Hr' & Hp). exists l'. split; [done|]. intros t. by rewrite Hp.
  - unfold sys_exit, task_yield in E. destruct (tick_ring _ l s' (set_state_ring s l _ _ Hr) E) as (l' & Hr' & Hp).
    exists l'. split; [done|]. intros t. by rewrite Hp.
  - exists l. split; [by apply set_state_ring|done].
Qed.

Lemma steps_ring s s' l : ring s l -> rtc sched_step s s' ->
  exists l', ring s' l' /\ (forall t, t ∈ theCurrentTask s :: l -> t ∈ theCurrentTask s' :: l').
Proof.
  intros Hr Hs. revert l Hr. induction Hs as [s|s s1 s' Hstep _ IH]; intros l Hr; [by exists l|].
  destruct (step_ring s s1 l Hr Hstep) as (l1 & Hr1 & Hsub). destruct (IH l1 Hr1) as (l' & Hr' & Hsub'). exists l'. split; [done|]. eauto.
Qed.

(** C14: the scheduler is fair.  After any history of additions of tasks that are
    not in the ring yet, ticks, exits and state changes from [tasks_setup], the
    tasks form one ring; a task of it that is ready runs within as many ticks as
    the ring has tasks, if states do not change meanwhile, and every tick returns.
    A task that is added a second time is not among these histories. *)
Theorem scheduler_fair m d s0 s :
  tasks_setup m d = Some s0 -> d <> 0 -> rtc sched_step s0 s ->
  exists l, ring s l /\ d ∈ theCurrentTask s :: l /\
    forall t, t ∈ theCurrentTask s :: l -> ready s t ->
      exists n s', (n <= length l)%nat /\ ticks n s = Some s' /\ theCurrentTask s' = t.
Proof.
  intros Hset Hd Hsteps. unfold tasks_setup in Hset. destruct (m !! d) as [t0|]; [|done]. simpl in Hset. injection Hset as <-.
  assert (Hr0 : ring (mk_sched (<[d := mk_task (state t0) d]> m) d true) []).
  { split_and!; [done|apply NoDup_singleton|by repeat constructor|simpl; by rewrite lookup_insert_eq]. }
  destruct (steps_ring _ s [] Hr0 Hsteps) as (l & Hr & Hsub).
  exists l. split; [done|]. split; [apply Hsub; left|]. intros t [->|Ht]%elem_of_cons Hrd.
  - exists 0%nat, s. split; [lia|done].
  - apply list_elem_of_split in Ht as (l1 & l2 & ->). destruct (reaches s l1 t l2 Hr Hrd) as (n & s' & Hn & Hs & Hc & _).
    exists n, s'. split; [rewrite length_app; simpl; lia|done].
Qed.

Definition demo_tasks : gmap Z task_struct := <[64 := mk_task TS_READY 0]> {[ 32 := mk_task TS_READY 0 ]}.
Definition demo_s0 : sched := mk_sched (<[32 := mk_task TS_READY 32]> demo_tasks) 32 true.
Definition demo_s1 : sched := Eval vm_compute in default demo_s0 (sched_add_task demo_s0 64).

Lemma demo_ring0 : ring demo_s0 [].
Proof. split_and!; [done|apply NoDup_singleton|by repeat constructor|done]. Qed.

Lemma scheduler_fair_witness :
  ready demo_s1 64 /\
  exists l, ring demo_s1 l /\ 32 ∈ theCurrentTask demo_s1 :: l /\
    forall t, t ∈ theCurrentTask demo_s1 :: l -> ready demo_s1 t ->
      exists n s', (n <= length l)%nat /\ ticks n demo_s1 = Some s' /\ theCurrentTask s' = t.
Proof.
  split; [by vm_compute|]. apply (scheduler_fair demo_tasks 32 demo_s0 demo_s1); [by vm_compute|done|].
  apply rtc_once. apply (step_add demo_s0 [] 64); [apply demo_ring0|done| |by vm_compute].
  intros E%list_elem_of_singleton. done.
Defined.

(** Without a ready task the current one goes on, even after its exit. *)
Lemma exited_task_continues : option_map theCurrentTask (sys_exit demo_s0) = Some 32.
Proof. by vm_compute. Qed.

End TK.
