(* ===== verification/Cpu.v ===== *)
(** * Segments, gates and the descriptor tables (include/arch/i386.h, src/arch/i386.c)

    Module [CPU]: the descriptors as two 32-bit words, the global descriptor
    table and the interrupt descriptor table as the kernel sets them up.  The
    addresses of the entry points in src/arch/intr.S are parameters. *)

From S2P Require Import Prelude.

Module CPU.

Definition PL_KERN : Z := 0.
Definition PL_USER : Z := 3.
Inductive gatetype := GATE_INTR | GATE_TRAP | GATE_CALL.
#[global] Instance gatetype_eq_dec : EqDecision gatetype.
Proof. solve_decision. Defined.

Definition SD_GRAN_4Kb : Z := 1.
Definition SDTP_CODE : Z := 8.
Definition SDTP_CODE_READ : Z := 2.
Definition SDTP_DATA_WRITE : Z := 2.
Definition SD_TYPE_ER_CODE : Z := Z.lor SDTP_CODE SDTP_CODE_READ.
Definition SD_TYPE_RW_DATA : Z := SDTP_DATA_WRITE.
Definition SD_TYPE_LDT : Z := 2.
Definition SD_TYPE_TSS : Z := 9.
Definition SD_TYPE_INTR_GATE : Z := 14.
Definition SD_TYPE_TRAP_GATE : Z := 15.

(** [ints[0]] and [ints[1]]. *)
Definition segment_descriptor : Type := Z * Z.
Definition null_descr : segment_descriptor := (0, 0).

(** ** The fields *)

Definition bits (x lo n : Z) : Z := Z.land (Z.shiftr x lo) (Z.ones n).
Definition limit_l (s : segment_descriptor) : Z := bits s.1 0 16.
Definition base_l (s : segment_descriptor) : Z := bits s.1 16 16.
Definition base_m (s : segment_descriptor) : Z := bits s.2 0 8.
Definition sd_type (s : segment_descriptor) : Z := bits s.2 8 4.
Definition sysbit (s : segment_descriptor) : Z := bits s.2 12 1.
Definition sd_dpl (s : segment_descriptor) : Z := bits s.2 13 2.
Definition mem_present (s : segment_descriptor) : Z := bits s.2 15 1.
Definition limit_h (s : segment_descriptor) : Z := bits s.2 16 4.
Definition digit (s : segment_descriptor) : Z := bits s.2 22 1.
Definition granularity (s : segment_descriptor) : Z := bits s.2 23 1.
Definition base_h (s : segment_descriptor) : Z := bits s.2 24 8.

Definition segdescr_base (s : segment_descriptor) : Z := u32 (Z.lor (Z.lor (Z.shiftl (base_h s) 24) (Z.shiftl (base_m s) 16)) (base_l s)).
Definition segdescr_limit (s : segment_descriptor) : Z := u32 (Z.lor (Z.shiftl (limit_h s) 16) (limit_l s)).

(** ** Making descriptors *)

Definition segdescr_usual_init (type limit base dpl gran : Z) : segment_descriptor :=
  let i0 := u32 (Z.lor (Z.shiftl base 16) (Z.land limit 65535)) in
  let i1 := u32 (Z.lor (Z.lor (Z.lor (Z.land (Z.shiftr base 16) 255) (Z.shiftl type 8)) (Z.shiftl dpl 13)) 36864) in
  (i0, u32 (Z.lor i1 (Z.shiftl (Z.lor (Z.lor (Z.lor (Z.land (Z.shiftr limit 16) 15) (Z.land (Z.shiftr base 16) 65280)) (Z.shiftl gran 7)) 64) 16))).

Definition segdescr_gate_init (slctr addr dpl : Z) (trap : bool) : segment_descriptor :=
  let i0 := u32 (Z.lor (Z.shiftl (u16 slctr) 16) (Z.land addr 65535)) in
  let i1 := u32 (Z.lor (Z.lor (Z.land addr 4294901760) 36352) (Z.shiftl dpl 13)) in
  (i0, if trap then Z.lor i1 256 else i1).

Definition segdescr_taskgate_init (tasksel dpl : Z) : segment_descriptor :=
  (u32 (Z.shiftl (u16 tasksel) 16), u32 (Z.lor 34048 (Z.shiftl dpl 13))).

Definition segdescr_taskstate_init (addr dpl : Z) : segment_descriptor :=
  (u32 (Z.lor 103 (Z.shiftl (Z.land addr 65535) 16)),
   u32 (Z.lor (Z.lor (Z.lor (Z.land addr 4278190080) (Z.land (Z.shiftr addr 16) 255)) 35072) (Z.shiftl (Z.land dpl 3) 13))).

Definition segdescr_taskstate_busy (s : segment_descriptor) (busy_flag : bool) : segment_descriptor :=
  (s.1, if busy_flag then Z.lor s.2 512 else Z.land s.2 (u32 (Z.lnot 512))).

(** ** Selectors *)

Definition SEL_TI_GDT : Z := 0.
Definition make_selector (index ti pl : Z) : Z := Z.shiftl (Z.land index 65535) 3 + Z.shiftl (Z.land ti 1) 2 + Z.land pl 3.
Definition make_segment_selector (index ti pl : Z) : Z := u16 (make_selector index ti pl).
Definition segsel_index (ss : Z) : Z := Z.shiftr ss 3.
Definition rpl (ss : Z) : Z := Z.land (Z.shiftr ss 1) 3.

Definition GDT_KERN_CS : Z := 1.
Definition GDT_KERN_DS : Z := 2.
Definition GDT_USER_CS : Z := 3.
Definition GDT_USER_DS : Z := 4.
Definition GDT_DEF_LDT : Z := 5.
Definition SEL_KERN_CS : Z := make_selector GDT_KERN_CS SEL_TI_GDT PL_KERN.
Definition SEL_KERN_DS : Z := make_selector GDT_KERN_DS SEL_TI_GDT PL_KERN.
Definition SEL_USER_CS : Z := make_selector GDT_USER_CS SEL_TI_GDT PL_USER.
Definition SEL_USER_DS : Z := make_selector GDT_USER_DS SEL_TI_GDT PL_USER.
Definition SEL_DEF_LDT : Z := make_selector GDT_DEF_LDT SEL_TI_GDT PL_USER.

(** ** The global table *)

Definition N_TASKS : Z := 40.
Definition N_GDT : Z := 5 + N_TASKS * 2.

(** The table with the limit loaded with it. *)
Record gdt := mk_gdt { theGDT : list segment_descriptor; gdt_limit : Z }.

Definition gdt_entry_init (index type pl : Z) (t : list segment_descriptor) : list segment_descriptor :=
  <[Z.to_nat index := segdescr_usual_init type 1048575 0 pl SD_GRAN_4Kb]> t.

(** [defLDT] is the address of the default local table. *)
Definition gdt_setup (defLDT : Z) : gdt :=
  let t := replicate (Z.to_nat N_GDT) null_descr in
  let t := gdt_entry_init GDT_KERN_CS SD_TYPE_ER_CODE PL_KERN t in
  let t := gdt_entry_init GDT_KERN_DS SD_TYPE_RW_DATA PL_KERN t in
  let t := gdt_entry_init GDT_USER_CS SD_TYPE_ER_CODE PL_USER t in
  let t := gdt_entry_init GDT_USER_DS SD_TYPE_RW_DATA PL_USER t in
  let t := <[Z.to_nat GDT_DEF_LDT := segdescr_usual_init SD_TYPE_LDT (8 * 2) defLDT PL_USER SD_GRAN_4Kb]> t in
  mk_gdt t N_GDT.

Definition is_null (s : segment_descriptor) : bool := (s.1 =? 0) && (s.2 =? 0).

Fixpoint alloc_loop (k : nat) (t : list segment_descriptor) (i : Z) (entry : segment_descriptor) : list segment_descriptor * Z :=
  match k with
  | O => (t, 0)
  | S k =>
      match t !! Z.to_nat i with
      | Some s => if is_null s then (<[Z.to_nat i := entry]> t, i) else alloc_loop k t (i + 1) entry
      | None => (t, 0)
      end
  end.

(** The index, 0 when the table is full. *)
Definition gdt_alloc_entry (g : gdt) (entry : segment_descriptor) : gdt * Z :=
  let '(t, i) := alloc_loop (Z.to_nat (N_GDT - 1)) (theGDT g) 1 entry in (mk_gdt t (gdt_limit g), i).

(** ** The interrupt table *)

Definition IDT_SIZE : Z := 256.
Definition I8259A_BASE : Z := 32.
Definition SYS_INT : Z := 128.

(** [exceptions[i].type], from 0. *)
Definition exception_types : list gatetype :=
  [GATE_TRAP; GATE_INTR; GATE_INTR; GATE_CALL; GATE_CALL;
   GATE_CALL; GATE_TRAP; GATE_TRAP; GATE_INTR; GATE_INTR;
   GATE_TRAP; GATE_TRAP; GATE_TRAP; GATE_TRAP; GATE_TRAP;
   GATE_TRAP; GATE_TRAP; GATE_TRAP; GATE_INTR; GATE_TRAP].

Section Idt.
(** The entry points of the exceptions and of the interrupt requests by number,
    and the other three. *)
Variables (isr irq_entry : Z -> Z) (isr14to1F dummyentry syscallentry : Z).

Definition gate (type : gatetype) (addr : Z) : segment_descriptor :=
  segdescr_gate_init SEL_KERN_CS (u32 addr) (if decide (type = GATE_CALL) then PL_USER else PL_KERN) (if decide (type = GATE_TRAP) then true else false).
Definition idt_set_gate (t : list segment_descriptor) (index : Z) (type : gatetype) (addr : Z) : list segment_descriptor :=
  <[Z.to_nat index := gate type addr]> t.

Fixpoint set_gates_loop (k : nat) (t : list segment_descriptor) (i : Z) (type : gatetype) (addr : Z) : list segment_descriptor :=
  match k with O => t | S k => set_gates_loop k (idt_set_gate t i type addr) (i + 1) type addr end.
Definition idt_set_gates (t : list segment_descriptor) (start end_ : Z) (type : gatetype) (addr : Z) : list segment_descriptor :=
  set_gates_loop (Z.to_nat (end_ - start)) t start type addr.

Fixpoint exceptions_loop (l : list gatetype) (t : list segment_descriptor) (i : Z) : list segment_descriptor :=
  match l with [] => t | type :: l => exceptions_loop l (idt_set_gate t i type (isr i)) (i + 1) end.

Fixpoint irqs_loop (k : nat) (t : list segment_descriptor) (i : Z) : list segment_descriptor :=
  match k with O => t | S k => irqs_loop k (idt_set_gate t (i + I8259A_BASE) GATE_INTR (irq_entry i)) (i + 1) end.

Definition idt_setup (t : list segment_descriptor) : list segment_descriptor :=
  let t := exceptions_loop exception_types t 0 in
  let t := idt_set_gates t 20 32 GATE_INTR isr14to1F in
  let t := idt_set_gates t 32 256 GATE_CALL dummyentry in
  let t := irqs_loop 16 t 0 in
  idt_set_gate t SYS_INT GATE_CALL syscallentry.

End Idt.

End CPU.
