(* ===== verification/CpuProofs.v ===== *)
(** * The descriptor tables: what the processor finds in them

    Module [CPUP]: the fields of the descriptors that Cpu.v builds, the gates of
    the interrupt table, the segments of the global table, and its free
    entries. *)

From S2P Require Import Prelude Cpu.

Module CPUP.
Import CPU.

(** ** Bit fields *)

Lemma testbit_high x n i : 0 <= x < 2 ^ n -> 0 <= n <= i -> Z.testbit x i = false.
Proof. intros Hx Hn. rewrite <- (Z.mod_small x (2 ^ n)) by done. apply Z.mod_pow2_bits_high. lia. Qed.

Lemma u32_testbit x i : Z.testbit (u32 x) i = (i <? 32) && Z.testbit x i.
Proof.
  unfold u32. destruct (Z.ltb_spec i 32); [|by rewrite Z.mod_pow2_bits_high by lia]. destruct (Z.leb_spec 0 i); [by rewrite Z.mod_pow2_bits_low by lia|]. by rewrite !Z.testbit_neg_r by lia.
Qed.

Lemma u16_testbit x i : Z.testbit (u16 x) i = (i <? 16) && Z.testbit x i.
Proof.
  unfold u16. destruct (Z.ltb_spec i 16); [|by rewrite Z.mod_pow2_bits_high by lia]. destruct (Z.leb_spec 0 i); [by rewrite Z.mod_pow2_bits_low by lia|]. by rewrite !Z.testbit_neg_r by lia.
Qed.

Lemma bits_testbit x lo n i : 0 <= n -> 0 <= i -> Z.testbit (bits x lo n) i = (i <? n) && Z.testbit x (i + lo).
Proof.
  intros Hn Hi. unfold bits. rewrite Z.land_spec, Z.shiftr_spec by done. destruct (Z.ltb_spec i n); [by rewrite Z.ones_spec_low, andb_true_r by lia|]. by rewrite Z.ones_spec_high, andb_false_r by lia.
Qed.

Lemma bits_inj32 x y : (forall i, 32 <= i -> Z.testbit x i = Z.testbit y i) -> Forall (fun i => Z.testbit x i = Z.testbit y i) (seqZ 0 32) -> x = y.
Proof.
  intros Hhi Hlo. apply Z.bits_inj'. intros i Hi. destruct (decide (i < 32)); [|apply Hhi; lia]. rewrite Forall_forall in Hlo. apply Hlo. apply elem_of_seqZ. lia.
Qed.

(** A field of [n] bits. *)
Definition small_field (x n : Z) : Prop := forall j, n <= j -> Z.testbit x j = false.
Lemma field_small x n : 0 <= n -> 0 <= x < 2 ^ n -> small_field x n.
Proof. intros Hn Hx j Hj. by apply (testbit_high x n). Qed.

Ltac push_testbit := repeat first
  [ rewrite u32_testbit | rewrite u16_testbit | rewrite Z.land_spec | rewrite Z.lor_spec | rewrite Z.shiftl_spec by lia | rewrite Z.shiftr_spec by lia | rewrite bits_testbit by lia
  | rewrite Z.lnot_spec by lia ].
Ltac is_number c := lazymatch c with Z0 => idtac | Zpos _ => idtac | Zneg _ => idtac end.
Ltac closed_testbit := repeat match goal with
  | |- context [Z.testbit ?c ?j] => lazymatch j with Z.add _ _ => idtac | Z.sub _ _ => idtac end; let v := eval cbv in j in is_number v; change j with v
  | |- context [?a <? ?b] => let v := eval cbv in (a <? b) in lazymatch v with true => idtac | false => idtac end; change (a <? b) with v
  | |- context [Z.testbit ?c ?j] => is_number c; is_number j; let v := eval cbv in (Z.testbit c j) in change (Z.testbit c j) with v
  end.
(** Equality of 32-bit words, bit by bit. *)
Ltac one_bit :=
  repeat (progress (push_testbit; closed_testbit; repeat match goal with |- context [Z.testbit ?c (Zneg ?p)] => rewrite (Z.testbit_neg_r c (Zneg p)) by lia end));
  repeat match goal with H : small_field ?x _ |- context [Z.testbit ?x ?j] => rewrite (H j) by lia end;
  cbn [andb orb negb]; rewrite ?andb_true_r, ?andb_false_r, ?orb_false_r, ?orb_true_r; try done.
Ltac all_bits n := let l := eval vm_compute in (seqZ 0 n) in change (seqZ 0 n) with l; repeat (apply Forall_cons_2; [one_bit|]); apply Forall_nil_2.
Ltac word_bits :=
  apply bits_inj32;
  [ let i := fresh "i" in let Hi := fresh "Hi" in intros i Hi; rewrite ?Z.lor_spec, ?Z.land_spec, ?u32_testbit, ?u16_testbit, ?bits_testbit by lia; rewrite ?(proj2 (Z.ltb_ge i _)) by lia;
    repeat match goal with H : in_u32 ?a |- context [Z.testbit ?a i] => rewrite (testbit_u32_high a i H) by lia end;
    repeat match goal with |- context [Z.testbit (Zpos ?c) i] => rewrite (testbit_u32_high (Zpos c) i) by (unfold in_u32; lia) end;
    repeat match goal with H : small_field ?x _ |- context [Z.testbit ?x ?j] => rewrite (H j) by lia end; rewrite ?Z.testbit_0_l; cbn [andb orb]; rewrite ?andb_false_r; try done
  | all_bits 32 ].

Lemma bits_eq x lo n v : 0 <= n -> small_field v n -> Forall (fun i => Z.testbit (bits x lo n) i = Z.testbit v i) (seqZ 0 n) -> bits x lo n = v.
Proof.
  intros Hn Hv Hlo. apply Z.bits_inj'. intros i Hi. destruct (decide (i < n)); [rewrite Forall_forall in Hlo; apply Hlo, elem_of_seqZ; lia|].
  rewrite bits_testbit, (Hv i) by lia. by rewrite (proj2 (Z.ltb_ge i n)) by lia.
Qed.
(** Equality of a field with a small value. *)
Ltac field_bits := lazymatch goal with |- bits ?x ?lo ?n = ?v => apply bits_eq; [lia|first [assumption|apply field_small; [lia|cbv; split; [discriminate|reflexivity]]]|all_bits n] end.

(** What the processor reads from a gate. *)
Definition gate_selector (s : segment_descriptor) : Z := base_l s.
Definition gate_offset (s : segment_descriptor) : Z := Z.lor (limit_l s) (Z.land s.2 4294901760).

Ltac fields := unfold segdescr_base, segdescr_limit, segdescr_usual_init, segdescr_taskstate_init, segdescr_gate_init, gate_selector, gate_offset, base_h, base_m, base_l, limit_l, limit_h, sd_type, sysbit, sd_dpl, mem_present, granularity; cbn [fst snd].

Lemma taskstate_fields addr dpl : in_u32 addr -> small_field dpl 2 ->
  let s := segdescr_taskstate_init addr dpl in
  segdescr_base s = addr /\ segdescr_limit s = 103 /\ sd_type s = SD_TYPE_TSS /\ sysbit s = 0 /\ sd_dpl s = dpl /\ mem_present s = 1.
Proof. intros Ha Hd. cbv zeta. unfold SD_TYPE_TSS. fields. repeat split; first [field_bits|word_bits]. Qed.

Lemma usual_fields type limit base dpl gran : in_u32 base -> small_field type 4 -> small_field limit 20 -> small_field dpl 2 -> small_field gran 1 ->
  let s := segdescr_usual_init type limit base dpl gran in
  segdescr_base s = base /\ segdescr_limit s = limit /\ sd_type s = type /\ sysbit s = 1 /\ sd_dpl s = dpl /\ mem_present s = 1 /\ granularity s = gran.
Proof. intros Hb Ht Hl Hd Hg. cbv zeta. fields. repeat split; first [field_bits|word_bits]. Qed.


(** ** The tables *)







(** ** Entries of the global table *)

(** The first free entry from 1 on, or 0. *)
Lemma alloc_loop_spec k : forall t i entry, 0 <= i -> (Z.to_nat i + k = length t)%nat ->
  (exists j, i <= j < i + Z.of_nat k /\ alloc_loop k t i entry = (<[Z.to_nat j := entry]> t, j) /\ (exists s, t !! Z.to_nat j = Some s /\ is_null s = true) /\
     forall x, i <= x < j -> exists s, t !! Z.to_nat x = Some s /\ is_null s = false) \/
  (alloc_loop k t i entry = (t, 0) /\ forall x, i <= x < i + Z.of_nat k -> exists s, t !! Z.to_nat x = Some s /\ is_null s = false).
Proof.
  induction k as [|k IH]; intros t i entry Hi Hl; cbn [alloc_loop]; [right; split; [done|lia]|]. destruct (lookup_lt_is_Some_2 t (Z.to_nat i) ltac:(lia)) as [s Hs]. rewrite Hs. destruct (is_null s) eqn:En.
  - left. exists i. split; [lia|]. split; [done|]. split; [by exists s|lia].
  - destruct (IH t (i + 1) entry ltac:(lia) ltac:(lia)) as [(j & Hj & E & Hn & Hx)|(E & Hx)].
    + left. exists j. split; [lia|]. split; [done|]. split; [done|]. intros x Hxx. destruct (decide (x = i)) as [->|]; [by exists s|]. apply Hx. lia.
    + right. split; [done|]. intros x Hxx. destruct (decide (x = i)) as [->|]; [by exists s|]. apply Hx. lia.
Qed.

Lemma gdt_alloc_spec g entry : length (theGDT g) = Z.to_nat N_GDT ->
  (exists j, 1 <= j < N_GDT /\ gdt_alloc_entry g entry = (mk_gdt (<[Z.to_nat j := entry]> (theGDT g)) (gdt_limit g), j) /\ exists s, theGDT g !! Z.to_nat j = Some s /\ is_null s = true) \/
  (gdt_alloc_entry g entry = (g, 0) /\ forall x, 1 <= x < N_GDT -> exists s, theGDT g !! Z.to_nat x = Some s /\ is_null s = false).
Proof.
  intros Hl. unfold gdt_alloc_entry. destruct (alloc_loop_spec (Z.to_nat (N_GDT - 1)) (theGDT g) 1 entry) as [(j & Hj & -> & Hn & _)|(-> & Hx)]; [lia|unfold N_GDT, N_TASKS in *; lia| |].
  - left. exists j. split; [unfold N_GDT, N_TASKS in *; lia|]. by split.
  - right. split; [by destruct g|]. intros x Hxx. apply Hx. unfold N_GDT, N_TASKS in *. lia.
Qed.







(** ** Defects the model shows *)

(** The limit is the number of entries, where the processor takes it for the
    offset of the last byte: the entries from 10 on are outside the table. *)
Definition in_limit (g : gdt) (index : Z) : bool := 8 * index + 7 <=? gdt_limit g.
Lemma gdt_limit_ten defLDT index : in_limit (gdt_setup defLDT) index = (index <? 10).
Proof. unfold in_limit. cbn [gdt_limit gdt_setup N_GDT N_TASKS]. destruct (Z.ltb_spec index 10); [apply Z.leb_le|apply Z.leb_gt]; unfold N_GDT, N_TASKS; lia. Qed.

(** The descriptor of the local table is that of a data segment. *)
Lemma ldt_is_data_segment defLDT : in_u32 defLDT -> exists s, theGDT (gdt_setup defLDT) !! Z.to_nat GDT_DEF_LDT = Some s /\ sysbit s = 1 /\ sd_type s = SD_TYPE_RW_DATA.
Proof.
  intros H. eexists. split; [reflexivity|]. destruct (usual_fields SD_TYPE_LDT (8 * 2) defLDT PL_USER SD_GRAN_4Kb H) as (_ & _ & E1 & E2 & _); [apply field_small; [lia|by vm_compute]..|]. by split.
Qed.

(** The macro for the privilege level of a selector takes the wrong bits. *)
Lemma rpl_wrong : rpl SEL_USER_CS = 1 /\ Z.land SEL_USER_CS 3 = PL_USER.
Proof. done. Qed.

End CPUP.
