(* ===== verification/Context.v ===== *)
(** * Contexts of tasks (src/core/tasks.c, include/tasks.h, src/arch/intr.S)

    Module [CX]: the registers, the frame that an interrupt leaves on the kernel
    stack of the task it interrupts, saving and loading contexts, the start of a
    task, and the whole of a timer tick: entering, switching, leaving.  Stacks
    are words in memory; the other side of the switch, which task comes next, is
    the scheduler of Tasks.v.  [None] is a panic, a fault of the processor, or a
    task that is not there. *)

From S2P Require Import Prelude Cpu Tasks.

Module CX.
Import CPU.

Definition CONTEXT_SIZE : Z := 48.
Definition EFL_RSRVD : Z := 2.
Definition EFL_IF : Z := 512.

(** What a program sees of the processor. *)
Record regs := mk_regs {
  eax : Z; ecx : Z; edx : Z; ebx : Z; ebp : Z; esi : Z; edi : Z;
  ds : Z; es : Z; fs : Z; gs : Z;
  eip : Z; cs : Z; eflags : Z; esp : Z; ss : Z }.

Record tss_t := mk_tss {
  t_esp0 : Z; t_ss0 : Z; t_cr3 : Z; t_eip : Z; t_eflags : Z; t_esp : Z;
  t_es : Z; t_cs : Z; t_ss : Z; t_ds : Z; t_fs : Z; t_gs : Z; t_ldt : Z; io_map_addr : Z; io_map1 : Z; io_map2 : Z }.

(** The segment of a task is its first field: a task and its segment have one
    address. *)
Record ktask := mk_ktask { tss : tss_t; tss_index : Z }.

Definition set_esp0 (t : ktask) (v : Z) : ktask :=
  let s := tss t in
  mk_ktask (mk_tss v (t_ss0 s) (t_cr3 s) (t_eip s) (t_eflags s) (t_esp s) (t_es s) (t_cs s) (t_ss s) (t_ds s) (t_fs s) (t_gs s) (t_ldt s) (io_map_addr s) (io_map1 s) (io_map2 s)) (tss_index t).

Record machine := mk_m {
  mem : wmem; ktasks : gmap Z ktask; sched : TK.sched; the_gdt : gdt;
  r : regs; tr : Z; cr3 : Z; context_esp : Z; switch_to_esp : Z }.

Definition set_mem (m : machine) (x : wmem) : machine := mk_m x (ktasks m) (sched m) (the_gdt m) (r m) (tr m) (cr3 m) (context_esp m) (switch_to_esp m).
Definition set_ktasks (m : machine) (x : gmap Z ktask) : machine := mk_m (mem m) x (sched m) (the_gdt m) (r m) (tr m) (cr3 m) (context_esp m) (switch_to_esp m).
Definition set_sched (m : machine) (x : TK.sched) : machine := mk_m (mem m) (ktasks m) x (the_gdt m) (r m) (tr m) (cr3 m) (context_esp m) (switch_to_esp m).
Definition set_gdt (m : machine) (x : gdt) : machine := mk_m (mem m) (ktasks m) (sched m) x (r m) (tr m) (cr3 m) (context_esp m) (switch_to_esp m).
Definition set_r (m : machine) (x : regs) : machine := mk_m (mem m) (ktasks m) (sched m) (the_gdt m) x (tr m) (cr3 m) (context_esp m) (switch_to_esp m).
Definition set_tr (m : machine) (x : Z) : machine := mk_m (mem m) (ktasks m) (sched m) (the_gdt m) (r m) x (cr3 m) (context_esp m) (switch_to_esp m).
Definition set_cr3 (m : machine) (x : Z) : machine := mk_m (mem m) (ktasks m) (sched m) (the_gdt m) (r m) (tr m) x (context_esp m) (switch_to_esp m).
Definition set_context (m : machine) (c s : Z) : machine := mk_m (mem m) (ktasks m) (sched m) (the_gdt m) (r m) (tr m) (cr3 m) c s.

(** ** Entering and leaving an interrupt *)

(** The words at an address and above it. *)
Fixpoint put_words (m : wmem) (a : Z) (l : list Z) : wmem := match l with [] => m | v :: l => put_words (<[a := v]> m) (a + 4) l end.

Definition from_user (x : regs) : bool := negb (Z.land (cs x) 3 =? 0).

(** The frame from its lowest word: the segments, PUSHA, and what the processor
    pushes itself, with the stack when it comes from user mode. *)
Definition frame_words (x : regs) (esp_now : Z) : list Z :=
  [fs x; gs x; es x; ds x; edi x; esi x; ebp x; esp_now; ebx x; edx x; ecx x; eax x; eip x; cs x; eflags x] ++ (if from_user x then [esp x; ss x] else []).

(** The stack that the processor pushes to: in user mode [esp0] of the segment
    that the task register selects. *)
Definition intr_stack (m : machine) : option Z :=
  if from_user (r m) then
    s ← theGDT (the_gdt m) !! Z.to_nat (segsel_index (tr m));
    t ← ktasks m !! segdescr_base s;
    Some (t_esp0 (tss t))
  else Some (esp (r m)).

(** The registers that the handler is called with, its address apart: the
    segments go through [%dx], and [%esi] points behind what PUSHA and the
    segments took. *)
Definition in_handler (x : regs) (sp : Z) : regs :=
  mk_regs (eax x) (ecx x) (Z.lor (Z.land (edx x) 4294901760) SEL_KERN_DS) (ebx x) (ebp x) (sp + CONTEXT_SIZE) (edi x) SEL_KERN_DS SEL_KERN_DS SEL_KERN_DS SEL_KERN_DS (eip x) SEL_KERN_CS (Z.land (eflags x) (Z.lnot EFL_IF)) sp SEL_KERN_DS.

Definition intr_enter (m : machine) : option machine :=
  top ← intr_stack m;
  let n := Z.of_nat (length (frame_words (r m) 0)) in
  let ctx := top - 4 * n in
  let m' := set_mem m (put_words (mem m) ctx (frame_words (r m) (ctx + CONTEXT_SIZE))) in
  Some (set_context (set_r m' (in_handler (r m) ctx)) ctx 0).

(** What is popped from a frame. *)
Definition read_frame (m : wmem) (c : Z) : regs :=
  let w i := ld m (c + 4 * i) in
  let user := negb (Z.land (w 13) 3 =? 0) in
  mk_regs (w 11) (w 10) (w 9) (w 8) (w 6) (w 5) (w 4) (w 3) (w 2) (w 0) (w 1) (w 12) (w 13) (w 14) (if user then w 15 else c + 60) (if user then w 16 else SEL_KERN_DS).

Definition intr_end (m : machine) : machine :=
  let c := if switch_to_esp m =? 0 then context_esp m else switch_to_esp m in
  set_context (set_r m (read_frame (mem m) c)) 0 (switch_to_esp m).

(** ** Contexts *)

Definition task_sysinfo_size (t : ktask) : Z := if t_cs (tss t) =? SEL_KERN_CS then 3 else 5.

Definition task_save_context (m : machine) (task : Z) : option machine :=
  if task =? 0 then Some m
  else if context_esp m =? 0 then None
  else
    t ← ktasks m !! task;
    Some (set_ktasks m (<[task := set_esp0 t (u32 (context_esp m + CONTEXT_SIZE + task_sysinfo_size t * 4))]> (ktasks m))).

Definition task_push_context (m : machine) (task : Z) : option machine :=
  t ← ktasks m !! task;
  let iret_stack := t_esp0 (tss t) - 4 * task_sysinfo_size t in
  let m := set_mem m (<[iret_stack + 8 := Z.lor (ld (mem m) (iret_stack + 8)) EFL_IF]> (mem m)) in
  Some (set_context m (context_esp m) (iret_stack - CONTEXT_SIZE)).

(** LTR: an entry inside the table with the descriptor of a task segment that
    is not busy; it becomes busy. *)
Definition i386_load_task_reg (m : machine) (sel : Z) : option machine :=
  let index := segsel_index sel in
  if negb (8 * index + 7 <=? gdt_limit (the_gdt m)) then None
  else
    s ← theGDT (the_gdt m) !! Z.to_nat index;
    if negb ((sd_type s =? SD_TYPE_TSS) && (sysbit s =? 0) && (mem_present s =? 1)) then None
    else Some (set_tr (set_gdt m (mk_gdt (<[Z.to_nat index := segdescr_taskstate_busy s true]> (theGDT (the_gdt m))) (gdt_limit (the_gdt m)))) sel).

Definition task_cpu_load (m : machine) (task : Z) : option machine :=
  t ← ktasks m !! task;
  s ← theGDT (the_gdt m) !! Z.to_nat (tss_index t);
  let m := set_gdt m (mk_gdt (<[Z.to_nat (tss_index t) := segdescr_taskstate_busy s false]> (theGDT (the_gdt m))) (gdt_limit (the_gdt m))) in
  let pl := if t_cs (tss t) =? SEL_KERN_CS then PL_KERN else PL_USER in
  m ← i386_load_task_reg m (make_segment_selector (tss_index t) SEL_TI_GDT pl);
  Some (set_cr3 m (t_cr3 (tss t))).

(** The handler of the timer's tick. *)
Definition task_timer_handler (m : machine) : option machine :=
  if negb (TK.sched_set (sched m)) then Some m
  else
    next ← TK.the_scheduler (sched m);
    if next =? 0 then Some m
    else
      m ← task_save_context m (TK.theCurrentTask (sched m));
      m ← task_cpu_load m next;
      m ← task_push_context m next;
      Some (set_sched m (TK.mk_sched (TK.tasks (sched m)) next (TK.sched_set (sched m)))).

(** A tick from the interrupt to the return from it. *)
Definition tick (m : machine) : option machine :=
  m ← intr_enter m;
  m ← task_timer_handler m;
  Some (intr_end m).

(** ** New tasks *)

(** The stack as if the task was interrupted. *)
Definition init_stack (mm : wmem) (entry esp0 esp3 cs ds : Z) : wmem :=
  let stack := esp0 - 4 * (if cs =? SEL_KERN_CS then 3 else 5) in
  let mm := put_words mm stack ([entry; cs; Z.lor EFL_RSRVD EFL_IF] ++ if cs =? SEL_KERN_CS then [] else [esp3; ds]) in
  put_words mm (stack - CONTEXT_SIZE) [ds; ds; ds; ds].

(** [TK.tasks] holds the state and the link of the task, which becomes
    [TS_READY] when its segment has got an entry of the table. *)
Definition task_init (m : machine) (task entry esp0 esp3 cs ds : Z) : machine :=
  let tss := mk_tss esp0 SEL_KERN_DS 0 entry (Z.lor EFL_RSRVD EFL_IF) esp3 ds cs ds ds ds ds SEL_DEF_LDT 100 4294967295 4294967295 in
  let m := set_mem m (init_stack (mem m) entry esp0 esp3 cs ds) in
  let '(g, i) := gdt_alloc_entry (the_gdt m) (segdescr_taskstate_init task PL_KERN) in
  let m := set_gdt (set_ktasks m (<[task := mk_ktask tss i]> (ktasks m))) g in
  if i =? 0 then m
  else set_sched m (TK.set_state (sched m) task TK.TS_READY).

Definition task_kthread_init (m : machine) (ktask entry k_esp : Z) : machine :=
  task_init m ktask entry k_esp k_esp SEL_KERN_CS SEL_KERN_DS.

Definition set_pagedir (m : machine) (task pagedir : Z) : machine :=
  set_ktasks m (alter (fun t => let s := tss t in mk_ktask (mk_tss (t_esp0 s) (t_ss0 s) pagedir (t_eip s) (t_eflags s) (t_esp s) (t_es s) (t_cs s) (t_ss s) (t_ds s) (t_fs s) (t_gs s) (t_ldt s) (io_map_addr s) (io_map1 s) (io_map2 s)) (tss_index t)) task (ktasks m)).

Definition set_eip (t : ktask) (v : Z) : ktask :=
  let s := tss t in
  mk_ktask (mk_tss (t_esp0 s) (t_ss0 s) (t_cr3 s) v (t_eflags s) (t_esp s) (t_es s) (t_cs s) (t_ss s) (t_ds s) (t_fs s) (t_gs s) (t_ldt s) (io_map_addr s) (io_map1 s) (io_map2 s)) (tss_index t).

(** What [i386_iret] leaves in the registers; [sp] is the stack of the caller,
    which a return in kernel mode keeps. *)
Definition i386_iret (x : regs) (eip3 cs3 eflags esp3 ss3 sp : Z) : regs :=
  let user := negb (Z.land cs3 3 =? 0) in
  mk_regs (Z.lor (Z.land (eax x) 4294901760) 35) (ecx x) (edx x) (ebx x) (ebp x) (esi x) (edi x) 35 35 35 35 eip3 cs3 eflags (if user then esp3 else sp) (if user then ss3 else SEL_KERN_DS).

(** The first task, alone in its ring; [entry] is the entry point that its
    record names. *)
Definition tasks_setup (m : machine) (default_task entry sp : Z) : option machine :=
  t ← ktasks m !! default_task;
  let t := if t_eip (tss t) =? 0 then set_eip t entry else t in
  let m := set_ktasks m (<[default_task := t]> (ktasks m)) in
  s ← TK.tasks_setup (TK.tasks (sched m)) default_task;
  m ← task_cpu_load (set_sched m s) default_task;
  Some (set_r m (i386_iret (r m) (t_eip (tss t)) (t_cs (tss t)) (t_eflags (tss t)) (t_esp (tss t)) (t_ss (tss t)) sp)).

(** A task that joins the others: its record, its segment and stack, its address
    space, and its place in the ring, as [run_init] does it. *)
Definition start_task (m : machine) (task entry esp0 esp3 cs ds pagedir : Z) : option machine :=
  let m := set_sched m (TK.mk_sched (<[task := TK.mk_task TK.TS_READY 0]> (TK.tasks (sched m))) (TK.theCurrentTask (sched m)) (TK.sched_set (sched m))) in
  let m := set_pagedir (task_init m task entry esp0 esp3 cs ds) task pagedir in
  s ← TK.sched_add_task (sched m) task;
  Some (set_sched m s).

End CX.
