(* ===== verification/ContextProofs.v ===== *)
(** * Switching tasks: every task goes on where it was interrupted

    Module [CXP]: frames written and read back, the invariant that ties the
    kernel stacks of the waiting tasks to the registers they had, and the
    refinement of the switch to a machine in which every task has registers of
    its own. *)

From S2P Require Import Prelude Cpu CpuProofs Tasks Context.

Module CXP.
Import CPU CPUP CX.

(** ** Frames *)

Lemma put_words_out l : forall m a b, b < a \/ a + 4 * Z.of_nat (length l) <= b -> ld (put_words m a l) b = ld m b.
Proof.
  induction l as [|v l IH]; intros m a b H; cbn [put_words length] in *; [done|]. rewrite IH by lia. unfold ld. by rewrite lookup_insert_ne by lia.
Qed.

Lemma put_words_in l : forall m a i v, l !! i = Some v -> ld (put_words m a l) (a + 4 * Z.of_nat i) = v.
Proof.
  induction l as [|w l IH]; intros m a [|i] v E; cbn [put_words] in *; try done.
  - injection E as ->. rewrite put_words_out by lia. rewrite Z.add_0_r. unfold ld. by rewrite lookup_insert_eq.
  - specialize (IH (<[a:=w]> m) (a + 4) i v E). by replace (a + 4 * Z.of_nat (S i)) with (a + 4 + 4 * Z.of_nat i) by lia.
Qed.

Lemma read_frame_ext m m' c : (forall a, c <= a < c + 68 -> ld m' a = ld m a) -> read_frame m' c = read_frame m c.
Proof. intros H. unfold read_frame. by rewrite !H by lia. Qed.

(** In kernel mode the stack goes on above the frame. *)
Definition kernel_stack_ok (x : regs) (c : Z) : Prop := from_user x = false -> esp x = c + 60 /\ ss x = SEL_KERN_DS.

Lemma read_frame_put m c x e : kernel_stack_ok x c -> read_frame (put_words m c (frame_words x e)) c = x.
Proof.
  intros Hk. assert (E : forall i v, 0 <= i -> frame_words x e !! Z.to_nat i = Some v -> ld (put_words m c (frame_words x e)) (c + 4 * i) = v) by (intros i v Hi Hv; pose proof (put_words_in _ m c _ _ Hv) as E; by rewrite Z2Nat.id in E).
  set (m' := put_words _ _ _) in *. assert (E13 : ld m' (c + 4 * 13) = cs x) by exact (E 13 _ ltac:(lia) eq_refl). unfold read_frame. rewrite E13. fold (from_user x).
  rewrite (E 0 _ ltac:(lia) eq_refl), (E 1 _ ltac:(lia) eq_refl), (E 2 _ ltac:(lia) eq_refl), (E 3 _ ltac:(lia) eq_refl), (E 4 _ ltac:(lia) eq_refl), (E 5 _ ltac:(lia) eq_refl), (E 6 _ ltac:(lia) eq_refl), (E 8 _ ltac:(lia) eq_refl), (E 9 _ ltac:(lia) eq_refl), (E 10 _ ltac:(lia) eq_refl), (E 11 _ ltac:(lia) eq_refl), (E 12 _ ltac:(lia) eq_refl), (E 14 _ ltac:(lia) eq_refl).
  destruct (from_user x) eqn:Eu.
  - rewrite (E 15 (esp x)), (E 16 (ss x)) by (try lia; unfold frame_words; by rewrite Eu). by destruct x.
  - destruct (Hk Eu) as [<- <-]. by destruct x.
Qed.

Definition set_if (x : regs) : regs :=
  mk_regs (eax x) (ecx x) (edx x) (ebx x) (ebp x) (esi x) (edi x) (ds x) (es x) (fs x) (gs x) (eip x) (cs x) (Z.lor (eflags x) EFL_IF) (esp x) (ss x).

Lemma read_frame_if m c : read_frame (<[c + 56 := Z.lor (ld m (c + 56)) EFL_IF]> m) c = set_if (read_frame m c).
Proof.
  assert (Hne : forall i, i <> 14 -> ld (<[c + 56 := Z.lor (ld m (c + 56)) EFL_IF]> m) (c + 4 * i) = ld m (c + 4 * i)) by (intros i Hi; unfold ld at 1; by rewrite lookup_insert_ne by lia).
  unfold read_frame, set_if. rewrite (Hne 0), (Hne 1), (Hne 2), (Hne 3), (Hne 4), (Hne 5), (Hne 6), (Hne 8), (Hne 9), (Hne 10), (Hne 11), (Hne 12), (Hne 13), (Hne 15), (Hne 16) by done. cbn [eax ecx edx ebx ebp esi edi ds es fs gs eip cs eflags esp ss]. f_equal. replace (c + 4 * 14) with (c + 56) by lia. unfold ld at 1. by rewrite lookup_insert_eq.
Qed.

Lemma set_if_id x : Z.testbit (eflags x) 9 = true -> set_if x = x.
Proof.
  intros H. destruct x. unfold set_if. cbn [eax ecx edx ebx ebp esi edi ds es fs gs eip cs eflags esp ss] in *. f_equal. apply Z.bits_inj'. intros i Hi. rewrite Z.lor_spec. change EFL_IF with (2 ^ 9). rewrite Z.pow2_bits_eqb by lia. destruct (Z.eqb_spec 9 i) as [<-|]; [by rewrite H|by rewrite orb_false_r].
Qed.

(** ** Task segments *)

Lemma busy_bit s b i : in_u32 s.2 -> 0 <= i -> i <> 9 -> Z.testbit (segdescr_taskstate_busy s b).2 i = Z.testbit s.2 i.
Proof.
  intros Hs Hi Hne. unfold segdescr_taskstate_busy. cbn [snd]. destruct b.
  - rewrite Z.lor_spec. change 512 with (2 ^ 9). rewrite Z.pow2_bits_eqb by lia. by rewrite (proj2 (Z.eqb_neq 9 i)), orb_false_r by lia.
  - rewrite Z.land_spec, u32_testbit, Z.lnot_spec by done. change 512 with (2 ^ 9). rewrite Z.pow2_bits_eqb by lia. rewrite (proj2 (Z.eqb_neq 9 i)) by lia. cbn [negb]. rewrite andb_true_r.
    destruct (Z.ltb_spec i 32); [by rewrite andb_true_r|]. by rewrite (testbit_u32_high s.2 i Hs) by lia.
Qed.

Lemma busy_bit9 s b : Z.testbit (segdescr_taskstate_busy s b).2 9 = b.
Proof. unfold segdescr_taskstate_busy. cbn [snd]. destruct b; [rewrite Z.lor_spec; by rewrite orb_true_r|rewrite Z.land_spec, u32_testbit; apply andb_false_r]. Qed.

Lemma busy_bits s b lo n : in_u32 s.2 -> 0 <= lo -> 0 <= n -> lo + n <= 9 \/ 10 <= lo -> bits (segdescr_taskstate_busy s b).2 lo n = bits s.2 lo n.
Proof.
  intros Hs Hlo Hn H. apply Z.bits_inj'. intros i Hi. rewrite !bits_testbit by done. destruct (Z.ltb_spec i n); [|done]. cbn [andb]. apply busy_bit; [done|lia|lia].
Qed.

Lemma busy_u32 s b : in_u32 s.2 -> in_u32 (segdescr_taskstate_busy s b).2.
Proof.
  intros Hs. assert (E : u32 (segdescr_taskstate_busy s b).2 = (segdescr_taskstate_busy s b).2); [|rewrite <- E; apply u32_range].
  apply Z.bits_inj'. intros i Hi. rewrite u32_testbit. destruct (Z.ltb_spec i 32); [done|]. cbn [andb]. rewrite busy_bit by (done || lia). by rewrite testbit_u32_high by (done || lia).
Qed.

(** A descriptor of the task segment at [t], busy or not. *)
Definition tss_descr (s : segment_descriptor) (t : Z) : Prop :=
  in_u32 s.2 /\ segdescr_base s = t /\ sysbit s = 0 /\ mem_present s = 1 /\ Z.testbit s.2 8 = true /\ Z.testbit s.2 10 = false /\ Z.testbit s.2 11 = true.

Lemma busy_descr s b t : tss_descr s t -> tss_descr (segdescr_taskstate_busy s b) t.
Proof.
  intros (H1 & H2 & H3 & H4 & H5 & H6 & H7). split; [by apply busy_u32|]. split; [|split; [|split; [|split; [|split]]]].
  - rewrite <- H2. unfold segdescr_base, base_h, base_m, base_l. by rewrite !busy_bits by (done || lia).
  - rewrite <- H3. apply busy_bits; (done || lia).
  - rewrite <- H4. apply busy_bits; (done || lia).
  - by rewrite busy_bit by (done || lia).
  - by rewrite busy_bit by (done || lia).
  - by rewrite busy_bit by (done || lia).
Qed.

Lemma busy_type s t : tss_descr s t -> sd_type (segdescr_taskstate_busy s false) = SD_TYPE_TSS.
Proof.
  intros (H1 & _ & _ & _ & H5 & H6 & H7). unfold sd_type, SD_TYPE_TSS. apply bits_eq; [lia|apply field_small; [lia|cbv; split; [discriminate|reflexivity]]|].
  change (seqZ 0 4) with [0; 1; 2; 3]. repeat (apply Forall_cons_2; [rewrite bits_testbit by lia; cbn [andb Z.ltb Z.compare Z.add Pos.compare Pos.compare_cont Pos.add Pos.succ]; first [rewrite busy_bit9; reflexivity|rewrite busy_bit by (done || lia); done]|]). apply Forall_nil_2.
Qed.

Lemma init_descr t : in_u32 t -> tss_descr (segdescr_taskstate_init t PL_KERN) t.
Proof.
  intros Ht. destruct (taskstate_fields t PL_KERN Ht) as (E1 & _ & E3 & E4 & _ & E6); [apply field_small; [lia|cbv; split; [discriminate|reflexivity]]|]. split; [apply u32_range|]. split; [done|]. split; [done|]. split; [done|].
  assert (Hb : forall i, 0 <= i < 4 -> Z.testbit (segdescr_taskstate_init t PL_KERN).2 (i + 8) = Z.testbit SD_TYPE_TSS i).
  { intros i Hi. rewrite <- E3. unfold sd_type. rewrite bits_testbit by lia. by rewrite (proj2 (Z.ltb_lt i 4)) by lia. }
  split; [exact (Hb 0 ltac:(lia))|]. split; [exact (Hb 2 ltac:(lia))|exact (Hb 3 ltac:(lia))].
Qed.

Lemma selector_index idx pl : 0 <= idx < 8192 -> 0 <= pl < 4 -> segsel_index (make_segment_selector idx SEL_TI_GDT pl) = idx.
Proof.
  intros Hi Hp. unfold segsel_index, make_segment_selector, make_selector, SEL_TI_GDT. change 3 with (Z.ones 2) at 2. rewrite land_ffff, Z.land_ones, !Z.shiftl_mul_pow2, Z.shiftr_div_pow2 by lia. change (Z.land 0 1) with 0. change (2 ^ 3) with 8. change (2 ^ 2) with 4.
  rewrite (Z.mod_small idx), (Z.mod_small pl) by lia. rewrite u16_small by (unfold in_u16; lia). zlia.
Qed.

(** ** The invariant *)

Section Stacks.
(** The kernel stack of each task: from [lo] up to [hi]. *)
Variables (lo hi : Z -> Z).

(** Where the frame of a waiting task is. *)
Definition ctx_of (k : ktask) : Z := t_esp0 (tss k) - 4 * task_sysinfo_size k - CONTEXT_SIZE.

(** The segment of the task is in the table, within its limit. *)
Definition gdt_ok (g : gdt) (t : Z) (k : ktask) : Prop :=
  0 < tss_index k < 8192 /\ 8 * tss_index k + 7 <= gdt_limit g /\ exists s, theGDT g !! Z.to_nat (tss_index k) = Some s /\ tss_descr s t.

Definition current (m : machine) : Z := TK.theCurrentTask (sched m).

Record ctx_inv (m : machine) (saved : gmap Z regs) : Prop := {
  ci_set : TK.sched_set (sched m) = true;
  ci_len : length (theGDT (the_gdt m)) = Z.to_nat N_GDT;
  ci_cur : exists k, ktasks m !! current m = Some k /\ segsel_index (tr m) = tss_index k /\ cr3 m = t_cr3 (tss k);
  ci_tasks : forall t k, ktasks m !! t = Some k -> t <> 0 /\ gdt_ok (the_gdt m) t k /\ 0 < lo t /\ hi t < 4294967296 /\ t_esp0 (tss k) <= hi t;
  ci_sep : forall t u, is_Some (ktasks m !! t) -> is_Some (ktasks m !! u) -> t <> u -> hi t <= lo u \/ hi u <= lo t;
  ci_saved : forall t x, saved !! t = Some x -> t <> current m /\ exists k, ktasks m !! t = Some k /\ lo t <= ctx_of k /\ ctx_of k + 68 <= hi t /\ read_frame (mem m) (ctx_of k) = x;
  ci_sched : forall t, is_Some (TK.tasks (sched m) !! t) -> t <> current m -> is_Some (saved !! t) }.

(** The stack that an interrupt would use has room for its frame and is
    aligned. *)
Definition has_room (m : machine) : Prop := exists top, intr_stack m = Some top /\ top mod 4 = 0 /\ lo (current m) + 68 <= top /\
  (from_user (r m) = false -> top + 8 <= hi (current m) /\ ss (r m) = SEL_KERN_DS).

Lemma cur_stack m saved k : ctx_inv m saved -> ktasks m !! current m = Some k -> intr_stack m = Some (if from_user (r m) then t_esp0 (tss k) else esp (r m)).
Proof.
  intros H Hk. unfold intr_stack. destruct (from_user (r m)); [|done]. destruct (ci_cur _ _ H) as (k' & Hk' & Htr & _). rewrite Hk in Hk'. injection Hk' as <-.
  destruct (ci_tasks _ _ H _ _ Hk) as (_ & (_ & _ & s & Hs & Hd) & _). rewrite Htr, Hs. cbn [mbind option_bind]. destruct Hd as (_ & -> & _). by rewrite Hk.
Qed.

Lemma frame_length x e : Z.of_nat (length (frame_words x e)) = if from_user x then 17 else 15.
Proof. unfold frame_words. by destruct (from_user x). Qed.

(** The frame of the interrupted task is on its own stack, and holds its
    registers. *)
Lemma intr_enter_ok m saved : ctx_inv m saved -> has_room m ->
  exists m1, intr_enter m = Some m1 /\ lo (current m) <= context_esp m1 /\ context_esp m1 + 68 <= hi (current m) /\ read_frame (mem m1) (context_esp m1) = r m /\
    (forall a, a < lo (current m) \/ hi (current m) <= a -> ld (mem m1) a = ld (mem m) a) /\
    ktasks m1 = ktasks m /\ sched m1 = sched m /\ the_gdt m1 = the_gdt m /\ tr m1 = tr m /\ cr3 m1 = cr3 m /\ switch_to_esp m1 = 0.
Proof.
  intros H (top & Et & Hal & Hlo & Hk). destruct (ci_cur _ _ H) as (k & Hcur & _). destruct (ci_tasks _ _ H _ _ Hcur) as (_ & _ & Hp & _ & Hhi).
  pose proof (cur_stack m saved k H Hcur) as Ec. rewrite Et in Ec. injection Ec as Ec.
  unfold intr_enter. rewrite Et. cbn [mbind option_bind]. eexists. split; [done|]. cbn [context_esp set_context mem set_mem set_r ktasks sched the_gdt tr cr3 switch_to_esp]. rewrite frame_length.
  set (ctx := top - 4 * (if from_user (r m) then 17 else 15)) in *. assert (Hc : ctx = top - (if from_user (r m) then 68 else 60)) by (unfold ctx; destruct (from_user (r m)); lia).
  assert (Htop : top <= hi (current m) /\ (from_user (r m) = false -> top + 8 <= hi (current m))) by (split; [|tauto]; destruct (from_user (r m)) eqn:Eu; [lia|destruct (Hk eq_refl); lia]).
  split; [destruct (from_user (r m)); lia|]. split; [destruct (from_user (r m)) eqn:Eu; [lia|destruct Htop as [_ Ht]; specialize (Ht eq_refl); lia]|]. split; [|split; [|done]].
  - apply read_frame_put. intros Eu. rewrite Eu in Ec, Hc. destruct (Hk Eu) as [_ Hs]. split; [lia|done].
  - intros a Ha. apply put_words_out. rewrite frame_length. destruct (from_user (r m)); lia.
Qed.

Lemma ctx_of_esp0 k v : ctx_of (set_esp0 k v) = v - 4 * task_sysinfo_size k - CONTEXT_SIZE.
Proof. done. Qed.

(** No other task: the interrupt returns to where it came from. *)
Lemma intr_end_same m1 : switch_to_esp m1 = 0 -> r (intr_end m1) = read_frame (mem m1) (context_esp m1).
Proof. intros E. unfold intr_end. rewrite E. done. Qed.

Lemma scheduler_other s n : TK.the_scheduler s = Some n -> n <> 0 -> n <> TK.theCurrentTask s /\ is_Some (TK.tasks s !! n).
Proof.
  unfold TK.the_scheduler. destruct (TK.tasks s !! TK.theCurrentTask s) as [t|]; [|done]. cbn [mbind option_bind]. generalize (S (size (TK.tasks s))). intros fuel. revert t. induction fuel as [|fuel IH]; intros t E Hn; [done|].
  cbn [TK.sched_loop] in E. destruct (Z.eqb_spec (TK.next t) 0); cbn [negb andb] in E; [by injection E as <-|]. destruct (Z.eqb_spec (TK.next t) (TK.theCurrentTask s)); cbn [negb] in E; [by injection E as <-|].
  destruct (TK.tasks s !! TK.next t) as [t'|] eqn:Et; [|done]. cbn [mbind option_bind] in E. case_decide; [injection E as <-; split; [done|by eexists]|]. by apply (IH t').
Qed.

(** Loading a task keeps the table in order. *)
Lemma gdt_ok_busy g t k i s b t' : gdt_ok g t k -> theGDT g !! i = Some s -> tss_descr s t' -> gdt_ok (mk_gdt (<[i := segdescr_taskstate_busy s b]> (theGDT g)) (gdt_limit g)) t k.
Proof.
  intros (H1 & H2 & s0 & Hs0 & Hd) Hi Hs. split; [done|]. split; [done|]. cbn [theGDT]. destruct (decide (i = Z.to_nat (tss_index k))) as [->|Hne].
  - assert (s0 = s) as -> by congruence. exists (segdescr_taskstate_busy s b). split; [apply list_lookup_insert_eq; by eapply lookup_lt_Some|by apply busy_descr].
  - exists s0. split; [by rewrite list_lookup_insert_ne|done].
Qed.

Lemma cpu_load_ok m n k : ktasks m !! n = Some k -> gdt_ok (the_gdt m) n k ->
  exists m', task_cpu_load m n = Some m' /\ segsel_index (tr m') = tss_index k /\ cr3 m' = t_cr3 (tss k) /\ mem m' = mem m /\ ktasks m' = ktasks m /\ sched m' = sched m /\ context_esp m' = context_esp m /\ length (theGDT (the_gdt m')) = length (theGDT (the_gdt m)) /\
    (forall t k', gdt_ok (the_gdt m) t k' -> gdt_ok (the_gdt m') t k').
Proof.
  intros Hk Hg. pose proof Hg as (Hi & Hlim & s & Hs & Hd). unfold task_cpu_load. rewrite Hk. cbn [mbind option_bind]. rewrite Hs. cbn [mbind option_bind].
  set (pl := if t_cs (tss k) =? SEL_KERN_CS then PL_KERN else PL_USER). assert (Hpl : 0 <= pl < 4) by (unfold pl, PL_KERN, PL_USER; destruct (_ =? _); lia).
  set (g1 := mk_gdt _ _). assert (Hg1 : forall t k', gdt_ok (the_gdt m) t k' -> gdt_ok g1 t k') by (intros t k' H'; by apply (gdt_ok_busy _ _ _ _ _ false n)).
  unfold i386_load_task_reg. cbn [the_gdt set_gdt]. rewrite (selector_index (tss_index k) pl) by lia. cbn [gdt_limit g1]. rewrite (proj2 (Z.leb_le _ _)) by done. cbn [negb].
  assert (Hs1 : theGDT g1 !! Z.to_nat (tss_index k) = Some (segdescr_taskstate_busy s false)) by (apply list_lookup_insert_eq; by eapply lookup_lt_Some). rewrite Hs1. cbn [mbind option_bind].
  pose proof (busy_descr s false n Hd) as Hd1. pose proof Hd1 as (_ & _ & E1 & E2 & _). rewrite E1, E2, (busy_type s n Hd). cbn [negb andb Z.eqb Pos.eqb]. change (SD_TYPE_TSS =? SD_TYPE_TSS) with true. cbn [negb andb].
  eexists. split; [done|]. cbn [tr set_cr3 set_tr cr3 mem ktasks sched context_esp the_gdt set_gdt]. split; [by apply selector_index; lia|]. repeat (split; [done|]). split; [cbn [theGDT g1]; by rewrite !length_insert|].
  intros t k' H'. apply (gdt_ok_busy g1 t k' _ _ true n); [by apply Hg1|done|done].
Qed.

(** Memory changes that leave the frames of the waiting tasks alone. *)
Lemma saved_frame_ext m m' saved t k x (u : Z) : ctx_inv m saved -> saved !! t = Some x -> ktasks m !! t = Some k -> is_Some (ktasks m !! u) -> t <> u ->
  (forall a, a < lo u \/ hi u <= a -> ld m' a = ld (mem m) a) -> read_frame m' (ctx_of k) = x.
Proof.
  intros H Hx Hk Hu Hne Hm. destruct (ci_saved _ _ H _ _ Hx) as (_ & k' & Hk' & Hlo & Hhi & <-). rewrite Hk in Hk'. injection Hk' as <-. apply read_frame_ext. intros a Ha. apply Hm.
  destruct (ci_sep _ _ H t u (ltac:(by eexists)) Hu Hne); lia.
Qed.

Lemma tick_same m saved : ctx_inv m saved -> has_room m -> TK.the_scheduler (sched m) = Some 0 ->
  exists m', tick m = Some m' /\ r m' = r m /\ sched m' = sched m /\ ctx_inv m' saved.
Proof.
  intros H Hroom Hn. pose proof (ci_set _ _ H) as Hset. destruct (intr_enter_ok m saved H Hroom) as (m1 & E1 & _ & _ & Hr & Hmem & Ek & Es & Eg & Etr & Ecr & Esw). unfold tick. rewrite E1. cbn [mbind option_bind]. unfold task_timer_handler. rewrite Es, Hset, Hn. cbn [negb mbind option_bind Z.eqb].
  eexists. split; [done|]. split; [rewrite intr_end_same by done; exact Hr|]. split; [done|]. destruct (ci_cur _ _ H) as (k & Hcur & Htr & Hc3).
  unfold intr_end. constructor; unfold current; cbn [ktasks set_context set_r sched tr cr3 the_gdt mem]; rewrite ?Ek, ?Es, ?Eg, ?Etr, ?Ecr.
  - done.
  - exact (ci_len _ _ H).
  - by exists k.
  - exact (ci_tasks _ _ H).
  - exact (ci_sep _ _ H).
  - intros t x Hx. destruct (ci_saved _ _ H _ _ Hx) as (Hne & k' & Hk' & Hlo & Hhi & _). split; [done|]. exists k'. do 3 (split; [done|]). by apply (saved_frame_ext m _ saved t k' x (current m)).
  - exact (ci_sched _ _ H).
Qed.

Lemma tick_switch m saved n : ctx_inv m saved -> has_room m -> TK.the_scheduler (sched m) = Some n -> n <> 0 ->
  exists m' x, tick m = Some m' /\ saved !! n = Some x /\ r m' = set_if x /\ sched m' = TK.mk_sched (TK.tasks (sched m)) n true /\ ctx_inv m' (<[current m := r m]> (delete n saved)).
Proof.
  intros H Hroom Hn Hn0. pose proof (ci_set _ _ H) as Hset. destruct (scheduler_other _ _ Hn Hn0) as [Hnc Hnt]. destruct (ci_sched _ _ H n Hnt Hnc) as [x Hx]. destruct (ci_saved _ _ H _ _ Hx) as (_ & kn & Hkn & Hlon & Hhin & Hfr). destruct (ci_cur _ _ H) as (kc & Hkc & _).
  destruct (intr_enter_ok m saved H Hroom) as (m1 & E1 & Hlo1 & Hhi1 & Hr & Hmem & Ek & Es & Eg & _ & _ & _). unfold tick. rewrite E1. cbn [mbind option_bind]. unfold task_timer_handler. rewrite Es, Hset, Hn. cbn [negb mbind option_bind]. rewrite (proj2 (Z.eqb_neq n 0)) by done.
  fold (current m). destruct (ci_tasks _ _ H _ _ Hkc) as (Hc0 & _ & Hlc & Hhc & _).
  unfold task_save_context. rewrite (proj2 (Z.eqb_neq (current m) 0)), (proj2 (Z.eqb_neq (context_esp m1) 0)) by lia. rewrite Ek, Hkc. cbn [mbind option_bind].
  set (kc' := set_esp0 kc _). assert (Esz : task_sysinfo_size kc' = task_sysinfo_size kc) by done. assert (Hsz : 3 <= task_sysinfo_size kc <= 5) by (unfold task_sysinfo_size; destruct (_ =? _); lia).
  assert (Eesp : t_esp0 (tss kc') = context_esp m1 + CONTEXT_SIZE + task_sysinfo_size kc * 4) by (cbn; apply u32_small; unfold in_u32, CONTEXT_SIZE; lia).
  assert (Ectx : ctx_of kc' = context_esp m1) by (unfold ctx_of; rewrite Esz, Eesp; lia).
  set (m2 := set_ktasks m1 _). assert (Hkn2 : ktasks m2 !! n = Some kn) by (cbn; by rewrite lookup_insert_ne).
  assert (Hgn : gdt_ok (the_gdt m2) n kn) by (cbn; rewrite Eg; by apply (ci_tasks _ _ H)). destruct (cpu_load_ok m2 n kn Hkn2 Hgn) as (m3 & E3 & Htr3 & Hcr3 & Em3 & Ek3 & Es3 & _ & Hl3 & Hg3). rewrite E3. cbn [mbind option_bind].
  unfold task_push_context. rewrite Ek3, Hkn2. cbn [mbind option_bind]. set (iret := t_esp0 (tss kn) - 4 * task_sysinfo_size kn). assert (Ei : iret + 8 = ctx_of kn + 56) by (unfold ctx_of, CONTEXT_SIZE; lia). assert (Ei2 : iret - CONTEXT_SIZE = ctx_of kn) by (unfold ctx_of; lia). rewrite Ei, Ei2, Em3. cbn [mem set_ktasks m2].
  set (mm := <[ctx_of kn + 56 := _]> (mem m1)). eexists _, x. split; [done|]. split; [done|]. unfold intr_end. cbn [switch_to_esp set_sched set_context mem set_mem r set_r sched current]. rewrite Es3. cbn [sched set_ktasks m2]. rewrite Es, Hset.
  assert (Hcn : is_Some (ktasks m !! current m)) by (by eexists). destruct (ci_tasks _ _ H _ _ Hkn) as (_ & _ & Hln & _).
  rewrite (proj2 (Z.eqb_neq (ctx_of kn) 0)) by lia. assert (Hfn : read_frame (mem m1) (ctx_of kn) = x) by (by apply (saved_frame_ext m _ saved n kn x (current m))).
  split; [unfold mm; by rewrite read_frame_if, Hfn|]. split; [done|].
  assert (Hmm : forall a, a < lo n \/ hi n <= a -> ld mm a = ld (mem m1) a) by (intros a Ha; unfold mm, ld at 1; rewrite lookup_insert_ne by lia; done).
  constructor; unfold current; cbn [ktasks set_context set_sched set_mem set_r sched tr cr3 the_gdt mem TK.theCurrentTask TK.tasks]; rewrite ?Ek3; cbn [ktasks m2 set_ktasks]; fold (current m).
  - done.
  - rewrite Hl3. cbn. rewrite Eg. exact (ci_len _ _ H).
  - exists kn. rewrite lookup_insert_ne by done. done.
  - intros t k Ht. destruct (decide (t = current m)) as [->|Hne].
    + rewrite lookup_insert_eq in Ht. injection Ht as <-. destruct (ci_tasks _ _ H _ _ Hkc) as (? & Hg & ? & ? & _). split; [done|]. split; [apply Hg3; cbn; rewrite Eg; exact Hg|]. do 2 (split; [done|]). rewrite Eesp. unfold CONTEXT_SIZE. lia.
    + rewrite lookup_insert_ne in Ht by done. destruct (ci_tasks _ _ H _ _ Ht) as (? & Hg & ?). split; [done|]. split; [apply Hg3; cbn; rewrite Eg; exact Hg|done].
  - intros t u [k1 Ht] [k2 Hu]. apply (ci_sep _ _ H); [destruct (decide (t = current m)) as [->|Hne]; [done|rewrite lookup_insert_ne in Ht by done; by eexists]|destruct (decide (u = current m)) as [->|Hne]; [done|rewrite lookup_insert_ne in Hu by done; by eexists]].
  - intros t y Hy. destruct (decide (t = current m)) as [->|Hne].
    + rewrite lookup_insert_eq in Hy. injection Hy as <-. split; [done|]. exists kc'. rewrite lookup_insert_eq. split; [done|]. rewrite Ectx. split; [lia|]. split; [lia|]. rewrite <- Hr. apply read_frame_ext. intros a Ha. apply Hmm. destruct (ci_sep _ _ H n (current m)); [by eexists|done|done|lia|lia].
    + rewrite lookup_insert_ne in Hy by done. apply lookup_delete_Some in Hy as [Hnt' Hy]. destruct (ci_saved _ _ H _ _ Hy) as (_ & k & Hk & Hl & Hh & Hf). split; [done|]. exists k. rewrite lookup_insert_ne by done. do 3 (split; [done|]).
      rewrite <- (saved_frame_ext m (mem m1) saved t k y (current m) H Hy Hk Hcn Hne Hmem). apply read_frame_ext. intros a Ha. apply Hmm. destruct (ci_sep _ _ H t n); [by eexists|by eexists|done|lia|lia].
  - intros t Ht Hne. destruct (decide (t = current m)) as [->|Hne2]; [rewrite lookup_insert_eq; by eexists|]. rewrite lookup_insert_ne, lookup_delete_ne by done. by apply (ci_sched _ _ H).
Qed.

(** ** New tasks *)

Lemma descr_not_null s t : tss_descr s t -> is_null s = false.
Proof. intros (_ & _ & _ & _ & H & _). unfold is_null. destruct (Z.eqb_spec s.2 0) as [E|]; [|apply andb_false_r]. rewrite E in H. by rewrite Z.testbit_0_l in H. Qed.

(** The registers of a task that starts; the general ones are what is on its
    stack. *)
Definition starts_at (x : regs) (entry esp0 esp3 cs_ ds_ : Z) : Prop :=
  eip x = entry /\ cs x = cs_ /\ eflags x = Z.lor EFL_RSRVD EFL_IF /\ ds x = ds_ /\ es x = ds_ /\ fs x = ds_ /\ gs x = ds_ /\
  (if cs_ =? SEL_KERN_CS then esp x = esp0 else esp x = esp3 /\ ss x = ds_).

Definition start_ctx (esp0 cs_ : Z) : Z := esp0 - 4 * (if cs_ =? SEL_KERN_CS then 3 else 5) - CONTEXT_SIZE.

Lemma init_stack_frame mm entry esp0 esp3 cs_ ds_ : (cs_ =? SEL_KERN_CS) = (Z.land cs_ 3 =? 0) ->
  starts_at (read_frame (init_stack mm entry esp0 esp3 cs_ ds_) (start_ctx esp0 cs_)) entry esp0 esp3 cs_ ds_.
Proof.
  intros Hcs. unfold init_stack. cbv zeta. set (n := if cs_ =? SEL_KERN_CS then 3 else 5). assert (Hn : 3 <= n <= 5) by (unfold n; destruct (_ =? _); lia). unfold start_ctx. fold n. set (c := esp0 - 4 * n - CONTEXT_SIZE). assert (Ec : esp0 - 4 * n = c + 48) by (unfold c, CONTEXT_SIZE; lia). rewrite Ec.
  set (l := [entry; cs_; Z.lor EFL_RSRVD EFL_IF] ++ _). set (m1 := put_words mm (c + 48) l). set (m2 := put_words m1 c [ds_; ds_; ds_; ds_]).
  assert (Elo : forall i, 0 <= i < 4 -> ld m2 (c + 4 * i) = ds_).
  { intros i Hi. pose proof (put_words_in [ds_; ds_; ds_; ds_] m1 c (Z.to_nat i) ds_) as E. rewrite Z2Nat.id in E by lia. apply E. assert (H : i = 0 \/ i = 1 \/ i = 2 \/ i = 3) by lia. by destruct H as [->|[->|[->| ->]]]. }
  assert (Ehi : forall j i v, j = 12 + i -> 0 <= i -> l !! Z.to_nat i = Some v -> ld m2 (c + 4 * j) = v).
  { intros j i v -> Hi Hv. unfold m2. rewrite put_words_out by (cbn [length]; lia). pose proof (put_words_in l mm (c + 48) (Z.to_nat i) v Hv) as E. rewrite Z2Nat.id in E by lia. by replace (c + 4 * (12 + i)) with (c + 48 + 4 * i) by lia. }
  unfold starts_at, read_frame. cbn [eip cs eflags ds es fs gs esp ss]. rewrite (Elo 0), (Elo 1), (Elo 2), (Elo 3), (Ehi 12 0 entry), (Ehi 13 1 cs_), (Ehi 14 2 (Z.lor EFL_RSRVD EFL_IF)) by (lia || done). repeat (split; [done|]).
  rewrite <- Hcs. unfold l in Ehi. destruct (cs_ =? SEL_KERN_CS); cbn [negb].
  - unfold c, n, CONTEXT_SIZE. lia.
  - by rewrite (Ehi 15 3 esp3), (Ehi 16 4 ds_) by (lia || done).
Qed.

Lemma init_stack_out mm entry esp0 esp3 cs_ ds_ a : a < start_ctx esp0 cs_ \/ esp0 <= a -> ld (init_stack mm entry esp0 esp3 cs_ ds_) a = ld mm a.
Proof.
  unfold start_ctx, init_stack, CONTEXT_SIZE. cbv zeta. intros H. destruct (cs_ =? SEL_KERN_CS); rewrite !put_words_out by (cbn [length app]; lia); done.
Qed.

(** What has to hold for a task to start: a stack apart from the others, a record
    that is not in use, and an entry of the table within its limit. *)
Record can_start (m : machine) (t esp0 cs_ : Z) : Prop := {
  cs_new : ktasks m !! t = None /\ TK.tasks (sched m) !! t = None /\ t <> 0 /\ in_u32 t;
  cs_stack : 0 < lo t /\ hi t < 4294967296 /\ lo t + 68 <= esp0 /\ esp0 + 8 <= hi t;
  cs_apart : forall u, is_Some (ktasks m !! u) -> hi t <= lo u \/ hi u <= lo t;
  cs_gdt : exists i, (gdt_alloc_entry (the_gdt m) (segdescr_taskstate_init t PL_KERN)).2 = i /\ i <> 0 /\ 8 * i + 7 <= gdt_limit (the_gdt m);
  cs_ring : is_Some (TK.tasks (sched m) !! current m);
  cs_cs : (cs_ =? SEL_KERN_CS) = (Z.land cs_ 3 =? 0) }.

Lemma alloc_gdt_ok g t k d g' i : length (theGDT g) = Z.to_nat N_GDT -> gdt_alloc_entry g d = (g', i) -> gdt_ok g t k -> gdt_ok g' t k.
Proof.
  intros Hl E (H1 & H2 & s & Hs & Hd). destruct (gdt_alloc_spec g d Hl) as [(j & Hj & Ej & (s0 & Hs0 & Hnull))|(Ej & _)]; rewrite E in Ej; injection Ej as -> ->; [|split; [done|]; split; [done|]; by exists s].
  split; [done|]. split; [done|]. exists s. cbn [theGDT]. split; [|done]. rewrite list_lookup_insert_ne; [done|]. intros Eq. rewrite Eq in Hs0. assert (s0 = s) as -> by congruence. by rewrite (descr_not_null s t Hd) in Hnull.
Qed.

Lemma start_ok m saved t entry esp0 esp3 cs_ ds_ pd : ctx_inv m saved -> can_start m t esp0 cs_ ->
  exists m' x, start_task m t entry esp0 esp3 cs_ ds_ pd = Some m' /\ starts_at x entry esp0 esp3 cs_ ds_ /\ ctx_inv m' (<[t := x]> saved) /\ r m' = r m /\ current m' = current m /\
    TK.sched_add_task (TK.mk_sched (<[t := TK.mk_task TK.TS_READY 0]> (TK.tasks (sched m))) (current m) true) t = Some (sched m').
Proof.
  intros H [(Hk & Hs & Ht0 & Htu) (Hlo & Hhi & Hroom & Htop) Hap (i & Ei & Hi0 & Hlim) [tc Htc] Hcs]. unfold start_task, task_init. cbv zeta. cbn [the_gdt set_mem set_sched mem ktasks]. destruct (gdt_alloc_entry (the_gdt m) _) as [g j] eqn:Eg. cbn [snd] in Ei. subst j.
  rewrite (proj2 (Z.eqb_neq i 0)) by done. pose proof (ci_len _ _ H) as Hlen. destruct (gdt_alloc_spec (the_gdt m) (segdescr_taskstate_init t PL_KERN) Hlen) as [(j & Hj & Ej & _)|(Ej & _)]; rewrite Eg in Ej; injection Ej as Eg' Ei; [|done]. subst j.
  destruct (ci_cur _ _ H) as (kc & Hkc & Htr & Hcr). assert (Hcne : t <> current m) by (intros ->; congruence).
  set (st1 := TK.set_state _ t TK.TS_READY). assert (Est : st1 = TK.mk_sched (<[t := TK.mk_task TK.TS_READY 0]> (TK.tasks (sched m))) (current m) true).
  { unfold st1, TK.set_state. cbn [sched set_gdt set_ktasks set_mem set_sched TK.tasks TK.theCurrentTask TK.sched_set]. rewrite alter_insert_eq. by rewrite (ci_set _ _ H). }
  cbn [sched set_pagedir set_ktasks set_sched]. rewrite Est. unfold TK.sched_add_task at 1. cbn [TK.theCurrentTask TK.tasks]. rewrite (lookup_insert_ne _ t (current m)), Htc by done. cbn [mbind option_bind]. rewrite lookup_insert_eq. cbn [mbind option_bind]. rewrite insert_insert_eq, (lookup_insert_ne _ t (current m)), Htc by done. cbn [mbind option_bind].
  set (x := read_frame (init_stack (mem m) entry esp0 esp3 cs_ ds_) (start_ctx esp0 cs_)). eexists _, x. split; [done|]. split; [by apply init_stack_frame|]. split; [|split; [done|]; split; [done|]; unfold TK.sched_add_task; cbn [TK.theCurrentTask TK.tasks]; rewrite (lookup_insert_ne _ t (current m)), Htc by done; cbn [mbind option_bind]; rewrite lookup_insert_eq; cbn [mbind option_bind]; rewrite insert_insert_eq, (lookup_insert_ne _ t (current m)), Htc by done; done].
  assert (Hfr : forall u k y, saved !! u = Some y -> ktasks m !! u = Some k -> read_frame (init_stack (mem m) entry esp0 esp3 cs_ ds_) (ctx_of k) = y).
  { intros u k y Hy Hu. destruct (ci_saved _ _ H _ _ Hy) as (_ & k' & Hk' & Hl & Hh & <-). rewrite Hu in Hk'. injection Hk' as <-. apply read_frame_ext. intros a Ha. apply init_stack_out. unfold start_ctx, CONTEXT_SIZE. destruct (Hap u); [by eexists|destruct (_ =? _); lia|destruct (_ =? _); lia]. }
  assert (Hgt : forall u k, ktasks m !! u = Some k -> gdt_ok g u k) by (intros u k Hu; eapply alloc_gdt_ok; [exact Hlen|exact Eg|]; by apply (ci_tasks _ _ H)).
  assert (Hlk : forall u, u <> t -> forall (f : ktask -> ktask) kk, alter f t (<[t := kk]> (ktasks m)) !! u = ktasks m !! u) by (intros u Hu f kk; by rewrite lookup_alter_ne, lookup_insert_ne by done).
  constructor; unfold current; cbn [ktasks set_sched set_pagedir set_gdt set_ktasks set_mem sched tr cr3 the_gdt mem TK.theCurrentTask TK.tasks TK.sched_set]; fold (current m).
  - done.
  - rewrite Eg'. cbn [theGDT]. by rewrite length_insert.
  - exists kc. rewrite Hlk by done. done.
  - intros u k Hu. destruct (decide (u = t)) as [->|Hne]; [|rewrite Hlk in Hu by done; destruct (ci_tasks _ _ H _ _ Hu) as (? & _ & ?); split; [done|]; split; [by apply Hgt|done]].
    rewrite lookup_alter_eq, lookup_insert_eq in Hu. injection Hu as <-. split; [done|]. split; [|cbn; split; [done|]; split; [done|lia]]. split; [cbn; unfold N_GDT, N_TASKS in Hj; lia|]. cbn [tss_index]. rewrite Eg'. cbn [theGDT gdt_limit].
    split; [done|]. eexists. split; [apply list_lookup_insert_eq; rewrite Hlen; unfold N_GDT, N_TASKS in *; lia|by apply init_descr].
  - intros u v Hu Hv Hne. destruct (decide (u = t)) as [->|Hut]; destruct (decide (v = t)) as [->|Hvt]; rewrite ?Hlk in Hu by done; rewrite ?Hlk in Hv by done; [done|by apply Hap|destruct (Hap u Hu); tauto|by apply (ci_sep _ _ H)].
  - intros u y Hy. destruct (decide (u = t)) as [->|Hne].
    + rewrite lookup_insert_eq in Hy. injection Hy as <-. split; [done|]. eexists. rewrite lookup_alter_eq, lookup_insert_eq. split; [done|]. unfold ctx_of, task_sysinfo_size. cbn [tss t_esp0 t_cs]. fold (start_ctx esp0 cs_). split; [|split; [|done]]; unfold start_ctx, CONTEXT_SIZE; destruct (_ =? _); lia.
    + rewrite lookup_insert_ne in Hy by done. destruct (ci_saved _ _ H _ _ Hy) as (? & k & Hu & ? & ? & _). split; [done|]. exists k. rewrite Hlk by done. do 3 (split; [done|]). by apply (Hfr u).
  - intros u Hu Hne. destruct (decide (u = t)) as [->|Hut]; [rewrite lookup_insert_eq; by eexists|]. rewrite lookup_insert_ne by done. apply (ci_sched _ _ H); [|done]. rewrite lookup_insert_ne, lookup_insert_ne in Hu by done. done.
Qed.

End Stacks.

(** ** The first task *)

Lemma setup_ok lo hi m d k entry sp : ktasks m = {[ d := k ]} -> dom (TK.tasks (sched m)) = {[ d ]} -> length (theGDT (the_gdt m)) = Z.to_nat N_GDT -> d <> 0 -> gdt_ok (the_gdt m) d k ->
  0 < lo d -> hi d < 4294967296 -> t_esp0 (tss k) <= hi d ->
  exists m', tasks_setup m d entry sp = Some m' /\ current m' = d /\ ctx_inv lo hi m' ∅ /\ cs (r m') = t_cs (tss k) /\ eip (r m') = (if t_eip (tss k) =? 0 then entry else t_eip (tss k)) /\ eflags (r m') = t_eflags (tss k).
Proof.
  intros Hk Hd Hlen Hd0 Hg Hlo Hhi Htop. unfold tasks_setup. rewrite Hk, lookup_singleton_eq. cbn [mbind option_bind]. set (k' := if t_eip (tss k) =? 0 then set_eip k entry else k).
  assert (Ek : tss_index k' = tss_index k /\ t_esp0 (tss k') = t_esp0 (tss k) /\ t_cs (tss k') = t_cs (tss k) /\ t_eflags (tss k') = t_eflags (tss k) /\ t_eip (tss k') = if t_eip (tss k) =? 0 then entry else t_eip (tss k)).
  { unfold k'. by destruct (_ =? 0). }
  destruct Ek as (Ei & Ee & Ec & Ef & Ep). rewrite insert_singleton_eq. assert (Hst : is_Some (TK.tasks (sched m) !! d)) by (apply elem_of_dom; rewrite Hd; set_solver). destruct Hst as [td Htd]. unfold TK.tasks_setup. cbn [sched set_ktasks]. rewrite Htd. cbn [mbind option_bind].
  set (s1 := TK.mk_sched _ d true). set (m1 := set_sched _ s1). assert (Hk1 : ktasks m1 !! d = Some k') by apply lookup_singleton_eq. assert (Hg1 : gdt_ok (the_gdt m1) d k') by (unfold gdt_ok; rewrite Ei; exact Hg).
  destruct (cpu_load_ok m1 d k' Hk1 Hg1) as (m2 & E2 & Htr & Hcr & _ & Ek2 & Es2 & _ & Hl2 & Hg2). rewrite E2. cbn [mbind option_bind]. eexists. split; [done|]. unfold current. cbn [sched set_r r i386_iret cs eip eflags]. rewrite Es2. split; [done|]. split; [|by rewrite Ec, Ep, Ef].
  constructor; unfold current; cbn [sched set_r ktasks tr cr3 the_gdt]; rewrite ?Es2, ?Ek2; cbn [sched m1 set_sched s1 TK.theCurrentTask TK.tasks TK.sched_set].
  - done.
  - by rewrite Hl2.
  - by exists k'.
  - intros t u Ht. cbn [ktasks set_ktasks m1 set_sched] in Ht. apply lookup_singleton_Some in Ht as [<- <-]. split; [done|]. split; [by apply Hg2|]. rewrite Ee. done.
  - intros t u [? Ht] [? Hu]. cbn [ktasks set_ktasks m1 set_sched] in Ht, Hu. apply lookup_singleton_Some in Ht as [<- _]. by apply lookup_singleton_Some in Hu as [<- _].
  - done.
  - intros t Ht Hne. destruct (decide (t = d)); [done|]. rewrite lookup_insert_ne in Ht by done. apply elem_of_dom in Ht. rewrite Hd in Ht. set_solver.
Qed.

(** ** Every task has registers of its own *)

(** A machine whose tasks keep their registers apart: only the current one runs. *)
Record amach := mk_am { a_saved : gmap Z regs; a_sched : TK.sched; a_live : regs }.

Inductive astep (a : amach) : amach -> Prop :=
  | a_run x : astep a (mk_am (a_saved a) (a_sched a) x)
  | a_stay : TK.the_scheduler (a_sched a) = Some 0 -> astep a a
  | a_switch n x : TK.the_scheduler (a_sched a) = Some n -> n <> 0 -> a_saved a !! n = Some x ->
      astep a (mk_am (<[TK.theCurrentTask (a_sched a) := a_live a]> (delete n (a_saved a))) (TK.mk_sched (TK.tasks (a_sched a)) n true) (set_if x))
  | a_start t x entry esp0 esp3 cs_ ds_ s : starts_at x entry esp0 esp3 cs_ ds_ ->
      TK.sched_add_task (TK.mk_sched (<[t := TK.mk_task TK.TS_READY 0]> (TK.tasks (a_sched a))) (TK.theCurrentTask (a_sched a)) true) t = Some s ->
      astep a (mk_am (<[t := x]> (a_saved a)) s (a_live a)).

(** The machine itself: the current task computes, and writes anything but the
    kernel stacks of the others; the timer ticks; tasks are started. *)
Inductive cstep (lo hi : Z -> Z) (m : machine) : machine -> Prop :=
  | c_run x mm : (forall t a, is_Some (ktasks m !! t) -> t <> current m -> lo t <= a < hi t -> ld mm a = ld (mem m) a) -> cstep lo hi m (set_r (set_mem m mm) x)
  | c_tick m' : has_room lo hi m -> tick m = Some m' -> cstep lo hi m m'
  | c_start t entry esp0 esp3 cs_ ds_ pd m' : can_start lo hi m t esp0 cs_ -> start_task m t entry esp0 esp3 cs_ ds_ pd = Some m' -> cstep lo hi m m'.

Lemma cstep_refines lo hi m saved m' : ctx_inv lo hi m saved -> cstep lo hi m m' ->
  exists a', astep (mk_am saved (sched m) (r m)) a' /\ ctx_inv lo hi m' (a_saved a') /\ sched m' = a_sched a' /\ r m' = a_live a'.
Proof.
  intros H Hs. destruct Hs as [x mm Hmm|m' Hroom E|t entry esp0 esp3 cs_ ds_ pd m' Hcan E].
  - exists (mk_am saved (sched m) x). split; [apply (a_run (mk_am saved (sched m) (r m)))|]. split; [|done]. destruct H as [H1 H2 H3 H4 H5 H6 H7]. constructor; try done. intros t y Hy. destruct (H6 t y Hy) as (Hne & k & Hk & Hl & Hh & Hf). split; [done|]. exists k. do 3 (split; [done|]).
    rewrite <- Hf. apply read_frame_ext. intros a Ha. apply (Hmm t); [by eexists|done|lia].
  - destruct (TK.the_scheduler (sched m)) as [n|] eqn:En.
    + destruct (decide (n = 0)) as [->|Hn0].
      * destruct (tick_same lo hi m saved H Hroom En) as (m2 & E2 & Er & Es & Hi). rewrite E in E2. injection E2 as <-. exists (mk_am saved (sched m) (r m)). split; [by apply a_stay|done].
      * destruct (tick_switch lo hi m saved n H Hroom En Hn0) as (m2 & x & E2 & Hx & Er & Es & Hi). rewrite E in E2. injection E2 as <-. eexists. split; [by apply (a_switch (mk_am saved (sched m) (r m)) n x)|done].
    + exfalso. destruct (intr_enter_ok lo hi m saved H Hroom) as (m1 & E1 & _ & _ & _ & _ & _ & Es & _). unfold tick in E. rewrite E1 in E. cbn [mbind option_bind] in E. unfold task_timer_handler in E. by rewrite Es, (ci_set _ _ _ _ H), En in E.
  - destruct (start_ok lo hi m saved t entry esp0 esp3 cs_ ds_ pd H Hcan) as (m2 & x & E2 & Hx & Hi & Er & _ & Es). rewrite E in E2. injection E2 as <-. exists (mk_am (<[t := x]> saved) (sched m') (r m)). split; [by apply (a_start (mk_am saved (sched m) (r m)) t x entry esp0 esp3 cs_ ds_)|done].
Qed.

(** C5: the switch of tasks at the timer's tick implements a machine in which each
    task has registers of its own: over any run, in which the current task
    computes, ticks come while it is in user or in kernel mode, and tasks are
    started, a task that is switched away from goes on with the registers that it
    had, a new one with those it was started with, the task that the scheduler
    names is the one that runs, in its own address space, and the tick returns
    whenever the kernel stack has room for it. *)
Theorem context_switch_refines lo hi m saved m' : ctx_inv lo hi m saved -> rtc (cstep lo hi) m m' ->
  exists a', rtc astep (mk_am saved (sched m) (r m)) a' /\ sched m' = a_sched a' /\ r m' = a_live a' /\ ctx_inv lo hi m' (a_saved a') /\
    (exists k, ktasks m' !! TK.theCurrentTask (a_sched a') = Some k /\ cr3 m' = t_cr3 (tss k)) /\
    (has_room lo hi m' -> is_Some (TK.the_scheduler (sched m')) -> is_Some (tick m')).
Proof.
  intros H Hr. revert saved H. induction Hr as [m|m m1 m' Hs _ IH]; intros saved H.
  - exists (mk_am saved (sched m) (r m)). split; [done|]. do 3 (split; [done|]). split; [destruct (ci_cur _ _ _ _ H) as (k & Hk & _ & Hc); by exists k|].
    intros Hroom [n Hn]. destruct (decide (n = 0)) as [->|Hn0]; [destruct (tick_same lo hi m saved H Hroom Hn) as (m2 & -> & _); by eexists|destruct (tick_switch lo hi m saved n H Hroom Hn Hn0) as (m2 & x & -> & _); by eexists].
  - destruct (cstep_refines lo hi m saved m1 H Hs) as ([sv sc lv] & Ha & Hi & Es & Er). cbn [a_saved a_sched a_live] in *. destruct (IH sv Hi) as (a' & Hrtc & Hrest). exists a'. split; [|done]. eapply rtc_l; [exact Ha|]. by rewrite <- Es, <- Er.
Qed.

(** ** A run *)

Definition demo_lo (t : Z) : Z := t + 4096.
Definition demo_hi (t : Z) : Z := t + 8192.

Definition demo_regs : regs := mk_regs 1 2 3 4 5 6 7 SEL_KERN_DS SEL_KERN_DS SEL_KERN_DS SEL_KERN_DS 1048576 SEL_KERN_CS 2 700000 SEL_KERN_DS.

(** The kernel's own task with a stack, before the scheduler is set. *)
Definition demo1 : machine :=
  task_kthread_init (mk_m ∅ ∅ (TK.mk_sched {[ 4096 := TK.mk_task TK.TS_READY 0 ]} 0 false) (gdt_setup 3222290432) demo_regs 0 0 0 0) 4096 1048576 12000.

Definition or_else (m : machine) (o : option machine) : machine := match o with Some m => m | None => m end.

Definition demo2 : machine := or_else demo1 (tasks_setup demo1 4096 0 11000).
Definition demo3 : machine := or_else demo2 (start_task demo2 20480 134512640 28000 3221220000 SEL_USER_CS SEL_USER_DS 8192).
Definition demo4 : machine := or_else demo3 (tick demo3).

Lemma demo_machine_inv : ctx_inv demo_lo demo_hi demo2 ∅.
Proof.
  destruct (setup_ok demo_lo demo_hi demo1 4096 (default (mk_ktask (mk_tss 0 0 0 0 0 0 0 0 0 0 0 0 0 0 0 0) 0) (ktasks demo1 !! 4096)) 0 11000) as (m' & E & _ & Hi & _); [by vm_compute|by vm_compute|by vm_compute|done| |by vm_compute|by vm_compute|by vm_compute|].
  - split; [by vm_compute|]. split; [by vm_compute|]. exists (segdescr_taskstate_init 4096 PL_KERN). split; [by vm_compute|]. apply init_descr. by vm_compute.
  - unfold demo2. by rewrite E.
Qed.

Lemma demo_task_start : cstep demo_lo demo_hi demo2 demo3.
Proof.
  apply (c_start _ _ _ 20480 134512640 28000 3221220000 SEL_USER_CS SEL_USER_DS 8192); [|by vm_compute]. constructor.
  - split; [by vm_compute|]. split; [by vm_compute|]. split; [done|by vm_compute].
  - unfold demo_lo, demo_hi. lia.
  - intros u Hu. assert (E : ktasks demo2 = {[ 4096 := default (mk_ktask (mk_tss 0 0 0 0 0 0 0 0 0 0 0 0 0 0 0 0) 0) (ktasks demo2 !! 4096) ]}) by by vm_compute. rewrite E in Hu. destruct Hu as [? Hu]. apply lookup_singleton_Some in Hu as [<- _]. unfold demo_lo, demo_hi. lia.
  - eexists. split; [reflexivity|]. split; by vm_compute.
  - exists (default (TK.mk_task TK.TS_READY 0) (TK.tasks (sched demo2) !! current demo2)). by vm_compute.
  - by vm_compute.
Qed.

Lemma demo_tick : cstep demo_lo demo_hi demo3 demo4.
Proof.
  apply c_tick; [|by vm_compute]. exists 11000. split; [by vm_compute|]. split; [done|]. split; [by vm_compute|]. intros _. split; [by vm_compute|by vm_compute].
Qed.

(** The kernel's task starts a program, and the first tick runs it. *)
Lemma context_switch_refines_witness : exists a', rtc astep (mk_am ∅ (sched demo2) (r demo2)) a' /\ a_live a' = r demo4 /\ eip (r demo4) = 134512640 /\ cr3 demo4 = 8192 /\ eip (r demo2) = 1048576.
Proof.
  destruct (context_switch_refines demo_lo demo_hi demo2 ∅ demo4) as (a' & H & _ & E & _).
  - exact demo_machine_inv.
  - eapply rtc_l; [exact demo_task_start|]. eapply rtc_l; [exact demo_tick|]. apply rtc_refl.
  - exists a'. split; [exact H|]. split; [symmetry; exact E|]. split; [by vm_compute|]. split; by vm_compute.
Defined.

(** A task of user mode that is preempted inside the kernel never gets its whole
    kernel stack back: the frame is found again by lowering [esp0]. *)
Lemma esp0_creeps m task t : ktasks m !! task = Some t -> task <> 0 -> context_esp m <> 0 -> t_cs (tss t) = SEL_USER_CS -> 0 < context_esp m < t_esp0 (tss t) - 68 -> t_esp0 (tss t) < 4294967296 ->
  exists m' t', task_save_context m task = Some m' /\ ktasks m' !! task = Some t' /\ t_esp0 (tss t') < t_esp0 (tss t).
Proof.
  intros Ht H0 Hc Hcs H1 H2. unfold task_save_context. rewrite (proj2 (Z.eqb_neq task 0)), (proj2 (Z.eqb_neq (context_esp m) 0)), Ht by done. cbn [mbind option_bind]. eexists _, _. split; [done|]. split; [apply lookup_insert_eq|]. cbn [set_esp0 tss t_esp0]. unfold task_sysinfo_size, CONTEXT_SIZE. rewrite Hcs. change (if SEL_USER_CS =? SEL_KERN_CS then 3 else 5) with 5. rewrite u32_small by (unfold in_u32; lia). lia.
Qed.

End CXP.
