(* ===== verification/Screen.v ===== *)
(** * Text consoles (src/dev/screen.c, include/dev/screen.h)

    Module [SC]: the eight consoles with their buffers, the video memory and the
    hardware cursor.  Offsets in [vbuf] count from [vcsa_buf], offsets in
    [video] from [VIDEO_MEM].  [None] stands for a halted processor
    ([HANG_IFNOT]) and for an index outside [vcs_data]. *)

From S2P Require Import Prelude.

Module SC.

Definition SCR_WIDTH : Z := 80.
Definition SCR_HEIGHT : Z := 25.
Definition TAB_INDENT : Z := 8.
Definition N_VCSA_DEVICES : Z := 8.
Definition CONSOLE_VCSA : Z := 0.
Definition VIDEOMEM_VCSA : Z := 127.
Definition VCSA_DEFAULT_ATTRIBUTE : Z := 7.
Definition VCS_DO_NOT_MOVE : Z := -1.
Definition SCR_BYTES : Z := 4000.
Definition ENXIO : Z := 6.
Definition ENODEV : Z := 19.

Record vcs := mk_vcs { line : Z; col : Z; attr : Z }.

(** [hw] is the position last sent to the CRT controller. *)
Record screen := mk_scr { active_vcs : Z; vcs_data : list vcs; vbuf : bmem; video : bmem; hw : Z }.

Definition set_vbuf (s : screen) (b : bmem) : screen := mk_scr (active_vcs s) (vcs_data s) b (video s) (hw s).
Definition set_video (s : screen) (b : bmem) : screen := mk_scr (active_vcs s) (vcs_data s) (vbuf s) b (hw s).
Definition set_vcs (s : screen) (n : Z) (v : vcs) : screen := mk_scr (active_vcs s) (<[Z.to_nat n := v]> (vcs_data s)) (vbuf s) (video s) (hw s).

(** [vcs_data[n]]. *)
Definition vcs_at (s : screen) (n : Z) : option vcs := if 0 <=? n then vcs_data s !! Z.to_nat n else None.

Definition GET_VCSA_BUF (n : Z) : Z := 2 * SCR_WIDTH * SCR_HEIGHT * n.

(** The high and the low byte of the position. *)
Definition move_hw_cursor (s : screen) (cursorX cursorY : Z) : screen :=
  let temp := u32 (cursorY * SCR_WIDTH + cursorX) in
  mk_scr (active_vcs s) (vcs_data s) (vbuf s) (video s) (256 * u8 (Z.shiftr temp 8) + u8 temp).

Definition clear_vga_sym (b : bmem) (buf attr : Z) : bmem := stb (stb b buf 32) (buf + 1) attr.

Definition which_vcs (s : screen) (vcsno : Z) : Z := if vcsno =? VIDEOMEM_VCSA then active_vcs s else vcsno.

Definition vcs_ok (vcsno : Z) : bool := (0 <=? vcsno) && (vcsno <? N_VCSA_DEVICES).

Definition vcsa_set_attribute (s : screen) (vcsno a : Z) : option screen :=
  let vcsno := which_vcs s vcsno in
  let vcsind := if vcsno <? 128 then vcsno else vcsno - 128 in
  if (vcsind <? 0) || (N_VCSA_DEVICES <=? vcsind) then Some s
  else v ← vcs_at s vcsno; Some (set_vcs s vcsno (mk_vcs (line v) (col v) a)).

Definition vcsa_get_attribute (s : screen) (vcsno : Z) : option Z :=
  let vcsno := which_vcs s vcsno in
  let vcsind := if vcsno <? 128 then vcsno else vcsno - 128 in
  if negb (vcs_ok vcsind) then Some VCSA_DEFAULT_ATTRIBUTE
  else v ← vcs_at s vcsind; Some (attr v).

Definition vcsa_set_cursor (s : screen) (vcsno x y : Z) : option screen :=
  let vcsno := which_vcs s vcsno in
  if negb (vcs_ok vcsno) then None
  else
    let x := if SCR_WIDTH <=? x then SCR_WIDTH - 1 else x in
    let y := if SCR_HEIGHT <=? y then SCR_HEIGHT - 1 else y in
    v ← vcs_at s vcsno;
    let v := mk_vcs (if 0 <=? y then y else line v) (if 0 <=? x then x else col v) (attr v) in
    let s := set_vcs s vcsno v in
    Some (if vcsno =? active_vcs s then move_hw_cursor s x y else s).

(** Column and line. *)
Definition vcsa_get_cursor (s : screen) (vcsno : Z) : option (Z * Z) :=
  let vcsno := which_vcs s vcsno in
  if negb (vcs_ok vcsno) then None else v ← vcs_at s vcsno; Some (col v, line v).

Definition update_hw_cursor (s : screen) : option screen :=
  v ← vcs_at s (active_vcs s); Some (move_hw_cursor s (col v) (line v)).

(** [memcpy] from one memory to another. *)
Fixpoint blit (dst : bmem) (d : Z) (src : bmem) (o : Z) (n : nat) : bmem :=
  match n with O => dst | S n => blit (stb dst d (ldb src o)) (d + 1) src (o + 1) n end.

Definition vcsa_refresh (s : screen) : option screen :=
  let s := set_video s (blit (video s) 0 (vbuf s) (GET_VCSA_BUF (active_vcs s)) (Z.to_nat (SCR_HEIGHT * SCR_WIDTH * 2))) in
  update_hw_cursor s.

Inductive vcsa_eraser := VCSA_ERASE_AFTER_CURSOR | VCSA_ERASE_BEFORE_CURSOR | VCSA_ERASE_WHOLE.

#[global] Instance vcsa_eraser_eq_dec : EqDecision vcsa_eraser.
Proof. solve_decision. Defined.

(** The cell before ([before]) or behind the cursor is erased. *)
Definition erases (method : vcsa_eraser) (before : bool) : bool :=
  if before then bool_decide (method <> VCSA_ERASE_AFTER_CURSOR) else bool_decide (method <> VCSA_ERASE_BEFORE_CURSOR).

Fixpoint erase_line_loop (n : nat) (b : bmem) (buf x attr : Z) (method : vcsa_eraser) (j : Z) : bmem :=
  match n with
  | O => b
  | S n =>
      let b := if erases method (j <? x) then clear_vga_sym b buf attr else b in
      erase_line_loop n b (buf + 2) x attr method (j + 1)
  end.

Definition vcsa_erase_line (s : screen) (vcsno : Z) (method : vcsa_eraser) : option screen :=
  v ← vcs_at s vcsno;
  let buf := GET_VCSA_BUF vcsno + 2 * SCR_WIDTH * line v in
  let s := set_vbuf s (erase_line_loop (Z.to_nat SCR_WIDTH) (vbuf s) buf (col v) (attr v) method 0) in
  if vcsno =? active_vcs s then vcsa_refresh s else Some s.

(** The cells of the screen in order: [i] counts lines, [j] columns. *)
Fixpoint erase_screen_loop (n : nat) (b : bmem) (buf x y attr : Z) (method : vcsa_eraser) (i j : Z) : bmem :=
  match n with
  | O => b
  | S n =>
      let before := if i <? y then true else if y <? i then false else j <? x in
      let b := if erases method before then clear_vga_sym b buf attr else b in
      let '(i, j) := if j + 1 <? SCR_WIDTH then (i, j + 1) else (i + 1, 0) in
      erase_screen_loop n b (buf + 2) x y attr method i j
  end.

Definition vcsa_erase_screen (s : screen) (vcsno : Z) (method : vcsa_eraser) : option screen :=
  v ← vcs_at s vcsno;
  let b := erase_screen_loop (Z.to_nat (SCR_HEIGHT * SCR_WIDTH)) (vbuf s) (GET_VCSA_BUF vcsno) (col v) (line v) (attr v) method 0 0 in
  let s := set_vbuf s b in
  if vcsno =? active_vcs s then vcsa_refresh s else Some s.

Definition vcsa_clear (s : screen) (vcsno : Z) : option screen :=
  let vcsno := which_vcs s vcsno in
  if negb (vcs_ok vcsno) then Some s
  else
    v ← vcs_at s vcsno;
    let s := if attr v =? 0 then set_vcs s vcsno (mk_vcs (line v) (col v) VCSA_DEFAULT_ATTRIBUTE) else s in
    s ← vcsa_erase_screen s vcsno VCSA_ERASE_WHOLE;
    s ← vcsa_set_cursor s vcsno 0 0;
    if vcsno =? active_vcs s then vcsa_refresh s else Some s.

Definition vcsa_switch (s : screen) (vcsno : Z) : option screen :=
  if negb (vcs_ok vcsno) then Some s
  else if vcsno =? active_vcs s then Some s
  else vcsa_refresh (mk_scr vcsno (vcs_data s) (vbuf s) (video s) (hw s)).

(** Cells moved up from [2 * lines * SCR_WIDTH] bytes further. *)
Fixpoint scroll_move (n : nat) (b : bmem) (buf lines : Z) : bmem :=
  match n with
  | O => b
  | S n =>
      let b := stb b buf (ldb b (buf + 2 * lines * SCR_WIDTH)) in
      let b := stb b (buf + 1) (ldb b (buf + 2 * lines * SCR_WIDTH + 1)) in
      scroll_move n b (buf + 2) lines
  end.

Fixpoint scroll_clear (n : nat) (b : bmem) (buf attr : Z) : bmem :=
  match n with O => b | S n => scroll_clear n (clear_vga_sym b buf attr) (buf + 2) attr end.

Definition vcsa_scroll_lines (s : screen) (vcsno lines : Z) : option screen :=
  let vcsno := which_vcs s vcsno in
  v ← vcs_at s vcsno;
  let buf := GET_VCSA_BUF vcsno in
  let moved := Z.max 0 ((SCR_HEIGHT - lines) * SCR_WIDTH) in
  let b := scroll_move (Z.to_nat moved) (vbuf s) buf lines in
  let b := scroll_clear (Z.to_nat (lines * SCR_WIDTH)) b (buf + 2 * moved) (attr v) in
  let s := set_vbuf s b in
  if vcsno =? active_vcs s then vcsa_refresh s else Some s.

Definition vcsa_move_cursor_by (s : screen) (vcsno dx dy : Z) : option screen :=
  if negb (vcs_ok vcsno) then Some s
  else
    v ← vcs_at s vcsno;
    let '(ln, scr_ln) :=
      if SCR_HEIGHT <=? line v + dy then (SCR_HEIGHT - 1, line v + dy - (SCR_HEIGHT - 1))
      else if line v + dy <? 0 then (0, 0) else (line v + dy, 0) in
    let cl := if SCR_WIDTH <=? col v + dx then SCR_WIDTH - 1 else if col v + dx <? 0 then 0 else col v + dx in
    let s := set_vcs s vcsno (mk_vcs ln cl (attr v)) in
    if negb (scr_ln =? 0) then vcsa_scroll_lines s vcsno scr_ln else Some s.

Definition vcsa_newline (s : screen) (vcsno : Z) : option screen :=
  v ← vcs_at s vcsno;
  let ln := line v in
  let s := set_vcs s vcsno (mk_vcs ln 0 (attr v)) in
  s ← (if u32 (ln + 1) <? SCR_HEIGHT then Some (set_vcs s vcsno (mk_vcs (ln + 1) 0 (attr v))) else vcsa_scroll_lines s vcsno 1);
  if vcsno =? active_vcs s then update_hw_cursor s else Some s.

Definition vcsa_move_cursor_back (s : screen) (vcsno : Z) : option screen :=
  '(x, y) ← vcsa_get_cursor s vcsno;
  if (y =? 0) && (x =? 0) then Some s
  else if x =? 0 then vcsa_set_cursor s vcsno (SCR_WIDTH - 1) (y - 1)
  else vcsa_set_cursor s vcsno (x - 1) y.

Definition vcsa_move_cursor_tabstop (s : screen) (vcsno : Z) : option screen :=
  '(x, y) ← vcsa_get_cursor s vcsno;
  let x := TAB_INDENT * (1 + x / TAB_INDENT) in
  let x := if SCR_WIDTH <=? x then SCR_WIDTH - 1 else x in
  vcsa_set_cursor s vcsno x y.

Definition vcsa_move_cursor_next (s : screen) (vcsno : Z) : option screen :=
  v ← vcs_at s vcsno;
  let cl := u32 (col v + 1) in
  s ← (if cl <? SCR_WIDTH then Some (set_vcs s vcsno (mk_vcs (line v) cl (attr v))) else vcsa_newline s vcsno);
  if vcsno =? active_vcs s then update_hw_cursor s else Some s.

Definition vcsa_set_char (s : screen) (vcsno c : Z) : option screen :=
  let vcsno := which_vcs s vcsno in
  if negb (vcs_ok vcsno) then None
  else
    v ← vcs_at s vcsno;
    let o := 2 * (SCR_WIDTH * line v + col v) in
    let buf := GET_VCSA_BUF vcsno + o in
    let b := stb (stb (vbuf s) buf c) (buf + 1) (attr v) in
    let s := set_vbuf s b in
    Some (if vcsno =? active_vcs s then set_video s (stb (stb (video s) o (ldb b buf)) (o + 1) (ldb b (buf + 1))) else s).

Definition vcsa_cprint (s : screen) (vcsno c : Z) : option screen :=
  let vcsno := which_vcs s vcsno in
  if negb (vcs_ok vcsno) then None
  else s ← vcsa_set_char s vcsno c; vcsa_move_cursor_next s vcsno.

(** ** Device operations *)

(** [GET_VCSA_BUF(dev->dev_no - 0x80)]: the macro does not put its argument in
    parentheses, so the product takes the device number and 128 bytes are
    subtracted from the result. *)
Definition GET_VCSA_BUF_of_devno (dev_no : Z) : Z := 2 * SCR_WIDTH * SCR_HEIGHT * dev_no - 128.

(** Where a line is: in video memory or in the buffers, and at which offset. *)
Definition vcsa_get_line (dev_no ln : Z) : option (bool * Z) :=
  if (dev_no <? 128) || (128 + N_VCSA_DEVICES <=? dev_no) then None
  else if (ln <? 0) || (SCR_HEIGHT <=? ln) then None
  else if dev_no =? 128 then Some (true, 2 * SCR_WIDTH * ln)
  else Some (false, GET_VCSA_BUF_of_devno dev_no).

(** [None] when the copy reads behind the buffers. *)
Definition vcsa_refresh_line (s : screen) (dev_no ln : Z) : option (screen * Z) :=
  if (dev_no <? 128) || (128 + N_VCSA_DEVICES <=? dev_no) then Some (s, ENODEV)
  else if (ln <? 0) || (SCR_HEIGHT <=? ln) then Some (s, ENXIO)
  else if dev_no - 128 =? active_vcs s then
    let off := 2 * SCR_WIDTH * ln in
    let bmem := GET_VCSA_BUF_of_devno dev_no + off in
    if GET_VCSA_BUF N_VCSA_DEVICES <? bmem + 2 * SCR_WIDTH then None
    else Some (set_video s (blit (video s) off (vbuf s) bmem (Z.to_nat (2 * SCR_WIDTH))), 0)
  else Some (s, 0).

(** The memory and the offset that reading and writing start at, and the number
    of bytes; [inr] is the error. *)
Definition vcsa_range (dev_no buflen pos : Z) : (bool * Z * Z) + Z :=
  let vcs_index := if 128 <=? dev_no then dev_no - 128 else dev_no in
  if (vcs_index <? 0) || (N_VCSA_DEVICES <=? vcs_index) then inr ENODEV
  else
    let scrsize := SCR_WIDTH * SCR_HEIGHT in
    let vsize := 2 * scrsize in
    let vcsa_mode := negb (dev_no <? 128) in
    let vpos := u32 (if vcsa_mode then pos else 2 * pos) in
    if vsize <? vpos then inr ENXIO
    else
      let n :=
        if vcsa_mode then (if vsize <? u32 (vpos + buflen) then vsize - vpos else buflen)
        else (if scrsize <? u32 (pos + buflen) then u32 (scrsize - pos) else buflen) in
      inl (0 <? vcs_index, (if 0 <? vcs_index then 0 else GET_VCSA_BUF vcs_index) + vpos, n).

Fixpoint vread_loop (n : nat) (b : bmem) (o stride : Z) : list Z :=
  match n with O => [] | S n => ldb b o :: vread_loop n b (o + stride) stride end.

(** The bytes read, or the error. *)
Definition vcsa_read (s : screen) (dev_no buflen pos : Z) : list Z + Z :=
  match vcsa_range dev_no buflen pos with
  | inr e => inr e
  | inl (vid, o, n) => inl (vread_loop (Z.to_nat n) (if vid then video s else vbuf s) o (if dev_no <? 128 then 2 else 1))
  end.

Fixpoint vwrite_loop (b : bmem) (o stride : Z) (data : list Z) : bmem :=
  match data with [] => b | c :: data => vwrite_loop (stb b o c) (o + stride) stride data end.

(** The number of bytes written, or the error. *)
Definition vcsa_write (s : screen) (dev_no : Z) (buf : list Z) (pos : Z) : screen * (Z + Z) :=
  match vcsa_range dev_no (Z.of_nat (length buf)) pos with
  | inr e => (s, inr e)
  | inl (vid, o, n) =>
      let data := take (Z.to_nat n) buf in
      let stride := if dev_no <? 128 then 2 else 1 in
      ((if vid then set_video s (vwrite_loop (video s) o stride data) else set_vbuf s (vwrite_loop (vbuf s) o stride data)), inl n)
  end.

(** The minor numbers that have a device. *)
Definition get_vcs_device (dev_no : Z) : bool :=
  (dev_no <? N_VCSA_DEVICES) || ((128 <=? dev_no) && (dev_no <? 128 + N_VCSA_DEVICES)).

Fixpoint init_loop (n : nat) (s : screen) (i : Z) : option screen :=
  match n with
  | O => Some s
  | S n =>
      v ← vcs_at s i;
      let s := set_vcs s i (mk_vcs (line v) (col v) VCSA_DEFAULT_ATTRIBUTE) in
      s ← (if i =? active_vcs s then Some (set_vbuf s (blit (vbuf s) (GET_VCSA_BUF i) (video s) 0 (Z.to_nat (SCR_HEIGHT * SCR_WIDTH * 2))))
           else vcsa_clear s i);
      init_loop n s (i + 1)
  end.

Definition init_vcs_devices (s : screen) : option screen :=
  init_loop (Z.to_nat N_VCSA_DEVICES) (mk_scr CONSOLE_VCSA (vcs_data s) (vbuf s) (video s) (hw s)) 0.

(** ** Console printing *)

Definition cprint (s : screen) (c : Z) : option screen :=
  s ← (if c =? 10 then vcsa_newline s CONSOLE_VCSA
       else if c =? 13 then vcsa_set_cursor s CONSOLE_VCSA 0 VCS_DO_NOT_MOVE
       else if c =? 9 then vcsa_move_cursor_tabstop s CONSOLE_VCSA
       else if c =? 8 then vcsa_move_cursor_back s CONSOLE_VCSA
       else vcsa_cprint s CONSOLE_VCSA c);
  if CONSOLE_VCSA =? active_vcs s then update_hw_cursor s else Some s.

(** [k_vprintf] of the text the format gives. *)
Fixpoint print_text (s : screen) (text : list Z) : option screen :=
  match text with [] => Some s | c :: text => s ← cprint s c; print_text s text end.

Definition k_print (s : screen) (text : list Z) : option screen :=
  s ← print_text s text;
  if active_vcs s =? CONSOLE_VCSA then vcsa_refresh s else Some s.

End SC.
