(* ===== verification/ScreenProofs.v ===== *)
(** * Correctness of the text consoles

    Module [SCP]: what the consoles keep between operations, that operations on
    one console leave the others alone, and printing as an abstract terminal. *)

From S2P Require Import Prelude Screen.
Import SC.

Module SCP.

(** ** Loops over cells *)

Lemma ldb_blit dst d src o n b :
  ldb (blit dst d src o n) b = if (d <=? b) && (b <? d + Z.of_nat n) then ldb src (o + (b - d)) else ldb dst b.
Proof.
  revert dst d o. induction n as [|n IH]; intros dst d o; cbn [blit]; [repeat (case_if; try lia); done|].
  rewrite IH, ldb_stb. destruct (Z.eqb_spec d b) as [->|Hne]; repeat (case_if; try lia); try done; f_equal; lia.
Qed.

(** Only the bytes from [lo] up to [hi] differ. *)
Definition only_within (lo hi : Z) (b b' : bmem) : Prop := forall o, o < lo \/ hi <= o -> ldb b' o = ldb b o.

Lemma only_refl lo hi b : only_within lo hi b b.
Proof. by intros o Ho. Qed.

Lemma only_trans lo hi b1 b2 b3 : only_within lo hi b1 b2 -> only_within lo hi b2 b3 -> only_within lo hi b1 b3.
Proof. intros H1 H2 o Ho. by rewrite H2, H1. Qed.

Lemma only_weaken lo hi lo' hi' b b' : only_within lo hi b b' -> lo' <= lo -> hi <= hi' -> only_within lo' hi' b b'.
Proof. intros H H1 H2 o Ho. apply H. lia. Qed.

Lemma only_stb lo hi b o v : lo <= o < hi -> only_within lo hi b (stb b o v).
Proof. intros Ho o' Ho'. rewrite ldb_stb. case_if; [lia|done]. Qed.

Lemma only_clear b o a : only_within o (o + 2) b (clear_vga_sym b o a).
Proof. eapply only_trans; apply only_stb; lia. Qed.

#[local] Hint Resolve only_refl only_clear : cosec.

Lemma erase_line_only n : forall b buf x a me j, only_within buf (buf + 2 * Z.of_nat n) b (erase_line_loop n b buf x a me j).
Proof.
  induction n as [|n IH]; intros b buf x a me j; cbn [erase_line_loop]; [apply only_refl|].
  eapply only_trans; [|eapply only_weaken; [apply IH|lia|lia]]. case_if; [|apply only_refl]. eapply only_weaken; [apply only_clear|lia|lia].
Qed.

Lemma erase_screen_only n : forall b buf x y a me i j, only_within buf (buf + 2 * Z.of_nat n) b (erase_screen_loop n b buf x y a me i j).
Proof.
  induction n as [|n IH]; intros b buf x y a me i j; cbn [erase_screen_loop]; [apply only_refl|]. destruct (if j + 1 <? SCR_WIDTH then _ else _) as [i' j'].
  eapply only_trans; [|eapply only_weaken; [apply IH|lia|lia]]. case_if; [|apply only_refl]. eapply only_weaken; [apply only_clear|lia|lia].
Qed.

Lemma scroll_clear_only n : forall b buf a, only_within buf (buf + 2 * Z.of_nat n) b (scroll_clear n b buf a).
Proof.
  induction n as [|n IH]; intros b buf a; cbn [scroll_clear]; [apply only_refl|].
  eapply only_trans; [|eapply only_weaken; [apply IH|lia|lia]]. eapply only_weaken; [apply only_clear|lia|lia].
Qed.

(** The bytes of a moved cell come from [lines] lines below, as they were. *)
Lemma scroll_move_bytes n : forall b buf lines o, 0 < lines ->
  ldb (scroll_move n b buf lines) o = if (buf <=? o) && (o <? buf + 2 * Z.of_nat n) then ldb b (o + 160 * lines) else ldb b o.
Proof.
  induction n as [|n IH]; intros b buf lines o Hl; cbn [scroll_move]; [repeat (case_if; try lia); done|]. unfold SCR_WIDTH.
  rewrite IH by done. rewrite !ldb_stb. repeat (match goal with |- context [?p =? ?q] => destruct (Z.eqb_spec p q); [try lia|try lia] end);
  repeat (case_if; try lia); try done; f_equal; lia.
Qed.

Lemma scroll_move_only n b buf lines : 0 < lines -> only_within buf (buf + 2 * Z.of_nat n) b (scroll_move n b buf lines).
Proof. intros Hl o Ho. rewrite scroll_move_bytes by done. repeat (case_if; try lia); done. Qed.

#[global] Opaque blit erase_line_loop erase_screen_loop scroll_move scroll_clear.

(** ** What the consoles keep *)

Definition cursor_ok (v : vcs) : Prop := 0 <= line v < 25 /\ 0 <= col v < 80.

(** Cursors are on the screen and the video memory shows the active console. *)
Record scr_wf (s : screen) : Prop := {
  sw_len : length (vcs_data s) = 8%nat;
  sw_active : 0 <= active_vcs s < 8;
  sw_cursors : Forall cursor_ok (vcs_data s);
  sw_shown : forall o, 0 <= o < 4000 -> ldb (video s) o = ldb (vbuf s) (4000 * active_vcs s + o) }.

(** Only console [n] differs, in its buffer, cursor and attribute. *)
Record only_vcs (n : Z) (s s' : screen) : Prop := {
  ov_active : active_vcs s' = active_vcs s;
  ov_data : forall k, k <> Z.to_nat n -> vcs_data s' !! k = vcs_data s !! k;
  ov_buf : only_within (4000 * n) (4000 * n + 4000) (vbuf s) (vbuf s') }.

Lemma only_vcs_refl n s : only_vcs n s s.
Proof. constructor; [done|done|apply only_refl]. Qed.

Lemma only_vcs_trans n s1 s2 s3 : only_vcs n s1 s2 -> only_vcs n s2 s3 -> only_vcs n s1 s3.
Proof.
  intros [A1 B1 C1] [A2 B2 C2]. constructor; [congruence| |by eapply only_trans]. intros k Hk. by rewrite B2, B1.
Qed.

#[local] Hint Resolve only_vcs_refl : cosec.

Lemma vcs_there s n : scr_wf s -> 0 <= n < 8 -> exists v, vcs_at s n = Some v /\ cursor_ok v /\ vcs_data s !! Z.to_nat n = Some v.
Proof.
  intros [Hl _ Hc _] Hn. unfold vcs_at. rewrite (proj2 (Z.leb_le 0 n)) by lia.
  destruct (lookup_lt_is_Some_2 (vcs_data s) (Z.to_nat n)) as [v Hv]; [lia|]. rewrite Hv. exists v. split; [done|]. split; [|done]. by apply (Forall_lookup_1 _ _ _ _ Hc Hv).
Qed.

Lemma vcs_at_set s n v : scr_wf s -> 0 <= n < 8 -> vcs_at (set_vcs s n v) n = Some v.
Proof.
  intros [Hl _ _ _] Hn. unfold vcs_at. rewrite (proj2 (Z.leb_le 0 n)) by lia. simpl. apply list_lookup_insert_eq. lia.
Qed.

Lemma set_vcs_ok s n v : scr_wf s -> 0 <= n < 8 -> cursor_ok v -> scr_wf (set_vcs s n v) /\ only_vcs n s (set_vcs s n v).
Proof.
  intros [Hl Ha Hc Hs] Hn Hv. split.
  - constructor; simpl; [by rewrite length_insert|done|by apply Forall_insert|done].
  - constructor; [done| |apply only_refl]. intros k Hk. simpl. by rewrite list_lookup_insert_ne.
Qed.

Lemma move_hw_ok s x y : scr_wf s -> scr_wf (move_hw_cursor s x y).
Proof. by intros []. Qed.

Lemma update_hw_ok s : scr_wf s -> exists h, update_hw_cursor s = Some (mk_scr (active_vcs s) (vcs_data s) (vbuf s) (video s) h).
Proof.
  intros Hwf. destruct (vcs_there s (active_vcs s) Hwf) as (v & Hv & _); [apply Hwf|]. unfold update_hw_cursor. rewrite Hv. eexists. done.
Qed.

(** A new buffer for console [n], shown when the console is active. *)
Lemma put_buf_ok s n b : scr_wf s -> 0 <= n < 8 -> only_within (4000 * n) (4000 * n + 4000) (vbuf s) b ->
  exists s', (if n =? active_vcs (set_vbuf s b) then vcsa_refresh (set_vbuf s b) else Some (set_vbuf s b)) = Some s' /\
    scr_wf s' /\ only_vcs n s s' /\ vbuf s' = b /\ vcs_data s' = vcs_data s.
Proof.
  intros Hwf Hn Hb. pose proof Hwf as [Hl Ha Hc Hs]. simpl. destruct (Z.eqb_spec n (active_vcs s)) as [E|E].
  - destruct (vcs_there s (active_vcs s) Hwf) as (v & Hv & _); [done|]. unfold vcsa_refresh, update_hw_cursor. cbv zeta.
    change (vcs_at (set_video (set_vbuf s b) _) (active_vcs (set_video (set_vbuf s b) _))) with (vcs_at s (active_vcs s)). rewrite Hv. cbn [mbind option_bind].
    eexists. split; [done|]. split; [|split; [by constructor|done]]. constructor; simpl; [done|done|done|]. intros o Ho.
    rewrite ldb_blit. unfold GET_VCSA_BUF, SCR_WIDTH, SCR_HEIGHT. change (Z.of_nat (Z.to_nat (25 * 80 * 2))) with 4000. repeat (case_if; try lia). f_equal. lia.
  - eexists. split; [done|]. split; [|split; [by constructor|done]]. constructor; simpl; [done|done|done|]. intros o Ho. rewrite Hs, Hb by lia. done.
Qed.

(** ** Every operation keeps the invariant and the other consoles *)

Definition keeps (n : Z) (s : screen) (r : option screen) : Prop := exists s', r = Some s' /\ scr_wf s' /\ only_vcs n s s'.

Lemma keeps_ret n s : scr_wf s -> keeps n s (Some s).
Proof. intros Hwf. exists s. split; [done|]. split; [done|apply only_vcs_refl]. Qed.

Lemma keeps_bind n s r f : keeps n s r -> (forall s1, scr_wf s1 -> only_vcs n s s1 -> keeps n s1 (f s1)) -> keeps n s (r ≫= f).
Proof.
  intros (s1 & -> & H1 & H2) Hf. destruct (Hf s1 H1 H2) as (s2 & E & H3 & H4). exists s2. split; [done|]. split; [done|]. by eapply only_vcs_trans.
Qed.

Lemma keeps_from n s s1 r : only_vcs n s s1 -> keeps n s1 r -> keeps n s r.
Proof. intros H (s2 & -> & H1 & H2). exists s2. split; [done|]. split; [done|]. by eapply only_vcs_trans. Qed.

Lemma keeps_update_hw n s : scr_wf s -> keeps n s (update_hw_cursor s).
Proof.
  intros Hwf. destruct (update_hw_ok s Hwf) as [h ->]. eexists. split; [done|]. split; [by destruct Hwf|]. constructor; [done|done|apply only_refl].
Qed.

Lemma which_vcs_id s n : 0 <= n < 8 -> which_vcs s n = n.
Proof. intros Hn. unfold which_vcs, VIDEOMEM_VCSA. by rewrite (proj2 (Z.eqb_neq n 127)) by lia. Qed.

Lemma vcs_ok_true n : 0 <= n < 8 -> vcs_ok n = true.
Proof. intros Hn. unfold vcs_ok, N_VCSA_DEVICES. lia. Qed.

(** Opens an operation on console [n]: its guards hold and its state is there. *)
Ltac open_vcs s n Hwf Hn v Hv Hcv :=
  destruct (vcs_there s n Hwf Hn) as (v & Hv & Hcv & _);
  rewrite ?(which_vcs_id s n Hn), ?(vcs_ok_true n Hn); cbn [negb]; rewrite ?Hv; cbn [mbind option_bind].

Lemma keeps_put_buf s n b : scr_wf s -> 0 <= n < 8 -> only_within (4000 * n) (4000 * n + 4000) (vbuf s) b ->
  keeps n s (if n =? active_vcs (set_vbuf s b) then vcsa_refresh (set_vbuf s b) else Some (set_vbuf s b)).
Proof. intros H1 H2 H3. destruct (put_buf_ok s n b H1 H2 H3) as (s' & E & Hw & Ho & _). by exists s'. Qed.

Lemma keeps_refresh s n : scr_wf s -> 0 <= n < 8 -> keeps n s (if n =? active_vcs s then vcsa_refresh s else Some s).
Proof.
  intros Hwf Hn. pose proof (keeps_put_buf s n (vbuf s) Hwf Hn (only_refl _ _ _)) as H. by destruct s.
Qed.

Lemma keeps_set_attribute s n a : scr_wf s -> 0 <= n < 8 -> keeps n s (vcsa_set_attribute s n a).
Proof.
  intros Hwf Hn. unfold vcsa_set_attribute. cbv zeta. open_vcs s n Hwf Hn v Hv Hcv. rewrite (proj2 (Z.ltb_lt n 128)), (proj2 (Z.ltb_ge n 0)) by lia.
  unfold N_VCSA_DEVICES. rewrite (proj2 (Z.leb_gt 8 n)) by lia. cbn [orb].  eexists. split; [done|]. by apply set_vcs_ok.
Qed.

Lemma keeps_set_cursor s n x y : scr_wf s -> 0 <= n < 8 -> keeps n s (vcsa_set_cursor s n x y).
Proof.
  intros Hwf Hn. unfold vcsa_set_cursor. cbv zeta. open_vcs s n Hwf Hn v Hv Hcv. unfold SCR_WIDTH, SCR_HEIGHT.
  set (x' := if 80 <=? x then 80 - 1 else x). set (y' := if 25 <=? y then 25 - 1 else y). set (w := mk_vcs _ _ _).
  assert (Hw : cursor_ok w). { unfold cursor_ok, w in *. simpl. unfold x', y'. destruct (Z.leb_spec 80 x), (Z.leb_spec 25 y); repeat case_match; lia. }
  destruct (set_vcs_ok s n w Hwf Hn Hw) as [H1 H2]. eexists. split; [done|]. case_if; [|done]. split; [by apply move_hw_ok|].
  eapply only_vcs_trans; [done|]. constructor; [done|done|apply only_refl].
Qed.

Lemma keeps_erase_line s n me : scr_wf s -> 0 <= n < 8 -> keeps n s (vcsa_erase_line s n me).
Proof.
  intros Hwf Hn. unfold vcsa_erase_line. open_vcs s n Hwf Hn v Hv Hcv. apply keeps_put_buf; [done|done|].
  destruct Hcv as [Hl Hc]. unfold GET_VCSA_BUF, SCR_WIDTH, SCR_HEIGHT. eapply only_weaken; [apply erase_line_only|lia|]. change (Z.of_nat (Z.to_nat 80)) with 80. lia.
Qed.

Lemma keeps_erase_screen s n me : scr_wf s -> 0 <= n < 8 -> keeps n s (vcsa_erase_screen s n me).
Proof.
  intros Hwf Hn. unfold vcsa_erase_screen. open_vcs s n Hwf Hn v Hv Hcv. apply keeps_put_buf; [done|done|].
  unfold GET_VCSA_BUF, SCR_WIDTH, SCR_HEIGHT. eapply only_weaken; [apply erase_screen_only|lia|]. change (Z.of_nat (Z.to_nat (25 * 80))) with 2000. lia.
Qed.

Lemma keeps_clear s n : scr_wf s -> 0 <= n < 8 -> keeps n s (vcsa_clear s n).
Proof.
  intros Hwf Hn. unfold vcsa_clear. cbv zeta. open_vcs s n Hwf Hn v Hv Hcv.
  set (s0 := if attr v =? 0 then _ else s). assert (H0 : scr_wf s0 /\ only_vcs n s s0).
  { unfold s0. case_if; [by apply set_vcs_ok|]. split; [done|apply only_vcs_refl]. }
  destruct H0 as [H0 H0']. apply (keeps_from n s s0 _ H0'). apply keeps_bind; [by apply keeps_erase_screen|]. intros s1 H1 _.
  apply keeps_bind; [by apply keeps_set_cursor|]. intros s2 H2 _. by apply keeps_refresh.
Qed.

Lemma keeps_scroll s n lines : scr_wf s -> 0 <= n < 8 -> 0 < lines <= 25 -> keeps n s (vcsa_scroll_lines s n lines).
Proof.
  intros Hwf Hn Hl. unfold vcsa_scroll_lines. cbv zeta. open_vcs s n Hwf Hn v Hv Hcv. apply keeps_put_buf; [done|done|].
  unfold GET_VCSA_BUF, SCR_WIDTH, SCR_HEIGHT. set (mv := Z.max 0 ((25 - lines) * 80)). assert (Hmv : mv = (25 - lines) * 80) by lia.
  apply (only_trans _ _ _ (scroll_move (Z.to_nat mv) (vbuf s) (2 * 80 * 25 * n) lines)); (eapply only_weaken; [first [apply scroll_move_only; lia|apply scroll_clear_only]|lia|rewrite Z2Nat.id by lia; lia]).
Qed.

Lemma keeps_move_by s n dx dy : scr_wf s -> 0 <= n < 8 -> dy <= 25 -> keeps n s (vcsa_move_cursor_by s n dx dy).
Proof.
  intros Hwf Hn Hdy. unfold vcsa_move_cursor_by. open_vcs s n Hwf Hn v Hv Hcv. unfold SCR_HEIGHT, SCR_WIDTH. destruct Hcv as [Hcl Hcc].
  set (cl := if 80 <=? col v + dx then _ else _). assert (Hc : 0 <= cl < 80) by (unfold cl; repeat case_match; lia).
  destruct (Z.leb_spec 25 (line v + dy)).
  - rewrite (proj2 (Z.eqb_neq (line v + dy - (25 - 1)) 0)) by lia. cbn [negb].
    destruct (set_vcs_ok s n (mk_vcs (25 - 1) cl (attr v)) Hwf Hn) as [H1 H2]; [by split|]. apply (keeps_from n s _ _ H2). by apply keeps_scroll; [|done|lia].
  - destruct (Z.ltb_spec (line v + dy) 0); cbn [Z.eqb negb]; eexists; (split; [done|]); apply set_vcs_ok; (done || (split; simpl; lia)).
Qed.

Lemma keeps_newline s n : scr_wf s -> 0 <= n < 8 -> keeps n s (vcsa_newline s n).
Proof.
  intros Hwf Hn. unfold vcsa_newline. cbv zeta. open_vcs s n Hwf Hn v Hv Hcv. destruct Hcv as [Hcl Hcc].
  destruct (set_vcs_ok s n (mk_vcs (line v) 0 (attr v)) Hwf Hn) as [H1 H2]; [split; simpl; lia|]. apply (keeps_from n s _ _ H2).
  apply keeps_bind; [|intros s1 Hs1 _; case_if; [by apply keeps_update_hw|by apply keeps_ret]].
  rewrite u32_small by (unfold in_u32; change (2 ^ 32) with 4294967296; lia). unfold SCR_HEIGHT. destruct (Z.ltb_spec (line v + 1) 25).
  - eexists. split; [done|]. apply set_vcs_ok; [done|done|split; simpl; lia].
  - by apply keeps_scroll; [|done|lia].
Qed.

Lemma get_cursor_ok s n : scr_wf s -> 0 <= n < 8 -> exists x y, vcsa_get_cursor s n = Some (x, y) /\ 0 <= x < 80 /\ 0 <= y < 25.
Proof.
  intros Hwf Hn. unfold vcsa_get_cursor. cbv zeta. open_vcs s n Hwf Hn v Hv Hcv. destruct Hcv. eexists _, _. done.
Qed.

Lemma keeps_back s n : scr_wf s -> 0 <= n < 8 -> keeps n s (vcsa_move_cursor_back s n).
Proof.
  intros Hwf Hn. unfold vcsa_move_cursor_back. destruct (get_cursor_ok s n Hwf Hn) as (x & y & -> & _). cbn [mbind option_bind].
  repeat case_if; first [by apply keeps_ret|by apply keeps_set_cursor].
Qed.

Lemma keeps_tabstop s n : scr_wf s -> 0 <= n < 8 -> keeps n s (vcsa_move_cursor_tabstop s n).
Proof.
  intros Hwf Hn. unfold vcsa_move_cursor_tabstop. destruct (get_cursor_ok s n Hwf Hn) as (x & y & -> & _). by apply keeps_set_cursor.
Qed.

Lemma keeps_next s n : scr_wf s -> 0 <= n < 8 -> keeps n s (vcsa_move_cursor_next s n).
Proof.
  intros Hwf Hn. unfold vcsa_move_cursor_next. cbv zeta. open_vcs s n Hwf Hn v Hv Hcv. destruct Hcv as [Hcl Hcc].
  apply keeps_bind; [|intros s1 Hs1 _; case_if; [by apply keeps_update_hw|by apply keeps_ret]].
  rewrite u32_small by (unfold in_u32; change (2 ^ 32) with 4294967296; lia). unfold SCR_WIDTH. destruct (Z.ltb_spec (col v + 1) 80).
  - eexists. split; [done|]. apply set_vcs_ok; [done|done|split; simpl; lia].
  - by apply keeps_newline.
Qed.

Lemma keeps_set_char s n c : scr_wf s -> 0 <= n < 8 -> keeps n s (vcsa_set_char s n c).
Proof.
  intros Hwf Hn. unfold vcsa_set_char. cbv zeta. open_vcs s n Hwf Hn v Hv Hcv. destruct Hcv as [Hcl Hcc]. unfold GET_VCSA_BUF, SCR_WIDTH, SCR_HEIGHT.
  set (o := 2 * (80 * line v + col v)). assert (Ho : 0 <= o < 3999) by (unfold o; lia). replace (2 * 80 * 25 * n) with (4000 * n) by lia.
  set (b := stb _ (4000 * n + o + 1) _). assert (Hb : only_within (4000 * n) (4000 * n + 4000) (vbuf s) b).
  { eapply only_trans; apply only_stb; lia. }
  pose proof Hwf as [Hl Ha Hcs Hs]. eexists. split; [done|]. simpl. destruct (Z.eqb_spec n (active_vcs s)) as [E|E]; (split; [|by constructor]); constructor; simpl; try done.
  - intros q Hq. rewrite !ldb_stb. unfold b. rewrite !ldb_stb. rewrite <- E in *.
    repeat (match goal with |- context [?p =? ?q] => destruct (Z.eqb_spec p q); [try lia|try lia] end); try done. by apply Hs.
  - intros q Hq. rewrite Hs, Hb by lia. done.
Qed.

Lemma keeps_cprint s n c : scr_wf s -> 0 <= n < 8 -> keeps n s (vcsa_cprint s n c).
Proof.
  intros Hwf Hn. unfold vcsa_cprint. rewrite (which_vcs_id s n Hn), (vcs_ok_true n Hn). cbn [negb].
  apply keeps_bind; [by apply keeps_set_char|]. intros s1 H1 _. by apply keeps_next.
Qed.

Lemma switch_ok s n : scr_wf s -> 0 <= n < 8 ->
  exists s', vcsa_switch s n = Some s' /\ scr_wf s' /\ vcs_data s' = vcs_data s /\ vbuf s' = vbuf s.
Proof.
  intros Hwf Hn. unfold vcsa_switch. rewrite (vcs_ok_true n Hn). cbn [negb]. destruct (Z.eqb_spec n (active_vcs s)) as [E|E]; [by exists s|].
  pose proof Hwf as [Hl Ha Hc Hs]. destruct (vcs_there s n Hwf Hn) as (v & Hv & _). unfold vcsa_refresh, update_hw_cursor. cbv zeta.
  change (vcs_at (set_video _ _) _) with (vcs_at s n). rewrite Hv. cbn [mbind option_bind]. eexists. split; [done|]. split; [|done].
  constructor; simpl; [done|done|done|]. intros o Ho. rewrite ldb_blit. unfold GET_VCSA_BUF, SCR_WIDTH, SCR_HEIGHT.
  change (Z.of_nat (Z.to_nat (25 * 80 * 2))) with 4000. repeat (case_if; try lia). f_equal. lia.
Qed.

(** The operations of the screen on its consoles. *)
Inductive scr_op :=
  | OpAttr (n a : Z) | OpCursor (n x y : Z) | OpEraseLine (n : Z) (me : vcsa_eraser) | OpEraseScreen (n : Z) (me : vcsa_eraser)
  | OpClear (n : Z) | OpSwitch (n : Z) | OpMove (n dx dy : Z) | OpNewline (n : Z) | OpBack (n : Z) | OpTab (n : Z)
  | OpChar (n c : Z) | OpPrint (n c : Z).

Definition op_run (s : screen) (op : scr_op) : option screen :=
  match op with
  | OpAttr n a => vcsa_set_attribute s n a
  | OpCursor n x y => vcsa_set_cursor s n x y
  | OpEraseLine n me => vcsa_erase_line s n me
  | OpEraseScreen n me => vcsa_erase_screen s n me
  | OpClear n => vcsa_clear s n
  | OpSwitch n => vcsa_switch s n
  | OpMove n dx dy => vcsa_move_cursor_by s n dx dy
  | OpNewline n => vcsa_newline s n
  | OpBack n => vcsa_move_cursor_back s n
  | OpTab n => vcsa_move_cursor_tabstop s n
  | OpChar n c => vcsa_set_char s n c
  | OpPrint n c => vcsa_cprint s n c
  end.

Definition op_vcs (op : scr_op) : Z :=
  match op with
  | OpAttr n _ | OpCursor n _ _ | OpEraseLine n _ | OpEraseScreen n _ | OpClear n | OpSwitch n | OpMove n _ _ | OpNewline n
  | OpBack n | OpTab n | OpChar n _ | OpPrint n _ => n
  end.

(** A console that exists; a cursor is not moved down by more than the height
    of the screen. *)
Definition op_ok (op : scr_op) : bool :=
  vcs_ok (op_vcs op) && match op with OpMove _ _ dy => dy <=? SCR_HEIGHT | _ => true end.

Fixpoint ops_run (s : screen) (ops : list scr_op) : option screen :=
  match ops with [] => Some s | op :: ops => s ← op_run s op; ops_run s ops end.

(** Console [k] has the same cursor, attribute and cells. *)
Definition same_console (k : Z) (s s' : screen) : Prop :=
  vcs_data s' !! Z.to_nat k = vcs_data s !! Z.to_nat k /\ forall o, 4000 * k <= o < 4000 * k + 4000 -> ldb (vbuf s') o = ldb (vbuf s) o.

Lemma same_console_only n k s s' : 0 <= n < 8 -> 0 <= k < 8 -> k <> n -> only_vcs n s s' -> same_console k s s'.
Proof. intros Hn Hk Hne [_ Hd Hb]. split; [apply Hd; lia|]. intros o Ho. apply Hb. lia. Qed.

Lemma op_run_ok s op : scr_wf s -> op_ok op = true ->
  exists s', op_run s op = Some s' /\ scr_wf s' /\ forall k, 0 <= k < 8 -> k <> op_vcs op -> same_console k s s'.
Proof.
  intros Hwf Hop. unfold op_ok in Hop. apply andb_true_iff in Hop as [Hn Hdy]. unfold vcs_ok, N_VCSA_DEVICES in Hn.
  assert (Hn' : 0 <= op_vcs op < 8) by lia. clear Hn.
  assert (K : keeps (op_vcs op) s (op_run s op) -> exists s', op_run s op = Some s' /\ scr_wf s' /\ forall k, 0 <= k < 8 -> k <> op_vcs op -> same_console k s s').
  { intros (s' & E & H1 & H2). exists s'. split; [done|]. split; [done|]. intros k Hk Hne. by apply (same_console_only (op_vcs op)). }
  destruct op as [| | | | |n| | | | | |]; simpl in *; try (apply K; by auto using keeps_set_attribute, keeps_set_cursor, keeps_erase_line, keeps_erase_screen, keeps_clear, keeps_newline,
    keeps_back, keeps_tabstop, keeps_set_char, keeps_cprint).
  - destruct (switch_ok s n Hwf Hn') as (s' & E & H1 & H2 & H3). exists s'. split; [done|]. split; [done|]. intros k _ _. unfold same_console. by rewrite H2, H3.
  - apply K, keeps_move_by; [done|done|]. unfold SCR_HEIGHT in Hdy. lia.
Qed.

Lemma ops_run_ok ops : forall s, scr_wf s -> forallb op_ok ops = true ->
  exists s', ops_run s ops = Some s' /\ scr_wf s' /\ forall k, 0 <= k < 8 -> Forall (fun op => op_vcs op <> k) ops -> same_console k s s'.
Proof.
  induction ops as [|op ops IH]; intros s Hwf Hok; simpl in *.
  - exists s. split; [done|]. split; [done|]. by intros.
  - apply andb_true_iff in Hok as [H1 H2]. destruct (op_run_ok s op Hwf H1) as (s1 & -> & Hw1 & Hs1). cbn [mbind option_bind].
    destruct (IH s1 Hw1 H2) as (s2 & -> & Hw2 & Hs2). exists s2. split; [done|]. split; [done|]. intros k Hk Hf. inversion Hf as [|? ? Hne Hf']; subst.
    destruct (Hs1 k Hk) as [A1 B1]; [done|]. destruct (Hs2 k Hk Hf') as [A2 B2]. split; [congruence|]. intros o Ho. by rewrite B2, B1.
Qed.

Lemma init_loop_S n s i v : vcs_at s i = Some v ->
  init_loop (S n) s i =
    (let s := set_vcs s i (mk_vcs (line v) (col v) VCSA_DEFAULT_ATTRIBUTE) in
     s ← (if i =? active_vcs s then Some (set_vbuf s (blit (vbuf s) (GET_VCSA_BUF i) (video s) 0 (Z.to_nat (SCR_HEIGHT * SCR_WIDTH * 2))))
          else vcsa_clear s i);
     init_loop n s (i + 1)).
Proof. intros E. cbn [init_loop]. by rewrite E. Qed.

(** Setting up the consoles: the text on the screen becomes that of console 0. *)
Lemma init_ok s : length (vcs_data s) = 8%nat -> Forall cursor_ok (vcs_data s) -> exists s', init_vcs_devices s = Some s' /\ scr_wf s'.
Proof.
  intros Hl Hc. unfold init_vcs_devices, N_VCSA_DEVICES. change (Z.to_nat 8) with 8%nat.
  assert (Hrest : forall n i s, scr_wf s -> active_vcs s = 0 -> 0 < i -> i + Z.of_nat n <= 8 -> exists s', init_loop n s i = Some s' /\ scr_wf s').
  { clear. induction n as [|n IH]; intros i s Hwf Ha Hi Hn; [by exists s|]. cbn [init_loop].
    destruct (vcs_there s i Hwf ltac:(lia)) as (v & -> & Hcv & _). cbn [mbind option_bind].
    destruct (set_vcs_ok s i (mk_vcs (line v) (col v) VCSA_DEFAULT_ATTRIBUTE) Hwf ltac:(lia) Hcv) as [H1 H2]. simpl active_vcs. rewrite Ha, (proj2 (Z.eqb_neq i 0)) by lia.
    destruct (keeps_clear _ i H1 ltac:(lia)) as (s1 & -> & Hw1 & Ho1). cbn [mbind option_bind]. apply IH; [done| |lia|lia].
    destruct Ho1 as [-> _ _]. by simpl. }
  destruct (vcs_data s) as [|v l] eqn:Ed; [done|].
  rewrite (init_loop_S 7 _ 0 v) by done. cbn [active_vcs set_vcs]. change (0 =? CONSOLE_VCSA) with true. cbn [mbind option_bind]. apply Hrest; [|done|lia|lia].
  inversion Hc as [|? ? Hv Hc']; subst. constructor; simpl; [done|unfold CONSOLE_VCSA; lia|by constructor|]. intros o Ho. rewrite ldb_blit. unfold CONSOLE_VCSA.
  unfold SCR_HEIGHT, SCR_WIDTH. change (Z.of_nat (Z.to_nat (25 * 80 * 2))) with 4000. unfold GET_VCSA_BUF, SCR_WIDTH, SCR_HEIGHT. repeat (case_if; try lia). f_equal. lia.
Qed.

(** C31: the consoles.  From the set-up on and over every sequence of operations
    on existing consoles (none of which moves a cursor down by more than the
    height of the screen), every operation returns, every cursor is on the
    screen, the video memory shows the active console, and a console on which
    no operation was done keeps its cells, cursor and attribute. *)
Theorem consoles_shown_and_separate boot ops :
  length (vcs_data boot) = 8%nat -> Forall cursor_ok (vcs_data boot) -> forallb op_ok ops = true ->
  exists s0 s, init_vcs_devices boot = Some s0 /\ ops_run s0 ops = Some s /\ scr_wf s /\
    forall k, 0 <= k < 8 -> Forall (fun op => op_vcs op <> k) ops -> same_console k s0 s.
Proof.
  intros Hl Hc Hok. destruct (init_ok boot Hl Hc) as (s0 & E0 & Hw0). destruct (ops_run_ok ops s0 Hw0 Hok) as (s & E & Hw & Hs).
  by exists s0, s.
Qed.

Definition demo_boot : screen := mk_scr 0 (replicate 8 (mk_vcs 0 0 0)) ∅ ∅ 0.

Lemma consoles_shown_and_separate_witness :
  exists s0 s, init_vcs_devices demo_boot = Some s0 /\ ops_run s0 [OpPrint 1 65; OpMove 1 0 25; OpSwitch 1; OpNewline 1] = Some s /\ scr_wf s /\
    forall k, 0 <= k < 8 -> Forall (fun op => op_vcs op <> k) [OpPrint 1 65; OpMove 1 0 25; OpSwitch 1; OpNewline 1] -> same_console k s0 s.
Proof.
  apply (consoles_shown_and_separate demo_boot [OpPrint 1 65; OpMove 1 0 25; OpSwitch 1; OpNewline 1]); [reflexivity| |reflexivity].
  repeat constructor; simpl; lia.
Defined.

(** A cursor moved down by more than the height of the screen clears cells of
    the next console. *)
Lemma scroll_past_end_clears_next :
  (s ← vcsa_set_char demo_boot 1 65; s ← vcsa_move_cursor_by s 0 0 100; Some (ldb (vbuf s) 4000)) = Some 32 /\
  (s ← vcsa_set_char demo_boot 1 65; Some (ldb (vbuf s) 4000)) = Some 65.
Proof. split; vm_compute; reflexivity. Qed.

(** After a carriage return on line 1 the cursor of the controller is the 16
    bits of position -80. *)
Lemma set_cursor_sends_raw_position :
  (s ← vcsa_newline demo_boot 0; s ← vcsa_set_cursor s 0 0 VCS_DO_NOT_MOVE; Some (hw s)) = Some 65456.
Proof. vm_compute. reflexivity. Qed.

(** Every line of a console other than device 128 has the same offset, and it is
    behind the buffers: 4000 bytes for each of the device number, not of the
    console's. *)
Lemma get_line_behind_buffers dev ln : 128 < dev < 136 -> 0 <= ln < 25 ->
  exists off, vcsa_get_line dev ln = Some (false, off) /\ off = 4000 * dev - 128 /\ 4000 * N_VCSA_DEVICES < off.
Proof.
  intros Hd Hl. exists (4000 * dev - 128). unfold vcsa_get_line, GET_VCSA_BUF_of_devno, N_VCSA_DEVICES, SCR_HEIGHT, SCR_WIDTH. repeat (case_if; try lia). split; [do 2 f_equal; lia|lia].
Qed.

(** For the same reason a line of the active console is never refreshed from its
    buffer. *)
Lemma refresh_line_behind_buffers s ln : 0 <= active_vcs s < 8 -> 0 <= ln < 25 -> vcsa_refresh_line s (128 + active_vcs s) ln = None.
Proof.
  intros Ha Hl. unfold vcsa_refresh_line, GET_VCSA_BUF_of_devno, GET_VCSA_BUF, N_VCSA_DEVICES, SCR_HEIGHT, SCR_WIDTH. cbv zeta. repeat (case_if; try lia). done.
Qed.

(** Reading console 1 and console 2 gives the same bytes, those of the video
    memory. *)
Lemma reads_of_consoles_agree s buflen pos : vcsa_read s 1 buflen pos = vcsa_read s 2 buflen pos.
Proof. reflexivity. Qed.

End SCP.
