(* ===== verification/Kbd.v ===== *)
(** * Keyboard (src/dev/kbd.c, include/dev/kbd.h)

    Module [KB]: the ring of scan codes, the layout, the state of the keys, the
    interrupt handler and the functions that wait for a key.  The handlers of
    key events live in other components: the class [KbdClient] says what the
    driver relies on.  Waiting for interrupts takes the list of the scan codes
    that arrive while the processor is halted. *)

From S2P Require Import Prelude.

Module KB.

Definition KEY_COUNT : Z := 128.
Definition KBD_BUF_SIZE : Z := 256.
Definition ALT_MOD : Z := 56.
Definition CTRL_MOD : Z := 29.

(** The functions that are registered for key events. *)
Inductive kbd_event_f := on_scan | tty_keyboard_handler.

Record kbd := mk_kbd {
  head : Z; tail : Z; buf : list Z;
  theKeyboard : list bool;
  on_press : option kbd_event_f; on_release : option kbd_event_f;
  sc : Z }.

Definition set_ring (k : kbd) (h t : Z) (b : list Z) : kbd := mk_kbd h t b (theKeyboard k) (on_press k) (on_release k) (sc k).
Definition set_keys (k : kbd) (l : list bool) : kbd := mk_kbd (head k) (tail k) (buf k) l (on_press k) (on_release k) (sc k).
Definition set_sc (k : kbd) (c : Z) : kbd := mk_kbd (head k) (tail k) (buf k) (theKeyboard k) (on_press k) (on_release k) c.
Definition kbd_set_onpress (k : kbd) (f : option kbd_event_f) : kbd :=
  mk_kbd (head k) (tail k) (buf k) (theKeyboard k) f (on_release k) (sc k).
Definition kbd_set_onrelease (k : kbd) (f : option kbd_event_f) : kbd :=
  mk_kbd (head k) (tail k) (buf k) (theKeyboard k) (on_press k) f (sc k).

(** ** The ring of scan codes *)

Definition kbd_buf_clear (k : kbd) : kbd := set_ring k 0 0 (buf k).
Definition kbd_buf_setup (k : kbd) : kbd := kbd_buf_clear k.

Definition kbd_pop_scancode (k : kbd) : kbd * Z :=
  if head k =? tail k then (k, 0)
  else if negb (tail k =? KBD_BUF_SIZE - 1) then (set_ring k (head k) (tail k + 1) (buf k), nth (Z.to_nat (tail k)) (buf k) 0)
  else (set_ring k (head k) 0 (buf k), nth (Z.to_nat (KBD_BUF_SIZE - 1)) (buf k) 0).

Definition next_circular (var limit : Z) : Z := if negb (var =? limit - 1) then var + 1 else 0.

Definition kbd_push_scancode (k : kbd) (scan_id : Z) : kbd :=
  let t := if tail k =? head k + 1 then next_circular (tail k) KBD_BUF_SIZE else tail k in
  let h := next_circular (head k) KBD_BUF_SIZE in
  set_ring k h t (<[Z.to_nat h := scan_id]> (buf k)).

(** ** Layout *)

Record scan_key := mk_key { normal : Z; shift : Z; ctrl : Z }.

(** Keys in the order of their scan codes; the characters of the source as
    numbers. *)
Definition qwerty_layout : list scan_key :=
  [ mk_key 0 0 0; mk_key 0 0 0; mk_key 49 33 0; mk_key 50 64 0;
    mk_key 51 35 0; mk_key 52 36 0; mk_key 53 37 0; mk_key 54 94 0;
    mk_key 55 38 0; mk_key 56 42 0; mk_key 57 40 0; mk_key 48 41 0;
    mk_key 45 95 0; mk_key 61 43 0; mk_key 8 8 0; mk_key 0 0 0;
    mk_key 113 81 16; mk_key 119 87 21; mk_key 101 69 5; mk_key 114 82 17;
    mk_key 116 84 19; mk_key 121 89 23; mk_key 117 85 20; mk_key 105 73 9;
    mk_key 111 79 14; mk_key 112 80 15; mk_key 91 123 0; mk_key 93 125 0;
    mk_key 10 10 0; mk_key 0 0 0; mk_key 97 65 1; mk_key 115 83 18;
    mk_key 100 68 4; mk_key 102 70 6; mk_key 103 71 7; mk_key 104 72 8;
    mk_key 106 74 10; mk_key 107 75 11; mk_key 108 76 12; mk_key 59 58 0;
    mk_key 39 34 0; mk_key 0 0 0; mk_key 0 0 0; mk_key 92 124 0;
    mk_key 122 90 24; mk_key 120 88 22; mk_key 99 67 3; mk_key 118 86 0;
    mk_key 98 66 2; mk_key 110 78 12; mk_key 109 77 13; mk_key 44 60 0;
    mk_key 46 62 0; mk_key 47 63 0; mk_key 0 0 0; mk_key 0 0 0;
    mk_key 0 0 0; mk_key 32 32 0; mk_key 0 0 0; mk_key 0 0 0;
    mk_key 0 0 0; mk_key 0 0 0; mk_key 0 0 0; mk_key 0 0 0 ] ++ replicate 64 (mk_key 0 0 0).

Definition kbd_state (k : kbd) (scan_id : Z) : bool := nth (Z.to_nat scan_id) (theKeyboard k) false.
Definition kbd_state_shift (k : kbd) : bool := kbd_state k 42 || kbd_state k 54.
Definition kbd_state_ctrl (k : kbd) : bool := kbd_state k CTRL_MOD.

Definition translate_from_scan (k : kbd) (layout : option (list scan_key)) (scan_code : Z) : Z :=
  if negb (Z.land scan_code 128 =? 0) then 0
  else
    let layout := default qwerty_layout layout in
    let key := nth (Z.to_nat scan_code) layout (mk_key 0 0 0) in
    if kbd_state_ctrl k then ctrl key
    else if kbd_state_shift k then shift key
    else normal key.

(** ** Interrupts *)

(** What the driver relies on: where the keyboard is in the kernel's state and
    what the other components' handlers do with it. *)
Class KbdClient (W : Type) := {
  the_kbd : W -> kbd;
  put_kbd : kbd -> W -> W;
  tty_handler : Z -> W -> option W;
  kbd_put : forall k w, the_kbd (put_kbd k w) = k;
  handler_kbd : forall c w w', tty_handler c w = Some w' -> the_kbd w' = the_kbd w }.

Section Interrupts.
Context {W : Type} `{!KbdClient W}.

Definition upd_kbd (f : kbd -> kbd) (w : W) : W := put_kbd (f (the_kbd w)) w.

Definition call_event (f : kbd_event_f) (b : Z) (w : W) : option W :=
  match f with
  | on_scan => Some (upd_kbd (fun k => set_sc k b) w)
  | tty_keyboard_handler => tty_handler b w
  end.

Definition keyboard_irq (w : W) (scan_code : Z) : option W :=
  let w := upd_kbd (fun k => kbd_push_scancode k scan_code) w in
  if Z.land scan_code 128 =? 0 then
    let w := upd_kbd (fun k => set_keys k (<[Z.to_nat scan_code := true]> (theKeyboard k))) w in
    match on_press (the_kbd w) with Some f => call_event f scan_code w | None => Some w end
  else
    let w := upd_kbd (fun k => set_keys k (<[Z.to_nat (Z.land scan_code 127) := false]> (theKeyboard k))) w in
    match on_release (the_kbd w) with Some f => call_event f scan_code w | None => Some w end.

(** The processor is halted until [sc] is set; the scan codes left over are
    returned. *)
Fixpoint wait_loop (w : W) (irqs : list Z) : option (W * list Z) :=
  if negb (sc (the_kbd w) =? 0) then Some (w, irqs)
  else match irqs with [] => None | c :: irqs => w ← keyboard_irq w c; wait_loop w irqs end.

Definition kbd_wait_scan (w : W) (release_too : bool) (irqs : list Z) : option (W * Z * list Z) :=
  let w := upd_kbd (fun k => kbd_set_onpress k (Some on_scan)) w in
  let w := if release_too then upd_kbd (fun k => kbd_set_onrelease k (Some on_scan)) w else w in
  let w := upd_kbd (fun k => set_sc k 0) w in
  '(w, irqs) ← wait_loop w irqs;
  let w := upd_kbd (fun k => kbd_set_onpress k None) w in
  let w := if release_too then upd_kbd (fun k => kbd_set_onrelease k None) w else w in
  Some (w, sc (the_kbd w), irqs).

(** Every turn takes an interrupt at least, so that their number bounds the
    turns. *)
Fixpoint getchar_loop (n : nat) (w : W) (irqs : list Z) : option (W * Z * list Z) :=
  match n with
  | O => None
  | S n =>
      '(w, c, irqs) ← kbd_wait_scan w false irqs;
      let ch := translate_from_scan (the_kbd w) None c in
      if ch =? 0 then getchar_loop n w irqs else Some (w, ch, irqs)
  end.

Definition kbd_getchar (w : W) (irqs : list Z) : option (W * Z * list Z) := getchar_loop (S (length irqs)) w irqs.

(** [kbd_setup]; the handler of the interrupt is set by the caller. *)
Definition kbd_setup (k : kbd) : kbd := kbd_buf_setup (set_keys k (replicate (Z.to_nat KEY_COUNT) false)).

End Interrupts.

End KB.
