(* ===== verification/KbdProofs.v ===== *)
(** * Keyboard: what waiting for a character gives

    Module [KBP]: the keys that are down form a set; the first character typed
    is a function of that set and of the scan codes, and [kbd_getchar] returns
    it, whichever client handles the other events. *)

From S2P Require Import Prelude Kbd.

Module KBP.
Import KB.

(** ** The keys that are down *)

Definition is_press (c : Z) : bool := c <? 128.

Definition event (D : gset Z) (c : Z) : gset Z := if is_press c then D ∪ {[c]} else D ∖ {[c - 128]}.

Definition key_char (D : gset Z) (c : Z) : Z :=
  let key := nth (Z.to_nat c) qwerty_layout (mk_key 0 0 0) in
  if bool_decide (CTRL_MOD ∈ D) then ctrl key
  else if bool_decide (42 ∈ D \/ 54 ∈ D) then shift key
  else normal key.

(** The first character typed, the keys down then and the scan codes left. *)
Fixpoint first_char (D : gset Z) (irqs : list Z) : option (gset Z * Z * list Z) :=
  match irqs with
  | [] => None
  | c :: irqs =>
      let D := event D c in
      if is_press c && negb (key_char D c =? 0) then Some (D, key_char D c, irqs) else first_char D irqs
  end.

(** The array of the driver stands for the set. *)
Definition keys_are (D : gset Z) (l : list bool) : Prop :=
  length l = 128%nat /\ forall k, 0 <= k < 128 -> nth (Z.to_nat k) l false = bool_decide (k ∈ D).

Lemma land_128 c : 0 <= c < 256 -> (Z.land c 128 =? 0) = is_press c.
Proof.
  intros H. assert (Hall : forallb (fun c => Bool.eqb (Z.land c 128 =? 0) (is_press c)) (seqZ 0 256) = true) by (vm_compute; reflexivity).
  rewrite forallb_forall in Hall. apply eqb_prop, (Hall c), list_elem_of_In, elem_of_seqZ. lia.
Qed.

Lemma land_127 c : 128 <= c < 256 -> Z.land c 127 = c - 128.
Proof. intros H. change 127 with (2 ^ 7 - 1). rewrite land_ones_mod by lia. change (2 ^ 7) with 128. zlia. Qed.

Lemma nth_insert (l : list bool) i v k : (i < length l)%nat -> nth k (<[i := v]> l) false = if (k =? i)%nat then v else nth k l false.
Proof.
  intros Hi. rewrite !nth_lookup. destruct (Nat.eqb_spec k i) as [->|Hne].
  - by rewrite list_lookup_insert_eq by done.
  - by rewrite list_lookup_insert_ne by done.
Qed.

Lemma keys_insert D l c (v : bool) : keys_are D l -> 0 <= c < 128 ->
  keys_are (if v then D ∪ {[c]} else D ∖ {[c]}) (<[Z.to_nat c := v]> l).
Proof.
  intros [Hl Hk] Hc. split; [by rewrite length_insert|]. intros k Hr. rewrite nth_insert by lia.
  destruct (Nat.eqb_spec (Z.to_nat k) (Z.to_nat c)) as [E|E].
  - assert (k = c) as -> by lia. destruct v; [rewrite bool_decide_eq_true_2 by set_solver|rewrite bool_decide_eq_false_2 by set_solver]; done.
  - rewrite Hk by done. apply bool_decide_ext. assert (k <> c) by lia. destruct v; set_solver.
Qed.

Lemma translate_is D k c : keys_are D (theKeyboard k) -> 0 <= c < 128 -> translate_from_scan k None c = key_char D c.
Proof.
  intros [_ Hk] Hc. unfold translate_from_scan, key_char, kbd_state_ctrl, kbd_state_shift, kbd_state, CTRL_MOD. rewrite land_128 by lia. unfold is_press.
  rewrite (proj2 (Z.ltb_lt c 128)) by lia. cbn [negb default]. rewrite !Hk by lia. destruct (bool_decide (29 ∈ D)); [done|].
  rewrite <- bool_decide_or. done.
Qed.

(** ** Interrupts while a key is awaited *)

Section Client.
Context {W : Type} `{!KbdClient W}.

(** Releases are ignored, or go to a handler that returns. *)
Definition quiet (w : W) : Prop :=
  on_release (the_kbd w) = None \/
  (on_release (the_kbd w) = Some tty_keyboard_handler /\ forall c w', is_Some (tty_handler c w')).

Lemma irq_waiting D w c : on_press (the_kbd w) = Some on_scan -> quiet w -> sc (the_kbd w) = 0 -> keys_are D (theKeyboard (the_kbd w)) -> 0 <= c < 256 ->
  exists w', keyboard_irq w c = Some w' /\ on_press (the_kbd w') = Some on_scan /\ quiet w' /\
    sc (the_kbd w') = (if is_press c then c else 0) /\ keys_are (event D c) (theKeyboard (the_kbd w')).
Proof.
  intros Hp Hq Hs Hk Hc. unfold keyboard_irq, event, upd_kbd. rewrite land_128 by done. destruct (is_press c) eqn:Ep; unfold is_press in Ep; b2p; rewrite !kbd_put; cbn.
  - rewrite Hp. cbn. unfold upd_kbd. rewrite kbd_put. eexists. split; [done|]. unfold quiet. rewrite !kbd_put. cbn. split; [done|]. split; [done|]. split; [done|].
    by apply (keys_insert D _ c true); [|lia].
  - assert (Hk' : keys_are (D ∖ {[c - 128]}) (<[Z.to_nat (c - 128) := false]> (theKeyboard (the_kbd w)))) by (apply (keys_insert D _ (c - 128) false); [done|lia]).
    rewrite land_127 by lia. destruct Hq as [Hr|[Hr Ht]]; rewrite Hr.
    + eexists. split; [done|]. unfold quiet. rewrite !kbd_put. cbn. rewrite Hr. by auto.
    + cbn. edestruct Ht as [w' E]. rewrite E. exists w'. split; [done|]. apply handler_kbd in E. unfold quiet. rewrite E, !kbd_put. cbn. rewrite Hr. by auto.
Qed.

(** What a client can rely on between two waits. *)
Definition typed_at (D : gset Z) (w : W) : Prop := quiet w /\ keys_are D (theKeyboard (the_kbd w)).

(** The first key pressed, the keys down then and the scan codes left. *)
Fixpoint first_press (D : gset Z) (irqs : list Z) : option (gset Z * Z * list Z) :=
  match irqs with
  | [] => None
  | c :: irqs => let D := event D c in if is_press c && negb (c =? 0) then Some (D, c, irqs) else first_press D irqs
  end.

Lemma wait_loop_ok irqs : forall D w D' c rest, on_press (the_kbd w) = Some on_scan -> quiet w -> sc (the_kbd w) = 0 ->
  keys_are D (theKeyboard (the_kbd w)) -> Forall in_u8 irqs -> first_press D irqs = Some (D', c, rest) ->
  exists w', wait_loop w irqs = Some (w', rest) /\ quiet w' /\ sc (the_kbd w') = c /\ keys_are D' (theKeyboard (the_kbd w')).
Proof.
  induction irqs as [|i irqs IH]; intros D w D' c rest Hp Hq Hs Hk Hf E; [done|]. inversion Hf as [|? ? Hi Hf']; subst.
  simpl in E. cbn [wait_loop]. rewrite Hs. cbn [negb Z.eqb].
  destruct (irq_waiting D w i Hp Hq Hs Hk Hi) as (w1 & -> & Hp1 & Hq1 & Hs1 & Hk1). cbn [mbind option_bind].
  destruct (is_press i) eqn:Ep; cbn [andb] in E.
  - destruct (Z.eqb_spec i 0) as [->|Hn]; cbn [negb] in E; [eauto|]. injection E as <- <- <-. exists w1. split; [|done].
    destruct irqs; cbn [wait_loop]; rewrite Hs1; by rewrite (proj2 (Z.eqb_neq i 0)).
  - eauto.
Qed.

Lemma kbd_wait_ok D w irqs D' c rest : typed_at D w -> Forall in_u8 irqs -> first_press D irqs = Some (D', c, rest) ->
  exists w', kbd_wait_scan w false irqs = Some (w', c, rest) /\ typed_at D' w'.
Proof.
  intros [Hq Hk] Hf E. unfold kbd_wait_scan, upd_kbd. rewrite !kbd_put.
  match goal with |- context [wait_loop ?w0 irqs] => destruct (wait_loop_ok irqs D w0 D' c rest) as (w' & -> & Hq' & Hs' & Hk') end;
    try done; try (rewrite kbd_put; done).
  { unfold quiet in *. by rewrite kbd_put. }
  cbn [mbind option_bind]. rewrite !kbd_put. cbn [sc kbd_set_onpress]. rewrite Hs'. eexists. split; [done|].
  unfold typed_at, quiet in *. by rewrite !kbd_put.
Qed.

(** Characters come from keys that are pressed. *)
Lemma first_char_press irqs : forall D D' ch rest, Forall in_u8 irqs -> first_char D irqs = Some (D', ch, rest) ->
  exists D1 c r1, first_press D irqs = Some (D1, c, r1) /\ 0 <= c < 128 /\ (length r1 < length irqs)%nat /\ Forall in_u8 r1 /\
    (if key_char D1 c =? 0 then first_char D1 r1 = Some (D', ch, rest) else (D', ch, rest) = (D1, key_char D1 c, r1)).
Proof.
  induction irqs as [|i irqs IH]; intros D D' ch rest Hf E; [done|]. inversion Hf as [|? ? Hi Hf']; subst. simpl in E |- *.
  destruct (is_press i) eqn:Ep; cbn [andb] in E |- *.
  - unfold is_press in Ep. unfold in_u8 in Hi. b2p. destruct (Z.eqb_spec i 0) as [->|Hn]; cbn [negb].
    + assert (key_char (event D 0) 0 = 0) as Hz by (unfold key_char; by repeat case_if). rewrite Hz in E. cbn [Z.eqb negb] in E.
      destruct (IH _ _ _ _ Hf' E) as (D1 & c & r1 & E1 & Hc & Hl & Hr). exists D1, c, r1. split; [done|]. split; [done|]. split; [lia|done].
    + exists (event D i), i, irqs. split; [done|]. split; [lia|]. split; [lia|]. split; [done|]. destruct (key_char (event D i) i =? 0); cbn [negb] in E; [done|]. by simplify_eq.
  - destruct (IH _ _ _ _ Hf' E) as (D1 & c & r1 & E1 & Hc & Hl & Hr). exists D1, c, r1. split; [done|]. split; [done|]. split; [lia|done].
Qed.

Lemma getchar_loop_ok n : forall D w irqs D' ch rest, (length irqs < n)%nat -> typed_at D w -> Forall in_u8 irqs -> first_char D irqs = Some (D', ch, rest) ->
  exists w', getchar_loop n w irqs = Some (w', ch, rest) /\ typed_at D' w'.
Proof.
  induction n as [|n IH]; intros D w irqs D' ch rest Hn Ht Hf E; [lia|].
  destruct (first_char_press _ _ _ _ _ Hf E) as (D1 & c & r1 & E1 & Hc & Hl & Hf1 & Hr).
  destruct (kbd_wait_ok _ _ _ _ _ _ Ht Hf E1) as (w1 & E2 & Ht1). cbn [getchar_loop]. rewrite E2. cbn [mbind option_bind].
  rewrite (translate_is D1) by (apply Ht1 || done). destruct (key_char D1 c =? 0).
  - apply IH with D1; [lia|done|done|done].
  - injection Hr as -> -> ->. by exists w1.
Qed.

(** Waiting for a character.  Whatever events come first (releases,
    modifiers, keys without a character), [kbd_getchar] returns the first
    character that the scan codes give with the modifiers held at that moment,
    takes no event after it, and leaves the set of keys held in its array. *)
Theorem kbd_getchar_first_char D w irqs D' ch rest :
  typed_at D w -> Forall in_u8 irqs -> first_char D irqs = Some (D', ch, rest) ->
  exists w', kbd_getchar w irqs = Some (w', ch, rest) /\ keys_are D' (theKeyboard (the_kbd w')).
Proof.
  intros Ht Hf E. destruct (getchar_loop_ok (S (length irqs)) D w irqs D' ch rest ltac:(lia) Ht Hf E) as (w' & E' & Ht').
  exists w'. split; [exact E'|apply Ht'].
Qed.

End Client.

(** A client without a terminal. *)
#[global] Instance bare_kbd : KbdClient kbd.
Proof. refine {| the_kbd := fun w => w; put_kbd := fun k _ => k; tty_handler := fun _ w => Some w |}; [done|]. intros c w w' E. by injection E. Defined.

Definition demo_kbd : kbd := kbd_setup (mk_kbd 7 3 (replicate 256 0) [] None None 0).

(** ** Defects the model shows *)

(** The first code popped is what the ring held before the code was pushed. *)
Lemma pop_returns_stale_code k c : head k = 0 -> tail k = 0 -> length (buf k) = 256%nat ->
  (kbd_pop_scancode (kbd_push_scancode k c)).2 = nth 0 (buf k) 0.
Proof.
  intros Hh Ht Hl. destruct k as [h t b ks p r s]. simpl in *. subst. unfold kbd_push_scancode, kbd_pop_scancode, next_circular, KBD_BUF_SIZE. simpl.
  destruct b; done.
Qed.

Fixpoint push_all (k : kbd) (cs : list Z) : kbd := match cs with [] => k | c :: cs => push_all (kbd_push_scancode k c) cs end.

(** With the head at the last cell the full ring is not recognised: 256 codes
    leave it empty. *)
Lemma full_ring_becomes_empty : let k := push_all demo_kbd (seqZ 1 256) in head k = tail k.
Proof. vm_compute. reflexivity. Qed.

End KBP.
