(* ===== verification/Tty.v ===== *)
(** * Terminals (src/dev/tty.c, include/dev/tty.h, lib/c/include/termios.h)

    Module [TTY]: the input queue, escape sequences, writing and reading a
    terminal, the keyboard handler and the set-up.  A terminal prints on a
    console of [SC] and is fed by the keyboard [KB].  [None] stands for an
    access outside an array or through NULL. *)

From S2P Require Import Prelude CString Screen Kbd.

Module TTY.
Import SC.

Definition MAX_INPUT : Z := 512.
Definition MAX_TTY : Z := 64.
Definition CONSOLE_TTY : Z := 0.
Definition ICANON : Z := 256.
Definition TTYKBD_RAW : Z := 0.
Definition TTYKBD_ANSI : Z := 1.
Definition TTYKBD_LAST : Z := 2.
Definition KDGKBMODE : Z := 0.
Definition KDSKBMODE : Z := 1.
Definition ENOENT : Z := 2.
Definition EBADF : Z := 9.
Definition EINVAL : Z := 22.
Definition ETODO : Z := 39.
Definition EKERN : Z := 40.

(** ** The input queue: bytes are put at [start] and taken at [end_] *)

Record tty_inpqueue := mk_q { start : Z; end_ : Z; qbuf : list Z }.

Definition set_start (q : tty_inpqueue) (s : Z) : tty_inpqueue := mk_q s (end_ q) (qbuf q).
Definition set_end (q : tty_inpqueue) (e : Z) : tty_inpqueue := mk_q (start q) e (qbuf q).

(** Reading and writing inside an array. *)
Definition peek (b : list Z) (o n : Z) : option (list Z) :=
  if (0 <=? o) && (0 <=? n) && (o + n <=? Z.of_nat (length b)) then Some (take (Z.to_nat n) (drop (Z.to_nat o) b)) else None.
Definition poke (b : list Z) (o v : Z) : option (list Z) :=
  if (0 <=? o) && (o <? Z.of_nat (length b)) then Some (<[Z.to_nat o := v]> b) else None.
Fixpoint poke_all (b : list Z) (o : Z) (src : list Z) : option (list Z) :=
  match src with [] => Some b | v :: src => b ← poke b o v; poke_all b (o + 1) src end.

Definition small_memcpy (dst : list Z) (o : Z) (src : list Z) (len : Z) : option (list Z) :=
  if (1 <=? len) && (len <=? 4) then
    dst ← (if 4 <=? len then v ← src !! 3%nat; poke dst (o + 3) v else Some dst);
    dst ← (if 3 <=? len then v ← src !! 2%nat; poke dst (o + 2) v else Some dst);
    dst ← (if 2 <=? len then v ← src !! 1%nat; poke dst (o + 1) v else Some dst);
    v ← src !! 0%nat; poke dst o v
  else bs ← peek src 0 len; poke_all dst o bs.

Definition tty_inpq_size (q : tty_inpqueue) : Z :=
  if start q <? end_ q then u32 ((MAX_INPUT - start q) + end_ q) else u32 (start q - end_ q).

Definition tty_inpq_at (q : tty_inpqueue) (index : Z) : option Z :=
  if u32 (start q + index) <? MAX_INPUT then qbuf q !! Z.to_nat (u32 (start q + index))
  else qbuf q !! Z.to_nat (u32 (index - (MAX_INPUT - start q))).

Definition tty_inpq_strchr (q : tty_inpqueue) (c : Z) : Z :=
  if start q =? end_ q then -1
  else
    let qend := drop (Z.to_nat (end_ q)) (qbuf q) in
    if end_ q <? start q then
      match CS.strnchr_in qend (Z.to_nat (start q - end_ q)) c with None => -1 | Some at_ => at_ end
    else
      let break_offset := MAX_INPUT - end_ q in
      match CS.strnchr_in qend (Z.to_nat break_offset) c with
      | Some at_ => at_
      | None => match CS.strnchr_in (qbuf q) (Z.to_nat (start q)) c with Some at_ => at_ + break_offset | None => -1 end
      end.

Definition tty_inpq_push (q : tty_inpqueue) (buf : list Z) (len : Z) : option (tty_inpqueue * bool) :=
  let s := start q in
  if s <? end_ q then
    if end_ q <=? u32 (s + len + 1) then Some (q, false)
    else b ← small_memcpy (qbuf q) s buf len; Some (mk_q (u32 (start q + len)) (end_ q) b, true)
  else if u32 (s + len) <=? MAX_INPUT then
    b ← small_memcpy (qbuf q) s buf len;
    let s := u32 (s + len) in
    if s =? MAX_INPUT then
      if end_ q =? 0 then Some (mk_q (start q) (end_ q) b, false)
      else Some (mk_q 0 (end_ q) b, true)
    else Some (mk_q s (end_ q) b, true)
  else
    let break_offset := u32 (MAX_INPUT - s) in
    if end_ q <=? u32 (len - break_offset + 1) then Some (q, false)
    else
      b ← small_memcpy (qbuf q) s buf break_offset;
      b ← small_memcpy b 0 (drop (Z.to_nat break_offset) buf) (u32 (len - break_offset));
      Some (mk_q (u32 (len - break_offset)) (end_ q) b, true).

Fixpoint unpush_loop (len : nat) (q : tty_inpqueue) : tty_inpqueue * bool :=
  match len with
  | O => (q, true)
  | S len =>
      if start q =? end_ q then (q, false)
      else
        let q := if start q =? 0 then set_start q MAX_INPUT else q in
        unpush_loop len (set_start q (start q - 1))
  end.
Definition tty_inpq_unpush (q : tty_inpqueue) (len : Z) : tty_inpqueue * bool := unpush_loop (Z.to_nat len) q.

(** The queue, the bytes stored from the caller's buffer on, and the result. *)
Definition tty_inpq_pop (q : tty_inpqueue) (len : Z) : option (tty_inpqueue * list Z * Z) :=
  let e := end_ q in
  if start q =? e then Some (q, [], 0)
  else if e <? start q then
    let popped := if u32 (start q - e) <? len then u32 (e - start q) else len in
    bs ← peek (qbuf q) e popped;
    Some (set_end q (u32 (e + popped)), bs, popped)
  else
    let break_offset := u32 (MAX_INPUT - e) in
    let popped := if u32 (MAX_INPUT - e + start q) <? len then u32 (start q + break_offset) else len in
    b1 ← peek (qbuf q) e break_offset;
    b2 ← peek (qbuf q) 0 (u32 (popped - break_offset));
    Some (set_end q break_offset, b1 ++ b2, popped).

(** ** State *)

Record termios := mk_termios { c_iflag : Z; c_oflag : Z; c_cflag : Z; c_lflag : Z; c_cc : list Z; c_ispeed : Z; c_ospeed : Z }.

(** The control characters: [VEOF] is at 0, [VINTR] at 8. *)
Definition stty_sane : termios :=
  mk_termios (Z.lor 256 (Z.lor 512 (Z.lor 2048 8192))) (Z.lor 1 2) (Z.lor 2048 (Z.lor 768 16384))
    (Z.lor 256 (Z.lor 128 (Z.lor 1024 (Z.lor 8 (Z.lor 2 (Z.lor 1 (Z.lor 64 536870912)))))))
    (<[8%nat := 3]> (replicate 20 0)) 38400 38400.

(** [tty_dev_no] is the device number of the embedded device. *)
Record tty_device := mk_tty {
  tty_dev_no : Z; tty_kbmode : Z; tty_inpq : tty_inpqueue; tty_conf : termios; tty_size : Z * Z; tty_vcs : Z; tty_foreground_procgroup : Z }.

Definition set_inpq (t : tty_device) (q : tty_inpqueue) : tty_device :=
  mk_tty (tty_dev_no t) (tty_kbmode t) q (tty_conf t) (tty_size t) (tty_vcs t) (tty_foreground_procgroup t).
Definition set_kbmode (t : tty_device) (m : Z) : tty_device :=
  mk_tty (tty_dev_no t) m (tty_inpq t) (tty_conf t) (tty_size t) (tty_vcs t) (tty_foreground_procgroup t).
Definition set_pgrp (t : tty_device) (g : Z) : tty_device :=
  mk_tty (tty_dev_no t) (tty_kbmode t) (tty_inpq t) (tty_conf t) (tty_size t) (tty_vcs t) g.

(** An entry of [theTTYlist] is the place of a device in [theVcsTTY]. *)
Record ttys := mk_ttys { theActiveTTY : Z; theVcsTTY : list tty_device; theTTYlist : list (option nat); scr : screen }.

Definition set_tty (w : ttys) (i : nat) (t : tty_device) : ttys := mk_ttys (theActiveTTY w) (<[i := t]> (theVcsTTY w)) (theTTYlist w) (scr w).
Definition set_scr (w : ttys) (s : screen) : ttys := mk_ttys (theActiveTTY w) (theVcsTTY w) (theTTYlist w) s.

Definition get_tty_device (w : ttys) (devno : Z) : option nat :=
  if negb (devno <? N_VCSA_DEVICES) then None else p ← theTTYlist w !! Z.to_nat devno; p.

(** ** Writing *)

Definition ecma48_to_vga_color : list Z := [0; 4; 2; 6; 1; 5; 3; 7].

Definition ecma48_csi (s : screen) (c vcsno : Z) (a1 a2 : option Z) : option screen :=
  let arg1 := default 1 a1 in
  let arg2 := default 1 a2 in
  if c =? 65 then vcsa_move_cursor_by s vcsno 0 (s32 (- arg1))
  else if c =? 66 then vcsa_move_cursor_by s vcsno 0 arg1
  else if c =? 68 then vcsa_move_cursor_by s vcsno (s32 (- arg1)) 0
  else if c =? 67 then vcsa_move_cursor_by s vcsno arg1 0
  else if c =? 70 then vcsa_move_cursor_by s vcsno (- SCR_WIDTH) (s32 (- arg1))
  else if c =? 69 then vcsa_move_cursor_by s vcsno (- SCR_WIDTH) arg1
  else if c =? 71 then vcsa_set_cursor s vcsno arg1 VCS_DO_NOT_MOVE
  else if c =? 72 then vcsa_set_cursor s vcsno arg2 arg1
  else if c =? 74 then
    if arg1 =? 1 then a ← a1; vcsa_erase_screen s vcsno (if negb (a =? 0) then VCSA_ERASE_BEFORE_CURSOR else VCSA_ERASE_AFTER_CURSOR)
    else if arg1 =? 2 then vcsa_erase_screen s vcsno VCSA_ERASE_WHOLE
    else Some s
  else if c =? 75 then
    if arg1 =? 1 then a ← a1; vcsa_erase_line s vcsno (if negb (a =? 0) then VCSA_ERASE_BEFORE_CURSOR else VCSA_ERASE_AFTER_CURSOR)
    else if arg1 =? 2 then vcsa_erase_line s vcsno VCSA_ERASE_WHOLE
    else Some s
  else if c =? 109 then
    let arg1 := match a1 with None => 0 | Some _ => arg1 end in
    attr ← vcsa_get_attribute s vcsno;
    if arg1 =? 0 then vcsa_set_attribute s vcsno VCSA_DEFAULT_ATTRIBUTE
    else if (30 <=? arg1) && (arg1 <=? 37) then
      color ← ecma48_to_vga_color !! Z.to_nat (arg1 - 30);
      vcsa_set_attribute s vcsno (u8 (Z.lor (Z.land attr 240) color))
    else if (40 <=? arg1) && (arg1 <=? 47) then
      color ← ecma48_to_vga_color !! Z.to_nat (arg1 - 40);
      vcsa_set_attribute s vcsno (u8 (Z.lor (Z.land attr 15) (Z.shiftl color 4)))
    else Some s
  else Some s.

Definition isdigit (c : Z) : option bool := option_map (fun x => negb (x =? 0)) (CS.isdigit (s8 c)).
Definition iscntrl (c : Z) : option bool := option_map (fun x => negb (x =? 0)) (CS.iscntrl (s8 c)).

(** The number and the bytes from the first that is not a digit on. *)
Fixpoint scan_digits (s : list Z) (arg : Z) : option (Z * list Z) :=
  match s with
  | [] => None
  | c :: s' => d ← isdigit c; if (d : bool) then scan_digits s' (s32 (s32 (arg * 10) + (c - 48))) else Some (arg, s)
  end.

(** After CSI; [s] is left at the last byte of the sequence. *)
Definition csi_sequence (scr : screen) (vcsno : Z) (s : list Z) : option (screen * list Z) :=
  c ← head s;
  d ← isdigit c;
  '(a1, s) ← (if (d : bool) then '(a, s) ← scan_digits s 0; Some (Some a, s) else Some (None, s));
  c ← head s;
  '(a2, s) ← (if c =? 59 then '(a, s) ← scan_digits (tail s) 0; Some (Some a, s) else Some (None, s));
  c ← head s;
  scr ← ecma48_csi scr c vcsno a1 a2;
  Some (scr, s).

(** After ESC; [s] is left at the last byte of the sequence. *)
Definition esc_sequence (scr : screen) (vcsno : Z) (s : list Z) : option (screen * list Z) :=
  c ← head s;
  if c =? 91 then csi_sequence scr vcsno (tail s)
  else
    scr ← (if c =? 99 then vcsa_clear scr vcsno
           else if c =? 68 then vcsa_move_cursor_by scr vcsno 0 1
           else if c =? 69 then vcsa_newline scr vcsno
           else if c =? 77 then vcsa_move_cursor_by scr vcsno 0 (-1)
           else Some scr);
    Some (scr, s).

(** One turn of the loop; the bytes behind the one or the sequence that was
    handled are returned. *)
Definition write_one (scr : screen) (vcsno : Z) (s : list Z) : option (screen * list Z) :=
  c ← head s;
  cntrl ← iscntrl c;
  if cntrl : bool then
    if c =? 27 then '(scr, s) ← esc_sequence scr vcsno (tail s); Some (scr, tail s)
    else
      scr ← (if c =? 7 then Some scr
             else if c =? 8 then scr ← vcsa_move_cursor_back scr vcsno; vcsa_set_char scr vcsno 32
             else if c =? 9 then vcsa_move_cursor_tabstop scr vcsno
             else if c =? 10 then vcsa_newline scr vcsno
             else if (c =? 11) || (c =? 12) then vcsa_move_cursor_by scr vcsno 0 1
             else if c =? 13 then vcsa_set_cursor scr vcsno 0 VCS_DO_NOT_MOVE
             else if c =? 127 then Some scr
             else scr ← vcsa_cprint scr vcsno 94; vcsa_cprint scr vcsno (64 + c));
      Some (scr, tail s)
  else scr ← vcsa_cprint scr vcsno c; Some (scr, tail s).

(** [buf] is the memory from the caller's buffer on, [len] its length; a turn
    handles at least one byte, so that [len] turns are enough. *)
Fixpoint write_loop (n : nat) (scr : screen) (vcsno : Z) (buf s : list Z) (len : Z) : option screen :=
  if Z.of_nat (length buf) - Z.of_nat (length s) <? len then
    match n with
    | O => None
    | S n => '(scr, s) ← write_one scr vcsno s; write_loop n scr vcsno buf s len
    end
  else Some scr.

(** The error code and the number of bytes written. *)
Definition dev_tty_write (w : ttys) (dev : nat) (buf : list Z) (buflen : Z) : option (ttys * Z * Z) :=
  ttydev ← theVcsTTY w !! dev;
  let ttyvcs := tty_vcs ttydev in
  if N_VCSA_DEVICES <=? ttyvcs then Some (w, ETODO, 0)
  else s ← write_loop (Z.to_nat buflen) (scr w) ttyvcs buf buf buflen; Some (set_scr w s, 0, buflen).

Definition tty_write (w : ttys) (ttyno : Z) (buf : list Z) (buflen : Z) : option (ttys * Z) :=
  match get_tty_device w ttyno with
  | None => Some (w, ENOENT)
  | Some dev => '(w, ret, _) ← dev_tty_write w dev buf buflen; Some (w, ret)
  end.

(** ** Modes *)

Definition dev_tty_has_data : bool := false.

(** [ret] is the argument's cell, if there is one. *)
Definition dev_tty_ioctl (w : ttys) (dev : nat) (op : Z) (ret : option Z) : option (ttys * Z * option Z) :=
  tty ← theVcsTTY w !! dev;
  if op =? KDGKBMODE then
    Some (match ret with None => (w, EINVAL, None) | Some _ => (w, 0, Some (tty_kbmode tty)) end)
  else if op =? KDSKBMODE then
    Some (match ret with
          | None => (w, EINVAL, None)
          | Some m => if negb (m <? TTYKBD_LAST) then (w, EINVAL, ret) else (set_tty w dev (set_kbmode tty m), 0, ret)
          end)
  else Some (w, EINVAL, ret).

Definition tty_ioctl (w : ttys) (ttyno op : Z) (arg : option Z) : option (ttys * Z * option Z) :=
  match get_tty_device w ttyno with
  | None => Some (w, ENOENT, arg)
  | Some dev => dev_tty_ioctl w dev op arg
  end.

Definition tty_switch (w : ttys) (ttyno : Z) : option ttys :=
  if negb (ttyno <? N_VCSA_DEVICES) then Some w
  else s ← vcsa_switch (scr w) ttyno; Some (mk_ttys ttyno (theVcsTTY w) (theTTYlist w) s).

Definition tty_set_foreground_procgroup (w : ttys) (ttyno pg : Z) : option (ttys * Z) :=
  match get_tty_device w ttyno with
  | None => Some (w, ENOENT)
  | Some dev => tty ← theVcsTTY w !! dev; Some (set_tty w dev (set_pgrp tty pg), 0)
  end.

(** ** Keys *)

Definition ecma48_code_from_scancode (k : KB.kbd) (c : Z) : list Z := [KB.translate_from_scan k None c].

Definition tty_keyboard_handler (k : KB.kbd) (c : Z) (w : ttys) : option ttys :=
  p ← theTTYlist w !! Z.to_nat (theActiveTTY w);
  match p with
  | None => Some w
  | Some dev =>
      tty ← theVcsTTY w !! dev;
      if (59 <=? c) && (c <=? 66) then tty_switch w (c - 59)
      else
        let inpq := tty_inpq tty in
        if tty_kbmode tty =? TTYKBD_RAW then
          '(q, _) ← tty_inpq_push inpq [c] 1; Some (set_tty w dev (set_inpq tty q))
        else if tty_kbmode tty =? TTYKBD_ANSI then
          let buf := ecma48_code_from_scancode k c in
          let ret := Z.of_nat (length buf) in
          c0 ← head buf;
          if c0 =? 0 then Some w
          else if negb (Z.land (c_iflag (tty_conf tty)) ICANON =? 0) then
            if c0 =? 8 then
              let '(q, ok) := tty_inpq_unpush inpq 1 in
              let w := set_tty w dev (set_inpq tty q) in
              if ok then '(w, _) ← tty_write w (theActiveTTY w) [8; 0] 1; Some w else Some w
            else if c0 =? 10 then
              '(q, ok) ← tty_inpq_push inpq buf ret;
              let w := set_tty w dev (set_inpq tty q) in
              if ok : bool then s ← vcsa_newline (scr w) (tty_vcs tty); Some (set_scr w s) else Some w
            else
              '(q, ok) ← tty_inpq_push inpq buf ret;
              let w := set_tty w dev (set_inpq tty q) in
              if ok : bool then s ← vcsa_cprint (scr w) (tty_vcs tty) c0; Some (set_scr w s) else Some w
          else Some w
        else Some w
  end.

(** The keyboard and the terminals. *)
Record world := mk_world { kb : KB.kbd; tt : ttys }.

#[global] Instance tty_client : KB.KbdClient world.
Proof.
  refine {| KB.the_kbd := kb; KB.put_kbd := fun k w => mk_world k (tt w);
            KB.tty_handler := fun c w => t ← tty_keyboard_handler (kb w) c (tt w); Some (mk_world (kb w) t) |}; [done|].
  intros c w w' E. destruct (tty_keyboard_handler (kb w) c (tt w)); [|done]. by injection E as <-.
Defined.

(** ** Reading *)

(** A reader goes on waiting when no more interrupts come. *)
Inductive read_res :=
  | Blocked (w : world)
  | Returns (w : world) (ret : Z) (stored : list Z) (nread : option Z) (irqs : list Z).

(** The processor is halted until [ready]. *)
Fixpoint halt_until (ready : ttys -> option bool) (w : world) (irqs : list Z) : option (world * option (list Z)) :=
  r ← ready (tt w);
  if r : bool then Some (w, Some irqs)
  else match irqs with [] => Some (w, None) | c :: irqs => w ← KB.keyboard_irq w c; halt_until ready w irqs end.

(** [tty_inpq_pop] on the terminal's queue. *)
Definition pop_from (w : world) (dev : nat) (n : Z) (irqs : list Z) : option read_res :=
  tty ← theVcsTTY (tt w) !! dev;
  '(q, bs, nread) ← tty_inpq_pop (tty_inpq tty) n;
  Some (Returns (mk_world (kb w) (set_tty (tt w) dev (set_inpq tty q))) 0 bs (Some nread) irqs).

Definition dev_tty_read (w : world) (dev : nat) (buflen : Z) (irqs : list Z) : option read_res :=
  tty ← theVcsTTY (tt w) !! dev;
  if tty_kbmode tty =? TTYKBD_RAW then
    '(w, r) ← halt_until (fun t => tty ← theVcsTTY t !! dev; Some (negb (tty_inpq_size (tty_inpq tty) <? 1))) w irqs;
    match r with
    | None => Some (Blocked w)
    | Some irqs =>
        tty ← theVcsTTY (tt w) !! dev;
        let to_pop := tty_inpq_size (tty_inpq tty) in
        pop_from w dev (if buflen <? to_pop then buflen else to_pop) irqs
    end
  else if tty_kbmode tty =? TTYKBD_ANSI then
    if negb (Z.land (c_iflag (tty_conf tty)) ICANON =? 0) then
      '(w, r) ← halt_until (fun t => tty ← theVcsTTY t !! dev; Some (0 <=? tty_inpq_strchr (tty_inpq tty) 10)) w irqs;
      match r with
      | None => Some (Blocked w)
      | Some irqs =>
          tty ← theVcsTTY (tt w) !! dev;
          let to_pop := tty_inpq_strchr (tty_inpq tty) 10 + 1 in
          pop_from w dev (if buflen <? to_pop then buflen else to_pop) irqs
      end
    else Some (Returns w 0 [] None irqs)
  else Some (Returns w EBADF [] None irqs).

Definition tty_read (w : world) (ttyno buflen : Z) (irqs : list Z) : option read_res :=
  match get_tty_device (tt w) ttyno with
  | None => Some (Returns w ENOENT [] None irqs)
  | Some dev => dev_tty_read w dev buflen irqs
  end.

(** ** Set-up *)

Fixpoint init_tty_loop (n : nat) (w : ttys) (i : nat) : ttys :=
  match n with
  | O => w
  | S n =>
      let setup (t : tty_device) : tty_device :=
        mk_tty (Z.of_nat i) TTYKBD_ANSI (mk_q 0 0 (qbuf (tty_inpq t))) stty_sane (SCR_WIDTH, SCR_HEIGHT) (Z.of_nat i) (tty_foreground_procgroup t) in
      init_tty_loop n (mk_ttys (theActiveTTY w) (alter setup i (theVcsTTY w)) (<[i := Some i]> (theTTYlist w)) (scr w)) (S i)
  end.

Definition init_tty_family (w : ttys) : ttys :=
  init_tty_loop (Z.to_nat N_VCSA_DEVICES) (mk_ttys 0 (theVcsTTY w) (theTTYlist w) (scr w)) 0.

End TTY.
