(* ===== verification/TtyProofs.v ===== *)
(** * Terminals: typed lines and written text

    Module [TTYP]: the input queue holds a list of bytes; a line typed on the
    keyboard is edited, echoed and read; text without escape sequences is
    written without touching other consoles. *)

From S2P Require Import Prelude CString Screen ScreenProofs Kbd KbdProofs Tty.

Module TTYP.
Import SC SCP KB KBP TTY.

(** ** The queue as a list of bytes, as long as it has not wrapped *)

Record holds (q : tty_inpqueue) (l : list Z) : Prop := {
  h_start : start q = end_ q + Z.of_nat (length l);
  h_bounds : 0 <= end_ q /\ start q < 512;
  h_bytes : exists pre post, qbuf q = pre ++ l ++ post /\ Z.of_nat (length pre) = end_ q /\ length (qbuf q) = 512%nat }.

Lemma push_byte q l c : holds q l -> start q + 1 < 512 ->
  exists q', tty_inpq_push q [c] 1 = Some (q', true) /\ holds q' (l ++ [c]) /\ start q' = start q + 1.
Proof.
  intros [Hs [He Hb] (pre & post & Eb & Hpre & Hlen)] Hr. unfold tty_inpq_push, MAX_INPUT.
  rewrite !(u32_small (start q + 1)) by (unfold in_u32; lia). repeat (case_if; try lia).
  assert (Hpost : exists x post', post = x :: post') by (destruct post as [|x post']; [rewrite Eb, !length_app in Hlen; simpl in Hlen; lia|by exists x, post']).
  destruct Hpost as (x & post' & ->). unfold small_memcpy. cbn [Z.leb Z.compare Pos.compare Pos.compare_cont andb mbind option_bind lookup list_lookup].
  unfold poke. rewrite (proj2 (Z.leb_le 0 _)), (proj2 (Z.ltb_lt _ _)) by lia. cbn [andb mbind option_bind]. repeat (case_if; try lia).
  eexists. split; [done|]. split; [|done]. constructor; simpl; [rewrite length_app; simpl; lia|lia|].
  exists pre, post'. rewrite length_insert. split; [|done]. rewrite Eb, (app_assoc pre), insert_app_r_alt by (rewrite length_app; lia).
  replace (Z.to_nat (start q) - length (pre ++ l))%nat with 0%nat by (rewrite length_app; lia). simpl. by rewrite <- !app_assoc.
Qed.

Lemma unpush_byte q l x : holds q (l ++ [x]) -> exists q', tty_inpq_unpush q 1 = (q', true) /\ holds q' l /\ start q' = start q - 1.
Proof.
  intros [Hs [He Hb] (pre & post & Eb & Hpre & Hlen)]. rewrite length_app in Hs. simpl in Hs. unfold tty_inpq_unpush. change (Z.to_nat 1) with 1%nat. cbn [unpush_loop].
  rewrite (proj2 (Z.eqb_neq (start q) (end_ q))), (proj2 (Z.eqb_neq (start q) 0)) by lia.
  eexists. split; [done|]. split; [|done]. constructor; simpl; [lia|lia|]. exists pre, (x :: post). split; [|done]. by rewrite Eb, <- app_assoc.
Qed.

Lemma unpush_empty q : holds q [] -> tty_inpq_unpush q 1 = (q, false).
Proof.
  intros [Hs _ _]. simpl in Hs. unfold tty_inpq_unpush. change (Z.to_nat 1) with 1%nat. cbn [unpush_loop]. by rewrite (proj2 (Z.eqb_eq (start q) (end_ q))) by lia.
Qed.

(** A byte of a line: an ASCII character other than NUL and the newline. *)
Definition line_byte (c : Z) : Prop := 0 < c < 128 /\ c <> 10.

Lemma s8_newline c : line_byte c -> (s8 10 =? s8 c) = false.
Proof. intros [H1 H2]. change (s8 10) with 10. apply Z.eqb_neq. unfold s8, swrap. change (2 ^ (8 - 1)) with 128. change (2 ^ 8) with 256. zlia. Qed.

Lemma strnchr_line l : forall post, Forall line_byte l -> CS.strnchr_in (l ++ post) (length l) 10 = None.
Proof.
  induction l as [|c l IH]; intros post Hf; [by destruct post|]. inversion Hf as [|? ? Hc Hf']; subst. cbn [CS.strnchr_in app length]. rewrite (proj2 (Z.eqb_neq c 0)) by (destruct Hc; lia).
  rewrite s8_newline by done. by rewrite IH.
Qed.

Lemma strnchr_newline l : forall post, Forall line_byte l -> CS.strnchr_in (l ++ 10 :: post) (length (l ++ [10])) 10 = Some (Z.of_nat (length l)).
Proof.
  induction l as [|c l IH]; intros post Hf; [by destruct post|]. inversion Hf as [|? ? Hc Hf']; subst. cbn [CS.strnchr_in app length]. rewrite (proj2 (Z.eqb_neq c 0)) by (destruct Hc; lia).
  rewrite s8_newline by done. rewrite IH by done. simpl. f_equal. lia.
Qed.

Lemma strchr_line q l : holds q l -> Forall line_byte l -> tty_inpq_strchr q 10 = -1.
Proof.
  intros [Hs [He Hb] (pre & post & Eb & Hpre & Hlen)] Hf. unfold tty_inpq_strchr. repeat (case_if; try lia).
  rewrite Eb, drop_app_length' by lia. replace (Z.to_nat (start q - end_ q)) with (length l) by lia. by rewrite strnchr_line.
Qed.

Lemma strchr_newline q l : holds q (l ++ [10]) -> Forall line_byte l -> tty_inpq_strchr q 10 = Z.of_nat (length l).
Proof.
  intros [Hs [He Hb] (pre & post & Eb & Hpre & Hlen)] Hf. unfold tty_inpq_strchr. pose proof (length_app l [10]) as Hl. simpl in Hl. repeat (case_if; try lia).
  rewrite Eb, drop_app_length' by lia. replace (Z.to_nat (start q - end_ q)) with (length (l ++ [10])) by lia. rewrite <- app_assoc. simpl app.
  by rewrite strnchr_newline.
Qed.

Lemma pop_all q l : holds q l -> l <> [] ->
  exists q', tty_inpq_pop q (Z.of_nat (length l)) = Some (q', l, Z.of_nat (length l)) /\ holds q' [] /\ start q' = start q.
Proof.
  intros [Hs [He Hb] (pre & post & Eb & Hpre & Hlen)] Hne. destruct l as [|x l]; [done|]. clear Hne. unfold tty_inpq_pop. simpl length in *.
  repeat (case_if; try lia).
  - exfalso. rewrite u32_small in Heqb1 by (unfold in_u32; lia). lia.
  - unfold peek. repeat (case_if; try lia). cbn [mbind option_bind]. eexists. split; [f_equal; f_equal; f_equal|split].
    + rewrite Eb, drop_app_length' by lia. rewrite Nat2Z.id. by rewrite (take_app_length' (x :: l)).
    + constructor; simpl; rewrite ?u32_small by (unfold in_u32; lia); [lia|lia|]. exists (pre ++ x :: l), post. rewrite length_app. simpl. rewrite <- app_assoc. split; [done|]. split; [lia|done].
    + done.
Qed.

(** ** Writing text without escape sequences *)

Definition text_byte (c : Z) : Prop := 0 <= c < 128 /\ c <> 27.

Lemma iscntrl_ascii c : 0 <= c < 128 -> exists b, iscntrl c = Some b.
Proof.
  intros Hc. unfold iscntrl, CS.iscntrl, CS.chrgrp. replace (s8 c) with c by (unfold s8, swrap; change (2 ^ (8 - 1)) with 128; change (2 ^ 8) with 256; zlia).
  rewrite (proj2 (Z.leb_le 0 c)), (proj2 (Z.ltb_lt c 128)) by lia. cbn [andb].
  destruct (lookup_lt_is_Some_2 CS.ascii_chrgrp (Z.to_nat c)) as [g ->]; [cbn; lia|]. simpl. by eexists.
Qed.

Create HintDb tty.
#[local] Hint Resolve keeps_ret keeps_set_attribute keeps_set_cursor keeps_erase_line keeps_erase_screen keeps_clear keeps_newline keeps_back keeps_tabstop keeps_set_char keeps_cprint : tty.

Lemma write_one_text s v c rest : scr_wf s -> 0 <= v < 8 -> text_byte c ->
  exists s', write_one s v (c :: rest) = Some (s', rest) /\ scr_wf s' /\ only_vcs v s s'.
Proof.
  intros Hwf Hv [Hc He]. unfold write_one. cbn [hd_error mbind option_bind]. destruct (iscntrl_ascii c Hc) as [b ->]. cbn [mbind option_bind].
  assert (K : forall r, keeps v s r -> exists s', (s' ← r; Some (s', rest)) = Some (s', rest) /\ scr_wf s' /\ only_vcs v s s').
  { intros r (s' & -> & H). by exists s'. }
  rewrite (proj2 (Z.eqb_neq c 27)) by done. destruct b; [|apply K; by auto with tty].
  apply K. repeat case_if; try (by auto with tty); try (apply keeps_move_by; done || lia).
  - apply keeps_bind; auto with tty.
  - apply keeps_bind; auto with tty.
Qed.

Lemma write_loop_text n : forall s v buf todo after, scr_wf s -> 0 <= v < 8 -> Forall text_byte todo -> (length todo <= n)%nat ->
  (length (todo ++ after) <= length buf)%nat ->
  exists s', write_loop n s v buf (todo ++ after) (Z.of_nat (length buf) - Z.of_nat (length after)) = Some s' /\ scr_wf s' /\ only_vcs v s s'.
Proof.
  induction n as [|n IH]; intros s v buf todo after Hwf Hv Hf Hn Hl; rewrite length_app in Hl; destruct todo as [|c todo]; simpl length in *; simpl app.
  - exists s. cbn [write_loop]. rewrite (proj2 (Z.ltb_ge _ _)) by lia. by auto using only_vcs_refl.
  - lia.
  - exists s. cbn [write_loop]. rewrite (proj2 (Z.ltb_ge _ _)) by lia. by auto using only_vcs_refl.
  - inversion Hf as [|? ? Hc Hf']; subst. cbn [write_loop]. simpl length. rewrite (proj2 (Z.ltb_lt _ _)) by (rewrite length_app; lia).
    destruct (write_one_text s v c (todo ++ after) Hwf Hv Hc) as (s1 & -> & Hw1 & Ho1). cbn [mbind option_bind].
    destruct (IH s1 v buf todo after Hw1 Hv Hf' ltac:(lia)) as (s2 & -> & Hw2 & Ho2); [rewrite length_app; lia|].
    exists s2. split; [done|]. split; [done|]. by apply (only_vcs_trans v s s1 s2).
Qed.

Lemma dev_write_text w dev t text after : theVcsTTY w !! dev = Some t -> 0 <= tty_vcs t < 8 -> scr_wf (scr w) -> Forall text_byte text ->
  exists s', dev_tty_write w dev (text ++ after) (Z.of_nat (length text)) = Some (set_scr w s', 0, Z.of_nat (length text)) /\ scr_wf s' /\ only_vcs (tty_vcs t) (scr w) s'.
Proof.
  intros Ht Hv Hwf Hf. unfold dev_tty_write. rewrite Ht. cbn [mbind option_bind]. unfold N_VCSA_DEVICES. rewrite (proj2 (Z.leb_gt 8 _)) by lia.
  destruct (write_loop_text (length text) (scr w) (tty_vcs t) (text ++ after) text after Hwf Hv Hf) as (s' & E & H); [done|done|].
  exists s'. split; [|done]. rewrite Nat2Z.id. replace (Z.of_nat (length (text ++ after)) - Z.of_nat (length after)) with (Z.of_nat (length text)) in E by (rewrite length_app; lia).
  by rewrite E.
Qed.

(** ** Typing a line *)

(** What a character does to the line being typed. *)
Definition edit (line : list Z) (ch : Z) : list Z :=
  if ch =? 0 then line else if ch =? 8 then removelast line else line ++ [ch].

(** The line that the scan codes give up to the first newline, the keys down
    then and the scan codes left. *)
Fixpoint typed (D : gset Z) (line : list Z) (irqs : list Z) : option (gset Z * list Z * list Z) :=
  match irqs with
  | [] => None
  | c :: irqs =>
      let D := event D c in
      if negb (is_press c) then typed D line irqs
      else if key_char D c =? 10 then Some (D, line, irqs)
      else typed D (edit line (key_char D c)) irqs
  end.

(** A scan code that does not switch the terminal. *)
Definition plain_code (c : Z) : Prop := 0 <= c < 256 /\ (c < 59 \/ 66 < c).

Lemma key_char_ascii D c : 0 <= key_char D c < 128.
Proof.
  unfold key_char. assert (Hall : Forall (fun k => 0 <= normal k < 128 /\ 0 <= shift k < 128 /\ 0 <= ctrl k < 128) qwerty_layout) by (apply (bool_decide_unpack _); vm_compute; exact I).
  rewrite nth_lookup. destruct (qwerty_layout !! Z.to_nat c) as [k|] eqn:E; simpl; [|repeat case_if; lia].
  apply (Forall_lookup_1 _ _ _ _ Hall) in E. repeat case_if; lia.
Qed.

(** Terminal [dev] is active, in canonical mode, and [line] is in its queue. *)
Record at_line (w : ttys) (dev : nat) (t : tty_device) (line : list Z) : Prop := {
  al_active : 0 <= theActiveTTY w < 8;
  al_list : theTTYlist w !! Z.to_nat (theActiveTTY w) = Some (Some dev);
  al_dev : theVcsTTY w !! dev = Some t;
  al_mode : tty_kbmode t = TTYKBD_ANSI;
  al_canon : (Z.land (c_iflag (tty_conf t)) ICANON =? 0) = false;
  al_vcs : 0 <= tty_vcs t < 8;
  al_queue : holds (tty_inpq t) line;
  al_screen : scr_wf (scr w) }.

(** [w'] is [w] with another input queue and what was echoed. *)
Definition echoed (w : ttys) (dev : nat) (t : tty_device) (q : tty_inpqueue) (w' : ttys) : Prop :=
  exists s', w' = set_scr (set_tty w dev (set_inpq t q)) s' /\ only_vcs (tty_vcs t) (scr w) s'.

Lemma at_line_echoed w dev t line q w' line' : at_line w dev t line -> echoed w dev t q w' -> scr_wf (scr w') -> holds q line' -> at_line w' dev (set_inpq t q) line'.
Proof.
  intros [] (s' & -> & Ho) Hs Hq. constructor; simpl; try done. rewrite list_lookup_insert_eq; [done|]. by eapply lookup_lt_Some.
Qed.

Lemma handler_char k c w dev t line : at_line w dev t line -> start (tty_inpq t) + 1 < 512 -> c < 59 \/ 66 < c ->
  let ch := translate_from_scan k None c in
  exists w' q, tty_keyboard_handler k c w = Some w' /\ echoed w dev t q w' /\ scr_wf (scr w') /\
    holds q (if ch =? 10 then line ++ [10] else edit line ch) /\ start q <= start (tty_inpq t) + 1.
Proof.
  intros [Ha Hl Hd Hm Hc Hv Hq Hs] Hr Hf ch. unfold tty_keyboard_handler, ecma48_code_from_scancode. rewrite Hl. cbn [mbind option_bind]. rewrite Hd. cbn [mbind option_bind].
  rewrite Hm. unfold TTYKBD_ANSI, TTYKBD_RAW. cbn [Z.eqb Pos.eqb].
  assert ((59 <=? c) && (c <=? 66) = false) as -> by (apply andb_false_iff; lia).
  cbn [hd_error length mbind option_bind]. fold ch. rewrite Hc. cbn [negb]. change (Z.of_nat 1) with 1. unfold edit.
  assert (Hself : set_scr (set_tty w dev (set_inpq t (tty_inpq t))) (scr w) = w).
  { destruct w, t; unfold set_tty, set_scr; simpl in *. f_equal. by rewrite list_insert_id. }
  assert (Hpush : holds (tty_inpq t) line -> exists q', tty_inpq_push (tty_inpq t) [ch] 1 = Some (q', true) /\ holds q' (line ++ [ch]) /\ start q' = start (tty_inpq t) + 1)
    by (intros H; apply push_byte; [done|lia]).
  destruct (Z.eqb_spec ch 0) as [E0|E0].
  { rewrite (proj2 (Z.eqb_neq ch 10)) by lia. exists w, (tty_inpq t). split; [done|]. split; [exists (scr w); by auto using only_vcs_refl|]. split; [done|]. split; [done|lia]. }
  destruct (Z.eqb_spec ch 8) as [E8|E8].
  - rewrite (proj2 (Z.eqb_neq ch 10)) by lia. destruct line as [|x line _] using rev_ind.
    + rewrite unpush_empty by done. exists (set_tty w dev (set_inpq t (tty_inpq t))), (tty_inpq t). split; [done|]. split; [exists (scr w); by auto using only_vcs_refl|].
      split; [done|]. split; [done|lia].
    + destruct (unpush_byte _ _ _ Hq) as (q' & -> & Hq' & Hst). cbn [mbind option_bind]. unfold tty_write, get_tty_device, N_VCSA_DEVICES. simpl theActiveTTY. simpl theTTYlist.
      rewrite (proj2 (Z.ltb_lt _ 8)) by lia. cbn [negb]. rewrite Hl. cbn [mbind option_bind].
      destruct (dev_write_text (set_tty w dev (set_inpq t q')) dev (set_inpq t q') [8] [0]) as (s' & E & Hw' & Ho); simpl.
      { rewrite list_lookup_insert_eq; [done|]. by eapply lookup_lt_Some. } { done. } { done. } { by repeat constructor. }
      change (Z.of_nat (length [8])) with 1 in E. simpl app in E. rewrite E. cbn [mbind option_bind]. eexists _, q'. split; [done|]. split; [by exists s'|]. split; [done|].
      rewrite removelast_last. split; [done|lia].
  - destruct (Hpush Hq) as (q' & -> & Hq' & Hst). cbn [mbind option_bind]. destruct (Z.eqb_spec ch 10) as [E|E].
    + destruct (keeps_newline (scr w) (tty_vcs t) Hs Hv) as (s' & Es & Hw' & Ho). simpl scr. rewrite Es. cbn [mbind option_bind]. eexists _, q'. split; [done|]. split; [by exists s'|]. split; [done|].
      rewrite E in Hq'. split; [done|lia].
    + destruct (keeps_cprint (scr w) (tty_vcs t) ch Hs Hv) as (s' & Es & Hw' & Ho). simpl scr. rewrite Es. cbn [mbind option_bind]. eexists _, q'. split; [done|]. split; [by exists s'|]. split; [done|].
      split; [done|lia].
Qed.

(** The keyboard serves the terminals, with the keys of [D] down. *)
Record kb_tty (k : kbd) (D : gset Z) : Prop := {
  kt_press : on_press k = Some KB.tty_keyboard_handler;
  kt_release : on_release k = None \/ on_release k = Some KB.tty_keyboard_handler;
  kt_keys : keys_are D (theKeyboard k) }.

(** The line behind one scan code; a newline stays in the queue. *)
Definition after_code (D : gset Z) (line : list Z) (c : Z) : list Z :=
  if negb (is_press c) then line
  else if key_char (event D c) c =? 10 then line ++ [10] else edit line (key_char (event D c) c).

(** Between two states of terminal [dev] nothing but its queue and its console
    changes. *)
Record serves (w w' : ttys) (dev : nat) (t t' : tty_device) : Prop := {
  sv_tty : theActiveTTY w' = theActiveTTY w /\ theTTYlist w' = theTTYlist w /\ (forall i, i <> dev -> theVcsTTY w' !! i = theVcsTTY w !! i) /\ t' = set_inpq t (tty_inpq t');
  sv_scr : only_vcs (tty_vcs t) (scr w) (scr w') }.

Lemma serves_refl w dev t : serves w w dev t t.
Proof. constructor; [|apply only_vcs_refl]. by destruct t. Qed.

Lemma serves_trans w1 w2 w3 dev t1 t2 t3 : serves w1 w2 dev t1 t2 -> serves w2 w3 dev t2 t3 -> serves w1 w3 dev t1 t3.
Proof.
  intros [(A1 & A2 & A3 & A4) A5] [(B1 & B2 & B3 & B4) B5]. constructor.
  - split; [congruence|]. split; [congruence|]. split; [|rewrite B4, A4; done]. intros i Hi. by rewrite B3, A3.
  - apply (only_vcs_trans _ _ (scr w2)); [done|]. rewrite A4 in B5. done.
Qed.

Lemma serves_echoed w dev t q w' : echoed w dev t q w' -> serves w w' dev t (set_inpq t q).
Proof.
  intros (s' & -> & Ho). constructor; [|done]. split; [done|]. split; [done|]. split; [|done]. intros i Hi. simpl. by rewrite list_lookup_insert_ne.
Qed.

(** A step of the handler seen from the driver. *)
Lemma handler_step k c w dev t line : at_line w dev t line -> start (tty_inpq t) + 1 < 512 -> c < 59 \/ 66 < c ->
  exists w' t', tty_keyboard_handler k c w = Some w' /\ serves w w' dev t t' /\ start (tty_inpq t') <= start (tty_inpq t) + 1 /\
    at_line w' dev t' (if translate_from_scan k None c =? 10 then line ++ [10] else edit line (translate_from_scan k None c)).
Proof.
  intros Ha Hs Hc. destruct (handler_char k c w dev t line Ha Hs Hc) as (w' & q & E & He & Hw & Hq & Hst). exists w', (set_inpq t q).
  split; [done|]. split; [by apply serves_echoed|]. split; [done|]. by apply (at_line_echoed w dev t line q w').
Qed.

Lemma irq_line w D c dev t line : kb_tty (kb w) D -> at_line (tt w) dev t line -> start (tty_inpq t) + 1 < 512 -> plain_code c ->
  exists w' t', keyboard_irq w c = Some w' /\ kb_tty (kb w') (event D c) /\ serves (tt w) (tt w') dev t t' /\
    start (tty_inpq t') <= start (tty_inpq t) + 1 /\ at_line (tt w') dev t' (after_code D line c).
Proof.
  intros [Hp Hr Hk] Ha Hs [Hc Hf]. unfold keyboard_irq, upd_kbd, after_code. rewrite land_128 by done. destruct (is_press c) eqn:Ep; pose proof Ep as Ep'; unfold is_press in Ep'; b2p; cbn [the_kbd put_kbd tty_client kb tt].
  - assert (Hk' : keys_are (event D c) (<[Z.to_nat c := true]> (theKeyboard (kb w)))) by (unfold event; rewrite Ep; apply (keys_insert D _ c true); [done|lia]).
    cbn [on_press set_keys kbd_push_scancode set_ring]. rewrite Hp. cbn [call_event tty_handler tty_client kb tt].
    match goal with |- context [tty_keyboard_handler ?k c _] => destruct (handler_step k c (tt w) dev t line Ha Hs Hf) as (w' & t' & E & H1 & H2 & H3);
      rewrite (translate_is (event D c) k c Hk') in H3 by lia end.
    rewrite E. cbn [mbind option_bind negb]. eexists _, t'. split; [done|]. by split; [constructor|].
  - assert (Hk' : keys_are (event D c) (<[Z.to_nat (Z.land c 127) := false]> (theKeyboard (kb w))))
      by (unfold event; rewrite Ep, land_127 by lia; apply (keys_insert D _ (c - 128) false); [done|lia]).
    cbn [on_release set_keys kbd_push_scancode set_ring negb]. destruct Hr as [Hr|Hr]; rewrite Hr; cbn [call_event tty_handler tty_client kb tt].
    + eexists _, t. split; [done|]. split; [constructor; cbn; auto|]. split; [apply serves_refl|]. split; [lia|done].
    + match goal with |- context [tty_keyboard_handler ?k c _] => destruct (handler_step k c (tt w) dev t line Ha Hs Hf) as (w' & t' & E & H1 & H2 & H3) end.
      unfold translate_from_scan in H3. rewrite land_128, Ep in H3 by done. cbn in H3. rewrite E. cbn [mbind option_bind]. eexists _, t'. split; [done|].
      split; [constructor; cbn; auto|done].
Qed.

(** ** Reading the line *)

Definition line_ready (dev : nat) (t : ttys) : option bool := tty ← theVcsTTY t !! dev; Some (0 <=? tty_inpq_strchr (tty_inpq tty) 10).

Lemma halt_until_eq ready w irqs : halt_until ready w irqs =
  (r ← ready (tt w); if (r : bool) then Some (w, Some irqs)
   else match irqs with [] => Some (w, None) | c :: irqs => w ← keyboard_irq w c; halt_until ready w irqs end).
Proof. by destruct irqs. Qed.

Lemma line_not_ready w dev t line : at_line w dev t line -> Forall line_byte line -> line_ready dev w = Some false.
Proof. intros Ha Hl. unfold line_ready. rewrite (al_dev _ _ _ _ Ha). cbn [mbind option_bind]. by rewrite (strchr_line _ line) by (apply Ha || done). Qed.

Lemma line_is_ready w dev t line : at_line w dev t (line ++ [10]) -> Forall line_byte line -> line_ready dev w = Some true.
Proof.
  intros Ha Hl. unfold line_ready. rewrite (al_dev _ _ _ _ Ha). cbn [mbind option_bind]. rewrite (strchr_newline _ line) by (apply Ha || done).
  by rewrite (proj2 (Z.leb_le 0 _)) by lia.
Qed.

Lemma edit_line_bytes line ch : Forall line_byte line -> 0 <= ch < 128 -> ch <> 10 -> Forall line_byte (edit line ch).
Proof.
  intros Hf Hc Hn. unfold edit. destruct (Z.eqb_spec ch 0); [done|]. destruct (Z.eqb_spec ch 8).
  - destruct line as [|x line _] using rev_ind; [done|]. rewrite removelast_last. by apply Forall_app in Hf as [? _].
  - apply Forall_app. split; [done|]. repeat constructor; lia.
Qed.

Lemma halt_until_line dev irqs : forall w D t line D' final rest, kb_tty (kb w) D -> at_line (tt w) dev t line -> Forall line_byte line ->
  start (tty_inpq t) + Z.of_nat (length irqs) < 512 -> Forall plain_code irqs -> typed D line irqs = Some (D', final, rest) ->
  exists w' t', halt_until (line_ready dev) w irqs = Some (w', Some rest) /\ kb_tty (kb w') D' /\ serves (tt w) (tt w') dev t t' /\
    at_line (tt w') dev t' (final ++ [10]) /\ Forall line_byte final /\ start (tty_inpq t') + Z.of_nat (length rest) <= start (tty_inpq t) + Z.of_nat (length irqs).
Proof.
  induction irqs as [|c irqs IH]; intros w D t line D' final rest Hk Ha Hl Hs Hf E; [done|]. inversion Hf as [|? ? Hc Hf']; subst. simpl length in Hs. simpl in E.
  rewrite halt_until_eq. rewrite (line_not_ready _ _ _ _ Ha Hl). cbn [mbind option_bind].
  destruct (irq_line w D c dev t line Hk Ha ltac:(lia) Hc) as (w1 & t1 & -> & Hk1 & Hv1 & Hs1 & Ha1). cbn [mbind option_bind].
  pose proof (key_char_ascii (event D c) c) as Hch. unfold after_code in Ha1. destruct (is_press c); cbn [negb] in *.
  - destruct (Z.eqb_spec (key_char (event D c) c) 10) as [En|En].
    + injection E as <- <- <-. exists w1, t1. rewrite halt_until_eq. rewrite (line_is_ready _ _ _ _ Ha1 Hl). cbn [length]. repeat (split; [done|]). lia.
    + destruct (IH w1 _ t1 _ _ _ _ Hk1 Ha1 (edit_line_bytes _ _ Hl Hch En) ltac:(lia) Hf' E) as (w2 & t2 & E2 & Hk2 & Hv2 & Ha2 & Hl2 & H2).
      exists w2, t2. split; [done|]. split; [done|]. split; [by apply (serves_trans _ (tt w1) _ _ _ t1)|]. split; [done|]. split; [done|]. cbn [length]. lia.
  - destruct (IH w1 _ t1 _ _ _ _ Hk1 Ha1 Hl ltac:(lia) Hf' E) as (w2 & t2 & E2 & Hk2 & Hv2 & Ha2 & Hl2 & H2).
    exists w2, t2. split; [done|]. split; [done|]. split; [by apply (serves_trans _ (tt w1) _ _ _ t1)|]. split; [done|]. split; [done|]. cbn [length]. lia.
Qed.

Lemma line_read w D dev t line0 buflen irqs D' line rest :
  kb_tty (kb w) D -> at_line (tt w) dev t line0 -> Forall line_byte line0 -> start (tty_inpq t) + Z.of_nat (length irqs) < 512 -> Forall plain_code irqs ->
  typed D line0 irqs = Some (D', line, rest) -> Z.of_nat (length line) + 1 <= buflen ->
  exists w' t', dev_tty_read w dev buflen irqs = Some (Returns w' 0 (line ++ [10]) (Some (Z.of_nat (length line) + 1)) rest) /\
    kb_tty (kb w') D' /\ at_line (tt w') dev t' [] /\ serves (tt w) (tt w') dev t t' /\ start (tty_inpq t') + Z.of_nat (length rest) <= start (tty_inpq t) + Z.of_nat (length irqs).
Proof.
  intros Hk Ha Hl Hs Hf E Hb. unfold dev_tty_read. rewrite (al_dev _ _ _ _ Ha). cbn [mbind option_bind]. rewrite (al_mode _ _ _ _ Ha), (al_canon _ _ _ _ Ha).
  cbn [Z.eqb TTYKBD_ANSI TTYKBD_RAW Pos.eqb negb]. fold (line_ready dev).
  destruct (halt_until_line dev irqs w D t line0 D' line rest Hk Ha Hl Hs Hf E) as (w1 & t1 & -> & Hk1 & Hv1 & Ha1 & Hl1 & Hs1). cbn [mbind option_bind].
  rewrite (al_dev _ _ _ _ Ha1). cbn [mbind option_bind]. rewrite (strchr_newline _ line) by (apply Ha1 || done). rewrite (proj2 (Z.ltb_ge _ _)) by lia.
  unfold pop_from. rewrite (al_dev _ _ _ _ Ha1). cbn [mbind option_bind].
  destruct (pop_all (tty_inpq t1) (line ++ [10])) as (q' & Eq & Hq' & Hst); [apply Ha1|by destruct line|].
  replace (Z.of_nat (length (line ++ [10]))) with (Z.of_nat (length line) + 1) in Eq by (rewrite length_app; simpl; lia). rewrite Eq. cbn [mbind option_bind].
  assert (He : echoed (tt w1) dev t1 q' (set_tty (tt w1) dev (set_inpq t1 q'))) by (exists (scr (tt w1)); by split; [|apply only_vcs_refl]).
  eexists _, (set_inpq t1 q'). split; [done|]. split; [done|]. split; [by apply (at_line_echoed (tt w1) dev t1 (line ++ [10]) q'); [| |apply Ha1|]|].
  split; [apply (serves_trans _ (tt w1) _ _ _ t1); [done|]; by apply serves_echoed|]. cbn [set_inpq tty_inpq]. lia.
Qed.

(** Typing and reading a line.  While the interrupts of the keyboard come in
    as a read of the active terminal waits (keys and modifiers in any order, no
    switch of the terminal, within the space of the queue), the read returns
    exactly the edited line with its newline, leaves the scan codes typed after
    it for later and the queue empty; only the terminal's own console is
    changed by the echo. *)
Theorem typed_line_is_read w D dev t line0 buflen irqs D' line rest :
  kb_tty (kb w) D -> at_line (tt w) dev t line0 -> Forall line_byte line0 -> start (tty_inpq t) + Z.of_nat (length irqs) < 512 -> Forall plain_code irqs ->
  typed D line0 irqs = Some (D', line, rest) -> Z.of_nat (length line) + 1 <= buflen ->
  exists w' t', dev_tty_read w dev buflen irqs = Some (Returns w' 0 (line ++ [10]) (Some (Z.of_nat (length line) + 1)) rest) /\
    kb_tty (kb w') D' /\ at_line (tt w') dev t' [] /\ serves (tt w) (tt w') dev t t'.
Proof. intros Hk Ha Hl Hs Hf E Hb. destruct (line_read w D dev t line0 buflen irqs D' line rest Hk Ha Hl Hs Hf E Hb) as (w' & t' & H1 & H2 & H3 & H4 & _). by exists w', t'. Qed.

Definition demo_scr : screen := mk_scr 0 (replicate 8 (mk_vcs 0 0 7)) ∅ ∅ 0.

(** The eight terminals after the set-up, on blank consoles. *)
Definition demo_world : world :=
  let blank := mk_tty 0 0 (mk_q 9 4 (replicate 512 0)) (mk_termios 0 0 0 0 [] 0 0) (0, 0) 0 0 in
  mk_world (kbd_set_onpress (kbd_setup (mk_kbd 0 0 (replicate 256 0) [] None None 0)) (Some KB.tty_keyboard_handler))
    (init_tty_family (mk_ttys 5 (replicate 8 blank) (replicate 64 None) demo_scr)).

Definition demo_tty : tty_device := mk_tty 0 1 (mk_q 0 0 (replicate 512 0)) stty_sane (80, 25) 0 0.

Lemma demo_keys : KBP.keys_are ∅ (theKeyboard (kb demo_world)).
Proof.
  split; [reflexivity|]. intros k Hk. rewrite bool_decide_eq_false_2 by set_solver.
  change (theKeyboard (kb demo_world)) with (replicate 128 false). rewrite nth_lookup, lookup_replicate_2 by lia. reflexivity.
Qed.

Lemma demo_at_line : at_line (tt demo_world) 0 demo_tty [].
Proof.
  constructor; [|reflexivity|reflexivity|reflexivity|reflexivity|cbn; lia| |].
  - change (theActiveTTY (tt demo_world)) with 0. lia.
  - constructor; cbn [start end_ tty_inpq demo_tty length]; [lia|lia|]. exists [], (replicate 512 0). split; [reflexivity|]. split; reflexivity.
  - change (scr (tt demo_world)) with demo_scr. constructor; [reflexivity|cbn; lia| |].
    + apply Forall_replicate. split; cbn; lia.
    + intros o _. reflexivity.
Qed.

(** ** Defects the model shows *)

(** Once the queue has wrapped its size is that of the free space. *)
Lemma wrapped_size_is_free_space q : 0 <= start q < end_ q -> end_ q <= 512 -> tty_inpq_size q = 512 - start q + end_ q.
Proof. intros H1 H2. unfold tty_inpq_size, MAX_INPUT. rewrite (proj2 (Z.ltb_lt _ _)) by lia. apply u32_small. unfold in_u32. lia. Qed.

(** Taking a part of a wrapped queue up to the end of the buffer leaves the
    reading position at the wrong place: two bytes at 510 and 511, of which one
    is asked for, fault. *)
Lemma wrapped_pop_faults : tty_inpq_pop (mk_q 0 510 (replicate 512 7)) 1 = None.
Proof. vm_compute. reflexivity. Qed.

Lemma wrapped_pop_wrong_end : (fun r => end_ r.1.1) <$> tty_inpq_pop (mk_q 1 510 (replicate 512 7)) 3 = Some 2.
Proof. vm_compute. reflexivity. Qed.

(** Backspace after a newline removes the newline from the queue. *)
Lemma backspace_erases_newline q l : holds q (l ++ [10]) -> exists q', tty_inpq_unpush q 1 = (q', true) /\ holds q' l.
Proof. intros H. destruct (unpush_byte q l 10 H) as (q' & E & H' & _). by exists q'. Qed.

(** ESC [ J without a number reads through NULL. *)
Lemma erase_without_number_faults s v : ecma48_csi s 74 v None None = None /\ ecma48_csi s 75 v None None = None.
Proof. split; reflexivity. Qed.

(** A buffer that ends in ESC makes the byte behind it part of the output. *)
Lemma escape_reads_past_buffer s v : write_loop 1 s v [27; 99] [27; 99] 1 = (s ← vcsa_clear s v; Some s).
Proof. cbn. by destruct (vcsa_clear s v). Qed.

End TTYP.
