(* ===== verification/ScreenGrid.v ===== *)
(** * Text consoles as grids of cells

    Module [SCG]: an abstract terminal (a grid of 25 lines of 80 cells, a cursor
    and an attribute) and the proof that printing on a console, from a program
    through its terminal or from the kernel, does to the console's memory what
    it does to the grid. *)

From S2P Require Import Prelude CString Screen ScreenProofs Kbd Tty TtyProofs.

Module SCG.
Import SC SCP.

(** ** The abstract terminal *)

Record grid := mk_grid { cell : Z -> Z -> Z * Z; row : Z; column : Z; color : Z }.

Definition g_scroll (g : grid) : grid :=
  mk_grid (fun r c => if r <? 24 then cell g (r + 1) c else (32, color g)) (row g) (column g) (color g).
Definition g_newline (g : grid) : grid :=
  let g := mk_grid (cell g) (row g) 0 (color g) in
  if row g <? 24 then mk_grid (cell g) (row g + 1) 0 (color g) else g_scroll g.
Definition g_put (g : grid) (ch : Z) : grid :=
  mk_grid (fun r c => if (r =? row g) && (c =? column g) then (ch, color g) else cell g r c) (row g) (column g) (color g).
Definition g_next (g : grid) : grid := if column g <? 79 then mk_grid (cell g) (row g) (column g + 1) (color g) else g_newline g.
Definition g_char (g : grid) (ch : Z) : grid := if ch =? 10 then g_newline g else g_next (g_put g ch).

(** ** The memory of a console as a grid *)

Record shows (n : Z) (s : screen) (g : grid) : Prop := {
  sh_vcs : vcs_at s n = Some (mk_vcs (row g) (column g) (color g));
  sh_cells : forall r c, 0 <= r < 25 -> 0 <= c < 80 ->
    let o := 4000 * n + 2 * (80 * r + c) in (ldb (vbuf s) o, ldb (vbuf s) (o + 1)) = cell g r c }.

Definition to_grid (n : Z) (r : option screen) (g : grid) : Prop := exists s', r = Some s' /\ scr_wf s' /\ shows n s' g.

Lemma to_grid_bind n r f g g' : to_grid n r g -> (forall s, scr_wf s -> shows n s g -> to_grid n (f s) g') -> to_grid n (r ≫= f) g'.
Proof. intros (s & -> & H1 & H2) Hf. by apply Hf. Qed.

Lemma to_grid_ret n s g : scr_wf s -> shows n s g -> to_grid n (Some s) g.
Proof. intros H1 H2. by exists s. Qed.

(** What only concerns the hardware does not change the grid. *)
Lemma shows_hw n s g h : shows n s g -> shows n (mk_scr (active_vcs s) (vcs_data s) (vbuf s) (video s) h) g.
Proof. by intros []. Qed.

Lemma grid_update_hw n s g (b : bool) : scr_wf s -> shows n s g -> to_grid n (if b then update_hw_cursor s else Some s) g.
Proof.
  intros Hwf Hg. destruct b; [|by apply to_grid_ret]. destruct (update_hw_ok s Hwf) as [h ->]. apply to_grid_ret; [by destruct Hwf|by apply shows_hw].
Qed.

Lemma shows_set_vcs n s g r c a : scr_wf s -> 0 <= n < 8 -> shows n s g -> shows n (set_vcs s n (mk_vcs r c a)) (mk_grid (cell g) r c a).
Proof. intros Hwf Hn [_ Hc]. constructor; [by apply vcs_at_set|done]. Qed.

Lemma scroll_clear_bytes n : forall b buf a o,
  ldb (scroll_clear n b buf a) o = if (buf <=? o) && (o <? buf + 2 * Z.of_nat n) then (if Z.even (o - buf) then 32 else a) else ldb b o.
Proof.
  induction n as [|n IH]; intros b buf a o; cbn [scroll_clear]; [repeat (case_if; try lia); done|]. rewrite IH. unfold clear_vga_sym. rewrite !ldb_stb.
  replace (o - (buf + 2)) with (o - buf - 2 * 1) by lia. replace (Z.even (o - buf - 2 * 1)) with (Z.even (o - buf)) by (rewrite (Z.even_sub (o - buf) (2 * 1)); by destruct (Z.even (o - buf))).
  destruct (Z.eqb_spec (buf + 1) o) as [<-|H1]; [replace (buf + 1 - buf) with 1 by lia; repeat (case_if; try lia); done|].
  destruct (Z.eqb_spec buf o) as [<-|H2]; [replace (buf - buf) with 0 by lia; repeat (case_if; try lia); done|].
  repeat (case_if; try lia); done.
Qed.

(** The cells after a scroll by one line. *)
Lemma scroll_cells n s g : shows n s g -> 0 <= n < 8 ->
  forall r c, 0 <= r < 25 -> 0 <= c < 80 ->
    let o := 4000 * n + 2 * (80 * r + c) in
    let b := scroll_clear 80 (scroll_move 1920 (vbuf s) (4000 * n) 1) (4000 * n + 3840) (color g) in
    (ldb b o, ldb b (o + 1)) = cell (g_scroll g) r c.
Proof.
  intros [_ Hc] Hn r c Hr Hcc o b. unfold b. rewrite !scroll_clear_bytes, !scroll_move_bytes by lia. simpl cell.
  change (Z.of_nat 80) with 80. change (Z.of_nat 1920) with 1920. destruct (Z.ltb_spec r 24).
  - repeat (case_if; try lia). specialize (Hc (r + 1) c ltac:(lia) Hcc). simpl in Hc. rewrite <- Hc. unfold o. f_equal; f_equal; lia.
  - rewrite !(proj2 (Z.leb_le (4000 * n + 3840) _)), !(proj2 (Z.ltb_lt _ (4000 * n + 3840 + 2 * 80))) by lia. cbn [andb].
    replace (o - (4000 * n + 3840)) with (2 * (80 * (r - 24) + c)) by lia. replace (o + 1 - (4000 * n + 3840)) with (2 * (80 * (r - 24) + c) + 1) by lia.
    by rewrite Z.even_add, !Z.even_mul.
Qed.

(** Opens an operation on the console that shows [g]. *)
Lemma shows_cursor n s g : scr_wf s -> 0 <= n < 8 -> shows n s g -> 0 <= row g < 25 /\ 0 <= column g < 80.
Proof. intros Hwf Hn [Hv _]. destruct (vcs_there s n Hwf Hn) as (v & E & [H1 H2] & _). rewrite Hv in E. by injection E as <-. Qed.

Lemma grid_scroll n s g : scr_wf s -> 0 <= n < 8 -> shows n s g -> to_grid n (vcsa_scroll_lines s n 1) (g_scroll g).
Proof.
  intros Hwf Hn Hg. pose proof Hg as [Hv Hc]. unfold vcsa_scroll_lines. cbv zeta. rewrite (which_vcs_id s n Hn), Hv. cbn [mbind option_bind SC.attr].
  unfold GET_VCSA_BUF, SCR_WIDTH, SCR_HEIGHT. replace (2 * 80 * 25 * n) with (4000 * n) by lia.
  change (Z.to_nat (Z.max 0 ((25 - 1) * 80))) with 1920%nat. change (2 * Z.max 0 ((25 - 1) * 80)) with 3840. change (Z.to_nat (1 * 80)) with 80%nat.
  destruct (put_buf_ok s n (scroll_clear 80 (scroll_move 1920 (vbuf s) (4000 * n) 1) (4000 * n + 3840) (color g)) Hwf Hn) as (s' & -> & Hw & _ & Eb & Ed).
  { apply (only_trans _ _ _ (scroll_move 1920 (vbuf s) (4000 * n) 1)); (eapply only_weaken; [first [apply scroll_move_only; lia|apply scroll_clear_only]|lia|lia]). }
  apply to_grid_ret; [done|]. constructor; [unfold vcs_at in *; by rewrite Ed|]. rewrite Eb. by apply scroll_cells.
Qed.

Lemma grid_newline n s g : scr_wf s -> 0 <= n < 8 -> shows n s g -> to_grid n (vcsa_newline s n) (g_newline g).
Proof.
  intros Hwf Hn Hg. pose proof (shows_cursor n s g Hwf Hn Hg) as [Hr Hc]. unfold vcsa_newline. cbv zeta. rewrite (sh_vcs _ _ _ Hg). cbn [mbind option_bind SC.line SC.attr].
  destruct (set_vcs_ok s n (mk_vcs (row g) 0 (color g)) Hwf Hn) as [H1 _]; [split; simpl; lia|].
  pose proof (shows_set_vcs n s g (row g) 0 (color g) Hwf Hn Hg) as H2. eapply to_grid_bind; [|intros s1 Hw1 Hg1; by apply grid_update_hw].
  rewrite u32_small by (unfold in_u32; change (2 ^ 32) with 4294967296; lia). unfold SCR_HEIGHT, g_newline. simpl row. destruct (Z.ltb_spec (row g + 1) 25).
  - rewrite (proj2 (Z.ltb_lt (row g) 24)) by lia. destruct (set_vcs_ok (set_vcs s n (mk_vcs (row g) 0 (color g))) n (mk_vcs (row g + 1) 0 (color g)) H1 Hn) as [H3 _]; [split; simpl; lia|].
    apply to_grid_ret; [done|]. by apply (shows_set_vcs n _ _ (row g + 1) 0 (color g)) in H2.
  - rewrite (proj2 (Z.ltb_ge (row g) 24)) by lia. by apply grid_scroll.
Qed.

Lemma grid_put n s g ch : scr_wf s -> 0 <= n < 8 -> shows n s g -> to_grid n (vcsa_set_char s n ch) (g_put g ch).
Proof.
  intros Hwf Hn Hg. pose proof (shows_cursor n s g Hwf Hn Hg) as [Hr Hc]. destruct (keeps_set_char s n ch Hwf Hn) as (s' & E & Hw & _). exists s'. split; [done|]. split; [done|].
  unfold vcsa_set_char in E. cbv zeta in E. rewrite (which_vcs_id s n Hn), (vcs_ok_true n Hn), (sh_vcs _ _ _ Hg) in E. cbn [negb mbind option_bind SC.attr SC.line SC.col] in E.
  injection E as <-. unfold GET_VCSA_BUF, SCR_WIDTH, SCR_HEIGHT. replace (2 * 80 * 25 * n) with (4000 * n) by lia.
  case_if; (constructor; [apply Hg|]); intros r c Hr' Hc'; cbv zeta; cbn [vbuf set_video set_vbuf cell g_put]; rewrite !ldb_stb; pose proof (sh_cells _ _ _ Hg r c Hr' Hc') as Hcell;
    (destruct (Z.eqb_spec r (row g)) as [->|Hne]; [destruct (Z.eqb_spec c (column g)) as [->|Hne]|]); cbn [andb]; repeat (case_if; try lia); done.
Qed.

Lemma grid_next n s g : scr_wf s -> 0 <= n < 8 -> shows n s g -> to_grid n (vcsa_move_cursor_next s n) (g_next g).
Proof.
  intros Hwf Hn Hg. pose proof (shows_cursor n s g Hwf Hn Hg) as [Hr Hc]. unfold vcsa_move_cursor_next. cbv zeta. rewrite (sh_vcs _ _ _ Hg). cbn [mbind option_bind SC.line SC.col SC.attr].
  eapply to_grid_bind; [|intros s1 Hw1 Hg1; by apply grid_update_hw].
  rewrite u32_small by (unfold in_u32; change (2 ^ 32) with 4294967296; lia). unfold SCR_WIDTH, g_next. destruct (Z.ltb_spec (column g + 1) 80).
  - rewrite (proj2 (Z.ltb_lt (column g) 79)) by lia. destruct (set_vcs_ok s n (mk_vcs (row g) (column g + 1) (color g)) Hwf Hn) as [H3 _]; [split; simpl; lia|].
    apply to_grid_ret; [done|]. by apply shows_set_vcs.
  - rewrite (proj2 (Z.ltb_ge (column g) 79)) by lia. by apply grid_newline.
Qed.

Lemma grid_print n s g ch : scr_wf s -> 0 <= n < 8 -> shows n s g -> to_grid n (vcsa_cprint s n ch) (g_next (g_put g ch)).
Proof.
  intros Hwf Hn Hg. unfold vcsa_cprint. rewrite (which_vcs_id s n Hn), (vcs_ok_true n Hn). cbn [negb]. eapply to_grid_bind; [by apply grid_put|].
  intros s1 H1 H2. by apply grid_next.
Qed.

(** ** Text *)

Definition printable (c : Z) : Prop := 32 <= c < 127 \/ c = 10.

Lemma iscntrl_printable c : 32 <= c < 127 -> TTY.iscntrl c = Some false.
Proof.
  intros Hc. assert (Hall : forallb (fun c => bool_decide (TTY.iscntrl c = Some false)) (seqZ 32 95) = true) by (vm_compute; reflexivity).
  rewrite forallb_forall in Hall. specialize (Hall c). rewrite bool_decide_eq_true in Hall. apply Hall, list_elem_of_In, elem_of_seqZ. lia.
Qed.

Lemma grid_write_one n s g c rest : scr_wf s -> 0 <= n < 8 -> shows n s g -> printable c ->
  exists s', TTY.write_one s n (c :: rest) = Some (s', rest) /\ scr_wf s' /\ shows n s' (g_char g c).
Proof.
  intros Hwf Hn Hg Hc. unfold TTY.write_one, g_char. cbn [hd_error mbind option_bind]. destruct Hc as [Hc| ->].
  - rewrite iscntrl_printable, (proj2 (Z.eqb_neq c 10)) by lia. cbn [mbind option_bind]. destruct (grid_print n s g c Hwf Hn Hg) as (s' & -> & H). by exists s'.
  - change (TTY.iscntrl 10) with (Some true). cbn [mbind option_bind Z.eqb Pos.eqb]. destruct (grid_newline n s g Hwf Hn Hg) as (s' & -> & H). by exists s'.
Qed.

Lemma grid_write_loop k : forall n s g buf todo after, scr_wf s -> 0 <= n < 8 -> shows n s g -> Forall printable todo -> (length todo <= k)%nat ->
  (length (todo ++ after) <= length buf)%nat ->
  to_grid n (TTY.write_loop k s n buf (todo ++ after) (Z.of_nat (length buf) - Z.of_nat (length after))) (fold_left g_char todo g).
Proof.
  induction k as [|k IH]; intros n s g buf todo after Hwf Hn Hg Hf Hk Hl; rewrite length_app in Hl; destruct todo as [|c todo]; simpl length in *; simpl app; try lia;
    cbn [TTY.write_loop fold_left]; [rewrite (proj2 (Z.ltb_ge _ _)) by lia; by apply to_grid_ret..|].
  inversion Hf as [|? ? Hc Hf']; subst. simpl length. rewrite (proj2 (Z.ltb_lt _ _)) by (rewrite length_app; lia).
  destruct (grid_write_one n s g c (todo ++ after) Hwf Hn Hg Hc) as (s1 & -> & Hw1 & Hg1). cbn [mbind option_bind]. apply IH; try done; [lia|rewrite length_app; lia].
Qed.

Lemma printable_text c : printable c -> TTYP.text_byte c.
Proof. intros [H| ->]; split; lia. Qed.

Lemma dev_write_grid w dev t text after g :
  TTY.theVcsTTY w !! dev = Some t -> 0 <= TTY.tty_vcs t < 8 -> scr_wf (TTY.scr w) -> Forall printable text -> shows (TTY.tty_vcs t) (TTY.scr w) g ->
  exists s', TTY.dev_tty_write w dev (text ++ after) (Z.of_nat (length text)) = Some (TTY.set_scr w s', 0, Z.of_nat (length text)) /\
    scr_wf s' /\ shows (TTY.tty_vcs t) s' (fold_left g_char text g) /\ forall k, 0 <= k < 8 -> k <> TTY.tty_vcs t -> same_console k (TTY.scr w) s'.
Proof.
  intros Ht Hv Hwf Hf Hg.
  destruct (TTYP.dev_write_text w dev t text after Ht Hv Hwf) as (s' & E & Hw & Ho); [by eapply Forall_impl, printable_text|].
  exists s'. split; [done|]. split; [done|]. split; [|intros k Hk Hne; by apply (same_console_only (TTY.tty_vcs t))].
  destruct (grid_write_loop (length text) (TTY.tty_vcs t) (TTY.scr w) g (text ++ after) text after Hwf Hv Hg Hf) as (s2 & E2 & _ & Hg2); [done|done|].
  unfold TTY.dev_tty_write in E. rewrite Ht in E. cbn [mbind option_bind] in E. unfold N_VCSA_DEVICES in E. rewrite (proj2 (Z.leb_gt 8 _)) in E by lia.
  replace (Z.of_nat (length (text ++ after)) - Z.of_nat (length after)) with (Z.of_nat (length text)) in E2 by (rewrite length_app; lia).
  rewrite Nat2Z.id, E2 in E. cbn [mbind option_bind] in E. assert (s2 = s') as <- by (unfold TTY.set_scr in E; congruence). done.
Qed.

(** C15: written text appears.  Writing printable characters and newlines to a
    terminal changes its console exactly as the abstract terminal says (wrapping
    after 80 columns, scrolling below line 25, with the current attribute),
    reports all bytes written, and leaves every other console as it was. *)
Theorem written_text_appears w ttyno dev t text after g :
  TTY.get_tty_device w ttyno = Some dev -> TTY.theVcsTTY w !! dev = Some t -> 0 <= TTY.tty_vcs t < 8 -> scr_wf (TTY.scr w) -> Forall printable text ->
  shows (TTY.tty_vcs t) (TTY.scr w) g ->
  exists s', TTY.tty_write w ttyno (text ++ after) (Z.of_nat (length text)) = Some (TTY.set_scr w s', 0) /\
    scr_wf s' /\ shows (TTY.tty_vcs t) s' (fold_left g_char text g) /\ forall k, 0 <= k < 8 -> k <> TTY.tty_vcs t -> same_console k (TTY.scr w) s'.
Proof.
  intros Hd Ht Hv Hwf Hf Hg. unfold TTY.tty_write. rewrite Hd. destruct (dev_write_grid w dev t text after g Ht Hv Hwf Hf Hg) as (s' & -> & H). by exists s'.
Qed.

(** The blank grid in the default colour. *)
Definition demo_grid : grid := mk_grid (fun _ _ => (0, 0)) 0 0 7.

Lemma written_text_appears_witness :
  exists s', TTY.tty_write (TTY.tt TTYP.demo_world) 2 [79; 75; 10; 0] 3 = Some (TTY.set_scr (TTY.tt TTYP.demo_world) s', 0) /\
    scr_wf s' /\ shows 2 s' (fold_left g_char [79; 75; 10] demo_grid) /\ forall k, 0 <= k < 8 -> k <> 2 -> same_console k TTYP.demo_scr s'.
Proof.
  pose (t2 := TTY.mk_tty 2 1 (TTY.mk_q 0 0 (replicate 512 0)) TTY.stty_sane (80, 25) 2 0).
  apply (written_text_appears (TTY.tt TTYP.demo_world) 2 2 t2 [79; 75; 10] [0] demo_grid).
  - reflexivity.
  - reflexivity.
  - cbn. lia.
  - change (TTY.scr (TTY.tt TTYP.demo_world)) with TTYP.demo_scr. constructor; [reflexivity|cbn; lia|apply Forall_replicate; split; cbn; lia|intros o _; reflexivity].
  - repeat (apply Forall_cons_2; [unfold printable; lia|]). constructor.
  - change (TTY.scr (TTY.tt TTYP.demo_world)) with TTYP.demo_scr. constructor; [reflexivity|]. intros r c _ _. reflexivity.
Defined.

End SCG.
