(* ===== verification/Stdio.v ===== *)
(** * Streams of the C library (lib/c/src/stdio.c, lib/c/include/stdio.h)

    Module [IO]: the operations on [FILE] over any implementation of the system
    calls on files, the class [FileOps].  [None] stands for an access through
    NULL or outside an array.  Memory that [malloc] gives is an argument. *)

From S2P Require Import Prelude CString.

Module IO.

Definition BUFSIZ : Z := 4096.
Definition EOF : Z := 14745103.
Definition IONBF : Z := 0.
Definition IOFBF : Z := 1.
Definition IOLBF : Z := 2.
Definition O_RDWR : Z := 1.
Definition O_RDONLY : Z := 2.
Definition O_WRONLY : Z := 4.
Definition O_APPEND : Z := 8.
Definition O_CREAT : Z := 16.
Definition O_TRUNC : Z := 32.
Definition SEEK_SET : Z := 0.
Definition SEEK_CUR : Z := 1.
Definition SEEK_END : Z := 2.
Definition EBADF : Z := 9.
Definition EINVAL : Z := 22.
Definition ETODO : Z := 39.

(** The system calls on files: the state, the result and the bytes read. *)
Class FileOps (W : Type) := {
  sys_open : W -> list Z -> Z -> option (W * Z);
  sys_read : W -> Z -> Z -> option (W * Z * list Z);
  sys_write : W -> Z -> list Z -> option (W * Z);
  sys_lseek : W -> Z -> Z -> Z -> option (W * Z);
  sys_close : W -> Z -> option (W * Z) }.

(** [file_buf] is [None] for NULL and otherwise holds the buffer's bytes. *)
Record FILE := mk_FILE {
  file_fd : Z; file_pos : Z; file_size : Z; file_flags : Z; file_ungetc : Z; file_bufmode : Z;
  file_bufpos : Z; file_bufend : Z; file_bufsz : Z; file_buf : option (list Z) }.

Definition set_pos (f : FILE) (p : Z) : FILE :=
  mk_FILE (file_fd f) p (file_size f) (file_flags f) (file_ungetc f) (file_bufmode f) (file_bufpos f) (file_bufend f) (file_bufsz f) (file_buf f).
Definition set_ungetc (f : FILE) (c : Z) : FILE :=
  mk_FILE (file_fd f) (file_pos f) (file_size f) (file_flags f) c (file_bufmode f) (file_bufpos f) (file_bufend f) (file_bufsz f) (file_buf f).
Definition set_window (f : FILE) (p e : Z) (b : option (list Z)) : FILE :=
  mk_FILE (file_fd f) (file_pos f) (file_size f) (file_flags f) (file_ungetc f) (file_bufmode f) p e (file_bufsz f) b.
Definition set_mode (f : FILE) (m sz : Z) : FILE :=
  mk_FILE (file_fd f) (file_pos f) (file_size f) (file_flags f) (file_ungetc f) m (file_bufpos f) (file_bufend f) sz (file_buf f).

Definition has (flags bits : Z) : bool := negb (Z.land flags bits =? 0).

Definition fstream_clearbuf (f : FILE) : FILE :=
  if file_bufmode f =? IONBF then f else set_window (set_ungetc f 0) 0 0 (file_buf f).
Definition fstream_pending (f : FILE) : Z :=
  if file_bufmode f =? IONBF then 0 else u32 (file_bufend f - file_bufpos f).

Definition f_stdin (buf : list Z) : FILE := mk_FILE 0 0 0 0 0 IOFBF 0 0 BUFSIZ (Some buf).
Definition f_stdout (buf : list Z) : FILE := mk_FILE 1 0 0 0 0 IOLBF 0 0 BUFSIZ (Some buf).
Definition f_stderr : FILE := mk_FILE 2 0 0 0 0 IONBF 0 0 0 None.

Section Streams.
Context {W : Type} `{!FileOps W}.

(** The kernel's state and [theErrNo]. *)
Record io := mk_io { os : W; theErrNo : Z }.
Definition set_errno (s : io) (e : Z) : io := mk_io (os s) e.

(** ** Opening and closing *)

Definition occurs (mode : list Z) (c : Z) : bool := bool_decide (c ∈ mode).

(** '+' is 43, 'w' 119, 'a' 97, 'r' 114. *)
Definition open_flags (mode : list Z) : Z :=
  if occurs mode 43 then
    if occurs mode 119 then Z.lor O_RDWR (Z.lor O_CREAT O_TRUNC)
    else if occurs mode 97 then Z.lor O_RDWR (Z.lor O_CREAT O_APPEND)
    else O_RDWR
  else if occurs mode 114 then O_RDONLY
  else if occurs mode 119 then Z.lor O_WRONLY (Z.lor O_CREAT O_TRUNC)
  else if occurs mode 97 then Z.lor O_WRONLY (Z.lor O_CREAT O_APPEND)
  else 0.

(** [mem] is what [malloc (BUFSIZ)] gives.  The error, or the stream. *)
Definition fopen_on (s : io) (path mode : list Z) (mem : option (list Z)) : option (io * (Z + FILE)) :=
  let flags := open_flags mode in
  '(w, fd) ← sys_open (os s) path flags;
  if fd <? 0 then Some (mk_io w (theErrNo s), inl (- fd))
  else
    '(w, filesize) ← sys_lseek w fd 0 SEEK_END;
    '(w, pos) ← (if filesize <? 0 then Some (w, -1)
                 else if has flags O_APPEND then Some (w, filesize)
                 else '(w, _) ← sys_lseek w fd 0 SEEK_SET; Some (w, 0));
    let f := match mem with
             | Some b => mk_FILE fd pos filesize flags 0 IOFBF 0 0 BUFSIZ (Some b)
             | None => mk_FILE fd pos filesize flags 0 IONBF 0 0 0 None
             end in
    Some (mk_io w (theErrNo s), inr f).

(** [room]: memory for the stream itself could be allocated. *)
Definition fopen (s : io) (path mode : list Z) (room : bool) (mem : option (list Z)) : option (io * option FILE) :=
  let s := set_errno s 0 in
  if negb room then Some (s, None)
  else
    '(s, r) ← fopen_on s path mode mem;
    match r with inl e => Some (set_errno s e, None) | inr f => Some (s, Some f) end.

Definition fclose (s : io) (fp : option FILE) : option (io * Z) :=
  match fp with
  | None => Some (set_errno s EINVAL, EOF)
  | Some fp =>
      '(w, ret) ← sys_close (os s) (file_fd fp);
      if negb (ret =? 0) then Some (mk_io w ret, EOF) else Some (mk_io w 0, 0)
  end.

(** [fclose] releases the stream that is then opened again. *)
Definition freopen (s : io) (path mode : list Z) (stream : FILE) (mem : option (list Z)) : option (io * option FILE) :=
  '(s, _) ← fclose s (Some stream);
  '(s, r) ← fopen_on s path mode mem;
  match r with inl e => Some (set_errno s e, None) | inr f => Some (s, Some f) end.

Definition fileno (s : io) (stream : option FILE) : io * Z :=
  match stream with None => (set_errno s EINVAL, -1) | Some f => (s, file_fd f) end.

(** ** Reading: the bytes stored at [ptr] and the result *)

(** The byte pushed back, if there is one. *)
Definition take_ungetc (f : FILE) (nbytes : Z) : FILE * list Z * Z :=
  if file_ungetc f =? 0 then (f, [], nbytes) else (set_ungetc f 0, [u8 (file_ungetc f)], nbytes - 1).

Definition fread_nobuf (s : io) (f : FILE) (nbytes : Z) : option (io * FILE * list Z * Z) :=
  if nbytes <? 1 then Some (s, f, [], 0)
  else
    let '(f, pre, nbytes) := take_ungetc f nbytes in
    '(w, ret, bs) ← sys_read (os s) (file_fd f) nbytes;
    if ret <? 0 then Some (mk_io w (- ret), f, pre, 0)
    else Some (mk_io w (theErrNo s), set_pos f (s32 (file_pos f + ret)), pre ++ bs, ret).

(** [memcpy] of bytes that a system call stores into the buffer. *)
Definition store (buf bs : list Z) : option (list Z) :=
  if (length bs <=? length buf)%nat then Some (bs ++ drop (length bs) buf) else None.

Definition find_stop (upto : option Z) (buf : list Z) (n : Z) : option Z := c ← upto; CS.strnchr_in buf (Z.to_nat n) c.

(** Every turn reads a byte at least, so that the bytes wanted bound the turns. *)
Fixpoint refill_loop (n : nat) (s : io) (f : FILE) (nbytes : Z) (upto : option Z) (out : list Z) (nread : Z) : option (io * FILE * list Z * Z) :=
  if nread <? nbytes then
    match n with
    | O => None
    | S n =>
        '(w, sysread, bs) ← sys_read (os s) (file_fd f) (file_bufsz f);
        b ← file_buf f;
        if sysread <=? 0 then Some (mk_io w (- sysread), f, out, nread)
        else
          b ← store b bs;
          let stop := find_stop upto b sysread in
          let to_read := if nbytes <? nread + sysread then nbytes - nread else sysread in
          let to_read := match stop with Some at_ => at_ + 1 | None => to_read end in
          let f := set_window f to_read sysread (Some b) in
          let out := out ++ take (Z.to_nat to_read) b in
          let s := mk_io w (theErrNo s) in
          match stop with
          | Some _ => Some (s, f, out, nread + to_read)
          | None => refill_loop n s f nbytes upto out (nread + to_read)
          end
    end
  else Some (s, f, out, nread).

Definition fread_upto (s : io) (f : FILE) (nbytes : Z) (upto : option Z) : option (io * FILE * list Z * Z) :=
  if nbytes <? 1 then Some (s, f, [], 0)
  else
    let '(f, pre, nbytes) := take_ungetc f nbytes in
    b ← file_buf f;
    let buf := drop (Z.to_nat (file_bufpos f)) b in
    let pending := file_bufend f - file_bufpos f in
    let stop := find_stop upto buf pending in
    let to_read := match stop with Some at_ => at_ + 1 | None => pending end in
    let to_read := if nbytes <? to_read then nbytes else to_read in
    let f := set_window f (file_bufpos f + to_read) (file_bufend f) (file_buf f) in
    let out := take (Z.to_nat to_read) buf in
    '(s, f, out, nread) ← (match stop with
                           | Some _ => Some (s, f, out, to_read)
                           | None => refill_loop (Z.to_nat nbytes) s f nbytes upto out to_read
                           end);
    Some (s, set_pos f (s32 (file_pos f + nread)), pre ++ out, nread).

Definition fread_fbf (s : io) (f : FILE) (nbytes : Z) := fread_upto s f nbytes None.
Definition fread_lbf (s : io) (f : FILE) (nbytes : Z) := fread_upto s f nbytes (Some 10).

Definition fread (s : io) (stream : FILE) (size nmemb : Z) : option (io * FILE * list Z * Z) :=
  let s := set_errno s 0 in
  if has (file_flags stream) O_WRONLY then Some (set_errno s EBADF, stream, [], 0)
  else
    let n := u32 (size * nmemb) in
    if file_bufmode stream =? IONBF then fread_nobuf s stream n
    else if file_bufmode stream =? IOFBF then fread_fbf s stream n
    else if file_bufmode stream =? IOLBF then fread_lbf s stream n
    else Some (s, stream, [], 0).

Definition fgetc (s : io) (f : FILE) : option (io * FILE * Z) :=
  let s := set_errno s 0 in
  if has (file_flags f) O_WRONLY then Some (set_errno s EBADF, f, -1)
  else if negb (file_ungetc f =? 0) then Some (s, set_ungetc f 0, file_ungetc f)
  else
    '(s, f, out, _) ← (if file_bufmode f =? IONBF then fread_nobuf s f 1
                       else if (file_bufmode f =? IOLBF) || (file_bufmode f =? IOFBF) then fread_upto s f 1 None
                       else Some (s, f, [], 0));
    let c := match out with c :: _ => s8 c | [] => 0 end in
    Some (s, f, if negb (c =? 0) then c else EOF).

Definition ungetc (s : io) (c : Z) (stream : FILE) : io * FILE * Z :=
  let s := set_errno s 0 in
  if negb (file_ungetc stream =? 0) then (s, stream, EOF) else (s, set_ungetc stream (s8 c), c).

(** The bytes stored, with the NUL; [None] inside is the result NULL. *)
Definition fgets (s : io) (size : Z) (stream : FILE) : option (io * FILE * option (list Z)) :=
  let s := set_errno s 0 in
  if has (file_flags stream) O_WRONLY then Some (set_errno s EBADF, stream, None)
  else
    '(s, f, out, nread) ← fread_upto s stream (u32 (size - 1)) (Some 10);
    Some (s, f, if nread <? 1 then None else Some (take (Z.to_nat nread) out ++ [0])).

(** ** Writing *)

Definition fwrite (s : io) (buf : list Z) (stream : FILE) : option (io * FILE * Z) :=
  let s := set_errno s 0 in
  if has (file_flags stream) O_RDONLY then Some (set_errno s EBADF, stream, 0)
  else
    '(w, ret) ← sys_write (os s) (file_fd stream) buf;
    if 0 <=? ret then Some (mk_io w (- ret), stream, 0)
    else Some (mk_io w (theErrNo s), set_pos stream (s32 (file_pos stream + ret)), u32 ret).

Definition fflush (s : io) (stream : FILE) : io * FILE * Z :=
  let s := set_errno s 0 in
  if file_bufmode stream =? IONBF then (s, stream, 0)
  else if fstream_pending stream =? 0 then (s, stream, 0)
  else if has (file_flags stream) O_RDONLY then (s, fstream_clearbuf stream, 0)
  else (s, stream, 0).

(** ** Positions *)

Definition ftell (s : io) (stream : option FILE) : io * Z :=
  match stream with None => (set_errno s EINVAL, -1) | Some f => (set_errno s 0, file_pos f) end.

Definition seek_to (s : io) (stream : FILE) (offset whence : Z) : option (io * FILE * Z) :=
  let stream := fstream_clearbuf stream in
  '(w, ret) ← sys_lseek (os s) (file_fd stream) offset whence;
  if ret <? 0 then Some (mk_io w (- ret), stream, -1) else Some (mk_io w (theErrNo s), set_pos stream ret, 0).

Definition fseek (s : io) (stream : FILE) (offset whence : Z) : option (io * FILE * Z) :=
  let s := set_errno s 0 in
  if whence =? SEEK_CUR then
    if offset =? 0 then Some (s, stream, 0) else seek_to s stream (s32 (offset + file_pos stream)) SEEK_SET
  else if (whence =? SEEK_SET) || (whence =? SEEK_END) then seek_to s stream offset whence
  else Some (set_errno s EINVAL, stream, -1).

Definition feof (stream : FILE) : bool := if file_size stream <? 0 then false else file_pos stream =? file_size stream.
Definition ferror (stream : FILE) : Z := 0.
Definition clearerr (s : io) (stream : FILE) : io := set_errno s 0.

(** [buf] is NULL or not. *)
Definition setvbuf (stream : FILE) (buf : bool) (type size : Z) : FILE * Z :=
  if buf then (stream, ETODO)
  else if BUFSIZ <? size then (stream, ETODO)
  else if (type =? IONBF) || (type =? IOLBF) || (type =? IOFBF) then (set_mode stream type size, 0)
  else (stream, EINVAL).

(** ** Names *)

Definition by_errno (s : io) (r : option (W * Z)) : option (io * Z) :=
  '(w, ret) ← r; if ret =? 0 then Some (mk_io w 0, 0) else Some (mk_io w ret, -1).

Definition rename (sys_rename : W -> list Z -> list Z -> option (W * Z)) (s : io) (old new : list Z) : option (io * Z) :=
  by_errno s (sys_rename (os s) old new).
Definition remove (sys_unlink : W -> list Z -> option (W * Z)) (s : io) (path : list Z) : option (io * Z) :=
  by_errno s (sys_unlink (os s) path).

End Streams.
Arguments io : clear implicits.

End IO.
