(* ===== verification/StdioProofs.v ===== *)
(** * Streams: what is read through the buffer

    Module [IOP]: the class [FileLaws] says what a kernel promises of a regular
    file; over any such kernel (also one that reads less than it is asked for)
    a stream delivers the bytes of the file from its position on. *)

From S2P Require Import Prelude CString CStringProofs Stdio.

Module IOP.
Import IO.

(** [file_at w fd data p]: descriptor [fd] is open for reading on a regular file
    that holds [data], at position [p].  [fills n]: the kernel is right about
    reads of [n] bytes; [stops data p]: a descriptor may be moved to [p]. *)
Class FileLaws (W : Type) `{!FileOps W} := {
  file_at : W -> Z -> list Z -> nat -> Prop;
  fills : Z -> Prop;
  stops : list Z -> nat -> Prop;
  at_bounds : forall w fd data p, file_at w fd data p -> (p <= length data)%nat /\ Z.of_nat (length data) < 2147483648 /\ Forall in_u8 data;
  read_law : forall w fd data p n, file_at w fd data p -> 0 < n -> fills n ->
    exists w' k, sys_read w fd n = Some (w', Z.of_nat k, take k (drop p data)) /\ Z.of_nat k <= n /\ (p + k <= length data)%nat /\
      (k = 0%nat -> p = length data) /\ file_at w' fd data (p + k);
  seek_law : forall w fd data p o, file_at w fd data p -> (o <= length data)%nat -> stops data o ->
    exists w', sys_lseek w fd (Z.of_nat o) SEEK_SET = Some (w', Z.of_nat o) /\ file_at w' fd data o }.

(** ** Looking for the end of a line *)

Lemma strnchr_none s : forall n c, in_u8 c -> Forall in_u8 s -> c ∉ take n s -> CS.strnchr_in s n c = None.
Proof.
  induction s as [|x s IH]; intros [|n] c Hc Hs Hn; try done. inversion Hs as [|? ? Hx Hs']; subst. cbn [CS.strnchr_in]. simpl take in Hn.
  destruct (x =? 0); [done|]. destruct (Z.eqb_spec (s8 c) (s8 x)) as [E|E].
  - apply CSP.s8_inj in E as ->; [|done|done]. exfalso. apply Hn. left.
  - rewrite IH; [done|done|done|]. intros H. apply Hn. by right.
Qed.

Lemma strnchr_some l : forall n c r, in_u8 c -> c <> 0 -> Forall in_u8 l -> c ∉ l -> 0 ∉ l -> (length l < n)%nat ->
  CS.strnchr_in (l ++ c :: r) n c = Some (Z.of_nat (length l)).
Proof.
  induction l as [|x l IH]; intros n c r Hc H0 Hl Hn Hz Hlen; simpl app; destruct n as [|n]; simpl length in Hlen; try lia; cbn [CS.strnchr_in].
  - by rewrite (proj2 (Z.eqb_neq c 0)), Z.eqb_refl by done.
  - inversion Hl as [|? ? Hx Hl']; subst. apply not_elem_of_cons in Hn as [Hn1 Hn2]. apply not_elem_of_cons in Hz as [Hz1 Hz2].
    rewrite (proj2 (Z.eqb_neq x 0)) by done. destruct (Z.eqb_spec (s8 c) (s8 x)) as [E|E]; [apply CSP.s8_inj in E; done|].
    rewrite IH by (done || lia). simpl. f_equal. lia.
Qed.

Lemma strnchr_take k c : forall b, CS.strnchr_in (take k b) k c = CS.strnchr_in b k c.
Proof. induction k as [|k IH]; intros [|x b]; try done. simpl take. cbn [CS.strnchr_in]. by rewrite IH. Qed.

(** How many bytes of [d] a read of at most [n] bytes delivers. *)
Inductive delivers (upto : option Z) (n : nat) (d : list Z) : nat -> Prop :=
  | D_none : n = 0%nat -> delivers upto n d 0
  | D_all : (forall c, upto = Some c -> in_u8 c /\ c ∉ d) -> delivers upto n d (Nat.min n (length d))
  | D_stop c l r : upto = Some c -> in_u8 c -> c <> 0 -> d = l ++ c :: r -> c ∉ l -> 0 ∉ l -> (length l < n)%nat -> delivers upto n d (S (length l)).

Lemma delivers_le upto n d m : delivers upto n d m -> (m <= n)%nat /\ (m <= length d)%nat.
Proof. intros [->|H|c l r -> _ _ -> _ _ H]; [lia|lia|]. rewrite length_app. simpl. lia. Qed.

(** A chunk without a stop delays the rest; one with it ends the read. *)
Lemma delivers_chunk upto n d m b k : delivers upto n d m -> (0 < n)%nat -> Forall in_u8 d -> (k <= length d)%nat -> take k b = take k d ->
  match find_stop upto b (Z.of_nat k) with
  | Some at_ => m = S (Z.to_nat at_) /\ 0 <= at_ /\ (m <= k)%nat
  | None => if (n <=? k)%nat then m = n else (k <= m)%nat /\ delivers upto (n - k) (drop k d) (m - k)
  end.
Proof.
  intros Hd Hn0 Hu Hk Hb. destruct Hd as [->|Hall|c l r -> Hc H0 -> Hcl Hzl Hn]; [lia| |].
  - assert (find_stop upto b (Z.of_nat k) = None) as ->.
    { destruct upto as [c|]; [|done]. destruct (Hall c eq_refl) as [Hc Hcd]. unfold find_stop. cbn [mbind option_bind]. rewrite Nat2Z.id.
      rewrite <- strnchr_take. apply strnchr_none; [done|rewrite Hb; by apply Forall_take|]. rewrite take_take, Nat.min_id, Hb. intros H. apply Hcd. rewrite <- (take_drop k d). by apply elem_of_app; left. }
    destruct (Nat.leb_spec n k); [lia|]. split; [lia|]. replace (Nat.min n (length d) - k)%nat with (Nat.min (n - k) (length (drop k d))) by (rewrite length_drop; lia).
    apply D_all. intros c E. destruct (Hall c E) as [Hc Hcd]. split; [done|]. intros Hin. apply Hcd. rewrite <- (take_drop k d). by apply elem_of_app; right.
  - unfold find_stop. cbn [mbind option_bind]. rewrite Nat2Z.id.
    rewrite <- strnchr_take, Hb. apply Forall_app in Hu as [Hul Hur]. destruct (Nat.lt_ge_cases (length l) k) as [Hlt|Hge].
    + assert (take k (l ++ c :: r) = l ++ c :: take (k - length l - 1) r) as ->.
      { rewrite take_app_ge by lia. f_equal. assert (E : (k - length l = S (k - length l - 1))%nat) by lia. by rewrite E at 1. }
      rewrite strnchr_some by done. rewrite Nat2Z.id. split; [done|]. split; lia.
    + rewrite take_app_le by lia. rewrite strnchr_none; [|done|by apply Forall_take|rewrite take_take, Nat.min_id; intros Hin; apply Hcl; rewrite <- (take_drop k l); by apply elem_of_app; left].
      destruct (Nat.leb_spec n k); [lia|]. split; [lia|]. rewrite drop_app_le by lia. replace (S (length l) - k)%nat with (S (length (drop k l))) by (rewrite length_drop; lia).
      eapply D_stop; [done|done|done|done| | |rewrite length_drop; lia]; intros Hin; [apply Hcl|apply Hzl]; rewrite <- (take_drop k l); by apply elem_of_app; right.
Qed.

(** ** The buffer as a window on the file *)

Section Kernel.
Context {W : Type} `{!FileOps W} `{!FileLaws W}.

(** The next byte of the stream is byte [p] of the file; the buffer holds what
    the kernel has read beyond it. *)
Record window (s : io W) (f : FILE) (data : list Z) (p : nat) : Prop := {
  wd_cells : exists b, file_buf f = Some b /\ length b = 4096%nat /\ (0 < file_bufsz f <= 4096 /\ fills (file_bufsz f)) /\ 0 <= file_bufpos f <= file_bufend f /\ file_bufend f <= 4096 /\
    let k := Z.to_nat (file_bufend f - file_bufpos f) in
    take k (drop (Z.to_nat (file_bufpos f)) b) = take k (drop p data) /\ file_at (os s) (file_fd f) data (p + k) }.

(** Everything but the window and the position. *)
Definition same_stream (f f' : FILE) : Prop :=
  file_fd f' = file_fd f /\ file_size f' = file_size f /\ file_flags f' = file_flags f /\ file_ungetc f' = file_ungetc f /\ file_bufmode f' = file_bufmode f /\
  file_bufsz f' = file_bufsz f.

Lemma window_bounds s f data p : window s f data p -> (p <= length data)%nat /\ Z.of_nat (length data) < 2147483648 /\ Forall in_u8 data.
Proof. intros [(b & _ & _ & _ & _ & _ & _ & Ha)]. apply at_bounds in Ha as (H1 & H2 & H3). split; [lia|done]. Qed.

(** Taking bytes from the window. *)
Lemma window_take s f data p b n : file_buf f = Some b -> window s f data p -> (n <= Z.to_nat (file_bufend f - file_bufpos f))%nat ->
  take n (drop (Z.to_nat (file_bufpos f)) b) = take n (drop p data) /\ window s (set_window f (file_bufpos f + Z.of_nat n) (file_bufend f) (file_buf f)) data (p + n).
Proof.
  intros Hb [(b' & Hb' & Hl & Hz & Hp & He & Ht & Ha)] Hn. rewrite Hb in Hb'. injection Hb' as <-. set (k := Z.to_nat (file_bufend f - file_bufpos f)) in *.
  assert (E : forall m, (m <= k)%nat -> take m (drop (Z.to_nat (file_bufpos f)) b) = take m (drop p data)).
  { intros m Hm. apply (f_equal (take m)) in Ht. by rewrite !take_take, Nat.min_l in Ht by lia. }
  split; [by apply E|]. constructor. exists b. simpl. rewrite Hb. do 5 (split; [done || lia|]).
  replace (Z.to_nat (file_bufend f - (file_bufpos f + Z.of_nat n))) with (k - n)%nat by lia.
  split; [|by replace (p + n + (k - n))%nat with (p + k)%nat by lia].
  replace (Z.to_nat (file_bufpos f + Z.of_nat n)) with (Z.to_nat (file_bufpos f) + n)%nat by lia.
  replace k with (n + (k - n))%nat in Ht by lia. apply (f_equal (drop n)) in Ht. by rewrite <- !take_drop_commute, !drop_drop in Ht.
Qed.
(** The kernel's next bytes fill the buffer. *)
Lemma refill_window s f data q b w' k : window s f data q -> file_buf f = Some b -> file_bufpos f = file_bufend f -> (q + k <= length data)%nat -> Z.of_nat k <= file_bufsz f ->
  file_at w' (file_fd f) data (q + k) ->
  exists b', store b (take k (drop q data)) = Some b' /\ take k b' = take k (drop q data) /\
    window (mk_io w' (theErrNo s)) (set_window f 0 (Z.of_nat k) (Some b')) data q.
Proof.
  intros [(b0 & Hb0 & Hl & Hz & Hp & He & Ht & Ha)] Hb Heq Hk Hsz Hat. rewrite Hb in Hb0. injection Hb0 as <-.
  assert (Hlen : length (take k (drop q data)) = k) by (rewrite length_take, length_drop; lia).
  unfold store. rewrite Hlen, (proj2 (Nat.leb_le k (length b))) by lia. eexists. split; [done|]. split; [by rewrite take_app_length' by done|].
  constructor. eexists. split; [done|]. simpl. split; [rewrite length_app, Hlen, length_drop; lia|]. do 3 (split; [done || lia|]).
  rewrite Z.sub_0_r, Nat2Z.id. split; [|done]. change (Z.to_nat 0) with 0%nat. rewrite drop_0. by rewrite take_app_length' by done.
Qed.

Lemma refill_ok upto n : forall s f nbytes out nread q data m, window s f data q -> 0 <= nread <= nbytes -> nbytes - nread <= Z.of_nat n ->
  (nread < nbytes -> file_bufpos f = file_bufend f) -> delivers upto (Z.to_nat (nbytes - nread)) (drop q data) m ->
  exists s' f', refill_loop n s f nbytes upto out nread = Some (s', f', out ++ take m (drop q data), nread + Z.of_nat m) /\
    window s' f' data (q + m) /\ same_stream f f' /\ file_pos f' = file_pos f.
Proof.
  induction n as [|n IH]; intros s f nbytes out nread q data m Hw Hr Hn He Hd.
  all: pose proof (delivers_le _ _ _ _ Hd) as [Hm1 Hm2].
  all: destruct (Z.ltb_spec nread nbytes) as [Hlt|Hge]; [|assert (m = 0%nat) as -> by lia; exists s, f; destruct s; cbn [refill_loop]; rewrite (proj2 (Z.ltb_ge _ _)) by lia;
    rewrite Z.add_0_r, Nat.add_0_r, app_nil_r; done].
  - lia.
  - cbn [refill_loop]. rewrite (proj2 (Z.ltb_lt _ _)) by lia. pose proof (window_bounds _ _ _ _ Hw) as (Hq & _ & Hu).
    pose proof Hw as [(b & Hb & Hl & Hz & Hp & Hee & Ht & Ha)]. specialize (He Hlt). rewrite He, Z.sub_diag, Nat.add_0_r in Ha.
    destruct (read_law _ _ _ _ (file_bufsz f) Ha) as (w' & k & -> & Hk & Hqk & Hk0 & Ha'); [lia|apply Hz|]. cbn [mbind option_bind]. rewrite Hb. cbn [mbind option_bind].
    destruct (Z.leb_spec (Z.of_nat k) 0) as [Hz0|Hpos].
    { assert (q = length data) as Eq by (apply Hk0; lia). assert (m = 0%nat) as -> by (rewrite length_drop in Hm2; lia). eexists _, f.
      split; [by rewrite app_nil_r, Z.add_0_r|]. rewrite Nat.add_0_r. split; [|done]. constructor. exists b. rewrite He, Z.sub_diag. change (Z.to_nat 0) with 0%nat.
      do 5 (split; [done || lia|]). cbv zeta. rewrite Nat.add_0_r. split; [done|]. by replace (q + k)%nat with q in Ha' by lia. }
    destruct (refill_window s f data q b w' k Hw Hb He Hqk Hk Ha') as (b' & -> & Hb' & Hw'). cbn [mbind option_bind].
    pose proof (delivers_chunk upto _ _ _ b' k Hd) as Hc. rewrite length_drop in Hc. specialize (Hc ltac:(lia) ltac:(by apply Forall_drop) ltac:(lia) Hb').
    assert (Htk : forall j, (j <= k)%nat -> take j b' = take j (drop q data) /\ window (mk_io w' (theErrNo s)) (set_window f (Z.of_nat j) (Z.of_nat k) (Some b')) data (q + j)).
    { intros j Hj. destruct (window_take _ (set_window f 0 (Z.of_nat k) (Some b')) _ _ b' j eq_refl Hw') as [E1 E2]; [simpl; lia|]. simpl in E1, E2. rewrite drop_0 in E1. done. }
    destruct (find_stop upto b' (Z.of_nat k)) as [at_|].
    + destruct Hc as (-> & Hat & Hle). destruct (Htk (S (Z.to_nat at_)) Hle) as [E1 E2]. replace (Z.to_nat (at_ + 1)) with (S (Z.to_nat at_)) by lia.
      replace (Z.of_nat (S (Z.to_nat at_))) with (at_ + 1) in * by lia. rewrite E1. eexists _, _. split; [done|]. done.
    + destruct (Nat.leb_spec (Z.to_nat (nbytes - nread)) k) as [Hnk|Hnk].
      * subst m. destruct (Htk (Z.to_nat (nbytes - nread)) ltac:(lia)) as [E1 E2]. set (to_read := if nbytes <? nread + Z.of_nat k then _ else _).
        assert (Etr : to_read = nbytes - nread) by (unfold to_read; destruct (Z.ltb_spec nbytes (nread + Z.of_nat k)); lia). rewrite Etr. clear to_read Etr.
        rewrite E1. replace (nread + (nbytes - nread)) with nbytes by lia. rewrite Z2Nat.id in E2 |- * by lia. replace (nread + (nbytes - nread)) with nbytes by lia.
        eexists _, _. split; [destruct n; cbn [refill_loop]; by rewrite Z.ltb_irrefl|]. done.
      * destruct Hc as [Hkm Hd']. rewrite (proj2 (Z.ltb_ge nbytes (nread + Z.of_nat k))) by lia. destruct (Htk k ltac:(lia)) as [E1 E2]. rewrite Nat2Z.id, E1.
        destruct (IH _ _ nbytes (out ++ take k (drop q data)) (nread + Z.of_nat k) (q + k)%nat data (m - k)%nat E2 ltac:(lia) ltac:(lia)) as (s' & f' & E & Hw2 & Hsame & Hpos'); [done| |].
        { rewrite drop_drop in Hd'. by replace (Z.to_nat (nbytes - (nread + Z.of_nat k))) with (Z.to_nat (nbytes - nread) - k)%nat by lia. }
        exists s', f'. rewrite E. replace (q + m)%nat with (q + k + (m - k))%nat by lia. split; [|done]. f_equal. f_equal; [|lia]. f_equal.
        rewrite <- app_assoc. f_equal. rewrite <- drop_drop. rewrite <- (take_drop k (take m (drop q data))), take_take, Nat.min_l by lia. f_equal.
        replace m with (k + (m - k))%nat at 2 by lia. by rewrite <- take_drop_commute.
Qed.
(** ** A fully buffered stream at a position of its file *)

Record reads (s : io W) (f : FILE) (data : list Z) (p : nat) : Prop := {
  rd_window : window s f data p;
  rd_pos : file_pos f = Z.of_nat p;
  rd_size : file_size f = Z.of_nat (length data);
  rd_ungetc : file_ungetc f = 0;
  rd_mode : file_bufmode f = IOFBF;
  rd_flags : has (file_flags f) O_WRONLY = false }.

Lemma reads_errno s f data p e : reads s f data p -> reads (set_errno s e) f data p.
Proof. intros [[Hw] ? ? ? ? ?]. constructor; [by constructor|done..]. Qed.

Lemma fread_upto_ok upto s f data p nbytes m : reads s f data p -> 0 <= nbytes -> delivers upto (Z.to_nat nbytes) (drop p data) m ->
  exists s' f', fread_upto s f nbytes upto = Some (s', f', take m (drop p data), Z.of_nat m) /\ reads s' f' data (p + m).
Proof.
  intros Hr Hn Hd. pose proof Hr as [Hw Hpos Hsize Hun Hmode Hfl]. pose proof (delivers_le _ _ _ _ Hd) as [Hm1 Hm2].
  pose proof (window_bounds _ _ _ _ Hw) as (Hp & Hmax & Hu). rewrite length_drop in Hm2. unfold fread_upto. destruct (Z.ltb_spec nbytes 1) as [Hs|Hs].
  { assert (m = 0%nat) as -> by lia. exists s, f. by rewrite Nat.add_0_r. }
  unfold take_ungetc. rewrite Hun. cbn [Z.eqb]. cbv beta iota zeta. pose proof Hw as [(b & Hb & Hl & Hz & Hpp & Hee & Ht & Ha)]. rewrite Hb. cbn [mbind option_bind]. cbv beta iota zeta.
  pose proof (at_bounds _ _ _ _ Ha) as (Hpk & _).
  assert (Hfin : forall s' f', window s' f' data (p + m) -> same_stream f f' -> file_pos f' = file_pos f -> reads s' (set_pos f' (s32 (file_pos f' + Z.of_nat m))) data (p + m)).
  { intros s' f' [Hw'] (E1 & E2 & E3 & E4 & E5 & E6) E7. constructor; simpl; rewrite ?E2, ?E3, ?E4, ?E5; try done.
    rewrite E7, Hpos, s32_small by (unfold in_s32; lia). lia. }
  set (k := Z.to_nat (file_bufend f - file_bufpos f)) in *. replace (file_bufend f - file_bufpos f) with (Z.of_nat k) by lia.
  pose proof (delivers_chunk upto _ _ _ (drop (Z.to_nat (file_bufpos f)) b) k Hd) as Hc. rewrite length_drop in Hc. specialize (Hc ltac:(lia) ltac:(by apply Forall_drop) ltac:(lia) Ht).
  destruct (find_stop upto (drop (Z.to_nat (file_bufpos f)) b) (Z.of_nat k)) as [at_|].
  - destruct Hc as (-> & Hat & Hle). rewrite (proj2 (Z.ltb_ge nbytes (at_ + 1))) by lia. cbn [mbind option_bind].
    destruct (window_take s f data p b (S (Z.to_nat at_)) Hb Hw Hle) as [E1 E2]. rewrite Hb in E2. replace (Z.to_nat (at_ + 1)) with (S (Z.to_nat at_)) by lia. rewrite E1.
    replace (Z.of_nat (S (Z.to_nat at_))) with (at_ + 1) in * by lia. eexists _, _. split; [done|]. by apply Hfin.
  - set (to_read := if nbytes <? Z.of_nat k then nbytes else Z.of_nat k). assert (Hj : exists j, to_read = Z.of_nat j /\ (j <= k)%nat /\ (j <= m)%nat /\ Z.of_nat j <= nbytes /\ (Z.of_nat j < nbytes -> j = k)).
    { exists (Z.to_nat to_read). unfold to_read. destruct (Z.ltb_spec nbytes (Z.of_nat k)); destruct (Nat.leb_spec (Z.to_nat nbytes) k); lia. }
    destruct Hj as (j & -> & Hjk & Hjm & Hjn & Hjlt). destruct (window_take s f data p b j Hb Hw Hjk) as [E1 E2]. rewrite Hb in E2. rewrite Nat2Z.id, E1.
    destruct (refill_ok upto (Z.to_nat nbytes) s _ nbytes (take j (drop p data)) (Z.of_nat j) (p + j)%nat data (m - j)%nat E2) as (s' & f' & -> & Hw' & Hsame & Hpos'); [lia|lia| | |].
    + simpl. intros H. apply Hjlt in H. lia.
    + destruct (Nat.leb_spec (Z.to_nat nbytes) k) as [Hle|Hgt].
      * subst m. assert (j = Z.to_nat nbytes) as -> by (destruct (decide (Z.of_nat j < nbytes)); lia). rewrite Z2Nat.id, Z.sub_diag, Nat.sub_diag by lia.
        by apply D_none.
      * destruct Hc as [Hkm Hd']. assert (j = k) as -> by lia. rewrite drop_drop in Hd'. by replace (Z.to_nat (nbytes - Z.of_nat k)) with (Z.to_nat nbytes - k)%nat by lia.
    + cbn [mbind option_bind]. replace (p + j + (m - j))%nat with (p + m)%nat in Hw' by lia. replace (Z.of_nat j + Z.of_nat (m - j)) with (Z.of_nat m) by lia.
      eexists _, _. split; [|by apply Hfin]. f_equal. f_equal. f_equal. simpl app. rewrite <- drop_drop. rewrite <- (take_drop j (take m (drop p data))), take_take, Nat.min_l by lia. f_equal.
      replace m with (j + (m - j))%nat at 2 by lia. by rewrite <- take_drop_commute.
Qed.
(** ** Operations on the stream and on the file *)

Inductive sop := SRead (size nmemb : Z) | SGets (size : Z) | SGetc | SSeek (o : Z) | STell | SEof.

(** Bytes stored in the caller's memory ([None] for a result of NULL) and the
    number returned. *)
Definition sres : Type := option (list Z) * Z.

Definition srun (s : io W) (f : FILE) (op : sop) : option (io W * FILE * sres) :=
  match op with
  | SRead size nmemb => '(s, f, bs, n) ← fread s f size nmemb; Some (s, f, (Some bs, n))
  | SGets size => '(s, f, r) ← fgets s size f; Some (s, f, (r, 0))
  | SGetc => '(s, f, c) ← fgetc s f; Some (s, f, (None, c))
  | SSeek o => '(s, f, r) ← fseek s f o SEEK_SET; Some (s, f, (None, r))
  | STell => let '(s, p) := ftell s (Some f) in Some (s, f, (None, p))
  | SEof => Some (s, f, (None, if feof f then 1 else 0))
  end.

Fixpoint sruns (s : io W) (f : FILE) (ops : list sop) : option (io W * FILE * list sres) :=
  match ops with
  | [] => Some (s, f, [])
  | op :: ops => '(s, f, r) ← srun s f op; '(s, f, rs) ← sruns s f ops; Some (s, f, r :: rs)
  end.

(** The same on the file's bytes and a position. *)
Inductive astep (data : list Z) : nat -> sop -> sres -> nat -> Prop :=
  | A_read p size nmemb m : 0 <= size * nmemb < 4294967296 -> m = Nat.min (Z.to_nat (size * nmemb)) (length data - p) ->
      astep data p (SRead size nmemb) (Some (take m (drop p data)), Z.of_nat m) (p + m)
  | A_gets p size m : 2 <= size < 2147483648 -> delivers (Some 10) (Z.to_nat (size - 1)) (drop p data) m -> (0 < m)%nat ->
      astep data p (SGets size) (Some (take m (drop p data) ++ [0]), 0) (p + m)
  | A_gets_end size : 2 <= size < 2147483648 -> astep data (length data) (SGets size) (None, 0) (length data)
  | A_getc p c : data !! p = Some c -> c <> 0 -> astep data p SGetc (None, s8 c) (S p)
  | A_getc_end : astep data (length data) SGetc (None, EOF) (length data)
  | A_seek p o : (o <= length data)%nat -> stops data o -> astep data p (SSeek (Z.of_nat o)) (None, 0) o
  | A_tell p : astep data p STell (None, Z.of_nat p) p
  | A_eof p : astep data p SEof (None, if decide (p = length data) then 1 else 0) p.

Inductive asteps (data : list Z) : nat -> list sop -> list sres -> nat -> Prop :=
  | AS_nil p : asteps data p [] [] p
  | AS_cons p op r p' ops rs p'' : astep data p op r p' -> asteps data p' ops rs p'' -> asteps data p (op :: ops) (r :: rs) p''.

Lemma fseek_ok s f data p o : reads s f data p -> (o <= length data)%nat -> stops data o ->
  exists s' f', fseek s f (Z.of_nat o) SEEK_SET = Some (s', f', 0) /\ reads s' f' data o.
Proof.
  intros [Hw Hpos Hsize Hun Hmode Hfl] Ho Hst. pose proof Hw as [(b & Hb & Hl & Hz & Hp & He & Ht & Ha)]. unfold fseek, seek_to, fstream_clearbuf.
  change (SEEK_SET =? SEEK_CUR) with false. change (SEEK_SET =? SEEK_SET) with true. cbn [orb]. rewrite Hmode. change (IOFBF =? IONBF) with false.
  cbn [file_fd set_window set_ungetc os set_errno]. destruct (seek_law _ _ _ _ o Ha Ho Hst) as (w' & -> & Ha'). cbn [mbind option_bind].
  rewrite (proj2 (Z.ltb_ge (Z.of_nat o) 0)) by lia. eexists _, _. split; [done|]. constructor; try done. constructor. exists b. simpl. do 5 (split; [done || lia|]).
  cbv zeta. change (Z.to_nat 0) with 0%nat. by rewrite Nat.add_0_r.
Qed.

Lemma delivers_end upto n : (forall c, upto = Some c -> in_u8 c) -> delivers upto n [] 0.
Proof. intros H. replace 0%nat with (Nat.min n (length (@nil Z))) by (simpl; lia). apply D_all. intros c E. split; [by apply H|apply not_elem_of_nil]. Qed.

Lemma srun_ok s f data p op r p' : reads s f data p -> astep data p op r p' -> exists s' f', srun s f op = Some (s', f', r) /\ reads s' f' data p'.
Proof.
  intros Hr Hs. pose proof (reads_errno s f data p 0 Hr) as Hr0. pose proof Hr as [Hw Hpos Hsize Hun Hmode Hfl].
  pose proof (window_bounds _ _ _ _ Hw) as (Hp & Hmax & Hu).
  inversion Hs as [? size nmemb m Hn Em|? size m Hn Hd Hm|size Hn|? c Hc Hc0| |? o Ho Hst|?|?]; subst; cbn [srun].
  - unfold fread. rewrite Hfl, Hmode, u32_small by done. change (IOFBF =? IONBF) with false. change (IOFBF =? IOFBF) with true. unfold fread_fbf.
    destruct (fread_upto_ok None (set_errno s 0) f data p (size * nmemb) (Nat.min (Z.to_nat (size * nmemb)) (length data - p)) Hr0) as (s' & f' & -> & H); [lia| |by exists s', f'].
    rewrite <- length_drop. by apply D_all.
  - unfold fgets. rewrite Hfl, u32_small by (unfold in_u32; lia). destruct (fread_upto_ok (Some 10) (set_errno s 0) f data p (size - 1) m Hr0 ltac:(lia) Hd) as (s' & f' & -> & H).
    cbn [mbind option_bind]. rewrite (proj2 (Z.ltb_ge (Z.of_nat m) 1)), Nat2Z.id, take_take, Nat.min_id by lia. by exists s', f'.
  - unfold fgets. rewrite Hfl, u32_small by (unfold in_u32; lia). destruct (fread_upto_ok (Some 10) (set_errno s 0) f data (length data) (size - 1) 0 Hr0 ltac:(lia)) as (s' & f' & -> & H).
    { rewrite drop_all. apply delivers_end. by intros c [= <-]. }
    cbn [mbind option_bind]. rewrite Nat.add_0_r in H. by exists s', f'.
  - unfold fgetc. rewrite Hfl, Hun, Hmode. cbn [Z.eqb negb]. change (IOFBF =? IONBF) with false. change (IOFBF =? IOFBF) with true. rewrite orb_true_r.
    pose proof (lookup_lt_Some _ _ _ Hc) as Hlt. destruct (fread_upto_ok None (set_errno s 0) f data p 1 1 Hr0 ltac:(lia)) as (s' & f' & -> & H).
    { replace 1%nat with (Nat.min (Z.to_nat 1) (length (drop p data))) by (rewrite length_drop; lia). by apply D_all. }
    cbn [mbind option_bind]. rewrite (drop_S _ _ _ Hc). cbn [take]. assert (Hc8 : in_u8 c) by (by eapply Forall_lookup_1). replace (s8 c =? 0) with false.
    + exists s', f'. split; [done|]. by replace (S p) with (p + 1)%nat by lia.
    + symmetry. apply Z.eqb_neq. intros E. apply Hc0. by apply CSP.s8_inj.
  - unfold fgetc. rewrite Hfl, Hun, Hmode. cbn [Z.eqb negb]. change (IOFBF =? IONBF) with false. change (IOFBF =? IOFBF) with true. rewrite orb_true_r.
    destruct (fread_upto_ok None (set_errno s 0) f data (length data) 1 0 Hr0 ltac:(lia)) as (s' & f' & -> & H); [rewrite drop_all; by apply delivers_end|].
    cbn [mbind option_bind]. rewrite drop_all. rewrite Nat.add_0_r in H. by exists s', f'.
  - destruct (fseek_ok s f data p p' Hr Ho Hst) as (s' & f' & -> & H). by exists s', f'.
  - unfold ftell. rewrite Hpos. by exists (set_errno s 0), f.
  - unfold feof. rewrite Hsize, Hpos, (proj2 (Z.ltb_ge _ 0)) by lia. exists s, f. split; [|done]. destruct (decide (p' = length data)) as [->|Hne]; [by rewrite Z.eqb_refl|].
    by rewrite (proj2 (Z.eqb_neq _ _)) by lia.
Qed.

Lemma sruns_ok s f data p ops rs p' :
  reads s f data p -> asteps data p ops rs p' -> exists s' f', sruns s f ops = Some (s', f', rs) /\ reads s' f' data p'.
Proof.
  intros Hr Ha. revert s f Hr. induction Ha as [p|p op r p1 ops rs p2 H1 _ IH]; intros s f Hr; [by exists s, f|].
  destruct (srun_ok s f data p op r p1 Hr H1) as (s1 & f1 & E1 & Hr1). destruct (IH s1 f1 Hr1) as (s2 & f2 & E2 & Hr2).
  exists s2, f2. split; [|done]. cbn [sruns]. rewrite E1. cbn [mbind option_bind]. by rewrite E2.
Qed.

(** C8: streams refine files.  Over any kernel that keeps the laws of regular
    files, also one that reads less than asked for, a sequence of reads, lines,
    characters, seeks, tells and end-of-file tests on a fully buffered stream
    returns and stores what the same operations give on the bytes of the file at a
    position, under these conditions on the operations: a line that is read fits
    the caller's buffer with its newline (or ends with the file), and holds no NUL
    before its end; a character that is read is not NUL, and comes back as a
    signed char, so a byte above 127 as a negative number; seeks are absolute,
    inside the file, and go where the kernel's laws hold. What the code does with
    longer lines and with NUL is among the defects below. *)
Theorem stream_refines_file s f data p ops rs p' :
  reads s f data p -> asteps data p ops rs p' -> exists s' f', sruns s f ops = Some (s', f', rs) /\ reads s' f' data p'.
Proof. apply sruns_ok. Qed.

End Kernel.
(** ** A kernel with one file that reads at most three bytes at a time *)

#[global] Instance short_ops : FileOps (list Z * nat) := {|
  sys_open := fun w _ _ => Some (w, 3);
  sys_read := fun w _ n => let k := Nat.min (Nat.min (Z.to_nat n) 3) (length w.1 - w.2) in Some ((w.1, (w.2 + k)%nat), Z.of_nat k, take k (drop w.2 w.1));
  sys_write := fun w _ _ => Some (w, - EBADF);
  sys_lseek := fun w _ o _ => Some ((w.1, Z.to_nat o), o);
  sys_close := fun w _ => Some (w, 0) |}.

#[global] Instance short_laws : FileLaws (list Z * nat).
Proof.
  refine {| file_at := fun w _ data p => w = (data, p) /\ (p <= length data)%nat /\ Z.of_nat (length data) < 2147483648 /\ Forall in_u8 data; fills := fun _ => True; stops := fun _ _ => True |}.
  - by intros w fd data p (_ & H).
  - intros w fd data p n (-> & Hp & Hl & Hu) Hn _. eexists _, _. split; [done|]. cbn [fst snd].
    split; [lia|]. split; [lia|]. split; [lia|]. split; [done|]. split; [lia|done].
  - intros w fd data p o (-> & Hp & Hl & Hu) Ho _. eexists. split; [done|]. cbn [fst snd]. rewrite Nat2Z.id. done.
Defined.

Definition demo_data : list Z := [104; 105; 10; 97; 98; 99; 100; 10; 122].
Definition demo_stream : FILE := mk_FILE 3 0 9 O_RDONLY 0 IOFBF 0 0 4096 (Some (replicate 4096 0)).

(** Two lines, the rest, the end; then back to the third byte. *)
Lemma stream_refines_file_witness :
  exists s' f', sruns (mk_io (demo_data, 0%nat) 0) demo_stream [SGets 80; SGetc; SGets 80; SEof; SRead 1 100; SEof; SGetc; SSeek 3; STell; SRead 2 2] =
    Some (s', f', [(Some [104; 105; 10; 0], 0); (None, 97); (Some [98; 99; 100; 10; 0], 0); (None, 0); (Some [122], 1); (None, 1); (None, EOF); (None, 0); (None, 3);
                   (Some [97; 98; 99; 100], 4)]) /\ reads s' f' demo_data 7.
Proof.
  apply (stream_refines_file (mk_io (demo_data, 0%nat) 0) demo_stream demo_data 0).
  - constructor; try reflexivity. constructor. exists (replicate 4096 0). split; [reflexivity|]. split; [apply length_replicate|]. cbn [file_bufsz file_bufpos file_bufend demo_stream].
    split; [split; [lia|exact I]|]. split; [lia|]. split; [lia|]. split; [reflexivity|]. split; [reflexivity|]. split; [simpl; lia|]. split; [simpl; lia|].
    repeat (apply Forall_cons_2; [unfold in_u8; lia|]). constructor.
  - eapply AS_cons. { apply (A_gets demo_data 0 80 3); [lia| |lia]. apply (D_stop (Some 10) _ _ 10 [104; 105] (drop 3 demo_data)); try done; try (unfold in_u8; simpl; lia); rewrite !not_elem_of_cons; split_and!; (lia || apply not_elem_of_nil). }
    eapply AS_cons. { apply (A_getc demo_data 3 97); [reflexivity|lia]. }
    eapply AS_cons. { apply (A_gets demo_data 4 80 4); [lia| |lia]. apply (D_stop (Some 10) _ _ 10 [98; 99; 100] (drop 8 demo_data)); try done; try (unfold in_u8; simpl; lia); rewrite !not_elem_of_cons; split_and!; (lia || apply not_elem_of_nil). }
    eapply AS_cons. { apply (A_eof demo_data 8). }
    eapply AS_cons. { apply (A_read demo_data 8 1 100 1); [lia|reflexivity]. }
    eapply AS_cons. { apply (A_eof demo_data 9). }
    eapply AS_cons. { apply (A_getc_end demo_data). }
    eapply AS_cons. { apply (A_seek demo_data 9 3); [simpl; lia|exact I]. }
    eapply AS_cons. { apply (A_tell demo_data 3). }
    eapply AS_cons. { apply (A_read demo_data 3 2 2 4); [lia|reflexivity]. }
    apply (AS_nil demo_data 7).
Defined.

(** ** Defects the model shows *)

(** A write that the kernel accepts is reported as a failure: no bytes written
    and a negative [theErrNo]. *)
Lemma fwrite_success_is_error {W} `{!FileOps W} s f buf w n : has (file_flags f) O_RDONLY = false -> sys_write (os s) (file_fd f) buf = Some (w, n) -> 0 <= n ->
  fwrite s buf f = Some (mk_io w (- n), f, 0).
Proof. intros Hf E Hn. unfold fwrite. rewrite Hf. cbn [os set_errno]. rewrite E. cbn [mbind option_bind]. by rewrite (proj2 (Z.leb_le 0 n)). Qed.

(** A kernel that reads 8 bytes of [demo_data] at once. *)
Definition long_ops : FileOps (list Z * nat) := {|
  sys_open := fun w _ _ => Some (w, 3);
  sys_read := fun w _ n => let k := Nat.min (Nat.min (Z.to_nat n) 8) (length w.1 - w.2) in Some ((w.1, (w.2 + k)%nat), Z.of_nat k, take k (drop w.2 w.1));
  sys_write := fun w _ _ => Some (w, - EBADF); sys_lseek := fun w _ o _ => Some ((w.1, Z.to_nat o), o); sys_close := fun w _ => Some (w, 0) |}.

(** A line longer than the caller's buffer is stored past its end: four bytes
    and the NUL where there is room for two. *)
Lemma fgets_overruns_buffer :
  (fun r => r.2) <$> fgets (FileOps0 := long_ops) (mk_io (drop 3 demo_data, 0%nat) 0) 2 demo_stream = Some (Some [97; 98; 99; 100; 10; 0]).
Proof. vm_compute. reflexivity. Qed.

(** A NUL in the file is the end of the file to [fgetc]. *)
Lemma fgetc_nul_is_eof :
  (fun r => r.2) <$> fgetc (mk_io ([0; 65], 0%nat) 0) demo_stream = Some EOF.
Proof. vm_compute. reflexivity. Qed.

(** The byte pushed back is not counted: [fgets] overwrites the last byte. *)
Lemma fgets_drops_byte_after_ungetc :
  (fun r => r.2) <$> fgets (mk_io (demo_data, 0%nat) 0) 80 (set_ungetc demo_stream 88) = Some (Some [88; 104; 105; 0]).
Proof. vm_compute. reflexivity. Qed.

End IOP.
