(* ===== verification/Syscall.v ===== *)
(** * System calls (src/core/syscall.c, lib/c/include/cosec/sysnum.h)

    Module [SC0]: the table of calls and the handler of the system call
    interrupt, over the file calls of [SYS], process memory of [PG] and the
    scheduler of [TK].  Arguments come in registers; paths and buffers are
    addresses in the memory of the caller. *)

From S2P Require Import Prelude RamBlocks Vfs FsSys Paging Tasks.

Module SC0.

Definition N_SYSCALLS : Z := 256.
Definition ECHILD : Z := 10.
Definition ENOSYS : Z := 35.
Definition ETODO : Z := 39.

Definition SYS_exit : Z := 1.
Definition SYS_read : Z := 3.
Definition SYS_write : Z := 4.
Definition SYS_open : Z := 5.
Definition SYS_close : Z := 6.
Definition SYS_waitpid : Z := 7.
Definition SYS_unlink : Z := 10.
Definition SYS_lseek : Z := 19.
Definition SYS_getpid : Z := 20.
Definition SYS_mount : Z := 21.
Definition SYS_rename : Z := 38.
Definition SYS_mkdir : Z := 39.
Definition SYS_brk : Z := 45.
Definition SYS_setsid : Z := 66.
Definition SYS_print : Z := 255.

(** The entries of the table. *)
Inductive syscall_handler :=
  | h_sys_exit | h_sys_read | h_sys_write | h_sys_open | h_sys_close | h_sys_waitpid | h_sys_mkdir | h_sys_rename
  | h_sys_unlink | h_sys_lseek | h_sys_getpid | h_sys_setsid | h_sys_mount | h_sys_brk | h_sys_print.

Definition syscalls_list : list (Z * syscall_handler) :=
  [ (SYS_exit, h_sys_exit); (SYS_read, h_sys_read); (SYS_write, h_sys_write); (SYS_open, h_sys_open); (SYS_close, h_sys_close);
    (SYS_waitpid, h_sys_waitpid); (SYS_mkdir, h_sys_mkdir); (SYS_rename, h_sys_rename); (SYS_unlink, h_sys_unlink); (SYS_lseek, h_sys_lseek);
    (SYS_getpid, h_sys_getpid); (SYS_setsid, h_sys_setsid); (SYS_mount, h_sys_mount); (SYS_brk, h_sys_brk); (SYS_print, h_sys_print) ].

(** An entry that is not listed is NULL. *)
Definition syscalls (n : Z) : option syscall_handler := snd <$> List.find (fun e => e.1 =? n) syscalls_list.

(** The registers a call uses. *)
Record context := mk_ctx { eax : Z; ecx : Z; edx : Z; ebx : Z }.

(** The bytes of the string at [a]; memory that was never written reads as 0. *)
Fixpoint cstring_loop (fuel : nat) (m : bmem) (a : Z) : list Z :=
  match fuel with O => [] | S fuel => if ldb m a =? 0 then [] else ldb m a :: cstring_loop fuel m (a + 1) end.
Definition cstring (m : bmem) (a : Z) : list Z := cstring_loop (S (size m)) m a.

Section Calls.
Context {S D : Type}.

(** [umem] is the memory of the calling process; [pages] and [pmem] are its
    page tables and the bounds of its memory. *)
Record kernel := mk_kernel {
  files : SYS.kstate S D; umem : bmem; pages : PG.mm; pmem : PG.proc_mem; sched : TK.sched; ctx : context }.

Definition set_files (k : kernel) (f : SYS.kstate S D) : kernel := mk_kernel f (umem k) (pages k) (pmem k) (sched k) (ctx k).
Definition set_umem (k : kernel) (m : bmem) : kernel := mk_kernel (files k) m (pages k) (pmem k) (sched k) (ctx k).
Definition set_eax (k : kernel) (v : Z) : kernel :=
  mk_kernel (files k) (umem k) (pages k) (pmem k) (sched k) (mk_ctx v (ecx (ctx k)) (edx (ctx k)) (ebx (ctx k))).

Definition sys_waitpid : Z := - ECHILD.
Definition sys_setsid : Z := - ETODO.
Definition sys_mount : Z := ETODO.
Definition sys_getpid (k : kernel) : option Z := SYS.current_pid (files k).

(** The process is marked and another one is scheduled. *)
Definition _sys_exit (k : kernel) (status : Z) : option (kernel * Z) :=
  s ← TK.sys_exit (sched k);
  let f := SYS.mk_k (SYS.fs (files k)) (SYS.procs (files k)) (SYS.theProcessTable (files k)) (TK.theCurrentTask s) in
  Some (mk_kernel f (umem k) (pages k) (pmem k) s (ctx k), 0).

(** The format is an address of a string; the log is not modelled. *)
Definition sys_print (k : kernel) : option Z := _ ← SYS.procs (files k) !! SYS.current_proc (files k); Some 0.

Definition with_files (k : kernel) (r : option (SYS.kstate S D * Z)) : option (kernel * Z) := '(f, ret) ← r; Some (set_files k f, ret).

(** A call through the table: the arguments are converted to the parameters'
    types. *)
Definition callee (h : syscall_handler) (k : kernel) (arg1 arg2 arg3 : Z) : option (kernel * Z) :=
  match h with
  | h_sys_exit => _sys_exit k (s32 arg1)
  | h_sys_read =>
      '(f, ret, bs) ← SYS.sys_read (files k) (s32 arg1) arg3;
      Some (set_umem (set_files k f) (RB.store_bytes (umem k) arg2 bs), ret)
  | h_sys_write => with_files k (SYS.sys_write (files k) (s32 arg1) (RB.load_bytes (umem k) arg2 arg3))
  | h_sys_open => with_files k (SYS.sys_open (files k) (cstring (umem k) arg1) (s32 arg2))
  | h_sys_close => with_files k (SYS.sys_close (files k) (s32 arg1))
  | h_sys_waitpid => Some (k, sys_waitpid)
  | h_sys_mkdir => with_files k (SYS.sys_mkdir (files k) (cstring (umem k) arg1) arg2)
  | h_sys_rename => with_files k (SYS.sys_rename (files k) (cstring (umem k) arg1) (cstring (umem k) arg2))
  | h_sys_unlink => with_files k (SYS.sys_unlink (files k) (cstring (umem k) arg1))
  | h_sys_lseek => with_files k (SYS.sys_lseek (files k) (s32 arg1) (s32 arg2) (s32 arg3))
  | h_sys_getpid => pid ← sys_getpid k; Some (k, pid)
  | h_sys_setsid => Some (k, sys_setsid)
  | h_sys_mount => Some (k, sys_mount)
  | h_sys_brk => '(mm, p, ret) ← PG.sys_brk (pages k) (pmem k) arg1; Some (mk_kernel (files k) (umem k) mm p (sched k) (ctx k), ret)
  | h_sys_print => ret ← sys_print k; Some (k, ret)
  end.

Definition int_syscall (k : kernel) : option kernel :=
  let intr_num := eax (ctx k) in
  let arg1 := ecx (ctx k) in
  let arg2 := edx (ctx k) in
  let arg3 := ebx (ctx k) in
  if N_SYSCALLS <=? intr_num then Some (set_eax k (u32 (- ENOSYS)))
  else match syscalls intr_num with
  | None => Some (set_eax k (u32 (- ENOSYS)))
  | Some h => '(k, result) ← callee h k arg1 arg2 arg3; Some (set_eax k (u32 result))
  end.

End Calls.
Arguments kernel : clear implicits.

End SC0.
