(* ===== verification/SyscallProofs.v ===== *)
(** * System calls: results of the interrupt handler

    Module [SC0P]: unknown calls, and bytes that go from a program's memory
    through a descriptor into a file and back into the program's memory. *)

From S2P Require Import Prelude FirstFit FirstFitProofs PMem RamBlocks RamBlocksProofs BTree CString CStringProofs RamDir KHeap RamFS RamFSProofs Devices Vfs VfsProofs FsSys FsSysProofs Paging Tasks Syscall.

Module SC0P.
Import KH SC0.

Section Calls.
Context {S D : Type}.

(** A program executes the interrupt with these registers. *)
Definition call (k : kernel S D) (n a b c : Z) : option (kernel S D) :=
  int_syscall (mk_kernel (files k) (umem k) (pages k) (pmem k) (sched k) (mk_ctx n a b c)).

Lemma syscalls_find n h : (n, h) ∈ syscalls_list -> syscalls n = Some h.
Proof. intros H. repeat (apply elem_of_cons in H as [[= -> ->]|H]; [reflexivity|]). by apply elem_of_nil in H. Qed.

Lemma syscalls_none n : n ∉ syscalls_list.*1 -> syscalls n = None.
Proof.
  unfold syscalls, syscalls_list. rewrite !fmap_cons, !not_elem_of_cons. intros Hn. cbn [List.find fst].
  repeat match goal with |- context [?a =? n] => rewrite (proj2 (Z.eqb_neq a n)) by (intros <-; tauto) end. done.
Qed.

(** A call that the table does not have is refused with [ENOSYS] and changes
    nothing but the result register; a call of the table runs its handler on
    the three argument registers, and the handler's result comes back in the
    register. *)
Theorem int_syscall_dispatch (k : kernel S D) n a b c : 0 <= n ->
  (n ∉ syscalls_list.*1 -> call k n a b c = Some (mk_kernel (files k) (umem k) (pages k) (pmem k) (sched k) (mk_ctx 4294967261 a b c))) /\
  (forall h, (n, h) ∈ syscalls_list ->
     call k n a b c = ('(k', r) ← callee h (mk_kernel (files k) (umem k) (pages k) (pmem k) (sched k) (mk_ctx n a b c)) a b c; Some (set_eax k' (u32 r)))).
Proof.
  intros Hn. split.
  - intros H. unfold call, int_syscall. simpl eax. rewrite (syscalls_none n H). by destruct (N_SYSCALLS <=? n).
  - intros h H. unfold call, int_syscall. simpl eax. rewrite (syscalls_find n h H). assert ((N_SYSCALLS <=? n) = false) as ->; [|done].
    apply Z.leb_gt. unfold N_SYSCALLS. repeat (apply elem_of_cons in H as [[= -> _]|H]; [unfold SYS_exit, SYS_read, SYS_write, SYS_open, SYS_close, SYS_waitpid, SYS_unlink, SYS_lseek, SYS_getpid, SYS_mount, SYS_rename, SYS_mkdir, SYS_brk, SYS_setsid, SYS_print; lia|]).
    by apply elem_of_nil in H.
Qed.

End Calls.

(** ** Bytes through a file *)

Lemma ldb_store_bytes_at l : forall m a i, (i < length l)%nat -> ldb (RB.store_bytes m a l) (a + Z.of_nat i) = nth i l 0.
Proof.
  intros m a i Hi. rewrite RBP.ldb_store_bytes. repeat (case_if; try lia). rewrite nth_lookup. f_equal. f_equal. lia.
Qed.

Lemma load_store m a l : RB.load_bytes (RB.store_bytes m a l) a (Z.of_nat (length l)) = l.
Proof.
  unfold RB.load_bytes. rewrite Nat2Z.id. apply list_eq_same_length with (length l); [done|by rewrite length_fmap, length_seq|].
  intros i x y Hi Hx Hy. rewrite list_lookup_fmap, lookup_seq_lt in Hx by lia. simpl in Hx. rewrite ldb_store_bytes_at in Hx by lia.
  injection Hx as <-. rewrite nth_lookup, Hy. done.
Qed.

Section file.
Context {H D : Type} `{KH.Heap H}.

(** C16: a program that writes bytes of its memory through a read-write descriptor
    of a regular file on ramfs with the write interrupt, seeks back and reads them
    with the read interrupt finds the same bytes where it asked for them; the
    registers report the full count, and no other byte of its memory changes.  The
    file and the write stay within the 12 direct blocks, the first 49152 bytes;
    the memory behind the allocated frames is clear and has room for the blocks
    that are missing. *)
Theorem syscall_write_seek_read (k : SC0.kernel (RF.ramfs (H := H)) D) p proc fd f dev s i src dst n :
  SYSP.current_ok (files k) p proc -> 0 <= fd < SYS.N_PROCESS_FDS -> SYS.ps_fds proc !! Z.to_nat fd = Some f ->
  SYS.has (SYS.fd_flags f) SYS.O_RDONLY = false -> SYS.has (SYS.fd_flags f) SYS.O_WRONLY = false ->
  VFSP.rooted (SYS.fs (files k)) (SYS.fd_sb f) dev s -> SYS.fd_ino f <> 0 -> RF.ramfs_idata_by_inode s (SYS.fd_ino f) <> 0 ->
  RF.idatas s !! RF.ramfs_idata_by_inode s (SYS.fd_ino f) = Some i ->
  RF.S_ISREG (RF.i_mode i) = true -> RBP.file_wf (RF.km s) (RF.as_reg i) -> RF.i_size i <= RBP.FILE_MAX ->
  0 <= SYS.fd_pos f -> SYS.fd_pos f + n <= RBP.FILE_MAX -> 0 < n ->
  exists k1 k2 k3,
    call k SYS_write fd src n = Some k1 /\ eax (ctx k1) = n /\
    call k1 SYS_lseek fd (SYS.fd_pos f) SYS.SEEK_SET = Some k2 /\ eax (ctx k2) = SYS.fd_pos f /\
    call k2 SYS_read fd dst n = Some k3 /\ eax (ctx k3) = n /\
    RB.load_bytes (umem k3) dst n = RB.load_bytes (umem k) src n /\
    forall a, a < dst \/ dst + n <= a -> ldb (umem k3) a = ldb (umem k) a.
Proof.
  intros Hc Hfd Hf Hr Hw Hroot Hino Hp Hi Hreg Hwf Hsz Hpos Hend Hn. set (buf := RB.load_bytes (umem k) src n).
  assert (Hl : Z.of_nat (length buf) = n) by (unfold buf, RB.load_bytes; rewrite length_fmap, length_seq; lia).
  destruct (SYSP.sys_write_seek_read (files k) p proc fd f dev s i buf) as (f1 & f2 & f3 & E1 & E2 & E3); try done; [by rewrite Hl|lia|].
  rewrite Hl in E1, E3. unfold RBP.FILE_MAX, SYS.N_PROCESS_FDS in *. assert (Hfd32 : s32 fd = fd) by (apply s32_small; unfold in_s32; lia).
  assert (Hp32 : s32 (SYS.fd_pos f) = SYS.fd_pos f) by (apply s32_small; unfold in_s32; lia). assert (Hu : forall x, 0 <= x <= 49152 -> u32 x = x) by (intros x Hx; apply u32_small; unfold in_u32; lia).
  set (k1 := mk_kernel f1 (umem k) (pages k) (pmem k) (sched k) (mk_ctx n fd src n)).
  set (k2 := mk_kernel f2 (umem k) (pages k) (pmem k) (sched k) (mk_ctx (SYS.fd_pos f) fd (SYS.fd_pos f) SYS.SEEK_SET)).
  exists k1, k2, (mk_kernel f3 (RB.store_bytes (umem k) dst buf) (pages k) (pmem k) (sched k) (mk_ctx n fd dst n)).
  split.
  { unfold call, int_syscall. cbn [eax ecx edx ebx ctx]. change (N_SYSCALLS <=? SYS_write) with false. change (syscalls SYS_write) with (Some h_sys_write).
    cbn [callee files umem]. rewrite Hfd32. fold buf. rewrite E1. cbn [with_files mbind option_bind]. unfold set_eax. cbn. by rewrite Hu by lia. }
  split; [done|]. split.
  { unfold call, int_syscall. cbn [eax ecx edx ebx ctx]. change (N_SYSCALLS <=? SYS_lseek) with false. change (syscalls SYS_lseek) with (Some h_sys_lseek).
    cbn [callee files k1]. rewrite Hfd32, Hp32. change (s32 SYS.SEEK_SET) with SYS.SEEK_SET. rewrite E2. cbn [with_files mbind option_bind]. unfold set_eax. cbn. by rewrite Hu by lia. }
  split; [done|]. split.
  { unfold call, int_syscall. cbn [eax ecx edx ebx ctx]. change (N_SYSCALLS <=? SYS_read) with false. change (syscalls SYS_read) with (Some h_sys_read).
    cbn [callee files k2]. rewrite Hfd32, E3. cbn [mbind option_bind]. unfold set_eax. cbn. by rewrite Hu by lia. }
  split; [done|]. cbn [umem]. split; [rewrite <- Hl at 1; apply load_store|]. intros a Ha. rewrite RBP.ldb_store_bytes. repeat (case_if; try lia).
Qed.

End file.

Definition demo_mm : PG.mm := PG.mk_mm (PM.mk_pmem 5 20) ∅.
Definition demo_kernel : SC0.kernel (RF.ramfs (H := FF.alloc_t)) unit :=
  mk_kernel SYSP.demo_kern {[ 1000 := 11; 1001 := 22; 1002 := 33 ]} demo_mm (PG.mk_proc_mem 0 0 0) TK.demo_s0 (mk_ctx 0 0 0 0).

(** Three bytes at 1000 go to offset 4094 of the file and come back at 5000. *)
Lemma syscall_write_seek_read_witness :
  exists k1 k2 k3,
    call demo_kernel SYS_write 0 1000 3 = Some k1 /\ eax (ctx k1) = 3 /\
    call k1 SYS_lseek 0 4094 SYS.SEEK_SET = Some k2 /\ eax (ctx k2) = 4094 /\
    call k2 SYS_read 0 5000 3 = Some k3 /\ eax (ctx k3) = 3 /\
    RB.load_bytes (umem k3) 5000 3 = RB.load_bytes (umem demo_kernel) 1000 3 /\
    forall a, a < 5000 \/ 5000 + 3 <= a -> ldb (umem k3) a = ldb (umem demo_kernel) a.
Proof.
  apply (syscall_write_seek_read demo_kernel 900 SYSP.demo_proc 0 (SYS.mk_fd 7 2 1 4094) 257 RFP.demo_fs2 VFSP.demo_file 1000 5000 3 SYSP.demo_current); try done;
    first [apply VFSP.demo_vfile_wf|apply VFSP.demo_rooted|simpl; lia|by vm_compute].
Defined.

(** ** Defects the model shows *)

(** [mount] answers with the positive error number, which a program takes for
    success. *)
Lemma mount_returns_positive_error {S D} (k : kernel S D) a b c : (fun k' => eax (ctx k')) <$> call k SYS_mount a b c = Some 39.
Proof. reflexivity. Qed.

(** So do the calls on paths: unlinking a file that is not there returns
    2. *)
Lemma unlink_returns_positive_error : (fun k' => eax (ctx k')) <$> call (mk_kernel (files demo_kernel) {[ 1000 := 47; 1001 := 122 ]} demo_mm (PG.mk_proc_mem 0 0 0) TK.demo_s0 (mk_ctx 0 0 0 0)) SYS_unlink 1000 0 0 = Some 2.
Proof. vm_compute. reflexivity. Qed.

End SC0P.
