(* ===== verification/Net.v ===== *)
(** * The network stack (src/core/net.c, include/network.h)

    Module [NT]: byte order, Internet checksums, the headers written into
    frames, and the table of neighbours of an interface.  Frames live in a byte
    memory; structures are accessed at the offsets of their packed C layout.
    NetStack.v builds the stack on it. *)

From S2P Require Import Prelude.

Module NT.

(** ** Byte order *)

Definition htons (hostshort : Z) : Z := u16 (Z.lor (Z.shiftr hostshort 8) (Z.shiftl hostshort 8)).
Definition ntohs (hostshort : Z) : Z := u16 (Z.lor (Z.shiftr hostshort 8) (Z.shiftl hostshort 8)).
Definition htonl (hostlong : Z) : Z :=
  u32 (Z.lor (Z.shiftl (htons (Z.land hostlong 65535)) 16) (htons (Z.shiftr hostlong 16))).

Definition ld16 (m : bmem) (a : Z) : Z := ldb m a + 256 * ldb m (a + 1).
Definition st16 (m : bmem) (a v : Z) : bmem := stb (stb m a (u8 v)) (a + 1) (u8 (v / 256)).

(** ** Checksums *)

Definition ones_complement (a b : Z) : Z :=
  let s := a + b in u16 (Z.land s 65535 + Z.shiftr s 16).

Fixpoint sum_loop (n : nat) (m : bmem) (data i s : Z) : Z :=
  match n with
  | O => s
  | S n => sum_loop n m data (i + 1) (ones_complement s (ntohs (ld16 m (data + 2 * i))))
  end.

Definition ones_complement_words_sum (m : bmem) (data len : Z) : Z :=
  let s := sum_loop (Z.to_nat (len / 2)) m data 0 0 in
  let s := if negb (len mod 2 =? 0) then ones_complement s (u16 (Z.shiftl (ldb m (data + len - 1)) 8)) else s in
  Z.land s 65535.

(** ** Headers *)

Definition SZ_ETH : Z := 14.
Definition SZ_IPV4 : Z := 20.
Definition SZ_ICMP : Z := 8.
Definition SZ_UDP : Z := 8.
Definition SZ_ARP : Z := 28.
Definition ETHERTYPE_IPV4 : Z := 2048.
Definition ETHERTYPE_ARP : Z := 2054.
Definition IPV4TYPE_ICMP : Z := 1.
Definition IPV4TYPE_UDP : Z := 17.
Definition ICMP_ECHO_REPLY : Z := 0.
Definition ICMP_ECHO_REQUEST : Z := 8.
Definition ARP_OP_REQUEST : Z := 1.
Definition ARP_OP_REPLY : Z := 2.

Definition nwords (m : bmem) (ip : Z) : Z := ldb m ip mod 16.

(** The memory and the IPv4 header. *)
Definition net_buf_ipv4_init (m : bmem) (frame srcaddr dstaddr : Z) : bmem * Z :=
  let m := st16 m (frame + 12) (htons ETHERTYPE_IPV4) in
  let ip := frame + SZ_ETH in
  let m := stb m ip (4 * 16 + 5) in
  let m := stb m (ip + 1) 0 in
  let m := st16 m (ip + 4) 0 in
  let m := st16 m (ip + 6) 0 in
  let m := stb m (ip + 8) 32 in
  let m := st32 m (ip + 12) srcaddr in
  let m := st32 m (ip + 16) dstaddr in
  (m, ip).

Definition net_buf_ipv4_checksum (m : bmem) (ip : Z) : bmem * Z :=
  let m := st16 m (ip + 10) 0 in
  let checksum := ones_complement_words_sum m ip SZ_IPV4 in
  (st16 m (ip + 10) (htons (u16 (Z.lnot checksum))), checksum).

Definition net_buf_udp4_init (m : bmem) (frame srcaddr srcport dstaddr dstport : Z) : bmem * Z :=
  let '(m, ip) := net_buf_ipv4_init m frame srcaddr dstaddr in
  let m := stb m (ip + 9) IPV4TYPE_UDP in
  let udp := ip + 4 * nwords m ip in
  let m := st16 m udp (htons srcport) in
  let m := st16 m (udp + 2) (htons dstport) in
  (m, udp + SZ_UDP).

Definition net_buf_udp4_iplen (m : bmem) (packet : Z) : Z := SZ_IPV4 + ntohs (ld16 m (packet - SZ_UDP + 4)).

(** The memory and the length of the frame; the UDP checksum is left alone. *)
Definition net_buf_udp4_checksum (m : bmem) (data datalen : Z) : bmem * Z :=
  let udp := data - SZ_UDP in
  let ip := udp - SZ_IPV4 in
  let m := st16 m (udp + 4) (htons (u16 (datalen + SZ_UDP))) in
  let m := st16 m (ip + 2) (htons (u16 (SZ_IPV4 + SZ_UDP + datalen))) in
  let '(m, _) := net_buf_ipv4_checksum m ip in
  let m := st16 m (ip - SZ_ETH + 12) (htons ETHERTYPE_IPV4) in
  (m, SZ_ETH + SZ_IPV4 + SZ_UDP + datalen).

Definition net_buf_icmp4_init (m : bmem) (frame srcaddr dstaddr type code seq : Z) : bmem * Z :=
  let '(m, ip) := net_buf_ipv4_init m frame srcaddr dstaddr in
  let m := stb m (ip + 9) IPV4TYPE_ICMP in
  let icmp := ip + 4 * nwords m ip in
  let m := stb m icmp (u8 type) in
  let m := stb m (icmp + 1) (u8 code) in
  let m := st32 m (icmp + 4) seq in
  let m := st16 m (icmp + 2) 0 in
  (m, icmp + SZ_ICMP).

Definition net_buf_icmp4_checksum (m : bmem) (data datalen : Z) : bmem * Z :=
  let icmp := data - SZ_ICMP in
  let ip := icmp - SZ_IPV4 in
  let m := st16 m (icmp + 2) 0 in
  let checksum := ones_complement_words_sum m icmp (SZ_ICMP + datalen) in
  let m := st16 m (icmp + 2) (htons (u16 (Z.lnot checksum))) in
  let m := st16 m (ip + 2) (htons (u16 (SZ_IPV4 + SZ_ICMP + datalen))) in
  let '(m, _) := net_buf_ipv4_checksum m ip in
  (m, SZ_ETH + 4 * nwords m ip + SZ_ICMP + datalen).

(** ** Neighbours *)

Definition MAX_NEIGHBORS : Z := 8.
Definition IP_BROADCAST : Z := 4294967295.
Definition ETH_BROADCAST_MAC : list Z := replicate 6 255.
Definition ETH_INVALID_MAC : list Z := replicate 6 0.

Record neighbor_mapping := mk_nb { nb_ip : Z; nb_eth : list Z }.

(** An interface: the fields the stack uses. *)
Record netiface := mk_iface { index : Z; ip_addr : Z; neighbors : list neighbor_mapping; neighbors_head : Z; ip_subnet : Z; ip_gw : Z }.

Definition set_index (i : netiface) (x : Z) : netiface := mk_iface x (ip_addr i) (neighbors i) (neighbors_head i) (ip_subnet i) (ip_gw i).
Definition set_neighbors (i : netiface) (l : list neighbor_mapping) (h : Z) : netiface := mk_iface (index i) (ip_addr i) l h (ip_subnet i) (ip_gw i).
Definition set_ip_addr (i : netiface) (a : Z) : netiface := mk_iface (index i) a (neighbors i) (neighbors_head i) (ip_subnet i) (ip_gw i).
Definition set_ip_subnet (i : netiface) (a : Z) : netiface := mk_iface (index i) (ip_addr i) (neighbors i) (neighbors_head i) a (ip_gw i).
Definition set_ip_gw (i : netiface) (a : Z) : netiface := mk_iface (index i) (ip_addr i) (neighbors i) (neighbors_head i) (ip_subnet i) a.

(** The search of [net_neighbor_lookup_on]. *)
Fixpoint lookup_loop (l : list neighbor_mapping) (addr : Z) : list Z :=
  match l with
  | [] => ETH_INVALID_MAC
  | nb :: l => if nb_ip nb =? addr then nb_eth nb else lookup_loop l addr
  end.

(** The mapping of an address that is already in the table is changed in place. *)
Fixpoint remember_loop (l : list neighbor_mapping) (addr : Z) (mac : list Z) : option (list neighbor_mapping) :=
  match l with
  | [] => None
  | nb :: l =>
      if nb_ip nb =? addr then Some (mk_nb (nb_ip nb) mac :: l)
      else option_map (cons nb) (remember_loop l addr mac)
  end.

(** The table of an interface after [net_neighbor_remember]. *)
Definition remember_on (i : netiface) (addr : Z) (mac : list Z) : netiface :=
  if addr =? 0 then i
  else if addr =? IP_BROADCAST then i
  else match remember_loop (neighbors i) addr mac with
  | Some l => set_neighbors i l (neighbors_head i)
  | None =>
      let h := neighbors_head i in
      set_neighbors i (<[Z.to_nat h := mk_nb addr mac]> (neighbors i)) ((h + 1) mod MAX_NEIGHBORS)
  end.

(** [memcpy] of the bytes of a structure. *)
Fixpoint put_bytes (m : bmem) (a : Z) (l : list Z) : bmem :=
  match l with [] => m | b :: l => put_bytes (stb m a b) (a + 1) l end.

Definition get_bytes (m : bmem) (a : Z) (n : nat) : list Z := (fun k => ldb m (a + Z.of_nat k)) <$> seq 0 n.

End NT.
