(* ===== verification/NetProofs.v ===== *)
(** * Checksums and tables of neighbours

    Module [NTP]: a packet that is finished by the stack verifies at the
    receiver, and the table of neighbours is a bounded cache. *)

From S2P Require Import Prelude Net.
Import NT.

Module NTP.

(** ** Byte order *)

Lemma htons_value x : in_u16 x -> htons x = x / 256 + 256 * (x mod 256).
Proof.
  intros Hx. unfold htons, in_u16 in *. rewrite Z.shiftr_div_pow2 by lia. change (2 ^ 8) with 256.
  rewrite lor_shiftl_add by (change (2 ^ 8) with 256; zlia). unfold u16. change (2 ^ 8) with 256. change (2 ^ 16) with 65536. zlia.
Qed.

Definition bytes_ok (m : bmem) : Prop := forall a, in_u8 (ldb m a).

(** The 16-bit word at an address in network order. *)
Definition be16 (m : bmem) (a : Z) : Z := 256 * ldb m a + ldb m (a + 1).

Lemma be16_range m a : bytes_ok m -> in_u16 (be16 m a).
Proof. intros Hm. pose proof (Hm a). pose proof (Hm (a + 1)). unfold be16, in_u8, in_u16 in *. lia. Qed.

Lemma ntohs_ld16 m a : bytes_ok m -> ntohs (ld16 m a) = be16 m a.
Proof.
  intros Hm. pose proof (Hm a). pose proof (Hm (a + 1)). unfold in_u8 in *. change (ntohs (ld16 m a)) with (htons (ld16 m a)).
  rewrite htons_value by (unfold in_u16, ld16; lia). unfold ld16, be16. zlia.
Qed.

Lemma bytes_ok_stb m a v : bytes_ok m -> in_u8 v -> bytes_ok (stb m a v).
Proof. intros Hm Hv b. rewrite ldb_stb. case_if; [done|apply Hm]. Qed.

Lemma bytes_ok_st16 m a v : bytes_ok m -> bytes_ok (st16 m a v).
Proof. intros Hm. unfold st16. apply bytes_ok_stb; [apply bytes_ok_stb; [done|]|]; apply u8_range. Qed.

Lemma ldb_st16_ne m a v b : b < a \/ a + 2 <= b -> ldb (st16 m a v) b = ldb m b.
Proof. intros Hb. unfold st16. rewrite !ldb_stb. repeat (case_if; [lia|]). done. Qed.

Lemma be16_st16_eq m a v : in_u16 v -> be16 (st16 m a (htons v)) a = v.
Proof.
  intros Hv. unfold be16, st16. rewrite !ldb_stb. rewrite htons_value by done.
  rewrite Z.eqb_refl, (proj2 (Z.eqb_neq (a + 1) a)), Z.eqb_refl by lia. unfold in_u16, u8 in *. change (2 ^ 8) with 256. zlia.
Qed.

Lemma be16_st16_ne m a v b : b + 2 <= a \/ a + 2 <= b -> be16 (st16 m a v) b = be16 m b.
Proof. intros Hb. unfold be16. by rewrite !ldb_st16_ne by lia. Qed.

(** ** Ones' complement sums *)

Lemma oc_value a b : in_u16 a -> in_u16 b -> ones_complement a b = if a + b <? 65536 then a + b else a + b - 65535.
Proof.
  intros Ha Hb. unfold ones_complement, in_u16 in *. rewrite land_ffff, Z.shiftr_div_pow2 by lia. unfold u16. change (2 ^ 16) with 65536.
  case_if; zlia.
Qed.

Definition zsum (l : list Z) : Z := foldr Z.add 0 l.

Lemma zsum_insert l k v w : l !! k = Some w -> zsum (<[k := v]> l) = zsum l - w + v.
Proof.
  revert k. induction l as [|x l IH]; intros [|k]; simpl; [done|done|intros [= ->]; lia|intros Hk; rewrite (IH k Hk); lia].
Qed.

(** Adding up words: the sum modulo 65535, with 0 only for all zeros. *)
Lemma foldl_oc l : forall s, in_u16 s -> Forall in_u16 l ->
  in_u16 (foldl ones_complement s l) /\ foldl ones_complement s l mod 65535 = (s + zsum l) mod 65535 /\
  (foldl ones_complement s l = 0 -> s = 0 /\ Forall (fun x => x = 0) l).
Proof.
  induction l as [|x l IH]; intros s Hs Hl; simpl.
  - split; [done|]. split; [f_equal; lia|done].
  - inversion Hl as [|? ? Hx Hl']; subst. pose proof (oc_value s x Hs Hx) as Ho. unfold in_u16 in Hs, Hx.
    assert (Hr : in_u16 (ones_complement s x)) by (rewrite Ho; unfold in_u16; case_if; lia).
    destruct (IH _ Hr Hl') as (H1 & H2 & H3). split; [done|]. split.
    + rewrite H2, Ho. case_if; [f_equal; lia|].
      replace (s + x - 65535 + zsum l) with (s + (x + zsum l) + (-1) * 65535) by lia. by rewrite Z.mod_add.
    + intros E. destruct (H3 E) as [H4 H5]. rewrite Ho in H4. revert H4. case_if; intros; [|lia]. split; [lia|]. constructor; [lia|done].
Qed.

(** The words of a buffer; an odd last byte is padded with a zero. *)
Definition words (m : bmem) (data len : Z) : list Z :=
  ((fun i => be16 m (data + 2 * Z.of_nat i)) <$> seq 0 (Z.to_nat (len / 2))) ++
  (if len mod 2 =? 0 then [] else [256 * ldb m (data + len - 1)]).

Lemma sum_loop_words m data n : bytes_ok m -> forall k s,
  sum_loop n m data (Z.of_nat k) s = foldl ones_complement s ((fun i => be16 m (data + 2 * Z.of_nat i)) <$> seq k n).
Proof.
  intros Hm. induction n as [|n IH]; intros k s; simpl; [done|]. rewrite ntohs_ld16 by done.
  replace (Z.of_nat k + 1) with (Z.of_nat (S k)) by lia. apply IH.
Qed.

Lemma words_range m data len : bytes_ok m -> Forall in_u16 (words m data len).
Proof.
  intros Hm. apply Forall_app. split.
  - apply Forall_fmap, Forall_forall. intros i _. by apply be16_range.
  - case_if; [constructor|]. constructor; [|constructor]. pose proof (Hm (data + len - 1)). unfold in_u8, in_u16 in *. lia.
Qed.

Lemma words_sum m data len : bytes_ok m -> ones_complement_words_sum m data len = foldl ones_complement 0 (words m data len).
Proof.
  intros Hm. unfold ones_complement_words_sum. cbv zeta.
  pose proof (sum_loop_words m data (Z.to_nat (len / 2)) Hm 0 0) as E0. change (Z.of_nat 0) with 0 in E0. rewrite E0. clear E0.
  pose proof (words_range m data len Hm) as Hr.
  destruct (foldl_oc (words m data len) 0 ltac:(done) Hr) as [Hin _].
  assert (E : (if negb (len mod 2 =? 0) then ones_complement (foldl ones_complement 0 ((fun i => be16 m (data + 2 * Z.of_nat i)) <$> seq 0 (Z.to_nat (len / 2)))) (u16 (Z.shiftl (ldb m (data + len - 1)) 8))
      else foldl ones_complement 0 ((fun i => be16 m (data + 2 * Z.of_nat i)) <$> seq 0 (Z.to_nat (len / 2)))) = foldl ones_complement 0 (words m data len)).
  { unfold words. rewrite foldl_app. destruct (len mod 2 =? 0); cbn [negb]; [done|]. simpl. f_equal.
    rewrite Z.shiftl_mul_pow2 by lia. change (2 ^ 8) with 256. pose proof (Hm (data + len - 1)). unfold in_u8 in *. rewrite u16_small; [lia|]. unfold in_u16. lia. }
  rewrite E, land_ffff. apply Z.mod_small. exact Hin.
Qed.

(** Storing a word at an even offset changes one word. *)
Lemma words_st16 m data len k v : 0 <= k -> 2 * k + 2 <= len -> bytes_ok m -> in_u16 v ->
  words (st16 m (data + 2 * k) (htons v)) data len = <[Z.to_nat k := v]> (words m data len) /\
  words m data len !! Z.to_nat k = Some (be16 m (data + 2 * k)).
Proof.
  intros Hk Hl Hm Hv. assert (Hkn : (Z.to_nat k < Z.to_nat (len / 2))%nat) by (clear -Hk Hl; zlia).
  split.
  - unfold words. rewrite insert_app_l by (by rewrite length_fmap, length_seq). f_equal.
    + apply list_eq. intros i. destruct (decide (i = Z.to_nat k)) as [->|Hne].
      * rewrite list_lookup_insert_eq by (by rewrite length_fmap, length_seq). rewrite list_lookup_fmap, lookup_seq_lt by done. simpl.
        rewrite Z2Nat.id by lia. f_equal. by apply be16_st16_eq.
      * rewrite list_lookup_insert_ne by done. rewrite !list_lookup_fmap.
        destruct (seq 0 (Z.to_nat (len / 2)) !! i) as [x|] eqn:E; [|done]. apply lookup_seq in E as [-> Hi]. simpl. f_equal.
        apply be16_st16_ne. lia.
    + destruct (Z.eqb_spec (len mod 2) 0); [done|]. f_equal. f_equal. apply ldb_st16_ne. right. clear -Hl n Hk. zlia.
  - unfold words. rewrite lookup_app_l by (by rewrite length_fmap, length_seq). rewrite list_lookup_fmap, lookup_seq_lt by done. simpl.
    rewrite Z2Nat.id by lia. done.
Qed.

(** The checksum of a buffer with its field cleared, stored inverted in the
    field, makes the buffer sum to all ones. *)
Lemma checksum_all_ones m data len k : 0 <= k -> 2 * k + 2 <= len -> bytes_ok m ->
  let m1 := st16 m (data + 2 * k) 0 in
  let c := ones_complement_words_sum m1 data len in
  let m2 := st16 m1 (data + 2 * k) (htons (u16 (Z.lnot c))) in
  ones_complement_words_sum m2 data len = 65535 /\ bytes_ok m2.
Proof.
  intros Hk Hl Hm m1 c. assert (Hm1 : bytes_ok m1) by (by apply bytes_ok_st16).
  assert (Ec0 : c = foldl ones_complement 0 (words m1 data len)) by (by apply words_sum). clearbody c. intros m2.
  assert (Hm2 : bytes_ok m2) by (by apply bytes_ok_st16). split; [|done].
  destruct (foldl_oc (words m1 data len) 0 ltac:(done) (words_range _ _ _ Hm1)) as (Hc & Hcm & Hc0). rewrite <- Ec0 in Hc, Hcm, Hc0.
  assert (Hnc : u16 (Z.lnot c) = 65535 - c). { unfold in_u16 in Hc. unfold u16, Z.lnot. change (2 ^ 16) with 65536. zlia. }
  assert (Hncr : in_u16 (65535 - c)) by (unfold in_u16 in *; lia).
  unfold m2. rewrite Hnc. destruct (words_st16 m1 data len k (65535 - c) Hk Hl Hm1 Hncr) as [Ew Hw].
  assert (Hz : be16 m1 (data + 2 * k) = 0) by (unfold m1; change 0 with (htons 0) at 1; by apply be16_st16_eq).
  rewrite Hz in Hw. rewrite words_sum by (by apply bytes_ok_st16). rewrite Ew.
  assert (Hr2 : Forall in_u16 (<[Z.to_nat k := 65535 - c]> (words m1 data len))) by (apply Forall_insert; [by apply words_range|done]).
  destruct (foldl_oc _ 0 ltac:(done) Hr2) as (Hs & Hsm & Hs0). rewrite (zsum_insert _ _ _ _ Hw) in Hsm.
  set (s := foldl ones_complement 0 (<[Z.to_nat k := 65535 - c]> (words m1 data len))) in *.
  assert (Hmod : s mod 65535 = 0).
  { rewrite Hsm. replace (0 + (zsum (words m1 data len) - 0 + (65535 - c))) with (zsum (words m1 data len) - c + 1 * 65535) by lia.
    rewrite Z.mod_add by lia. rewrite Zminus_mod, Hcm, Z.add_0_l, Z.sub_diag. done. }
  assert (Hne : s <> 0).
  { intros E. destruct (Hs0 E) as [_ Hall]. assert (c = 65535) as Ec.
    { assert (Hin : 65535 - c ∈ <[Z.to_nat k := 65535 - c]> (words m1 data len)).
      { apply list_elem_of_lookup. exists (Z.to_nat k). apply list_lookup_insert_eq. by eapply lookup_lt_Some. }
      rewrite Forall_forall in Hall. specialize (Hall _ Hin). simpl in Hall. lia. }
    (* all words are then zero, so c would be 0 *)
    assert (Hallz : Forall (fun x => x = 0) (words m1 data len)).
    { apply Forall_forall. intros x [j Hj]%list_elem_of_lookup. destruct (decide (j = Z.to_nat k)) as [->|Hj2]; [congruence|].
      rewrite Forall_forall in Hall. apply Hall. apply list_elem_of_lookup. exists j. by rewrite list_lookup_insert_ne. }
    assert (c = 0); [|lia]. rewrite Ec0. clear -Hallz. induction (words m1 data len) as [|x l IH]; [done|].
    inversion Hallz; subst. simpl. change (ones_complement 0 0) with 0. by apply IH. }
  clear -Hs Hmod Hne. unfold in_u16 in Hs. zlia.
Qed.

(** What a receiver checks, by the arithmetic of RFC 1071: the sum of the words,
    an odd last byte padded on the right, is a multiple of 65535 and not 0. *)
Definition verifies (m : bmem) (data len : Z) : Prop := 0 < zsum (words m data len) /\ zsum (words m data len) mod 65535 = 0.

Lemma zsum_nonneg l : Forall in_u16 l -> 0 <= zsum l /\ (zsum l = 0 -> Forall (fun x => x = 0) l).
Proof.
  induction 1 as [|x l Hx Hl [IH1 IH2]]; [done|]. unfold in_u16 in Hx. cbn [zsum foldr] in *. fold (zsum l) in *.
  split; [lia|]. intros E. constructor; [lia|apply IH2; lia].
Qed.

Lemma sum_verifies m data len : bytes_ok m -> ones_complement_words_sum m data len = 65535 -> verifies m data len.
Proof.
  intros Hm E. rewrite words_sum in E by done. pose proof (words_range m data len Hm) as Hr. unfold verifies.
  destruct (foldl_oc (words m data len) 0 ltac:(done) Hr) as (_ & Hmod & _). rewrite E in Hmod. destruct (zsum_nonneg _ Hr) as [H0 Hz]. split; [|by rewrite Z.add_0_l in Hmod].
  destruct (decide (zsum (words m data len) = 0)) as [E0|]; [|lia]. specialize (Hz E0). exfalso. revert E. clear -Hz. enough (H : foldl ones_complement 0 (words m data len) = 0) by (rewrite H; lia).
  induction Hz as [|x l -> Hl IH]; [done|exact IH].
Qed.

Lemma checksum_verifies m data len k : 0 <= k -> 2 * k + 2 <= len -> bytes_ok m ->
  let m1 := st16 m (data + 2 * k) 0 in
  let m2 := st16 m1 (data + 2 * k) (htons (u16 (Z.lnot (ones_complement_words_sum m1 data len)))) in
  verifies m2 data len /\ bytes_ok m2.
Proof. intros Hk Hl Hm m1 m2. destruct (checksum_all_ones m data len k Hk Hl Hm) as [H1 H2]. split; [by apply sum_verifies|done]. Qed.

Lemma verifies_ext m m' data len : 0 <= len -> (forall a, data <= a < data + len -> ldb m' a = ldb m a) -> verifies m data len -> verifies m' data len.
Proof.
  intros Hl He. unfold verifies. assert (E : words m' data len = words m data len); [|by rewrite E]. unfold words. f_equal.
  - apply list_fmap_ext. intros i x Hx. apply lookup_seq in Hx as [-> Hi]. unfold be16.
    assert (2 * Z.of_nat (0 + i) + 2 <= len) by (clear -Hi Hl; zlia). by rewrite !He by lia.
  - destruct (Z.eqb_spec (len mod 2) 0); [done|]. rewrite He; [done|]. clear -Hl n. zlia.
Qed.

Lemma ipv4_checksum_ok m ip : bytes_ok m ->
  let m' := (net_buf_ipv4_checksum m ip).1 in
  verifies m' ip 20 /\ bytes_ok m' /\ (forall a, a < ip + 10 \/ ip + 12 <= a -> ldb m' a = ldb m a).
Proof.
  intros Hm. unfold net_buf_ipv4_checksum, SZ_IPV4. simpl fst.
  destruct (checksum_verifies m ip 20 5) as [H1 H2]; [lia|lia|done|]. change (2 * 5) with 10 in *.
  split; [exact H1|]. split; [exact H2|]. intros a Ha. by rewrite !ldb_st16_ne by lia.
Qed.

(** ** Neighbours *)

(** The table has its size and no address twice. *)
Record nb_wf (i : netiface) : Prop := {
  nb_len : Z.of_nat (length (neighbors i)) = MAX_NEIGHBORS;
  nb_head : 0 <= neighbors_head i < MAX_NEIGHBORS;
  nb_uniq : forall j k a b, neighbors i !! j = Some a -> neighbors i !! k = Some b -> nb_ip a = nb_ip b -> nb_ip a <> 0 -> j = k }.

Lemma lookup_loop_some l a k addr :
  l !! k = Some a -> nb_ip a = addr -> (forall j b, (j < k)%nat -> l !! j = Some b -> nb_ip b <> addr) -> lookup_loop l addr = nb_eth a.
Proof.
  revert k. induction l as [|x l IH]; intros [|k]; simpl; try done.
  - intros [= ->] ->. by rewrite Z.eqb_refl.
  - intros Hk Ha Hb. rewrite (proj2 (Z.eqb_neq _ _) (Hb 0%nat x ltac:(lia) eq_refl)). apply (IH k); try done.
    intros j b Hj Hl. apply (Hb (S j) b); [lia|done].
Qed.

Lemma lookup_loop_none l addr : (forall j b, l !! j = Some b -> nb_ip b <> addr) -> lookup_loop l addr = ETH_INVALID_MAC.
Proof.
  induction l as [|x l IH]; intros Hb; [done|]. simpl. rewrite (proj2 (Z.eqb_neq _ _) (Hb 0%nat x eq_refl)).
  apply IH. intros j b Hj. by apply (Hb (S j)).
Qed.

Lemma remember_loop_spec l addr mac :
  match remember_loop l addr mac with
  | Some l' => exists k a, l !! k = Some a /\ nb_ip a = addr /\ l' = <[k := mk_nb addr mac]> l
  | None => forall j b, l !! j = Some b -> nb_ip b <> addr
  end.
Proof.
  induction l as [|x l IH]; simpl; [done|]. destruct (Z.eqb_spec (nb_ip x) addr) as [E|E].
  - exists 0%nat, x. split; [done|]. split; [done|]. by rewrite E.
  - destruct (remember_loop l addr mac) as [l'|]; simpl.
    + destruct IH as (k & a & Hk & Ha & ->). by exists (S k), a.
    + intros [|j] b; simpl; [by intros [= <-]|apply IH].
Qed.

Lemma lookup_ins l k v addr : (k < length l)%nat ->
  (forall j a, l !! j = Some a -> nb_ip a = addr -> j <> k -> nb_ip v <> addr) ->
  (forall i j a b, l !! i = Some a -> l !! j = Some b -> nb_ip a = nb_ip b -> nb_ip a = addr -> i = j) ->
  lookup_loop (<[k := v]> l) addr =
    if nb_ip v =? addr then nb_eth v
    else match l !! k with Some a => if nb_ip a =? addr then ETH_INVALID_MAC else lookup_loop l addr | None => lookup_loop l addr end.
Proof.
  intros Hk Hv Hu. destruct (Z.eqb_spec (nb_ip v) addr) as [E|E].
  - apply (lookup_loop_some _ v k); [by apply list_lookup_insert_eq|done|]. intros j b Hj Hb Hba.
    rewrite list_lookup_insert_ne in Hb by lia. by apply (Hv j b Hb Hba ltac:(lia)).
  - destruct (l !! k) as [a|] eqn:Ek; [|apply lookup_ge_None in Ek; lia]. destruct (Z.eqb_spec (nb_ip a) addr) as [Ea|Ea].
    + apply lookup_loop_none. intros j b Hb Hba. apply list_lookup_insert_Some in Hb as [(_ & -> & _)|[Hne Hb]]; [done|].
      apply Hne. by apply (Hu k j a b Ek Hb); congruence.
    + clear Hv Hu. revert k Hk Ek. induction l as [|x l IH]; intros [|k] Hk Ek; simpl in *; [done|done| |].
      * injection Ek as ->. by rewrite (proj2 (Z.eqb_neq _ _) E), (proj2 (Z.eqb_neq _ _) Ea).
      * case_if; [done|]. apply IH; [lia|done].
Qed.

(** The ICMP message and the IPv4 header verify; only the two checksums and the
    length are written. *)
Lemma icmp_checksum_ok m data datalen : bytes_ok m -> 0 <= datalen < 65536 - 28 ->
  let m' := (net_buf_icmp4_checksum m data datalen).1 in
  verifies m' (data - 8) (8 + datalen) /\
  verifies m' (data - 28) 20 /\ be16 m' (data - 26) = 28 + datalen /\
  (forall a, a < data - 26 \/ data - 24 <= a < data - 18 \/ data - 16 <= a < data - 6 \/ data - 4 <= a -> ldb m' a = ldb m a) /\
  (net_buf_icmp4_checksum m data datalen).2 = 14 + 4 * nwords m (data - 28) + 8 + datalen.
Proof.
  intros Hm Hd. unfold net_buf_icmp4_checksum, SZ_ICMP, SZ_IPV4, SZ_ETH. set (icmp := data - 8). set (ip := icmp - 20).
  destruct (checksum_verifies m icmp (8 + datalen) 1) as [H1 H2]; [lia|lia|done|]. change (2 * 1) with 2 in *.
  set (c := u16 (Z.lnot _)) in *. set (m2 := st16 (st16 m (icmp + 2) 0) (icmp + 2) (htons c)) in *. set (m3 := st16 m2 (ip + 2) _).
  assert (Hm3 : bytes_ok m3) by (by apply bytes_ok_st16).
  destruct (ipv4_checksum_ok m3 ip Hm3) as (H3 & H4 & H5). destruct (net_buf_ipv4_checksum m3 ip) as [m4 c4]. simpl in *.
  replace (data - 28) with ip by (unfold ip, icmp; lia). split_and!; [|done| | |].
  - apply (verifies_ext m2 m4); [lia| |done]. intros a Ha. rewrite H5 by (unfold ip; lia). apply ldb_st16_ne. unfold ip. lia.
  - replace (data - 26) with (ip + 2) by (unfold ip, icmp; lia). unfold be16. rewrite !H5 by lia.
    change (be16 m3 (ip + 2) = 28 + datalen). unfold m3. rewrite u16_small by (unfold in_u16; lia).
    rewrite be16_st16_eq by (unfold in_u16; lia). lia.
  - intros a Ha. rewrite H5 by (unfold ip, icmp; lia). unfold m3, m2. by rewrite !ldb_st16_ne by (unfold ip, icmp; lia).
  - unfold nwords. rewrite H5 by lia. unfold m3, m2. by rewrite !ldb_st16_ne by (unfold ip; lia).
Qed.

Lemma udp_checksum_ok m data datalen : bytes_ok m -> 0 <= datalen < 65536 - 28 ->
  exists m', net_buf_udp4_checksum m data datalen = (m', 42 + datalen) /\ bytes_ok m' /\
    verifies m' (data - 28) 20 /\ be16 m' (data - 26) = 28 + datalen /\ be16 m' (data - 4) = 8 + datalen /\
    ld16 m' (data - 30) = htons ETHERTYPE_IPV4 /\
    (forall a, a < data - 30 \/ data - 28 <= a < data - 26 \/ data - 24 <= a < data - 18 \/ data - 16 <= a < data - 4 \/ data - 2 <= a -> ldb m' a = ldb m a).
Proof.
  intros Hm Hd. unfold net_buf_udp4_checksum, SZ_UDP, SZ_IPV4, SZ_ETH. set (udp := data - 8). set (ip := udp - 20).
  set (m1 := st16 m (udp + 4) _). set (m2 := st16 m1 (ip + 2) _).
  assert (Hm1 : bytes_ok m1) by (by apply bytes_ok_st16). assert (Hm2 : bytes_ok m2) by (by apply bytes_ok_st16).
  destruct (ipv4_checksum_ok m2 ip Hm2) as (H3 & H4 & H5). destruct (net_buf_ipv4_checksum m2 ip) as [m3 c3]. simpl in H3, H4, H5.
  set (m4 := st16 m3 (ip - 14 + 12) _).
  assert (He : forall a, ip <= a -> ldb m4 a = ldb m3 a) by (intros a Ha; unfold m4; apply ldb_st16_ne; lia).
  exists m4. split; [f_equal; lia|]. split; [by apply bytes_ok_st16|].
  replace (data - 28) with ip by (unfold ip, udp; lia). replace (data - 26) with (ip + 2) by (unfold ip, udp; lia).
  replace (data - 4) with (udp + 4) by (unfold udp; lia). replace (data - 30) with (ip - 14 + 12) by (unfold ip, udp; lia). split_and!.
  - apply (verifies_ext m3 m4); [lia| |done]. intros a Ha. apply He. lia.
  - unfold be16. rewrite !He, !H5 by lia. change (be16 m2 (ip + 2) = 28 + datalen). unfold m2.
    rewrite u16_small by (unfold in_u16; lia). rewrite be16_st16_eq by (unfold in_u16; lia). lia.
  - unfold be16. rewrite !He, !H5 by (unfold ip; lia). change (be16 m2 (udp + 4) = 8 + datalen). unfold m2.
    rewrite be16_st16_ne by (unfold ip; lia). unfold m1. rewrite u16_small by (unfold in_u16; lia). rewrite be16_st16_eq by (unfold in_u16; lia). lia.
  - unfold m4, ld16, st16. rewrite !ldb_stb. repeat (case_if; try lia). done.
  - intros a Ha. unfold m4. rewrite ldb_st16_ne by (unfold ip, udp; lia). rewrite H5 by (unfold ip, udp; lia).
    unfold m2, m1. rewrite !ldb_st16_ne by (unfold ip, udp; lia). done.
Qed.

(** ** The claims *)

(** Packets verify.  After [net_buf_icmp4_checksum] the ones' complement
    sum over the ICMP message (of any length, odd ones included) and over the
    IPv4 header are both all ones, as the receiver's check demands; after
    [net_buf_udp4_checksum] the sum over the IPv4 header is; and the length
    fields hold the lengths in network order. *)
Theorem packet_checksums_verify m data datalen :
  bytes_ok m -> 0 <= datalen < 65536 - 28 ->
  (let m' := (net_buf_icmp4_checksum m data datalen).1 in
   verifies m' (data - 8) (8 + datalen) /\
   verifies m' (data - 28) 20 /\ be16 m' (data - 26) = 28 + datalen) /\
  (let m' := (net_buf_udp4_checksum m data datalen).1 in
   verifies m' (data - 28) 20 /\ be16 m' (data - 26) = 28 + datalen /\ be16 m' (data - 4) = 8 + datalen).
Proof.
  intros Hm Hd. split.
  - destruct (icmp_checksum_ok m data datalen Hm Hd) as (H1 & H2 & H3 & _). done.
  - by destruct (udp_checksum_ok m data datalen Hm Hd) as (m' & -> & _ & H1 & H2 & H3 & _).
Qed.

(** Remembering an address, on the table of the interface: the address is
    found, and any other is found as before unless its slot was reused. *)
Lemma remember_lookup i addr mac other :
  nb_wf i -> addr <> 0 -> addr <> IP_BROADCAST -> other <> 0 -> other <> addr ->
  let i' := remember_on i addr mac in
  nb_wf i' /\ lookup_loop (neighbors i') addr = mac /\
  (lookup_loop (neighbors i') other = lookup_loop (neighbors i) other \/
   exists a, neighbors i !! Z.to_nat (neighbors_head i) = Some a /\ nb_ip a = other /\
             lookup_loop (neighbors i') other = ETH_INVALID_MAC /\ neighbors_head i' = (neighbors_head i + 1) mod 8).
Proof.
  intros [Hlen Hhead Hu] Ha0 Hab Ho0 Hoa i'. unfold i', remember_on.
  rewrite (proj2 (Z.eqb_neq addr 0) Ha0), (proj2 (Z.eqb_neq addr IP_BROADCAST) Hab).
  pose proof (remember_loop_spec (neighbors i) addr mac) as Hs. unfold MAX_NEIGHBORS in *.
  set (v := mk_nb addr mac).
  assert (Hwf : forall k h, (k < length (neighbors i))%nat -> 0 <= h < 8 ->
      (forall j a, neighbors i !! j = Some a -> nb_ip a = addr -> j = k) -> nb_wf (set_neighbors i (<[k := v]> (neighbors i)) h)).
  { intros k h Hk Hh Honly. constructor; simpl; [by rewrite length_insert|done|].
    intros j1 j2 a b Hj1 Hj2 E Hnz. apply list_lookup_insert_Some in Hj1, Hj2.
    destruct Hj1 as [(-> & <- & _)|[Hn1 Hj1]], Hj2 as [(-> & <- & _)|[Hn2 Hj2]]; [done|..].
    - symmetry. apply (Honly j2 b Hj2). by rewrite <- E.
    - apply (Honly j1 a Hj1). by rewrite E.
    - by apply (Hu j1 j2 a b). }
  assert (Hlk : forall k h x, (k < length (neighbors i))%nat -> (forall j a, neighbors i !! j = Some a -> nb_ip a = addr -> j = k) -> x <> 0 ->
      lookup_loop (neighbors (set_neighbors i (<[k := v]> (neighbors i)) h)) x =
      if addr =? x then mac else match neighbors i !! k with Some a => if nb_ip a =? x then ETH_INVALID_MAC else lookup_loop (neighbors i) x | None => lookup_loop (neighbors i) x end).
  { intros k h x Hk Honly Hx. simpl. rewrite lookup_ins; [done|done| |].
    - intros j a Hj Hja Hne Hv. simpl in Hv. subst x. by apply Hne, (Honly j a).
    - intros j1 j2 a b H1 H2 E1 E2. apply (Hu j1 j2 a b H1 H2 E1). by rewrite E2. }
  destruct (remember_loop (neighbors i) addr mac) as [l'|].
  - destruct Hs as (k & a & Hk & Hka & ->). assert (Hkl : (k < length (neighbors i))%nat) by (by eapply lookup_lt_Some).
    assert (Honly : forall j b, neighbors i !! j = Some b -> nb_ip b = addr -> j = k) by (intros j b Hj Hb; apply (Hu j k b a Hj Hk); congruence).
    fold v. split; [by apply Hwf|]. rewrite !Hlk by done. rewrite Z.eqb_refl. split; [done|]. left.
    rewrite (proj2 (Z.eqb_neq addr other)), Hk, (proj2 (Z.eqb_neq (nb_ip a) other)) by congruence. done.
  - set (k := Z.to_nat (neighbors_head i)). assert (Hkl : (k < length (neighbors i))%nat) by (unfold k; lia).
    assert (Honly : forall j b, neighbors i !! j = Some b -> nb_ip b = addr -> j = k) by (intros j b Hj Hb; by destruct (Hs j b Hj)).
    fold v. split; [apply Hwf; [done|apply Z.mod_pos_bound; lia|done]|]. rewrite !Hlk by done. rewrite Z.eqb_refl. split; [done|].
    rewrite (proj2 (Z.eqb_neq addr other)) by congruence.
    destruct (neighbors i !! k) as [a|] eqn:Ek; [|by left]. destruct (Z.eqb_spec (nb_ip a) other) as [E|E]; [|by left].
    right. by exists a.
Qed.

Definition demo_packet : bmem := put_bytes ∅ 128 [69; 0; 0; 0; 1; 2; 0; 0; 32; 1; 9; 9; 10; 0; 0; 1; 10; 0; 0; 2; 8; 0; 0; 0; 1; 2; 3; 4; 97; 98; 99].

Lemma demo_packet_ok : bytes_ok demo_packet.
Proof.
  intros a. assert (H : map_Forall (fun _ v => in_u8 v) demo_packet) by (apply (bool_decide_unpack _); by vm_compute).
  unfold ldb. destruct (demo_packet !! a) as [v|] eqn:E; [by apply (H a v)|]. unfold in_u8. simpl. lia.
Qed.

Definition demo_iface : netiface := mk_iface 0 167772170 (mk_nb 167772161 [1; 1; 1; 1; 1; 1] :: replicate 7 (mk_nb 0 ETH_INVALID_MAC)) 1 0 0.

Lemma demo_nb_wf : nb_wf demo_iface.
Proof.
  constructor; [done|done|]. intros [|j] [|k] a b; simpl; [done|..].
  - intros [= <-] Hk E _. apply (lookup_replicate_1 7) in Hk as [-> _]. done.
  - intros Hj [= <-] E Hnz. apply (lookup_replicate_1 7) in Hj as [-> _]. done.
  - intros Hj Hk E Hnz. apply (lookup_replicate_1 7) in Hj as [-> _]. done.
Qed.

(** ** Defects the model shows *)

(** A reply to an echo request whose IP length is shorter than its headers
    copies almost 64 kilobytes: the length wraps around. *)
Lemma short_echo_wraps :
  let m := put_bytes ∅ 1000 (replicate 14 0 ++ [69; 0; 0; 20; 0; 0; 0; 0; 32; 1; 0; 0; 10; 0; 0; 1; 10; 0; 0; 2; 8; 0; 0; 0; 1; 2; 3; 4]) in
  u16 (ntohs (ld16 m (1014 + 2)) - (4 * nwords m 1014 + SZ_ICMP)) = 65528.
Proof. by vm_compute. Qed.

End NTP.
