(* ===== verification/NetStack.v ===== *)
(** * The state of the network stack (src/core/net.c)

    Module [NS]: the registered interfaces, receiving and transmitting frames,
    ARP and ICMP, and the queue of received datagrams, a circular doubly linked
    list of [struct netbuf].  The callbacks an interface gets from its driver
    are the operations of the class [NetDrv]; pointers are addresses with 0 for
    NULL, and an operation gives [None] where the code would follow a pointer
    to no object.  Logging is left out. *)

From S2P Require Import Prelude Net.
Import NT.

Module NS.

Definition MAX_NETWORK_INTERFACES : Z := 1.
Definition ENOMEM : Z := 12.
Definition ENODEV : Z := 19.

(** What an interface calls of its driver, the interface given by address;
    [D] is the driver's own state.  A transmitted frame is seen in the memory. *)
Class NetDrv (D : Type) := {
  get_mac : Z -> list Z;
  transmit_frame_alloc : D -> Z -> D * Z;
  transmit_frame_enqueue : D -> Z -> bmem -> Z -> Z -> D * Z;
  do_transmit : D -> Z -> bmem -> D * Z;
  recycle : D -> Z -> D }.

Record netbuf := mk_netbuf { nb_next : Z; nb_prev : Z; nb_buf : Z; nb_buflen : Z }.

(** [iface_tab] and [rxq] are the fields of [theNetwork]; [ifaces] and [bufs]
    the objects the pointers lead to. *)
Record net (D : Type) := mk_net {
  mem : bmem; drv : D; ifaces : gmap Z netiface; iface_tab : list Z; rxq : Z; bufs : gmap Z netbuf }.
#[global] Arguments mk_net {D}.
#[global] Arguments mem {D}.
#[global] Arguments drv {D}.
#[global] Arguments ifaces {D}.
#[global] Arguments iface_tab {D}.
#[global] Arguments rxq {D}.
#[global] Arguments bufs {D}.

Section Stack.
Context {D : Type} `{!NetDrv D}.
Implicit Types (n : net D).

Definition set_mem n (m : bmem) : net D := mk_net m (drv n) (ifaces n) (iface_tab n) (rxq n) (bufs n).
Definition set_drv n (d : D) : net D := mk_net (mem n) d (ifaces n) (iface_tab n) (rxq n) (bufs n).
Definition set_iface n (p : Z) (i : netiface) : net D := mk_net (mem n) (drv n) (<[p := i]> (ifaces n)) (iface_tab n) (rxq n) (bufs n).
Definition set_rxq n (q : Z) : net D := mk_net (mem n) (drv n) (ifaces n) (iface_tab n) q (bufs n).
Definition set_bufs n (b : gmap Z netbuf) : net D := mk_net (mem n) (drv n) (ifaces n) (iface_tab n) (rxq n) b.

(** ** Interfaces *)

(** The first free place of the table. *)
Fixpoint register_loop (l : list Z) (iface i : Z) : option (list Z * Z) :=
  match l with
  | [] => None
  | p :: l =>
      if p =? 0 then Some (iface :: l, i)
      else match register_loop l iface (i + 1) with Some (l, i) => Some (p :: l, i) | None => None end
  end.

Definition net_interface_register n (iface : Z) : option (net D * Z) :=
  match register_loop (iface_tab n) iface 0 with
  | None => Some (n, ENODEV)
  | Some (l, i) =>
      x ← ifaces n !! iface;
      let n := set_iface n iface (set_index x i) in
      Some (mk_net (mem n) (drv n) (ifaces n) l (rxq n) (bufs n), 0)
  end.

Definition net_interface_for_destination n : Z := default 0 (iface_tab n !! 0%nat).

Definition net_interface_by_index n (idx : Z) : Z :=
  if MAX_NETWORK_INTERFACES <=? idx then 0 else default 0 (iface_tab n !! Z.to_nat idx).

Definition mac_equal (m1 m2 : list Z) : bool := bool_decide (m1 = m2).

Fixpoint by_ip_or_mac_loop n (l : list Z) (ip : Z) (mac : list Z) : option Z :=
  match l with
  | [] => Some 0
  | iface :: l =>
      if iface =? 0 then by_ip_or_mac_loop n l ip mac
      else
        i ← ifaces n !! iface;
        if negb (mac_equal mac ETH_INVALID_MAC) && mac_equal (get_mac iface) mac then Some iface
        else if negb (ip =? 0) && (ip =? ip_addr i) then Some iface
        else by_ip_or_mac_loop n l ip mac
  end.

Definition net_interface_by_ip_or_mac n (ip : Z) (mac : list Z) : option Z := by_ip_or_mac_loop n (iface_tab n) ip mac.

(** ** Neighbours *)

Definition net_neighbor_lookup_on n (iface addr : Z) : option (list Z) :=
  if iface =? 0 then Some ETH_INVALID_MAC
  else i ← ifaces n !! iface; Some (lookup_loop (neighbors i) addr).

Fixpoint resolve_loop n (l : list Z) (addr : Z) : option (list Z) :=
  match l with
  | [] => Some ETH_INVALID_MAC
  | p :: l =>
      mac ← net_neighbor_lookup_on n p addr;
      if negb (mac_equal mac ETH_INVALID_MAC) then Some mac else resolve_loop n l addr
  end.

Definition net_neighbor_resolve n (iface addr : Z) : option (list Z) :=
  if addr =? IP_BROADCAST then Some ETH_BROADCAST_MAC
  else if negb (iface =? 0) then net_neighbor_lookup_on n iface addr
  else resolve_loop n (iface_tab n) addr.

Definition net_neighbor_remember n (iface addr : Z) (mac : list Z) : option (net D) :=
  i ← ifaces n !! iface; Some (set_iface n iface (remember_on i addr mac)).

(** ** Transmitting *)

(** The destination's hardware address, if it is known. *)
Definition fill_dst n (iface frame : Z) : option (net D) :=
  let m := mem n in
  let ethertype := ntohs (ld16 m (frame + 12)) in
  let hdr := frame + SZ_ETH in
  if ethertype =? ETHERTYPE_IPV4 then
    dstmac ← net_neighbor_resolve n iface (ld32 m (hdr + 16));
    Some (if negb (mac_equal dstmac ETH_INVALID_MAC) then set_mem n (put_bytes m frame dstmac) else n)
  else if ethertype =? ETHERTYPE_ARP then
    let m := bcopy m frame (hdr + 18) 6 in
    Some (set_mem n (bcopy m (frame + 6) (hdr + 8) 6))
  else Some n.

Definition net_transmit_frame n (iface frame len : Z) : option (net D * Z) :=
  let len := u16 len in
  let n := set_mem n (put_bytes (mem n) (frame + 6) (get_mac iface)) in
  n ← fill_dst n iface frame;
  let '(n, len) :=
    if len <? 60 then (set_mem n (bfill (mem n) (frame + len) (Z.to_nat (60 - len)) 0), 60) else (n, len) in
  let '(d, ret) := transmit_frame_enqueue (drv n) iface (mem n) frame len in
  let n := set_drv n d in
  if negb (ret =? 0) then Some (n, ret)
  else let '(d, ret) := do_transmit (drv n) iface (mem n) in Some (set_drv n d, ret).

(** ** ARP *)

Definition net_arp_send n (iface op dst_ip : Z) (dst_mac : list Z) : option (net D * Z) :=
  if iface =? 0 then Some (n, ENODEV)
  else
    i ← ifaces n !! iface;
    let '(d, frame) := transmit_frame_alloc (drv n) iface in
    let n := set_drv n d in
    if frame =? 0 then Some (n, ENOMEM)
    else
      let m := st16 (mem n) (frame + 12) (htons ETHERTYPE_ARP) in
      let arp := frame + SZ_ETH in
      let m := st16 m arp (htons 1) in
      let m := st16 m (arp + 2) (htons ETHERTYPE_IPV4) in
      let m := stb m (arp + 4) 6 in
      let m := stb m (arp + 5) 4 in
      let m := st16 m (arp + 6) (htons op) in
      let m := put_bytes m (arp + 8) (get_mac iface) in
      let m := st32 m (arp + 14) (ip_addr i) in
      let m := put_bytes m (arp + 18) dst_mac in
      let m := st32 m (arp + 24) dst_ip in
      '(n, _) ← net_transmit_frame (set_mem n m) iface frame (SZ_ETH + SZ_ARP);
      Some (n, 0).

Definition net_arp_send_whohas n (iface ip : Z) : option (net D * Z) := net_arp_send n iface ARP_OP_REQUEST ip ETH_BROADCAST_MAC.

Definition net_arp_receive n (iface arp : Z) : option (net D) :=
  let m := mem n in
  let dst_ip := ld32 m (arp + 24) in
  let dst_mac := get_bytes m (arp + 18) 6 in
  let src_ip := ld32 m (arp + 14) in
  let src_mac := get_bytes m (arp + 8) 6 in
  iface ← (if iface =? 0 then net_interface_by_ip_or_mac n dst_ip dst_mac else Some iface);
  if iface =? 0 then Some n
  else
    let op := ntohs (ld16 m (arp + 6)) in
    if op =? ARP_OP_REPLY then net_neighbor_remember n iface src_ip src_mac
    else
      i ← ifaces n !! iface;
      if (op =? ARP_OP_REQUEST) && mac_equal dst_mac ETH_INVALID_MAC && (dst_ip =? ip_addr i) then
        '(n, _) ← net_arp_send n iface ARP_OP_REPLY src_ip src_mac; Some n
      else Some n.

(** ** ICMP *)

Definition net_icmp_receive n (iface frame : Z) : option (net D) :=
  let m := mem n in
  let ip := frame + SZ_ETH in
  let icmp := ip + 4 * nwords m ip in
  let payload := icmp + SZ_ICMP in
  if ldb m icmp =? ICMP_ECHO_REQUEST then
    if negb (ldb m (icmp + 1) =? 0) then Some n
    else
      i ← ifaces n !! iface;
      let '(d, reply) := transmit_frame_alloc (drv n) iface in
      let n := set_drv n d in
      if reply =? 0 then Some n
      else
        let seq := ld32 m (icmp + 4) in
        let '(m, data) := net_buf_icmp4_init m reply (ip_addr i) (ld32 m (ip + 12)) ICMP_ECHO_REPLY 0 seq in
        let datalen := u16 (ntohs (ld16 m (ip + 2)) - (4 * nwords m ip + SZ_ICMP)) in
        let m := bcopy m data payload (Z.to_nat datalen) in
        let '(m, ethlen) := net_buf_icmp4_checksum m data datalen in
        '(n, _) ← net_transmit_frame (set_mem n m) iface reply ethlen;
        Some n
  else Some n.

(** ** The receive queue *)

Definition set_next (b : gmap Z netbuf) (p v : Z) : option (gmap Z netbuf) :=
  x ← b !! p; Some (<[p := mk_netbuf v (nb_prev x) (nb_buf x) (nb_buflen x)]> b).
Definition set_prev (b : gmap Z netbuf) (p v : Z) : option (gmap Z netbuf) :=
  x ← b !! p; Some (<[p := mk_netbuf (nb_next x) v (nb_buf x) (nb_buflen x)]> b).

Definition enqueue_netbuf n (qelem : Z) : option (net D) :=
  if negb (rxq n =? 0) then
    h ← bufs n !! rxq n;
    let prev := nb_prev h in
    b ← set_prev (bufs n) (rxq n) qelem;
    b ← set_next b qelem (rxq n);
    b ← set_next b prev qelem;
    b ← set_prev b qelem prev;
    Some (set_bufs n b)
  else
    b ← set_next (bufs n) qelem qelem;
    b ← set_prev b qelem qelem;
    Some (set_rxq (set_bufs n b) qelem).

Definition net_receive_driver_frame n (iface qelem : Z) : option (net D) :=
  q ← bufs n !! qelem;
  let frame := nb_buf q in
  let ethtype := ntohs (ld16 (mem n) (frame + 12)) in
  let ip := frame + SZ_ETH in
  if (ethtype =? ETHERTYPE_IPV4) && (ldb (mem n) (ip + 9) =? IPV4TYPE_UDP) then enqueue_netbuf n qelem
  else
    n ← (if ethtype =? ETHERTYPE_ARP then net_arp_receive n iface ip
         else if (ethtype =? ETHERTYPE_IPV4) && (ldb (mem n) (ip + 9) =? IPV4TYPE_ICMP) then net_icmp_receive n iface frame
         else Some n);
    Some (set_drv n (recycle (drv n) qelem)).

(** The three tests on a queued frame. *)
Definition udp_for (m : bmem) (port frame : Z) : bool :=
  if negb (ntohs (ld16 m (frame + 12)) =? ETHERTYPE_IPV4) then false
  else
    let ip := frame + SZ_ETH in
    if negb (ldb m (ip + 9) =? IPV4TYPE_UDP) then false
    else
      let udp := frame + SZ_ETH + 4 * nwords m ip in
      let udp_dstport := ntohs (ld16 m (udp + 2)) in
      if negb (port =? 0) && negb (udp_dstport =? port) then false else true.

(** The walk from the head of the queue; [fuel] bounds its steps. *)
Fixpoint scan_loop (fuel : nat) n (port cur : Z) : option (option Z) :=
  match fuel with
  | O => None
  | S fuel =>
      c ← bufs n !! cur;
      if udp_for (mem n) port (nb_buf c) then Some (Some cur)
      else if negb (nb_next c =? rxq n) then scan_loop fuel n port (nb_next c) else Some None
  end.

Definition unlink_netbuf n (cur : Z) : option (net D) :=
  c ← bufs n !! cur;
  b ← set_prev (bufs n) (nb_next c) (nb_prev c);
  c ← b !! cur;
  b ← set_next b (nb_prev c) (nb_next c);
  Some (set_bufs n b).

Definition remove_netbuf n (cur : Z) : option (net D) :=
  if rxq n =? cur then
    c ← bufs n !! cur;
    if nb_next c =? cur then Some (set_rxq n 0)
    else
      n ← unlink_netbuf n cur;
      c ← bufs n !! cur;
      Some (set_rxq n (nb_next c))
  else unlink_netbuf n cur.

(** One turn of the loop of [net_wait_udp4]: the frame taken from the queue. *)
Definition wait_scan n (port : Z) : option (net D * Z) :=
  if negb (rxq n =? 0) then
    r ← scan_loop (S (size (bufs n))) n port (rxq n);
    match r with
    | Some cur => n ← remove_netbuf n cur; Some (n, cur)
    | None => Some (n, 0)
    end
  else Some (n, 0).

(** The loop, with what the clock shows at each turn and what happens while the
    processor is halted; [None] when it still waits after that. *)
Fixpoint wait_loop (evs : list (Z * (net D -> net D))) n (port endtime : Z) : option (net D * Z) :=
  match evs with
  | [] => None
  | (now, halted) :: evs =>
      '(n, nbuf) ← wait_scan n port;
      if negb (nbuf =? 0) then Some (n, nbuf)
      else if endtime <? now then Some (n, 0)
      else wait_loop evs (halted n) port endtime
  end.

Definition net_wait_udp4 n (port start timeout_s : Z) (evs : list (Z * (net D -> net D))) : option (net D * Z) :=
  wait_loop evs n port (u32 (start + timeout_s)).

End Stack.
End NS.
