(* ===== verification/NetStackProofs.v ===== *)
(** * Correctness of the network stack

    Module [NSP]: the circular list of received frames is a first-in-first-out
    queue, the tables of neighbours are caches, and echo requests are answered. *)

From S2P Require Import Prelude Net NetProofs NetStack.
Import NT NTP NS.

Module NSP.

(** ** Circular doubly linked lists *)

Section Rings.
Implicit Types (m : gmap Z netbuf) (l : list Z).

Definition nxt m (p : Z) : option Z := option_map nb_next (m !! p).
Definition prv m (p : Z) : option Z := option_map nb_prev (m !! p).

(** Each node of [l] is linked with the one behind it, both ways. *)
Fixpoint chain m l : Prop :=
  match l with
  | x :: (y :: _) as t => nxt m x = Some y /\ prv m y = Some x /\ chain m t
  | _ => True
  end.

(** The list is closed to a ring. *)
Definition cyc m l : Prop := match l with [] => True | h :: _ => chain m (l ++ [h]) end.

Lemma chain_cons m x y l : chain m (x :: y :: l) <-> nxt m x = Some y /\ prv m y = Some x /\ chain m (y :: l).
Proof. done. Qed.

Lemma chain_app m l1 x l2 : chain m (l1 ++ x :: l2) <-> chain m (l1 ++ [x]) /\ chain m (x :: l2).
Proof.
  induction l1 as [|a l1 IH]; [simpl; tauto|]. destruct l1 as [|b l1]; [simpl; tauto|].
  change ((a :: b :: l1) ++ x :: l2) with (a :: b :: (l1 ++ x :: l2)). change ((a :: b :: l1) ++ [x]) with (a :: b :: (l1 ++ [x])).
  rewrite !chain_cons. change (b :: l1 ++ x :: l2) with ((b :: l1) ++ x :: l2). rewrite IH. change (b :: l1 ++ [x]) with ((b :: l1) ++ [x]). tauto.
Qed.

Lemma cyc_rotate m x l : cyc m (x :: l) <-> cyc m (l ++ [x]).
Proof.
  destruct l as [|y l]; [done|].
  change (cyc m (x :: y :: l)) with (chain m ((x :: y :: l) ++ [x])). change (cyc m ((y :: l) ++ [x])) with (chain m (((y :: l) ++ [x]) ++ [y])).
  rewrite <- (app_assoc (y :: l) [x] [y]). change ([x] ++ [y]) with [x; y]. rewrite (chain_app m (y :: l) x [y]).
  change ((x :: y :: l) ++ [x]) with (x :: y :: (l ++ [x])). rewrite chain_cons. change (y :: l ++ [x]) with ((y :: l) ++ [x]). simpl chain at 3. tauto.
Qed.

Lemma cyc_swap m l1 l2 : cyc m (l1 ++ l2) <-> cyc m (l2 ++ l1).
Proof.
  revert l2. induction l1 as [|x l1 IH]; intros l2; [by rewrite app_nil_r|].
  change ((x :: l1) ++ l2) with (x :: (l1 ++ l2)). rewrite cyc_rotate, <- (app_assoc l1). rewrite IH, <- (app_assoc l2). done.
Qed.

(** A chain only depends on the forward links of all nodes but the last and the
    backward links of all nodes but the first. *)
Lemma chain_ext m m' l :
  (forall l1 x y l2, l = l1 ++ x :: y :: l2 -> nxt m' x = nxt m x /\ prv m' y = prv m y) -> chain m l -> chain m' l.
Proof.
  induction l as [|x [|y l] IH]; intros He; [done|done|]. rewrite !chain_cons. intros (Hx & Hy & Hl).
  destruct (He [] x y l eq_refl) as [-> ->]. split; [done|]. split; [done|]. apply IH; [|done].
  intros l1 a b l2 E. apply (He (x :: l1) a b l2). by rewrite E.
Qed.

Lemma chain_nodes m l x y : cyc m (x :: l) -> y ∈ x :: l -> is_Some (m !! y).
Proof.
  intros Hc Hy. apply list_elem_of_split in Hy as (l1 & l2 & E). rewrite E in Hc. apply cyc_swap in Hc.
  change ((y :: l2) ++ l1) with (y :: (l2 ++ l1)) in Hc. unfold cyc in Hc. unfold nxt in Hc. destruct (l2 ++ l1) as [|z l0]; simpl in Hc; unfold nxt in Hc;
  destruct (m !! y); [done|naive_solver|done|naive_solver].
Qed.

(** Appending a node at the end of the ring. *)
Lemma cyc_append m m' l0 p h q :
  hd_error (l0 ++ [p]) = Some h -> NoDup (l0 ++ [p]) -> q ∉ l0 ++ [p] -> cyc m (l0 ++ [p]) ->
  (forall x, x <> p -> x <> q -> nxt m' x = nxt m x) -> (forall x, x <> h -> x <> q -> prv m' x = prv m x) ->
  nxt m' p = Some q -> nxt m' q = Some h -> prv m' h = Some q -> prv m' q = Some p -> cyc m' (l0 ++ [p; q]).
Proof.
  intros Hh Hnd Hq Hc Hn Hp E1 E2 E3 E4.
  assert (Hc' : chain m (l0 ++ [p])).
  { destruct l0 as [|a l0]; [done|]. change (chain m (((a :: l0) ++ [p]) ++ [a])) in Hc. rewrite <- (app_assoc (a :: l0) [p]) in Hc.
    change ([p] ++ [a]) with [p; a] in Hc. by apply chain_app in Hc as [Hc _]. }
  assert (Hc2 : chain m' (l0 ++ [p])).
  { revert Hc'. apply chain_ext. intros l1 x y l2 E. rewrite E in Hnd, Hq. apply NoDup_app in Hnd as (_ & Hd & Hnd2).
    split.
    - apply Hn; [|set_solver]. intros ->. destruct (last (y :: l2)) as [z|] eqn:El; [|by apply last_None in El].
      assert (last (l0 ++ [p]) = Some z) by (by rewrite E, last_app; simpl in *; rewrite El). rewrite last_snoc in H. injection H as <-.
      apply last_Some_elem_of in El. by apply NoDup_cons in Hnd2 as [? _].
    - apply Hp; [|set_solver]. intros ->. rewrite E in Hh. destruct l1 as [|a l1]; simpl in Hh; injection Hh as <-.
      + apply NoDup_cons in Hnd2 as [Hx _]. set_solver.
      + apply (Hd a); set_solver. }
  replace (l0 ++ [p; q]) with ((l0 ++ [p]) ++ [q]) by (by rewrite <- app_assoc). unfold cyc.
  destruct ((l0 ++ [p]) ++ [q]) as [|z r] eqn:E; [by destruct l0|]. assert (z = h) as -> by (destruct l0; simpl in *; congruence).
  rewrite <- E, <- !app_assoc. change ([p] ++ [q] ++ [h]) with [p; q; h]. apply chain_app. split; [done|]. simpl. done.
Qed.

(** Taking the first node out of a ring of several. *)
Lemma cyc_unlink m m' x s r p :
  NoDup (x :: s :: r) -> last (s :: r) = Some p -> cyc m (x :: s :: r) ->
  (forall y, y <> p -> nxt m' y = nxt m y) -> (forall y, y <> s -> prv m' y = prv m y) ->
  nxt m' p = Some s -> prv m' s = Some p -> cyc m' (s :: r).
Proof.
  intros Hnd Hl Hc Hn Hp E1 E2. apply NoDup_cons in Hnd as [Hx Hnd].
  apply last_Some in Hl as [l0 El]. unfold cyc in *. change ((x :: s :: r) ++ [x]) with (x :: ((s :: r) ++ [x])) in Hc. rewrite El in *.
  change (x :: (l0 ++ [p]) ++ [x]) with ([x] ++ (l0 ++ [p]) ++ [x]) in Hc.
  assert (Hc' : chain m (l0 ++ [p])).
  { rewrite <- (app_assoc l0) in Hc. rewrite app_assoc in Hc. apply (chain_app m ([x] ++ l0) p) in Hc as [Hc _].
    destruct l0 as [|a l0]; [done|]. change (chain m (x :: a :: (l0 ++ [p]))) in Hc. by apply chain_cons in Hc as (_ & _ & Hc). }
  rewrite <- app_assoc. apply chain_app. split; [|done]. revert Hc'. apply chain_ext. intros l1 a b l2 E. rewrite E in Hnd. split.
  - apply Hn. intros ->. apply NoDup_app in Hnd as (_ & _ & Hnd2). destruct (last (b :: l2)) as [z|] eqn:E3; [|by apply last_None in E3].
    assert (H : last (l0 ++ [p]) = Some z) by (by rewrite E, last_app; simpl in *; rewrite E3). rewrite last_snoc in H. injection H as <-.
    apply last_Some_elem_of in E3. by apply NoDup_cons in Hnd2 as [? _].
  - apply Hp. intros ->. rewrite <- El in E. destruct l1 as [|z l1]; injection E as <- E4.
    + apply NoDup_app in Hnd as (_ & _ & Hnd2). apply NoDup_cons in Hnd2 as [? _]. set_solver.
    + simpl in Hnd. apply NoDup_cons in Hnd as [? _]. set_solver.
Qed.

End Rings.
(** ** The receive queue *)

Section Queue.
Context {D : Type} `{!NetDrv D}.
Implicit Types (n : net D) (l : list Z).

Definition frame_of n (p : Z) : Z := default 0 (option_map nb_buf (bufs n !! p)).

(** The frames in the queue, oldest first. *)
Record queue n l : Prop := {
  q_nodup : NoDup l;
  q_null : 0 ∉ l;
  q_head : rxq n = default 0 (hd_error l);
  q_cyc : cyc (bufs n) l }.

(** Nothing but the links of the queue differs. *)
Record same_net n n' : Prop := {
  sn_mem : mem n' = mem n; sn_drv : drv n' = drv n; sn_ifaces : ifaces n' = ifaces n; sn_tab : iface_tab n' = iface_tab n;
  sn_bufs : forall p, option_map nb_buf (bufs n' !! p) = option_map nb_buf (bufs n !! p) }.

Lemma set_next_ok m p v : is_Some (m !! p) -> exists m', set_next m p v = Some m' /\ nxt m' p = Some v /\
  (forall x, x <> p -> nxt m' x = nxt m x) /\ (forall x, prv m' x = prv m x) /\ (forall x, option_map nb_buf (m' !! x) = option_map nb_buf (m !! x)).
Proof.
  intros [b Hb]. unfold set_next. rewrite Hb. simpl. eexists. split; [done|]. unfold nxt, prv. split; [by rewrite lookup_insert_eq|].
  split; [intros x Hx; by rewrite lookup_insert_ne|]. split; intros x; (destruct (decide (x = p)) as [->|]; [by rewrite lookup_insert_eq, Hb|by rewrite lookup_insert_ne]).
Qed.

Lemma set_prev_ok m p v : is_Some (m !! p) -> exists m', set_prev m p v = Some m' /\ prv m' p = Some v /\
  (forall x, x <> p -> prv m' x = prv m x) /\ (forall x, nxt m' x = nxt m x) /\ (forall x, option_map nb_buf (m' !! x) = option_map nb_buf (m !! x)).
Proof.
  intros [b Hb]. unfold set_prev. rewrite Hb. simpl. eexists. split; [done|]. unfold nxt, prv. split; [by rewrite lookup_insert_eq|].
  split; [intros x Hx; by rewrite lookup_insert_ne|]. split; intros x; (destruct (decide (x = p)) as [->|]; [by rewrite lookup_insert_eq, Hb|by rewrite lookup_insert_ne]).
Qed.

Lemma live_buf (m m' : gmap Z netbuf) x : option_map nb_buf (m' !! x) = option_map nb_buf (m !! x) -> is_Some (m !! x) -> is_Some (m' !! x).
Proof. intros E [b Hb]. rewrite Hb in E. destruct (m' !! x); [by eexists|done]. Qed.

Lemma queue_live n l x : queue n l -> x ∈ l -> is_Some (bufs n !! x).
Proof. intros [_ _ _ Hc] Hx. destruct l as [|h t]; [set_solver|]. by apply (chain_nodes _ t h). Qed.

Lemma enqueue_ok n l q : queue n l -> q <> 0 -> q ∉ l -> is_Some (bufs n !! q) ->
  exists n', enqueue_netbuf n q = Some n' /\ queue n' (l ++ [q]) /\ same_net n n'.
Proof.
  intros Hq Hq0 Hql Hb. pose proof Hq as [Hnd H0 Hh Hc]. unfold enqueue_netbuf. destruct l as [|h t] eqn:El.
  - simpl in Hh. rewrite Hh. simpl.
    destruct (set_next_ok (bufs n) q q Hb) as (b1 & -> & H1 & H2 & H3 & H4). cbn [mbind option_bind].
    destruct (set_prev_ok b1 q q (live_buf _ _ q (H4 q) Hb)) as (b2 & -> & H5 & H6 & H7 & H8). cbn [mbind option_bind].
    eexists. split; [done|]. split; [|constructor; try done; intros p; simpl; by rewrite H8].
    constructor; [repeat constructor; set_solver|set_solver|done|]. simpl. by rewrite H7.
  - rewrite Hh. simpl hd_error. simpl default. assert (h <> 0) by set_solver. rewrite (proj2 (Z.eqb_neq h 0)) by done. cbn [negb].
    destruct (queue_live n (h :: t) h Hq ltac:(left)) as [bh Ebh]. rewrite Ebh. cbn [mbind option_bind].
    destruct (exists_last (l := h :: t) ltac:(done)) as (l0 & p & E).
    assert (Hp : nb_prev bh = p).
    { assert (Hc2 := Hc). unfold cyc in Hc2. rewrite E, <- app_assoc in Hc2. apply chain_app in Hc2 as [_ (_ & Hc2 & _)]. unfold prv in Hc2. rewrite Ebh in Hc2. by injection Hc2. }
    rewrite Hp. assert (Hpl : p ∈ h :: t) by (rewrite E; set_solver).
    destruct (set_prev_ok (bufs n) h q ltac:(eauto)) as (b1 & -> & A1 & A2 & A3 & A4). cbn [mbind option_bind].
    destruct (set_next_ok b1 q h (live_buf _ _ q (A4 q) Hb)) as (b2 & -> & B1 & B2 & B3 & B4). cbn [mbind option_bind].
    destruct (set_next_ok b2 p q) as (b3 & -> & C1 & C2 & C3 & C4). { eapply live_buf; [apply B4|]. eapply live_buf; [apply A4|]. by apply (queue_live n (h :: t)). }
    cbn [mbind option_bind].
    destruct (set_prev_ok b3 q p) as (b4 & -> & D1 & D2 & D3 & D4). { eapply live_buf; [apply C4|]. eapply live_buf; [apply B4|]. by eapply live_buf; [apply A4|]. }
    cbn [mbind option_bind]. eexists. split; [done|].
    assert (p <> q) by (intros ->; done). assert (h <> q) by set_solver.
    split; [|constructor; try done; intros x; simpl; by rewrite D4, C4, B4, A4].
    constructor; [|set_solver|done|].
    { apply NoDup_app. split; [done|]. split; [set_solver|apply NoDup_singleton]. }
    simpl bufs. rewrite E. rewrite <- app_assoc. change ([p] ++ [q]) with [p; q]. apply (cyc_append (bufs n) b4 l0 p h q).
    all: try (rewrite <- E); try done.
    + intros x Hx1 Hx2. by rewrite D3, C2, B2, A3.
    + intros x Hx1 Hx2. by rewrite D2, C3, B3, A2.
    + by rewrite D3.
    + by rewrite D3, C2.
    + by rewrite D2, C3, B3.
Qed.

(** The buffer answers a wait on [port]. *)
Definition hit n (port p : Z) : bool := udp_for (mem n) port (frame_of n p).

Lemma scan_find n port l2 : forall x l1 fuel, queue n (l1 ++ x :: l2) -> (length l2 < fuel)%nat ->
  scan_loop fuel n port x = Some (List.find (hit n port) (x :: l2)).
Proof.
  induction l2 as [|y l2 IH]; intros x l1 fuel Hq Hf; (destruct fuel as [|fuel]; [simpl in Hf; lia|]); cbn [scan_loop List.find].
  all: destruct (queue_live n _ x Hq ltac:(set_solver)) as [c Ec]; rewrite Ec; cbn [mbind option_bind].
  all: assert (Eh : hit n port x = udp_for (mem n) port (nb_buf c)) by (unfold hit, frame_of; by rewrite Ec); rewrite Eh; destruct (udp_for (mem n) port (nb_buf c)); [done|].
  - assert (E : nb_next c = rxq n).
    { destruct Hq as [_ _ -> Hc]. apply cyc_swap in Hc. unfold cyc in Hc. unfold nxt in Hc.
      destruct l1 as [|h l1]; simpl in Hc; unfold nxt in Hc; rewrite Ec in Hc; simpl in *; destruct Hc as [Hc _]; by injection Hc. }
    by rewrite E, Z.eqb_refl.
  - assert (E : nb_next c = y /\ y <> rxq n).
    { destruct Hq as [Hnd _ -> Hc]. split.
      - apply cyc_swap in Hc. unfold cyc in Hc. simpl in Hc. unfold nxt in Hc. rewrite Ec in Hc. destruct Hc as [Hc _]. by injection Hc.
      - destruct l1 as [|h l1]; simpl in *; apply NoDup_cons in Hnd as [Hn _]; set_solver. }
    destruct E as [-> Hne]. rewrite (proj2 (Z.eqb_neq _ _) Hne). cbn [negb].
    apply (IH y (l1 ++ [x]) fuel); [by rewrite <- app_assoc|simpl in Hf; lia].
Qed.

Lemma queue_size n l : queue n l -> (length l <= size (bufs n))%nat.
Proof.
  intros Hq. assert (Hsub : list_to_set l ⊆ dom (bufs n)).
  { intros t Ht. apply elem_of_list_to_set in Ht. apply elem_of_dom. by eapply queue_live. }
  apply subseteq_size in Hsub. by rewrite size_list_to_set, size_dom in Hsub by apply Hq.
Qed.

(** The node before and the node behind, of a node in a ring of several. *)
Lemma ring_neighbours n l1 x l2 c : queue n (l1 ++ x :: l2) -> l2 ++ l1 <> [] -> bufs n !! x = Some c ->
  exists s r, l2 ++ l1 = s :: r /\ nb_next c = s /\ last (s :: r) = Some (nb_prev c).
Proof.
  intros [_ _ _ Hc] Hne Ec. apply cyc_swap in Hc. change ((x :: l2) ++ l1) with (x :: (l2 ++ l1)) in Hc.
  destruct (l2 ++ l1) as [|s r]; [done|]. exists s, r. split; [done|].
  change (chain (bufs n) (x :: s :: (r ++ [x]))) in Hc. apply chain_cons in Hc as (Hn & _ & Hc). unfold nxt in Hn. rewrite Ec in Hn. injection Hn as ->.
  split; [done|]. destruct (exists_last (l := s :: r) ltac:(done)) as (l0 & p & E).
  change (s :: r ++ [x]) with ((s :: r) ++ [x]) in Hc. rewrite E in *. rewrite <- app_assoc in Hc. apply chain_app in Hc as [_ (_ & Hp & _)].
  unfold prv in Hp. rewrite Ec in Hp. injection Hp as ->. by rewrite last_snoc.
Qed.

Lemma unlink_netbuf_ok n l1 x l2 : queue n (l1 ++ x :: l2) -> l2 ++ l1 <> [] ->
  exists n', unlink_netbuf n x = Some n' /\ cyc (bufs n') (l1 ++ l2) /\ same_net n n' /\ rxq n' = rxq n /\ nxt (bufs n') x = nxt (bufs n) x.
Proof.
  intros Hq Hne. destruct (queue_live n _ x Hq ltac:(set_solver)) as [c Ec]. unfold unlink_netbuf. rewrite Ec. cbn [mbind option_bind].
  destruct (ring_neighbours n l1 x l2 c Hq Hne Ec) as (s & r & E & Es & Ep).
  assert (Hnd : NoDup (x :: s :: r)) by (rewrite <- E, (Permutation_app_comm l2 l1), (Permutation_middle l1 l2 x); apply Hq).
  apply NoDup_cons in Hnd as Hnd2. destruct Hnd2 as [Hx _].
  assert (Hpr : nb_prev c ∈ s :: r) by (by apply last_Some_elem_of).
  assert (Hlive : forall y, y ∈ s :: r -> is_Some (bufs n !! y)) by (intros y Hy; apply (queue_live n _ y Hq); rewrite <- E in Hy; set_solver).
  rewrite Es. destruct (set_prev_ok (bufs n) s (nb_prev c) ltac:(apply Hlive; left)) as (b1 & -> & A1 & A2 & A3 & A4). cbn [mbind option_bind].
  assert (Hx1 : nxt b1 x = Some s /\ prv b1 x = Some (nb_prev c)).
  { rewrite A3, A2 by set_solver. unfold nxt, prv. rewrite Ec. simpl. by rewrite Es. }
  unfold nxt, prv in Hx1. destruct (b1 !! x) as [c1|]; [|naive_solver]. destruct Hx1 as [[= E1] [= E2]]. cbn [mbind option_bind]. rewrite E1, E2.
  destruct (set_next_ok b1 (nb_prev c) s) as (b2 & -> & B1 & B2 & B3 & B4). { eapply live_buf; [apply A4|]. by apply Hlive. }
  cbn [mbind option_bind]. eexists. split; [done|]. split; [|split; [constructor; try done; intros y; simpl; by rewrite B4, A4|split; [done|]]].
  - simpl bufs. apply cyc_swap. rewrite E. apply (cyc_unlink (bufs n) b2 x s r (nb_prev c)); try done.
    + rewrite <- E. destruct Hq as [_ _ _ Hc]. by apply cyc_swap in Hc.
    + intros y Hy. by rewrite B2, A3.
    + intros y Hy. by rewrite B3, A2.
    + by rewrite B3.
  - simpl bufs. rewrite B2, A3; [done|]. intros E3. apply Hx. by rewrite E3.
Qed.

Lemma remove_ok n l1 x l2 : queue n (l1 ++ x :: l2) ->
  exists n', remove_netbuf n x = Some n' /\ queue n' (l1 ++ l2) /\ same_net n n'.
Proof.
  intros Hq. destruct (queue_live n _ x Hq ltac:(set_solver)) as [c Ec]. pose proof Hq as [Hnd H0 Hh Hc].
  assert (Hnd' : NoDup (l1 ++ l2)) by (eapply sublist_NoDup; [exact Hnd|]; apply sublist_app; [done|by apply sublist_cons]).
  assert (H0' : 0 ∉ l1 ++ l2) by set_solver. unfold remove_netbuf. destruct l1 as [|h l1].
  - simpl in Hh. rewrite Hh, Z.eqb_refl, Ec. cbn [mbind option_bind]. destruct l2 as [|s r].
    + simpl in Hc. unfold nxt in Hc. rewrite Ec in Hc. destruct Hc as [[= ->] _]. rewrite Z.eqb_refl. eexists. split; [done|].
      split; [by constructor|by constructor].
    + destruct (unlink_netbuf_ok n [] x (s :: r) Hq ltac:(done)) as (n' & E & Hc' & Hs & Hr & Hn). rewrite E.
      assert (Hxs : nb_next c = s). { destruct Hc as [Hc _]. unfold nxt in Hc. rewrite Ec in Hc. by injection Hc. }
      simpl in Hnd. apply NoDup_cons in Hnd as [Hx _]. rewrite Hxs, (proj2 (Z.eqb_neq s x)) by (intros ->; set_solver).
      cbn [mbind option_bind]. unfold nxt in Hn. rewrite Ec in Hn. destruct (bufs n' !! x) as [c'|]; [|done]. injection Hn as Hn. cbn [mbind option_bind].
      eexists. split; [done|]. split; [constructor; [done|done|by rewrite <- Hxs|done]|]. destruct Hs. by constructor.
  - simpl in Hh. assert (Hne : h <> x) by (intros ->; simpl in Hnd; apply NoDup_cons in Hnd as [Hx _]; set_solver).
    rewrite Hh, (proj2 (Z.eqb_neq h x)) by done.
    destruct (unlink_netbuf_ok n (h :: l1) x l2 Hq ltac:(destruct l2; done)) as (n' & E & Hc' & Hs & Hr & Hn).
    exists n'. split; [done|]. split; [|done]. constructor; [done|done|by rewrite Hr, Hh|done].
Qed.

(** A turn of the wait takes the oldest matching frame out of the queue. *)
Lemma wait_scan_ok n l port : queue n l ->
  match List.find (hit n port) l with
  | Some x => exists n' l1 l2, wait_scan n port = Some (n', x) /\ l = l1 ++ x :: l2 /\ Forall (fun y => hit n port y = false) l1 /\ queue n' (l1 ++ l2) /\ same_net n n'
  | None => wait_scan n port = Some (n, 0)
  end.
Proof.
  intros Hq. unfold wait_scan. pose proof Hq as [Hnd H0 Hh Hc]. destruct l as [|h t]; [by rewrite Hh|]. simpl hd_error in Hh. simpl default in Hh.
  rewrite Hh, (proj2 (Z.eqb_neq h 0)) by set_solver. cbn [negb].
  rewrite (scan_find n port t h []) by (done || (pose proof (queue_size n _ Hq); simpl in *; lia)). cbn [mbind option_bind].
  destruct (List.find (hit n port) (h :: t)) as [x|] eqn:E; [|done].
  apply find_split in E as (l1 & l2 & E & Hx & Hl1). rewrite E in Hq.
  destruct (remove_ok n l1 x l2 Hq) as (n' & -> & Hq' & Hs). cbn [mbind option_bind]. by exists n', l1, l2.
Qed.

Lemma same_net_refl n : same_net n n.
Proof. by constructor. Qed.

Lemma same_net_trans n1 n2 n3 : same_net n1 n2 -> same_net n2 n3 -> same_net n1 n3.
Proof. intros [] []. constructor; try congruence. Qed.

Lemma hit_same n n' port p : same_net n n' -> hit n' port p = hit n port p.
Proof. intros [E1 _ _ _ E2]. unfold hit, frame_of. by rewrite E1, E2. Qed.

(** A datagram arrives in a buffer, or a client waits until a deadline that has
    passed when the processor is about to halt. *)
Inductive rx_op := Arrive (iface q : Z) | Wait (port start timeout_s : Z).

Definition rx_step n (op : rx_op) : option (net D * list Z) :=
  match op with
  | Arrive iface q => n ← net_receive_driver_frame n iface q; Some (n, [])
  | Wait port start timeout_s =>
      '(n, r) ← net_wait_udp4 n port start timeout_s [(u32 (start + timeout_s) + 1, fun n => n)]; Some (n, [r])
  end.

Fixpoint rx_run n (ops : list rx_op) : option (net D * list Z) :=
  match ops with
  | [] => Some (n, [])
  | op :: ops => '(n, o) ← rx_step n op; '(n, outs) ← rx_run n ops; Some (n, o ++ outs)
  end.

(** The abstract queue: a list of distinct buffers.  A datagram arrives in a
    buffer that is not queued; a wait takes the oldest match, or 0. *)
Definition spec_step (live : Z -> bool) (hits : Z -> Z -> bool) l (op : rx_op) : option (list Z * list Z) :=
  match op with
  | Arrive _ q => if negb (q =? 0) && bool_decide (q ∉ l) && live q && hits 0 q then Some (l ++ [q], []) else None
  | Wait port _ _ => match List.find (hits port) l with Some x => Some (filter (fun y => y <> x) l, [x]) | None => Some (l, [0]) end
  end.

Fixpoint spec_run (live : Z -> bool) (hits : Z -> Z -> bool) l (ops : list rx_op) : option (list Z * list Z) :=
  match ops with
  | [] => Some (l, [])
  | op :: ops => '(l, o) ← spec_step live hits l op; '(l, outs) ← spec_run live hits l ops; Some (l, o ++ outs)
  end.

Definition live_in n (p : Z) : bool := bool_decide (is_Some (bufs n !! p)).

Lemma live_same n n' p : same_net n n' -> live_in n' p = live_in n p.
Proof.
  intros [_ _ _ _ E]. specialize (E p). unfold live_in. destruct (bufs n !! p), (bufs n' !! p); try done; by rewrite !bool_decide_true by eauto.
Qed.

Lemma filter_absent x l : x ∉ l -> filter (fun y => y <> x) l = l.
Proof.
  induction l as [|y l IH]; [done|]. intros Hx. rewrite filter_cons_True by set_solver. f_equal. apply IH. set_solver.
Qed.

Lemma filter_out l1 x l2 : NoDup (l1 ++ x :: l2) -> filter (fun y => y <> x) (l1 ++ x :: l2) = l1 ++ l2.
Proof.
  intros Hnd. apply NoDup_app in Hnd as (_ & Hd & Hnd). apply NoDup_cons in Hnd as [Hx _].
  rewrite filter_app, filter_cons_False by (intros H; by apply H). f_equal.
  - apply filter_absent. intros Hx1. apply (Hd x Hx1). left.
  - by apply filter_absent.
Qed.

Lemma arrive_udp n iface q : hit n 0 q = true -> is_Some (bufs n !! q) -> net_receive_driver_frame n iface q = enqueue_netbuf n q.
Proof.
  intros Hh [b Hb]. unfold hit, frame_of in Hh. rewrite Hb in Hh. simpl in Hh. unfold net_receive_driver_frame. rewrite Hb. cbn [mbind option_bind].
  unfold udp_for in Hh. destruct (ntohs (ld16 (mem n) (nb_buf b + 12)) =? ETHERTYPE_IPV4); [|done].
  destruct (ldb (mem n) (nb_buf b + SZ_ETH + 9) =? IPV4TYPE_UDP); done.
Qed.

Lemma rx_step_refines n l op l' o : queue n l -> spec_step (live_in n) (hit n) l op = Some (l', o) ->
  exists n', rx_step n op = Some (n', o) /\ queue n' l' /\ same_net n n'.
Proof.
  intros Hq. destruct op as [iface q|port start timeout_s]; simpl.
  - destruct (Z.eqb_spec q 0) as [|Hq0]; [done|]. simpl. case_bool_decide as Hql; [|done]. simpl.
    destruct (live_in n q) eqn:Hl; [|done]. simpl. destruct (hit n 0 q) eqn:Hh; [|done]. intros [= <- <-].
    unfold live_in in Hl. apply bool_decide_eq_true in Hl. rewrite arrive_udp by done.
    destruct (enqueue_ok n l q Hq Hq0 Hql Hl) as (n' & -> & Hq' & Hs). by exists n'.
  - pose proof (wait_scan_ok n l port Hq) as Hw. unfold net_wait_udp4. cbn [wait_loop].
    destruct (List.find (hit n port) l) as [x|] eqn:Ef; intros [= <- <-].
    + destruct Hw as (n' & l1 & l2 & -> & -> & _ & Hq' & Hs). cbn [mbind option_bind].
      assert (x <> 0) by (intros ->; by apply (q_null _ _ Hq); set_solver). rewrite (proj2 (Z.eqb_neq x 0)) by done. cbn [negb mbind option_bind].
      exists n'. rewrite filter_out by apply Hq. done.
    + rewrite Hw. cbn [mbind option_bind]. rewrite Z.eqb_refl, (proj2 (Z.ltb_lt _ (_ + 1))) by lia. cbn [negb mbind option_bind].
      exists n. split; [done|]. split; [done|apply same_net_refl].
Qed.

(** C7: the circular list of received frames is a first-in-first-out queue.
    For every history of datagrams that arrive in buffers of their own and of
    clients that wait for a port, the stack hands out exactly the frames that
    the abstract queue hands out, the oldest for the port at each wait and NULL
    when there is none; the links form a ring over the frames left; and nothing
    else of the stack changes. *)
Theorem rxq_refines_fifo n l ops l' outs :
  queue n l -> spec_run (live_in n) (hit n) l ops = Some (l', outs) ->
  exists n', rx_run n ops = Some (n', outs) /\ queue n' l' /\ same_net n n'.
Proof.
  revert n l outs. induction ops as [|op ops IH]; intros n l outs Hq; simpl.
  - intros [= -> <-]. exists n. split; [done|]. split; [done|apply same_net_refl].
  - destruct (spec_step (live_in n) (hit n) l op) as [[l1 o]|] eqn:E1; [|done]. cbn [mbind option_bind].
    destruct (rx_step_refines n l op l1 o Hq E1) as (n1 & -> & Hq1 & Hs1). cbn [mbind option_bind].
    destruct (spec_run (live_in n) (hit n) l1 ops) as [[l2 outs2]|] eqn:E2; [|done]. intros [= -> <-].
    destruct (IH n1 l1 outs2 Hq1) as (n2 & -> & Hq2 & Hs2).
    { rewrite <- E2. clear -Hs1. revert l1. induction ops as [|op ops IH]; intros l1; [done|]. simpl.
      replace (spec_step (live_in n1) (hit n1) l1 op) with (spec_step (live_in n) (hit n) l1 op);
        [destruct (spec_step _ _ _ _) as [[]|]; [|done]; simpl; by rewrite IH|].
      destruct op as [i q|port a b]; simpl; [by rewrite (live_same n n1), (hit_same n n1)|].
      replace (List.find (hit n1 port) l1) with (List.find (hit n port) l1); [done|].
      clear IH. induction l1 as [|x l1 IH]; [done|]. simpl. by rewrite (hit_same n n1), IH. }
    exists n2. split; [done|]. split; [done|]. by eapply same_net_trans.
Qed.

End Queue.
(** ** Bytes of frames *)

(** Evaluates a byte of a memory that was written at known offsets. *)
Ltac peek := repeat first
  [ rewrite ldb_st16_ne by lia | rewrite ldb_st32_ne by lia
  | rewrite ldb_stb, (proj2 (Z.eqb_neq _ _)) by lia | rewrite ldb_stb, (proj2 (Z.eqb_eq _ _)) by lia ].

Lemma ldb_put_bytes m a l b : ldb (put_bytes m a l) b = if (a <=? b) && (b <? a + Z.of_nat (length l)) then default 0 (l !! Z.to_nat (b - a)) else ldb m b.
Proof.
  revert m a. induction l as [|x l IH]; intros m a; simpl put_bytes; simpl length; [repeat (case_if; try lia); done|].
  rewrite IH, ldb_stb. destruct (Z.eqb_spec a b) as [->|Hne].
  - rewrite Z.sub_diag. repeat (case_if; try lia). done.
  - repeat (case_if; try lia); try done. replace (Z.to_nat (b - a)) with (S (Z.to_nat (b - (a + 1)))) by lia. done.
Qed.

Lemma put_bytes_out m a l b : b < a \/ a + Z.of_nat (length l) <= b -> ldb (put_bytes m a l) b = ldb m b.
Proof. intros Hb. rewrite ldb_put_bytes. case_if; (lia || done). Qed.

Lemma put_get_bytes m a l : get_bytes (put_bytes m a l) a (length l) = l.
Proof.
  apply list_eq. intros k. unfold get_bytes. rewrite list_lookup_fmap. destruct (decide (k < length l)%nat) as [Hk|Hk].
  - rewrite lookup_seq_lt by done. simpl. rewrite ldb_put_bytes. case_if; try lia.
    replace (Z.to_nat (a + Z.of_nat k - a)) with k by lia. destruct (lookup_lt_is_Some_2 l k Hk) as [x ->]. done.
  - rewrite (proj2 (lookup_ge_None _ _)) by (rewrite length_seq; lia). simpl. symmetry. apply lookup_ge_None. lia.
Qed.

Lemma get_bytes_ext m m' a n : (forall b, a <= b < a + Z.of_nat n -> ldb m' b = ldb m b) -> get_bytes m' a n = get_bytes m a n.
Proof. intros He. apply list_fmap_ext. intros k x [-> Hk]%lookup_seq. apply He. lia. Qed.

Lemma bytes_ok_st32 m a v : bytes_ok m -> bytes_ok (st32 m a v).
Proof. intros Hm. unfold st32. repeat (apply bytes_ok_stb; [|apply u8_range]). done. Qed.

Lemma ld32_ext m m' a : (forall b, a <= b < a + 4 -> ldb m' b = ldb m b) -> ld32 m' a = ld32 m a.
Proof. intros He. unfold ld32. by rewrite !He by lia. Qed.

Lemma ld32_written m m' a v : in_u32 v -> (forall b, a <= b < a + 4 -> ldb m' b = ldb (st32 m a v) b) -> ld32 m' a = v.
Proof. intros Hv He. rewrite (ld32_ext _ _ _ He). by apply ld32_st32_eq. Qed.

(** The headers of an ICMP message for [frame]; no other byte is written. *)
Lemma icmp4_init_ok m frame src dst type code seq :
  bytes_ok m -> in_u32 src -> in_u32 dst -> in_u32 seq -> in_u8 type -> in_u8 code ->
  exists m', net_buf_icmp4_init m frame src dst type code seq = (m', frame + 42) /\ bytes_ok m' /\
    (forall a, a < frame + 12 \/ frame + 42 <= a -> ldb m' a = ldb m a) /\
    ld16 m' (frame + 12) = htons ETHERTYPE_IPV4 /\ ldb m' (frame + 14) = 69 /\ ldb m' (frame + 23) = IPV4TYPE_ICMP /\
    ld32 m' (frame + 26) = src /\ ld32 m' (frame + 30) = dst /\ ldb m' (frame + 34) = type /\ ldb m' (frame + 35) = code /\
    ld32 m' (frame + 38) = seq.
Proof.
  intros Hm Hs Hd Hq Ht Hc. unfold net_buf_icmp4_init, net_buf_ipv4_init, SZ_ETH.
  assert (Hn : forall x v, nwords (stb (st32 (st32 (stb (st16 (st16 (stb (stb x (frame + 14) (4 * 16 + 5)) (frame + 14 + 1) 0)
     (frame + 14 + 4) 0) (frame + 14 + 6) 0) (frame + 14 + 8) 32) (frame + 14 + 12) src) (frame + 14 + 16) dst) (frame + 14 + 9) v) (frame + 14) = 5).
  { intros x v. unfold nwords. peek. done. }
  rewrite Hn. clear Hn. unfold SZ_ICMP, IPV4TYPE_ICMP. eexists. split; [f_equal; lia|].
  split; [repeat (first [apply bytes_ok_st16|apply bytes_ok_st32|apply bytes_ok_stb]); try done; try apply u8_range|].
  split; [intros a Ha; by peek|]. split; [|split; [by peek|split; [by peek|]]].
  { unfold ld16. peek. unfold st16. peek. by vm_compute. }
  split_and!.
  - apply (ld32_written m); [done|]. intros b Hb. peek. unfold st32. rewrite !ldb_stb. repeat (case_if; try lia); done.
  - apply (ld32_written m); [done|]. intros b Hb. peek. unfold st32. rewrite !ldb_stb. repeat (case_if; try lia); done.
  - peek. by apply u8_small.
  - peek. by apply u8_small.
  - apply (ld32_written m); [done|]. intros b Hb. peek. unfold st32. rewrite !ldb_stb. repeat (case_if; try lia); done.
Qed.
(** ** Transmitting and answering *)

Section Answer.
Context {D : Type} `{!NetDrv D}.
Implicit Types (n : net D).

(** The driver after a frame of [len] bytes was handed to it. *)
Definition handed (d : D) (p : Z) (m : bmem) (frame len : Z) : D :=
  let '(d, ret) := transmit_frame_enqueue d p m frame len in
  if negb (ret =? 0) then d else (do_transmit d p m).1.

(** Hardware addresses have six bytes. *)
Record iface_ok n (p : Z) (i : netiface) : Prop := {
  if_there : ifaces n !! p = Some i;
  if_null : p <> 0;
  if_mac : length (get_mac p) = 6%nat;
  if_nbs : Forall (fun a => length (nb_eth a) = 6%nat) (neighbors i) }.

Lemma lookup_loop_len l addr : Forall (fun a => length (nb_eth a) = 6%nat) l -> length (lookup_loop l addr) = 6%nat.
Proof. induction 1 as [|x l Hx Hl IH]; [done|]. simpl. by case_if. Qed.

Lemma resolve_on n p i addr : iface_ok n p i ->
  exists mac, net_neighbor_resolve n p addr = Some mac /\ length mac = 6%nat.
Proof.
  intros [Hi Hp _ Hn]. unfold net_neighbor_resolve, net_neighbor_lookup_on. case_if; [by eexists|].
  rewrite (proj2 (Z.eqb_neq p 0)), Hi by done. cbn [negb mbind option_bind]. eexists. split; [done|]. by apply lookup_loop_len.
Qed.

(** An IPv4 frame goes out with its hardware addresses, padded to 60 bytes. *)
Lemma transmit_ok n p i r len : iface_ok n p i -> ld16 (mem n) (r + 12) = htons ETHERTYPE_IPV4 -> 34 <= len < 65536 ->
  exists n' ret, net_transmit_frame n p r len = Some (n', ret) /\ drv n' = handed (drv n) p (mem n') r (Z.max 60 len) /\
    (forall a, r + 12 <= a < r + len -> ldb (mem n') a = ldb (mem n) a) /\ get_bytes (mem n') (r + 6) 6 = get_mac p /\
    (forall dm, net_neighbor_resolve n p (ld32 (mem n) (r + 30)) = Some dm -> get_bytes (mem n') r 6 = if decide (dm = ETH_INVALID_MAC) then get_bytes (mem n) r 6 else dm).
Proof.
  intros Hi He Hlen. pose proof (if_mac _ _ _ Hi) as Hm6. unfold net_transmit_frame. cbv zeta. rewrite u16_small by (unfold in_u16; lia).
  set (m1 := put_bytes (mem n) (r + 6) (get_mac p)). set (n1 := set_mem n m1).
  assert (H1 : forall a, r + 12 <= a -> ldb m1 a = ldb (mem n) a) by (intros a Ha; apply put_bytes_out; lia).
  destruct (resolve_on n p i (ld32 (mem n) (r + 30)) Hi) as (dm & Hr & Hdm).
  assert (Hf : exists m2, fill_dst n1 p r = Some (set_mem n m2) /\ (forall a, r + 6 <= a -> ldb m2 a = ldb m1 a) /\ get_bytes m2 r 6 = if decide (dm = ETH_INVALID_MAC) then get_bytes (mem n) r 6 else dm).
  { unfold fill_dst. cbv zeta. change (mem n1) with m1. unfold SZ_ETH. replace (r + 14 + 16) with (r + 30) by lia.
    rewrite (ld32_ext (mem n) m1) by (intros; apply H1; lia).
    replace (ntohs (ld16 m1 (r + 12))) with ETHERTYPE_IPV4 by (unfold ld16 in *; rewrite !H1 by lia; rewrite He; by vm_compute).
    cbn [Z.eqb ETHERTYPE_IPV4]. replace (net_neighbor_resolve n1 p (ld32 (mem n) (r + 30))) with (Some dm)
      by (rewrite <- Hr; unfold net_neighbor_resolve; by rewrite (proj2 (Z.eqb_neq p 0) (if_null _ _ _ Hi))).
    cbn [mbind option_bind]. unfold mac_equal. case_bool_decide as Hz; cbn [negb].
    - exists m1. split; [done|]. split; [done|]. rewrite decide_True by done. apply get_bytes_ext. intros b Hb. apply put_bytes_out. lia.
    - eexists. split; [done|]. split; [intros a Ha; apply put_bytes_out; lia|]. rewrite decide_False by done. rewrite <- Hdm. apply put_get_bytes. }
  destruct Hf as (m2 & -> & H2 & H2d). cbn [mbind option_bind].
  set (m3 := if len <? 60 then bfill m2 (r + len) (Z.to_nat (60 - len)) 0 else m2).
  assert (H3 : forall a, a < r + len -> ldb m3 a = ldb m2 a) by (intros a Ha; unfold m3; case_if; [|done]; apply ldb_bfill_out; lia).
  set (r3 := if len <? 60 then (set_mem (set_mem n m2) (bfill (mem (set_mem n m2)) (r + len) (Z.to_nat (60 - len)) 0), 60) else (set_mem n m2, len)).
  assert (E3 : r3 = (set_mem n m3, Z.max 60 len)) by (unfold r3, m3; case_if; (f_equal; lia)). rewrite E3. clear r3 E3.
  assert (Hres : (forall a, r + 12 <= a < r + len -> ldb m3 a = ldb (mem n) a) /\ get_bytes m3 (r + 6) 6 = get_mac p /\
    (forall dm', net_neighbor_resolve n p (ld32 (mem n) (r + 30)) = Some dm' -> get_bytes m3 r 6 = if decide (dm' = ETH_INVALID_MAC) then get_bytes (mem n) r 6 else dm')).
  { split; [intros a Ha; by rewrite H3, H2, H1 by lia|]. split.
    - rewrite (get_bytes_ext m1) by (intros b Hb; by rewrite H3, H2 by lia). rewrite <- Hm6. apply put_get_bytes.
    - intros dm'. rewrite Hr. intros [= <-]. rewrite (get_bytes_ext m2); [done|]. intros b Hb. apply H3. lia. }
  simpl drv. simpl mem. unfold handed. destruct (transmit_frame_enqueue (drv n) p m3 r (Z.max 60 len)) as [d1 ret1] eqn:E1.
  destruct (negb (ret1 =? 0)) eqn:Eret.
  - eexists _, _. split; [done|]. simpl. rewrite E1, Eret. done.
  - destruct (do_transmit d1 p m3) as [d2 ret2] eqn:E2. simpl. eexists _, _. split; [done|]. simpl. rewrite E1, Eret. by rewrite E2.
Qed.

(** An echo request with [dl] bytes of payload at [frame], and a frame at [r]
    from the driver for the answer. *)
Record echo_request n (frame dl r : Z) (d : D) (p : Z) : Prop := {
  er_bytes : bytes_ok (mem n);
  er_words : nwords (mem n) (frame + 14) = 5;
  er_len : be16 (mem n) (frame + 16) = 28 + dl;
  er_dl : 0 <= dl <= 1472;
  er_type : ldb (mem n) (frame + 34) = ICMP_ECHO_REQUEST;
  er_code : ldb (mem n) (frame + 35) = 0;
  er_alloc : transmit_frame_alloc (drv n) p = (d, r);
  er_reply : r <> 0;
  er_apart : r + 42 + dl <= frame \/ frame + 42 + dl <= r }.

(** The echo reply in the memory [m'] at [r], to the request in [m] at [frame]:
    sums that verify, lengths, addresses, identifier and sequence number, and
    the payload of the request. *)
Record echo_reply (m m' : bmem) (frame r dl src : Z) : Prop := {
  ep_eth : ld16 m' (r + 12) = htons ETHERTYPE_IPV4;
  ep_icmp_sum : verifies m' (r + 34) (8 + dl);
  ep_ip_sum : verifies m' (r + 14) 20;
  ep_len : be16 m' (r + 16) = 28 + dl;
  ep_proto : ldb m' (r + 23) = IPV4TYPE_ICMP;
  ep_src : ld32 m' (r + 26) = src;
  ep_dst : ld32 m' (r + 30) = ld32 m (frame + 26);
  ep_type : ldb m' (r + 34) = ICMP_ECHO_REPLY;
  ep_seq : ld32 m' (r + 38) = ld32 m (frame + 38);
  ep_data : forall k, 0 <= k < dl -> ldb m' (r + 42 + k) = ldb m (frame + 42 + k) }.

Lemma echo_reply_ext m m1 m2 frame r dl src : 0 <= dl -> (forall a, r + 12 <= a < r + (42 + dl) -> ldb m2 a = ldb m1 a) ->
  echo_reply m m1 frame r dl src -> echo_reply m m2 frame r dl src.
Proof.
  intros Hd He []. constructor.
  1: unfold ld16 in *. 4: unfold be16 in *. 2,3: (eapply (verifies_ext m1); [lia|intros; apply He; lia|done]).
  4,5,7: rewrite (ld32_ext m1) by (intros; apply He; lia). 8: intros k Hk.
  all: rewrite ?He by lia; auto.
Qed.

(** What [net_icmp_receive] puts together before it transmits. *)
Lemma echo_built m frame r dl src :
  bytes_ok m -> nwords m (frame + 14) = 5 -> be16 m (frame + 16) = 28 + dl -> 0 <= dl <= 1472 -> in_u32 src ->
  r + 42 + dl <= frame \/ frame + 42 + dl <= r ->
  exists m1 m3, net_buf_icmp4_init m r src (ld32 m (frame + 26)) ICMP_ECHO_REPLY 0 (ld32 m (frame + 38)) = (m1, r + 42) /\
    u16 (ntohs (ld16 m1 (frame + 16)) - (4 * nwords m1 (frame + 14) + 8)) = dl /\
    net_buf_icmp4_checksum (bcopy m1 (r + 42) (frame + 42) (Z.to_nat dl)) (r + 42) dl = (m3, 42 + dl) /\ echo_reply m m3 frame r dl src /\
    (forall a, r <= a < r + 12 -> ldb m3 a = ldb m a).
Proof.
  intros Hm Hw Hl Hdl Hs Hap.
  assert (H32 : forall a, in_u32 (ld32 m a)).
  { intros a. pose proof (Hm a). pose proof (Hm (a + 1)). pose proof (Hm (a + 2)). pose proof (Hm (a + 3)). unfold in_u8, in_u32, ld32 in *. lia. }
  destruct (icmp4_init_ok m r src (ld32 m (frame + 26)) ICMP_ECHO_REPLY 0 (ld32 m (frame + 38)))
    as (m1 & -> & Hm1 & O1 & I1 & I2 & I3 & I4 & I5 & I6 & I7 & I8); try done; try (unfold in_u8, ICMP_ECHO_REPLY; lia).
  set (m2 := bcopy m1 (r + 42) (frame + 42) (Z.to_nat dl)).
  assert (H2 : forall a, ldb m2 a = if (r + 42 <=? a) && (a <? r + 42 + dl) then ldb m1 (frame + 42 + (a - (r + 42))) else ldb m1 a).
  { intros a. unfold m2. rewrite ldb_bcopy by lia. by rewrite Z2Nat.id by lia. }
  assert (Hm2 : bytes_ok m2) by (intros a; rewrite H2; case_if; apply Hm1).
  assert (H2o : forall a, a < r + 42 -> ldb m2 a = ldb m1 a) by (intros a Ha2; rewrite H2; repeat (case_if; try lia); done).
  destruct (icmp_checksum_ok m2 (r + 42) dl Hm2 ltac:(lia)) as (C1 & C2 & C3 & C4 & C5).
  destruct (net_buf_icmp4_checksum m2 (r + 42) dl) as [m3 ethlen] eqn:Ek. simpl in C1, C2, C3, C4, C5.
  replace (r + 42 - 28) with (r + 14) in * by lia. replace (r + 42 - 26) with (r + 16) in * by lia. replace (r + 42 - 8) with (r + 34) in * by lia.
  exists m1, m3. split; [done|]. split.
  { rewrite ntohs_ld16 by done. unfold nwords, be16 in *. rewrite !O1 by lia. rewrite Hw, Hl. rewrite u16_small by (unfold in_u16; lia). lia. }
  assert (ethlen = 42 + dl) as -> by (rewrite C5; unfold nwords; rewrite H2o, I2 by lia; change (69 mod 16) with 5; lia). split; [exact Ek|].
  assert (K : forall a, r <= a < r + 16 \/ r + 18 <= a < r + 24 \/ r + 26 <= a < r + 36 \/ r + 38 <= a < r + 42 -> ldb m3 a = ldb m1 a).
  { intros a Ha2. by rewrite C4, H2o by lia. }
  split; [|intros a Ha2; rewrite K by lia; apply O1; lia]. constructor; try done.
  - unfold ld16 in *. by rewrite !K by lia.
  - by rewrite K by lia.
  - rewrite <- I4. apply ld32_ext. intros. apply K. lia.
  - rewrite <- I5. apply ld32_ext. intros. apply K. lia.
  - by rewrite K by lia.
  - rewrite <- I8. apply ld32_ext. intros. apply K. lia.
  - intros k Hk. rewrite C4, H2 by lia. repeat (case_if; try lia). rewrite O1 by lia. f_equal. lia.
Qed.

(** C28: an echo request is answered.  The stack takes a frame from the driver
    and hands it back with an echo reply from its own address to the sender:
    identifier, sequence number and payload are those of the request, the sums
    over the ICMP message and over the IPv4 header are what a receiver demands,
    the lengths are right, the source hardware address is the interface's and
    the frame has at least 60 bytes.  The destination hardware address is the one
    the table of neighbours holds for the sender; when it holds none, the six
    bytes are left as they were in the frame. *)
Theorem echo_answered n p i frame dl r d :
  iface_ok n p i -> in_u32 (ip_addr i) -> echo_request n frame dl r d p ->
  exists n', net_icmp_receive n p frame = Some n' /\ echo_reply (mem n) (mem n') frame r dl (ip_addr i) /\
    get_bytes (mem n') (r + 6) 6 = get_mac p /\
    (exists dm, net_neighbor_resolve n p (ld32 (mem n) (frame + 26)) = Some dm /\
       get_bytes (mem n') r 6 = if decide (dm = ETH_INVALID_MAC) then get_bytes (mem n) r 6 else dm) /\
    drv n' = handed d p (mem n') r (Z.max 60 (42 + dl)).
Proof.
  intros Hi Hip [Hm Hw Hl Hdl Ht Hc Ha Hr0 Hap]. unfold net_icmp_receive, SZ_ETH, SZ_ICMP. cbv zeta. rewrite Hw.
  replace (frame + 14 + 4 * 5) with (frame + 34) by lia. rewrite Ht, Z.eqb_refl. replace (frame + 34 + 1) with (frame + 35) by lia. rewrite Hc. cbn [Z.eqb negb].
  rewrite (if_there _ _ _ Hi), Ha. cbn [mbind option_bind]. rewrite (proj2 (Z.eqb_neq r 0)) by done.
  replace (frame + 34 + 4) with (frame + 38) by lia. replace (frame + 14 + 12) with (frame + 26) by lia. replace (frame + 14 + 2) with (frame + 16) by lia.
  replace (frame + 34 + 8) with (frame + 42) by lia.
  destruct (echo_built (mem n) frame r dl (ip_addr i)) as (m1 & m3 & -> & -> & -> & Hep & Hst); try done.
  destruct (transmit_ok (set_mem (set_drv n d) m3) p i r (42 + dl)) as (n' & ret & E & T1 & T2 & T3 & T4).
  { destruct Hi. by constructor. }
  { apply Hep. }
  { lia. }
  rewrite E. cbn [mbind option_bind]. simpl mem in T2, T4. exists n'. split; [done|].
  split; [by apply (echo_reply_ext _ m3); [lia| |]|]. split; [done|]. split; [|done].
  destruct (resolve_on n p i (ld32 (mem n) (frame + 26)) Hi) as (dm & Hdm & _). exists dm. split; [done|].
  rewrite <- (get_bytes_ext (mem n) m3 r 6) by (intros b Hb; apply Hst; lia). apply T4. rewrite (ep_dst _ _ _ _ _ _ Hep), <- Hdm. unfold net_neighbor_resolve.
  by rewrite (proj2 (Z.eqb_neq p 0) (if_null _ _ _ Hi)).
Qed.

(** An ARP reply is learned.  After a reply came in on an interface its
    table of neighbours resolves the sender's address to the sender's hardware
    address; any other address resolves as before, except the one whose slot
    of the eight was reused; and the table stays without duplicates. *)
Theorem arp_reply_learned n p i arp other :
  let addr := ld32 (mem n) (arp + 14) in let mac := get_bytes (mem n) (arp + 8) 6 in
  ifaces n !! p = Some i -> p <> 0 -> nb_wf i -> ntohs (ld16 (mem n) (arp + 6)) = ARP_OP_REPLY ->
  addr <> 0 -> addr <> IP_BROADCAST -> other <> 0 -> other <> addr ->
  exists n' i', net_arp_receive n p arp = Some n' /\ ifaces n' = <[p := i']> (ifaces n) /\ nb_wf i' /\
    net_neighbor_resolve n' p addr = Some mac /\
    (net_neighbor_resolve n' p other = net_neighbor_resolve n p other \/
     exists a, neighbors i !! Z.to_nat (neighbors_head i) = Some a /\ nb_ip a = other /\
               net_neighbor_resolve n' p other = Some ETH_INVALID_MAC /\ neighbors_head i' = (neighbors_head i + 1) mod 8).
Proof.
  intros addr mac Hi Hp Hwf Hop Ha0 Hab Ho0 Hoa.
  destruct (remember_lookup i addr mac other Hwf Ha0 Hab Ho0 Hoa) as (Hwf' & Hl & Hother).
  exists (set_iface n p (remember_on i addr mac)), (remember_on i addr mac).
  split. { unfold net_arp_receive, net_neighbor_remember. cbv zeta. rewrite (proj2 (Z.eqb_neq p 0)) by done. cbn [mbind option_bind].
    rewrite (proj2 (Z.eqb_neq p 0)) by done. rewrite Hop, Z.eqb_refl, Hi. done. }
  split; [done|]. split; [done|]. unfold net_neighbor_resolve, net_neighbor_lookup_on. rewrite (proj2 (Z.eqb_neq p 0)) by done. cbn [negb].
  simpl ifaces. rewrite lookup_insert_eq, Hi. cbn [mbind option_bind]. rewrite (proj2 (Z.eqb_neq addr IP_BROADCAST)) by done.
  split; [by rewrite Hl|]. destruct (other =? IP_BROADCAST); [by left|].
  destruct Hother as [E|(a & E1 & E2 & E3 & E4)]; [left; by rewrite E|]. right. exists a. by rewrite E3.
Qed.

End Answer.
(** ** Concrete runs *)

(** A driver that records the frames it is handed. *)
#[local] Instance demo_drv : NetDrv (list (Z * Z)) := {
  get_mac := fun _ => [2; 0; 0; 0; 0; 1];
  transmit_frame_alloc := fun d _ => (d, 4096);
  transmit_frame_enqueue := fun d _ _ frame len => ((frame, len) :: d, 0);
  do_transmit := fun d _ _ => (d, 0);
  recycle := fun d _ => d }.

(** The start of a UDP frame for [port], an echo request, an ARP reply. *)
Definition udp_frame (port : Z) : list Z :=
  replicate 12 0 ++ [8; 0; 69; 0; 0; 28; 0; 0; 0; 0; 32; 17] ++ replicate 10 0 ++ [0; 53; port / 256; port mod 256].
Definition echo_frame : list Z :=
  replicate 12 0 ++ [8; 0; 69; 0; 0; 31; 0; 0; 0; 0; 32; 1; 0; 0; 10; 0; 0; 1; 10; 0; 0; 2; 8; 0; 0; 0; 1; 2; 3; 4; 97; 98; 99].
Definition arp_reply : list Z := [0; 1; 8; 0; 6; 4; 0; 2; 2; 0; 0; 0; 0; 9; 10; 0; 0; 9; 2; 0; 0; 0; 0; 1; 10; 0; 0; 2].

Definition demo_mem : bmem := put_bytes (put_bytes (put_bytes (put_bytes ∅ 1000 (udp_frame 53)) 2000 (udp_frame 68)) 3000 echo_frame) 3500 arp_reply.
Definition demo_net : net (list (Z * Z)) :=
  mk_net demo_mem [] {[ 8 := demo_iface ]} [8] 0 (<[100 := mk_netbuf 0 0 1000 60]> {[ 200 := mk_netbuf 0 0 2000 60 ]}).

Lemma demo_mem_ok : bytes_ok demo_mem.
Proof.
  intros a. assert (H : map_Forall (fun _ v => in_u8 v) demo_mem) by (apply (bool_decide_unpack _); by vm_compute).
  unfold ldb. destruct (demo_mem !! a) as [v|] eqn:E; [by apply (H a v)|]. unfold in_u8. simpl. lia.
Qed.

Lemma rxq_refines_fifo_witness :
  exists n', rx_run demo_net [Arrive 8 100; Arrive 8 200; Wait 68 0 5; Wait 68 0 5; Wait 0 7 1] = Some (n', [200; 0; 100]) /\
    queue n' [] /\ same_net demo_net n'.
Proof.
  apply (rxq_refines_fifo demo_net [] [Arrive 8 100; Arrive 8 200; Wait 68 0 5; Wait 68 0 5; Wait 0 7 1] [] [200; 0; 100]).
  - constructor; [constructor|set_solver|reflexivity|exact I].
  - vm_compute. reflexivity.
Defined.

Lemma echo_answered_witness :
  exists n', net_icmp_receive demo_net 8 3000 = Some n' /\ echo_reply demo_mem (mem n') 3000 4096 3 (ip_addr demo_iface) /\
    get_bytes (mem n') (4096 + 6) 6 = get_mac 8 /\
    (exists dm, net_neighbor_resolve demo_net 8 (ld32 demo_mem (3000 + 26)) = Some dm /\
       get_bytes (mem n') 4096 6 = if decide (dm = ETH_INVALID_MAC) then get_bytes demo_mem 4096 6 else dm) /\
    drv n' = handed [] 8 (mem n') 4096 (Z.max 60 (42 + 3)).
Proof.
  apply (echo_answered demo_net 8 demo_iface 3000 3 4096 []).
  - constructor; [reflexivity|lia|reflexivity|repeat constructor].
  - unfold in_u32. simpl. lia.
  - constructor; [exact demo_mem_ok|vm_compute; reflexivity|vm_compute; reflexivity|lia|vm_compute; reflexivity|vm_compute; reflexivity|reflexivity|lia|lia].
Defined.

(** ** Defects the model shows *)

(** A wait without a timeout does not return at once when nothing is queued: the
    clock has not passed the deadline, so the processor is halted. *)
Lemma poll_blocks now : 0 <= now < 2 ^ 32 -> net_wait_udp4 demo_net 68 now 0 [(now, fun n => n)] = None.
Proof.
  intros Hn. unfold net_wait_udp4. cbn [wait_loop]. change (wait_scan demo_net 68) with (Some (demo_net, 0)). cbn [mbind option_bind].
  rewrite u32_small by (unfold in_u32; lia). by rewrite Z.eqb_refl, (proj2 (Z.ltb_ge (now + 0) now)) by lia.
Qed.

End NSP.
