(* ===== verification/Dhcp.v ===== *)
(** * The clients of the network stack (src/core/net.c)

    Module [DH]: asking for an address by DHCP, reading the options of the
    answer, and sending an echo request.

    The two waits for an answer are those of [NS.net_wait_udp4]: the time each
    begins and what happens while the processor is halted are parameters.
    Logging is left out.  [None] is an access to no object, or a wait or a list
    of options that does not end within what was given. *)

From S2P Require Import Prelude Net NetStack.
Import NT NS.

Module DH.

Definition DHCP_MAGIC_COOKIE : Z := 1669485411.
Definition DHCP_SERVER_PORT : Z := 67.
Definition DHCP_CLIENT_PORT : Z := 68.
Definition DHCPOPT_REQADDR : Z := 50.
Definition DHCPOPT_LEASETIME : Z := 51.
Definition DHCPOPT_OP : Z := 53.
Definition DHCPOPT_SRVADDR : Z := 54.
Definition DHCPOPT_REQUEST : Z := 55.
Definition DHCPOPT_END : Z := 255.
Definition DHCPOPT_OP_DISCOVERY : Z := 1.
Definition DHCPOPT_OP_REQUEST : Z := 3.
Definition DHCPOPT_SUBNET : Z := 1.
Definition DHCPOPT_GW : Z := 3.
Definition DHCPOPT_DNS : Z := 6.
Definition DHCPOPT_DOMAIN : Z := 15.

(** The offsets of the fields of [struct dhcp4], and of the options behind the
    padding and the cookie. *)
Definition dhcp_xid : Z := 4.
Definition dhcp_yiaddr : Z := 16.
Definition dhcp_siaddr : Z := 20.
Definition dhcp_chaddr : Z := 28.
Definition DHCP_OPT_OFFSET : Z := 240.

Definition xid : Z := 956560166.
Definition timeout_s : Z := 5.
Definition ETH_ALEN : nat := 6.

(** [IP4] and the octets of an address. *)
Definition IP4 (a b c d : Z) : Z := a + 256 * b + 65536 * c + 16777216 * d.
Definition oct (ip k : Z) : Z := u8 (Z.shiftr ip (8 * k)).
Definition octs (ip : Z) : list Z := [oct ip 0; oct ip 1; oct ip 2; oct ip 3].

(** ** Options *)

(** One option; only the subnet and the router are kept. *)
Definition read_opt (iface : netiface) (m : bmem) (opts : Z) : netiface :=
  let o k := ldb m (opts + k) in
  if o 0 =? DHCPOPT_SUBNET then set_ip_subnet iface (IP4 (o 2) (o 3) (o 4) (o 5))
  else if o 0 =? DHCPOPT_GW then set_ip_gw iface (IP4 (o 2) (o 3) (o 4) (o 5))
  else iface.

Fixpoint test_read_dhcpopts (fuel : nat) (iface : netiface) (m : bmem) (opts : Z) : option netiface :=
  if ldb m opts =? DHCPOPT_END then Some iface
  else match fuel with
  | O => None
  | S fuel => test_read_dhcpopts fuel (read_opt iface m opts) m (opts + (ldb m (opts + 1) + 2))
  end.

Section Clients.
Context {D : Type} `{!NetDrv D}.
Implicit Types (n : net D).

(** ** Messages to the server *)

(** The message in [frame]; the memory and the length of the frame. *)
Definition dhcp_message (m : bmem) (frame : Z) (mac : list Z) (siaddr : option Z) (options : list Z) : bmem * Z :=
  let '(m, data) := net_buf_udp4_init m frame 0 DHCP_CLIENT_PORT IP_BROADCAST DHCP_SERVER_PORT in
  let m := bfill m data (Z.to_nat DHCP_OPT_OFFSET) 0 in
  let m := stb m data 1 in
  let m := stb m (data + 1) 1 in
  let m := stb m (data + 2) (Z.of_nat ETH_ALEN) in
  let m := st32 m (data + dhcp_xid) xid in
  let m := match siaddr with Some a => st32 m (data + dhcp_siaddr) a | None => m end in
  let m := put_bytes m (data + dhcp_chaddr) mac in
  let m := st32 m (data + DHCP_OPT_OFFSET - 4) (htonl DHCP_MAGIC_COOKIE) in
  let m := put_bytes m (data + DHCP_OPT_OFFSET) options in
  net_buf_udp4_checksum m data (DHCP_OPT_OFFSET + Z.of_nat (length options)).

Definition discover_options : list Z :=
  [DHCPOPT_OP; 1; DHCPOPT_OP_DISCOVERY; DHCPOPT_REQUEST; 4; DHCPOPT_SUBNET; DHCPOPT_DNS; DHCPOPT_GW; DHCPOPT_DOMAIN; DHCPOPT_END].

Definition request_options (ipaddr server : Z) : list Z :=
  [DHCPOPT_OP; 1; DHCPOPT_OP_REQUEST; DHCPOPT_REQADDR; 4] ++ octs ipaddr ++ [DHCPOPT_SRVADDR; 4] ++ octs server ++ [DHCPOPT_END].

(** A frame from the driver, filled and transmitted; [inl] when there is none. *)
Definition dhcp_send n (iface : Z) (siaddr : option Z) (options : list Z) : option (net D + net D) :=
  let '(d, frame) := transmit_frame_alloc (drv n) iface in
  let n := set_drv n d in
  if frame =? 0 then Some (inl n)
  else
    let '(m, ethlen) := dhcp_message (mem n) frame (get_mac iface) siaddr options in
    '(n, _) ← net_transmit_frame (set_mem n m) iface frame ethlen;
    Some (inr n).

(** ** Answers *)

(** The address of the DHCP message in a frame. *)
Definition dhcp_of (m : bmem) (frame : Z) : Z :=
  let ip := frame + SZ_ETH in ip + 4 * nwords m ip + SZ_UDP.

(** The offer: the server becomes a neighbour; the address and the server
    offered. *)
Definition dhcp_offer n (iface reply : Z) : option (net D * Z * Z) :=
  q ← bufs n !! reply;
  let buf := nb_buf q in
  let m := mem n in
  let srvmac := get_bytes m (buf + 6) ETH_ALEN in
  let ip := buf + SZ_ETH in
  n ← net_neighbor_remember n iface (ld32 m (ip + 12)) srvmac;
  let dhcp := dhcp_of m buf in
  let ipaddr := ld32 m (dhcp + dhcp_yiaddr) in
  let server := ld32 m (dhcp + dhcp_siaddr) in
  Some (set_drv n (recycle (drv n) reply), ipaddr, server).

(** The acknowledgement: the interface gets its address and the options. *)
Definition dhcp_ack (fuel : nat) n (iface reply : Z) : option (net D) :=
  q ← bufs n !! reply;
  let m := mem n in
  let dhcp := dhcp_of m (nb_buf q) in
  i ← ifaces n !! iface;
  let i := set_ip_addr i (ld32 m (dhcp + dhcp_yiaddr)) in
  i ← test_read_dhcpopts fuel i m (dhcp + DHCP_OPT_OFFSET);
  let n := set_iface n iface i in
  Some (set_drv n (recycle (drv n) reply)).

Abbreviation halts := (list (Z * (net D -> net D))).

Definition test_net_dhcp (fuel : nat) n (start1 : Z) (evs1 : halts) (start2 : Z) (evs2 : halts) : option (net D) :=
  let iface := net_interface_for_destination n in
  if iface =? 0 then Some n
  else
    r ← dhcp_send n iface None discover_options;
    match r with
    | inl n => Some n
    | inr n =>
        '(n, reply) ← net_wait_udp4 n DHCP_CLIENT_PORT start1 timeout_s evs1;
        if reply =? 0 then Some n
        else
          '(n, ipaddr, server) ← dhcp_offer n iface reply;
          r ← dhcp_send n iface (Some server) (request_options ipaddr server);
          match r with
          | inl n => Some n
          | inr n =>
              '(n, reply) ← net_wait_udp4 n DHCP_CLIENT_PORT start2 timeout_s evs2;
              if reply =? 0 then Some n else dhcp_ack fuel n iface reply
          end
    end.

(** ** Echo requests *)

Definition ping_msg : list Z := [72; 101; 108; 108; 111; 32; 102; 114; 111; 109; 32; 67; 79; 83; 69; 67; 33; 0].

Definition test_net_ping n (ip : Z) : option (net D) :=
  let iface := net_interface_for_destination n in
  if iface =? 0 then Some n
  else
    i ← ifaces n !! iface;
    let '(d, frame) := transmit_frame_alloc (drv n) iface in
    let n := set_drv n d in
    if frame =? 0 then Some n
    else
      let '(m, data) := net_buf_icmp4_init (mem n) frame (ip_addr i) ip ICMP_ECHO_REQUEST 0 0 in
      let datalen := Z.of_nat (length ping_msg) in
      let m := put_bytes m data ping_msg in
      let '(m, ethlen) := net_buf_icmp4_checksum m data datalen in
      '(n, _) ← net_transmit_frame (set_mem n m) iface frame ethlen;
      Some n.

End Clients.
End DH.
