(* ===== verification/DhcpProofs.v ===== *)
(** * Asking for an address: correctness

    Module [DHP]: the messages the client puts on the wire, reading an encoded
    list of options, and the whole exchange with a server. *)

From S2P Require Import Prelude Net NetProofs NetStack NetStackProofs Dhcp.
Import NT NTP NS NSP DH.

Module DHP.

(** ** Options *)

(** Options as the server encodes them: tag, length, value. *)
Definition encode_opts (l : list (Z * list Z)) : list Z := flat_map (fun '(t, v) => t :: Z.of_nat (length v) :: v) l ++ [255].

(** Tags are bytes other than 255; the two that are kept hold an address. *)
Definition opt_ok (o : Z * list Z) : Prop :=
  0 <= o.1 < 255 /\ (length o.2 <= 255)%nat /\ (o.1 = DHCPOPT_SUBNET \/ o.1 = DHCPOPT_GW -> (4 <= length o.2)%nat).

(** What the interface keeps of an option. *)
Definition apply_opt (i : netiface) (o : Z * list Z) : netiface :=
  match o.2 with
  | a :: b :: c :: d :: _ =>
      if o.1 =? DHCPOPT_SUBNET then set_ip_subnet i (IP4 a b c d) else if o.1 =? DHCPOPT_GW then set_ip_gw i (IP4 a b c d) else i
  | _ => i
  end.

(** The bytes of [l] are in the memory from [a] on. *)
Definition holds (m : bmem) (a : Z) (l : list Z) : Prop := forall k x, l !! k = Some x -> ldb m (a + Z.of_nat k) = x.

Lemma holds_cons m a x l : holds m a (x :: l) <-> ldb m a = x /\ holds m (a + 1) l.
Proof.
  split.
  - intros H. split; [rewrite <- (H 0%nat x eq_refl); f_equal; lia|]. intros k y Hk. rewrite <- (H (S k) y Hk). f_equal. lia.
  - intros [H0 H] [|k] y Hk; simpl in Hk; [injection Hk as <-; rewrite <- H0; f_equal; lia|]. rewrite <- (H k y Hk). f_equal. lia.
Qed.

Lemma holds_app m a l1 l2 : holds m a (l1 ++ l2) <-> holds m a l1 /\ holds m (a + Z.of_nat (length l1)) l2.
Proof.
  revert a. induction l1 as [|x l1 IH]; intros a; simpl.
  - rewrite Z.add_0_r. split; [intros H; split; [intros k y; by destruct k|done]|by intros [_ H]].
  - rewrite !holds_cons, IH. replace (a + Z.of_nat (S (length l1))) with (a + 1 + Z.of_nat (length l1)) by lia. tauto.
Qed.

Lemma read_opt_apply i m a t v :
  opt_ok (t, v) -> holds m a (t :: Z.of_nat (length v) :: v) -> read_opt i m a = apply_opt i (t, v).
Proof.
  intros (Ht & Hl & H4) Hh. unfold read_opt, apply_opt. simpl in *.
  assert (E0 : ldb m (a + 0) = t) by (rewrite <- (Hh 0%nat t eq_refl); done). rewrite E0.
  destruct v as [|b0 [|b1 [|b2 [|b3 v]]]]; simpl in *.
  1-4: destruct (Z.eqb_spec t DHCPOPT_SUBNET) as [->|]; [specialize (H4 ltac:(by left)); lia|];
       destruct (Z.eqb_spec t DHCPOPT_GW) as [->|]; [specialize (H4 ltac:(by right)); lia|done].
  assert (Ek : ldb m (a + 2) = b0 /\ ldb m (a + 3) = b1 /\ ldb m (a + 4) = b2 /\ ldb m (a + 5) = b3).
  { split_and!; [apply (Hh 2%nat)|apply (Hh 3%nat)|apply (Hh 4%nat)|apply (Hh 5%nat)]; done. }
  destruct Ek as (-> & -> & -> & ->). done.
Qed.

(** Reading what a server encoded takes every option in turn and stops at
    its end; as many turns as there are options are enough. *)
Lemma read_opts_decodes l : forall fuel i m a,
  Forall opt_ok l -> holds m a (encode_opts l) -> (length l <= fuel)%nat -> test_read_dhcpopts fuel i m a = Some (foldl apply_opt i l).
Proof.
  induction l as [|[t v] l IH]; intros fuel i m a Hok Hh Hf.
  - unfold encode_opts in Hh. simpl in Hh. apply holds_cons in Hh as [H0 _]. destruct fuel; cbn [test_read_dhcpopts]; by rewrite H0.
  - apply Forall_cons in Hok as [Ho Hok]. destruct fuel as [|fuel]; [simpl in Hf; lia|].
    assert (E : encode_opts ((t, v) :: l) = (t :: Z.of_nat (length v) :: v) ++ encode_opts l) by (unfold encode_opts; simpl; by rewrite <- app_assoc).
    rewrite E in Hh. apply holds_app in Hh as [H1 H2]. pose proof H1 as [Et [El _]%holds_cons]%holds_cons.
    cbn [test_read_dhcpopts]. rewrite Et. destruct Ho as (Ht & Hl & H4). simpl in Ht.
    destruct (Z.eqb_spec t DHCPOPT_END) as [->|Hne]; [unfold DHCPOPT_END in *; lia|].
    rewrite (read_opt_apply i m a t v) by done. rewrite El. cbn [foldl]. apply IH; [done| |simpl in Hf; lia].
    replace (a + (Z.of_nat (length v) + 2)) with (a + Z.of_nat (length (t :: Z.of_nat (length v) :: v))) by (simpl; lia). exact H2.
Qed.

(** ** Messages *)
(** A message of the client in the frame at [r], ready to be sent: from no
    address to everyone, with a header that verifies, from the client's port to
    the server's. *)
Record client_message (m : bmem) (r : Z) (mac : list Z) (server : Z) (opts : list Z) : Prop := {
  cm_eth : ld16 m (r + 12) = htons ETHERTYPE_IPV4;
  cm_sum : verifies m (r + 14) 20;
  cm_len : be16 m (r + 16) = 268 + Z.of_nat (length opts) /\ be16 m (r + 38) = 248 + Z.of_nat (length opts);
  cm_proto : ldb m (r + 23) = IPV4TYPE_UDP;
  cm_addrs : ld32 m (r + 26) = 0 /\ ld32 m (r + 30) = IP_BROADCAST;
  cm_ports : be16 m (r + 34) = DHCP_CLIENT_PORT /\ be16 m (r + 36) = DHCP_SERVER_PORT;
  cm_head : get_bytes m (r + 42) 4 = [1; 1; 6; 0];
  cm_xid : ld32 m (r + 46) = xid;
  cm_addr : ld32 m (r + 54) = 0 /\ ld32 m (r + 58) = 0 /\ ld32 m (r + 62) = server /\ ld32 m (r + 66) = 0;
  cm_mac : get_bytes m (r + 70) 6 = mac;
  cm_cookie : get_bytes m (r + 278) 4 = [99; 130; 83; 99];
  cm_opts : get_bytes m (r + 282) (length opts) = opts }.

Lemma client_message_ext m m' r mac server opts :
  (forall a, r + 12 <= a < r + 282 + Z.of_nat (length opts) -> ldb m' a = ldb m a) ->
  client_message m r mac server opts -> client_message m' r mac server opts.
Proof.
  intros He [Ee Es El Ep Ea Eo Eh Ex Er Em Ec Eq].
  assert (H32 : forall a, r + 12 <= a < r + 279 -> ld32 m' a = ld32 m a) by (intros a Ha; apply ld32_ext; intros; apply He; lia).
  assert (Hb : forall a k, r + 12 <= a -> a + Z.of_nat k <= r + 282 + Z.of_nat (length opts) -> get_bytes m' a k = get_bytes m a k)
    by (intros a k Ha Hk; apply get_bytes_ext; intros; apply He; lia).
  constructor; rewrite ?H32, ?Hb by lia; try done.
  - unfold ld16 in *. by rewrite !He by lia.
  - apply (verifies_ext m); [lia| |done]. intros. apply He. lia.
  - unfold be16 in *. by rewrite !He by lia.
  - by rewrite He by lia.
  - unfold be16 in *. by rewrite !He by lia.
Qed.

(** The headers of a UDP datagram for [frame]; no other byte is written. *)
Lemma udp4_init_ok m frame src sport dst dport :
  bytes_ok m -> in_u32 src -> in_u32 dst -> in_u16 sport -> in_u16 dport ->
  exists m', net_buf_udp4_init m frame src sport dst dport = (m', frame + 42) /\ bytes_ok m' /\
    ldb m' (frame + 23) = IPV4TYPE_UDP /\ ld32 m' (frame + 26) = src /\ ld32 m' (frame + 30) = dst /\
    be16 m' (frame + 34) = sport /\ be16 m' (frame + 36) = dport.
Proof.
  intros Hm Hs Hd Hsp Hdp. unfold net_buf_udp4_init, net_buf_ipv4_init, SZ_ETH, SZ_UDP.
  assert (Hn : forall x v, nwords (stb (st32 (st32 (stb (st16 (st16 (stb (stb x (frame + 14) (4 * 16 + 5)) (frame + 14 + 1) 0)
     (frame + 14 + 4) 0) (frame + 14 + 6) 0) (frame + 14 + 8) 32) (frame + 14 + 12) src) (frame + 14 + 16) dst) (frame + 14 + 9) v) (frame + 14) = 5).
  { intros x v. unfold nwords. peek. done. }
  rewrite Hn. clear Hn. unfold IPV4TYPE_UDP. eexists. split; [f_equal; lia|].
  split; [repeat (first [apply bytes_ok_st16|apply bytes_ok_st32|apply bytes_ok_stb]); try done; try apply u8_range|].
  split; [by peek|]. split_and!.
  - apply (ld32_written m); [done|]. intros b Hb. peek. unfold st32. rewrite !ldb_stb. repeat (case_if; try lia); done.
  - apply (ld32_written m); [done|]. intros b Hb. peek. unfold st32. rewrite !ldb_stb. repeat (case_if; try lia); done.
  - rewrite be16_st16_ne by lia. replace (frame + 34) with (frame + 14 + 4 * 5) by lia. by apply be16_st16_eq.
  - replace (frame + 36) with (frame + 14 + 4 * 5 + 2) by lia. by apply be16_st16_eq.
Qed.

Lemma bytes_ok_put m a l : bytes_ok m -> Forall in_u8 l -> bytes_ok (put_bytes m a l).
Proof. intros Hm Hl. revert m a Hm. induction Hl as [|x l Hx Hl IH]; intros m a Hm; [done|]. cbn [put_bytes]. by apply IH, bytes_ok_stb. Qed.

Lemma dhcp_message_ok m r mac siaddr opts :
  bytes_ok m -> length mac = 6%nat -> Forall in_u8 mac -> Forall in_u8 opts -> (length opts <= 1000)%nat -> in_u32 (default 0 siaddr) ->
  exists m', dhcp_message m r mac siaddr opts = (m', 282 + Z.of_nat (length opts)) /\ bytes_ok m' /\ client_message m' r mac (default 0 siaddr) opts.
Proof.
  intros Hm Hmac Hmacb Hopts Hlen Hsi. unfold dhcp_message.
  destruct (udp4_init_ok m r 0 DHCP_CLIENT_PORT IP_BROADCAST DHCP_SERVER_PORT) as (m1 & -> & Hm1 & I1 & I2 & I3 & I4 & I5);
    [done|unfold in_u32; lia|unfold in_u32, IP_BROADCAST; lia|unfold in_u16, DHCP_CLIENT_PORT; lia|unfold in_u16, DHCP_SERVER_PORT; lia|].
  unfold dhcp_xid, dhcp_siaddr, dhcp_chaddr, DHCP_OPT_OFFSET, ETH_ALEN. change (Z.of_nat 6) with 6. change (htonl DHCP_MAGIC_COOKIE) with 1666417251.
  set (m2 := bfill m1 (r + 42) (Z.to_nat 240) 0).
  set (m3 := stb (stb (stb m2 (r + 42) 1) (r + 42 + 1) 1) (r + 42 + 2) 6).
  set (m4 := st32 m3 (r + 42 + 4) xid).
  set (m5 := match siaddr with Some a => st32 m4 (r + 42 + 20) a | None => m4 end).
  set (m6 := put_bytes m5 (r + 42 + 28) mac).
  set (m7 := st32 m6 (r + 42 + 240 - 4) 1666417251).
  set (m8 := put_bytes m7 (r + 42 + 240) opts).
  assert (Hm2 : bytes_ok m2). { intros a. unfold m2. rewrite ldb_bfill. destruct (_ && _); [unfold in_u8; lia|apply Hm1]. }
  assert (Hm5 : bytes_ok m5).
  { unfold m5. assert (bytes_ok m4) by (unfold m4, m3; repeat (first [apply bytes_ok_st32|apply bytes_ok_stb]); try done; unfold in_u8; lia).
    destruct siaddr; [by apply bytes_ok_st32|done]. }
  assert (Hm8 : bytes_ok m8) by (unfold m8, m7, m6; apply bytes_ok_put; [apply bytes_ok_st32; by apply bytes_ok_put|done]).
  destruct (udp_checksum_ok m8 (r + 42) (240 + Z.of_nat (length opts)) Hm8 ltac:(lia)) as (m9 & -> & Hm9 & C1 & C2 & C3 & C4 & C5).
  exists m9. split; [f_equal; lia|]. split; [done|].
  replace (r + 42 - 28) with (r + 14) in * by lia. replace (r + 42 - 26) with (r + 16) in * by lia.
  replace (r + 42 - 4) with (r + 38) in * by lia. replace (r + 42 - 30) with (r + 12) in * by lia.
  (* what each part of the message reads in the end *)
  assert (R8 : forall a, r + 42 <= a -> ldb m9 a = ldb m8 a) by (intros a Ha; apply C5; lia).
  assert (R1 : forall a, a < r + 42 -> ldb m8 a = ldb m1 a).
  { intros a Ha. unfold m8. rewrite put_bytes_out by lia. unfold m7. rewrite ldb_st32_ne by lia. unfold m6. rewrite put_bytes_out by lia.
    assert (E5 : ldb m5 a = ldb m4 a) by (unfold m5; destruct siaddr; [apply ldb_st32_ne; lia|done]). rewrite E5.
    unfold m4. rewrite ldb_st32_ne by lia. unfold m3. peek. unfold m2. apply ldb_bfill_out. lia. }
  assert (R7 : forall a, r + 278 <= a < r + 282 -> ldb m9 a = ldb m7 a) by (intros a Ha; rewrite R8 by lia; unfold m8; apply put_bytes_out; lia).
  assert (R6 : forall a, r + 42 <= a < r + 278 -> ldb m9 a = ldb m6 a).
  { intros a Ha. rewrite R8 by lia. unfold m8. rewrite put_bytes_out by lia. unfold m7. apply ldb_st32_ne. lia. }
  assert (R5 : forall a, r + 42 <= a < r + 70 -> ldb m9 a = ldb m5 a) by (intros a Ha; rewrite R6 by lia; unfold m6; apply put_bytes_out; lia).
  assert (R4 : forall a, r + 42 <= a < r + 62 \/ r + 66 <= a < r + 70 -> ldb m9 a = ldb m4 a).
  { intros a Ha. rewrite R5 by lia. unfold m5. destruct siaddr; [apply ldb_st32_ne; lia|done]. }
  assert (R3 : forall a, r + 42 <= a < r + 46 \/ r + 50 <= a < r + 62 \/ r + 66 <= a < r + 70 -> ldb m9 a = ldb m3 a).
  { intros a Ha. rewrite R4 by lia. unfold m4. apply ldb_st32_ne. lia. }
  assert (Z3 : forall a, r + 45 <= a < r + 282 -> ldb m3 a = 0).
  { intros a Ha. unfold m3. peek. unfold m2. rewrite ldb_bfill. repeat (case_if; try lia); done. }
  assert (Z0 : forall a, r + 50 <= a < r + 59 \/ r + 66 <= a < r + 67 -> ld32 m9 a = 0).
  { intros a Ha. unfold ld32. rewrite !R3, !Z3 by lia. done. }
  constructor; try done.
  - lia.
  - rewrite C5, R1 by lia. done.
  - split; [rewrite <- I2|rewrite <- I3]; apply ld32_ext; intros b Hb; by rewrite C5, R1 by lia.
  - unfold be16 in *. rewrite !C5, !R1 by lia. done.
  - rewrite (get_bytes_ext m3) by (intros; apply R3; lia).
    change (get_bytes m3 (r + 42) 4) with [ldb m3 (r + 42 + 0); ldb m3 (r + 42 + 1); ldb m3 (r + 42 + 2); ldb m3 (r + 42 + 3)].
    rewrite (Z3 (r + 42 + 3)) by lia. unfold m3. by peek.
  - apply (ld32_written m3); [unfold in_u32, xid; lia|]. intros b Hb. rewrite R4 by lia. unfold m4. by replace (r + 42 + 4) with (r + 46) by lia.
  - split; [apply Z0; lia|]. split; [apply Z0; lia|]. split; [|apply Z0; lia].
    destruct siaddr as [s|]; cbn [default] in *.
    + apply (ld32_written m4); [done|]. intros b Hb. rewrite R5 by lia. unfold m5. by replace (r + 42 + 20) with (r + 62) by lia.
    + unfold ld32. rewrite !R5 by lia. unfold m5, m4. rewrite !ldb_st32_ne by lia. rewrite !Z3 by lia. done.
  - rewrite <- Hmac at 1. rewrite (get_bytes_ext m6) by (intros; apply R6; lia). unfold m6. replace (r + 42 + 28) with (r + 70) by lia. apply put_get_bytes.
  - rewrite (get_bytes_ext m7) by (intros; apply R7; lia). unfold m7.
    change (get_bytes ?x ?a 4) with [ldb x (a + 0); ldb x (a + 1); ldb x (a + 2); ldb x (a + 3)]. unfold st32. rewrite !ldb_stb.
    repeat match goal with |- context [?x =? ?y] => destruct (Z.eqb_spec x y); try lia end. done.
  - rewrite (get_bytes_ext m8) by (intros; apply R8; lia). unfold m8. replace (r + 42 + 240) with (r + 282) by lia. apply put_get_bytes.
Qed.

(** ** The exchange *)

Section Exchange.
Context {D : Type} `{!NetDrv D}.
Implicit Types (n : net D).

(** Transmitting changes the memory and the driver only. *)
Lemma transmit_rest n p r len n' ret :
  net_transmit_frame n p r len = Some (n', ret) -> ifaces n' = ifaces n /\ iface_tab n' = iface_tab n /\ rxq n' = rxq n /\ bufs n' = bufs n.
Proof.
  unfold net_transmit_frame. cbv zeta. set (n1 := set_mem n _).
  assert (Hf : forall n2, fill_dst n1 p r = Some n2 -> exists m2, n2 = set_mem n m2).
  { intros n2. unfold fill_dst. cbv zeta. repeat case_if; try (intros [= <-]; by eexists).
    destruct (net_neighbor_resolve _ _ _) as [dm|]; [|done]. cbn [mbind option_bind]. intros [= <-]. case_if; by eexists. }
  destruct (fill_dst n1 p r) as [n2|]; [|done]. destruct (Hf n2 eq_refl) as [m2 ->]. cbn [mbind option_bind].
  destruct (u16 len <? 60); destruct (transmit_frame_enqueue _ _ _ _ _) as [d1 r1]; destruct (negb (r1 =? 0)); try (intros [= <- _]; done).
  all: destruct (do_transmit _ _ _) as [d2 r2]; intros [= <- _]; done.
Qed.

(** The interface has its address and the driver a frame for it. *)
Record can_send n (p : Z) (i : netiface) (d : D) (r : Z) : Prop := {
  cs_iface : iface_ok n p i;
  cs_bytes : bytes_ok (mem n);
  cs_mac : Forall in_u8 (get_mac p);
  cs_alloc : transmit_frame_alloc (drv n) p = (d, r);
  cs_frame : r <> 0 }.

(** The message was handed to the driver, addressed to every machine. *)
Record sent n n' (p : Z) (d : D) (r server : Z) (opts : list Z) : Prop := {
  se_driver : drv n' = handed d p (mem n') r (282 + Z.of_nat (length opts));
  se_message : client_message (mem n') r (get_mac p) server opts;
  se_eth : get_bytes (mem n') r 12 = ETH_BROADCAST_MAC ++ get_mac p;
  se_rest : ifaces n' = ifaces n /\ iface_tab n' = iface_tab n /\ rxq n' = rxq n /\ bufs n' = bufs n }.

Lemma get_bytes_app m a k j : get_bytes m a (k + j) = get_bytes m a k ++ get_bytes m (a + Z.of_nat k) j.
Proof.
  unfold get_bytes. rewrite seq_app, fmap_app. f_equal. rewrite Nat.add_0_l, <- (Nat.add_0_r k) at 1. rewrite <- fmap_add_seq, <- list_fmap_compose.
  apply list_fmap_ext. intros x y _. simpl. f_equal. lia.
Qed.

Lemma dhcp_send_ok n p i d r siaddr opts :
  can_send n p i d r -> Forall in_u8 opts -> (length opts <= 1000)%nat -> in_u32 (default 0 siaddr) ->
  exists n', dhcp_send n p siaddr opts = Some (inr n') /\ sent n n' p d r (default 0 siaddr) opts.
Proof.
  intros [Hi Hb Hm Ha Hr] Ho Hl Hs. unfold dhcp_send. rewrite Ha, (proj2 (Z.eqb_neq r 0)) by done.
  destruct (dhcp_message_ok (mem n) r (get_mac p) siaddr opts) as (m1 & E & Hb1 & Hmsg); [done|by apply Hi|done|done|done|done|].
  change (mem (set_drv n d)) with (mem n). rewrite E.
  assert (Hi' : iface_ok (set_mem (set_drv n d) m1) p i) by (destruct Hi; by constructor).
  destruct (transmit_ok (set_mem (set_drv n d) m1) p i r (282 + Z.of_nat (length opts)) Hi' (cm_eth _ _ _ _ _ Hmsg) ltac:(lia)) as (n' & ret & Et & T1 & T2 & T3 & T4).
  rewrite Et. cbn [mbind option_bind]. exists n'. split; [done|]. change (mem (set_mem (set_drv n d) m1)) with m1 in T2, T4.
  constructor.
  - rewrite T1. f_equal. lia.
  - eapply client_message_ext; [|exact Hmsg]. intros a Ha'. apply T2. lia.
  - rewrite (get_bytes_app _ _ 6 6). f_equal; [|exact T3]. rewrite (T4 ETH_BROADCAST_MAC); [done|].
    unfold net_neighbor_resolve. by rewrite (proj2 (cm_addrs _ _ _ _ _ Hmsg)), Z.eqb_refl.
  - exact (transmit_rest _ _ _ _ _ _ Et).
Qed.

Lemma discover_bytes : Forall in_u8 discover_options.
Proof. repeat constructor; done. Qed.

Lemma request_bytes ip server : Forall in_u8 (request_options ip server).
Proof.
  unfold request_options, octs, oct. repeat rewrite Forall_app. split_and!; repeat constructor; try apply u8_range; done.
Qed.

(** The fields of an answer in the frame at [buf]. *)
Definition yiaddr (m : bmem) (buf : Z) : Z := ld32 m (dhcp_of m buf + dhcp_yiaddr).
Definition siaddr (m : bmem) (buf : Z) : Z := ld32 m (dhcp_of m buf + dhcp_siaddr).

(** The state once the offer was read: the server is a neighbour, and its
    frame is the driver's again. *)
Definition offered n (p a buf : Z) (i : netiface) : net D :=
  set_drv (set_iface n p (remember_on i (ld32 (mem n) (buf + 26)) (get_bytes (mem n) (buf + 6) 6))) (recycle (drv n) a).

Lemma dhcp_offer_ok n p a q i :
  bufs n !! a = Some q -> ifaces n !! p = Some i ->
  dhcp_offer n p a = Some (offered n p a (nb_buf q) i, yiaddr (mem n) (nb_buf q), siaddr (mem n) (nb_buf q)).
Proof.
  intros Hq Hi. unfold dhcp_offer, net_neighbor_remember. rewrite Hq. cbn [mbind option_bind]. rewrite Hi. cbn [mbind option_bind].
  unfold offered, SZ_ETH. replace (nb_buf q + 14 + 12) with (nb_buf q + 26) by lia. done.
Qed.

(** The state once the acknowledgement with the options [l] was read. *)
Definition configured n (p a buf : Z) (i : netiface) (l : list (Z * list Z)) : net D :=
  set_drv (set_iface n p (foldl apply_opt (set_ip_addr i (yiaddr (mem n) buf)) l)) (recycle (drv n) a).

Lemma dhcp_ack_ok fuel n p a q i l :
  bufs n !! a = Some q -> ifaces n !! p = Some i -> Forall opt_ok l -> (length l <= fuel)%nat ->
  holds (mem n) (dhcp_of (mem n) (nb_buf q) + DHCP_OPT_OFFSET) (encode_opts l) ->
  dhcp_ack fuel n p a = Some (configured n p a (nb_buf q) i l).
Proof.
  intros Hq Hi Hl Hf Hh. unfold dhcp_ack. rewrite Hq. cbn [mbind option_bind]. rewrite Hi. cbn [mbind option_bind].
  rewrite (read_opts_decodes l) by done. done.
Qed.

(** C29: The exchange with a DHCP server, step by step.  The client broadcasts
    a well-formed DISCOVER from its hardware address and waits; without an answer it
    gives up.  Of an answer it takes the address offered, makes its sender a
    neighbour, returns the frame to the driver and broadcasts a well-formed
    REQUEST for this address to the server named in the offer; without a second
    answer it gives up with the interface as it was.  From the second answer the
    interface gets its address and what the list of options says of subnet and
    router, and the frame goes back to the driver. *)
Theorem dhcp_exchange fuel n i d r start1 evs1 start2 evs2 :
  let p := net_interface_for_destination n in
  can_send n p i d r ->
  exists n1, dhcp_send n p None discover_options = Some (inr n1) /\ sent n n1 p d r 0 discover_options /\
  forall n2 a1, net_wait_udp4 n1 DHCP_CLIENT_PORT start1 timeout_s evs1 = Some (n2, a1) ->
    (a1 = 0 -> test_net_dhcp fuel n start1 evs1 start2 evs2 = Some n2) /\
    forall q1 i1 d2 r2, a1 <> 0 -> bufs n2 !! a1 = Some q1 -> ifaces n2 !! p = Some i1 ->
      let o := offered n2 p a1 (nb_buf q1) i1 in
      can_send o p (remember_on i1 (ld32 (mem n2) (nb_buf q1 + 26)) (get_bytes (mem n2) (nb_buf q1 + 6) 6)) d2 r2 ->
      let ip := yiaddr (mem n2) (nb_buf q1) in let server := siaddr (mem n2) (nb_buf q1) in
      exists n3, dhcp_send o p (Some server) (request_options ip server) = Some (inr n3) /\ sent o n3 p d2 r2 server (request_options ip server) /\
      forall n4 a2, net_wait_udp4 n3 DHCP_CLIENT_PORT start2 timeout_s evs2 = Some (n4, a2) ->
        (a2 = 0 -> test_net_dhcp fuel n start1 evs1 start2 evs2 = Some n4) /\
        forall q2 i4 l, a2 <> 0 -> bufs n4 !! a2 = Some q2 -> ifaces n4 !! p = Some i4 -> Forall opt_ok l -> (length l <= fuel)%nat ->
          holds (mem n4) (dhcp_of (mem n4) (nb_buf q2) + DHCP_OPT_OFFSET) (encode_opts l) ->
          test_net_dhcp fuel n start1 evs1 start2 evs2 = Some (configured n4 p a2 (nb_buf q2) i4 l).
Proof.
  intros p Hs. destruct (dhcp_send_ok n p i d r None discover_options Hs discover_bytes) as (n1 & E1 & S1); [simpl; lia|unfold in_u32; simpl; lia|].
  exists n1. split; [done|]. split; [done|]. intros n2 a1 W1.
  assert (Hp : (p =? 0) = false) by (apply Z.eqb_neq; apply (if_null _ _ _ (cs_iface _ _ _ _ _ Hs))).
  unfold test_net_dhcp. fold p. rewrite Hp, E1. cbn [mbind option_bind]. rewrite W1. cbn [mbind option_bind].
  split; [intros ->; done|]. intros q1 i1 d2 r2 Ha1 Hq1 Hi1 Ho. rewrite (proj2 (Z.eqb_neq a1 0)) by done.
  set (o := offered n2 p a1 (nb_buf q1) i1) in *. set (ip := yiaddr (mem n2) (nb_buf q1)). set (server := siaddr (mem n2) (nb_buf q1)).
  rewrite (dhcp_offer_ok n2 p a1 q1 i1) by done. cbn [mbind option_bind].
  assert (Hsv : in_u32 server).
  { pose proof (cs_bytes _ _ _ _ _ Ho) as Hb. unfold server, siaddr, ld32, in_u32. set (x := dhcp_of (mem n2) (nb_buf q1) + dhcp_siaddr).
    pose proof (Hb x) as B0. pose proof (Hb (x + 1)) as B1. pose proof (Hb (x + 2)) as B2. pose proof (Hb (x + 3)) as B3. change (mem o) with (mem n2) in *. unfold in_u8 in *. lia. }
  destruct (dhcp_send_ok o p _ d2 r2 (Some server) (request_options ip server) Ho (request_bytes _ _)) as (n3 & E3 & S3); [simpl; lia|done|].
  fold o ip server. rewrite E3. cbn [mbind option_bind]. exists n3. split; [done|]. split; [done|]. intros n4 a2 W2. rewrite W2. cbn [mbind option_bind].
  split; [intros ->; done|]. intros q2 i4 l Ha2 Hq2 Hi4 Hl Hf Hh. rewrite (proj2 (Z.eqb_neq a2 0)) by done. by apply dhcp_ack_ok.
Qed.

End Exchange.


(** ** A server on the wire *)

#[local] Instance demo_drv : NetDrv (list (Z * Z)) := {
  get_mac := fun _ => [2; 0; 0; 0; 0; 1];
  transmit_frame_alloc := fun d _ => (d, 4096);
  transmit_frame_enqueue := fun d _ _ frame len => ((frame, len) :: d, 0);
  do_transmit := fun d _ _ => (d, 0);
  recycle := fun d _ => d }.

(** An answer of the server 10.0.0.1: the offer of 10.0.0.42, and the
    acknowledgement with a subnet and a router. *)
Definition demo_answer (opts : list Z) : list Z :=
  [255; 255; 255; 255; 255; 255; 9; 9; 9; 9; 9; 9; 8; 0; 69; 0; 1; 44; 0; 0; 0; 0; 32; 17; 0; 0; 10; 0; 0; 1; 255; 255; 255; 255; 0; 67; 0; 68; 1; 24; 0; 0]
  ++ [2; 1; 6; 0; 38; 243; 3; 57] ++ replicate 8 0 ++ [10; 0; 0; 42; 10; 0; 0; 1] ++ replicate 212 0 ++ [99; 130; 83; 99] ++ opts.
Definition demo_opts : list (Z * list Z) := [(53, [5]); (1, [255; 255; 255; 0]); (3, [10; 0; 0; 1])].

Definition demo_net : net (list (Z * Z)) :=
  mk_net (put_bytes (put_bytes ∅ 10000 (demo_answer [53; 1; 2; 255])) 20000 (demo_answer (encode_opts demo_opts))) [] {[ 8 := demo_iface ]} [8] 100
    (<[100 := mk_netbuf 200 200 10000 290]> {[ 200 := mk_netbuf 100 100 20000 310 ]}).

Definition demo_evs : list (Z * (net (list (Z * Z)) -> net (list (Z * Z)))) := [(0, fun n => n)].
Definition demo_sent (n : net (list (Z * Z))) (si : option Z) (opts : list Z) : net (list (Z * Z)) :=
  match dhcp_send n 8 si opts with Some (inr n) => n | _ => n end.
Definition demo_wait (n : net (list (Z * Z))) : net (list (Z * Z)) :=
  match net_wait_udp4 n DHCP_CLIENT_PORT 0 timeout_s demo_evs with Some (n, _) => n | None => n end.
Definition demo_n2 : net (list (Z * Z)) := demo_wait (demo_sent demo_net None discover_options).
Definition demo_n4 : net (list (Z * Z)) :=
  demo_wait (demo_sent (offered demo_n2 8 100 10000 demo_iface) (Some 16777226) (request_options 704643082 16777226)).

Lemma wait_is (n : net (list (Z * Z))) a :
  option_map snd (net_wait_udp4 n DHCP_CLIENT_PORT 0 timeout_s demo_evs) = Some a ->
  net_wait_udp4 n DHCP_CLIENT_PORT 0 timeout_s demo_evs = Some (demo_wait n, a).
Proof. unfold demo_wait. destruct (net_wait_udp4 n _ _ _ _) as [[n' x]|]; [|discriminate]. intros [= ->]. reflexivity. Qed.

Lemma bytes_checked (m : bmem) : map_fold (fun _ v b => b && (0 <=? v) && (v <? 256)) true m = true -> bytes_ok m.
Proof.
  intros H a. assert (Hall : map_Forall (fun _ v => in_u8 v) m).
  { revert H. induction m as [|k v m Hk Hf IH] using map_first_key_ind; [intros _; apply map_Forall_empty|].
    rewrite map_fold_insert_first_key by done. intros [[Hb H0]%andb_prop H1]%andb_prop. apply map_Forall_insert_2; [unfold in_u8; lia|].
    apply IH. done. }
  unfold ldb. destruct (m !! a) as [v|] eqn:E; [by apply (Hall a v)|]. unfold in_u8. simpl. lia.
Qed.
Lemma demo_offer : yiaddr (mem demo_n2) 10000 = 704643082 /\ siaddr (mem demo_n2) 10000 = 16777226.
Proof. by vm_compute. Qed.

Lemma demo_can_send : can_send demo_net 8 demo_iface [] 4096.
Proof. constructor; [constructor; [reflexivity|lia|reflexivity|repeat constructor]|apply bytes_checked; by vm_compute|repeat constructor; done|reflexivity|lia]. Qed.

Lemma demo_can_request :
  can_send (offered demo_n2 8 100 10000 demo_iface) 8 (remember_on demo_iface (ld32 (mem demo_n2) 10026) (get_bytes (mem demo_n2) 10006 6)) [(4096, 292)] 4096.
Proof.
  constructor; [constructor; [by vm_compute|lia|reflexivity|]|apply bytes_checked; by vm_compute|repeat constructor; done|by vm_compute|lia].
  apply Forall_forall. intros x Hx. vm_compute in Hx. set_solver.
Qed.

(** The acknowledgement is still in memory, and the interface has the server
    in its table. *)
Lemma demo_ack_there :
  dhcp_of (mem demo_n4) 20000 = 20042 /\ yiaddr (mem demo_n4) 20000 = 704643082 /\ get_bytes (mem demo_n4) 20282 (length (encode_opts demo_opts)) = encode_opts demo_opts /\
  ((fun i => lookup_loop (neighbors i) 16777226) <$> (ifaces demo_n4 !! 8)) = Some [9; 9; 9; 9; 9; 9].
Proof. by vm_compute. Qed.

Lemma get_bytes_holds m a l : get_bytes m a (length l) = l -> holds m a l.
Proof.
  intros E k x Hk. rewrite <- E in Hk. unfold get_bytes in Hk. rewrite list_lookup_fmap in Hk.
  destruct (seq 0 (length l) !! k) as [y|] eqn:Ey; [|discriminate]. simpl in Hk. injection Hk as <-. apply lookup_seq in Ey as [-> _]. done.
Qed.

Lemma dhcp_exchange_witness :
  exists n', test_net_dhcp 8 demo_net 0 demo_evs 0 demo_evs = Some n' /\
    ((fun i => (ip_addr i, ip_subnet i, ip_gw i, lookup_loop (neighbors i) 16777226)) <$> (ifaces n' !! 8)) = Some (704643082, 16777215, 16777226, [9; 9; 9; 9; 9; 9]).
Proof.
  destruct (dhcp_exchange 8 demo_net demo_iface [] 4096 0 demo_evs 0 demo_evs demo_can_send) as (n1 & E1 & _ & Hw1).
  change (net_interface_for_destination demo_net) with 8 in *.
  assert (n1 = demo_sent demo_net None discover_options) as -> by (unfold demo_sent; rewrite E1; reflexivity). clear E1.
  destruct (Hw1 demo_n2 100) as [_ Ho]; [apply wait_is; vm_compute; reflexivity|]. clear Hw1.
  destruct (Ho (mk_netbuf 200 200 10000 290) demo_iface [(4096, 292)] 4096) as (n3 & E3 & _ & Hw2); [lia|vm_compute; reflexivity|vm_compute; reflexivity|exact demo_can_request|]. clear Ho.
  cbn [nb_buf] in E3, Hw2. destruct demo_offer as [Ey Es]. rewrite Ey, Es in E3.
  assert (n3 = demo_sent (offered demo_n2 8 100 10000 demo_iface) (Some 16777226) (request_options 704643082 16777226)) as -> by (unfold demo_sent; rewrite E3; reflexivity). clear E3.
  destruct (Hw2 demo_n4 200) as [_ Ha]; [apply wait_is; vm_compute; reflexivity|]. clear Hw2.
  destruct demo_ack_there as (Ed & Eip & Eo & El). destruct (ifaces demo_n4 !! 8) as [i4|] eqn:Ei; [|discriminate El]. cbn [fmap option_fmap option_map] in El. injection El as El.
  eexists. split; [apply (Ha (mk_netbuf 200 200 20000 310) i4 demo_opts)|].
  - lia.
  - vm_compute; reflexivity.
  - reflexivity.
  - unfold demo_opts. rewrite !Forall_cons. unfold opt_ok, DHCPOPT_SUBNET, DHCPOPT_GW. simpl. split_and!; try lia. apply Forall_nil_2.
  - simpl; lia.
  - cbn [nb_buf]. rewrite Ed. apply get_bytes_holds. exact Eo.
  - unfold configured. cbn [ifaces set_drv set_iface nb_buf]. rewrite Eip, lookup_insert_eq. cbn. rewrite El. reflexivity.
Defined.
(** ** What the client does not check *)

(** Transaction number and message type are not looked at: a refusal, meant
    for another client, configures the interface. *)
Definition refusal : list Z := take 42 (demo_answer []) ++ [2; 1; 6; 0; 1; 2; 3; 4] ++ drop 50 (demo_answer [53; 1; 6; 255]).
Lemma refusal_taken :
  match dhcp_ack 8 (mk_net (put_bytes ∅ 10000 refusal) [] {[ 8 := demo_iface ]} [8] 0 {[ 100 := mk_netbuf 0 0 10000 290 ]}) 8 100 with
  | Some n => option_map ip_addr (ifaces n !! 8)
  | None => None
  end = Some 704643082.
Proof. by vm_compute. Qed.

(** A padding byte has no length byte behind it, but is read as if it had: the
    subnet behind it is lost. *)
Lemma padding_swallows : test_read_dhcpopts 8 demo_iface (put_bytes ∅ 0 [0; 1; 4; 255; 255; 255; 0; 255]) 0 = Some demo_iface.
Proof. by vm_compute. Qed.

(** The length of the frame is not looked at: with no end among the options
    the reading goes on through the memory behind it, here forever. *)
Lemma no_end_no_stop fuel i a : test_read_dhcpopts fuel i ∅ a = None.
Proof. revert i a. induction fuel as [|fuel IH]; intros i a; cbn [test_read_dhcpopts]; change (ldb ∅ a) with 0; [done|apply IH]. Qed.

(** ** Echo requests *)

(** An echo request goes out with the greeting as its payload, and verifies. *)
Lemma ping_sent {D} `{!NetDrv D} (n : net D) i d r ip :
  let p := net_interface_for_destination n in
  can_send n p i d r -> in_u32 (ip_addr i) -> in_u32 ip ->
  exists n', test_net_ping n ip = Some n' /\ drv n' = handed d p (mem n') r 60 /\ ld16 (mem n') (r + 12) = htons ETHERTYPE_IPV4 /\
    verifies (mem n') (r + 34) 26 /\ verifies (mem n') (r + 14) 20 /\
    ldb (mem n') (r + 34) = ICMP_ECHO_REQUEST /\ ld32 (mem n') (r + 30) = ip /\ get_bytes (mem n') (r + 42) 18 = ping_msg.
Proof.
  intros p [Hi Hb Hm Ha Hr] Hip Hdst. unfold test_net_ping. fold p. rewrite (proj2 (Z.eqb_neq p 0)) by apply Hi.
  rewrite (if_there _ _ _ Hi). cbn [mbind option_bind]. rewrite Ha, (proj2 (Z.eqb_neq r 0)) by done. change (mem (set_drv n d)) with (mem n).
  destruct (icmp4_init_ok (mem n) r (ip_addr i) ip ICMP_ECHO_REQUEST 0 0) as (m1 & -> & Hb1 & _ & I1 & I2 & _ & _ & I5 & I6 & _); try done; try (unfold in_u8, in_u32, ICMP_ECHO_REQUEST; lia).
  change (Z.of_nat (length ping_msg)) with 18. set (m2 := put_bytes m1 (r + 42) ping_msg).
  assert (Hb2 : bytes_ok m2) by (apply bytes_ok_put; [done|repeat constructor; done]).
  assert (H2 : forall a, a < r + 42 -> ldb m2 a = ldb m1 a) by (intros a Ha2; unfold m2; apply put_bytes_out; lia).
  destruct (icmp_checksum_ok m2 (r + 42) 18 Hb2 ltac:(lia)) as (C1 & C2 & C3 & C4 & C5).
  destruct (net_buf_icmp4_checksum m2 (r + 42) 18) as [m3 ethlen] eqn:Ek. simpl in C1, C2, C3, C4, C5.
  replace (r + 42 - 28) with (r + 14) in * by lia. replace (r + 42 - 8) with (r + 34) in * by lia.
  assert (ethlen = 60) as -> by (rewrite C5; unfold nwords; rewrite H2, I2 by lia; done).
  assert (K : forall a, r <= a < r + 16 \/ r + 18 <= a < r + 24 \/ r + 26 <= a < r + 36 \/ r + 38 <= a -> ldb m3 a = ldb m2 a) by (intros; apply C4; lia).
  assert (He : ld16 m3 (r + 12) = htons ETHERTYPE_IPV4) by (rewrite <- I1; unfold ld16; by rewrite !K, !H2 by lia).
  destruct (transmit_ok (set_mem (set_drv n d) m3) p i r 60) as (n' & ret & E & T1 & T2 & _); [destruct Hi; by constructor|exact He|lia|].
  rewrite E. cbn [mbind option_bind]. change (mem (set_mem (set_drv n d) m3)) with m3 in T2. exists n'. split; [done|]. split; [done|].
  split; [rewrite <- He; unfold ld16; by rewrite !T2 by lia|].
  split; [apply (verifies_ext m3); [lia|intros; apply T2; lia|done]|]. split; [apply (verifies_ext m3); [lia|intros; apply T2; lia|done]|].
  split; [by rewrite T2, K, H2 by lia|]. split.
  - rewrite (ld32_ext m1); [done|]. intros b Hb'. by rewrite T2, K, H2 by lia.
  - rewrite (get_bytes_ext m2); [apply put_get_bytes|]. intros b Hb'. by rewrite T2, K by lia.
Qed.


End DHP.
