(* ===== verification/Virtio.v ===== *)
(** * The virtio network card (src/dev/net_virtio.c)

    Module [VN]: the rings shared with the device, sending and receiving
    frames, recycling buffers, and the set-up.  A ring is the record of its
    three areas; [None] stands for an index outside an area.  Port reads are
    arguments; port writes are logged.  Where the frames go is the class
    [RxClient]. *)

From S2P Require Import Prelude PMem RamBlocks Crc.

Module VN.

Definition VIO_DEV_FEATURE : Z := 0.
Definition VIO_DRV_FEATURE : Z := 4.
Definition VIO_Q_ADDR : Z := 8.
Definition VIO_Q_SIZE : Z := 12.
Definition VIO_Q_SELECT : Z := 14.
Definition VIO_Q_NOTIFY : Z := 16.
Definition VIO_DEV_STA : Z := 18.
Definition VIRTIO_NET_RXQ : Z := 0.
Definition VIRTIO_NET_TXQ : Z := 1.
Definition FRAME_SIZE : Z := 2048.
Definition VHDR_SIZE : Z := 10.
Definition MAX_VIRTIO_FRAME_SIZE : Z := 1528.
Definition VIRTQ_DESC_F_WRITE : Z := 2.
Definition VIRTIO_F_NOTIFY_ON_EMPTY : Z := 16777216.
Definition VIRTIO_NET_F_GUEST_CSUM : Z := 2.
Definition VIRTIO_NET_F_MAC : Z := 32.
Definition VIRTIO_NET_F_STATUS : Z := 65536.
Definition ENOMEM : Z := 12.
Definition EINVAL : Z := 22.
Definition ENOSYS : Z := 35.
Definition ETODO : Z := 39.

Record vring_desc := mk_desc { addr : Z; len : Z; flags : Z; next : Z }.
Definition zero_desc : vring_desc := mk_desc 0 0 0 0.

(** [desc], [avail] and [used] with their contents; [q_at] is where the
    descriptors are. *)
Record virtioq := mk_vq {
  size : Z; npages : Z; last_used : Z; q_at : Z; desc : list vring_desc;
  avail_flags : Z; avail_idx : Z; avail_ring : list Z;
  used_flags : Z; used_idx : Z; used_ring : list (Z * Z) }.

Definition set_desc (q : virtioq) (d : list vring_desc) : virtioq :=
  mk_vq (size q) (npages q) (last_used q) (q_at q) d (avail_flags q) (avail_idx q) (avail_ring q) (used_flags q) (used_idx q) (used_ring q).
Definition set_avail (q : virtioq) (f i : Z) (r : list Z) : virtioq :=
  mk_vq (size q) (npages q) (last_used q) (q_at q) (desc q) f i r (used_flags q) (used_idx q) (used_ring q).
Definition set_last_used (q : virtioq) (i : Z) : virtioq :=
  mk_vq (size q) (npages q) i (q_at q) (desc q) (avail_flags q) (avail_idx q) (avail_ring q) (used_flags q) (used_idx q) (used_ring q).

(** The queue and the index the entry was put at. *)
Definition virtioq_enqueue (q : virtioq) (d : Z) : option (virtioq * Z) :=
  let idx := avail_idx q in
  let slot := Z.to_nat (idx mod size q) in
  _ ← avail_ring q !! slot;
  Some (set_avail q (avail_flags q) (u16 (idx + 1)) (<[slot := d]> (avail_ring q)), idx).

(** A cleared queue of [qsz] entries, or the error; [last_used] is kept. *)
Definition virtio_vring_alloc (pm : PM.pmem) (last : Z) (qsz : Z) : PM.pmem * (virtioq + Z) :=
  let desctbl_sz := u32 (qsz * 16) in
  let avail_sz := u32 ((3 + qsz) * 2) in
  let used_sz := u32 (3 * 2 + qsz * 8) in
  let used_off := PM.pagealign_up (u32 (desctbl_sz + avail_sz)) in
  let p := PM.pagealign_up (u32 (used_off + used_sz)) in
  let npages := p / PAGE_BYTES in
  let '(pm, qmem) := PM.pmem_alloc pm npages in
  if qmem =? 0 then (pm, inr (- ENOMEM))
  else (pm, inl (mk_vq qsz npages last qmem (replicate (Z.to_nat qsz) zero_desc) 0 0 (replicate (Z.to_nat qsz) 0) 0 0 (replicate (Z.to_nat qsz) (0, 0)))).

(** The card: [ports] logs what was written, newest first; [freed] the pages
    handed back. *)
Record virtio_net_device := mk_nic {
  iobase : Z; intr : Z; features : Z; mac : list Z; rxq : virtioq; txq : virtioq; netbuf : Z; netbuf_npages : Z;
  pm : PM.pmem; mem : bmem; ports : list (Z * Z); freed : list Z }.

Definition set_rxq (n : virtio_net_device) (q : virtioq) : virtio_net_device :=
  mk_nic (iobase n) (intr n) (features n) (mac n) q (txq n) (netbuf n) (netbuf_npages n) (pm n) (mem n) (ports n) (freed n).
Definition set_txq (n : virtio_net_device) (q : virtioq) : virtio_net_device :=
  mk_nic (iobase n) (intr n) (features n) (mac n) (rxq n) q (netbuf n) (netbuf_npages n) (pm n) (mem n) (ports n) (freed n).
Definition set_netbuf (n : virtio_net_device) (b p : Z) : virtio_net_device :=
  mk_nic (iobase n) (intr n) (features n) (mac n) (rxq n) (txq n) b p (pm n) (mem n) (ports n) (freed n).
Definition set_features (n : virtio_net_device) (f : Z) : virtio_net_device :=
  mk_nic (iobase n) (intr n) f (mac n) (rxq n) (txq n) (netbuf n) (netbuf_npages n) (pm n) (mem n) (ports n) (freed n).
Definition set_pm (n : virtio_net_device) (p : PM.pmem) (f : list Z) : virtio_net_device :=
  mk_nic (iobase n) (intr n) (features n) (mac n) (rxq n) (txq n) (netbuf n) (netbuf_npages n) p (mem n) (ports n) f.
Definition set_mem (n : virtio_net_device) (m : bmem) : virtio_net_device :=
  mk_nic (iobase n) (intr n) (features n) (mac n) (rxq n) (txq n) (netbuf n) (netbuf_npages n) (pm n) m (ports n) (freed n).
Definition out (n : virtio_net_device) (off v : Z) : virtio_net_device :=
  mk_nic (iobase n) (intr n) (features n) (mac n) (rxq n) (txq n) (netbuf n) (netbuf_npages n) (pm n) (mem n) ((u16 (iobase n + off), v) :: ports n) (freed n).

Definition virtioq_notify (n : virtio_net_device) (queue : Z) : virtio_net_device := out n VIO_Q_NOTIFY queue.

(** ** Frames *)

Definition net_virtio_get_macaddr (n : virtio_net_device) : list Z := mac n.

Definition net_virtio_frame_alloc (n : virtio_net_device) : virtio_net_device * Z :=
  let '(p, buf) := PM.pmem_alloc (pm n) 1 in
  let n := set_pm n p (freed n) in
  if buf =? 0 then (n, 0) else (n, u32 (buf + VHDR_SIZE)).

Definition net_virtio_frame_free (n : virtio_net_device) (buf : Z) : virtio_net_device :=
  if buf =? 0 then n else set_pm n (PM.pmem_free (pm n) (buf / PAGE_BYTES) 1).1 (buf :: freed n).

(** The descriptor of the buffer goes back to the device. *)
Definition net_virtio_rxbuf_cleanup (n : virtio_net_device) (bufptr : Z) : option virtio_net_device :=
  let d := u16 (u32 (bufptr - netbuf n) / FRAME_SIZE) in
  '(q, _) ← virtioq_enqueue (rxq n) d;
  let n := set_rxq n q in
  Some (if used_flags q =? 0 then virtioq_notify n VIRTIO_NET_RXQ else n).

(** [net_sta] is read from the port. *)
Definition net_virtio_is_up (n : virtio_net_device) (net_sta : Z) : bool :=
  if negb (Z.land (features n) VIRTIO_NET_F_STATUS =? 0) then negb (net_sta =? 0) else false.

(** A received frame: the address and the length of its Ethernet header on. *)
Record rx_frame := mk_rx { rx_buf : Z; rx_len : Z }.

(** The network stack: [receive] takes a frame and returns the buffers that it
    gives back at once, [release] gives back buffers it has held.  Buffers are
    neither made up nor lost. *)
Class RxClient (St : Type) := {
  holds : St -> list Z;
  receive : St -> rx_frame -> St * list Z;
  release : St -> St * list Z;
  receive_law : forall st f st' back, receive st f = (st', back) -> rx_buf f :: holds st ≡ₚ back ++ holds st';
  release_law : forall st st' back, release st = (st', back) -> holds st ≡ₚ back ++ holds st' }.

Fixpoint recycle_all (n : virtio_net_device) (bufs : list Z) : option virtio_net_device :=
  match bufs with [] => Some n | b :: bufs => n ← net_virtio_rxbuf_cleanup n b; recycle_all n bufs end.

(** One turn for a buffer the device has sent. *)
Definition tx_done (n : virtio_net_device) : option virtio_net_device :=
  let q := txq n in
  '(id, _) ← used_ring q !! Z.to_nat (last_used q mod size q);
  d ← desc q !! Z.to_nat id;
  let n := net_virtio_frame_free n (u32 (addr d)) in
  let q := set_desc q (<[Z.to_nat id := mk_desc 0 (len d) (flags d) (next d)]> (desc q)) in
  Some (set_txq n (set_last_used q (u16 (last_used q + 1)))).

(** The loops run until [last_used] is the index read before; the difference of
    two 16-bit numbers bounds them. *)
Fixpoint tx_loop (k : nat) (n : virtio_net_device) (idx_used : Z) : option virtio_net_device :=
  if last_used (txq n) =? idx_used then Some n
  else match k with O => None | S k => n ← tx_done n; tx_loop k n idx_used end.

Section Receiving.
Context {St : Type} `{!RxClient St}.

Definition rx_done (n : virtio_net_device) (st : St) : option (virtio_net_device * St) :=
  let q := rxq n in
  '(id, rlen) ← used_ring q !! Z.to_nat (last_used q mod size q);
  d ← desc q !! Z.to_nat id;
  let buf := u32 (addr d) in
  let '(st, back) := receive st (mk_rx (u32 (buf + VHDR_SIZE)) (u16 (rlen - VHDR_SIZE))) in
  n ← recycle_all n back;
  Some (set_rxq n (set_last_used (rxq n) (u16 (last_used (rxq n) + 1))), st).

Fixpoint rx_loop (k : nat) (n : virtio_net_device) (st : St) (idx_used : Z) : option (virtio_net_device * St) :=
  if last_used (rxq n) =? idx_used then Some (n, st)
  else match k with O => None | S k => '(n, st) ← rx_done n st; rx_loop k n st idx_used end.

Definition no_intr (q : virtioq) (f : Z) : virtioq := set_avail q f (avail_idx q) (avail_ring q).

Definition poll_upto (turns : nat) (n : virtio_net_device) (st : St) : option (virtio_net_device * St) :=
  let n := set_txq n (no_intr (txq n) 1) in
  n ← tx_loop turns n (used_idx (txq n));
  let n := set_txq n (no_intr (txq n) 0) in
  let n := set_rxq n (no_intr (rxq n) 1) in
  '(n, st) ← rx_loop turns n st (used_idx (rxq n));
  Some (set_rxq n (no_intr (rxq n) 0), st).
Definition net_virtio_poll (n : virtio_net_device) (st : St) : option (virtio_net_device * St) := poll_upto (Z.to_nat 65536) n st.

(** [isr] is read from the port. *)
Definition net_virtio_irq (n : virtio_net_device) (st : St) (isr : Z) : option (virtio_net_device * St) :=
  if negb (Z.land isr 1 =? 0) then net_virtio_poll n st else Some (n, st).

(** The stack gives back frames it has kept. *)
Definition stack_release (n : virtio_net_device) (st : St) : option (virtio_net_device * St) :=
  let '(st, back) := release st in n ← recycle_all n back; Some (n, st).

End Receiving.

(** The first descriptor whose address is 0. *)
Fixpoint find_free (l : list vring_desc) (i : Z) : option Z :=
  match l with [] => None | d :: l => if addr d =? 0 then Some i else find_free l (i + 1) end.

Definition net_virtio_tx_enqueue (n : virtio_net_device) (buf eth_len : Z) : option (virtio_net_device * Z) :=
  let vhdr := u32 (buf - VHDR_SIZE) in
  let crc := CRC.ethernet_crc32 0 (RB.load_bytes (mem n) buf eth_len) in
  let n := set_mem n (st32 (mem n) (buf + eth_len) crc) in
  match find_free (take (Z.to_nat (size (txq n))) (desc (txq n))) 0 with
  | None => Some (n, ENOMEM)
  | Some i =>
      d ← desc (txq n) !! Z.to_nat i;
      let q := set_desc (txq n) (<[Z.to_nat i := mk_desc vhdr (u32 (VHDR_SIZE + eth_len + 4)) 0 (next d)]> (desc (txq n))) in
      '(q, _) ← virtioq_enqueue q (u16 i);
      Some (set_txq n q, 0)
  end.

Definition net_virtio_transmit (n : virtio_net_device) : virtio_net_device * Z := (virtioq_notify n VIRTIO_NET_TXQ, 0).

(** ** Set-up *)

(** The first [size - 1] descriptors get a part of the buffer each. *)
Fixpoint fill_loop (k : nat) (q : virtioq) (netbuf i : Z) : virtioq :=
  match k with
  | O => q
  | S k =>
      let d := mk_desc (u32 (netbuf + FRAME_SIZE * i)) FRAME_SIZE VIRTQ_DESC_F_WRITE 0 in
      let q := set_desc q (<[Z.to_nat i := d]> (desc q)) in
      let q := set_avail q (avail_flags q) (avail_idx q) (<[Z.to_nat i := u16 i]> (avail_ring q)) in
      fill_loop k q netbuf (i + 1)
  end.

(** [tx_size], [rx_size] and [drv_features] are read from the ports. *)
Definition net_virtio_setup (n : virtio_net_device) (tx_size rx_size drv_features : Z) : virtio_net_device * Z :=
  let n := out (out n VIO_DEV_STA 0) VIO_DEV_STA 3 in
  let n := out n VIO_Q_SELECT VIRTIO_NET_TXQ in
  if negb (0 <? tx_size) then (n, - ENOSYS)
  else
    let '(p, r) := virtio_vring_alloc (pm n) (last_used (txq n)) tx_size in
    let n := set_pm n p (freed n) in
    match r with
    | inr e => (n, e)
    | inl q =>
        let n := out (set_txq n q) VIO_Q_ADDR (q_at q / PAGE_BYTES) in
        let n := out n VIO_Q_SELECT VIRTIO_NET_RXQ in
        if negb (0 <? rx_size) then (n, - ENOSYS)
        else
          let '(p, r) := virtio_vring_alloc (pm n) (last_used (rxq n)) rx_size in
          let n := set_pm n p (freed n) in
          match r with
          | inr e => (n, e)
          | inl q =>
              let n := set_rxq n q in
              let netbuf_pages := PM.pagealign_up (u32 (size q * FRAME_SIZE)) / PAGE_BYTES in
              let '(p, nb) := PM.pmem_alloc (pm n) netbuf_pages in
              let n := set_pm n p (freed n) in
              if nb =? 0 then (n, - ENOMEM)
              else
                let n := set_netbuf n nb netbuf_pages in
                let q := fill_loop (Z.to_nat (size q - 1)) q nb 0 in
                let q := set_avail q 0 (u16 (size q - 1)) (avail_ring q) in
                let n := out (set_rxq n q) VIO_Q_ADDR (q_at q / PAGE_BYTES) in
                let val := Z.lor (Z.lor (Z.lor VIRTIO_F_NOTIFY_ON_EMPTY VIRTIO_NET_F_MAC) VIRTIO_NET_F_STATUS) VIRTIO_NET_F_GUEST_CSUM in
                let n := set_features (out n VIO_DRV_FEATURE val) drv_features in
                (out n VIO_DEV_STA 7, 0)
          end
    end.

(** What [net_virtio_init] reads of the configuration space. *)
Record pci_config := mk_pci { pci_rev_id : Z; pci_subsystem_id : Z; pci_bars : list Z; pci_interrupt_line : Z }.

(** The base port: the first of the first five base addresses that is a port. *)
Definition portbase (bars : list Z) : Z :=
  match List.find (fun b => negb (Z.land b 1 =? 0)) (take 5 bars) with Some b => Z.land b 65532 | None => 0 end.

Definition empty_q : virtioq := mk_vq 0 0 0 0 [] 0 0 [] 0 0 [].

(** What [net_virtio_init] ends with: a card that is set up and registered; an
    error that leaves nothing; an error of the registration, after which
    [theVirtNIC] still points to the card that was freed; or no memory, which is
    not checked before [memset] clears the structure at address 0. *)
Inductive init_result := InitReady (n : virtio_net_device) | InitFailed (ret : Z) | InitFreed (n : virtio_net_device) (ret : Z) | InitNull.

(** [busy]: a card is set up already; [feat] and [macw] are read from the ports;
    [nic] is what [kmalloc] returns and [reg] what [net_interface_register] does. *)
Definition net_virtio_init (c : pci_config) (busy : bool) (feat : Z) (macw : list Z) (nic reg : Z) (p : PM.pmem) (m : bmem) (tx_size rx_size drv_features : Z) : init_result :=
  if 0 <? pci_rev_id c then InitFailed (- ENOSYS)
  else if negb (pci_subsystem_id c =? 1) then InitFailed (- EINVAL)
  else
    let base := portbase (pci_bars c) in
    if base =? 0 then InitFailed (-1)
    else if Z.land feat VIRTIO_NET_F_MAC =? 0 then InitFailed (- EINVAL)
    else if busy then InitFailed (- ETODO)
    else if nic =? 0 then InitNull
    else
      let n := mk_nic base (u16 (pci_interrupt_line c)) feat macw empty_q empty_q 0 0 p m [] [] in
      let '(n, ret) := net_virtio_setup n tx_size rx_size drv_features in
      if negb (ret =? 0) then InitFailed ret
      else if negb (reg =? 0) then InitFreed n reg
      else InitReady n.

End VN.
