(* ===== verification/VirtioProofs.v ===== *)
(** * The virtio card: who owns a buffer

    Module [VNP]: the device as the other party of the rings, the partition of
    the descriptors between the driver, the rings and the device, and the
    theorems on received and sent frames over every interleaving of the driver,
    the device and the network stack. *)

From S2P Require Import Prelude PMem RamBlocks Crc Virtio.

Module VNP.
Import VN.

(** ** Slots of a ring *)

Definition slot (i s : Z) : nat := Z.to_nat (i mod s).

Lemma slot_wrap i s : 0 < s -> (s | 65536) -> slot (i mod 65536) s = slot i s.
Proof. intros Hs Hd. unfold slot. by rewrite Z.mod_mod_divide by done. Qed.

Lemma slot_lt i s : 0 < s -> (slot i s < Z.to_nat s)%nat.
Proof. intros Hs. unfold slot. pose proof (Z.mod_pos_bound i s Hs). lia. Qed.

Lemma slot_ne i j s : 0 < j - i < s -> slot i s <> slot j s.
Proof.
  intros H E. unfold slot in E. pose proof (Z.mod_pos_bound i s ltac:(lia)). pose proof (Z.mod_pos_bound j s ltac:(lia)).
  assert (Em : i mod s = j mod s) by lia. assert (Hz : (j - i) mod s = 0) by (rewrite Zminus_mod, Em, Z.sub_diag; by apply Z.mod_0_l; lia).
  rewrite Z.mod_small in Hz by lia. lia.
Qed.

Lemma u16_succ i : u16 (i mod 65536 + 1) = (i + 1) mod 65536.
Proof. unfold u16. change (2 ^ 16) with 65536. by rewrite Z.add_mod_idemp_l. Qed.

(** ** The partition of the descriptors

    [a], [t], [u] and [c] count the entries made available, taken by the device,
    used by it and consumed by the driver since the start; [av] and [us] are the
    entries in the rings, [held] what the device works on, [own] what the driver
    has. *)
Record ring_inv (q : virtioq) (n a t u c : Z) (av held us own : list Z) : Prop := {
  ri_size : 0 < size q < 65536 /\ (size q | 65536) /\ 0 <= n <= size q;
  ri_lens : length (avail_ring q) = Z.to_nat (size q) /\ length (used_ring q) = Z.to_nat (size q) /\ length (desc q) = Z.to_nat (size q);
  ri_idx : avail_idx q = a mod 65536 /\ used_idx q = u mod 65536 /\ last_used q = c mod 65536;
  ri_cnt : 0 <= c /\ u = c + Z.of_nat (length us) /\ t = u + Z.of_nat (length held) /\ a = t + Z.of_nat (length av);
  ri_av : forall j d, av !! j = Some d -> avail_ring q !! slot (t + Z.of_nat j) (size q) = Some d;
  ri_us : forall j d, us !! j = Some d -> exists l, used_ring q !! slot (c + Z.of_nat j) (size q) = Some (d, l);
  ri_part : av ++ held ++ us ++ own ≡ₚ seqZ 0 n }.

Lemma ring_length q n a t u c av held us own : ring_inv q n a t u c av held us own ->
  Z.of_nat (length av) + Z.of_nat (length held) + Z.of_nat (length us) + Z.of_nat (length own) = n.
Proof.
  intros H. pose proof (Permutation_length (ri_part _ _ _ _ _ _ _ _ _ _ H)) as E. rewrite !length_app, length_seqZ in E. pose proof (ri_size _ _ _ _ _ _ _ _ _ _ H). lia.
Qed.

Lemma ring_id q n a t u c av held us own d : ring_inv q n a t u c av held us own -> d ∈ av ++ held ++ us ++ own -> 0 <= d < n.
Proof. intros H Hd. rewrite (ri_part _ _ _ _ _ _ _ _ _ _ H) in Hd. apply elem_of_seqZ in Hd. lia. Qed.

(** What the driver's operations leave alone. *)
Definition same_rest (q q' : virtioq) : Prop := size q' = size q /\ desc q' = desc q /\ used_idx q' = used_idx q /\ used_flags q' = used_flags q /\ last_used q' = last_used q.

Lemma enqueue_ring q n a t u c av held us own d own' : ring_inv q n a t u c av held us own -> own ≡ₚ d :: own' ->
  exists q', virtioq_enqueue q d = Some (q', avail_idx q) /\ ring_inv q' n (a + 1) t u c (av ++ [d]) held us own' /\ same_rest q q'.
Proof.
  intros H Hown. pose proof (ring_length _ _ _ _ _ _ _ _ _ _ H) as Hl. rewrite Hown in Hl. simpl length in Hl. destruct H as [Hs Hn Hi Hc Hav Hus Hp].
  unfold virtioq_enqueue. cbv zeta. fold (slot (avail_idx q) (size q)). destruct Hi as (Ha & Hu & Hlu). rewrite Ha, slot_wrap by tauto.
  destruct (lookup_lt_is_Some_2 (avail_ring q) (slot a (size q))) as [x Hx]; [pose proof (slot_lt a (size q)); lia|]. rewrite Hx. cbn [mbind option_bind].
  eexists. split; [done|]. split; [|done]. constructor; simpl; try done.
  - by rewrite length_insert.
  - split; [apply u16_succ|done].
  - rewrite length_app. simpl. lia.
  - intros j e Hj. apply lookup_app_Some in Hj as [Hj|[Hj1 Hj2]].
    + apply Hav in Hj as Hj'. apply lookup_lt_Some in Hj. rewrite list_lookup_insert_ne; [done|]. intros E. symmetry in E. apply slot_ne in E; [done|lia].
    + apply list_lookup_singleton_Some in Hj2 as [E ->]. replace (t + Z.of_nat j) with a by lia. apply list_lookup_insert_eq. by eapply lookup_lt_Some.
  - rewrite <- Hp, Hown. rewrite <- !app_assoc. simpl. f_equiv. by rewrite <- !Permutation_middle.
Qed.

(** The driver takes the oldest used entry. *)
Lemma consume_ring q n a t u c av held d us own : ring_inv q n a t u c av held (d :: us) own ->
  (exists l, used_ring q !! Z.to_nat (last_used q mod size q) = Some (d, l)) /\ (last_used q =? used_idx q) = false /\
  ring_inv (set_last_used q (u16 (last_used q + 1))) n a t u (c + 1) av held us (d :: own).
Proof.
  intros H. pose proof (ring_length _ _ _ _ _ _ _ _ _ _ H) as Hl. destruct H as [Hs Hn Hi Hc Hav Hus Hp]. simpl length in *. destruct Hi as (Ha & Hu & Hlu). split; [|split].
  - fold (slot (last_used q) (size q)). rewrite Hlu, slot_wrap by tauto. specialize (Hus 0%nat d eq_refl). by rewrite Z.add_0_r in Hus.
  - apply Z.eqb_neq. rewrite Hlu, Hu. intros E. assert (Em : (u - c) mod 65536 = 0) by (rewrite Zminus_mod, E, Z.sub_diag; done). rewrite Z.mod_small in Em by lia. lia.
  - constructor; simpl; try done.
    + split; [done|]. split; [done|]. rewrite Hlu. apply u16_succ.
    + lia.
    + intros j e Hj. specialize (Hus (S j) e Hj). by replace (c + 1 + Z.of_nat j) with (c + Z.of_nat (S j)) by lia.
    + rewrite <- Hp. simpl. do 2 f_equiv. by rewrite <- Permutation_middle.
Qed.

(** Nothing is left when the indices agree. *)
Lemma consumed_all q n a t u c av held us own : ring_inv q n a t u c av held us own -> (last_used q =? used_idx q) = match us with [] => true | _ => false end.
Proof.
  intros H. destruct us as [|d us]; [|by destruct (consume_ring _ _ _ _ _ _ _ _ _ _ _ H) as (_ & E & _)]. destruct H as [_ _ (_ & Hu & Hl) (_ & Hc & _) _ _ _]. simpl in Hc.
  apply Z.eqb_eq. rewrite Hu, Hl. f_equal. lia.
Qed.

(** ** The device *)

(** [taken] counts the entries it has taken from the available ring. *)
Record vio_dev := mk_dev { taken : Z; d_held : list Z }.

Definition put_used (q : virtioq) (i : Z) (r : list (Z * Z)) : virtioq :=
  mk_vq (size q) (npages q) (last_used q) (q_at q) (desc q) (avail_flags q) (avail_idx q) (avail_ring q) (used_flags q) i r.

(** It takes entries in order, and returns those it holds in any order, each
    with a length of its own. *)
Inductive dev_step (q : virtioq) (dv : vio_dev) : virtioq -> vio_dev -> Prop :=
  | dev_take d : taken dv mod 65536 <> avail_idx q -> avail_ring q !! slot (taken dv) (size q) = Some d ->
      dev_step q dv q (mk_dev (taken dv + 1) (d :: d_held dv))
  | dev_use d l rest : d_held dv ≡ₚ d :: rest ->
      dev_step q dv (put_used q (u16 (used_idx q + 1)) (<[slot (used_idx q) (size q) := (d, l)]> (used_ring q))) (mk_dev (taken dv) rest).

Lemma dev_step_ring q dv q' dv' n a u c av us own : ring_inv q n a (taken dv) u c av (d_held dv) us own -> dev_step q dv q' dv' ->
  exists u' av' us', ring_inv q' n a (taken dv') u' c av' (d_held dv') us' own /\ av' ++ d_held dv' ++ us' ≡ₚ av ++ d_held dv ++ us /\ size q' = size q /\ desc q' = desc q.
Proof.
  intros H Hd. pose proof (ring_length _ _ _ _ _ _ _ _ _ _ H) as Hl. destruct H as [Hs Hn (Ha & Hu & Hlu) Hc Hav Hus Hp]. destruct Hd as [d Hne Hd|d l rest Hd].
  - destruct av as [|d0 av]; [simpl in Hc; rewrite Ha in Hne; exfalso; apply Hne; f_equal; lia|]. pose proof (Hav 0%nat d0 eq_refl) as H0. rewrite Z.add_0_r, Hd in H0. injection H0 as <-.
    exists u, av, us. assert (Eperm : av ++ (d :: d_held dv) ++ us ≡ₚ (d :: av) ++ d_held dv ++ us) by (simpl; by rewrite <- Permutation_middle).
    split; [|done]. constructor; simpl; try done.
    + simpl in Hc. lia.
    + intros j e Hj. specialize (Hav (S j) e Hj). by replace (taken dv + 1 + Z.of_nat j) with (taken dv + Z.of_nat (S j)) by lia.
    + rewrite <- Hp. simpl. by rewrite <- Permutation_middle.
  - rewrite Hd in Hl, Hc. simpl length in *. exists (u + 1), av, (us ++ [d]). split; [|split; [|done]].
    + constructor; simpl; try done.
      * by rewrite length_insert.
      * split; [done|]. split; [|done]. rewrite Hu. apply u16_succ.
      * rewrite length_app. simpl. lia.
      * intros j e Hj. rewrite Hu, slot_wrap by tauto. apply lookup_app_Some in Hj as [Hj|[Hj1 Hj2]].
        -- apply lookup_lt_Some in Hj as Hlt. apply Hus in Hj as [l' Hj']. exists l'. rewrite list_lookup_insert_ne; [done|]. intros E. symmetry in E. apply slot_ne in E; [done|lia].
        -- apply list_lookup_singleton_Some in Hj2 as [E ->]. exists l. replace (c + Z.of_nat j) with u by lia. apply list_lookup_insert_eq. pose proof (slot_lt u (size q)). lia.
      * rewrite <- Hp, Hd. rewrite <- app_assoc. simpl. f_equiv. by rewrite <- !Permutation_middle.
    + simpl. rewrite Hd. f_equiv. rewrite app_assoc. by rewrite <- Permutation_cons_append, app_comm_cons.
Qed.

(** ** Received frames *)

Definition rxbuf (nb i : Z) : Z := nb + FRAME_SIZE * i + VHDR_SIZE.

Section Stack.
Context {St : Type} `{!RxClient St}.

(** The stack holds exactly the buffers of the descriptors that are neither in a
    ring nor at the device. *)
Record rx_inv (n : virtio_net_device) (st : St) (dv : vio_dev) (u : Z) (us : list Z) : Prop := {
  rx_ring : exists a c av own, ring_inv (rxq n) (size (rxq n) - 1) a (taken dv) u c av (d_held dv) us own /\ holds st ≡ₚ (rxbuf (netbuf n) <$> own);
  rx_addr : forall i, 0 <= i < size (rxq n) - 1 -> exists d, desc (rxq n) !! Z.to_nat i = Some d /\ addr d = netbuf n + FRAME_SIZE * i;
  rx_area : 0 < netbuf n /\ netbuf n + FRAME_SIZE * size (rxq n) <= 4294967296 }.

Lemma cleanup_last_used n b x :
  net_virtio_rxbuf_cleanup (set_rxq n (set_last_used (rxq n) x)) b =
  (n' ← net_virtio_rxbuf_cleanup n b; Some (set_rxq n' (set_last_used (rxq n') x))).
Proof.
  unfold net_virtio_rxbuf_cleanup, virtioq_enqueue. cbn. destruct (avail_ring (rxq n) !! _); [|done]. cbn. by destruct (used_flags (rxq n) =? 0).
Qed.

Lemma recycle_last_used bufs : forall n x,
  recycle_all (set_rxq n (set_last_used (rxq n) x)) bufs = (n' ← recycle_all n bufs; Some (set_rxq n' (set_last_used (rxq n') x))).
Proof.
  induction bufs as [|b bufs IH]; intros n x; [done|]. cbn [recycle_all]. rewrite cleanup_last_used. destruct (net_virtio_rxbuf_cleanup n b) as [n'|]; [|done].
  cbn [mbind option_bind]. apply IH.
Qed.

(** What recycling leaves alone. *)
Definition same_nic (n n' : virtio_net_device) : Prop := txq n' = txq n /\ netbuf n' = netbuf n /\ freed n' = freed n /\ same_rest (rxq n) (rxq n').

Lemma cleanup_ring n sz a t u c av held us own i own' : ring_inv (rxq n) sz a t u c av held us own -> own ≡ₚ i :: own' -> 0 < netbuf n -> netbuf n + FRAME_SIZE * size (rxq n) <= 4294967296 ->
  exists n', net_virtio_rxbuf_cleanup n (rxbuf (netbuf n) i) = Some n' /\ ring_inv (rxq n') sz (a + 1) t u c (av ++ [i]) held us own' /\ same_nic n n'.
Proof.
  intros H Ho Hp Hb. unfold FRAME_SIZE in *. assert (Hi : 0 <= i < sz) by (eapply ring_id; [done|]; rewrite Ho; set_solver). pose proof (ri_size _ _ _ _ _ _ _ _ _ _ H) as (Hs & _ & Hsz).
  unfold net_virtio_rxbuf_cleanup, rxbuf, FRAME_SIZE, VHDR_SIZE. replace (netbuf n + 2048 * i + 10 - netbuf n) with (2048 * i + 10) by lia.
  rewrite u32_small by (unfold in_u32; lia). replace ((2048 * i + 10) / 2048) with i by zlia. rewrite u16_small by (unfold in_u16; lia).
  destruct (enqueue_ring _ _ _ _ _ _ _ _ _ _ i own' H Ho) as (q' & -> & Hr & Hsame). cbn [mbind option_bind]. destruct (used_flags q' =? 0); eexists; (split; [done|]); (split; [done|]); done.
Qed.

Lemma recycle_ring ids : forall n sz a t u c av held us own own', ring_inv (rxq n) sz a t u c av held us own -> own ≡ₚ ids ++ own' -> 0 < netbuf n -> netbuf n + FRAME_SIZE * size (rxq n) <= 4294967296 ->
  exists n' a' av', recycle_all n (rxbuf (netbuf n) <$> ids) = Some n' /\ ring_inv (rxq n') sz a' t u c av' held us own' /\ same_nic n n'.
Proof.
  induction ids as [|i ids IH]; intros n sz a t u c av held us own own' H Ho Hp Hb.
  - exists n, a, av. split; [done|]. split; [|done]. destruct H as [? ? ? ? ? ? Hpart]. constructor; try done. by rewrite <- Hpart, Ho.
  - destruct (cleanup_ring n sz a t u c av held us own i (ids ++ own') H Ho Hp Hb) as (n1 & E1 & H1 & (Ht1 & Hn1 & Hf1 & Hs1)). cbn [fmap list_fmap recycle_all]. rewrite E1. cbn [mbind option_bind].
    destruct (IH n1 sz (a + 1) t u c (av ++ [i]) held us (ids ++ own') own' H1) as (n2 & a2 & av2 & E2 & H2 & (Ht2 & Hn2 & Hf2 & Hs2)); [done|by rewrite Hn1|rewrite Hn1; by destruct Hs1 as [-> _]|].
    rewrite Hn1 in E2. rewrite E2. exists n2, a2, av2. split; [done|]. split; [done|]. unfold same_nic, same_rest in *. naive_solver congruence.
Qed.

(** Buffers that come back are buffers of descriptors the driver owns. *)
Lemma back_ids nb own back st' : (rxbuf nb <$> own) ≡ₚ back ++ holds st' -> exists ids own', back = (rxbuf nb <$> ids) /\ own ≡ₚ ids ++ own' /\ holds st' ≡ₚ (rxbuf nb <$> own').
Proof.
  intros E. symmetry in E. apply Permutation_map_inv in E as (l3 & E & Hp). symmetry in E. apply fmap_app_inv in E as (ids & own' & E1 & E2 & ->). exists ids, own'. split; [done|]. split; [done|]. by rewrite E2.
Qed.
Lemma recycle_same bufs : forall n n', recycle_all n bufs = Some n' -> last_used (rxq n') = last_used (rxq n).
Proof.
  induction bufs as [|b bufs IH]; intros n n' E; [by injection E as <-|]. cbn [recycle_all] in E. destruct (net_virtio_rxbuf_cleanup n b) as [n1|] eqn:E1; [|done].
  cbn [mbind option_bind] in E. rewrite (IH _ _ E). unfold net_virtio_rxbuf_cleanup, virtioq_enqueue in E1. destruct (avail_ring (rxq n) !! _); [|done]. cbn in E1.
  destruct (used_flags (rxq n) =? 0); by injection E1 as <-.
Qed.

(** Taking a used entry and then recycling, or the other way round as the
    driver does it, is the same. *)
Lemma rx_done_eq n st d l de :
  used_ring (rxq n) !! Z.to_nat (last_used (rxq n) mod size (rxq n)) = Some (d, l) -> desc (rxq n) !! Z.to_nat d = Some de ->
  rx_done n st =
    (let '(st', back) := receive st (mk_rx (u32 (u32 (addr de) + VHDR_SIZE)) (u16 (l - VHDR_SIZE))) in
     n' ← recycle_all (set_rxq n (set_last_used (rxq n) (u16 (last_used (rxq n) + 1)))) back; Some (n', st')).
Proof.
  intros E1 E2. unfold rx_done. rewrite E1. cbn [mbind option_bind]. rewrite E2. cbn [mbind option_bind]. destruct (receive _ _) as [st' back]. rewrite recycle_last_used.
  destruct (recycle_all n back) as [n'|] eqn:E; [|done]. cbn [mbind option_bind]. by rewrite (recycle_same _ _ _ E).
Qed.

Lemma rx_done_ok n st dv u d us : rx_inv n st dv u (d :: us) ->
  exists n' st', rx_done n st = Some (n', st') /\ rx_inv n' st' dv u us /\ txq n' = txq n /\ freed n' = freed n /\ used_idx (rxq n') = used_idx (rxq n).
Proof.
  intros [(a & c & av & own & Hr & Hh) Haddr [Hp Hb]]. destruct (consume_ring _ _ _ _ _ _ _ _ _ _ _ Hr) as ((l & El) & _ & Hr1).
  assert (Hd : 0 <= d < size (rxq n) - 1) by (eapply ring_id; [done|]; set_solver). destruct (Haddr d Hd) as (de & Ede & Ead). rewrite (rx_done_eq n st d l de El Ede). unfold FRAME_SIZE, VHDR_SIZE in *.
  assert (Ebuf : u32 (u32 (addr de) + 10) = rxbuf (netbuf n) d) by (rewrite Ead; unfold rxbuf, FRAME_SIZE, VHDR_SIZE; rewrite (u32_small (netbuf n + 2048 * d)), u32_small by (unfold in_u32; lia); done).
  destruct (receive st _) as [st' back] eqn:Erec. apply receive_law in Erec. cbn [rx_buf] in Erec. rewrite Ebuf, Hh in Erec.
  destruct (back_ids (netbuf n) (d :: own) back st' Erec) as (ids & own' & -> & Ho & Hh').
  destruct (recycle_ring ids (set_rxq n (set_last_used (rxq n) (u16 (last_used (rxq n) + 1)))) _ _ _ _ _ _ _ _ _ own' Hr1 Ho Hp Hb) as (n' & a' & av' & E' & Hr' & (Ht & Hn & Hf & Hs & Hde & Hui & _)).
  cbn [netbuf set_rxq] in E'. rewrite E'. cbn [mbind option_bind]. exists n', st'. split; [done|]. cbn in Ht, Hn, Hf, Hs, Hde, Hui. split; [|done]. constructor; rewrite ?Hs, ?Hn, ?Hde; [|done|done].
  by exists a', (c + 1), av', own'.
Qed.

Lemma rx_loop_ok us : forall k n st dv u, rx_inv n st dv u us -> (length us <= k)%nat ->
  exists n' st', rx_loop k n st (used_idx (rxq n)) = Some (n', st') /\ rx_inv n' st' dv u [] /\ txq n' = txq n /\ freed n' = freed n.
Proof.
  induction us as [|d us IH]; intros k n st dv u Hi Hk; pose proof Hi as [(a & c & av & own & Hr & Hh) _ _]; pose proof (consumed_all _ _ _ _ _ _ _ _ _ _ Hr) as Ec; simpl in Ec, Hk.
  - exists n, st. split; [destruct k; cbn [rx_loop]; by rewrite Ec|done].
  - destruct k as [|k]; [lia|]. cbn [rx_loop]. rewrite Ec. destruct (rx_done_ok n st dv u d us Hi) as (n1 & st1 & -> & Hi1 & Ht1 & Hf1 & Hu1). cbn [mbind option_bind].
    destruct (IH k n1 st1 dv u Hi1 ltac:(lia)) as (n2 & st2 & E2 & Hi2 & Ht2 & Hf2). rewrite Hu1 in E2. exists n2, st2. split; [done|]. split; [done|]. split; congruence.
Qed.

Lemma release_ok n st dv u us : rx_inv n st dv u us -> exists n' st', stack_release n st = Some (n', st') /\ rx_inv n' st' dv u us /\ txq n' = txq n /\ freed n' = freed n.
Proof.
  intros [(a & c & av & own & Hr & Hh) Haddr [Hp Hb]]. unfold stack_release. destruct (release st) as [st' back] eqn:E. apply release_law in E. rewrite Hh in E.
  destruct (back_ids (netbuf n) own back st' E) as (ids & own' & -> & Ho & Hh').
  destruct (recycle_ring ids n _ _ _ _ _ _ _ _ _ own' Hr Ho Hp Hb) as (n' & a' & av' & -> & Hr' & (Ht & Hn & Hf & Hs & Hde & _)). cbn [mbind option_bind].
  exists n', st'. split; [done|]. split; [|done]. constructor; rewrite ?Hs, ?Hn, ?Hde; [|done|done]. by exists a', c, av', own'.
Qed.

(** Flags of the available ring do not matter to the partition. *)
Lemma ring_flags q n a t u c av held us own f : ring_inv q n a t u c av held us own -> ring_inv (no_intr q f) n a t u c av held us own.
Proof. by intros []. Qed.

Lemma rx_flags n st dv u us f : rx_inv n st dv u us -> rx_inv (set_rxq n (no_intr (rxq n) f)) st dv u us.
Proof. intros [(a & c & av & own & Hr & Hh) Haddr Ha]. constructor; [|done|done]. exists a, c, av, own. split; [by apply ring_flags|done]. Qed.

End Stack.

(** ** Sent frames *)

Definition addr_of (q : virtioq) (i : Z) : Z := match desc q !! Z.to_nat i with Some d => addr d | None => 0 end.

(** A descriptor is free exactly when its address is 0; the frames sent are those
    whose buffers were released and those still under way. *)
Record tx_inv (n : virtio_net_device) (dv : vio_dev) (sent : list Z) (u : Z) (us : list Z) : Prop := {
  tx_ring : exists a c av own, ring_inv (txq n) (size (txq n)) a (taken dv) u c av (d_held dv) us own /\
    (forall i, 0 <= i < size (txq n) -> (addr_of (txq n) i = 0 <-> i ∈ own)) /\
    sent ≡ₚ freed n ++ (addr_of (txq n) <$> av ++ d_held dv ++ us);
  tx_addr : forall i, 0 <= i -> 0 <= addr_of (txq n) i < 4294967296 }.

Lemma addr_of_insert q i de : 0 <= i -> (Z.to_nat i < length (desc q))%nat -> forall j, 0 <= j -> addr_of (set_desc q (<[Z.to_nat i := de]> (desc q))) j = if j =? i then addr de else addr_of q j.
Proof.
  intros Hi Hl j Hj. unfold addr_of. cbn. destruct (Z.eqb_spec j i) as [->|Hne]; [by rewrite list_lookup_insert_eq|]. by rewrite list_lookup_insert_ne by lia.
Qed.

Lemma fmap_addr_ext q q' (l : list Z) : (forall j, j ∈ l -> addr_of q' j = addr_of q j) -> (addr_of q' <$> l) = (addr_of q <$> l).
Proof. intros H. apply map_ext_in. intros j Hj. apply H. by apply list_elem_of_In. Qed.

Lemma ring_desc q n a t u c av held us own l : ring_inv q n a t u c av held us own -> length l = length (desc q) -> ring_inv (set_desc q l) n a t u c av held us own.
Proof. intros [Hs (H1 & H2 & H3) Hi Hc Hav Hus Hp] E. constructor; try done. cbn. by rewrite E. Qed.

Lemma ring_own_nodup q n a t u c av held us own : ring_inv q n a t u c av held us own -> NoDup own.
Proof.
  intros H. assert (Hnd : NoDup (av ++ held ++ us ++ own)) by (rewrite (ri_part _ _ _ _ _ _ _ _ _ _ H); apply NoDup_seqZ). rewrite !app_assoc in Hnd. by apply NoDup_app in Hnd as (_ & _ & Hnd).
Qed.

Lemma ring_disjoint q n a t u c av held us own d : ring_inv q n a t u c av held us own -> d ∈ av ++ held ++ us -> d ∉ own.
Proof.
  intros H Hd Ho. assert (Hnd : NoDup (av ++ held ++ us ++ own)) by (rewrite (ri_part _ _ _ _ _ _ _ _ _ _ H); apply NoDup_seqZ). rewrite !app_assoc in Hnd. rewrite <- (app_assoc av) in Hnd.
  apply NoDup_app in Hnd as (_ & Hx & _). by apply (Hx d).
Qed.

Lemma tx_done_ok n dv sent u d us : tx_inv n dv sent u (d :: us) ->
  exists n', tx_done n = Some n' /\ tx_inv n' dv sent u us /\ rxq n' = rxq n /\ netbuf n' = netbuf n /\ used_idx (txq n') = used_idx (txq n).
Proof.
  intros [(a & c & av & own & Hr & Ho & Hsent) Haddr]. destruct (consume_ring _ _ _ _ _ _ _ _ _ _ _ Hr) as ((l & El) & _ & Hr1).
  assert (Hd : 0 <= d < size (txq n)) by (eapply ring_id; [done|]; set_solver). pose proof (ri_lens _ _ _ _ _ _ _ _ _ _ Hr) as (_ & _ & Hlen).
  assert (Hno : d ∉ own) by (eapply ring_disjoint; [done|]; set_solver). assert (Hno' : d ∉ av ++ d_held dv ++ us).
  { intros Hin. apply (ring_disjoint _ _ _ _ _ _ _ _ _ _ d Hr1 Hin). set_solver. }
  destruct (lookup_lt_is_Some_2 (desc (txq n)) (Z.to_nat d) ltac:(lia)) as [de Ede].
  assert (Ead : addr_of (txq n) d = addr de) by (unfold addr_of; by rewrite Ede). pose proof (Haddr d ltac:(lia)) as Hb. assert (Hnz : addr de <> 0) by (rewrite <- Ead; intros E; by apply Ho in E).
  unfold tx_done. rewrite El. cbn [mbind option_bind]. rewrite Ede. cbn [mbind option_bind]. eexists. split; [done|]. unfold net_virtio_frame_free. rewrite u32_small by (unfold in_u32; lia).
  destruct (Z.eqb_spec (addr de) 0) as [?|_]; [done|]. split; [|done].
  set (q1 := set_desc (txq n) (<[Z.to_nat d := mk_desc 0 (len de) (flags de) (next de)]> (desc (txq n)))).
  assert (Eaddr : forall j, 0 <= j -> addr_of (set_last_used q1 (u16 (last_used (txq n) + 1))) j = if j =? d then 0 else addr_of (txq n) j).
  { intros j Hj. apply (addr_of_insert (txq n) d (mk_desc 0 (len de) (flags de) (next de))); lia. }
  constructor.
  - exists a, (c + 1), av, (d :: own). cbn [txq set_txq]. split; [apply (ring_desc _ _ _ _ _ _ _ _ _ _ _ Hr1); apply length_insert|]. split.
    + cbn [size set_last_used q1 set_desc]. intros i Hi. rewrite Eaddr by lia. destruct (Z.eqb_spec i d) as [->|Hne]; [set_solver|]. rewrite Ho by done. set_solver.
    + rewrite (fmap_addr_ext (txq n)); [|intros j Hj; rewrite Eaddr by (eapply ring_id; [exact Hr|]; set_solver); by destruct (Z.eqb_spec j d) as [->|]].
      cbn [freed set_txq set_pm]. rewrite Hsent, !fmap_app. cbn [fmap list_fmap]. rewrite Ead. rewrite !app_assoc. by rewrite <- Permutation_middle.
  - cbn [txq set_txq]. intros i Hi. rewrite Eaddr by done. destruct (i =? d); [lia|by apply Haddr].
Qed.

Lemma tx_loop_ok us : forall k n dv sent u, tx_inv n dv sent u us -> (length us <= k)%nat ->
  exists n', tx_loop k n (used_idx (txq n)) = Some n' /\ tx_inv n' dv sent u [] /\ rxq n' = rxq n /\ netbuf n' = netbuf n.
Proof.
  induction us as [|d us IH]; intros k n dv sent u Hi Hk; pose proof Hi as [(a & c & av & own & Hr & Hh) _]; pose proof (consumed_all _ _ _ _ _ _ _ _ _ _ Hr) as Ec; simpl in Ec, Hk.
  - exists n. split; [destruct k; cbn [tx_loop]; by rewrite Ec|done].
  - destruct k as [|k]; [lia|]. cbn [tx_loop]. rewrite Ec. destruct (tx_done_ok n dv sent u d us Hi) as (n1 & -> & Hi1 & Ht1 & Hn1 & Hu1). cbn [mbind option_bind].
    destruct (IH k n1 dv sent u Hi1 ltac:(lia)) as (n2 & E2 & Hi2 & Ht2 & Hn2). rewrite Hu1 in E2. exists n2. split; [done|]. split; [done|]. split; congruence.
Qed.

Lemma find_free_spec l : forall i j, find_free l i = Some j -> i <= j < i + Z.of_nat (length l) /\ exists d, l !! Z.to_nat (j - i) = Some d /\ addr d = 0.
Proof.
  induction l as [|d l IH]; intros i j E; [done|]. cbn [find_free] in E. destruct (Z.eqb_spec (addr d) 0) as [H0|_].
  - injection E as <-. simpl length. split; [lia|]. exists d. by rewrite Z.sub_diag.
  - apply IH in E as (Hj & d' & Hd' & H0). simpl length. split; [lia|]. exists d'. split; [|done]. by replace (Z.to_nat (j - i)) with (S (Z.to_nat (j - (i + 1)))) by lia.
Qed.

Lemma find_free_none l : forall i, find_free l i = None -> forall d, d ∈ l -> addr d <> 0.
Proof.
  induction l as [|d l IH]; intros i E x Hx; [by apply elem_of_nil in Hx|]. cbn [find_free] in E. destruct (Z.eqb_spec (addr d) 0) as [H0|H0]; [done|].
  apply elem_of_cons in Hx as [->|Hx]; [done|by eapply IH].
Qed.

(** Sending hands the buffer to the device, or finds every descriptor under way. *)
Lemma tx_enqueue_ok n dv sent u us buf eth_len : tx_inv n dv sent u us -> VHDR_SIZE < buf < 4294967296 ->
  exists n' ret, net_virtio_tx_enqueue n buf eth_len = Some (n', ret) /\ rxq n' = rxq n /\ netbuf n' = netbuf n /\ freed n' = freed n /\
    ((ret = 0 /\ tx_inv n' dv (buf - VHDR_SIZE :: sent) u us) \/
     (ret = ENOMEM /\ tx_inv n' dv sent u us /\ forall i, 0 <= i < size (txq n) -> addr_of (txq n) i <> 0)).
Proof.
  unfold VHDR_SIZE. intros [(a & c & av & own & Hr & Ho & Hsent) Haddr] Hbuf. pose proof (ri_lens _ _ _ _ _ _ _ _ _ _ Hr) as (_ & _ & Hlen). pose proof (ri_size _ _ _ _ _ _ _ _ _ _ Hr) as (Hs & _).
  unfold net_virtio_tx_enqueue. cbn [txq set_mem VHDR_SIZE]. rewrite take_ge by lia. rewrite u32_small by (unfold in_u32, VHDR_SIZE; lia). destruct (find_free (desc (txq n)) 0) as [i|] eqn:Ef.
  2:{ eexists _, _. do 4 (split; [done|]). right. split; [done|]. split; [constructor; [by exists a, c, av, own|done]|]. intros i Hi. unfold addr_of.
      destruct (lookup_lt_is_Some_2 (desc (txq n)) (Z.to_nat i) ltac:(lia)) as [de Ede]. rewrite Ede. apply (find_free_none _ _ Ef). by eapply list_elem_of_lookup_2. }
  apply find_free_spec in Ef as (Hi & de & Ede & H0). rewrite Z.sub_0_r in Ede. rewrite Ede. cbn [mbind option_bind]. rewrite u16_small by (unfold in_u16; lia).
  assert (Hio : i ∈ own) by (apply Ho; [lia|]; unfold addr_of; by rewrite Ede). apply elem_of_Permutation in Hio as [own' Hown].
  set (de' := mk_desc (buf - VHDR_SIZE) (u32 (VHDR_SIZE + eth_len + 4)) 0 (next de)). set (q1 := set_desc (txq n) (<[Z.to_nat i := de']> (desc (txq n)))).
  assert (Hr1 : ring_inv q1 (size (txq n)) a (taken dv) u c av (d_held dv) us own) by (apply ring_desc; [done|apply length_insert]).
  destruct (enqueue_ring _ _ _ _ _ _ _ _ _ _ i own' Hr1 Hown) as (q2 & E2 & Hr2 & (Hsz & Hde & _)). rewrite E2. cbn [mbind option_bind]. eexists _, _. do 4 (split; [done|]). left. split; [done|].
  assert (Eaddr : forall j, 0 <= j -> addr_of q2 j = if j =? i then buf - VHDR_SIZE else addr_of (txq n) j).
  { intros j Hj. unfold addr_of at 1. rewrite Hde. apply (addr_of_insert (txq n) i de'); lia. }
  assert (Hni : forall j, j ∈ av ++ d_held dv ++ us -> j <> i) by (intros j Hj ->; apply (ring_disjoint _ _ _ _ _ _ _ _ _ _ i Hr Hj); rewrite Hown; set_solver).
  assert (Hno : i ∉ own') by (pose proof (ring_own_nodup _ _ _ _ _ _ _ _ _ _ Hr) as Hnd; rewrite Hown in Hnd; by apply NoDup_cons in Hnd as [? _]).
  constructor; cbn [txq set_txq].
  - exists (a + 1), c, (av ++ [i]), own'. rewrite Hsz. split; [done|]. split.
    + intros j Hj. rewrite Eaddr by lia. unfold VHDR_SIZE. destruct (Z.eqb_spec j i) as [->|Hne]; [split; [lia|done]|]. rewrite Ho, Hown by done. set_solver.
    + cbn [freed set_txq set_mem]. rewrite <- app_assoc, !fmap_app. cbn [fmap list_fmap]. rewrite Eaddr, Z.eqb_refl by lia. rewrite Hsent, !fmap_app.
      rewrite !(fmap_addr_ext (txq n) q2) by (intros j Hj; rewrite Eaddr by (eapply ring_id; [exact Hr|]; set_solver); destruct (Z.eqb_spec j i) as [->|]; [|done]; exfalso; eapply Hni; [|reflexivity]; set_solver).
      change (buf - 10) with (buf - VHDR_SIZE). rewrite Permutation_middle. f_equiv. by rewrite Permutation_middle.
  - intros j Hj. rewrite Eaddr by done. unfold VHDR_SIZE. destruct (j =? i); [lia|by apply Haddr].
Qed.

(** ** What the rings hold *)

(** The entries the device has not taken, and those the driver has not seen. *)
Definition avail_entries (q : virtioq) (t : Z) : list Z :=
  (fun j => default 0 (avail_ring q !! slot (t + Z.of_nat j) (size q))) <$> seq 0 (Z.to_nat ((avail_idx q - t) mod 65536)).
Definition used_entries (q : virtioq) : list Z :=
  (fun j => default 0 (fst <$> used_ring q !! slot (last_used q + Z.of_nat j) (size q))) <$> seq 0 (Z.to_nat ((used_idx q - last_used q) mod 65536)).

Lemma seq_entries (f : nat -> Z) l k : k = length l -> (forall j d, l !! j = Some d -> f j = d) -> (f <$> seq 0 k) = l.
Proof.
  intros -> H. apply list_eq. intros j. rewrite list_lookup_fmap. destruct (l !! j) as [d|] eqn:E.
  - rewrite lookup_seq_lt by (by eapply lookup_lt_Some). cbn. by rewrite (H _ _ E).
  - rewrite lookup_seq_ge; [done|]. by apply lookup_ge_None_1.
Qed.

Lemma ring_avail q n a t u c av held us own : ring_inv q n a t u c av held us own -> avail_entries q t = av.
Proof.
  intros H. pose proof (ring_length _ _ _ _ _ _ _ _ _ _ H) as Hl. destruct H as [Hs _ (Ha & _ & _) Hc Hav _ _]. apply seq_entries.
  - rewrite Ha, Zminus_mod_idemp_l. replace (a - t) with (Z.of_nat (length av)) by lia. rewrite Z.mod_small by lia. lia.
  - intros j d Hj. by rewrite (Hav _ _ Hj).
Qed.

Lemma ring_used q n a t u c av held us own : ring_inv q n a t u c av held us own -> used_entries q = us.
Proof.
  intros H. pose proof (ring_length _ _ _ _ _ _ _ _ _ _ H) as Hl. destruct H as [Hs _ (_ & Hu & Hlu) Hc _ Hus _]. apply seq_entries.
  - rewrite Hu, Hlu, <- Zminus_mod. replace (u - c) with (Z.of_nat (length us)) by lia. rewrite Z.mod_small by lia. lia.
  - intros j d Hj. destruct (Hus _ _ Hj) as [l El]. unfold slot in *. rewrite Hlu.
    rewrite <- (Z.mod_mod_divide (c mod 65536 + Z.of_nat j) 65536 (size q)), Zplus_mod_idemp_l, Z.mod_mod_divide by tauto. by rewrite El.
Qed.

(** ** The driver's operations *)

Lemma rx_inv_ext {St} `{!RxClient St} n n' (st : St) dv u us : rxq n' = rxq n -> netbuf n' = netbuf n -> rx_inv n st dv u us -> rx_inv n' st dv u us.
Proof. intros E1 E2 []. constructor; by rewrite ?E1, ?E2. Qed.

Lemma tx_inv_ext n n' dv sent u us : txq n' = txq n -> freed n' = freed n -> tx_inv n dv sent u us -> tx_inv n' dv sent u us.
Proof. intros E1 E2 []. constructor; by rewrite ?E1, ?E2. Qed.

Lemma tx_flags n dv sent u us f : tx_inv n dv sent u us -> tx_inv (set_txq n (no_intr (txq n) f)) dv sent u us.
Proof. intros [(a & c & av & own & Hr & H) Ha]. constructor; [|done]. exists a, c, av, own. split; [by apply ring_flags|done]. Qed.

Lemma us_bound q n a t u c av held us own : ring_inv q n a t u c av held us own -> (length us <= Z.to_nat 65536)%nat.
Proof. intros H. pose proof (ring_length _ _ _ _ _ _ _ _ _ _ H). pose proof (ri_size _ _ _ _ _ _ _ _ _ _ H). lia. Qed.

Section Driver.
Context {St : Type} `{!RxClient St}.

Definition card_inv (n : virtio_net_device) (st : St) (rd td : vio_dev) (sent : list Z) (rus tus : list Z) : Prop :=
  (exists u, rx_inv n st rd u rus) /\ (exists u, tx_inv n td sent u tus).

Lemma poll_upto_ok k n st rd td sent rus tus : card_inv n st rd td sent rus tus -> (length rus <= k)%nat -> (length tus <= k)%nat ->
  exists n' st', poll_upto k n st = Some (n', st') /\ card_inv n' st' rd td sent [] [].
Proof.
  intros [[u Hrx] [v Htx]] Hk1 Hk2. unfold poll_upto. apply (tx_flags _ _ _ _ _ 1) in Htx. destruct (tx_loop_ok tus k _ _ _ _ Htx Hk2) as (n1 & -> & Htx1 & Er1 & En1). cbn [mbind option_bind].
  apply (tx_flags _ _ _ _ _ 0) in Htx1. set (n2 := set_txq n1 (no_intr (txq n1) 0)) in *. assert (Hrx2 : rx_inv n2 st rd u rus) by (eapply rx_inv_ext; [| |done]; done).
  apply (rx_flags _ _ _ _ _ 1) in Hrx2. destruct (rx_loop_ok rus k _ _ _ _ Hrx2 Hk1) as (n3 & st3 & -> & Hrx3 & Et3 & Ef3). cbn [mbind option_bind]. eexists _, _. split; [done|]. split.
  - exists u. by apply rx_flags.
  - exists v. eapply tx_inv_ext; [| |exact Htx1]; done.
Qed.

Lemma poll_ok n st rd td sent rus tus : card_inv n st rd td sent rus tus -> exists n' st', net_virtio_poll n st = Some (n', st') /\ card_inv n' st' rd td sent [] [].
Proof.
  intros H. pose proof H as [[u [(a & c & av & own & Hr & _) _ _]] [v [(a' & c' & av' & own' & Hr' & _) _]]].
  exact (poll_upto_ok _ _ _ _ _ _ _ _ H (us_bound _ _ _ _ _ _ _ _ _ _ Hr) (us_bound _ _ _ _ _ _ _ _ _ _ Hr')).
Qed.

Lemma irq_ok n st rd td sent rus tus isr : card_inv n st rd td sent rus tus ->
  exists n' st' rus' tus', net_virtio_irq n st isr = Some (n', st') /\ card_inv n' st' rd td sent rus' tus' /\ (Z.land isr 1 <> 0 -> rus' = [] /\ tus' = []).
Proof.
  intros H. unfold net_virtio_irq. destruct (Z.eqb_spec (Z.land isr 1) 0); cbn [negb].
  - by exists n, st, rus, tus.
  - destruct (poll_ok _ _ _ _ _ _ _ H) as (n' & st' & E & H'). by exists n', st', [], [].
Qed.

Lemma release_card n st rd td sent rus tus : card_inv n st rd td sent rus tus -> exists n' st', stack_release n st = Some (n', st') /\ card_inv n' st' rd td sent rus tus.
Proof.
  intros [[u Hrx] [v Htx]]. destruct (release_ok _ _ _ _ _ Hrx) as (n' & st' & E & H' & Et & Ef). exists n', st'. split; [done|]. split; [by exists u|]. exists v. by eapply tx_inv_ext.
Qed.

Lemma send_card n st rd td sent rus tus buf eth_len : card_inv n st rd td sent rus tus -> VHDR_SIZE < buf < 4294967296 ->
  exists n' ret, net_virtio_tx_enqueue n buf eth_len = Some (n', ret) /\ (ret = 0 \/ ret = ENOMEM) /\ card_inv n' st rd td (if ret =? 0 then buf - VHDR_SIZE :: sent else sent) rus tus.
Proof.
  intros [[u Hrx] [v Htx]] Hb. destruct (tx_enqueue_ok _ _ _ _ _ _ eth_len Htx Hb) as (n' & ret & E & Er & En & Ef & H). exists n', ret. split; [done|].
  assert (Hrx' : rx_inv n' st rd u rus) by (by eapply rx_inv_ext). destruct H as [(-> & H)|(-> & H & _)]; (split; [tauto|]); split; by eexists.
Qed.

Lemma rx_dev_card n st rd td sent rus tus q dv : card_inv n st rd td sent rus tus -> dev_step (rxq n) rd q dv -> exists rus', card_inv (set_rxq n q) st dv td sent rus' tus.
Proof.
  intros [[u Hrx] [v Htx]] Hd. destruct Hrx as [(a & c & av & own & Hr & Hh) Haddr Harea]. destruct (dev_step_ring _ _ _ _ _ _ _ _ _ _ _ Hr Hd) as (u' & av' & us' & Hr' & _ & Es & Ed).
  exists us'. split; [|exists v; eapply tx_inv_ext; [| |exact Htx]; done]. exists u'. constructor; cbn [rxq set_rxq netbuf]; rewrite ?Es, ?Ed; [|done|done]. by exists a, c, av', own.
Qed.

Lemma tx_dev_card n st rd td sent rus tus q dv : card_inv n st rd td sent rus tus -> dev_step (txq n) td q dv -> exists tus', card_inv (set_txq n q) st rd dv sent rus tus'.
Proof.
  intros [[u Hrx] [v Htx]] Hd. destruct Htx as [(a & c & av & own & Hr & Ho & Hs) Haddr]. destruct (dev_step_ring _ _ _ _ _ _ _ _ _ _ _ Hr Hd) as (u' & av' & us' & Hr' & Hp & Es & Ed).
  assert (Ea : forall i, addr_of q i = addr_of (txq n) i) by (intros i; unfold addr_of; by rewrite Ed).
  exists us'. split; [exists u; eapply rx_inv_ext; [| |exact Hrx]; done|]. exists u'. constructor; cbn [txq set_txq freed].
  - exists a, c, av', own. rewrite Es. split; [done|]. split; [intros i; rewrite Ea; apply Ho|]. rewrite Hs. rewrite (fmap_addr_ext (txq n) q) by (intros; apply Ea). by rewrite Hp.
  - intros i. rewrite Ea. apply Haddr.
Qed.

End Driver.

(** ** Set-up *)

Definition queue_size (s : Z) : Prop := 0 < s < 65536 /\ (s | 65536).

Definition fresh_queue (q : virtioq) (last qsz : Z) : Prop :=
  size q = qsz /\ last_used q = last /\ desc q = replicate (Z.to_nat qsz) zero_desc /\ avail_idx q = 0 /\ avail_ring q = replicate (Z.to_nat qsz) 0 /\
  used_idx q = 0 /\ used_ring q = replicate (Z.to_nat qsz) (0, 0).

Lemma u32_pages x : 0 <= PM.pagealign_up x / PAGE_BYTES < 2 ^ 31.
Proof. unfold PM.pagealign_up, PAGE_BYTES. cbv zeta. destruct (_ =? 0); unfold u32; zlia. Qed.

Lemma vring_alloc_ok pm last qsz pm' q : PM.pmem_wf pm -> virtio_vring_alloc pm last qsz = (pm', inl q) -> PM.pmem_wf pm' /\ fresh_queue q last qsz.
Proof.
  intros Hwf. unfold virtio_vring_alloc. cbv zeta. set (np := PM.pagealign_up _ / PAGE_BYTES). assert (Hnp : 0 <= np < 2 ^ 31) by apply u32_pages. destruct (PM.pmem_alloc pm np) as [p1 qm] eqn:E.
  destruct (PM.pmem_alloc_ok _ _ _ _ Hwf Hnp E) as [(-> & -> & _)|(_ & _ & _ & Hwf1 & Hp & _)]; [by intros [=]|].
  destruct (Z.eqb_spec qm 0); [lia|]. intros [= <- <-]. split; [done|]. by repeat split.
Qed.

Lemma vring_alloc_err pm last qsz pm' e : virtio_vring_alloc pm last qsz = (pm', inr e) -> e = - ENOMEM.
Proof. unfold virtio_vring_alloc. cbv zeta. destruct (PM.pmem_alloc _ _) as [p1 qm]. destruct (qm =? 0); by intros [=]. Qed.

Lemma tx_fresh q s : fresh_queue q 0 s -> queue_size s -> ring_inv q s 0 0 0 0 [] [] [] (seqZ 0 s).
Proof.
  intros (Es & El & Ed & Eai & Ea & Eui & Eu) [Hs Hd]. constructor; rewrite ?Es, ?El, ?Ed, ?Eai, ?Ea, ?Eui, ?Eu; rewrite ?length_replicate; try done; [split; [done|]; split; [done|lia]].
Qed.

Definition rx_desc (nb i : Z) : vring_desc := mk_desc (u32 (nb + FRAME_SIZE * i)) FRAME_SIZE VIRTQ_DESC_F_WRITE 0.

(** The loop fills the descriptors and the ring from [i] on. *)
Lemma fill_loop_spec nb k : forall q i, 0 <= i -> (Z.to_nat i + k <= length (desc q))%nat -> (Z.to_nat i + k <= length (avail_ring q))%nat ->
  let q' := fill_loop k q nb i in
  (size q' = size q /\ last_used q' = last_used q /\ used_idx q' = used_idx q /\ used_ring q' = used_ring q /\ length (desc q') = length (desc q) /\ length (avail_ring q') = length (avail_ring q)) /\
  (forall j, (j < Z.to_nat i)%nat -> desc q' !! j = desc q !! j /\ avail_ring q' !! j = avail_ring q !! j) /\
  (forall j, i <= j < i + Z.of_nat k -> desc q' !! Z.to_nat j = Some (rx_desc nb j) /\ avail_ring q' !! Z.to_nat j = Some (u16 j)).
Proof.
  induction k as [|k IH]; intros q i Hi H1 H2; cbn [fill_loop]; [split; [done|]; split; [done|]; lia|].
  set (q1 := set_avail _ _ _ _). destruct (IH q1 (i + 1)) as ((Es & El & Eu & Er & Ld & La) & Hlo & Hhi); [lia|unfold q1; cbn; rewrite length_insert; lia|unfold q1; cbn; rewrite length_insert; lia|].
  split; [unfold q1 in *; cbn in *; by rewrite Es, El, Eu, Er, Ld, La, !length_insert|]. split.
  - intros j Hj. destruct (Hlo j ltac:(lia)) as [-> ->]. unfold q1. cbn. by rewrite !list_lookup_insert_ne by lia.
  - intros j Hj. destruct (decide (j = i)) as [->|Hne]; [|apply Hhi; lia]. destruct (Hlo (Z.to_nat i) ltac:(lia)) as [-> ->]. unfold q1. cbn. by rewrite !list_lookup_insert_eq by lia.
Qed.

Lemma rx_fresh q s nb f : fresh_queue q 0 s -> queue_size s -> let q1 := fill_loop (Z.to_nat (size q - 1)) q nb 0 in
  ring_inv (set_avail q1 f (u16 (size q1 - 1)) (avail_ring q1)) (s - 1) (s - 1) 0 0 0 (seqZ 0 (s - 1)) [] [] [] /\ size q1 = s /\
  forall i, 0 <= i < s - 1 -> desc q1 !! Z.to_nat i = Some (rx_desc nb i).
Proof.
  intros (Es & El & Ed & Eai & Ea & Eui & Eu) [Hs Hd]. cbv zeta.
  destruct (fill_loop_spec nb (Z.to_nat (size q - 1)) q 0) as ((Es' & El' & Eu' & Er' & Ld & La) & _ & Hhi); [lia|rewrite Ed, length_replicate; lia|rewrite Ea, length_replicate; lia|].
  set (q1 := fill_loop _ _ _ _) in *. rewrite Es in *. split; [|split; [done|]; intros i Hi; apply Hhi; lia].
  constructor; cbn [size avail_ring used_ring desc avail_idx used_idx last_used set_avail]; rewrite ?Es', ?El', ?Eu', ?Er', ?Ld, ?La, ?Eui, ?Eu, ?Ed, ?Ea, ?El, ?length_replicate; try done.
  - split; [done|]. split; [done|lia].
  - rewrite length_seqZ. simpl. lia.
  - intros j d Hj. apply lookup_seqZ in Hj as [-> Hj]. unfold slot. rewrite Z.mod_small by lia. destruct (Hhi (0 + Z.of_nat j) ltac:(lia)) as [_ ->]. by rewrite u16_small by (unfold in_u16; lia).
  - by rewrite !app_nil_r.
Qed.

Section SetUp.
Context {St : Type} `{!RxClient St}.

Definition start_dev : vio_dev := mk_dev 0 [].

Lemma setup_card n st tx_size rx_size drv n' : PM.pmem_wf (pm n) -> queue_size tx_size -> queue_size rx_size -> last_used (txq n) = 0 -> last_used (rxq n) = 0 -> freed n = [] -> holds st = [] ->
  net_virtio_setup n tx_size rx_size drv = (n', 0) -> card_inv n' st start_dev start_dev [] [] [].
Proof.
  intros Hwf Ht Hr Et Er Ef Eh. pose proof Ht as [Ht1 _]. pose proof Hr as [Hr1 _]. unfold net_virtio_setup. cbv zeta. cbn [out set_txq set_rxq set_pm set_netbuf pm txq rxq netbuf freed last_used].
  assert (E1 : (0 <? tx_size) = true) by lia. assert (E2 : (0 <? rx_size) = true) by lia. rewrite E1, E2, Et, Er. cbn [negb]. destruct (virtio_vring_alloc (pm n) 0 tx_size) as [p1 [q1|e]] eqn:A1; [|apply vring_alloc_err in A1 as ->; by intros [=]].
  destruct (vring_alloc_ok _ _ _ _ _ Hwf A1) as [Hwf1 Hq1]. cbn [out set_txq set_rxq set_pm set_netbuf pm txq rxq netbuf freed]. destruct (virtio_vring_alloc p1 0 rx_size) as [p2 [q2|e]] eqn:A2; [|apply vring_alloc_err in A2 as ->; by intros [=]].
  destruct (vring_alloc_ok _ _ _ _ _ Hwf1 A2) as [Hwf2 Hq2]. set (np := PM.pagealign_up _ / PAGE_BYTES). cbn [out set_txq set_rxq set_pm set_netbuf pm txq rxq netbuf freed].
  destruct (PM.pmem_alloc p2 np) as [p3 nb] eqn:A3. destruct (PM.pmem_alloc_ok _ _ _ _ Hwf2 (u32_pages _) A3) as [(-> & -> & _)|(_ & _ & _ & _ & Hp & Hb)]; [by intros [=]|].
  destruct (Z.eqb_spec nb 0); [lia|]. intros [= <-]. pose proof Hq2 as [Es2 _]. 
  assert (Hnp : rx_size * 2048 <= PAGE_BYTES * np).
  { unfold np. rewrite Es2. unfold FRAME_SIZE. rewrite u32_small by (unfold in_u32; lia). destruct (PM.pagealign_up_spec (rx_size * 2048)) as [Hm Hle]; [lia|unfold PAGE_BYTES; lia|]. unfold PAGE_BYTES in *. zlia. }
  destruct (rx_fresh q2 rx_size nb 0 Hq2 Hr) as (Hring & Es & Hdesc). split.
  - exists 0. constructor; cbn [rxq netbuf set_rxq set_features out set_netbuf].
    + exists (rx_size - 1), 0, (seqZ 0 (rx_size - 1)), []. cbn [size set_avail]. rewrite Es. rewrite Es in Hring. split; [exact Hring|]. by rewrite Eh.
    + cbn [size set_avail desc]. rewrite Es. intros i Hi. eexists. split; [by apply Hdesc|]. cbn [addr rx_desc]. unfold FRAME_SIZE. apply u32_small. unfold in_u32. change (2 ^ 32) with 4294967296 in *. lia.
    + cbn [size set_avail]. rewrite Es. unfold FRAME_SIZE. change (2 ^ 32) with 4294967296 in *. lia.
  - exists 0. pose proof Hq1 as (Es1 & _ & Ed1 & _). assert (Ea : forall i, addr_of q1 i = 0) by (intros i; unfold addr_of; rewrite Ed1; destruct (_ !! _) eqn:E; [|done]; by apply lookup_replicate in E as [-> _]).
    constructor; cbn [txq freed set_txq set_rxq set_features out set_netbuf set_pm]; [|intros i _; rewrite Ea; lia]. exists 0, 0, [], (seqZ 0 tx_size). rewrite Es1. split; [by apply tx_fresh|]. split; [|by rewrite Ef].
    intros i Hi. rewrite Ea. split; [|done]. intros _. apply elem_of_seqZ. lia.
Qed.

End SetUp.

(** ** Every interleaving *)

Section System.
Context {St : Type} `{!RxClient St}.

(** The driver, the network stack, the device's ends of both queues, and the
    buffers handed over for sending so far. *)
Record vsys := mk_vs { card : virtio_net_device; stack : St; rxd : vio_dev; txd : vio_dev; sent : list Z }.

Inductive vstep (s : vsys) : vsys -> Prop :=
  | vs_rx_dev q dv : dev_step (rxq (card s)) (rxd s) q dv -> vstep s (mk_vs (set_rxq (card s) q) (stack s) dv (txd s) (sent s))
  | vs_tx_dev q dv : dev_step (txq (card s)) (txd s) q dv -> vstep s (mk_vs (set_txq (card s) q) (stack s) (rxd s) dv (sent s))
  | vs_irq isr n st : net_virtio_irq (card s) (stack s) isr = Some (n, st) -> vstep s (mk_vs n st (rxd s) (txd s) (sent s))
  | vs_release n st : stack_release (card s) (stack s) = Some (n, st) -> vstep s (mk_vs n st (rxd s) (txd s) (sent s))
  | vs_frame n buf : net_virtio_frame_alloc (card s) = (n, buf) -> vstep s (mk_vs n (stack s) (rxd s) (txd s) (sent s))
  | vs_send buf eth_len n ret : VHDR_SIZE < buf < 4294967296 -> net_virtio_tx_enqueue (card s) buf eth_len = Some (n, ret) ->
      vstep s (mk_vs n (stack s) (rxd s) (txd s) (if ret =? 0 then buf - VHDR_SIZE :: sent s else sent s))
  | vs_transmit n ret : net_virtio_transmit (card s) = (n, ret) -> vstep s (mk_vs n (stack s) (rxd s) (txd s) (sent s)).

Definition sys_inv (s : vsys) : Prop := exists rus tus, card_inv (card s) (stack s) (rxd s) (txd s) (sent s) rus tus.

Lemma card_inv_ext n n' (st : St) rd td sn rus tus : rxq n' = rxq n -> txq n' = txq n -> netbuf n' = netbuf n -> freed n' = freed n ->
  card_inv n st rd td sn rus tus -> card_inv n' st rd td sn rus tus.
Proof. intros E1 E2 E3 E4 [[u Hrx] [v Htx]]. split; [exists u; by apply (rx_inv_ext n)|exists v; by apply (tx_inv_ext n)]. Qed.

Lemma vstep_inv s s' : sys_inv s -> vstep s s' -> sys_inv s'.
Proof.
  intros (rus & tus & H) Hs. destruct Hs as [q dv Hd|q dv Hd|isr n st E|n st E|n buf E|buf eth_len n ret Hb E|n ret E]; unfold sys_inv; cbn [card stack rxd txd sent].
  - destruct (rx_dev_card _ _ _ _ _ _ _ _ _ H Hd) as [rus' H']. by exists rus', tus.
  - destruct (tx_dev_card _ _ _ _ _ _ _ _ _ H Hd) as [tus' H']. by exists rus, tus'.
  - destruct (irq_ok _ _ _ _ _ _ _ isr H) as (n' & st' & rus' & tus' & E' & H' & _). rewrite E in E'. injection E' as <- <-. by exists rus', tus'.
  - destruct (release_card _ _ _ _ _ _ _ H) as (n' & st' & E' & H'). rewrite E in E'. injection E' as <- <-. by exists rus, tus.
  - exists rus, tus. unfold net_virtio_frame_alloc in E. destruct (PM.pmem_alloc _ _) as [p b]. destruct (b =? 0); injection E as <- <-; by apply (card_inv_ext (card s)).
  - destruct (send_card _ _ _ _ _ _ _ buf eth_len H Hb) as (n' & ret' & E' & _ & H'). rewrite E in E'. injection E' as <- <-. by exists rus, tus.
  - exists rus, tus. injection E as <- <-. by apply (card_inv_ext (card s)).
Qed.

Lemma vsteps_inv s s' : rtc vstep s s' -> sys_inv s -> sys_inv s'.
Proof. induction 1 as [|s s1 s' Hs _ IH]; [done|]. intros H. apply IH. by eapply vstep_inv. Qed.

(** What the invariant says of the rings as they are in memory. *)
Definition buffers_accounted (s : vsys) : Prop :=
  (rxbuf (netbuf (card s)) <$> avail_entries (rxq (card s)) (taken (rxd s)) ++ d_held (rxd s) ++ used_entries (rxq (card s))) ++ holds (stack s)
    ≡ₚ (rxbuf (netbuf (card s)) <$> seqZ 0 (size (rxq (card s)) - 1)) /\
  sent s ≡ₚ freed (card s) ++ (addr_of (txq (card s)) <$> avail_entries (txq (card s)) (taken (txd s)) ++ d_held (txd s) ++ used_entries (txq (card s))).

Lemma inv_accounted s : sys_inv s -> buffers_accounted s.
Proof.
  intros (rus & tus & [[u [(a & c & av & own & Hr & Hh) _ _]] [v [(a' & c' & av' & own' & Hr' & _ & Hs) _]]]). unfold buffers_accounted.
  rewrite (ring_avail _ _ _ _ _ _ _ _ _ _ Hr), (ring_used _ _ _ _ _ _ _ _ _ _ Hr), (ring_avail _ _ _ _ _ _ _ _ _ _ Hr'), (ring_used _ _ _ _ _ _ _ _ _ _ Hr').
  split; [|done]. rewrite Hh, <- fmap_app, <- !app_assoc. apply fmap_Permutation. exact (ri_part _ _ _ _ _ _ _ _ _ _ Hr).
Qed.

Lemma rxbuf_nodup nb n : NoDup (rxbuf nb <$> seqZ 0 n).
Proof. apply NoDup_fmap_2_strong; [|apply NoDup_seqZ]. intros x y _ _ E. unfold rxbuf, FRAME_SIZE in E. lia. Qed.

Lemma inv_irq s isr : sys_inv s -> Z.land isr 1 <> 0 -> exists n st, net_virtio_irq (card s) (stack s) isr = Some (n, st) /\ used_entries (rxq n) = [] /\ used_entries (txq n) = [].
Proof.
  intros (rus & tus & H) Hi. destruct (irq_ok _ _ _ _ _ _ _ isr H) as (n & st & rus' & tus' & E & H' & Hu). destruct (Hu Hi) as [-> ->]. exists n, st. split; [done|].
  destruct H' as [[u [(a & c & av & own & Hr & _) _ _]] [v [(a' & c' & av' & own' & Hr' & _) _]]]. split; by eapply ring_used.
Qed.

End System.
Arguments vsys : clear implicits.

(** C35: from a card that [net_virtio_init] has set up, however the device takes
    and returns descriptors, interrupts arrive, the stack keeps and releases
    frames and frames are sent: each receive buffer is in exactly one place (the
    available ring, the device, the used ring, or the stack), so the stack never
    reads a frame that the device may write; each buffer handed over for sending
    is released exactly once or still under way; an interrupt handler returns and
    leaves no used entry behind; releasing and sending return too, sending with
    success or with [ENOMEM].  The device takes its steps between the operations
    of the driver, not during them. *)
Theorem virtio_buffers_safe {St} `{!RxClient St} c busy feat macw nic reg p m tx_size rx_size drv n (st : St) s :
  PM.pmem_wf p -> queue_size tx_size -> queue_size rx_size -> holds st = [] -> net_virtio_init c busy feat macw nic reg p m tx_size rx_size drv = InitReady n ->
  rtc vstep (mk_vs n st start_dev start_dev []) s ->
  buffers_accounted s /\ NoDup (holds (stack s)) /\ Forall (fun d => rxbuf (netbuf (card s)) d ∉ holds (stack s)) (d_held (rxd s)) /\
  (forall isr, Z.land isr 1 <> 0 -> exists n' st', net_virtio_irq (card s) (stack s) isr = Some (n', st') /\ used_entries (rxq n') = [] /\ used_entries (txq n') = []) /\
  is_Some (stack_release (card s) (stack s)) /\
  (forall buf eth_len, VHDR_SIZE < buf < 4294967296 -> exists n' ret, net_virtio_tx_enqueue (card s) buf eth_len = Some (n', ret) /\ (ret = 0 \/ ret = ENOMEM)).
Proof.
  intros Hwf Ht Hr Hh Hi Hs. assert (Hinv : sys_inv s).
  { eapply vsteps_inv; [exact Hs|]. exists [], []. revert Hi. unfold net_virtio_init. repeat (destruct (_ : bool); [done|]). cbv zeta. repeat (destruct (_ : bool); [done|]).
    destruct (net_virtio_setup _ _ _ _) as [n1 ret] eqn:E. destruct (Z.eqb_spec ret 0) as [->|]; [|done]. destruct (negb (reg =? 0)); [done|]. intros [= <-]. by eapply setup_card; [| | | | | | |exact E]. }
  pose proof (inv_accounted _ Hinv) as Hacc. pose proof Hacc as [Hrx _]. pose proof (rxbuf_nodup (netbuf (card s)) (size (rxq (card s)) - 1)) as Hnd. rewrite <- Hrx in Hnd.
  split; [done|]. apply NoDup_app in Hnd as (_ & Hdis & Hnd). split; [done|]. split; [|split; [intros isr; by apply inv_irq|]].
  - apply Forall_forall. intros d Hd. apply Hdis. apply list_elem_of_fmap. exists d. split; [done|]. set_solver.
  - destruct Hinv as (rus & tus & H). split; [destruct (release_card _ _ _ _ _ _ _ H) as (n' & st' & -> & _); by eexists|].
    intros buf eth_len Hb. destruct (send_card _ _ _ _ _ _ _ buf eth_len H Hb) as (n' & ret & E & Hret & _). by exists n', ret.
Qed.

(** A stack that keeps every frame and releases the newest one. *)
#[refine] Instance keep_client : RxClient (list Z) := {
  holds := fun st => st;
  receive := fun st f => (rx_buf f :: st, []);
  release := fun st => match st with [] => ([], []) | b :: st => (st, [b]) end }.
Proof.
  - by intros st f st' back [= <- <-].
  - by intros [|b st] st' back [= <- <-].
Defined.

Definition demo_pci : pci_config := mk_pci 0 1 [4278190080; 49217; 0; 0; 0; 0] 11.
Definition demo_nic : option virtio_net_device :=
  match net_virtio_init demo_pci false 65568 [82; 84; 0; 18; 52; 86] 4096 0 (PM.mk_pmem 1024 32768) ∅ 4 4 65568 with InitReady n => Some n | _ => None end.
Definition demo_card : virtio_net_device := default (mk_nic 0 0 0 [] empty_q empty_q 0 0 (PM.mk_pmem 0 0) ∅ [] []) demo_nic.
Definition demo_used : virtioq := put_used (rxq demo_card) 1 [(0, 70); (0, 0); (0, 0); (0, 0)].

(** The device takes an entry, fills its buffer, and interrupts. *)
Lemma receive_one {St} `{!RxClient St} c (st0 : St) d l n st : 0 mod 65536 <> avail_idx (rxq c) -> avail_ring (rxq c) !! slot 0 (size (rxq c)) = Some d ->
  net_virtio_irq (set_rxq c (put_used (rxq c) (u16 (used_idx (rxq c) + 1)) (<[slot (used_idx (rxq c)) (size (rxq c)) := (d, l)]> (used_ring (rxq c))))) st0 1 = Some (n, st) ->
  rtc vstep (mk_vs c st0 start_dev start_dev []) (mk_vs n st (mk_dev 1 []) start_dev []).
Proof.
  intros Hne Hd E. eapply rtc_l; [apply vs_rx_dev; cbn [card rxd]; by apply (dev_take _ start_dev d)|]. eapply rtc_l; [apply vs_rx_dev; cbn [card rxd rxq set_rxq]; by apply (dev_use _ _ d l [])|].
  apply rtc_once. cbn [card stack rxd txd sent start_dev taken d_held]. apply (vs_irq (mk_vs _ _ _ _ _) 1). exact E.
Qed.

(** The device fills the first buffer, and the interrupt gives it to the stack. *)
Lemma virtio_buffers_safe_witness : exists n st,
  net_virtio_irq (set_rxq demo_card demo_used) [] 1 = Some (n, st) /\ st = [4210698] /\ buffers_accounted (mk_vs n st (mk_dev 1 []) start_dev []).
Proof.
  assert (E0 : net_virtio_init demo_pci false 65568 [82; 84; 0; 18; 52; 86] 4096 0 (PM.mk_pmem 1024 32768) ∅ 4 4 65568 = InitReady demo_card) by (vm_compute; reflexivity).
  destruct (net_virtio_irq (set_rxq demo_card demo_used) [] 1) as [[n st]|] eqn:E; [|vm_compute in E; done].
  exists n, st. split; [reflexivity|]. split; [vm_compute in E; congruence|].
  apply (virtio_buffers_safe demo_pci false 65568 [82; 84; 0; 18; 52; 86] 4096 0 (PM.mk_pmem 1024 32768) ∅ 4 4 65568 demo_card ([] : list Z)).
  - vm_compute. repeat split; discriminate.
  - split; [lia|by exists 16384].
  - split; [lia|by exists 16384].
  - reflexivity.
  - exact E0.
  - apply (receive_one demo_card [] 0 70); [vm_compute; discriminate|vm_compute; reflexivity|exact E].
Defined.

End VNP.
