(* ===== verification/Irq.v ===== *)
(** * Interrupts and the timer (src/dev/intrs.c, include/dev/intrs.h, src/dev/timer.c)

    Module [IQ]: the table of interrupt handlers, the masks of the two
    interrupt controllers, the timer's callbacks, and the two loops that wait
    for interrupts, with the theorems on when they return.  Function pointers
    are numbers, 0 the null pointer; what a handler of another driver does is
    the class [IrqClient]. *)

From S2P Require Import Prelude.

Module IQ.

Definition I8259A_BASE : Z := 32.
Definition TIMER_IRQ : Z := 0.
Definition NMI_IRQ : Z := 2.
Definition PIC1_CMD_PORT : Z := 32.
Definition PIC1_DATA_PORT : Z := 33.
Definition PIC2_CMD_PORT : Z := 160.
Definition PIC2_DATA_PORT : Z := 161.
Definition PIC_EOI : Z := 32.
Definition ICW1_ICW4 : Z := 1.
Definition ICW1_INIT : Z := 16.
Definition ICW4_I8086 : Z := 1.
Definition N_TIMERS : Z := 20.
Definition PIT_MAX_FREQ : Z := 1193180.
Definition PIT_CH0_PORT : Z := 64.
Definition PIT_CMD_PORT : Z := 67.
Definition EINVAL : Z := 22.

(** The number of [timer_irq]. *)
Definition TIMER_FN : Z := 1.

(** The globals of both files; [mask1] and [mask2] are what the data ports of
    the controllers hold, [ports] logs the port writes, newest first, [rest] is
    the state of the other drivers. *)
Record isys (D : Type) := mk_is {
  irq : list Z; irq_happened : list Z; mask1 : Z; mask2 : Z;
  timers : list Z; ticks : Z; timer_freq_divisor : Z; ports : list (Z * Z); rest : D }.
#[global] Arguments mk_is {D}.
#[global] Arguments irq {D}.
#[global] Arguments irq_happened {D}.
#[global] Arguments mask1 {D}.
#[global] Arguments mask2 {D}.
#[global] Arguments timers {D}.
#[global] Arguments ticks {D}.
#[global] Arguments timer_freq_divisor {D}.
#[global] Arguments ports {D}.
#[global] Arguments rest {D}.

(** What the waiting loops look at. *)
Definition timer_at_0 {D} (s : isys D) : Prop := forall i, irq s !! i = Some TIMER_FN <-> i = 0%nat.
Definition same_clock {D} (s s' : isys D) : Prop :=
  (timer_at_0 s -> timer_at_0 s') /\ length (irq s') = length (irq s) /\ irq_happened s' = irq_happened s /\ ticks s' = ticks s /\ timer_freq_divisor s' = timer_freq_divisor s.

(** The handlers and the callbacks of the other drivers: they may do anything
    but set the clock and the counts, or install or remove [timer_irq]. *)
Class IrqClient (D : Type) := {
  handle : Z -> isys D -> isys D;
  ontimer : Z -> Z -> isys D -> isys D;
  handle_clock : forall f s, same_clock s (handle f s);
  ontimer_clock : forall f t s, same_clock s (ontimer f t s) }.

Section Irq.
Context {D : Type} `{!IrqClient D}.
Implicit Type s : isys D.

Definition set_irq s (l : list Z) : isys D := mk_is l (irq_happened s) (mask1 s) (mask2 s) (timers s) (ticks s) (timer_freq_divisor s) (ports s) (rest s).
Definition set_happened s (l : list Z) : isys D := mk_is (irq s) l (mask1 s) (mask2 s) (timers s) (ticks s) (timer_freq_divisor s) (ports s) (rest s).
Definition set_timers s (l : list Z) : isys D := mk_is (irq s) (irq_happened s) (mask1 s) (mask2 s) l (ticks s) (timer_freq_divisor s) (ports s) (rest s).
Definition set_ticks s (t : Z) : isys D := mk_is (irq s) (irq_happened s) (mask1 s) (mask2 s) (timers s) t (timer_freq_divisor s) (ports s) (rest s).
Definition set_divisor s (d : Z) : isys D := mk_is (irq s) (irq_happened s) (mask1 s) (mask2 s) (timers s) (ticks s) d (ports s) (rest s).

(** A data port gives the byte written last.  (The words that initialise a
    controller go to other registers behind the same port; the masks are
    written again after them.) *)
Definition inb s (port : Z) : Z := if port =? PIC1_DATA_PORT then mask1 s else if port =? PIC2_DATA_PORT then mask2 s else 0.
Definition outb s (port v : Z) : isys D :=
  let v := u8 v in
  mk_is (irq s) (irq_happened s) (if port =? PIC1_DATA_PORT then v else mask1 s) (if port =? PIC2_DATA_PORT then v else mask2 s)
        (timers s) (ticks s) (timer_freq_divisor s) ((port, v) :: ports s) (rest s).

(** ** The interrupt controllers *)

Definition irq_remap s (master slave : Z) : isys D :=
  let master_mask := inb s PIC1_DATA_PORT in
  let slave_mask := inb s PIC2_DATA_PORT in
  let s := outb (outb s PIC1_CMD_PORT (Z.lor ICW1_INIT ICW1_ICW4)) PIC2_CMD_PORT (Z.lor ICW1_INIT ICW1_ICW4) in
  let s := outb (outb s PIC1_DATA_PORT master) PIC2_DATA_PORT slave in
  let s := outb (outb s PIC1_DATA_PORT 4) PIC2_DATA_PORT 2 in
  let s := outb (outb s PIC1_DATA_PORT ICW4_I8086) PIC2_DATA_PORT ICW4_I8086 in
  outb (outb s PIC1_DATA_PORT master_mask) PIC2_DATA_PORT slave_mask.

Definition irq_mask s (irq_num : Z) (set : bool) : isys D :=
  let '(port, irq_num) := if 8 <=? irq_num then (PIC2_DATA_PORT, irq_num - 8) else (PIC1_DATA_PORT, irq_num) in
  let mask := inb s port in
  outb s port (if set then Z.land mask (Z.lnot (Z.shiftl 1 irq_num)) else Z.lor mask (Z.shiftl 1 irq_num)).

Definition irq_enable s (n : Z) : isys D := irq_mask s n true.
Definition irq_disable s (n : Z) : isys D := irq_mask s n false.

Definition irq_get_mask s : Z := u16 (Z.lor (inb s PIC1_DATA_PORT) (Z.shiftl (inb s PIC2_DATA_PORT) 8)).
Definition irq_set_mask s (mask : Z) : isys D := outb (outb s PIC1_DATA_PORT (Z.land mask 255)) PIC2_DATA_PORT (Z.shiftr mask 8).
Definition irq_enabled s (irqnum : Z) : bool := negb (Z.land (irq_get_mask s) (Z.shiftl 1 irqnum) =? 0).

(** [None]: a write outside the table. *)
Definition irq_set_handler s (irq_num handler : Z) : option (isys D) :=
  _ ← irq s !! Z.to_nat irq_num; Some (set_irq s (<[Z.to_nat irq_num := handler]> (irq s))).

Definition intrs_setup s : isys D :=
  irq_set_mask (irq_remap s I8259A_BASE (I8259A_BASE + 8)) (u16 (Z.lnot (Z.shiftl 1 NMI_IRQ))).

(** ** The timer *)

Fixpoint push_loop (l : list Z) (f i : Z) : list Z * Z :=
  match l with
  | [] => ([], i)
  | t :: l => if t =? 0 then (f :: l, i) else let '(l, i) := push_loop l f (i + 1) in (t :: l, i)
  end.

(** The slot, [N_TIMERS] when all are taken. *)
Definition timer_push_ontimer s (f : Z) : isys D * Z := let '(l, i) := push_loop (timers s) f 0 in (set_timers s l, i).

Definition timer_ticks s : Z := ticks s.

Definition timer_pop_ontimer s (id : Z) : option (isys D) :=
  _ ← timers s !! Z.to_nat id; Some (set_timers s (<[Z.to_nat id := 0]> (timers s))).

(** [None]: a division by 0. *)
Definition timer_set_frequency s (hz : Z) : option (isys D) :=
  if hz =? 0 then None
  else
    let divisor := PIT_MAX_FREQ / hz in
    let s := set_divisor s divisor in
    let s := outb s PIT_CMD_PORT 54 in
    let s := outb s PIT_CH0_PORT (Z.land divisor 255) in
    Some (outb s PIT_CH0_PORT (Z.shiftr divisor 8)).

Definition timer_frequency s : option Z := if timer_freq_divisor s =? 0 then None else Some (PIT_MAX_FREQ / timer_freq_divisor s).

Definition timer_setup s : option (isys D) :=
  s ← timer_set_frequency s (timer_freq_divisor s);
  s ← irq_set_handler s TIMER_IRQ TIMER_FN;
  Some (irq_enable s TIMER_IRQ).

(** The table is read again for each slot. *)
Fixpoint timer_loop (k : nat) s (i : Z) : isys D :=
  match k with
  | O => s
  | S k =>
      let s := match timers s !! Z.to_nat i with Some f => if f =? 0 then s else ontimer f (ticks s) s | None => s end in
      timer_loop k s (i + 1)
  end.

Definition timer_irq s : isys D := timer_loop (Z.to_nat N_TIMERS) (set_ticks s (u32 (ticks s + 1))) 0.

(** ** An interrupt *)

Definition irq_handler s (irq_num : Z) : option (isys D) :=
  n ← irq_happened s !! Z.to_nat irq_num;
  let s := set_happened s (<[Z.to_nat irq_num := u32 (n + 1)]> (irq_happened s)) in
  callee ← irq s !! Z.to_nat irq_num;
  let s := if callee =? 0 then s else if callee =? TIMER_FN then timer_irq s else handle callee s in
  let s := if 8 <=? irq_num then outb s PIC2_CMD_PORT PIC_EOI else s in
  Some (outb s PIC1_CMD_PORT PIC_EOI).

(** ** Waiting

    An interrupt may arrive at any time: while the processor is halted, which it
    ends, or between the test of a loop and the halt, or after the halt and
    before the next test.  So each interrupt of [evs] comes with whether the loop
    gets to its test before the next one.  The interrupts left are returned.
    [None]: the list ran out. *)
Definition arrival : Type := Z * bool.

(** [test]: the loop gets to its test now. *)
Fixpoint irq_wait_loop (evs : list arrival) s (irqnum n : Z) (test : bool) : option (isys D * list arrival) :=
  c ← irq_happened s !! Z.to_nat irqnum;
  if test && negb (c <=? n) then Some (s, evs)
  else match evs with [] => None | (e, t) :: evs => s ← irq_handler s e; irq_wait_loop evs s irqnum n t end.

(** [test]: the first test is made before the first interrupt. *)
Definition irq_wait (test : bool) (evs : list arrival) s (irqnum : Z) : option (isys D * list arrival * Z) :=
  if 16 <=? irqnum then Some (s, evs, - EINVAL)
  else
    n ← irq_happened s !! Z.to_nat irqnum;
    '(s, evs) ← irq_wait_loop evs s irqnum n test;
    Some (s, evs, 0).

(** Microseconds per tick: the quotient of floating-point numbers that hold
    both operands exactly, cut off to an integer. *)
Definition tick_us s : Z := 1000000 * timer_freq_divisor s / PIT_MAX_FREQ.

Fixpoint usleep_loop (evs : list arrival) s (dt tick0 usec : Z) : option (isys D * list arrival) :=
  match evs with
  | [] => None
  | (e, t) :: evs =>
      s ← irq_handler s e;
      if t && (usec <? u32 (dt * u32 (timer_ticks s - tick0))) then Some (s, evs) else usleep_loop evs s dt tick0 usec
  end.

Definition usleep (evs : list arrival) s (usec : Z) : option (isys D * list arrival) := usleep_loop evs s (tick_us s) (timer_ticks s) usec.

(** ** Properties *)

Lemma same_clock_trans s1 s2 s3 : same_clock s1 s2 -> same_clock s2 s3 -> same_clock s1 s3.
Proof. unfold same_clock. intros (A1 & A2 & A3 & A4 & A5) (B1 & B2 & B3 & B4 & B5). split; [tauto|]. repeat split; congruence. Qed.

Lemma outb_clock s p v : same_clock s (outb s p v).
Proof. done. Qed.

Lemma timer_loop_clock k : forall s i, same_clock s (timer_loop k s i).
Proof.
  induction k as [|k IH]; intros s i; [done|]. cbn [timer_loop]. eapply same_clock_trans; [|apply IH]. destruct (timers s !! Z.to_nat i) as [f|]; [|done]. destruct (f =? 0); [done|apply ontimer_clock].
Qed.

(** The tables are whole and the timer's handler is where it belongs. *)
Definition irq_wf s : Prop := length (irq s) = 16%nat /\ length (irq_happened s) = 16%nat /\ timer_at_0 s /\ in_u32 (ticks s).

(** What an interrupt does to the clock and the counts. *)
Lemma irq_handler_spec s e : irq_wf s -> 0 <= e < 16 ->
  exists s' n, irq_handler s e = Some s' /\ irq_happened s !! Z.to_nat e = Some n /\ irq_wf s' /\ timer_freq_divisor s' = timer_freq_divisor s /\
    irq_happened s' = <[Z.to_nat e := u32 (n + 1)]> (irq_happened s) /\ ticks s' = if e =? 0 then u32 (ticks s + 1) else ticks s.
Proof.
  intros (H1 & H2 & H3 & H4) He. unfold irq_handler. destruct (lookup_lt_is_Some_2 (irq_happened s) (Z.to_nat e) ltac:(lia)) as [n Hn]. rewrite Hn. cbn [mbind option_bind irq set_happened].
  destruct (lookup_lt_is_Some_2 (irq s) (Z.to_nat e) ltac:(lia)) as [f Hf]. rewrite Hf. cbn [mbind option_bind]. set (s1 := set_happened s _).
  set (s2 := if f =? 0 then s1 else if f =? TIMER_FN then timer_irq s1 else handle f s1). set (s3 := if e =? 0 then set_ticks s1 (u32 (ticks s + 1)) else s1).
  assert (Hc : same_clock s3 s2).
  { unfold s2, s3. destruct (Z.eqb_spec e 0) as [->|Hne].
    - assert (f = TIMER_FN) as -> by (pose proof (proj2 (H3 0%nat) eq_refl) as E; change (Z.to_nat 0) with 0%nat in Hf; congruence). change (TIMER_FN =? 0) with false. rewrite Z.eqb_refl. cbv iota. unfold timer_irq. exact (timer_loop_clock _ (set_ticks s1 (u32 (ticks s + 1))) 0).
    - assert (f <> TIMER_FN) by (intros ->; apply H3 in Hf; lia). destruct (f =? 0); [done|]. destruct (Z.eqb_spec f TIMER_FN); [done|apply handle_clock]. }
  set (s4 := if 8 <=? e then outb s2 PIC2_CMD_PORT PIC_EOI else s2). assert (Hc4 : same_clock s3 (outb s4 PIC1_CMD_PORT PIC_EOI)) by (eapply same_clock_trans; [exact Hc|]; unfold s4; by destruct (8 <=? e)).
  exists (outb s4 PIC1_CMD_PORT PIC_EOI), n. split; [done|]. split; [done|]. destruct Hc4 as (C1 & C2 & C3 & C4 & C5). unfold irq_wf. rewrite C2, C3, C4, C5. unfold s3 in *.
  destruct (e =? 0); cbn [irq irq_happened ticks timer_freq_divisor set_ticks s1 set_happened]; rewrite length_insert; (split; [|done]); (split; [done|]); (split; [done|]); (split; [by apply C1|]); first [apply u32_range|exact H4].
Qed.

(** How often interrupt [i] arrives. *)
Definition count (i : Z) (evs : list arrival) : Z := Z.of_nat (length (List.filter (fun a => a.1 =? i) evs)).

Lemma count_cons i e t evs : count i ((e, t) :: evs) = (if e =? i then 1 else 0) + count i evs.
Proof. unfold count. cbn [List.filter fst]. destruct (e =? i); cbn [length]; lia. Qed.

Lemma count_nonneg i evs : 0 <= count i evs.
Proof. unfold count. lia. Qed.

(** The loop is left at the first test with [P] of the count of [i] so far. *)
Definition first_test (i : Z) (P : Z -> Prop) (k : Z) (evs pre rest : list arrival) : Prop :=
  exists q e, pre = q ++ [(e, true)] /\ evs = pre ++ rest /\ P (k + count i pre) /\ forall q1 x q2, q = q1 ++ (x, true) :: q2 -> ~ P (k + count i (q1 ++ [(x, true)])).

Lemma first_test_here i P k e evs : P (k + (if e =? i then 1 else 0)) -> first_test i P k ((e, true) :: evs) [(e, true)] evs.
Proof. intros H. exists [], e. split; [done|]. split; [done|]. split; [by rewrite count_cons, Z.add_0_r|]. intros [|? ?] x q2 E; discriminate. Qed.

Lemma first_test_later i P k e t evs pre rest : (t = true -> ~ P (k + (if e =? i then 1 else 0))) -> first_test i P (k + (if e =? i then 1 else 0)) evs pre rest ->
  first_test i P k ((e, t) :: evs) ((e, t) :: pre) rest.
Proof.
  intros Hn (q & x & -> & -> & HP & Hq). exists ((e, t) :: q), x. split; [done|]. split; [done|]. split; [cbn [app]; by rewrite count_cons, Z.add_assoc|].
  intros [|a q1] y q2 E; cbn [app] in E.
  - injection E as <- -> <-. cbn [app]. rewrite count_cons, Z.add_0_r. by apply Hn.
  - injection E as <- E. cbn [app]. rewrite count_cons, Z.add_assoc. by apply (Hq q1 y q2).
Qed.

(** [k] ticks have passed; a test comes when the time is over and the product has
    not wrapped around. *)
Lemma usleep_loop_returns dt tick0 usec rest0 e0 : 0 < dt -> 0 <= usec -> forall pre0 s k, let evs := pre0 ++ (e0, true) :: rest0 in
  irq_wf s -> Forall (fun a => 0 <= a.1 < 16) evs -> 0 <= k -> ticks s = u32 (tick0 + k) ->
  usec < dt * (k + count 0 (pre0 ++ [(e0, true)])) < 2 ^ 32 ->
  exists s' pre rest, first_test 0 (fun c => usec < dt * c) k evs pre rest /\ usleep_loop evs s dt tick0 usec = Some (s', rest) /\ ticks s' = u32 (tick0 + (k + count 0 pre)).
Proof.
  intros Hdt Hu. assert (Hstep : forall s e k c, irq_wf s -> 0 <= e < 16 -> 0 <= k -> ticks s = u32 (tick0 + k) -> 0 <= c -> dt * (k + ((if e =? 0 then 1 else 0) + c)) < 2 ^ 32 -> let k1 := k + (if e =? 0 then 1 else 0) in
    exists s1, irq_handler s e = Some s1 /\ irq_wf s1 /\ ticks s1 = u32 (tick0 + k1) /\ 0 <= k1 /\ u32 (dt * u32 (timer_ticks s1 - tick0)) = dt * k1).
  { intros s e k c Hwf He Hk Ht Hc Hb k1. destruct (irq_handler_spec s e Hwf He) as (s1 & n & E1 & _ & Hwf1 & _ & _ & Et). exists s1. split; [done|]. split; [done|].
    assert (Et' : ticks s1 = u32 (tick0 + k1)) by (rewrite Et; unfold k1; destruct (e =? 0); [rewrite Ht; unfold u32; rewrite Z.add_mod_idemp_l by done; f_equal; lia|by rewrite Z.add_0_r]).
    split; [done|]. assert (Hk1 : 0 <= k1) by (unfold k1; destruct (e =? 0); lia). split; [done|]. change (2 ^ 32) with 4294967296 in *. assert (Hm : 0 <= dt * k1 < 4294967296) by (unfold k1 in *; nia).
    unfold timer_ticks. rewrite Et'. replace (u32 (u32 (tick0 + k1) - tick0)) with k1; [apply u32_small; unfold in_u32; lia|]. unfold u32. rewrite Zminus_mod_idemp_l. replace (tick0 + k1 - tick0) with k1 by lia. symmetry. apply Z.mod_small. change (2 ^ 32) with 4294967296. nia. }
  induction pre0 as [|[e t] pre0 IH]; intros s k evs Hwf Hev Hk Ht Hb; unfold evs in *; cbn [app] in *; apply Forall_cons in Hev as [He Hev]; cbn [fst] in He; rewrite count_cons in Hb; cbn [usleep_loop].
  - destruct (Hstep s e0 k 0 Hwf He Hk Ht) as (s1 & -> & _ & Et & _ & Em); [lia|change (count 0 []) with 0 in Hb; lia|]. cbn [mbind option_bind]. rewrite Em. change (count 0 []) with 0 in Hb. rewrite Z.add_0_r in Hb. rewrite (proj2 (Z.ltb_lt _ _)) by lia.
    exists s1, [(e0, true)], rest0. split; [apply first_test_here; lia|]. split; [done|]. rewrite Et, count_cons. change (count 0 []) with 0. by rewrite Z.add_0_r.
  - pose proof (count_nonneg 0 (pre0 ++ [(e0, true)])). destruct (Hstep s e k (count 0 (pre0 ++ [(e0, true)])) Hwf He Hk Ht) as (s1 & -> & Hwf1 & Et & Hk1 & Em); [lia|lia|]. cbn [mbind option_bind]. rewrite Em.
    destruct (t && (usec <? dt * (k + (if e =? 0 then 1 else 0)))) eqn:Etest.
    + apply andb_true_iff in Etest as [-> Hlt]. exists s1, [(e, true)], (pre0 ++ (e0, true) :: rest0). split; [apply first_test_here; lia|]. split; [done|]. rewrite Et, count_cons. change (count 0 []) with 0. by rewrite Z.add_0_r.
    + destruct (IH s1 _ Hwf1 Hev Hk1 Et ltac:(lia)) as (s' & pre & rest & Hf & E & Et2). exists s', ((e, t) :: pre), rest. split; [apply first_test_later; [intros ->; cbn [andb] in Etest; lia|done]|]. split; [done|]. rewrite Et2, count_cons. do 2 f_equal. lia.
Qed.

(** [k] interrupts of the number have come since the count [n] was read. *)
Lemma irq_wait_loop_returns irqnum n rest0 e0 : 0 <= irqnum < 16 -> 0 <= n -> forall pre0 s k test, let evs := pre0 ++ (e0, true) :: rest0 in
  irq_wf s -> Forall (fun a => 0 <= a.1 < 16) evs -> 0 <= k -> (test = true -> k = 0) -> irq_happened s !! Z.to_nat irqnum = Some (n + k) ->
  0 < k + count irqnum (pre0 ++ [(e0, true)]) -> n + (k + count irqnum (pre0 ++ [(e0, true)])) < 2 ^ 32 ->
  exists s' pre rest, first_test irqnum (fun c => 0 < c) k evs pre rest /\ irq_wait_loop evs s irqnum n test = Some (s', rest) /\ irq_happened s' !! Z.to_nat irqnum = Some (n + (k + count irqnum pre)).
Proof.
  intros Hi Hn. assert (Hstep : forall s e k, irq_wf s -> 0 <= e < 16 -> 0 <= k -> n + (k + (if e =? irqnum then 1 else 0)) < 2 ^ 32 -> irq_happened s !! Z.to_nat irqnum = Some (n + k) ->
    exists s1, irq_handler s e = Some s1 /\ irq_wf s1 /\ irq_happened s1 !! Z.to_nat irqnum = Some (n + (k + (if e =? irqnum then 1 else 0)))).
  { intros s e k Hwf He Hk Hb Hh. destruct (irq_handler_spec s e Hwf He) as (s1 & m & E1 & Hm & Hwf1 & _ & Eh & _). exists s1. split; [done|]. split; [done|]. rewrite Eh. destruct (Z.eqb_spec e irqnum) as [->|Hne].
    - rewrite list_lookup_insert_eq by (by eapply lookup_lt_Some). assert (m = n + k) as -> by congruence. rewrite u32_small by (unfold in_u32; lia). f_equal. lia.
    - rewrite list_lookup_insert_ne by lia. rewrite Hh. f_equal. lia. }
  induction pre0 as [|[e t] pre0 IH]; intros s k test evs Hwf Hev Hk Htest Hh Hc Hb; unfold evs in *; cbn [app] in *; apply Forall_cons in Hev as [He Hev]; cbn [fst] in He; rewrite count_cons in Hc, Hb; cbn [irq_wait_loop]; rewrite Hh; cbn [mbind option_bind].
  all: replace (test && negb (n + k <=? n)) with false by (destruct test; [rewrite (Htest eq_refl); symmetry; cbn [andb]; apply negb_false_iff, Z.leb_le; lia|done]).
  - change (count irqnum []) with 0 in Hc, Hb. rewrite Z.add_0_r in Hc, Hb. destruct (Hstep s e0 k Hwf He Hk Hb Hh) as (s1 & -> & _ & Eh). cbn [mbind option_bind].
    exists s1, [(e0, true)], rest0. split; [by apply first_test_here|]. rewrite count_cons. change (count irqnum []) with 0. rewrite Z.add_0_r. split; [|done].
    destruct rest0; cbn [irq_wait_loop]; rewrite Eh; cbn [mbind option_bind andb]; by rewrite (proj2 (Z.leb_gt _ _)) by lia.
  - pose proof (count_nonneg irqnum (pre0 ++ [(e0, true)])). destruct (Hstep s e k Hwf He Hk ltac:(lia) Hh) as (s1 & -> & Hwf1 & Eh). cbn [mbind option_bind]. set (k1 := k + (if e =? irqnum then 1 else 0)) in *. assert (Hk1 : 0 <= k1) by (unfold k1; destruct (e =? irqnum); lia).
    destruct (t && (0 <? k1)) eqn:Etest.
    + apply andb_true_iff in Etest as [-> Hlt]. exists s1, [(e, true)], (pre0 ++ (e0, true) :: rest0). split; [apply first_test_here; fold k1; lia|]. rewrite count_cons. change (count irqnum []) with 0. rewrite Z.add_0_r. fold k1. split; [|done].
      destruct (pre0 ++ (e0, true) :: rest0); cbn [irq_wait_loop]; rewrite Eh; cbn [mbind option_bind andb]; by rewrite (proj2 (Z.leb_gt _ _)) by lia.
    + destruct (IH s1 k1 t Hwf1 Hev Hk1) as (s' & pre & rest & Hf & E & Eh2); [intros ->; cbn [andb] in Etest; lia|done|lia|lia|]. exists s', ((e, t) :: pre), rest. split; [apply first_test_later; [intros ->; fold k1; cbn [andb] in Etest; lia|done]|]. split; [done|]. rewrite Eh2, count_cons. f_equal. unfold k1. lia.
Qed.

(** With a test after every interrupt the count goes up by one between tests. *)
Lemma first_test_on_time evs pre rest i dt usec : 0 < dt -> 0 <= usec -> first_test i (fun c => usec < dt * c) 0 evs pre rest -> Forall (fun a => a.2 = true) evs -> usec < dt * count i pre <= usec + dt.
Proof.
  intros Hdt Hu (q & e & -> & -> & HP & Hq) Hall. rewrite Z.add_0_l in HP. split; [done|]. assert (Ec : forall l x, count i (l ++ [x]) = count i l + (if x.1 =? i then 1 else 0)).
  { intros l x. unfold count. rewrite List.filter_app, length_app, Nat2Z.inj_add. f_equal. cbn [List.filter]. by destruct (x.1 =? i). }
  rewrite Ec. cbn [fst]. assert (Hq' : dt * count i q <= usec); [|destruct (e =? i); nia].
  destruct q as [|[x t] q _] using rev_ind; [change (count i []) with 0; lia|]. assert (t = true) as ->.
  { rewrite Forall_forall in Hall. apply (Hall (x, t)). set_solver. }
  specialize (Hq q x []). rewrite Z.add_0_l in Hq. destruct (Z.le_gt_cases (dt * count i (q ++ [(x, true)])) usec) as [?|Hgt]; [done|]. by destruct (Hq eq_refl).
Qed.

End Irq.

(** ** The masks *)

Section Masks.
Context {D : Type}.
Implicit Type s : isys D.

Definition masks_wf s : Prop := in_u8 (mask1 s) /\ in_u8 (mask2 s).

Lemma get_mask_bits s i : masks_wf s -> 0 <= i < 16 -> Z.testbit (irq_get_mask s) i = if i <? 8 then Z.testbit (mask1 s) i else Z.testbit (mask2 s) (i - 8).
Proof.
  unfold masks_wf, in_u8. intros [H1 H2] Hi. unfold irq_get_mask, u16. rewrite Z.mod_pow2_bits_low by lia. rewrite Z.lor_spec, Z.shiftl_spec by lia. cbn [inb]. change (inb s PIC1_DATA_PORT) with (mask1 s). change (inb s PIC2_DATA_PORT) with (mask2 s).
  destruct (Z.ltb_spec i 8); [by rewrite (Z.testbit_neg_r _ (i - 8)), orb_false_r by lia|]. rewrite (Z.bits_above_log2 (mask1 s)); [done|lia|]. destruct (Z.eq_dec (mask1 s) 0) as [E0|]; [rewrite E0; change (Z.log2 0) with 0; lia|].
  apply Z.log2_lt_pow2; [lia|]. pose proof (Z.pow_le_mono_r 2 8 i). change (2 ^ 8) with 256 in *. lia.
Qed.

Lemma u8_testbit v i : Z.testbit (u8 v) i = (i <? 8) && Z.testbit v i.
Proof.
  unfold u8. destruct (Z.ltb_spec i 8); [|by rewrite Z.mod_pow2_bits_high by lia]. destruct (Z.leb_spec 0 i); [by rewrite Z.mod_pow2_bits_low by lia|]. by rewrite !Z.testbit_neg_r by lia.
Qed.

(** Enabling and disabling an interrupt change its own bit and no other. *)
Lemma irq_mask_bits s n set i : masks_wf s -> 0 <= n < 16 -> 0 <= i < 16 ->
  masks_wf (irq_mask s n set) /\ Z.testbit (irq_get_mask (irq_mask s n set)) i = if i =? n then negb set else Z.testbit (irq_get_mask s) i.
Proof.
  intros Hwf Hn Hi. assert (Hwf' : masks_wf (irq_mask s n set)).
  { destruct Hwf as [W1 W2]. unfold irq_mask. destruct (8 <=? n); split; cbn -[u8]; first [apply u8_range|done]. }
  split; [done|]. rewrite !get_mask_bits by done. unfold irq_mask.
  assert (Hbit : forall m k j, 0 <= k -> 0 <= j < 8 -> Z.testbit (u8 (if set then Z.land m (Z.lnot (Z.shiftl 1 k)) else Z.lor m (Z.shiftl 1 k))) j = if j =? k then negb set else Z.testbit m j).
  { intros m k j Hk Hj. rewrite u8_testbit. rewrite (proj2 (Z.ltb_lt j 8)) by lia. cbn [andb]. rewrite Z.shiftl_1_l. destruct set; rewrite ?Z.land_spec, ?Z.lor_spec, ?Z.lnot_spec, Z.pow2_bits_eqb, (Z.eqb_sym k) by lia; destruct (Z.eqb_spec j k); cbn; by rewrite ?andb_false_r, ?andb_true_r, ?orb_true_r, ?orb_false_r. }
  destruct (Z.leb_spec 8 n); destruct (Z.ltb_spec i 8); cbn -[u8 Z.testbit].
  - by rewrite (proj2 (Z.eqb_neq i n)) by lia.
  - rewrite Hbit by lia. replace (i - 8 =? n - 8) with (i =? n); [done|]. destruct (Z.eqb_spec i n), (Z.eqb_spec (i - 8) (n - 8)); (done || lia).
  - by rewrite Hbit by lia.
  - by rewrite (proj2 (Z.eqb_neq i n)) by lia.
Qed.

(** [irq_enabled] says the opposite of its name. *)
Lemma irq_enabled_inverted s n set : masks_wf s -> 0 <= n < 16 -> irq_enabled (irq_mask s n set) n = negb set.
Proof.
  intros Hwf Hn. destruct (irq_mask_bits s n set n Hwf Hn Hn) as [_ E]. rewrite Z.eqb_refl in E. unfold irq_enabled. rewrite Z.shiftl_1_l. destruct (Z.eqb_spec (Z.land (irq_get_mask (irq_mask s n set)) (2 ^ n)) 0) as [H0|H0].
  - assert (E2 : Z.testbit (Z.land (irq_get_mask (irq_mask s n set)) (2 ^ n)) n = false) by (rewrite H0; apply Z.testbit_0_l). rewrite Z.land_spec, Z.pow2_bits_true, andb_true_r in E2 by lia. by rewrite <- E, E2.
  - destruct set; [|done]. exfalso. apply H0. apply Z.bits_inj'. intros i Hi. rewrite Z.land_spec, Z.pow2_bits_eqb, Z.testbit_0_l by lia. destruct (Z.eqb_spec n i) as [<-|]; [by rewrite E|apply andb_false_r].
Qed.

End Masks.

(** ** The waiting calls *)

(** After the set-up of the timer. *)
Lemma timer_setup_wf {D} `{!IrqClient D} (s : isys D) : length (irq s) = 16%nat -> length (irq_happened s) = 16%nat -> (forall i, irq s !! i <> Some TIMER_FN) -> timer_freq_divisor s = 256 -> in_u32 (ticks s) ->
  exists s', timer_setup s = Some s' /\ irq_wf s' /\ tick_us s' = 3905 /\ timer_frequency s' = Some 256.
Proof.
  intros H1 H2 H3 H4 H5. unfold timer_setup, timer_set_frequency. rewrite H4. change (256 =? 0) with false. cbv iota zeta. cbn [mbind option_bind]. unfold irq_set_handler. cbn [irq outb set_divisor].
  destruct (lookup_lt_is_Some_2 (irq s) 0%nat ltac:(lia)) as [f Hf]. change (Z.to_nat TIMER_IRQ) with 0%nat. rewrite Hf. cbn [mbind option_bind]. eexists. split; [done|]. split; [|done].
  unfold irq_enable, irq_mask. change (8 <=? TIMER_IRQ) with false. cbv iota zeta. split; [cbn; by rewrite length_insert|]. split; [done|]. split; [|exact H5]. intros i. cbn [irq outb set_irq set_divisor].
  destruct i as [|i]; [rewrite list_lookup_insert_eq by lia; done|]. rewrite list_lookup_insert_ne by done. split; [intros E; by apply H3 in E|done].
Qed.

(** C38: whatever interrupts arrive, in whatever moments of the loops, and
    whatever the handlers of the other drivers do, the waiting calls return, if a
    test comes late enough. Let [dt] be the length of a tick. [usleep] returns at
    the first test where the ticks since the call make more than [usec]
    microseconds, provided that such a test comes before their product is 2^32
    (which excludes [usec] near 2^32); when the loop gets to its test after every
    interrupt, it has then waited for at most [usec + dt] microseconds. [irq_wait]
    returns 0 at the first test after an interrupt of the number it waits for,
    provided that there is one and the count of the interrupts does not wrap
    around; for a number out of range it returns [- EINVAL] at once. *)
Theorem waiting_returns {D} `{!IrqClient D} (s : isys D) evs0 e0 evs1 usec irqnum n test : let evs := evs0 ++ (e0, true) :: evs1 in
  irq_wf s -> Forall (fun a => 0 <= a.1 < 16) evs ->
  0 < tick_us s -> 0 <= usec -> usec < tick_us s * count TIMER_IRQ (evs0 ++ [(e0, true)]) < 2 ^ 32 ->
  0 <= irqnum < 16 -> irq_happened s !! Z.to_nat irqnum = Some n -> 0 <= n -> 0 < count irqnum (evs0 ++ [(e0, true)]) < 2 ^ 32 - n ->
  (exists s' pre rest, usleep evs s usec = Some (s', rest) /\ first_test TIMER_IRQ (fun c => usec < tick_us s * c) 0 evs pre rest /\
     ticks s' = u32 (ticks s + count TIMER_IRQ pre) /\ (Forall (fun a => a.2 = true) evs -> usec < tick_us s * count TIMER_IRQ pre <= usec + tick_us s)) /\
  (exists s' pre rest, irq_wait test evs s irqnum = Some (s', rest, 0) /\ first_test irqnum (fun c => 0 < c) 0 evs pre rest /\ irq_happened s' !! Z.to_nat irqnum = Some (n + count irqnum pre)) /\
  (forall k, 16 <= k -> irq_wait test evs s k = Some (s, evs, - EINVAL)).
Proof.
  intros evs Hwf Hev Hdt Hu Hb Hi Hn Hn2 Hc. split; [|split].
  - destruct (usleep_loop_returns (tick_us s) (ticks s) usec evs1 e0 Hdt Hu evs0 s 0 Hwf Hev ltac:(lia)) as (s' & pre & rest & Hf & E & Et); [|done|].
    { rewrite Z.add_0_r. symmetry. apply u32_small. by destruct Hwf as (_ & _ & _ & ?). }
    exists s', pre, rest. split; [done|]. split; [done|]. split; [done|]. intros Hall. by apply (first_test_on_time evs pre rest TIMER_IRQ).
  - destruct (irq_wait_loop_returns irqnum n evs1 e0 Hi Hn2 evs0 s 0 test Hwf Hev) as (s' & pre & rest & Hf & E & Hn'); [done|done|by rewrite Z.add_0_r|lia|lia|]. exists s', pre, rest. split; [|done].
    unfold irq_wait. rewrite (proj2 (Z.leb_gt 16 irqnum)) by lia. rewrite Hn. cbn [mbind option_bind]. fold evs in E. by rewrite E.
  - intros k Hk. unfold irq_wait. by rewrite (proj2 (Z.leb_le 16 k)).
Qed.

#[refine] Instance no_clients : IrqClient unit := { handle := fun _ s => s; ontimer := fun _ _ s => s }.
Proof.
  - done.
  - done.
Defined.

Definition demo_timer : isys unit :=
  default (mk_is [] [] 0 0 [] 0 0 [] tt) (timer_setup (mk_is (replicate 16 0) (replicate 16 0) 251 255 (replicate 20 0) 7 256 [] tt)).

(** Ten milliseconds at 3905 microseconds a tick, among other interrupts, one of
    them between a test and the halt. *)
Lemma waiting_returns_witness : exists s' pre rest,
  usleep [(0, true); (3, false); (0, true); (1, true); (0, true); (4, true)] demo_timer 10000 = Some (s', rest) /\ rest = [(4, true)] /\
  first_test TIMER_IRQ (fun c => 10000 < tick_us demo_timer * c) 0 [(0, true); (3, false); (0, true); (1, true); (0, true); (4, true)] pre rest.
Proof.
  assert (Hwf : irq_wf demo_timer) by (split; [reflexivity|]; split; [reflexivity|]; split; [|by vm_compute]; intros i; destruct i as [|i]; [by vm_compute|]; do 16 (destruct i as [|i]; [by vm_compute|]); by vm_compute).
  destruct (waiting_returns demo_timer [(0, true); (3, false); (0, true); (1, true)] 0 [(4, true)] 10000 3 0 true) as [(s' & pre & rest & E & Hf & _) _].
  - exact Hwf.
  - repeat constructor; cbn; lia.
  - by vm_compute.
  - lia.
  - by vm_compute.
  - lia.
  - reflexivity.
  - lia.
  - by vm_compute.
  - exists s', pre, rest. split; [exact E|]. split; [vm_compute in E; congruence|]. exact Hf.
Defined.

(** A sleep of [2 ^ 32 - 1] microseconds never ends: no product of 32 bits
    exceeds it. *)
Lemma usleep_max_never_returns {D} `{!IrqClient D} evs : forall (s : isys D) dt tick0, usleep_loop evs s dt tick0 (2 ^ 32 - 1) = None.
Proof.
  induction evs as [|[e t] evs IH]; intros s dt tick0; [done|]. cbn [usleep_loop]. destruct (irq_handler s e) as [s1|]; [|done]. cbn [mbind option_bind].
  pose proof (u32_range (dt * u32 (timer_ticks s1 - tick0))) as H. unfold in_u32 in H. rewrite (proj2 (Z.ltb_ge _ _)), andb_false_r by (change (2 ^ 32) with 4294967296; lia). apply IH.
Qed.

(** Waiting for an interrupt whose count is at its maximum never ends either. *)
Lemma irq_wait_max_never_returns {D} `{!IrqClient D} evs : forall (s : isys D) irqnum test, irq_wf s -> Forall (fun a => 0 <= a.1 < 16) evs -> 0 <= irqnum -> Forall in_u32 (irq_happened s) -> irq_wait_loop evs s irqnum (2 ^ 32 - 1) test = None.
Proof.
  induction evs as [|[e t] evs IH]; intros s irqnum test Hwf Hev Hi Hh; cbn [irq_wait_loop]; (destruct (irq_happened s !! Z.to_nat irqnum) as [c|] eqn:Ec; [|done]); cbn [mbind option_bind].
  all: pose proof (Forall_lookup_1 _ _ _ _ Hh Ec) as Hc; unfold in_u32 in Hc; rewrite (proj2 (Z.leb_le c (2 ^ 32 - 1))) by (change (2 ^ 32) with 4294967296; lia); cbn [negb]; rewrite andb_false_r.
  1: done.
  apply Forall_cons in Hev as [He Hev]. destruct (irq_handler_spec s e Hwf He) as (s1 & m & -> & Hm & Hwf1 & _ & Eh & _). cbn [mbind option_bind]. apply IH; try done. rewrite Eh. apply Forall_insert; [done|apply u32_range].
Qed.

(** An interrupt that arrives between the test and the halt does not end the
    wait, although it was waited for. *)
Lemma irq_wait_lost_wakeup {D} `{!IrqClient D} (s : isys D) irqnum : irq_wf s -> 0 <= irqnum < 16 -> irq_wait true [(irqnum, false)] s irqnum = None.
Proof.
  intros Hwf Hi. destruct (irq_handler_spec s irqnum Hwf Hi) as (s1 & n & E1 & Hn & Hwf1 & _ & Eh & _). unfold irq_wait. rewrite (proj2 (Z.leb_gt 16 irqnum)) by lia. rewrite Hn. cbn [mbind option_bind irq_wait_loop]. rewrite Hn. cbn [mbind option_bind].
  rewrite (proj2 (Z.leb_le n n)) by lia. cbn [andb negb]. rewrite E1. cbn [mbind option_bind]. by destruct (irq_happened s1 !! Z.to_nat irqnum).
Qed.

(** ** The timer's callbacks *)

Section Callbacks.
Context {D : Type} `{!IrqClient D}.
Implicit Type s : isys D.

Lemma push_loop_spec l : forall f i, push_loop l f i =
  match list_find (eq 0) l with Some (j, _) => (<[j := f]> l, i + Z.of_nat j) | None => (l, i + Z.of_nat (length l)) end.
Proof.
  induction l as [|t l IH]; intros f i; cbn [push_loop list_find]; [by rewrite Z.add_0_r|]. destruct (Z.eqb_spec t 0) as [->|Hne].
  - rewrite decide_True by done. by rewrite Z.add_0_r.
  - rewrite decide_False by done. rewrite IH. destruct (list_find (eq 0) l) as [[j x]|]; cbn; f_equal; lia.
Qed.

(** A callback goes to the first free slot, and removing it frees that slot
    again; when all are taken, nothing changes and the number returned is that
    of no slot. *)
Lemma timer_push_pop s f s' id : timer_push_ontimer s f = (s', id) -> length (timers s) = Z.to_nat N_TIMERS ->
  (0 <= id < N_TIMERS /\ timers s !! Z.to_nat id = Some 0 /\ timers s' = <[Z.to_nat id := f]> (timers s) /\ exists s2, timer_pop_ontimer s' id = Some s2 /\ timers s2 = timers s) \/
  (id = N_TIMERS /\ timers s' = timers s /\ ~ 0 ∈ timers s).
Proof.
  unfold timer_push_ontimer, N_TIMERS. rewrite push_loop_spec. intros E Hl. destruct (list_find (eq 0) (timers s)) as [[j x]|] eqn:Ef; injection E as <- <-.
  - left. apply list_find_Some in Ef as (Hj & <- & _). pose proof (lookup_lt_Some _ _ _ Hj) as Hlt. replace (Z.to_nat (0 + Z.of_nat j)) with j by lia. split; [lia|]. split; [done|]. split; [done|].
    unfold timer_pop_ontimer. replace (Z.to_nat (0 + Z.of_nat j)) with j by lia. cbn [timers set_timers]. rewrite list_lookup_insert_eq by done. eexists. split; [done|]. cbn. rewrite list_insert_insert_eq. by apply list_insert_id.
  - right. apply list_find_None in Ef. split; [lia|]. split; [done|]. intros Hin. rewrite Forall_forall in Ef. by apply (Ef 0).
Qed.

Definition nonzero (f : Z) : bool := negb (f =? 0).

(** A tick calls every registered callback once, in the order of the slots, with
    the new count, if the callbacks leave the table alone. *)
Lemma timer_irq_calls s : (forall f t s, timers (ontimer f t s) = timers s) -> length (timers s) = Z.to_nat N_TIMERS ->
  timer_irq s = foldl (fun s f => ontimer f (ticks s) s) (set_ticks s (u32 (ticks s + 1))) (List.filter nonzero (timers s)).
Proof.
  intros Hk Hl. unfold timer_irq. change (timers s) with (timers (set_ticks s (u32 (ticks s + 1)))) in Hl |- *. generalize dependent (set_ticks s (u32 (ticks s + 1))). clear s. intros s Hl. unfold N_TIMERS in *.
  assert (H : forall k i s, 0 <= i -> (Z.to_nat i + k)%nat = length (timers s) -> timer_loop k s i = foldl (fun s f => ontimer f (ticks s) s) s (List.filter nonzero (drop (Z.to_nat i) (timers s)))).
  { clear s Hl. induction k as [|k IH]; intros i s Hi Hlen; cbn [timer_loop]; [rewrite drop_ge by lia; done|]. destruct (lookup_lt_is_Some_2 (timers s) (Z.to_nat i) ltac:(lia)) as [f Hf]. rewrite Hf.
    rewrite (drop_S _ _ _ Hf). cbn [List.filter]. unfold nonzero at 1. destruct (f =? 0); cbn [negb foldl].
    - rewrite IH by lia. by replace (Z.to_nat (i + 1)) with (S (Z.to_nat i)) by lia.
    - rewrite IH by (rewrite ?Hk; lia). rewrite Hk. by replace (Z.to_nat (i + 1)) with (S (Z.to_nat i)) by lia. }
  rewrite (H _ 0) by lia. done.
Qed.

End Callbacks.

End IQ.
