(* ===== verification/Pci.v ===== *)
(** * The PCI bus (src/dev/pci.c, include/dev/pci.h)

    Module [PCI]: reading the configuration space, looking up drivers and the
    scan of the busses, with the theorem on which devices are initialised.  What
    the configuration space holds at an address is a parameter; what a driver
    does with a device is the class [PciDrivers]. *)

From S2P Require Import Prelude PMem Virtio.

Module PCI.

Definition PCI_CONF_ID_OFF : Z := 0.
Definition PCI_CONF_CLASS_OFF : Z := 8.

(** The drivers of the table, with the identity of their devices. *)
Inductive driver := net_virtio.
Definition pci_driver : list (Z * driver) := [(268442356, net_virtio)].

Fixpoint lookup_in (l : list (Z * driver)) (id : Z) : option driver :=
  match l with [] => None | (i, d) :: l => if i =? id then Some d else lookup_in l id end.
Definition lookup_pci_driver (id : Z) : option driver := lookup_in pci_driver id.

(** The sixteen words of a device's configuration, and its fields. *)
Definition pci_config_t : Type := list Z.
Definition word (c : pci_config_t) (i : nat) : Z := default 0 (c !! i).
Definition pci_id (c : pci_config_t) : Z := word c 0.
Definition pci_device (c : pci_config_t) : Z := Z.shiftr (word c 0) 16.
Definition pci_rev_id (c : pci_config_t) : Z := Z.land (word c 2) 255.
Definition pci_bars (c : pci_config_t) : list Z := take 6 (drop 4 c).
Definition pci_subsystem_id (c : pci_config_t) : Z := Z.shiftr (word c 11) 16.
Definition pci_interrupt_line (c : pci_config_t) : Z := Z.land (word c 15) 255.

(** [pci_init] of a driver: the state of the drivers and the error. *)
Class PciDrivers (D : Type) := { pci_init : driver -> pci_config_t -> D -> D * Z }.

Section Pci.
Variable cfg : Z -> Z.

Definition config_address (bus slot func offset : Z) : Z :=
  Z.lor (Z.lor (Z.lor (Z.lor (Z.shiftl (Z.land bus 63) 16) (Z.shiftl (Z.land slot 15) 11)) (Z.shiftl (Z.land func 3) 8)) (Z.land offset 252)) 2147483648.

Definition pci_config_read_dword (bus slot func offset : Z) : Z := cfg (config_address bus slot func offset).

Definition pci_read_config (bus slot : Z) : pci_config_t := (fun i => pci_config_read_dword bus slot 0 (i * 4)) <$> seqZ 0 16.

(** The entries printed: slot, identity, class and subclass. *)
Fixpoint list_loop (k : nat) (bus slot start_dev_id : Z) : list (Z * Z * Z * Z) :=
  match k with
  | O => []
  | S k =>
      let id := pci_config_read_dword bus slot 0 PCI_CONF_ID_OFF in
      if u16 id =? 65535 then list_loop k bus (slot + 1) start_dev_id
      else if negb (start_dev_id =? 0) && (start_dev_id =? id) then []
      else
        let start_dev_id := if start_dev_id =? 0 then id else start_dev_id in
        let dev_class := pci_config_read_dword bus slot 0 PCI_CONF_CLASS_OFF in
        (slot, id, u8 (Z.shiftr dev_class 24), Z.land (Z.shiftr dev_class 16) 255) :: list_loop k bus (slot + 1) start_dev_id
  end.
Definition pci_list (bus : Z) : list (Z * Z * Z * Z) := list_loop 32 bus 0 0.

Section Setup.
Context {D : Type} `{!PciDrivers D}.

Definition probe (conf : pci_config_t) (d : D) : D :=
  match lookup_pci_driver (pci_id conf) with None => d | Some drv => (pci_init drv conf d).1 end.

Fixpoint bus_loop (k : nat) (bus slot loop_id : Z) (d : D) : D :=
  match k with
  | O => d
  | S k =>
      let conf := pci_read_config bus slot in
      if pci_device conf =? 65535 then bus_loop k bus (slot + 1) loop_id d
      else if negb (loop_id =? 0) && (loop_id =? pci_id conf) then d
      else
        let loop_id := if loop_id =? 0 then pci_id conf else loop_id in
        bus_loop k bus (slot + 1) loop_id (probe conf d)
  end.

Definition pci_bus_setup (bus : Z) (d : D) : D := bus_loop 32 bus 0 0 d.
Definition pci_setup (d : D) : D := pci_bus_setup 2 (pci_bus_setup 1 (pci_bus_setup 0 d)).

(** ** Properties *)

(** Four bits of the slot reach the address: the upper sixteen slots are the
    lower sixteen again. *)
Lemma read_config_alias bus slot : pci_read_config bus (slot + 16) = pci_read_config bus slot.
Proof.
  unfold pci_read_config. apply map_ext_in. intros i _. unfold pci_config_read_dword, config_address. do 6 f_equal.
  change 15 with (Z.ones 4). rewrite !Z.land_ones by lia. change (2 ^ 4) with 16. by rewrite Z.add_mod, Z_mod_same_full, Z.add_0_r, Z.mod_mod by done.
Qed.

Definition present (bus slot : Z) : bool := negb (pci_device (pci_read_config bus slot) =? 65535).
Definition slot_id (bus slot : Z) : Z := pci_id (pci_read_config bus slot).
Definition probe_all (bus : Z) (slots : list Z) (d : D) : D := foldl (fun d slot => probe (pci_read_config bus slot) d) d (List.filter (present bus) slots).

(** Slots without a device are passed over. *)
Lemma bus_loop_absent bus j : forall k slot lid d, (forall i, slot <= i < slot + Z.of_nat j -> present bus i = false) -> bus_loop (j + k) bus slot lid d = bus_loop k bus (slot + Z.of_nat j) lid d.
Proof.
  induction j as [|j IH]; intros k slot lid d H; [by rewrite Z.add_0_r|]. cbn [Nat.add bus_loop]. assert (Hs : present bus slot = false) by (apply H; lia). unfold present in Hs. apply negb_false_iff in Hs. rewrite Hs.
  rewrite IH by (intros i Hi; apply H; lia). f_equal. lia.
Qed.

(** While the first identity does not come again, each device is probed. *)
Lemma bus_loop_probes bus lid j : forall k slot d, lid <> 0 -> (forall i, slot <= i < slot + Z.of_nat j -> present bus i = true -> slot_id bus i <> lid) ->
  bus_loop (j + k) bus slot lid d = bus_loop k bus (slot + Z.of_nat j) lid (probe_all bus (seqZ slot (Z.of_nat j)) d).
Proof.
  induction j as [|j IH]; intros k slot d Hl H; [by rewrite Z.add_0_r|]. cbn [Nat.add bus_loop]. rewrite (seqZ_cons slot (Z.of_nat (S j))) by lia. replace (Z.pred (Z.of_nat (S j))) with (Z.of_nat j) by lia.
  replace (slot + Z.of_nat (S j)) with (slot + 1 + Z.of_nat j) by lia. unfold probe_all. cbn [List.filter]. destruct (present bus slot) eqn:Hp; pose proof Hp as Hp'; unfold present in Hp'.
  - apply negb_true_iff in Hp'. rewrite Hp', (proj2 (Z.eqb_neq lid 0)) by done. assert (Hid := H slot ltac:(lia) Hp). unfold slot_id in Hid. rewrite (proj2 (Z.eqb_neq lid _)) by done. cbn [negb andb foldl]. apply IH; [done|]. intros i Hi. apply H. lia.
  - apply negb_false_iff in Hp'. rewrite Hp'. apply IH; [done|]. intros i Hi. apply H. lia.
Qed.

Lemma present_alias bus slot : present bus (slot + 16) = present bus slot.
Proof. unfold present. by rewrite read_config_alias. Qed.

(** The first device of a bus, and that its identity is not met again. *)
Definition bus_ok (bus : Z) : Prop :=
  (forall i, 0 <= i < 16 -> present bus i = false) \/
  exists f, 0 <= f < 16 /\ (forall i, 0 <= i < f -> present bus i = false) /\ present bus f = true /\ slot_id bus f <> 0 /\
    forall i, f < i < 16 -> present bus i = true -> slot_id bus i <> slot_id bus f.

Lemma probe_all_app bus l1 l2 d : probe_all bus (l1 ++ l2) d = probe_all bus l2 (probe_all bus l1 d).
Proof. unfold probe_all. by rewrite List.filter_app, foldl_app. Qed.

Lemma probe_all_absent bus l d : Forall (fun i => present bus i = false) l -> probe_all bus l d = d.
Proof. unfold probe_all. induction 1 as [|i l Hi _ IH]; [done|]. cbn [List.filter]. by rewrite Hi. Qed.

Lemma absent_upper bus n : (forall i, 0 <= i < n -> present bus i = false) -> forall i, 16 <= i < 16 + n -> present bus i = false.
Proof. intros H i Hi. replace i with ((i - 16) + 16) by lia. rewrite present_alias. apply H. lia. Qed.

Lemma pci_bus_setup_probes bus d : bus_ok bus -> pci_bus_setup bus d = probe_all bus (seqZ 0 16) d.
Proof.
  unfold pci_bus_setup. intros [H|(f & Hf & Hlo & Hp & Hid & Hhi)].
  - rewrite probe_all_absent by (apply Forall_forall; intros i Hi; apply elem_of_seqZ in Hi; apply H; lia). change 32%nat with (16 + (16 + 0))%nat. rewrite bus_loop_absent by (intros i Hi; apply H; lia). rewrite bus_loop_absent; [done|].
    intros i Hi. apply (absent_upper bus 16 H). lia.
  - set (r := Z.to_nat (15 - f)). assert (Hr : Z.of_nat r = 15 - f) by (unfold r; lia). clearbody r. replace 32%nat with (Z.to_nat f + S (r + (Z.to_nat f + S r)))%nat by lia. rewrite bus_loop_absent by (intros i Hi; apply Hlo; lia). rewrite Z2Nat.id by lia. cbn [bus_loop].
    pose proof Hp as Hp'. unfold present in Hp'. apply negb_true_iff in Hp'. rewrite Z.add_0_l, Hp'. rewrite Z.eqb_refl. cbn [negb andb]. fold (slot_id bus f). set (lid := slot_id bus f) in *.
    rewrite bus_loop_probes by (done || (intros i Hi; apply Hhi; lia)). rewrite bus_loop_absent by (intros i Hi; apply (absent_upper bus f Hlo); lia). cbn [bus_loop].
    replace (f + 1 + Z.of_nat r + Z.of_nat (Z.to_nat f)) with (f + 16) by lia. rewrite read_config_alias, Hp'. fold (slot_id bus f). fold lid. rewrite (proj2 (Z.eqb_neq lid 0)) by done. rewrite Z.eqb_refl. cbn [negb andb].
    replace 16 with (f + (1 + Z.of_nat r)) at 1 by lia. rewrite seqZ_app by lia. rewrite probe_all_app, (probe_all_absent bus (seqZ 0 f)) by (apply Forall_forall; intros i Hi; apply elem_of_seqZ in Hi; apply Hlo; lia).
    rewrite seqZ_app by lia. rewrite probe_all_app, Z.add_0_l. f_equal. rewrite seqZ_cons by lia. unfold probe_all. cbn [List.filter]. by rewrite Hp.
Qed.

End Setup.
End Pci.

(** C39: on busses where the identity of the first device does not come again,
    [pci_setup] hands every device that has a driver to it, once, in the order of
    the busses and slots, although it walks over slots that the addresses repeat,
    and does nothing else; [pci_bus_setup] reads the slots 0 to 15. *)
Theorem pci_setup_probes_once {D} `{!PciDrivers D} cfg (d : D) : bus_ok cfg 0 -> bus_ok cfg 1 -> bus_ok cfg 2 ->
  pci_setup cfg d = foldl (fun d conf => match lookup_pci_driver (pci_id conf) with Some drv => (pci_init drv conf d).1 | None => d end) d
    (List.filter (fun conf => negb (pci_device conf =? 65535)) ((fun p => pci_read_config cfg p.1 p.2) <$> list_prod [0; 1; 2] (seqZ 0 16))).
Proof.
  intros H0 H1 H2. unfold pci_setup. rewrite !pci_bus_setup_probes by done. cbn [list_prod]. rewrite !fmap_app, !List.filter_app, !foldl_app.
  assert (E : forall bus d, probe_all cfg bus (seqZ 0 16) d = foldl (fun d conf => probe conf d) d (List.filter (fun conf => negb (pci_device conf =? 65535)) ((fun p => pci_read_config cfg p.1 p.2) <$> map (pair bus) (seqZ 0 16)))).
  { intros bus. unfold probe_all. generalize (seqZ 0 16). induction l as [|i l IH]; intros d'; [done|]. cbn [map fmap list_fmap List.filter fst snd]. unfold present at 1. destruct (negb _); [|apply IH]. cbn [foldl]. apply IH. }
  rewrite !E. done.
Qed.

(** The virtio driver behind the table; what its ports read as, the memory for its
    structure and the result of the registration are given. *)
Record virtio_ports := mk_vp { v_feat : Z; v_mac : list Z; v_nic : positive; v_reg : Z; v_pm : PM.pmem; v_mem : bmem; v_tx : Z; v_rx : Z; v_drv : Z }.
Definition virtio_config (c : pci_config_t) : VN.pci_config := VN.mk_pci (pci_rev_id c) (pci_subsystem_id c) (pci_bars c) (pci_interrupt_line c).
Definition virtio_drivers (v : virtio_ports) : PciDrivers (option VN.virtio_net_device) := {|
  pci_init := fun drv c d =>
    match drv with
    | net_virtio =>
        match VN.net_virtio_init (virtio_config c) (match d with Some _ => true | None => false end) (v_feat v) (v_mac v) (Zpos (v_nic v)) (v_reg v) (v_pm v) (v_mem v) (v_tx v) (v_rx v) (v_drv v) with
        | VN.InitReady n => (Some n, 0)
        | VN.InitFailed e => (d, e)
        | VN.InitFreed n e => (Some n, e)
        | VN.InitNull => (d, 0)
        end
    end |}.

Definition demo_ports : virtio_ports := mk_vp 65568 [82; 84; 0; 18; 52; 86] 4096 0 (PM.mk_pmem 1024 32768) ∅ 4 4 65568.
(** A host bridge in slot 0 and a virtio card in slot 3 of bus 0. *)
Definition demo_cfg (a : Z) : Z :=
  if a =? 2147483648 then 305626246
  else if a =? 2147489792 then 268442356 else if a =? 2147489792 + 16 then 49217 else if a =? 2147489792 + 44 then 71412 else if a =? 2147489792 + 60 then 267
  else if Z.land a 16776960 =? 6144 then 0
  else 4294967295.

Lemma forall_slots (P : Z -> bool) lo n : forallb P (seqZ lo n) = true -> forall i, lo <= i < lo + n -> P i = true.
Proof. intros H i Hi. rewrite forallb_forall in H. apply H. apply list_elem_of_In, elem_of_seqZ. lia. Qed.

Lemma demo_bus_absent bus : forallb (fun i => negb (present demo_cfg bus i)) (seqZ 0 16) = true -> bus_ok demo_cfg bus.
Proof. intros H. left. intros i Hi. pose proof (forall_slots _ _ _ H i Hi) as E. by apply negb_true_iff in E. Qed.

(** The card is found and set up. *)
Lemma pci_setup_probes_once_witness : exists n, @pci_setup demo_cfg _ (virtio_drivers demo_ports) None = Some n /\ VN.iobase n = 49216 /\ VN.intr n = 11.
Proof.
  rewrite (@pci_setup_probes_once _ (virtio_drivers demo_ports) demo_cfg None).
  - eexists. split; [vm_compute; reflexivity|]. split; reflexivity.
  - right. exists 0. split; [lia|]. split; [lia|]. split; [by vm_compute|]. split; [by vm_compute|]. intros i Hi Hp.
    pose proof (forall_slots (fun i => negb (present demo_cfg 0 i) || negb (slot_id demo_cfg 0 i =? slot_id demo_cfg 0 0)) 1 15 ltac:(by vm_compute) i ltac:(lia)) as E. cbv beta in E. rewrite Hp in E. cbn [negb orb] in E. apply negb_true_iff in E. by apply Z.eqb_neq.
  - apply demo_bus_absent. by vm_compute.
  - apply demo_bus_absent. by vm_compute.
Defined.

(** Two equal cards in the first slots: the scan stops at the second, and a
    device behind it is not found. *)
Definition twin_cfg (a : Z) : Z := if (a =? 2147483648) || (a =? 2147485696) then 305626246 else if a =? 2147487744 then 268442356 else 4294967295.
Lemma scan_stops_at_twin : pci_device (pci_read_config twin_cfg 0 2) <> 65535 /\ lookup_pci_driver (pci_id (pci_read_config twin_cfg 0 2)) = Some net_virtio /\
  forall D (H : PciDrivers D) (d : D), pci_bus_setup twin_cfg 0 d = d.
Proof. split; [by vm_compute|]. split; [by vm_compute|]. intros D H d. vm_compute. reflexivity. Qed.

End PCI.
