(* ===== verification/Elf.v ===== *)
(** * Sections and symbols of the kernel image (src/core/elf.c)

    Module [ELF]: looking up a section by name and the rows that the listings of
    sections and symbols print, over the headers and the string tables in memory;
    the theorem on the section found.  [None] is an unbounded string. *)

From stdpp Require Import strings.
From S2P Require Import Prelude CString CStringProofs.

Module ELF.
Import CS CSP.

Definition SHT_STRTAB : Z := 3.
Definition SHF_WRITE : Z := 1.
Definition SHF_ALLOC : Z := 2.
Definition SHF_EXECINSTR : Z := 4.
Definition SHF_STRINGS : Z := 32.
Definition STT_FILE : Z := 4.
Definition STB_WEAK : Z := 2.
Definition ELF32_ST_BIND (v : Z) : Z := Z.shiftr (u8 v) 4.
Definition ELF32_ST_TYPE (v : Z) : Z := Z.land v 15.

Record Elf32_Shdr := mk_shdr { sh_name : Z; sh_type : Z; sh_flags : Z; sh_addr : Z; sh_size : Z; sh_addralign : Z }.
Record Elf32_Sym := mk_sym { st_name : Z; st_value : Z; st_size : Z; st_info : Z }.

(** The names of the types, from index 0. *)
Definition str_shdr_type : list string := ["NULL"; "PROGBIT"; "SYMTAB"; "STRTAB"; "RELA"; "HASH"; "DYNAMIC"; "NOTE"; "NOBITS"; "REL"; "SHLIB"]%string.
Definition symtypes : list string := ["notype"; "object"; "func"; "section"; "file"]%string.
Definition symbinds : list string := ["L"; "G"; "W"]%string.

Section Elf.
(** [shstr] is the address of the text .shstrtab. *)
Variables (fuel : nat) (m : mem) (shstr : Z).

(** The address of the table of section names, 0 when there is none. *)
Fixpoint find_shstrtab (l : list Elf32_Shdr) : option Z :=
  match l with
  | [] => Some 0
  | s :: l =>
      if sh_type s =? SHT_STRTAB then
        c ← strncmp fuel m shstr (sh_addr s + sh_name s) 9;
        if c =? 0 then Some (sh_addr s) else find_shstrtab l
      else find_shstrtab l
  end.

Fixpoint find_section (tab : Z) (l : list Elf32_Shdr) (sname i : Z) : option (option Z) :=
  match l with
  | [] => Some None
  | s :: l =>
      if sh_name s =? 0 then find_section tab l sname (i + 1)
      else
        c ← strcmp fuel m (tab + sh_name s) sname;
        if c =? 0 then Some (Some i) else find_section tab l sname (i + 1)
  end.

(** The index of the section, or [None] inside for the null pointer. *)
Definition elf_section_by_name (shdr : list Elf32_Shdr) (sname : Z) : option (option Z) :=
  tab ← find_shstrtab shdr;
  if tab =? 0 then Some None else find_section tab shdr sname 0.

(** A row of the listing of symbols: value, size, type, binding, name. *)
Definition sym_row (strtab : Z) (sym : Elf32_Sym) : Z * Z * string * string * Z :=
  let type := ELF32_ST_TYPE (st_info sym) in
  let bind := ELF32_ST_BIND (st_info sym) in
  (st_value sym, st_size sym,
   if type <=? STT_FILE then default "" (symtypes !! Z.to_nat type) else "???"%string,
   if bind <=? STB_WEAK then default "" (symbinds !! Z.to_nat bind) else "?"%string,
   strtab + st_name sym).

Fixpoint syms_loop (strtab symname symlen : Z) (l : list Elf32_Sym) : option (list (Z * Z * string * string * Z)) :=
  match l with
  | [] => Some []
  | sym :: l =>
      c ← strncmp fuel m symname (strtab + st_name sym) symlen;
      rows ← syms_loop strtab symname symlen l;
      Some (if c =? 0 then sym_row strtab sym :: rows else rows)
  end.

Definition print_elf_syms (syms : list Elf32_Sym) (strtab symname : Z) : option (list (Z * Z * string * string * Z)) :=
  symlen ← strlen fuel m symname; syms_loop strtab symname symlen syms.

(** A row of the listing of sections: type (or its number), flags, address,
    size, alignment, name. *)
Definition flag (s : Elf32_Shdr) (f : Z) (c : string) : string := if Z.land (sh_flags s) f =? 0 then "-"%string else c.
Definition section_row (tab : Z) (s : Elf32_Shdr) : (string + Z) * list string * Z * Z * Z * Z :=
  (match str_shdr_type !! Z.to_nat (sh_type s) with Some t => inl t | None => inr (sh_type s) end,
   [flag s SHF_STRINGS "S"; flag s SHF_EXECINSTR "X"; flag s SHF_ALLOC "A"; flag s SHF_WRITE "W"]%string,
   sh_addr s, sh_size s, sh_addralign s, tab + sh_name s).

Definition print_section_headers (shdr : list Elf32_Shdr) : option (list ((string + Z) * list string * Z * Z * Z * Z)) :=
  tab ← find_shstrtab shdr;
  Some (if tab =? 0 then [] else section_row tab <$> shdr).

(** ** Properties *)

(** [name] gives the strings of a table, all shorter than the fuel. *)
Definition names_ok (tab : Z) (l : list Elf32_Shdr) (name : Elf32_Shdr -> list Z) : Prop :=
  forall s, s ∈ l -> sh_name s <> 0 -> cstr m (tab + sh_name s) (name s) /\ (length (name s) < fuel)%nat /\ Z.of_nat (length (name s)) < UINT_MAX.

Lemma cmp_spec_whole s1 s2 n : str_bytes s1 -> str_bytes s2 -> (length s1 < n)%nat -> cmp_spec s1 s2 n = 0 <-> s1 = s2.
Proof.
  intros H1 H2 Hn. rewrite cmp_spec_zero by done. split; [|by intros ->]. intros E. rewrite take_ge in E by lia. rewrite E. apply take_ge. apply (f_equal length) in E. rewrite length_take in E. lia.
Qed.

Lemma find_section_first tab name sname str l : forall i, names_ok tab l name -> cstr m sname str ->
  find_section tab l sname i = Some ((fun p => i + Z.of_nat p.1) <$> list_find (fun s => sh_name s <> 0 /\ name s = str) l).
Proof.
  induction l as [|s l IH]; intros i Hn Hs; cbn [find_section list_find]; [done|]. assert (Hl : names_ok tab l name) by (intros x Hx; apply Hn; set_solver).
  assert (Hstep : forall (o : option (nat * Elf32_Shdr)), ((fun p => i + 1 + Z.of_nat p.1) <$> o) = ((fun p => i + Z.of_nat p.1) <$> (prod_map S id <$> o))) by (intros [[j x]|]; cbn; [f_equal; lia|done]).
  destruct (Z.eqb_spec (sh_name s) 0) as [H0|H0].
  - rewrite decide_False by tauto. rewrite IH by done. f_equal. apply Hstep.
  - destruct (Hn s ltac:(set_solver) H0) as (Hc & Hlen & Hmax). unfold strcmp. rewrite (strncmp_correct fuel m _ _ _ _ UINT_MAX Hc Hs Hlen). cbn [mbind option_bind].
    pose proof (cmp_spec_whole (name s) str (Z.to_nat UINT_MAX) (proj2 Hc) (proj2 Hs) ltac:(lia)) as Hz. destruct (Z.eqb_spec (cmp_spec (name s) str (Z.to_nat UINT_MAX)) 0) as [E|E].
    + rewrite decide_True by tauto. cbn. do 2 f_equal. lia.
    + rewrite decide_False by tauto. rewrite IH by done. f_equal. apply Hstep.
Qed.

(** The table of names is the first string table that names itself with a text
    that starts with .shstrtab. *)
Lemma find_shstrtab_first name txt l : cstr m shstr txt -> (length txt < fuel)%nat -> (forall s, s ∈ l -> sh_type s = SHT_STRTAB -> cstr m (sh_addr s + sh_name s) (name s)) ->
  find_shstrtab l = Some (default 0 ((fun p => sh_addr p.2) <$> list_find (fun s => sh_type s = SHT_STRTAB /\ take 9 txt = take 9 (name s)) l)).
Proof.
  intros Ht Hf. induction l as [|s l IH]; intros Hn; cbn [find_shstrtab list_find]; [done|]. specialize (IH ltac:(intros x Hx; apply Hn; set_solver)). destruct (Z.eqb_spec (sh_type s) SHT_STRTAB) as [Es|Es].
  - pose proof (Hn s ltac:(set_solver) Es) as Hc. rewrite (strncmp_correct fuel m _ _ _ _ 9 Ht Hc Hf). cbn [mbind option_bind]. change (Z.to_nat 9) with 9%nat.
    pose proof (cmp_spec_zero txt (name s) 9 (proj2 Ht) (proj2 Hc)) as Hz. destruct (Z.eqb_spec (cmp_spec txt (name s) 9) 0) as [E|E]; [by rewrite decide_True by tauto|].
    rewrite decide_False by tauto. rewrite IH. f_equal. by destruct (list_find _ l) as [[j x]|].
  - rewrite decide_False by tauto. rewrite IH. f_equal. by destruct (list_find _ l) as [[j x]|].
Qed.

(** The section found is the first that has a name, and the name asked for. *)
Theorem section_by_name_first name sname str l tab : find_shstrtab l = Some tab -> tab <> 0 -> names_ok tab l name -> cstr m sname str ->
  elf_section_by_name l sname = Some ((fun p => Z.of_nat p.1) <$> list_find (fun s => sh_name s <> 0 /\ name s = str) l).
Proof.
  intros Ht H0 Hn Hs. unfold elf_section_by_name. rewrite Ht. cbn [mbind option_bind]. rewrite (proj2 (Z.eqb_neq tab 0)) by done. by rewrite (find_section_first tab name sname str) by done.
Qed.

End Elf.
End ELF.
