(* ===== verification/Acpi.v ===== *)
(** * Powering off (src/dev/acpi.c)

    Module [AC]: the search for the ACPI tables in memory, and the sleep state
    taken from the bytecode of the DSDT; the theorem on what is written to the
    power management ports. *)

From S2P Require Import Prelude CString CStringProofs.

Module AC.

Definition ACPI_TBL_LEN_OFF : Z := 1.
Definition FADT_SIGNITURE : Z := 1346584902.
Definition DSDT_SIGNITURE : Z := 1413763908.
Definition RSDT_SIGNITURE : Z := 1413763922.
Definition EINVAL : Z := 22.

(** [theAcpi]; the pointers are 0 at first. *)
Record acpi := mk_acpi { rsdp : Z; rsdt : Z; fadt : Z; dsdt : Z }.

Section Acpi.
(** [s5_name] is the address of the text _S5_. *)
Variables (m : bmem) (s5_name : Z).

Definition p32 (a : Z) : Z := ld32 m a.
(** Offsets of the fields. *)
Definition rsdp_rsdt (p : Z) : Z := p32 (p + 16).
Definition tbl_len (p : Z) : Z := p32 (p + 4).
Definition fadt_dsdt (p : Z) : Z := p32 (p + 40).
Definition fadt_pm1a_ctrlblock (p : Z) : Z := p32 (p + 64).
Definition fadt_pm1b_ctrlblock (p : Z) : Z := p32 (p + 68).

Fixpoint rsdp_loop (k : nat) (p : Z) : option Z :=
  match k with
  | O => None
  | S k => if (p32 p =? 541348690) && (p32 (p + 4) =? 542266448) then Some p else rsdp_loop k (p + 16)
  end.

Definition acpi_lookup_rsdp (t : acpi) : acpi * Z :=
  match rsdp_loop (Z.to_nat ((1048560 - 917504) / 16 + 1)) 917504 with
  | Some p => (mk_acpi p (rsdp_rsdt p) (fadt t) (dsdt t), 0)
  | None => (t, 1)
  end.

Fixpoint s5_loop (k : nat) (dsdt i : Z) : Z :=
  match k with O => 0 | S k => if CS.memcmp m (dsdt + i) s5_name 4 =? 0 then dsdt + i else s5_loop k dsdt (i + 1) end.
Definition acpi_scan_dsdt_for_S5_ (dsdt len : Z) : Z := s5_loop (Z.to_nat len) dsdt 0.

Fixpoint ck_loop (k : nat) (p ck : Z) : Z := match k with O => ck | S k => ck_loop k (p + 1) (u8 (ck + ldb m p)) end.

(** The tables listed from [i] on, [k] of them. *)
Fixpoint tables_loop (k : nat) (i : Z) (t : acpi) : acpi :=
  match k with
  | O => t
  | S k =>
      let table := p32 i in
      let t :=
        if p32 table =? FADT_SIGNITURE then
          let d := fadt_dsdt table in
          mk_acpi (rsdp t) (rsdt t) table (if p32 d =? DSDT_SIGNITURE then d else dsdt t)
        else t in
      tables_loop k (i + 4) t
  end.

Definition acpi_init (t : acpi) : acpi * Z :=
  if negb (rsdt t =? 0) then (t, 0)
  else
    let '(t, ret) := acpi_lookup_rsdp t in
    if negb (ret =? 0) then (t, ret)
    else if negb (p32 (rsdt t) =? RSDT_SIGNITURE) then (t, - EINVAL)
    else
      let r := rsdp_rsdt (rsdp t) in
      if negb (ck_loop (Z.to_nat (s32 (tbl_len r))) r 0 =? 0) then (t, - EINVAL)
      else
        let t := mk_acpi (rsdp t) r (fadt t) (dsdt t) in
        (tables_loop (Z.to_nat ((tbl_len r - 36 + 3) / 4)) (r + 36) t, 0).

(** The tables, the words written to ports in order, the error. *)
Definition acpi_poweroff (t : acpi) : acpi * list (Z * Z) * Z :=
  let '(t, ret) := acpi_init t in
  if negb (ret =? 0) then (t, [], ret)
  else if fadt t =? 0 then (t, [], - EINVAL)
  else
    let s5addr := acpi_scan_dsdt_for_S5_ (dsdt t) (p32 (dsdt t + 4 * ACPI_TBL_LEN_OFF)) in
    if s5addr =? 0 then (t, [], - EINVAL)
    else
      let s5addr := s5addr + 4 in
      if negb (CS.chr m s5addr =? 18) then (t, [], - EINVAL)
      else
        let s5addr := s5addr + 1 in
        let s5pkglen := u8 (Z.shiftr (Z.land (CS.chr m s5addr) 192) 6 + 2) in
        let s5addr := s5addr + s5pkglen in
        let s5addr := if CS.chr m s5addr =? 10 then s5addr + 1 else s5addr in
        let SLP_TYPa := u16 (Z.shiftl (u16 (CS.chr m s5addr)) 10) in
        let s5addr := s5addr + 1 in
        let s5addr := if CS.chr m s5addr =? 10 then s5addr + 1 else s5addr in
        let SLP_TYPb := u16 (Z.shiftl (u16 (CS.chr m s5addr)) 10) in
        let pm1a_ctrlport := u16 (fadt_pm1a_ctrlblock (fadt t)) in
        let pm1b_ctrlport := u16 (fadt_pm1b_ctrlblock (fadt t)) in
        let SLP_EN := Z.shiftl 1 13 in
        let outs := (pm1a_ctrlport, Z.lor SLP_TYPa SLP_EN) :: if pm1b_ctrlport =? 0 then [] else [(pm1b_ctrlport, Z.lor SLP_TYPb SLP_EN)] in
        (t, outs, 0).

(** ** Properties *)

Lemma s5_loop_first d k : forall n i, 0 <= i <= k -> k < i + Z.of_nat n -> (forall j, i <= j < k -> CS.memcmp m (d + j) s5_name 4 <> 0) -> CS.memcmp m (d + k) s5_name 4 = 0 -> s5_loop n d i = d + k.
Proof.
  induction n as [|n IH]; intros i Hi Hk Hno Hyes; [lia|]. cbn [s5_loop]. destruct (decide (i = k)) as [->|Hne]; [by rewrite Hyes|].
  rewrite (proj2 (Z.eqb_neq _ 0)) by (apply Hno; lia). apply IH; [lia|lia| |done]. intros j Hj. apply Hno. lia.
Qed.

(** The bytes of a small integer in the bytecode, with or without its prefix. *)
Definition aml_byte (prefix : bool) (v : Z) : list Z := if prefix then [10; v] else [v].
Definition s5_text : list Z := [95; 83; 53; 95].

(** The element count follows the package length, whose first byte says how
    many bytes it has more. *)
Definition pkg_header (l : list Z) : Prop := exists b rest, l = b :: rest /\ 0 <= b < 256 /\ Z.of_nat (length rest) = b / 64 + 1.

Lemma read_aml_byte p (pre : bool) v l : CSP.bytes_at m p (aml_byte pre v ++ l) -> 0 <= v < 8 -> 
  let q := if CS.chr m p =? 10 then p + 1 else p in CS.chr m q = v /\ CSP.bytes_at m (q + 1) l.
Proof.
  intros H Hv. assert (Hs : s8 v = v) by (unfold s8, swrap; change (2 ^ 8) with 256; change (2 ^ (8 - 1)) with 128; zlia). unfold CS.chr. destruct pre; cbn [aml_byte app] in H; apply CSP.bytes_at_cons in H as [E H].
  - rewrite E. change (s8 10 =? 10) with true. cbv iota zeta. apply CSP.bytes_at_cons in H as [E' H]. by rewrite E', Hs.
  - cbv zeta. rewrite E, Hs. rewrite (proj2 (Z.eqb_neq v 10)) by lia. by rewrite E, Hs.
Qed.

Lemma pkg_len b : 0 <= b < 256 -> u8 (Z.shiftr (Z.land (s8 b) 192) 6 + 2) = b / 64 + 2.
Proof.
  intros Hb. assert (Hs : Z.land (s8 b) 192 = Z.land b 192).
  { change 192 with (Z.land 192 (Z.ones 8)). rewrite (Z.land_comm 192), !Z.land_assoc, !Z.land_ones by lia. f_equal. unfold s8, swrap. change (2 ^ 8) with 256. change (2 ^ (8 - 1)) with 128. zlia. }
  rewrite Hs, Z.shiftr_land. change (Z.shiftr 192 6) with (Z.ones 2). rewrite Z.land_ones, Z.shiftr_div_pow2 by lia. change (2 ^ 6) with 64. change (2 ^ 2) with 4. rewrite Z.mod_small by zlia. apply u8_small. unfold in_u8. zlia.
Qed.

Lemma slp_typ v : 0 <= v < 8 -> u16 (Z.shiftl (u16 v) 10) = v * 1024.
Proof. intros Hv. rewrite (u16_small v) by (unfold in_u16; lia). rewrite Z.shiftl_mul_pow2 by lia. apply u16_small. unfold in_u16. change (2 ^ 10) with 1024. lia. Qed.

Lemma memcmp_same p : CSP.bytes_at m p s5_text -> CSP.bytes_at m s5_name s5_text -> CS.memcmp m p s5_name 4 = 0.
Proof.
  unfold s5_text. rewrite !CSP.bytes_at_cons. intros (A1 & A2 & A3 & A4 & _) (B1 & B2 & B3 & B4 & _). unfold CS.memcmp. change (Z.to_nat 4) with 4%nat. cbn [CS.memcmp_loop]. unfold CS.chr. rewrite A1, A2, A3, A4, B1, B2, B3, B4. done.
Qed.

(** With the tables found and the sleep package in the bytecode of the DSDT, the
    sleep types of the package go to the control ports, with the enable bit. *)
Theorem poweroff_writes t k pkg p1 a p2 b tail : rsdt t <> 0 -> fadt t <> 0 -> 0 <= k < p32 (dsdt t + 4) -> 0 < dsdt t -> CSP.bytes_at m s5_name s5_text ->
  (forall j, 0 <= j < k -> CS.memcmp m (dsdt t + j) s5_name 4 <> 0) ->
  CSP.bytes_at m (dsdt t + k) (s5_text ++ 18 :: pkg ++ aml_byte p1 a ++ aml_byte p2 b ++ tail) -> pkg_header pkg -> 0 <= a < 8 -> 0 <= b < 8 ->
  let pm1a := u16 (fadt_pm1a_ctrlblock (fadt t)) in let pm1b := u16 (fadt_pm1b_ctrlblock (fadt t)) in
  acpi_poweroff t = (t, (pm1a, Z.lor (a * 1024) 8192) :: (if pm1b =? 0 then [] else [(pm1b, Z.lor (b * 1024) 8192)]), 0).
Proof.
  intros Hr Hf Hk Hd Hname Hno H (b0 & rest & -> & Hb0 & Hlen) Ha Hb. cbv zeta. unfold acpi_poweroff, acpi_init. rewrite (proj2 (Z.eqb_neq (rsdt t) 0)) by done. cbn [negb]. rewrite (proj2 (Z.eqb_neq (fadt t) 0)) by done. change (negb (0 =? 0)) with false. cbv iota.
  unfold acpi_scan_dsdt_for_S5_. change (4 * ACPI_TBL_LEN_OFF) with 4. apply CSP.bytes_at_app in H as [Ht H]. change (Z.of_nat (length s5_text)) with 4 in H.
  rewrite (s5_loop_first _ k) by (done || lia || by apply memcmp_same). rewrite (proj2 (Z.eqb_neq (dsdt t + k) 0)) by lia. apply CSP.bytes_at_cons in H as [E18 H]. unfold CS.chr at 1. rewrite E18. change (negb (s8 18 =? 18)) with false. cbv iota zeta.
  cbn [app] in H. apply CSP.bytes_at_cons in H as [Eb H]. unfold CS.chr. rewrite Eb, pkg_len by done. apply CSP.bytes_at_app in H as [_ H].
  replace (dsdt t + k + 4 + 1 + 1 + Z.of_nat (length rest)) with (dsdt t + k + 4 + 1 + (b0 / 64 + 2)) in H by lia. set (q := dsdt t + k + 4 + 1 + (b0 / 64 + 2)) in *.
  destruct (read_aml_byte q p1 a _ H Ha) as [Ea H2]. cbv zeta in Ea, H2. unfold CS.chr in Ea, H2.
  destruct (read_aml_byte _ p2 b _ H2 Hb) as [Eb2 _]. cbv zeta in Eb2. unfold CS.chr in Eb2. rewrite Ea, Eb2, !slp_typ by done. done.
Qed.

End Acpi.
End AC.
