(* ===== verification/Boot.v ===== *)
(** * What the boot loader left (src/arch/mboot.c, src/fs/vfs.c)

    Module [BOOT]: the multiboot information, the modules that the boot loader
    put into memory, and the file tree that is made of them: archives are
    unpacked, other modules become files under /boot.

    The information, the modules and the buffers are bytes of one memory.  The
    addresses of the kernel's own strings and buffers are parameters.  [None] is
    an access that the file system model rules out, or text that is longer than
    [fuel]. *)

From S2P Require Import Prelude CString Fmt RamFS Devices Vfs Syscall Screen.

Module BOOT.
Import CS FMT VFS RF.

(** ** The multiboot information *)

Definition MAX_CMDLINE_LEN : Z := 256.
Definition sizeof_memory_map : Z := 24.

Record ext_info := mk_ext {
  flags : Z; mem_lower : Z; mem_upper : Z; boot_device : Z; mods_count : Z; mods_addr : Z; syms : Z;
  mmap_length : Z; mmap_addr : Z; drives_length : Z; drives_addr : Z; config_table : Z; bootloader_name : Z; apm_table : Z; vbe : Z }.

(** [n] bits of the flags from bit [i] on. *)
Definition flag_bits (w i n : Z) : Z := Z.land (Z.shiftr w i) (Z.ones n).

(** [cmdline] is the buffer behind the record. *)
Definition mboot_info_parse (fuel : nat) (cmdline : Z) (m : bmem) (mbi : Z) : option (bmem * ext_info) :=
  let word i := ld32 m (mbi + 4 * i) in
  let w := word 0 in
  let bit i n v := if flag_bits w i n =? 0 then 0 else v in
  m' ← (if flag_bits w 2 1 =? 0 then Some (stb m cmdline 0) else option_map fst (strncpy fuel m cmdline (word 4) MAX_CMDLINE_LEN));
  Some (m', mk_ext w (bit 0 1 (word 1)) (bit 0 1 (word 2)) (bit 1 1 (word 3)) (bit 3 1 (word 5)) (bit 3 1 (word 6)) (bit 4 2 (mbi + 28))
    (bit 6 1 (word 11)) (bit 6 1 (word 12)) (bit 7 1 (word 13)) (bit 7 1 (word 14)) (bit 8 1 (word 15)) (bit 9 1 (word 16)) (bit 10 1 (word 17)) (bit 11 1 (mbi + 72))).

Definition mboot_mmap_length (b : ext_info) : Z := mmap_length b / sizeof_memory_map.
Definition mboot_mmap_addr (b : ext_info) : Z := mmap_addr b.
Definition mboot_kernel_shdr (b : ext_info) : Z := syms b.
Definition mboot_modules_info (b : ext_info) : Z * Z := (mods_count b, mods_addr b).
Definition mboot_uppermem_kb (b : ext_info) : Z := mem_upper b.

Record module_t := mk_mod { mod_start : Z; mod_end : Z; string : Z }.

Definition read_mod (m : bmem) (mods i : Z) : module_t := mk_mod (ld32 m (mods + 16 * i)) (ld32 m (mods + 16 * i + 4)) (ld32 m (mods + 16 * i + 8)).

(** ** Archives *)

Definition TAR_BLOCKSIZE : Z := 512.
Definition TAR_MAGIC : list Z := [117; 115; 116; 97; 114; 32].
Definition TAR_MAGIC_LEN : Z := 6.
Definition TAR_NAME_LEN : Z := 100.
Definition TAR_TYPEFLAG_REG : Z := 48.
Definition TAR_TYPEFLAG_REG0 : Z := 0.

(** The offsets of the fields of a header. *)
Definition tar_size : Z := 124.
Definition tar_typeflag : Z := 156.
Definition tar_magic : Z := 257.

(** The bytes at an address. *)
Definition bytes (m : bmem) (a n : Z) : list Z := map (ldb m) (seqZ a n).

Definition to_opt {A} (r : res A) : option A := match r with Ok a => Some a | _ => None end.

Section Boot.
Context {S D : Type}.
Abbreviation vfs := (vfs S D).
(** Where the text of a string constant is, and the buffer for a file's path. *)
Variables (lit : list Z -> Z) (filepath : Z) (fuel : nat).

Definition fmt_path : list Z := [37; 115; 37; 115].

(** One block; [filesize0] is what the local variable holds before it. *)
Definition tar_block (m : bmem) (v : vfs) (dirname block filesize0 : Z) : option (bmem * vfs) :=
  c ← strncmp fuel m (block + tar_magic) (lit TAR_MAGIC) TAR_MAGIC_LEN;
  if negb (c =? 0) then Some (m, v)
  else
    '(_, filesize) ← to_opt (sscan_uint fuel m (block + tar_size) filesize0 8);
    '(m, _) ← to_opt (vsnprintf fuel m filepath (TAR_NAME_LEN + 2) (lit fmt_path) [VaWord dirname; VaWord block]);
    let typeflag := ldb m (block + tar_typeflag) in
    if (typeflag =? TAR_TYPEFLAG_REG) || (typeflag =? TAR_TYPEFLAG_REG0) then
      v ← build_file_from_string v (SC0.cstring_loop fuel m filepath) (bytes m (block + TAR_BLOCKSIZE) filesize);
      Some (m, v)
    else Some (m, v).

Fixpoint tar_loop (k : nat) (m : bmem) (v : vfs) (dirname block filesize0 : Z) : option (bmem * vfs) :=
  match k with
  | O => Some (m, v)
  | Datatypes.S k => '(m, v) ← tar_block m v dirname block filesize0; tar_loop k m v dirname (block + TAR_BLOCKSIZE) filesize0
  end.

(** As many blocks as begin inside the archive. *)
Definition build_dir_from_tar (m : bmem) (v : vfs) (dirname archive size filesize0 : Z) : option (bmem * vfs) :=
  tar_loop (Z.to_nat ((size + TAR_BLOCKSIZE - 1) / TAR_BLOCKSIZE)) m v dirname archive filesize0.

(** ** Modules *)

Definition boot_slash : list Z := [47; 98; 111; 111; 116; 47].
Definition dot_tar : list Z := [46; 116; 97; 114].
Definition mod_text : list Z := [109; 111; 100].

(** The name of module [i] behind "/boot/" in the buffer [name]. *)
Definition module_name (m : bmem) (name i : Z) (md : module_t) : option bmem :=
  if negb (string md =? 0) then
    let modname := if ldb m (string md) =? FS_SEP then string md + 1 else string md in
    option_map fst (strncpy fuel m (name + 6) modname 128)
  else
    m ← option_map fst (strncpy fuel m (name + 6) (lit mod_text) 128);
    Some (stb (stb m (name + 9) (u8 (48 + i))) (name + 10) 0).

Definition boot_module (m : bmem) (v : vfs) (name mods i filesize0 : Z) : option (bmem * vfs) :=
  let md := read_mod m mods i in
  m ← module_name m name i md;
  let size := u32 (mod_end md - mod_start md) in
  namelen ← strlen fuel m name;
  c ← strcmp fuel m (name + namelen - 4) (lit dot_tar);
  if c =? 0 then build_dir_from_tar m v (lit [FS_SEP]) (mod_start md) size filesize0
  else
    v ← build_file_from_string v (SC0.cstring_loop fuel m name) (bytes m (mod_start md) size);
    Some (m, v).

Fixpoint boot_loop (k : nat) (m : bmem) (v : vfs) (name mods i filesize0 : Z) : option (bmem * vfs) :=
  match k with
  | O => Some (m, v)
  | Datatypes.S k => '(m, v) ← boot_module m v name mods i filesize0; boot_loop k m v name mods (i + 1) filesize0
  end.

Definition build_boot_dir (m : bmem) (v : vfs) (b : ext_info) (name filesize0 : Z) : option (bmem * vfs) :=
  m ← option_map fst (strncpy fuel m name (lit boot_slash) 128);
  '(v, _) ← vfs_mkdir v [47; 98; 111; 111; 116] 511;
  let '(n_mods, mods) := mboot_modules_info b in
  boot_loop (Z.to_nat n_mods) m v name mods 0 filesize0.

(** ** The file tree *)

Definition CHR_MEMDEV : Z := 1.
Definition CHRMEM_MEM : Z := 1.
Definition CHR_TTY : Z := 4.

Fixpoint ttys_loop (k : nat) (v : vfs) (i : Z) : option vfs :=
  match k with
  | O => Some v
  | Datatypes.S k =>
      '(v, _) ← vfs_mknod v [47; 100; 101; 118; 47; 116; 116; 121; 48 + i] (Z.lor S_IFCHR 493) (gnu_dev_makedev CHR_TTY i);
      ttys_loop k v (i + 1)
  end.

(** [fs] is the driver that is registered, with the state it begins with;
    [build_date] is a text that the compiler makes. *)
Definition vfs_setup (m : bmem) (v : vfs) (b : ext_info) (fs : fsdriver S) (newsb : Z) (s0 : S) (build_date : list Z) (name filesize0 : Z) : option (bmem * vfs) :=
  let v := vfs_register_filesystem v fs in
  '(v, ret) ← vfs_mount v (gnu_dev_makedev CHR_MEMDEV CHRMEM_MEM) [FS_SEP] RAMFS_ID newsb s0;
  if negb (ret =? 0) then Some (m, v)
  else
    '(v, ret) ← vfs_mkdir v [47; 116; 109; 112] 511;
    if negb (ret =? 0) then Some (m, v)
    else
      v ← build_file_from_string v [47; 66; 85; 73; 76; 68] build_date;
      '(m, v) ← build_boot_dir m v b name filesize0;
      '(v, ret) ← vfs_mkdir v [47; 100; 101; 118] 493;
      if negb (ret =? 0) then Some (m, v)
      else v ← ttys_loop (Z.to_nat SC.N_VCSA_DEVICES) v 0; Some (m, v).

End Boot.

End BOOT.
