(* ===== verification/BootProofs.v ===== *)
(** * The file tree that boot makes of the modules

    Module [BOOTP]: archives and modules in memory, the files they stand for, and
    that exactly those files are made, in order. *)

From S2P Require Import Prelude CString CStringProofs Fmt FmtProofs FirstFit FirstFitProofs KHeap RamBlocks RamBlocksProofs RamDir RamFS RamFSProofs Devices Vfs VfsProofs Syscall Screen Boot.

Module BOOTP.
Import KH CS CSP FMT FMTP VFS RF BOOT.

(** ** Text in memory *)

Lemma cstring_text m s : forall p fuel, cstr m p s -> (length s < fuel)%nat -> SC0.cstring_loop fuel m p = s.
Proof.
  induction s as [|b s IH]; intros p [|fuel] H Hf; cbn [length] in Hf; try lia; cbn [SC0.cstring_loop].
  - apply cstr_nil in H. by rewrite H.
  - apply cstr_cons in H as (-> & Hb & H). rewrite (proj2 (Z.eqb_neq b 0)) by lia. f_equal. apply IH; [done|lia].
Qed.

Lemma bytes_eq m a l : bytes_at m a l -> bytes m a (Z.of_nat (length l)) = l.
Proof.
  intros H. unfold bytes. apply list_eq. intros i. rewrite list_lookup_fmap. destruct (decide (i < length l)%nat) as [Hi|Hi].
  - rewrite lookup_seqZ_lt by lia. cbn. destruct (lookup_lt_is_Some_2 l i Hi) as [b Hb]. rewrite Hb. f_equal. by apply H.
  - rewrite lookup_seqZ_ge by lia. symmetry. apply lookup_ge_None. lia.
Qed.

(** A comparison with a text of [n] characters sees whether it is there. *)
Lemma strncmp_text m t : forall fuel p q n i, cstr m q t -> n = i + Z.of_nat (length t) -> (length t < fuel)%nat -> 0 <= i -> (forall a, p <= a < p + Z.of_nat (length t) -> 0 <= ldb m a < 256) ->
  exists c, strncmp_loop fuel m p q n i = Some c /\ (c = 0 <-> bytes_at m p t).
Proof.
  induction t as [|b t IH]; intros [|fuel] p q n i Hq Hn Hf Hi Hb; cbn [length] in *; try lia; cbn [strncmp_loop].
  - rewrite (proj2 (Z.ltb_ge i n)) by lia. exists 0. split; [done|]. split; [intros _; apply bytes_at_nil|done].
  - apply cstr_cons in Hq as (Eq & Hbr & Hq). rewrite (proj2 (Z.ltb_lt i n)) by lia. unfold CS.chr. rewrite Eq. destruct (Z.eqb_spec (s8 (ldb m p)) (s8 b)) as [E|E]; cbn [negb].
    + assert (Ep : ldb m p = b) by (apply s8_inj; [apply Hb; lia|lia|done]). rewrite Ep, (proj2 (Z.eqb_neq b 0)) by lia. destruct (IH fuel (p + 1) (q + 1) n (i + 1)) as (c & Ec & Hc); [done|lia|lia|lia|intros a Ha; apply Hb; lia|]. exists c. split; [done|]. rewrite Hc, bytes_at_cons. tauto.
    + eexists. split; [done|]. split; [lia|]. intros H. apply bytes_at_cons in H as [H _]. by rewrite H in E.
Qed.

(** ** Archives *)

(** A member of an archive. *)
Record entry := mk_entry { e_name : list Z; e_type : Z; e_data : list Z }.

Definition regular (e : entry) : bool := (e_type e =? TAR_TYPEFLAG_REG) || (e_type e =? TAR_TYPEFLAG_REG0).


Definition has_magic (m : bmem) (block : Z) : Prop := bytes_at m (block + tar_magic) TAR_MAGIC.

Record header_at (m : bmem) (block : Z) (e : entry) : Prop := {
  h_name : cstr m block (e_name e) /\ (length (e_name e) < 100)%nat;
  h_size : exists ds, ds <> [] /\ (length ds <= 11)%nat /\ Forall (is_dig 8) ds /\ dval 8 0 ds = Z.of_nat (length (e_data e)) /\ bytes_at m (block + tar_size) (ds ++ [0]);
  h_type : ldb m (block + tar_typeflag) = e_type e;
  h_magic : has_magic m block;
  h_data : bytes_at m (block + 512) (e_data e);
  h_small : Z.of_nat (length (e_data e)) < 2 ^ 32 }.



Section Files.
Context {S D : Type}.
Abbreviation vfs := (vfs S D).

Fixpoint make_files (v : vfs) (l : list (list Z * list Z)) : option vfs :=
  match l with [] => Some v | (p, d) :: l => v ← build_file_from_string v p d; make_files v l end.


Variables (lit : list Z -> Z) (filepath name : Z) (fuel : nat) (m0 : bmem).
Hypothesis Hbytes : forall a, 0 <= ldb m0 a < 256.
Hypothesis Hfuel : (200 <= fuel)%nat.
Hypothesis Hpath : 0 < filepath.

(** Memory that is in none of the buffers keeps what it has. *)
Definition outside (a : Z) : Prop := (a < filepath \/ filepath + 102 <= a) /\ (a < name \/ name + 128 <= a).
Definition apart (a n : Z) : Prop := forall x, a <= x < a + n -> outside x.
Definition kept (m : bmem) : Prop := forall a, outside a -> ldb m a = ldb m0 a.
Definition lit_ok (t : list Z) : Prop := cstr m0 (lit t) t /\ apart (lit t) (Z.of_nat (length t) + 1).

(** Only the buffer for the path changes. *)
Definition path_only (m m' : bmem) : Prop := forall a, a < filepath \/ filepath + 102 <= a -> ldb m' a = ldb m a.

Lemma kept_cstr m p s : kept m -> apart p (Z.of_nat (length s) + 1) -> cstr m0 p s -> cstr m p s.
Proof. intros Hk Ha. apply cstr_same. intros a Hr. apply Hk, Ha. lia. Qed.

Lemma kept_bytes m p l : kept m -> apart p (Z.of_nat (length l)) -> bytes_at m0 p l <-> bytes_at m p l.
Proof. intros Hk Ha. split; apply bytes_at_ext; intros a Hr; [|symmetry]; apply Hk, Ha; lia. Qed.

Lemma apart_sub a n b k : apart a n -> a <= b -> b + k <= a + n -> apart b k.
Proof using Type. clear Hfuel Hpath Hbytes. intros H H1 H2 x Hx. apply H. lia. Qed.

Lemma magic_test m block : kept m -> apart block 512 -> lit_ok TAR_MAGIC -> exists c, strncmp fuel m (block + tar_magic) (lit TAR_MAGIC) TAR_MAGIC_LEN = Some c /\ (c = 0 <-> has_magic m0 block).
Proof.
  intros Hk Ha [Hl Hla]. unfold strncmp. destruct (Z.eqb_spec (block + tar_magic) (lit TAR_MAGIC)) as [E|_].
  - exists 0. split; [done|]. split; [intros _|done]. unfold has_magic. rewrite E. destruct Hl as [Hl _]. by apply bytes_at_app in Hl as [Hl _].
  - destruct (strncmp_text m TAR_MAGIC fuel (block + tar_magic) (lit TAR_MAGIC) TAR_MAGIC_LEN 0) as (c & Ec & Hc); [by apply kept_cstr|done|cbn [length TAR_MAGIC]; lia|lia| |].
    + intros a Hr. rewrite Hk by (apply Ha; unfold tar_magic in Hr; cbn [length TAR_MAGIC] in Hr; lia). apply Hbytes.
    + exists c. split; [done|]. rewrite Hc. symmetry. apply kept_bytes; [done|]. eapply apart_sub; [exact Ha|unfold tar_magic; lia|unfold tar_magic; cbn [length TAR_MAGIC]; lia].
Qed.


Lemma apart_side a n : apart a n -> 0 < n -> a + n <= filepath \/ filepath + 102 <= a.
Proof using Type. clear Hfuel Hpath Hbytes. intros H Hn. destruct (H a ltac:(lia)) as [[H1|H1] _]; [|lia]. destruct (decide (a + n <= filepath)); [lia|]. destruct (H filepath ltac:(lia)) as [H2 _]. lia. Qed.

(** The text that is printed to the buffer. *)
Lemma print_path m dirname dir block nm : kept m -> lit_ok fmt_path -> cstr m0 dirname dir -> apart dirname (Z.of_nat (length dir) + 1) -> cstr m0 block nm -> apart block (Z.of_nat (length nm) + 1) -> (length dir + length nm <= 101)%nat ->
  exists m' r, vsnprintf fuel m filepath (TAR_NAME_LEN + 2) (lit fmt_path) [VaWord dirname; VaWord block] = Ok (m', r) /\ kept m' /\ path_only m m' /\ cstr m' filepath (dir ++ nm).
Proof.
  intros Hk [Hl Hla] Hd Hda Hn Hna Hlen. pose proof (apart_side _ _ Hda ltac:(lia)). pose proof (apart_side _ _ Hna ltac:(lia)). pose proof (apart_side _ _ Hla ltac:(cbn [length fmt_path]; lia)) as Hs. cbn [length fmt_path] in Hs.
  destruct (vsnprintf_pieces fuel m filepath (TAR_NAME_LEN + 2) (lit fmt_path) [PStr dirname dir; PStr block nm]) as (m' & E & Hb & Ho); try (unfold TAR_NAME_LEN; lia).
  - cbn [length]. lia.
  - assert (length dir < fuel)%nat by lia. assert (length nm < fuel)%nat by lia. repeat apply Forall_cons_2; [| |apply Forall_nil_2]; (split; [by apply kept_cstr|]; split; [done|unfold TAR_NAME_LEN; lia]).
  - by apply kept_cstr.
  - cbn [length render mbind list_bind render1 app]. unfold TAR_NAME_LEN. lia.
  - eexists m', _. split; [exact E|]. split; [intros a Ha; rewrite Ho; [by apply Hk|destruct Ha as [Ha _]; unfold TAR_NAME_LEN; lia]|]. split; [exact Ho|].
    cbn [text mbind list_bind text1] in Hb. rewrite app_nil_r, take_ge in Hb by (rewrite length_app; unfold TAR_NAME_LEN; lia). split; [done|]. apply Forall_app. split; [apply Hd|apply Hn].
Qed.

Lemma file_block m (v : vfs) dirname dir block e f0 : kept m -> lit_ok TAR_MAGIC -> lit_ok fmt_path -> cstr m0 dirname dir -> apart dirname (Z.of_nat (length dir) + 1) -> (length dir <= 2)%nat ->
  header_at m0 block e -> apart block (512 + Z.of_nat (length (e_data e))) ->
  exists m', kept m' /\ path_only m m' /\ tar_block lit filepath fuel m v dirname block f0 = (v' ← (if regular e then build_file_from_string v (dir ++ e_name e) (e_data e) else Some v); Some (m', v')).
Proof.
  intros Hk Hlm Hlf Hd Hda Hdl [[Hn Hnl] (ds & Hne & Hdl' & Hdig & Hval & Hds) Hty Hmag Hdat Hsm] Ha. assert (Ha5 : apart block 512) by (eapply apart_sub; [exact Ha|lia|lia]).
  destruct (magic_test m block Hk Ha5 Hlm) as (c & Ec & Hc). unfold tar_block. rewrite Ec. cbn [mbind option_bind]. rewrite (proj2 Hc Hmag). cbn [Z.eqb negb].
  assert (Hsz : bytes_at m (block + tar_size) (ds ++ [0])) by (apply kept_bytes; [done| |done]; eapply apart_sub; [exact Ha5|unfold tar_size; lia|unfold tar_size; rewrite length_app; cbn [length]; lia]). apply bytes_at_app in Hsz as [Hs1 Hs2]. apply bytes_at_cons in Hs2 as [Hs2 _].
  unfold sscan_uint. rewrite (sscan_loop_ok 8 ds ltac:(lia) Hdig fuel m (block + tar_size) 0 Hs1 Hs2) by (rewrite ?Hval; lia). cbn [rbind fst snd to_opt mbind option_bind]. rewrite (proj2 (Z.eqb_neq _ (block + tar_size))) by (destruct ds; [done|cbn [length]; lia]). rewrite Hval.
  destruct (print_path m dirname dir block (e_name e)) as (m' & r & E & Hk' & Hp' & Ht); try done; [eapply apart_sub; [exact Ha|lia|lia]|lia|]. rewrite E. cbn [to_opt mbind option_bind].
  exists m'. split; [done|]. split; [done|]. rewrite (Hk' (block + tar_typeflag)), Hty by (apply Ha; unfold tar_typeflag; lia). fold (regular e). destruct (regular e); [|done].
  rewrite (cstring_text m' (dir ++ e_name e)) by (try done; rewrite length_app; lia). rewrite bytes_eq; [done|]. apply kept_bytes; [done| |done]. eapply apart_sub; [exact Ha|unfold TAR_BLOCKSIZE; lia|unfold TAR_BLOCKSIZE; lia].
Qed.





(** ** Modules *)


Definition is_tar (path : list Z) : Prop := drop (length path - 4) path = dot_tar.
#[global] Instance is_tar_dec path : Decision (is_tar path). Proof. unfold is_tar. apply _. Defined.










Hypothesis Hbuffers : name + 128 <= filepath \/ filepath + 102 <= name.




End Files.

(** ** The boot directory *)




(** ** An image *)







(** An archive with the file "hi", a directory and a file of two blocks; then a
    module "/rc" and one without a name. *)
Definition demo_lit (t : list Z) : Z :=
  if decide (t = TAR_MAGIC) then 1000 else if decide (t = fmt_path) then 1010 else if decide (t = mod_text) then 1020 else if decide (t = dot_tar) then 1030 else if decide (t = [FS_SEP]) then 1040 else 1050.
Definition demo_lits : bmem := put (put (put (put (put (put ∅ 1000 TAR_MAGIC) 1010 fmt_path) 1020 mod_text) 1030 dot_tar) 1040 [FS_SEP]) 1050 boot_slash.
Definition demo_header (m : bmem) (block : Z) (nm ds : list Z) (type : Z) : bmem := RB.store_bytes (put (put (stb m (block + tar_typeflag) type) block nm) (block + tar_size) ds) (block + tar_magic) TAR_MAGIC.
Definition demo_data : list Z := replicate 600 65.
Definition demo_tar : bmem :=
  let m := RB.store_bytes (demo_header demo_lits 8192 [104; 105] [48; 51] 48) 8704 [1; 2; 3] in
  let m := demo_header m 9216 [100; 47] [48] 53 in
  RB.store_bytes (demo_header m 9728 [98] [49; 49; 51; 48] 0) 10240 demo_data.
Definition demo_mods : bmem :=
  let m := put (put demo_tar 3100 [47; 120; 46; 116; 97; 114]) 3120 [114; 99] in
  let m := st32 (st32 (st32 m 3000 8192) 3004 12288) 3008 3100 in
  let m := st32 (st32 (st32 m 3016 16384) 3020 16386) 3024 3120 in
  let m := st32 (st32 (st32 m 3032 16400) 3036 16401) 3040 0 in
  stb (RB.store_bytes m 16384 [7; 8]) 16400 9.
Definition demo_info : ext_info := mk_ext 8 0 0 0 3 3000 0 0 0 0 0 0 0 0 0.






(** After the whole of the setup the files and the terminals are there. *)
Lemma vfs_setup_demo :
  match vfs_setup demo_lit 2000 200 demo_mods (mk_vfs [] None ∅ tt DV.empty_tables) demo_info ramfs_driver 7 (ramfs_data_new FFP.demo0 RFP.demo_k 0) [67; 79] 2200 0 with
  | Some (_, v) =>
      match vfs_lookup v [47; 98], vfs_stat v [47; 100; 101; 118; 47; 116; 116; 121; 49] with
      | Some (r, id, ino), Some (_, Some st) => r = 0 /\ option_map snd (vfs_inode_read v id ino 0 1000) = Some demo_data /\ S_ISCHR (st_mode st) = true /\ st_rdev st = gnu_dev_makedev CHR_TTY 1
      | _, _ => False
      end
  | None => False
  end.
Proof. vm_compute. by repeat split. Qed.

(** ** What the code does not check *)

(** A command line of [MAX_CMDLINE_LEN] characters ends behind its buffer, and a
    module's name of 122 characters behind its own. *)
Lemma copy_ends_behind fuel m d src s n size : cstr m src s -> (length s < fuel)%nat -> 0 <= n -> (d + Z.of_nat (length s) < src \/ src + Z.of_nat (length s) < d) -> size <= Z.min n (Z.of_nat (length s)) ->
  exists m' e, strncpy fuel m d src n = Some (m', d) /\ ldb m' e = 0 /\ d + size <= e.
Proof.
  intros Hs Hf Hn Hd Hl. destruct (strncpy_loop_correct n s fuel m d src 0 Hs Hf ltac:(lia) Hd) as (m' & E & Hb & _). unfold strncpy. rewrite E. rewrite Z.sub_0_r in Hb. apply bytes_at_app in Hb as [_ Hb]. apply bytes_at_cons in Hb as [Hb _]. rewrite length_take in Hb. eexists m', _. split; [done|]. split; [exact Hb|lia].
Qed.

(** The contents of a member are searched for headers too: an archive inside an
    archive is unpacked with it. *)
Lemma contents_scanned {S D} lit filepath name fuel m dirname block e e' (v : vfs S D) f0 : (forall a, 0 <= ldb m a < 256) -> (200 <= fuel)%nat -> 0 < filepath ->
  lit_ok lit filepath name m TAR_MAGIC -> lit_ok lit filepath name m fmt_path -> cstr m dirname [FS_SEP] -> apart filepath name dirname 2 ->
  header_at m block e -> regular e = true -> apart filepath name block (512 + Z.of_nat (length (e_data e))) ->
  header_at m (block + 512) e' -> regular e' = true -> apart filepath name (block + 512) (512 + Z.of_nat (length (e_data e'))) ->
  exists m', tar_loop lit filepath fuel 2 m v dirname block f0 = (v' ← make_files v [(FS_SEP :: e_name e, e_data e); (FS_SEP :: e_name e', e_data e')]; Some (m', v')).
Proof.
  intros Hb Hf Hp Hlm Hlf Hd Hda H1 R1 A1 H2 R2 A2. cbn [tar_loop make_files].
  destruct (file_block lit filepath name fuel m Hb Hf Hp m v dirname [FS_SEP] block e f0) as (m1 & Hk1 & _ & E1); try done; [cbn; lia|]. rewrite E1, R1. change ([FS_SEP] ++ e_name e) with (FS_SEP :: e_name e). destruct (build_file_from_string v _ _) as [v1|]; cbn [mbind option_bind]; [|by exists m].
  destruct (file_block lit filepath name fuel m Hb Hf Hp m1 v1 dirname [FS_SEP] (block + 512) e' f0) as (m2 & _ & _ & E2); try done; [cbn; lia|]. unfold TAR_BLOCKSIZE. rewrite E2, R2. change ([FS_SEP] ++ e_name e') with (FS_SEP :: e_name e'). exists m2. by destruct (build_file_from_string v1 _ _).
Qed.

(** ** The multiboot information *)

(** A table is used only when its flag is set. *)
Lemma mboot_flags fuel cmdline m mbi m' b : mboot_info_parse fuel cmdline m mbi = Some (m', b) ->
  mboot_modules_info b = (if Z.testbit (ld32 m mbi) 3 then (ld32 m (mbi + 20), ld32 m (mbi + 24)) else (0, 0)) /\
  (mboot_mmap_length b, mboot_mmap_addr b) = (if Z.testbit (ld32 m mbi) 6 then (ld32 m (mbi + 44) / 24, ld32 m (mbi + 48)) else (0, 0)) /\
  mboot_uppermem_kb b = (if Z.testbit (ld32 m mbi) 0 then ld32 m (mbi + 8) else 0) /\
  mboot_kernel_shdr b = (if Z.testbit (ld32 m mbi) 4 || Z.testbit (ld32 m mbi) 5 then mbi + 28 else 0).
Proof.
  unfold mboot_info_parse. cbv zeta. destruct (if flag_bits (ld32 m (mbi + 4 * 0)) 2 1 =? 0 then Some (stb m cmdline 0) else _) as [m1|]; [|done]. cbn [mbind option_bind]. intros [= <- <-]. unfold mboot_modules_info, mboot_mmap_length, mboot_mmap_addr, mboot_uppermem_kb, mboot_kernel_shdr. cbn [mods_count mods_addr mmap_length mmap_addr mem_upper syms].
  change (mbi + 4 * 0) with (mbi + 0). rewrite Z.add_0_r. set (w := ld32 m mbi).
  assert (H1 : forall i, 0 <= i -> (flag_bits w i 1 =? 0) = negb (Z.testbit w i)).
  { intros i Hi. unfold flag_bits. rewrite Z.land_ones, Z.shiftr_div_pow2 by lia. change (2 ^ 1) with 2. rewrite <- Z.bit0_mod, Z.div_pow2_bits, Z.add_0_l by lia. by destruct (Z.testbit w i). }
  rewrite !H1 by lia. split; [by destruct (Z.testbit w 3)|]. split; [by destruct (Z.testbit w 6)|]. split; [by destruct (Z.testbit w 0)|].
  assert (H2 : (flag_bits w 4 2 =? 0) = negb (Z.testbit w 4 || Z.testbit w 5)).
  { unfold flag_bits. rewrite Z.land_ones, Z.shiftr_div_pow2 by lia. set (q := w / 2 ^ 4). assert (E4 : Z.testbit w 4 = Z.testbit q 0) by (unfold q; by rewrite Z.div_pow2_bits by lia). assert (E5 : Z.testbit w 5 = Z.testbit q 1) by (unfold q; by rewrite Z.div_pow2_bits by lia). rewrite E4, E5.
    pose proof (Z.mod_pos_bound q (2 ^ 2) ltac:(lia)). rewrite <- (Z.mod_pow2_bits_low q 2 0), <- (Z.mod_pow2_bits_low q 2 1) by lia. change (2 ^ 2) with 4 in *. assert (Hq : q mod 4 = 0 \/ q mod 4 = 1 \/ q mod 4 = 2 \/ q mod 4 = 3) by lia. by destruct Hq as [->|[->|[->| ->]]]. }
  rewrite H2. by destruct (Z.testbit w 4 || Z.testbit w 5).
Qed.

End BOOTP.
