(* ===== verification/Run.v ===== *)
(** * Starting processes (src/core/process.c)

    Module [RUN]: the module named init, the check of its header, loading its
    segments, its stacks and its task, its terminal and descriptors; the kernel's
    own process and the start of the scheduler.

    The parts of a process that other files model stay with them: page tables and
    frames are [PG.mm], registers and stacks [CX.machine], descriptors
    [SYS.kstate], terminals [TTY.ttys].  The addresses of the kernel's strings are
    parameters; [None] is a fault, or text longer than [fuel]. *)

From S2P Require Import Prelude PMem Paging CString RamFS Devices Vfs FsSys Tasks Cpu Context Tty Boot.

Module RUN.
Import CS VFS RF BOOT.

Definition PID_INIT : Z := 1.
Definition PID_COSECD : Z := 2.
Definition KERN_STACK_SIZE : Z := 4096.
Definition USER_STACK_TOP : Z := KERN_OFF - PAGE_BYTES.
Definition ENOTTY : Z := 25.
Definition EI_CLASS : Z := 4.
Definition EI_DATA : Z := 5.
Definition EI_VERSION : Z := 6.
Definition ELFCLASS32 : Z := 1.
Definition ELFDATA2LSB : Z := 1.
Definition ET_EXEC : Z := 2.
Definition EM_386 : Z := 3.
Definition PT_LOAD : Z := 1.
Definition elf_magic : list Z := [127; 69; 76; 70].

(** ** The module and its header *)

Definition ld16 (m : bmem) (a : Z) : Z := ldb m a + 256 * ldb m (a + 1).

(** The fields of the header that are used, by their offsets. *)
Definition e_type (m : bmem) (h : Z) : Z := ld16 m (h + 16).
Definition e_machine (m : bmem) (h : Z) : Z := ld16 m (h + 18).
Definition e_entry (m : bmem) (h : Z) : Z := ld32 m (h + 24).
Definition e_phoff (m : bmem) (h : Z) : Z := ld32 m (h + 28).
Definition e_phnum (m : bmem) (h : Z) : Z := ld16 m (h + 44).

Definition read_phdr (m : bmem) (a : Z) : PG.Elf32_Phdr :=
  PG.mk_phdr (ld32 m a) (ld32 m (a + 4)) (ld32 m (a + 8)) (ld32 m (a + 16)) (ld32 m (a + 20)) (ld32 m (a + 28)).

Section Run.
Context {S D : Type}.
(** The texts "init" and [elf_magic]. *)
Variables (fuel : nat) (init_text magic : Z).

Fixpoint find_loop (k : nat) (m : bmem) (minfo i : Z) : option (option module_t) :=
  match k with
  | O => Some None
  | Datatypes.S k =>
      let md := read_mod m minfo i in
      if string md =? 0 then find_loop k m minfo (i + 1)
      else
        let name := if ldb m (string md) =? FS_SEP then string md + 1 else string md in
        c ← strcmp fuel m init_text name;
        if c =? 0 then Some (Some md) else find_loop k m minfo (i + 1)
  end.

Definition find_init_module (m : bmem) (b : ext_info) : option (option module_t) :=
  let '(nmods, minfo) := mboot_modules_info b in find_loop (Z.to_nat nmods) m minfo 0.

Definition elf_is_runnable (m : bmem) (elfhdr : Z) : option bool :=
  ret ← strncmp fuel m elfhdr magic 4;
  Some (if negb (ret =? 0) then false
        else if negb (e_machine m elfhdr =? EM_386) then false
        else if negb (ldb m (elfhdr + EI_CLASS) =? ELFCLASS32) then false
        else if negb (ldb m (elfhdr + EI_VERSION) =? 1) then false
        else if negb (ldb m (elfhdr + EI_DATA) =? ELFDATA2LSB) then false
        else e_type m elfhdr =? ET_EXEC).

(** ** Segments *)

(** The segments to load, one after another: the memory, the result and the end of
    the highest one. *)
Fixpoint load_loop (k : nat) (s : PG.mm) (elfmem phdrs pagedir i heap_end : Z) : option (PG.mm * Z * Z) :=
  match k with
  | O => Some (s, 0, heap_end)
  | Datatypes.S k =>
      let hdr := read_phdr (PG.phys s) (phdrs + 32 * i) in
      if negb (PG.p_type hdr =? PT_LOAD) then load_loop k s elfmem phdrs pagedir (i + 1) heap_end
      else
        '(s, ret) ← PG.process_segment_from_memory s hdr elfmem pagedir;
        if negb (ret =? 0) then Some (s, ret, heap_end)
        else
          let p_end := u32 (PG.p_vaddr hdr + PG.p_memsz hdr) in
          load_loop k s elfmem phdrs pagedir (i + 1) (if heap_end <? p_end then p_end else heap_end)
  end.

(** ** Processes *)

(** [ps_mem] has the bounds of the memory of each process, its stack and its
    heap's end. *)
Record kernel := mk_kernel {
  mem : PG.mm; mach : CX.machine; files : SYS.kstate S D; tts : TTY.ttys; ps_mem : gmap Z (Z * Z) }.

Definition set_mem (k : kernel) (x : PG.mm) : kernel := mk_kernel x (mach k) (files k) (tts k) (ps_mem k).
Definition set_mach (k : kernel) (x : CX.machine) : kernel := mk_kernel (mem k) x (files k) (tts k) (ps_mem k).
Definition set_files (k : kernel) (x : SYS.kstate S D) : kernel := mk_kernel (mem k) (mach k) x (tts k) (ps_mem k).
Definition set_tts (k : kernel) (x : TTY.ttys) : kernel := mk_kernel (mem k) (mach k) (files k) x (ps_mem k).
Definition set_ps (k : kernel) (p us he : Z) : kernel := mk_kernel (mem k) (mach k) (files k) (tts k) (<[p := (us, he)]> (ps_mem k)).

(** A descriptor without a position. *)
Definition tty_fd (f : SYS.filedescr) (sb ino : Z) : SYS.filedescr := SYS.mk_fd sb ino (SYS.fd_flags f) (-1).

Definition process_attach_tty (k : kernel) (proc : Z) (ttyfile : list Z) : option (kernel * Z) :=
  let v := SYS.fs (files k) in
  '(ret, sb, ino) ← vfs_lookup v ttyfile;
  if negb (ret =? 0) then Some (k, ret)
  else
    p ← SYS.procs (files k) !! proc;
    let fds := alter (fun f => tty_fd f sb ino) 0%nat (alter (fun f => tty_fd f sb ino) 1%nat (alter (fun f => tty_fd f sb ino) 2%nat (SYS.ps_fds p))) in
    let p := SYS.mk_proc (SYS.ps_pid p) (SYS.ps_umask p) fds in
    let k := set_files k (SYS.mk_k v (<[proc := p]> (SYS.procs (files k))) (SYS.theProcessTable (files k)) (SYS.theCurrentTask (files k))) in
    '(ret, st) ← vfs_inode_stat v sb ino;
    if negb (ret =? 0) then Some (k, ret)
    else
      st ← st;
      if negb (S_ISCHR (st_mode st)) then Some (k, ENOTTY)
      else
        '(w, ret) ← TTY.tty_set_foreground_procgroup (tts k) (gnu_dev_minor (st_rdev st)) (SYS.ps_pid p);
        Some (set_tts k w, ret).

(** The record of a process is a global variable; before it is first written it
    is a task that is ready, with no successor. *)
Definition new_task (m : CX.machine) (task : Z) : CX.machine :=
  CX.set_sched m (TK.mk_sched (<[task := default (TK.mk_task TK.TS_READY 0) (TK.tasks (CX.sched m) !! task)]> (TK.tasks (CX.sched m))) (TK.theCurrentTask (CX.sched m)) (TK.sched_set (CX.sched m))).

Definition new_process (k : kernel) (proc pid : Z) : kernel :=
  let f := files k in
  let p := default (SYS.mk_proc 0 0 (replicate (Z.to_nat SYS.N_PROCESS_FDS) (SYS.mk_fd 0 0 0 0))) (SYS.procs f !! proc) in
  set_files k (SYS.mk_k (SYS.fs f) (<[proc := SYS.mk_proc pid (SYS.ps_umask p) (SYS.ps_fds p)]> (SYS.procs f)) (SYS.theProcessTable f) (SYS.theCurrentTask f)).

Definition set_process (k : kernel) (pid proc : Z) : kernel :=
  let f := files k in set_files k (SYS.mk_k (SYS.fs f) (SYS.procs f) (<[Z.to_nat pid := proc]> (SYS.theProcessTable f)) (SYS.theCurrentTask f)).

Definition tty1 : list Z := [47; 100; 101; 118; 47; 116; 116; 121; 49].
Definition tty0 : list Z := [47; 100; 101; 118; 47; 116; 116; 121; 48].

(** The text for the terminal: a newline, the name of the terminal, and the key
    that goes back. *)
Definition init_msg : list Z :=
  [10; 9; 67; 79; 83; 69; 67; 32; 116; 116; 121; 49; 10; 9; 80; 114; 101; 115; 115; 32; 70; 49; 32; 116; 111; 32; 103; 111; 32; 98; 97; 99; 107; 32; 116; 111; 32; 116; 116; 121; 48; 10; 10].

(** The process itself, when its memory is there; [proc] is the address of
    [theInitProcess]. *)
Definition start_init (k : kernel) (proc entry pagedir esp0 userstack heap_end : Z) : option kernel :=
  let k := set_ps (new_process k proc PID_INIT) proc userstack (PM.pagealign_up heap_end) in
  let esp := userstack + PAGE_BYTES - 16 in
  let k := set_mach k (CX.set_pagedir (CX.task_init (new_task (mach k) proc) proc entry esp0 esp CPU.SEL_USER_CS CPU.SEL_USER_DS) proc pagedir) in
  '(k, _) ← process_attach_tty k proc tty1;
  '(w, _) ← TTY.tty_write (tts k) 1 init_msg (Z.of_nat (length init_msg));
  w ← TTY.tty_switch w 1;
  let k := set_process (set_tts k w) PID_INIT proc in
  s ← TK.sched_add_task (CX.sched (mach k)) proc;
  Some (set_mach k (CX.set_sched (mach k) s)).

(** [kpd] is [thePageDirectory]; the frames of a program that cannot be loaded are
    not given back. *)
Definition run_init (k : kernel) (b : ext_info) (kpd proc : Z) : option kernel :=
  initmod ← find_init_module (PG.phys (mem k)) b;
  match initmod with
  | None => Some k
  | Some initmod =>
      let elf_size := u32 (mod_end initmod - mod_start initmod) in
      let elfmem := mod_start initmod in
      ok ← elf_is_runnable (PG.phys (mem k)) elfmem;
      if negb ok then Some k
      else
        let entry := e_entry (PG.phys (mem k)) elfmem in
        let '(s, pagedir) := PG.pagedir_alloc (mem k) kpd in
        if pagedir =? 0 then Some (set_mem k s)
        else if negb (e_phoff (PG.phys s) elfmem <? elf_size) then Some (set_mem k s)
        else
          '(s, ret, heap_end) ← load_loop (Z.to_nat (e_phnum (PG.phys s) elfmem)) s elfmem (elfmem + e_phoff (PG.phys s) elfmem) pagedir 0 0;
          if negb (ret =? 0) then Some (set_mem k s)
          else
            let heap_end := PM.pagealign_up heap_end in
            let '(p, kernstack) := PM.pmem_alloc (PG.pm s) 1 in
            let s := PG.mk_mm p (PG.phys s) in
            if kernstack =? 0 then Some (set_mem k s)
            else
              let esp0 := u32 (PM.__va kernstack + PAGE_BYTES - 32) in
              let userstack := USER_STACK_TOP - PAGE_BYTES in
              let '(s, _) := PG.pagedir_get_or_new s pagedir userstack (Z.lor PG.PTE_WRITABLE PG.PTE_USER) in
              start_init (set_mem k s) proc entry pagedir esp0 userstack heap_end
  end.

(** ** The kernel's process *)

(** [kshell] is the address of [kshell_run], [kstack] that of [kern_stack]. *)
Definition cosecd_setup (k : kernel) (pid proc kpd kshell kstack : Z) : option kernel :=
  let pagedir := PM.__pa kpd in
  let k := new_process k proc pid in
  let esp0 := kstack + KERN_STACK_SIZE - 256 in
  let k := set_mach k (CX.set_pagedir (CX.task_kthread_init (new_task (mach k) proc) proc kshell esp0) proc pagedir) in
  '(k, _) ← process_attach_tty k proc tty0;
  Some (set_process k pid proc).

(** [sp] is the stack that the setup runs on. *)
Definition proc_setup (k : kernel) (proc kpd kshell kstack sp : Z) : option kernel :=
  let k := set_process k 0 0 in
  k ← cosecd_setup k PID_COSECD proc kpd kshell kstack;
  m ← CX.tasks_setup (mach k) proc kshell sp;
  let f := files k in
  Some (set_mach (set_files k (SYS.mk_k (SYS.fs f) (SYS.procs f) (SYS.theProcessTable f) proc)) m).

End Run.

End RUN.
