(* ===== verification/RunProofs.v ===== *)
(** * The first program is loaded, and runs next

    Module [RUNP]: loading all segments of an image, and the whole of [run_init]:
    its memory, its task and its terminal. *)

From S2P Require Import Prelude FirstFit KHeap PMem Paging PagingProofs CString CStringProofs RamBlocks RamFS RamFSProofs Devices Vfs VfsProofs FsSys Tasks Cpu CpuProofs Context ContextProofs Screen Tty TtyProofs Boot Run.

Module RUNP.
Import PM PG PGP BOOT RUN.

(** ** Segments *)

(** The pages that a segment takes. *)
Definition seg_lo (h : Elf32_Phdr) : Z := 4096 * (p_vaddr h / 4096).

(** What a segment that is loaded has to be; other headers are skipped. *)
Record load_ok (own : owners) (elfmem : Z) (h : Elf32_Phdr) : Prop := {
  lo_ok : segment_ok h elfmem own;
  lo_align : p_align h = PAGE_BYTES;
  lo_vaddr : in_u32 (p_vaddr h);
  lo_memsz : 0 < p_memsz h;
  lo_end : segment_end h <= USER_STACK_TOP - PAGE_BYTES }.

Definition loads (hs : list Elf32_Phdr) : list Elf32_Phdr := filter (fun h => p_type h = PT_LOAD) hs.

Definition apart_pages (h h' : Elf32_Phdr) : Prop := segment_end h <= seg_lo h' \/ segment_end h' <= seg_lo h.

(** The bytes of a segment are where its header says. *)
Definition seg_loaded (pd elfmem : Z) (m : bmem) (s : mm) (h : Elf32_Phdr) : Prop :=
  holds_bytes pd (p_vaddr h) (p_vaddr h + p_memsz h) s (segment_byte h elfmem m).

Lemma seg_bounds own elfmem h : load_ok own elfmem h -> 4194304 <= seg_lo h /\ seg_lo h <= p_vaddr h /\ p_vaddr h + p_memsz h <= segment_end h /\ segment_end h <= KERN_OFF.
Proof.
  intros [(H1 & H2 & _) _ _ _ He]. unfold seg_lo, segment_end, USER_STACK_TOP, KERN_OFF, PAGE_BYTES in *. zlia.
Qed.

Lemma load_ok_mono own own' elfmem h : own ⊆ own' -> load_ok own elfmem h -> load_ok own' elfmem h.
Proof. intros Hs [H1 H2 H3 H4 H5]. constructor; try done. by eapply segment_ok_mono. Qed.

(** What loading one segment leaves of the others. *)
Lemma seg_kept pds pd lo hi s s' f : pd ∈ pds -> forall h own elfmem, load_ok own elfmem h -> 4194304 <= lo -> hi <= KERN_OFF -> hi <= seg_lo h \/ segment_end h <= lo ->
  maps_only pds pd (seg_lo h) (segment_end h) s s' -> keeps_bytes pds pd (seg_lo h) (segment_end h) s s' -> holds_bytes pd lo hi s f -> holds_bytes pd lo hi s' f.
Proof. intros Hpd h own elfmem Hh H1 H2 Hd Hm Hk. apply (holds_bytes_mono pds pd lo hi (seg_lo h) (segment_end h)); done. Qed.

Lemma image_ld32 own s s' a : image_kept own s s' -> (forall b, a <= b < a + 4 -> own !! (b / 4096) = Some Image) -> ld32 (phys s') a = ld32 (phys s) a.
Proof. intros Hk H. unfold ld32. by rewrite !Hk by (apply H; lia). Qed.

Lemma image_phdr own s s' a : image_kept own s s' -> (forall b, a <= b < a + 32 -> own !! (b / 4096) = Some Image) -> read_phdr (phys s') a = read_phdr (phys s) a.
Proof. intros Hk H. unfold read_phdr. by rewrite !(image_ld32 own s s') by (try done; intros b Hb; apply H; lia). Qed.

Lemma segment_byte_kept own elfmem h s s' va : load_ok own elfmem h -> image_kept own s s' -> p_vaddr h <= va -> segment_byte h elfmem (phys s') va = segment_byte h elfmem (phys s) va.
Proof. intros [H1 _ _ _ _] Hk. by apply (segment_byte_image h elfmem own). Qed.

(** The end of the heap is above every segment. *)
Definition heap_above (he : Z) (hs : list Elf32_Phdr) : Prop := forall h, h ∈ loads hs -> p_vaddr h + p_memsz h <= he.

Lemma seg_loaded_image own elfmem pd s s1 s2 h : load_ok own elfmem h -> image_kept own s s1 -> seg_loaded pd elfmem (phys s1) s2 h -> seg_loaded pd elfmem (phys s) s2 h.
Proof. intros Hh Hk. apply holds_bytes_ext. intros va Hva. eapply segment_byte_kept; [exact Hh|exact Hk|lia]. Qed.

(** What [load_loop] leaves, from the state [s]. *)
Record loaded (own : owners) (pds : list Z) (pd elfmem : Z) (hs : list Elf32_Phdr) (s s' : mm) (ret he he' : Z) : Prop := {
  l_wf : exists own', own ⊆ own' /\ mm_wf own' pds s';
  l_image : image_kept own s s';
  l_ret : ret = 0 \/ ret = - ENOMEM /\ out_of_frames s';
  l_kept : forall lo hi f, 4194304 <= lo -> hi <= KERN_OFF -> Forall (fun h => hi <= seg_lo h \/ segment_end h <= lo) (loads hs) -> holds_bytes pd lo hi s f -> holds_bytes pd lo hi s' f;
  l_segs : ret = 0 -> Forall (seg_loaded pd elfmem (phys s) s') (loads hs) /\ he <= he' <= KERN_OFF /\ heap_above he' hs }.

Lemma load_loop_ok pds pd elfmem : pd ∈ pds -> forall hs own s phdrs i he, mm_wf own pds s ->
  (forall (j : nat) h, hs !! j = Some h -> read_phdr (phys s) (phdrs + 32 * (i + Z.of_nat j)) = h) ->
  (forall b, phdrs + 32 * i <= b < phdrs + 32 * (i + Z.of_nat (length hs)) -> own !! (b / 4096) = Some Image) ->
  Forall (load_ok own elfmem) (loads hs) -> ForallOrdPairs apart_pages (loads hs) -> 0 <= he <= KERN_OFF ->
  exists s' ret he', load_loop (length hs) s elfmem phdrs pd i he = Some (s', ret, he') /\ loaded own pds pd elfmem hs s s' ret he he'.
Proof.
  intros Hpd hs. induction hs as [|h hs IH]; intros own s phdrs i he Hwf Hrd Himg Hok Hap Hhe; cbn [load_loop length].
  { exists s, 0, he. split; [done|]. constructor; try done; [by exists own|by left|]. intros _. split; [constructor|]. split; [lia|]. intros h Hh. by apply elem_of_nil in Hh. }
  pose proof (Hrd 0%nat h eq_refl) as H0. rewrite Z.add_0_r in H0. rewrite H0. unfold loads in Hok, Hap. rewrite filter_cons in Hok, Hap. unfold heap_above, loads.
  assert (Hrd' : forall s1, image_kept own s s1 -> forall (j : nat) h', hs !! j = Some h' -> read_phdr (phys s1) (phdrs + 32 * (i + 1 + Z.of_nat j)) = h').
  { intros s1 Hk j h' Hj. rewrite <- (Hrd (S j) h' Hj). replace (i + 1 + Z.of_nat j) with (i + Z.of_nat (S j)) by lia. apply (image_phdr own); [done|]. intros b Hb. apply Himg. apply lookup_lt_Some in Hj. cbn [length]. lia. }
  destruct (Z.eqb_spec (p_type h) PT_LOAD) as [Ht|Ht]; cbn [negb].
  2:{ rewrite decide_False in Hok, Hap by done. destruct (IH own s phdrs (i + 1) he Hwf) as (s' & ret & he' & E & [L1 L2 L3 L4 L5]); [by apply Hrd'|intros b Hb; apply Himg; cbn [length]; lia|done|done|done|]. exists s', ret, he'. split; [done|]. unfold heap_above, loads in *. constructor; try done; unfold heap_above, loads; rewrite filter_cons_False by done; done. }
  rewrite decide_True in Hok, Hap by done. apply Forall_cons_1 in Hok as [Hh Hok]. assert (Hf : Forall (apart_pages h) (loads hs) /\ ForallOrdPairs apart_pages (loads hs)) by (clear -Hap; inversion Hap; done). destruct Hf as [Hfirst Hap'].
  destruct (segment_ok_correct pds pd h elfmem Hpd own s Hwf (lo_ok _ _ _ Hh) (lo_align _ _ _ Hh) (lo_vaddr _ _ _ Hh) (lo_memsz _ _ _ Hh)) as (s1 & ret1 & Es & (own1 & Hsub & Hwf1) & Hret & Hld & Hm & Hk & Hik). rewrite Es. cbn [mbind option_bind].
  pose proof (seg_bounds _ _ _ Hh) as (B1 & B2 & B3 & B4).
  assert (Hkeep : forall lo hi f, 4194304 <= lo -> hi <= KERN_OFF -> hi <= seg_lo h \/ segment_end h <= lo -> holds_bytes pd lo hi s f -> holds_bytes pd lo hi s1 f) by (intros lo hi f A1 A2 A3; by apply (seg_kept pds pd lo hi s s1 f Hpd h own elfmem)).
  destruct (Z.eqb_spec ret1 0) as [->|Hne]; cbn [negb].
  2:{ exists s1, ret1, he. split; [done|]. constructor; [by exists own1|done|done| |done]. intros lo hi f A1 A2 A3. unfold loads in A3. rewrite filter_cons_True in A3 by done. apply Forall_cons_1 in A3 as [A3 _]. by apply Hkeep. }
  pose proof (lo_memsz _ _ _ Hh) as Hms. assert (Eend : u32 (p_vaddr h + p_memsz h) = p_vaddr h + p_memsz h) by (apply u32_small; unfold in_u32, KERN_OFF in *; lia).
  rewrite Eend. set (he1 := if he <? p_vaddr h + p_memsz h then p_vaddr h + p_memsz h else he). assert (Hhe1 : he <= he1 <= KERN_OFF /\ p_vaddr h + p_memsz h <= he1) by (unfold he1; destruct (Z.ltb_spec he (p_vaddr h + p_memsz h)); lia).
  destruct (IH own1 s1 phdrs (i + 1) he1 Hwf1) as (s' & ret & he' & E & [(own' & Hsub' & Hwf') L2 L3 L4 L5]); [by apply Hrd'|intros b Hb; eapply lookup_weaken; [apply Himg; cbn [length]; lia|done]|eapply Forall_impl; [exact Hok|intros x Hx; by eapply load_ok_mono]|done|lia|].
  exists s', ret, he'. split; [done|]. constructor; [exists own'; split; [by etrans|done]|by eapply image_kept_trans|done| |].
  - intros lo hi f A1 A2 A3 A4. unfold loads in A3. rewrite filter_cons_True in A3 by done. apply Forall_cons_1 in A3 as [A3 A5]. apply L4; try done. by apply Hkeep.
  - intros Hr. destruct (L5 Hr) as (M1 & M2 & M3). unfold heap_above, loads. rewrite filter_cons_True by done. split; [apply Forall_cons_2|].
    + apply (L4 (p_vaddr h) (p_vaddr h + p_memsz h)); [lia|lia| |by apply Hld]. eapply Forall_impl; [exact Hfirst|]. intros x [Hx|Hx]; [left; lia|right; lia].
    + apply Forall_forall. intros x Hx. rewrite Forall_forall in M1, Hok. eapply seg_loaded_image; [by apply Hok|exact Hik|by apply M1].
    + split; [lia|]. intros x [->|Hx]%elem_of_cons; [lia|]. by apply M3.
Qed.

(** ** Frames *)

Lemma edge_up_trans s s1 s2 : edge_up s s1 -> edge_up s1 s2 -> edge_up s s2.
Proof. intros [H1 H2] [H3 H4]. split; [done|lia]. Qed.

Lemma edge_up_phys s s1 m : edge_up s s1 -> edge_up s (mk_mm (pm s1) m).
Proof. done. Qed.

Lemma segment_loop_edge fuel : forall s h elfmem pd off s' r, pmem_wf (pm s) -> segment_loop fuel s h elfmem pd off = Some (s', r) -> edge_up s s'.
Proof.
  induction fuel as [|fuel IH]; intros s h elfmem pd off s' r Hp E; cbn [segment_loop] in E; destruct (off <? p_memsz h); cbn [negb] in E; try done; try (injection E as <- _; split; [done|lia]).
  destruct (pagedir_get_or_new s pd _ _) as [s1 p] eqn:Eg. pose proof (get_or_new_edge_up _ _ _ _ _ _ Hp Eg) as H1. destruct (p =? 0); [by injection E as <- _|]. eapply edge_up_trans; [exact H1|]. by apply IH in E; [|apply H1].
Qed.

Lemma segment_edge s h elfmem pd s' r : pmem_wf (pm s) -> process_segment_from_memory s h elfmem pd = Some (s', r) -> edge_up s s'.
Proof.
  intros Hp. unfold process_segment_from_memory. destruct (negb _); [intros [= <- _]; split; [done|lia]|]. destruct (negb _); [|by apply segment_loop_edge].
  destruct (pagedir_get_or_new s pd _ _) as [s1 p] eqn:Eg. pose proof (get_or_new_edge_up _ _ _ _ _ _ Hp Eg) as H1. destruct (p =? 0); [by intros [= <- _]|]. intros E. eapply edge_up_trans; [exact H1|]. by apply segment_loop_edge in E; [|apply H1].
Qed.

Lemma load_loop_edge n : forall s elfmem phdrs pd i he s' r he', pmem_wf (pm s) -> load_loop n s elfmem phdrs pd i he = Some (s', r, he') -> edge_up s s'.
Proof.
  induction n as [|n IH]; intros s elfmem phdrs pd i he s' r he' Hp E; cbn [load_loop] in E; [injection E as <- _ _; split; [done|lia]|]. destruct (negb _); [by eapply IH|].
  destruct (process_segment_from_memory s _ _ _) as [[s1 r1]|] eqn:Es; [|done]. cbn [mbind option_bind] in E. pose proof (segment_edge _ _ _ _ _ _ Hp Es) as H1. destruct (negb _); [by injection E as <- _ _|]. eapply edge_up_trans; [exact H1|]. by eapply IH; [apply H1|].
Qed.

(** A frame for the kernel's own use belongs to no address space. *)
Lemma kernel_frame own pds s p a : mm_wf own pds s -> pmem_alloc (pm s) 1 = (p, a) -> mm_wf own pds (mk_mm p (phys s)) /\ (a = 0 \/ a = 4096 * edge (pm s) /\ 0 < edge (pm s) < 2 ^ 18).
Proof.
  intros Hwf Ha. destruct (alloc_one own pds s Hwf p a Ha) as [(-> & ->)|(-> & _ & He & Hp & Hu & Hb)]; [split; [by destruct s|by left]|]. split; [|by right]. destruct Hwf as [W1 W2 W3 W4 W5 W6]. constructor; cbn [pm phys]; try done. intros f r Hf. specialize (W2 f r Hf). lia.
Qed.

(** ** The task *)

Lemma ctx_inv_ext lo hi lo' hi' m saved : (forall t, is_Some (CX.ktasks m !! t) -> lo' t = lo t /\ hi' t = hi t) -> CXP.ctx_inv lo hi m saved -> CXP.ctx_inv lo' hi' m saved.
Proof.
  intros He [H1 H2 H3 H4 H5 H6 H7]. constructor; try done.
  - intros t k Hk. destruct (He t ltac:(by eexists)) as [-> ->]. by apply H4.
  - intros t u Ht Hu Hne. destruct (He t Ht) as [-> ->], (He u Hu) as [-> ->]. by apply H5.
  - intros t x Hx. destruct (H6 t x Hx) as (Hne & k & Hk & Hrest). split; [done|]. exists k. destruct (He t ltac:(by eexists)) as [-> ->]. done.
Qed.

(** A task that joins is the next to run. *)
Lemma added_runs_next s t s' : TK.sched_add_task s t = Some s' -> t <> 0 -> t <> TK.theCurrentTask s -> TK.ready s t -> TK.the_scheduler s' = Some t.
Proof.
  unfold TK.sched_add_task, TK.ready. destruct (TK.tasks s !! TK.theCurrentTask s) as [c|] eqn:Ec; [|done]. cbn [mbind option_bind]. destruct (TK.tasks s !! t) as [x|] eqn:Ex; [|done]. cbn [mbind option_bind option_map]. intros E Ht Hne Hr. injection Hr as Hr.
  rewrite lookup_insert_ne, Ec in E by done. cbn [mbind option_bind] in E. injection E as <-. unfold TK.the_scheduler. cbn [TK.tasks TK.theCurrentTask]. rewrite lookup_insert_eq. cbn [mbind option_bind TK.next TK.sched_loop].
  rewrite (proj2 (Z.eqb_neq t 0)), (proj2 (Z.eqb_neq t _)) by done. cbn [negb andb]. cbn [TK.tasks]. rewrite lookup_insert_ne, lookup_insert_eq by done. cbn [mbind option_bind TK.state]. by rewrite decide_True.
Qed.

Lemma start_cr3 m t entry esp0 esp3 cs_ ds_ pd m' : CX.start_task m t entry esp0 esp3 cs_ ds_ pd = Some m' -> exists kt, CX.ktasks m' !! t = Some kt /\ CX.t_cr3 (CX.tss kt) = pd.
Proof.
  unfold CX.start_task. destruct (TK.sched_add_task _ t) as [s|]; [|done]. cbn [mbind option_bind]. intros [= <-]. cbn [CX.ktasks CX.set_sched CX.set_pagedir CX.set_ktasks]. unfold CX.task_init. cbv zeta. destruct (CPU.gdt_alloc_entry _ _) as [g i]. eexists. rewrite lookup_alter_eq. destruct (i =? 0); cbn [CX.ktasks CX.set_sched CX.set_gdt CX.set_ktasks]; rewrite lookup_insert_eq; by split.
Qed.

Lemma new_task_fresh m t : TK.tasks (CX.sched m) !! t = None -> new_task m t = CX.set_sched m (TK.mk_sched (<[t := TK.mk_task TK.TS_READY 0]> (TK.tasks (CX.sched m))) (TK.theCurrentTask (CX.sched m)) (TK.sched_set (CX.sched m))).
Proof. intros E. unfold new_task. by rewrite E. Qed.

(** ** The whole of it *)

Definition with_stack (f : Z -> Z) (t v : Z) : Z -> Z := fun u => if u =? t then v else f u.

Lemma stack_can_start lo hi m saved t esp0 base : CXP.ctx_inv lo hi m saved -> CX.ktasks m !! t = None -> TK.tasks (CX.sched m) !! t = None -> t <> 0 -> in_u32 t -> is_Some (TK.tasks (CX.sched m) !! CXP.current m) ->
  (exists i, (CPU.gdt_alloc_entry (CX.the_gdt m) (CPU.segdescr_taskstate_init t CPU.PL_KERN)).2 = i /\ i <> 0 /\ 8 * i + 7 <= CPU.gdt_limit (CX.the_gdt m)) ->
  0 < base -> base + 4096 <= 4294967296 -> esp0 = base + 4096 - 32 -> (forall u, is_Some (CX.ktasks m !! u) -> hi u <= base) ->
  CXP.can_start (with_stack lo t base) (with_stack hi t (base + 4080)) m t esp0 CPU.SEL_USER_CS.
Proof.
  intros Hi Hk Hs Ht Hu Hc Hg Hb1 Hb2 He Hap. constructor; try done.
  - unfold with_stack. rewrite Z.eqb_refl. lia.
  - intros u Hu'. unfold with_stack. rewrite Z.eqb_refl. destruct (Z.eqb_spec u t) as [->|]; [destruct Hu' as [? Hu']; congruence|]. right. by apply Hap.
Qed.

Lemma align_up he : 0 <= he <= KERN_OFF -> pagealign_up he mod 4096 = 0 /\ he <= pagealign_up he <= KERN_OFF.
Proof.
  intros H. unfold pagealign_up, PAGE_BYTES. set (i := if he mod 4096 =? 0 then he / 4096 else he / 4096 + 1). assert (Hi : he <= 4096 * i <= KERN_OFF) by (unfold i, KERN_OFF in *; destruct (Z.eqb_spec (he mod 4096) 0); zlia).
  rewrite u32_small by (unfold in_u32, KERN_OFF in *; lia). split; [|done]. rewrite Z.mul_comm. by apply Z.mod_mul.
Qed.

Lemma image_ld16 own s s' a : image_kept own s s' -> (forall b, a <= b < a + 2 -> own !! (b / 4096) = Some Image) -> ld16 (phys s') a = ld16 (phys s) a.
Proof. intros Hk H. unfold ld16. by rewrite !Hk by (apply H; lia). Qed.

Lemma pagedir_edge s kpd' s' pd : pmem_wf (pm s) -> pagedir_alloc s kpd' = (s', pd) -> edge_up s s'.
Proof. intros Hp. unfold pagedir_alloc. destruct (pmem_alloc (pm s) 1) as [p a] eqn:E. intros [= <- _]. by eapply alloc_edge_up. Qed.

Lemma pagedir_out s kpd' s' : pmem_wf (pm s) -> pagedir_alloc s kpd' = (s', 0) -> out_of_frames s'.
Proof. intros Hp. unfold pagedir_alloc. destruct (pmem_alloc (pm s) 1) as [p a] eqn:E. intros [= <- Ha]. by eapply alloc_fails. Qed.

Section Init.
Context {S D : Type}.
Variables (fuel : nat) (init_text magic : Z) (k : kernel (S := S) (D := D)) (b : ext_info) (kpd proc : Z).
Variables (own : owners) (pds : list Z) (lo hi : Z -> Z) (saved : gmap Z CX.regs) (md : module_t) (hs : list Elf32_Phdr) (sb ino : Z) (dev : nat).

Abbreviation image := (phys (mem k)).
Abbreviation elfmem := (mod_start md).

(** The memory is in order, and the kernel has its page directory. *)
Record memory_ready : Prop := {
  mr_wf : mm_wf own pds (mem k);
  mr_kpd : 0 <= kpd /\ kpd + 4096 <= 4096 * edge (pm (mem k)) /\ in_u32 (ld32 image kpd) }.

(** The module is there, its header is right, and what it says to load can be
    loaded. *)
Record program_ready : Prop := {
  pr_found : find_init_module fuel init_text image b = Some (Some md);
  pr_elf : elf_is_runnable fuel magic image elfmem = Some true;
  pr_size : 0 <= mod_end md - elfmem < 2 ^ 32 /\ e_phoff image elfmem < mod_end md - elfmem;
  pr_num : e_phnum image elfmem = Z.of_nat (length hs);
  pr_hdrs : forall (j : nat) h, hs !! j = Some h -> read_phdr image (elfmem + e_phoff image elfmem + 32 * Z.of_nat j) = h;
  pr_image : forall a, elfmem <= a < elfmem + 52 \/ elfmem + e_phoff image elfmem <= a < elfmem + e_phoff image elfmem + 32 * Z.of_nat (length hs) -> own !! (a / 4096) = Some Image;
  pr_load : Forall (load_ok own elfmem) (loads hs);
  pr_apart : ForallOrdPairs apart_pages (loads hs) }.

(** The scheduler runs, and the task is new to it. *)
Record scheduler_ready : Prop := {
  sr_inv : CXP.ctx_inv lo hi (mach k) saved;
  sr_new : CX.ktasks (mach k) !! proc = None /\ TK.tasks (CX.sched (mach k)) !! proc = None /\ proc <> 0 /\ in_u32 proc;
  sr_cur : is_Some (TK.tasks (CX.sched (mach k)) !! CXP.current (mach k));
  sr_gdt : exists i, (CPU.gdt_alloc_entry (CX.the_gdt (mach k)) (CPU.segdescr_taskstate_init proc CPU.PL_KERN)).2 = i /\ i <> 0 /\ 8 * i + 7 <= CPU.gdt_limit (CX.the_gdt (mach k));
  sr_stacks : forall u, is_Some (CX.ktasks (mach k) !! u) -> hi u <= KERN_OFF + 4096 * edge (pm (mem k)) }.

(** The second terminal is a device, and can be written. *)
Record terminal_ready : Prop := {
  tr_lookup : VFS.vfs_lookup (SYS.fs (files k)) tty1 = Some (0, sb, ino);
  tr_stat : exists st, VFS.vfs_inode_stat (SYS.fs (files k)) sb ino = Some (0, Some st) /\ RF.S_ISCHR (VFS.st_mode st) = true /\ RF.gnu_dev_minor (VFS.st_rdev st) = 1;
  tr_dev : TTY.get_tty_device (tts k) 1 = Some dev /\ is_Some (TTY.theVcsTTY (tts k) !! dev);
  tr_write : forall w, TTY.tty_set_foreground_procgroup (tts k) 1 PID_INIT = Some (w, 0) -> exists w1 r w2, TTY.tty_write w 1 init_msg (Z.of_nat (length init_msg)) = Some (w1, r) /\ TTY.tty_switch w1 1 = Some w2;
  tr_proc : SYS.procs (files k) !! proc = None /\ (1 < length (SYS.theProcessTable (files k)))%nat }.

(** The program in its address space [pd]. *)
Record program_mapped (pd : Z) (k' : kernel (S := S) (D := D)) : Prop := {
  pm_new : own !! (pd / 4096) = None;
  pm_segs : Forall (seg_loaded pd elfmem image (mem k')) (loads hs);
  pm_stack : all_mapped pd (USER_STACK_TOP - PAGE_BYTES) USER_STACK_TOP (mem k') \/ out_of_frames (mem k');
  pm_bounds : exists he, ps_mem k' !! proc = Some (USER_STACK_TOP - PAGE_BYTES, he) /\ he mod 4096 = 0 /\ heap_above he hs }.

(** Its task: it begins at the entry point, with the stack and the segments of user
    mode, and is next. *)
Record task_ready (pd : Z) (k' : kernel (S := S) (D := D)) : Prop := {
  tk_regs : exists lo' hi' esp0 x, CXP.ctx_inv lo' hi' (mach k') (<[proc := x]> saved) /\ CXP.starts_at x (e_entry image elfmem) esp0 (USER_STACK_TOP - 16) CPU.SEL_USER_CS CPU.SEL_USER_DS;
  tk_cr3 : exists kt, CX.ktasks (mach k') !! proc = Some kt /\ CX.t_cr3 (CX.tss kt) = pd;
  tk_next : TK.the_scheduler (CX.sched (mach k')) = Some proc;
  tk_live : CX.r (mach k') = CX.r (mach k) }.

(** Its descriptors and its terminal. *)
Record terminal_attached (k' : kernel (S := S) (D := D)) : Prop := {
  ta_table : SYS.theProcessTable (files k') !! 1%nat = Some proc;
  ta_fds : exists p, SYS.procs (files k') !! proc = Some p /\ SYS.ps_pid p = PID_INIT /\ forall i, (i < 3)%nat -> exists f, SYS.ps_fds p !! i = Some f /\ SYS.fd_sb f = sb /\ SYS.fd_ino f = ino;
  ta_active : TTY.theActiveTTY (tts k') = 1;
  ta_group : option_map TTY.tty_foreground_procgroup (TTY.theVcsTTY (tts k') !! dev) = Some PID_INIT }.

Lemma attach_ok k1 p : files k1 = SYS.mk_k (SYS.fs (files k)) (<[proc := p]> (SYS.procs (files k))) (SYS.theProcessTable (files k)) (SYS.theCurrentTask (files k)) -> tts k1 = tts k -> SYS.ps_pid p = PID_INIT -> (3 <= length (SYS.ps_fds p))%nat -> terminal_ready ->
  exists k2 w, process_attach_tty k1 proc tty1 = Some (k2, 0) /\ mem k2 = mem k1 /\ mach k2 = mach k1 /\ ps_mem k2 = ps_mem k1 /\ tts k2 = w /\ TTY.tty_set_foreground_procgroup (tts k) 1 PID_INIT = Some (w, 0) /\
    SYS.theProcessTable (files k2) = SYS.theProcessTable (files k) /\
    (exists p', SYS.procs (files k2) !! proc = Some p' /\ SYS.ps_pid p' = PID_INIT /\ forall i, (i < 3)%nat -> exists f, SYS.ps_fds p' !! i = Some f /\ SYS.fd_sb f = sb /\ SYS.fd_ino f = ino).
Proof.
  intros Hf Ht Hp Hl [Hlk (st & Hst & Hch & Hmin) [Hd [td Htd]] _ _]. unfold process_attach_tty. rewrite Hf. cbn [SYS.fs SYS.procs SYS.theProcessTable SYS.theCurrentTask]. rewrite Hlk. cbn [mbind option_bind Z.eqb negb]. rewrite lookup_insert_eq. cbn [mbind option_bind]. rewrite Hst. cbn [mbind option_bind Z.eqb negb]. rewrite Hch, Hmin. cbn [negb SYS.ps_pid tts set_files]. rewrite Hp, Ht.
  unfold TTY.tty_set_foreground_procgroup. rewrite Hd, Htd. cbn [mbind option_bind]. eexists _, _. split; [done|]. do 5 (split; [done|]). split; [done|].
  cbn [files set_tts set_files SYS.procs]. eexists. split; [apply lookup_insert_eq|]. split; [done|]. cbn [SYS.ps_fds]. intros i Hi.
  destruct (lookup_lt_is_Some_2 (SYS.ps_fds p) i ltac:(lia)) as [f Hfi]. exists (tty_fd f sb ino). split; [|done]. destruct i as [|[|[|i]]]; [| | |lia].
  - rewrite list_lookup_alter_eq, list_lookup_alter_ne, list_lookup_alter_ne, Hfi by done. done.
  - rewrite list_lookup_alter_ne, list_lookup_alter_eq, list_lookup_alter_ne, Hfi by done. done.
  - rewrite list_lookup_alter_ne, list_lookup_alter_ne, list_lookup_alter_eq, Hfi by done. done.
Qed.

Lemma tty_write_keeps w n buf len w' r : TTY.tty_write w n buf len = Some (w', r) -> TTY.theVcsTTY w' = TTY.theVcsTTY w.
Proof.
  unfold TTY.tty_write. destruct (TTY.get_tty_device w n) as [d|]; [|by intros [= <- _]]. unfold TTY.dev_tty_write. destruct (TTY.theVcsTTY w !! d) as [t|]; [|done]. cbn [mbind option_bind]. destruct (_ <=? _); [by intros [= <- _]|]. destruct (TTY.write_loop _ _ _ _ _ _) as [sc|]; [|done]. by intros [= <- _].
Qed.

Lemma tty_switch_to w w' : TTY.tty_switch w 1 = Some w' -> TTY.theActiveTTY w' = 1 /\ TTY.theVcsTTY w' = TTY.theVcsTTY w.
Proof. unfold TTY.tty_switch. change (negb (1 <? SC.N_VCSA_DEVICES)) with false. cbv iota. destruct (SC.vcsa_switch _ _) as [sc|]; [|done]. by intros [= <-]. Qed.

Lemma start_init_ok lo' hi' k1 entry pagedir esp0 he : files k1 = files k -> tts k1 = tts k -> mach k1 = mach k -> scheduler_ready -> terminal_ready ->
  CXP.ctx_inv lo' hi' (mach k) saved -> CXP.can_start lo' hi' (mach k) proc esp0 CPU.SEL_USER_CS ->
  exists k' x, start_init k1 proc entry pagedir esp0 (USER_STACK_TOP - PAGE_BYTES) he = Some k' /\ mem k' = mem k1 /\ ps_mem k' !! proc = Some (USER_STACK_TOP - PAGE_BYTES, pagealign_up he) /\
    CXP.ctx_inv lo' hi' (mach k') (<[proc := x]> saved) /\ CXP.starts_at x entry esp0 (USER_STACK_TOP - 16) CPU.SEL_USER_CS CPU.SEL_USER_DS /\
    (exists kt, CX.ktasks (mach k') !! proc = Some kt /\ CX.t_cr3 (CX.tss kt) = pagedir) /\ TK.the_scheduler (CX.sched (mach k')) = Some proc /\ CX.r (mach k') = CX.r (mach k) /\ terminal_attached k'.
Proof.
  intros Hf Ht Hm [_ (Hk & Hs & Hp0 & Hpu) [tc Htc] _ _] Htr Hinv Hcan. unfold start_init. replace (USER_STACK_TOP - PAGE_BYTES + PAGE_BYTES - 16) with (USER_STACK_TOP - 16) by lia.
  destruct (CXP.start_ok lo' hi' (mach k) saved proc entry esp0 (USER_STACK_TOP - 16) CPU.SEL_USER_CS CPU.SEL_USER_DS pagedir Hinv Hcan) as (m' & x & Est & Hx & Hinv' & Hr & Hcur & Hadd). pose proof (start_cr3 _ _ _ _ _ _ _ _ _ Est) as Hcr. unfold CX.start_task in Est. rewrite <- (new_task_fresh (mach k) proc Hs) in Est.
  set (k2 := set_mach _ _). destruct Htr as [T1 T2 T3 T4 [T5 T6]] eqn:Etr. clear Etr.
  destruct (attach_ok k2 (SYS.mk_proc PID_INIT 0 (replicate (Z.to_nat SYS.N_PROCESS_FDS) (SYS.mk_fd 0 0 0 0)))) as (k3 & w & -> & Hmem & Hmach & Hps & Hw & Hfg & Htab & Hfds); [unfold k2, new_process; cbn [files set_mach set_ps set_files]; rewrite Hf, T5; done|done|done|cbn [SYS.ps_fds]; rewrite length_replicate; unfold SYS.N_PROCESS_FDS; lia|by constructor|]. cbn [mbind option_bind].
  rewrite Hw. destruct (T4 w Hfg) as (w1 & r1 & w2 & E1 & E2). rewrite E1. cbn [mbind option_bind]. rewrite E2. cbn [mbind option_bind].
  assert (Em : mach (set_process (set_tts k3 w2) PID_INIT proc) = CX.set_pagedir (CX.task_init (new_task (mach k) proc) proc entry esp0 (USER_STACK_TOP - 16) CPU.SEL_USER_CS CPU.SEL_USER_DS) proc pagedir).
  { cbn [mach set_process set_files set_tts]. rewrite Hmach. unfold k2. cbn [mach set_mach set_ps new_process set_files]. by rewrite Hm. }
  rewrite Em. destruct (TK.sched_add_task (CX.sched (CX.set_pagedir _ _ _)) proc) as [s1|]; [|done]. cbn [mbind option_bind] in Est |- *. injection Est as Em'. eexists _, x. split; [done|]. cbn [mach set_mach mem set_process set_files set_tts ps_mem]. rewrite Em'.
  split; [rewrite Hmem; done|]. split; [rewrite Hps; unfold k2; cbn [ps_mem set_mach set_ps]; apply lookup_insert_eq|]. split; [done|]. split; [done|]. split; [done|]. split; [|split; [done|]].
  - eapply added_runs_next; [exact Hadd|done| |].
    + cbn [TK.theCurrentTask]. intros E. rewrite <- E in Htc. congruence.
    + unfold TK.ready. cbn [TK.tasks]. by rewrite lookup_insert_eq.
  - destruct (tty_switch_to _ _ E2) as [A1 A2]. constructor; cbn [files tts set_mach set_process set_files set_tts SYS.theProcessTable SYS.procs].
    + rewrite Htab. change (Z.to_nat PID_INIT) with 1%nat. by apply list_lookup_insert_eq.
    + exact Hfds.
    + done.
    + rewrite A2, (tty_write_keeps _ _ _ _ _ _ E1). unfold TTY.tty_set_foreground_procgroup in Hfg. destruct T3 as [T3 [td Htd]]. rewrite T3, Htd in Hfg. cbn [mbind option_bind] in Hfg. injection Hfg as <-. cbn [TTY.theVcsTTY TTY.set_tty]. rewrite list_lookup_insert_eq by (by eapply lookup_lt_Some). done.
Qed.

(** The stack page, and what was loaded before. *)
Lemma user_stack_ok pds' own2 pd s s' p : pd ∈ pds' -> mm_wf own2 pds' s -> pagedir_get_or_new s pd (USER_STACK_TOP - PAGE_BYTES) (Z.lor PTE_WRITABLE PTE_USER) = (s', p) ->
  (all_mapped pd (USER_STACK_TOP - PAGE_BYTES) USER_STACK_TOP s' \/ out_of_frames s') /\
  (forall m h, load_ok own (mod_start md) h -> seg_loaded pd (mod_start md) m s h -> seg_loaded pd (mod_start md) m s' h).
Proof.
  intros Hpd Hwf Eg. assert (Hus : user_va (USER_STACK_TOP - PAGE_BYTES)) by (unfold user_va, USER_STACK_TOP, KERN_OFF, PAGE_BYTES; lia). assert (Hal : (USER_STACK_TOP - PAGE_BYTES) mod 4096 = 0) by done.
  destruct (get_or_new_correct _ _ _ _ _ _ _ _ Hwf Hpd Hus Eg) as (own' & Hsub & _ & Hd & Hspec). pose proof (mapped_maps_only _ _ _ _ _ _ _ Hspec Hal) as Hm. pose proof (same_data_keeps _ _ _ pd (USER_STACK_TOP - PAGE_BYTES) (USER_STACK_TOP - PAGE_BYTES + 4096) _ _ Hwf Hsub Hd) as Hk. split.
  - destruct (Z.eqb_spec p 0) as [->|Hp].
    + right. by eapply get_or_new_out.
    + left. pose proof (mapped_all _ _ _ _ _ _ _ Hspec Hal Hp) as Ha. by replace (USER_STACK_TOP - PAGE_BYTES + 4096) with USER_STACK_TOP in Ha by (unfold PAGE_BYTES; lia).
  - intros m h Hh. pose proof (seg_bounds _ _ _ Hh) as (B1 & B2 & B3 & B4). pose proof (lo_end _ _ _ Hh). apply (holds_bytes_mono pds' pd _ _ (USER_STACK_TOP - PAGE_BYTES) (USER_STACK_TOP - PAGE_BYTES + 4096)); try done; [left; lia|lia|lia].
Qed.

Lemma run_init_ok : memory_ready -> program_ready -> scheduler_ready -> terminal_ready ->
  exists k', run_init fuel init_text magic k b kpd proc = Some k' /\
    ((out_of_frames (mem k') /\ mach k' = mach k /\ files k' = files k /\ tts k' = tts k) \/ exists pd, program_mapped pd k' /\ task_ready pd k' /\ terminal_attached k').
Proof.
  intros [Hwf (Hk0 & Hk1 & Hk2)] [Hfind Helf [Hsz Hoff] Hnum Hrd Himg Hload Hapart] Hsr Htr. unfold run_init. rewrite Hfind. cbn [mbind option_bind]. rewrite Helf. cbn [mbind option_bind negb].
  destruct (pagedir_alloc (mem k) kpd) as [s1 pd] eqn:Epd. destruct (wf_pm _ _ _ Hwf) as [Hpw _].
  destruct (Z.eqb_spec pd 0) as [Hz|Hpd0]; [subst pd; eexists; split; [done|]; left; split; [by eapply pagedir_out|done]|].
  destruct (pagedir_alloc_correct _ _ _ _ _ _ Hwf Hk0 Hk1 Hk2 Epd Hpd0) as (Hnew & Hwf1 & _ & _ & _ & Hout). set (own1 := <[pd / 4096 := Dir]> own) in *. assert (Hsub1 : own ⊆ own1) by (by apply insert_subseteq).
  assert (Hik1 : image_kept own (mem k) s1) by (intros a Ha; apply Hout; intros E; rewrite E, Hnew in Ha; done).
  assert (Epo : e_phoff (phys s1) elfmem = e_phoff image elfmem) by (apply (image_ld32 own); [done|]; intros a Ha; apply Himg; lia). assert (Epn : e_phnum (phys s1) elfmem = e_phnum image elfmem) by (apply (image_ld16 own); [done|]; intros a Ha; apply Himg; lia).
  rewrite Epo, Epn, Hnum, Nat2Z.id. rewrite u32_small by exact Hsz. rewrite (proj2 (Z.ltb_lt _ _)) by done. cbn [negb].
  assert (Hpd : pd ∈ pd :: pds) by (apply elem_of_cons; by left).
  destruct (load_loop_ok (pd :: pds) pd elfmem Hpd hs own1 s1 (elfmem + e_phoff image elfmem) 0 0 Hwf1) as (s2 & ret & he & El & HL); [|intros a Ha; eapply lookup_weaken; [apply Himg; lia|done]|eapply Forall_impl; [exact Hload|intros h Hh; by eapply load_ok_mono]|done|unfold KERN_OFF; lia|].
  { intros j h Hj. rewrite (image_phdr own (mem k) s1); [by apply Hrd|done|]. intros a Ha. apply Himg. apply lookup_lt_Some in Hj. lia. }
  rewrite El. cbn [mbind option_bind]. destruct HL as [(own2 & Hsub2 & Hwf2) _ Hret _ Hsegs]. destruct (Z.eqb_spec ret 0) as [Hr0|Hr0]; cbn [negb]; [|eexists; split; [done|]; left; destruct Hret as [?|[_ Hout2]]; [done|by split]]. destruct (Hsegs Hr0) as (Hsl & Hhe & Hab).
  destruct (pmem_alloc (pm s2) 1) as [p a] eqn:Ea. destruct (kernel_frame _ _ _ _ _ Hwf2 Ea) as [Hwf3 [Ha0|[Ha Hedge]]]; [rewrite Ha0; eexists; split; [done|]; left; split; [eapply alloc_fails; [by apply (wf_pm _ _ _ Hwf2)|exact Ea|done]|done]|].
  destruct (Z.eqb_spec a 0) as [|_]; [lia|]. destruct (pagedir_get_or_new (mk_mm p (phys s2)) pd _ _) as [s4 us] eqn:Eg. destruct (user_stack_ok (pd :: pds) own2 pd _ _ _ Hpd Hwf3 Eg) as [Hstk Hkeep].
  assert (Hes : edge_up (mem k) s2) by (eapply edge_up_trans; [eapply pagedir_edge; [apply (wf_pm _ _ _ Hwf)|exact Epd]|eapply load_loop_edge; [apply (wf_pm _ _ _ Hwf1)|exact El]]). destruct Hes as [_ Hes].
  set (base := KERN_OFF + a). assert (Hva : PM.__va a = base) by (unfold PM.__va, base; rewrite u32_small by (unfold in_u32, KERN_OFF; lia); lia). assert (Hb : KERN_OFF < base /\ base + 4096 <= 4294967296) by (unfold base, KERN_OFF; lia).
  rewrite Hva. rewrite u32_small by (unfold in_u32, KERN_OFF, PAGE_BYTES in *; lia). pose proof Hsr as [Hinv (N1 & N2 & N3 & N4) Hcur Hgdt Hst].
  destruct (align_up he ltac:(lia)) as [A1 A2]. destruct (align_up (PM.pagealign_up he) ltac:(lia)) as [A3 A4].
  destruct (start_init_ok (with_stack lo proc base) (with_stack hi proc (base + 4080)) (set_mem k s4) (e_entry image elfmem) pd (base + PAGE_BYTES - 32) (PM.pagealign_up he)) as (k' & x & Es & Em & Eps & Hci & Hx & Hcr & Hnx & Hrg & Hta); try done.
  { eapply ctx_inv_ext; [|exact Hinv]. intros t [? Ht]. unfold with_stack. destruct (Z.eqb_spec t proc) as [->|]; [congruence|done]. }
  { eapply (stack_can_start lo hi); [exact Hinv|done..| | |unfold PAGE_BYTES; lia|]; [unfold KERN_OFF in *; lia|lia|]. intros u Hu. specialize (Hst u Hu). unfold base. lia. }
  exists k'. split; [exact Es|]. right. exists pd. split; [|split; [|done]].
  - constructor; [done| |rewrite Em; exact Hstk|].
    + apply Forall_forall. intros h Hh. rewrite Forall_forall in Hsl, Hload. rewrite Em. eapply seg_loaded_image; [by apply Hload|exact Hik1|]. apply Hkeep; [by apply Hload|]. by apply Hsl.
    + eexists. split; [exact Eps|]. split; [done|]. intros h Hh. specialize (Hab h Hh). lia.
  - constructor; try done. exists (with_stack lo proc base), (with_stack hi proc (base + 4080)), (base + PAGE_BYTES - 32), x. done.
Qed.

End Init.

(** C6: [run_init] starts the program of the module named init: it finds the module
    and accepts its header, and then makes an address space in which every segment
    has its bytes, and zeros behind them, a mapped stack page and a heap above the
    segments, and a task that begins at the entry point in user mode in that
    address space, is the next to be scheduled, and has the second terminal as its
    three descriptors; the other tasks keep their registers.  It fails only when
    afterwards no page frame is left: then either the tasks, the files and the
    terminals are as they were, or only the page of the stack may be missing. *)
Theorem init_program_started {S D} fuel init_text magic (k : kernel (S := S) (D := D)) b kpd proc own pds lo hi saved md hs sb ino dev :
  memory_ready k kpd own pds -> program_ready fuel init_text magic k b own md hs -> scheduler_ready k proc lo hi saved -> terminal_ready k proc sb ino dev ->
  exists k', run_init fuel init_text magic k b kpd proc = Some k' /\
    ((out_of_frames (mem k') /\ mach k' = mach k /\ files k' = files k /\ tts k' = tts k) \/
     exists pd, program_mapped k proc own md hs pd k' /\ task_ready k proc saved md pd k' /\ terminal_attached proc sb ino dev k').
Proof. apply run_init_ok. Qed.

(** ** A program *)

(** The module's header, two program headers, of which one is to be loaded, and
    four bytes of code; the texts and the list of modules are in the first page. *)
Definition demo_image : bmem :=
  let m := RB.store_bytes ∅ 8192 [127; 69; 76; 70; 1; 1; 1; 0; 0; 0; 0; 0; 0; 0; 0; 0; 2; 0; 3; 0] in
  let m := st32 (st32 m 8216 4194304) 8220 52 in
  let m := stb m 8236 2 in
  let m := st32 (st32 (st32 (st32 (st32 (st32 m 8244 1) 8248 116) 8252 4194304) 8260 4) 8264 100) 8272 4096 in
  let m := st32 m 8276 6 in
  let m := RB.store_bytes m 8308 [144; 144; 205; 128] in
  let m := CSP.put (CSP.put m 140 [47; 105; 110; 105; 116]) 150 [105; 110; 105; 116] in
  let m := RB.store_bytes m 160 elf_magic in
  st32 (st32 (st32 m 100 8192) 104 8312) 108 140.
Definition demo_mm : mm := mk_mm (mk_pmem 16 64) demo_image.
Definition demo_own : owners := {[ 2 := Image ]}.
Definition demo_hdrs : list Elf32_Phdr := [mk_phdr 1 116 4194304 4 100 4096; mk_phdr 6 0 0 0 0 0].
Definition demo_md : module_t := mk_mod 8192 8312 140.
Definition demo_info : ext_info := mk_ext 8 0 0 0 1 100 0 0 0 0 0 0 0 0 0.

(** A file tree with terminals. *)
Definition demo_fs : VFS.vfs (RF.ramfs (H := FF.alloc_t)) unit :=
  match VFS.vfs_mkdir (VFSP.demo_vfs RFP.demo_fs0) [47; 100; 101; 118] 493 with
  | Some (v, _) => match ttys_loop 2 v 0 with Some v => v | None => v end
  | None => VFSP.demo_vfs RFP.demo_fs0
  end.
Definition demo_kernel : kernel := mk_kernel demo_mm CXP.demo2 (SYS.mk_k demo_fs ∅ (replicate 10 0) 4096) (TTY.tt TTYP.demo_world) ∅.

Lemma demo_memory : memory_ready demo_kernel 4096 demo_own [].
Proof.
  split; [|split; [lia|]; split; [by vm_compute|by vm_compute]]. constructor; cbn [pm phys mem demo_kernel demo_mm].
  - split; [unfold pmem_wf; cbn; lia|cbn; lia].
  - intros f r Hf. unfold demo_own in Hf. apply lookup_singleton_Some in Hf as [<- _]. cbn. lia.
  - intros pd Hpd. by apply elem_of_nil in Hpd.
  - intros f pd i Hf. unfold demo_own in Hf. by apply lookup_singleton_Some in Hf as [_ ?].
  - intros pd i Hpd. by apply elem_of_nil in Hpd.
  - intros pd i f j Hpd. by apply elem_of_nil in Hpd.
Qed.

Lemma demo_own_image a : 8192 <= a < 12288 -> demo_own !! (a / 4096) = Some Image.
Proof. intros H. replace (a / 4096) with 2 by zlia. apply lookup_singleton_eq. Qed.

Lemma demo_program : program_ready 20 150 160 demo_kernel demo_info demo_own demo_md demo_hdrs.
Proof.
  constructor; [by vm_compute|by vm_compute|split; [cbn; lia|by vm_compute]|by vm_compute| | | |].
  - intros [|[|j]] h Hj; [..|done]; injection Hj as <-; by vm_compute.
  - intros a Ha. apply demo_own_image. replace (e_phoff _ _) with 52 in Ha by by vm_compute. cbn in Ha. lia.
  - change (loads demo_hdrs) with [mk_phdr 1 116 4194304 4 100 4096]. apply Forall_cons_2; [|apply Forall_nil_2]. constructor; [|done|by vm_compute|by vm_compute|by vm_compute]. unfold segment_ok, KERN_OFF. cbn [p_vaddr p_memsz p_filesz p_offset mod_start demo_md]. do 6 (split; [lia|]). intros j Hj. apply demo_own_image. lia.
  - change (loads demo_hdrs) with [mk_phdr 1 116 4194304 4 100 4096]. repeat constructor.
Qed.

Lemma demo_scheduler : scheduler_ready demo_kernel 20480 CXP.demo_lo CXP.demo_hi ∅.
Proof.
  constructor; cbn [mach demo_kernel]; [exact CXP.demo_machine_inv| | | |].
  - split; [by vm_compute|]. split; [by vm_compute|]. split; [done|by vm_compute].
  - exists (default (TK.mk_task TK.TS_READY 0) (TK.tasks (CX.sched CXP.demo2) !! CXP.current CXP.demo2)). by vm_compute.
  - eexists. split; [reflexivity|]. split; by vm_compute.
  - intros u Hu. assert (E : CX.ktasks CXP.demo2 = {[ 4096 := default (CX.mk_ktask (CX.mk_tss 0 0 0 0 0 0 0 0 0 0 0 0 0 0 0 0) 0) (CX.ktasks CXP.demo2 !! 4096) ]}) by by vm_compute. rewrite E in Hu. destruct Hu as [? Hu]. apply lookup_singleton_Some in Hu as [<- _]. unfold CXP.demo_hi, KERN_OFF. cbn [mem demo_kernel demo_mm pm edge]. lia.
Qed.

Lemma result_is {A} (o : option (A * Z)) (d w : A) r : o = Some (w, r) -> w = default d (fst <$> o).
Proof. by intros ->. Qed.

Definition demo_w : TTY.ttys := default (TTY.tt TTYP.demo_world) (fst <$> TTY.tty_set_foreground_procgroup (TTY.tt TTYP.demo_world) 1 PID_INIT).
Definition writes_and_switches (w : TTY.ttys) : bool := match TTY.tty_write w 1 init_msg (Z.of_nat (length init_msg)) with Some (w1, _) => match TTY.tty_switch w1 1 with Some _ => true | None => false end | None => false end.

Lemma writes_and_switches_ok w : writes_and_switches w = true -> exists w1 r w2, TTY.tty_write w 1 init_msg (Z.of_nat (length init_msg)) = Some (w1, r) /\ TTY.tty_switch w1 1 = Some w2.
Proof. unfold writes_and_switches. destruct (TTY.tty_write _ _ _ _) as [[w1 r]|]; [|done]. destruct (TTY.tty_switch w1 1) as [w2|] eqn:E; [|done]. intros _. by exists w1, r, w2. Qed.

Lemma demo_terminal : terminal_ready demo_kernel 20480 7 4 1.
Proof.
  constructor; cbn [files tts demo_kernel SYS.fs SYS.procs SYS.theProcessTable].
  - by vm_compute.
  - eexists. split; [vm_compute; reflexivity|]. split; by vm_compute.
  - split; [by vm_compute|]. eexists. vm_compute. reflexivity.
  - intros w Hw. apply (result_is _ (TTY.tt TTYP.demo_world)) in Hw. change (w = demo_w) in Hw. subst w. apply writes_and_switches_ok. by vm_compute.
  - split; [done|cbn; lia].
Qed.

Definition next_is (o : option (kernel (S := RF.ramfs (H := FF.alloc_t)) (D := unit))) (t : Z) : bool := match o with Some k' => bool_decide (TK.the_scheduler (CX.sched (mach k')) = Some t) | None => false end.

Lemma demo_runs : next_is (run_init 20 150 160 demo_kernel demo_info 4096 20480) 20480 = true.
Proof. by vm_compute. Qed.

Lemma demo_not_before : next_is (Some demo_kernel) 20480 = false.
Proof. by vm_compute. Qed.

(** The program is loaded. *)
Lemma init_program_started_witness : exists k' pd, run_init 20 150 160 demo_kernel demo_info 4096 20480 = Some k' /\ program_mapped demo_kernel 20480 demo_own demo_md demo_hdrs pd k' /\ task_ready demo_kernel 20480 ∅ demo_md pd k' /\ terminal_attached 20480 7 4 1 k'.
Proof.
  destruct (init_program_started 20 150 160 demo_kernel demo_info 4096 20480 demo_own [] CXP.demo_lo CXP.demo_hi ∅ demo_md demo_hdrs 7 4 1) as (k' & E & H).
  - exact demo_memory.
  - exact demo_program.
  - exact demo_scheduler.
  - exact demo_terminal.
  - pose proof demo_runs as Hr. rewrite E in Hr. destruct H as [(_ & Hm & _)|(pd & H)]; [|exists k', pd; split; [exact E|exact H]].
    exfalso. pose proof demo_not_before as Hn. unfold next_is in *. rewrite Hm in Hr. rewrite Hr in Hn. discriminate.
Defined.

(** ** What the code does not check *)

(** Starting the program a second time puts its task behind itself: the scheduler
    never comes back to the others. *)
Lemma second_start_starves s t c : TK.tasks s !! TK.theCurrentTask s = Some c -> TK.next c = t -> is_Some (TK.tasks s !! t) -> t <> TK.theCurrentTask s ->
  exists s', TK.sched_add_task s t = Some s' /\ option_map TK.next (TK.tasks s' !! t) = Some t /\ TK.the_scheduler (TK.mk_sched (TK.tasks s') t true) = Some 0.
Proof.
  intros Hc Hn [x Hx] Hne. unfold TK.sched_add_task. rewrite Hc. cbn [mbind option_bind]. rewrite Hx. cbn [mbind option_bind]. rewrite lookup_insert_ne, Hc by done. cbn [mbind option_bind]. eexists. split; [done|]. cbn [TK.tasks]. rewrite Hn.
  split; [by rewrite lookup_insert_ne, lookup_insert_eq by done|]. unfold TK.the_scheduler. cbn [TK.tasks TK.theCurrentTask]. rewrite lookup_insert_ne, lookup_insert_eq by done. cbn [mbind option_bind TK.next TK.sched_loop]. rewrite (Z.eqb_refl t), andb_false_r. done.
Qed.

End RUNP.
