(* ===== verification/Memory.v ===== *)
(** * Memory at boot (src/mem/paging.c, src/mem/pmem.c)

    Module [MEM]: the memory map that the boot loader left, the kernel's page
    directory that [paging_setup] makes of it, the device /dev/mem and
    [memory_setup], which brings up the page frames, the page directory and the
    heap in this order.

    All of it happens while the loader's directory identity-maps the first
    4 MB, so the memory is indexed by physical addresses.  The addresses of
    [thePageDirectory] and [_end] come from the linker and are parameters. *)

From S2P Require Import Prelude CString PMem FirstFit KHeap Paging Boot.
Import PM PG.

Module MEM.

Definition INITIAL_PGDIR : Z := 4096.
Definition HUGE : Z := 4194304.

(** ** The memory map *)

Record memory_map_t := mk_map {
  base_addr_low : Z; base_addr_high : Z; length_low : Z; length_high : Z; map_type : Z }.

Definition read_map (m : bmem) (maps j : Z) : memory_map_t :=
  let w k := ld32 m (maps + BOOT.sizeof_memory_map * j + 4 * k) in
  mk_map (w 1) (w 2) (w 3) (w 4) (w 5).

Definition map_start (r : memory_map_t) : Z := u64 (u64 (Z.shiftl (base_addr_high r) 32) + base_addr_low r).
Definition map_len (r : memory_map_t) : Z := u64 (u64 (Z.shiftl (length_high r) 32) + length_low r).

(** The loop over the [n] entries from [j] on: the type of the first one that
    meets the 4 MB at [pptr], [None] when [present] stays false. *)
Fixpoint map_loop (m : bmem) (maps pptr j : Z) (n : nat) : option Z :=
  match n with
  | O => None
  | S n =>
      let r := read_map m maps j in
      if u32 (pptr + HUGE) <=? map_start r then map_loop m maps pptr (j + 1) n
      else if u64 (map_start r + map_len r) <=? pptr then map_loop m maps pptr (j + 1) n
      else Some (map_type r)
  end.

(** ** The kernel's page directory *)

Definition huge_pde (pptr : Z) (cache_ok : bool) : Z :=
  let pde := pptr in
  let pde := set_bit pde 7 in
  let pde := set_bit pde 0 in
  let pde := set_bit pde 1 in
  if negb cache_ok then set_bit pde 4 else pde.

(** The body of the loop of [paging_setup]; [kpd] is [thePageDirectory]. *)
Definition map_4mb (m : bmem) (kpd maps : Z) (count : nat) (i : Z) : bmem :=
  let pptr := u32 (i * HUGE) in
  match map_loop m maps pptr 0 count with
  | None => m
  | Some t =>
      let pde := huge_pde pptr (t =? 1) in
      let m := st32 m (kpd + 4 * i) pde in
      let ik := i + Z.shiftr KERN_OFF PDE_SHIFT in
      if ik <? N_PDE then st32 m (kpd + 4 * ik) pde else m
  end.

Fixpoint identity_loop (m : bmem) (kpd maps : Z) (count : nat) (i : Z) (n : nat) : bmem :=
  match n with
  | O => m
  | S n => identity_loop (map_4mb m kpd maps count i) kpd maps count (i + 1) n
  end.

(** The memory, and the physical address put into CR3. *)
Definition paging_setup (m : bmem) (b : BOOT.ext_info) (thePageDirectory : Z) : bmem * Z :=
  let kpd := __pa thePageDirectory in
  let m := bcopy m kpd INITIAL_PGDIR (Z.to_nat (N_PDE * 4)) in
  let m := identity_loop m kpd (BOOT.mboot_mmap_addr b) (Z.to_nat (BOOT.mboot_mmap_length b)) 0 (Z.to_nat (Z.shiftr KERN_OFF PDE_SHIFT)) in
  (m, kpd).

(** [pagedir_free] is still to be written: nothing is released. *)
Definition pagedir_free (s : mm) (pagedir : Z) : mm := s.

(** ** Bringing the memory up *)

Definition mod_ends (m : bmem) (b : BOOT.ext_info) : list Z :=
  let '(n_mods, mods) := BOOT.mboot_modules_info b in
  map (fun i => BOOT.mod_end (BOOT.read_mod m mods i)) (seqZ 0 n_mods).

(** The frames with the memory, CR3, and the heap ([None] when there is
    none).  [w] is the memory of the heap. *)
Definition memory_setup (m : bmem) (w : wmem) (b : BOOT.ext_info) (kernel_end thePageDirectory : Z) : mm * Z * option FF.alloc_t :=
  let p := pmem_setup (BOOT.mboot_uppermem_kb b) kernel_end (mod_ends m b) in
  let '(m, cr3) := paging_setup m b thePageDirectory in
  let '(p, theHeap) := KH.kheap_setup p w in
  (mk_mm p m, cr3, theHeap).

(** ** /dev/mem

    [written] is the value left in the caller's variable, when it passed one. *)
Definition chrram_read_buf (m : bmem) (buf buflen : Z) (written : option Z) (pos : Z) : bmem * option Z * Z :=
  (CS.memcpy m buf (u32 pos) buflen, option_map (fun _ => buflen) written, 0).
Definition chrram_write_buf (m : bmem) (buf buflen : Z) (written : option Z) (pos : Z) : bmem * option Z * Z :=
  (CS.memcpy m (u32 pos) buf buflen, option_map (fun _ => buflen) written, 0).

End MEM.
