(* ===== verification/MemoryProofs.v ===== *)
(** * Memory at boot: the kernel's address space

    Module [MEMP]: what [paging_setup] makes of the boot loader's memory map,
    entry by entry and as translations, and the state in which [memory_setup]
    leaves frames, page directory and heap. *)

From S2P Require Import Prelude CString CStringProofs PMem FirstFit KHeap Paging PagingProofs Boot Memory.
Import PM PG MEM.

Module MEMP.

(** ** The memory map *)

(** The region has a byte in the 4 MB at [pptr]. *)
Definition meets (pptr : Z) (r : memory_map_t) : bool :=
  (map_start r <? pptr + HUGE) && (pptr <? u64 (map_start r + map_len r)).

(** The first region of the list that meets the 4 MB. *)
Definition first_meeting (pptr : Z) (rs : list memory_map_t) : option memory_map_t := snd <$> list_find (fun r => meets pptr r = true) rs.

Definition regions (m : bmem) (maps j : Z) (n : nat) : list memory_map_t := map (read_map m maps) (seqZ j (Z.of_nat n)).

Lemma map_loop_first m maps pptr j n :
  0 <= pptr -> pptr + HUGE < 2 ^ 32 -> map_loop m maps pptr j n = map_type <$> first_meeting pptr (regions m maps j n).
Proof.
  intros H0 H1. revert j. unfold first_meeting, regions. induction n as [|n IH]; intros j; [done|].
  rewrite seqZ_cons by lia. replace (Z.pred (Z.of_nat (S n))) with (Z.of_nat n) by lia.
  cbn [map_loop map list_find]. cbv zeta. rewrite u32_small by (unfold in_u32; unfold HUGE in *; lia).
  set (r := read_map m maps j).
  assert (Hskip : meets pptr r = false -> map_loop m maps pptr (j + 1) n =
    map_type <$> (snd <$> (if decide (meets pptr r = true) then Some (0%nat, r) else prod_map S id <$> list_find (fun r => meets pptr r = true) (map (read_map m maps) (seqZ (Z.succ j) (Z.of_nat n)))))).
  { intros Hm. rewrite decide_False by congruence. rewrite IH. change (Z.succ j) with (j + 1). by destruct (list_find _ _) as [[]|]. }
  unfold meets in Hskip at 1. destruct (Z.leb_spec (pptr + HUGE) (map_start r)) as [Ha|Ha]; [apply Hskip; by rewrite (proj2 (Z.ltb_ge _ _))|].
  destruct (Z.leb_spec (u64 (map_start r + map_len r)) pptr) as [Hb|Hb]; [apply Hskip; rewrite (proj2 (Z.ltb_ge pptr _)) by lia; apply andb_false_r|].
  rewrite decide_True; [done|]. unfold meets. rewrite (proj2 (Z.ltb_lt (map_start r) _)) by lia. by apply Z.ltb_lt.
Qed.

Definition same_outside (kpd : Z) (m m' : bmem) : Prop := forall a, a < kpd \/ kpd + 4096 <= a -> ldb m' a = ldb m a.

Lemma same_outside_trans kpd m1 m2 m3 : same_outside kpd m1 m2 -> same_outside kpd m2 m3 -> same_outside kpd m1 m3.
Proof. intros H1 H2 a Ha. by rewrite H2, H1. Qed.

Lemma same_ld32 kpd m m' a : same_outside kpd m m' -> a + 4 <= kpd \/ kpd + 4096 <= a -> ld32 m' a = ld32 m a.
Proof. intros H Ha. unfold ld32. by rewrite !H by lia. Qed.

Lemma regions_same kpd m m' maps n :
  same_outside kpd m m' -> maps + 24 * Z.of_nat n <= kpd \/ kpd + 4096 <= maps -> regions m' maps 0 n = regions m maps 0 n.
Proof.
  intros Hs Ha. apply map_ext_in. intros j Hj%list_elem_of_In%elem_of_seqZ. unfold read_map.
  change BOOT.sizeof_memory_map with 24. by rewrite !(same_ld32 kpd m m') by (done || lia).
Qed.

(** ** The entries of the page directory *)

Definition huge_flags (cache_ok : bool) : Z := if cache_ok then 131 else 147.

Lemma huge_pde_value i ok : 0 <= i -> huge_pde (HUGE * i) ok = HUGE * i + huge_flags ok.
Proof.
  intros Hi. unfold huge_pde, set_bit, huge_flags. change HUGE with (2 ^ 22). rewrite (Z.mul_comm (2 ^ 22)), <- Z.shiftl_mul_pow2 by lia.
  destruct ok; cbn [negb]; rewrite <- !Z.lor_assoc, Z.lor_comm, lor_shiftl_add by done; rewrite (Z.shiftl_mul_pow2 i 22) by lia; apply Z.add_comm.
Qed.

(** The frame number that entry [k] maps, and whether it is among the first
    [i] that the loop has looked at. *)
Definition slot (k : Z) : Z := if k <? 768 then k else k - 768.

Definition entry (rs : list memory_map_t) (init : Z) (k : Z) : Z :=
  match first_meeting (HUGE * slot k) rs with
  | Some r => HUGE * slot k + huge_flags (map_type r =? 1)
  | None => init
  end.

Lemma same_st32 kpd k v m : 0 <= k < 1024 -> same_outside kpd m (st32 m (kpd + 4 * k) v).
Proof. intros Hk a Ha. apply ldb_st32_ne. lia. Qed.

Section Loop.
Context (m0 : bmem) (kpd maps : Z) (count : nat).
Hypothesis apart : maps + 24 * Z.of_nat count <= kpd \/ kpd + 4096 <= maps.

Definition rs : list memory_map_t := regions m0 maps 0 count.

(** The directory when the loop has done the frames below [i]. *)
Definition dir_done (i : Z) (m : bmem) : Prop :=
  same_outside kpd m0 m /\
  forall k, 0 <= k < 1024 ->
    ld32 m (kpd + 4 * k) = if slot k <? i then entry rs (ld32 m0 (kpd + 4 * k)) k else ld32 m0 (kpd + 4 * k).

Lemma map_4mb_done i m : 0 <= i < 768 -> dir_done i m -> dir_done (i + 1) (map_4mb m kpd maps count i).
Proof using apart.
  intros Hi [Hs Hd]. unfold map_4mb. rewrite (Z.mul_comm i), u32_small by (unfold in_u32, HUGE; lia). cbv zeta.
  rewrite map_loop_first by (unfold HUGE; lia). rewrite (regions_same kpd m0 m) by done. fold rs.
  change (Z.shiftr KERN_OFF PDE_SHIFT) with 768. change N_PDE with 1024.
  assert (Hold : forall k, 0 <= k < 1024 -> slot k <> i ->
    ld32 m (kpd + 4 * k) = if slot k <? i + 1 then entry rs (ld32 m0 (kpd + 4 * k)) k else ld32 m0 (kpd + 4 * k)).
  { intros k Hk Hne. rewrite Hd by done. by replace (slot k <? i + 1) with (slot k <? i) by lia. }
  assert (Hcur : forall k, slot k = i -> (slot k <? i + 1) = true) by (intros; lia).
  destruct (first_meeting (HUGE * i) rs) as [r|] eqn:E; cbn [fmap option_fmap option_map].
  2:{ split; [done|]. intros k Hk. destruct (decide (slot k = i)) as [Ek|Hne]; [|by apply Hold].
      rewrite Hd, Hcur by done. rewrite (proj2 (Z.ltb_ge _ _)) by lia. unfold entry. by rewrite Ek, E. }
  rewrite huge_pde_value by lia. set (v := HUGE * i + _).
  assert (Hv : in_u32 v) by (unfold v, in_u32, HUGE, huge_flags; destruct (_ =? 1); lia).
  assert (Hnew : forall k, slot k = i -> v = if slot k <? i + 1 then entry rs (ld32 m0 (kpd + 4 * k)) k else ld32 m0 (kpd + 4 * k)).
  { intros k Ek. rewrite Hcur by done. unfold entry. by rewrite Ek, E. }
  split.
  - destruct (Z.ltb_spec (i + 768) 1024); repeat (eapply same_outside_trans; [|apply same_st32; lia]); done.
  - intros k Hk. destruct (decide (slot k = i)) as [Ek|Hne].
    + rewrite <- (Hnew k Ek). unfold slot in Ek.
      destruct (Z.ltb_spec (i + 768) 1024) as [Hik|Hik]; destruct (Z.ltb_spec k 768) as [Hk7|Hk7]; [| |subst k|lia].
      * subst k. rewrite ld32_st32_ne by lia. by apply ld32_st32_eq.
      * replace k with (i + 768) by lia. by apply ld32_st32_eq.
      * by apply ld32_st32_eq.
    + rewrite <- Hold by done. unfold slot in Hne.
      destruct (Z.ltb_spec (i + 768) 1024) as [Hik|Hik]; destruct (Z.ltb_spec k 768) as [Hk7|Hk7]; rewrite !ld32_st32_ne by lia; done.
Qed.

Lemma identity_loop_done i n m : 0 <= i -> i + Z.of_nat n <= 768 -> dir_done i m -> dir_done (i + Z.of_nat n) (identity_loop m kpd maps count i n).
Proof using apart.
  revert i m. induction n as [|n IH]; intros i m H0 Hn Hd; cbn [identity_loop]; [by rewrite Z.add_0_r|].
  replace (i + Z.of_nat (S n)) with (i + 1 + Z.of_nat n) by lia. apply IH; [lia..|]. apply map_4mb_done; [lia|done].
Qed.

Lemma dir_start : dir_done 0 m0.
Proof using Type. clear apart. split; [done|]. intros k Hk. rewrite (proj2 (Z.ltb_ge _ _)); [done|]. unfold slot. case_if; lia. Qed.
End Loop.
(** ** Translations *)

(** The physical address that the kernel means by [va]. *)
Definition meant (va : Z) : Z := if va <? KERN_OFF then va else va - KERN_OFF.

(** Some entry of the loader's memory map has a byte in the 4 MB of [pa]. *)
Definition described (m : bmem) (b : BOOT.ext_info) (pa : Z) : bool :=
  existsb (meets (HUGE * (pa / HUGE))) (regions m (BOOT.mboot_mmap_addr b) 0 (Z.to_nat (BOOT.mboot_mmap_length b))).

Lemma first_meeting_some pptr l : existsb (meets pptr) l = true <-> is_Some (first_meeting pptr l).
Proof.
  unfold first_meeting. rewrite fmap_is_Some, existsb_exists. split.
  - intros (r & Hin%list_elem_of_In & Hr). apply (list_find_elem_of (fun r => meets pptr r = true) l r Hin Hr).
  - intros [[i r] H]. apply list_find_Some in H as (Hl & Hr & _). exists r. split; [|done]. apply list_elem_of_In. by eapply list_elem_of_lookup_2.
Qed.

Lemma walk_huge m pd va f ok :
  ld32 m (pd + 4 * (va / HUGE)) = HUGE * f + huge_flags ok -> PGP.walk m pd va = Some (HUGE * f + va mod HUGE, false, true).
Proof.
  intros E. unfold PGP.walk. change 4194304 with HUGE. rewrite E. replace (HUGE * f) with (4096 * (1024 * f)) by (unfold HUGE; lia).
  rewrite !PGP.testbit_low by lia.
  replace ((4096 * (1024 * f) + huge_flags ok) / HUGE) with f by (unfold HUGE, huge_flags; destruct ok; zlia).
  replace (4096 * (1024 * f)) with (HUGE * f) by (unfold HUGE; lia). by destruct ok.
Qed.

Lemma walk_absent m pd va : ld32 m (pd + 4 * (va / HUGE)) = 0 -> PGP.walk m pd va = None.
Proof. intros E. unfold PGP.walk. change 4194304 with HUGE. by rewrite E. Qed.

Lemma meant_slot va : 0 <= va < 2 ^ 32 -> slot (va / HUGE) = meant va / HUGE /\ meant va mod HUGE = va mod HUGE /\ 0 <= meant va < KERN_OFF.
Proof. intros Hva. unfold slot, meant, KERN_OFF, HUGE. destruct (Z.ltb_spec va 3221225472), (Z.ltb_spec (va / 4194304) 768); zlia. Qed.

(** ** Bringing the memory up *)

(** What the boot code and the linker guarantee: its page directory maps the
    first 4 MB at 0 and at [KERN_OFF], the kernel's own directory lies in the
    image, apart from it and from the memory map. *)
Record boot_ok (m : bmem) (b : BOOT.ext_info) (kernel_end tpd : Z) : Prop := {
  ok_loader : forall k, 0 <= k < 1024 -> ld32 m (INITIAL_PGDIR + 4 * k) = if (k =? 0) || (k =? 768) then 131 else 0;
  ok_image : KERN_OFF + 8192 <= tpd /\ tpd + 4096 <= kernel_end < 2 ^ 32;
  ok_map : 0 <= BOOT.mboot_mmap_length b /\
    (BOOT.mboot_mmap_addr b + 24 * BOOT.mboot_mmap_length b <= tpd - KERN_OFF \/ tpd - KERN_OFF + 4096 <= BOOT.mboot_mmap_addr b) }.

(** Less than 1 GB of memory, 256 frames of it behind the kernel and the
    modules, and all of it in one region of the map. *)
Definition ram_ok (m : bmem) (b : BOOT.ext_info) (kernel_end : Z) : Prop :=
  0 <= BOOT.mboot_uppermem_kb b < 4 * (2 ^ 18 - 256) /\
  edge (pmem_setup (BOOT.mboot_uppermem_kb b) kernel_end (mod_ends m b)) + 256 <= 256 + BOOT.mboot_uppermem_kb b / 4 /\
  exists r, r ∈ regions m (BOOT.mboot_mmap_addr b) 0 (Z.to_nat (BOOT.mboot_mmap_length b)) /\
    map_start r <= UPPER_MEMORY_OFFSET /\ UPPER_MEMORY_OFFSET + 1024 * BOOT.mboot_uppermem_kb b <= map_start r + map_len r < 2 ^ 64.

Section Setup.
Context (m : bmem) (b : BOOT.ext_info) (kernel_end tpd : Z) (Hok : boot_ok m b kernel_end tpd).

Abbreviation the_regions := (regions m (BOOT.mboot_mmap_addr b) 0 (Z.to_nat (BOOT.mboot_mmap_length b))).

(** Every entry of the directory, with its cache bit. *)
Lemma paging_setup_entries m' cr3 k :
  paging_setup m b tpd = (m', cr3) -> 0 <= k < 1024 ->
  cr3 = tpd - KERN_OFF /\ ld32 m' (cr3 + 4 * k) = entry the_regions (if (k =? 0) || (k =? 768) then 131 else 0) k.
Proof using Hok.
  destruct Hok as [Hl [Ht He] [Hn Hm]]. intros H Hk. unfold paging_setup in H.
  assert (Ep : __pa tpd = tpd - KERN_OFF) by (unfold __pa; apply u32_small; unfold in_u32, KERN_OFF in *; lia).
  rewrite Ep in H. change (Z.to_nat (N_PDE * 4)) with (Z.to_nat 4096) in H. cbv zeta in H.
  set (m1 := bcopy m (tpd - KERN_OFF) INITIAL_PGDIR (Z.to_nat 4096)) in H. set (kpd := tpd - KERN_OFF) in *.
  assert (Hap : INITIAL_PGDIR + Z.of_nat (Z.to_nat 4096) <= kpd \/ kpd + Z.of_nat (Z.to_nat 4096) <= INITIAL_PGDIR)
    by (unfold INITIAL_PGDIR, kpd; lia).
  assert (Hs1 : same_outside kpd m m1).
  { intros a Ha. unfold m1. rewrite ldb_bcopy by done. by destruct (Z.leb_spec kpd a), (Z.ltb_spec a (kpd + Z.of_nat (Z.to_nat 4096))); cbn [andb]; [lia|..]. }
  assert (Hc : ld32 m1 (kpd + 4 * k) = ld32 m (INITIAL_PGDIR + 4 * k)).
  { unfold ld32, m1. rewrite !ldb_bcopy by done.
    repeat (rewrite (proj2 (Z.leb_le _ _)) by lia). repeat (rewrite (proj2 (Z.ltb_lt _ _)) by lia). cbn [andb].
    repeat match goal with |- context [ldb m ?a] => match a with context [kpd] => replace a with (INITIAL_PGDIR + (a - kpd)) by lia end end.
    repeat (f_equal; try lia). }
  assert (Ha24 : BOOT.mboot_mmap_addr b + 24 * Z.of_nat (Z.to_nat (BOOT.mboot_mmap_length b)) <= kpd \/ kpd + 4096 <= BOOT.mboot_mmap_addr b) by lia.
  destruct (identity_loop_done m1 kpd _ _ Ha24 0 (Z.to_nat 768) m1 ltac:(lia) ltac:(lia) (dir_start _ _ _ _ )) as [_ Hd].
  change (Z.shiftr KERN_OFF PDE_SHIFT) with 768 in H. apply pair_equal_spec in H as [Em Ec]. rewrite <- Em, <- Ec. split; [done|]. rewrite (Hd k Hk).
  replace (slot k <? 0 + Z.of_nat (Z.to_nat 768)) with true by (symmetry; apply Z.ltb_lt; unfold slot; destruct (Z.ltb_spec k 768); lia).
  unfold rs. rewrite (regions_same kpd m m1) by done. by rewrite Hc, Hl.
Qed.
End Setup.

Section Translations.
Context (m : bmem) (b : BOOT.ext_info) (kernel_end tpd : Z) (Hok : boot_ok m b kernel_end tpd).

Lemma paging_setup_walk m' cr3 va :
  paging_setup m b tpd = (m', cr3) -> 0 <= va < 2 ^ 32 ->
  PGP.walk m' cr3 va = if (meant va <? HUGE) || described m b (meant va) then Some (meant va, false, true) else None.
Proof using Hok.
  intros H Hva. destruct (meant_slot va Hva) as (Es & Em & Hr).
  assert (Hk : 0 <= va / HUGE < 1024) by (unfold HUGE; zlia).
  destruct (paging_setup_entries m b kernel_end tpd Hok m' cr3 (va / HUGE) H Hk) as [_ E].
  unfold entry in E. rewrite Es in E.
  assert (Epa : HUGE * (meant va / HUGE) + va mod HUGE = meant va) by (rewrite <- Em; unfold HUGE; zlia).
  unfold described. destruct (first_meeting _ _) as [r|] eqn:Ef in E.
  - rewrite (proj2 (first_meeting_some _ _)) by (by rewrite Ef). rewrite orb_true_r. rewrite (walk_huge _ _ _ _ _ E). by rewrite Epa.
  - destruct (existsb _ _) eqn:Ee; [apply first_meeting_some in Ee; rewrite Ef in Ee; by destruct Ee|]. rewrite orb_false_r.
    destruct (Z.ltb_spec (meant va) HUGE) as [Hlow|Hhigh].
    + assert (Ez : meant va / HUGE = 0) by (unfold HUGE in *; zlia).
      replace ((va / HUGE =? 0) || (va / HUGE =? 768)) with true in E by (rewrite Ez in Es; unfold slot in Es; destruct (Z.ltb_spec (va / HUGE) 768); lia).
      rewrite (walk_huge _ _ _ 0 true E). rewrite Ez, Z.mul_0_r in Epa. by rewrite Z.mul_0_r, Epa.
    + apply walk_absent. rewrite E.
      assert (meant va / HUGE <> 0) by (unfold HUGE in *; zlia). rewrite <- Es in *. unfold slot in *.
      destruct (Z.ltb_spec (va / HUGE) 768); destruct (Z.eqb_spec (va / HUGE) 0), (Z.eqb_spec (va / HUGE) 768); cbn [orb]; lia.
Qed.

Lemma paging_setup_cache m' cr3 pa r :
  paging_setup m b tpd = (m', cr3) -> 0 <= pa < KERN_OFF ->
  first_meeting (HUGE * (pa / HUGE)) (regions m (BOOT.mboot_mmap_addr b) 0 (Z.to_nat (BOOT.mboot_mmap_length b))) = Some r ->
  Z.testbit (ld32 m' (cr3 + 4 * (pa / HUGE))) 4 = negb (map_type r =? 1).
Proof using Hok.
  intros H Hpa Hf. assert (Hk : 0 <= pa / HUGE < 768) by (unfold HUGE, KERN_OFF in *; zlia).
  destruct (paging_setup_entries m b kernel_end tpd Hok m' cr3 (pa / HUGE) H ltac:(lia)) as [_ ->].
  unfold entry, slot. rewrite (proj2 (Z.ltb_lt _ 768)) by lia. rewrite Hf.
  replace (HUGE * (pa / HUGE)) with (4096 * (1024 * (pa / HUGE))) by (unfold HUGE; lia).
  rewrite PGP.testbit_low by lia. by destruct (_ =? 1).
Qed.
End Translations.

Lemma foldl_max_ge l e : e <= foldl (fun edge mod_end => if edge <? mod_end then mod_end else edge) e l.
Proof. revert e. induction l as [|x l IH]; intros e; cbn [foldl]; [lia|]. etrans; [|apply IH]. case_if; lia. Qed.

Lemma foldl_max_all l : forall e x, x ∈ l -> x <= foldl (fun edge mod_end => if edge <? mod_end then mod_end else edge) e l.
Proof.
  induction l as [|y l IH]; intros e x Hx; [by apply elem_of_nil in Hx|]. cbn [foldl]. apply elem_of_cons in Hx as [->|Hx]; [|by apply IH]. etrans; [|apply foldl_max_ge]. case_if; lia.
Qed.

(** The region that holds all memory describes each of its frames. *)
Lemma ram_described m b kernel_end pa :
  ram_ok m b kernel_end -> UPPER_MEMORY_OFFSET <= pa < UPPER_MEMORY_OFFSET + 1024 * BOOT.mboot_uppermem_kb b -> described m b pa = true.
Proof.
  intros (Hk & _ & r & Hin & H1 & H2) Hpa. unfold described. apply existsb_exists. exists r. split; [by apply list_elem_of_In|].
  unfold meets. assert (E : u64 (map_start r + map_len r) = map_start r + map_len r).
  { unfold u64. apply Z.mod_small. unfold UPPER_MEMORY_OFFSET in *. lia. }
  rewrite E. apply andb_true_intro. split; apply Z.ltb_lt; unfold HUGE, UPPER_MEMORY_OFFSET in *; zlia.
Qed.

(** C19: With the boot code's page directory and less than 1 GB of memory in
    one region of the memory map, [memory_setup] loads a page directory in which
    every 32-bit address below [KERN_OFF] means itself and every address [KERN_OFF + pa]
    means [pa]: those in the first 4 MB or in 4 MB of which the map describes a
    byte are mapped for the kernel alone, all others not at all, and the first
    region that meets the 4 MB decides on caching.  The heap
    is empty, in order, mapped throughout, and begins behind the kernel's image
    and behind every module that the boot loader left; the frames left to
    allocate are those behind the heap, up to the end of the upper memory. *)
Theorem memory_setup_maps m w b kernel_end tpd s cr3 theHeap :
  boot_ok m b kernel_end tpd -> ram_ok m b kernel_end -> memory_setup m w b kernel_end tpd = (s, cr3, theHeap) ->
  PGP.mm_start cr3 s /\
  (forall va, 0 <= va < 2 ^ 32 ->
     PGP.walk (phys s) cr3 va = if (meant va <? HUGE) || described m b (meant va) then Some (meant va, false, true) else None) /\
  (forall pa r, 0 <= pa < KERN_OFF ->
     first_meeting (HUGE * (pa / HUGE)) (regions m (BOOT.mboot_mmap_addr b) 0 (Z.to_nat (BOOT.mboot_mmap_length b))) = Some r ->
     Z.testbit (ld32 (phys s) (cr3 + 4 * (pa / HUGE))) 4 = negb (map_type r =? 1)) /\
  exists h, theHeap = Some h /\ KH.ff_inv h ∅ /\ FF.endmem h = FF.startmem h + 256 * PAGE_BYTES /\
    (forall a, FF.startmem h <= a < FF.endmem h -> PGP.walk (phys s) cr3 a = Some (a - KERN_OFF, false, true)) /\
    kernel_end <= FF.startmem h /\ Forall (fun mod_end => mod_end <= FF.startmem h - KERN_OFF) (mod_ends m b) /\
    PAGE_BYTES * edge (pm s) = FF.endmem h - KERN_OFF /\ upper_end (pm s) = (UPPER_MEMORY_OFFSET + 1024 * BOOT.mboot_uppermem_kb b) / PAGE_BYTES.
Proof.
  intros Hok Hram. unfold memory_setup. cbv zeta.
  set (p0 := pmem_setup _ _ _). destruct (paging_setup m b tpd) as [m' c] eqn:Ep.
  pose proof Hram as ((Hk0 & Hk1) & Hroom & _). fold p0 in Hroom.
  destruct (paging_setup_entries m b kernel_end tpd Hok m' c 0 Ep ltac:(lia)) as [Ec _].
  assert (Hu : upper_end p0 = 256 + BOOT.mboot_uppermem_kb b / 4).
  { unfold p0, pmem_setup. cbn [upper_end]. change (PAGE_BYTES / 1024) with 4. change (UPPER_MEMORY_OFFSET / PAGE_BYTES) with 256.
    destruct (Z.leb_spec (1024 * 1024) (BOOT.mboot_uppermem_kb b / 4)); zlia. }
  assert (He : c + 4096 <= 4096 * edge p0 /\ 0 < edge p0 /\ 0 <= c).
  { destruct (ok_image _ _ _ _ Hok) as [Ht Hke]. unfold p0, pmem_setup. cbn [edge].
    set (e := foldl _ _ _). assert (kernel_end - KERN_OFF <= e).
    { etrans; [|apply foldl_max_ge]. unfold __pa. rewrite u32_small; [lia|]. unfold in_u32, KERN_OFF in *. lia. }
    pose proof (page_aligned_spec e ltac:(lia)). unfold PAGE_BYTES in *. lia. }
  assert (Hedge : kernel_end - KERN_OFF <= 4096 * edge p0 /\ Forall (fun x => x <= 4096 * edge p0) (mod_ends m b)).
  { unfold p0, pmem_setup. cbn [edge]. set (e := foldl _ _ _). assert (Hk2 : kernel_end - KERN_OFF <= e).
    { etrans; [|apply foldl_max_ge]. unfold __pa. rewrite u32_small; [lia|]. destruct (ok_image _ _ _ _ Hok). unfold in_u32, KERN_OFF in *. lia. }
    destruct (ok_image _ _ _ _ Hok) as [_ Hke]. pose proof (page_aligned_spec e ltac:(lia)) as Hal. unfold PAGE_BYTES in Hal. split; [lia|].
    apply Forall_forall. intros x Hx. pose proof (foldl_max_all (mod_ends m b) (__pa kernel_end) x Hx) as Hx2. fold e in Hx2. lia. }
  assert (Hwf : pmem_wf p0) by (unfold pmem_wf; zlia).
  destruct (KH.kheap_setup_correct p0 w Hwf ltac:(lia) ltac:(zlia)) as (p1 & h & -> & [He1 Hu1] & Hh & Hs & Hn).
  intros [= <- <- <-]. cbn [phys pm].
  split; [|split; [|split]].
  - unfold PGP.mm_start, pmem_wf. cbn [pm]. rewrite Hu1, He1. zlia.
  - intros va Hva. by apply (paging_setup_walk m b kernel_end tpd).
  - intros pa r Hpa Hf. by apply (paging_setup_cache m b kernel_end tpd).
  - exists h. split; [done|]. split; [done|]. split; [done|]. split.
    2:{ unfold PAGE_BYTES in *. destruct Hedge as [Hk2 Hm2]. rewrite Hn, Hs, He1, Hu1, Hu. change KH.KHEAP_INITIAL_SIZE with (256 * 4096). split; [lia|]. split; [apply (Forall_impl _ _ _ Hm2); intros x ?; lia|].
        split; [lia|]. unfold UPPER_MEMORY_OFFSET. zlia. }
    intros a Ha. rewrite Hs, Hn in *. unfold KH.KHEAP_INITIAL_SIZE, PAGE_BYTES in *.
    assert (Hm : meant a = a - KERN_OFF) by (unfold meant; rewrite (proj2 (Z.ltb_ge _ _)) by lia; done).
    rewrite (paging_setup_walk m b kernel_end tpd Hok m' c a Ep) by (unfold KERN_OFF in *; zlia). rewrite Hm.
    destruct (Z.ltb_spec (a - KERN_OFF) HUGE); cbn [orb]; [done|].
    rewrite (ram_described m b kernel_end); [done..|]. unfold UPPER_MEMORY_OFFSET, HUGE in *. zlia.
Qed.

(** A machine with 16 MB and a device at 2 GB. *)
Definition put_words (m : bmem) (a : Z) (ws : list Z) : bmem :=
  fst (foldl (fun '(m, a) w => (st32 m a w, a + 4)) (m, a) ws).
Definition demo_map : list Z := [20; 0; 0; 654336; 0; 1;  20; 1048576; 0; 15728640; 0; 1;  20; 2147483648; 0; 65536; 0; 2].
Definition demo_boot_mem : bmem := put_words (st32 (st32 ∅ 4096 131) (4096 + 4 * 768) 131) 65536 demo_map.
Definition demo_info : BOOT.ext_info := BOOT.mk_ext 73 639 15360 0 0 0 0 72 65536 0 0 0 0 0 0.
Definition demo_tpd : Z := KERN_OFF + 1114112.
Definition demo_kernel_end : Z := KERN_OFF + 1179700.

Lemma demo_boot_ok : boot_ok demo_boot_mem demo_info demo_kernel_end demo_tpd.
Proof.
  constructor.
  - assert (H : forallb (fun k => ld32 demo_boot_mem (INITIAL_PGDIR + 4 * k) =? if (k =? 0) || (k =? 768) then 131 else 0) (seqZ 0 1024) = true) by (by vm_compute).
    intros k Hk. rewrite forallb_forall in H. apply Z.eqb_eq, H, list_elem_of_In, elem_of_seqZ. lia.
  - unfold demo_tpd, demo_kernel_end, KERN_OFF. lia.
  - change (BOOT.mboot_mmap_length demo_info) with 3. change (BOOT.mboot_mmap_addr demo_info) with 65536. unfold demo_tpd. lia.
Qed.

Lemma demo_ram_ok : ram_ok demo_boot_mem demo_info demo_kernel_end.
Proof.
  split; [by vm_compute|]. split; [by vm_compute|].
  exists (mk_map 1048576 0 15728640 0 1). split; [|by vm_compute].
  apply list_elem_of_lookup. exists 1%nat. by vm_compute.
Qed.

Lemma memory_setup_maps_witness :
  exists s cr3 h, memory_setup demo_boot_mem ∅ demo_info demo_kernel_end demo_tpd = (s, cr3, Some h) /\ PGP.mm_start cr3 s /\ KH.ff_inv h ∅ /\
    PGP.walk (phys s) cr3 2147483711 = Some (2147483711, false, true) /\ Z.testbit (ld32 (phys s) (cr3 + 4 * 512)) 4 = true /\
    PGP.walk (phys s) cr3 (KERN_OFF + 8388609) = Some (8388609, false, true) /\ PGP.walk (phys s) cr3 (KERN_OFF + 16777216) = None /\
    PGP.walk (phys s) cr3 (FF.startmem h) = Some (FF.startmem h - KERN_OFF, false, true).
Proof.
  destruct (memory_setup demo_boot_mem ∅ demo_info demo_kernel_end demo_tpd) as [[s cr3] oh] eqn:E.
  destruct (memory_setup_maps _ _ _ _ _ _ _ _ demo_boot_ok demo_ram_ok E) as (Hs & Hw & Hc & h & -> & Hh & Hl & Ha & _).
  exists s, cr3, h. split; [done|]. split; [done|]. split; [done|].
  split; [rewrite Hw by lia; by vm_compute|]. split; [exact (Hc 2147483648 (mk_map 2147483648 0 65536 0 2) ltac:(unfold KERN_OFF; lia) ltac:(by vm_compute))|].
  split; [rewrite Hw by (unfold KERN_OFF; lia); by vm_compute|]. split; [rewrite Hw by (unfold KERN_OFF; lia); by vm_compute|].
  apply Ha. rewrite Hl. unfold PAGE_BYTES. lia.
Defined.

(** ** /dev/mem *)

Lemma ldb_memcpy m dst src n a :
  0 <= n -> src + n <= dst \/ dst + n <= src ->
  ldb (CS.memcpy m dst src n) a = if (dst <=? a) && (a <? dst + n) then ldb m (src + (a - dst)) else ldb m a.
Proof.
  intros Hn Ha. unfold CS.memcpy, CS.memcpy_from_start. destruct (Z.eqb_spec dst src) as [->|Hne].
  - destruct (Z.leb_spec src a), (Z.ltb_spec a (src + n)); cbn [andb]; try done. f_equal. lia.
  - rewrite CSP.from_start_correct by lia. by rewrite Z.add_0_r, Z2Nat.id.
Qed.

(** Writing bytes through /dev/mem and reading them back returns them, and both
    report the full length. *)
Lemma mem_write_read m buf buf' n pos m1 m2 w1 w2 r1 r2 :
  0 <= n -> 0 <= pos < 2 ^ 31 -> 0 <= buf -> 0 <= buf' -> buf + n <= pos \/ pos + n <= buf -> buf' + n <= pos \/ pos + n <= buf' ->
  chrram_write_buf m buf n (Some 0) pos = (m1, w1, r1) -> chrram_read_buf m1 buf' n (Some 0) pos = (m2, w2, r2) ->
  (w1, r1, w2, r2) = (Some n, 0, Some n, 0) /\ forall i, 0 <= i < n -> ldb m2 (buf' + i) = ldb m (buf + i).
Proof.
  intros Hn Hpos Hb Hb' Ha Ha'. unfold chrram_write_buf, chrram_read_buf. rewrite u32_small by (unfold in_u32; lia).
  intros [= <- <- <-] [= <- <- <-]. split; [done|]. intros i Hi.
  rewrite !ldb_memcpy by lia. repeat (case_if; try lia); f_equal; lia.
Qed.

End MEMP.
