(* ===== verification/UserHeap.v ===== *)
(** * The heap of a user program (lib/c/src/stdproc.c, alloc_firstfit.c, stdlib.c)

    Modules [UFF] and [UH]: what runs before [main] and what [malloc] and its
    relatives do on top of the kernel's [sys_brk].

    The allocator in lib/c/src/alloc_firstfit.c is, function by function, the
    text of src/mem/ff_alloc.c, so [UFF] gives the definitions of [FF] their
    names in the C library. *)

From S2P Require Import Prelude FirstFit PMem Paging.

Module UFF.

Definition aligned := FF.aligned.
Definition set_used := FF.set_used.
Definition set_free := FF.set_free.
Definition is_used := FF.is_used.
Definition check_sum := FF.check_sum.
Definition get_next := FF.get_next.
Definition get_prev := FF.get_prev.
Definition set_prev := FF.set_prev.
Definition set_next := FF.set_next.
Definition get_size := FF.get_size.
Definition chunk_data := FF.chunk_data.
Definition erase := FF.erase.
Definition set_chunk := FF.set_chunk.
Definition alloc_t := FF.alloc_t.
Definition firstfit_new := FF.firstfit_new.
Definition firstfit_malloc := FF.firstfit_malloc.
Definition firstfit_free := FF.firstfit_free.
Definition firstfit_realloc := FF.firstfit_realloc.
Definition firstfit_corruption := FF.firstfit_corruption.
Definition heap_info := FF.heap_info.

End UFF.

Module UH.
Import PG UFF.

Definition _SC_PAGESIZE : Z := 1.
Definition ENOMEM : Z := 12.
Definition EINVAL : Z := 22.

(** The globals of the C library, with the memory the heap is made in, and the
    kernel's side: page tables and the memory of this process. *)
Record runtime := mk_rt {
  theHeapEnd : Z; theHeap : option alloc_t; theErrNo : Z; environ : Z; auxv : Z; heapmem : wmem; kmem : mm; kproc : proc_mem }.

Definition set_errno (r : runtime) (e : Z) : runtime := mk_rt (theHeapEnd r) (theHeap r) e (environ r) (auxv r) (heapmem r) (kmem r) (kproc r).
Definition set_heap_end (r : runtime) (v : Z) : runtime := mk_rt v (theHeap r) (theErrNo r) (environ r) (auxv r) (heapmem r) (kmem r) (kproc r).
Definition set_heap (r : runtime) (h : option alloc_t) : runtime := mk_rt (theHeapEnd r) h (theErrNo r) (environ r) (auxv r) (heapmem r) (kmem r) (kproc r).
Definition set_stack (r : runtime) (env aux : Z) : runtime := mk_rt (theHeapEnd r) (theHeap r) (theErrNo r) env aux (heapmem r) (kmem r) (kproc r).

(** The system call; [None] is the kernel's fuel. *)
Definition sys_brk (r : runtime) (addr : Z) : option (runtime * Z) :=
  '(s, p, ret) ← PG.sys_brk (kmem r) (kproc r) addr;
  Some (mk_rt (theHeapEnd r) (theHeap r) (theErrNo r) (environ r) (auxv r) (heapmem r) s p, u32 ret).

Definition sysconf (r : runtime) (name : Z) : runtime * Z :=
  if name =? _SC_PAGESIZE then (r, 4096) else (set_errno r EINVAL, -1).

(** Pointers are unsigned: the result (void * )-1 is [UINT_MAX]. *)
Definition sbrk (r : runtime) (increment : Z) : option (runtime * Z) :=
  if increment =? 0 then Some (r, theHeapEnd r)
  else
    let oldbrk := theHeapEnd r in
    '(r, newbrk) ← sys_brk r (u32 (oldbrk + increment));
    if newbrk <? u32 (oldbrk + increment) then Some (set_errno r ENOMEM, UINT_MAX)
    else Some (set_heap_end r newbrk, oldbrk).

(** Either [panic], or the heap that [firstfit_new] returned, NULL being [None]. *)
Inductive init_result :=
| Panicked (r : runtime)
| Started (r : runtime) (heap : option alloc_t).

(** The lazy part: the first page boundary from the program's break on. *)
Definition lazy_init (r : runtime) (_end : Z) : option runtime :=
  if negb (theHeapEnd r =? 0) then Some r
  else
    let '(r, pagesize) := sysconf r _SC_PAGESIZE in
    '(r, p) ← sys_brk r _end;
    let p := if negb (Z.land p (pagesize - 1) =? 0) then u32 (Z.land p (u32 (Z.lnot (pagesize - 1))) + pagesize) else p in
    Some (set_heap_end r p).

Definition heap_init (r : runtime) (_end : Z) : option init_result :=
  let '(r, pagesize) := sysconf r _SC_PAGESIZE in
  let initsize := u32 (pagesize * 160) in
  r ← lazy_init r _end;
  '(r, heap_start) ← sbrk r initsize;
  if heap_start =? 0 then Some (Panicked r)
  else Some (Started r (firstfit_new (heapmem r) heap_start initsize)).

(** [while ( *p) ++p; ++p;] over the words of the stack. *)
Fixpoint skip_words (fuel : nat) (m : bmem) (p : Z) : option Z :=
  match fuel with
  | O => None
  | S fuel => if ld32 m p =? 0 then Some (u32 (p + 4)) else skip_words fuel m (u32 (p + 4))
  end.

Definition _init (fuel : nat) (r : runtime) (m : bmem) (stack _end : Z) : option init_result :=
  let p := u32 (stack + 4) in
  p ← skip_words fuel m p;
  let env := p in
  p ← skip_words fuel m p;
  res ← heap_init (set_stack r env p) _end;
  Some (match res with
        | Panicked r => Panicked r
        | Started r h => Started (set_heap r h) h
        end).

(** ** The heap operations of the library; [None] is a NULL heap *)

Definition kmalloc (r : runtime) (size : Z) : option (runtime * Z) :=
  heap ← theHeap r; '(h, p) ← firstfit_malloc heap size; Some (set_heap r (Some h), p).

Definition kfree (r : runtime) (ptr : Z) : option (runtime * Z) :=
  heap ← theHeap r; Some (set_heap r (Some (firstfit_free heap ptr)), 0).

Definition krealloc (r : runtime) (ptr size : Z) : option (runtime * Z) :=
  heap ← theHeap r; '(h, p) ← firstfit_realloc heap ptr size; Some (set_heap r (Some h), p).

Definition malloc (r : runtime) (size : Z) : option (runtime * Z) :=
  '(r, p) ← kmalloc (set_errno r 0) size;
  Some (if p =? 0 then set_errno r ENOMEM else r, p).

(** [memset(p, 0, n)] on words: whole words, then the low bytes of the last. *)
Fixpoint zero_words (n : nat) (m : wmem) (p : Z) : wmem :=
  match n with
  | O => m
  | S n => zero_words n (st m p 0) (u32 (p + 4))
  end.

Definition zero_bytes (m : wmem) (p n : Z) : wmem :=
  let m := zero_words (Z.to_nat (n / 4)) m p in
  let last := u32 (p + 4 * (n / 4)) in
  let k := 8 * (n mod 4) in
  if n mod 4 =? 0 then m else st m last (Z.shiftl (Z.shiftr (ld m last) k) k).

Definition calloc (r : runtime) (nmemb size : Z) : option (runtime * Z) :=
  let sz := u32 (nmemb * size) in
  '(r, p) ← malloc r sz;
  heap ← theHeap r;
  Some (set_heap r (Some (FF.with_mem heap (zero_bytes (FF.hmem heap) p sz))), p).

Definition realloc (r : runtime) (ptr size : Z) : option (runtime * Z) :=
  '(r, p) ← krealloc (set_errno r 0) ptr size;
  Some (if p =? 0 then set_errno r ENOMEM else r, p).

Definition free (r : runtime) (ptr : Z) : option runtime := '(r, _) ← kfree r ptr; Some r.

End UH.
