(* ===== verification/UserHeapProofs.v ===== *)
(** * The heap of a user program: correctness

    Module [UHP]: what [heap_init] gets from the kernel, and that every area
    [malloc] hands out afterwards is memory of this process and of no other.
    The failures that the library does not notice come last. *)

From S2P Require Import Prelude FirstFit FirstFitProofs PMem Paging PagingProofs UserHeap.

Module UHP.
Import PG UFF UH.

(** ** A program that uses the heap

    The heap with the areas the program owns and the words it wrote there. *)
Definition prog : Type := runtime * gmap Z Z * gmap Z Z.

Inductive prog_step : prog -> prog -> Prop :=
| prog_malloc r L D size r' p :
    0 <= size -> malloc r size = Some (r', p) -> prog_step (r, L, D) (r', if p =? 0 then L else <[p := size]> L, D)
| prog_free r L D p n r' :
    L !! p = Some n -> free r p = Some r' -> prog_step (r, L, D) (r', delete p L, filter (fun av => ~ (p <= av.1 < p + n)) D)
| prog_write r L D h p n a v :
    theHeap r = Some h -> L !! p = Some n -> p <= a < p + n -> a mod 4 = 0 ->
    prog_step (r, L, D) (set_heap r (Some (FF.with_mem h (st (FF.hmem h) a v))), L, <[a := v]> D).

(** The kernel's side does not change; the heap makes steps of the allocator's
    client. *)
Lemma malloc_heap r size r' p :
  malloc r size = Some (r', p) ->
  exists h h', theHeap r = Some h /\ firstfit_malloc h size = Some (h', p) /\ theHeap r' = Some h' /\ kmem r' = kmem r /\ kproc r' = kproc r.
Proof.
  unfold malloc, kmalloc. cbn [theHeap set_errno]. destruct (theHeap r) as [h|] eqn:E; [|done]. cbn.
  destruct (firstfit_malloc h size) as [[h' q]|] eqn:Em; [|done]. cbn. intros [= <- <-]. exists h, h'. by destruct (q =? 0).
Qed.

Lemma free_heap r p r' :
  free r p = Some r' -> exists h, theHeap r = Some h /\ theHeap r' = Some (firstfit_free h p) /\ kmem r' = kmem r /\ kproc r' = kproc r.
Proof. unfold free, kfree. destruct (theHeap r) as [h|] eqn:E; [|done]. cbn. intros [= <-]. by exists h. Qed.

Lemma prog_client s s' :
  rtc prog_step s s' -> forall h, theHeap s.1.1 = Some h ->
  exists h', theHeap s'.1.1 = Some h' /\ rtc FFP.client_step (h, s.1.2, s.2) (h', s'.1.2, s'.2) /\
    kmem s'.1.1 = kmem s.1.1 /\ kproc s'.1.1 = kproc s.1.1.
Proof.
  induction 1 as [s|s1 s2 s3 Hs Hr IH]; intros h Hh; [exists h; by repeat split|].
  assert (exists h2, theHeap s2.1.1 = Some h2 /\ FFP.client_step (h, s1.1.2, s1.2) (h2, s2.1.2, s2.2) /\ kmem s2.1.1 = kmem s1.1.1 /\ kproc s2.1.1 = kproc s1.1.1) as (h2 & Hh2 & Hc & Ek & Ep).
  { destruct Hs as [r L D size r' p H0 Hm|r L D p n r' HL Hf|r L D h0 p n a v Hh0 HL Ha H4]; simpl in *.
    - destruct (malloc_heap _ _ _ _ Hm) as (h1 & h2 & E1 & Em & E2 & Ek & Ep). rewrite Hh in E1. injection E1 as <-. exists h2. split; [done|]. split; [|done].
      destruct (Z.eqb_spec p 0) as [->|Hp]; [by eapply FFP.client_alloc_fails|by apply FFP.client_alloc].
    - destruct (free_heap _ _ _ Hf) as (h1 & E1 & E2 & Ek & Ep). rewrite Hh in E1. injection E1 as <-. eexists. split; [done|]. split; [|done]. by apply FFP.client_release.
    - rewrite Hh in Hh0. injection Hh0 as <-. eexists. split; [done|]. split; [|done]. by eapply FFP.client_write. }
  destruct (IH h2 Hh2) as (h' & Hh' & Hr' & Ek' & Ep'). exists h'. split; [done|]. split; [by eapply rtc_l|]. split; congruence.
Qed.

(** ** Getting the memory *)

(** The process as the kernel starts it: its break is a page boundary behind
    the program, with nothing mapped behind it yet where the heap will be. *)
Record started (pds : list Z) (r : runtime) (_end : Z) : Prop := {
  st_mm : PGP.mm_ok pds (kmem r);
  st_pd : cr3 (kproc r) ∈ pds;
  st_break : 4194304 <= ps_heap_end (kproc r) <= KERN_OFF /\ ps_heap_end (kproc r) mod 4096 = 0;
  st_end : 0 < _end <= ps_heap_end (kproc r);
  st_first : theHeapEnd r = 0;
  st_free : forall va, ps_heap_end (kproc r) <= va < ps_heap_end (kproc r) + 655360 -> PGP.walk (phys (kmem r)) (cr3 (kproc r)) va = None }.

(** Asking for a break that is there changes nothing but returns it. *)
Lemma lazy_init_break pds r _end :
  started pds r _end ->
  exists r', lazy_init r _end = Some r' /\ PG.sys_brk (kmem r) (kproc r) _end = Some (kmem r', kproc r', ps_heap_end (kproc r)) /\
    theHeapEnd r' = ps_heap_end (kproc r) /\ heapmem r' = heapmem r /\ theErrNo r' = theErrNo r /\
    PGP.mm_ok pds (kmem r') /\ cr3 (kproc r') = cr3 (kproc r) /\ ps_heap_end (kproc r') = ps_heap_end (kproc r) /\
    forall pd va, pd ∈ pds -> PGP.user_va va -> PGP.walk (phys (kmem r')) pd va = PGP.walk (phys (kmem r)) pd va.
Proof.
  intros [Hmm Hpd [Hb Hal] He H0 Hfree]. unfold lazy_init. rewrite H0. cbn [Z.eqb negb sysconf].
  destruct (PGP.sys_brk_ok pds (kmem r) (kproc r) _end Hmm Hpd Hb Hal) as (s' & p' & ret & E & Hmm' & _ & Hspec).
  unfold sys_brk. change (sysconf r _SC_PAGESIZE) with (r, 4096). cbn [mbind option_bind]. rewrite E. cbn [mbind option_bind].
  unfold PGP.brk_spec in Hspec. rewrite (proj2 (Z.eqb_neq _end 0)) in Hspec by lia.
  destruct (Z.eqb_spec ret 0) as [->|Hret]; [lia|].
  destruct Hspec as (Ecr & _ & Eret & Hal' & Hle & Hlt & _ & _ & Hmaps).
  assert (ret = ps_heap_end (kproc r)) as -> by (clear -Hlt Hle Hal Hal' He; zlia).
  rewrite u32_small by (unfold in_u32, KERN_OFF in *; lia).
  assert (Hlow : Z.land (ps_heap_end (kproc r)) (4096 - 1) = 0) by (change (4096 - 1) with (2 ^ 12 - 1); rewrite land_ones_mod by lia; exact Hal).
  rewrite Hlow. cbn [Z.eqb negb]. eexists. split; [done|]. cbn. split_and!; try done.
  intros pd va Hin Hva. apply Hmaps; [done..|]. right. intros [_ ?]. lia.
Qed.

(** What [sbrk] leaves of a break at a page boundary. *)
Lemma sbrk_grow pds r n :
  PGP.mm_ok pds (kmem r) -> cr3 (kproc r) ∈ pds -> theHeapEnd r = ps_heap_end (kproc r) ->
  4194304 <= theHeapEnd r <= KERN_OFF -> theHeapEnd r mod 4096 = 0 -> 0 < n < 2 ^ 28 ->
  exists r' p, sbrk r n = Some (r', p) /\ PGP.mm_ok pds (kmem r') /\ heapmem r' = heapmem r /\ cr3 (kproc r') = cr3 (kproc r) /\
    ((p = UINT_MAX /\ theErrNo r' = ENOMEM /\ PG.sys_brk (kmem r) (kproc r) (theHeapEnd r + n) = Some (kmem r', kproc r', 0)) \/
     (p = theHeapEnd r /\ theHeapEnd r' = ps_heap_end (kproc r') /\ p + n <= theHeapEnd r' <= KERN_OFF /\
      PGP.fresh_writable (cr3 (kproc r)) p (theHeapEnd r') (kmem r) (kmem r'))).
Proof.
  intros Hmm Hpd Hh Hb Hal Hn. unfold sbrk. rewrite (proj2 (Z.eqb_neq n 0)) by lia.
  rewrite u32_small by (unfold in_u32, KERN_OFF in *; lia).
  destruct (PGP.sys_brk_ok pds (kmem r) (kproc r) (theHeapEnd r + n) Hmm Hpd ltac:(lia) ltac:(congruence)) as (s' & p' & ret & E & Hmm' & _ & Hspec).
  unfold sys_brk. rewrite E. cbn [mbind option_bind]. unfold PGP.brk_spec in Hspec. rewrite (proj2 (Z.eqb_neq (theHeapEnd r + n) 0)) in Hspec by lia.
  destruct (Z.eqb_spec ret 0) as [->|Hret].
  - change (u32 0) with 0. rewrite (proj2 (Z.ltb_lt 0 _)) by lia. destruct Hspec as [-> _].
    eexists _, _. split; [done|]. cbn. split_and!; try done. by left.
  - destruct Hspec as (Ecr & _ & Eret & _ & Hle & _ & _ & Hfr & _).
    rewrite u32_small by (unfold in_u32, KERN_OFF in *; lia). rewrite (proj2 (Z.ltb_ge _ _)) by lia.
    eexists _, _. split; [done|]. cbn. split_and!; try done. right. split_and!; try done; [lia..|].
    rewrite Hh. exact Hfr.
Qed.
(** What the program may do with its areas. *)
Definition owns_memory (pds : list Z) (pd : Z) (s : mm) (va : Z) : Prop :=
  exists pa, PGP.walk (phys s) pd va = Some (pa, true, true) /\
    forall pd' va' pa' u w, pd' ∈ pds -> PGP.user_va va' -> PGP.walk (phys s) pd' va' = Some (pa', u, w) ->
      pa' / 4096 = pa / 4096 -> pd' = pd /\ va' / 4096 = va / 4096.

Lemma mapped_owned pds pd s va pa :
  PGP.mm_ok pds s -> pd ∈ pds -> PGP.user_va va -> PGP.walk (phys s) pd va = Some (pa, true, true) -> owns_memory pds pd s va.
Proof.
  intros [own Hwf] Hpd Hva Hw. exists pa. split; [done|]. intros pd' va' pa' u w Hpd' Hva' Hw' E.
  exact (PGP.walk_injective own pds s pd' va' pd va pa' pa u true w true Hwf Hpd' Hpd Hva' Hva Hw' Hw E).
Qed.

(** The kernel has no memory for the heap: the call that asks for it fails. *)
Definition kernel_refuses (r : runtime) (_end : Z) : Prop :=
  exists s p s' p', PG.sys_brk (kmem r) (kproc r) _end = Some (s, p, ps_heap_end (kproc r)) /\
    PG.sys_brk s p (ps_heap_end (kproc r) + 655360) = Some (s', p', 0).

Lemma heap_init_memory pds r _end :
  started pds r _end ->
  exists r1 h, heap_init r _end = Some (Started r1 h) /\ PGP.mm_ok pds (kmem r1) /\ cr3 (kproc r1) = cr3 (kproc r) /\
    ((theErrNo r1 = ENOMEM /\ kernel_refuses r _end /\ h = firstfit_new (heapmem r) UINT_MAX 655360) \/
     (theHeapEnd r1 = ps_heap_end (kproc r1) /\ ps_heap_end (kproc r) + 655360 <= theHeapEnd r1 <= KERN_OFF /\
      h = firstfit_new (heapmem r) (ps_heap_end (kproc r)) 655360 /\
      forall va, ps_heap_end (kproc r) <= va < ps_heap_end (kproc r) + 655360 -> owns_memory pds (cr3 (kproc r)) (kmem r1) va)).
Proof.
  intros Hst. unfold heap_init. change (sysconf r _SC_PAGESIZE) with (r, 4096). cbv iota beta zeta. change (u32 (4096 * 160)) with 655360.
  destruct (lazy_init_break pds r _end Hst) as (r0 & -> & Ebrk & Eh & Em & Ee & Hmm0 & Ec & Eb & Hw0). cbn [mbind option_bind].
  destruct Hst as [Hmm Hpd [Hb Hal] He H0 Hfree].
  destruct (sbrk_grow pds r0 655360) as (r1 & p & -> & Hmm1 & Em1 & Ec1 & Hcase); [done|congruence|congruence|lia|congruence|lia|].
  cbn [mbind option_bind]. assert (Hp : p <> 0) by (destruct Hcase as [[-> _]|[-> _]]; [done|lia]).
  rewrite (proj2 (Z.eqb_neq p 0) Hp). eexists _, _. split; [done|]. split; [done|]. split; [congruence|]. rewrite Em1, Em.
  rewrite Eh in Hcase. destruct Hcase as [(-> & He1 & Hno)|(-> & Hh1 & Hle & Hfr)]; [left; split; [done|]; split; [|done]; by exists (kmem r0), (kproc r0), (kmem r1), (kproc r1)|right].
  split_and!; [done|lia|lia|done|]. intros va Hva.
  assert (Huv : PGP.user_va va) by (unfold PGP.user_va; lia). rewrite Ec in Hfr.
  destruct (Hfr va ltac:(lia)) as [pa Hw]; [rewrite Hw0 by done; by apply Hfree|]. by eapply mapped_owned.
Qed.

(** C4: Before [main], [heap_init] asks the kernel for 640 KB behind the
    program.  If the kernel has the memory, then whatever sequence of [malloc],
    [free] and writes to its areas the program makes, each area it owns is 16-byte
    aligned and disjoint from the others, the words it wrote there are kept, and
    each byte of it is mapped for the program to read and write, in a frame that
    no other user page of any process is mapped to.  Otherwise the kernel's
    [sys_brk] failed and [errno] is [ENOMEM]. *)
Theorem user_heap_safe pds r _end :
  started pds r _end ->
  exists r1 h1, heap_init r _end = Some (Started r1 h1) /\
    (theErrNo r1 = ENOMEM /\ kernel_refuses r _end \/
     is_Some h1 /\ forall r2 L D, rtc prog_step (set_heap r1 h1, ∅, ∅) (r2, L, D) ->
       (forall h2, theHeap r2 = Some h2 -> firstfit_corruption h2 = Some 0 /\ forall a v, D !! a = Some v -> ld (FF.hmem h2) a = v) /\
       forall p n, L !! p = Some n ->
         p mod 16 = 0 /\ (forall q k, L !! q = Some k -> p <> q -> p + n <= q \/ q + k <= p) /\
         forall va, p <= va < p + n -> owns_memory pds (cr3 (kproc r2)) (kmem r2) va).
Proof.
  intros Hst. destruct (heap_init_memory pds r _end Hst) as (r1 & h1 & E & Hmm & Ec & Hcase). exists r1, h1. split; [done|].
  destruct Hcase as [(He & Hno & _)|(Hh & Hle & Eh & Hown)]; [by left|right].
  destruct Hst as [_ _ [Hb Hal] _ _ _].
  destruct (FFP.new_correct (heapmem r) (ps_heap_end (kproc r)) 655360) as (h0 & a & e & En & _); [lia|change FF.ALIGN with 16; zlia|unfold INT_MAX; lia|unfold KERN_OFF in *; lia|].
  unfold firstfit_new in Eh. rewrite En in Eh. subst h1. split; [by eexists|]. intros r2 L D Hr.
  destruct (prog_client _ _ Hr h0 eq_refl) as (h2 & Eh2 & Hr2 & Ek & Ep). simpl in Hr2, Eh2, Ek, Ep.
  apply (FFP.client_inv_reachable (ps_heap_end (kproc r)) (ps_heap_end (kproc r) + 655360)) in Hr2 as [Hinv Hd].
  2:{ eapply FFP.client_inv_new; [| | | |exact En]; [lia|change FF.ALIGN with 16; zlia|unfold INT_MAX; lia|unfold KERN_OFF in *; lia]. }
  2:{ by intros ? ? ?. }
  split.
  - intros h3 Eh3. rewrite Eh2 in Eh3. injection Eh3 as <-. pose proof Hinv as (_ & _ & body & e' & Hwf & _).
    split; [by eapply FFP.wf_no_corruption|]. intros x v Hx. by destruct (Hd x v Hx) as (? & ? & _ & _ & ?).
  - intros p n Hp. destruct (FFP.client_inv_areas _ _ _ _ Hinv p n Hp) as (H16 & Hlo & Hhi & Hdis).
    split; [exact H16|]. split; [exact Hdis|]. intros va Hva. rewrite Ek, Ep, Ec. apply Hown. change FF.ALLOC_SIZE with 20 in Hlo. lia.
Qed.

(** A process with its break at 8 MB on a machine with 1024 frames. *)
Definition demo_mm : mm := (pagedir_alloc (mk_mm (PM.mk_pmem 16 1024) ∅) 4096).1.
Definition demo_proc : proc_mem := mk_proc_mem 65536 3221225472 8388608.
Definition demo_rt : runtime := mk_rt 0 None 0 0 0 ∅ demo_mm demo_proc.

Lemma demo_started : started [65536] demo_rt 8388000.
Proof.
  assert (Hst : PGP.mm_step 4096 (mk_mm (PM.mk_pmem 16 1024) ∅, []) (demo_mm, [65536])).
  { apply PGP.step_pagedir; [vm_compute; done|reflexivity|done]. }
  assert (H0 : PGP.mm_start 4096 (mk_mm (PM.mk_pmem 16 1024) ∅)) by (unfold PGP.mm_start, PM.pmem_wf; simpl; lia).
  constructor; cbn [kmem kproc demo_rt cr3 demo_proc ps_heap_end theHeapEnd].
  - by destruct (PGP.mm_step_inv 4096 _ _ ltac:(lia) Hst (PGP.mm_start_inv _ _ H0)) as [_ H].
  - by apply list_elem_of_singleton.
  - unfold KERN_OFF. by split; [lia|].
  - lia.
  - done.
  - intros va Hva. unfold PGP.walk. assert (E : va / 4194304 = 2) by zlia. rewrite E.
    assert (Ez : ld32 (phys demo_mm) (65536 + 4 * 2) = 0) by (by vm_compute). by rewrite Ez.
Qed.
Definition demo_init_ok : bool :=
  match heap_init demo_rt 8388000 with
  | Some (Started r1 h1) => (theErrNo r1 =? 0) && match malloc (set_heap r1 h1) 20 with Some (_, p) => p =? 8388640 | None => false end
  | _ => false
  end.

Lemma user_heap_safe_witness :
  exists r1 h1 r2, heap_init demo_rt 8388000 = Some (Started r1 h1) /\ malloc (set_heap r1 h1) 20 = Some (r2, 8388640) /\
    forall va, 8388640 <= va < 8388660 -> owns_memory [65536] (cr3 (kproc r2)) (kmem r2) va.
Proof.
  assert (Hok : demo_init_ok = true) by (by vm_compute). unfold demo_init_ok in Hok.
  destruct (user_heap_safe [65536] demo_rt 8388000 demo_started) as (r1 & h1 & E & Hcase). rewrite E in Hok. apply andb_prop in Hok as [He Hm]. apply Z.eqb_eq in He.
  destruct (malloc (set_heap r1 h1) 20) as [[r2 p]|] eqn:Em; [|discriminate Hm]. apply Z.eqb_eq in Hm. subst p.
  exists r1, h1, r2. split; [exact E|]. split; [exact Em|]. clear E. destruct Hcase as [[Hn _]|[_ Hrun]]; [rewrite He in Hn; discriminate Hn|]. intros va Hva.
  destruct (Hrun r2 {[8388640 := 20]} ∅) as [_ Hl].
  { apply rtc_once. apply (prog_malloc (set_heap r1 h1) ∅ ∅ 20 r2 8388640); [lia|exact Em]. }
  destruct (Hl 8388640 20) as (_ & _ & Ho); [apply lookup_singleton_eq|]. apply Ho. exact Hva.
Defined.

(** ** Clearing *)

(** The words from [p] on that [zero_words] clears, all inside one area. *)
Lemma zero_words_client n : forall h L D p k a,
  L !! p = Some k -> p <= a -> a + 4 * Z.of_nat n <= p + k -> a mod 4 = 0 -> 0 <= a -> p + k < 2 ^ 32 ->
  exists D', rtc FFP.client_step (h, L, D) (FF.with_mem h (zero_words n (FF.hmem h) a), L, D') /\
    (forall x, a <= x < a + 4 * Z.of_nat n -> x mod 4 = 0 -> ld (zero_words n (FF.hmem h) a) x = 0) /\
    (forall x, x < a \/ a + 4 * Z.of_nat n <= x -> ld (zero_words n (FF.hmem h) a) x = ld (FF.hmem h) x).
Proof.
  induction n as [|n IH]; intros h L D p k a Hp Hle Hend H4 H0 H32.
  - exists D. split; [|split; [intros; lia|done]]. cbn [zero_words]. destruct h. apply rtc_refl.
  - cbn [zero_words]. rewrite u32_small by (unfold in_u32; lia).
    destruct (IH (FF.with_mem h (st (FF.hmem h) a 0)) L (<[a := 0]> D) p k (a + 4)) as (D' & Hr & Hz & Hsame); [done|lia|lia|zlia|lia|done|].
    exists D'. split; [|split].
    + eapply rtc_l; [apply (FFP.client_write h L D p k a 0); [done|lia|done]|]. exact Hr.
    + intros x Hx Hx4. destruct (decide (x = a)) as [->|Hne]; [|apply Hz; [zlia|done]].
      rewrite Hsame by lia. cbn [FF.hmem FF.with_mem]. apply ld_st_eq.
    + intros x Hx. rewrite Hsame by lia. cbn [FF.hmem FF.with_mem]. apply ld_st_ne. lia.
Qed.

Lemma zero_bytes_client h L D p n :
  L !! p = Some n -> 0 <= p -> p mod 4 = 0 -> 0 <= n -> p + n < 2 ^ 32 ->
  exists D', rtc FFP.client_step (h, L, D) (FF.with_mem h (zero_bytes (FF.hmem h) p n), L, D') /\
    forall x, p <= x -> x + 4 <= p + n -> x mod 4 = 0 -> ld (zero_bytes (FF.hmem h) p n) x = 0.
Proof.
  intros Hp H0 H4 Hn H32. unfold zero_bytes.
  destruct (zero_words_client (Z.to_nat (n / 4)) h L D p n p) as (D1 & Hr & Hz & Hs); [done|lia|zlia|done|lia|done|].
  rewrite Z2Nat.id in Hz by zlia. set (m1 := zero_words _ _ _) in *.
  rewrite u32_small by (unfold in_u32; zlia).
  destruct (Z.eqb_spec (n mod 4) 0) as [E|E].
  - exists D1. split; [done|]. intros x Hx Hxe Hx4. apply Hz; [zlia|done].
  - eexists. split.
    + eapply rtc_r; [exact Hr|]. apply (FFP.client_write (FF.with_mem h m1) L D1 p n (p + 4 * (n / 4)) _); [done|zlia|zlia].
    + intros x Hx Hxe Hx4. rewrite ld_st_ne by zlia. apply Hz; [zlia|done].
Qed.

(** On a heap that a client of the allocator left, [calloc] with a product
    below 2^31 that does not fail returns an area with zeros that is new to the
    client, and the heap is again one that a client left. *)
Theorem calloc_zeroes lo hi r h L D nmemb size r' p :
  theHeap r = Some h -> FFP.client_inv lo hi (h, L) -> 0 < nmemb * size <= INT_MAX ->
  calloc r nmemb size = Some (r', p) -> p <> 0 ->
  exists h' D', theHeap r' = Some h' /\ rtc FFP.client_step (h, L, D) (h', <[p := nmemb * size]> L, D') /\ L !! p = None /\
    forall x, p <= x -> x + 4 <= p + nmemb * size -> x mod 4 = 0 -> ld (FF.hmem h') x = 0.
Proof.
  intros Hh Hinv Hsz Hc Hp. unfold calloc in Hc. rewrite u32_small in Hc by (unfold in_u32, INT_MAX in *; lia). cbv zeta in Hc.
  destruct (malloc r (nmemb * size)) as [[r1 q]|] eqn:Em; [|done]. cbn [mbind option_bind] in Hc.
  destruct (malloc_heap _ _ _ _ Em) as (h0 & h1 & E0 & Ef & E1 & _). rewrite Hh in E0. injection E0 as <-. rewrite E1 in Hc. cbn [mbind option_bind] in Hc.
  injection Hc as <- ->. assert (Hstep : FFP.client_step (h, L, D) (h1, <[p := nmemb * size]> L, D)) by (apply FFP.client_alloc; [lia|done|done]).
  pose proof (FFP.client_inv_step lo hi (h, L, D) _ Hinv Hstep) as Hinv1. simpl in Hinv1.
  destruct (FFP.client_inv_areas _ _ _ _ Hinv1 p _ (lookup_insert_eq _ _ _)) as (H16 & Hlo & Hhi & _). change FF.ALIGN with 16 in H16.
  destruct Hinv1 as (El & Eh & body & e & Hwf & _). pose proof (FFP.wf_bounds _ _ _ Hwf) as (Hb0 & Hb1 & _). simpl in El, Eh, Hb0, Hb1. change FF.ALLOC_SIZE with 20 in Hlo.
  destruct (zero_bytes_client h1 (<[p := nmemb * size]> L) D p (nmemb * size)) as (D' & Hr & Hz); [apply lookup_insert_eq|lia|zlia|lia|lia|].
  eexists _, D'. split; [done|]. split; [by eapply rtc_l|]. split; [|done].
  eapply FFP.malloc_fresh; [exact Hinv| |exact Ef|done]. lia.
Qed.

(** ** What the library does not notice *)

(** When the kernel has no memory for the heap, [sbrk] returns -1, which is
    not the NULL that [heap_init] looks for: the program starts with a heap at
    the last byte of the address space. *)
Lemma heap_at_minus_one :
  match heap_init (mk_rt 0 None 0 0 0 ∅ (pagedir_alloc (mk_mm (PM.mk_pmem 16 64) ∅) 4096).1 demo_proc) 8388000 with
  | Some (Started r (Some h)) => (theErrNo r =? ENOMEM) && (FF.startmem h =? UINT_MAX)
  | _ => false
  end = true.
Proof. by vm_compute. Qed.

Definition demo_heap_rt (m : wmem) : runtime := mk_rt 0 (FF.firstfit_new m 4096 65536) 0 0 0 ∅ demo_mm demo_proc.

(** [calloc] does not look at the result of [malloc], and clears memory from
    address 0 on when there is none. *)
Lemma calloc_clears_null :
  match calloc (demo_heap_rt {[0 := 7; 69996 := 7]}) 1 70000 with
  | Some (r, p) => (p =? 0) && match theHeap r with Some h => (ld (FF.hmem h) 0 =? 0) && (ld (FF.hmem h) 69996 =? 0) | None => false end
  | None => false
  end = true.
Proof. by vm_compute. Qed.

(** The product of the two arguments may wrap: an array of 2^31 + 4 elements
    of two bytes gets an area of 8 bytes. *)
Lemma calloc_wraps : match calloc (demo_heap_rt ∅) 2147483652 2 with Some (r, p) => (p, option_map (fun h => FF.get_size (FF.hmem h) (p - 12)) (theHeap r)) | None => (0, None) end = (4128, Some 20).
Proof. by vm_compute. Qed.

End UHP.
