(* ===== verification/I8254x.v ===== *)
(** * The i8254x network card (src/dev/net_i8254x.c)

    Module [NIC]: the registers of the card, its two rings of descriptors in
    memory, set-up, sending, and the interrupt handler.

    What the card answers when a register is read is a parameter, given all
    accesses so far.  The memory is indexed by physical addresses; the kernel
    reaches it below [KERN_OFF] and, again, from [KERN_OFF] on.  [None] is the
    end of the patience with a card that does not get ready.  Logging is left
    out. *)

From S2P Require Import Prelude PMem Net Pci.
Import NT.

Module NIC.

Definition I8254X_CTRL : Z := 0.
Definition I8254X_STA : Z := 8.
Definition I8254X_EERD : Z := 20.
Definition I8254X_ICR : Z := 192.
Definition I8254X_IMS : Z := 208.
Definition I8254X_IMC : Z := 216.
Definition I8254X_RCTL : Z := 256.
Definition I8254X_TCTL : Z := 1024.
Definition I8254X_TIPG : Z := 1040.
Definition I8254X_RDBAL : Z := 10240.
Definition I8254X_RDBAH : Z := 10244.
Definition I8254X_RDLEN : Z := 10248.
Definition I8254X_RDH : Z := 10256.
Definition I8254X_RDT : Z := 10264.
Definition I8254X_RDTR : Z := 10272.
Definition I8254X_RADV : Z := 10284.
Definition I8254X_RSRPD : Z := 11264.
Definition I8254X_TDBAL : Z := 14336.
Definition I8254X_TDBAH : Z := 14340.
Definition I8254X_TDLEN : Z := 14344.
Definition I8254X_TDH : Z := 14352.
Definition I8254X_TDT : Z := 14360.
Definition I8254X_MTA : Z := 20992.
Definition CTRL_SLU : Z := 64.
Definition EERD_START : Z := 1.
Definition EERD_DONE : Z := 16.
Definition IM_LSC : Z := 4.
Definition IM_RXSEQ : Z := 8.
Definition IM_RXDMT0 : Z := 16.
Definition IM_RXO : Z := 64.
Definition IM_RXT0 : Z := 128.
Definition INTRMASK_OK : Z := Z.lor (Z.lor (Z.lor (Z.lor IM_RXT0 IM_RXDMT0) IM_LSC) IM_RXO) IM_RXSEQ.
Definition RCTL_EN : Z := 2.
Definition RCTL_BSIZE00 : Z := 0.
Definition RCTL_BSIZE01 : Z := 65536.
Definition RCTL_BSIZE10 : Z := 131072.
Definition RCTL_BSIZE11 : Z := 196608.
Definition RCTL_BSEX : Z := 33554432.
Definition RCTL_SECRC : Z := 67108864.
Definition TCTL_EN : Z := 2.
Definition TCTL_PSP : Z := 8.
Definition TCTL_COLD_FD : Z := 262144.
Definition TCTL_RTLC : Z := 16777216.
Definition ETH_BUFSZ : Z := 2048.
Definition NUM_DESCR_PAGES : Z := 3.
Definition DESC_SIZE : Z := 16.
Definition NUM_RX_DESCRIPTORS : Z := PAGE_BYTES * NUM_DESCR_PAGES / DESC_SIZE.
Definition NUM_TX_DESCRIPTORS : Z := PAGE_BYTES * NUM_DESCR_PAGES / DESC_SIZE.
Definition ENXIO : Z := 6.
Definition EAGAIN : Z := 11.
Definition ENOMEM : Z := 12.
Definition EINVAL : Z := 22.

(** The offsets in a descriptor. *)
Definition d_length : Z := 8.
Definition d_cmd : Z := 11.
Definition d_sta : Z := 12.

(** Accesses to the registers, the last one first. *)
Inductive access := Rd (offset : Z) | Wr (offset val : Z).

Record i8254x_nic := mk_nic {
  hwid : Z; mmio_addr : Z; mac_addr : list Z; intr : Z; rxda : Z; rx_tail : Z; txda : Z; tx_tail : Z }.

(** The card with the frames, the memory, the accesses to its registers and the
    interrupt lines it got a handler for. *)
Record state := mk_st { nic : i8254x_nic; pm : PM.pmem; mem : bmem; io : list access; lines : list Z }.

Definition theI8254NIC : i8254x_nic := mk_nic 0 0 (replicate 6 0) 255 0 0 0 0.

Definition set_nic (s : state) (n : i8254x_nic) : state := mk_st n (pm s) (mem s) (io s) (lines s).
Definition set_pm (s : state) (p : PM.pmem) : state := mk_st (nic s) p (mem s) (io s) (lines s).
Definition set_mem (s : state) (m : bmem) : state := mk_st (nic s) (pm s) m (io s) (lines s).
Definition set_mac (n : i8254x_nic) (m : list Z) : i8254x_nic := mk_nic (hwid n) (mmio_addr n) m (intr n) (rxda n) (rx_tail n) (txda n) (tx_tail n).
Definition set_rx (n : i8254x_nic) (da tail : Z) : i8254x_nic := mk_nic (hwid n) (mmio_addr n) (mac_addr n) (intr n) da tail (txda n) (tx_tail n).
Definition set_tx (n : i8254x_nic) (da tail : Z) : i8254x_nic := mk_nic (hwid n) (mmio_addr n) (mac_addr n) (intr n) (rxda n) (rx_tail n) da tail.

(** The physical address behind a kernel address. *)
Definition phys (va : Z) : Z := if va <? KERN_OFF then va else va - KERN_OFF.

Section Card.
Variable answer : list access -> Z -> Z.

Definition mmio_read (s : state) (offset : Z) : state * Z :=
  (mk_st (nic s) (pm s) (mem s) (Rd offset :: io s) (lines s), answer (io s) offset).
Definition mmio_write (s : state) (offset val : Z) : state :=
  mk_st (nic s) (pm s) (mem s) (Wr offset val :: io s) (lines s).

(** ** Set-up *)

Fixpoint eerd_loop (fuel : nat) (s : state) : option (state * Z) :=
  match fuel with
  | O => None
  | S fuel =>
      let '(s, tmp) := mmio_read s I8254X_EERD in
      if Z.land tmp EERD_DONE =? 0 then eerd_loop fuel s else Some (s, tmp)
  end.

Definition net_i8254x_read_eeprom (fuel : nat) (s : state) (addr : Z) : option (state * Z) :=
  let s := mmio_write s I8254X_EERD (Z.shiftl addr 8) in
  let s := mmio_write s I8254X_EERD (Z.lor EERD_START (Z.shiftl addr 8)) in
  '(s, tmp) ← eerd_loop fuel s;
  Some (s, u16 (Z.land (Z.shiftr tmp 16) 65535)).

Definition i8254x_read_mac_addr (fuel : nat) (s : state) : option state :=
  '(s, mac0) ← net_i8254x_read_eeprom fuel s 0;
  '(s, mac1) ← net_i8254x_read_eeprom fuel s 1;
  '(s, mac2) ← net_i8254x_read_eeprom fuel s 2;
  let lo w := Z.land w 255 in
  let hi w := u8 (Z.shiftr w 8) in
  Some (set_nic s (set_mac (nic s) [lo mac0; hi mac0; lo mac1; hi mac1; lo mac2; hi mac2])).

Definition i8254x_mta_init (s : state) : state :=
  foldl (fun s i => mmio_write s (I8254X_MTA + 4 * i) 0) s (seqZ 0 128).

(** The descriptors from [i] on: the address of the buffer and no status. *)
Fixpoint rx_fill (n : nat) (m : bmem) (da rxbufs i : Z) : bmem :=
  match n with
  | O => m
  | S n =>
      let d := phys (da + DESC_SIZE * i) in
      let m := st32 m d (PM.__pa (u32 (rxbufs + i * ETH_BUFSZ))) in
      let m := st32 m (d + 4) 0 in
      let m := stb m (d + d_sta) 0 in
      rx_fill n m da rxbufs (i + 1)
  end.

(** The chain of tests on [ETH_BUFSZ]. *)
Definition bsize_bits (bufsz : Z) : option Z :=
  if bufsz <? 256 then Some RCTL_BSIZE11
  else if bufsz <? 512 then Some RCTL_BSIZE10
  else if bufsz <? 1024 then Some RCTL_BSIZE01
  else if bufsz <? 2048 then Some RCTL_BSIZE00
  else if bufsz <? 4096 then Some (Z.lor RCTL_BSIZE11 RCTL_BSEX)
  else if bufsz <? 8192 then Some (Z.lor RCTL_BSIZE10 RCTL_BSEX)
  else if bufsz <? 16384 then Some (Z.lor RCTL_BSIZE01 RCTL_BSEX)
  else None.

Definition i8254x_rx_init (s : state) : state * Z :=
  let '(p, da) := PM.kmem_alloc (pm s) NUM_DESCR_PAGES in
  let s := set_pm s p in
  if da =? 0 then (s, ENOMEM)
  else
    let s := set_nic s (set_rx (nic s) da (rx_tail (nic s))) in
    let n_rxbuf_pages := NUM_RX_DESCRIPTORS * ETH_BUFSZ / PAGE_BYTES in
    let n_rxbuf_pages := if NUM_RX_DESCRIPTORS * ETH_BUFSZ mod PAGE_BYTES =? 0 then n_rxbuf_pages else n_rxbuf_pages + 1 in
    let '(p, rxbufs) := PM.pmem_alloc (pm s) n_rxbuf_pages in
    let s := set_pm s p in
    if rxbufs =? 0 then (s, ENOMEM)
    else
      let s := set_mem s (rx_fill (Z.to_nat NUM_RX_DESCRIPTORS) (mem s) da rxbufs 0) in
      let s := mmio_write s I8254X_RDBAL da in
      let s := mmio_write s I8254X_RDBAH 0 in
      let s := mmio_write s I8254X_RDLEN (NUM_RX_DESCRIPTORS * DESC_SIZE) in
      let s := mmio_write s I8254X_RDH 0 in
      let s := mmio_write s I8254X_RDT NUM_RX_DESCRIPTORS in
      let s := set_nic s (set_rx (nic s) da 0) in
      match bsize_bits ETH_BUFSZ with
      | None => (s, EINVAL)
      | Some bsize =>
          let s := mmio_write s I8254X_RCTL (Z.lor (Z.lor RCTL_EN RCTL_SECRC) bsize) in
          let s := mmio_write s I8254X_RDTR 0 in
          let s := mmio_write s I8254X_RADV 0 in
          (mmio_write s I8254X_RSRPD 0, 0)
      end.

Fixpoint tx_fill (n : nat) (m : bmem) (da i : Z) : bmem :=
  match n with
  | O => m
  | S n =>
      let d := phys (da + DESC_SIZE * i) in
      let m := st32 m d 0 in
      let m := st32 m (d + 4) 0 in
      let m := stb m (d + d_sta) 0 in
      let m := stb m (d + d_cmd) 0 in
      tx_fill n m da (i + 1)
  end.

Definition i8254x_tx_init (s : state) : state * Z :=
  let '(p, da) := PM.pmem_alloc (pm s) NUM_DESCR_PAGES in
  let s := set_pm s p in
  if da =? 0 then (s, ENOMEM)
  else
    let s := set_mem s (tx_fill (Z.to_nat NUM_TX_DESCRIPTORS) (mem s) da 0) in
    let s := mmio_write s I8254X_TDBAL da in
    let s := mmio_write s I8254X_TDBAH 0 in
    let s := mmio_write s I8254X_TDLEN (NUM_TX_DESCRIPTORS * DESC_SIZE) in
    let s := mmio_write s I8254X_TDH 0 in
    let s := mmio_write s I8254X_TDT 0 in
    let s := set_nic s (set_tx (nic s) da 0) in
    let s := mmio_write s I8254X_TCTL (Z.lor (Z.lor (Z.lor TCTL_EN TCTL_PSP) TCTL_COLD_FD) TCTL_RTLC) in
    (mmio_write s I8254X_TIPG 6299658, 0).

(** [not_mmio] is the last bit of the union, so the highest one of the word. *)
Definition bar_not_mmio (bar : Z) : Z := Z.shiftr bar 31.

Definition net_i8254x_init (fuel : nat) (s : state) (conf : PCI.pci_config_t) : option (state * Z) :=
  let bar0 := PCI.word conf 4 in
  if bar0 =? 0 then Some (s, - ENXIO)
  else if bar_not_mmio bar0 =? 0 then Some (s, - EINVAL)
  else if negb (mmio_addr (nic s) =? 0) then Some (s, - EAGAIN)
  else
    let n := nic s in
    let id := Z.lor (u32 (Z.shiftl (Z.land (PCI.word conf 0) 65535) 16)) (PCI.pci_device conf) in
    let s := set_nic s (mk_nic id (Z.land bar0 4294967280) (mac_addr n) (PCI.pci_interrupt_line conf) (rxda n) (rx_tail n) (txda n) (tx_tail n)) in
    s ← i8254x_read_mac_addr fuel s;
    let s := mk_st (nic s) (pm s) (mem s) (io s) (intr (nic s) :: lines s) in
    let s := i8254x_mta_init s in
    let '(s, ctl) := mmio_read s I8254X_CTRL in
    let s := mmio_write s I8254X_CTRL (Z.lor ctl CTRL_SLU) in
    let s := mmio_write s I8254X_IMC 4294967295 in
    let '(s, _) := mmio_read s I8254X_ICR in
    let s := mmio_write s I8254X_IMS (Z.lor 128512 INTRMASK_OK) in
    let '(s, _) := mmio_read s I8254X_ICR in
    let '(s, ret) := i8254x_rx_init s in
    if negb (ret =? 0) then Some (s, ret)
    else
      let '(s, ret) := i8254x_tx_init s in
      if negb (ret =? 0) then Some (s, ret) else Some (s, 0).

(** ** Receiving *)

Definition rx_desc (s : state) (i : Z) : Z := phys (rxda (nic s) + DESC_SIZE * i).

(** The loop of [i8254x_recv]: every packet is dropped. *)
Fixpoint recv_loop (fuel : nat) (s : state) : option state :=
  let rxdescr := rx_desc s (rx_tail (nic s)) in
  if negb (Z.testbit (ldb (mem s) (rxdescr + d_sta)) 0) then Some s
  else match fuel with
  | O => None
  | S fuel =>
      let s := set_mem s (stb (mem s) (rxdescr + d_sta) 0) in
      let tail := u16 ((rx_tail (nic s) + 1) mod NUM_RX_DESCRIPTORS) in
      let s := set_nic s (set_rx (nic s) (rxda (nic s)) tail) in
      recv_loop fuel (mmio_write s I8254X_RDT tail)
  end.

(** A ring that the card does not refill meanwhile is empty after one turn. *)
Definition i8254x_recv (s : state) : option state := recv_loop (Z.to_nat NUM_RX_DESCRIPTORS) s.

Definition i8254x_irq (s : state) : option state :=
  let '(s, icr) := mmio_read s I8254X_ICR in
  let '(s, icr) :=
    if negb (Z.land icr IM_LSC =? 0) then
      let '(s, ctrl) := mmio_read s I8254X_CTRL in
      let s := mmio_write s I8254X_CTRL (Z.lor ctrl CTRL_SLU) in
      let '(s, _) := mmio_read s I8254X_STA in
      (s, Z.land icr (Z.lnot IM_LSC))
    else (s, icr) in
  let '(s, icr) :=
    if negb (Z.land icr IM_RXDMT0 =? 0) || negb (Z.land icr IM_RXO =? 0) then
      let '(s, _) := mmio_read s I8254X_RDH in
      (s, Z.land icr (Z.lnot (Z.lor IM_RXDMT0 IM_RXO)))
    else (s, icr) in
  s ← (if negb (Z.land icr IM_RXT0 =? 0) then i8254x_recv s else Some s);
  let '(s, _) := mmio_read s I8254X_ICR in Some s.

(** ** Sending *)

(** The descriptor is filled and the tail moved; then the processor waits for
    a status, each turn seeing what the card has written. *)
Definition send_start (s : state) (pkt pktlen : Z) : state :=
  let d := phys (txda (nic s) + DESC_SIZE * tx_tail (nic s)) in
  let m := st32 (mem s) d pkt in
  let m := st32 m (d + 4) 0 in
  let m := st16 m (d + d_length) pktlen in
  let s := set_mem s (stb m (d + d_cmd) 14) in
  let tail := u16 ((tx_tail (nic s) + 1) mod NUM_TX_DESCRIPTORS) in
  mmio_write (set_nic s (set_tx (nic s) (txda (nic s)) tail)) I8254X_TDT tail.

Fixpoint send_wait (evs : list (bmem -> bmem)) (s : state) (oldtail : Z) : option state :=
  if negb (Z.land (ldb (mem s) (phys (txda (nic s) + DESC_SIZE * oldtail) + d_sta)) 15 =? 0) then Some s
  else match evs with
  | [] => None
  | e :: evs => send_wait evs (set_mem s (e (mem s))) oldtail
  end.

Definition i8254x_send (evs : list (bmem -> bmem)) (s : state) (pkt pktlen : Z) : option state :=
  let oldtail := tx_tail (nic s) in
  send_wait evs (send_start s pkt pktlen) oldtail.

End Card.
End NIC.
