(* ===== verification/I8254xProofs.v ===== *)
(** * The i8254x network card: correctness

    Module [NICP]: the interrupt handler empties the receive ring in one turn,
    sending fills one descriptor and moves the tail, and what the set-up tells
    the card, with the places where card and driver disagree. *)

From S2P Require Import Prelude PMem Net NetProofs Pci I8254x.
Import NIC.

Module NICP.

Abbreviation N := 768.

(** ** Receiving *)

(** The ring lies on one side of [KERN_OFF]; the tail is inside it. *)
Record ring_ok (s : state) : Prop := {
  ring_tail : 0 <= rx_tail (nic s) < N;
  ring_side : 0 <= rxda (nic s) /\ (rxda (nic s) + 16 * N <= KERN_OFF \/ KERN_OFF <= rxda (nic s)) }.

Definition base (s : state) : Z := phys (rxda (nic s)).

Lemma rx_desc_at s i : ring_ok s -> 0 <= i < N -> rx_desc s i = base s + 16 * i.
Proof.
  intros [_ [H0 Hs]] Hi. unfold rx_desc, base, phys, DESC_SIZE.
  destruct (Z.ltb_spec (rxda (nic s) + 16 * i) KERN_OFF), (Z.ltb_spec (rxda (nic s)) KERN_OFF); lia.
Qed.

(** The status byte of a descriptor. *)
Definition sta (s : state) (i : Z) : Z := ldb (mem s) (base s + 16 * i + 12).
Definition done_at (s : state) (i : Z) : bool := Z.testbit (sta s i) 0.

(** What [k] turns of the loop do to a ring: the descriptors they went over are
    given back, the tail moves behind them and the card is told each time. *)
Record drained (s s' : state) (k : Z) : Prop := {
  dr_tail : rx_tail (nic s') = (rx_tail (nic s) + k) mod N;
  dr_nic : set_rx (nic s') 0 0 = set_rx (nic s) 0 0 /\ rxda (nic s') = rxda (nic s);
  dr_cleared : forall j, 0 <= j < k -> sta s' ((rx_tail (nic s) + j) mod N) = 0;
  dr_rest : forall a, (forall j, 0 <= j < k -> a <> base s + 16 * ((rx_tail (nic s) + j) mod N) + 12) -> ldb (mem s') a = ldb (mem s) a;
  dr_told : io s' = rev ((fun j => Wr I8254X_RDT ((rx_tail (nic s) + j + 1) mod N)) <$> seqZ 0 k) ++ io s;
  dr_other : pm s' = pm s /\ lines s' = lines s }.

Lemma drained_refl s : ring_ok s -> drained s s 0.
Proof. intros [Ht _]. constructor; try done; try lia. rewrite Z.add_0_r, Z.mod_small; [done|lia]. Qed.

(** One turn. *)
Definition turn (s : state) : state :=
  let s1 := set_mem s (stb (mem s) (rx_desc s (rx_tail (nic s)) + d_sta) 0) in
  let tail := u16 ((rx_tail (nic s1) + 1) mod NUM_RX_DESCRIPTORS) in
  mmio_write (set_nic s1 (set_rx (nic s1) (rxda (nic s1)) tail)) I8254X_RDT tail.

Lemma recv_loop_turn fuel s :
  ring_ok s -> recv_loop fuel s = if done_at s (rx_tail (nic s)) then match fuel with O => None | S fuel => recv_loop fuel (turn s) end else Some s.
Proof.
  intros Hr. unfold done_at, sta. rewrite <- rx_desc_at by (done || apply Hr).
  destruct fuel; cbn [recv_loop]; by destruct (Z.testbit _ 0).
Qed.

Lemma turn_tail s : ring_ok s -> rx_tail (nic (turn s)) = (rx_tail (nic s) + 1) mod N.
Proof. intros [Ht _]. cbn. change NUM_RX_DESCRIPTORS with N. apply u16_small. unfold in_u16. zlia. Qed.

Lemma turn_ok s : ring_ok s -> ring_ok (turn s).
Proof. intros Hr. constructor; [rewrite turn_tail by done; zlia|]. apply Hr. Qed.

Lemma turn_mem s a : ring_ok s -> ldb (mem (turn s)) a = if base s + 16 * rx_tail (nic s) + 12 =? a then 0 else ldb (mem s) a.
Proof. intros Hr. cbn. rewrite ldb_stb. rewrite rx_desc_at by (done || apply Hr). done. Qed.

Lemma mod_turn t j : (t + 1 + j) mod N = ((t + 1) mod N + j) mod N.
Proof. rewrite Zplus_mod_idemp_l. done. Qed.

Lemma drained_turn s s' k : ring_ok s -> 0 <= k -> drained (turn s) s' k -> drained s s' (k + 1).
Proof.
  intros Hr Hk [Ht [Hn Hd] Hc Hm Ho Hx]. pose proof (turn_tail s Hr) as Et. set (t := rx_tail (nic s)) in *.
  assert (Eb : base (turn s) = base s) by done. rewrite Et in *.
  assert (Esh : forall j, ((t + 1) mod N + j) mod N = (t + (j + 1)) mod N) by (intros j; rewrite <- mod_turn; f_equal; lia).
  constructor.
  - by rewrite Ht, Esh.
  - split; [rewrite Hn; done|done].
  - intros j Hj. destruct (decide (j = 0)) as [->|Hj0].
    + rewrite Z.add_0_r, Z.mod_small by apply Hr. unfold sta. assert (Eb' : base s' = base s) by (unfold base; by rewrite Hd). rewrite Eb'.
      assert (Ht0 : 0 <= t < N) by apply Hr. destruct (decide (N - 1 < k)) as [Hfull|Hno].
      * assert (Ej : ((t + 1) mod N + (N - 1)) mod N = t) by (rewrite Esh; zlia).
        specialize (Hc (N - 1) ltac:(lia)). rewrite Ej in Hc. unfold sta in Hc. by rewrite Eb' in Hc.
      * rewrite Hm; [rewrite turn_mem by done; fold t; by rewrite Z.eqb_refl|]. intros j Hj'. rewrite Esh, Eb. zlia.
    + specialize (Hc (j - 1) ltac:(lia)). rewrite Esh in Hc. by replace (t + (j - 1 + 1)) with (t + j) in Hc by lia.
  - intros a Ha. rewrite Hm.
    + rewrite turn_mem by done. fold t. destruct (Z.eqb_spec (base s + 16 * t + 12) a) as [E|]; [|done].
      exfalso. apply (Ha 0); [lia|]. rewrite Z.add_0_r, Z.mod_small by apply Hr. lia.
    + intros j Hj Ea. rewrite Esh, Eb in Ea. apply (Ha (j + 1)); [lia|done].
  - rewrite Ho. rewrite (seqZ_cons 0 (k + 1)) by lia. replace (Z.pred (k + 1)) with k by lia. cbn [fmap list_fmap rev]. rewrite <- app_assoc. cbn [app]. f_equal.
    + f_equal. apply list_eq. intros i. rewrite !list_lookup_fmap. destruct (decide (Z.of_nat i < k)) as [Hi|Hi].
      * rewrite !lookup_seqZ_lt by lia. cbn [fmap option_fmap option_map]. do 2 f_equal. rewrite <- Z.add_assoc, Zplus_mod_idemp_l. f_equal. lia.
      * rewrite !lookup_seqZ_ge by lia. done.
    + f_equal. change (io (turn s)) with (Wr I8254X_RDT (rx_tail (nic (turn s))) :: io s). rewrite Et. f_equal. f_equal. f_equal. lia.
  - exact Hx.
Qed.
(** When the [c] descriptors behind the tail are given back already, the loop
    ends within the other [N - c]. *)
Lemma recv_loop_drains fuel : forall s c,
  ring_ok s -> 0 <= c -> Z.of_nat fuel + c = N -> (forall j, 1 <= j <= c -> sta s ((rx_tail (nic s) - j) mod N) = 0) ->
  exists k s', recv_loop fuel s = Some s' /\ 0 <= k <= Z.of_nat fuel /\ drained s s' k /\ done_at s' (rx_tail (nic s')) = false /\
    (forall j, 0 <= j < k -> done_at s ((rx_tail (nic s) + j) mod N) = true).
Proof.
  induction fuel as [|fuel IH]; intros s c Hr Hc0 Hc Hz; rewrite recv_loop_turn by done; pose proof (ring_tail s Hr) as Ht.
  all: destruct (done_at s (rx_tail (nic s))) eqn:Ed.
  - exfalso. specialize (Hz N ltac:(lia)). replace ((rx_tail (nic s) - N) mod N) with (rx_tail (nic s)) in Hz by zlia.
    unfold done_at in Ed. by rewrite Hz in Ed.
  - exists 0, s. split; [done|]. split; [lia|]. split; [by apply drained_refl|]. split; [done|intros; lia].
  - assert (Hz' : forall j, 1 <= j <= c + 1 -> sta (turn s) ((rx_tail (nic (turn s)) - j) mod N) = 0).
    { intros j Hj. rewrite turn_tail, Zminus_mod_idemp_l by done. unfold sta. rewrite turn_mem by done. change (base (turn s)) with (base s).
      destruct (Z.eqb_spec (base s + 16 * rx_tail (nic s) + 12) (base s + 16 * ((rx_tail (nic s) + 1 - j) mod N) + 12)) as [E|E]; [done|]. replace (rx_tail (nic s) + 1 - j) with (rx_tail (nic s) - (j - 1)) by lia.
      destruct (decide (j = 1)) as [->|]; [|apply Hz; lia].
      exfalso. replace ((rx_tail (nic s) + 1 - 1) mod N) with (rx_tail (nic s)) in E by zlia. lia. }
    destruct (IH (turn s) (c + 1) (turn_ok s Hr) ltac:(lia) ltac:(lia) Hz') as (k & s' & E & Hk & Hd & Hn & Hall).
    exists (k + 1), s'. split; [done|]. split; [lia|]. split; [apply drained_turn; [done|lia|done]|]. split; [done|].
    intros j Hj. destruct (decide (j = 0)) as [->|Hj0]; [by rewrite Z.add_0_r, Z.mod_small|].
    specialize (Hall (j - 1) ltac:(lia)). rewrite turn_tail, Zplus_mod_idemp_l in Hall by done. replace (rx_tail (nic s) + 1 + (j - 1)) with (rx_tail (nic s) + j) in Hall by lia.
    unfold done_at, sta in Hall |- *. rewrite turn_mem in Hall by done. change (base (turn s)) with (base s) in Hall. destruct (_ =? _) in Hall; [discriminate Hall|exact Hall].
  - exists 0, s. split; [done|]. split; [lia|]. split; [by apply drained_refl|]. split; [done|intros; lia].
Qed.

(** C36: [i8254x_recv] terminates on every ring, when the card does not change
    memory during the call.  It goes over the descriptors that the card is done
    with, from the tail on and up to the first one that it is not done with:
    these, and no other byte of memory, are given back, the tail is behind them,
    and the card is told the tail after each. *)
Theorem recv_drains s :
  ring_ok s ->
  exists k s', i8254x_recv s = Some s' /\ 0 <= k <= N /\ drained s s' k /\ done_at s' (rx_tail (nic s')) = false /\
    (forall j, 0 <= j < k -> done_at s ((rx_tail (nic s) + j) mod N) = true) /\
    (k < N -> done_at s ((rx_tail (nic s) + k) mod N) = false).
Proof.
  intros Hr. destruct (recv_loop_drains (Z.to_nat N) s 0 Hr ltac:(lia) ltac:(lia) ltac:(intros; lia)) as (k & s' & E & Hk & Hd & Hn & Hall).
  rewrite Z2Nat.id in Hk by lia. exists k, s'. split; [exact E|]. split_and!; try done; try lia.
  intros HkN. destruct Hd as [Ht [_ Hda] Hc Hm _ _]. rewrite Ht in Hn. unfold done_at, sta in *.
  assert (Eb : base s' = base s) by (unfold base; by rewrite Hda). rewrite Eb in Hn.
  rewrite Hm in Hn; [done|]. intros j Hj Ej.
  assert (Ejk : (rx_tail (nic s) + k) mod N = (rx_tail (nic s) + j) mod N) by lia.
  clear -Ejk Hj HkN. zlia.
Qed.

Definition demo_ring : state :=
  mk_st (mk_nic 0 4273733632 [] 11 1048576 766 0 0) (PM.mk_pmem 300 1000) (stb (stb (stb ∅ (1048576 + 16 * 766 + 12) 3) (1048576 + 16 * 767 + 12) 1) (1048576 + 12) 3) [] [].

Lemma recv_drains_witness :
  exists s', i8254x_recv demo_ring = Some s' /\ rx_tail (nic s') = 1 /\ drained demo_ring s' 3.
Proof.
  destruct (recv_drains demo_ring) as (k & s' & E & Hk & Hd & _ & Hall & Hend).
  { constructor; unfold KERN_OFF; simpl; lia. }
  assert (k = 3) as ->.
  { destruct (decide (k < 3)) as [H|H]; [specialize (Hend ltac:(lia)); assert (k = 0 \/ k = 1 \/ k = 2) as [ -> | [ -> | -> ] ] by lia; vm_compute in Hend; discriminate Hend|].
    destruct (decide (3 < k)) as [H2|]; [|lia]. specialize (Hall 3 ltac:(lia)). vm_compute in Hall. discriminate Hall. }
  exists s'. split; [exact E|]. split; [rewrite (dr_tail _ _ _ Hd); reflexivity|exact Hd].
Defined.

(** ** Sending *)

(** The descriptor at the tail gets the packet; no other is touched, and the
    card is told the new tail. *)
Lemma send_start_ok s pkt len :
  0 <= tx_tail (nic s) < N -> 0 <= txda (nic s) -> txda (nic s) + 16 * N <= KERN_OFF -> in_u32 pkt -> in_u16 len ->
  let d := txda (nic s) + 16 * tx_tail (nic s) in let s' := send_start s pkt len in
  ld32 (mem s') d = pkt /\ ld32 (mem s') (d + 4) = 0 /\ NT.ld16 (mem s') (d + 8) = len /\ ldb (mem s') (d + 11) = 14 /\
  ldb (mem s') (d + 12) = ldb (mem s) (d + 12) /\ (forall a, a < d \/ d + 12 <= a -> ldb (mem s') a = ldb (mem s) a) /\
  tx_tail (nic s') = (tx_tail (nic s) + 1) mod N /\ io s' = Wr I8254X_TDT ((tx_tail (nic s) + 1) mod N) :: io s.
Proof.
  intros Ht H0 Hk Hp Hl d. assert (Ed : phys (txda (nic s) + DESC_SIZE * tx_tail (nic s)) = d).
  { unfold phys, DESC_SIZE. rewrite (proj2 (Z.ltb_lt _ _)) by lia. done. }
  unfold send_start. cbv zeta. rewrite Ed. unfold d_length, d_cmd. cbn. change NUM_TX_DESCRIPTORS with N. rewrite u16_small by (unfold in_u16; zlia).
  set (m1 := st32 (mem s) d pkt). set (m2 := st32 m1 (d + 4) 0). set (m3 := NT.st16 m2 (d + 8) len). set (m4 := stb m3 (d + 11) 14).
  assert (H4 : forall a, a <> d + 11 -> ldb m4 a = ldb m3 a) by (intros a Ha; unfold m4; rewrite ldb_stb; by rewrite (proj2 (Z.eqb_neq _ _)) by lia).
  assert (H3 : forall a, a < d + 8 \/ d + 10 <= a -> ldb m3 a = ldb m2 a) by (intros a Ha; unfold m3; apply NTP.ldb_st16_ne; lia).
  assert (H2 : forall a, a < d + 4 \/ d + 8 <= a -> ldb m2 a = ldb m1 a) by (intros a Ha; unfold m2; apply ldb_st32_ne; lia).
  split_and!; try done.
  - rewrite <- (ld32_st32_eq (mem s) d pkt Hp). unfold ld32. by rewrite !H4, !H3, !H2 by lia.
  - rewrite <- (ld32_st32_eq m1 (d + 4) 0) by (unfold in_u32; lia). unfold ld32. by rewrite !H4, !H3 by lia.
  - unfold NT.ld16. rewrite !H4 by lia. unfold m3, NT.st16. rewrite !ldb_stb. repeat (case_if; try lia). unfold in_u16 in Hl. unfold u8. zlia.
  - unfold m4. rewrite ldb_stb. by rewrite Z.eqb_refl.
  - rewrite H4, H3, H2 by lia. unfold m1. apply ldb_st32_ne. lia.
  - intros a Ha. rewrite H4, H3, H2 by lia. unfold m1. apply ldb_st32_ne. lia.
Qed.

(** The status of a descriptor is not reset before it is used again: once the
    ring has gone round, [i8254x_send] returns before the card has read the
    packet. *)
Lemma send_returns_early s pkt len :
  0 <= tx_tail (nic s) < N -> 0 <= txda (nic s) -> txda (nic s) + 16 * N <= KERN_OFF -> in_u32 pkt -> in_u16 len ->
  Z.land (ldb (mem s) (txda (nic s) + 16 * tx_tail (nic s) + 12)) 15 <> 0 -> i8254x_send [] s pkt len = Some (send_start s pkt len).
Proof.
  intros Ht H0 Hk Hp Hl Hs. destruct (send_start_ok s pkt len Ht H0 Hk Hp Hl) as (_ & _ & _ & _ & E & _).
  unfold i8254x_send. cbn [send_wait]. change (txda (nic (send_start s pkt len))) with (txda (nic s)).
  unfold phys, DESC_SIZE, d_sta. rewrite (proj2 (Z.ltb_lt (txda (nic s) + 16 * tx_tail (nic s)) _)) by lia. rewrite E.
  by rewrite (proj2 (Z.eqb_neq _ 0) Hs).
Qed.

(** ** Set-up: where card and driver disagree *)

(** The size of the buffers that the card is told is 4 KB; they are 2 KB apart. *)
Lemma buffers_too_small : bsize_bits ETH_BUFSZ = Some (Z.lor RCTL_BSIZE11 RCTL_BSEX) /\ ETH_BUFSZ < 4096.
Proof. by vm_compute. Qed.

(** A memory BAR below 2 GB is refused as if it was a port: the bit looked at
    is the highest one of the address. *)
Lemma low_bar_refused answer fuel s conf : 0 < PCI.word conf 4 < 2 ^ 31 -> net_i8254x_init answer fuel s conf = Some (s, - EINVAL).
Proof.
  intros Hb. unfold net_i8254x_init, bar_not_mmio. rewrite (proj2 (Z.eqb_neq _ 0)) by lia.
  rewrite Z.shiftr_div_pow2, Z.div_small by lia. done.
Qed.

(** The card, which sees physical addresses, gets the kernel's address of the
    receive ring, and the addresses of the buffers are off by 1 GB. *)
Lemma rx_addresses_wrong :
  let s0 := mk_st (mk_nic 0 4273733632 [] 11 0 0 0 0) (PM.mk_pmem 300 2000) ∅ [] [] in
  let '(s, ret) := i8254x_rx_init s0 in
  ret = 0 /\ In (Wr I8254X_RDBAL (KERN_OFF + 300 * 4096)) (io s) /\ ld32 (mem s) (300 * 4096) = 303 * 4096 + 2 ^ 30.
Proof. vm_compute. split; [done|]. split; [|done]. tauto. Qed.


End NICP.
