(* ===== verification/Kshell.v ===== *)
(** * The kernel shell (src/core/kshell.c)

    Module [KS]: reading a line, splitting it, finding its command, the numbers
    and addresses among the arguments, and the commands that change the state of
    the kernel: files, the heap, the console, ports and the network.

    Strings are in one memory [s_mem]; the addresses of the constants, of the
    buffers and of the prompt are parameters, and so is what a local variable
    holds before it is assigned.  What the commands print is left out, except what they write by
    [tty_write].  The commands that other programs provide or that stop the
    kernel are the parameter [other].  A command gets the codes of the keyboard
    still to come and returns those it left, or [None] in their place when it
    waits for more.  The outer [None] is a fault, or text or a loop longer than
    [fuel]. *)

From S2P Require Import Prelude CString Fmt KHeap RamFS Devices Vfs Screen Kbd Tty Net NetStack Dhcp Syscall Boot.
From stdpp Require Import strings.
Import CS FMT BOOT.
#[local] Open Scope Z_scope.

Module KS.

(** The text of a constant. *)
Definition txt (s : String.string) : list Z := map (fun a => Z.of_nat (Ascii.nat_of_ascii a)) (String.list_ascii_of_string s).
Arguments txt _%_string.

Definition CMD_SIZE : Z := 256.
Definition PROMPT_BUF_SIZE : Z := 30.
Definition LNBUF_SIZE : Z := 256.

(** ** Splitting the line *)

(** The gap behind the first word is overwritten. *)
Fixpoint gap_loop (fuel : nat) (m : bmem) (arg : Z) : option (bmem * Z) :=
  match fuel with
  | O => None
  | S fuel => if CS.chr m arg =? 32 then gap_loop fuel (stb m arg 0) (arg + 1) else Some (m, arg)
  end.

Fixpoint get_args (fuel : nat) (m : bmem) (arg : Z) : option (bmem * Z) :=
  match fuel with
  | O => None
  | S fuel' =>
      if CS.chr m arg =? 0 then Some (m, arg)
      else if CS.chr m arg =? 32 then gap_loop fuel m arg
      else get_args fuel' m (arg + 1)
  end.

Fixpoint skip_gaps (fuel : nat) (m : bmem) (p : Z) : option Z :=
  match fuel with
  | O => None
  | S fuel => if CS.chr m p =? 32 then skip_gaps fuel m (p + 1) else Some p
  end.

Fixpoint strcmpsz_loop (fuel : nat) (m : bmem) (s1 s2 endchar i : Z) : option Z :=
  match fuel with
  | O => None
  | S fuel =>
      if (CS.chr m (s1 + i) =? CS.chr m (s2 + i)) && negb (CS.chr m (s1 + i) =? endchar) then strcmpsz_loop fuel m s1 s2 endchar (i + 1) else Some i
  end.
Definition strcmpsz (fuel : nat) (m : bmem) (s1 s2 endchar : Z) : option Z := strcmpsz_loop fuel m s1 s2 endchar 0.

(** ** Numbers and addresses *)

(** Scanning from every character on until there is a number: where it ends, and [*res]. *)
Fixpoint int_opt_loop (n fuel : nat) (m : bmem) (arg res base : Z) : option (Z * Z) :=
  match n with
  | O => None
  | S n =>
      '(end_, res) ← to_opt (sscan_int fuel m arg res base);
      if negb (end_ =? arg) then Some (end_, res)
      else if negb (CS.chr m arg =? 0) then int_opt_loop n fuel m (arg + 1) res base
      else Some (end_, res)
  end.
Definition get_int_opt (fuel : nat) (m : bmem) (arg res base : Z) : option (Z * Z) := int_opt_loop fuel fuel m arg res base.

(** One octet and the character behind it; [inr] is the place of a parse error. *)
Definition get_octet (fuel : nat) (m : bmem) (arg junk base : Z) : option (Z * Z + Z) :=
  '(arg, v) ← get_int_opt fuel m arg junk base;
  Some (if (v <? 0) || (256 <=? v) then inr arg else inl (arg, v)).

(** [n] octets, each but the last followed by [sep]. *)
Fixpoint get_octets (n fuel : nat) (m : bmem) (arg : Z) (junk : Z -> Z) (k sep base : Z) : option (Z * list Z + Z) :=
  match n with
  | O => Some (inl (arg, []))
  | S n =>
      r ← get_octet fuel m arg (junk k) base;
      match r with
      | inr e => Some (inr e)
      | inl (arg, v) =>
          match n with
          | O => Some (inl (arg, [v]))
          | S _ =>
              if negb (CS.chr m arg =? sep) then Some (inr arg)
              else
                r ← get_octets n fuel m arg junk (k + 1) sep base;
                Some (match r with inl (arg, l) => inl (arg, v :: l) | inr e => inr e end)
          end
      end
  end.

(** The end, or 0, and [*ip]. *)
Definition get_ipv4_opt (fuel : nat) (m : bmem) (arg : Z) (junk : Z -> Z) (ip : Z) : option (Z * Z) :=
  arg ← skip_gaps fuel m arg;
  r ← get_octets 4 fuel m arg junk 0 46 10;
  Some (match r with inl (arg, [a; b; c; d]) => (arg, DH.IP4 a b c d) | _ => (0, ip) end).

Definition get_macaddr_opt (fuel : nat) (m : bmem) (arg : Z) (junk : Z -> Z) (mac : list Z) : option (Z * list Z) :=
  arg ← skip_gaps fuel m arg;
  r ← get_octets 6 fuel m arg junk 0 58 16;
  Some (match r with inl (arg, l) => (arg, l) | inr _ => (0, mac) end).

(** ** Commands *)

Inductive command :=
  | K_cpuid | K_elf | K_vfs | K_off | K_heap | K_help | K_info | K_init | K_io | K_lua | K_mem | K_net | K_panic | K_secd | K_set | K_test | K_time.

(** Names and handlers; the two interpreters are there when they are configured. *)
Definition main_commands (lua secd : bool) : list (list Z * command) :=
  [(txt "cpuid", K_cpuid); (txt "elf", K_elf); (txt "fs", K_vfs); (txt "halt", K_off); (txt "heap", K_heap);
   (txt "help", K_help); (txt "info", K_info); (txt "init", K_init); (txt "io", K_io)] ++
  (if lua then [(txt "lua", K_lua)] else []) ++
  [(txt "mem", K_mem); (txt "net", K_net); (txt "panic", K_panic)] ++
  (if secd then [(txt "secd", K_secd)] else []) ++
  [(txt "set", K_set); (txt "test", K_test); (txt "time", K_time)].

Inductive subcommand := Sub_link | Sub_neigh | Sub_dhcp | Sub_ping.

Definition net_cmds : list (list Z * subcommand) :=
  [(txt "link", Sub_link); (txt "neigh", Sub_neigh); (txt "dhcp", Sub_dhcp); (txt "ping", Sub_ping)].

(** An access to a port: its width in bits, the port, the value written. *)
Inductive io_event := In (w port : Z) | Out (w port val : Z).

Section Shell.
Context {SB D N H : Type} `{!NS.NetDrv N} `{!KH.Heap H}.

(** What the shell works on. *)
Record shell := mk_shell { s_mem : bmem; s_vfs : VFS.vfs SB D; s_net : NS.net N; s_heap : H; s_term : TTY.world; s_io : list io_event }.

Definition set_smem (k : shell) (m : bmem) : shell := mk_shell m (s_vfs k) (s_net k) (s_heap k) (s_term k) (s_io k).
Definition set_svfs (k : shell) (v : VFS.vfs SB D) : shell := mk_shell (s_mem k) v (s_net k) (s_heap k) (s_term k) (s_io k).
Definition set_snet (k : shell) (n : NS.net N) : shell := mk_shell (s_mem k) (s_vfs k) n (s_heap k) (s_term k) (s_io k).
Definition set_sheap (k : shell) (h : H) : shell := mk_shell (s_mem k) (s_vfs k) (s_net k) h (s_term k) (s_io k).
Definition set_sterm (k : shell) (t : TTY.world) : shell := mk_shell (s_mem k) (s_vfs k) (s_net k) (s_heap k) t (s_io k).
Definition put_io (k : shell) (e : io_event) : shell := mk_shell (s_mem k) (s_vfs k) (s_net k) (s_heap k) (s_term k) (s_io k ++ [e]).

Variables (lit : list Z -> Z) (cmd_buf prompt lnbuf : Z) (junk : Z -> Z) (fuel : nat) (lua secd : bool).
(** How long the two waits of the DHCP client take, and what comes in them. *)
Variables (start1 : Z) (evs1 : list (Z * (NS.net N -> NS.net N))) (start2 : Z) (evs2 : list (Z * (NS.net N -> NS.net N))).
Variable other : command -> Z -> shell -> list Z -> option (shell * option (list Z)).

(** [!strncmp(p, "...", n)] with the length of the constant, and [!strcmp]. *)
Definition starts (m : bmem) (p : Z) (t : list Z) : option bool := c ← strncmp fuel m p (lit t) (Z.of_nat (length t)); Some (c =? 0).
Definition equals (m : bmem) (p : Z) (t : list Z) : option bool := c ← strcmp fuel m p (lit t); Some (c =? 0).
(** [while (isspace( *p)) ++p], and [isspace]. *)
Definition spaces (m : bmem) (p : Z) : option Z := to_opt (skip_spaces fuel m p).
Definition space (m : bmem) (p : Z) : option bool := sp ← isspace (CS.chr m p); Some (negb (sp =? 0)).
(** The string at [p], for the calls that take it. *)
Definition str (m : bmem) (p : Z) : list Z := SC0.cstring_loop fuel m p.

(** ** Files *)

(** The bytes of a file to the terminal, as many at a time as the buffer has. *)
Fixpoint cat_loop (n : nat) (k : shell) (id ino pos : Z) : option shell :=
  match n with
  | O => None
  | S n =>
      '(v, ret, bs) ← VFS.vfs_inode_read (s_vfs k) id ino pos LNBUF_SIZE;
      let k := set_svfs k v in
      if negb (ret =? 0) then Some k
      else
        let k := set_smem k (NT.put_bytes (s_mem k) lnbuf bs) in
        let nwritten := Z.of_nat (length bs) in
        '(t, _) ← TTY.tty_write (TTY.tt (s_term k)) TTY.CONSOLE_TTY (bytes (s_mem k) lnbuf LNBUF_SIZE) nwritten;
        let k := set_sterm k (TTY.mk_world (TTY.kb (s_term k)) t) in
        if negb (nwritten =? 0) then cat_loop n k id ino (u32 (pos + nwritten)) else Some k
  end.

(** Lines of the terminal to a file until one begins with EOF; [nwritten] is the
    local variable. *)
Fixpoint cat_input (n : nat) (k : shell) (id ino pos nwritten : Z) (irqs : list Z) : option (shell * option (list Z)) :=
  match n with
  | O => None
  | S n =>
      r ← TTY.tty_read (s_term k) TTY.CONSOLE_TTY LNBUF_SIZE irqs;
      match r with
      | TTY.Blocked w => Some (set_sterm k w, None)
      | TTY.Returns w ret stored nread irqs =>
          let k := set_sterm (set_smem k (NT.put_bytes (s_mem k) lnbuf stored)) w in
          let nwritten := default nwritten nread in
          if negb (ret =? 0) then Some (k, Some irqs)
          else
            let m := stb (s_mem k) (u32 (lnbuf + nwritten)) 0 in
            let m := stb m (u32 (lnbuf + nwritten - 1)) 10 in
            let k := set_smem k m in
            eof ← starts m lnbuf (txt "EOF");
            if eof : bool then Some (k, Some irqs)
            else
              '(v, ret, nwritten) ← VFS.vfs_inode_write (s_vfs k) id ino pos (str m lnbuf);
              let k := set_svfs k v in
              if negb (ret =? 0) then Some (k, Some irqs) else cat_input n k id ino (u32 (pos + nwritten)) nwritten irqs
      end
  end.

Definition fs_cat (k : shell) (arg : Z) (irqs : list Z) : option (shell * option (list Z)) :=
  let m := s_mem k in
  if CS.chr m arg =? 0 then Some (k, Some irqs)
  else if CS.chr m arg =? 62 then
    arg ← spaces m (arg + 1);
    '(ret, id, ino) ← VFS.vfs_lookup (s_vfs k) (str m arg);
    if negb (ret =? 0) then Some (k, Some irqs) else cat_input fuel k id ino 0 (junk 0) irqs
  else
    '(ret, id, ino) ← VFS.vfs_lookup (s_vfs k) (str m arg);
    if negb (ret =? 0) then Some (k, Some irqs) else k ← cat_loop fuel k id ino 0; Some (k, Some irqs).

(** The two paths of "mv" and "ln": the first is copied to the heap for the call. *)
Definition two_paths (k : shell) (arg : Z) (call : VFS.vfs SB D -> list Z -> list Z -> option (VFS.vfs SB D * Z)) : option shell :=
  let m := s_mem k in
  path2 ← strchr fuel m arg 32;
  if path2 =? 0 then Some k
  else
    len ← strlen fuel m arg;
    let '(h, path1) := KH.kmalloc (s_heap k) (strndup_size len (path2 - arg)) in
    '(m, path1) ← strndup fuel (fun _ => path1) m arg (path2 - arg);
    path2 ← spaces m path2;
    '(v, _) ← call (s_vfs k) (str m path1) (str m path2);
    Some (set_svfs (set_smem (set_sheap k (KH.kfree h path1)) m) v).

Definition mkdev (k : shell) (arg : Z) : option shell :=
  let m := s_mem k in
  let c := CS.chr m arg in
  if negb ((c =? 99) || (c =? 98)) then Some k
  else
    let mode := Z.lor 493 (if c =? 99 then RF.S_IFCHR else RF.S_IFBLK) in
    arg ← spaces m (arg + 1);
    '(maj, eptr, _) ← to_opt (strtol fuel m arg 0);
    if eptr =? arg then Some k
    else
      let arg := eptr in
      if negb (CS.chr m arg =? 58) then Some k
      else
        let arg := arg + 1 in
        '(min, eptr, _) ← to_opt (strtol fuel m arg 0);
        if eptr =? arg then Some k
        else
          arg ← spaces m eptr;
          '(v, _) ← VFS.vfs_mknod (s_vfs k) (str m arg) mode (RF.gnu_dev_makedev maj min);
          Some (set_svfs k v).

Definition kshell_vfs (k : shell) (arg : Z) (irqs : list Z) : option (shell * option (list Z)) :=
  let m := s_mem k in
  let done k := Some (k, Some irqs) in
  b ← starts m arg (txt "ls");
  if b : bool then _ ← spaces m (arg + 2); done k else
  b ← starts m arg (txt "mounted");
  if b : bool then done k else
  b ← starts m arg (txt "mkdir");
  if b : bool then
    arg ← spaces m (arg + 5);
    if CS.chr m arg =? 0 then done k
    else '(v, _) ← VFS.vfs_mkdir (s_vfs k) (str m arg) 493; done (set_svfs k v) else
  b ← starts m arg (txt "mknod");
  if b : bool then
    arg ← spaces m (arg + 5);
    '(v, _) ← VFS.vfs_mknod (s_vfs k) (str m arg) 420 0; done (set_svfs k v) else
  b ← starts m arg (txt "mkdev");
  if b : bool then arg ← spaces m (arg + 5); k ← mkdev k arg; done k else
  b ← starts m arg (txt "stat");
  if b : bool then arg ← spaces m (arg + 4); _ ← VFS.vfs_stat (s_vfs k) (str m arg); done k else
  b ← starts m arg (txt "mv");
  if b : bool then arg ← spaces m (arg + 2); k ← two_paths k arg VFS.vfs_rename; done k else
  b ← starts m arg (txt "rm");
  if b : bool then
    arg ← spaces m (arg + 2);
    '(v, _) ← VFS.vfs_unlink (s_vfs k) (str m arg); done (set_svfs k v) else
  b ← starts m arg (txt "ln");
  if b : bool then arg ← spaces m (arg + 2); k ← two_paths k arg VFS.vfs_hardlink; done k else
  b ← starts m arg (txt "cat");
  if b : bool then arg ← spaces m (arg + 3); fs_cat k arg irqs else
  done k.

(** ** Heap, console and ports *)

Definition kshell_heap (k : shell) (arg : Z) : option shell :=
  let m := s_mem k in
  b ← starts m arg (txt "info");
  if b : bool then Some k else
  b ← starts m arg (txt "alloc");
  if b : bool then
    let arg := arg + 5 in
    '(end_, size) ← get_int_opt fuel m arg 0 16;
    if end_ =? arg then Some k else Some (set_sheap k (KH.kmalloc (s_heap k) (u32 size)).1) else
  b ← starts m arg (txt "free");
  if b : bool then
    let arg := arg + 4 in
    '(end_, p) ← get_int_opt fuel m arg 0 16;
    if end_ =? arg then Some k else Some (set_sheap k (KH.kfree (s_heap k) (u32 p))) else
  Some k.

Definition kshell_set (k : shell) (arg : Z) : option shell :=
  let m := s_mem k in
  b ← starts m arg (txt "color");
  if b : bool then
    let arg := arg + 5 in
    '(end_, attr) ← get_int_opt fuel m arg (junk 0) 16;
    if negb (end_ =? arg) then
      let t := s_term k in
      s ← SC.vcsa_set_attribute (TTY.scr (TTY.tt t)) SC.CONSOLE_VCSA (u8 attr);
      Some (set_sterm k (TTY.mk_world (TTY.kb t) (TTY.set_scr (TTY.tt t) s)))
    else Some k else
  b ← starts m arg (txt "prompt");
  if b : bool then
    if negb (CS.chr m (arg + 6) =? 0) then
      '(m, _) ← strncpy fuel m prompt (arg + 7) PROMPT_BUF_SIZE; Some (set_smem k m)
    else Some k else
  Some k.

Definition io_width (c : Z) : option Z := if c =? 98 then Some 8 else if c =? 119 then Some 16 else if c =? 105 then Some 32 else None.

Definition kshell_io (k : shell) (arg : Z) : option shell :=
  let m := s_mem k in
  '(arg2, port) ← get_int_opt fuel m (arg + 2) 0 16;
  let c := CS.chr m (arg + 1) in
  if c =? 114 then
    Some (match io_width (CS.chr m arg) with Some w => put_io k (In w (u16 port)) | None => k end)
  else if c =? 119 then
    '(_, val) ← get_int_opt fuel m arg2 0 16;
    Some (match io_width (CS.chr m arg) with Some w => put_io k (Out w (u16 port) (val mod 2 ^ w)) | None => k end)
  else Some k.

(** ** Network *)

Definition kshell_net_neigh (k : shell) (cmdline : Z) : option shell :=
  let m := s_mem k in
  let n := s_net k in
  '(next, ifidx) ← to_opt (sscan_int fuel m cmdline (-1) 10);
  cmdline' ← (if negb (next =? cmdline) then skip_gaps fuel m next else Some cmdline);
  let iface := if negb (next =? cmdline) then NS.net_interface_by_index n (u32 ifidx) else 0 in
  if negb (next =? cmdline) && (iface =? 0) then Some k
  else
    let cmdline := cmdline' in
    all ← equals m cmdline (txt "all"); ls ← equals m cmdline (txt "ls"); list ← equals m cmdline (txt "list");
    if all || ls || list then Some k else
    g ← starts m cmdline (txt "get"); sp ← (if g : bool then space m (cmdline + 3) else Some false);
    if sp : bool then
      '(cmdline, ip) ← get_ipv4_opt fuel m (cmdline + 4) junk (junk 4);
      if cmdline =? 0 then Some k else _ ← NS.net_neighbor_resolve n 0 ip; Some k else
    g ← starts m cmdline (txt "set"); sp ← (if g : bool then space m (cmdline + 3) else Some false);
    if sp : bool then
      if iface =? 0 then Some k
      else
        cmdline ← skip_gaps fuel m (cmdline + 4);
        '(cmdline, ip) ← get_ipv4_opt fuel m cmdline junk (junk 4);
        if cmdline =? 0 then Some k
        else
          cmdline ← skip_gaps fuel m cmdline;
          '(cmdline, mac) ← get_macaddr_opt fuel m cmdline junk [];
          if cmdline =? 0 then Some k else n ← NS.net_neighbor_remember n iface ip mac; Some (set_snet k n) else
    g ← starts m cmdline (txt "arp"); sp ← (if g : bool then space m (cmdline + 3) else Some false);
    if sp : bool then
      cmdline ← skip_gaps fuel m cmdline;
      '(_, ip) ← get_ipv4_opt fuel m cmdline junk (junk 4);
      '(n, _) ← NS.net_arp_send_whohas n iface ip; Some (set_snet k n)
    else Some k.

Definition kshell_net_ping (k : shell) (cmd arg : Z) : option shell :=
  let m := s_mem k in
  arg ← skip_gaps fuel m arg;
  '(arg, ip) ← get_ipv4_opt fuel m arg junk (junk 4);
  if arg =? 0 then Some k else n ← DH.test_net_ping (s_net k) ip; Some (set_snet k n).

(** The call passes one argument; a handler with a second one finds there what
    the stack holds. *)
Definition run_sub (c : subcommand) (k : shell) (cmdline : Z) : option shell :=
  match c with
  | Sub_link => Some k
  | Sub_neigh => kshell_net_neigh k cmdline
  | Sub_dhcp => n ← DH.test_net_dhcp fuel (s_net k) start1 evs1 start2 evs2; Some (set_snet k n)
  | Sub_ping => kshell_net_ping k cmdline (junk 5)
  end.

Fixpoint kshell_call_subcommand (subcmds : list (list Z * subcommand)) (k : shell) (cmdline : Z) : option shell :=
  match subcmds with
  | [] => Some k
  | (name, handler) :: subcmds =>
      b ← starts (s_mem k) cmdline name;
      if b : bool then cmdline ← spaces (s_mem k) (cmdline + Z.of_nat (length name)); run_sub handler k cmdline
      else kshell_call_subcommand subcmds k cmdline
  end.

(** ** The shell *)

Definition handler (c : command) (arg : Z) (k : shell) (irqs : list Z) : option (shell * option (list Z)) :=
  let done r := k ← r; Some (k, Some irqs) in
  match c with
  | K_cpuid | K_elf | K_help | K_info | K_mem | K_time => Some (k, Some irqs)
  | K_vfs => kshell_vfs k arg irqs
  | K_heap => done (kshell_heap k arg)
  | K_io => done (kshell_io k arg)
  | K_net => done (kshell_call_subcommand net_cmds k arg)
  | K_set => done (kshell_set k arg)
  | K_off | K_init | K_lua | K_panic | K_secd | K_test => other c arg k irqs
  end.

Fixpoint find_command (l : list (list Z * command)) (m : bmem) (command : Z) : option (option KS.command) :=
  match l with
  | [] => Some None
  | (name, c) :: l => b ← equals m command name; if b : bool then Some (Some c) else find_command l m command
  end.

Definition kshell_do (k : shell) (command : Z) (irqs : list Z) : option (shell * option (list Z)) :=
  if CS.chr (s_mem k) command =? 0 then Some (k, Some irqs)
  else
    '(m, arg) ← get_args fuel (s_mem k) command;
    let k := set_smem k m in
    c ← find_command (main_commands lua secd) m command;
    match c with Some c => handler c arg k irqs | None => Some (k, Some irqs) end.

(** One turn of [kshell_run]; [Some None] in the place of the codes is the shell
    waiting for a line, and a prompt that cannot be written hangs the processor. *)
Definition kshell_turn (k : shell) (irqs : list Z) : option (shell * option (list Z)) :=
  len ← strlen fuel (s_mem k) prompt;
  '(t, ret) ← TTY.tty_write (TTY.tt (s_term k)) TTY.CONSOLE_TTY (bytes (s_mem k) prompt PROMPT_BUF_SIZE) len;
  let k := set_sterm k (TTY.mk_world (TTY.kb (s_term k)) t) in
  if negb (ret =? 0) then Some (k, None)
  else
    let w := s_term k in
    let kb := KB.kbd_set_onrelease (KB.kbd_set_onpress (TTY.kb w) (Some KB.tty_keyboard_handler)) (Some KB.tty_keyboard_handler) in
    r ← TTY.tty_read (TTY.mk_world kb (TTY.tt w)) TTY.CONSOLE_TTY CMD_SIZE irqs;
    match r with
    | TTY.Blocked w => Some (set_sterm k w, None)
    | TTY.Returns w ret stored nread irqs =>
        let nread := default (junk 0) nread in
        let m := NT.put_bytes (s_mem k) cmd_buf stored in
        let last := u32 (cmd_buf + nread - 1) in
        let m := if ldb m last =? 10 then stb m last 0 else m in
        kshell_do (set_sterm (set_smem k m) w) cmd_buf irqs
    end.

(** ** Reading a line by keys *)

(** The first command that the text completes or names; the result says whether
    the buffer was completed. *)
Fixpoint autocomplete_loop (l : list (list Z * command)) (m : bmem) (buf : Z) : option (bmem * bool) :=
  match l with
  | [] => Some (m, false)
  | (name, _) :: l =>
      i ← strcmpsz fuel m (lit name) buf 0;
      n ← strlen fuel m (lit name);
      if i =? n then Some (m, false)
      else
        n ← strlen fuel m buf;
        if i =? n then '(m, _) ← strcpy fuel m (buf + i) (lit name + i); Some (m, true)
        else autocomplete_loop l m buf
  end.
Definition kshell_autocomplete (m : bmem) (buf : Z) : option (bmem * bool) := autocomplete_loop (main_commands lua secd) m buf.

(** [keys] are the characters that [kbd_getchar] gives; [None] in the place of
    those left is waiting for another. *)
Fixpoint readline_loop (keys : list Z) (m : bmem) (buf size cur : Z) : option (bmem * option (list Z)) :=
  match keys with
  | [] => Some (m, None)
  | c :: keys =>
      if c =? 10 then Some (stb m cur 0, Some keys)
      else if c =? 8 then readline_loop keys m buf size (if cur =? buf then cur else cur - 1)
      else if c =? 12 then readline_loop keys (stb m cur 0) buf size cur
      else if c =? 9 then
        '(m, completed) ← kshell_autocomplete (stb m (cur + 1) 0) buf;
        if completed : bool then Some (m, Some keys) else readline_loop keys m buf size cur
      else if cur - buf + 1 <? size then readline_loop keys (stb m cur (u8 c)) buf size (cur + 1)
      else readline_loop keys m buf size cur
  end.
Definition kshell_readline (keys : list Z) (m : bmem) (buf size : Z) : option (bmem * option (list Z)) := readline_loop keys m buf size buf.

End Shell.
End KS.
