(* ===== verification/KshellProofs.v ===== *)
(** * The kernel shell: correctness

    Module [KSP]: words and gaps of a line, the addresses among the arguments,
    and whole turns of the shell, from the keys to the call. *)

From S2P Require Import Prelude CString CStringProofs Fmt FmtProofs KHeap RamFS Devices Vfs Screen ScreenProofs Kbd KbdProofs Tty TtyProofs ScreenGrid Net NetProofs NetStack NetStackProofs Dhcp DhcpProofs Syscall Boot BootProofs FirstFit FirstFitProofs RamFSProofs VfsProofs Kshell.
From stdpp Require Import strings.
Import CS CSP FMT FMTP BOOT KS.
#[local] Open Scope Z_scope.

Module KSP.

(** ** Characters and words *)

Definition ascii (c : Z) : Prop := 0 < c < 128.

Lemma s8_ascii c : 0 <= c < 128 -> s8 c = c.
Proof. unfold s8, swrap. change (2 ^ 8) with 256. change (2 ^ (8 - 1)) with 128. intros. zlia. Qed.

Lemma cstr_head m p c s : ascii c -> cstr m p (c :: s) -> CS.chr m p = c.
Proof. intros Hc [H _]%cstr_cons. unfold CS.chr. rewrite H. apply s8_ascii. unfold ascii in Hc. lia. Qed.

Lemma cstr_end m p : cstr m p [] -> CS.chr m p = 0.
Proof. intros H%cstr_nil. unfold CS.chr. by rewrite H. Qed.

(** A run of [S n] blanks. *)
Definition gap (n : nat) : list Z := replicate (S n) 32.

(** The text begins with no blank of any kind, and its first byte is a character. *)
Definition unspaced (s : list Z) : Prop := match s with [] => True | c :: _ => 32 < c < 128 end.

Lemma skip_gaps_ok m s : unspaced s -> forall n fuel p, cstr m p (replicate n 32 ++ s) -> (n < fuel)%nat -> skip_gaps fuel m p = Some (p + Z.of_nat n).
Proof.
  intros Hs. induction n as [|n IH]; intros [|fuel] p H Hf; try lia; cbn [skip_gaps replicate app] in *.
  - rewrite Z.add_0_r. destruct s as [|c s]; [by rewrite (cstr_end m p H)|]. cbn in Hs. rewrite (cstr_head m p c s) by (done || unfold ascii; lia). by rewrite (proj2 (Z.eqb_neq c 32)) by lia.
  - rewrite (cstr_head m p 32 _) by (done || unfold ascii; lia). cbn [Z.eqb Pos.eqb]. apply cstr_cons in H as (_ & _ & H). rewrite (IH fuel (p + 1)) by (done || lia). f_equal. lia.
Qed.

Lemma skip_spaces_ok m s : unspaced s -> forall n fuel p, cstr m p (replicate n 32 ++ s) -> (n < fuel)%nat -> skip_spaces fuel m p = Ok (p + Z.of_nat n).
Proof.
  intros Hs. induction n as [|n IH]; intros [|fuel] p H Hf; try lia; cbn [skip_spaces replicate app] in *.
  - rewrite Z.add_0_r. assert (E : exists c, CS.chr m p = c /\ 0 <= c < 128 /\ (c =? 32) || ((9 <=? c) && (c <=? 13)) = false).
    { destruct s as [|c s]; [exists 0; by rewrite (cstr_end m p H)|]. cbn in Hs. exists c. rewrite (cstr_head m p c s) by (done || unfold ascii; lia). repeat split; try lia. }
    destruct E as (c & -> & Hc & E). destruct (isspace_spec c Hc) as (v & -> & Hv). cbn [of_opt rbind]. rewrite Hv, E. done.
  - rewrite (cstr_head m p 32 _) by (done || unfold ascii; lia). change (isspace 32) with (Some 2048). cbn. apply cstr_cons in H as (_ & _ & H). rewrite (IH fuel (p + 1)) by (done || lia). f_equal. lia.
Qed.

(** Two strings one behind the other, as they are when the gap is overwritten. *)
Lemma gap_loop_ok s : unspaced s -> forall n m fuel p, cstr m p (replicate n 32 ++ s) -> (n < fuel)%nat ->
  exists m', gap_loop fuel m p = Some (m', p + Z.of_nat n) /\ (forall a, a < p \/ p + Z.of_nat n <= a -> ldb m' a = ldb m a) /\ (0 < Z.of_nat n -> ldb m' p = 0).
Proof.
  intros Hs. induction n as [|n IH]; intros m [|fuel] p H Hf; try lia; cbn [gap_loop replicate app] in *.
  - exists m. rewrite Z.add_0_r. split; [|split; [done|lia]]. destruct s as [|c s]; [by rewrite (cstr_end m p H)|]. cbn in Hs. rewrite (cstr_head m p c s) by (done || unfold ascii; lia). by rewrite (proj2 (Z.eqb_neq c 32)) by lia.
  - rewrite (cstr_head m p 32 _) by (done || unfold ascii; lia). cbn [Z.eqb Pos.eqb]. apply cstr_cons in H as (_ & _ & H).
    destruct (IH (stb m p 0) fuel (p + 1)) as (m' & E & Ho & _); [|lia|].
    { revert H. apply cstr_same. intros a Ha. rewrite ldb_stb. case_if; [lia|done]. }
    exists m'. split; [rewrite E; do 2 f_equal; lia|]. split.
    + intros a Ha. rewrite Ho by lia. rewrite ldb_stb. case_if; [lia|done].
    + intros _. rewrite Ho by lia. by rewrite ldb_stb, Z.eqb_refl.
Qed.

Definition word (w : list Z) : Prop := Forall (fun c => 32 < c < 128) w.

Lemma word_bytes w : word w -> str_bytes w.
Proof. intros H. apply (Forall_impl _ _ _ H). intros; lia. Qed.

(** The line is cut behind its first word. *)
Lemma get_args_ok w s n : word w -> unspaced s -> forall m fuel p, cstr m p (w ++ gap n ++ s) -> (length w + S n < fuel)%nat ->
  exists m', get_args fuel m p = Some (m', p + Z.of_nat (length w + S n)) /\ cstr m' p w /\ cstr m' (p + Z.of_nat (length w + S n)) s /\
    (forall a, a < p \/ p + Z.of_nat (length w + S n) <= a -> ldb m' a = ldb m a).
Proof.
  intros Hw Hs. induction Hw as [|c w Hc Hw IH]; intros m [|fuel] p H Hf; cbn [length] in Hf; try lia; cbn [get_args app length] in *.
  - rewrite (cstr_head m p 32 (replicate n 32 ++ s)) by (done || unfold ascii; lia). cbn [Z.eqb Pos.eqb].
    destruct (gap_loop_ok s Hs (S n) m (S fuel) p H ltac:(lia)) as (m' & E & Ho & Hz). exists m'. split; [exact E|]. split; [apply cstr_nil, Hz; lia|]. split; [|exact Ho].
    apply cstr_suffix in H. unfold gap in H. rewrite length_replicate in H. revert H. apply cstr_same. intros a Ha. apply Ho. lia.
  - rewrite (cstr_head m p c (w ++ gap n ++ s)) by (done || unfold ascii; lia). rewrite (proj2 (Z.eqb_neq c 0)), (proj2 (Z.eqb_neq c 32)) by lia. apply cstr_cons in H as (H0 & H1 & H).
    destruct (IH m fuel (p + 1) H ltac:(lia)) as (m' & E & Hcw & Hcs & Ho). exists m'.
    replace (p + Z.of_nat (S (length w) + S n)) with (p + 1 + Z.of_nat (length w + S n)) by lia. split; [exact E|]. split; [apply cstr_cons; rewrite Ho by lia; done|]. split; [done|].
    intros a Ha. apply Ho. lia.
Qed.

(** A line of one word is left as it is. *)
Lemma get_args_word w : word w -> forall m fuel p, cstr m p w -> (length w < fuel)%nat -> get_args fuel m p = Some (m, p + Z.of_nat (length w)).
Proof.
  induction 1 as [|c w Hc Hw IH]; intros m [|fuel] p H Hf; cbn [length] in Hf; try lia; cbn [get_args length].
  - rewrite (cstr_end m p H). cbn [Z.eqb]. do 2 f_equal. lia.
  - rewrite (cstr_head m p c w) by (done || unfold ascii; lia). rewrite (proj2 (Z.eqb_neq c 0)), (proj2 (Z.eqb_neq c 32)) by lia. apply cstr_cons in H as (_ & _ & H). rewrite (IH m fuel (p + 1)) by (done || lia). do 2 f_equal. lia.
Qed.
(** ** Comparing with constants *)

Section Text.
Variables (lit : list Z -> Z) (fuel : nat).

Lemma starts_ok m p s t : cstr m p s -> cstr m (lit t) t -> (length s < fuel)%nat -> starts lit fuel m p t = Some (bool_decide (t `prefix_of` s)).
Proof.
  intros Hs Ht Hf. unfold starts. rewrite (strncmp_correct fuel m p (lit t) s t _ Hs Ht Hf). cbn [mbind option_bind]. f_equal. rewrite Nat2Z.id.
  apply eq_bool_prop_intro. rewrite Is_true_true, Z.eqb_eq, bool_decide_spec, cmp_spec_zero by (apply Hs || apply Ht). rewrite (take_ge t) by lia. split.
  - intros E. exists (drop (length t) s). by rewrite <- E at 1; rewrite take_drop.
  - intros [r ->]. apply take_app_length.
Qed.

Lemma equals_ok m p s t : cstr m p s -> cstr m (lit t) t -> (length s < fuel)%nat -> Z.of_nat (length s) < UINT_MAX -> Z.of_nat (length t) < UINT_MAX -> equals lit fuel m p t = Some (bool_decide (s = t)).
Proof.
  intros Hs Ht Hf Hls Hlt. unfold equals, strcmp. rewrite (strncmp_correct fuel m p (lit t) s t _ Hs Ht Hf). cbn [mbind option_bind]. f_equal.
  apply eq_bool_prop_intro. rewrite Is_true_true, Z.eqb_eq, bool_decide_spec, cmp_spec_zero by (apply Hs || apply Ht). by rewrite !take_ge by lia.
Qed.

Lemma find_command_ok m p w l : cstr m p w -> (length w < fuel)%nat -> Z.of_nat (length w) < UINT_MAX -> Forall (fun e => cstr m (lit e.1) e.1 /\ Z.of_nat (length e.1) < UINT_MAX) l ->
  find_command lit fuel l m p = Some (snd <$> (snd <$> list_find (fun e => w = e.1) l)).
Proof.
  intros Hw Hf Hl. induction 1 as [|[name c] l [Hn Hln] Hl' IH]; [done|]. cbn [find_command list_find]. cbn in Hn, Hln. rewrite (equals_ok m p w name Hw Hn Hf Hl Hln). cbn [mbind option_bind].
  destruct (bool_decide_reflect (w = name)) as [E|E]; cbn [fst].
  - by rewrite decide_True.
  - rewrite decide_False by done. rewrite IH. by destruct (list_find _ l) as [[i e]|].
Qed.

End Text.

(** ** Numbers and addresses *)

(** The character that separates numbers is no part of one. *)
Definition separates (base c : Z) : Prop := no_digit base c /\ c <> 45 /\ c <> 43.

(** The text of a number that fits an [int]. *)
Record number (base : Z) (ds : list Z) (x : Z) : Prop := {
  nb_some : ds <> []; nb_digits : Forall (typed_dig base) ds; nb_value : dval base 0 (map toupper ds) = x; nb_int : x < 2 ^ 31 }.

Lemma digit_head base ds c r : 2 <= base <= 36 -> Forall (typed_dig base) ds -> ds = c :: r -> 48 <= c < 128.
Proof. intros Hb Hds ->. inversion Hds as [|? ? [Hr Hc] _]; subst. unfold is_dig, toupper, unhex in Hc. destruct ((97 <=? c) && (c <=? 122)) eqn:E; b2p; lia. Qed.

Lemma number_nonneg base ds x : 2 <= base <= 36 -> number base ds x -> 0 <= x.
Proof. intros Hb [_ Hd <- _]. apply (dval_ge base); [done| |lia]. apply Forall_map, (Forall_impl _ _ _ Hd). by intros c [_ ?]. Qed.

Lemma sscan_digits fuel m p base ds x old : 2 <= base <= 36 -> number base ds x -> bytes_at m p ds -> no_digit base (CS.chr m (p + Z.of_nat (length ds))) -> (length ds < fuel)%nat ->
  sscan_int fuel m p old base = Ok (p + Z.of_nat (length ds), x).
Proof.
  intros Hb Hx Hby Hst Hf. pose proof (number_nonneg base ds x Hb Hx) as H0. destruct Hx as [Hne Hds Hx Hlt]. unfold sscan_int. destruct ds as [|c r]; [done|]. pose proof (digit_head base (c :: r) c r Hb Hds eq_refl) as Hc.
  assert (E : CS.chr m p = c) by (apply bytes_at_cons in Hby as [E _]; unfold CS.chr; rewrite E; apply s8_ascii; lia).
  rewrite E, (proj2 (Z.eqb_neq c 45)), (proj2 (Z.eqb_neq c 43)) by lia. unfold sscan_uint.
  rewrite (sscan_loop_typed base (c :: r) Hb Hds fuel m p 0 Hby Hst ltac:(lia)) by (done || (rewrite Hx; lia) || lia). cbn [rbind fst snd].
  rewrite (proj2 (Z.eqb_neq _ p)) by (cbn [length]; lia). cbn [Z.eqb]. rewrite andb_false_r. f_equal. f_equal. rewrite Hx.
  apply s32_small. unfold in_s32. lia.
Qed.

(** A character that separates is stepped over, leaving the variable. *)
Lemma sscan_separator fuel m p base old : separates base (CS.chr m p) -> in_s32 old -> (0 < fuel)%nat -> sscan_int fuel m p old base = Ok (p, old).
Proof.
  intros [[H1 H2] [H3 H4]] Ho Hf. unfold sscan_int. rewrite (proj2 (Z.eqb_neq _ 45)), (proj2 (Z.eqb_neq _ 43)) by done. unfold sscan_uint. destruct fuel as [|fuel]; [lia|]. cbn [sscan_uint_loop]. rewrite H1, H2. cbn [rbind fst snd]. rewrite Z.eqb_refl. cbn [Z.eqb negb andb]. f_equal. f_equal.
  unfold u32, s32, swrap. unfold in_s32 in Ho. change (2 ^ 32) with 4294967296. change (2 ^ (32 - 1)) with 2147483648. zlia.
Qed.

Lemma int_opt_digits n fuel m p base ds x old : 2 <= base <= 36 -> number base ds x -> bytes_at m p ds -> no_digit base (CS.chr m (p + Z.of_nat (length ds))) -> (length ds < fuel)%nat -> (0 < n)%nat ->
  int_opt_loop n fuel m p old base = Some (p + Z.of_nat (length ds), x).
Proof.
  intros Hb Hx Hby Hst Hf Hn. destruct n as [|n]; [lia|]. cbn [int_opt_loop]. rewrite (sscan_digits fuel m p base ds x old) by done. cbn [to_opt mbind option_bind].
  rewrite (proj2 (Z.eqb_neq _ p)) by (destruct Hx as [Hne _ _ _]; destruct ds; [done|cbn [length]; lia]). done.
Qed.

Lemma int_opt_after n fuel m p base ds x old : 2 <= base <= 36 -> number base ds x -> separates base (CS.chr m p) -> CS.chr m p <> 0 -> in_s32 old ->
  bytes_at m (p + 1) ds -> no_digit base (CS.chr m (p + 1 + Z.of_nat (length ds))) -> (length ds < fuel)%nat -> (1 < n)%nat ->
  int_opt_loop n fuel m p old base = Some (p + 1 + Z.of_nat (length ds), x).
Proof.
  intros Hb Hx Hsep H0 Ho Hby Hst Hf Hn. destruct n as [|n]; [lia|]. cbn [int_opt_loop]. rewrite (sscan_separator fuel m p base old Hsep Ho) by lia. cbn [to_opt mbind option_bind]. rewrite Z.eqb_refl, (proj2 (Z.eqb_neq _ 0)) by done. cbn [negb]. by apply int_opt_digits; [..|lia].
Qed.
(** Numbers with [sep] between them. *)
Fixpoint octets_text (sep : Z) (l : list (list Z)) : list Z :=
  match l with [] => [] | [d] => d | d :: l => d ++ sep :: octets_text sep l end.

Lemma get_octet_ok fuel m p base ds x old (lead : bool) sep : 2 <= base <= 36 -> number base ds x -> in_u8 x -> separates base sep -> ascii sep -> in_s32 old ->
  bytes_at m p ((if lead then [sep] else []) ++ ds) -> no_digit base (CS.chr m (p + Z.of_nat (length ((if lead then [sep] else []) ++ ds)))) -> (S (length ds) < fuel)%nat ->
  get_octet fuel m p old base = Some (inl (p + Z.of_nat (length ((if lead then [sep] else []) ++ ds)), x)).
Proof.
  intros Hb Hx Hu Hsep Hs Ho Hby Hst Hf. unfold get_octet, get_int_opt. unfold in_u8 in Hu. destruct lead; cbn [app] in *.
  - apply bytes_at_cons in Hby as [H0 Hby]. assert (E : CS.chr m p = sep) by (unfold CS.chr; rewrite H0; apply s8_ascii; unfold ascii in Hs; lia).
    assert (El : p + Z.of_nat (length (sep :: ds)) = p + 1 + Z.of_nat (length ds)) by (cbn [length]; lia). rewrite El in *.
    rewrite (int_opt_after fuel fuel m p base ds x old) by (done || (rewrite E; done) || (rewrite E; unfold ascii in Hs; lia) || lia). cbn [mbind option_bind].
    by rewrite (proj2 (Z.ltb_ge x 0)), (proj2 (Z.leb_gt 256 x)) by lia.
  - rewrite (int_opt_digits fuel fuel m p base ds x old) by (done || lia). cbn [mbind option_bind]. by rewrite (proj2 (Z.ltb_ge x 0)), (proj2 (Z.leb_gt 256 x)) by lia.
Qed.

Lemma get_octets_S n fuel m arg junk k sep base : get_octets (S n) fuel m arg junk k sep base =
  (r ← get_octet fuel m arg (junk k) base;
   match r with
   | inr e => Some (inr e)
   | inl (arg, v) =>
       match n with
       | O => Some (inl (arg, [v]))
       | S _ =>
           if negb (CS.chr m arg =? sep) then Some (inr arg)
           else r ← get_octets n fuel m arg junk (k + 1) sep base; Some (match r with inl (arg, l) => inl (arg, v :: l) | inr e => inr e end)
       end
   end).
Proof. done. Qed.

Lemma get_octets_ok fuel m base sep junk : 2 <= base <= 36 -> separates base sep -> ascii sep -> (forall k, in_s32 (junk k)) -> forall texts l, Forall2 (number base) texts l -> texts <> [] -> Forall in_u8 l ->
  forall p (lead : bool) k, bytes_at m p ((if lead then [sep] else []) ++ octets_text sep texts) -> no_digit base (CS.chr m (p + Z.of_nat (length ((if lead then [sep] else []) ++ octets_text sep texts)))) ->
  (S (length (octets_text sep texts)) < fuel)%nat ->
  get_octets (length l) fuel m p junk k sep base = Some (inl (p + Z.of_nat (length ((if lead then [sep] else []) ++ octets_text sep texts)), l)).
Proof.
  intros Hb Hsep Hs Hj texts l Hn Hne Hu. induction Hn as [|ds x texts l Hx Hn IH]; [done|]. inversion Hu as [|? ? Hux Hul]; subst. intros p lead k Hby Hst Hf. change (length (x :: l)) with (S (length l)). rewrite get_octets_S.
  destruct Hn as [|ds' x' texts l Hx' Hn].
  - cbn [octets_text length] in *. rewrite (get_octet_ok fuel m p base ds x (junk k) lead sep) by done. done.
  - cbn [octets_text] in Hby, Hst, Hf |- *. set (rest := octets_text sep (ds' :: texts)) in *. fold rest in Hby, Hst, Hf.
    change (match texts with [] => ds' | _ :: _ => ds' ++ sep :: octets_text sep texts end) with rest in *.
    set (pre := (if lead then [sep] else []) ++ ds) in *. assert (Eapp : (if lead then [sep] else []) ++ ds ++ sep :: rest = pre ++ sep :: rest) by (unfold pre; by rewrite app_assoc).
    rewrite Eapp in *. apply bytes_at_app in Hby as [Hb1 Hb2]. pose proof Hb2 as Hb3. apply bytes_at_cons in Hb3 as [H0 _].
    assert (E : CS.chr m (p + Z.of_nat (length pre)) = sep) by (unfold CS.chr; rewrite H0; apply s8_ascii; unfold ascii in Hs; lia).
    rewrite length_app in Hst, Hf |- *. cbn [length] in Hst, Hf |- *.
    rewrite (get_octet_ok fuel m p base ds x (junk k) lead sep) by (done || (fold pre; rewrite E; apply Hsep) || lia). fold pre. cbn [mbind option_bind]. rewrite E, Z.eqb_refl. cbn [negb].
    change (length (x' :: l)) with (S (length l)) in IH. rewrite (IH ltac:(done) Hul (p + Z.of_nat (length pre)) true (k + 1)); fold rest; cbn [app length]; [|done| |lia].
    + cbn [mbind option_bind]. do 3 f_equal. lia.
    + by replace (p + Z.of_nat (length pre) + Z.of_nat (S (length rest))) with (p + Z.of_nat (length pre + S (length rest))) by lia.
Qed.

(** An address of IPv4 and one of Ethernet as they are written. *)
Definition ip_text (texts : list (list Z)) (a b c d : Z) : Prop := Forall2 (number 10) texts [a; b; c; d] /\ Forall in_u8 [a; b; c; d].
Definition mac_text (texts : list (list Z)) (mac : list Z) : Prop := Forall2 (number 16) texts mac /\ Forall in_u8 mac /\ length mac = 6%nat.

Lemma dot_separates : separates 10 46. Proof. by repeat split. Qed.
Lemma colon_separates : separates 16 58. Proof. by repeat split. Qed.

Lemma digits_word base ds x : 2 <= base <= 36 -> number base ds x -> word ds.
Proof. intros Hb [_ Hd _ _]. apply (Forall_impl _ _ _ Hd). intros c Hc. pose proof (digit_head base [c] c [] Hb). specialize (H ltac:(apply Forall_singleton; done) eq_refl). lia. Qed.

Lemma octets_word base sep : 2 <= base <= 36 -> 32 < sep < 128 -> forall texts l, Forall2 (number base) texts l -> word (octets_text sep texts).
Proof.
  intros Hb Hs texts l. induction 1 as [|ds x texts l Hx Hn IH]; [constructor|]. pose proof (digits_word base ds x Hb Hx). cbn [octets_text]. destruct Hn; [done|]. apply Forall_app. split; [done|]. by constructor.
Qed.

(** After blanks, the text of an address is read as that address. *)
Lemma get_ipv4_ok fuel m p n texts a b c d rest junk old : ip_text texts a b c d -> (forall k, in_s32 (junk k)) -> let t := octets_text 46 texts in
  cstr m p (replicate n 32 ++ t ++ rest) -> no_digit 10 (CS.chr m (p + Z.of_nat (n + length t))) -> (S (n + length t) < fuel)%nat ->
  get_ipv4_opt fuel m p junk old = Some (p + Z.of_nat (n + length t), DH.IP4 a b c d).
Proof.
  intros [Hn Hu] Hj t Hp Hst Hf. unfold get_ipv4_opt. assert (Hw : word t) by (by eapply octets_word; [| |exact Hn]).
  assert (Hne : t <> []). { unfold t. inversion Hn as [|ds ? l ? Hds Hl]; subst. cbn [octets_text]. destruct Hds as [Hds _ _ _]. destruct ds; [done|]. by destruct l. }
  rewrite (skip_gaps_ok m (t ++ rest)) with (n := n); [|destruct t; [done|]; inversion Hw; subst; done|done|lia]. cbn [mbind option_bind].
  apply cstr_suffix in Hp. rewrite length_replicate in Hp. destruct Hp as [Hp _]. apply bytes_at_app in Hp as [Hp _]. apply bytes_at_app in Hp as [Hp _].
  change 4%nat with (length [a; b; c; d]). rewrite (get_octets_ok fuel m 10 46 junk ltac:(lia) dot_separates ltac:(unfold ascii; lia) Hj texts [a; b; c; d] Hn) with (lead := false); cbn [app].
  - cbn [mbind option_bind]. fold t. do 2 f_equal. lia.
  - inversion Hn; subst. done.
  - done.
  - exact Hp.
  - fold t. by replace (p + Z.of_nat n + Z.of_nat (length t)) with (p + Z.of_nat (n + length t)) by lia.
  - fold t. lia.
Qed.

Lemma get_macaddr_ok fuel m p n texts mac rest junk old : mac_text texts mac -> (forall k, in_s32 (junk k)) -> let t := octets_text 58 texts in
  cstr m p (replicate n 32 ++ t ++ rest) -> no_digit 16 (CS.chr m (p + Z.of_nat (n + length t))) -> (S (n + length t) < fuel)%nat ->
  get_macaddr_opt fuel m p junk old = Some (p + Z.of_nat (n + length t), mac).
Proof.
  intros (Hn & Hu & Hl) Hj t Hp Hst Hf. unfold get_macaddr_opt. assert (Hw : word t) by (by eapply octets_word; [| |exact Hn]).
  assert (Hne : texts <> []) by (intros ->; inversion Hn; subst; done).
  assert (Hnt : t <> []). { unfold t. destruct Hn as [|ds ? l ? Hds Hl']; [done|]. cbn [octets_text]. destruct Hds as [Hds _ _ _]. destruct ds; [done|]. by destruct l. }
  rewrite (skip_gaps_ok m (t ++ rest)) with (n := n); [|destruct t; [done|]; inversion Hw; subst; done|done|lia]. cbn [mbind option_bind].
  apply cstr_suffix in Hp. rewrite length_replicate in Hp. destruct Hp as [Hp _]. apply bytes_at_app in Hp as [Hp _]. apply bytes_at_app in Hp as [Hp _].
  rewrite <- Hl. rewrite (get_octets_ok fuel m 16 58 junk ltac:(lia) colon_separates ltac:(unfold ascii; lia) Hj texts mac Hn) with (lead := false); cbn [app].
  - cbn [mbind option_bind]. fold t. do 2 f_equal. lia.
  - done.
  - done.
  - exact Hp.
  - fold t. by replace (p + Z.of_nat n + Z.of_nat (length t)) with (p + Z.of_nat (n + length t)) by lia.
  - fold t. lia.
Qed.
(** ** Turns of the shell *)

(** [t] is how [s] begins. *)
Fixpoint prefixb (t s : list Z) : bool :=
  match t, s with [], _ => true | x :: t, y :: s => (x =? y) && prefixb t s | _, _ => false end.

Lemma prefixb_ok t : forall s, bool_decide (t `prefix_of` s) = prefixb t s.
Proof.
  induction t as [|x t IH]; intros [|y s]; cbn [prefixb]; try (apply bool_decide_eq_true; apply prefix_nil).
  - apply bool_decide_eq_false. apply prefix_nil_not.
  - rewrite <- IH. destruct (Z.eqb_spec x y) as [->|E]; cbn [andb].
    + apply bool_decide_ext. split; [apply prefix_cons_inv_2|apply prefix_cons].
    + apply bool_decide_eq_false. intros H. by apply E, (prefix_cons_inv_1 _ _ _ _ H).
Qed.

(** The constants that lines are compared with. *)
Definition consts : list (list Z) :=
  map fst (main_commands true true) ++ map fst net_cmds ++
  [txt "ls"; txt "mounted"; txt "mkdir"; txt "mknod"; txt "mkdev"; txt "stat"; txt "mv"; txt "rm"; txt "ln"; txt "cat";
   txt "all"; txt "list"; txt "get"; txt "set"; txt "arp"].

Ltac const := apply (bool_decide_unpack _); vm_compute; exact I.

Section Turns.
Context {SB D N HT : Type} {NDr : NS.NetDrv N} {KHp : KH.Heap HT}.
Abbreviation shell := (@shell SB D N HT).
Implicit Types (k : shell).

Variables (lit : list Z -> Z) (cmd_buf prompt lnbuf : Z) (junk : Z -> Z) (fuel : nat) (lua secd : bool) (hi : Z).
Variables (start1 : Z) (evs1 : list (Z * (NS.net N -> NS.net N))) (start2 : Z) (evs2 : list (Z * (NS.net N -> NS.net N))).
Variable other : command -> Z -> shell -> list Z -> option (shell * option (list Z)).

(** The constants are there and not in the buffer. *)
Definition lits_ok (m : bmem) : Prop := forall t, t ∈ consts -> cstr m (lit t) t /\ (lit t + Z.of_nat (length t) < cmd_buf \/ cmd_buf + CMD_SIZE <= lit t) /\ lit t + Z.of_nat (length t) < hi.

(** Memory outside the buffer and below the heap is kept. *)
Definition buf_only (m m' : bmem) : Prop := forall a, a < cmd_buf \/ cmd_buf + CMD_SIZE <= a -> a < hi -> ldb m' a = ldb m a.

Lemma buf_only_refl m : buf_only m m. Proof. done. Qed.
Lemma buf_only_trans m1 m2 m3 : buf_only m1 m2 -> buf_only m2 m3 -> buf_only m1 m3.
Proof. intros H1 H2 a Ha Hh. by rewrite H2, H1. Qed.

Lemma lits_kept m m' : lits_ok m -> buf_only m m' -> lits_ok m'.
Proof. intros Hl Hb t Ht. destruct (Hl t Ht) as (Hc & Ha & Hh). split; [|done]. revert Hc. apply cstr_same. intros a Hr. apply Hb; lia. Qed.

(** The shell before it asks for a line: constants, prompt and buffer in memory,
    the console active and its queue empty, the keys of [K] down. *)
Record shell_ok k (dev : nat) (t : TTY.tty_device) (K : gset Z) : Prop := {
  so_lits : lits_ok (s_mem k);
  so_prompt : exists pt, cstr (s_mem k) prompt pt /\ Forall TTYP.text_byte pt /\ Z.of_nat (length pt) < PROMPT_BUF_SIZE /\
    (prompt + PROMPT_BUF_SIZE <= cmd_buf \/ cmd_buf + CMD_SIZE <= prompt) /\ prompt + PROMPT_BUF_SIZE <= hi;
  so_buf : 0 < cmd_buf /\ cmd_buf + CMD_SIZE <= hi /\ hi < 2 ^ 32;
  so_active : TTY.theActiveTTY (TTY.tt (s_term k)) = TTY.CONSOLE_TTY;
  so_tty : TTYP.at_line (TTY.tt (s_term k)) dev t [];
  so_keys : KBP.keys_are K (KB.theKeyboard (TTY.kb (s_term k))) }.

Hypothesis Hfuel : (300 <= fuel)%nat.

Abbreviation kshell_turn := (kshell_turn lit cmd_buf prompt lnbuf junk fuel lua secd start1 evs1 start2 evs2 other).
Abbreviation kshell_do := (kshell_do lit prompt lnbuf junk fuel lua secd start1 evs1 start2 evs2 other).
Abbreviation handler := (handler lit prompt lnbuf junk fuel start1 evs1 start2 evs2 other).

Lemma get_console w dev t : TTY.theActiveTTY w = TTY.CONSOLE_TTY -> TTYP.at_line w dev t [] -> TTY.get_tty_device w TTY.CONSOLE_TTY = Some dev.
Proof. intros Ha Hl. unfold TTY.get_tty_device. cbn. pose proof (TTYP.al_list _ _ _ _ Hl) as E. rewrite Ha in E. cbn in E. by rewrite E. Qed.

(** The handlers of the terminal are called on every key. *)
Definition listening (kb : KB.kbd) : KB.kbd := KB.kbd_set_onrelease (KB.kbd_set_onpress kb (Some KB.tty_keyboard_handler)) (Some KB.tty_keyboard_handler).

(** [term] is what reading [line] leaves of the terminal after the prompt was
    written to the console: the prompt is there as the abstract terminal says. *)
Definition prompted k (t : TTY.tty_device) (irqs line rest : list Z) (term : TTY.world) : Prop :=
  exists pt after s' nread, cstr (s_mem k) prompt pt /\
    TTY.tty_write (TTY.tt (s_term k)) TTY.CONSOLE_TTY (pt ++ after) (Z.of_nat (length pt)) = Some (TTY.set_scr (TTY.tt (s_term k)) s', 0) /\
    (Forall SCG.printable pt -> forall g, SCG.shows (TTY.tty_vcs t) (TTY.scr (TTY.tt (s_term k))) g -> SCG.shows (TTY.tty_vcs t) s' (fold_left SCG.g_char pt g)) /\
    TTY.tty_read (TTY.mk_world (listening (TTY.kb (s_term k))) (TTY.set_scr (TTY.tt (s_term k)) s')) TTY.CONSOLE_TTY CMD_SIZE irqs = Some (TTY.Returns term 0 (line ++ [10]) nread rest).

(** Writing the prompt. *)
Lemma prompt_written k dev t K : shell_ok k dev t K -> exists pt after s', cstr (s_mem k) prompt pt /\ bytes (s_mem k) prompt PROMPT_BUF_SIZE = pt ++ after /\ strlen fuel (s_mem k) prompt = Some (Z.of_nat (length pt)) /\
  TTY.tty_write (TTY.tt (s_term k)) TTY.CONSOLE_TTY (pt ++ after) (Z.of_nat (length pt)) = Some (TTY.set_scr (TTY.tt (s_term k)) s', 0) /\
  TTYP.at_line (TTY.set_scr (TTY.tt (s_term k)) s') dev t [] /\
  (Forall SCG.printable pt -> forall g, SCG.shows (TTY.tty_vcs t) (TTY.scr (TTY.tt (s_term k))) g -> SCG.shows (TTY.tty_vcs t) s' (fold_left SCG.g_char pt g)).
Proof.
  intros [_ (pt & Hc & Ht & Hl & _) _ Ha Htty _]. unfold PROMPT_BUF_SIZE in Hl. pose proof (TTYP.al_dev _ _ _ _ Htty) as Hdev. pose proof (TTYP.al_vcs _ _ _ _ Htty) as Hvcs. pose proof (TTYP.al_screen _ _ _ _ Htty) as Hscr.
  assert (E : exists after, bytes (s_mem k) prompt PROMPT_BUF_SIZE = pt ++ after).
  { exists (bytes (s_mem k) (prompt + Z.of_nat (length pt)) (PROMPT_BUF_SIZE - Z.of_nat (length pt))). unfold PROMPT_BUF_SIZE. destruct Hc as [Hc _]. apply bytes_at_app in Hc as [Hc _].
    rewrite <- (BOOTP.bytes_eq _ _ _ Hc) at 1. unfold bytes. rewrite <- map_app, <- seqZ_app by lia. f_equal. f_equal. lia. }
  destruct E as [after E0]. destruct (TTYP.dev_write_text (TTY.tt (s_term k)) dev t pt after) as (s' & E & Hw & _); try done. exists pt, after, s'. split; [done|]. split; [done|]. split; [apply strlen_correct; [done|lia]|]. split; [|split].
  - unfold TTY.tty_write. rewrite (get_console _ dev t Ha Htty), E. done.
  - destruct Htty. by constructor.
  - intros Hpr g Hg. destruct (SCG.dev_write_grid (TTY.tt (s_term k)) dev t pt after g Hdev Hvcs Hscr Hpr Hg) as (s2 & E2 & _ & Hs2 & _). rewrite E in E2. unfold TTY.set_scr in E2. injection E2 as <-. exact Hs2.
Qed.

(** The line typed is the command, in the buffer. *)
Lemma turn_reads k dev t K irqs K' line rest : shell_ok k dev t K -> TTY.start (TTY.tty_inpq t) + Z.of_nat (length irqs) < 512 -> Forall TTYP.plain_code irqs ->
  TTYP.typed K [] irqs = Some (K', line, rest) -> Z.of_nat (length line) < CMD_SIZE -> str_bytes line ->
  exists m w t', kshell_turn k irqs = kshell_do (set_sterm (set_smem k m) w) cmd_buf rest /\ cstr m cmd_buf line /\ buf_only (s_mem k) m /\
    shell_ok (set_sterm (set_smem k m) w) dev t' K' /\ TTY.start (TTY.tty_inpq t') + Z.of_nat (length rest) < 512 /\ prompted k t irqs line rest w.
Proof.
  intros Hok Hs Hp Ht Hl Hb. destruct (prompt_written k dev t K Hok) as (pt0 & after & s' & Hpc & E0 & E1 & E2 & Htty & Hgrid). destruct Hok as [Hlits Hpr Hbuf Ha _ Hk]. unfold CMD_SIZE in Hl.
  unfold Kshell.KS.kshell_turn. rewrite E1, E0. cbn [mbind option_bind]. rewrite E2. cbn [mbind option_bind Z.eqb negb set_sterm s_term TTY.kb TTY.tt].
  set (w0 := TTY.mk_world (KB.kbd_set_onrelease _ _) _). destruct (TTYP.line_read w0 K dev t [] CMD_SIZE irqs K' line rest) as (w' & t' & E & Hk' & Ha' & Hv & Hst); try done.
  { constructor; [reflexivity|right; reflexivity|exact Hk]. } { unfold CMD_SIZE. lia. }
  assert (Erd : TTY.tty_read w0 TTY.CONSOLE_TTY CMD_SIZE irqs = Some (TTY.Returns w' 0 (line ++ [10]) (Some (Z.of_nat (length line) + 1)) rest)) by (unfold TTY.tty_read; by rewrite (get_console (TTY.tt w0) dev t Ha Htty), E).
  rewrite Erd. cbn [mbind option_bind default set_sterm s_mem].
  change (id (Z.of_nat (length line) + 1)) with (Z.of_nat (length line) + 1).
  replace (cmd_buf + (Z.of_nat (length line) + 1) - 1) with (cmd_buf + Z.of_nat (length line)) by lia. unfold CMD_SIZE in Hbuf. rewrite u32_small by (unfold in_u32; lia).
  set (m0 := NT.put_bytes (s_mem k) cmd_buf (line ++ [10])). assert (Hm0 : forall i b, (line ++ [10]) !! i = Some b -> ldb m0 (cmd_buf + Z.of_nat i) = b).
  { intros i b Hi. unfold m0. rewrite NSP.ldb_put_bytes. pose proof (lookup_lt_Some _ _ _ Hi). rewrite (proj2 (Z.leb_le _ _)), (proj2 (Z.ltb_lt _ _)) by lia. cbn [andb]. replace (Z.to_nat (cmd_buf + Z.of_nat i - cmd_buf)) with i by lia. by rewrite Hi. }
  rewrite (Hm0 (length line) 10) by (by rewrite lookup_app_r, Nat.sub_diag by lia). cbn [Z.eqb Pos.eqb].
  exists (stb m0 (cmd_buf + Z.of_nat (length line)) 0), w', t'. split; [done|].
  assert (Hbo : buf_only (s_mem k) (stb m0 (cmd_buf + Z.of_nat (length line)) 0)).
  { intros a Hr Hh. unfold CMD_SIZE in Hr. rewrite ldb_stb. case_if; [lia|]. unfold m0. apply NSP.put_bytes_out. rewrite length_app. cbn [length]. lia. }
  split; [|split; [exact Hbo|]].
  - split; [|done]. intros i b Hi. rewrite ldb_stb. apply lookup_app_Some in Hi as [Hi|[Hr Hi]].
    + pose proof (lookup_lt_Some _ _ _ Hi). rewrite (proj2 (Z.eqb_neq _ _)) by lia. apply Hm0. by apply lookup_app_l_Some.
    + apply list_lookup_singleton_Some in Hi as [Hi <-]. by rewrite (proj2 (Z.eqb_eq _ _)) by lia.
  - split; [|split; [lia|by exists pt0, after, s', (Some (Z.of_nat (length line) + 1))]]. destruct Hpr as (pt & Hc & Htb & Hlp & Hap & Hhp). constructor; cbn [set_sterm set_smem s_mem s_term]; try done.
    + by apply (lits_kept (s_mem k)).
    + exists pt. split; [|done]. revert Hc. apply cstr_same. intros a Hr. unfold PROMPT_BUF_SIZE in *. apply Hbo; lia.
    + destruct Hv as [(Hv & _) _]. rewrite Hv. exact Ha.
    + by destruct Hk'.
Qed.

Lemma lits_command m : lits_ok m -> Forall (fun e => cstr m (lit e.1) e.1 /\ Z.of_nat (length e.1) < UINT_MAX) (main_commands lua secd).
Proof.
  intros Hl. assert (Hc : Forall (fun e : list Z * command => e.1 ∈ consts /\ (length e.1 < 8)%nat) (main_commands lua secd)) by (destruct lua, secd; const).
  apply (Forall_impl _ _ _ Hc). intros e [He Hlen]. split; [by apply Hl|unfold UINT_MAX; lia].
Qed.

Definition command_of (w : list Z) : option command := snd <$> (snd <$> list_find (fun e => w = e.1) (main_commands lua secd)).

(** The first word chooses the command, the rest is its argument. *)
Lemma do_dispatch k w n s irqs : lits_ok (s_mem k) -> 0 < cmd_buf /\ cmd_buf + CMD_SIZE <= hi -> cstr (s_mem k) cmd_buf (w ++ gap n ++ s) -> word w -> w <> [] -> unspaced s -> Z.of_nat (length (w ++ gap n ++ s)) < CMD_SIZE ->
  exists m, let arg := cmd_buf + Z.of_nat (length w + S n) in
    kshell_do k cmd_buf irqs = match command_of w with Some c => handler c arg (set_smem k m) irqs | None => Some (set_smem k m, Some irqs) end /\
    cstr m arg s /\ arg + Z.of_nat (length s) < cmd_buf + CMD_SIZE /\ buf_only (s_mem k) m.
Proof.
  intros Hl Hbuf Hc Hw Hne Hs Hlen. unfold CMD_SIZE, gap in *. rewrite !length_app, length_replicate in Hlen.
  destruct (get_args_ok w s n Hw Hs (s_mem k) fuel cmd_buf Hc ltac:(lia)) as (m & E & Hcw & Hcs & Ho). exists m. cbv zeta.
  assert (Hbo : buf_only (s_mem k) m) by (intros a Ha _; unfold CMD_SIZE in Ha; apply Ho; lia).
  split; [|split; [done|split; [lia|done]]]. unfold Kshell.KS.kshell_do. destruct w as [|c w]; [done|]. inversion Hw; subst. cbn [app] in Hc. rewrite (cstr_head _ _ c _) by (done || unfold ascii; lia).
  rewrite (proj2 (Z.eqb_neq c 0)) by lia. rewrite E. cbn [mbind option_bind].
  rewrite (find_command_ok lit fuel m cmd_buf (c :: w)); [done|done|lia|unfold UINT_MAX; lia|]. apply lits_command. by apply (lits_kept (s_mem k)).
Qed.

(** Tests of the constants one after the other. *)
Ltac test m arg Hl Hc :=
  match goal with |- context [starts lit fuel m arg ?t] =>
    rewrite (starts_ok lit fuel m arg _ t Hc (proj1 (Hl t ltac:(const)))) by lia; rewrite prefixb_ok;
    match goal with |- context [prefixb t ?s] => let b := eval vm_compute in (prefixb t s) in change (prefixb t s) with b end; cbn [mbind option_bind]
  end.

Lemma spaces_ok m p n s : cstr m p (replicate n 32 ++ s) -> unspaced s -> (n < fuel)%nat -> spaces fuel m p = Some (p + Z.of_nat n).
Proof. intros Hc Hs Hn. unfold spaces. by rewrite (skip_spaces_ok m s Hs n fuel p Hc Hn). Qed.


(** Past the name of the subcommand and the blanks behind it. *)
Lemma sub_arg m arg (t : list Z) n g s : n = Z.of_nat (length t) -> cstr m arg (t ++ gap g ++ s) -> unspaced s -> (length (t ++ gap g ++ s) < fuel)%nat -> spaces fuel m (arg + n) = Some (arg + n + Z.of_nat (S g)) /\ cstr m (arg + n + Z.of_nat (S g)) s.
Proof.
  intros -> Hc Hs Hf. unfold gap in *. rewrite !length_app, length_replicate in Hf. apply cstr_suffix in Hc. split; [by apply (spaces_ok _ _ _ s); [..|lia]|]. apply cstr_suffix in Hc. by rewrite length_replicate in Hc.
Qed.




Lemma word_unspaced s r : word s -> s <> [] -> unspaced (s ++ r).
Proof. by intros []. Qed.



Abbreviation kshell_vfs := (kshell_vfs lit lnbuf junk fuel).


Lemma shell_ok_kept k k' dev t K : shell_ok k dev t K -> buf_only (s_mem k) (s_mem k') -> s_term k' = s_term k -> shell_ok k' dev t K.
Proof.
  intros [Hl (pt & Hc & Hpt) Hb Ha Ht Hk] Hbo Et. constructor; rewrite ?Et; try done; [by apply (lits_kept (s_mem k))|]. exists pt. split; [|done].
  destruct Hpt as (_ & Hlp & Hap & Hhp). unfold PROMPT_BUF_SIZE in *. revert Hc. apply cstr_same. intros a Hr. apply Hbo; lia.
Qed.



(** A typed line that begins with the name of a command reaches its handler. *)
Lemma turn_dispatches k dev t K irqs K' w n s rest : shell_ok k dev t K -> TTY.start (TTY.tty_inpq t) + Z.of_nat (length irqs) < 512 -> Forall TTYP.plain_code irqs ->
  TTYP.typed K [] irqs = Some (K', w ++ gap n ++ s, rest) -> Z.of_nat (length (w ++ gap n ++ s)) < CMD_SIZE -> str_bytes s -> word w -> w <> [] -> unspaced s ->
  exists m term t', let arg := cmd_buf + Z.of_nat (length w + S n) in let k1 := set_sterm (set_smem k m) term in
    kshell_turn k irqs = match command_of w with Some c => handler c arg k1 rest | None => Some (k1, Some rest) end /\
    cstr m arg s /\ arg + Z.of_nat (length s) < cmd_buf + CMD_SIZE /\ shell_ok k1 dev t' K' /\ TTY.start (TTY.tty_inpq t') + Z.of_nat (length rest) < 512 /\ prompted k t irqs (w ++ gap n ++ s) rest term.
Proof.
  intros Hok Hst Hp Ht Hlen Hsb Hw Hne Hs. assert (Hb : str_bytes (w ++ gap n ++ s)).
  { apply Forall_app. split; [by apply word_bytes|]. apply Forall_app. split; [apply Forall_replicate; lia|done]. }
  destruct (turn_reads k dev t K irqs K' _ rest Hok Hst Hp Ht Hlen Hb) as (m & term & t' & E & Hc & Hbo & Hok1 & Hst1 & Hpm).
  destruct (do_dispatch (set_sterm (set_smem k m) term) w n s rest) as (m' & E' & Hc' & Harg & Hbo'); try done; [apply Hok1|destruct (so_buf _ _ _ _ Hok1); lia|].
  exists m', term, t'. cbv zeta. rewrite E, E'. split; [done|]. split; [done|]. split; [done|]. split; [|done].
  by apply (shell_ok_kept (set_sterm (set_smem k m) term)).
Qed.


(** ** Setting a neighbour *)

Lemma no_digit_blank base : no_digit base 32. Proof. split; [done|]. cbn. by rewrite andb_false_r. Qed.
Lemma no_digit_end base : no_digit base 0. Proof. split; [done|]. cbn. by rewrite andb_false_r. Qed.

(** The arguments of "net neigh ... set". *)
Definition neigh_line (idx : list Z) (g1 g2 g3 : nat) (ip mac : list (list Z)) : list Z :=
  idx ++ gap g1 ++ txt "set" ++ gap g2 ++ octets_text 46 ip ++ gap g3 ++ octets_text 58 mac.

Abbreviation kshell_net_neigh := (kshell_net_neigh lit junk fuel).

Lemma octets_some base sep texts l : Forall2 (number base) texts l -> l <> [] -> octets_text sep texts <> [].
Proof. intros [|ds x texts' l' [Hd _ _ _] Hl] Hne; [done|]. cbn [octets_text]. destruct ds; [done|]. by destruct texts'. Qed.

(** What stands behind the digits of a number or of an address. *)
Lemma chr_after m p s t c : cstr m p (s ++ c :: t) -> ascii c -> CS.chr m (p + Z.of_nat (length s)) = c.
Proof. intros Hc%cstr_suffix Ha. by apply (cstr_head _ _ c t). Qed.

Lemma test_equals m p s t : lits_ok m -> cstr m p s -> t ∈ consts -> (length s < 256)%nat -> (length t < 256)%nat -> equals lit fuel m p t = Some (bool_decide (s = t)).
Proof. intros Hl Hc Ht Hs Hlt. apply equals_ok; [done|by apply Hl|lia|unfold UINT_MAX; lia|unfold UINT_MAX; lia]. Qed.

Hypothesis Hjunk : forall i, in_s32 (junk i).

Lemma neigh_set_ok k p idx i g1 g2 g3 ip a b c d mac l iface : lits_ok (s_mem k) -> 0 < p -> cstr (s_mem k) p (neigh_line idx g1 g2 g3 ip mac) -> (length (neigh_line idx g1 g2 g3 ip mac) < 256)%nat ->
  number 10 idx i -> ip_text ip a b c d -> mac_text mac l -> NS.net_interface_by_index (s_net k) (u32 i) = iface -> iface <> 0 ->
  kshell_net_neigh k p = (n ← NS.net_neighbor_remember (s_net k) iface (DH.IP4 a b c d) l; Some (set_snet k n)).
Proof.
  intros Hl Hp Hc Hlen Hi Hip Hmac Hif Hif0. unfold neigh_line in Hc, Hlen. unfold Kshell.KS.kshell_net_neigh. set (m := s_mem k) in *.
  rewrite !length_app in Hlen. unfold gap in Hlen. rewrite !length_replicate in Hlen. change (length (txt "set")) with 3%nat in Hlen.
  pose proof (digits_word 10 idx i ltac:(lia) Hi) as Hwi. pose proof Hc as [Hb0 _]. apply bytes_at_app in Hb0 as [Hb0 _]. apply bytes_at_app in Hb0 as [Hb0 _].
  rewrite (sscan_digits fuel m p 10 idx i (-1) ltac:(lia) Hi Hb0) by (lia || (rewrite (chr_after m p idx (replicate g1 32 ++ txt "set" ++ gap g2 ++ octets_text 46 ip ++ gap g3 ++ octets_text 58 mac) 32) by (done || unfold ascii; lia); apply no_digit_blank)).
  assert (Hni : p + Z.of_nat (length idx) <> p) by (destruct Hi as [Hne _ _ _]; destruct idx; [done|cbn [length]; lia]).
  cbn [to_opt mbind option_bind]. rewrite (proj2 (Z.eqb_neq _ _) Hni). cbn [negb andb].
  apply cstr_suffix in Hc. set (p1 := p + Z.of_nat (length idx)) in *. set (r2 := octets_text 46 ip ++ gap g3 ++ octets_text 58 mac) in *.
  rewrite (skip_gaps_ok m (txt "set" ++ gap g2 ++ r2)) with (n := S g1) by (done || lia). cbn [mbind option_bind].
  apply cstr_suffix in Hc. unfold gap at 1 in Hc. rewrite length_replicate in Hc. set (p2 := p1 + Z.of_nat (S g1)) in *. rewrite Hif, (proj2 (Z.eqb_neq iface 0)) by done.
  assert (Hl2 : (length (txt "set" ++ gap g2 ++ r2) < 256)%nat) by (unfold r2, gap; rewrite !length_app, !length_replicate; change (length (txt "set")) with 3%nat; lia).
  assert (Hne : forall t : list Z, head t <> Some 115 -> bool_decide (txt "set" ++ gap g2 ++ r2 = t) = false) by (intros t Ht; apply bool_decide_eq_false; intros E; apply Ht; by rewrite <- E).
  rewrite !(test_equals m p2 _ _ Hl Hc) by (const || lia || (vm_compute; lia)). rewrite !Hne by done. cbn [mbind option_bind orb].
  repeat test m p2 Hl Hc. unfold space. change (p2 + 3) with (p2 + Z.of_nat (length (txt "set"))). rewrite (chr_after m p2 (txt "set") (replicate g2 32 ++ r2) 32) by (done || unfold ascii; lia).
  change (isspace 32) with (Some 2048). cbn [mbind option_bind Z.eqb negb].
  apply cstr_suffix in Hc. apply cstr_cons in Hc as (_ & _ & Hc). change (p2 + Z.of_nat (length (txt "set")) + 1) with (p2 + 3 + 1) in Hc. replace (p2 + 3 + 1) with (p2 + 4) in Hc by lia.
  assert (Hw1 : word (octets_text 46 ip)) by (destruct Hip as [Hn _]; by eapply octets_word; [| |exact Hn]). assert (Hne1 : octets_text 46 ip <> []) by (destruct Hip as [Hn _]; by eapply octets_some).
  assert (Hw2 : word (octets_text 58 mac)) by (destruct Hmac as [Hn _]; by eapply octets_word; [| |exact Hn]).
  assert (Hne2 : octets_text 58 mac <> []) by (destruct Hmac as (Hn & _ & Hl'); eapply octets_some; [exact Hn|by intros ->]).
  fold (replicate g2 32) in Hc. rewrite (skip_gaps_ok m r2) with (n := g2); [|by apply word_unspaced|done|lia]. cbn [mbind option_bind].
  apply cstr_suffix in Hc. rewrite length_replicate in Hc. set (p3 := p2 + 4 + Z.of_nat g2) in *.
  rewrite (get_ipv4_ok fuel m p3 0 ip a b c d (gap g3 ++ octets_text 58 mac)) by (done || lia || (cbv zeta; cbn [Nat.add]; rewrite (chr_after m p3 (octets_text 46 ip) (replicate g3 32 ++ octets_text 58 mac) 32) by (done || unfold ascii; lia); apply no_digit_blank)).
  cbn [mbind option_bind Nat.add]. rewrite (proj2 (Z.eqb_neq _ 0)) by lia. apply cstr_suffix in Hc. unfold gap in Hc.
  rewrite (skip_gaps_ok m (octets_text 58 mac)) with (n := S g3); [|rewrite <- (app_nil_r (octets_text 58 mac)); by apply word_unspaced|done|lia]. cbn [mbind option_bind].
  apply cstr_suffix in Hc. rewrite length_replicate in Hc. rewrite <- (app_nil_r (octets_text 58 mac)) in Hc. set (p4 := p3 + Z.of_nat (length (octets_text 46 ip)) + Z.of_nat (S g3)) in *.
  rewrite (get_macaddr_ok fuel m p4 0 mac l []) by (done || lia || (apply cstr_suffix in Hc; cbn [Nat.add]; rewrite (cstr_end _ _ Hc); apply no_digit_end)).
  cbn [mbind option_bind Nat.add]. by rewrite (proj2 (Z.eqb_neq _ 0)) by lia.
Qed.

Lemma gap_bytes n : str_bytes (gap n).
Proof. apply Forall_replicate. lia. Qed.


Lemma neigh_line_bytes idx i g1 g2 g3 ip a b c d mac l : number 10 idx i -> ip_text ip a b c d -> mac_text mac l -> str_bytes (neigh_line idx g1 g2 g3 ip mac).
Proof.
  intros Hi [Hip _] (Hmac & _). unfold neigh_line. repeat (apply Forall_app; split); first [const|apply gap_bytes|apply word_bytes].
  - by apply (digits_word 10 idx i).
  - by eapply octets_word; [| |exact Hip].
  - by eapply octets_word; [| |exact Hmac].
Qed.

Lemma neigh_turn k dev t K irqs K' g4 g5 idx i g1 g2 g3 ip a b c d mac l iface rest : shell_ok k dev t K -> TTY.start (TTY.tty_inpq t) + Z.of_nat (length irqs) < 512 -> Forall TTYP.plain_code irqs ->
  let args := txt "neigh" ++ gap g5 ++ neigh_line idx g1 g2 g3 ip mac in
  TTYP.typed K [] irqs = Some (K', txt "net" ++ gap g4 ++ args, rest) -> Z.of_nat (length (txt "net" ++ gap g4 ++ args)) < CMD_SIZE ->
  number 10 idx i -> ip_text ip a b c d -> mac_text mac l -> NS.net_interface_by_index (s_net k) (u32 i) = iface -> iface <> 0 ->
  exists k' t', kshell_turn k irqs = (n ← NS.net_neighbor_remember (s_net k) iface (DH.IP4 a b c d) l; Some (set_snet k' n, Some rest)) /\
    shell_ok k' dev t' K' /\ TTY.start (TTY.tty_inpq t') + Z.of_nat (length rest) < 512 /\ s_vfs k' = s_vfs k /\ s_heap k' = s_heap k /\ s_io k' = s_io k.
Proof.
  intros Hok Hst Hp args Ht Hlen Hi Hip Hmac Hif Hif0. pose proof (neigh_line_bytes idx i g1 g2 g3 ip a b c d mac l Hi Hip Hmac) as Hnb.
  assert (Hsb : str_bytes args) by (unfold args; apply Forall_app; split; [const|]; apply Forall_app; split; [apply gap_bytes|done]).
  destruct (turn_dispatches k dev t K irqs K' (txt "net") g4 args rest Hok Hst Hp Ht Hlen Hsb ltac:(const) ltac:(done) ltac:(done)) as (m & term & t' & E & Hc & Harg & Hok1 & Hst1 & Hpm). cbv zeta in *.
  rewrite E. clear E. assert (command_of (txt "net") = Some K_net) as -> by (unfold command_of; by destruct lua, secd). cbn [Kshell.KS.handler kshell_call_subcommand net_cmds].
  pose proof (so_buf _ _ _ _ Hok1) as Hbuf. unfold CMD_SIZE in *. set (k1 := set_sterm (set_smem k m) term) in *. pose proof (so_lits _ _ _ _ Hok1) as Hl. change (s_mem k1) with m in *.
  set (arg := cmd_buf + Z.of_nat (length (txt "net") + S g4)) in *. assert (Hla : (length args < 256)%nat) by (rewrite !length_app in Hlen; lia).
  assert (Hu : unspaced (neigh_line idx g1 g2 g3 ip mac)) by (unfold neigh_line; apply word_unspaced; [by apply (digits_word 10 idx i)|by destruct Hi]).
  unfold args in Hc, Hla. repeat test m arg Hl Hc. destruct (sub_arg m arg (txt "neigh") 5 g5 _ eq_refl Hc Hu ltac:(lia)) as [E2 Hc2].
  change (Z.of_nat (length (txt "neigh"))) with 5. rewrite E2. cbn [mbind option_bind run_sub].
  assert (Ha0 : 0 < arg) by (unfold arg; lia). rewrite (neigh_set_ok k1 _ idx i g1 g2 g3 ip a b c d mac l iface Hl); [|lia|exact Hc2|rewrite !length_app in Hla; lia|done|done|done|exact Hif|done].
  exists k1, t'. split; [change (s_net k1) with (s_net k); by destruct (NS.net_neighbor_remember (s_net k) iface (DH.IP4 a b c d) l)|]. done.
Qed.

(** ** The theorems *)


(** C30: Typing "net neigh <index> set <ip> <mac>" at the shell makes the address a
    neighbour: the octets are read from the text, decimal ones between dots and
    hexadecimal ones of either case between colons, and afterwards the interface
    resolves exactly that IP address to exactly that hardware address.  Other
    interfaces keep their tables, and other addresses of this one are resolved as
    before unless the oldest place of its table was taken. *)
Theorem typed_neighbor_resolves k dev t K irqs K' g4 g5 idx i g1 g2 g3 ip a b c d mac l iface x rest : shell_ok k dev t K -> TTY.start (TTY.tty_inpq t) + Z.of_nat (length irqs) < 512 -> Forall TTYP.plain_code irqs ->
  let args := txt "neigh" ++ gap g5 ++ neigh_line idx g1 g2 g3 ip mac in
  TTYP.typed K [] irqs = Some (K', txt "net" ++ gap g4 ++ args, rest) -> Z.of_nat (length (txt "net" ++ gap g4 ++ args)) < CMD_SIZE ->
  number 10 idx i -> ip_text ip a b c d -> mac_text mac l ->
  NS.net_interface_by_index (s_net k) (u32 i) = iface -> iface <> 0 -> NS.ifaces (s_net k) !! iface = Some x -> NTP.nb_wf x ->
  let addr := DH.IP4 a b c d in addr <> 0 -> addr <> NT.IP_BROADCAST ->
  exists k' t', kshell_turn k irqs = Some (k', Some rest) /\ shell_ok k' dev t' K' /\ s_vfs k' = s_vfs k /\ s_heap k' = s_heap k /\ s_io k' = s_io k /\
    NS.net_neighbor_resolve (s_net k') iface addr = Some l /\
    (forall p, p <> iface -> NS.ifaces (s_net k') !! p = NS.ifaces (s_net k) !! p) /\
    (forall o, o <> 0 -> o <> addr -> NS.net_neighbor_resolve (s_net k') iface o = NS.net_neighbor_resolve (s_net k) iface o \/
      exists nb, NT.neighbors x !! Z.to_nat (NT.neighbors_head x) = Some nb /\ NT.nb_ip nb = o).
Proof.
  intros Hok Hst Hp args Ht Hlen Hi Hip Hmac Hif Hif0 Hx Hwf addr Ha0 Hab.
  destruct (neigh_turn k dev t K irqs K' g4 g5 idx i g1 g2 g3 ip a b c d mac l iface rest Hok Hst Hp Ht Hlen Hi Hip Hmac Hif Hif0) as (k' & t' & E & H1 & H2 & H3 & H4 & H5). fold addr in E.
  unfold NS.net_neighbor_remember in E. rewrite Hx in E. cbn [mbind option_bind] in E. eexists _, t'. split; [exact E|]. split; [by apply (shell_ok_kept k')|]. do 3 (split; [done|]). cbn [set_snet s_net].
  unfold NS.net_neighbor_resolve, NS.net_neighbor_lookup_on. rewrite (proj2 (Z.eqb_neq iface 0)) by done. cbn [negb NS.set_iface NS.ifaces]. rewrite lookup_insert_eq. cbn [mbind option_bind]. split; [|split].
  - rewrite (proj2 (Z.eqb_neq addr _)) by done. destruct (NTP.remember_lookup x addr l (addr + 1 + if decide (addr + 1 = 0) then 1 else 0) Hwf Ha0 Hab) as (_ & E1 & _); [case_decide; lia|case_decide; lia|]. by rewrite E1.
  - intros p Hne. by rewrite lookup_insert_ne.
  - intros o Ho0 Hoa. destruct (o =? NT.IP_BROADCAST); [by left|]. rewrite Hx. cbn [mbind option_bind]. destruct (NTP.remember_lookup x addr l o Hwf Ha0 Hab Ho0 Hoa) as (_ & _ & [E1|(nb & E1 & E2 & _)]); [left; by rewrite E1|right; by exists nb].
Qed.

End Turns.
(** ** A shell on a kernel *)

#[local] Existing Instance KH.ff_heap.
#[local] Existing Instance DHP.demo_drv.

Lemma cstr_bytes m p s : bytes m p (Z.of_nat (S (length s))) = s ++ [0] -> str_bytes s -> cstr m p s.
Proof.
  intros E Hs. split; [|done]. rewrite <- E. intros i b Hi. unfold bytes in Hi. rewrite list_lookup_fmap in Hi. apply fmap_Some in Hi as (a & Ha & ->). apply lookup_seqZ in Ha as [-> _]. done.
Qed.

Definition demo_lit (t : list Z) : Z := 2200 + 16 * Z.of_nat (from_option fst 0%nat (list_find (fun c => t = c) consts)).
Definition demo_smem : bmem := put (fold_right (fun t m => put m (demo_lit t) t) ∅ consts) 2048 (txt "|< ").
Definition demo_heap : FF.alloc_t := Eval vm_compute in default FFP.demo0 (FF.firstfit_new ∅ 4096 65536).
Definition demo_snet : NS.net (list (Z * Z)) := NS.mk_net ∅ [] {[ 8 := NTP.demo_iface ]} [8] 0 ∅.
Definition demo_shell : shell := mk_shell demo_smem (VFSP.demo_vfs RFP.demo_fs0) demo_snet demo_heap TTYP.demo_world [].

Lemma demo_shell_ok : shell_ok demo_lit 1024 2048 4096 demo_shell 0 TTYP.demo_tty ∅.
Proof.
  constructor.
  - intros t Ht. assert (Hall : Forall (fun t => bytes demo_smem (demo_lit t) (Z.of_nat (S (length t))) = t ++ [0] /\ str_bytes t /\ 1280 <= demo_lit t /\ demo_lit t + Z.of_nat (length t) < 4096) consts) by (apply (bool_decide_unpack _); vm_compute; exact I).
    apply (proj1 (Forall_forall _ _) Hall) in Ht as (E & Hb & Hlo & Hhi). split; [by apply cstr_bytes|]. unfold CMD_SIZE. split; [right; lia|lia].
  - exists (txt "|< "). split; [apply cstr_bytes; [vm_compute; reflexivity|const]|]. split; [|unfold PROMPT_BUF_SIZE, CMD_SIZE; cbn; lia]. change (txt "|< ") with [124; 60; 32]. repeat (apply Forall_cons_2; [split; lia|]). apply Forall_nil_2.
  - unfold CMD_SIZE. lia.
  - reflexivity.
  - exact TTYP.demo_at_line.
  - exact TTYP.demo_keys.
Qed.


Definition demo_other (c : command) (arg : Z) (k : @shell (RF.ramfs (H := FF.alloc_t)) unit (list (Z * Z)) FF.alloc_t) (irqs : list Z) : option (shell * option (list Z)) := Some (k, Some irqs).

Abbreviation demo_turn := (kshell_turn demo_lit 1024 2048 512 (fun _ => 0) 300 false false 0 [] 0 [] demo_other).

(** "net neigh 0 set 10.0.0.7 2:0:0:0:0:ab" and Enter, with Shift for the colons. *)
Definition demo_codes : list Z :=
  [49; 18; 20; 57; 49; 18; 23; 34; 35; 57; 11; 57; 31; 18; 20; 57; 2; 11; 52; 11; 52; 11; 52; 8; 57; 3; 42; 39; 170; 11; 42; 39; 170; 11; 42; 39; 170; 11; 42; 39; 170; 11; 42; 39; 170; 30; 48; 28].

Lemma typed_neighbor_resolves_witness :
  exists k' t' K', demo_turn demo_shell demo_codes = Some (k', Some []) /\ shell_ok demo_lit 1024 2048 4096 k' 0 t' K' /\
    NS.net_neighbor_resolve (s_net k') 8 (DH.IP4 10 0 0 7) = Some [2; 0; 0; 0; 0; 171] /\
    NS.net_neighbor_resolve (s_net k') 8 167772161 = Some [1; 1; 1; 1; 1; 1].
Proof.
  assert (Hp : Forall TTYP.plain_code demo_codes) by (unfold demo_codes; repeat (apply Forall_cons_2; [unfold TTYP.plain_code; lia|]); constructor).
  assert (Hn : forall base ds x, 2 <= base <= 36 -> ds <> [] -> forallb (fun c => bool_decide (0 <= c < 128 /\ (48 <= toupper c <= 57 \/ (10 < base /\ 65 <= toupper c < 65 + base - 10)) /\ unhex (toupper c) < base)) ds = true -> dval base 0 (map toupper ds) = x -> x < 2 ^ 31 -> number base ds x).
  { intros base ds x Hb Hne Hd Hv Hx. constructor; [done| |done|done]. apply Forall_forall. intros c Hc. rewrite forallb_forall in Hd. apply list_elem_of_In in Hc. apply Hd, bool_decide_eq_true in Hc as (H1 & H2 & H3). exact (conj H1 (conj H2 H3)). }
  assert (Hok8 : forall l, forallb (fun x => bool_decide (in_u8 x)) l = true -> Forall in_u8 l).
  { intros l Hl. apply Forall_forall. intros x Hx. rewrite forallb_forall in Hl. apply list_elem_of_In in Hx. by apply Hl, bool_decide_eq_true in Hx. }
  set (K' := ({[28; 48; 30; 39; 3; 8; 52; 2; 31; 11; 35; 34; 23; 57; 20; 18; 49]} : gset Z)).
  destruct (typed_neighbor_resolves demo_lit 1024 2048 512 (fun _ => 0) 300 false false 4096 0 [] 0 [] demo_other ltac:(lia) ltac:(intros i; unfold in_s32; lia) demo_shell 0 TTYP.demo_tty ∅ demo_codes K'
    0 0 [48] 0 0 0 0 [[49; 48]; [48]; [48]; [55]] 10 0 0 7 [[50]; [48]; [48]; [48]; [48]; [97; 98]] [2; 0; 0; 0; 0; 171] 8 NTP.demo_iface [] demo_shell_ok ltac:(cbn; lia) Hp
    ltac:(vm_compute; reflexivity) ltac:(vm_compute; reflexivity)) as (k' & t' & E & Hok & _ & _ & _ & H1 & _ & H2).
  - by apply Hn.
  - split; [|by apply Hok8]. repeat (apply Forall2_cons; split; [by apply Hn|]). constructor.
  - split; [|split; [by apply Hok8|reflexivity]]. repeat (apply Forall2_cons; split; [by apply Hn|]). constructor.
  - reflexivity.
  - discriminate.
  - reflexivity.
  - exact NTP.demo_nb_wf.
  - discriminate.
  - discriminate.
  - exists k', t', K'. split; [exact E|]. split; [exact Hok|]. split; [exact H1|].
    destruct (H2 167772161 ltac:(discriminate) ltac:(discriminate)) as [->|(nb & E1 & E2)]; [reflexivity|]. exfalso. vm_compute in E1. injection E1 as <-. discriminate E2.
Defined.
(** ** Reading a line by keys *)

Section Readline.
Variables (lit : list Z -> Z) (fuel : nat) (lua secd : bool).

(** The line in the buffer while it is typed. *)
Definition key_edit (size : Z) (line : list Z) (c : Z) : list Z :=
  if c =? 8 then removelast line else if c =? 12 then line else if Z.of_nat (length line) + 1 <? size then line ++ [c] else line.

Definition plain_key (c : Z) : Prop := 0 < c < 256 /\ c <> 9 /\ c <> 10.

(** Keys other than Tab are edited into the buffer up to Enter: the line is the
    one they spell, its size is respected, and no byte outside the buffer is
    written. *)
Lemma readline_types keys : forall m buf size line rest, Forall plain_key keys -> 0 < size -> str_bytes line -> bytes_at m buf line -> Z.of_nat (length line) < size ->
  exists m', readline_loop lit fuel lua secd (keys ++ 10 :: rest) m buf size (buf + Z.of_nat (length line)) = Some (m', Some rest) /\
    cstr m' buf (foldl (key_edit size) line keys) /\ (forall a, a < buf \/ buf + size <= a -> ldb m' a = ldb m a).
Proof.
  induction keys as [|c keys IH]; intros m buf size line rest Hk Hs Hl Hb Hlen; cbn [app readline_loop foldl].
  - eexists. split; [reflexivity|]. split.
    + split; [|done]. apply bytes_at_app. split; [eapply bytes_at_ext; [|exact Hb]; intros a Ha; rewrite ldb_stb; case_if; [lia|done]|]. apply bytes_at_cons. split; [by rewrite ldb_stb, Z.eqb_refl|apply bytes_at_nil].
    + intros a Ha. rewrite ldb_stb. case_if; [lia|done].
  - inversion Hk as [|? ? (Hc & Hc9 & Hc10) Hk']; subst. rewrite (proj2 (Z.eqb_neq c 10)) by done. unfold key_edit at 2. destruct (Z.eqb_spec c 8) as [->|H8].
    + destruct line as [|x line _] using rev_ind; [cbn [length]; rewrite Z.add_0_r, Z.eqb_refl; destruct (IH m buf size [] rest) as (m' & E & H); try done; rewrite Z.add_0_r in E; by exists m'|].
      rewrite removelast_last. rewrite length_app in *. cbn [length] in *. rewrite (proj2 (Z.eqb_neq _ buf)) by lia. replace (buf + Z.of_nat (length line + 1) - 1) with (buf + Z.of_nat (length line)) by lia.
      apply Forall_app in Hl as [Hl _]. apply bytes_at_app in Hb as [Hb _]. apply IH; (done || lia).
    + destruct (Z.eqb_spec c 12) as [->|H12].
      * destruct (IH (stb m (buf + Z.of_nat (length line)) 0) buf size line rest) as (m' & E & Hc' & Ho); try done; [eapply bytes_at_ext; [|exact Hb]; intros a Ha; rewrite ldb_stb; case_if; [lia|done]|].
        exists m'. split; [exact E|]. split; [exact Hc'|]. intros a Ha. rewrite Ho, ldb_stb by done. case_if; [lia|done].
      * rewrite (proj2 (Z.eqb_neq c 9)) by done. replace (buf + Z.of_nat (length line) - buf + 1) with (Z.of_nat (length line) + 1) by lia. destruct (Z.ltb_spec (Z.of_nat (length line) + 1) size) as [Hlt|Hge]; [|by apply IH].
        destruct (IH (stb m (buf + Z.of_nat (length line)) (u8 c)) buf size (line ++ [c]) rest) as (m' & E & Hc' & Ho); try done.
        -- apply Forall_app. split; [done|]. by apply Forall_singleton.
        -- apply bytes_at_app. split; [eapply bytes_at_ext; [|exact Hb]; intros a Ha; rewrite ldb_stb; case_if; [lia|done]|]. apply bytes_at_cons. split; [rewrite ldb_stb, Z.eqb_refl; apply u8_small; unfold in_u8; lia|apply bytes_at_nil].
        -- rewrite length_app. cbn [length]. lia.
        -- rewrite length_app in E. cbn [length] in E. replace (buf + Z.of_nat (length line + 1)) with (buf + Z.of_nat (length line) + 1) in E by lia. exists m'. split; [exact E|]. split; [exact Hc'|]. intros a Ha. rewrite Ho, ldb_stb by done. case_if; [lia|done].
Qed.

End Readline.

(** ** Defects the model shows *)

(** "net ping" never sees the address that is typed: its handler takes the
    argument that is not passed. *)
Lemma ping_ignores_line {SB D N HT} {NDr : NS.NetDrv N} {KHp : KH.Heap HT} lit junk fuel start1 evs1 start2 evs2 (k : @shell SB D N HT) line line' :
  run_sub lit junk fuel start1 evs1 start2 evs2 Sub_ping k line = run_sub lit junk fuel start1 evs1 start2 evs2 Sub_ping k line'.
Proof. reflexivity. Qed.

(** "10.0.0." is an address whose last octet is what the variable held. *)
Lemma missing_octet : get_ipv4_opt 20 (put ∅ 16 (txt "10.0.0.")) 16 (fun _ => 7) 0 = Some (23, DH.IP4 10 0 0 7).
Proof. reflexivity. Qed.

(** Anything may stand before a number. *)
Lemma garbage_skipped : get_ipv4_opt 30 (put ∅ 16 (txt "ten 10.x0.?0.1")) 16 (fun _ => 7) 0 = Some (30, DH.IP4 10 0 0 1).
Proof. reflexivity. Qed.

(** G is a hexadecimal digit. *)
Lemma octet_of_g : get_macaddr_opt 30 (put ∅ 16 (txt "G:0:0:0:0:0")) 16 (fun _ => 7) [] = Some (27, [16; 0; 0; 0; 0; 0]).
Proof. reflexivity. Qed.

(** "heap alloc" without a number is noticed by the end of the text only: with
    other text there, 0 is taken. *)
Lemma no_number_is_zero : get_int_opt 20 (put ∅ 16 (txt " xyz")) 16 0 16 = Some (20, 0).
Proof. reflexivity. Qed.

(** Tab at the end of a full buffer writes the byte behind it. *)
Lemma tab_overruns : option_map (fun r => ldb r.1 20) (kshell_readline demo_lit 300 false false [113; 113; 113; 9; 10] (stb demo_smem 20 77) 16 4) = Some 0 /\ ldb (stb demo_smem 20 77) 20 = 77.
Proof. split; vm_compute; reflexivity. Qed.

(** Tab ends the text one byte behind the cursor, so that an erased character
    still counts: after "xn", twice backspace, "h" and Tab, "halt" is not found. *)
Lemma tab_sees_erased : option_map (fun r => bytes r.1 16 6) (kshell_readline demo_lit 300 false false [120; 110; 8; 8; 104; 9; 10] demo_smem 16 30) = Some [104; 0; 0; 0; 0; 0].
Proof. vm_compute. reflexivity. Qed.

End KSP.
