(* ===== verification/Sh.v ===== *)
(** * The user's shell and its jobs (lib/c/test/sh.c, include/sys/wait.h)

    Module [SHL]: the table of jobs, waiting for the children, the built-in
    commands and a turn of the main loop.

    What the kernel reports of the children comes as a list, one report for each
    call of [waitpid]; the other calls' results are parameters.  A pointer to a
    job is its place in the table, where alone jobs are kept.  Messages are left
    out.  [None] is a fault, an abort, or text longer than [fuel]. *)

From S2P Require Import Prelude CString Fmt.
From stdpp Require Import strings.
Import CS FMT.
#[local] Open Scope Z_scope.

Module SHL.

Definition COMMAND_SIZE : Z := 512.
Definition MAX_TOKENS : Z := COMMAND_SIZE / 2.
Definition MAX_JOBS : Z := 100.
Definition SIGCONT : Z := 19.

(** ** What a status says *)

Definition WTERMSIG (wstatus : Z) : Z := Z.land wstatus 127.
Definition WIFEXITED (wstatus : Z) : bool := WTERMSIG wstatus =? 0.
Definition WEXITSTATUS (wstatus : Z) : Z := Z.shiftr (Z.land wstatus 65280) 8.
Definition WIFSIGNALED (wstatus : Z) : bool := 0 <? Z.shiftr (s8 (Z.land wstatus 127 + 1)) 1.
(** The comparison binds tighter than the mask. *)
Definition WIFSTOPPED (wstatus : Z) : bool := negb (Z.land wstatus (Z.b2z (255 =? 127)) =? 0).
Definition WIFCONTINUED (wstatus : Z) : bool := wstatus =? 65535.

(** ** The table of jobs *)

Record job := mk_job { process_group : Z; stopped : bool }.

(** [jobs] is the array, NULL is [None]. *)
Record shell := mk_sh { self_pid : Z; foreground_group : Z; interactive : bool; jobs : list (option job); n_jobs : Z }.

Definition set_jobs (sh : shell) (l : list (option job)) (n : Z) : shell := mk_sh (self_pid sh) (foreground_group sh) (interactive sh) l n.

Definition shell_set_foreground (tcsetpgrp : Z -> Z) (sh : shell) (pgid : Z) : shell :=
  if negb (interactive sh) then sh
  else if tcsetpgrp pgid <? 0 then sh
  else mk_sh (self_pid sh) pgid (interactive sh) (jobs sh) (n_jobs sh).

(** The first place below [n] that [p] accepts, or [n]. *)
Fixpoint scan (p : option job -> bool) (n : nat) (l : list (option job)) : option nat :=
  match n with
  | O => Some 0%nat
  | S n => match l with [] => None | x :: l => if p x then Some 0%nat else option_map S (scan p n l) end
  end.

Definition is_null (x : option job) : bool := match x with None => true | _ => false end.
Definition of_group (pid : Z) (x : option job) : bool := match x with Some j => process_group j =? pid | None => false end.

(** [mem_ok] is whether [malloc] has memory: its result is used unchecked. *)
Definition shell_add_job (mem_ok : bool) (sh : shell) (pid : Z) : option (shell * nat) :=
  i ← scan is_null (Z.to_nat (n_jobs sh)) (jobs sh);
  if Z.of_nat i =? MAX_JOBS then None
  else
    let n := if Z.of_nat i =? n_jobs sh then n_jobs sh + 1 else n_jobs sh in
    if mem_ok then Some (set_jobs sh (<[i := Some (mk_job pid false)]> (jobs sh)) n, i) else None.

Definition shell_find_job (sh : shell) (pid : Z) : option (option nat) :=
  i ← scan (of_group pid) (Z.to_nat (n_jobs sh)) (jobs sh);
  Some (if Z.of_nat i =? n_jobs sh then None else Some i).

Definition shell_remove_job (sh : shell) (pid : Z) : option shell :=
  r ← shell_find_job sh pid;
  Some (match r with Some i => set_jobs sh (<[i := None]> (jobs sh)) (n_jobs sh) | None => sh end).

Definition set_stopped (sh : shell) (i : nat) (b : bool) : option shell :=
  x ← jobs sh !! i; j ← x; Some (set_jobs sh (<[i := Some (mk_job (process_group j) b)]> (jobs sh)) (n_jobs sh)).

Definition mark (sh : shell) (pid : Z) (b : bool) : option shell :=
  r ← shell_find_job sh pid;
  match r with Some i => set_stopped sh i b | None => Some sh end.

(** ** Waiting *)

(** The loop of [shell_run_foreground]: [reports] are the results of [waitpid]
    with the status each stores, and [wstatus] is the variable, which a failing
    call leaves.  Without a report the shell waits, and the second result is
    [None]. *)
Fixpoint wait_loop (sh : shell) (pid wstatus : Z) (reports : list (Z * Z)) : option (shell * option (list (Z * Z))) :=
  match reports with
  | [] => Some (sh, None)
  | (wpid, w) :: reports =>
      if wpid =? 0 then Some (sh, Some reports)
      else
        let wstatus := if wpid =? -1 then wstatus else w in
        sh ← (if WIFSTOPPED wstatus then mark sh wpid true else Some sh);
        if WIFSTOPPED wstatus && (wpid =? pid) then Some (sh, Some reports)
        else
          sh ← (if WIFEXITED wstatus then shell_remove_job sh wpid else Some sh);
          if WIFEXITED wstatus && (wpid =? pid) then Some (sh, Some reports)
          else
            sh ← (if WIFSIGNALED wstatus then shell_remove_job sh wpid else Some sh);
            if WIFSIGNALED wstatus && (wpid =? pid) then Some (sh, Some reports)
            else wait_loop sh pid wstatus reports
  end.

(** The signals sent come first. *)
Definition shell_run_foreground (tcsetpgrp : Z -> Z) (sh : shell) (i : nat) (wstatus0 : Z) (reports : list (Z * Z)) : option (list (Z * Z) * shell * option (list (Z * Z))) :=
  x ← jobs sh !! i; job ← x;
  let pid := process_group job in
  let kills := if stopped job then [(pid, SIGCONT)] else [] in
  sh ← (if stopped job then set_stopped sh i false else Some sh);
  '(sh, r) ← wait_loop sh pid wstatus0 reports;
  Some (kills, match r with Some _ => shell_set_foreground tcsetpgrp sh (self_pid sh) | None => sh end, r).

(** What happened in the background: the loop at the head of [main]'s loop ends
    with a report of 0 or of an error. *)
Fixpoint reap_loop (sh : shell) (reports : list (Z * Z)) : option (shell * list (Z * Z)) :=
  match reports with
  | [] => None
  | (wpid, w) :: reports =>
      if (wpid =? 0) || (wpid =? -1) then Some (sh, reports)
      else
        sh ← (if WIFEXITED w then shell_remove_job sh wpid
              else if WIFSIGNALED w then shell_remove_job sh wpid
              else if WIFSTOPPED w then mark sh wpid true
              else if WIFCONTINUED w then mark sh wpid false
              else Some sh);
        reap_loop sh reports
  end.

(** ** Built-in commands *)

Definition is_some_place (x : option job) : bool := negb (is_null x).

(** The job that "bg" and "fg" mean: [Some None] is an error message. *)
Definition chosen_job (fuel : nat) (m : bmem) (sh : shell) (tokens : list Z) : option (option nat) :=
  match tokens with
  | [_; t] =>
      n ← (if chr m t =? 37 then match atoi fuel m (t + 1) with Ok n => Some n | _ => None end else Some 0);
      x ← jobs sh !! Z.to_nat (u32 n);
      Some (match x with Some _ => Some (Z.to_nat (u32 n)) | None => None end)
  | [_] =>
      i ← scan is_some_place (Z.to_nat (n_jobs sh)) (jobs sh);
      x ← jobs sh !! i;
      Some (match x with Some _ => Some i | None => None end)
  | _ => Some None
  end.

(** Signals sent, the shell, what is left of the reports, and the result. *)
Definition builtin_bg (fuel : nat) (m : bmem) (sh : shell) (tokens : list Z) : option (list (Z * Z) * shell * Z) :=
  c ← chosen_job fuel m sh tokens;
  match c with
  | None => Some ([], sh, -1)
  | Some i =>
      x ← jobs sh !! i; job ← x;
      if stopped job then sh ← set_stopped sh i false; Some ([(process_group job, SIGCONT)], sh, 0) else Some ([], sh, 0)
  end.

Definition builtin_fg (fuel : nat) (tcsetpgrp : Z -> Z) (m : bmem) (sh : shell) (tokens : list Z) (wstatus0 : Z) (reports : list (Z * Z)) : option (list (Z * Z) * shell * option (list (Z * Z)) * Z) :=
  c ← chosen_job fuel m sh tokens;
  match c with
  | None => Some ([], sh, Some reports, -1)
  | Some i => '(kills, sh, r) ← shell_run_foreground tcsetpgrp sh i wstatus0 reports; Some (kills, sh, r, 0)
  end.

(** The words that "echo" prints; without one, an uninitialised pointer is read. *)
Definition builtin_echo (tokens : list Z) : option (list Z) :=
  match tokens with _ :: t :: ts => Some (t :: ts) | _ => None end.

(** The lines of "jobs": number, whether stopped, process. *)
Definition builtin_jobs (sh : shell) : list (nat * bool * Z) :=
  omap (fun '(i, x) => match x with Some j => Some (i, stopped j, process_group j) | None => None end) (imap pair (take (Z.to_nat (n_jobs sh)) (jobs sh))).

(** ** The main loop *)

Definition txt (s : String.string) : list Z := map (fun a => Z.of_nat (Ascii.nat_of_ascii a)) (String.list_ascii_of_string s).
Arguments txt _%_string.

Definition default_ifs : list Z := [32; 9; 13; 12; 10].
Definition builtins : list (list Z) := [txt "bg"; txt "echo"; txt "exit"; txt "fg"; txt "jobs"].

(** The tokens of the line; too many of them are none. *)
Fixpoint tokenize (n fuel : nat) (m : bmem) (s ifs token_ctx : Z) (tokens : list Z) : option (bmem * list Z) :=
  match n with
  | O => None
  | S n =>
      '(m, token_ctx, tok) ← strtok_r fuel m s ifs token_ctx;
      if tok =? NULL then Some (m, tokens)
      else
        let tokens := tokens ++ [tok] in
        if MAX_TOKENS - 1 <=? Z.of_nat (length tokens) then Some (m, []) else tokenize n fuel m NULL ifs token_ctx tokens
  end.

Fixpoint find_builtin (fuel : nat) (m : bmem) (lit : list Z -> Z) (l : list (list Z)) (tok : Z) : option (option (list Z)) :=
  match l with
  | [] => Some None
  | name :: l => c ← strcmp fuel m (lit name) tok; if c =? 0 then Some (Some name) else find_builtin fuel m lit l tok
  end.

(** The state in which [main] enters its loop; [foreground_group] is not set. *)
Definition sh_init (pid foreground : Z) (tty : bool) : shell := mk_sh pid foreground tty (replicate (Z.to_nat MAX_JOBS) None) 0.

(** What the turn did: signals sent, and the program started with its tokens. *)
Inductive turn_res :=
  | Continue (kills : list (Z * Z)) (started : option (Z * list Z)) (sh : shell) (reports : option (list (Z * Z)))
  | Exit.

(** A turn: the children are reaped, then the line at [cmdbuf] is run.  [pid] is
    what [fork] returns to the shell; the child goes on with the program. *)
Definition sh_turn (fuel : nat) (tcsetpgrp : Z -> Z) (lit : list Z -> Z) (mem_ok : bool) (sh : shell) (m : bmem) (cmdbuf pid wstatus0 : Z) (reports : list (Z * Z)) : option (bmem * turn_res) :=
  '(sh, reports) ← reap_loop sh reports;
  '(m, tokens) ← tokenize fuel fuel m cmdbuf (lit default_ifs) 0 [];
  match tokens with
  | [] => Some (m, Continue [] None sh (Some reports))
  | tok :: _ =>
      b ← find_builtin fuel m lit builtins tok;
      match b with
      | Some name =>
          if decide (name = txt "bg") then '(k, sh, _) ← builtin_bg fuel m sh tokens; Some (m, Continue k None sh (Some reports))
          else if decide (name = txt "fg") then '(k, sh, r, _) ← builtin_fg fuel tcsetpgrp m sh tokens wstatus0 reports; Some (m, Continue k None sh r)
          else if decide (name = txt "exit") then Some (m, Exit)
          else if decide (name = txt "echo") then _ ← builtin_echo tokens; Some (m, Continue [] None sh (Some reports))
          else Some (m, Continue [] None sh (Some reports))
      | None =>
          if 0 <? pid then
            '(sh, i) ← shell_add_job mem_ok sh pid;
            '(k, sh, r) ← shell_run_foreground tcsetpgrp sh i wstatus0 reports;
            Some (m, Continue k (Some (pid, tokens)) sh r)
          else Some (m, Continue [] None sh (Some reports))
      end
  end.

End SHL.
