(* ===== verification/ShProofs.v ===== *)
(** * The user's shell: correctness

    Module [SHLP]: the table of jobs stands for the set of children that were
    started and not yet reported as ended, turn by turn. *)

From S2P Require Import Prelude CString CStringProofs Fmt Sh.
From stdpp Require Import strings.
Import CS CSP FMT SHL.
#[local] Open Scope Z_scope.

Module SHLP.

(** ** Searching the table *)

Lemma places_scanned p n : forall l, (n <= length l)%nat -> exists i, scan p n l = Some i /\ (i <= n)%nat /\
  (forall j x, (j < i)%nat -> l !! j = Some x -> p x = false) /\ ((i < n)%nat -> exists x, l !! i = Some x /\ p x = true).
Proof.
  induction n as [|n IH]; intros l Hl; cbn [scan].
  - exists 0%nat. split; [done|]. split; [done|]. split; lia.
  - destruct l as [|x l]; [cbn in Hl; lia|]. destruct (p x) eqn:E.
    + exists 0%nat. split; [done|]. split; [lia|]. split; [lia|]. intros _. by exists x.
    + destruct (IH l ltac:(cbn in Hl; lia)) as (i & -> & Hi & Hlt & Hat). exists (S i). split; [done|]. split; [lia|]. split.
      * intros [|j] y Hj Hy; cbn in Hy; [by injection Hy as <-|]. by apply (Hlt j y); [lia|].
      * intros Hi'. by apply Hat; lia.
Qed.

(** ** The children *)

(** The table has the array's size, its places from [n_jobs] on are free, and the
    taken ones are the children of [P], each once and none of them stopped. *)
Record rep (sh : shell) (P : gset Z) : Prop := {
  rp_size : length (jobs sh) = Z.to_nat MAX_JOBS;
  rp_used : 0 <= n_jobs sh <= MAX_JOBS;
  rp_free : forall i j, jobs sh !! i = Some (Some j) -> Z.of_nat i < n_jobs sh;
  rp_jobs : forall i j, jobs sh !! i = Some (Some j) -> stopped j = false /\ process_group j ∈ P;
  rp_all : forall pid, pid ∈ P -> exists i, jobs sh !! i = Some (Some (mk_job pid false));
  rp_once : forall i k j j', jobs sh !! i = Some (Some j) -> jobs sh !! k = Some (Some j') -> process_group j = process_group j' -> i = k;
  rp_pids : forall pid, pid ∈ P -> 0 < pid }.

Lemma job_found sh P pid : rep sh P -> exists r, shell_find_job sh pid = Some r /\
  match r with Some i => jobs sh !! i = Some (Some (mk_job pid false)) /\ pid ∈ P | None => pid ∉ P end.
Proof.
  intros [Hs Hu Hf Hj Ha Ho Hp]. unfold shell_find_job. unfold MAX_JOBS in *. destruct (places_scanned (of_group pid) (Z.to_nat (n_jobs sh)) (jobs sh)) as (i & -> & Hi & Hlt & Hat); [lia|].
  cbn [mbind option_bind]. eexists. split; [reflexivity|]. destruct (Z.eqb_spec (Z.of_nat i) (n_jobs sh)) as [E|E].
  - intros Hin. destruct (Ha pid Hin) as [k Hk]. pose proof (Hf k _ Hk). specialize (Hlt k _ ltac:(lia) Hk). cbn in Hlt. by rewrite Z.eqb_refl in Hlt.
  - destruct (Hat ltac:(lia)) as (x & Hx & Hpx). destruct x as [[pg st]|]; [|done]. cbn in Hpx. apply Z.eqb_eq in Hpx as ->. destruct (Hj i _ Hx) as [Hst Hin]. cbn in Hst, Hin. subst st. done.
Qed.

Lemma job_removed sh P pid : rep sh P -> exists sh', shell_remove_job sh pid = Some sh' /\ rep sh' (P ∖ {[pid]}) /\ self_pid sh' = self_pid sh /\ interactive sh' = interactive sh.
Proof.
  intros Hr. destruct (job_found sh P pid Hr) as (r & E & Hm). unfold shell_remove_job. rewrite E. cbn [mbind option_bind]. eexists. split; [reflexivity|]. destruct Hr as [Hs Hu Hf Hj Ha Ho Hp]. destruct r as [i|].
  - destruct Hm as [Hi Hin]. split; [|done]. assert (Hl : forall k j, <[i := None]> (jobs sh) !! k = Some (Some j) -> k <> i /\ jobs sh !! k = Some (Some j)).
    { intros k j Hk. apply list_lookup_insert_Some in Hk as [(_ & Hk & _)|[Hne Hk]]; [done|by split]. }
    constructor; cbn [set_jobs jobs n_jobs].
    + by rewrite length_insert.
    + done.
    + intros k j Hk. apply Hl in Hk as [_ Hk]. by apply (Hf k j).
    + intros k j Hk. apply Hl in Hk as [Hne Hk]. destruct (Hj k j Hk) as [H1 H2]. split; [done|]. apply elem_of_difference. split; [done|]. rewrite elem_of_singleton. intros Eq. apply Hne. by apply (Ho k i j (mk_job pid false)).
    + intros q Hq. apply elem_of_difference in Hq as [Hq Hne]. rewrite elem_of_singleton in Hne. destruct (Ha q Hq) as [k Hk]. exists k. rewrite list_lookup_insert_ne; [done|]. intros <-. rewrite Hi in Hk. by injection Hk.
    + intros k l j j' Hk Hl'. apply Hl in Hk as [_ Hk]. apply Hl in Hl' as [_ Hl']. by apply Ho.
    + intros q Hq. apply elem_of_difference in Hq as [Hq _]. by apply Hp.
  - split; [|done]. replace (P ∖ {[pid]}) with P by set_solver. done.
Qed.

(** A new child gets a free place, if there is one. *)
Lemma job_added sh P pid : rep sh P -> pid ∉ P -> 0 < pid ->
  (shell_add_job true sh pid = None /\ forall i, (i < 100)%nat -> exists j, jobs sh !! i = Some (Some j)) \/
  exists sh' i, shell_add_job true sh pid = Some (sh', i) /\ rep sh' ({[pid]} ∪ P) /\ jobs sh' !! i = Some (Some (mk_job pid false)) /\ self_pid sh' = self_pid sh /\ interactive sh' = interactive sh.
Proof.
  intros [Hs Hu Hf Hj Ha Ho Hp] Hn Hpos. unfold shell_add_job, MAX_JOBS in *. change (Z.to_nat 100) with 100%nat in Hs.
  destruct (places_scanned is_null (Z.to_nat (n_jobs sh)) (jobs sh)) as (i & -> & Hi & Hlt & Hat); [lia|]. cbn [mbind option_bind].
  destruct (Z.eqb_spec (Z.of_nat i) 100) as [E|E].
  - left. split; [done|]. intros k Hk. destruct (lookup_lt_is_Some_2 (jobs sh) k ltac:(lia)) as [x Hx]. specialize (Hlt k x ltac:(lia) Hx). destruct x as [j|]; [by exists j|done].
  - right. eexists _, i. split; [reflexivity|]. assert (Hnull : jobs sh !! i = Some None).
    { destruct (decide (i < Z.to_nat (n_jobs sh))%nat) as [Hl|Hl].
      - destruct (Hat Hl) as (x & Hx & Hpx). by destruct x.
      - destruct (lookup_lt_is_Some_2 (jobs sh) i ltac:(lia)) as [[j|] Hx]; [|done]. pose proof (Hf i j Hx). lia. }
    assert (Hl : forall k j, <[i := Some (mk_job pid false)]> (jobs sh) !! k = Some (Some j) -> (k = i /\ j = mk_job pid false) \/ (k <> i /\ jobs sh !! k = Some (Some j))).
    { intros k j Hk. apply list_lookup_insert_Some in Hk as [(-> & Hk & _)|[Hne Hk]]; [left; by injection Hk as <-|right; by split]. }
    assert (Hself : <[i := Some (mk_job pid false)]> (jobs sh) !! i = Some (Some (mk_job pid false))) by (apply list_lookup_insert_eq; by eapply lookup_lt_Some).
    split; [|done]. constructor; cbn [set_jobs jobs n_jobs].
    + by rewrite length_insert.
    + unfold MAX_JOBS. case_if; lia.
    + intros k j Hk. apply Hl in Hk as [[-> ->]|[_ Hk]]; [case_if; lia|]. pose proof (Hf k j Hk). case_if; lia.
    + intros k j Hk. apply Hl in Hk as [[-> ->]|[_ Hk]]; [split; [done|cbn; set_solver]|]. destruct (Hj k j Hk). split; [done|set_solver].
    + intros q Hq. apply elem_of_union in Hq as [Hq|Hq]; [apply elem_of_singleton in Hq as ->; by exists i|]. destruct (Ha q Hq) as [k Hk]. exists k. rewrite list_lookup_insert_ne; [done|]. intros <-. by rewrite Hnull in Hk.
    + intros k l j j' Hk Hl'. apply Hl in Hk as [[-> ->]|[Hk1 Hk]], Hl' as [[-> ->]|[Hl1 Hl']]; [done| | |by apply Ho]; intros Eq; cbn in Eq; exfalso; apply Hn; [rewrite Eq; by apply (Hj l)|rewrite <- Eq; by apply (Hj k)].
    + intros q Hq. apply elem_of_union in Hq as [Hq|Hq]; [by apply elem_of_singleton in Hq as ->|by apply Hp].
Qed.

(** ** Reports *)

(** No status says stopped. *)
Lemma never_stopped w : WIFSTOPPED w = false.
Proof. unfold WIFSTOPPED. cbn. by rewrite Z.land_0_r. Qed.

Definition ended (w : Z) : bool := WIFEXITED w || WIFSIGNALED w.

(** The children that are left after a report. *)
Definition after (P : gset Z) (r : Z * Z) : gset Z := if ended r.2 then P ∖ {[r.1]} else P.

Lemma not_child sh P pid : rep sh P -> pid <= 0 -> P ∖ {[pid]} = P.
Proof. intros Hr Hp. apply set_eq. intros q. rewrite elem_of_difference, elem_of_singleton. split; [tauto|]. intros Hq. split; [done|]. intros ->. pose proof (rp_pids _ _ Hr _ Hq). lia. Qed.

Lemma exit_or_signal w : WIFEXITED w = true -> WIFSIGNALED w = false.
Proof. unfold WIFEXITED, WTERMSIG, WIFSIGNALED. intros E. b2p. by rewrite E. Qed.

(** ** Waiting *)

(** A step of either loop that removes the job of a child that ended. *)
Lemma report_removes sh P wpid w : rep sh P -> exists sh', (if ended w then shell_remove_job sh wpid else Some sh) = Some sh' /\ rep sh' (after P (wpid, w)) /\ self_pid sh' = self_pid sh /\ interactive sh' = interactive sh.
Proof. intros Hr. unfold after. cbn [fst snd]. destruct (ended w); [by apply job_removed|by exists sh]. Qed.

(** The end of the wait for a child: the report that it ended, or of no child. *)
Definition finishes (pid : Z) (r : Z * Z) : bool := (r.1 =? 0) || ((r.1 =? pid) && ended r.2).

(** One report of [wait_loop], without the case that nothing takes. *)
Lemma wait_loop_cons sh pid wst wpid w reports : wait_loop sh pid wst ((wpid, w) :: reports) =
  (if wpid =? 0 then Some (sh, Some reports)
   else let wst := if wpid =? -1 then wst else w in
     sh ← (if ended wst then shell_remove_job sh wpid else Some sh);
     if ended wst && (wpid =? pid) then Some (sh, Some reports) else wait_loop sh pid wst reports).
Proof.
  cbn [wait_loop]. destruct (wpid =? 0); [done|]. set (w' := if wpid =? -1 then wst else w). cbv zeta. rewrite never_stopped. cbn [mbind option_bind andb]. unfold ended.
  destruct (WIFEXITED w') eqn:E1; cbn [orb].
  - rewrite (exit_or_signal w' E1). destruct (shell_remove_job sh wpid) as [sh'|]; cbn [mbind option_bind andb]; [|done]. by destruct (wpid =? pid).
  - by destruct (WIFSIGNALED w').
Qed.

(** The wait takes reports up to the first that finishes it, and the children that
    the reports say have ended are no jobs any more. *)
Lemma waits_ok pid reports : 0 < pid -> forall sh P wst, rep sh P -> Forall (fun r => -1 <= r.1) reports ->
  exists sh' r, wait_loop sh pid wst reports = Some (sh', r) /\ self_pid sh' = self_pid sh /\ interactive sh' = interactive sh /\
    match r with
    | Some rest => exists before last, reports = before ++ last :: rest /\ Forall (fun r => finishes pid r = false) before /\ finishes pid last = true /\ rep sh' (foldl after P (before ++ [last]))
    | None => Forall (fun r => finishes pid r = false) reports /\ rep sh' (foldl after P reports)
    end.
Proof.
  intros Hpid. induction reports as [|[wpid w] reports IH]; intros sh P wst Hr Hall; [by exists sh, None|]. inversion Hall as [|? ? Hw Hall']; subst. cbn in Hw. rewrite wait_loop_cons. destruct (Z.eqb_spec wpid 0) as [->|H0].
  { exists sh, (Some reports). split; [done|]. split; [done|]. split; [done|]. exists [], (0, w). split; [done|]. split; [constructor|]. split; [done|]. cbn. unfold after. cbn [fst snd]. destruct (ended w); [|done]. by rewrite (not_child sh P 0 Hr). }
  cbv zeta. destruct (Z.eqb_spec wpid (-1)) as [->|H1].
  - destruct (report_removes sh P (-1) wst Hr) as (sh1 & -> & Hr1 & Hs1 & Hi1). cbn [mbind option_bind]. rewrite (proj2 (Z.eqb_neq (-1) pid)), andb_false_r by lia.
    assert (E : after P (-1, wst) = P) by (unfold after; cbn [fst snd]; destruct (ended wst); [by apply (not_child sh)|done]). rewrite E in Hr1.
    assert (E' : after P (-1, w) = P) by (unfold after; cbn [fst snd]; destruct (ended w); [by apply (not_child sh)|done]).
    assert (Ef : finishes pid (-1, w) = false) by (unfold finishes; cbn [fst snd]; by rewrite (proj2 (Z.eqb_neq (-1) pid)) by lia).
    destruct (IH sh1 P wst Hr1 Hall') as (sh' & r & E2 & Hs & Hi & Hm). exists sh', r. split; [done|]. split; [congruence|]. split; [congruence|]. destruct r as [rest|].
    + destruct Hm as (before & last & -> & Hb & Hl & Hrep). exists ((-1, w) :: before), last. split; [done|]. split; [by constructor|]. split; [done|]. cbn [app foldl]. by rewrite E'.
    + destruct Hm as [Hb Hrep]. split; [by constructor|]. cbn [foldl]. by rewrite E'.
  - destruct (report_removes sh P wpid w Hr) as (sh1 & -> & Hr1 & Hs1 & Hi1). cbn [mbind option_bind]. rewrite andb_comm. destruct ((wpid =? pid) && ended w) eqn:Ef.
    + exists sh1, (Some reports). split; [done|]. split; [done|]. split; [done|]. exists [], (wpid, w). split; [done|]. split; [constructor|]. split; [unfold finishes; cbn [fst snd]; by rewrite Ef, orb_true_r|done].
    + assert (Ef' : finishes pid (wpid, w) = false) by (unfold finishes; cbn [fst snd]; by rewrite Ef, (proj2 (Z.eqb_neq wpid 0))).
      destruct (IH sh1 _ w Hr1 Hall') as (sh' & r & E2 & Hs & Hi & Hm). exists sh', r. split; [done|]. split; [congruence|]. split; [congruence|]. destruct r as [rest|].
      * destruct Hm as (before & last & -> & Hb & Hl & Hrep). exists ((wpid, w) :: before), last. split; [done|]. split; [by constructor|]. done.
      * destruct Hm as [Hb Hrep]. split; [by constructor|done].
Qed.

Lemma rep_set_foreground tc sh P pg : rep sh P -> rep (shell_set_foreground tc sh pg) P.
Proof. intros Hr. unfold shell_set_foreground. repeat case_if; try done. by destruct Hr. Qed.
(** ** Turns *)

Lemma mark_false sh P pid : rep sh P -> mark sh pid false = Some sh.
Proof.
  intros Hr. destruct (job_found sh P pid Hr) as (r & E & Hm). unfold mark. rewrite E. cbn [mbind option_bind]. destruct r as [i|]; [|done]. destruct Hm as [Hi _]. unfold set_stopped. rewrite Hi. cbn [mbind option_bind process_group].
  rewrite list_insert_id by done. by destruct sh.
Qed.

(** The reports up to one of no child or of an error. *)
Lemma reap_loop_ok before z w rest : z = 0 \/ z = -1 -> Forall (fun r => 0 < r.1) before -> forall sh P, rep sh P ->
  exists sh', reap_loop sh (before ++ (z, w) :: rest) = Some (sh', rest) /\ rep sh' (foldl after P before) /\ self_pid sh' = self_pid sh /\ interactive sh' = interactive sh.
Proof.
  intros Hz. induction 1 as [|[wpid v] before Hw Hb IH]; intros sh P Hr; cbn [app reap_loop foldl].
  - exists sh. destruct Hz as [-> | ->]; done.
  - cbn in Hw. rewrite (proj2 (Z.eqb_neq wpid 0)), (proj2 (Z.eqb_neq wpid (-1))) by lia. cbn [orb]. rewrite never_stopped.
    destruct (report_removes sh P wpid v Hr) as (sh1 & E & Hr1 & Hs1 & Hi1). unfold ended in E.
    assert (E' : (if WIFEXITED v then shell_remove_job sh wpid else if WIFSIGNALED v then shell_remove_job sh wpid else if WIFCONTINUED v then mark sh wpid false else Some sh) = Some sh1).
    { destruct (WIFEXITED v); [done|]. destruct (WIFSIGNALED v); [done|]. cbn [orb] in E. injection E as <-. destruct (WIFCONTINUED v); [by apply (mark_false sh P)|done]. }
    rewrite E'. cbn [mbind option_bind]. destruct (IH sh1 _ Hr1) as (sh' & E2 & Hr2 & Hs2 & Hi2). exists sh'. split; [done|]. split; [done|]. split; congruence.
Qed.

(** A table without a free place has a hundred children. *)
Lemma full_table sh P : rep sh P -> (forall i, (i < 100)%nat -> exists j, jobs sh !! i = Some (Some j)) -> (100 <= size P)%nat.
Proof.
  intros Hr Hfull. set (l := omap (fun x => x) (jobs sh)). assert (E : jobs sh = Some <$> l /\ length l = 100%nat).
  { pose proof (rp_size _ _ Hr) as Hs. change (Z.to_nat MAX_JOBS) with 100%nat in Hs. assert (Hall : Forall is_Some (jobs sh)).
    { apply Forall_lookup. intros i x Hx. destruct (Hfull i) as [j Hj]; [rewrite <- Hs; by eapply lookup_lt_Some|]. rewrite Hj in Hx. injection Hx as <-. by eexists. }
    clear -Hs Hall. unfold l. rewrite <- Hs. clear Hs. induction Hall as [|x ls [y ->] _ [IH1 IH2]]; [done|]. cbn. split; [by f_equal|by f_equal]. }
  destruct E as [E El]. assert (Hl : forall i j, l !! i = Some j -> jobs sh !! i = Some (Some j)) by (intros i j Hi; rewrite E, list_lookup_fmap, Hi; done).
  assert (Hnd : NoDup (process_group <$> l)).
  { apply NoDup_alt. intros i k x Hi Hk. apply list_lookup_fmap_Some in Hi as (a & -> & Ha). apply list_lookup_fmap_Some in Hk as (b & Eb & Hb). by apply (rp_once _ _ Hr i k a b); [apply Hl|apply Hl|]. }
  replace 100%nat with (size (list_to_set (process_group <$> l) : gset Z)) by (rewrite size_list_to_set by done; by rewrite length_fmap).
  apply subseteq_size. intros x Hx. apply elem_of_list_to_set, list_elem_of_fmap in Hx as (j & -> & Hj). apply list_elem_of_lookup in Hj as [i Hi]. by apply (rp_jobs _ _ Hr i j (Hl i j Hi)).
Qed.

(** Waiting for the child in front, which was not stopped. *)
Lemma run_foreground_ok tc sh P i pid w0 reports : rep sh P -> jobs sh !! i = Some (Some (mk_job pid false)) -> Forall (fun r => -1 <= r.1) reports ->
  exists sh' r, shell_run_foreground tc sh i w0 reports = Some ([], sh', r) /\
    match r with
    | Some rest => exists before last, reports = before ++ last :: rest /\ Forall (fun r => finishes pid r = false) before /\ finishes pid last = true /\ rep sh' (foldl after P (before ++ [last]))
    | None => Forall (fun r => finishes pid r = false) reports /\ rep sh' (foldl after P reports)
    end.
Proof.
  intros Hr Hi Hall. unfold shell_run_foreground. rewrite Hi. cbn [mbind option_bind process_group stopped]. assert (Hpid : 0 < pid) by (apply (rp_pids _ _ Hr), (rp_jobs _ _ Hr i _ Hi)).
  destruct (waits_ok pid reports Hpid sh P w0 Hr Hall) as (sh' & r & -> & Hs & Hi' & Hm). cbn [mbind option_bind]. eexists _, r. split; [reflexivity|]. destruct r as [rest|]; [|done].
  destruct Hm as (before & last & E & Hb & Hl & Hrep). exists before, last. split; [done|]. split; [done|]. split; [done|]. by apply rep_set_foreground.
Qed.

(** The tokens of a line that has not too many. *)
Lemma tokenize_run n fuel : forall m s ifs ctx acc m' ptrs, strtok_run n fuel m s ifs ctx = Some (m', ptrs) -> Z.of_nat (length acc + length ptrs) < MAX_TOKENS - 1 -> tokenize n fuel m s ifs ctx acc = Some (m', acc ++ ptrs).
Proof.
  induction n as [|n IH]; intros m s ifs ctx acc m' ptrs; [done|]. cbn [strtok_run tokenize]. destruct (strtok_r fuel m s ifs ctx) as [[[m1 ctx1] tok]|]; cbn [mbind option_bind]; [|done]. destruct (tok =? NULL).
  - intros [= <- <-] _. by rewrite app_nil_r.
  - destruct (strtok_run n fuel m1 NULL ifs ctx1) as [[m2 toks]|] eqn:E; [|done]. intros [= <- <-] Hl. cbn [length] in Hl.
    rewrite (proj2 (Z.leb_gt _ _)) by (rewrite length_app; cbn [length]; lia). rewrite (IH _ _ _ _ (acc ++ [tok]) _ _ E) by (rewrite length_app; cbn [length]; lia). by rewrite <- app_assoc.
Qed.

Lemma find_builtin_ok fuel m lit tok t : cstr m tok t -> Z.of_nat (length t) < UINT_MAX -> forall l, Forall (fun n => cstr m (lit n) n /\ (length n < fuel)%nat /\ Z.of_nat (length n) < UINT_MAX) l ->
  find_builtin fuel m lit l tok = Some (snd <$> list_find (fun n => n = t) l).
Proof.
  intros Ht Hlt. induction 1 as [|n l (Hn & Hf & Hu) Hl IH]; [done|]. cbn [find_builtin list_find]. unfold strcmp. rewrite (strncmp_correct fuel m (lit n) tok n t UINT_MAX Hn Ht Hf). cbn [mbind option_bind].
  destruct (Z.eqb_spec (cmp_spec n t (Z.to_nat UINT_MAX)) 0) as [E|E]; rewrite cmp_spec_zero in E by (apply Hn || apply Ht); rewrite !take_ge in E by lia.
  - by rewrite decide_True.
  - rewrite decide_False by done. rewrite IH. by destruct (list_find _ l) as [[i x]|].
Qed.
(** ** The theorem *)

(** The constants are in memory, away from the line. *)
Definition consts_ok (lit : list Z -> Z) (m : bmem) (cmdbuf len : Z) : Prop :=
  forall t, t ∈ default_ifs :: builtins -> cstr m (lit t) t /\ 0 < lit t /\ (lit t + Z.of_nat (length t) < cmdbuf \/ cmdbuf + len < lit t).

(** C13: A turn of the user's shell with a line whose first word is no built-in
    command, over the reports of the kernel on the children.  The shell takes the
    reports on its background jobs up to the first of none; it then starts the
    program with the words of the line, makes it a job, and takes reports up to
    the first one that ends the wait, that the program exited or was killed or
    that there is none, or waits for more.  Before and after, the table of jobs
    is exactly the set of the children that were started and not reported as
    ended, each in one place, however many come and go, while there are less
    than a hundred of them. *)
Theorem turn_tracks_children fuel tc lit sh P m cmdbuf s pid w0 early z w later :
  rep sh P -> 0 < cmdbuf -> cstr m cmdbuf s -> Z.of_nat (length s) < COMMAND_SIZE -> (600 <= fuel)%nat -> consts_ok lit m cmdbuf (Z.of_nat (length s)) ->
  let toks := tokens (S (length s)) default_ifs s in
  Z.of_nat (length toks) < MAX_TOKENS - 1 -> (exists t ts, toks = t :: ts /\ t ∉ builtins) ->
  0 < pid -> pid ∉ P -> (size P < 100)%nat ->
  Forall (fun r => 0 < r.1) early -> z = 0 \/ z = -1 -> Forall (fun r => -1 <= r.1) later ->
  let P1 := {[pid]} ∪ foldl after P early in
  exists m' ptrs sh' r, sh_turn fuel tc lit true sh m cmdbuf pid w0 (early ++ (z, w) :: later) = Some (m', Continue [] (Some (pid, ptrs)) sh' r) /\
    Forall2 (cstr m') ptrs toks /\
    match r with
    | Some rest => exists before last, later = before ++ last :: rest /\ Forall (fun r => finishes pid r = false) before /\ finishes pid last = true /\ rep sh' (foldl after P1 (before ++ [last]))
    | None => Forall (fun r => finishes pid r = false) later /\ rep sh' (foldl after P1 later)
    end.
Proof.
  intros Hr Hb Hc Hl Hf Hk toks Hn (t & ts & Et & Hnb) Hpid Hnew Hroom He Hz Hlat P1. unfold COMMAND_SIZE in Hl. unfold sh_turn.
  destruct (reap_loop_ok early z w later Hz He sh P Hr) as (sh1 & -> & Hr1 & _ & _). cbn [mbind option_bind].
  destruct (Hk default_ifs ltac:(left)) as (Hifs & Hifs0 & Hifsd).
  destruct (strtok_r_tokens fuel fuel m cmdbuf 0 (lit default_ifs) default_ifs s) as (m' & ptrs & E & Hall & _ & _ & Hout); try done; [destruct Hifsd; lia|cbn [length default_ifs]; lia|lia|].
  fold toks in Hall. rewrite (tokenize_run fuel fuel m cmdbuf (lit default_ifs) 0 [] m' ptrs E) by (cbn [length Nat.add]; rewrite (Forall2_length _ _ _ Hall); lia). cbn [mbind option_bind app].
  rewrite Et in Hall. destruct ptrs as [|p ps]; [inversion Hall|]. inversion Hall as [|? ? ? ? Hp Hps]; subst.
  assert (Hlt : (length t <= length s)%nat).
  { destruct (tokens_spec (S (length s)) default_ifs s ltac:(lia)) as [Hcat _]. fold toks in Hcat. rewrite Et in Hcat. apply (f_equal length) in Hcat. cbn [concat] in Hcat. rewrite length_app in Hcat. pose proof (length_filter (fun b => b ∉ default_ifs) s). lia. }
  assert (Hbl : Forall (fun n => (length n < 10)%nat /\ n ∈ default_ifs :: builtins) builtins) by (apply (bool_decide_unpack _); vm_compute; exact I).
  assert (Hbk : Forall (fun n => cstr m' (lit n) n /\ (length n < fuel)%nat /\ Z.of_nat (length n) < UINT_MAX) builtins).
  { apply (Forall_impl _ _ _ Hbl). intros n [Hn1 Hn2]. destruct (Hk n Hn2) as (Hcn & _ & Hd). split; [|unfold UINT_MAX; lia]. revert Hcn. apply cstr_same. intros a Ha. apply Hout. lia. }
  rewrite (find_builtin_ok fuel m' lit p t Hp ltac:(unfold UINT_MAX; lia) builtins Hbk).
  cbn [mbind option_bind]. assert (list_find (fun n => n = t) builtins = None) as -> by (apply list_find_None, Forall_forall; intros n Hn1 ->; done). cbn [fmap option_fmap option_map]. rewrite (proj2 (Z.ltb_lt 0 pid)) by lia.
  assert (Hsub : foldl after P early ⊆ P).
  { clear. revert P. induction early as [|[a b] early IH]; intros P; [done|]. cbn [foldl]. etrans; [apply IH|]. unfold after. cbn [fst snd]. destruct (ended b); set_solver. }
  destruct (job_added sh1 _ pid Hr1 ltac:(set_solver) Hpid) as [[_ Hfull]|(sh2 & i & -> & Hr2 & Hi & _)].
  { pose proof (full_table sh1 _ Hr1 Hfull). pose proof (subseteq_size _ _ Hsub). lia. }
  cbn [mbind option_bind]. destruct (run_foreground_ok tc sh2 P1 i pid w0 later Hr2 Hi Hlat) as (sh3 & r & -> & Hm). cbn [mbind option_bind]. exists m', (p :: ps), sh3, r. split; [done|]. split; [|done]. rewrite Et. by constructor.
Qed.

(** "jobs" lists exactly the children, running, each at its place. *)
Lemma jobs_lists sh P i b pid : rep sh P -> (i, b, pid) ∈ builtin_jobs sh <-> jobs sh !! i = Some (Some (mk_job pid false)) /\ b = false /\ pid ∈ P.
Proof.
  intros Hr. unfold builtin_jobs. rewrite list_elem_of_omap. split.
  - intros ([k x] & Hk & E). apply elem_of_lookup_imap in Hk as (k' & y & [= -> ->] & Hk). apply lookup_take_Some in Hk as [Hk _].
    destruct y as [[pg st]|]; [|done]. cbn in E. destruct (rp_jobs _ _ Hr _ _ Hk) as [Hst Hin]. cbn in Hst, Hin. subst st. by injection E as -> <- <-.
  - intros (Hi & -> & Hin). exists (i, Some (mk_job pid false)). split; [|done]. apply elem_of_lookup_imap. exists i, (Some (mk_job pid false)). split; [done|]. apply lookup_take_Some. split; [done|]. pose proof (rp_free _ _ Hr _ _ Hi). lia.
Qed.

(** ** Witness *)

Definition demo_sh : shell := sh_init 5 5 true.

(** At the start the shell has no children. *)
Lemma init_rep pid fg tty : rep (sh_init pid fg tty) ∅.
Proof.
  assert (Hn : forall i j, jobs (sh_init pid fg tty) !! i = Some (Some j) -> False) by (intros i j Hi; apply lookup_replicate in Hi as [Hi _]; done).
  constructor; [reflexivity|cbn; unfold MAX_JOBS; lia| | | | |]; intros; exfalso; first [eapply Hn; eassumption|set_solver].
Qed.

Definition demo_lit (t : list Z) : Z := 2000 + 16 * Z.of_nat (from_option fst 0%nat (list_find (fun c => t = c) (default_ifs :: builtins))).
Definition demo_smem : bmem := put (fold_right (fun t m => put m (demo_lit t) t) ∅ (default_ifs :: builtins)) 1000 (txt "ls -l").

Lemma cstr_chars m p s : map (ldb m) (seqZ p (Z.of_nat (S (length s)))) = s ++ [0] -> str_bytes s -> cstr m p s.
Proof.
  intros E Hs. split; [|done]. rewrite <- E. intros i b Hi. rewrite list_lookup_fmap in Hi. apply fmap_Some in Hi as (a & Ha & ->). apply lookup_seqZ in Ha as [-> _]. done.
Qed.

(** "ls -l" runs as 7 and exits with 1; a report of 9, which is no child, comes
    before. *)
Lemma turn_tracks_children_witness :
  exists m' ptrs sh' r, sh_turn 600 (fun _ => 0) demo_lit true demo_sh demo_smem 1000 7 0 ([] ++ (0, 0) :: [(9, 0); (7, 256); (8, 0)]) = Some (m', Continue [] (Some (7, ptrs)) sh' r) /\
    Forall2 (cstr m') ptrs [txt "ls"; txt "-l"] /\
    match r with
    | Some rest => exists before last, [(9, 0); (7, 256); (8, 0)] = before ++ last :: rest /\ Forall (fun r => finishes 7 r = false) before /\ finishes 7 last = true /\ rep sh' (foldl after ({[7]} ∪ ∅) (before ++ [last]))
    | None => Forall (fun r => finishes 7 r = false) [(9, 0); (7, 256); (8, 0)] /\ rep sh' (foldl after ({[7]} ∪ ∅) [(9, 0); (7, 256); (8, 0)])
    end.
Proof.
  apply (turn_tracks_children 600 (fun _ => 0) demo_lit demo_sh ∅ demo_smem 1000 (txt "ls -l") 7 0 [] 0 0 [(9, 0); (7, 256); (8, 0)]).
  - apply init_rep.
  - lia.
  - apply cstr_chars; [vm_compute; reflexivity|apply (bool_decide_unpack _); vm_compute; exact I].
  - vm_compute. reflexivity.
  - lia.
  - intros t Ht. assert (Hall : Forall (fun t => map (ldb demo_smem) (seqZ (demo_lit t) (Z.of_nat (S (length t)))) = t ++ [0] /\ str_bytes t /\ 1500 < demo_lit t) (default_ifs :: builtins)) by (apply (bool_decide_unpack _); vm_compute; exact I).
    apply (proj1 (Forall_forall _ _) Hall) in Ht as (E & Hs & Hlo). split; [by apply cstr_chars|]. split; [lia|]. right. cbn. lia.
  - vm_compute. reflexivity.
  - exists (txt "ls"), [txt "-l"]. split; [vm_compute; reflexivity|]. apply (bool_decide_unpack _); vm_compute; exact I.
  - lia.
  - apply not_elem_of_empty.
  - rewrite size_empty. lia.
  - constructor.
  - by left.
  - repeat (apply Forall_cons_2; [cbn; lia|]). constructor.
Defined.

(** ** Defects the model shows *)

(** A child that is stopped by a signal, status [sig * 256 + 127], is neither
    stopped nor ended for the shell: the job in front is waited for on. *)
Lemma stop_unnoticed sig sh pid w0 reports : 0 <= sig < 256 -> 0 < pid -> wait_loop sh pid w0 ((pid, sig * 256 + 127) :: reports) = wait_loop sh pid (sig * 256 + 127) reports.
Proof.
  intros Hs Hp. rewrite wait_loop_cons. rewrite (proj2 (Z.eqb_neq pid 0)), (proj2 (Z.eqb_neq pid (-1))) by lia. cbv zeta.
  assert (E : Z.land (sig * 256 + 127) 127 = 127) by (change 127 with (Z.ones 7) at 2; rewrite Z.land_ones by lia; change (2 ^ 7) with 128; zlia).
  unfold ended, WIFEXITED, WTERMSIG, WIFSIGNALED. rewrite E. reflexivity.
Qed.

(** When [waitpid] fails, the wait goes on with the old status. *)
Lemma failing_wait_goes_on sh P pid w0 n : rep sh P -> 0 < pid -> wait_loop sh pid w0 (replicate n (-1, 0)) = Some (sh, None) \/ ended w0 = true.
Proof.
  intros Hr Hp. destruct (ended w0) eqn:E; [by right|left]. induction n as [|n IH]; [done|]. cbn [replicate]. rewrite wait_loop_cons. cbn [Z.eqb]. cbv zeta. cbn. rewrite E. cbn. exact IH.
Qed.

(** "fg %100" reads behind the table. *)
Lemma job_number_unchecked : chosen_job 20 (put (put ∅ 16 (txt "fg")) 32 (txt "%100")) demo_sh [16; 32] = None.
Proof. vm_compute. reflexivity. Qed.

End SHLP.
