(* ===== verification/UserSys.v ===== *)
(** * The system interface of user programs (lib/c/include/sys/syscall.h,
      lib/c/src/os_cosec.c, lib/c/src/unistd.c)

    Module [US]: the interrupt instruction over the kernel's handler, the calls
    that are made with it, and the functions that turn a negative result into
    [theErrNo].  The state is the kernel's, whose [umem] is the program's memory;
    with [theErrNo] it is the state of the streams, and the calls on files are an
    instance of what streams need. *)

From S2P Require Import Prelude CString RamBlocks RamFS Vfs FsSys Stdio Syscall.
Import IO SC0.

Module US.

Definition SYS_fork : Z := 2.
Definition SYS_link : Z := 9.
Definition SYS_execve : Z := 11.
Definition SYS_chdir : Z := 12.
Definition SYS_time : Z := 13.
Definition SYS_kill : Z := 37.
Definition SYS_rmdir : Z := 40.
Definition SYS_trunc : Z := 53.
Definition SYS_ioctl : Z := 54.
Definition SYS_setpgid : Z := 57.
Definition SYS_sigaction : Z := 67.
Definition SYS_fstat : Z := 108.

Definition ENOENT : Z := 2.
Definition SIGABRT : Z := 6.
Definition TIOCSPGRP : Z := 21520.

Section Program.
Context {S D : Type}.

(** ** The interrupt *)

(** The registers get the number and the arguments, and eax is the result. *)
Definition syscall (k : kernel S D) (num arg1 arg2 arg3 : Z) : option (kernel S D * Z) :=
  k ← int_syscall (mk_kernel (files k) (umem k) (pages k) (pmem k) (sched k) (mk_ctx (u32 num) (u32 arg1) (u32 arg2) (u32 arg3)));
  Some (k, s32 (eax (ctx k))).

Definition __syscall0 (k : kernel S D) (num : Z) := syscall k num 0 0 0.
Definition __syscall1 (k : kernel S D) (num a : Z) := syscall k num a 0 0.
Definition __syscall2 (k : kernel S D) (num a b : Z) := syscall k num a b 0.
Definition __syscall3 (k : kernel S D) (num a b c : Z) := syscall k num a b c.

(** ** Calls: strings and buffers are addresses *)

Definition sys_getpid (k : kernel S D) := __syscall0 k SYS_getpid.
Definition sys_setpgid (k : kernel S D) (pid pgid : Z) := __syscall2 k SYS_setpgid pid pgid.
Definition sys_setsid (k : kernel S D) := __syscall0 k SYS_setsid.
Definition sys_fstat (k : kernel S D) (fd stat : Z) := __syscall2 k SYS_fstat fd stat.
Definition sys_mkdir (k : kernel S D) (pathname mode : Z) := __syscall2 k SYS_mkdir pathname mode.
Definition sys_rmdir (k : kernel S D) (pathname : Z) := __syscall1 k SYS_rmdir pathname.
Definition sys_chdir (k : kernel S D) (path : Z) := __syscall1 k SYS_chdir path.
Definition sys_link (k : kernel S D) (oldpath newpath : Z) := __syscall2 k SYS_link oldpath newpath.
Definition sys_unlink (k : kernel S D) (pathname : Z) := __syscall1 k SYS_unlink pathname.
Definition sys_rename (k : kernel S D) (oldpath newpath : Z) := __syscall2 k SYS_rename oldpath newpath.
Definition sys_open (k : kernel S D) (pathname flags : Z) := __syscall2 k SYS_open pathname flags.
Definition sys_read (k : kernel S D) (fd buf count : Z) := __syscall3 k SYS_read fd buf count.
Definition sys_write (k : kernel S D) (fd buf count : Z) := __syscall3 k SYS_write fd buf count.
Definition sys_close (k : kernel S D) (fd : Z) := __syscall1 k SYS_close fd.
Definition sys_fork (k : kernel S D) := __syscall0 k SYS_fork.
Definition sys_execve (k : kernel S D) (pathname argv envp : Z) := __syscall3 k SYS_execve pathname argv envp.
Definition sys_kill (k : kernel S D) (pid sig : Z) := __syscall2 k SYS_kill pid sig.
Definition sys_waitpid (k : kernel S D) (pid wstatus flags : Z) := __syscall3 k SYS_waitpid pid wstatus flags.
Definition sys_lseek (k : kernel S D) (fd offset whence : Z) := __syscall3 k SYS_lseek fd offset whence.
Definition sys_ftruncate (k : kernel S D) (fd length : Z) := __syscall2 k SYS_trunc fd length.
Definition sys_exit (k : kernel S D) (status : Z) := __syscall1 k SYS_exit status.
Definition sys_ioctl (k : kernel S D) (fd request argp : Z) := __syscall3 k SYS_ioctl fd request argp.

(** The action is made on the stack, at [sigact]. *)
Definition sys_signal (k : kernel S D) (sigact signum handler : Z) : option (kernel S D * Z) :=
  let m := st32 (st32 (st32 (st32 (umem k) sigact (u32 handler)) (sigact + 4) 0) (sigact + 8) 0) (sigact + 12) 0 in
  __syscall3 (set_umem k m) SYS_sigaction signum sigact 0.

Definition sys_time (k : kernel S D) (tloc : Z) : option (kernel S D * Z) :=
  '(k, epoch) ← __syscall0 k SYS_time;
  Some (if tloc =? 0 then k else set_umem k (st32 (umem k) tloc (u32 epoch)), u32 epoch).

Definition time (k : kernel S D) (tloc : Z) := sys_time k tloc.

(** [fmtp] is the address of the parameter. *)
Definition vlprintf (k : kernel S D) (fmtp : Z) := __syscall1 k SYS_print fmtp.

(** ** Results and [theErrNo] *)

Definition negative_to_errno (errno : Z) (r : option (kernel S D * Z)) : option (io (kernel S D) * Z) :=
  '(k, result) ← r; Some (if result <? 0 then (mk_io k (s32 (- result)), -1) else (mk_io k errno, result)).

Definition write (s : io (kernel S D)) (fd buf count : Z) : option (io (kernel S D) * Z) := '(k, r) ← sys_write (os s) fd buf count; Some (mk_io k (theErrNo s), r).
Definition fstat (s : io (kernel S D)) (fd statbuf : Z) := negative_to_errno (theErrNo s) (sys_fstat (os s) fd statbuf).
Definition fork (s : io (kernel S D)) := negative_to_errno (theErrNo s) (sys_fork (os s)).
Definition kill (s : io (kernel S D)) (pid sig : Z) := negative_to_errno (theErrNo s) (sys_kill (os s) pid sig).
Definition getpid (s : io (kernel S D)) := negative_to_errno (theErrNo s) (sys_getpid (os s)).
Definition setsid (s : io (kernel S D)) := negative_to_errno (theErrNo s) (sys_setsid (os s)).
Definition setpgid (s : io (kernel S D)) (pid pgid : Z) := negative_to_errno (theErrNo s) (sys_setpgid (os s) pid pgid).
Definition waitpid (s : io (kernel S D)) (pid wstatus flags : Z) := negative_to_errno (theErrNo s) (sys_waitpid (os s) pid wstatus flags).
Definition wait (s : io (kernel S D)) (wstatus : Z) := waitpid s (-1) wstatus 0.

Definition execve (s : io (kernel S D)) (pathname argv envp : Z) : option (io (kernel S D) * Z) :=
  if negb (CS.chr (umem (os s)) pathname =? 47) then Some (mk_io (os s) ENOENT, -1)
  else negative_to_errno (theErrNo s) (sys_execve (os s) pathname argv envp).

Definition execvp (s : io (kernel S D)) (file argv environ : Z) := execve s file argv environ.

Definition raise (s : io (kernel S D)) (sig : Z) : option (io (kernel S D)) := '(s, pid) ← getpid s; '(s, _) ← kill s pid sig; Some s.
Definition abort (s : io (kernel S D)) : option (io (kernel S D)) := raise s SIGABRT.

(** [stat] is on the stack; [st_rdev] is 24 bytes into it. *)
Definition isatty (s : io (kernel S D)) (fd stat : Z) : option (io (kernel S D) * Z) :=
  '(s, r) ← fstat s fd stat;
  if negb (r =? 0) then Some (s, 0)
  else
    let m := umem (os s) in
    let st_rdev := ld32 m (stat + 24) + 2 ^ 32 * ld32 m (stat + 28) in
    Some (s, if (RF.gnu_dev_major st_rdev =? 4) || (RF.gnu_dev_major st_rdev =? 88) then 1 else 0).

(** [pgrp] is passed at the address [argp] of the parameter. *)
Definition tcsetpgrp (s : io (kernel S D)) (argp fd pgrp : Z) : option (io (kernel S D) * Z) :=
  negative_to_errno (theErrNo s) (sys_ioctl (set_umem (os s) (st32 (umem (os s)) argp (u32 pgrp))) fd TIOCSPGRP argp).

(** ** Streams over these calls

    Names, and bytes that are read or written, are at the address [buf]. *)

Definition cosec_ops (buf : Z) : FileOps (kernel S D) := {|
  IO.sys_open := fun k path flags => sys_open (set_umem k (RB.store_bytes (umem k) buf (path ++ [0]))) buf flags;
  IO.sys_read := fun k fd n => '(k, r) ← sys_read k fd buf n; Some (k, r, RB.load_bytes (umem k) buf r);
  IO.sys_write := fun k fd bs => sys_write (set_umem k (RB.store_bytes (umem k) buf bs)) fd buf (Z.of_nat (length bs));
  IO.sys_lseek := sys_lseek;
  IO.sys_close := sys_close |}.

End Program.
End US.
