(* ===== verification/UserSysProofs.v ===== *)
(** * The system interface of user programs: correctness

    Module [USP]: the kernel keeps the laws of files that streams rely on, so that
    a program that opens a file of the root file system reads its bytes, through
    the buffer of the stream, the interrupt, the descriptor and the blocks of
    ramfs. *)

From S2P Require Import Prelude FirstFit FirstFitProofs PMem BTree CString CStringProofs RamDir RamBlocks RamBlocksProofs RamFS RamFSProofs Devices Vfs VfsProofs KHeap FsSys FsSysProofs Stdio StdioProofs Paging Tasks Syscall SyscallProofs UserSys.
Import KH IO IOP SC0 US.

Module USP.

(** ** Calls through the table *)

Section calls.
Context {S D : Type}.

Lemma s32_u32 x : s32 (u32 x) = s32 x.
Proof. unfold s32, swrap, u32. rewrite Zplus_mod_idemp_l. done. Qed.

Definition with_regs (k : kernel S D) (n a b c : Z) : kernel S D := mk_kernel (files k) (umem k) (pages k) (pmem k) (sched k) (mk_ctx n a b c).

Lemma syscall_listed (k : kernel S D) n h a b c : (n, h) ∈ syscalls_list -> 0 <= n < N_SYSCALLS ->
  syscall k n a b c = ('(k', r) ← callee h (with_regs k n (u32 a) (u32 b) (u32 c)) (u32 a) (u32 b) (u32 c); Some (set_eax k' (u32 r), s32 r)).
Proof.
  intros Hn Hr. unfold N_SYSCALLS in Hr. unfold syscall, int_syscall. cbn [ctx eax ecx edx ebx]. rewrite (u32_small n) by (unfold in_u32; lia).
  rewrite (proj2 (Z.leb_gt N_SYSCALLS n)) by (unfold N_SYSCALLS; lia). rewrite (SC0P.syscalls_find n h Hn). cbn [mbind option_bind].
  fold (with_regs k n (u32 a) (u32 b) (u32 c)). destruct (callee h _ _ _ _) as [[k' r]|]; cbn [mbind option_bind]; [|done]. cbn. by rewrite s32_u32.
Qed.

(** A number without an entry fails, and nothing but the registers changes. *)
Lemma syscall_unlisted (k : kernel S D) n a b c : n ∉ syscalls_list.*1 -> 0 <= n < 4294967296 ->
  syscall k n a b c = Some (with_regs k (u32 (- ENOSYS)) (u32 a) (u32 b) (u32 c), - ENOSYS).
Proof.
  intros Hn Hr. unfold syscall, int_syscall. cbn [ctx eax ecx edx ebx]. rewrite (u32_small n) by done. destruct (N_SYSCALLS <=? n); [done|]. by rewrite (SC0P.syscalls_none n Hn).
Qed.

End calls.

(** ** Files of ramfs behind a descriptor *)

Section file.
Context {H D : Type} `{KH.Heap H}.


(** The inode [ino] of file system [id], the root, is a regular file that holds
    [data]. *)
Record has_file (k : SYS.kstate (RF.ramfs (H := H)) D) (id ino : Z) (data : list Z) : Prop := {
  hf_file : exists dev s i, VFSP.rooted (SYS.fs k) id dev s /\ RF.ramfs_idata_by_inode s ino <> 0 /\ RF.idatas s !! RF.ramfs_idata_by_inode s ino = Some i /\
    RF.S_ISREG (RF.i_mode i) = true /\ RF.i_size i = Z.of_nat (length data) /\ RF.i_nlinks i <> 0 /\
    data = RBP.slice (RBP.content (RF.km s) (RF.as_reg i)) 0 (RF.i_size i);
  hf_ino : ino <> 0;
  hf_size : Z.of_nat (length data) <= RBP.FILE_MAX;
  hf_bytes : Forall in_u8 data }.

(** Positions at which the file system reads a page right. *)
Definition page_stops (data : list Z) (p : nat) : Prop := Z.of_nat p mod 4096 = 0 \/ p = length data.

Record fd_at (k : SYS.kstate (RF.ramfs (H := H)) D) (fd : Z) (data : list Z) (p : nat) : Prop := {
  fa_fd : exists t proc f, SYSP.current_ok k t proc /\ 0 <= fd < SYS.N_PROCESS_FDS /\ SYS.ps_fds proc !! Z.to_nat fd = Some f /\
    SYS.has (SYS.fd_flags f) SYS.O_WRONLY = false /\ SYS.fd_pos f = Z.of_nat p /\ has_file k (SYS.fd_sb f) (SYS.fd_ino f) data;
  fa_pos : (p <= length data)%nat /\ page_stops data p }.

Lemma slice_take_drop c n a m : 0 <= a -> 0 <= m -> a + m <= n -> RBP.slice c a m = take (Z.to_nat m) (drop (Z.to_nat a) (RBP.slice c 0 n)).
Proof.
  intros Ha Hm Hn. replace n with (a + (m + (n - a - m))) by lia. rewrite (RBP.slice_app c 0 a) by lia. rewrite Z.add_0_l, (RBP.slice_app c a m) by lia.
  assert (L : forall p q, 0 <= q -> length (RBP.slice c p q) = Z.to_nat q) by (intros p q Hq; unfold RBP.slice; by rewrite length_fmap, length_seqZ).
  rewrite drop_app_length' by (by rewrite L). by rewrite take_app_length' by (by rewrite L).
Qed.

(** Reading a page through the virtual file system. *)
Lemma vfs_read_page k id ino data p : has_file k id ino data -> (p <= length data)%nat -> page_stops data p ->
  let m := Nat.min 4096 (length data - p) in
  VFS.vfs_inode_read (SYS.fs k) id ino (Z.of_nat p) 4096 = Some (SYS.fs k, 0, take m (drop p data)).
Proof.
  intros [(dev & s & i & [_ Hsb] & Hp & Hi & Hreg & Hsz & _ & Ed) _ Hmax Hb] Hpl Hst m. unfold RBP.FILE_MAX in Hmax.
  unfold VFS.vfs_inode_read. rewrite Hsb. cbn [mbind option_bind VFS.sb_fs VFS.ops VFS.ramfs_driver VFS.ramfs_fsops VFS.op_inode_get VFS.op_read_inode VFS.sb_data].
  unfold RF.ramfs_inode_get. rewrite (proj2 (Z.eqb_neq _ 0) Hp), Hi. cbn [mbind option_bind Z.eqb negb].
  unfold RF.S_ISREG in Hreg. apply Z.eqb_eq in Hreg. rewrite Hreg. cbn [Z.eqb]. change (RF.S_IFREG =? RF.S_IFREG) with true. cbv iota.
  destruct (Z.leb_spec (RF.i_size i) (Z.of_nat p)) as [Hle|Hlt].
  - assert (m = 0%nat) as -> by (unfold m; lia). done.
  - unfold RF.read_inode. rewrite (proj2 (Z.eqb_neq _ 0) Hp), Hi. cbn [mbind option_bind]. f_equal. f_equal.
    assert (Hal : Z.of_nat p mod 4096 = 0) by (destruct Hst as [Hst|Hst]; [done|lia]).
    rewrite RBP.read_inode_ok; [|cbn [RF.as_reg RB.i_size]; unfold RBP.FILE_MAX; lia..|by left]. change (RB.i_size (RF.as_reg i)) with (RF.i_size i).
    rewrite (slice_take_drop _ (RF.i_size i)) by lia. rewrite <- Ed. rewrite Nat2Z.id. f_equal. unfold m. lia.
Qed.

Lemma after_page data p : (p <= length data)%nat -> page_stops data p -> page_stops data (p + Nat.min 4096 (length data - p)).
Proof. intros Hp [Hs|Hs]; unfold page_stops; [|right; lia]. destruct (Nat.leb_spec 4096 (length data - p)); [left|right; lia]. rewrite Nat.min_l by lia. zlia. Qed.

Lemma current_put (k : SYS.kstate (RF.ramfs (H := H)) D) t proc fd g : SYSP.current_ok k t proc ->
  SYSP.current_ok (SYS.put_fd k t proc fd g) t (SYS.mk_proc (SYS.ps_pid proc) (SYS.ps_umask proc) (<[Z.to_nat fd := g]> (SYS.ps_fds proc))).
Proof.
  intros (H1 & H2 & H3 & H4 & H5 & H6). unfold SYSP.current_ok. cbn. split; [done|]. split; [done|]. split; [by rewrite lookup_insert_eq|]. split; [done|]. split; [done|]. by rewrite length_insert.
Qed.

(** The process with another descriptor in place of one it has. *)
Lemma fd_put k fd data t proc f g q : SYSP.current_ok k t proc -> 0 <= fd < SYS.N_PROCESS_FDS -> SYS.ps_fds proc !! Z.to_nat fd = Some f ->
  SYS.has (SYS.fd_flags g) SYS.O_WRONLY = false -> has_file k (SYS.fd_sb g) (SYS.fd_ino g) data -> (q <= length data)%nat -> page_stops data q -> SYS.fd_pos g = Z.of_nat q ->
  fd_at (SYS.put_fd k t proc fd g) fd data q.
Proof.
  intros Hc Hfd Hf Hfl Hfile Hq Hst Hpos. pose proof (lookup_lt_Some _ _ _ Hf). constructor; [|done]. eexists t, _, _. split.
  - by apply current_put.
  - split; [done|]. split; [cbn; by apply list_lookup_insert_eq|]. split; [done|]. split; [done|]. by destruct Hfile.
Qed.

Lemma sys_read_page k fd data p : fd_at k fd data p ->
  let m := Nat.min 4096 (length data - p) in
  exists k', SYS.sys_read k fd 4096 = Some (k', Z.of_nat m, take m (drop p data)) /\ fd_at k' fd data (p + m).
Proof.
  intros [(t & proc & f & Hc & Hfd & Hf & Hfl & Hpos & Hfile) [Hp Hst]] m. pose proof Hc as (Hcur & Ht & Hpr & _). unfold SYS.sys_read, SYS.current_proc.
  rewrite Hcur, (proj2 (Z.eqb_neq t 0) Ht), (proj2 (Z.leb_le 0 fd)), (proj2 (Z.ltb_lt fd _)) by lia. cbn [andb negb].
  rewrite (SYSP.get_fd_ok k t proc fd f Hpr Hf). cbn [mbind option_bind]. rewrite Hfl, Hpos, (vfs_read_page k _ _ data p Hfile Hp Hst). cbn [mbind option_bind Z.eqb negb].
  fold m. assert (Hlen : length (take m (drop p data)) = m) by (rewrite length_take, length_drop; lia). rewrite Hlen. eexists. split; [done|].
  unfold SYS.advance. rewrite Hpos, (proj2 (Z.leb_le 0 (Z.of_nat p))) by lia. pose proof (hf_size _ _ _ _ Hfile) as Hsz. unfold RBP.FILE_MAX in Hsz.
  rewrite RBP.s32_u32_small by lia. apply (fd_put _ fd data t proc f); try done; [by destruct Hfile|unfold m; lia|by apply after_page|cbn; unfold m; lia].
Qed.

Lemma get_file k id ino data : has_file k id ino data -> exists i, VFS.vfs_inode_get (SYS.fs k) id ino = Some (0, Some i) /\ RF.fmt (RF.i_mode i) = RF.S_IFREG /\ RF.i_size i = Z.of_nat (length data) /\ RF.i_nlinks i <> 0.
Proof.
  intros [(dev & s & i & [_ Hsb] & Hp & Hi & Hreg & Hsz & Hl & Ed) _ _ _]. exists i. unfold VFS.vfs_inode_get. rewrite Hsb. cbn [mbind option_bind VFS.sb_fs VFS.ops VFS.ramfs_driver VFS.ramfs_fsops VFS.op_inode_get VFS.sb_data].
  unfold RF.ramfs_inode_get. rewrite (proj2 (Z.eqb_neq _ 0) Hp), Hi. cbn [mbind option_bind]. unfold RF.S_ISREG in Hreg. by apply Z.eqb_eq in Hreg.
Qed.

(** Seeking from the start and from the end. *)
Lemma sys_seek k fd data p o w : fd_at k fd data p -> (o <= length data)%nat -> page_stops data o ->
  w = SYS.SEEK_SET \/ w = SYS.SEEK_END /\ o = length data ->
  exists k', SYS.sys_lseek k fd (if decide (w = SYS.SEEK_SET) then Z.of_nat o else 0) w = Some (k', Z.of_nat o) /\ fd_at k' fd data o.
Proof.
  intros [(t & proc & f & Hc & Hfd & Hf & Hfl & Hpos & Hfile) [Hp Hst]] Ho Hso Hw. pose proof Hc as (Hcur & Ht & Hpr & _).
  destruct (get_file k _ _ data Hfile) as (i & Hget & Hm & Hsz & _). pose proof (hf_ino _ _ _ _ Hfile) as Hino. pose proof (hf_size _ _ _ _ Hfile) as Hmax. unfold RBP.FILE_MAX in Hmax.
  unfold SYS.sys_lseek. rewrite (SYSP.current_pid_ok _ _ _ Hc). cbn [mbind option_bind]. rewrite (SYSP.get_filedescr_ok _ _ _ _ Hc Hfd). cbn [mbind option_bind].
  rewrite (proj2 (Z.eqb_neq t 0) Ht), (SYSP.get_fd_ok k t proc fd f Hpr Hf). cbn [mbind option_bind]. rewrite (proj2 (Z.eqb_neq _ 0) Hino), Hpos, (proj2 (Z.ltb_ge (Z.of_nat p) 0)) by lia.
  rewrite Hget. cbn [mbind option_bind Z.eqb negb]. rewrite Hm.
  assert (E : SYS.seek_to k t proc fd f (RF.i_size i) (Z.of_nat o) = (SYS.put_fd k t proc fd (SYS.mk_fd (SYS.fd_sb f) (SYS.fd_ino f) (SYS.fd_flags f) (Z.of_nat o)), Z.of_nat o)).
  { unfold SYS.seek_to. rewrite Hsz, (proj2 (Z.ltb_ge (Z.of_nat (length data)) (Z.of_nat o))), (proj2 (Z.ltb_ge (Z.of_nat o) 0)) by lia. done. }
  assert (Hfin : fd_at (SYS.put_fd k t proc fd (SYS.mk_fd (SYS.fd_sb f) (SYS.fd_ino f) (SYS.fd_flags f) (Z.of_nat o))) fd data o) by (by apply (fd_put k fd data t proc f)).
  eexists. split; [|exact Hfin]. destruct Hw as [->|[-> ->]].
  - rewrite decide_True by done. cbn [Z.eqb orb SYS.SEEK_SET SYS.SEEK_CUR]. by rewrite E.
  - rewrite decide_False by done. change (SYS.SEEK_END =? SYS.SEEK_CUR) with false. change (SYS.SEEK_END =? SYS.SEEK_SET) with false. cbv iota. rewrite Hsz, Z.sub_0_r, RBP.s32_u32_small by lia. rewrite Hsz in E.  by rewrite E.
Qed.

(** ** Opening *)

(** Storing an inode as it is, which is what [vfs_inode_set] does. *)
Lemma set_same k id ino data i' : has_file k id ino data ->
  (forall i, VFS.vfs_inode_get (SYS.fs k) id ino = Some (0, Some i) -> RF.i_mode i' = RF.i_mode i /\ RF.i_no i' = RF.i_no i /\ RF.i_data i' = RF.i_data i) ->
  exists v, VFS.vfs_inode_set (SYS.fs k) id ino i' = Some (v, 0) /\ forall k', SYS.fs k' = v -> has_file k' id ino data.
Proof.
  intros Hfile Hi'. destruct (get_file _ _ _ _ Hfile) as (i & Hget & Hm & Hsz & Hl). destruct (Hi' i Hget) as (E1 & E2 & E3). destruct Hfile as [(dev & s & i0 & Hroot & Hp & Hi & Hrest) H1 H2 H3]. pose proof Hroot as [_ Hsb].
  unfold VFS.vfs_inode_get in Hget. unfold VFS.vfs_inode_set. rewrite Hsb in Hget |- *. cbn [mbind option_bind VFS.sb_fs VFS.ops VFS.ramfs_driver VFS.ramfs_fsops VFS.op_inode_get VFS.op_inode_set VFS.sb_data] in Hget |- *.
  rewrite Hget. cbn [mbind option_bind Z.eqb negb]. rewrite E1, E2, E3, !Z.eqb_refl. cbn [negb]. unfold RF.ramfs_inode_get in Hget. rewrite (proj2 (Z.eqb_neq _ 0) Hp), Hi in Hget. injection Hget as <-.
  unfold RF.ramfs_inode_set. rewrite (proj2 (Z.eqb_neq _ 0) Hp), Hi. cbn [mbind option_bind]. rewrite (proj2 (Z.eqb_neq _ 0) Hl). cbn [andb]. eexists. split; [reflexivity|].
  intros k' Ek. constructor; try done. rewrite Ek. exists dev, (RF.put_inode s (RF.ramfs_idata_by_inode s ino) i0), i0. split; [by apply VFSP.rooted_put|]. split; [done|]. split; [|done]. cbn. by rewrite lookup_insert_eq.
Qed.

Lemma sys_open_file k t proc path id ino data : SYSP.current_ok k t proc -> Exists (fun f => SYS.fd_ino f < 1) (SYS.ps_fds proc) ->
  VFS.vfs_lookup (SYS.fs k) path = Some (0, id, ino) -> has_file k id ino data ->
  exists k' fd, SYS.sys_open k path SYS.O_RDONLY = Some (k', fd) /\ SYSP.lowest_free proc fd /\ fd_at k' fd data 0.
Proof.
  intros Hc Hfree Hlk Hfile. pose proof Hc as (Hcur & Ht & Hpr & Hpid & Htab & Hlen). unfold SYS.sys_open. change (SYS.rw_ok (Z.land SYS.O_RDONLY (Z.lor (Z.lor SYS.O_RDWR SYS.O_RDONLY) SYS.O_WRONLY))) with true. cbn [negb].
  rewrite Hlk. cbn [mbind option_bind Z.eqb negb andb]. unfold SYS.open_alloc. rewrite (SYSP.current_pid_ok _ _ _ Hc). cbn [mbind option_bind].
  assert (Ha : exists fd, SYS.alloc_fd_for_pid k (SYS.ps_pid proc) = Some fd).
  { unfold SYS.alloc_fd_for_pid. rewrite (SYSP.proc_by_pid_ok _ _ _ Hc). cbn [mbind option_bind]. rewrite (proj2 (Z.eqb_neq t 0) Ht), Hpr. cbn [mbind option_bind]. eauto. }
  destruct Ha as [fd Efd]. destruct (SYSP.alloc_fd_ok k t proc fd Hc Efd) as [[_ Hall]|Hlow].
  { exfalso. apply Exists_exists in Hfree as (f & Hin & Hf). pose proof (proj1 (Forall_forall _ _) Hall f Hin) as Hge. cbn in Hge. lia. }
  pose proof Hlow as (Hfd & (f0 & Hf0 & _) & _). rewrite Efd. cbn [mbind option_bind]. unfold SYS.N_PROCESS_FDS in Hfd. rewrite (proj2 (Z.ltb_ge fd 0)) by lia.
  rewrite (SYSP.get_filedescr_ok _ _ _ _ Hc) by done. cbn [mbind option_bind]. rewrite (SYSP.get_fd_ok k t proc fd f0 Hpr Hf0). cbn [mbind option_bind].
  rewrite (proj2 (Z.eqb_neq ino 0) (hf_ino _ _ _ _ Hfile)). cbn [andb]. unfold SYS.open_inode. set (k1 := SYS.put_fd _ _ _ _ _). change (SYS.fs k1) with (SYS.fs k).
  destruct (get_file _ _ _ _ Hfile) as (i & Hget & Hm & Hsz & Hl). rewrite Hget. cbn [mbind option_bind Z.eqb negb].
  set (i' := RF.mk_inode _ _ _ _ _ _ _). destruct (set_same k id ino data i' Hfile) as (v & -> & Hkeep); [intros j Hj; rewrite Hget in Hj; by injection Hj as <-|]. cbn [mbind option_bind].
  pose proof (lookup_lt_Some _ _ _ Hf0) as Hlt. set (f1 := SYS.mk_fd (SYS.fd_sb f0) (SYS.fd_ino f0) SYS.O_RDONLY 0) in k1.
  assert (Hg : SYS.get_fd k1 t fd = Some (SYS.mk_proc (SYS.ps_pid proc) (SYS.ps_umask proc) (<[Z.to_nat fd := f1]> (SYS.ps_fds proc)), f1)).
  { apply SYSP.get_fd_ok; [cbn; by rewrite lookup_insert_eq|]. cbn. by apply list_lookup_insert_eq. }
  rewrite Hg. cbn [mbind option_bind]. change (RF.i_mode i') with (RF.i_mode i). rewrite Hm.
  change (RF.S_IFREG =? RF.S_IFCHR) with false. change ((RF.S_IFREG =? RF.S_IFSOCK) || (RF.S_IFREG =? RF.S_IFIFO)) with false. cbv iota.
  change (SYS.has (Z.land SYS.O_RDONLY (Z.lor (Z.lor SYS.O_RDWR SYS.O_RDONLY) SYS.O_WRONLY)) (Z.lor SYS.O_RDWR SYS.O_WRONLY)) with false. cbv iota.
  eexists _, fd. split; [reflexivity|]. split; [done|]. apply (fd_put (SYS.set_fs k1 v) fd data t _ f1); try done.
  - by apply (current_put k t proc fd f1).
  - cbn. by apply list_lookup_insert_eq.
  - by apply Hkeep.
  - cbn. lia.
  - by left.
Qed.

(** ** The kernel keeps the laws of files *)

Context (buf : Z) (Hbuf : in_u32 buf).

Lemma small_fd fd : 0 <= fd < SYS.N_PROCESS_FDS -> s32 (u32 fd) = fd.
Proof. unfold SYS.N_PROCESS_FDS. intros Hfd. rewrite s32_u32. apply s32_small. unfold in_s32. lia. Qed.

Lemma user_read (k : kernel (RF.ramfs (H := H)) D) fd data p : fd_at (files k) fd data p ->
  let m := Nat.min 4096 (length data - p) in
  exists k', IO.sys_read (FileOps := cosec_ops buf) k fd 4096 = Some (k', Z.of_nat m, take m (drop p data)) /\ fd_at (files k') fd data (p + m).
Proof.
  intros Hat m. pose proof Hat as [(t & proc & f & _ & Hfd & _) _]. destruct (sys_read_page _ _ _ _ Hat) as (f' & E & Hat'). fold m in E, Hat'.
  cbn [IO.sys_read cosec_ops]. unfold sys_read, __syscall3. rewrite (syscall_listed k SYS_read h_sys_read) by (done || (unfold syscalls_list; set_solver)). cbn [callee files with_regs umem].
  rewrite small_fd, (u32_small 4096), E by (done || unfold in_u32; lia). cbn [mbind option_bind]. rewrite (u32_small buf) by done.
  assert (Hm : length (take m (drop p data)) = m) by (rewrite length_take, length_drop; lia). eexists.
  rewrite (s32_small (Z.of_nat m)) by (unfold in_s32; lia). cbn [set_eax umem set_umem]. pose proof (SC0P.load_store (umem k) buf (take m (drop p data))) as El. rewrite Hm in El. rewrite El. split; [reflexivity|exact Hat'].
Qed.

Lemma user_seek (k : kernel (RF.ramfs (H := H)) D) fd data p o w : fd_at (files k) fd data p -> (o <= length data)%nat -> page_stops data o ->
  w = SYS.SEEK_SET \/ w = SYS.SEEK_END /\ o = length data ->
  exists k', sys_lseek k fd (if decide (w = SYS.SEEK_SET) then Z.of_nat o else 0) w = Some (k', Z.of_nat o) /\ fd_at (files k') fd data o.
Proof.
  intros Hat Ho Hst Hw. pose proof Hat as [(t & proc & f & _ & Hfd & _ & _ & _ & Hfile) _]. destruct (sys_seek _ _ _ _ o w Hat Ho Hst Hw) as (f' & E & Hat').
  pose proof (hf_size _ _ _ _ Hfile) as Hmax. unfold RBP.FILE_MAX in Hmax.
  unfold sys_lseek, __syscall3. rewrite (syscall_listed k SYS_lseek h_sys_lseek) by (done || (unfold syscalls_list; set_solver)). cbn [callee files with_regs].
  assert (Ew : s32 (u32 w) = w) by (destruct Hw as [->|[-> _]]; done). set (off := if decide _ then _ else _) in *. assert (Eo : s32 (u32 off) = off) by (apply RBP.s32_u32_small; unfold off; case_decide; lia).
  rewrite small_fd, Ew, Eo, E by done. cbn [with_files mbind option_bind]. eexists. rewrite s32_small by (unfold in_s32; lia). split; [reflexivity|exact Hat'].
Qed.

Definition cosec_laws : FileLaws (kernel (RF.ramfs (H := H)) D) (FileOps0 := cosec_ops buf).
Proof.
  refine (Build_FileLaws _ (cosec_ops buf) (fun k fd data p => fd_at (files k) fd data p) (fun n => n = 4096) page_stops _ _ _).
  - intros k fd data p [(t & proc & f & _ & _ & _ & _ & _ & Hfile) [Hp _]]. pose proof (hf_size _ _ _ _ Hfile) as Hmax. unfold RBP.FILE_MAX in Hmax. split; [done|]. split; [lia|]. apply Hfile.
  - intros k fd data p n Hat _ ->. destruct (user_read k fd data p Hat) as (k' & E & Hat'). exists k', (Nat.min 4096 (length data - p)). pose proof Hat as [_ [Hp _]].
    split; [done|]. split; [lia|]. split; [lia|]. split; [lia|done].
  - intros k fd data p o Hat Ho Hst. destruct (user_seek k fd data p o SEEK_SET Hat Ho Hst) as (k' & E & Hat'); [by left|]. exists k'. rewrite decide_True in E by done. done.
Defined.

(** A name that the program has in its memory. *)
Lemma cstring_loop_ok m path fuel : forall a, (forall i b, (path ++ [0]) !! i = Some b -> ldb m (a + Z.of_nat i) = b) -> Forall (fun b => b <> 0) path -> (length path < fuel)%nat ->
  cstring_loop fuel m a = path.
Proof.
  revert fuel. induction path as [|c path IH]; intros [|fuel] a Hm Hz Hf; cbn [length] in Hf; try lia; cbn [cstring_loop].
  - pose proof (Hm 0%nat 0 eq_refl) as E. rewrite Z.add_0_r in E. by rewrite E.
  - pose proof (Hm 0%nat c eq_refl) as E. rewrite Z.add_0_r in E. inversion Hz as [|? ? Hc Hz']; subst. rewrite (proj2 (Z.eqb_neq _ 0)) by done. f_equal. apply IH; [|done|lia].
    intros i b Hi. rewrite <- (Hm (Datatypes.S i) b Hi). f_equal. lia.
Qed.

Lemma stored_size l : forall m a, (length l <= size (RB.store_bytes m a l))%nat.
Proof.
  intros m a. assert (Hd : forall l m a, dom m ∪ list_to_set (seqZ a (Z.of_nat (length l))) ⊆ dom (RB.store_bytes m a l)).
  { clear. induction l as [|b l IH]; intros m a; cbn [RB.store_bytes length].
    - rewrite seqZ_nil by lia. set_solver.
    - rewrite seqZ_cons by lia. replace (Z.pred (Z.of_nat (Datatypes.S (length l)))) with (Z.of_nat (length l)) by lia. specialize (IH (stb m a b) (a + 1)). unfold stb in IH at 1. rewrite dom_insert in IH. replace (Z.succ a) with (a + 1) by lia. set_solver. }
  specialize (Hd l m a). rewrite <- (size_dom (RB.store_bytes m a l)).
  assert (Hs : list_to_set (C := gset Z) (seqZ a (Z.of_nat (length l))) ⊆ dom (RB.store_bytes m a l)) by set_solver.
  apply subseteq_size in Hs. rewrite size_list_to_set, length_seqZ in Hs by apply NoDup_seqZ. lia.
Qed.

Lemma cstring_stored m path : Forall (fun b => b <> 0) path -> cstring (RB.store_bytes m buf (path ++ [0])) buf = path.
Proof.
  intros Hz. unfold cstring. apply cstring_loop_ok; [|done|].
  - intros i b Hi. pose proof (lookup_lt_Some _ _ _ Hi). rewrite SC0P.ldb_store_bytes_at by done. by rewrite nth_lookup, Hi.
  - pose proof (stored_size (path ++ [0]) m buf) as Hs. rewrite length_app in Hs. cbn [length] in Hs. lia.
Qed.

(** [fopen] for reading: the stream is at the start of the file. *)
Lemma fopen_file (s : io (kernel (RF.ramfs (H := H)) D)) t proc path id ino data b :
  SYSP.current_ok (files (os s)) t proc -> Exists (fun f => SYS.fd_ino f < 1) (SYS.ps_fds proc) -> Forall (fun b => b <> 0) path ->
  VFS.vfs_lookup (SYS.fs (files (os s))) path = Some (0, id, ino) -> has_file (files (os s)) id ino data -> length b = 4096%nat ->
  exists s' f, fopen (FileOps0 := cosec_ops buf) s path [114] true (Some b) = Some (s', Some f) /\ SYSP.lowest_free proc (file_fd f) /\
    reads (FileOps0 := cosec_ops buf) (FileLaws0 := cosec_laws) s' f data 0.
Proof.
  intros Hc Hfree Hz Hlk Hfile Hb. destruct (sys_open_file _ t proc path id ino data Hc Hfree Hlk Hfile) as (k1 & fd & Eo & Hlow & Hat). pose proof Hlow as (Hfd & _).
  unfold fopen. cbn [negb]. unfold fopen_on. change (open_flags [114]) with O_RDONLY. cbn [IO.sys_open cosec_ops os set_errno].
  unfold sys_open, __syscall2. rewrite (syscall_listed _ SYS_open h_sys_open) by (done || (unfold syscalls_list; set_solver)). cbn [callee files with_regs umem set_umem].
  rewrite (u32_small buf), cstring_stored by done. change (s32 (u32 O_RDONLY)) with SYS.O_RDONLY. rewrite Eo. cbn [with_files mbind option_bind].
  assert (Es : s32 fd = fd) by (apply s32_small; unfold SYS.N_PROCESS_FDS, in_s32 in *; lia). rewrite Es, (proj2 (Z.ltb_ge fd 0)) by lia.
  set (k2 := set_eax _ _). assert (Hat2 : fd_at (files k2) fd data 0) by exact Hat.
  destruct (user_seek k2 fd data 0 (length data) SYS.SEEK_END Hat2) as (k3 & E3 & Hat3); [lia|by right|by right|]. rewrite decide_False in E3 by done.
  cbn [IO.sys_lseek cosec_ops]. change SEEK_END with SYS.SEEK_END. rewrite E3. cbn [mbind option_bind]. rewrite (proj2 (Z.ltb_ge (Z.of_nat (length data)) 0)) by lia. change (has O_RDONLY O_APPEND) with false. cbv iota.
  destruct (user_seek k3 fd data _ 0 SYS.SEEK_SET Hat3) as (k4 & E4 & Hat4); [lia|by left|by left|]. rewrite decide_True in E4 by done. change (Z.of_nat 0) with 0 in E4. change SEEK_SET with SYS.SEEK_SET. rewrite E4. cbn [mbind option_bind].
  eexists _, _. split; [reflexivity|]. split; [exact Hlow|]. constructor; try done. constructor. exists b. split; [done|]. split; [done|]. cbn [file_bufsz file_bufpos file_bufend]. split; [split; [unfold BUFSIZ; lia|done]|]. split; [lia|]. split; [lia|]. split; [done|]. exact Hat4.
Qed.

(** C9: A program that opens a file of the root file system for reading and works
    on the stream gets what the file holds.  [fopen] succeeds on the path of a
    regular file within its direct blocks when the process has a free descriptor,
    with the lowest one; then a sequence of reads, lines, characters, seeks (to
    page boundaries or the end), tells and end-of-file tests gives the bytes of
    the inode from the position of the stream on, through the buffer of the
    library, the interrupt, the descriptor and the blocks of ramfs.  The
    conditions on the operations are those of streams: each line read fits the
    caller's buffer with its newline and holds no NUL, and each character read is
    not NUL and comes back as a signed char. *)
Theorem opened_file_reads (s : io (kernel (RF.ramfs (H := H)) D)) t proc path id ino data b ops rs p :
  SYSP.current_ok (files (os s)) t proc -> Exists (fun f => SYS.fd_ino f < 1) (SYS.ps_fds proc) -> Forall (fun b => b <> 0) path ->
  VFS.vfs_lookup (SYS.fs (files (os s))) path = Some (0, id, ino) -> has_file (files (os s)) id ino data -> length b = 4096%nat ->
  asteps (FileOps0 := cosec_ops buf) (FileLaws0 := cosec_laws) data 0 ops rs p ->
  exists s1 f s2 f2, fopen (FileOps0 := cosec_ops buf) s path [114] true (Some b) = Some (s1, Some f) /\ SYSP.lowest_free proc (file_fd f) /\
    sruns (FileOps0 := cosec_ops buf) s1 f ops = Some (s2, f2, rs) /\ reads (FileOps0 := cosec_ops buf) (FileLaws0 := cosec_laws) s2 f2 data p.
Proof.
  intros Hc Hfree Hz Hlk Hfile Hb Ha. destruct (fopen_file s t proc path id ino data b Hc Hfree Hz Hlk Hfile Hb) as (s1 & f & E & Hlow & Hr).
  destruct (sruns_ok s1 f data 0 ops rs p Hr Ha) as (s2 & f2 & E2 & Hr2). by exists s1, f, s2, f2.
Qed.


(** ** Opening that fails *)

(** The error of a path under a mode of [fopen], if there is one: the mode says
    neither of reading and writing, the path leads to no file and none is to be
    made, or no descriptor is left. *)
Definition open_error (k : SYS.kstate (RF.ramfs (H := H)) D) (proc : SYS.process) (path mode : list Z) : option Z :=
  if bool_decide ((114 ∉ mode) /\ (119 ∉ mode) /\ (97 ∉ mode) /\ (43 ∉ mode)) then Some IO.EINVAL
  else match VFS.vfs_lookup (SYS.fs k) path with
  | Some (e, _, _) =>
      if negb (e =? 0) && negb ((e =? RF.ENOENT) && bool_decide ((119 ∈ mode) \/ (97 ∈ mode)) && negb (bool_decide ((114 ∈ mode) /\ (43 ∉ mode)))) then Some e
      else if bool_decide (Forall (fun f => 1 <= SYS.fd_ino f) (SYS.ps_fds proc)) then Some SYS.EMFILE else None
  | None => None
  end.

Lemma sys_open_error k t proc path mode e : SYSP.current_ok k t proc -> open_error k proc path mode = Some e -> SYS.sys_open k path (open_flags mode) = Some (k, - e).
Proof.
  intros Hc. unfold open_error. case_bool_decide as Hmode.
  - intros [= <-]. unfold open_flags, occurs. destruct Hmode as (H1 & H2 & H3 & H4). rewrite !bool_decide_eq_false_2 by done. done.
  - destruct (VFS.vfs_lookup (SYS.fs k) path) as [[[r id] ino]|] eqn:El; [|done].
    assert (Hrw : SYS.rw_ok (Z.land (open_flags mode) (Z.lor (Z.lor SYS.O_RDWR SYS.O_RDONLY) SYS.O_WRONLY)) = true /\
      SYS.has (open_flags mode) SYS.O_CREAT = bool_decide ((119 ∈ mode) \/ (97 ∈ mode)) && negb (bool_decide ((114 ∈ mode) /\ (43 ∉ mode)))).
    { unfold open_flags, occurs. repeat case_bool_decide; try (split; reflexivity); try (exfalso; tauto). }
    destruct Hrw as [Hrw Hcr]. unfold SYS.sys_open. rewrite Hrw, El. cbn [negb mbind option_bind]. rewrite Hcr, <- andb_assoc.
    destruct (negb (r =? 0) && negb ((r =? RF.ENOENT) && _)); [by intros [= <-]|]. destruct (bool_decide (Forall (fun f => 1 <= SYS.fd_ino f) (SYS.ps_fds proc))) eqn:Hall; [apply bool_decide_eq_true in Hall|intros He; discriminate He]. intros [= <-].
    unfold SYS.open_alloc. rewrite (SYSP.current_pid_ok _ _ _ Hc). cbn [mbind option_bind]. unfold SYS.alloc_fd_for_pid. rewrite (SYSP.proc_by_pid_ok _ _ _ Hc). cbn [mbind option_bind].
    pose proof Hc as (_ & Ht & Hpr & _ & _ & Hlen). rewrite (proj2 (Z.eqb_neq t 0) Ht), Hpr. cbn [mbind option_bind]. rewrite take_ge by (rewrite Hlen; done).
    destruct (SYSP.fd_loop_spec (SYS.ps_fds proc) 0) as [[-> _]|(n & f & _ & Hn & Hf & _)]; [done|]. exfalso. pose proof (Forall_lookup_1 _ _ _ _ Hall Hn) as Hge. cbn in Hge. lia.
Qed.

(** C37: Opening fails as it should.  When the mode names no access, when the path
    leads to no file and the mode does not make one, or when the process has no
    descriptor left, [fopen] returns NULL with the error in [theErrNo], and
    files, descriptors and the rest of the kernel's files are as they were. *)
Theorem fopen_fails (s : io (kernel (RF.ramfs (H := H)) D)) t proc path mode mem e :
  SYSP.current_ok (files (os s)) t proc -> Forall (fun b => b <> 0) path -> open_error (files (os s)) proc path mode = Some e -> 0 < e < 2147483648 ->
  exists s', fopen (FileOps0 := cosec_ops buf) s path mode true mem = Some (s', None) /\ theErrNo s' = e /\ files (os s') = files (os s).
Proof.
  intros Hc Hz He Hr. pose proof (sys_open_error _ t proc path mode e Hc He) as Eo. unfold fopen, fopen_on. cbn [negb IO.sys_open cosec_ops os set_errno]. unfold sys_open, __syscall2.
  rewrite (syscall_listed _ SYS_open h_sys_open) by (done || (unfold syscalls_list; set_solver)). cbn [callee files with_regs umem set_umem]. rewrite (u32_small buf), cstring_stored by done.
  assert (Ef : s32 (u32 (open_flags mode)) = open_flags mode) by (unfold open_flags; by repeat case_match). rewrite Ef, Eo. cbn [with_files mbind option_bind].
  rewrite s32_small by (unfold in_s32; lia). rewrite (proj2 (Z.ltb_lt (- e) 0)) by lia. cbn [mbind option_bind]. eexists. split; [reflexivity|]. cbn. split; [lia|done].
Qed.

End file.

(** ** Witness *)

(** "/a" holds nine bytes, and the process has no open descriptor. *)
Definition text_fs : RF.ramfs (H := FF.alloc_t) := Eval vm_compute in
  match RF.write_inode RFP.demo_fs2 2 0 demo_data with Some (s, _, _) => s | None => RFP.demo_fs2 end.
Definition text_proc : SYS.process := SYS.mk_proc 3 420 (replicate 20 (SYS.mk_fd 0 0 0 0)).
Definition text_kern : kernel (RF.ramfs (H := FF.alloc_t)) unit :=
  mk_kernel (SYS.mk_k (VFSP.demo_vfs text_fs) {[ 900 := text_proc ]} [0; 0; 0; 900; 0; 0; 0; 0; 0; 0] 900) ∅ SC0P.demo_mm (PG.mk_proc_mem 0 0 0) TK.demo_s0 (mk_ctx 0 0 0 0).

Lemma text_file : has_file (files text_kern) 7 2 demo_data.
Proof.
  constructor.
  - exists 257, text_fs, (default VFSP.demo_file (RF.idatas text_fs !! RF.ramfs_idata_by_inode text_fs 2)). split; [apply VFSP.demo_rooted|]. split; [by vm_compute|]. split; [vm_compute; reflexivity|]. split; [by vm_compute|]. split; [by vm_compute|]. split; [by vm_compute|]. vm_compute. reflexivity.
  - lia.
  - unfold RBP.FILE_MAX. cbn. lia.
  - repeat (apply Forall_cons_2; [unfold in_u8; lia|]). constructor.
Qed.

Lemma small_buf : in_u32 5000.
Proof. unfold in_u32. lia. Qed.

(** A line, a character, where it is, the rest, the end; back to the start. *)
Lemma opened_file_reads_witness :
  exists s1 f s2 f2, fopen (FileOps0 := cosec_ops 5000) (mk_io text_kern 0) [47; 97] [114] true (Some (replicate 4096 0)) = Some (s1, Some f) /\ SYSP.lowest_free text_proc (file_fd f) /\
    sruns (FileOps0 := cosec_ops 5000) s1 f [SGets 80; SGetc; STell; SRead 1 100; SEof; SSeek 0; SGetc] =
      Some (s2, f2, [(Some [104; 105; 10; 0], 0); (None, 97); (None, 4); (Some [98; 99; 100; 10; 122], 5); (None, 1); (None, 0); (None, 104)]) /\
    reads (FileOps0 := cosec_ops 5000) (FileLaws0 := cosec_laws 5000 small_buf) s2 f2 demo_data 1.
Proof.
  apply (opened_file_reads 5000 small_buf (mk_io text_kern 0) 900 text_proc [47; 97] 7 2 demo_data (replicate 4096 0)).
  - split_and!; done.
  - apply Exists_cons_hd. cbn. lia.
  - repeat (apply Forall_cons_2; [lia|]). constructor.
  - vm_compute. reflexivity.
  - exact text_file.
  - apply length_replicate.
  - eapply AS_cons. { apply (A_gets demo_data 0 80 3); [lia| |lia]. apply (D_stop (Some 10) _ _ 10 [104; 105] (drop 3 demo_data)); try done; try (unfold in_u8; simpl; lia); rewrite !not_elem_of_cons; split_and!; (lia || apply not_elem_of_nil). }
    eapply AS_cons. { apply (A_getc demo_data 3 97); [reflexivity|lia]. }
    eapply AS_cons. { apply (A_tell demo_data 4). }
    eapply AS_cons. { apply (A_read demo_data 4 1 100 5); [lia|reflexivity]. }
    eapply AS_cons. { apply (A_eof demo_data 9). }
    eapply AS_cons. { apply (A_seek demo_data 9 0); [simpl; lia|by left]. }
    eapply AS_cons. { apply (A_getc demo_data 0 104); [reflexivity|lia]. }
    apply AS_nil.
Defined.

(** "/b" is not there. *)
Lemma fopen_fails_witness :
  exists s', fopen (FileOps0 := cosec_ops 5000) (mk_io text_kern 0) [47; 98] [114] true None = Some (s', None) /\ theErrNo s' = 2 /\ files (os s') = files text_kern.
Proof.
  apply (fopen_fails 5000 small_buf (mk_io text_kern 0) 900 text_proc [47; 98] [114] None 2).
  - split_and!; done.
  - repeat (apply Forall_cons_2; [lia|]). constructor.
  - vm_compute. reflexivity.
  - lia.
Defined.

(** ** Defects the model shows *)

(** After a seek into the middle of a page, the stream gives bytes that lie
    behind the end of the file. *)
Lemma stream_past_end :
  ('(s, f) ← fopen (FileOps0 := cosec_ops 5000) (mk_io text_kern 0) [47; 97] [114] true (Some (replicate 4096 0)); f ← f;
   '(_, _, rs) ← sruns (FileOps0 := cosec_ops 5000) s f [SSeek 5; SRead 1 100]; Some rs) = Some [(None, 0); (Some [99; 100; 10; 122; 0; 0; 0; 0; 0], 9)].
Proof. vm_compute. reflexivity. Qed.

Section missing.
Context {S D : Type} (s : io (kernel S D)).

(** The kernel has no call to make a process: [fork] always fails, so that the
    shell starts no program. *)
Lemma fork_fails : exists k', fork s = Some (mk_io k' ENOSYS, -1) /\ files k' = files (os s).
Proof. unfold fork, sys_fork, __syscall0. rewrite syscall_unlisted; [|unfold syscalls_list; set_solver|by vm_compute]. cbn. eexists. split; [reflexivity|done]. Qed.

(** Nor to ask for the type of a descriptor: nothing is a terminal. *)
Lemma nothing_is_tty fd stat : exists k', isatty s fd stat = Some (mk_io k' ENOSYS, 0) /\ files k' = files (os s).
Proof. unfold isatty, fstat, sys_fstat, __syscall2. rewrite syscall_unlisted; [|unfold syscalls_list; set_solver|by vm_compute]. cbn. eexists. split; [reflexivity|done]. Qed.

(** Nor for signals: [abort] returns. *)
Lemma abort_returns pid : SYS.current_pid (files (os s)) = Some pid -> 0 <= pid < 2147483648 -> exists s', abort s = Some s' /\ files (os s') = files (os s).
Proof.
  intros Hp Hr. unfold abort, raise, getpid, sys_getpid, __syscall0. rewrite (syscall_listed (os s) SYS_getpid h_sys_getpid) by (done || (unfold syscalls_list; set_solver)). cbn [callee]. unfold SC0.sys_getpid. cbn [files with_regs]. rewrite Hp. cbn [mbind option_bind negative_to_errno].
  rewrite s32_small by (unfold in_s32; lia). rewrite (proj2 (Z.ltb_ge pid 0)) by lia. cbn [mbind option_bind]. unfold kill, sys_kill, __syscall2. rewrite syscall_unlisted; [|unfold syscalls_list; set_solver|by vm_compute]. cbn. eexists. split; [reflexivity|done].
Qed.

End missing.
End USP.
