(* ===== verification/Listing.v ===== *)
(** * Listing a directory (src/fs/vfs.c, [print_ls])

    Module [LS]: the loop of [print_ls] over [ramfs_get_direntry], which takes the
    hash of an entry for the place to go on from; the lines it prints are those
    of the entries, as long as no two of them have the same hash. *)

From S2P Require Import Prelude FirstFit FirstFitProofs PMem RamBlocks RamBlocksProofs BTree CString CStringProofs RamDir KHeap RamFS RamFSProofs Devices Vfs VfsProofs.
Import KH RF RFP VFS VFSP.

Module LS.

Section ls.
Context {S D : Type}.

(** The result of the last call, and the lines: inode and name. *)
Fixpoint ls_loop (fuel : nat) (get_direntry : Z -> option (Z * option dirent * Z)) (iter : Z) : option (Z * list (Z * list Z)) :=
  match fuel with
  | O => None
  | Datatypes.S fuel =>
      '(ret, de, iter) ← get_direntry iter;
      if negb (ret =? 0) then Some (ret, [])
      else
        de ← de;
        let line := (d_ino de, d_name de) in
        if iter =? 0 then Some (0, [line])
        else '(ret, lines) ← ls_loop fuel get_direntry iter; Some (ret, line :: lines)
  end.

Definition print_ls (fuel : nat) (v : vfs S D) (path : list Z) : option (Z * list (Z * list Z)) :=
  '(ret, id, localpath) ← vfs_mountnode_by_path v path;
  if negb (ret =? 0) then Some (ret, [])
  else
    sb ← sbs v !! id;
    lookup_inode ← op_lookup_inode (ops (sb_fs sb));
    '(ret, ino) ← lookup_inode (sb_data sb) localpath SIZE_MAX;
    if negb (ret =? 0) then Some (ret, [])
    else
      get_direntry ← op_get_direntry (ops (sb_fs sb));
      ls_loop fuel (get_direntry (sb_data sb) ino) 0.

End ls.

(** ** The entries in order *)

(** The hash of the first entry, or the end. *)
Definition head_hash (l : list RD.ramfs_direntry) : Z := match l with de :: _ => RD.de_hash de | [] => 0 end.

Lemma next_bucket_spec bs : forall i, match next_bucket bs i with
  | Some (k, b) => i <= k /\ b <> [] /\ concat bs = b ++ concat (drop (Datatypes.S (Z.to_nat (k - i))) bs)
  | None => concat bs = []
  end.
Proof.
  induction bs as [|b bs IH]; intros i; [done|]. destruct b as [|e b]; cbn [next_bucket concat].
  - specialize (IH (i + 1)). destruct (next_bucket bs (i + 1)) as [[k b]|]; [|done]. destruct IH as (Hk & Hb & E). split; [lia|]. split; [done|]. cbn [app]. rewrite E at 1. replace (Z.to_nat (k - i)) with (Datatypes.S (Z.to_nat (k - (i + 1)))) by lia. done.
  - split; [lia|]. split; [done|]. rewrite Z.sub_diag. done.
Qed.

Lemma next_bucket_hash bs i : match next_bucket bs i with Some (_, de :: _) => RD.de_hash de | _ => 0 end = head_hash (concat bs).
Proof.
  pose proof (next_bucket_spec bs i) as H. destruct (next_bucket bs i) as [[k b]|]; [|by rewrite H]. destruct H as (_ & Hb & ->). by destruct b.
Qed.

Section order.
Context (dir : RD.ramfs_directory) (Hwf : RD.dir_wf dir) (Hnd : NoDup (RD.de_hash <$> RD.entries dir)).

(** The place of an entry: its bucket, and what comes before and behind it there. *)
Lemma entry_place pre e post : RD.entries dir = pre ++ e :: post ->
  exists k b1 b2, RD.ht dir !! k = Some (b1 ++ e :: b2) /\ k = Z.to_nat (RD.de_hash e mod RD.htcap dir) /\ post = b2 ++ concat (drop (Datatypes.S k) (RD.ht dir)).
Proof.
  intros E. assert (H : forall bs pre, concat bs = pre ++ e :: post -> exists k b1 b2, bs !! k = Some (b1 ++ e :: b2) /\ post = b2 ++ concat (drop (Datatypes.S k) bs)).
  { clear. induction bs as [|b bs IH]; intros pre E; cbn [concat] in E; [by destruct pre|]. destruct (decide (length pre < length b)%nat) as [Hl|Hl].
    - assert (Eb : b = pre ++ e :: drop (Datatypes.S (length pre)) b /\ post = drop (Datatypes.S (length pre)) b ++ concat bs).
      { apply (f_equal (drop (length pre))) in E as E2. rewrite drop_app_length, drop_app_le in E2 by lia. apply (f_equal (take (length pre))) in E as E3. rewrite take_app_length, take_app_le in E3 by lia.
        destruct (drop (length pre) b) as [|x d] eqn:Ed; [apply (f_equal length) in Ed; rewrite length_drop in Ed; cbn in Ed; lia|]. injection E2 as -> E2.
        assert (Ed' : drop (Datatypes.S (length pre)) b = d) by (change (Datatypes.S (length pre)) with (1 + length pre)%nat; rewrite Nat.add_comm, <- drop_drop, Ed; done).
        rewrite Ed'. split; [|done]. rewrite <- E3 at 1. rewrite <- Ed. by rewrite take_drop. }
      exists 0%nat, pre, (drop (Datatypes.S (length pre)) b). destruct Eb as [Eb1 Eb2]. split; [cbn; by rewrite <- Eb1|]. done.
    - apply (f_equal (drop (length b))) in E. rewrite drop_app_length, drop_app_le in E by lia. destruct (IH _ E) as (k & b1 & b2 & Hk & Hp). by exists (Datatypes.S k), b1, b2. }
  destruct (H _ _ E) as (k & b1 & b2 & Hk & Hp). exists k, b1, b2. split; [done|]. split; [|done]. apply (RD.wf_bucket _ Hwf k _ e Hk). apply elem_of_app. right. left.
Qed.

Lemma from_hash_unique b1 e b2 : (forall x, x ∈ b1 -> RD.de_hash x <> RD.de_hash e) -> from_hash (RD.de_hash e) (b1 ++ e :: b2) = e :: b2.
Proof.
  induction b1 as [|x b1 IH]; intros Hn; cbn [app from_hash]; [by rewrite Z.eqb_refl|]. rewrite (proj2 (Z.eqb_neq _ _)) by (apply Hn; left). apply IH. intros y Hy. apply Hn. by right.
Qed.

End order.

(** ** The loop *)

Section ramfs.
Context {H : Type} `{Heap H}.
Context (s : ramfs (H := H)) (Hinv : fs_inv s).
Context (ino : Z) (i : inode) (dir : RD.ramfs_directory).
Context (Hp : ramfs_idata_by_inode s ino <> 0) (Hi : idatas s !! ramfs_idata_by_inode s ino = Some i) (Hdir : S_ISDIR (i_mode i) = true) (Hd : dirs s !! i_data i = Some dir).
Context (Hnd : NoDup (RD.de_hash <$> RD.entries dir)) (Hnz : Forall (fun e => RD.de_hash e <> 0) (RD.entries dir)).

Definition line (e : RD.ramfs_direntry) : Z * list Z := (RD.de_ino e, RD.ztake UCHAR_MAX (RD.de_name e)).

Lemma filled e : e ∈ RD.entries dir -> exists de, fill_dirent s e = Some de /\ (d_ino de, d_name de) = line e.
Proof.
  intros He. unfold fill_dirent. destruct (Z.eqb_spec (ramfs_idata_by_inode s (RD.de_ino e)) 0) as [E|E]; [by eexists|].
  destruct (fi_dirs s Hinv _ _ Hd) as [_ Hwf]. assert (Hm : RD.dir_map dir !! RD.de_name e = Some (RD.de_ino e)).
  { unfold RD.dir_map. apply elem_of_list_to_map_1; [rewrite <- list_fmap_compose; apply (RD.wf_names _ Hwf)|]. apply list_elem_of_fmap. by exists e. }
  destruct (fi_entry s Hinv _ _ _ _ Hd Hm) as (_ & j & Hj & _). rewrite Hj. cbn. by eexists.
Qed.

(** One call gives one entry and the hash of the next. *)
Lemma direntry_step pre e post : RD.entries dir = pre ++ e :: post ->
  exists de, ramfs_get_direntry s ino (match pre with [] => 0 | _ => RD.de_hash e end) = Some (0, Some de, head_hash post) /\ (d_ino de, d_name de) = line e.
Proof.
  intros E. destruct (fi_dirs s Hinv _ _ Hd) as [_ Hwf]. assert (He : e ∈ RD.entries dir) by (rewrite E; apply elem_of_app; right; left). destruct (filled e He) as (de & Ef & El). exists de. split; [|done].
  unfold ramfs_get_direntry. rewrite (proj2 (Z.eqb_neq _ 0) Hp), Hi, Hdir, Hd. cbn [negb].
  assert (Hfin : forall idx b2, 0 <= idx -> post = b2 ++ concat (drop (Datatypes.S (Z.to_nat idx)) (RD.ht dir)) ->
    (match b2 with de :: _ => RD.de_hash de | [] => match next_bucket (drop (Z.to_nat (idx + 1)) (RD.ht dir)) (idx + 1) with Some (_, de :: _) => RD.de_hash de | _ => 0 end end) = head_hash post).
  { intros idx b2 Hix ->. destruct b2 as [|x b2]; [|done]. rewrite next_bucket_hash. cbn [app]. f_equal. f_equal. f_equal. lia. }
  destruct pre as [|x pre].
  - cbn [Z.eqb negb]. pose proof (next_bucket_spec (RD.ht dir) 0) as Hn. change (concat (RD.ht dir)) with (RD.entries dir) in Hn. destruct (next_bucket (RD.ht dir) 0) as [[k' b]|]; [|by rewrite Hn in E].
    destruct Hn as (Hk & Hb & En). rewrite En in E. destruct b as [|y b]; [done|]. injection E as -> E. rewrite Ef, Hfin; [done|done|]. by rewrite Z.sub_0_r in E.
  - destruct (entry_place dir Hwf (x :: pre) e post E) as (k & b1 & b2 & Hk & Ek & Ep). pose proof (RD.wf_cap _ Hwf) as [Hcap _]. pose proof (Z.mod_pos_bound (RD.de_hash e) (RD.htcap dir) Hcap) as Hmod.
    rewrite (proj2 (Z.eqb_neq _ 0) (proj1 (Forall_forall _ _) Hnz e He)). cbn [negb]. unfold RD.bucket. rewrite <- Ek, Hk. cbn [default from_option id].
    assert (Hu : from_hash (RD.de_hash e) (b1 ++ e :: b2) = e :: b2).
    { apply from_hash_unique. intros y Hy Eh. assert (Hsub : NoDup (RD.de_hash <$> (b1 ++ e :: b2))).
      { clear -Hnd Hk. unfold RD.entries in Hnd. rewrite <- (take_drop_middle _ _ _ Hk) in Hnd. rewrite concat_app in Hnd. cbn [concat] in Hnd. rewrite !fmap_app in Hnd. apply NoDup_app in Hnd as (_ & _ & Hnd). apply NoDup_app in Hnd as (Hnd & _). by rewrite fmap_app. }
      rewrite fmap_app in Hsub. apply NoDup_app in Hsub as (_ & Hsub & _). apply (Hsub (RD.de_hash y)); [by apply list_elem_of_fmap_2|]. rewrite Eh. cbn. left. }
    destruct (b1 ++ e :: b2) as [|z l] eqn:Ez; [by destruct b1|]. rewrite Hu, Ef, Hfin; [done|lia|]. by rewrite Ep, Ek.
Qed.

Lemma ls_loop_ok post : forall fuel pre e, RD.entries dir = pre ++ e :: post -> (length post < fuel)%nat ->
  ls_loop fuel (ramfs_get_direntry s ino) (match pre with [] => 0 | _ => RD.de_hash e end) = Some (0, line <$> e :: post).
Proof.
  induction post as [|e' post IH]; intros [|fuel] pre e E Hf; cbn [length] in Hf; try lia; cbn [ls_loop]; destruct (direntry_step pre e _ E) as (de & -> & El); cbn [mbind option_bind Z.eqb negb head_hash]; rewrite El.
  - done.
  - assert (He : e' ∈ RD.entries dir) by (rewrite E; apply elem_of_app; right; right; left). rewrite (proj2 (Z.eqb_neq _ 0) (proj1 (Forall_forall _ _) Hnz e' He)).
    specialize (IH fuel (pre ++ [e]) e'). rewrite <- app_assoc in IH. specialize (IH E ltac:(lia)). destruct (pre ++ [e]) as [|y l] eqn:Ey; [by destruct pre|]. by rewrite IH.
Qed.

End ramfs.

(** C34: [print_ls] lists a directory of the root file system: on the path of a
    directory whose entries have different hashes, none of them 0, the loop ends
    after as many turns as there are entries and prints the inode and the name
    of each of them, once. *)
Theorem ls_lists_directory {H D : Type} `{Heap H} fuel (v : vfs (ramfs (H := H)) D) id dev s path ino i dir :
  rooted v id dev s -> fs_inv s -> ramfs_lookup_inode s path SIZE_MAX = Some (0, ino) -> ramfs_idata_by_inode s ino <> 0 ->
  idatas s !! ramfs_idata_by_inode s ino = Some i -> S_ISDIR (i_mode i) = true -> dirs s !! i_data i = Some dir ->
  RD.entries dir <> [] -> NoDup (RD.de_hash <$> RD.entries dir) -> Forall (fun e => RD.de_hash e <> 0) (RD.entries dir) -> (length (RD.entries dir) <= fuel)%nat ->
  print_ls fuel v (FS_SEP :: path) = Some (0, line <$> RD.entries dir) /\ NoDup (RD.de_name <$> RD.entries dir).
Proof.
  intros Hr Hinv Hlk Hp Hi Hdir Hd Hne Hnd Hnz Hf. split; [|apply (RD.wf_names _ (proj2 (fi_dirs s Hinv _ _ Hd)))]. unfold print_ls. rewrite (rooted_path _ _ _ _ _ Hr). cbn [mbind option_bind Z.eqb negb].
  destruct Hr as [_ ->]. cbn [mbind option_bind sb_fs ops ramfs_driver ramfs_fsops op_lookup_inode op_get_direntry sb_data]. rewrite Hlk. cbn [mbind option_bind Z.eqb negb].
  destruct (RD.entries dir) as [|e post] eqn:E; [done|]. cbn [length] in Hf. by apply (ls_loop_ok s Hinv ino i dir Hp Hi Hdir Hd ltac:(by rewrite E) ltac:(by rewrite E) post fuel [] e).
Qed.

(** ** Witness: the root directory with ".", ".." and "a" *)

Definition demo_root : RD.ramfs_directory := default RD.ramfs_directory_new (dirs demo_fs2 !! i_data demo_root_inode).

Lemma ls_lists_directory_witness :
  print_ls 3 (demo_vfs demo_fs2) [47] = Some (0, line <$> RD.entries demo_root) /\ NoDup (RD.de_name <$> RD.entries demo_root).
Proof.
  apply (ls_lists_directory 3 (demo_vfs demo_fs2) 7 257 demo_fs2 [] 1 demo_root_inode demo_root (demo_rooted _) demo2_inv); try (by vm_compute).
  - apply (bool_decide_unpack _). vm_compute. exact I.
  - apply (bool_decide_unpack _). vm_compute. exact I.
Defined.

(** ** Defects the model shows *)

(** Of two entries with the same hash in a bucket the second is never reached:
    the listing goes around in the first without end. *)
Lemma equal_hashes_loop {H : Type} `{Heap H} (s : ramfs (H := H)) ino i dir e1 e2 b1 b2 : fs_inv s ->
  ramfs_idata_by_inode s ino <> 0 -> idatas s !! ramfs_idata_by_inode s ino = Some i -> S_ISDIR (i_mode i) = true -> dirs s !! i_data i = Some dir ->
  RD.bucket dir (RD.de_hash e1) = b1 ++ e1 :: e2 :: b2 -> RD.de_hash e1 = RD.de_hash e2 -> RD.de_hash e1 <> 0 -> (forall x, x ∈ b1 -> RD.de_hash x <> RD.de_hash e1) ->
  forall fuel, ls_loop fuel (ramfs_get_direntry s ino) (RD.de_hash e1) = None.
Proof.
  intros Hinv Hp Hi Hdir Hd Hb Eh Hz Hn fuel. assert (He : e1 ∈ RD.entries dir).
  { unfold RD.bucket in Hb. destruct (RD.ht dir !! _) as [b|] eqn:E; cbn in Hb; [|by destruct b1]. subst b. unfold RD.entries. rewrite <- (take_drop_middle _ _ _ E), concat_app. cbn [concat]. rewrite !elem_of_app. right. left. right. left. }
  destruct (filled s Hinv i dir Hd e1 He) as (de & Ef & _).
  assert (E : ramfs_get_direntry s ino (RD.de_hash e1) = Some (0, Some de, RD.de_hash e1)).
  { unfold ramfs_get_direntry. rewrite (proj2 (Z.eqb_neq _ 0) Hp), Hi, Hdir, Hd, (proj2 (Z.eqb_neq _ 0) Hz), Hb. cbn [negb]. pose proof (from_hash_unique b1 e1 (e2 :: b2) Hn) as Hu. destruct (b1 ++ e1 :: e2 :: b2) as [|z l] eqn:Ez; [by destruct b1|]. by rewrite Hu, Ef, Eh. }
  induction fuel as [|fuel IH]; [done|]. cbn [ls_loop]. rewrite E. cbn [mbind option_bind Z.eqb negb]. rewrite (proj2 (Z.eqb_neq _ 0) Hz). by rewrite IH.
Qed.

End LS.
