(* ===== verification/Serial.v ===== *)
(** * The serial line, the log and the disk probe (src/dev/serial.c, src/core/log.c,
      src/dev/ide.c)

    Module [SER].  The ports are what the program reads from them, a list of
    values in the order of the reads, and what it writes to them, with the width
    of each access; [None] is a read for which there is no value, a fault, or text
    longer than [fuel]. *)

From S2P Require Import Prelude CString CStringProofs Fmt FmtProofs.

Module SER.

Record ports := mk_ports { inputs : list Z; outputs : list (Z * Z * Z) }.

Definition inp (p : ports) (port : Z) : option (ports * Z) :=
  match inputs p with v :: l => Some (mk_ports l (outputs p), v) | [] => None end.
Definition outp (p : ports) (width port v : Z) : ports := mk_ports (inputs p) (outputs p ++ [(width, port, v mod 2 ^ width)]).
Definition outb (p : ports) (port v : Z) : ports := outp p 8 port v.

(** ** The serial line *)

Definition COM1_PORT : Z := 1016.
Definition COM1_IRQ : Z := 4.
Definition IER_OFFSET : Z := 1.
Definition IIFCR_OFFSET : Z := 2.
Definition LCR_OFFSET : Z := 3.
Definition MCR_OFFSET : Z := 4.
Definition LSR_OFFSET : Z := 5.

(** The three [out_bits] functions differ in the width of the access. *)
Definition out_bits (width : Z) (p : ports) (port mask val : Z) : option ports :=
  '(p, port_val) ← inp p port;
  let port_val := Z.land (port_val mod 2 ^ width) (Z.lnot mask mod 2 ^ width) in
  Some (outp p width port (Z.lor port_val val)).
Definition out_bits_b := out_bits 8.
Definition out_bits_w := out_bits 16.
Definition out_bits_l := out_bits 32.

(** The divisor is read from the port. *)
Definition set_serial_divisor (p : ports) (port div : Z) : option ports :=
  p ← out_bits_b p (port + LCR_OFFSET) 128 128;
  '(p, div) ← inp p port;
  out_bits_b p (port + LCR_OFFSET) 128 0.

Definition set_serial_bitness (p : ports) (port bit_per_char : Z) : option ports := out_bits_b p (port + LCR_OFFSET) 3 (u8 (bit_per_char - 5)).

Definition serial_is_received (p : ports) (port : Z) : option (ports * bool) := '(p, val) ← inp p (port + LSR_OFFSET); Some (p, negb (Z.land (u8 val) 1 =? 0)).
Definition serial_read (p : ports) (port : Z) : option (ports * Z) := '(p, val) ← inp p port; Some (p, u8 val).
Definition serial_is_transmit_empty (p : ports) (port : Z) : option (ports * bool) := '(p, val) ← inp p (port + LSR_OFFSET); Some (p, negb (Z.land (u8 val) 32 =? 0)).
Definition serial_write (p : ports) (port b : Z) : ports := outb p port b.

(** The byte for [on_receive], if one is set. *)
Definition serial_irq (on_receive : bool) (p : ports) : option (ports * option Z) :=
  '(p, iir) ← inp p (COM1_PORT + IIFCR_OFFSET);
  '(p, r) ← serial_is_received p COM1_PORT;
  if r : bool then '(p, b) ← serial_read p COM1_PORT; Some (p, if on_receive then Some b else None) else Some (p, None).

Fixpoint serial_puts (fuel : nat) (m : bmem) (p : ports) (port s : Z) : option ports :=
  match fuel with
  | O => None
  | S fuel =>
      let c := ldb m s in
      if c =? 0 then Some p
      else
        let p := if c =? 10 then serial_write p port 13 else p in
        serial_puts fuel m (serial_write p port c) port (s + 1)
  end.

Definition serial_configure (p : ports) (port speed_divisor : Z) : option ports :=
  let p := outb p (port + IER_OFFSET) 0 in
  p ← set_serial_divisor p port speed_divisor;
  p ← set_serial_bitness p port 8;
  let p := outb p (port + IIFCR_OFFSET) 199 in
  let p := outb p (port + MCR_OFFSET) 11 in
  Some (outb p (port + IER_OFFSET) 15).

(** [irq] sets the handler and enables the interrupt. *)
Definition serial_setup {I : Type} (irq : I -> Z -> I) (s : I) (p : ports) : option (I * ports) :=
  p ← serial_configure p COM1_PORT 1; Some (irq s COM1_IRQ, p).

(** ** The log *)

Definition LOGBUF_SIZE : Z := 4096.

(** [hello] is where the greeting is; [logbuf] is the static buffer. *)
Definition logging_setup (fuel : nat) (m : bmem) (hello : Z) (p : ports) : option (ports * Z) :=
  p ← serial_configure p COM1_PORT 1;
  p ← serial_puts fuel m p COM1_PORT hello;
  Some (p, 0).

Definition kmsg_writebuf (fuel : nat) (m : bmem) (p : ports) (buf buflen : Z) : option (ports * Z * Z) :=
  p ← serial_puts fuel m p COM1_PORT buf; Some (p, 0, buflen).

Definition vlprintf (fuel : nat) (m : bmem) (p : ports) (logbuf fmt : Z) (ap : list FMT.va_arg) : option (bmem * ports * Z) :=
  match FMT.vsnprintf fuel m logbuf LOGBUF_SIZE fmt ap with
  | FMT.Ok (m, ret) =>
      let m := if LOGBUF_SIZE <=? ret then stb m (logbuf + LOGBUF_SIZE - 1) 0 else m in
      p ← serial_puts fuel m p COM1_PORT logbuf;
      Some (m, p, ret)
  | _ => None
  end.

(** ** The disk probe *)

Definition SECTCOUNT : Z := 2.
Definition LBA_lo : Z := 3.
Definition LBA_mid : Z := 4.
Definition LBA_hi : Z := 5.
Definition DRIVE_SELECT : Z := 6.
Definition CMDPORT : Z := 7.
Definition DRIVE_MASTER : Z := 160.
Definition IDE_CMD_IDENTIFY : Z := 236.
Definition IDE_PRIMARY : Z := 496.

(** Read the status until [ready]; each turn takes a value from the port. *)
Fixpoint status_loop (ready : Z -> bool) (l : list Z) (status : Z) : option (list Z * Z) :=
  if ready status then Some (l, status)
  else match l with v :: l => status_loop ready l (u8 v) | [] => None end.

(** Status and the words of the sector. *)
Definition ide_identify (p : ports) (port drive : Z) : option (ports * Z * list Z) :=
  let p := outb p (port + DRIVE_SELECT) drive in
  let p := outb p (port + SECTCOUNT) 0 in
  let p := outb p (port + LBA_lo) 0 in
  let p := outb p (port + LBA_mid) 0 in
  let p := outb p (port + LBA_hi) 0 in
  let p := outb p (port + CMDPORT) IDE_CMD_IDENTIFY in
  '(p, v) ← inp p (port + CMDPORT);
  let status := u8 v in
  if status =? 0 then Some (p, 0, [])
  else
    '(l, status) ← status_loop (fun s => Z.land s 128 =? 0) (inputs p) status;
    '(l, status) ← status_loop (fun s => negb (Z.land s 9 =? 0)) l status;
    let p := mk_ports l (outputs p) in
    if negb (Z.land status 1 =? 0) then Some (p, 0, [])
    else if (length l <? 256)%nat then None
    else Some (mk_ports (drop 256 l) (outputs p), status, u16 <$> take 256 l).

Definition ide_setup (p : ports) : option (ports * Z * list Z) := ide_identify p IDE_PRIMARY DRIVE_MASTER.

(** ** What is sent *)

(** A newline is sent with a carriage return. *)
Definition crlf (s : list Z) : list Z := s ≫= fun c => if c =? 10 then [13; 10] else [c].
Definition sent (port : Z) (s : list Z) : list (Z * Z * Z) := (fun c => (8, port, c)) <$> crlf s.

Lemma serial_puts_ok port m s : forall fuel p a, CSP.cstr m a s -> (length s < fuel)%nat -> serial_puts fuel m p port a = Some (mk_ports (inputs p) (outputs p ++ sent port s)).
Proof.
  induction s as [|c s IH]; intros [|fuel] p a Hs Hf; cbn [length] in Hf; try lia; cbn [serial_puts].
  - destruct Hs as [Hs _]. apply CSP.bytes_at_cons in Hs as [-> _]. cbn. rewrite app_nil_r. by destruct p.
  - apply CSP.cstr_cons in Hs as (Hc & Hb & Hs). rewrite Hc, (proj2 (Z.eqb_neq c 0)) by lia. rewrite IH by (done || lia).
    assert (Ec : c mod 2 ^ 8 = c) by (apply Z.mod_small; lia). unfold serial_write, outb, outp. rewrite Ec. f_equal. unfold sent, crlf. rewrite bind_cons, fmap_app.
    destruct (Z.eqb_spec c 10) as [->|Hne]; cbn [inputs outputs fmap list_fmap]; rewrite <- !app_assoc; done.
Qed.

(** Logging a text of literals and the common conversions sends the text, up to
    the size of the buffer, with carriage returns. *)
Theorem log_sends_text fuel m p logbuf fmt ps :
  0 < logbuf -> (length (FMTP.render ps) + 4097 < fuel)%nat -> Forall (FMTP.piece_ok m logbuf (logbuf + LOGBUF_SIZE - 1) fuel) ps -> CSP.cstr m fmt (FMTP.render ps) ->
  (fmt + Z.of_nat (length (FMTP.render ps)) < logbuf \/ logbuf + LOGBUF_SIZE - 1 < fmt) -> CSP.str_bytes (FMTP.text ps) ->
  exists m', let t := take 4095 (FMTP.text ps) in
    vlprintf fuel m p logbuf fmt (FMTP.args ps) = Some (m', mk_ports (inputs p) (outputs p ++ sent COM1_PORT t), Z.of_nat (length t)) /\
    forall b, b < logbuf \/ logbuf + LOGBUF_SIZE <= b -> ldb m' b = ldb m b.
Proof.
  intros Hl Hf Hok Hfmt Hd Hb. assert (Hn : (length ps <= length (FMTP.render ps))%nat).
  { clear. induction ps as [|q ps IH]; [done|]. unfold FMTP.render in *. rewrite bind_cons, length_app. assert (0 < length (FMTP.render1 q))%nat by (by destruct q; cbn; lia). cbn [length]. lia. }
  destruct (FMTP.vsnprintf_pieces fuel m logbuf LOGBUF_SIZE fmt ps Hl ltac:(unfold LOGBUF_SIZE; lia) ltac:(lia) ltac:(lia) Hok Hfmt Hd) as (m' & E & Hby & Ho). change (Z.to_nat (LOGBUF_SIZE - 1)) with 4095%nat in E, Hby. set (t := take 4095 (FMTP.text ps)) in *. cbv zeta in E, Hby.
  assert (Ht : (length t <= 4095)%nat) by (unfold t; rewrite length_take; lia). exists m'. cbv zeta. split; [|done]. unfold vlprintf. rewrite E. rewrite (proj2 (Z.leb_gt LOGBUF_SIZE (Z.of_nat (length t)))) by (unfold LOGBUF_SIZE; lia). cbv iota zeta.
  assert (Hc : CSP.cstr m' logbuf t) by (split; [done|]; unfold CSP.str_bytes, t in *; by apply Forall_take).
  rewrite (serial_puts_ok COM1_PORT m' t fuel p logbuf Hc) by lia. done.
Qed.

Lemma status_loop_ok ready pre x l : forall status, ready status = false -> Forall (fun v => ready (u8 v) = false) pre -> ready (u8 x) = true -> status_loop ready (pre ++ x :: l) status = Some (l, u8 x).
Proof.
  induction pre as [|v pre IH]; intros status H0 Hp Hx; cbn [app status_loop]; rewrite H0.
  - destruct l; cbn [status_loop]; by rewrite Hx.
  - inversion Hp as [|? ? Hv Hp']; subst. by apply IH.
Qed.

(** The probe waits through the statuses that say busy, then through those that
    say neither data nor error, and then gives the sector, or 0 for an error. *)
Theorem ide_identify_waits p port drive s0 busy x idle y rest :
  let is_busy v := negb (Z.land (u8 v) 128 =? 0) in
  let is_ready v := negb (Z.land (u8 v) 9 =? 0) in
  inputs p = s0 :: busy ++ x :: idle ++ y :: rest -> Forall (fun v => is_busy v = true) (s0 :: busy) -> is_busy x = false ->
  Forall (fun v => is_ready v = false) (x :: idle) -> is_ready y = true ->
  exists out, ide_identify p port drive =
    (if negb (Z.land (u8 y) 1 =? 0) then Some (mk_ports rest out, 0, [])
     else if (length rest <? 256)%nat then None else Some (mk_ports (drop 256 rest) out, u8 y, u16 <$> take 256 rest)).
Proof.
  intros is_busy is_ready Hi Hb Hx Hr Hy. inversion Hb as [|? ? Hs0 Hb']; subst. inversion Hr as [|? ? Hxr Hr']; subst. unfold ide_identify, inp. cbn [outb outp inputs outputs]. rewrite Hi. cbn [mbind option_bind inputs outputs].
  assert (H0 : (u8 s0 =? 0) = false) by (apply Z.eqb_neq; intros E; unfold is_busy in Hs0; rewrite E in Hs0; done). rewrite H0.
  rewrite (status_loop_ok (fun s => Z.land s 128 =? 0) busy x (idle ++ y :: rest)); [|unfold is_busy in Hs0; by apply negb_true_iff in Hs0| |unfold is_busy in Hx; by apply negb_false_iff in Hx].
  2:{ apply (Forall_impl _ _ _ Hb'). intros v Hv. by apply negb_true_iff in Hv. }
  cbn [mbind option_bind]. rewrite (status_loop_ok (fun s => negb (Z.land s 9 =? 0)) idle y rest) by done. cbn [mbind option_bind inputs outputs]. by eexists.
Qed.

(** ** Defects the model shows *)

(** Configuring the line never writes the divisor: no byte goes to the data port
    while the divisor is selected. *)
Lemma divisor_not_written p port div p' : set_serial_divisor p port div = Some p' -> forall v, (8, port, v) ∈ outputs p' -> (8, port, v) ∈ outputs p.
Proof.
  unfold set_serial_divisor, out_bits_b, out_bits, inp. destruct (inputs p) as [|a [|b [|c l]]]; cbn; try done. intros [= <-] v. cbn. rewrite !elem_of_app, !list_elem_of_singleton. unfold LCR_OFFSET. intros [[H|H]|H]; [done|injection H; lia|injection H; lia].
Qed.

(** A write to /dev/kmsg sends the memory up to the next NUL whatever its length:
    of two bytes written, the five behind them go too. *)
Lemma kmsg_sends_more : (fun r => snd <$> outputs r.1.1) <$> kmsg_writebuf 10 (CSP.put ∅ 16 [97; 98; 99; 100; 101; 102; 103]) (mk_ports [] []) 16 2 = Some [97; 98; 99; 100; 101; 102; 103].
Proof. vm_compute. reflexivity. Qed.

End SER.
