(* ===== verification/StdFmt.v ===== *)
(** * Error texts and generic formatting (lib/c/src/stdlib.c, lib/c/src/stdfmt.c)

    Module [SF]: [strerror] with its table, and [vgprintf], which puts each
    character through a function that may refuse it.  Most conversions of
    [vgprintf] are left open by the code and put nothing. *)

From S2P Require Import Prelude CString CStringProofs Fmt FmtProofs.
From stdpp Require Import strings.
Import CS FMT.
#[local] Open Scope Z_scope.

Module SF.

(** ** Error texts *)

Definition txt (s : String.string) : list Z := map (fun a => Z.of_nat (Ascii.nat_of_ascii a)) (String.list_ascii_of_string s).
Arguments txt _%_string.

(** By number from 0 on; NULL is [None]. *)
Definition sys_errlist : list (option (list Z)) :=
  (Some <$> [ txt "no error"; txt "EPERM: invalied permissions"; txt "ENOENT: no such entity"; txt "ESRCH: no such process"; txt "EINTR: interrupted system call"; txt "EIO: I/O error";
    txt "ENXIO: No such device or address"; txt "E2BIG: Argument list too]long"; txt "ENOEXEC: Exec format error"; txt "EBADF: Bad file number"; txt "ECHILD: No child processes";
    txt "EAGAIN: Try again"; txt "ENOMEM: Out of memory"; txt "EACCES: Permission denied"; txt "EFAULT: Bad address"; txt "ENOTBLK: Block device required"; txt "EBUSY: Device or resource busy";
    txt "EEXIST: File exists"; txt "EXDEV: Cross-device link"; txt "ENODEV: No such device"; txt "ENOTDIR: Not a directory"; txt "EISDIR: Is a directory"; txt "EINVAL: Invalid argument";
    txt "ENFILE: File table overflow"; txt "EMFILE: Too many open files"; txt "ENOTTY: Not a typewriter"; txt "ETXTBSY: Text file busy"; txt "EFBIG: File too large"; txt "ENOSPC: No space left on device";
    txt "ESPIPE: Illegal seek"; txt "EROFS: Read-only file system"; txt "EMLINK: Too many links"; txt "EPIPE: Broken pipe"; txt "EDOM: Math argument out of domain of fun";
    txt "ERANGE: Math result not representable "; txt "ENOSYS: Functionality is not supported" ]) ++ [None; None; None] ++
  [ Some (txt "ETODO: Not implemented yet"); Some (txt "EKERN: Internal kernel error") ].

Definition UKNERR_BUF_LEN : Z := 40.
Definition unknown_text : list Z := txt "unknown error: ".

(** [unknown_error] is the static buffer, [fmt] is where "%d" is, and [lit] is
    where each text of the table is.  [unknown_err_len] is 0 until the buffer is
    measured.  Memory, the length, and the result. *)
Definition strerror (fuel : nat) (m : bmem) (lit : Z -> Z) (unknown_error fmt unknown_err_len err : Z) : option (bmem * Z * Z) :=
  match (if (0 <=? err) && (err <? Z.of_nat (length sys_errlist)) then default None (sys_errlist !! Z.to_nat err) else None) with
  | Some _ => Some (m, unknown_err_len, lit err)
  | None =>
      len ← (if unknown_err_len =? 0 then strlen fuel m unknown_error else Some unknown_err_len);
      match vsnprintf fuel m (unknown_error + len) (UKNERR_BUF_LEN - len) fmt [VaWord err] with
      | Ok (m, _) => Some (m, len, unknown_error)
      | _ => None
      end
  end.

(** ** Generic output *)

Definition EINVAL : Z := 22.

(** Reading the flags of a conversion: where they end. *)
Fixpoint gflags_loop (fuel : nat) (m : bmem) (fmt : Z) : option Z :=
  match fuel with
  | O => None
  | S fuel =>
      let fmt := fmt + 1 in
      let c := chr m fmt in
      if (c =? 35) || (c =? 48) || (c =? 32) || (c =? 43) || (c =? 45) || (c =? 39) then gflags_loop fuel m fmt else Some fmt
  end.

(** A number, if there is one. *)
Definition skip_number (fuel : nat) (m : bmem) (fmt : Z) : option Z :=
  match strtol fuel m fmt 10 with Ok (_, tmp, _) => Some tmp | _ => None end.

Definition skip_typemod (m : bmem) (fmt : Z) : Z :=
  let c := chr m fmt in
  if c =? 104 then if chr m (fmt + 1) =? 104 then fmt + 2 else fmt + 1
  else if c =? 108 then if chr m (fmt + 1) =? 108 then fmt + 2 else fmt + 1
  else if (c =? 76) || (c =? 122) || (c =? 116) then fmt + 1 else fmt.

(** diouxXeEfFgGaAcspn: the conversions without output. *)
Definition open_specifiers : list Z := [100; 105; 117; 111; 120; 88; 101; 69; 102; 70; 103; 71; 97; 65; 99; 115; 112; 110].

Section putc.
Context {A : Type} (gputc : Z -> A -> A * bool).

(** [PUTC] for each of the characters; whether all were accepted. *)
Fixpoint puts (a : A) (ret : Z) (s : list Z) : A * Z * bool :=
  match s with
  | [] => (a, ret, true)
  | c :: s => let '(a, ok) := gputc c a in if ok : bool then puts a (ret + 1) s else (a, ret, false)
  end.

Fixpoint chars (m : bmem) (n : nat) (p : Z) : list Z := match n with O => [] | S n => chr m p :: chars m n (p + 1) end.

(** One conversion, from its '%': what is put and where it ends. *)
Definition gconversion (fuel : nat) (m : bmem) (fmt : Z) : option (list Z * Z) :=
  let fmtstart := fmt in
  tmp ← skip_number fuel m (fmt + 1);
  let fmt := if negb (tmp =? fmt) && (chr m tmp =? 36) then tmp + 1 else fmt in
  fmt ← gflags_loop fuel m fmt;
  fmt ← skip_number fuel m fmt;
  fmt ← (if chr m fmt =? 46 then skip_number fuel m (fmt + 1) else Some fmt);
  let fmt := skip_typemod m fmt in
  if chr m fmt =? 37 then Some ([37], fmt)
  else if bool_decide (chr m fmt ∈ open_specifiers) then Some ([], fmt)
  else Some (chars m (Z.to_nat (fmt - fmtstart)) fmtstart ++ [chr m fmt], fmt).

(** Behind a conversion the format is advanced twice. *)
Fixpoint vgprintf_loop (n fuel : nat) (m : bmem) (a : A) (ret fmt : Z) : option (A * Z) :=
  match n with
  | O => None
  | S n =>
      if chr m fmt =? 0 then Some (a, ret)
      else
        '(out, fmt) ← (if chr m fmt =? 37 then '(out, fmt) ← gconversion fuel m fmt; Some (out, fmt + 1) else Some ([chr m fmt], fmt));
        let '(a, ret, ok) := puts a ret out in
        if ok : bool then vgprintf_loop n fuel m a ret (fmt + 1) else Some (a, ret)
  end.

Definition vgprintf (fuel : nat) (m : bmem) (a : A) (format : Z) : option (A * Z) :=
  if format =? NULL then Some (a, 0) else vgprintf_loop fuel fuel m a 0 format.

End putc.

(** ** What they do *)

Lemma decimal_digits y : 0 <= y <= 2147483648 -> (length (FMTP.uint_digits y 10) <= 10)%nat /\ Forall (fun b => 0 < b < 256) (FMTP.uint_digits y 10).
Proof.
  intros Hy. destruct (FMTP.uint_digits_ok y 10 ltac:(lia) ltac:(unfold in_u32; lia)) as (_ & Hd & _). split.
  - apply FMTP.numeral_short; [lia|lia|change (10 ^ Z.of_nat 10) with 10000000000; lia].
  - refine (Forall_impl _ _ _ Hd _). intros c Hc. pose proof (FMTP.is_dig_byte 10 c ltac:(lia) Hc). lia.
Qed.

Lemma decimal_text x : in_s32 x -> (length (FMTP.text1 (FMTP.PDec x)) <= 11)%nat /\ Forall (fun b => 0 < b < 256) (FMTP.text1 (FMTP.PDec x)).
Proof.
  unfold in_s32. intros Hx. cbn [FMTP.text1]. destruct (Z.ltb_spec x 0); [destruct (decimal_digits (- x) ltac:(lia))|destruct (decimal_digits x ltac:(lia))].
  - split; [cbn [length]; lia|]. constructor; [lia|done].
  - split; [lia|done].
Qed.

(** The static buffer begins with its text and is away from the format. *)
Record unknown_ok (m : bmem) (buf fmt len : Z) : Prop := {
  uk_text : CSP.bytes_at m buf unknown_text;
  uk_len : (len = 0 /\ CSP.cstr m buf unknown_text) \/ len = 15;
  uk_fmt : CSP.cstr m fmt [37; 100];
  uk_apart : 0 < buf /\ (fmt + 2 < buf \/ buf + 40 <= fmt) }.

(** Every number has a text: the one of the table, or "unknown error: " and the
    number in decimal, however often it is asked for. *)
Theorem strerror_text fuel m lit buf fmt len err : (20 <= fuel)%nat -> in_s32 err -> unknown_ok m buf fmt len ->
  exists m' len' p, strerror fuel m lit buf fmt len err = Some (m', len', p) /\ unknown_ok m' buf fmt len' /\ (forall a, a < buf \/ buf + 40 <= a -> ldb m' a = ldb m a) /\
    match default None (if 0 <=? err then sys_errlist !! Z.to_nat err else None) with
    | Some _ => p = lit err /\ m' = m
    | None => p = buf /\ CSP.cstr m' buf (unknown_text ++ FMTP.text [FMTP.PDec err])
    end.
Proof.
  intros Hf He [Ht Hl Hfmt [Hb Ha]]. unfold strerror.
  assert (Esel : (if (0 <=? err) && (err <? Z.of_nat (length sys_errlist)) then default None (sys_errlist !! Z.to_nat err) else None) = default None (if 0 <=? err then sys_errlist !! Z.to_nat err else None)).
  { destruct (Z.leb_spec 0 err); [|done]. cbn [andb]. destruct (Z.ltb_spec err (Z.of_nat (length sys_errlist))); [done|]. by rewrite (proj2 (lookup_ge_None sys_errlist (Z.to_nat err))) by lia. }
  rewrite Esel. destruct (default None (if 0 <=? err then sys_errlist !! Z.to_nat err else None)) as [t|]; [exists m, len, (lit err); split; [done|]; split; [by constructor|done]|].
  assert (El : (if len =? 0 then strlen fuel m buf else Some len) = Some 15).
  { destruct Hl as [[-> Hc]| ->]; [|done]. cbn [Z.eqb]. rewrite (CSP.strlen_correct fuel m buf unknown_text Hc) by (cbn; lia). done. }
  rewrite El. cbn [mbind option_bind]. destruct (decimal_text err He) as [Hs Hdb].
  destruct (FMTP.vsnprintf_pieces fuel m (buf + 15) (UKNERR_BUF_LEN - 15) fmt [FMTP.PDec err]) as (m' & E & Hby & Ho); try (unfold UKNERR_BUF_LEN; lia); try (cbn [length]; lia); [by constructor|exact Hfmt|cbn [FMTP.render FMTP.render1 length mbind list_bind app]; unfold UKNERR_BUF_LEN; lia|].
  cbv zeta in E, Hby. unfold UKNERR_BUF_LEN in *. change (Z.to_nat (40 - 15 - 1)) with 24%nat in E, Hby.
  assert (Etx : FMTP.text [FMTP.PDec err] = FMTP.text1 (FMTP.PDec err)) by (unfold FMTP.text; cbn [mbind list_bind]; by rewrite app_nil_r). rewrite take_ge in E, Hby by (rewrite Etx; lia).
  change (FMTP.args [FMTP.PDec err]) with [VaWord err] in E. rewrite E. exists m', 15, buf.
  assert (Ho' : forall a, a < buf + 15 \/ buf + 40 <= a -> ldb m' a = ldb m a) by (intros a Hx; apply Ho; lia).
  assert (Ht' : CSP.bytes_at m' buf unknown_text) by (intros i b Hi; rewrite Ho'; [by apply Ht|]; pose proof (lookup_lt_Some _ _ _ Hi) as Hlt; change (length unknown_text) with 15%nat in Hlt; lia).
  split; [done|]. split.
  { constructor; [done|by right| |done]. revert Hfmt. apply CSP.cstr_same. intros a Hx. cbn [length] in Hx. apply Ho'. lia. }
  split; [intros a Hx; apply Ho'; lia|]. split; [done|]. split.
  - rewrite <- app_assoc. apply CSP.bytes_at_app. split; [done|]. exact Hby.
  - unfold CSP.str_bytes. apply Forall_app. split; [apply (bool_decide_unpack _); vm_compute; exact I|].
    by rewrite Etx.
Qed.

(** A format without '%' is put as it is, up to the first character that is
    refused. *)
Lemma vgprintf_plain {A} (gputc : Z -> A -> A * bool) fuel m a format s : format <> NULL -> CSP.cstr m format s -> 37 ∉ s -> (length s < fuel)%nat ->
  vgprintf gputc fuel m a format = Some (fst (puts gputc a 0 (s8 <$> s))).
Proof.
  intros Hn. unfold vgprintf. rewrite (proj2 (Z.eqb_neq _ _) Hn).
  enough (H : forall k n a format ret, CSP.cstr m format s -> 37 ∉ s -> (length s < n)%nat -> vgprintf_loop gputc n k m a ret format = Some (fst (puts gputc a ret (s8 <$> s)))) by (apply H).
  intros k. induction s as [|b s IH]; intros [|n] a' q ret Hc Hp Hf; try (cbn [length] in Hf; lia); cbn [vgprintf_loop].
  - apply CSP.cstr_nil in Hc. unfold chr. by rewrite Hc.
  - apply CSP.cstr_cons in Hc as (Hb & Hr & Hc). apply not_elem_of_cons in Hp as [Hp Hp']. unfold chr. rewrite Hb.
    assert (E0 : (s8 b =? 0) = false /\ (s8 b =? 37) = false) by (unfold s8, swrap; change (2 ^ (8 - 1)) with 128; change (2 ^ 8) with 256; split; apply Z.eqb_neq; Z.to_euclidean_division_equations; lia).
    destruct E0 as [-> ->]. cbn [mbind option_bind fmap list_fmap puts].
    destruct (gputc (s8 b) a') as [a'' [|]]; [|done]. cbn [length] in Hf. apply IH; [done|done|lia].
Qed.

Definition append (c : Z) (a : list Z) : list Z * bool := (a ++ [c], true).

(** The character behind a conversion is lost: "a%%bc" puts "a%c". *)
Lemma next_swallowed : vgprintf append 20 (CSP.put ∅ 16 (txt "a%%bc")) [] 16 = Some (txt "a%c", 3).
Proof. vm_compute. reflexivity. Qed.

(** Where that is the end of the format, what follows it in memory is put too. *)
Lemma runs_past_format : vgprintf append 20 (CSP.put ∅ 16 (txt "5%%" ++ [0] ++ txt "key")) [] 16 = Some (txt "5%key", 5).
Proof. vm_compute. reflexivity. Qed.

(** Conversions put nothing. *)
Lemma conversions_lost : vgprintf append 20 (CSP.put ∅ 16 (txt "<%d >")) [] 16 = Some (txt "<>", 2).
Proof. vm_compute. reflexivity. Qed.

End SF.
