(* ===== verification/Print.v ===== *)
(** * Printing (lib/c/src/stdio.c, [vfprintf]; src/dev/tty.c, [tty_ops])

    Module [PR]: terminals as character devices of the virtual file system, and
    formatted output of a program, from [vsnprintf] into a growing buffer to
    [fwrite] through the interrupt. *)

From S2P Require Import Prelude CString Fmt RamBlocks RamFS Devices Vfs FsSys Screen Kbd Tty Stdio Syscall UserSys.
Import IO SC0 US.

Module PR.

Definition CHR_TTY : Z := 4.

(** ** Terminals as devices

    The state is the terminals with the keyboard, and the interrupts still to
    come.  A read that waits for more of them than come is [None]. *)

Definition ttydev : Type := TTY.world * list Z.

Definition dev_index (w : TTY.world) (minor : Z) : option nat := p ← TTY.theTTYlist (TTY.tt w) !! Z.to_nat minor; p.

Definition tty_write_buf (minor : Z) (d : ttydev) (buf : list Z) (pos : Z) : option (ttydev * Z * Z) :=
  dev ← dev_index d.1 minor;
  '(t, ret, written) ← TTY.dev_tty_write (TTY.tt d.1) dev buf (Z.of_nat (length buf));
  Some ((TTY.mk_world (TTY.kb d.1) t, d.2), ret, written).

Definition tty_read_buf (minor : Z) (d : ttydev) (buflen pos : Z) : option (ttydev * Z * list Z) :=
  dev ← dev_index d.1 minor;
  r ← TTY.dev_tty_read d.1 dev buflen d.2;
  match r with
  | TTY.Returns w ret bs _ irqs => Some ((w, irqs), ret, bs)
  | TTY.Blocked _ => None
  end.

(** No terminal is a block device; [dev_has_data] is not NULL. *)
Definition tty_ops (minor : Z) : VFS.device ttydev :=
  VFS.mk_device (Some (tty_read_buf minor)) (Some (tty_write_buf minor)) true (DV.mk_bdev None None None).

Definition get_tty_device (devno : Z) : option (VFS.device ttydev) := if negb (devno <? SC.N_VCSA_DEVICES) then None else Some (tty_ops devno).

Definition tty_family : DV.devclass (VFS.device ttydev) := DV.mk_devclass DV.DEV_CHR CHR_TTY (Some get_tty_device).

(** ** Formatted output *)

Section Program.
Context {S D : Type}.

(** The buffer of [bufsize] bytes is at [area bufsize]; [realloc] copies the old
    one.  The number of turns is bounded by [n]. *)
Fixpoint print_loop (n fuel : nat) (area : Z -> Z) (m : bmem) (bufsize format : Z) (ap : list FMT.va_arg) : option (bmem * Z * Z) :=
  match n with
  | O => None
  | Datatypes.S n =>
      match FMT.vsnprintf fuel m (area bufsize) bufsize format ap with
      | FMT.Ok (m, ret) =>
          if ret + 1 <? bufsize then Some (m, bufsize, ret)
          else print_loop n fuel area (RB.store_bytes m (area (bufsize * 2)) (RB.load_bytes m (area bufsize) bufsize)) (bufsize * 2) format ap
      | _ => None
      end
  end.

(** An [int] doubles 25 times before 64 overflows. *)
Definition vfprintf (fuel : nat) (area : Z -> Z) (s : io (kernel S D)) (stream : FILE) (format : Z) (ap : list FMT.va_arg) : option (io (kernel S D) * FILE * Z) :=
  '(m, bufsize, ret) ← print_loop 25 fuel area (umem (os s)) 64 format ap;
  let s := mk_io (set_umem (os s) m) (theErrNo s) in
  '(s, stream, _) ← fwrite (FileOps0 := cosec_ops (area bufsize)) s (RB.load_bytes m (area bufsize) ret) stream;
  Some (s, stream, ret).

Definition fprintf (fuel : nat) (area : Z -> Z) (s : io (kernel S D)) (stream : FILE) (format : Z) (ap : list FMT.va_arg) := vfprintf fuel area s stream format ap.
Definition printf (fuel : nat) (area : Z -> Z) (s : io (kernel S D)) (stdout : FILE) (format : Z) (ap : list FMT.va_arg) := vfprintf fuel area s stdout format ap.

End Program.
End PR.
