(* ===== verification/PrintProofs.v ===== *)
(** * Programs and terminals: correctness

    Module [PRP]: text that a program prints appears on the console of the
    terminal its descriptor is open on, and a line that is typed there is read by
    the program. *)

From S2P Require Import Prelude FirstFit FirstFitProofs PMem BTree CString CStringProofs Fmt FmtProofs RamDir RamBlocks RamBlocksProofs KHeap RamFS RamFSProofs Devices Vfs VfsProofs FsSys FsSysProofs Screen ScreenProofs Kbd KbdProofs Tty TtyProofs ScreenGrid Stdio StdioProofs Paging Tasks Syscall SyscallProofs UserSys UserSysProofs Print.
Import KH IO SC0 US PR.

Module PRP.

(** ** The text in memory *)

Lemma piece_kept m m' lo hi lo' hi' fuel p : FMTP.piece_ok m lo hi fuel p -> lo <= lo' -> hi' <= hi -> (forall a, a < lo \/ hi < a -> ldb m' a = ldb m a) -> FMTP.piece_ok m' lo' hi' fuel p.
Proof.
  intros Hp Hl Hh Hm. destruct p as [c| |x|x|x|w x|q t]; try exact Hp. destruct Hp as (Hc & Hf & Hd). split; [|split; [done|lia]]. revert Hc. apply CSP.cstr_same. intros a Ha. apply Hm. lia.
Qed.

Section loop.
Context (fuel : nat) (area : Z -> Z) (lo hi format : Z) (ps : list FMTP.piece) (n : nat).
Context (Hf : (4 <= fuel)%nat) (Hlen : (length ps < fuel)%nat).
Context (Hfit : Z.of_nat (length (FMTP.text ps)) + 1 < 64 * 2 ^ Z.of_nat n).
Context (Hareas : forall i, (i <= n)%nat -> lo <= area (64 * 2 ^ Z.of_nat i) /\ area (64 * 2 ^ Z.of_nat i) + 64 * 2 ^ Z.of_nat i <= hi + 1) (Hlo : 0 < lo).
Context (Hfmt : format + Z.of_nat (length (FMTP.render ps)) < lo \/ hi < format).

(** The program's memory before: the format and the strings are outside the
    areas. *)
Definition sources_ok (m : bmem) : Prop := Forall (FMTP.piece_ok m lo hi fuel) ps /\ CSP.cstr m format (FMTP.render ps).

Lemma sources_kept m m' : sources_ok m -> (forall a, a < lo \/ hi < a -> ldb m' a = ldb m a) -> sources_ok m'.
Proof.
  intros [Hp Hc] Hm. split.
  - apply (Forall_impl _ _ _ Hp). intros p H. by apply (piece_kept m m' lo hi lo hi).
  - revert Hc. apply CSP.cstr_same. intros a Ha. apply Hm. lia.
Qed.

Lemma print_loop_ok k : forall i m, (i + k = n)%nat -> sources_ok m ->
  exists m' j, print_loop (Datatypes.S k) fuel area m (64 * 2 ^ Z.of_nat i) format (FMTP.args ps) = Some (m', 64 * 2 ^ Z.of_nat j, Z.of_nat (length (FMTP.text ps))) /\ (j <= n)%nat /\
    CSP.bytes_at m' (area (64 * 2 ^ Z.of_nat j)) (FMTP.text ps) /\ forall a, a < lo \/ hi < a -> ldb m' a = ldb m a.
Proof.
  induction k as [|k IH]; intros i m Hi Hs; cbn [print_loop]; set (b := 64 * 2 ^ Z.of_nat i); pose proof (Z.pow_pos_nonneg 2 (Z.of_nat i) ltac:(lia) ltac:(lia)) as Hpow;
    destruct (Hareas i ltac:(lia)) as [Ha1 Ha2]; fold b in Ha1, Ha2; destruct Hs as [Hp Hc];
    (destruct (FMTP.vsnprintf_pieces fuel m (area b) b format ps) as (m1 & E & Hb & Ho); [lia|lia|done|done|apply (Forall_impl _ _ _ Hp); intros p H; apply (piece_kept m m lo hi); (done || lia)|done|lia|]);
    cbv zeta in E, Hb; rewrite E, length_take.
  - replace (Nat.min (Z.to_nat (b - 1)) (length (FMTP.text ps))) with (length (FMTP.text ps)) by (assert (i = n) as -> by lia; fold b in Hfit; lia).
    rewrite take_ge in Hb by (assert (i = n) as -> by lia; fold b in Hfit; lia). rewrite (proj2 (Z.ltb_lt _ _)) by (assert (i = n) as -> by lia; fold b in Hfit; lia).
    exists m1, i. split; [done|]. split; [lia|]. split; [by apply CSP.bytes_at_app in Hb as [Hb _]|]. intros a Ha. apply Ho. lia.
  - destruct (Z.ltb_spec (Z.of_nat (Nat.min (Z.to_nat (b - 1)) (length (FMTP.text ps))) + 1) b) as [Hlt|Hge].
    + replace (Nat.min (Z.to_nat (b - 1)) (length (FMTP.text ps))) with (length (FMTP.text ps)) by lia. rewrite take_ge in Hb by lia.
      exists m1, i. split; [done|]. split; [lia|]. split; [by apply CSP.bytes_at_app in Hb as [Hb _]|]. intros a Ha. apply Ho. lia.
    + assert (Eb : b * 2 = 64 * 2 ^ Z.of_nat (Datatypes.S i)) by (unfold b; rewrite Nat2Z.inj_succ, Z.pow_succ_r by lia; lia). rewrite Eb. destruct (Hareas (Datatypes.S i) ltac:(lia)) as [Hc1 Hc2].
      set (m2 := RB.store_bytes _ _ _). assert (Hm2 : forall a, a < lo \/ hi < a -> ldb m2 a = ldb m a).
      { intros a Ha. unfold m2. rewrite RBP.ldb_store_bytes. assert (Hl : Z.of_nat (length (RB.load_bytes m1 (area b) b)) = b) by (unfold RB.load_bytes; rewrite length_fmap, length_seq; lia). rewrite Hl.
        replace ((area (64 * 2 ^ Z.of_nat (Datatypes.S i)) <=? a) && (a <? area (64 * 2 ^ Z.of_nat (Datatypes.S i)) + b)) with false by (symmetry; apply andb_false_iff; rewrite Z.leb_gt, Z.ltb_ge; lia). apply Ho. lia. }
      destruct (IH (Datatypes.S i) m2 ltac:(lia) (sources_kept m m2 (conj Hp Hc) Hm2)) as (m' & j & E' & Hj & Hb' & Ho'). exists m', j. split; [done|]. split; [done|]. split; [done|]. intros a Ha. rewrite Ho' by done. by apply Hm2.
Qed.

End loop.

Lemma print_loop_more fuel area format ap k : forall k' m b r, print_loop k fuel area m b format ap = Some r -> (k <= k')%nat -> print_loop k' fuel area m b format ap = Some r.
Proof.
  induction k as [|k IH]; intros [|k'] m b r E Hk; try (done || lia). cbn [print_loop] in E |- *. destruct (FMT.vsnprintf _ _ _ _ _ _) as [[m1 ret]| |]; try done. destruct (ret + 1 <? b); [done|]. apply IH; [done|lia].
Qed.

(** ** The descriptor of a terminal *)

Section tty.
Context {H : Type} `{Heap H}.

(** Descriptor [fd] of the current process is open on the node of terminal
    [minor], without the flag [no]. *)
Record on_tty (k : SYS.kstate (RF.ramfs (H := H)) ttydev) (no fd minor : Z) : Prop := {
  ot_fd : exists t proc f dev s i, SYSP.current_ok k t proc /\ 0 <= fd < SYS.N_PROCESS_FDS /\ SYS.ps_fds proc !! Z.to_nat fd = Some f /\
    SYS.has (SYS.fd_flags f) no = false /\ VFSP.rooted (SYS.fs k) (SYS.fd_sb f) dev s /\ RF.ramfs_idata_by_inode s (SYS.fd_ino f) <> 0 /\
    RF.idatas s !! RF.ramfs_idata_by_inode s (SYS.fd_ino f) = Some i /\ RF.S_ISCHR (RF.i_mode i) = true /\ RF.inode_devno i = RF.gnu_dev_makedev CHR_TTY minor;
  ot_class : DV.theChrDeviceTable (VFS.devtables (SYS.fs k)) !! Z.to_nat CHR_TTY = Some (Some tty_family);
  ot_minor : 0 <= minor < SC.N_VCSA_DEVICES }.

Lemma tty_by_devno k no fd minor : on_tty k no fd minor -> DV.device_by_devno (VFS.devtables (SYS.fs k)) DV.DEV_CHR (RF.gnu_dev_makedev CHR_TTY minor) = Some (tty_ops minor).
Proof.
  intros [_ Hc Hm]. unfold SC.N_VCSA_DEVICES in Hm. unfold DV.device_by_devno. assert (Hd : RF.gnu_dev_major (RF.gnu_dev_makedev CHR_TTY minor) = CHR_TTY /\ RF.gnu_dev_minor (RF.gnu_dev_makedev CHR_TTY minor) = minor) by (apply DV.devno_roundtrip; unfold in_u32, CHR_TTY; lia).
  destruct Hd as [-> ->]. change (DV.N_CHR <=? CHR_TTY) with false. cbv iota. rewrite Hc. cbn [DV.get_device tty_family]. unfold get_tty_device, SC.N_VCSA_DEVICES. by rewrite (proj2 (Z.ltb_lt minor 8)) by lia.
Qed.

(** The terminal [minor] prints on console [vcs], which shows [g]. *)
Record on_console (d : ttydev) (minor vcs : Z) (g : SCG.grid) : Prop := {
  oc_dev : exists dev t, dev_index d.1 minor = Some dev /\ TTY.theVcsTTY (TTY.tt d.1) !! dev = Some t /\ TTY.tty_vcs t = vcs;
  oc_vcs : 0 <= vcs < 8;
  oc_scr : SCP.scr_wf (TTY.scr (TTY.tt d.1));
  oc_grid : SCG.shows vcs (TTY.scr (TTY.tt d.1)) g }.

(** Only the screen changes, and there only one console. *)
Definition wrote_on (d d' : ttydev) (vcs : Z) : Prop :=
  exists scr, d' = (TTY.mk_world (TTY.kb d.1) (TTY.set_scr (TTY.tt d.1) scr), d.2) /\ forall k, 0 <= k < 8 -> k <> vcs -> SCP.same_console k (TTY.scr (TTY.tt d.1)) scr.

Lemma sys_write_tty k fd minor vcs g text : on_tty k SYS.O_RDONLY fd minor -> on_console (VFS.devs (SYS.fs k)) minor vcs g -> Forall SCG.printable text -> Z.of_nat (length text) < 2147483648 ->
  exists k', SYS.sys_write k fd text = Some (k', Z.of_nat (length text)) /\ wrote_on (VFS.devs (SYS.fs k)) (VFS.devs (SYS.fs k')) vcs /\
    on_console (VFS.devs (SYS.fs k')) minor vcs (fold_left SCG.g_char text g).
Proof.
  intros Hot [(dev & t & Hdev & Ht & <-) Hv Hwf Hg] Hp Hlen. pose proof (tty_by_devno k _ fd minor Hot) as Hdv.
  destruct Hot as [(p & proc & f & sdev & s & i & (Hcur & Hp0 & Hpr & _) & Hfd & Hf & Hfl & [_ Hsb] & Hip & Hi & Hchr & Hno) _ _]. unfold SYS.sys_write, SYS.current_proc.
  rewrite Hcur, (proj2 (Z.eqb_neq p 0) Hp0), (proj2 (Z.leb_le 0 fd)), (proj2 (Z.ltb_lt fd _)) by lia. cbn [andb negb]. rewrite (SYSP.get_fd_ok k p proc fd f Hpr Hf). cbn [mbind option_bind]. rewrite Hfl.
  unfold VFS.vfs_inode_write. rewrite Hsb. cbn [mbind option_bind VFS.sb_fs VFS.ops VFS.ramfs_driver VFS.ramfs_fsops VFS.op_inode_get VFS.op_write_inode VFS.sb_data].
  unfold RF.ramfs_inode_get. rewrite (proj2 (Z.eqb_neq _ 0) Hip), Hi. cbn [mbind option_bind Z.eqb negb]. unfold RF.S_ISCHR in Hchr. apply Z.eqb_eq in Hchr. rewrite Hchr.
  change (RF.S_IFCHR =? RF.S_IFREG) with false. change (RF.S_IFCHR =? RF.S_IFDIR) with false. change (RF.S_IFCHR =? RF.S_IFBLK) with false. change (RF.S_IFCHR =? RF.S_IFCHR) with true. cbv iota.
  rewrite Hno, Hdv. cbn [tty_ops VFS.dev_write_buf]. unfold tty_write_buf. rewrite Hdev. cbn [mbind option_bind].
  destruct (SCG.dev_write_grid (TTY.tt (VFS.devs (SYS.fs k)).1) dev t text [] g Ht Hv Hwf Hp Hg) as (scr & E & Hw & Hsh & Hoth). rewrite app_nil_r in E. rewrite E. cbn [mbind option_bind Z.eqb negb].
  eexists. split; [reflexivity|]. cbn. split; [by exists scr|]. constructor; try done. exists dev, t. done.
Qed.

(** The same through the interrupt, for bytes in the program's memory. *)
Lemma user_write_tty (k : kernel (RF.ramfs (H := H)) ttydev) buf fd minor vcs g text : in_u32 buf -> on_tty (files k) SYS.O_RDONLY fd minor -> on_console (VFS.devs (SYS.fs (files k))) minor vcs g ->
  Forall SCG.printable text -> Z.of_nat (length text) < 2147483648 ->
  exists k', IO.sys_write (FileOps := cosec_ops buf) k fd text = Some (k', Z.of_nat (length text)) /\ wrote_on (VFS.devs (SYS.fs (files k))) (VFS.devs (SYS.fs (files k'))) vcs /\
    on_console (VFS.devs (SYS.fs (files k'))) minor vcs (fold_left SCG.g_char text g) /\ umem k' = RB.store_bytes (umem k) buf text.
Proof.
  intros Hb Hot Hoc Hp Hlen. destruct (sys_write_tty (files k) fd minor vcs g text Hot Hoc Hp Hlen) as (f' & E & H1 & H2). pose proof Hot as [(t & proc & f & dev & s & i & _ & Hfd & _) _ _].
  cbn [IO.sys_write cosec_ops]. unfold sys_write, __syscall3. rewrite (USP.syscall_listed _ SYS_write h_sys_write) by (done || (unfold syscalls_list; set_solver)). cbn [callee files USP.with_regs umem set_umem].
  rewrite USP.small_fd, (u32_small buf), (u32_small (Z.of_nat (length text))) by (done || unfold in_u32; lia). rewrite SC0P.load_store, E. cbn [with_files mbind option_bind].
  eexists. rewrite s32_small by (unfold in_s32; lia). split; [reflexivity|]. done.
Qed.

(** ** Reading a line *)

Lemma typed_bytes irqs : forall K line K' final rest, Forall TTYP.line_byte line -> TTYP.typed K line irqs = Some (K', final, rest) -> Forall TTYP.line_byte final.
Proof.
  induction irqs as [|c irqs IH]; intros K line K' final rest Hl E; [done|]. cbn [TTYP.typed] in E. destruct (negb _); [by apply (IH _ _ _ _ _ Hl E)|].
  pose proof (TTYP.key_char_ascii (KBP.event K c) c) as Hch. destruct (Z.eqb_spec (KBP.key_char (KBP.event K c) c) 10) as [En|En]; [by injection E as <- <- <-|]. apply (IH _ _ _ _ _ (TTYP.edit_line_bytes _ _ Hl Hch En) E).
Qed.

(** The terminal is active, nothing is typed yet, and these keys come. *)
Record awaits (d : ttydev) (minor : Z) (K : gset Z) (irqs : list Z) (K' : gset Z) (line rest : list Z) : Prop := {
  aw_irqs : d.2 = irqs;
  aw_active : TTY.theActiveTTY (TTY.tt d.1) = minor;
  aw_keys : TTYP.kb_tty (TTY.kb d.1) K /\ Forall TTYP.plain_code irqs /\ TTYP.typed K [] irqs = Some (K', line, rest);
  aw_tty : exists dev t, TTYP.at_line (TTY.tt d.1) dev t [] /\ TTY.start (TTY.tty_inpq t) + Z.of_nat (length irqs) < 512 }.

(** The line is taken: the terminal is empty again, and the rest of the keys
    still comes. *)
Record taken (d d' : ttydev) (K' : gset Z) (rest : list Z) : Prop := {
  tk_irqs : d'.2 = rest;
  tk_keys : TTYP.kb_tty (TTY.kb d'.1) K';
  tk_tty : exists dev t t', TTYP.at_line (TTY.tt d.1) dev t [] /\ TTYP.at_line (TTY.tt d'.1) dev t' [] /\ TTYP.serves (TTY.tt d.1) (TTY.tt d'.1) dev t t' /\ TTY.start (TTY.tty_inpq t') + Z.of_nat (length rest) < 512 }.

Lemma sys_read_tty k fd minor K irqs K' line rest n : on_tty k SYS.O_WRONLY fd minor -> awaits (VFS.devs (SYS.fs k)) minor K irqs K' line rest -> Z.of_nat (length line) + 1 <= n ->
  exists k', SYS.sys_read k fd n = Some (k', Z.of_nat (length line) + 1, line ++ [10]) /\ taken (VFS.devs (SYS.fs k)) (VFS.devs (SYS.fs k')) K' rest /\ on_tty k' SYS.O_WRONLY fd minor.
Proof.
  intros Hot [Hirq Hact (Hk & Hplain & Htyped) (dev & t & Hal & Hst)] Hn. pose proof (tty_by_devno k _ fd minor Hot) as Hdv. pose proof Hot as [Hfdx Hclass Hminor].
  destruct Hfdx as (p & proc & f & sdev & s & i & Hc & Hfd & Hf & Hfl & [Hroot Hsb] & Hip & Hi & Hchr & Hno). pose proof Hc as (Hcur & Hp0 & Hpr & _). unfold SYS.sys_read, SYS.current_proc.
  rewrite Hcur, (proj2 (Z.eqb_neq p 0) Hp0), (proj2 (Z.leb_le 0 fd)), (proj2 (Z.ltb_lt fd _)) by lia. cbn [andb negb]. rewrite (SYSP.get_fd_ok k p proc fd f Hpr Hf). cbn [mbind option_bind]. rewrite Hfl.
  unfold VFS.vfs_inode_read. rewrite Hsb. cbn [mbind option_bind VFS.sb_fs VFS.ops VFS.ramfs_driver VFS.ramfs_fsops VFS.op_inode_get VFS.op_read_inode VFS.sb_data].
  unfold RF.ramfs_inode_get. rewrite (proj2 (Z.eqb_neq _ 0) Hip), Hi. cbn [mbind option_bind Z.eqb negb]. pose proof Hchr as Hchr'. unfold RF.S_ISCHR in Hchr'. apply Z.eqb_eq in Hchr'. rewrite Hchr'.
  change (RF.S_IFCHR =? RF.S_IFCHR) with true. cbv iota. rewrite Hno, Hdv. cbn [tty_ops VFS.dev_read_buf]. unfold tty_read_buf, dev_index. rewrite <- Hact, (TTYP.al_list _ _ _ _ Hal), Hirq. cbn [mbind option_bind].
  destruct (TTYP.line_read _ K dev t [] n irqs K' line rest Hk Hal ltac:(constructor) Hst Hplain Htyped Hn) as (w' & t' & -> & Hk' & Hal' & Hsv & Hst'). cbn [mbind option_bind Z.eqb negb].
  assert (El : length (line ++ [10]) = (length line + 1)%nat) by (rewrite length_app; done). eexists. split; [rewrite El; replace (Z.of_nat (length line + 1)) with (Z.of_nat (length line) + 1) by lia; reflexivity|].
  split; [constructor; [done|done|]; exists dev, t, t'; do 3 (split; [done|]); lia|]. pose proof (lookup_lt_Some _ _ _ Hf) as Hlt. rewrite Hact. constructor; [|done|done].
  eexists p, _, _, sdev, s, i. split; [by apply (USP.current_put (SYS.set_fs k _) p proc fd)|]. split; [done|]. split; [cbn; by apply list_lookup_insert_eq|].
  assert (Ea : forall n, SYS.fd_flags (SYS.advance f n) = SYS.fd_flags f /\ SYS.fd_sb (SYS.advance f n) = SYS.fd_sb f /\ SYS.fd_ino (SYS.advance f n) = SYS.fd_ino f) by (intros m; unfold SYS.advance; by destruct (0 <=? SYS.fd_pos f)).
  destruct (Ea (Z.of_nat (length line) + 1)) as (-> & -> & ->). done.
Qed.

Lemma user_read_tty (k : kernel (RF.ramfs (H := H)) ttydev) buf fd minor K irqs K' line rest : in_u32 buf -> on_tty (files k) SYS.O_WRONLY fd minor ->
  awaits (VFS.devs (SYS.fs (files k))) minor K irqs K' line rest -> Z.of_nat (length line) + 1 <= 4096 ->
  exists k', IO.sys_read (FileOps := cosec_ops buf) k fd 4096 = Some (k', Z.of_nat (length line) + 1, line ++ [10]) /\
    taken (VFS.devs (SYS.fs (files k))) (VFS.devs (SYS.fs (files k'))) K' rest /\ on_tty (files k') SYS.O_WRONLY fd minor.
Proof.
  intros Hb Hot Haw Hn. destruct (sys_read_tty (files k) fd minor K irqs K' line rest 4096 Hot Haw Hn) as (f' & E & Ht & Hot'). pose proof Hot as [(t & proc & f & dev & s & i & _ & Hfd & _) _ _].
  cbn [IO.sys_read cosec_ops]. unfold sys_read, __syscall3. rewrite (USP.syscall_listed k SYS_read h_sys_read) by (done || (unfold syscalls_list; set_solver)). cbn [callee files USP.with_regs umem].
  rewrite USP.small_fd, (u32_small 4096), E by (done || unfold in_u32; lia). cbn [mbind option_bind]. rewrite (u32_small buf) by done. eexists. rewrite s32_small by (unfold in_s32; lia). cbn [set_eax umem set_umem].
  pose proof (SC0P.load_store (umem k) buf (line ++ [10])) as El. rewrite length_app in El. cbn [length] in El. replace (Z.of_nat (length line + 1)) with (Z.of_nat (length line) + 1) in El by lia. rewrite El. split; [reflexivity|]. done.
Qed.

(** A stream for reading with nothing in its buffer. *)
Record idle (f : FILE) : Prop := {
  id_buf : exists b, file_buf f = Some b /\ length b = 4096%nat;
  id_window : file_bufpos f = file_bufend f /\ 0 <= file_bufpos f /\ file_bufsz f = 4096;
  id_rest : file_ungetc f = 0 /\ IO.has (file_flags f) IO.O_WRONLY = false }.

Lemma fgets_line buf (s : io (kernel (RF.ramfs (H := H)) ttydev)) f size minor K irqs K' line rest : in_u32 buf -> idle f -> on_tty (files (os s)) SYS.O_WRONLY (file_fd f) minor ->
  awaits (VFS.devs (SYS.fs (files (os s)))) minor K irqs K' line rest -> Z.of_nat (length line) + 1 < size < 4096 ->
  exists s' f', fgets (FileOps0 := cosec_ops buf) s size f = Some (s', f', Some (line ++ [10; 0])) /\ idle f' /\ file_fd f' = file_fd f /\
    taken (VFS.devs (SYS.fs (files (os s)))) (VFS.devs (SYS.fs (files (os s')))) K' rest /\ on_tty (files (os s')) SYS.O_WRONLY (file_fd f) minor.
Proof.
  intros Hb [(b & Hbuf & Hbl) (Hw & Hpos & Hsz) [Hun Hfl]] Hot Haw Hn. pose proof Haw as [_ _ (_ & _ & Htyped) _]. pose proof (typed_bytes irqs K [] K' line rest ltac:(constructor) Htyped) as Hline.
  unfold fgets. rewrite Hfl. rewrite (u32_small (size - 1)) by (unfold in_u32; lia). unfold fread_upto. rewrite (proj2 (Z.ltb_ge (size - 1) 1)) by lia. unfold take_ungetc. rewrite Hun. cbn [Z.eqb]. cbv beta iota zeta. rewrite Hbuf. cbn [mbind option_bind]. cbv beta iota zeta.
  rewrite <- Hw, Z.sub_diag. change (find_stop (Some 10) (drop (Z.to_nat (file_bufpos f)) b) 0) with (CS.strnchr_in (drop (Z.to_nat (file_bufpos f)) b) 0 10). replace (CS.strnchr_in (drop (Z.to_nat (file_bufpos f)) b) 0 10) with (@None Z) by (by destruct (drop _ b)).
  rewrite (proj2 (Z.ltb_ge (size - 1) 0)) by lia. change (Z.to_nat 0) with 0%nat. rewrite take_0, Z.add_0_r. destruct (Z.to_nat (size - 1)) as [|n] eqn:En; [lia|]. cbn [refill_loop]. rewrite (proj2 (Z.ltb_lt 0 (size - 1))) by lia.
  cbn [os set_errno file_fd set_window file_bufsz file_buf]. rewrite Hsz. destruct (user_read_tty (os s) buf (file_fd f) minor K irqs K' line rest Hb Hot Haw ltac:(lia)) as (k' & -> & Ht & Hot'). cbn [mbind option_bind].
  rewrite (proj2 (Z.leb_gt (Z.of_nat (length line) + 1) 0)) by lia. unfold store. assert (El : length (line ++ [10]) = (length line + 1)%nat) by (rewrite length_app; done). rewrite El, Hbl, (proj2 (Nat.leb_le (length line + 1) 4096)) by lia. cbn [mbind option_bind].
  unfold find_stop. cbn [mbind option_bind]. replace (Z.to_nat (Z.of_nat (length line) + 1)) with (length (line ++ [10])) by lia. rewrite <- app_assoc. cbn [app]. rewrite (TTYP.strnchr_newline line _ Hline). cbn [mbind option_bind].
  replace (Z.to_nat (Z.of_nat (length line) + 1)) with (length (line ++ [10])) by lia. replace (take (length (line ++ [10])) (line ++ 10 :: drop (length line + 1) b)) with (line ++ [10]) by (change (10 :: drop (length line + 1) b) with ([10] ++ drop (length line + 1) b); rewrite app_assoc; by rewrite take_app_length).
  rewrite (proj2 (Z.ltb_ge (0 + (Z.of_nat (length line) + 1)) 1)) by lia. replace (Z.to_nat (0 + (Z.of_nat (length line) + 1))) with (length (line ++ [10])) by lia. cbn [app]. rewrite take_ge by lia. rewrite <- app_assoc. cbn [app].
  eexists _, _. split; [reflexivity|]. split; [|split; [done|split; [done|exact Hot']]].
  constructor; [|cbn; lia|done]. eexists. split; [reflexivity|]. rewrite length_app. cbn [length]. rewrite length_drop. lia.
Qed.

End tty.

(** ** The claims *)

(** C11: A typed line reaches the program.  A program calls [fgets] on a stream
    with an empty buffer whose descriptor is open on the active terminal.  While
    it waits the keys come; the call stores exactly the edited line with its
    newline and a NUL, through the queue of the terminal, the device, the
    descriptor, the interrupt and the buffer of the stream; the stream and the
    terminal are empty again and the keys typed later are left for the next call.
    This holds while the queue of the terminal has not come to the end of its 512
    bytes: the start of the queue and the number of codes to come are less than
    512 together, so it does not wrap around; and for a line that fits the
    caller's buffer. *)
Theorem typed_line_in_fgets {H : Type} `{Heap H} buf (s : io (kernel (RF.ramfs (H := H)) ttydev)) f size minor K irqs K' line rest :
  in_u32 buf -> idle f -> on_tty (files (os s)) SYS.O_WRONLY (file_fd f) minor ->
  awaits (VFS.devs (SYS.fs (files (os s)))) minor K irqs K' line rest -> Z.of_nat (length line) + 1 < size < 4096 ->
  exists s' f', fgets (FileOps0 := cosec_ops buf) s size f = Some (s', f', Some (line ++ [10; 0])) /\ idle f' /\ file_fd f' = file_fd f /\
    taken (VFS.devs (SYS.fs (files (os s)))) (VFS.devs (SYS.fs (files (os s')))) K' rest /\ on_tty (files (os s')) SYS.O_WRONLY (file_fd f) minor.
Proof. apply fgets_line. Qed.

(** C10: Printed text appears.  A program calls [printf] with a format of literals
    and of the conversions %%, %d, %u, %x, %0wx and %s, on a stream whose
    descriptor is open on a terminal.  The buffer grows until the text fits, the
    text goes through [fwrite], the interrupt, the descriptor, the device of its
    number and the terminal, and the console of the terminal shows what the
    abstract terminal says of the whole text; the length of the text is
    returned.  No other console changes, and of the program's memory only the
    buffers. *)
Theorem printed_text_appears {H : Type} `{Heap H} fuel area lo hi n (s : io (kernel (RF.ramfs (H := H)) ttydev)) stdout format ps minor vcs g :
  (4 <= fuel)%nat -> (length ps < fuel)%nat -> Z.of_nat (length (FMTP.text ps)) + 1 < 64 * 2 ^ Z.of_nat n -> (n <= 24)%nat ->
  (forall i, (i <= n)%nat -> lo <= area (64 * 2 ^ Z.of_nat i) /\ area (64 * 2 ^ Z.of_nat i) + 64 * 2 ^ Z.of_nat i <= hi + 1) -> 0 < lo -> hi < 4294967295 ->
  format + Z.of_nat (length (FMTP.render ps)) < lo \/ hi < format -> sources_ok fuel lo hi format ps (umem (os s)) ->
  IO.has (file_flags stdout) IO.O_RDONLY = false -> on_tty (files (os s)) SYS.O_RDONLY (file_fd stdout) minor -> on_console (VFS.devs (SYS.fs (files (os s)))) minor vcs g -> Forall SCG.printable (FMTP.text ps) ->
  exists s' stdout', printf fuel area s stdout format (FMTP.args ps) = Some (s', stdout', Z.of_nat (length (FMTP.text ps))) /\
    wrote_on (VFS.devs (SYS.fs (files (os s)))) (VFS.devs (SYS.fs (files (os s')))) vcs /\
    on_console (VFS.devs (SYS.fs (files (os s')))) minor vcs (fold_left SCG.g_char (FMTP.text ps) g) /\
    forall a, a < lo \/ hi < a -> ldb (umem (os s')) a = ldb (umem (os s)) a.
Proof.
  intros Hf Hl Hfit Hn Har Hlo Hhi Hfmt Hs Hfl Hot Hoc Hp. destruct (print_loop_ok fuel area lo hi format ps n Hf Hl Hfit Har Hlo Hfmt n 0%nat (umem (os s)) eq_refl Hs) as (m & j & E & Hj & Hb & Ho).
  unfold printf, vfprintf. change 64 with (64 * 2 ^ Z.of_nat 0) at 1. rewrite (print_loop_more _ _ _ _ _ 25%nat _ _ _ E ltac:(lia)). cbn [mbind option_bind]. set (b := 64 * 2 ^ Z.of_nat j) in *. destruct (Har j Hj) as [Ha1 Ha2]. fold b in Ha1, Ha2.
  assert (Hpow : 0 < 2 ^ Z.of_nat j) by (apply Z.pow_pos_nonneg; lia). assert (Hpn : 2 ^ Z.of_nat n <= 2 ^ 24) by (apply Z.pow_le_mono_r; lia). change (2 ^ 24) with 16777216 in Hpn.
  assert (El : RB.load_bytes m (area b) (Z.of_nat (length (FMTP.text ps))) = FMTP.text ps).
  { unfold RB.load_bytes. rewrite Nat2Z.id. apply list_eq_same_length with (length (FMTP.text ps)); [done|by rewrite length_fmap, length_seq|]. intros i x y Hi Hx Hy. rewrite list_lookup_fmap, lookup_seq_lt in Hx by lia. cbn in Hx. injection Hx as <-. by rewrite (Hb i y Hy). }
  rewrite El. unfold fwrite. rewrite Hfl. cbn [os set_errno].
  destruct (user_write_tty (set_umem (os s) m) (area b) (file_fd stdout) minor vcs g (FMTP.text ps)) as (k' & -> & H1 & H2 & H3); [unfold in_u32, b in *; lia|done|done|done|lia|].
  cbn [mbind option_bind]. rewrite (proj2 (Z.leb_le 0 (Z.of_nat _))) by lia. cbn [mbind option_bind]. eexists _, _. split; [reflexivity|]. split; [done|]. split; [done|]. cbn [os]. intros a Ha. rewrite H3, RBP.ldb_store_bytes. cbn [umem set_umem]. rewrite <- (Ho a Ha).
  destruct ((area b <=? a) && (a <? area b + Z.of_nat (length (FMTP.text ps)))) eqn:Er; [|done]. b2p. destruct (lookup_lt_is_Some_2 (FMTP.text ps) (Z.to_nat (a - area b)) ltac:(lia)) as [x Hx]. rewrite Hx. cbn. rewrite <- (Hb _ _ Hx). f_equal. lia.
Qed.

(** ** Witness *)

(** Inode 3 is the node of terminal 2, descriptor 1 is open on it, and the format
    "x=%d%%" is at 16. *)
Definition tty_fs : RF.ramfs (H := FF.alloc_t) := Eval vm_compute in
  match RF.ramfs_make_node RFP.demo_fs2 8630 (RF.gnu_dev_makedev CHR_TTY 2) with Some (s, _, _) => s | None => RFP.demo_fs2 end.
Definition tty_vfs : VFS.vfs (RF.ramfs (H := FF.alloc_t)) ttydev :=
  VFS.mk_vfs [VFS.ramfs_driver] (Some (VFS.Mount 7 [] [])) {[ 7 := VFS.mk_sb 257 VFS.ramfs_driver tty_fs ]} (TTYP.demo_world, [])
    (default DV.empty_tables (DV.devclass_register DV.empty_tables tty_family)).
Definition tty_proc : SYS.process := SYS.mk_proc 3 420 (SYS.mk_fd 0 0 0 0 :: SYS.mk_fd 7 3 1 (-1) :: replicate 18 (SYS.mk_fd 0 0 0 0)).
Definition tty_kern : kernel (RF.ramfs (H := FF.alloc_t)) ttydev :=
  mk_kernel (SYS.mk_k tty_vfs {[ 900 := tty_proc ]} [0; 0; 0; 900; 0; 0; 0; 0; 0; 0] 900) FMTP.demo_fmt SC0P.demo_mm (PG.mk_proc_mem 0 0 0) TK.demo_s0 (mk_ctx 0 0 0 0).

Lemma demo_console : on_console (TTYP.demo_world, []) 2 2 SCG.demo_grid.
Proof.
  constructor; [|lia| |]; cbn [fst].
  - exists 2%nat, (TTY.mk_tty 2 1 (TTY.mk_q 0 0 (replicate 512 0)) TTY.stty_sane (80, 25) 2 0). split; [reflexivity|]. split; reflexivity.
  - change (TTY.scr (TTY.tt TTYP.demo_world)) with TTYP.demo_scr. constructor; [reflexivity|cbn; lia|apply Forall_replicate; split; cbn; lia|intros o _; reflexivity].
  - change (TTY.scr (TTY.tt TTYP.demo_world)) with TTYP.demo_scr. constructor; [reflexivity|]. intros r c _ _. reflexivity.
Qed.

Lemma printed_text_appears_witness :
  exists s' stdout', printf 20 (fun _ => 1000) (mk_io tty_kern 0) (f_stdout []) 16 [FMT.VaWord (-42)] = Some (s', stdout', 6) /\
    wrote_on (TTYP.demo_world, []) (VFS.devs (SYS.fs (files (os s')))) 2 /\
    on_console (VFS.devs (SYS.fs (files (os s')))) 2 2 (fold_left SCG.g_char [120; 61; 45; 52; 50; 37] SCG.demo_grid) /\
    forall a, a < 1000 \/ 2000 < a -> ldb (umem (os s')) a = ldb FMTP.demo_fmt a.
Proof.
  apply (printed_text_appears 20 (fun _ => 1000) 1000 2000 0 (mk_io tty_kern 0) (f_stdout []) 16 FMTP.demo_pieces 2 2 SCG.demo_grid).
  - lia.
  - cbn. lia.
  - vm_compute. reflexivity.
  - lia.
  - intros i Hi. assert (i = 0%nat) as -> by lia. cbn. lia.
  - lia.
  - lia.
  - left. vm_compute. reflexivity.
  - split; [|exact FMTP.demo_fmt_cstr]. repeat constructor; simpl; unfold in_s32; lia.
  - reflexivity.
  - constructor; [|reflexivity|unfold SC.N_VCSA_DEVICES; lia]. exists 900, tty_proc, (SYS.mk_fd 7 3 1 (-1)), 257, tty_fs, (default VFSP.demo_file (RF.idatas tty_fs !! RF.ramfs_idata_by_inode tty_fs 3)).
    split; [split_and!; done|]. split; [unfold SYS.N_PROCESS_FDS; cbn; lia|]. split; [reflexivity|]. split; [reflexivity|]. split; [split; reflexivity|]. split; [by vm_compute|]. split; [vm_compute; reflexivity|]. split; vm_compute; reflexivity.
  - exact demo_console.
  - change (Forall SCG.printable [120; 61; 45; 52; 50; 37]). repeat (apply Forall_cons_2; [unfold SCG.printable; lia|]). constructor.
Defined.

(** Inode 3 is the node of terminal 0, descriptor 0 is open on it; shift-h, i, j,
    backspace and enter are typed, and another key. *)
Definition key_codes : list Z := [42; 35; 170; 23; 36; 164; 14; 28; 30].
Definition key_fs : RF.ramfs (H := FF.alloc_t) := Eval vm_compute in
  match RF.ramfs_make_node RFP.demo_fs2 8630 (RF.gnu_dev_makedev CHR_TTY 0) with Some (s, _, _) => s | None => RFP.demo_fs2 end.
Definition key_vfs : VFS.vfs (RF.ramfs (H := FF.alloc_t)) ttydev :=
  VFS.mk_vfs [VFS.ramfs_driver] (Some (VFS.Mount 7 [] [])) {[ 7 := VFS.mk_sb 257 VFS.ramfs_driver key_fs ]} (TTYP.demo_world, key_codes)
    (default DV.empty_tables (DV.devclass_register DV.empty_tables tty_family)).
Definition key_proc : SYS.process := SYS.mk_proc 3 420 (SYS.mk_fd 7 3 1 (-1) :: replicate 19 (SYS.mk_fd 0 0 0 0)).
Definition key_kern : kernel (RF.ramfs (H := FF.alloc_t)) ttydev :=
  mk_kernel (SYS.mk_k key_vfs {[ 900 := key_proc ]} [0; 0; 0; 900; 0; 0; 0; 0; 0; 0] 900) ∅ SC0P.demo_mm (PG.mk_proc_mem 0 0 0) TK.demo_s0 (mk_ctx 0 0 0 0).

Lemma demo_awaits : awaits (TTYP.demo_world, key_codes) 0 ∅ key_codes {[35; 23; 14; 28]} [72; 105] [30].
Proof.
  constructor; cbn [fst snd]; [reflexivity|reflexivity| |].
  - split; [constructor; [reflexivity|by left|exact TTYP.demo_keys]|]. split; [repeat (apply Forall_cons_2; [unfold TTYP.plain_code; lia|]); constructor|]. vm_compute. reflexivity.
  - exists 0%nat, TTYP.demo_tty. split; [exact TTYP.demo_at_line|]. cbn. lia.
Qed.

Lemma key_tty : on_tty (files key_kern) SYS.O_WRONLY 0 0.
Proof.
  constructor; [|reflexivity|unfold SC.N_VCSA_DEVICES; lia]. exists 900, key_proc, (SYS.mk_fd 7 3 1 (-1)), 257, key_fs, (default VFSP.demo_file (RF.idatas key_fs !! RF.ramfs_idata_by_inode key_fs 3)).
  split; [split_and!; done|]. split; [unfold SYS.N_PROCESS_FDS; lia|]. split; [reflexivity|]. split; [reflexivity|]. split; [split; reflexivity|]. split; [by vm_compute|]. split; [vm_compute; reflexivity|]. split; vm_compute; reflexivity.
Qed.

Lemma typed_line_in_fgets_witness :
  exists s' f', fgets (FileOps0 := cosec_ops 5000) (mk_io key_kern 0) 512 (f_stdin (replicate 4096 0)) = Some (s', f', Some [72; 105; 10; 0]) /\ idle f' /\ file_fd f' = 0 /\
    taken (TTYP.demo_world, key_codes) (VFS.devs (SYS.fs (files (os s')))) {[35; 23; 14; 28]} [30] /\ on_tty (files (os s')) SYS.O_WRONLY 0 0.
Proof.
  apply (typed_line_in_fgets 5000 (mk_io key_kern 0) (f_stdin (replicate 4096 0)) 512 0 ∅ key_codes {[35; 23; 14; 28]} [72; 105] [30]).
  - unfold in_u32. lia.
  - constructor; [|split; [reflexivity|split; [cbn; lia|reflexivity]]|done]. exists (replicate 4096 0). split; [reflexivity|apply length_replicate].
  - exact key_tty.
  - exact demo_awaits.
  - cbn. lia.
Defined.

End PRP.
